(* ===== verification/_CoqProject ===== *)
-Q . S2P
Prelude.v
Buffer.v
Defines.v
Bits.v
Pdu.v
PduSpec.v
PduClient.v
PduReplies.v
Bank.v
PduTheorems.v
Ptr.v
Rtu.v
Crc.v
RtuFrames.v
RtuTheorems.v
Tcp.v
TcpFrames.v
TcpTheorems.v
Sys.v
TcpServer.v
TcpServerSpec.v
TcpServerTheorems.v
TcpClient.v
TcpClientSpec.v
TcpClientCalls.v
TcpClientAnswers.v
TcpClientEnds.v
TcpClientTheorems.v
RtuServer.v
RtuServerSpec.v
RtuServerSend.v
RtuServerRun.v
RtuServerTheorems.v
RtuClient.v
RtuClientSpec.v
RtuClientTransact.v
RtuClientCalls.v
RtuClientLocal.v
RtuClientAnswers.v
RtuClientEnds.v
RtuClientTheorems.v
Log.v
RtuClientLog.v
RtuClientLocks.v
RtuClientLocksTheorems.v
Kernel.v
RtuPort.v
RtuPortSpec.v
Keeps.v
RtuServerPort.v
RtuPortTheorems.v
RtuBus.v
RtuBusSpec.v
RtuBusSystem.v
RtuBusTheorems.v
TcpPort.v
TcpThread.v
TcpThreadSpec.v
TcpPortSpec.v
TcpClientThreadSpec.v
TcpServerPort.v
TcpServeSpec.v
TcpPortTheorems.v
Ends.v
TcpStop.v
TcpStopRun.v
TcpStopClient.v
TcpStopClientRun.v
ExampleServers.v
ExampleTheorems.v
ExampleTcpClient.v
ExampleTcpClientSpec.v
ExampleTogether.v
ExampleClientTheorems.v
ExampleTcpServer.v
ExampleRtuServer.v
ExampleRtuClient.v
ExampleRtuClientSpec.v
ExampleRtuTogether.v
ExampleRtuTheorems.v
