(* ===== verification/Prelude.v ===== *)
(** * Modbus TCP / RTU library: verification development (root file)

    The library under [src/] is a Modbus master and slave in C.  It has four
    layers: the PDU codec and dispatcher ([src/modbus_pdu.c]), the framing
    helpers of the two transports ([src/modbus_tcp.c], [src/modbus_rtu.c]), the
    protocol engines over a socket or a serial line (the servers
    [src/modbus_tcp_server.c], [src/modbus_rtu_server.c] and the clients
    [src/modbus_tcp_client.c], [src/modbus_rtu_client.c]), and what carries
    them: ports, sockets, threads and the registry of shared serial buses (in
    the same files).  A server's thread hands a readable line to the protocol
    engine, which cuts a frame out of the bytes, hands the PDU to the
    dispatcher, which calls the application's callbacks, and frames and sends
    the dispatcher's reply.  A client's call builds a request, sends it and
    waits for the response that answers it.

    ** How the C code is modelled

    - An integer is a [Z]; casts and fixed-width results are the functions
      [u8] .. [u64] ([Prelude]).
    - An array is the list of its cells and an access outside it is undefined
      behaviour, the outcome [Fail UB] ([Buffer]); automatic arrays start with
      an arbitrary content, the parameter [Indet].  A pointer the code compares
      with NULL is an [option] ([Ptr]).
    - Code that changes an object is a computation in the state monad [st];
      the application behind [void *userdata] is an arbitrary state [U] that the
      callbacks thread.
    - The operating system, as a protocol engine sees it through one
      descriptor, is a [world] of scripts, one per call the environment answers:
      the theorems quantify over all scripts ([Sys]).  A script that is used up
      is a call that has not returned ([Fail Blocked]).  EWOULDBLOCK is EAGAIN,
      as on Linux.  What the code does to the outside is the [trace]: bytes
      written, transmit-enable toggles, sleeps (the loop around nanosleep is one
      [Slept] action), a blocking select for writing ([Waited]), discarded
      queues ([Flushed]), the socket closed ([Closed]).
    - As the port and thread code sees it, it is a [kernel]: open descriptors,
      live mutexes, threads and heap blocks, a script of answers, and the visible
      calls.  Using or giving back what is not live is [UB] ([Kernel], with a
      logic [wp] of computations).
    - A TCP thread is a list of rounds; what it meets in a round (the flag it
      reads, the outcome of select) is an argument, so that a theorem about all
      lists is about all moments at which the flag is cleared.  The RTU thread
      reads its context; a stop comes after any number of rounds, between two or
      inside one, and what the thread still does is done while the stop waits
      for it.  A system of contexts that share buses is a list of operations in
      any order.
    - Loops that are not bounded by a counter take fuel ([Fail NoFuel] when it
      runs out).  The fuel is computed from the scripts: each iteration of a
      send or receive loop consumes an answer (or ends the loop), so the length
      of the script plus one or two is enough, and the resynchronisation loop
      drops a byte each time, so the number of received bytes plus one is
      enough.  The safety theorems show that [NoFuel] is not an outcome.
    - Log calls are left out, but for those of the RTU client's transaction
      ([RtuClientLog]).  A mutex region is one step, but in [RtuClientLocks].

    ** The files

    - [Prelude], [Buffer], [Ptr], [Sys], [Kernel], [Keeps]: the shared model of
      C and of the operating system, with the lemmas and tactics everything else
      uses ([Keeps]: what a computation leaves unchanged).
    - [Defines]: [include/modbus_defines.h].  [Bits]: the reference codec of
      packed bits.
    - [Pdu]: [src/modbus_pdu.c], one definition per function.  [PduSpec]:
      requests and responses as data, their encoding, the abstract server
      [respond], and the refinement lemma of the dispatcher.  [PduClient],
      [PduReplies]: the client half, the replies it accepts, and the two halves
      together.  [Bank]: the application of the end-to-end test, used by the
      witnesses.  [PduTheorems]: the properties.
    - [Rtu]: the stateless helpers of [src/modbus_rtu.c].  [Crc]: algebra of
      the check sequence.  [RtuFrames]: one equation per helper.
      [RtuTheorems]: exactness, round trips, error detection, timing.
    - [Tcp], [TcpFrames], [TcpTheorems]: the same for [src/modbus_tcp.c] and
      its transaction ids.
    - [TcpServer]: [server_on_process] of [src/modbus_tcp_server.c] with
      [recv_exact] and [mb_tcp_send_all].  [TcpServerSpec]: the stream
      specification ([next_frame], [tcp_reply], [process_result]) and its
      refinement lemma.  [TcpServerTheorems]: refinement, independence of
      segmentation, safety, pipelining.
    - [TcpClient]: [src/modbus_tcp_client.c] after the connection is made.
      [TcpClientSpec]: receiving and skipping responses.  [TcpClientCalls]: the
      public calls as one [call] of an abstract request and its [transaction].
      [TcpClientAnswers]: the same against a server that answers.
      [TcpClientEnds]: how long a call can last.  [TcpClientTheorems]: the
      properties.
    - [RtuServer]: [src/modbus_rtu_server.c] on an open line.
      [RtuServerSpec]: the received bytes, resynchronisation ([resync]) and
      polling ([arrived]).  [RtuServerSend]: silence, transmission, echo.
      [RtuServerRun]: one call of the server.  [RtuServerTheorems]: the
      properties.
    - [RtuClient]: one transaction of [src/modbus_rtu_client.c] on a bus.
      [RtuClientSpec], [RtuClientTransact], [RtuClientCalls]: its parts, the
      transaction, the public calls.  [RtuClientAnswers]: against a server that
      answers.  [RtuClientEnds]: how long a call can last.  [RtuClientLocal]: a
      call depends on what it has read of the line.
      [RtuClientTheorems]: the properties.
    - [RtuPort]: opening a serial port, start, stop and thread of
      [src/modbus_rtu.c].  [RtuServerPort]: start and stop of the RTU server, and
      its whole life.  [RtuPortSpec], [RtuPortTheorems]: what they do.
    - [RtuBus]: the registry of shared buses of [src/modbus_rtu_client.c], a
      linked list in a store, with connect and disconnect.  [RtuBusSpec]: the
      list as a finite map.  [RtuBusSystem]: contexts that connect, call and
      disconnect in any order.  [RtuBusTheorems]: the properties.
    - [RtuClientLocks]: the threads of the RTU client with every lock and unlock
      of a context, a bus and the registry as a step of its own.
      [RtuClientLocksTheorems]: their invariant, and what follows.
    - [TcpPort]: sockets, start and stop of [src/modbus_tcp.c], and connect and
      disconnect of the TCP client.  [TcpThread]: its two threads.
      [TcpThreadSpec]: the slots of a server.  [TcpPortSpec]: connecting, start
      and stop.  [TcpClientThreadSpec]: a transport that connects.
      [TcpServerPort]: start and stop of the TCP server, and its whole life.
      [TcpServeSpec]: the requests of all connections as one sequential run.
      [TcpPortTheorems]: the properties.
    - [TcpStop], [TcpStopClient]: the stop of a server and of a transport that
      connects once more, as relations in which every access to the fields that
      [mb_tcp_stop] shares with the thread is a step of its own.  [Ends]: what
      holds of a run if it ends.  [TcpStopRun], [TcpStopClientRun]: the runs of
      [TcpPort] and [TcpThread] are such interleavings.
    - [Log]: log messages, the text of a frame, the sinks of the examples.
      [RtuClientLog]: the transaction of the RTU client with the lines it logs.
    - [ExampleServers]: the applications of [examples/tcp_server_example.c] and
      [examples/rtu_server_example.c], as devices.  [ExampleTheorems]: their
      register map and their count of connected masters.  [ExampleTcpServer],
      [ExampleRtuServer]: the two programs.
    - [ExampleTcpClient]: the program [examples/tcp_client_example.c].
      [ExampleTcpClientSpec]: it against any network.  [ExampleTogether]: it
      against the example server.  [ExampleClientTheorems]: the properties.
    - [ExampleRtuClient], [ExampleRtuClientSpec]: the program
      [examples/rtu_client_example.c], against any line.  [ExampleRtuTogether]:
      it against the example server.  [ExampleRtuTheorems]: the properties.

    ** What the theorems show

    - PDU layer: the dispatcher computes the abstract server's reply and
      state change for every byte string and every application
      ([handle_request_refines]), inside its buffers ([handle_request_bounded]);
      a rejected request does not reach the application
      ([rejected_request_no_effect]); the client's check accepts exactly the
      answers to its request ([check_response_exact]); and client, server and
      client again compose to the device operation ([end_to_end] and its
      register and bit forms).
    - Framing: builders, parsers and CRC validation are exact on every
      argument, errors included; what is built parses back; the CRC detects
      every error of up to three bits and every burst within sixteen bits;
      transaction ids repeat only after 65535 requests; the inter-frame silence
      is the least that covers 3.5 characters.
    - Servers: one call refines the specification for every behaviour of the
      peer and the driver; nothing is undefined, loops end, replies fit; a TCP
      pipeline is answered in order; an RTU server resynchronises on the first
      valid request, keeps partial ones, never wedges, keeps silent on
      broadcasts and frames each response between silence and transmitter
      control.
    - Clients: every public call is one transaction ([tcp_client_refines],
      [rtu_client_refines]); a TCP connection is at a frame boundary or closed
      ([tcp_client_frame_sync]); a bus keeps its silences ([rtu_bus_silence]);
      bad arguments do nothing ([tcp_client_rejects]); client and server
      together return the device's values and run the operation once
      ([tcp_end_to_end], [rtu_end_to_end]).  Calls end: a script is only found
      empty when the environment has not given what the time limits of the code
      make it give ([tcp_client_terminates], [rtu_client_terminates]).
    - Ports, threads, buses: a port opens if, and only if, its settings are
      supported and the system allows it, and the driver then has the line they
      ask for ([rtu_open_exact]); a whole life of a server or of a connecting
      transport uses nothing dead and leaks nothing ([rtu_server_life],
      [tcp_server_life], [tcp_client_life], [tcp_client_connection]); while a TCP
      server runs, slots, descriptors and link calls agree; a TCP server serves its connections as
      if their requests came one after the other ([tcp_server_serializes]); any
      interleaving of the operations of contexts keeps the registry of buses
      exact ([rtu_buses_shared_well]), and a second context on a device is
      connected if, and only if, its settings agree ([rtu_connect_shares]).  Lock
      by lock, mutexes and bus records are used only
      while they live, a bus carries one transaction at a time, and no threads
      deadlock, as long as no call waits for the mutex that a disconnect gets
      ([rtu_locks_safe]; without that a destroyed mutex is locked).  A select
      that a signal interrupts is a defect ([tcp_server_interrupted]).  In every interleaving of [mb_tcp_stop] with
      the thread and the rest of the process, what is closed is the transport's,
      each descriptor once, and the stop can return; one race is left, in which a
      number that was just freed is shut down ([tcp_stop_interleaved],
      [tcp_stop_client_interleaved]).  The executable start, thread and stop are
      among these interleavings, which is what makes the relation about the code
      ([tcp_server_is_interleaving], [tcp_client_is_interleaving]).
    - Logging: it changes nothing of a transaction of the RTU client and stays
      inside its arrays, and what happened on the line determines the lines: a
      failed transaction is told in one, with the whole request and the counted
      bytes of what was received ([rtu_client_log]); the text of a frame reads
      back as its bytes ([read_dump_dump]).
    - Examples: the TCP example counts its masters right
      ([tcp_example_connections]) and serves live values ([tcp_example_poll]);
      the four programs end cleanly and say what happened, whatever the network,
      the line and the system do ([tcp_server_example_runs],
      [rtu_server_example_runs], [tcp_client_example_runs],
      [rtu_client_example_runs]); and the client and the server of either kind
      together print the server's values ([examples_together],
      [rtu_examples_together]).

    ** What is not modelled

    In the relations of [TcpStop] a select, an accept or a callback does not
    block: that a shutdown wakes the thread is behaviour of the system.
    The log calls of the TCP client, of the servers, and of connecting, which
    pass constants and numbers to the sink and decide nothing; what the
    callbacks of the example servers print; how long a
    select or a poll without answer waits; signal handlers, of
    which only the values of [g_running] are left; the test drivers but for the
    application they run. *)

From stdpp Require Export base tactics option list numbers strings.
From Stdlib Require Export ZArith Lia.

#[global] Open Scope Z_scope.

Declare Scope c_scope.
Delimit Scope c_scope with c.

(** ** Machine integers

    A C integer is a [Z]; the casts [(uint8_t)], [(uint16_t)], ... are the
    functions [u8], [u16], ..., and a value that has a type satisfies the
    matching [is_*] predicate. *)

Definition u8 (v : Z) : Z := v mod 2 ^ 8.
Definition u16 (v : Z) : Z := v mod 2 ^ 16.
Definition u32 (v : Z) : Z := v mod 2 ^ 32.
Definition u64 (v : Z) : Z := v mod 2 ^ 64.

(** [(int)v] of an unsigned value: two's complement, as GCC defines it. *)
Definition int_of (v : Z) : Z := (v + 2 ^ 31) mod 2 ^ 32 - 2 ^ 31.

Definition is_u8 (v : Z) : Prop := 0 <= v < 2 ^ 8.
Definition is_u16 (v : Z) : Prop := 0 <= v < 2 ^ 16.
Definition is_u32 (v : Z) : Prop := 0 <= v < 2 ^ 32.
Definition is_u64 (v : Z) : Prop := 0 <= v < 2 ^ 64.

#[global] Instance is_u8_dec v : Decision (is_u8 v).
Proof. unfold is_u8. apply _. Defined.
#[global] Instance is_u16_dec v : Decision (is_u16 v).
Proof. unfold is_u16. apply _. Defined.
#[global] Instance is_u32_dec v : Decision (is_u32 v).
Proof. unfold is_u32. apply _. Defined.
#[global] Instance is_u64_dec v : Decision (is_u64 v).
Proof. unfold is_u64. apply _. Defined.

Abbreviation bytes := (Forall is_u8).
Abbreviation words := (Forall is_u16).

(** The length of a list, as a [size_t] value. *)
Abbreviation zlen l := (Z.of_nat (length l)).

(** Arithmetic with [/], [mod] and the casts. *)
Ltac zint :=
  unfold u8, u16, u32, u64, is_u8, is_u16, is_u32, is_u64 in *;
  change (2 ^ 8) with 256 in *; change (2 ^ 16) with 65536 in *;
  change (2 ^ 32) with 4294967296 in *;
  change (2 ^ 64) with 18446744073709551616 in *;
  Z.div_mod_to_equations; lia.

(** The big-endian bytes of a 16-bit value, and back. *)
Definition be16 (v : Z) : list Z := [u8 (Z.shiftr v 8); u8 (Z.land v 255)].
Definition of_be16 (hi lo : Z) : Z := u16 (Z.lor (Z.shiftl hi 8) lo).

Lemma be16_length v : length (be16 v) = 2%nat.
Proof. done. Qed.

(** Arithmetic on list lengths. *)
Ltac zlength :=
  repeat first [ rewrite length_cons | rewrite length_app | rewrite length_take | rewrite length_drop
               | rewrite length_replicate | rewrite length_map | rewrite length_insert
               | rewrite length_seqZ | rewrite be16_length ];
  cbn [length] in *; lia.

(** Decide the boolean comparisons of the goal that arithmetic settles. *)
Ltac zbool :=
  repeat match goal with
  | |- context [?a <=? ?b] =>
      first [ rewrite (proj2 (Z.leb_le a b)) by zlength
            | rewrite (proj2 (Z.leb_gt a b)) by zlength ]
  | |- context [?a <? ?b] =>
      first [ rewrite (proj2 (Z.ltb_lt a b)) by zlength
            | rewrite (proj2 (Z.ltb_ge a b)) by zlength ]
  | |- context [?a =? ?b] =>
      first [ rewrite (proj2 (Z.eqb_eq a b)) by zlength
            | rewrite (proj2 (Z.eqb_neq a b)) by zlength ]
  end; cbn [andb orb negb].

(** [bytes] and [words] of a list given by its cells. *)
Ltac zforall :=
  repeat first [ apply List.Forall_nil | apply List.Forall_cons ];
  first [ assumption | apply Z.mod_pos_bound; lia | unfold is_u8, is_u16; lia ].

Lemma u8_small v : is_u8 v -> u8 v = v.
Proof. unfold is_u8, u8. intros. by apply Z.mod_small. Qed.

Lemma u16_small v : is_u16 v -> u16 v = v.
Proof. unfold is_u16, u16. intros. by apply Z.mod_small. Qed.

Lemma u32_small v : is_u32 v -> u32 v = v.
Proof. unfold is_u32, u32. intros. by apply Z.mod_small. Qed.

Lemma u64_small v : is_u64 v -> u64 v = v.
Proof. unfold is_u64, u64. intros. by apply Z.mod_small. Qed.

Lemma is_u8_u8 v : is_u8 (u8 v).
Proof. unfold is_u8, u8. apply Z.mod_pos_bound. lia. Qed.

Lemma is_u16_u16 v : is_u16 (u16 v).
Proof. unfold is_u16, u16. apply Z.mod_pos_bound. lia. Qed.

Lemma is_u8_is_u16 v : is_u8 v -> is_u16 v.
Proof. zint. Qed.

Lemma is_u32_is_u64 v : is_u32 v -> is_u64 v.
Proof. zint. Qed.

Lemma lor_shiftl k a b :
  0 <= k -> 0 <= b < 2 ^ k -> Z.lor (Z.shiftl a k) b = a * 2 ^ k + b.
Proof.
  intros Hk Hb. rewrite <- Z.shiftl_mul_pow2 by lia.
  symmetry. apply Z.add_nocarry_lor, Z.bits_inj'. intros n Hn.
  rewrite Z.land_spec, Z.bits_0, Z.shiftl_spec by lia.
  destruct (decide (n < k)).
  - by rewrite (Z.testbit_neg_r a (n - k)) by lia.
  - destruct (decide (b = 0)) as [->|]; [by rewrite Z.bits_0, andb_false_r |].
    rewrite (Z.bits_above_log2 b n), andb_false_r; [done | lia |].
    apply Z.log2_lt_pow2; [lia |].
    apply Z.lt_le_trans with (2 ^ k); [lia | apply Z.pow_le_mono_r; lia].
Qed.

Lemma lor_shiftl8 a b : 0 <= b < 256 -> Z.lor (Z.shiftl a 8) b = a * 256 + b.
Proof. intros Hb. by rewrite lor_shiftl by lia. Qed.

Lemma land_255 v : Z.land v 255 = v mod 256.
Proof. change 255 with (Z.ones 8). by rewrite Z.land_ones by lia. Qed.

Lemma shiftr_8 v : Z.shiftr v 8 = v / 256.
Proof. by rewrite Z.shiftr_div_pow2 by lia. Qed.

Lemma u8_land v : u8 v = Z.land v 255.
Proof. by rewrite land_255. Qed.

Lemma u8_lor a b : u8 (Z.lor a b) = Z.lor (u8 a) (u8 b).
Proof. by rewrite !u8_land, Z.land_lor_distr_l. Qed.

Lemma u8_bit k : 0 <= k < 8 -> u8 (Z.shiftl 1 k) = Z.shiftl 1 k.
Proof.
  intros Hk. apply u8_small. rewrite Z.shiftl_1_l. unfold is_u8. split.
  - apply Z.pow_nonneg. lia.
  - apply Z.pow_lt_mono_r; lia.
Qed.

Lemma be16_bytes v : bytes (be16 v).
Proof. repeat constructor; apply Z.mod_pos_bound; lia. Qed.

Lemma of_be16_eq hi lo : is_u8 hi -> is_u8 lo -> of_be16 hi lo = hi * 256 + lo.
Proof.
  intros Hh Hl. unfold of_be16. rewrite lor_shiftl8 by exact Hl.
  apply u16_small. zint.
Qed.

Lemma of_be16_u16 hi lo : is_u16 (of_be16 hi lo).
Proof. apply is_u16_u16. Qed.

Lemma of_be16_be16 v :
  is_u16 v -> of_be16 (u8 (Z.shiftr v 8)) (u8 (Z.land v 255)) = v.
Proof.
  intros Hv. rewrite of_be16_eq by apply is_u8_u8.
  rewrite land_255, shiftr_8. zint.
Qed.

Lemma be16_of_be16 hi lo : is_u8 hi -> is_u8 lo -> be16 (of_be16 hi lo) = [hi; lo].
Proof.
  intros Hh Hl. unfold be16. rewrite of_be16_eq by done.
  rewrite land_255, shiftr_8. f_equal; [zint | f_equal; zint].
Qed.

(** ** Lists indexed by C counters *)

Lemma lookup_map_seqZ {A} (f : Z -> A) n i :
  map f (seqZ 0 n) !! i = if bool_decide (Z.of_nat i < n) then Some (f (Z.of_nat i)) else None.
Proof.
  rewrite list_lookup_fmap. case_bool_decide.
  - by rewrite lookup_seqZ_lt by lia.
  - by rewrite lookup_seqZ_ge by lia.
Qed.

Lemma map_seqZ_take {A B} `{Inhabited A} (f : A -> B) (l : list A) n :
  n <= zlen l -> map (fun i => f (l !!! Z.to_nat i)) (seqZ 0 n) = map f (take (Z.to_nat n) l).
Proof.
  intros Hn. apply list_eq. intros i. rewrite lookup_map_seqZ, list_lookup_fmap.
  case_bool_decide as Hi.
  - rewrite lookup_take_lt, Nat2Z.id by lia.
    by rewrite (list_lookup_lookup_total_lt l i) by lia.
  - by rewrite lookup_take_ge by lia.
Qed.

Lemma concat_map_singleton {A B} (f : A -> B) (l : list A) :
  concat (map (fun x => [f x]) l) = map f l.
Proof. induction l as [|x l IH]; simpl; by rewrite ?IH. Qed.

(** ** Outcomes and the state monad

    A run of a C fragment either ends with a value, or stops: on undefined
    behaviour (an access outside an object), because it is still waiting for
    the environment (a blocking call that has not returned), or because the
    loop fuel of the model ran out. *)

Inductive fault := UB | Blocked | NoFuel.

#[global] Instance fault_eq_dec : EqDecision fault.
Proof. solve_decision. Defined.

Inductive outcome (A : Type) : Type :=
  | Ok (a : A)
  | Fail (e : fault).
Arguments Ok {A} _.
Arguments Fail {A} _.

Definition obind {A B} (o : outcome A) (f : A -> outcome B) : outcome B :=
  match o with
  | Ok a => f a
  | Fail e => Fail e
  end.

(** [st S A]: a computation over a mutable object (a buffer, a context, the
    world) of type [S] that returns an [A]. *)
Definition st (S A : Type) : Type := S -> outcome (A * S).

Definition ret {S A} (a : A) : st S A := fun s => Ok (a, s).
Definition bind {S A B} (m : st S A) (f : A -> st S B) : st S B :=
  fun s => match m s with
           | Ok (a, s') => f a s'
           | Fail e => Fail e
           end.
Definition lift {S A} (o : outcome A) : st S A :=
  fun s => match o with
           | Ok a => Ok (a, s)
           | Fail e => Fail e
           end.
Definition get {S} : st S S := fun s => Ok (s, s).
Definition put {S} (s : S) : st S unit := fun _ => Ok (tt, s).
Definition stop {S A} (e : fault) : st S A := fun _ => Fail e.

Notation "'let!' x := m 'in' k" := (bind m (fun x => k))
  (at level 10, x name, m at level 100, k at level 200,
   format "'[v' 'let!'  x  :=  m  'in' '/' k ']'") : c_scope.
Notation "'let!' ' x := m 'in' k" := (bind m (fun x => k))
  (at level 10, x strict pattern, m at level 100, k at level 200,
   format "'[v' 'let!'  ' x  :=  m  'in' '/' k ']'") : c_scope.
Notation "m ';;;' k" := (bind m (fun _ => k))
  (at level 100, k at level 200, right associativity) : c_scope.
Notation "'let?' x := m 'in' k" := (obind m (fun x => k))
  (at level 10, x name, m at level 100, k at level 200) : c_scope.
#[global] Open Scope c_scope.

Lemma bind_ok {S A B} (m : st S A) (f : A -> st S B) s a s' :
  m s = Ok (a, s') -> bind m f s = f a s'.
Proof. unfold bind. by intros ->. Qed.

Lemma bind_fail {S A B} (m : st S A) (f : A -> st S B) s e :
  m s = Fail e -> bind m f s = Fail e.
Proof. unfold bind. by intros ->. Qed.

Lemma bind_inv {S A B} (m : st S A) (f : A -> st S B) s b s'' :
  bind m f s = Ok (b, s'') -> exists a s', m s = Ok (a, s') /\ f a s' = Ok (b, s'').
Proof. unfold bind. destruct (m s) as [[a s']|]; naive_solver. Qed.

Lemma obind_ok {A B} (o : outcome A) (f : A -> outcome B) a :
  o = Ok a -> obind o f = f a.
Proof. by intros ->. Qed.

Lemma lift_ok {S A} (o : outcome A) (a : A) (s : S) :
  o = Ok a -> lift o s = Ok (a, s).
Proof. by intros ->. Qed.

(** A computation that starts from [s] has no undefined behaviour. *)
Definition no_ub {A} (o : outcome A) : Prop := o <> Fail UB.

Lemma no_ub_ok {A} (a : A) : no_ub (Ok a).
Proof. done. Qed.

Lemma no_ub_bind {S A B} (m : st S A) (f : A -> st S B) s :
  no_ub (m s) ->
  (forall a s', m s = Ok (a, s') -> no_ub (f a s')) ->
  no_ub (bind m f s).
Proof. unfold bind, no_ub. destruct (m s) as [[a s']|e]; naive_solver. Qed.

Create HintDb modbus.
#[export] Hint Resolve is_u8_u8 is_u16_u16 be16_bytes of_be16_u16 no_ub_ok : modbus.
