(* ===== verification/Buffer.v ===== *)
(** * C objects: byte and word arrays

    An array is the list of its cells; a pointer into an array is the list of
    the cells from the address it holds to the end of its object, so [p + k]
    is [padd p k] and code that writes through [p + k] runs under [at_off k].
    An access outside the list is undefined behaviour ([Fail UB]), which makes
    "this code never leaves its buffers" a statement about the model.  The
    initial content of an automatic array is an arbitrary value ([Indet]). *)

From S2P Require Import Prelude.

Definition load (p : list Z) (i : Z) : outcome Z :=
  if 0 <=? i then
    match p !! Z.to_nat i with
    | Some v => Ok v
    | None => Fail UB
    end
  else Fail UB.

Definition store (i v : Z) : st (list Z) unit := fun p =>
  if (0 <=? i) && (i <? zlen p) then Ok (tt, <[Z.to_nat i := v]> p) else Fail UB.

Definition padd (p : list Z) (k : Z) : list Z := drop (Z.to_nat k) p.

(** Run [m] on the object seen from [p + k]. *)
Definition at_off {A} (k : Z) (m : st (list Z) A) : st (list Z) A := fun p =>
  if (0 <=? k) && (k <=? zlen p) then
    match m (drop (Z.to_nat k) p) with
    | Ok (a, q) => Ok (a, take (Z.to_nat k) p ++ q)
    | Fail e => Fail e
    end
  else Fail UB.

(** [for (i = from; k iterations; i++) body]. *)
Fixpoint for_from {S} (k : nat) (i : Z) (body : Z -> st S unit) : st S unit :=
  match k with
  | O => ret tt
  | S k' => body i ;;; for_from k' (i + 1) body
  end.

(** [for (i = 0; i < n; i++) body]. *)
Definition for_upto {S} (n : Z) (body : Z -> st S unit) : st S unit :=
  for_from (Z.to_nat n) 0 body.

(** [memcpy(p, src, n)], [memset(p, v, n)], [memcmp(p, q, n) == 0]. *)
Definition memcpy (src : list Z) (n : Z) : st (list Z) unit := fun p =>
  if (0 <=? n) && (n <=? zlen src) && (n <=? zlen p)
  then Ok (tt, take (Z.to_nat n) src ++ drop (Z.to_nat n) p) else Fail UB.

Definition memset (v n : Z) : st (list Z) unit := fun p =>
  if (0 <=? n) && (n <=? zlen p)
  then Ok (tt, replicate (Z.to_nat n) v ++ drop (Z.to_nat n) p) else Fail UB.

Definition memcmp_eq (p q : list Z) (n : Z) : outcome bool :=
  if (0 <=? n) && (n <=? zlen p) && (n <=? zlen q)
  then Ok (bool_decide (take (Z.to_nat n) p = take (Z.to_nat n) q)) else Fail UB.

(** The arbitrary initial content of automatic arrays. *)
Class Indet := indet : nat -> Z.

Definition auto_u8 `{Indet} (n : Z) : list Z :=
  map (fun i => u8 (indet i)) (seq 0 (Z.to_nat n)).
Definition auto_u16 `{Indet} (n : Z) : list Z :=
  map (fun i => u16 (indet i)) (seq 0 (Z.to_nat n)).

(** ** Lemmas *)

Lemma load_ok p i v : 0 <= i -> p !! Z.to_nat i = Some v -> load p i = Ok v.
Proof. unfold load. intros Hi Hv. by rewrite (proj2 (Z.leb_le 0 i) Hi), Hv. Qed.

Lemma load_lookup_total p i : 0 <= i < zlen p -> load p i = Ok (p !!! Z.to_nat i).
Proof. intros Hi. apply load_ok; [lia |]. apply list_lookup_lookup_total_lt. lia. Qed.

Lemma load_padd p k i : 0 <= k -> 0 <= i -> load (padd p k) i = load p (k + i).
Proof.
  intros Hk Hi. unfold load, padd. rewrite lookup_drop, Z2Nat.inj_add by done.
  by rewrite !(proj2 (Z.leb_le _ _)) by lia.
Qed.

Lemma load_app_r p q i : 0 <= i -> load (p ++ q) (zlen p + i) = load q i.
Proof.
  intros Hi. unfold load. rewrite !(proj2 (Z.leb_le _ _)) by lia.
  rewrite lookup_app_r by lia. by replace (Z.to_nat (zlen p + i) - length p)%nat with (Z.to_nat i) by lia.
Qed.

Lemma store_ok i v p : 0 <= i < zlen p -> store i v p = Ok (tt, <[Z.to_nat i := v]> p).
Proof. intros Hi. unfold store. by rewrite (proj2 (Z.leb_le _ _)), (proj2 (Z.ltb_lt _ _)) by lia. Qed.

Lemma at_off_ok {A} k (m : st (list Z) A) p a q :
  0 <= k <= zlen p -> m (drop (Z.to_nat k) p) = Ok (a, q) ->
  at_off k m p = Ok (a, take (Z.to_nat k) p ++ q).
Proof. intros Hk Hm. unfold at_off. by rewrite !(proj2 (Z.leb_le _ _)), Hm by lia. Qed.

Lemma memcpy_ok src n p :
  0 <= n <= zlen src -> n <= zlen p ->
  memcpy src n p = Ok (tt, take (Z.to_nat n) src ++ drop (Z.to_nat n) p).
Proof. intros Hn Hp. unfold memcpy. by rewrite !(proj2 (Z.leb_le _ _)) by lia. Qed.

Lemma memset_ok v n p :
  0 <= n <= zlen p -> memset v n p = Ok (tt, replicate (Z.to_nat n) v ++ drop (Z.to_nat n) p).
Proof. intros Hn. unfold memset. by rewrite !(proj2 (Z.leb_le _ _)) by lia. Qed.

Lemma memcmp_eq_ok p q n :
  0 <= n <= zlen p -> n <= zlen q ->
  memcmp_eq p q n = Ok (bool_decide (take (Z.to_nat n) p = take (Z.to_nat n) q)).
Proof. intros Hn Hq. unfold memcmp_eq. by rewrite !(proj2 (Z.leb_le _ _)) by lia. Qed.

Lemma auto_u8_length `{Indet} n : length (auto_u8 n) = Z.to_nat n.
Proof. unfold auto_u8. by rewrite length_map, length_seq. Qed.

Lemma auto_u16_length `{Indet} n : length (auto_u16 n) = Z.to_nat n.
Proof. unfold auto_u16. by rewrite length_map, length_seq. Qed.

Lemma auto_u8_bytes `{Indet} n : bytes (auto_u8 n).
Proof. apply Forall_map, Forall_forall. intros. apply is_u8_u8. Qed.

Lemma auto_u16_words `{Indet} n : words (auto_u16 n).
Proof. apply Forall_map, Forall_forall. intros. apply is_u16_u16. Qed.

(** Loop rule: an invariant indexed by the loop counter. *)
Lemma for_from_inv {S} (I : Z -> S -> Prop) k i body (s : S) :
  I i s ->
  (forall j s', i <= j < i + Z.of_nat k -> I j s' ->
     exists s'', body j s' = Ok (tt, s'') /\ I (j + 1) s'') ->
  exists s', for_from k i body s = Ok (tt, s') /\ I (i + Z.of_nat k) s'.
Proof.
  revert i s. induction k as [|k IH]; intros i s Hi Hbody; simpl.
  - exists s. split; [done |]. by replace (i + Z.of_nat 0) with i by lia.
  - destruct (Hbody i s) as (s1 & Hrun & H1); [lia | done |].
    destruct (IH (i + 1) s1) as (s2 & Hrun2 & H2); [done | |].
    + intros j s' Hj. apply Hbody. lia.
    + exists s2. rewrite (bind_ok _ _ _ _ _ Hrun). split; [done |].
      by replace (i + Z.of_nat (Datatypes.S k)) with (i + 1 + Z.of_nat k) by lia.
Qed.

Lemma for_upto_inv {S} (I : Z -> S -> Prop) n body (s : S) :
  0 <= n -> I 0 s ->
  (forall j s', 0 <= j < n -> I j s' ->
     exists s'', body j s' = Ok (tt, s'') /\ I (j + 1) s'') ->
  exists s', for_upto n body s = Ok (tt, s') /\ I n s'.
Proof.
  intros Hn H0 Hbody. unfold for_upto.
  destruct (for_from_inv I (Z.to_nat n) 0 body s) as (s' & Hrun & HI); [done | |].
  - intros j s' Hj. apply Hbody. lia.
  - exists s'. split; [done |]. by replace n with (0 + Z.of_nat (Z.to_nat n)) by lia.
Qed.

(** A loop whose iteration [i] writes the [w] bytes [g i] at offset
    [base + w * i] fills a contiguous block. *)
Lemma for_upto_write (w base : Z) (g : Z -> list Z) n body p :
  0 <= n -> 0 <= w -> 0 <= base -> (forall i, zlen (g i) = w) ->
  base + w * n <= zlen p ->
  (forall i q, 0 <= i < n -> base + w * n <= zlen q ->
     body i q = at_off (base + w * i) (memcpy (g i) w) q) ->
  for_upto n body p =
    Ok (tt, take (Z.to_nat base) p ++ concat (map g (seqZ 0 n))
            ++ drop (Z.to_nat (base + w * n)) p).
Proof.
  intros Hn Hw Hb Hg Hp Hbody.
  destruct (for_upto_inv
    (fun j q => q = take (Z.to_nat base) p ++ concat (map g (seqZ 0 j))
                    ++ drop (Z.to_nat (base + w * j)) p /\
                zlen (concat (map g (seqZ 0 j))) = w * j) n body p)
    as (q & Hrun & -> & _); [lia | | | done].
  - rewrite seqZ_nil by lia. simpl. split; [|lia].
    replace (base + w * 0) with base by lia. by rewrite take_drop.
  - intros j q Hj [-> Hlen]. eexists. split.
    + rewrite Hbody; [|lia|rewrite !length_app, length_take, length_drop; nia].
      apply at_off_ok; [rewrite !length_app, length_take, length_drop; nia|].
      rewrite app_assoc, drop_app_length'
        by (rewrite !length_app, length_take; nia).
      apply memcpy_ok; [specialize (Hg j); lia | rewrite length_drop; nia].
    + rewrite (app_assoc _ _ (drop (Z.to_nat (base + w * j)) p)).
      rewrite take_app_length' by (rewrite !length_app, length_take; nia).
      rewrite seqZ_app, map_app, concat_app by lia. cbn [map concat seqZ].
      change (seqZ (0 + j) 1) with [Z.of_nat 0 + (0 + j)]. cbn [map concat].
      replace (Z.of_nat 0 + (0 + j)) with j by lia. rewrite app_nil_r.
      split.
      * rewrite <- !app_assoc. do 2 f_equal.
        rewrite take_ge by (specialize (Hg j); lia). f_equal.
        rewrite drop_drop. f_equal. nia.
      * rewrite length_app, Nat2Z.inj_add, Hlen, (Hg j). lia.
Qed.
