(* ===== verification/Defines.v ===== *)
(** * Protocol constants

    The function codes, limits and exception codes of
    [include/modbus_defines.h], as the integers the code compares with. *)

From S2P Require Import Prelude.

Definition MODBUS_FUNC_READ_COILS : Z := 0x01.
Definition MODBUS_FUNC_READ_DISCRETE_INPUTS : Z := 0x02.
Definition MODBUS_FUNC_READ_HOLDING_REGISTERS : Z := 0x03.
Definition MODBUS_FUNC_READ_INPUT_REGISTERS : Z := 0x04.
Definition MODBUS_FUNC_WRITE_SINGLE_COIL : Z := 0x05.
Definition MODBUS_FUNC_WRITE_SINGLE_REGISTER : Z := 0x06.
Definition MODBUS_FUNC_WRITE_MULTIPLE_COILS : Z := 0x0F.
Definition MODBUS_FUNC_WRITE_MULTIPLE_REGISTERS : Z := 0x10.

Definition MODBUS_MAX_PDU_LENGTH : Z := 253.

Definition MODBUS_TCP_MBAP_HEADER_LEN : Z := 6.
Definition MODBUS_TCP_MBAP_PREFIX_LEN : Z := MODBUS_TCP_MBAP_HEADER_LEN.
Definition MODBUS_TCP_MBAP_LEN_STANDARD_REQ : Z := 6.
Definition MODBUS_TCP_MIN_READ_REQ_LENGTH : Z := 12.
Definition MODBUS_TCP_MAX_ADU_LENGTH : Z := 260.

Definition MODBUS_RTU_BROADCAST_ADDRESS : Z := 0x00.
Definition MODBUS_RTU_CRC_LEN : Z := 2.
Definition MODBUS_RTU_MIN_REQ_LENGTH : Z := 8.
Definition MODBUS_RTU_MAX_ADU_LENGTH : Z := 256.
Definition MODBUS_RTU_DEFAULT_TIMEOUT_MS : Z := 1000.

Definition MODBUS_MAX_READ_REGISTERS : Z := 125.
Definition MODBUS_MAX_WRITE_REGISTERS : Z := 123.
Definition MODBUS_MAX_READ_BITS : Z := 2000.
Definition MODBUS_MAX_WRITE_BITS : Z := 1968.

Definition MODBUS_COIL_ON : Z := 0xFF00.
Definition MODBUS_COIL_OFF : Z := 0x0000.

Definition MODBUS_EXCEPTION_FLAG : Z := 0x80.

Definition MODBUS_EX_ILLEGAL_FUNCTION : Z := 0x01.
Definition MODBUS_EX_ILLEGAL_DATA_ADDRESS : Z := 0x02.
Definition MODBUS_EX_ILLEGAL_DATA_VALUE : Z := 0x03.
Definition MODBUS_EX_SERVER_DEVICE_FAILURE : Z := 0x04.
Definition MODBUS_EX_ACKNOWLEDGE : Z := 0x05.
Definition MODBUS_EX_SERVER_DEVICE_BUSY : Z := 0x06.
Definition MODBUS_EX_MEMORY_PARITY_ERROR : Z := 0x08.
Definition MODBUS_EX_GATEWAY_PATH_UNAVAILABLE : Z := 0x0A.
Definition MODBUS_EX_GATEWAY_TARGET_FAILED : Z := 0x0B.

(** [unfold_defs] replaces the constants by their values. *)
Ltac unfold_defs :=
  unfold MODBUS_FUNC_READ_COILS, MODBUS_FUNC_READ_DISCRETE_INPUTS,
    MODBUS_FUNC_READ_HOLDING_REGISTERS, MODBUS_FUNC_READ_INPUT_REGISTERS,
    MODBUS_FUNC_WRITE_SINGLE_COIL, MODBUS_FUNC_WRITE_SINGLE_REGISTER,
    MODBUS_FUNC_WRITE_MULTIPLE_COILS, MODBUS_FUNC_WRITE_MULTIPLE_REGISTERS,
    MODBUS_MAX_PDU_LENGTH, MODBUS_TCP_MBAP_PREFIX_LEN, MODBUS_TCP_MBAP_HEADER_LEN,
    MODBUS_TCP_MBAP_LEN_STANDARD_REQ, MODBUS_TCP_MIN_READ_REQ_LENGTH,
    MODBUS_TCP_MAX_ADU_LENGTH, MODBUS_RTU_BROADCAST_ADDRESS, MODBUS_RTU_CRC_LEN,
    MODBUS_RTU_MIN_REQ_LENGTH, MODBUS_RTU_MAX_ADU_LENGTH,
    MODBUS_RTU_DEFAULT_TIMEOUT_MS, MODBUS_MAX_READ_REGISTERS,
    MODBUS_MAX_WRITE_REGISTERS, MODBUS_MAX_READ_BITS, MODBUS_MAX_WRITE_BITS,
    MODBUS_COIL_ON, MODBUS_COIL_OFF, MODBUS_EXCEPTION_FLAG,
    MODBUS_EX_ILLEGAL_FUNCTION, MODBUS_EX_ILLEGAL_DATA_ADDRESS,
    MODBUS_EX_ILLEGAL_DATA_VALUE, MODBUS_EX_SERVER_DEVICE_FAILURE,
    MODBUS_EX_ACKNOWLEDGE, MODBUS_EX_SERVER_DEVICE_BUSY,
    MODBUS_EX_MEMORY_PARITY_ERROR, MODBUS_EX_GATEWAY_PATH_UNAVAILABLE,
    MODBUS_EX_GATEWAY_TARGET_FAILED in *.

(** [eval_fc] decides comparisons between function codes. *)
Ltac eval_fc :=
  cbn [Z.eqb Pos.eqb orb andb negb
    MODBUS_FUNC_READ_COILS MODBUS_FUNC_READ_DISCRETE_INPUTS
    MODBUS_FUNC_READ_HOLDING_REGISTERS MODBUS_FUNC_READ_INPUT_REGISTERS
    MODBUS_FUNC_WRITE_SINGLE_COIL MODBUS_FUNC_WRITE_SINGLE_REGISTER
    MODBUS_FUNC_WRITE_MULTIPLE_COILS MODBUS_FUNC_WRITE_MULTIPLE_REGISTERS].
