(* ===== verification/Bits.v ===== *)
(** * Packed bits: the reference codec

    Modbus packs coils least significant bit first, eight to a byte, and pads
    the last byte with zeros.  [pack] and [unpack] say so on lists of
    booleans, without counters or read-modify-write; [Pdu] proves that the
    loops of the code compute them. *)

From S2P Require Import Prelude.

Fixpoint byte_of_bits (l : list bool) : Z :=
  match l with
  | [] => 0
  | b :: l' => Z.b2z b + 2 * byte_of_bits l'
  end.

Fixpoint pack (n : nat) (l : list bool) : list Z :=
  match n with
  | O => []
  | S n' => byte_of_bits (take 8 l) :: pack n' (drop 8 l)
  end.

Definition bits_of_byte (b : Z) : list bool := map (Z.testbit b) (seqZ 0 8).

Definition unpack (n : nat) (bs : list Z) : list bool :=
  take n (concat (map bits_of_byte bs)).

(** Bytes that hold [n] bits. *)
Definition nbytes (n : Z) : Z := (n + 7) / 8.

Lemma byte_of_bits_bound l : 0 <= byte_of_bits l < 2 ^ zlen l.
Proof.
  induction l as [|b l IH]; [simpl; lia |]. cbn [byte_of_bits length].
  rewrite Nat2Z.inj_succ, Z.pow_succ_r by lia. destruct b; simpl Z.b2z; lia.
Qed.

Lemma byte_of_bits_snoc l b :
  byte_of_bits (l ++ [b]) = byte_of_bits l + Z.b2z b * 2 ^ zlen l.
Proof.
  induction l as [|c l IH]; [simpl; lia |]. cbn [app byte_of_bits length].
  rewrite IH, Nat2Z.inj_succ, Z.pow_succ_r by lia. lia.
Qed.

Lemma byte_of_bits_set l :
  Z.lor (byte_of_bits l) (Z.shiftl 1 (zlen l)) = byte_of_bits (l ++ [true]).
Proof.
  rewrite byte_of_bits_snoc, Z.lor_comm, lor_shiftl by (lia || apply byte_of_bits_bound).
  simpl Z.b2z. lia.
Qed.

Lemma pack_length n l : length (pack n l) = n.
Proof. revert l. induction n as [|n IH]; intros l; simpl; by rewrite ?IH. Qed.

Lemma pack_nil n : pack n [] = replicate n 0.
Proof. induction n as [|n IH]; simpl; [done |]. by rewrite IH. Qed.

Lemma pack_bytes n l : bytes (pack n l).
Proof.
  revert l. induction n as [|n IH]; intros l; simpl; constructor; [|apply IH].
  pose proof (byte_of_bits_bound (take 8 l)) as H. unfold is_u8. split; [lia |].
  eapply Z.lt_le_trans; [apply H |]. apply Z.pow_le_mono_r; [lia |].
  rewrite length_take. lia.
Qed.

Lemma pack_snoc_false n l : pack n (l ++ [false]) = pack n l.
Proof.
  revert l. induction n as [|n IH]; intros l; simpl; [done |].
  destruct (decide (length l < 8)%nat) as [Hl|Hl].
  - rewrite !take_ge by (rewrite ?length_app; simpl; lia).
    rewrite !drop_ge by (rewrite ?length_app; simpl; lia).
    rewrite byte_of_bits_snoc. f_equal. simpl Z.b2z. lia.
  - by rewrite take_app_le, drop_app_le, IH by lia.
Qed.

(** Setting bit [i] of the packed form of the first [i] bits. *)
Lemma pack_snoc_true n l :
  (length l < 8 * n)%nat ->
  <[(length l / 8)%nat :=
      Z.lor (pack n l !!! (length l / 8)%nat) (Z.shiftl 1 (zlen l mod 8))]> (pack n l)
  = pack n (l ++ [true]).
Proof.
  revert l. induction n as [|n IH]; intros l Hl; [lia |]. simpl pack.
  destruct (decide (length l < 8)%nat) as [H8|H8].
  - rewrite Nat.div_small, Z.mod_small by lia. simpl.
    rewrite !take_ge by (rewrite ?length_app; simpl; lia).
    rewrite !drop_ge by (rewrite ?length_app; simpl; lia).
    by rewrite byte_of_bits_set.
  - assert (Hd : (length l / 8 = S (length (drop 8 l) / 8))%nat).
    { rewrite length_drop. replace (length l) with (length l - 8 + 1 * 8)%nat at 1 by lia.
      rewrite Nat.div_add by lia. lia. }
    assert (Hm : zlen l mod 8 = zlen (drop 8 l) mod 8).
    { rewrite length_drop, Nat2Z.inj_sub by lia. Z.div_mod_to_equations. lia. }
    rewrite Hd, Hm. simpl. rewrite take_app_le, drop_app_le by lia. f_equal.
    apply IH. rewrite length_drop. lia.
Qed.

Lemma bits_of_byte_lookup b k :
  (k < 8)%nat -> bits_of_byte b !! k = Some (Z.testbit b (Z.of_nat k)).
Proof. intros Hk. unfold bits_of_byte. rewrite lookup_map_seqZ. by rewrite bool_decide_true by lia. Qed.

Lemma unpack_concat_lookup bs i :
  (i < 8 * length bs)%nat ->
  concat (map bits_of_byte bs) !! i
  = Some (Z.testbit (bs !!! (i / 8)%nat) (Z.of_nat i mod 8)).
Proof.
  revert i. induction bs as [|b bs IH]; intros i Hi; [simpl in Hi; lia |].
  cbn [map concat length] in *.
  destruct (decide (i < 8)%nat) as [H8|H8].
  - rewrite lookup_app_l, bits_of_byte_lookup by (done || simpl; lia).
    by rewrite Nat.div_small, Z.mod_small by lia.
  - rewrite lookup_app_r by (simpl; lia). rewrite IH by (simpl; lia). simpl length.
    replace (i / 8)%nat with (S ((i - 8) / 8)).
    + simpl. do 2 f_equal. rewrite Nat2Z.inj_sub by lia. Z.div_mod_to_equations. lia.
    + replace i with ((i - 8) + 1 * 8)%nat at 2 by lia. rewrite Nat.div_add; lia.
Qed.

Lemma concat_bits_length bs : length (concat (map bits_of_byte bs)) = (8 * length bs)%nat.
Proof. induction bs as [|b bs IH]; cbn [map concat]; [done |]. rewrite length_app, IH. simpl. lia. Qed.

Lemma unpack_length n bs : (n <= 8 * length bs)%nat -> length (unpack n bs) = n.
Proof. intros Hn. unfold unpack. rewrite length_take, concat_bits_length. lia. Qed.

Lemma unpack_lookup n bs i :
  (i < n)%nat -> (n <= 8 * length bs)%nat ->
  unpack n bs !! i = Some (Z.testbit (bs !!! (i / 8)%nat) (Z.of_nat i mod 8)).
Proof. intros Hi Hn. unfold unpack. rewrite lookup_take_lt by lia. apply unpack_concat_lookup. lia. Qed.

Lemma testbit_byte_of_bits l k :
  Z.testbit (byte_of_bits l) (Z.of_nat k) = default false (l !! k).
Proof.
  revert k. induction l as [|b l IH]; intros k; [by rewrite Z.bits_0 |].
  cbn [byte_of_bits]. rewrite Z.add_comm. destruct k as [|k].
  - destruct b; [apply Z.testbit_odd_0 | rewrite Z.add_0_r; apply Z.testbit_even_0].
  - rewrite Nat2Z.inj_succ. simpl.
    destruct b; [rewrite Z.testbit_odd_succ by lia | rewrite Z.add_0_r, Z.testbit_even_succ by lia]; apply IH.
Qed.

Lemma bits_of_byte_of_bits l :
  (length l <= 8)%nat -> bits_of_byte (byte_of_bits l) = l ++ replicate (8 - length l) false.
Proof.
  intros Hl. apply list_eq. intros i. destruct (decide (i < 8)%nat) as [Hi|Hi].
  - rewrite bits_of_byte_lookup, testbit_byte_of_bits by done.
    destruct (decide (i < length l)%nat) as [Hil|Hil].
    + rewrite lookup_app_l by done. destruct (lookup_lt_is_Some_2 l i Hil) as [b Hb].
      by rewrite Hb.
    + rewrite lookup_app_r by lia. rewrite (lookup_ge_None_2 l i) by lia.
      by rewrite lookup_replicate_2 by lia.
  - rewrite !lookup_ge_None_2; [done | rewrite length_app, length_replicate; lia | simpl; lia].
Qed.

(** The codec is lossless. *)
Lemma unpack_pack n l :
  (length l <= 8 * n)%nat -> unpack (length l) (pack n l) = l.
Proof.
  revert l. induction n as [|n IH]; intros l Hl.
  { assert (length l = 0%nat) as ->%nil_length_inv by lia. done. }
  unfold unpack. cbn [pack map concat].
  rewrite bits_of_byte_of_bits by (rewrite length_take; lia). rewrite length_take.
  destruct (decide (length l < 8)%nat) as [H8|H8].
  - rewrite (take_ge l 8) by lia. rewrite <- app_assoc. by rewrite take_app_length.
  - replace (8 - 8 `min` length l)%nat with 0%nat by lia. simpl replicate. rewrite app_nil_r.
    rewrite take_app_ge by (rewrite length_take; lia).
    rewrite length_take, Nat.min_l by lia.
    specialize (IH (drop 8 l)). unfold unpack in IH. rewrite length_drop in IH.
    rewrite IH by lia. by rewrite take_drop.
Qed.

(** Two packings of equally long bit lists are equal only for equal lists. *)
Lemma pack_inj n l1 l2 :
  length l1 = length l2 -> (length l1 <= 8 * n)%nat -> pack n l1 = pack n l2 -> l1 = l2.
Proof.
  intros Hlen Hn Heq. rewrite <- (unpack_pack n l1) by done.
  rewrite Heq, Hlen. apply unpack_pack. lia.
Qed.
