(* ===== verification/Pdu.v ===== *)
(** * The PDU layer: [src/modbus_pdu.c]

    Request builders, response checking and the server-side dispatcher, on
    byte arrays.  A function that fills a buffer is a computation over that
    buffer; the application state behind [void *userdata] is threaded through
    the callbacks. *)

From S2P Require Import Prelude Buffer Defines Bits.

(** [mb_pdu_check_response]: malformed response. *)
Definition MB_PDU_ERR_FRAME : Z := -1.

(** ** Callbacks

    A callback that fills an array maps the array it is given to the array it
    leaves behind.  [None] is a NULL function pointer. *)
Record mb_pdu_handlers (U : Type) := MkHandlers {
  read_registers : option (Z -> Z -> Z -> list Z -> U -> Z * list Z * U);
  write_registers : option (Z -> Z -> list Z -> U -> Z * U);
  read_bits : option (Z -> Z -> Z -> list Z -> U -> Z * list Z * U);
  write_bits : option (Z -> Z -> list Z -> U -> Z * U);
}.
Arguments MkHandlers {U} _ _ _ _.
Arguments read_registers {U} _.
Arguments write_registers {U} _.
Arguments read_bits {U} _.
Arguments write_bits {U} _.

(** A call through a function pointer. *)
Definition fun_ptr {F} (f : option F) : outcome F :=
  match f with Some g => Ok g | None => Fail UB end.

Definition is_null {F} (f : option F) : bool :=
  match f with Some _ => false | None => true end.

(** ** 16-bit fields and packed bits *)

Definition get_u16 (p : list Z) : outcome Z :=
  let? hi := load p 0 in
  let? lo := load p 1 in
  Ok (of_be16 hi lo).

Definition put_u16 (v : Z) : st (list Z) unit :=
  store 0 (u8 (Z.shiftr v 8)) ;;;
  store 1 (u8 (Z.land v 0xFF)).

Definition range_overflows (addr qty : Z) : bool := 0x10000 <? u32 (addr + qty).

Definition bit_byte_count (qty : Z) : Z := u64 (qty + 7) / 8.

Definition load_cell (i : Z) : st (list Z) Z := fun p => lift (load p i) p.

Definition pack_bits (values : list Z) (qty : Z) : st (list Z) unit :=
  memset 0 (bit_byte_count qty) ;;;
  for_upto qty (fun i =>
    let! v := lift (load values i) in
    if v =? 0 then ret tt else
    let! o := load_cell (i / 8) in
    store (i / 8) (u8 (Z.lor o (u8 (Z.shiftl 1 (i mod 8)))))).

Definition unpack_bits (packed : list Z) (qty : Z) : st (list Z) unit :=
  for_upto qty (fun i =>
    let! b := lift (load packed (i / 8)) in
    store i (u8 (Z.land (Z.shiftr b (i mod 8)) 1))).

(** ** Response pieces *)

Definition build_exception (function_code exception_code : Z) : st (list Z) Z :=
  store 0 (u8 (Z.lor function_code (u8 MODBUS_EXCEPTION_FLAG))) ;;;
  store 1 exception_code ;;;
  ret 2.

Definition exception_from_callback_rc (rc : Z) : Z :=
  if bool_decide (rc ∈ [MODBUS_EX_ILLEGAL_FUNCTION; MODBUS_EX_ILLEGAL_DATA_ADDRESS;
       MODBUS_EX_ILLEGAL_DATA_VALUE; MODBUS_EX_SERVER_DEVICE_FAILURE;
       MODBUS_EX_ACKNOWLEDGE; MODBUS_EX_SERVER_DEVICE_BUSY;
       MODBUS_EX_MEMORY_PARITY_ERROR; MODBUS_EX_GATEWAY_PATH_UNAVAILABLE;
       MODBUS_EX_GATEWAY_TARGET_FAILED])
  then u8 rc else u8 MODBUS_EX_SERVER_DEVICE_FAILURE.

Definition build_write_echo (req : list Z) : st (list Z) Z :=
  memcpy req 5 ;;; ret 5.

(** ** Request builders *)

Definition mb_pdu_build_read (function_code addr qty : Z) : st (list Z) Z :=
  store 0 function_code ;;;
  at_off 1 (put_u16 addr) ;;;
  at_off 3 (put_u16 qty) ;;;
  ret 5.

Definition mb_pdu_build_write_single (function_code addr value : Z) : st (list Z) Z :=
  mb_pdu_build_read function_code addr value.

Definition mb_pdu_build_write_registers (addr qty : Z) (data : list Z) : st (list Z) Z :=
  mb_pdu_build_read MODBUS_FUNC_WRITE_MULTIPLE_REGISTERS addr qty ;;;
  store 5 (u8 (qty * 2)) ;;;
  for_upto qty (fun i =>
    let! v := lift (load data i) in
    at_off (6 + i * 2) (put_u16 v)) ;;;
  ret (6 + qty * 2).

Definition mb_pdu_build_write_coils (addr qty : Z) (values : list Z) : st (list Z) Z :=
  let byte_count := bit_byte_count qty in
  mb_pdu_build_read MODBUS_FUNC_WRITE_MULTIPLE_COILS addr qty ;;;
  store 5 (u8 byte_count) ;;;
  at_off 6 (pack_bits values qty) ;;;
  ret (6 + byte_count).

(** ** Response checking and extraction *)

Definition mb_pdu_check_response (req resp : list Z) (resp_len : Z) : outcome Z :=
  let? fc := load req 0 in
  let? qty := get_u16 (padd req 3) in
  if resp_len <? 1 then Ok MB_PDU_ERR_FRAME else
  let? r0 := load resp 0 in
  if r0 =? u8 (Z.lor fc MODBUS_EXCEPTION_FLAG) then
    if negb (resp_len =? 2) then Ok MB_PDU_ERR_FRAME else
    let? r1 := load resp 1 in
    if r1 =? 0 then Ok MB_PDU_ERR_FRAME else Ok r1
  else if negb (r0 =? fc) then Ok MB_PDU_ERR_FRAME
  else if bool_decide (fc ∈ [MODBUS_FUNC_READ_COILS; MODBUS_FUNC_READ_DISCRETE_INPUTS;
            MODBUS_FUNC_READ_HOLDING_REGISTERS; MODBUS_FUNC_READ_INPUT_REGISTERS]) then
    let byte_count := if fc <=? MODBUS_FUNC_READ_DISCRETE_INPUTS
                      then bit_byte_count qty else qty * 2 in
    if negb (resp_len =? 2 + byte_count) then Ok MB_PDU_ERR_FRAME else
    let? r1 := load resp 1 in
    if negb (r1 =? u8 byte_count) then Ok MB_PDU_ERR_FRAME else Ok 0
  else if bool_decide (fc ∈ [MODBUS_FUNC_WRITE_SINGLE_COIL;
            MODBUS_FUNC_WRITE_SINGLE_REGISTER; MODBUS_FUNC_WRITE_MULTIPLE_COILS;
            MODBUS_FUNC_WRITE_MULTIPLE_REGISTERS]) then
    if negb (resp_len =? 5) then Ok MB_PDU_ERR_FRAME else
    let? same := memcmp_eq (padd resp 1) (padd req 1) 4 in
    if negb same then Ok MB_PDU_ERR_FRAME else Ok 0
  else Ok MB_PDU_ERR_FRAME.

Definition mb_pdu_get_registers (resp : list Z) (qty : Z) : st (list Z) unit :=
  for_upto qty (fun i =>
    let! v := lift (get_u16 (padd resp (2 + i * 2))) in
    store i v).

Definition mb_pdu_get_bits (resp : list Z) (qty : Z) : st (list Z) unit :=
  unpack_bits (padd resp 2) qty.

Definition mb_pdu_is_write (function_code : Z) : bool :=
  (function_code =? MODBUS_FUNC_WRITE_SINGLE_COIL) ||
  (function_code =? MODBUS_FUNC_WRITE_SINGLE_REGISTER) ||
  (function_code =? MODBUS_FUNC_WRITE_MULTIPLE_COILS) ||
  (function_code =? MODBUS_FUNC_WRITE_MULTIPLE_REGISTERS).

(** ** Server-side dispatch: the response is built in the buffer, the result
    is its length and the application state after the callbacks. *)

Section Dispatch.
Context `{Indet} {U : Type} (h : mb_pdu_handlers U).

Definition exception_reply (fc code : Z) (u : U) : st (list Z) (Z * U) :=
  let! n := build_exception fc code in ret (n, u).

Definition handle_read_registers (fc addr qty : Z) (u : U) : st (list Z) (Z * U) :=
  if is_null (read_registers h) then exception_reply fc MODBUS_EX_ILLEGAL_FUNCTION u
  else if (qty =? 0) || (MODBUS_MAX_READ_REGISTERS <? qty) then
    exception_reply fc MODBUS_EX_ILLEGAL_DATA_VALUE u
  else if range_overflows addr qty then
    exception_reply fc MODBUS_EX_ILLEGAL_DATA_ADDRESS u
  else
    let! cb := lift (fun_ptr (read_registers h)) in
    let '(rc, data, u') := cb fc addr qty (auto_u16 MODBUS_MAX_READ_REGISTERS) u in
    if negb (rc =? 0) then exception_reply fc (exception_from_callback_rc rc) u'
    else
      store 0 fc ;;;
      store 1 (u8 (qty * 2)) ;;;
      for_upto qty (fun i =>
        let! v := lift (load data i) in
        at_off (2 + i * 2) (put_u16 v)) ;;;
      ret (2 + qty * 2, u').

Definition handle_read_bits (fc addr qty : Z) (u : U) : st (list Z) (Z * U) :=
  if is_null (read_bits h) then exception_reply fc MODBUS_EX_ILLEGAL_FUNCTION u
  else if (qty =? 0) || (MODBUS_MAX_READ_BITS <? qty) then
    exception_reply fc MODBUS_EX_ILLEGAL_DATA_VALUE u
  else if range_overflows addr qty then
    exception_reply fc MODBUS_EX_ILLEGAL_DATA_ADDRESS u
  else
    let! '(_, zeroed) := lift (memset 0 qty (auto_u8 MODBUS_MAX_READ_BITS)) in
    let! cb := lift (fun_ptr (read_bits h)) in
    let '(rc, bits, u') := cb fc addr qty zeroed u in
    if negb (rc =? 0) then exception_reply fc (exception_from_callback_rc rc) u'
    else
      let byte_count := bit_byte_count qty in
      store 0 fc ;;;
      store 1 (u8 byte_count) ;;;
      at_off 2 (pack_bits bits qty) ;;;
      ret (2 + byte_count, u').

Definition handle_write_single_coil (req : list Z) (u : U) : st (list Z) (Z * U) :=
  let! fc := lift (load req 0) in
  let! value := lift (get_u16 (padd req 3)) in
  if is_null (write_bits h) then exception_reply fc MODBUS_EX_ILLEGAL_FUNCTION u
  else if negb (value =? MODBUS_COIL_ON) && negb (value =? MODBUS_COIL_OFF) then
    exception_reply fc MODBUS_EX_ILLEGAL_DATA_VALUE u
  else
    let bit := if value =? MODBUS_COIL_ON then 1 else 0 in
    let! addr := lift (get_u16 (padd req 1)) in
    let! cb := lift (fun_ptr (write_bits h)) in
    let '(rc, u') := cb addr 1 [bit] u in
    if negb (rc =? 0) then exception_reply fc (exception_from_callback_rc rc) u'
    else let! n := build_write_echo req in ret (n, u').

Definition handle_write_single_register (req : list Z) (u : U) : st (list Z) (Z * U) :=
  let! fc := lift (load req 0) in
  let! value := lift (get_u16 (padd req 3)) in
  if is_null (write_registers h) then exception_reply fc MODBUS_EX_ILLEGAL_FUNCTION u
  else
    let! addr := lift (get_u16 (padd req 1)) in
    let! cb := lift (fun_ptr (write_registers h)) in
    let '(rc, u') := cb addr 1 [value] u in
    if negb (rc =? 0) then exception_reply fc (exception_from_callback_rc rc) u'
    else let! n := build_write_echo req in ret (n, u').

Definition handle_write_multiple (req : list Z) (req_len : Z) (u : U)
    : st (list Z) (Z * U) :=
  let! fc := lift (load req 0) in
  let is_coils := fc =? MODBUS_FUNC_WRITE_MULTIPLE_COILS in
  let! qty := lift (get_u16 (padd req 3)) in
  let max_qty := if is_coils then MODBUS_MAX_WRITE_BITS else MODBUS_MAX_WRITE_REGISTERS in
  if (if is_coils then is_null (write_bits h) else is_null (write_registers h)) then
    exception_reply fc MODBUS_EX_ILLEGAL_FUNCTION u
  else if (req_len <=? 5) || (qty =? 0) || (max_qty <? qty) then
    exception_reply fc MODBUS_EX_ILLEGAL_DATA_VALUE u
  else
    let byte_count := if is_coils then bit_byte_count qty else qty * 2 in
    let! bc := lift (load req 5) in
    if negb (bc =? u8 byte_count) || negb (req_len =? 6 + byte_count) then
      exception_reply fc MODBUS_EX_ILLEGAL_DATA_VALUE u
    else
      let! addr := lift (get_u16 (padd req 1)) in
      if range_overflows addr qty then
        exception_reply fc MODBUS_EX_ILLEGAL_DATA_ADDRESS u
      else
        let payload := padd req 6 in
        let! '(rc, u') :=
          if is_coils then
            let! '(_, bits) := lift (unpack_bits payload qty (auto_u8 MODBUS_MAX_WRITE_BITS)) in
            let! cb := lift (fun_ptr (write_bits h)) in
            ret (cb addr qty bits u)
          else
            let! '(_, data) := lift (for_upto qty (fun i =>
                let! v := lift (get_u16 (padd payload (i * 2))) in
                store i v) (auto_u16 MODBUS_MAX_WRITE_REGISTERS)) in
            let! cb := lift (fun_ptr (write_registers h)) in
            ret (cb addr qty data u) in
        if negb (rc =? 0) then exception_reply fc (exception_from_callback_rc rc) u'
        else let! n := build_write_echo req in ret (n, u').

Definition mb_pdu_handle_request (req : list Z) (req_len : Z) (u : U)
    : st (list Z) (Z * U) :=
  let! fc := lift (load req 0) in
  if bool_decide (fc ∈ [MODBUS_FUNC_READ_COILS; MODBUS_FUNC_READ_DISCRETE_INPUTS;
       MODBUS_FUNC_READ_HOLDING_REGISTERS; MODBUS_FUNC_READ_INPUT_REGISTERS;
       MODBUS_FUNC_WRITE_SINGLE_COIL; MODBUS_FUNC_WRITE_SINGLE_REGISTER;
       MODBUS_FUNC_WRITE_MULTIPLE_COILS; MODBUS_FUNC_WRITE_MULTIPLE_REGISTERS]) then
    if req_len <? 5 then exception_reply fc MODBUS_EX_ILLEGAL_DATA_VALUE u
    else
      let! addr := lift (get_u16 (padd req 1)) in
      let! qty := lift (get_u16 (padd req 3)) in
      if (fc =? MODBUS_FUNC_READ_COILS) || (fc =? MODBUS_FUNC_READ_DISCRETE_INPUTS) then
        handle_read_bits fc addr qty u
      else if (fc =? MODBUS_FUNC_READ_HOLDING_REGISTERS)
           || (fc =? MODBUS_FUNC_READ_INPUT_REGISTERS) then
        handle_read_registers fc addr qty u
      else if fc =? MODBUS_FUNC_WRITE_SINGLE_COIL then handle_write_single_coil req u
      else if fc =? MODBUS_FUNC_WRITE_SINGLE_REGISTER then
        handle_write_single_register req u
      else handle_write_multiple req req_len u
  else exception_reply fc MODBUS_EX_ILLEGAL_FUNCTION u.
End Dispatch.

(** ** What the pieces compute

    A writer that fills the first bytes of a buffer is characterised by the
    equation [m p = Ok (r, written ++ drop n p)]. *)

Definition nonzero (v : Z) : bool := negb (v =? 0).

Lemma nbytes_of_qty qty : is_u16 qty -> bit_byte_count qty = nbytes qty.
Proof. intros Hq. unfold bit_byte_count, nbytes. by rewrite u64_small by zint. Qed.

Lemma get_u16_ok p a b q : p = a :: b :: q -> get_u16 p = Ok (of_be16 a b).
Proof. by intros ->. Qed.

Lemma get_u16_padd p k a b q :
  drop (Z.to_nat k) p = a :: b :: q -> get_u16 (padd p k) = Ok (of_be16 a b).
Proof. unfold padd. by intros ->. Qed.

Lemma put_u16_memcpy v p : put_u16 v p = memcpy (be16 v) 2 p.
Proof.
  unfold put_u16, memcpy, bind, store.
  destruct p as [|a [|b p]]; try done.
  zbool. change (Z.to_nat 0) with 0%nat. cbn [insert list_insert]. zbool. done.
Qed.

Lemma store_memcpy i v p : 0 <= i -> store i v p = at_off i (memcpy [v] 1) p.
Proof.
  intros Hi. unfold store, at_off, memcpy. destruct (decide (i < zlen p)) as [Hp|Hp].
  - zbool. rewrite insert_take_drop by lia. rewrite drop_drop.
    replace (Z.to_nat i + Z.to_nat 1)%nat with (S (Z.to_nat i)) by lia. done.
  - destruct (decide (i = zlen p)); by zbool.
Qed.

Lemma store_0_ok v a p : store 0 v (a :: p) = Ok (tt, v :: p).
Proof. rewrite store_ok by (simpl; lia). done. Qed.

Lemma at_off_memcpy_put v k p : at_off k (put_u16 v) p = at_off k (memcpy (be16 v) 2) p.
Proof. unfold at_off. by rewrite put_u16_memcpy. Qed.

(** Loops that write one 16-bit value, or one cell, per iteration. *)
Lemma put_words_run (data : list Z) base qty p :
  0 <= base -> 0 <= qty <= zlen data -> base + 2 * qty <= zlen p ->
  for_upto qty (fun i => let! v := lift (load data i) in at_off (base + i * 2) (put_u16 v)) p
  = Ok (tt, take (Z.to_nat base) p ++ concat (map be16 (take (Z.to_nat qty) data))
            ++ drop (Z.to_nat (base + 2 * qty)) p).
Proof.
  intros Hb Hq Hp.
  rewrite (for_upto_write 2 base (fun i => be16 (data !!! Z.to_nat i))); [|lia|lia|lia|done|lia|].
  - by rewrite map_seqZ_take by lia.
  - intros i q Hi Hlen. erewrite bind_ok by (apply lift_ok, load_lookup_total; lia).
    rewrite at_off_memcpy_put. f_equal. lia.
Qed.

Lemma store_each_run (f : Z -> outcome Z) (g : Z -> Z) qty p :
  0 <= qty <= zlen p -> (forall i, 0 <= i < qty -> f i = Ok (g i)) ->
  for_upto qty (fun i => let! v := lift (f i) in store i v) p
  = Ok (tt, map g (seqZ 0 qty) ++ drop (Z.to_nat qty) p).
Proof.
  intros Hq Hf.
  rewrite (for_upto_write 1 0 (fun i => [g i])); [|lia|lia|lia|done|lia|].
  - rewrite concat_map_singleton. by replace (0 + 1 * qty) with qty by lia.
  - intros i q Hi Hlen. erewrite bind_ok by (apply lift_ok, Hf; lia).
    rewrite store_memcpy by lia. f_equal. lia.
Qed.

(** [pack_bits] and [unpack_bits] compute the reference codec. *)
Lemma pack_bits_run values qty p :
  is_u16 qty -> qty <= zlen values -> nbytes qty <= zlen p ->
  pack_bits values qty p
  = Ok (tt, pack (Z.to_nat (nbytes qty)) (map nonzero (take (Z.to_nat qty) values))
            ++ drop (Z.to_nat (nbytes qty)) p).
Proof.
  intros Hq Hv Hp. unfold pack_bits. rewrite nbytes_of_qty by done.
  assert (Hn0 : 0 <= nbytes qty) by (unfold nbytes; zint).
  erewrite bind_ok by (apply memset_ok; lia).
  set (n := Z.to_nat (nbytes qty)). set (r := drop n p).
  destruct (for_upto_inv (fun j q => q = pack n (map nonzero (take (Z.to_nat j) values)) ++ r)
    qty (fun i => let! v := lift (load values i) in
       if v =? 0 then ret tt else
       let! o := load_cell (i / 8) in
       store (i / 8) (u8 (Z.lor o (u8 (Z.shiftl 1 (i mod 8))))))
    (replicate n 0 ++ r)) as (q & Hrun & ->); [unfold is_u16 in Hq; lia | | |done].
  { simpl. by rewrite pack_nil. }
  intros j q Hj ->. eexists. split; [|done].
  set (l := map nonzero (take (Z.to_nat j) values)).
  assert (Hl : length l = Z.to_nat j) by (unfold l; rewrite length_map, length_take; lia).
  assert (Hnext : map nonzero (take (Z.to_nat (j + 1)) values)
                  = l ++ [nonzero (values !!! Z.to_nat j)]).
  { replace (Z.to_nat (j + 1)) with (S (Z.to_nat j)) by lia.
    rewrite (take_S_r _ _ (values !!! Z.to_nat j)) by (apply list_lookup_lookup_total_lt; lia).
    by rewrite map_app. }
  rewrite Hnext. erewrite bind_ok by (apply lift_ok, load_lookup_total; lia).
  unfold nonzero. destruct (values !!! Z.to_nat j =? 0).
  { by rewrite pack_snoc_false. }
  assert (Hj8 : 0 <= j / 8 < Z.of_nat n) by (unfold n, nbytes; zint).
  assert (Hdiv : (Z.to_nat (j / 8) = length l / 8)%nat)
    by (rewrite Hl; rewrite Z2Nat.inj_div by lia; done).
  set (o := pack n l !!! Z.to_nat (j / 8)).
  assert (Ho : load_cell (j / 8) (pack n l ++ r) = Ok (o, pack n l ++ r)).
  { unfold load_cell. apply lift_ok. rewrite load_lookup_total
      by (rewrite length_app, pack_length; lia).
    by rewrite lookup_total_app_l by (rewrite pack_length; lia). }
  erewrite bind_ok by exact Ho.
  rewrite store_ok by (rewrite length_app, pack_length; lia).
  rewrite insert_app_l by (rewrite pack_length; lia). do 3 f_equal.
  assert (Hj8n : (Z.to_nat j < 8 * n)%nat) by (unfold n, nbytes in *; zint).
  simpl negb. rewrite <- pack_snoc_true by (rewrite Hl; lia). rewrite <- Hdiv. fold o.
  rewrite (u8_bit (j mod 8)) by (Z.div_mod_to_equations; lia).
  assert (Hou : is_u8 o).
  { apply (Forall_lookup_total_1 is_u8 (pack n l)); [apply pack_bytes | rewrite pack_length; lia]. }
  rewrite u8_lor, u8_bit, (u8_small o) by (done || (Z.div_mod_to_equations; lia)).
  by rewrite Hl, Z2Nat.id by lia.
Qed.

Lemma land_1_testbit v k : 0 <= k -> u8 (Z.land (Z.shiftr v k) 1) = Z.b2z (Z.testbit v k).
Proof.
  intros Hk. change 1 with (Z.ones 1) at 1. rewrite Z.land_ones by lia.
  rewrite Z.testbit_spec' by lia. rewrite Z.shiftr_div_pow2 by lia.
  apply u8_small. change (2 ^ 1) with 2.
  pose proof (Z.mod_pos_bound (v / 2 ^ k) 2). unfold is_u8. lia.
Qed.

Lemma unpack_bits_run packed qty p :
  is_u16 qty -> nbytes qty <= zlen packed -> qty <= zlen p ->
  unpack_bits packed qty p
  = Ok (tt, map Z.b2z (unpack (Z.to_nat qty) packed) ++ drop (Z.to_nat qty) p).
Proof.
  intros Hq Hn Hp. unfold unpack_bits.
  rewrite (for_upto_write 1 0 (fun i => [Z.b2z (Z.testbit (packed !!! Z.to_nat (i / 8)) (i mod 8))]));
    [|zint|lia|lia|done|lia|].
  - rewrite concat_map_singleton. replace (0 + 1 * qty) with qty by lia.
    change (Z.to_nat 0) with 0%nat. rewrite take_0. cbn [app]. do 3 f_equal.
    apply list_eq. intros i. rewrite lookup_map_seqZ, list_lookup_fmap.
    case_bool_decide as Hi.
    + rewrite unpack_lookup by (unfold nbytes in *; zint). simpl.
      by rewrite Z2Nat.inj_div, Nat2Z.id by lia.
    + rewrite lookup_ge_None_2; [done|]. unfold unpack. rewrite length_take. lia.
  - intros i q Hi Hlen.
    erewrite bind_ok by (apply lift_ok, load_lookup_total; unfold nbytes in *; zint).
    rewrite land_1_testbit by (Z.div_mod_to_equations; lia).
    rewrite store_memcpy by lia. f_equal. lia.
Qed.
