(* ===== verification/PduSpec.v ===== *)
(** * What a Modbus server promises

    The abstract side of the PDU layer: requests and responses as data, their
    wire encoding, a device that answers typed requests, and the reply
    [respond] of a server to an arbitrary byte string.  The refinement lemma
    [handle_request_run] says that [mb_pdu_handle_request] computes [respond]
    for every device its C callbacks implement. *)

From S2P Require Import Prelude Buffer Defines Bits Pdu.

(** ** Requests, responses and their encoding *)

Inductive request : Type :=
  | ReadBits (fc addr qty : Z)
  | ReadRegisters (fc addr qty : Z)
  | WriteCoil (addr : Z) (on : bool)
  | WriteRegister (addr value : Z)
  | WriteCoils (addr : Z) (bits : list bool)
  | WriteRegisters (addr : Z) (values : list Z).

Inductive response : Type :=
  | BitsRead (fc : Z) (bits : list bool)
  | RegistersRead (fc : Z) (values : list Z)
  | Written (fc addr value : Z)
  | Exception (fc code : Z).

#[global] Instance request_eq_dec : EqDecision request.
Proof. solve_decision. Defined.
#[global] Instance response_eq_dec : EqDecision response.
Proof. solve_decision. Defined.

Definition packed (bits : list bool) : list Z :=
  pack (Z.to_nat (nbytes (zlen bits))) bits.
Definition words_be (values : list Z) : list Z := concat (map be16 values).

Definition coil_value (on : bool) : Z := if on then MODBUS_COIL_ON else MODBUS_COIL_OFF.

Definition encode_request (r : request) : list Z :=
  match r with
  | ReadBits fc addr qty | ReadRegisters fc addr qty => fc :: be16 addr ++ be16 qty
  | WriteCoil addr on =>
      MODBUS_FUNC_WRITE_SINGLE_COIL :: be16 addr ++ be16 (coil_value on)
  | WriteRegister addr value =>
      MODBUS_FUNC_WRITE_SINGLE_REGISTER :: be16 addr ++ be16 value
  | WriteCoils addr bits =>
      MODBUS_FUNC_WRITE_MULTIPLE_COILS :: be16 addr ++ be16 (zlen bits)
        ++ u8 (nbytes (zlen bits)) :: packed bits
  | WriteRegisters addr values =>
      MODBUS_FUNC_WRITE_MULTIPLE_REGISTERS :: be16 addr ++ be16 (zlen values)
        ++ u8 (zlen values * 2) :: words_be values
  end.

Definition encode_response (r : response) : list Z :=
  match r with
  | BitsRead fc bits => fc :: u8 (nbytes (zlen bits)) :: packed bits
  | RegistersRead fc values => fc :: u8 (zlen values * 2) :: words_be values
  | Written fc addr value => fc :: be16 addr ++ be16 value
  | Exception fc code => [u8 (Z.lor fc MODBUS_EXCEPTION_FLAG); code]
  end.

(** ** Devices *)

(** The application behind a server: each operation may be missing, and
    fails with a nonzero code or succeeds. *)
Record device (U : Type) := Device {
  dev_read_registers : option (Z -> Z -> Z -> U -> (Z + list Z) * U);
  dev_write_registers : option (Z -> list Z -> U -> Z * U);
  dev_read_bits : option (Z -> Z -> Z -> U -> (Z + list bool) * U);
  dev_write_bits : option (Z -> list bool -> U -> Z * U);
}.
Arguments Device {U} _ _ _ _.
Arguments dev_read_registers {U} _.
Arguments dev_write_registers {U} _.
Arguments dev_read_bits {U} _.
Arguments dev_write_bits {U} _.

(** ** Parsing a request, as the standard orders the checks *)

Fixpoint first_failing (checks : list (bool * Z)) : option Z :=
  match checks with
  | [] => None
  | (true, _) :: cs => first_failing cs
  | (false, code) :: _ => Some code
  end.

Definition vet (fc : Z) (checks : list (bool * Z)) (r : request) : response + request :=
  match first_failing checks with
  | Some code => inl (Exception fc code)
  | None => inr r
  end.

Definition in_range (qty max : Z) : bool := (1 <=? qty) && (qty <=? max).
Definition fits (addr qty : Z) : bool := addr + qty <=? 0x10000.

(** The data part of a write-multiple request: a byte count and that many
    bytes, [n] of them. *)
Definition payload (n : Z) (rest : list Z) : bool :=
  match rest with
  | [] => false
  | bc :: data => (bc =? n) && (zlen data =? n)
  end.

Fixpoint words_of (data : list Z) : list Z :=
  match data with
  | hi :: lo :: data' => of_be16 hi lo :: words_of data'
  | _ => []
  end.

Section Server.
Context {U : Type} (d : device U).

Definition parse_fields (fc addr v : Z) (rest : list Z) : response + request :=
  if (fc =? MODBUS_FUNC_READ_COILS) || (fc =? MODBUS_FUNC_READ_DISCRETE_INPUTS) then
    vet fc [(negb (is_null (dev_read_bits d)), MODBUS_EX_ILLEGAL_FUNCTION);
            (in_range v MODBUS_MAX_READ_BITS, MODBUS_EX_ILLEGAL_DATA_VALUE);
            (fits addr v, MODBUS_EX_ILLEGAL_DATA_ADDRESS)] (ReadBits fc addr v)
  else if (fc =? MODBUS_FUNC_READ_HOLDING_REGISTERS)
       || (fc =? MODBUS_FUNC_READ_INPUT_REGISTERS) then
    vet fc [(negb (is_null (dev_read_registers d)), MODBUS_EX_ILLEGAL_FUNCTION);
            (in_range v MODBUS_MAX_READ_REGISTERS, MODBUS_EX_ILLEGAL_DATA_VALUE);
            (fits addr v, MODBUS_EX_ILLEGAL_DATA_ADDRESS)] (ReadRegisters fc addr v)
  else if fc =? MODBUS_FUNC_WRITE_SINGLE_COIL then
    vet fc [(negb (is_null (dev_write_bits d)), MODBUS_EX_ILLEGAL_FUNCTION);
            ((v =? MODBUS_COIL_ON) || (v =? MODBUS_COIL_OFF), MODBUS_EX_ILLEGAL_DATA_VALUE)]
      (WriteCoil addr (v =? MODBUS_COIL_ON))
  else if fc =? MODBUS_FUNC_WRITE_SINGLE_REGISTER then
    vet fc [(negb (is_null (dev_write_registers d)), MODBUS_EX_ILLEGAL_FUNCTION)]
      (WriteRegister addr v)
  else if fc =? MODBUS_FUNC_WRITE_MULTIPLE_COILS then
    vet fc [(negb (is_null (dev_write_bits d)), MODBUS_EX_ILLEGAL_FUNCTION);
            (in_range v MODBUS_MAX_WRITE_BITS && payload (nbytes v) rest,
             MODBUS_EX_ILLEGAL_DATA_VALUE);
            (fits addr v, MODBUS_EX_ILLEGAL_DATA_ADDRESS)]
      (WriteCoils addr (unpack (Z.to_nat v) (drop 1 rest)))
  else if fc =? MODBUS_FUNC_WRITE_MULTIPLE_REGISTERS then
    vet fc [(negb (is_null (dev_write_registers d)), MODBUS_EX_ILLEGAL_FUNCTION);
            (in_range v MODBUS_MAX_WRITE_REGISTERS && payload (v * 2) rest,
             MODBUS_EX_ILLEGAL_DATA_VALUE);
            (fits addr v, MODBUS_EX_ILLEGAL_DATA_ADDRESS)]
      (WriteRegisters addr (words_of (drop 1 rest)))
  else inl (Exception fc MODBUS_EX_ILLEGAL_FUNCTION).

Definition supported (fc : Z) : bool :=
  ((1 <=? fc) && (fc <=? 6)) || (fc =? 15) || (fc =? 16).

Definition parse_request (pdu : list Z) : response + request :=
  match pdu with
  | [] => inl (Exception 0 MODBUS_EX_ILLEGAL_FUNCTION)
  | fc :: body =>
      if supported fc then
        match body with
        | a1 :: a0 :: v1 :: v0 :: rest => parse_fields fc (of_be16 a1 a0) (of_be16 v1 v0) rest
        | _ => inl (Exception fc MODBUS_EX_ILLEGAL_DATA_VALUE)
        end
      else inl (Exception fc MODBUS_EX_ILLEGAL_FUNCTION)
  end.

(** Run one typed request on the device. *)
Definition write_result (fc addr v : Z) (res : Z * U) : response * U :=
  let '(rc, u') := res in
  (if rc =? 0 then Written fc addr v else Exception fc (exception_from_callback_rc rc), u').

Definition missing (fc : Z) (u : U) : response * U :=
  (Exception fc MODBUS_EX_ILLEGAL_FUNCTION, u).

Definition serve (r : request) (u : U) : response * U :=
  match r with
  | ReadBits fc addr qty =>
      match dev_read_bits d with
      | None => missing fc u
      | Some f => match f fc addr qty u with
                  | (inl rc, u') => (Exception fc (exception_from_callback_rc rc), u')
                  | (inr bits, u') => (BitsRead fc bits, u')
                  end
      end
  | ReadRegisters fc addr qty =>
      match dev_read_registers d with
      | None => missing fc u
      | Some f => match f fc addr qty u with
                  | (inl rc, u') => (Exception fc (exception_from_callback_rc rc), u')
                  | (inr values, u') => (RegistersRead fc values, u')
                  end
      end
  | WriteCoil addr on =>
      match dev_write_bits d with
      | None => missing MODBUS_FUNC_WRITE_SINGLE_COIL u
      | Some f => write_result MODBUS_FUNC_WRITE_SINGLE_COIL addr (coil_value on) (f addr [on] u)
      end
  | WriteRegister addr v =>
      match dev_write_registers d with
      | None => missing MODBUS_FUNC_WRITE_SINGLE_REGISTER u
      | Some f => write_result MODBUS_FUNC_WRITE_SINGLE_REGISTER addr v (f addr [v] u)
      end
  | WriteCoils addr bits =>
      match dev_write_bits d with
      | None => missing MODBUS_FUNC_WRITE_MULTIPLE_COILS u
      | Some f => write_result MODBUS_FUNC_WRITE_MULTIPLE_COILS addr (zlen bits) (f addr bits u)
      end
  | WriteRegisters addr values =>
      match dev_write_registers d with
      | None => missing MODBUS_FUNC_WRITE_MULTIPLE_REGISTERS u
      | Some f => write_result MODBUS_FUNC_WRITE_MULTIPLE_REGISTERS addr (zlen values)
                    (f addr values u)
      end
  end.

Definition finish (x : response + request) (u : U) : response * U :=
  match x with
  | inl e => (e, u)
  | inr r => serve r u
  end.

(** The reply of a server to the bytes [pdu]. *)
Definition respond (pdu : list Z) (u : U) : response * U := finish (parse_request pdu) u.
End Server.

(** ** The callback contract

    [Implements h d]: the C callbacks [h] behave as the device [d].  A read
    callback that returns 0 has filled the first [qty] cells; the bit array it
    is given is zeroed; a callback looks at the first [qty] cells of the array
    it receives. *)

Definition read_registers_impl {U}
    (cb : option (Z -> Z -> Z -> list Z -> U -> Z * list Z * U))
    (op : option (Z -> Z -> Z -> U -> (Z + list Z) * U)) : Prop :=
  match cb, op with
  | None, None => True
  | Some f, Some g => forall fc addr qty out u,
      1 <= qty <= zlen out ->
      match f fc addr qty out u, g fc addr qty u with
      | (rc, out', u'), (inl e, u'') => rc = e /\ e <> 0 /\ u' = u''
      | (rc, out', u'), (inr values, u'') =>
          rc = 0 /\ u' = u'' /\ zlen values = qty /\
          exists tl, out' = values ++ tl
      end
  | _, _ => False
  end.

Definition read_bits_impl {U}
    (cb : option (Z -> Z -> Z -> list Z -> U -> Z * list Z * U))
    (op : option (Z -> Z -> Z -> U -> (Z + list bool) * U)) : Prop :=
  match cb, op with
  | None, None => True
  | Some f, Some g => forall fc addr qty out u,
      1 <= qty <= zlen out -> take (Z.to_nat qty) out = replicate (Z.to_nat qty) 0 ->
      match f fc addr qty out u, g fc addr qty u with
      | (rc, out', u'), (inl e, u'') => rc = e /\ e <> 0 /\ u' = u''
      | (rc, out', u'), (inr bits, u'') =>
          rc = 0 /\ u' = u'' /\ zlen bits = qty /\
          exists vs tl, out' = vs ++ tl /\ map nonzero vs = bits
      end
  | _, _ => False
  end.

Definition write_registers_impl {U}
    (cb : option (Z -> Z -> list Z -> U -> Z * U))
    (op : option (Z -> list Z -> U -> Z * U)) : Prop :=
  match cb, op with
  | None, None => True
  | Some f, Some g => forall addr values tl u, f addr (zlen values) (values ++ tl) u = g addr values u
  | _, _ => False
  end.

Definition write_bits_impl {U}
    (cb : option (Z -> Z -> list Z -> U -> Z * U))
    (op : option (Z -> list bool -> U -> Z * U)) : Prop :=
  match cb, op with
  | None, None => True
  | Some f, Some g => forall addr bits tl u,
      f addr (zlen bits) (map Z.b2z bits ++ tl) u = g addr bits u
  | _, _ => False
  end.

Class Implements {U} (h : mb_pdu_handlers U) (d : device U) : Prop := {
  impl_read_registers : read_registers_impl (read_registers h) (dev_read_registers d);
  impl_read_bits : read_bits_impl (read_bits h) (dev_read_bits d);
  impl_write_registers : write_registers_impl (write_registers h) (dev_write_registers d);
  impl_write_bits : write_bits_impl (write_bits h) (dev_write_bits d);
}.

(** ** Lemmas *)

Lemma words_be_length values : zlen (words_be values) = 2 * zlen values.
Proof.
  unfold words_be. induction values as [|v vs IH]; [done |].
  cbn [map concat]. rewrite length_app, be16_length. cbn [length]. lia.
Qed.

Lemma words_be_bytes values : bytes (words_be values).
Proof. unfold words_be. apply Forall_concat, Forall_map, Forall_forall. intros. apply be16_bytes. Qed.

Lemma packed_length bits : zlen (packed bits) = nbytes (zlen bits).
Proof. unfold packed. rewrite pack_length. unfold nbytes. Z.div_mod_to_equations. lia. Qed.

Lemma words_of_words_be values : words values -> words_of (words_be values) = values.
Proof.
  unfold words_be. induction 1 as [|v vs Hv Hvs IH]; [done |].
  cbn [map concat be16 app words_of]. by rewrite of_be16_be16, IH.
Qed.

(** [reply x p]: the outcome of a handler that answers [x] into [p]. *)
Definition reply {U} (x : response * U) (p : list Z) : outcome ((Z * U) * list Z) :=
  let bs := encode_response (fst x) in
  Ok ((zlen bs, snd x), bs ++ drop (length bs) p).

Lemma exception_reply_run {U} fc code (u : U) p :
  2 <= zlen p -> exception_reply fc code u p = reply (Exception fc code, u) p.
Proof.
  intros Hp. destruct p as [|a [|b p]]; [cbn in Hp; lia.. |].
  unfold exception_reply, build_exception.
  erewrite bind_ok; [|erewrite bind_ok by apply store_0_ok;
    erewrite bind_ok by (apply store_ok; zlength); done].
  done.
Qed.

Lemma build_read_run fc addr qty p :
  5 <= zlen p ->
  mb_pdu_build_read fc addr qty p = Ok (5, (fc :: be16 addr ++ be16 qty) ++ drop 5 p).
Proof.
  intros Hp. destruct p as [|a [|b [|c [|e [|f p]]]]]; [cbn in Hp; lia.. |].
  unfold mb_pdu_build_read.
  erewrite bind_ok by apply store_0_ok.
  erewrite bind_ok by (apply at_off_ok; [zlength | rewrite put_u16_memcpy; apply memcpy_ok; zlength]).
  erewrite bind_ok by (apply at_off_ok; [zlength | rewrite put_u16_memcpy; apply memcpy_ok; zlength]).
  done.
Qed.

Lemma write_echo_run req p :
  5 <= zlen req -> 5 <= zlen p ->
  build_write_echo req p = Ok (5, take 5 req ++ drop 5 p).
Proof. intros Hr Hp. unfold build_write_echo. by erewrite bind_ok by (apply memcpy_ok; lia). Qed.

(** Big-endian words in a byte array. *)
Lemma words_of_lookup data i :
  (2 * i + 1 < length data)%nat ->
  words_of data !! i = Some (of_be16 (data !!! (2 * i)%nat) (data !!! (2 * i + 1)%nat)).
Proof.
  revert data. induction i as [|i IH]; intros [|a [|b data]] Hi; try (cbn in Hi; lia).
  - done.
  - cbn [words_of]. replace (2 * S i)%nat with (S (S (2 * i))) by lia.
    cbn [lookup list_lookup lookup_total list_lookup_total Nat.add].
    apply IH. cbn [length] in Hi. lia.
Qed.

Lemma words_of_length data n : (length data = 2 * n)%nat -> length (words_of data) = n.
Proof.
  revert data. induction n as [|n IH]; intros [|a [|b data]] Hn; try (cbn in Hn; lia); [done |].
  cbn [words_of length]. f_equal. apply IH. cbn [length] in Hn. lia.
Qed.

Lemma words_of_words data : words (words_of data).
Proof.
  assert (H : forall n data, (length data <= n)%nat -> words (words_of data)).
  { induction n as [|n IH]; intros [|a [|b l]] Hl; cbn in *; try lia; try by constructor.
    constructor; [apply of_be16_u16 | apply IH; lia]. }
  by apply (H (length data)).
Qed.

Lemma get_u16_at p k :
  0 <= k -> k + 2 <= zlen p ->
  get_u16 (padd p k) = Ok (of_be16 (p !!! Z.to_nat k) (p !!! Z.to_nat (k + 1))).
Proof.
  intros Hk Hp. unfold get_u16. rewrite !load_padd, Z.add_0_r by lia.
  by rewrite !load_lookup_total by lia.
Qed.

Lemma words_of_prefix data n :
  0 <= n -> 2 * n <= zlen data ->
  map (fun i => of_be16 (data !!! Z.to_nat (i * 2)) (data !!! Z.to_nat (i * 2 + 1))) (seqZ 0 n)
  = take (Z.to_nat n) (words_of data).
Proof.
  intros Hn Hd. apply list_eq. intros i. rewrite lookup_map_seqZ. case_bool_decide as Hi.
  - rewrite lookup_take_lt, words_of_lookup by lia. do 3 f_equal; lia.
  - by rewrite lookup_take_ge by lia.
Qed.

Lemma read_words_run data qty p :
  0 <= qty <= zlen p -> 2 * qty <= zlen data ->
  for_upto qty (fun i => let! v := lift (get_u16 (padd data (i * 2))) in store i v) p
  = Ok (tt, take (Z.to_nat qty) (words_of data) ++ drop (Z.to_nat qty) p).
Proof.
  intros Hq Hd. rewrite <- words_of_prefix by lia.
  apply store_each_run; [done|]. intros i Hi. rewrite get_u16_at by lia. done.
Qed.

Lemma fits_range addr qty :
  is_u16 addr -> is_u16 qty -> range_overflows addr qty = negb (fits addr qty).
Proof.
  intros Ha Hq. unfold range_overflows, fits. rewrite u32_small by zint.
  by rewrite Z.leb_antisym, negb_involutive.
Qed.

Lemma in_range_code qty max :
  0 <= qty -> (qty =? 0) || (max <? qty) = negb (in_range qty max).
Proof.
  intros Hq. unfold in_range. rewrite negb_andb, <- !Z.ltb_antisym.
  f_equal. destruct (Z.eqb_spec qty 0), (Z.ltb_spec qty 1); lia.
Qed.

Section Refinement.
Context `{Indet} {U : Type} (h : mb_pdu_handlers U) (d : device U) `{!Implements h d}.

Lemma null_read_bits : is_null (read_bits h) = is_null (dev_read_bits d).
Proof. pose proof impl_read_bits as Hi. by destruct (read_bits h), (dev_read_bits d). Qed.
Lemma null_read_registers : is_null (read_registers h) = is_null (dev_read_registers d).
Proof. pose proof impl_read_registers as Hi. by destruct (read_registers h), (dev_read_registers d). Qed.
Lemma null_write_bits : is_null (write_bits h) = is_null (dev_write_bits d).
Proof. pose proof impl_write_bits as Hi. by destruct (write_bits h), (dev_write_bits d). Qed.
Lemma null_write_registers : is_null (write_registers h) = is_null (dev_write_registers d).
Proof. pose proof impl_write_registers as Hi. by destruct (write_registers h), (dev_write_registers d). Qed.

Lemma handle_read_registers_run fc addr qty u p :
  is_u16 addr -> is_u16 qty -> 253 <= zlen p ->
  handle_read_registers h fc addr qty u p =
  reply (finish d (vet fc
    [(negb (is_null (dev_read_registers d)), MODBUS_EX_ILLEGAL_FUNCTION);
     (in_range qty MODBUS_MAX_READ_REGISTERS, MODBUS_EX_ILLEGAL_DATA_VALUE);
     (fits addr qty, MODBUS_EX_ILLEGAL_DATA_ADDRESS)] (ReadRegisters fc addr qty)) u) p.
Proof.
  intros Ha Hq Hp. unfold handle_read_registers, vet. rewrite null_read_registers.
  rewrite in_range_code, fits_range by (done || apply Hq).
  pose proof impl_read_registers as Hi.
  destruct (read_registers h) as [f|], (dev_read_registers d) as [g|] eqn:Hg; try done;
    cbn [is_null negb first_failing finish]; [|by apply exception_reply_run; lia].
  destruct (in_range qty _) eqn:Hr; cbn [negb first_failing finish];
    [|by apply exception_reply_run; lia].
  destruct (fits addr qty) eqn:Hf; cbn [negb first_failing finish];
    [|by apply exception_reply_run; lia].
  apply andb_true_iff in Hr as [Hr1%Z.leb_le Hr2%Z.leb_le]. unfold_defs.
  erewrite bind_ok by done. cbn [serve]. rewrite Hg.
  specialize (Hi fc addr qty (auto_u16 125) u). rewrite auto_u16_length in Hi.
  specialize (Hi ltac:(lia)).
  destruct (f fc addr qty (auto_u16 125) u) as [[rc out] u'].
  destruct (g fc addr qty u) as [[e|values] u''].
  - destruct Hi as (-> & He & ->). apply Z.eqb_neq in He. rewrite He.
    apply exception_reply_run. lia.
  - destruct Hi as (-> & -> & Hlen & tl & ->). cbn [Z.eqb negb].
    destruct p as [|p0 [|p1 p]]; [cbn in Hp; lia.. |].
    erewrite bind_ok by apply store_0_ok.
    erewrite bind_ok by (apply store_ok; zlength).
    erewrite bind_ok by (apply put_words_run; [lia | zlength | zlength]).
    unfold ret, reply. cbn [encode_response fst snd]. rewrite <- Hlen, Nat2Z.id.
    rewrite take_app_length. change (Z.to_nat 2) with 2%nat. change (Z.to_nat 1) with 1%nat.
    cbn [insert list_insert take app length drop].
    pose proof (words_be_length values) as Hw. unfold words_be in *.
    rewrite take_0. cbn [app].
    replace (Z.to_nat (2 + 2 * zlen values)) with (S (S (length (concat (map be16 values))))) by lia.
    do 3 f_equal. cbn [length]. lia.
Qed.

Lemma handle_read_bits_run fc addr qty u p :
  is_u16 addr -> is_u16 qty -> 253 <= zlen p ->
  handle_read_bits h fc addr qty u p =
  reply (finish d (vet fc
    [(negb (is_null (dev_read_bits d)), MODBUS_EX_ILLEGAL_FUNCTION);
     (in_range qty MODBUS_MAX_READ_BITS, MODBUS_EX_ILLEGAL_DATA_VALUE);
     (fits addr qty, MODBUS_EX_ILLEGAL_DATA_ADDRESS)] (ReadBits fc addr qty)) u) p.
Proof.
  intros Ha Hq Hp. unfold handle_read_bits, vet. rewrite null_read_bits.
  rewrite in_range_code, fits_range by (done || apply Hq).
  pose proof impl_read_bits as Hi.
  destruct (read_bits h) as [f|], (dev_read_bits d) as [g|] eqn:Hg; try done;
    cbn [is_null negb first_failing finish]; [|by apply exception_reply_run; lia].
  destruct (in_range qty _) eqn:Hr; cbn [negb first_failing finish];
    [|by apply exception_reply_run; lia].
  destruct (fits addr qty) eqn:Hf; cbn [negb first_failing finish];
    [|by apply exception_reply_run; lia].
  apply andb_true_iff in Hr as [Hr1%Z.leb_le Hr2%Z.leb_le]. unfold_defs.
  erewrite bind_ok by (apply lift_ok, memset_ok; rewrite auto_u8_length; lia).
  cbv beta iota. erewrite bind_ok by done. cbn [serve]. rewrite Hg.
  set (out := replicate (Z.to_nat qty) 0 ++ drop (Z.to_nat qty) (auto_u8 2000)).
  specialize (Hi fc addr qty out u).
  specialize (Hi ltac:(unfold out; rewrite length_app, length_replicate; lia)).
  specialize (Hi ltac:(unfold out; by rewrite take_app_length' by (by rewrite length_replicate))).
  destruct (f fc addr qty out u) as [[rc out'] u'].
  destruct (g fc addr qty u) as [[e|bits] u''].
  - destruct Hi as (-> & He & ->). apply Z.eqb_neq in He. rewrite He.
    apply exception_reply_run. lia.
  - destruct Hi as (-> & -> & Hlen & vs & tl & -> & <-). rewrite length_map in Hlen.
    cbn [Z.eqb negb]. rewrite nbytes_of_qty by done.
    assert (Hnb : 0 <= nbytes qty <= 250) by (unfold nbytes; zint).
    destruct p as [|p0 [|p1 p]]; [cbn in Hp; lia.. |].
    erewrite bind_ok by apply store_0_ok.
    erewrite bind_ok by (apply store_ok; zlength).
    erewrite bind_ok by (apply at_off_ok; [zlength | apply pack_bits_run; [done | zlength | zlength]]).
    unfold ret, reply. cbn [encode_response fst snd].
    rewrite length_map, Hlen, <- Hlen, Nat2Z.id, take_app_length, Hlen.
    unfold packed. rewrite length_map, Hlen. cbn [length]. rewrite pack_length.
    do 2 f_equal. f_equal. lia.
Qed.

(** The last step of every write handler. *)
Lemma write_reply_run fc a1 a0 v1 v0 rest rc (u : U) p :
  bytes [a1; a0; v1; v0] -> 5 <= zlen p ->
  (if negb (rc =? 0) then exception_reply fc (exception_from_callback_rc rc) u
   else let! n := build_write_echo (fc :: a1 :: a0 :: v1 :: v0 :: rest) in ret (n, u)) p
  = reply (write_result fc (of_be16 a1 a0) (of_be16 v1 v0) (rc, u)) p.
Proof.
  intros Hb Hp. rewrite !Forall_cons_iff in Hb. destruct Hb as (Ha1 & Ha0 & Hv1 & Hv0 & _).
  unfold write_result. destruct (rc =? 0); cbn [negb].
  - erewrite bind_ok by (apply write_echo_run; zlength).
    unfold ret, reply. cbn [encode_response fst snd]. by rewrite !be16_of_be16.
  - apply exception_reply_run. lia.
Qed.

Lemma handle_write_single_coil_run a1 a0 v1 v0 rest u p :
  let fc := MODBUS_FUNC_WRITE_SINGLE_COIL in
  bytes [a1; a0; v1; v0] -> 253 <= zlen p ->
  handle_write_single_coil h (fc :: a1 :: a0 :: v1 :: v0 :: rest) u p =
  reply (finish d (parse_fields d fc (of_be16 a1 a0) (of_be16 v1 v0) rest) u) p.
Proof.
  intros fc Hb Hp. unfold handle_write_single_coil, parse_fields, vet.
  erewrite bind_ok by done. erewrite bind_ok by done.
  rewrite null_write_bits. pose proof impl_write_bits as Hi.
  subst fc. eval_fc.
  set (v := of_be16 v1 v0).
  destruct (write_bits h) as [f|], (dev_write_bits d) as [g|] eqn:Hg; try done;
    cbn [is_null negb first_failing finish]; [|by apply exception_reply_run; lia].
  rewrite <- negb_orb.
  destruct ((v =? MODBUS_COIL_ON) || (v =? MODBUS_COIL_OFF)) eqn:Hv;
    cbn [negb first_failing finish]; [|by apply exception_reply_run; lia].
  erewrite bind_ok by done. erewrite bind_ok by done. cbn [serve]. rewrite Hg.
  specialize (Hi (of_be16 a1 a0) [v =? MODBUS_COIL_ON] [] u).
  rewrite app_nil_r in Hi. cbn [length map] in Hi. change (Z.of_nat 1) with 1 in Hi.
  replace (if v =? MODBUS_COIL_ON then 1 else 0) with (Z.b2z (v =? MODBUS_COIL_ON))
    by (by destruct (v =? MODBUS_COIL_ON)).
  rewrite Hi. destruct (g _ _ u) as [rc u'].
  replace (coil_value (v =? MODBUS_COIL_ON)) with v.
  - apply write_reply_run; [done | lia].
  - unfold coil_value. destruct (Z.eqb_spec v MODBUS_COIL_ON); [done|].
    destruct (Z.eqb_spec v MODBUS_COIL_OFF); done.
Qed.

Lemma handle_write_single_register_run a1 a0 v1 v0 rest u p :
  let fc := MODBUS_FUNC_WRITE_SINGLE_REGISTER in
  bytes [a1; a0; v1; v0] -> 253 <= zlen p ->
  handle_write_single_register h (fc :: a1 :: a0 :: v1 :: v0 :: rest) u p =
  reply (finish d (parse_fields d fc (of_be16 a1 a0) (of_be16 v1 v0) rest) u) p.
Proof.
  intros fc Hb Hp. unfold handle_write_single_register, parse_fields, vet.
  erewrite bind_ok by done. erewrite bind_ok by done.
  rewrite null_write_registers. pose proof impl_write_registers as Hi.
  subst fc. eval_fc.
  destruct (write_registers h) as [f|], (dev_write_registers d) as [g|] eqn:Hg; try done;
    cbn [is_null negb first_failing finish]; [|by apply exception_reply_run; lia].
  erewrite bind_ok by done. erewrite bind_ok by done. cbn [serve]. rewrite Hg.
  specialize (Hi (of_be16 a1 a0) [of_be16 v1 v0] [] u). rewrite app_nil_r in Hi.
  cbn [length] in Hi. change (Z.of_nat 1) with 1 in Hi.
  rewrite Hi. destruct (g _ _ u) as [rc u'].
  apply write_reply_run; [done | lia].
Qed.

(** The checks of a write-multiple request, in the order of the code. *)
Lemma write_multiple_guard rest max n v :
  0 <= v -> (in_range v max = true -> 0 <= n < 256) ->
  (5 + zlen rest <=? 5) || (v =? 0) || (max <? v)
    || match rest with
       | [] => true
       | bc :: _ => negb (bc =? u8 n) || negb (5 + zlen rest =? 6 + n)
       end
  = negb (in_range v max && payload n rest).
Proof.
  intros Hv Hn. rewrite <- (orb_assoc _ (v =? 0)), in_range_code by done.
  destruct (in_range v max) eqn:Hr; cbn [negb andb orb].
  - rewrite u8_small by (unfold is_u8; auto). destruct rest as [|bc data].
    + done.
    + cbn [payload]. zbool. rewrite negb_andb. f_equal. f_equal.
      destruct (Z.eqb_spec (zlen data) n); [by zbool | by zbool].
  - by rewrite orb_true_r.
Qed.

Lemma write_multiple_checks fc a1 a0 v1 v0 rest more max n v (u : U) p K :
  0 <= v -> (in_range v max = true -> 0 <= n < 256) -> 2 <= zlen p ->
  (if (5 + zlen rest <=? 5) || (v =? 0) || (max <? v) then
     exception_reply fc MODBUS_EX_ILLEGAL_DATA_VALUE u
   else
     let! bc := lift (load (fc :: a1 :: a0 :: v1 :: v0 :: rest ++ more) 5) in
     if negb (bc =? u8 n) || negb (5 + zlen rest =? 6 + n) then
       exception_reply fc MODBUS_EX_ILLEGAL_DATA_VALUE u
     else K) p
  = if in_range v max && payload n rest then K p
    else reply (Exception fc MODBUS_EX_ILLEGAL_DATA_VALUE, u) p.
Proof.
  intros Hv Hn Hp. pose proof (write_multiple_guard rest max n v Hv Hn) as Hguard.
  destruct ((5 + zlen rest <=? 5) || (v =? 0) || (max <? v)) eqn:Hg1.
  { rewrite orb_true_l in Hguard. apply negb_sym in Hguard. rewrite Hguard.
    by apply exception_reply_run. }
  destruct rest as [|bc data]; [done|]. rewrite orb_false_l in Hguard.
  erewrite bind_ok by done. rewrite Hguard.
  destruct (in_range v max && payload n (bc :: data)); [done|]. by apply exception_reply_run.
Qed.

Lemma unpack_prefix n data more :
  (n <= 8 * length data)%nat -> unpack n (data ++ more) = unpack n data.
Proof.
  intros Hn. unfold unpack. rewrite map_app, concat_app.
  apply take_app_le. rewrite concat_bits_length. lia.
Qed.

Lemma words_of_app n data more :
  (length data = 2 * n)%nat -> take n (words_of (data ++ more)) = words_of data.
Proof.
  revert data. induction n as [|n IH]; intros [|a [|b data]] Hn; try (cbn in Hn; lia); [done|].
  cbn [app words_of take]. f_equal. apply IH. cbn [length] in Hn. lia.
Qed.

Lemma handle_write_coils_run a1 a0 v1 v0 rest more u p :
  let fc := MODBUS_FUNC_WRITE_MULTIPLE_COILS in
  bytes [a1; a0; v1; v0] -> 253 <= zlen p ->
  handle_write_multiple h (fc :: a1 :: a0 :: v1 :: v0 :: rest ++ more) (5 + zlen rest) u p =
  reply (finish d (parse_fields d fc (of_be16 a1 a0) (of_be16 v1 v0) rest) u) p.
Proof.
  intros fc Hb Hp. unfold handle_write_multiple, parse_fields, vet.
  erewrite bind_ok by done. erewrite bind_ok by done.
  rewrite null_write_bits. pose proof impl_write_bits as Hi. subst fc. eval_fc.
  set (v := of_be16 v1 v0). assert (Hv : is_u16 v) by apply of_be16_u16.
  set (addr := of_be16 a1 a0). assert (Ha : is_u16 addr) by apply of_be16_u16.
  destruct (write_bits h) as [f|], (dev_write_bits d) as [g|] eqn:Hg; try done;
    cbn [is_null negb first_failing finish]; [|by apply exception_reply_run; lia].
  rewrite nbytes_of_qty by done. rewrite write_multiple_checks; [|apply Hv| |lia].
  2:{ intros [_ Hmax%Z.leb_le]%andb_true_iff. unfold_defs. unfold nbytes. zint. }
  destruct (in_range v MODBUS_MAX_WRITE_BITS && payload (nbytes v) rest) eqn:Hok;
    cbn [first_failing finish]; [|done].
  apply andb_true_iff in Hok as [[Hr1%Z.leb_le Hr2%Z.leb_le]%andb_true_iff Hpl].
  destruct rest as [|bc data]; [done|].
  apply andb_true_iff in Hpl as [_ Hdata%Z.eqb_eq]. unfold_defs.
  erewrite bind_ok by done. fold addr. rewrite fits_range by done.
  destruct (fits addr v) eqn:Hf; cbn [negb first_failing finish];
    [|by apply exception_reply_run; lia].
  change (padd _ 6) with (data ++ more).
  erewrite bind_ok; [|erewrite bind_ok by
    (apply lift_ok, unpack_bits_run; [done | zlength | rewrite auto_u8_length; lia]);
    cbv beta iota; erewrite bind_ok by done; done].
  rewrite unpack_prefix by (unfold nbytes in *; zint).
  change (drop 1 (bc :: data)) with data. cbn [serve]. rewrite Hg.
  set (bits := unpack (Z.to_nat v) data).
  assert (Hlen : zlen bits = v)
    by (unfold bits; rewrite unpack_length by (unfold nbytes in *; zint); lia).
  set (tl := drop _ _). specialize (Hi addr bits tl u). rewrite Hlen in *. rewrite Hi.
  destruct (g addr bits u) as [rc u']. apply write_reply_run; [done | lia].
Qed.

Lemma handle_write_registers_run a1 a0 v1 v0 rest more u p :
  let fc := MODBUS_FUNC_WRITE_MULTIPLE_REGISTERS in
  bytes [a1; a0; v1; v0] -> 253 <= zlen p ->
  handle_write_multiple h (fc :: a1 :: a0 :: v1 :: v0 :: rest ++ more) (5 + zlen rest) u p =
  reply (finish d (parse_fields d fc (of_be16 a1 a0) (of_be16 v1 v0) rest) u) p.
Proof.
  intros fc Hb Hp. unfold handle_write_multiple, parse_fields, vet.
  erewrite bind_ok by done. erewrite bind_ok by done.
  rewrite null_write_registers. pose proof impl_write_registers as Hi. subst fc. eval_fc.
  set (v := of_be16 v1 v0). assert (Hv : is_u16 v) by apply of_be16_u16.
  set (addr := of_be16 a1 a0). assert (Ha : is_u16 addr) by apply of_be16_u16.
  destruct (write_registers h) as [f|], (dev_write_registers d) as [g|] eqn:Hg; try done;
    cbn [is_null negb first_failing finish]; [|by apply exception_reply_run; lia].
  rewrite write_multiple_checks; [|apply Hv| |lia].
  2:{ intros [Hmin%Z.leb_le Hmax%Z.leb_le]%andb_true_iff. unfold_defs. lia. }
  destruct (in_range v MODBUS_MAX_WRITE_REGISTERS && payload (v * 2) rest) eqn:Hok;
    cbn [first_failing finish]; [|done].
  apply andb_true_iff in Hok as [[Hr1%Z.leb_le Hr2%Z.leb_le]%andb_true_iff Hpl].
  destruct rest as [|bc data]; [done|].
  apply andb_true_iff in Hpl as [_ Hdata%Z.eqb_eq]. unfold_defs.
  erewrite bind_ok by done. fold addr. rewrite fits_range by done.
  destruct (fits addr v) eqn:Hf; cbn [negb first_failing finish];
    [|by apply exception_reply_run; lia].
  change (padd _ 6) with (data ++ more).
  erewrite bind_ok; [|erewrite bind_ok by
    (apply lift_ok, read_words_run; [rewrite auto_u16_length; lia | zlength]);
    cbv beta iota; erewrite bind_ok by done; done].
  rewrite words_of_app by lia.
  change (drop 1 (bc :: data)) with data. cbn [serve]. rewrite Hg.
  assert (Hlen : zlen (words_of data) = v)
    by (rewrite (words_of_length data (Z.to_nat v)); lia).
  set (tl := drop _ _). specialize (Hi addr (words_of data) tl u). rewrite Hlen in *. rewrite Hi.
  destruct (g addr (words_of data) u) as [rc u']. apply write_reply_run; [done | lia].
Qed.

Lemma supported_cases fc :
  supported fc = true ->
  fc = 1 \/ fc = 2 \/ fc = 3 \/ fc = 4 \/ fc = 5 \/ fc = 6 \/ fc = 15 \/ fc = 16.
Proof. unfold supported. intros Hs. lia. Qed.

Lemma supported_mem fc :
  bool_decide (fc ∈ [MODBUS_FUNC_READ_COILS; MODBUS_FUNC_READ_DISCRETE_INPUTS;
    MODBUS_FUNC_READ_HOLDING_REGISTERS; MODBUS_FUNC_READ_INPUT_REGISTERS;
    MODBUS_FUNC_WRITE_SINGLE_COIL; MODBUS_FUNC_WRITE_SINGLE_REGISTER;
    MODBUS_FUNC_WRITE_MULTIPLE_COILS; MODBUS_FUNC_WRITE_MULTIPLE_REGISTERS])
  = supported fc.
Proof.
  unfold_defs. destruct (supported fc) eqn:Hs.
  - apply bool_decide_true. apply supported_cases in Hs.
    rewrite !elem_of_cons. lia.
  - apply bool_decide_false. unfold supported in Hs.
    rewrite !elem_of_cons, elem_of_nil. lia.
Qed.

(** A request with all five fixed bytes: [rest] is what follows them in the
    PDU, [more] is what follows the PDU in its buffer. *)
Lemma handle_fixed_run fc a1 a0 v1 v0 rest more u p :
  bytes [a1; a0; v1; v0] -> 253 <= zlen p -> supported fc = true ->
  mb_pdu_handle_request h (fc :: a1 :: a0 :: v1 :: v0 :: rest ++ more) (5 + zlen rest) u p
  = reply (finish d (parse_fields d fc (of_be16 a1 a0) (of_be16 v1 v0) rest) u) p.
Proof.
  intros Hb Hp Hs. unfold mb_pdu_handle_request.
  erewrite bind_ok by done. rewrite supported_mem, Hs. zbool.
  erewrite bind_ok by done. erewrite bind_ok by done.
  pose proof (of_be16_u16 a1 a0). pose proof (of_be16_u16 v1 v0).
  apply supported_cases in Hs as [->|[->|[->|[->|[->|[->|[->| ->]]]]]]];
    eval_fc; unfold parse_fields; eval_fc.
  - by apply handle_read_bits_run.
  - by apply handle_read_bits_run.
  - by apply handle_read_registers_run.
  - by apply handle_read_registers_run.
  - by apply handle_write_single_coil_run.
  - by apply handle_write_single_register_run.
  - by apply handle_write_coils_run.
  - by apply handle_write_registers_run.
Qed.

(** [mb_pdu_handle_request] refines [respond]. *)
Lemma handle_request_run req n u p :
  bytes req -> 1 <= n <= zlen req -> 253 <= zlen p ->
  mb_pdu_handle_request h req n u p = reply (respond d (take (Z.to_nat n) req) u) p.
Proof.
  intros Hreq [Hn1 Hn2] Hp. rewrite <- (take_drop (Z.to_nat n) req) at 1.
  assert (Hlen : zlen (take (Z.to_nat n) req) = n) by zlength.
  assert (Hpdu : bytes (take (Z.to_nat n) req)) by by apply Forall_take.
  revert Hlen Hpdu. generalize (drop (Z.to_nat n) req) as more.
  generalize (take (Z.to_nat n) req) as pdu. clear req Hreq Hn2. intros pdu more Hn Hb.
  destruct pdu as [|fc body]; [cbn in *; lia|].
  unfold respond. cbn [parse_request app].
  destruct (supported fc) eqn:Hs.
  2:{ unfold mb_pdu_handle_request. erewrite bind_ok by done.
      rewrite supported_mem, Hs. by apply exception_reply_run; lia. }
  destruct (decide (n < 5)) as [Hshort|Hlong].
  - unfold mb_pdu_handle_request. erewrite bind_ok by done.
    rewrite supported_mem, Hs. zbool. rewrite exception_reply_run by lia.
    destruct body as [|a1 [|a0 [|v1 [|v0 rest]]]]; try done. cbn in *; lia.
  - destruct body as [|a1 [|a0 [|v1 [|v0 rest]]]]; try (cbn in *; lia).
    rewrite !Forall_cons_iff in Hb. destruct Hb as (Hfc & ? & ? & ? & ? & _).
    replace n with (5 + zlen rest) by (cbn [length] in *; lia). cbn [app].
    apply handle_fixed_run; [repeat (apply Forall_cons_iff; split; [done|]); constructor | done | done].
Qed.
End Refinement.
