(* ===== verification/PduClient.v ===== *)
(** * The client side of the PDU layer, and the two sides together

    The request builders write [encode_request]; [mb_pdu_check_response]
    accepts exactly the replies that answer the request; a request built by a
    client, dispatched by a server and checked by the client again has the
    effect and the result of the device operation. *)

From S2P Require Import Prelude Buffer Defines Bits Pdu PduSpec.

(** The requests a client sends: known function codes and quantities in range
    (the address range may wrap; the server then answers with an exception). *)
Definition sendable (r : request) : Prop :=
  match r with
  | ReadBits fc addr qty =>
      (fc = MODBUS_FUNC_READ_COILS \/ fc = MODBUS_FUNC_READ_DISCRETE_INPUTS) /\
      is_u16 addr /\ 1 <= qty <= MODBUS_MAX_READ_BITS
  | ReadRegisters fc addr qty =>
      (fc = MODBUS_FUNC_READ_HOLDING_REGISTERS \/ fc = MODBUS_FUNC_READ_INPUT_REGISTERS) /\
      is_u16 addr /\ 1 <= qty <= MODBUS_MAX_READ_REGISTERS
  | WriteCoil addr _ => is_u16 addr
  | WriteRegister addr value => is_u16 addr /\ is_u16 value
  | WriteCoils addr bits => is_u16 addr /\ 1 <= zlen bits <= MODBUS_MAX_WRITE_BITS
  | WriteRegisters addr values =>
      is_u16 addr /\ words values /\ 1 <= zlen values <= MODBUS_MAX_WRITE_REGISTERS
  end.

(** The requests a server can serve: no wrap past the last address either. *)
Definition valid_request (r : request) : Prop :=
  match r with
  | ReadBits fc addr qty =>
      (fc = MODBUS_FUNC_READ_COILS \/ fc = MODBUS_FUNC_READ_DISCRETE_INPUTS) /\
      is_u16 addr /\ 1 <= qty <= MODBUS_MAX_READ_BITS /\ addr + qty <= 0x10000
  | ReadRegisters fc addr qty =>
      (fc = MODBUS_FUNC_READ_HOLDING_REGISTERS \/ fc = MODBUS_FUNC_READ_INPUT_REGISTERS) /\
      is_u16 addr /\ 1 <= qty <= MODBUS_MAX_READ_REGISTERS /\ addr + qty <= 0x10000
  | WriteCoil addr _ => is_u16 addr
  | WriteRegister addr value => is_u16 addr /\ is_u16 value
  | WriteCoils addr bits =>
      is_u16 addr /\ 1 <= zlen bits <= MODBUS_MAX_WRITE_BITS /\ addr + zlen bits <= 0x10000
  | WriteRegisters addr values =>
      is_u16 addr /\ words values /\
      1 <= zlen values <= MODBUS_MAX_WRITE_REGISTERS /\ addr + zlen values <= 0x10000
  end.

Lemma valid_sendable r : valid_request r -> sendable r.
Proof. destruct r; cbn; tauto. Qed.

(** The device has the operation a request needs. *)
Definition offers {U} (d : device U) (r : request) : bool :=
  match r with
  | ReadBits _ _ _ => negb (is_null (dev_read_bits d))
  | ReadRegisters _ _ _ => negb (is_null (dev_read_registers d))
  | WriteCoil _ _ | WriteCoils _ _ => negb (is_null (dev_write_bits d))
  | WriteRegister _ _ | WriteRegisters _ _ => negb (is_null (dev_write_registers d))
  end.

(** ** Builders *)

Lemma encode_request_bound r :
  sendable r -> 5 <= zlen (encode_request r) <= 252.
Proof.
  destruct r; cbn [sendable encode_request]; unfold_defs; intros Hv;
    rewrite ?length_cons, ?length_app, ?be16_length, ?length_cons; try lia.
  - pose proof (packed_length bits). unfold nbytes in *. zint.
  - pose proof (words_be_length values). lia.
Qed.

Lemma build_write_registers_run addr values tl p :
  is_u16 (zlen values) -> 6 + 2 * zlen values <= zlen p ->
  mb_pdu_build_write_registers addr (zlen values) (values ++ tl) p
  = let bs := encode_request (WriteRegisters addr values) in
    Ok (zlen bs, bs ++ drop (length bs) p).
Proof.
  intros Hv Hp. unfold mb_pdu_build_write_registers.
  erewrite bind_ok by (apply build_read_run; lia).
  pose proof (words_be_length values) as Hw.
  destruct p as [|x0 [|x1 [|x2 [|x3 [|x4 [|x5 p]]]]]]; try (cbn [length] in Hp; lia).
  erewrite bind_ok by (apply store_ok; zlength).
  erewrite bind_ok by (apply put_words_run; [lia | zlength | zlength]).
  unfold ret. rewrite Nat2Z.id, take_app_length.
  replace (Z.to_nat (6 + 2 * zlen values)) with (6 + length (words_be values))%nat by lia.
  cbn [encode_request length app]. unfold words_be in *. do 2 f_equal.
  cbn. lia.
Qed.

Lemma build_write_coils_run addr bits values tl p :
  1 <= zlen bits <= 1968 -> map nonzero values = bits -> 253 <= zlen p ->
  mb_pdu_build_write_coils addr (zlen bits) (values ++ tl) p
  = let bs := encode_request (WriteCoils addr bits) in
    Ok (zlen bs, bs ++ drop (length bs) p).
Proof.
  intros Hn <- Hp. rewrite length_map in *. unfold mb_pdu_build_write_coils.
  assert (Hq : is_u16 (zlen values)) by zint.
  rewrite nbytes_of_qty by done.
  assert (Hnb : 0 <= nbytes (zlen values) <= 246) by (unfold nbytes; zint).
  erewrite bind_ok by (apply build_read_run; lia).
  destruct p as [|x0 [|x1 [|x2 [|x3 [|x4 [|x5 p]]]]]]; try (cbn [length] in Hp; lia).
  erewrite bind_ok by (apply store_ok; zlength).
  erewrite bind_ok by (apply at_off_ok; [zlength | apply pack_bits_run; [done | zlength | zlength]]).
  unfold ret. rewrite Nat2Z.id, take_app_length.
  cbn [encode_request]. rewrite length_map. unfold packed. rewrite length_map.
  rewrite !length_cons, !length_app, !be16_length, length_cons, pack_length.
  do 2 f_equal. lia.
Qed.

(** The builder call a client makes for each request. *)
Definition build_request (r : request) : st (list Z) Z :=
  match r with
  | ReadBits fc addr qty | ReadRegisters fc addr qty => mb_pdu_build_read fc addr qty
  | WriteCoil addr on =>
      mb_pdu_build_write_single MODBUS_FUNC_WRITE_SINGLE_COIL addr (coil_value on)
  | WriteRegister addr value =>
      mb_pdu_build_write_single MODBUS_FUNC_WRITE_SINGLE_REGISTER addr value
  | WriteCoils addr bits => mb_pdu_build_write_coils addr (zlen bits) (map Z.b2z bits)
  | WriteRegisters addr values => mb_pdu_build_write_registers addr (zlen values) values
  end.

Lemma build_request_run r p :
  sendable r -> 253 <= zlen p ->
  build_request r p =
    Ok (zlen (encode_request r), encode_request r ++ drop (length (encode_request r)) p).
Proof.
  intros Hr Hp. destruct r; cbn [build_request]; try (rewrite build_read_run by lia; done).
  - rewrite <- (app_nil_r (map Z.b2z bits)). unfold sendable in Hr. unfold_defs.
    rewrite build_write_coils_run; [done | lia | | done].
    rewrite map_map. rewrite <- (map_id bits) at 2. apply map_ext. by intros [].
  - rewrite <- (app_nil_r values) at 2. unfold sendable in Hr. unfold_defs.
    rewrite build_write_registers_run; [done | zint | lia].
Qed.

Lemma encode_request_bytes r : sendable r -> bytes (encode_request r).
Proof.
  intros Hr. assert (Hfc : forall fc l, 1 <= fc <= 16 -> bytes l -> bytes (fc :: l))
    by (intros; constructor; [zint | done]).
  destruct r; cbn [encode_request sendable] in *; unfold_defs;
    apply Hfc; try lia; repeat apply Forall_app_2; try apply be16_bytes;
    constructor; try apply is_u8_u8; [apply pack_bytes | apply words_be_bytes].
Qed.

(** ** The server understands what the client sends *)

Lemma payload_packed bits :
  zlen bits <= 1968 -> payload (nbytes (zlen bits)) (u8 (nbytes (zlen bits)) :: packed bits) = true.
Proof.
  intros Hb. cbn [payload]. rewrite packed_length, u8_small by (unfold nbytes; zint).
  by rewrite !Z.eqb_refl.
Qed.

Lemma payload_words values :
  zlen values <= 123 -> payload (zlen values * 2) (u8 (zlen values * 2) :: words_be values) = true.
Proof.
  intros Hv. cbn [payload]. rewrite words_be_length, u8_small by zint.
  rewrite Z.eqb_refl. by zbool.
Qed.

Lemma in_range_true v max : 1 <= v <= max -> in_range v max = true.
Proof. intros Hv. unfold in_range. by zbool. Qed.

Lemma fits_true addr v : addr + v <= 0x10000 -> fits addr v = true.
Proof. intros Hv. unfold fits. by zbool. Qed.

Lemma unpack_packed bits : unpack (length bits) (packed bits) = bits.
Proof. apply unpack_pack. unfold nbytes. Z.div_mod_to_equations. lia. Qed.

Lemma parse_encode_request {U} (d : device U) r :
  valid_request r -> offers d r = true -> parse_request d (encode_request r) = inr r.
Proof.
  destruct r; cbn [valid_request offers]; unfold_defs; intros Hv Ho.
  all: cbn [encode_request app be16 parse_request].
  all: rewrite ?of_be16_be16 by (unfold coil_value; unfold_defs; repeat case_match; zint).
  - destruct Hv as ([-> | ->] & Ha & Hq & Hf); unfold parse_fields, vet; eval_fc;
      rewrite Ho, in_range_true, fits_true by (unfold_defs; lia); done.
  - destruct Hv as ([-> | ->] & Ha & Hq & Hf); unfold parse_fields, vet; eval_fc;
      rewrite Ho, in_range_true, fits_true by (unfold_defs; lia); done.
  - unfold parse_fields, vet. eval_fc. rewrite Ho. by destruct on.
  - unfold parse_fields, vet. eval_fc. by rewrite Ho.
  - destruct Hv as (Ha & Hq & Hf). unfold parse_fields, vet. eval_fc.
    rewrite Ho, in_range_true, fits_true, payload_packed by (unfold_defs; lia).
    cbn [first_failing andb drop]. rewrite drop_0, Nat2Z.id, unpack_packed. done.
  - destruct Hv as (Ha & Hw & Hq & Hf). unfold parse_fields, vet. eval_fc.
    rewrite Ho, in_range_true, fits_true, payload_words by (unfold_defs; lia).
    cbn [first_failing andb drop]. rewrite drop_0, words_of_words_be by done. done.
Qed.

(** ** The replies a client accepts *)

Definition request_fc (r : request) : Z :=
  match r with
  | ReadBits fc _ _ | ReadRegisters fc _ _ => fc
  | WriteCoil _ _ => MODBUS_FUNC_WRITE_SINGLE_COIL
  | WriteRegister _ _ => MODBUS_FUNC_WRITE_SINGLE_REGISTER
  | WriteCoils _ _ => MODBUS_FUNC_WRITE_MULTIPLE_COILS
  | WriteRegisters _ _ => MODBUS_FUNC_WRITE_MULTIPLE_REGISTERS
  end.

(** A normal reply: for a read the function code, the byte count and that many
    bytes; for a write the echo of the first five bytes of the request. *)
Definition normal_reply (r : request) (bs : list Z) : bool :=
  match r, bs with
  | ReadBits fc _ qty, b0 :: bc :: data =>
      (b0 =? fc) && (bc =? nbytes qty) && (zlen data =? nbytes qty)
  | ReadRegisters fc _ qty, b0 :: bc :: data =>
      (b0 =? fc) && (bc =? qty * 2) && (zlen data =? qty * 2)
  | ReadBits _ _ _, _ | ReadRegisters _ _ _, _ => false
  | _, _ => bool_decide (bs = take 5 (encode_request r))
  end.

Definition verdict (r : request) (bs : list Z) : Z :=
  if normal_reply r bs then 0 else
  match bs with
  | [b0; code] =>
      if (b0 =? request_fc r + 128) && negb (code =? 0) then code else MB_PDU_ERR_FRAME
  | _ => MB_PDU_ERR_FRAME
  end.

Lemma request_fc_flag r :
  sendable r -> u8 (Z.lor (request_fc r) MODBUS_EXCEPTION_FLAG) = request_fc r + 128.
Proof.
  destruct r; cbn [sendable request_fc]; unfold_defs; intros;
    destruct_and?; destruct_or?; subst; done.
Qed.

Lemma encode_request_head r more :
  exists a v rest, encode_request r ++ more = request_fc r :: be16 a ++ be16 v ++ rest /\
    take 5 (encode_request r) = request_fc r :: be16 a ++ be16 v /\
    v = match r with
        | ReadBits _ _ qty | ReadRegisters _ _ qty => qty
        | WriteCoil _ on => coil_value on
        | WriteRegister _ value => value
        | WriteCoils _ bits => zlen bits
        | WriteRegisters _ values => zlen values
        end.
Proof. destruct r; do 3 eexists; (split; [reflexivity | split; reflexivity]). Qed.

Definition is_read (r : request) : bool :=
  match r with ReadBits _ _ _ | ReadRegisters _ _ _ => true | _ => false end.

(** The data byte count a read asks for. *)
Definition read_bytes (r : request) : Z :=
  match r with
  | ReadBits _ _ qty => nbytes qty
  | ReadRegisters _ _ qty => qty * 2
  | _ => 0
  end.

Lemma normal_reply_read r bs :
  is_read r = true ->
  normal_reply r bs = match bs with
    | b0 :: bc :: data =>
        (b0 =? request_fc r) && (bc =? read_bytes r) && (zlen data =? read_bytes r)
    | _ => false
    end.
Proof. destruct r; try done; intros _; by destruct bs as [|b0 [|bc data]]. Qed.

Lemma normal_reply_write r bs :
  is_read r = false -> normal_reply r bs = bool_decide (bs = take 5 (encode_request r)).
Proof. by destruct r. Qed.

Lemma normal_reply_head r b0 t : normal_reply r (b0 :: t) = true -> b0 = request_fc r.
Proof.
  destruct (is_read r) eqn:Hr.
  - rewrite normal_reply_read by done. destruct t as [|bc data]; [done|].
    intros [[Hb%Z.eqb_eq _]%andb_true_iff _]%andb_true_iff. done.
  - rewrite normal_reply_write by done. intros Heq%bool_decide_eq_true.
    destruct (encode_request_head r []) as (a & v & rest & _ & Ht & _). congruence.
Qed.

Lemma request_fc_read r :
  sendable r ->
  bool_decide (request_fc r ∈ [MODBUS_FUNC_READ_COILS; MODBUS_FUNC_READ_DISCRETE_INPUTS;
    MODBUS_FUNC_READ_HOLDING_REGISTERS; MODBUS_FUNC_READ_INPUT_REGISTERS]) = is_read r.
Proof. destruct r; cbn; intros; destruct_and?; destruct_or?; subst; done. Qed.

Lemma request_fc_write r :
  is_read r = false ->
  bool_decide (request_fc r ∈ [MODBUS_FUNC_WRITE_SINGLE_COIL;
    MODBUS_FUNC_WRITE_SINGLE_REGISTER; MODBUS_FUNC_WRITE_MULTIPLE_COILS;
    MODBUS_FUNC_WRITE_MULTIPLE_REGISTERS]) = true.
Proof. by destruct r. Qed.

Lemma request_fc_bound r : sendable r -> 1 <= request_fc r <= 16.
Proof. destruct r; cbn; unfold_defs; intros; destruct_and?; destruct_or?; subst; lia. Qed.

Lemma read_bytes_bound r : sendable r -> 0 <= read_bytes r <= 250.
Proof. destruct r; cbn; unfold_defs; unfold nbytes; zint. Qed.

(** The quantity (or value) field of a request, and the byte count the client
    computes from it. *)
Definition request_field (r : request) : Z :=
  match r with
  | ReadBits _ _ qty | ReadRegisters _ _ qty => qty
  | WriteCoil _ on => coil_value on
  | WriteRegister _ value => value
  | WriteCoils _ bits => zlen bits
  | WriteRegisters _ values => zlen values
  end.

Lemma request_field_u16 r : sendable r -> is_u16 (request_field r).
Proof.
  destruct r; cbn [sendable request_field]; unfold coil_value; unfold_defs;
    intros; repeat case_match; zint.
Qed.

Lemma read_bytes_field r :
  sendable r -> is_read r = true ->
  (if request_fc r <=? MODBUS_FUNC_READ_DISCRETE_INPUTS
   then bit_byte_count (request_field r) else request_field r * 2) = read_bytes r.
Proof.
  intros Hv. pose proof (request_field_u16 r Hv) as Hf. revert Hv Hf.
  destruct r; cbn; try done; intros Hv Hf _; destruct_and?; destruct_or?; subst; try done;
    by apply nbytes_of_qty.
Qed.

Lemma check_response_run r j bs more :
  sendable r ->
  mb_pdu_check_response (encode_request r ++ j) (bs ++ more) (zlen bs) = Ok (verdict r bs).
Proof.
  intros Hr. destruct (encode_request_head r j) as (a & v & rest & -> & Htake & Hv).
  assert (v = request_field r) as -> by done. clear Hv.
  pose proof (request_field_u16 r Hr) as Hvu. pose proof (request_fc_bound r Hr) as Hfc.
  pose proof (read_bytes_bound r Hr) as Hrb.
  unfold mb_pdu_check_response. erewrite obind_ok by done.
  erewrite obind_ok by done. cbn [be16 app].
  rewrite of_be16_be16, (request_fc_flag r Hr), (request_fc_read r Hr) by done.
  destruct bs as [|b0 t].
  { unfold verdict. destruct (normal_reply r []) eqn:Hn; [|done].
    destruct (is_read r) eqn:Hread; [by rewrite normal_reply_read in Hn|].
    rewrite normal_reply_write, Htake in Hn by done. by apply bool_decide_eq_true in Hn. }
  replace (zlen (b0 :: t) <? 1) with false by (symmetry; apply Z.ltb_ge; zlength).
  erewrite obind_ok by done.
  destruct (Z.eqb_spec b0 (request_fc r + 128)) as [->|Hne].
  { unfold verdict. destruct (normal_reply r _) eqn:Hn; [apply normal_reply_head in Hn; lia|].
    destruct t as [|c [|c' t]]; try done; zbool; [|done].
    erewrite obind_ok by done. by destruct (c =? 0). }
  assert (Hverdict : verdict r (b0 :: t)
    = if normal_reply r (b0 :: t) then 0 else MB_PDU_ERR_FRAME).
  { unfold verdict. destruct (normal_reply r (b0 :: t)); [done|].
    destruct t as [|c [|]]; try done. by zbool. }
  rewrite Hverdict. clear Hverdict.
  destruct (Z.eqb_spec b0 (request_fc r)) as [->|Hne']; cbn [negb].
  2:{ destruct (normal_reply r _) eqn:Hn; [by apply normal_reply_head in Hn|done]. }
  destruct (is_read r) eqn:Hread.
  - rewrite read_bytes_field, normal_reply_read by done.
    destruct t as [|bc data]; [by zbool|]. rewrite Z.eqb_refl. cbn [andb].
    replace (zlen (request_fc r :: bc :: data) =? 2 + read_bytes r) with (zlen data =? read_bytes r)
      by (destruct (Z.eqb_spec (zlen data) (read_bytes r)); by zbool).
    rewrite andb_comm. destruct (zlen data =? read_bytes r); [|done]. cbn [negb andb].
    erewrite obind_ok by done. rewrite u8_small by (unfold is_u8; lia).
    by destruct (bc =? read_bytes r).
  - rewrite request_fc_write, normal_reply_write, Htake by done.
    destruct (Z.eqb_spec (zlen (request_fc r :: t)) 5) as [Hl|Hl]; cbn [negb].
    + erewrite obind_ok by (apply memcmp_eq_ok; unfold padd; zlength).
      destruct t as [|t1 [|t2 [|t3 [|t4 [|]]]]]; try (cbn in Hl; lia).
      cbn [padd app]. clear Hfc Hrb. repeat case_bool_decide; naive_solver.
    + case_bool_decide as Heq; [|done]. exfalso. apply Hl. by rewrite Heq.
Qed.

(** ** Reading the data out of a reply *)

Lemma get_registers_run fc bc data more qty out :
  0 <= qty <= zlen out -> zlen data = 2 * qty ->
  mb_pdu_get_registers (fc :: bc :: data ++ more) qty out
  = Ok (tt, words_of data ++ drop (Z.to_nat qty) out).
Proof.
  intros Hq Hd. unfold mb_pdu_get_registers.
  rewrite <- (words_of_app (Z.to_nat qty) data more), <- words_of_prefix by (zlength || lia).
  apply (store_each_run (fun i => get_u16 (padd (fc :: bc :: data ++ more) (2 + i * 2)))); [done|].
  intros i Hi. rewrite get_u16_at by zlength.
  replace (Z.to_nat (2 + i * 2)) with (S (S (Z.to_nat (i * 2)))) by lia.
  replace (Z.to_nat (2 + i * 2 + 1)) with (S (S (Z.to_nat (i * 2 + 1)))) by lia. done.
Qed.

Lemma get_bits_run fc bc data more qty out :
  is_u16 qty -> qty <= zlen out -> nbytes qty <= zlen data ->
  mb_pdu_get_bits (fc :: bc :: data ++ more) qty out
  = Ok (tt, map Z.b2z (unpack (Z.to_nat qty) data) ++ drop (Z.to_nat qty) out).
Proof.
  intros Hq Ho Hd. unfold mb_pdu_get_bits.
  change (padd (fc :: bc :: data ++ more) 2) with (data ++ more).
  rewrite unpack_bits_run by (done || zlength).
  by rewrite unpack_prefix by (unfold nbytes in *; zint).
Qed.

(** ** Both sides together *)

Definition exception_code (resp : response) : Z :=
  match resp with Exception _ code => code | _ => 0 end.

Lemma exception_from_callback_rc_bound rc : 1 <= exception_from_callback_rc rc <= 11.
Proof.
  unfold exception_from_callback_rc. unfold_defs. case_bool_decide as Hin; [|done].
  rewrite !elem_of_cons, elem_of_nil in Hin. destruct_or?; subst; done || lia.
Qed.

Lemma verdict_exception r fc code :
  sendable r -> fc = request_fc r -> 1 <= code ->
  verdict r (encode_response (Exception fc code)) = code.
Proof.
  intros Hr -> Hc. cbn [encode_response]. rewrite request_fc_flag by done.
  unfold verdict. destruct (normal_reply r _) eqn:Hn; [apply normal_reply_head in Hn; lia|].
  by zbool.
Qed.

Lemma verdict_written r :
  is_read r = false -> verdict r (take 5 (encode_request r)) = 0.
Proof. intros Hr. unfold verdict. rewrite normal_reply_write by done. by rewrite bool_decide_true. Qed.

Section Loopback.
Context `{Indet} {U : Type} (h : mb_pdu_handlers U) (d : device U) `{!Implements h d}.

(** The verdict of a client on the reply of the device. *)
Lemma verdict_serve r u :
  valid_request r -> offers d r = true ->
  verdict r (encode_response (fst (serve d r u))) = exception_code (fst (serve d r u)).
Proof.
  intros Hr Ho. pose proof (exception_from_callback_rc_bound) as Hexc.
  assert (Hw : forall fc addr v (res : Z * U), fc = request_fc r -> is_read r = false ->
    take 5 (encode_request r) = fc :: be16 addr ++ be16 v ->
    let x := fst (write_result fc addr v res) in
    verdict r (encode_response x) = exception_code x).
  { intros fc addr v [rc u'] -> Hread Ht. unfold write_result. destruct (rc =? 0); cbn [fst].
    - cbn [encode_response exception_code]. rewrite <- Ht. by apply verdict_written.
    - apply verdict_exception; [by apply valid_sendable | done | apply Hexc]. }
  destruct r; cbn [offers serve] in *.
  - pose proof (impl_read_bits (h := h) (d := d)) as Hi.
    destruct (dev_read_bits d) as [g|]; [|done].
    destruct (read_bits h) as [f|]; [|done].
    pose proof Hr as (Hfc & Ha & Hq & Hf). unfold_defs.
    specialize (Hi fc addr qty (replicate (Z.to_nat qty) 0) u).
    rewrite length_replicate in Hi. specialize (Hi ltac:(lia)).
    rewrite take_ge in Hi by (rewrite length_replicate; lia). specialize (Hi eq_refl).
    destruct (g fc addr qty u) as [[e|bits] u'].
    + apply verdict_exception; [by apply valid_sendable | done | apply Hexc].
    + destruct (f _ _ _ _ _) as [[rc out] u'']. destruct Hi as (_ & _ & Hlen & _).
      cbn [fst encode_response exception_code]. unfold verdict. cbn [normal_reply].
      rewrite packed_length, Hlen, u8_small by (unfold nbytes; zint). by rewrite !Z.eqb_refl.
  - pose proof (impl_read_registers (h := h) (d := d)) as Hi.
    destruct (dev_read_registers d) as [g|]; [|done].
    destruct (read_registers h) as [f|]; [|done].
    pose proof Hr as (Hfc & Ha & Hq & Hf). unfold_defs.
    specialize (Hi fc addr qty (replicate (Z.to_nat qty) 0) u).
    rewrite length_replicate in Hi. specialize (Hi ltac:(lia)).
    destruct (g fc addr qty u) as [[e|values] u'].
    + apply verdict_exception; [by apply valid_sendable | done | apply Hexc].
    + destruct (f _ _ _ _ _) as [[rc out] u'']. destruct Hi as (_ & _ & Hlen & _).
      cbn [fst encode_response exception_code]. unfold verdict. cbn [normal_reply].
      rewrite words_be_length, Hlen, u8_small by zint. rewrite !Z.eqb_refl. by zbool.
  - destruct (dev_write_bits d) as [g|]; [|done]. by apply Hw.
  - destruct (dev_write_registers d) as [g|]; [|done]. by apply Hw.
  - destruct (dev_write_bits d) as [g|]; [|done]. by apply Hw.
  - destruct (dev_write_registers d) as [g|]; [|done]. by apply Hw.
Qed.

(** Every reply fits in a PDU. *)
Definition read_in_range (r : request) : Prop :=
  match r with
  | ReadBits _ _ qty => 1 <= qty <= MODBUS_MAX_READ_BITS
  | ReadRegisters _ _ qty => 1 <= qty <= MODBUS_MAX_READ_REGISTERS
  | _ => True
  end.

Lemma serve_bound r u :
  read_in_range r -> 2 <= zlen (encode_response (fst (serve d r u))) <= 253.
Proof.
  intros Hr.
  assert (Hw : forall fc addr v (res : Z * U),
    2 <= zlen (encode_response (fst (write_result fc addr v res))) <= 253).
  { intros fc addr v [rc u']. unfold write_result. destruct (rc =? 0); cbn; lia. }
  destruct r; cbn [serve read_in_range] in *; unfold_defs.
  - pose proof (impl_read_bits (h := h) (d := d)) as Hi.
    destruct (dev_read_bits d) as [g|], (read_bits h) as [f|]; try (cbn; lia); [|done].
    specialize (Hi fc addr qty (replicate (Z.to_nat qty) 0) u).
    rewrite length_replicate in Hi. specialize (Hi ltac:(lia)).
    rewrite take_ge in Hi by (rewrite length_replicate; lia). specialize (Hi eq_refl).
    destruct (f _ _ _ _ _) as [[rc out] u''].
    destruct (g fc addr qty u) as [[e|bits] u']; [cbn; lia|].
    destruct Hi as (_ & _ & Hlen & _). pose proof (packed_length bits) as Hpl.
    cbn [fst encode_response]. rewrite !length_cons. unfold nbytes in *. zint.
  - pose proof (impl_read_registers (h := h) (d := d)) as Hi.
    destruct (dev_read_registers d) as [g|], (read_registers h) as [f|]; try (cbn; lia); [|done].
    specialize (Hi fc addr qty (replicate (Z.to_nat qty) 0) u).
    rewrite length_replicate in Hi. specialize (Hi ltac:(lia)).
    destruct (f _ _ _ _ _) as [[rc out] u''].
    destruct (g fc addr qty u) as [[e|values] u']; [cbn; lia|].
    destruct Hi as (_ & _ & Hlen & _). pose proof (words_be_length values) as Hwl.
    cbn [fst encode_response]. rewrite !length_cons. lia.
  - destruct (dev_write_bits d); [apply Hw | cbn; lia].
  - destruct (dev_write_registers d); [apply Hw | cbn; lia].
  - destruct (dev_write_bits d); [apply Hw | cbn; lia].
  - destruct (dev_write_registers d); [apply Hw | cbn; lia].
Qed.

Lemma vet_inr fc checks r r' :
  vet fc checks r = inr r' -> r' = r /\ Forall (fun c => fst c = true) checks.
Proof.
  unfold vet. induction checks as [|[b code] cs IH]; cbn [first_failing]; [naive_solver|].
  destruct b; [|done]. intros Hv. destruct (IH Hv). split; [done|]. by constructor.
Qed.

Lemma parse_in_range pdu r : parse_request d pdu = inr r -> read_in_range r.
Proof.
  destruct pdu as [|fc [|a1 [|a0 [|v1 [|v0 rest]]]]]; cbn [parse_request];
    [done | case_match; done.. |].
  destruct (supported fc); [|done]. unfold parse_fields.
  repeat case_match; try done; intros [-> Hc]%vet_inr; try done; cbn [read_in_range];
    apply Forall_cons_iff in Hc as [_ Hc]; apply Forall_cons_iff in Hc as [Hq _];
    cbn [fst] in Hq; unfold in_range in Hq; lia.
Qed.

Lemma respond_bound pdu u :
  2 <= zlen (encode_response (fst (respond d pdu u))) <= 253.
Proof.
  unfold respond. destruct (parse_request d pdu) as [e|r] eqn:Hp; cbn [finish].
  - assert (exists fc code, e = Exception fc code) as (fc & code & ->); [|cbn; lia].
    revert Hp. unfold parse_request, parse_fields, vet. repeat case_match; naive_solver.
  - apply serve_bound. by apply (parse_in_range pdu).
Qed.

(** The device answers as many values as were asked for. *)
Lemma serve_read_registers_length fc addr qty u g values u' :
  valid_request (ReadRegisters fc addr qty) ->
  dev_read_registers d = Some g -> g fc addr qty u = (inr values, u') -> zlen values = qty.
Proof.
  intros (_ & _ & Hq & _) Hg Hv. pose proof (impl_read_registers (h := h) (d := d)) as Hi.
  rewrite Hg in Hi. destruct (read_registers h) as [f|]; [|done].
  specialize (Hi fc addr qty (replicate (Z.to_nat qty) 0) u).
  rewrite length_replicate in Hi. specialize (Hi ltac:(lia)). rewrite Hv in Hi.
  destruct (f _ _ _ _ _) as [[rc out] u'']. apply Hi.
Qed.

Lemma serve_read_bits_length fc addr qty u g bits u' :
  valid_request (ReadBits fc addr qty) ->
  dev_read_bits d = Some g -> g fc addr qty u = (inr bits, u') -> zlen bits = qty.
Proof.
  intros (_ & _ & Hq & _) Hg Hv. pose proof (impl_read_bits (h := h) (d := d)) as Hi.
  rewrite Hg in Hi. destruct (read_bits h) as [f|]; [|done].
  specialize (Hi fc addr qty (replicate (Z.to_nat qty) 0) u).
  rewrite length_replicate in Hi. specialize (Hi ltac:(lia)).
  rewrite take_ge in Hi by (rewrite length_replicate; lia). specialize (Hi eq_refl).
  rewrite Hv in Hi. destruct (f _ _ _ _ _) as [[rc out] u'']. apply Hi.
Qed.

(** A valid request through the server and back. *)
Lemma loopback_run r u pdu resp :
  valid_request r -> offers d r = true -> bytes pdu -> 253 <= zlen pdu -> 253 <= zlen resp ->
  exists req resp' n len,
    build_request r pdu = Ok (n, req) /\
    mb_pdu_handle_request h req n u resp = Ok ((len, snd (serve d r u)), resp') /\
    mb_pdu_check_response req resp' len = Ok (exception_code (fst (serve d r u))) /\
    exists tl, resp' = encode_response (fst (serve d r u)) ++ tl.
Proof.
  intros Hr Ho Hb Hp Hresp. pose proof (valid_sendable r Hr) as Hs. pose proof (encode_request_bound r Hs) as Hlen.
  do 4 eexists. split; [by apply build_request_run|].
  rewrite (handle_request_run h d); [| |zlength|done].
  2:{ apply Forall_app_2; [by apply encode_request_bytes | by apply Forall_drop]. }
  rewrite Nat2Z.id, take_app_length. unfold respond. rewrite parse_encode_request by done.
  split; [done|]. cbn [finish fst snd].
  rewrite check_response_run, verdict_serve by done. split; [done|]. by eexists.
Qed.
End Loopback.
