(* ===== verification/PduReplies.v ===== *)
(** * What a client stores

    The data of a reply in the caller's array, and the device's answer seen
    through it: shared by the TCP and the RTU client. *)

From S2P Require Import Prelude Buffer Defines Bits Pdu PduSpec PduClient.

(** The cells a reply to [r] stores. *)
Definition reply_cells (r : request) (reply : list Z) : list Z :=
  match r with
  | ReadRegisters _ _ qty => words_of (take (Z.to_nat (2 * qty)) (drop 2 reply))
  | ReadBits _ _ qty => map Z.b2z (unpack (Z.to_nat qty) (drop 2 reply))
  | _ => []
  end.

(** The cells a read request needs in the caller's array. *)
Definition cells (r : request) : Z :=
  match r with ReadRegisters _ _ qty | ReadBits _ _ qty => qty | _ => 0 end.

(** What a successful call leaves in the caller's array. *)
Definition stored (r : request) (reply out : list Z) : list Z :=
  reply_cells r reply ++ drop (Z.to_nat (cells r)) out.

Lemma verdict_ok r bs : verdict r bs = 0 -> normal_reply r bs = true.
Proof.
  unfold verdict. destruct (normal_reply r bs); [done|].
  destruct bs as [|b0 [|c [|? ?]]]; try done.
  destruct (Z.eqb_spec c 0); [by rewrite andb_false_r|]. by destruct (b0 =? _).
Qed.

Lemma get_registers_reply fc addr qty reply more out :
  normal_reply (ReadRegisters fc addr qty) reply = true -> 0 <= qty <= zlen out ->
  mb_pdu_get_registers (reply ++ more) qty out = Ok (tt, stored (ReadRegisters fc addr qty) reply out).
Proof.
  destruct reply as [|b0 [|bc data]]; [done..|]. cbn [normal_reply].
  intros [[_ _]%andb_true_iff Hl%Z.eqb_eq]%andb_true_iff Hq.
  rewrite <- !app_comm_cons, get_registers_run by lia.
  unfold stored, reply_cells, cells. cbn [drop]. rewrite drop_0, take_ge by lia. done.
Qed.

Lemma get_bits_reply fc addr qty reply more out :
  normal_reply (ReadBits fc addr qty) reply = true -> is_u16 qty -> qty <= zlen out ->
  mb_pdu_get_bits (reply ++ more) qty out = Ok (tt, stored (ReadBits fc addr qty) reply out).
Proof.
  destruct reply as [|b0 [|bc data]]; [done..|]. cbn [normal_reply].
  intros [[_ _]%andb_true_iff Hl%Z.eqb_eq]%andb_true_iff Hq Ho.
  rewrite <- !app_comm_cons, get_bits_run by lia || done.
  unfold stored, reply_cells, cells. cbn [drop]. by rewrite drop_0.
Qed.

Lemma stored_app r reply more out :
  sendable r -> normal_reply r reply = true -> stored r (reply ++ more) out = stored r reply out.
Proof.
  intros Hr Hn. unfold stored. f_equal. destruct r; try done;
    destruct reply as [|b0 [|bc data]]; try done; cbn [normal_reply reply_cells app drop] in *;
    apply andb_true_iff in Hn as [_ Hl%Z.eqb_eq]; rewrite !drop_0; destruct Hr as (_ & _ & Hq); unfold_defs.
  - f_equal. apply unpack_prefix. unfold nbytes in *. zint.
  - by rewrite take_app_le by lia.
Qed.

(** The caller's array is large enough. *)
Definition room (r : request) (out : list Z) : Prop := cells r <= zlen out.

Lemma stored_registers_length fc addr qty reply more out :
  sendable (ReadRegisters fc addr qty) -> normal_reply (ReadRegisters fc addr qty) reply = true ->
  room (ReadRegisters fc addr qty) out ->
  length (stored (ReadRegisters fc addr qty) (reply ++ more) out) = length out.
Proof.
  unfold room. cbn [cells]. intros Hr Hn Hroom. rewrite stored_app by done. destruct Hr as (_ & _ & Hq).
  destruct reply as [|b0 [|bc data]]; try done. cbn [normal_reply] in Hn.
  apply andb_true_iff in Hn as [_ Hl%Z.eqb_eq]. unfold stored. cbn [reply_cells cells drop]. rewrite drop_0.
  rewrite length_app, length_drop, (words_of_length _ (Z.to_nat qty)) by (rewrite length_take; lia). lia.
Qed.

(** ** The client's view of the device *)

(** What the caller's array holds after the device has answered [x]. *)
Definition filled (x : response) (out : list Z) : list Z :=
  match x with
  | RegistersRead _ values => values ++ drop (length values) out
  | BitsRead _ bits => map Z.b2z bits ++ drop (length bits) out
  | _ => out
  end.

(** Register values are 16-bit words. *)
Definition has_words (x : response) : Prop :=
  match x with RegistersRead _ values => words values | _ => True end.

Section Device.
Context `{Indet} {U : Type} (h : mb_pdu_handlers U) (d : device U) `{!Implements h d}.

Lemma stored_serve r u out :
  valid_request r -> offers d r = true -> has_words (fst (serve d r u)) ->
  exception_code (fst (serve d r u)) = 0 ->
  stored r (encode_response (fst (serve d r u))) out = filled (fst (serve d r u)) out.
Proof.
  intros Hr Ho Hw Hx.
  assert (forall fc addr v (res : Z * U), filled (fst (write_result fc addr v res)) out = out) as Hwr
    by (intros fc addr v [rc u']; unfold write_result; by destruct (rc =? 0)).
  assert (is_read r = false -> forall bs, stored r bs out = out) as Hst.
  { destruct r; intros; try done; unfold stored; cbn [cells reply_cells]; by rewrite drop_0. }
  destruct r as [fc addr qty|fc addr qty| | | |]; cbn [serve offers] in *.
  - destruct (dev_read_bits d) as [g|] eqn:Hg; [|done].
    destruct (g fc addr qty u) as [[e|bits] u'] eqn:Hgu.
    { cbn [fst exception_code] in Hx. pose proof (exception_from_callback_rc_bound e). lia. }
    pose proof (serve_read_bits_length h d _ _ _ _ _ _ _ Hr Hg Hgu) as Hl.
    cbn [fst filled encode_response]. unfold stored. cbn [reply_cells cells drop]. rewrite drop_0.
    replace (Z.to_nat qty) with (length bits) by lia. by rewrite unpack_packed.
  - destruct (dev_read_registers d) as [g|] eqn:Hg; [|done].
    destruct (g fc addr qty u) as [[e|values] u'] eqn:Hgu.
    { cbn [fst exception_code] in Hx. pose proof (exception_from_callback_rc_bound e). lia. }
    pose proof (serve_read_registers_length h d _ _ _ _ _ _ _ Hr Hg Hgu) as Hl.
    cbn [fst filled encode_response has_words] in *. unfold stored. cbn [reply_cells cells drop].
    rewrite drop_0, take_ge by (pose proof (words_be_length values); lia).
    rewrite words_of_words_be by done. do 2 f_equal. lia.
  - destruct (dev_write_bits d) as [g|]; [|done]. rewrite Hwr. by apply Hst.
  - destruct (dev_write_registers d) as [g|]; [|done]. rewrite Hwr. by apply Hst.
  - destruct (dev_write_bits d) as [g|]; [|done]. rewrite Hwr. by apply Hst.
  - destruct (dev_write_registers d) as [g|]; [|done]. rewrite Hwr. by apply Hst.
Qed.

Lemma serve_code r u : 0 <= exception_code (fst (serve d r u)).
Proof.
  pose proof exception_from_callback_rc_bound as He.
  assert (forall fc addr v (res : Z * U), 0 <= exception_code (fst (write_result fc addr v res))) as Hwr.
  { intros fc addr v [rc u']. unfold write_result. pose proof (He rc). destruct (rc =? 0); cbn; lia. }
  destruct r; cbn [serve].
  - destruct (dev_read_bits d) as [g|]; [|done].
    destruct (g fc addr qty u) as [[e|bits] u']; cbn; [pose proof (He e); lia | done].
  - destruct (dev_read_registers d) as [g|]; [|done].
    destruct (g fc addr qty u) as [[e|values] u']; cbn; [pose proof (He e); lia | done].
  - destruct (dev_write_bits d); [apply Hwr | done].
  - destruct (dev_write_registers d); [apply Hwr | done].
  - destruct (dev_write_bits d); [apply Hwr | done].
  - destruct (dev_write_registers d); [apply Hwr | done].
Qed.
End Device.

(** Responses are bytes. *)
Lemma response_bytes {U} (d : device U) r u :
  valid_request r -> offers d r = true -> bytes (encode_response (fst (serve d r u))).
Proof.
  intros Hr Ho. pose proof exception_from_callback_rc_bound as Hexc.
  assert (forall fc e, 0 <= fc < 256 -> bytes (encode_response (Exception fc (exception_from_callback_rc e)))) as Hx.
  { intros fc e Hfc. cbn. apply List.Forall_cons; [apply is_u8_u8|]. apply List.Forall_cons; [|apply List.Forall_nil].
    pose proof (Hexc e). unfold is_u8. lia. }
  assert (forall fc addr v (res : Z * U), 0 <= fc < 256 -> bytes (encode_response (fst (write_result fc addr v res)))) as Hw.
  { intros fc addr v [rc u'] Hfc. unfold write_result. destruct (rc =? 0); cbn [fst]; [|by apply Hx].
    cbn [encode_response]. apply List.Forall_cons; [done|]. apply Forall_app_2; apply be16_bytes. }
  destruct r as [fc addr qty|fc addr qty| | | |]; cbn [serve offers] in *.
  - destruct (dev_read_bits d) as [g|]; [|done]. destruct Hr as (Hfc & _).
    assert (0 <= fc < 256) by (unfold_defs; lia).
    destruct (g fc addr qty u) as [[e|bits] u']; [by apply Hx|]. cbn.
    apply List.Forall_cons; [done|]. apply List.Forall_cons; [apply is_u8_u8 | apply pack_bytes].
  - destruct (dev_read_registers d) as [g|]; [|done]. destruct Hr as (Hfc & _).
    assert (0 <= fc < 256) by (unfold_defs; lia).
    destruct (g fc addr qty u) as [[e|values] u']; [by apply Hx|]. cbn.
    apply List.Forall_cons; [done|]. apply List.Forall_cons; [apply is_u8_u8 | apply words_be_bytes].
  - destruct (dev_write_bits d); [by apply Hw | done].
  - destruct (dev_write_registers d); [by apply Hw | done].
  - destruct (dev_write_bits d); [by apply Hw | done].
  - destruct (dev_write_registers d); [by apply Hw | done].
Qed.
