(* ===== verification/Bank.v ===== *)
(** * A register bank behind the callbacks

    The application of the end-to-end test ([test/test_modbus_rtu.c], the
    [e2e_*] callbacks): 64 registers and 64 coils.  It is the concrete
    instance of the callback contract the rest of the development is
    parameterised by, so the witnesses run on it. *)

From S2P Require Import Prelude Buffer Defines Bits Pdu PduSpec.

Definition E2E_BANK_SIZE : Z := 64.

Record bank := Bank {
  e2e_regs : list Z;
  e2e_coils : list Z;
}.

Definition bank_ok (b : bank) : Prop :=
  zlen (e2e_regs b) = E2E_BANK_SIZE /\ words (e2e_regs b) /\ zlen (e2e_coils b) = E2E_BANK_SIZE.

(** [memcpy(&dst[addr], data, qty cells)] *)
Definition splice (dst : list Z) (addr : Z) (data : list Z) : list Z :=
  take (Z.to_nat addr) dst ++ data ++ drop (Z.to_nat (addr + zlen data)) dst.

(** The value FC03 / FC04 reads at one address, and FC01 / FC02. *)
Definition reg_value (b : bank) (function_code a : Z) : Z :=
  u16 (e2e_regs b !!! Z.to_nat a
       + (if function_code =? MODBUS_FUNC_READ_INPUT_REGISTERS then 1 else 0)).
Definition coil_cell (b : bank) (function_code a : Z) : Z :=
  if function_code =? MODBUS_FUNC_READ_COILS then e2e_coils b !!! Z.to_nat a
  else if a mod 2 =? 0 then 1 else 0.

Definition e2e_read (function_code addr qty : Z) (out : list Z) (b : bank) : Z * list Z * bank :=
  if E2E_BANK_SIZE <? u32 (addr + qty) then (MODBUS_EX_ILLEGAL_DATA_ADDRESS, out, b)
  else (0, map (fun i => reg_value b function_code (addr + i)) (seqZ 0 qty)
           ++ drop (Z.to_nat qty) out, b).

Definition e2e_write (addr qty : Z) (data : list Z) (b : bank) : Z * bank :=
  if E2E_BANK_SIZE <? u32 (addr + qty) then (MODBUS_EX_ILLEGAL_DATA_ADDRESS, b)
  else (0, Bank (splice (e2e_regs b) addr (take (Z.to_nat qty) data)) (e2e_coils b)).

Definition e2e_read_bits (function_code addr qty : Z) (out : list Z) (b : bank)
    : Z * list Z * bank :=
  if E2E_BANK_SIZE <? u32 (addr + qty) then (MODBUS_EX_ILLEGAL_DATA_ADDRESS, out, b)
  else (0, map (fun i => coil_cell b function_code (u16 (addr + i))) (seqZ 0 qty)
           ++ drop (Z.to_nat qty) out, b).

Definition e2e_write_bits (addr qty : Z) (bits : list Z) (b : bank) : Z * bank :=
  if E2E_BANK_SIZE <? u32 (addr + qty) then (MODBUS_EX_ILLEGAL_DATA_ADDRESS, b)
  else (0, Bank (e2e_regs b) (splice (e2e_coils b) addr (take (Z.to_nat qty) bits))).

Definition bank_handlers : mb_pdu_handlers bank :=
  MkHandlers (Some e2e_read) (Some e2e_write) (Some e2e_read_bits) (Some e2e_write_bits).

(** The same application as a device. *)
Definition out_of_bank (addr qty : Z) : bool := E2E_BANK_SIZE <? u32 (addr + qty).

Definition bank_device : device bank := Device
  (Some (fun fc addr qty b =>
     if out_of_bank addr qty then (inl MODBUS_EX_ILLEGAL_DATA_ADDRESS, b)
     else (inr (map (fun i => reg_value b fc (addr + i)) (seqZ 0 qty)), b)))
  (Some (fun addr values b =>
     if out_of_bank addr (zlen values) then (MODBUS_EX_ILLEGAL_DATA_ADDRESS, b)
     else (0, Bank (splice (e2e_regs b) addr values) (e2e_coils b))))
  (Some (fun fc addr qty b =>
     if out_of_bank addr qty then (inl MODBUS_EX_ILLEGAL_DATA_ADDRESS, b)
     else (inr (map (fun i => nonzero (coil_cell b fc (u16 (addr + i)))) (seqZ 0 qty)), b)))
  (Some (fun addr bits b =>
     if out_of_bank addr (zlen bits) then (MODBUS_EX_ILLEGAL_DATA_ADDRESS, b)
     else (0, Bank (e2e_regs b) (splice (e2e_coils b) addr (map Z.b2z bits))))).

#[export] Instance bank_implements : Implements bank_handlers bank_device.
Proof.
  split; cbn; unfold out_of_bank.
  - intros fc addr qty out b Hq. unfold e2e_read.
    destruct (E2E_BANK_SIZE <? u32 (addr + qty)); [done|].
    split_and!; [done | done | zlength | by eexists].
  - intros fc addr qty out b Hq _. unfold e2e_read_bits.
    destruct (E2E_BANK_SIZE <? u32 (addr + qty)); [done|].
    split_and!; [done | done | zlength |]. do 2 eexists. split; [done|]. by rewrite map_map.
  - intros addr values tl b. unfold e2e_write.
    destruct (E2E_BANK_SIZE <? u32 (addr + zlen values)); [done|].
    by rewrite Nat2Z.id, take_app_length.
  - intros addr bits tl b. unfold e2e_write_bits.
    destruct (E2E_BANK_SIZE <? u32 (addr + zlen bits)); [done|].
    by rewrite Nat2Z.id, take_app_length' by (by rewrite length_map).
Qed.

(** ** The bank behaves as memory *)

Lemma splice_length dst addr data :
  0 <= addr -> addr + zlen data <= zlen dst -> zlen (splice dst addr data) = zlen dst.
Proof. intros Ha Hd. unfold splice. zlength. Qed.

Lemma splice_lookup dst addr data i :
  0 <= addr -> addr + zlen data <= zlen dst -> 0 <= i < zlen data ->
  splice dst addr data !!! Z.to_nat (addr + i) = data !!! Z.to_nat i.
Proof.
  intros Ha Hd Hi. unfold splice. rewrite lookup_total_app_r by zlength.
  rewrite lookup_total_app_l by zlength. f_equal. zlength.
Qed.

Lemma bank_read_back b fc addr values :
  bank_ok b -> words values -> 0 <= addr -> addr + zlen values <= E2E_BANK_SIZE ->
  fc = MODBUS_FUNC_READ_HOLDING_REGISTERS ->
  map (fun i => reg_value (Bank (splice (e2e_regs b) addr values) (e2e_coils b)) fc (addr + i))
    (seqZ 0 (zlen values)) = values.
Proof.
  intros (Hl & Hw & _) Hv Ha Hr ->. apply list_eq. intros i. rewrite lookup_map_seqZ.
  case_bool_decide as Hi; [|by rewrite lookup_ge_None_2 by lia].
  unfold reg_value. cbn [e2e_regs]. eval_fc. rewrite splice_lookup by lia.
  rewrite Nat2Z.id, Z.add_0_r, (list_lookup_lookup_total_lt values i) by lia.
  f_equal. apply u16_small. by apply (Forall_lookup_total_1 is_u16); [|lia].
Qed.
