(* ===== verification/PduTheorems.v ===== *)
(** * Properties of the PDU layer

    The dispatcher refines the abstract server, never leaves its buffers, and
    a request built by the client half and answered by the server half has the
    effect of the device operation and is read back exactly. *)

From S2P Require Import Prelude Buffer Defines Bits Pdu PduSpec PduClient Bank.

(** The uninitialised memory, and the register bank, of the examples. *)
#[local] Instance junk : Indet := fun i => 165 + 7 * Z.of_nat i.

Definition sample_bank : bank :=
  Bank (map (fun i => 1000 + i) (seqZ 0 64)) (map (fun i => i mod 3) (seqZ 0 64)).

(** C1. [mb_pdu_handle_request] implements the abstract server: for callbacks
    that implement a device, any request bytes and any response buffer of
    [MODBUS_MAX_PDU_LENGTH] bytes, the dispatcher writes exactly the encoding
    of the abstract reply at the start of the buffer, returns its length,
    leaves the rest of the buffer alone and leaves the application in the
    state the device operation produces.  It reads only the first [n] bytes of
    the request. *)
Theorem handle_request_refines `{Indet} {U} (h : mb_pdu_handlers U) (d : device U)
    `{!Implements h d} req n u resp :
  bytes req -> 1 <= n <= zlen req -> MODBUS_MAX_PDU_LENGTH <= zlen resp ->
  let '(r, u') := respond d (take (Z.to_nat n) req) u in
  mb_pdu_handle_request h req n u resp =
    Ok ((zlen (encode_response r), u'),
        encode_response r ++ drop (length (encode_response r)) resp).
Proof.
  intros Hb Hn Hr. rewrite (handle_request_run h d) by done.
  unfold reply. by destruct (respond d _ u).
Qed.

Lemma handle_request_refines_witness :
  mb_pdu_handle_request bank_handlers [3; 0; 10; 0; 2; 99] 5 sample_bank (replicate 253 0)
  = Ok ((6, sample_bank), [3; 4; 3; 242; 3; 243] ++ replicate 247 0).
Proof.
  assert (Hb : bytes [3; 0; 10; 0; 2; 99]) by (repeat constructor; done).
  assert (Hn : 1 <= 5 <= zlen [3; 0; 10; 0; 2; 99]) by (cbn; lia).
  assert (Hr : MODBUS_MAX_PDU_LENGTH <= zlen (replicate 253 0)) by done.
  exact (handle_request_refines bank_handlers bank_device _ 5 sample_bank _ Hb Hn Hr).
Defined.

(** The dispatcher is memory safe and bounded: on every request byte
    string and every response buffer of exactly [MODBUS_MAX_PDU_LENGTH] bytes
    it finishes without an access outside an object, the length it returns is
    between 2 and [MODBUS_MAX_PDU_LENGTH], the buffer keeps its size and the
    bytes past the returned length are untouched. *)
Theorem handle_request_bounded `{Indet} {U} (h : mb_pdu_handlers U) (d : device U)
    `{!Implements h d} req n u resp :
  bytes req -> 1 <= n <= zlen req -> zlen resp = MODBUS_MAX_PDU_LENGTH ->
  exists len u' resp',
    mb_pdu_handle_request h req n u resp = Ok ((len, u'), resp') /\
    2 <= len <= MODBUS_MAX_PDU_LENGTH /\ zlen resp' = MODBUS_MAX_PDU_LENGTH /\
    drop (Z.to_nat len) resp' = drop (Z.to_nat len) resp.
Proof.
  unfold_defs. intros Hb Hn Hr. rewrite (handle_request_run h d) by (done || lia).
  pose proof (respond_bound h d (take (Z.to_nat n) req) u) as Hlen.
  unfold reply. set (bs := encode_response _) in *. do 3 eexists. split; [done|].
  split; [done|]. split; [zlength|]. by rewrite Nat2Z.id, drop_app_length.
Qed.

Lemma handle_request_bounded_witness :
  exists len u' resp',
    mb_pdu_handle_request bank_handlers [1; 0; 0; 7; 208] 5 sample_bank (replicate 253 170)
      = Ok ((len, u'), resp') /\
    2 <= len <= MODBUS_MAX_PDU_LENGTH /\ zlen resp' = MODBUS_MAX_PDU_LENGTH /\
    drop (Z.to_nat len) resp' = drop (Z.to_nat len) (replicate 253 170).
Proof.
  assert (Hb : bytes [1; 0; 0; 7; 208]) by (repeat constructor; done).
  assert (Hn : 1 <= 5 <= zlen [1; 0; 0; 7; 208]) by (cbn; lia).
  exact (handle_request_bounded bank_handlers bank_device _ 5 sample_bank
    (replicate 253 170) Hb Hn eq_refl).
Defined.

(** A request that fails validation has no effect: whenever the abstract
    parser rejects the bytes (unknown function, missing callback, truncated
    PDU, quantity out of range, wrong byte count or address overflow), the
    dispatcher answers the two exception bytes and the application state is
    the one before the request, so no callback ran. *)
Theorem rejected_request_no_effect `{Indet} {U} (h : mb_pdu_handlers U) (d : device U)
    `{!Implements h d} req n u resp fc code :
  bytes req -> 1 <= n <= zlen req -> MODBUS_MAX_PDU_LENGTH <= zlen resp ->
  parse_request d (take (Z.to_nat n) req) = inl (Exception fc code) ->
  mb_pdu_handle_request h req n u resp =
    Ok ((2, u), u8 (Z.lor fc MODBUS_EXCEPTION_FLAG) :: code :: drop 2 resp).
Proof.
  intros Hb Hn Hr Hp. rewrite (handle_request_run h d) by done. unfold respond. by rewrite Hp.
Qed.

Lemma rejected_request_no_effect_witness :
  mb_pdu_handle_request bank_handlers [16; 255; 255; 0; 2; 4; 0; 1; 0; 2] 10 sample_bank
    (replicate 253 0)
  = Ok ((2, sample_bank), 144 :: 2 :: replicate 251 0).
Proof.
  assert (Hb : bytes [16; 255; 255; 0; 2; 4; 0; 1; 0; 2]) by (repeat constructor; done).
  assert (Hn : 1 <= 10 <= zlen [16; 255; 255; 0; 2; 4; 0; 1; 0; 2]) by (cbn; lia).
  exact (rejected_request_no_effect bank_handlers bank_device _ 10 sample_bank
    (replicate 253 0) 16 2 Hb Hn ltac:(done) eq_refl).
Defined.

(** C36. A response is accepted exactly when it answers the request.  For a
    valid request, on any response bytes, [mb_pdu_check_response] finishes
    without leaving its buffers and returns 0 precisely for the normal reply
    (right function code, byte count and length for a read; the echo of the
    first five request bytes for a write), a code [c > 0] precisely for the
    two-byte exception reply carrying [c], and [MB_PDU_ERR_FRAME] for
    everything else. *)
Theorem check_response_exact r j bs more :
  valid_request r -> bytes bs ->
  exists v, mb_pdu_check_response (encode_request r ++ j) (bs ++ more) (zlen bs) = Ok v /\
    (v = 0 <-> normal_reply r bs = true) /\
    (forall c, 0 < c -> (v = c <-> bs = [request_fc r + 128; c])) /\
    (v < 0 -> v = MB_PDU_ERR_FRAME).
Proof.
  intros Hr%valid_sendable Hb. exists (verdict r bs). split; [by apply check_response_run|].
  pose proof (request_fc_bound r Hr) as Hfc.
  assert (Hexc : forall c, normal_reply r [request_fc r + 128; c] = false).
  { intros c. destruct (normal_reply r _) eqn:Hn; [apply normal_reply_head in Hn; lia|done]. }
  split; [|split].
  - unfold verdict. destruct (normal_reply r bs); [done|].
    destruct bs as [|b0 [|c [|]]]; try done.
    destruct (Z.eqb_spec b0 (request_fc r + 128)), (Z.eqb_spec c 0); done.
  - intros c Hc. split.
    + unfold verdict, MB_PDU_ERR_FRAME. destruct (normal_reply r bs); [lia|].
      destruct bs as [|b0 [|c' [|]]]; try lia.
      destruct (Z.eqb_spec b0 (request_fc r + 128)), (Z.eqb_spec c' 0); cbn; try lia.
      intros ->. by subst b0.
    + intros ->. unfold verdict. rewrite Hexc. by zbool.
  - unfold verdict. destruct (normal_reply r bs); [lia|].
    destruct bs as [|b0 [|c' [|]]]; try done.
    destruct (_ && _); [|done]. rewrite !Forall_cons_iff in Hb. destruct Hb as (_ & [? _] & _). lia.
Qed.

Lemma check_response_exact_witness :
  exists v, mb_pdu_check_response ([1; 0; 0; 0; 11] ++ [9]) ([1; 2; 182; 5] ++ [7]) 4 = Ok v /\
    (v = 0 <-> normal_reply (ReadBits 1 0 11) [1; 2; 182; 5] = true) /\
    (forall c, 0 < c -> (v = c <-> [1; 2; 182; 5] = [129; c])) /\
    (v < 0 -> v = MB_PDU_ERR_FRAME).
Proof.
  assert (Hr : valid_request (ReadBits 1 0 11))
    by (split; [left; done | unfold_defs; unfold is_u16; lia]).
  assert (Hb : bytes [1; 2; 182; 5]) by (repeat constructor; done).
  exact (check_response_exact (ReadBits 1 0 11) [9] [1; 2; 182; 5] [7] Hr Hb).
Defined.

(** C15. Request, dispatch, reply and check compose: for every valid request
    the device supports, building it with the client's builder, dispatching it
    and checking the reply with [mb_pdu_check_response] all succeed; the
    application ends in the state of the device operation, and the client's
    return code is 0 when the operation succeeded and the mapped exception
    code when it failed. *)
Theorem end_to_end `{Indet} {U} (h : mb_pdu_handlers U) (d : device U) `{!Implements h d}
    r u pdu resp :
  valid_request r -> offers d r = true -> bytes pdu ->
  MODBUS_MAX_PDU_LENGTH <= zlen pdu -> MODBUS_MAX_PDU_LENGTH <= zlen resp ->
  exists req resp' n len,
    build_request r pdu = Ok (n, req) /\
    mb_pdu_handle_request h req n u resp = Ok ((len, snd (serve d r u)), resp') /\
    mb_pdu_check_response req resp' len = Ok (exception_code (fst (serve d r u))).
Proof.
  unfold_defs. intros Hr Ho Hb Hp Hresp.
  destruct (loopback_run h d r u pdu resp) as (req & resp' & n & len & H1 & H2 & H3 & _);
    naive_solver.
Qed.

Lemma end_to_end_witness :
  exists req resp' n len,
    build_request (WriteRegisters 2 [7; 8]) (replicate 253 0) = Ok (n, req) /\
    mb_pdu_handle_request bank_handlers req n sample_bank (replicate 253 0)
      = Ok ((len, snd (serve bank_device (WriteRegisters 2 [7; 8]) sample_bank)), resp') /\
    mb_pdu_check_response req resp' len
      = Ok (exception_code (fst (serve bank_device (WriteRegisters 2 [7; 8]) sample_bank))).
Proof.
  assert (Hr : valid_request (WriteRegisters 2 [7; 8])).
  { split; [done|]. split; [repeat constructor; done|]. unfold_defs. cbn. lia. }
  assert (Hb : bytes (replicate 253 0)) by (apply Forall_replicate; done).
  exact (end_to_end bank_handlers bank_device _ sample_bank _ (replicate 253 0) Hr eq_refl Hb
    ltac:(done) ltac:(done)).
Defined.

(** A register read returns the device's values: when the device answers
    [values], the client that sends FC03 / FC04 through the dispatcher
    accepts the reply and [mb_pdu_get_registers] stores exactly [values] in
    the caller's array, whatever that array and the message buffers held. *)
Theorem end_to_end_registers `{Indet} {U} (h : mb_pdu_handlers U) (d : device U)
    `{!Implements h d} fc addr qty u pdu resp out g values u' :
  valid_request (ReadRegisters fc addr qty) ->
  dev_read_registers d = Some g -> g fc addr qty u = (inr values, u') ->
  words values -> bytes pdu -> qty <= zlen out ->
  MODBUS_MAX_PDU_LENGTH <= zlen pdu -> MODBUS_MAX_PDU_LENGTH <= zlen resp ->
  exists req resp' n len,
    mb_pdu_build_read fc addr qty pdu = Ok (n, req) /\
    mb_pdu_handle_request h req n u resp = Ok ((len, u'), resp') /\
    mb_pdu_check_response req resp' len = Ok 0 /\
    mb_pdu_get_registers resp' qty out = Ok (tt, values ++ drop (Z.to_nat qty) out).
Proof.
  unfold_defs. intros Hr Hg Hv Hw Hb Hout Hp Hresp.
  assert (Ho : offers d (ReadRegisters fc addr qty) = true) by (cbn; by rewrite Hg).
  destruct (loopback_run h d _ u pdu resp Hr Ho Hb Hp Hresp)
    as (req & resp' & n & len & H1 & H2 & H3 & tl & ->).
  pose proof (serve_read_registers_length h d _ _ _ _ _ _ _ Hr Hg Hv) as Hlen.
  cbn [serve] in *. rewrite Hg, Hv in *. cbn [fst snd exception_code encode_response app] in *.
  do 4 eexists. split; [exact H1|]. split; [exact H2|]. split; [exact H3|].
  destruct Hr as (_ & _ & Hq & _). unfold_defs.
  rewrite get_registers_run by (rewrite ?words_be_length; lia).
  by rewrite words_of_words_be.
Qed.

Lemma end_to_end_registers_witness :
  exists req resp' n len,
    mb_pdu_build_read 3 5 3 (replicate 253 0) = Ok (n, req) /\
    mb_pdu_handle_request bank_handlers req n sample_bank (replicate 253 0)
      = Ok ((len, sample_bank), resp') /\
    mb_pdu_check_response req resp' len = Ok 0 /\
    mb_pdu_get_registers resp' 3 [0; 0; 0; 77] = Ok (tt, [1005; 1006; 1007] ++ [77]).
Proof.
  assert (Hr : valid_request (ReadRegisters 3 5 3))
    by (split; [left; done | unfold_defs; unfold is_u16; lia]).
  assert (Hw : words [1005; 1006; 1007]) by (repeat constructor; done).
  assert (Hb : bytes (replicate 253 0)) by (apply Forall_replicate; done).
  exact (end_to_end_registers bank_handlers bank_device 3 5 3 sample_bank _ (replicate 253 0)
    [0; 0; 0; 77] _ [1005; 1006; 1007] sample_bank Hr eq_refl eq_refl Hw Hb
    ltac:(done) ltac:(done) ltac:(done)).
Defined.

(** A bit read returns the device's bits: as for registers, FC01 / FC02
    through the dispatcher and [mb_pdu_get_bits] store exactly 1 for every set
    bit and 0 for every clear one, and touch nothing else. *)
Theorem end_to_end_bits `{Indet} {U} (h : mb_pdu_handlers U) (d : device U)
    `{!Implements h d} fc addr qty u pdu resp out g bits u' :
  valid_request (ReadBits fc addr qty) ->
  dev_read_bits d = Some g -> g fc addr qty u = (inr bits, u') ->
  bytes pdu -> qty <= zlen out ->
  MODBUS_MAX_PDU_LENGTH <= zlen pdu -> MODBUS_MAX_PDU_LENGTH <= zlen resp ->
  exists req resp' n len,
    mb_pdu_build_read fc addr qty pdu = Ok (n, req) /\
    mb_pdu_handle_request h req n u resp = Ok ((len, u'), resp') /\
    mb_pdu_check_response req resp' len = Ok 0 /\
    mb_pdu_get_bits resp' qty out = Ok (tt, map Z.b2z bits ++ drop (Z.to_nat qty) out).
Proof.
  unfold_defs. intros Hr Hg Hv Hb Hout Hp Hresp.
  assert (Ho : offers d (ReadBits fc addr qty) = true) by (cbn; by rewrite Hg).
  destruct (loopback_run h d _ u pdu resp Hr Ho Hb Hp Hresp)
    as (req & resp' & n & len & H1 & H2 & H3 & tl & ->).
  pose proof (serve_read_bits_length h d _ _ _ _ _ _ _ Hr Hg Hv) as Hlen.
  cbn [serve] in *. rewrite Hg, Hv in *. cbn [fst snd exception_code encode_response app] in *.
  do 4 eexists. split; [exact H1|]. split; [exact H2|]. split; [exact H3|].
  destruct Hr as (_ & _ & Hq & _). unfold_defs.
  rewrite get_bits_run by (rewrite ?packed_length, ?Hlen; zint || lia).
  rewrite <- Hlen, Nat2Z.id, unpack_packed. done.
Qed.

Lemma end_to_end_bits_witness :
  exists req resp' n len,
    mb_pdu_build_read 1 0 4 (replicate 253 0) = Ok (n, req) /\
    mb_pdu_handle_request bank_handlers req n sample_bank (replicate 253 0)
      = Ok ((len, sample_bank), resp') /\
    mb_pdu_check_response req resp' len = Ok 0 /\
    mb_pdu_get_bits resp' 4 [9; 9; 9; 9; 9]
      = Ok (tt, map Z.b2z [false; true; true; false] ++ [9]).
Proof.
  assert (Hr : valid_request (ReadBits 1 0 4))
    by (split; [left; done | unfold_defs; unfold is_u16; lia]).
  assert (Hb : bytes (replicate 253 0)) by (apply Forall_replicate; done).
  exact (end_to_end_bits bank_handlers bank_device 1 0 4 sample_bank _ (replicate 253 0)
    [9; 9; 9; 9; 9] _ [false; true; true; false] sample_bank Hr eq_refl eq_refl Hb
    ltac:(done) ltac:(done) ltac:(done)).
Defined.

(** Coils survive packing: unpacking what [pack_bits] packed gives back 1
    for every nonzero cell and 0 for every zero one, for every quantity of the
    16-bit range; both loops stay inside the [ceil(qty / 8)] bytes and the
    [qty] cells. *)
Theorem pack_unpack_bits values qty p out :
  is_u16 qty -> qty <= zlen values -> zlen p = (qty + 7) / 8 -> zlen out = qty ->
  exists p', pack_bits values qty p = Ok (tt, p') /\ zlen p' = zlen p /\
    unpack_bits p' qty out
      = Ok (tt, map (fun v => Z.b2z (nonzero v)) (take (Z.to_nat qty) values)).
Proof.
  intros Hq Hv Hp Ho. fold (nbytes qty) in Hp. eexists.
  rewrite pack_bits_run by (done || lia). split; [done|].
  rewrite drop_ge, app_nil_r by lia. split; [rewrite pack_length; lia|].
  rewrite unpack_bits_run by (rewrite ?pack_length; done || lia).
  rewrite (drop_ge out), app_nil_r by lia. do 2 f_equal.
  set (l := map nonzero (take (Z.to_nat qty) values)).
  assert (Hl : length l = Z.to_nat qty) by (unfold l; rewrite length_map, length_take; lia).
  rewrite <- Hl at 1. rewrite unpack_pack by (unfold nbytes in *; zint). unfold l. by rewrite map_map.
Qed.

Lemma pack_unpack_bits_witness :
  exists p', pack_bits [0; 5; 255; 0; 1; 0; 0; 1; 0; 2] 10 [170; 170] = Ok (tt, p') /\
    zlen p' = zlen [170; 170] /\
    unpack_bits p' 10 (replicate 10 9) = Ok (tt, [0; 1; 1; 0; 1; 0; 0; 1; 0; 1]).
Proof.
  assert (Hq : is_u16 10) by done.
  exact (pack_unpack_bits [0; 5; 255; 0; 1; 0; 0; 1; 0; 2] 10 [170; 170] (replicate 10 9) Hq
    ltac:(done) eq_refl eq_refl).
Defined.

(** Written registers read back: on the register bank of the end-to-end
    test, an FC16 request followed by an FC03 request for the same range is
    answered with the values written, for every range inside the bank. *)
Theorem bank_write_then_read addr values b b1 r1 :
  bank_ok b -> valid_request (WriteRegisters addr values) ->
  addr + zlen values <= E2E_BANK_SIZE ->
  respond bank_device (encode_request (WriteRegisters addr values)) b = (r1, b1) ->
  r1 = Written MODBUS_FUNC_WRITE_MULTIPLE_REGISTERS addr (zlen values) /\
  respond bank_device
    (encode_request (ReadRegisters MODBUS_FUNC_READ_HOLDING_REGISTERS addr (zlen values))) b1
  = (RegistersRead MODBUS_FUNC_READ_HOLDING_REGISTERS values, b1).
Proof.
  intros Hb Hv Hr. unfold respond. rewrite parse_encode_request by done. cbn [finish serve].
  destruct Hv as (Ha & Hw & Hl & _). unfold_defs. unfold E2E_BANK_SIZE in Hr.
  assert (Hin : out_of_bank addr (zlen values) = false).
  { unfold out_of_bank, E2E_BANK_SIZE. rewrite u32_small by zint. by zbool. }
  cbn [bank_device dev_write_registers]. rewrite Hin. cbn [write_result Z.eqb].
  intros [= <- <-]. split; [done|].
  rewrite parse_encode_request; [|split; [by left|]; unfold_defs; split; [done|]; lia|done].
  cbn [finish serve bank_device dev_read_registers]. rewrite Hin.
  by rewrite bank_read_back by (done || apply Ha).
Qed.

Lemma bank_write_then_read_witness :
  let b1 := Bank (splice (e2e_regs sample_bank) 60 [11; 12]) (e2e_coils sample_bank) in
  Written 16 60 2 = Written MODBUS_FUNC_WRITE_MULTIPLE_REGISTERS 60 (zlen [11; 12]) /\
  respond bank_device (encode_request (ReadRegisters MODBUS_FUNC_READ_HOLDING_REGISTERS 60 2)) b1
  = (RegistersRead MODBUS_FUNC_READ_HOLDING_REGISTERS [11; 12], b1).
Proof.
  intros b1. assert (Hb : bank_ok sample_bank).
  { split; [done|]. split; [|done]. apply Forall_map, Forall_seqZ. unfold is_u16. intros; cbn; lia. }
  assert (Hv : valid_request (WriteRegisters 60 [11; 12])).
  { split; [done|]. split; [repeat constructor; done|]. unfold_defs. cbn. lia. }
  exact (bank_write_then_read 60 [11; 12] sample_bank b1 (Written 16 60 2) Hb Hv
    ltac:(done) eq_refl).
Defined.
