(* ===== verification/Ptr.v ===== *)
(** * Nullable pointers to buffers

    A pointer argument the code compares with NULL is an [option]; a function
    that writes through it is a computation over the object it points to, and
    dereferencing NULL is undefined behaviour. *)

From S2P Require Import Prelude Buffer Defines Bits Pdu PduSpec.

(** Write through a pointer. *)
Definition deref {A} (m : st (list Z) A) : st (option (list Z)) A := fun o =>
  match o with
  | None => Fail UB
  | Some p => match m p with
              | Ok (a, q) => Ok (a, Some q)
              | Fail e => Fail e
              end
  end.

Lemma deref_ok {A} (m : st (list Z) A) p a q :
  m p = Ok (a, q) -> deref m (Some p) = Ok (a, Some q).
Proof. unfold deref. by intros ->. Qed.

(** ** Writing the big-endian bytes of a word with two stores *)

Definition store_be16 (offset v : Z) : st (list Z) unit :=
  store offset (u8 (Z.shiftr v 8)) ;;;
  store (offset + 1) (u8 (Z.land v 0xFF)).

Lemma store_be16_memcpy offset v p :
  0 <= offset -> store_be16 offset v p = at_off offset (memcpy (be16 v) 2) p.
Proof.
  intros Ho. unfold store_be16, at_off, memcpy.
  destruct (decide (offset + 1 < zlen p)) as [Hp|Hp].
  - erewrite bind_ok by (apply store_ok; lia). rewrite store_ok by zlength. zbool.
    pose proof (take_drop (Z.to_nat offset) p) as Hd.
    pose proof (length_take p (Z.to_nat offset)) as Hu.
    set (u := take (Z.to_nat offset) p) in *.
    destruct (drop (Z.to_nat offset) p) as [|a [|b r]] eqn:E;
      [rewrite <- Hd, length_app in Hp; simpl in Hp; lia ..|].
    rewrite <- Hd. do 2 f_equal.
    replace (Z.to_nat offset) with (length u + 0)%nat by lia.
    replace (Z.to_nat (offset + 1)) with (length u + 1)%nat by lia.
    by rewrite !insert_app_r.
  - destruct (decide (offset < zlen p)).
    + erewrite bind_ok by (apply store_ok; lia). unfold store. by zbool.
    + rewrite (bind_fail _ _ _ UB) by (unfold store; by zbool).
      destruct (decide (offset <= zlen p)); by zbool.
Qed.

(** The loops that copy 16-bit values into a frame. *)
Lemma words_loop_run (data : list Z) base qty body p :
  0 <= base -> 0 <= qty <= zlen data -> base + 2 * qty <= zlen p ->
  (forall i q, 0 <= i < qty -> body i q = store_be16 (base + i * 2) (data !!! Z.to_nat i) q) ->
  for_upto qty body p
  = Ok (tt, take (Z.to_nat base) p ++ words_be (take (Z.to_nat qty) data)
            ++ drop (Z.to_nat (base + 2 * qty)) p).
Proof.
  intros Hb Hq Hp Hbody.
  rewrite (for_upto_write 2 base (fun i => be16 (data !!! Z.to_nat i))); [|lia|lia|lia|done|lia|].
  - by rewrite map_seqZ_take by lia.
  - intros i q Hi Hlen. rewrite Hbody, store_be16_memcpy by lia. f_equal. lia.
Qed.

Lemma store_words_run (data : list Z) base qty p :
  0 <= base -> 0 <= qty <= zlen data -> base + 2 * qty <= zlen p ->
  for_upto qty (fun i =>
    let! vs := lift (fun_ptr (Some data)) in
    let! v := lift (load vs i) in
    let offset := base + i * 2 in
    store offset (u8 (Z.shiftr v 8)) ;;;
    store (offset + 1) (u8 (Z.land v 0xFF))) p
  = Ok (tt, take (Z.to_nat base) p ++ words_be (take (Z.to_nat qty) data)
            ++ drop (Z.to_nat (base + 2 * qty)) p).
Proof.
  intros Hb Hq Hp. apply words_loop_run; [done..|]. intros i q Hi.
  erewrite bind_ok by by apply lift_ok.
  by erewrite bind_ok by (apply lift_ok, load_lookup_total; lia).
Qed.

(** Run a sequence of stores at constant offsets of a list given by its cells. *)
Ltac run_stores :=
  repeat (erewrite bind_ok by (apply store_ok; zlength));
  repeat match goal with
  | |- context [Z.to_nat (Zpos ?k)] =>
      let n := eval vm_compute in (Pos.to_nat k) in change (Z.to_nat (Zpos k)) with n
  end;
  change (Z.to_nat 0) with 0%nat; cbn [insert list_insert].

(** ** Builders of frames

    [capacity cap o]: the caller's promise that the buffer [o], if there is
    one, holds [cap] bytes.  [emit bs cap o]: what a builder of the frame [bs]
    leaves: the frame at the start of the buffer and its length, or -1 and an
    untouched buffer when there is no buffer or it is too small. *)
Definition capacity (cap : Z) (o : option (list Z)) : Prop :=
  is_u64 cap /\ match o with Some p => cap <= zlen p | None => True end.

Definition writes (bs : list Z) (p : list Z) : outcome (Z * option (list Z)) :=
  Ok (zlen bs, Some (bs ++ drop (length bs) p)).

Definition emit (bs : list Z) (cap : Z) (o : option (list Z)) : outcome (Z * option (list Z)) :=
  match o with
  | Some p => if zlen bs <=? cap then writes bs p else Ok (-1, o)
  | None => Ok (-1, None)
  end.

Lemma emit_run (f : st (option (list Z)) Z) bs n cap o :
  capacity cap o -> zlen bs = n ->
  (forall p, n <= cap <= zlen p -> is_u64 cap -> f (Some p) = writes bs p) ->
  ((o = None \/ cap < n) -> f o = Ok (-1, o)) ->
  f o = emit bs cap o.
Proof.
  intros [Hu Hc] <- Hw Hr. unfold emit. destruct o as [p|]; [|auto].
  destruct (Z.leb_spec (zlen bs) cap); auto.
Qed.
