(* ===== verification/Rtu.v ===== *)
(** * RTU framing: [src/modbus_rtu.c], the stateless helpers

    CRC-16/MODBUS, timing and the frame builders and parser.  A pointer
    argument the code compares with NULL is an [option]; a function that
    writes through such a pointer is a computation over the object it points
    to. *)

From S2P Require Import Prelude Buffer Defines Bits Pdu PduSpec Ptr.

(** ** Serial configuration *)

Definition MB_RTU_PARITY_NONE : Z := 0.
Definition MB_RTU_PARITY_EVEN : Z := 1.
Definition MB_RTU_PARITY_ODD : Z := 2.
Definition MB_RTU_RS485_NONE : Z := 0.
Definition MB_RTU_RS485_RTS_ON_SEND : Z := 1.
Definition MB_RTU_RS485_RTS_AFTER_SEND : Z := 2.

Record mb_rtu_serial_config := SerialConfig {
  device_path : option string;
  baud_rate : Z;
  data_bits : Z;
  stop_bits : Z;
  parity : Z;
  rs485_mode : Z;
}.

Definition effective_data_bits (data_bits : Z) : Z := if data_bits =? 0 then 8 else data_bits.
Definition effective_stop_bits (stop_bits : Z) : Z := if stop_bits =? 0 then 1 else stop_bits.

Definition RTU_T35_FIXED_BAUD_ABOVE : Z := 19200.
Definition RTU_T35_FIXED_US : Z := 1750.

Definition mb_rtu_t35_us (serial : option mb_rtu_serial_config) : Z :=
  match serial with
  | None => 0
  | Some s =>
      let baud := if baud_rate s =? 0 then 9600 else baud_rate s in
      if RTU_T35_FIXED_BAUD_ABOVE <? baud then RTU_T35_FIXED_US
      else
        let char_bits := u32 (1 + effective_data_bits (data_bits s)
                              + effective_stop_bits (stop_bits s)
                              + (if negb (parity s =? MB_RTU_PARITY_NONE) then 1 else 0)) in
        u32 (u64 (char_bits * 3500000 + baud - 1) / baud)
  end.

Definition MB_RTU_TIMING_DISABLED : Z := 2 ^ 32 - 1.

Definition mb_rtu_effective_timing (configured default_value : Z) : Z :=
  if configured =? MB_RTU_TIMING_DISABLED then 0
  else if configured =? 0 then default_value
  else configured.

(** ** CRC-16/MODBUS *)

(** One round of the inner loop. *)
Definition crc_bit (crc : Z) : Z :=
  if negb (Z.land crc 0x0001 =? 0) then u16 (Z.lxor (Z.shiftr crc 1) 0xA001)
  else Z.shiftr crc 1.

Definition mb_rtu_crc16 (data : option (list Z)) (length : Z) : outcome Z :=
  if is_null data && (0 <? length) then Ok 0 else
  let? r := for_upto length (fun i =>
      let! p := lift (fun_ptr data) in
      let! b := lift (load p i) in
      let! crc := get in
      put (Z.lxor crc b) ;;;
      for_upto 8 (fun _ => let! crc := get in put (crc_bit crc))) 0xFFFF in
  Ok (snd r).

Definition mb_rtu_append_crc (frame_len_without_crc frame_cap : Z) : st (option (list Z)) Z :=
  let! frame := get in
  if is_null frame || (frame_cap <? u64 (frame_len_without_crc + MODBUS_RTU_CRC_LEN))
  then ret (-1)
  else
    let! crc := lift (mb_rtu_crc16 frame frame_len_without_crc) in
    deref (store frame_len_without_crc (u8 (Z.land crc 0xFF)) ;;;
           store (frame_len_without_crc + 1) (u8 (Z.shiftr crc 8))) ;;;
    ret 0.

Definition mb_rtu_validate_crc (frame : option (list Z)) (frame_len : Z) : outcome Z :=
  match frame with
  | None => Ok (-1)
  | Some p =>
      if frame_len <? MODBUS_RTU_CRC_LEN then Ok (-1) else
      let payload_len := frame_len - MODBUS_RTU_CRC_LEN in
      let? expected := mb_rtu_crc16 frame payload_len in
      let? lo := load p payload_len in
      let? hi := load p (payload_len + 1) in
      let received := u16 (Z.lor lo (Z.shiftl hi 8)) in
      Ok (if expected =? received then 0 else -1)
  end.

(** ** Frame builders and parser *)

Definition mb_rtu_build_request_basis (unit_id function addr nb req_cap : Z)
    : st (option (list Z)) Z :=
  let! req := get in
  if is_null req || (req_cap <? MODBUS_RTU_MIN_REQ_LENGTH) then ret (-1)
  else if (function <? 0) || (255 <? function) || (addr <? 0) || (65535 <? addr) then ret (-1)
  else
    deref (store 0 unit_id ;;;
           store 1 (u8 function) ;;;
           store 2 (u8 (Z.shiftr addr 8)) ;;;
           store 3 (u8 (Z.land addr 0xFF)) ;;;
           store 4 (u8 (Z.shiftr nb 8)) ;;;
           store 5 (u8 (Z.land nb 0xFF))) ;;;
    let! rc := mb_rtu_append_crc 6 req_cap in
    if negb (rc =? 0) then ret (-1) else ret MODBUS_RTU_MIN_REQ_LENGTH.

Definition mb_rtu_build_fc06_request (unit_id addr value req_cap : Z)
    : st (option (list Z)) Z :=
  mb_rtu_build_request_basis unit_id MODBUS_FUNC_WRITE_SINGLE_REGISTER addr value req_cap.

Definition mb_rtu_build_fc16_request (unit_id addr num_registers : Z)
    (values : option (list Z)) (req_cap : Z) : st (option (list Z)) Z :=
  let! req := get in
  if is_null req || is_null values || (num_registers =? 0)
     || (MODBUS_MAX_WRITE_REGISTERS <? num_registers) then ret (-1)
  else
    let byte_count := u8 (num_registers * 2) in
    let total_len := 9 + byte_count in
    if (req_cap <? total_len) || (MODBUS_RTU_MAX_ADU_LENGTH <? total_len) then ret (-1)
    else
      deref (store 0 unit_id ;;;
             store 1 (u8 MODBUS_FUNC_WRITE_MULTIPLE_REGISTERS) ;;;
             store 2 (u8 (Z.shiftr addr 8)) ;;;
             store 3 (u8 (Z.land addr 0xFF)) ;;;
             store 4 (u8 (Z.shiftr num_registers 8)) ;;;
             store 5 (u8 (Z.land num_registers 0xFF)) ;;;
             store 6 byte_count ;;;
             for_upto num_registers (fun i =>
               let! vs := lift (fun_ptr values) in
               let! v := lift (load vs i) in
               let offset := 7 + i * 2 in
               store offset (u8 (Z.shiftr v 8)) ;;;
               store (offset + 1) (u8 (Z.land v 0xFF)))) ;;;
      let! rc := mb_rtu_append_crc (total_len - MODBUS_RTU_CRC_LEN) req_cap in
      if negb (rc =? 0) then ret (-1) else ret total_len.

(** The three output parameters are the values of the objects they point to
    ([None] is NULL); on failure they keep the values they had. *)
Definition mb_rtu_parse_request (request : option (list Z)) (length : Z)
    (function_code address quantity : option Z)
    : outcome (Z * (option Z * option Z * option Z)) :=
  let keep := (function_code, address, quantity) in
  if is_null request || is_null function_code || is_null address || is_null quantity
     || (length <? MODBUS_RTU_MIN_REQ_LENGTH) then Ok (-1, keep)
  else
    let? ok := mb_rtu_validate_crc request length in
    if negb (ok =? 0) then Ok (-1, keep) else
    let? p := fun_ptr request in
    let? fc := load p 1 in
    let? ah := load p 2 in
    let? al := load p 3 in
    if fc =? MODBUS_FUNC_WRITE_SINGLE_REGISTER then
      Ok (0, (Some fc, Some (of_be16 ah al), Some 1))
    else
      let? qh := load p 4 in
      let? ql := load p 5 in
      Ok (0, (Some fc, Some (of_be16 ah al), Some (of_be16 qh ql))).

Definition mb_rtu_build_read_registers_response (function_code unit_id : Z)
    (data : option (list Z)) (quantity response_cap : Z) : st (option (list Z)) Z :=
  let! response := get in
  if is_null response || is_null data || (MODBUS_MAX_READ_REGISTERS <? quantity) then ret (-1)
  else
    let total_len := 5 + quantity * 2 in
    if (response_cap <? total_len) || (MODBUS_RTU_MAX_ADU_LENGTH <? total_len) then ret (-1)
    else
      deref (store 0 unit_id ;;;
             store 1 function_code ;;;
             store 2 (u8 (quantity * 2)) ;;;
             for_upto quantity (fun i =>
               let! ds := lift (fun_ptr data) in
               let! v := lift (load ds i) in
               let offset := 3 + i * 2 in
               store offset (u8 (Z.shiftr v 8)) ;;;
               store (offset + 1) (u8 (Z.land v 0xFF)))) ;;;
      let! rc := mb_rtu_append_crc (total_len - MODBUS_RTU_CRC_LEN) response_cap in
      if negb (rc =? 0) then ret (-1) else ret total_len.
