(* ===== verification/Crc.v ===== *)
(** * CRC-16/MODBUS: algebra of the check sequence of [src/modbus_rtu.c]

    [crc] is the register of [mb_rtu_crc16] as a fold over the bytes, and
    [crc_bits] the same register fed bit by bit.  A round [crc_bit] is linear
    and injective and keeps the parity of the register; from these three facts
    follow the error-detection lemmas: a frame is valid when its whole length
    leaves the register at zero, and two valid frames of the same length
    differ neither inside one window of 16 bits nor in fewer than four bits. *)

From S2P Require Import Prelude Buffer Defines Bits Pdu Ptr Rtu.

(** ** The register as a fold *)

Definition crc_byte (c b : Z) : Z := Nat.iter 8 crc_bit (Z.lxor c b).
Definition crc_from (c : Z) (l : list Z) : Z := fold_left crc_byte l c.
Definition crc (l : list Z) : Z := crc_from 0xFFFF l.
Definition crc_wire (l : list Z) : list Z := [u8 (Z.land (crc l) 0xFF); u8 (Z.shiftr (crc l) 8)].

(** A complete frame: at least the two check bytes, and they match. *)
Definition frame_ok (l : list Z) : bool := (2 <=? zlen l) && (crc l =? 0).

Definition crc_bits (c : Z) (bs : list bool) : Z :=
  fold_left (fun c b => crc_bit (Z.lxor c (Z.b2z b))) bs c.
Definition frame_bits (l : list Z) : list bool := concat (map bits_of_byte l).

(** ** Bits of 16-bit values *)

Lemma u16_land v : u16 v = Z.land v 0xFFFF.
Proof. change 0xFFFF with (Z.ones 16). by rewrite Z.land_ones by lia. Qed.

Lemma is_u16_lxor a b : is_u16 a -> is_u16 b -> is_u16 (Z.lxor a b).
Proof.
  intros Ha Hb.
  assert (Z.lxor a b = u16 (Z.lxor a b)) as ->; [|apply is_u16_u16].
  rewrite <- (u16_small a), <- (u16_small b), !u16_land by done.
  apply Z.bits_inj'. intros n Hn. rewrite !Z.land_spec, !Z.lxor_spec, !Z.land_spec.
  by destruct (Z.testbit a n), (Z.testbit b n), (Z.testbit 65535 n).
Qed.

Lemma u16_testbit_high v n : is_u16 v -> 16 <= n -> Z.testbit v n = false.
Proof.
  intros Hv Hn. destruct (decide (v = 0)) as [->|]; [apply Z.bits_0|].
  unfold is_u16 in Hv. apply Z.bits_above_log2; [lia|].
  apply Z.lt_le_trans with 16; [apply Z.log2_lt_pow2; lia | done].
Qed.

Lemma is_u16_shiftr v : is_u16 v -> is_u16 (Z.shiftr v 1).
Proof. intros Hv. rewrite Z.shiftr_div_pow2 by lia. change (2 ^ 1) with 2. zint. Qed.

Lemma land_1_odd c : (Z.land c 1 =? 0) = negb (Z.odd c).
Proof.
  change 1 with (Z.ones 1). rewrite Z.land_ones by lia. change (2 ^ 1) with 2.
  rewrite Zmod_odd. by destruct (Z.odd c).
Qed.

Lemma testbit_b2z b n : Z.testbit (Z.b2z b) n = (n =? 0) && b.
Proof.
  destruct (Z.eqb_spec n 0) as [->|Hn]; simpl.
  - apply Z.b2z_bit0.
  - destruct b; simpl; [|apply Z.bits_0].
    destruct n; [done | done | done].
Qed.

(** ** One round is linear *)

Lemma crc_bit_eq c :
  is_u16 c -> crc_bit c = Z.lxor (Z.shiftr c 1) (if Z.odd c then 0xA001 else 0).
Proof.
  intros Hc. unfold crc_bit. rewrite land_1_odd, negb_involutive.
  destruct (Z.odd c).
  - apply u16_small, is_u16_lxor; [by apply is_u16_shiftr | unfold is_u16; lia].
  - by rewrite Z.lxor_0_r.
Qed.

Lemma crc_bit_u16 c : is_u16 c -> is_u16 (crc_bit c).
Proof.
  intros Hc. rewrite crc_bit_eq by done.
  apply is_u16_lxor; [by apply is_u16_shiftr | destruct (Z.odd c); unfold is_u16; lia].
Qed.

Lemma crc_bit_lxor a b :
  is_u16 a -> is_u16 b -> crc_bit (Z.lxor a b) = Z.lxor (crc_bit a) (crc_bit b).
Proof.
  intros Ha Hb. rewrite !crc_bit_eq by auto using is_u16_lxor.
  rewrite Z.shiftr_lxor, <- !Z.bit0_odd, Z.lxor_spec.
  apply Z.bits_inj'. intros n _. rewrite !Z.lxor_spec.
  destruct (Z.testbit a 0), (Z.testbit b 0); simpl xorb; cbv iota; rewrite ?Z.bits_0;
    destruct (Z.testbit (Z.shiftr a 1) n), (Z.testbit (Z.shiftr b 1) n),
      (Z.testbit 40961 n); done.
Qed.

(** The top bit of the result says which branch was taken. *)
Lemma crc_bit_zero c : is_u16 c -> crc_bit c = 0 -> c = 0.
Proof.
  intros Hc. rewrite crc_bit_eq, Z.shiftr_div_pow2 by (done || lia). change (2 ^ 1) with 2.
  destruct (Z.odd c) eqn:Hodd; intros H.
  - apply Z.lxor_eq in H. unfold is_u16 in Hc. change (2 ^ 16) with 65536 in Hc.
    Z.div_mod_to_equations. lia.
  - rewrite Z.lxor_0_r in H. pose proof (Zmod_odd c) as Hm. rewrite Hodd in Hm.
    unfold is_u16 in Hc. Z.div_mod_to_equations. lia.
Qed.

Lemma crc_iter_u16 n c : is_u16 c -> is_u16 (Nat.iter n crc_bit c).
Proof. intros Hc. induction n; simpl; auto using crc_bit_u16. Qed.

Lemma crc_iter_zero n c : is_u16 c -> Nat.iter n crc_bit c = 0 -> c = 0.
Proof.
  intros Hc. induction n as [|n IH]; simpl; [done|].
  intros H. apply IH, crc_bit_zero, H. by apply crc_iter_u16.
Qed.

(** ** The register bit by bit *)

Lemma b2z_u16 b : is_u16 (Z.b2z b).
Proof. by destruct b. Qed.
#[export] Hint Resolve b2z_u16 is_u16_lxor crc_bit_u16 : modbus.

Lemma crc_bits_u16 bs c : is_u16 c -> is_u16 (crc_bits c bs).
Proof. revert c. induction bs; intros c Hc; simpl; auto with modbus. Qed.

Lemma crc_bits_app c u v : crc_bits c (u ++ v) = crc_bits (crc_bits c u) v.
Proof. apply fold_left_app. Qed.

Lemma b2z_lxor b n : Z.b2z b + 2 * n = Z.lxor (Z.b2z b) (2 * n).
Proof.
  rewrite Z.lxor_comm, <- Z.add_nocarry_lxor; [lia|].
  apply Z.bits_inj'. intros k Hk. rewrite Z.land_spec, testbit_b2z, Z.bits_0.
  destruct (Z.eqb_spec k 0) as [->|]; [|by rewrite andb_false_r].
  by rewrite Z.testbit_even_0.
Qed.

Lemma crc_bit_double n : 0 <= n -> is_u16 (2 * n) -> crc_bit (2 * n) = n.
Proof.
  intros Hn Hu. rewrite crc_bit_eq by done.
  rewrite Z.odd_mul. simpl. rewrite Z.lxor_0_r, Z.shiftr_div_pow2 by lia.
  change (2 ^ 1) with 2. Z.div_mod_to_equations. lia.
Qed.

Lemma byte_of_bits_u16 bs : (length bs <= 16)%nat -> is_u16 (byte_of_bits bs).
Proof.
  intros Hl. pose proof (byte_of_bits_bound bs). unfold is_u16. split; [lia|].
  apply Z.lt_le_trans with (2 ^ zlen bs); [lia | apply Z.pow_le_mono_r; lia].
Qed.

(** Up to 16 bits can be added to the register at once. *)
Lemma crc_bits_iter bs c :
  is_u16 c -> (length bs <= 16)%nat ->
  crc_bits c bs = Nat.iter (length bs) crc_bit (Z.lxor c (byte_of_bits bs)).
Proof.
  revert c. induction bs as [|b bs IH]; intros c Hc Hl; [by rewrite Z.lxor_0_r|].
  pose proof (byte_of_bits_u16 (b :: bs) Hl) as Hu. simpl length in *.
  pose proof (byte_of_bits_bound bs) as Hb. cbn [byte_of_bits] in Hu |- *.
  assert (is_u16 (2 * byte_of_bits bs)) as H2 by (destruct b; simpl Z.b2z in Hu; zint).
  change (crc_bits c (b :: bs)) with (crc_bits (crc_bit (Z.lxor c (Z.b2z b))) bs).
  rewrite IH by (auto with modbus || lia).
  rewrite Nat.iter_succ_r. f_equal.
  rewrite b2z_lxor, <- Z.lxor_assoc, (crc_bit_lxor _ (2 * _)) by auto with modbus.
  by rewrite crc_bit_double by (done || lia).
Qed.

Lemma crc_bits_lxor u v c d :
  is_u16 c -> is_u16 d -> length u = length v ->
  crc_bits (Z.lxor c d) (zip_with xorb u v) = Z.lxor (crc_bits c u) (crc_bits d v).
Proof.
  revert v c d. induction u as [|a u IH]; intros [|b v] c d Hc Hd Hl; try done.
  simpl in Hl. cbn [zip_with]. unfold crc_bits. cbn [fold_left].
  fold (crc_bits (crc_bit (Z.lxor c (Z.b2z a))) u).
  fold (crc_bits (crc_bit (Z.lxor d (Z.b2z b))) v).
  rewrite <- IH by (auto with modbus || lia).
  unfold crc_bits. f_equal. rewrite <- crc_bit_lxor by auto with modbus. f_equal.
  replace (Z.b2z (xorb a b)) with (Z.lxor (Z.b2z a) (Z.b2z b)) by (by destruct a, b).
  rewrite !Z.lxor_assoc. f_equal. rewrite <- !Z.lxor_assoc. f_equal. apply Z.lxor_comm.
Qed.

Lemma crc_bits_zeros n c : is_u16 c -> crc_bits c (replicate n false) = Nat.iter n crc_bit c.
Proof.
  intros Hc. induction n as [|n IH]; [done|].
  rewrite replicate_S_end, crc_bits_app, IH. simpl. by rewrite Z.lxor_0_r.
Qed.

Lemma bits_of_byte_length b : length (bits_of_byte b) = 8%nat.
Proof. done. Qed.

Lemma byte_of_bits_of_byte b : is_u8 b -> byte_of_bits (bits_of_byte b) = b.
Proof.
  intros Hb. apply Z.bits_inj'. intros n Hn. rewrite <- (Z2Nat.id n), testbit_byte_of_bits by done.
  destruct (decide (Z.to_nat n < 8)%nat).
  - by rewrite bits_of_byte_lookup by done.
  - rewrite lookup_ge_None_2 by (simpl; lia). simpl. symmetry.
    destruct (decide (b = 0)) as [->|]; [apply Z.bits_0|]. unfold is_u8 in Hb.
    apply Z.bits_above_log2; [lia|].
    apply Z.lt_le_trans with 8; [apply Z.log2_lt_pow2; lia | lia].
Qed.

Lemma byte_of_bits_app u v :
  byte_of_bits (u ++ v) = byte_of_bits u + 2 ^ zlen u * byte_of_bits v.
Proof.
  induction u as [|b u IH]; [simpl; lia|]. cbn [app byte_of_bits length].
  rewrite IH, Nat2Z.inj_succ, Z.pow_succ_r by lia. lia.
Qed.

Lemma crc_byte_bits c b : is_u16 c -> is_u8 b -> crc_byte c b = crc_bits c (bits_of_byte b).
Proof.
  intros Hc Hb. rewrite crc_bits_iter by (done || simpl; lia).
  by rewrite byte_of_bits_of_byte.
Qed.

Lemma crc_byte_u16 c b : is_u16 c -> is_u8 b -> is_u16 (crc_byte c b).
Proof. intros Hc Hb. rewrite crc_byte_bits by done. by apply crc_bits_u16. Qed.

Lemma crc_from_bits c l : is_u16 c -> bytes l -> crc_from c l = crc_bits c (frame_bits l).
Proof.
  intros Hc Hl. revert c Hc. induction Hl as [|b l Hb Hl IH]; intros c Hc; [done|].
  change (crc_from c (b :: l)) with (crc_from (crc_byte c b) l).
  change (frame_bits (b :: l)) with (bits_of_byte b ++ frame_bits l).
  rewrite IH, crc_bits_app by (by apply crc_byte_u16). by rewrite crc_byte_bits.
Qed.

Lemma crc_u16 l : bytes l -> is_u16 (crc l).
Proof. intros Hl. unfold crc. rewrite crc_from_bits by done. by apply crc_bits_u16. Qed.

Lemma crc_app u v : crc (u ++ v) = crc_from (crc u) v.
Proof. apply fold_left_app. Qed.

(** The two check bytes bring the register to zero, and only they do. *)
Lemma crc_check l lo hi :
  bytes l -> is_u8 lo -> is_u8 hi ->
  (crc (l ++ [lo; hi]) = 0 <-> crc l = hi * 256 + lo).
Proof.
  intros Hl Hlo Hhi. pose proof (crc_u16 l Hl) as Hc.
  rewrite crc_app, crc_from_bits by (done || zforall).
  change (frame_bits [lo; hi]) with (bits_of_byte lo ++ bits_of_byte hi).
  rewrite crc_bits_iter by (done || simpl; lia).
  rewrite byte_of_bits_app, !byte_of_bits_of_byte by done.
  change (2 ^ zlen (bits_of_byte lo)) with 256.
  assert (is_u16 (lo + 256 * hi)) as Hv by (unfold is_u8, is_u16 in *; lia).
  split; intros H.
  - apply crc_iter_zero, Z.lxor_eq in H; [lia | auto with modbus].
  - replace (lo + 256 * hi) with (crc l) by lia. by rewrite Z.lxor_nilpotent.
Qed.

Lemma crc_wire_bytes l : bytes (crc_wire l).
Proof. repeat constructor; apply is_u8_u8. Qed.
#[export] Hint Resolve crc_wire_bytes crc_u16 : modbus.

Lemma crc_wire_value l :
  bytes l -> crc l = u8 (Z.shiftr (crc l) 8) * 256 + u8 (Z.land (crc l) 0xFF).
Proof.
  intros Hl. pose proof (crc_u16 l Hl). rewrite <- of_be16_eq by apply is_u8_u8.
  symmetry. by apply of_be16_be16.
Qed.

Lemma crc_wire_zero l : bytes l -> crc (l ++ crc_wire l) = 0.
Proof.
  intros Hl. unfold crc_wire. rewrite crc_check by (done || apply is_u8_u8).
  by apply crc_wire_value.
Qed.

Lemma frame_ok_wire l : bytes l -> frame_ok (l ++ crc_wire l) = true.
Proof. intros Hl. unfold frame_ok. rewrite crc_wire_zero by done. apply andb_true_iff. split; [apply Z.leb_le; rewrite length_app; simpl; lia | done]. Qed.

(** A valid frame is its payload followed by the check bytes of the payload. *)
Lemma frame_ok_split f :
  bytes f -> frame_ok f = true -> exists l, f = l ++ crc_wire l /\ bytes l.
Proof.
  unfold frame_ok. intros Hf [Hlen%Z.leb_le Hc%Z.eqb_eq]%andb_true_iff.
  exists (take (length f - 2) f). rewrite <- (take_drop (length f - 2) f) in Hf, Hc.
  rewrite <- (take_drop (length f - 2) f) at 1.
  apply Forall_app in Hf as [Hl Hd].
  assert (length (drop (length f - 2) f) = 2%nat) as H2 by (rewrite length_drop; lia).
  destruct (drop (length f - 2) f) as [|lo [|hi [|]]]; try done.
  inversion_clear Hd as [|?? Hlo Hd']. inversion_clear Hd' as [|?? Hhi _].
  split; [|done]. f_equal. apply crc_check in Hc; [|done..].
  unfold crc_wire. pose proof (crc_wire_value _ Hl) as Hw. rewrite Hc in Hw |- *.
  pose proof (is_u8_u8 (Z.shiftr (hi * 256 + lo) 8)) as Hx.
  pose proof (is_u8_u8 (Z.land (hi * 256 + lo) 255)) as Hy.
  f_equal; [|f_equal]; unfold is_u8 in *; lia.
Qed.

(** ** Error detection *)

(** Where two frames differ, bit by bit, and in how many bits. *)
Definition bit_errors (f g : list Z) : list bool := zip_with xorb (frame_bits f) (frame_bits g).
Definition weight (e : list bool) : nat := length (filter Is_true e).
Definition bit_distance (f g : list Z) : nat := weight (bit_errors f g).

Lemma frame_bits_length l : length (frame_bits l) = (8 * length l)%nat.
Proof. apply concat_bits_length. Qed.

(** The register is linear: two valid frames differ by an error the CRC maps to zero. *)
Lemma bit_errors_zero f g :
  bytes f -> bytes g -> length f = length g -> crc f = 0 -> crc g = 0 ->
  crc_bits 0 (bit_errors f g) = 0.
Proof.
  intros Hf Hg Hlen Hcf Hcg. unfold crc in *. rewrite crc_from_bits in Hcf, Hcg by done.
  unfold bit_errors. change 0 with (Z.lxor 0xFFFF 0xFFFF) at 1.
  rewrite crc_bits_lxor by (done || rewrite !frame_bits_length; lia).
  by rewrite Hcf, Hcg.
Qed.

Lemma bits_of_byte_inj a b : is_u8 a -> is_u8 b -> bits_of_byte a = bits_of_byte b -> a = b.
Proof.
  intros Ha Hb H. rewrite <- (byte_of_bits_of_byte a), <- (byte_of_bits_of_byte b) by done.
  by rewrite H.
Qed.

Lemma frame_bits_inj f g :
  bytes f -> bytes g -> length f = length g -> frame_bits f = frame_bits g -> f = g.
Proof.
  intros Hf. revert g. induction Hf as [|a f Ha Hf IH]; intros [|b g] Hg Hlen H; try done.
  apply Forall_cons_iff in Hg as [Hb Hg].
  change (bits_of_byte a ++ frame_bits f = bits_of_byte b ++ frame_bits g) in H.
  apply app_inj_1 in H as [H1 H2]; [|done].
  f_equal; [by apply bits_of_byte_inj | apply IH; [done | simpl in Hlen; lia | done]].
Qed.

Lemma xor_zero_eq (u v : list bool) :
  length u = length v -> weight (zip_with xorb u v) = 0%nat -> u = v.
Proof.
  revert v. induction u as [|a u IH]; intros [|b v] Hl Hw; try done.
  simpl in Hl. unfold weight in Hw. cbn [zip_with] in Hw. rewrite filter_cons in Hw.
  destruct a, b; simpl in Hw; try done; f_equal; apply IH; auto.
Qed.

Lemma bit_errors_nonzero f g :
  bytes f -> bytes g -> length f = length g -> f <> g -> (0 < bit_distance f g)%nat.
Proof.
  intros Hf Hg Hlen Hne. unfold bit_distance.
  destruct (decide (weight (bit_errors f g) = 0%nat)) as [H|]; [|lia].
  apply xor_zero_eq in H; [|rewrite !frame_bits_length; lia].
  exfalso. by apply Hne, frame_bits_inj.
Qed.

(** *** Bursts *)

Lemma weight_cons b e : weight (b :: e) = if b then S (weight e) else weight e.
Proof. unfold weight. rewrite filter_cons. by destruct b. Qed.

Lemma weight_app u v : weight (u ++ v) = (weight u + weight v)%nat.
Proof. unfold weight. by rewrite filter_app, length_app. Qed.

Lemma weight_zeros n : weight (replicate n false) = 0%nat.
Proof. induction n; [done|]. simpl. by rewrite weight_cons. Qed.

Lemma byte_of_bits_zero m : byte_of_bits m = 0 -> weight m = 0%nat.
Proof.
  induction m as [|b m IH]; [done|]. cbn [byte_of_bits]. intros H.
  pose proof (byte_of_bits_bound m). rewrite weight_cons.
  destruct b; simpl Z.b2z in H; [lia|]. apply IH. lia.
Qed.

Lemma burst_zero a m b :
  (length m <= 16)%nat -> crc_bits 0 (replicate a false ++ m ++ replicate b false) = 0 ->
  weight m = 0%nat.
Proof.
  intros Hm H. rewrite !crc_bits_app, (crc_bits_zeros a) in H by done.
  assert (Nat.iter a crc_bit 0 = 0) as H0 by (clear; induction a; [done|]; simpl; by rewrite IHa).
  rewrite H0, crc_bits_zeros in H by (by apply crc_bits_u16).
  apply crc_iter_zero in H; [|by apply crc_bits_u16].
  rewrite crc_bits_iter, Z.lxor_0_l in H by done.
  apply crc_iter_zero in H; [|by apply byte_of_bits_u16]. by apply byte_of_bits_zero.
Qed.

Lemma zeros_of_lookup (e : list bool) :
  (forall i, e !! i = Some true -> False) -> e = replicate (length e) false.
Proof.
  intros H. symmetry. apply replicate_as_elem_of. split; [done|]. intros [] Hx; [|done].
  apply list_elem_of_lookup in Hx as [i Hi]. destruct (H i Hi).
Qed.

(** A list of bits whose ones lie in a window is zeros, the window, zeros. *)
Lemma window_split (e : list bool) a w :
  (a + w <= length e)%nat ->
  (forall i, e !! i = Some true -> (a <= i < a + w)%nat) ->
  e = replicate a false ++ take w (drop a e) ++ replicate (length e - a - w) false.
Proof.
  intros Hl Hin. rewrite <- (take_drop a e) at 1. rewrite <- (take_drop w (drop a e)) at 1.
  f_equal; [|f_equal].
  - rewrite (zeros_of_lookup (take a e)); [by rewrite length_take, Nat.min_l by lia|].
    intros i Hi. apply lookup_take_Some in Hi as [Hi Hlt]. apply Hin in Hi. lia.
  - rewrite (zeros_of_lookup (drop w (drop a e))); [f_equal; rewrite !length_drop; lia|].
    intros i Hi. rewrite !lookup_drop in Hi. apply Hin in Hi. lia.
Qed.

Lemma window_undetected f g a :
  bytes f -> bytes g -> length f = length g -> crc f = 0 -> crc g = 0 ->
  (a + 16 <= 8 * length f)%nat ->
  (forall i, bit_errors f g !! i = Some true -> (a <= i < a + 16)%nat) ->
  f = g.
Proof.
  intros Hf Hg Hlen Hcf Hcg Ha Hin.
  pose proof (bit_errors_zero f g Hf Hg Hlen Hcf Hcg) as H.
  assert (length (bit_errors f g) = 8 * length f)%nat as Hl.
  { unfold bit_errors. rewrite length_zip_with, !frame_bits_length. lia. }
  rewrite (window_split _ a 16) in H by (done || lia).
  pose proof (window_split (bit_errors f g) a 16 ltac:(lia) Hin) as Hs.
  apply burst_zero in H; [|rewrite length_take; lia].
  destruct (decide (f = g)) as [|Hne]; [done|].
  pose proof (bit_errors_nonzero f g Hf Hg Hlen Hne) as Hp. unfold bit_distance in Hp.
  rewrite Hs, !weight_app, H, !weight_zeros in Hp. lia.
Qed.

(** *** Weight one, two and three *)

(** The parity of the ones of a register. *)
Definition parity16 (c : Z) : bool := foldr xorb false (map (Z.testbit c) (seqZ 0 16)).

Lemma parity16_lxor a b : parity16 (Z.lxor a b) = xorb (parity16 a) (parity16 b).
Proof.
  unfold parity16. generalize (seqZ 0 16). intros l. induction l as [|i l IH]; [done|].
  cbn [map foldr]. rewrite IH, Z.lxor_spec.
  by destruct (Z.testbit a i), (Z.testbit b i), (foldr xorb false (map (Z.testbit a) l)),
    (foldr xorb false (map (Z.testbit b) l)).
Qed.

Lemma parity16_shiftr c :
  is_u16 c -> parity16 (Z.shiftr c 1) = xorb (parity16 c) (Z.odd c).
Proof.
  intros Hc. unfold parity16.
  change (seqZ 0 16) with [0; 1; 2; 3; 4; 5; 6; 7; 8; 9; 10; 11; 12; 13; 14; 15].
  cbn [map foldr]. rewrite !Z.shiftr_spec by lia. change (15 + 1) with 16.
  rewrite <- Z.bit0_odd, (u16_testbit_high c 16) by (done || lia).
  rewrite !xorb_false_l, !xorb_false_r.
  match goal with |- ?r = xorb (xorb ?b ?r') ?b' => change (r = xorb (xorb b r) b) end.
  by rewrite (xorb_comm (Z.testbit c 0)), xorb_assoc, xorb_nilpotent, xorb_false_r.
Qed.

Lemma parity16_crc_bit c : is_u16 c -> parity16 (crc_bit c) = parity16 c.
Proof.
  intros Hc. rewrite crc_bit_eq, parity16_lxor, parity16_shiftr by done.
  destruct (Z.odd c).
  - change (parity16 40961) with true. by destruct (parity16 c).
  - change (parity16 0) with false. by destruct (parity16 c).
Qed.

Lemma parity16_crc_bits bs c :
  is_u16 c -> parity16 (crc_bits c bs) = xorb (parity16 c) (Nat.odd (weight bs)).
Proof.
  revert c. induction bs as [|b bs IH]; intros c Hc; [by rewrite xorb_false_r|].
  change (crc_bits c (b :: bs)) with (crc_bits (crc_bit (Z.lxor c (Z.b2z b))) bs).
  rewrite IH, parity16_crc_bit, parity16_lxor by auto with modbus.
  rewrite weight_cons. destruct b.
  - change (parity16 (Z.b2z true)) with true.
    rewrite Nat.odd_succ, <- Nat.negb_odd. by destruct (parity16 c), (Nat.odd _).
  - change (parity16 (Z.b2z false)) with false. by rewrite xorb_false_r.
Qed.

(** The first one of a bit list. *)
Lemma first_one e :
  (0 < weight e)%nat -> exists a e', e = replicate a false ++ true :: e' /\ weight e = S (weight e').
Proof.
  induction e as [|b e IH]; [simpl; unfold weight; simpl; lia|]. intros H. destruct b.
  - exists 0%nat, e. by rewrite weight_cons.
  - rewrite weight_cons in H |- *. destruct (IH H) as (a & e' & -> & ?). by exists (S a), e'.
Qed.

Lemma no_ones e : weight e = 0%nat -> e = replicate (length e) false.
Proof.
  induction e as [|b e IH]; [done|]. rewrite weight_cons.
  destruct b; [done|]. intros H. simpl. by rewrite <- IH.
Qed.

(** The register started at 1 first returns to 1 after more than 2047 rounds. *)
Fixpoint avoids_one (n : nat) (c : Z) : bool :=
  match n with
  | O => true
  | S n' => let c' := crc_bit c in negb (c' =? 1) && avoids_one n' c'
  end.

Lemma avoids_one_iter n c k :
  avoids_one n c = true -> (0 < k <= n)%nat -> Nat.iter k crc_bit c <> 1.
Proof.
  revert c k. induction n as [|n IH]; intros c k H Hk; [lia|].
  simpl in H. apply andb_true_iff in H as [H1 H2].
  destruct k as [|k]; [lia|]. rewrite Nat.iter_succ_r. destruct k as [|k].
  - simpl. apply negb_true_iff, Z.eqb_neq in H1. done.
  - apply IH; [done | lia].
Qed.

Lemma avoids_one_2047 : avoids_one 2047 1 = true.
Proof. vm_compute. reflexivity. Qed.

Lemma two_bits_nonzero a b c :
  (b <= 2046)%nat ->
  crc_bits 0 (replicate a false ++ true :: replicate b false ++ true :: replicate c false) <> 0.
Proof.
  intros Hb H.
  change (true :: replicate b false ++ true :: replicate c false)
    with ([true] ++ replicate b false ++ [true] ++ replicate c false) in H.
  rewrite !crc_bits_app, (crc_bits_zeros a) in H by done.
  assert (Nat.iter a crc_bit 0 = 0) as H0 by (clear; induction a; [done|]; simpl; by rewrite IHa).
  rewrite H0 in H. change (crc_bits 0 [true]) with (crc_bit 1) in H.
  assert (is_u16 (crc_bit 1)) as H1 by (by apply crc_bit_u16).
  rewrite (crc_bits_zeros b), <- Nat.iter_succ_r in H by done.
  set (x := Nat.iter (S b) crc_bit 1) in H.
  assert (is_u16 x) as Hx by (by apply crc_iter_u16).
  rewrite crc_bits_zeros in H by (by apply crc_bits_u16).
  apply crc_iter_zero in H; [|by apply crc_bits_u16].
  apply crc_bit_zero, Z.lxor_eq in H; [|auto with modbus].
  apply (avoids_one_iter 2047 1 (S b) avoids_one_2047); [lia | done].
Qed.

Lemma distance_4 f g :
  bytes f -> bytes g -> length f = length g -> crc f = 0 -> crc g = 0 ->
  (length f <= 256)%nat -> f <> g -> (4 <= bit_distance f g)%nat.
Proof.
  intros Hf Hg Hlen Hcf Hcg Hmax Hne.
  pose proof (bit_errors_zero f g Hf Hg Hlen Hcf Hcg) as H.
  pose proof (bit_errors_nonzero f g Hf Hg Hlen Hne) as Hpos.
  assert (length (bit_errors f g) <= 2048)%nat as Hl.
  { unfold bit_errors. rewrite length_zip_with, !frame_bits_length. lia. }
  unfold bit_distance in *. revert H Hpos Hl. generalize (bit_errors f g). intros e H Hpos Hl.
  assert (Nat.odd (weight e) = false) as Hodd.
  { pose proof (parity16_crc_bits e 0 ltac:(done)) as Hp. by rewrite H in Hp. }
  destruct (decide (4 <= weight e)%nat) as [|H4]; [done|]. exfalso.
  assert (weight e = 2)%nat as H2.
  { destruct (weight e) as [|[|[|[|]]]]; done || lia. }
  destruct (first_one e) as (a & e1 & -> & He1); [lia|].
  destruct (first_one e1) as (b & e2 & -> & He2); [lia|].
  rewrite (no_ones e2) in H by lia. apply two_bits_nonzero in H; [done|].
  rewrite !length_app, !length_replicate in Hl. simpl in Hl.
  rewrite length_app, length_replicate in Hl. simpl in Hl. lia.
Qed.
