(* ===== verification/RtuFrames.v ===== *)
(** * RTU frames: what the helpers of [src/modbus_rtu.c] compute

    The frame of a PDU is [adu unit pdu]: the unit id, the PDU, and the check
    bytes of both.  Each helper of [Rtu] gets one equation: the builders write
    the frame of the PDU the PDU layer would build, validation is [frame_ok],
    and every rejected argument leaves the object untouched. *)

From S2P Require Import Prelude Buffer Defines Bits Pdu PduSpec PduClient Ptr Rtu Crc.

Definition adu (unit : Z) (pdu : list Z) : list Z := (unit :: pdu) ++ crc_wire (unit :: pdu).

Lemma adu_length unit pdu : zlen (adu unit pdu) = zlen pdu + 3.
Proof. unfold adu. rewrite length_app. simpl. lia. Qed.

Definition unit_of (f : list Z) : Z := f !!! 0%nat.
(** The PDU inside a frame: without unit id and CRC. *)
Definition pdu_of (f : list Z) : list Z := take (length f - 3) (drop 1 f).

Lemma pdu_of_adu unit pdu : pdu_of (adu unit pdu) = pdu.
Proof.
  unfold pdu_of, adu. cbn [app drop]. rewrite drop_0.
  replace (length (unit :: pdu ++ crc_wire (unit :: pdu)) - 3)%nat with (length pdu).
  - apply take_app_length.
  - cbn [length]. rewrite length_app. simpl. lia.
Qed.

Lemma adu_bytes unit pdu : is_u8 unit -> bytes pdu -> bytes (adu unit pdu).
Proof.
  intros Hu Hp. apply Forall_app_2; [by apply List.Forall_cons | apply crc_wire_bytes].
Qed.

Lemma adu_ok unit pdu : is_u8 unit -> bytes pdu -> frame_ok (adu unit pdu) = true.
Proof. intros Hu Hp. apply frame_ok_wire. by apply List.Forall_cons. Qed.

(** ** CRC *)

Lemma crc_byte_run c b :
  for_upto 8 (fun _ => let! crc := get in put (crc_bit crc)) (Z.lxor c b)
  = Ok (tt, crc_byte c b).
Proof. done. Qed.

Lemma crc16_run p n :
  0 <= n <= zlen p -> mb_rtu_crc16 (Some p) n = Ok (crc (take (Z.to_nat n) p)).
Proof.
  intros Hn. unfold mb_rtu_crc16. cbn [is_null andb].
  edestruct (for_upto_inv (fun j c => c = crc (take (Z.to_nat j) p)) n) as (c & Hrun & Hc);
    [lia | | | rewrite Hrun; simpl; by rewrite Hc].
  - done.
  - intros j c Hj ->. eexists. split.
    + erewrite bind_ok by by apply lift_ok.
      erewrite bind_ok by (apply lift_ok, load_lookup_total; lia).
      erewrite bind_ok by done. erewrite bind_ok by done. apply crc_byte_run.
    + replace (Z.to_nat (j + 1)) with (S (Z.to_nat j)) by lia.
      rewrite (take_S_r _ _ (p !!! Z.to_nat j)) by (apply list_lookup_lookup_total_lt; lia).
      by rewrite crc_app.
Qed.

Lemma append_crc_run p n cap :
  0 <= n -> n + 2 <= cap <= zlen p -> is_u64 cap ->
  mb_rtu_append_crc n cap (Some p) =
    Ok (0, Some (take (Z.to_nat n) p ++ crc_wire (take (Z.to_nat n) p)
                 ++ drop (Z.to_nat (n + 2)) p)).
Proof.
  intros Hn Hcap Hu. unfold mb_rtu_append_crc. erewrite bind_ok by done.
  unfold MODBUS_RTU_CRC_LEN. rewrite u64_small by zint. cbn [is_null orb].
  rewrite (proj2 (Z.ltb_ge _ _)) by lia.
  erewrite bind_ok by (apply lift_ok, crc16_run; lia).
  set (c := crc _).
  pose proof (take_drop (Z.to_nat n) p) as Hd.
  pose proof (length_take p (Z.to_nat n)) as Hl.
  unfold crc_wire. fold c. set (t := take (Z.to_nat n) p) in *.
  destruct (drop (Z.to_nat n) p) as [|a [|b r]] eqn:E;
    [rewrite <- Hd, length_app in Hcap; simpl in Hcap; lia ..|].
  replace (Z.to_nat (n + 2)) with (Z.to_nat n + 2)%nat by lia. rewrite <- drop_drop, E.
  erewrite bind_ok; [done|]. apply deref_ok. rewrite <- Hd.
  erewrite bind_ok by (apply store_ok; rewrite length_app; simpl; lia).
  rewrite store_ok by (rewrite length_insert, length_app; simpl; lia).
  replace (Z.to_nat n) with (length t + 0)%nat by lia.
  replace (Z.to_nat (n + 1)) with (length t + 1)%nat by lia.
  by rewrite !insert_app_r.
Qed.

Lemma append_crc_reject frame n cap :
  0 <= n -> is_u64 (n + 2) -> (frame = None \/ cap < n + 2) ->
  mb_rtu_append_crc n cap frame = Ok (-1, frame).
Proof.
  intros Hn Hu H. unfold mb_rtu_append_crc. erewrite bind_ok by done.
  unfold MODBUS_RTU_CRC_LEN. rewrite u64_small by done.
  destruct H as [->|H]; [done|]. by rewrite (proj2 (Z.ltb_lt _ _)), orb_true_r by lia.
Qed.

Lemma frame_ok_check p n lo hi :
  bytes p -> 0 <= n -> take (Z.to_nat (n + 2)) p = take (Z.to_nat n) p ++ [lo; hi] ->
  (crc (take (Z.to_nat n) p) =? u16 (Z.lor lo (Z.shiftl hi 8)))
  = frame_ok (take (Z.to_nat (n + 2)) p).
Proof.
  intros Hp Hn E. pose proof (Forall_take is_u8 (Z.to_nat (n + 2)) p Hp) as Hb.
  pose proof (Forall_take is_u8 (Z.to_nat n) p Hp) as Hb'.
  rewrite E in Hb |- *. apply Forall_app in Hb as [_ Hb].
  inversion_clear Hb as [|?? Hlo Hb2]. inversion_clear Hb2 as [|?? Hhi _].
  rewrite Z.lor_comm. fold (of_be16 hi lo). rewrite of_be16_eq by done.
  pose proof (crc_check _ lo hi Hb' Hlo Hhi) as Hc. unfold frame_ok.
  rewrite length_app. cbn [length]. rewrite (proj2 (Z.leb_le _ _)) by lia. simpl andb.
  apply eq_iff_eq_true. rewrite !Z.eqb_eq. tauto.
Qed.

Lemma validate_crc_run p n :
  bytes p -> 0 <= n <= zlen p ->
  mb_rtu_validate_crc (Some p) n = Ok (if frame_ok (take (Z.to_nat n) p) then 0 else -1).
Proof.
  intros Hp Hn. unfold mb_rtu_validate_crc, MODBUS_RTU_CRC_LEN.
  destruct (Z.ltb_spec n 2) as [H2|H2].
  - unfold frame_ok. rewrite length_take, (proj2 (Z.leb_gt _ _)) by lia. done.
  - cbv zeta. erewrite obind_ok by (apply crc16_run; lia).
    erewrite obind_ok by (apply load_lookup_total; lia).
    erewrite obind_ok by (apply load_lookup_total; lia).
    rewrite frame_ok_check; [by replace (n - 2 + 2) with n by lia | done | lia |].
    replace (Z.to_nat (n - 2 + 2)) with (S (S (Z.to_nat (n - 2)))) by lia.
    replace (Z.to_nat (n - 2 + 1)) with (S (Z.to_nat (n - 2))) by lia.
    rewrite (take_S_r p (S _) (p !!! S (Z.to_nat (n - 2))))
      by (apply list_lookup_lookup_total_lt; lia).
    rewrite (take_S_r p _ (p !!! Z.to_nat (n - 2)))
      by (apply list_lookup_lookup_total_lt; lia).
    by rewrite <- app_assoc.
Qed.

Lemma valid_crc_zero f :
  bytes f -> mb_rtu_validate_crc (Some f) (zlen f) = Ok 0 -> crc f = 0.
Proof.
  intros Hf. rewrite validate_crc_run by (done || lia). rewrite Nat2Z.id, firstn_all.
  unfold frame_ok. intros H. destruct (Z.eqb_spec (crc f) 0); [done|].
  by rewrite andb_false_r in H.
Qed.

(** ** Builders *)

(** The last step of every builder: the check bytes after the body. *)
Lemma append_body_run (fill : st (option (list Z)) ()) o unit pdu p r n k cap :
  fill o = Ok (tt, Some ((unit :: pdu) ++ r)) ->
  r = drop (length (unit :: pdu)) p ->
  n = zlen pdu + 1 -> k = zlen pdu + 3 -> zlen pdu + 3 <= cap <= zlen p -> is_u64 cap ->
  (fill ;;; let! rc := mb_rtu_append_crc n cap in
            if negb (rc =? 0) then ret (-1) else ret k) o
  = writes (adu unit pdu) p.
Proof.
  intros Hfill -> -> -> Hc Hu. erewrite bind_ok by exact Hfill.
  erewrite bind_ok by (apply append_crc_run;
    [lia | rewrite length_app, length_drop; simpl length; lia | done]).
  cbn [Z.eqb negb]. unfold ret, writes. rewrite adu_length. unfold adu.
  replace (Z.to_nat (zlen pdu + 1)) with (length (unit :: pdu)) by (simpl; lia).
  replace (Z.to_nat (zlen pdu + 1 + 2)) with (length (unit :: pdu) + 2)%nat by (simpl; lia).
  rewrite take_app_length, drop_app_add, drop_drop, <- app_assoc.
  by rewrite (length_app (unit :: pdu)).
Qed.

Lemma rtu_build_basis_run unit fc addr nb p cap :
  is_u8 fc -> is_u16 addr -> 8 <= cap <= zlen p -> is_u64 cap ->
  mb_rtu_build_request_basis unit fc addr nb cap (Some p)
  = writes (adu unit (fc :: be16 addr ++ be16 nb)) p.
Proof.
  intros Hf Ha Hc Hu. unfold mb_rtu_build_request_basis. erewrite bind_ok by done.
  unfold MODBUS_RTU_MIN_REQ_LENGTH. cbn [is_null].
  rewrite !(proj2 (Z.ltb_ge _ _)) by (unfold is_u8, is_u16 in *; lia). cbn [orb].
  apply append_body_run with (drop 6 p); [|done..].
  destruct p as [|x0 [|x1 [|x2 [|x3 [|x4 [|x5 r]]]]]]; try (cbn [length] in Hc; lia).
  apply deref_ok. run_stores. rewrite store_ok by zlength. by rewrite (u8_small fc) by done.
Qed.

Lemma rtu_build_fc16_run unit addr values more p cap :
  1 <= zlen values <= 123 -> 9 + 2 * zlen values <= cap <= zlen p -> is_u64 cap ->
  mb_rtu_build_fc16_request unit addr (zlen values) (Some (values ++ more)) cap (Some p)
  = writes (adu unit (encode_request (WriteRegisters addr values))) p.
Proof.
  intros Hv Hc Hu. unfold mb_rtu_build_fc16_request. erewrite bind_ok by done.
  unfold MODBUS_MAX_WRITE_REGISTERS, MODBUS_RTU_MAX_ADU_LENGTH, MODBUS_RTU_CRC_LEN.
  cbn [is_null]. cbv zeta. rewrite (u8_small (zlen values * 2)) by (unfold is_u8; lia).
  rewrite (proj2 (Z.eqb_neq _ _)), !(proj2 (Z.ltb_ge _ _)) by lia. cbn [orb].
  pose proof (words_be_length values) as Hw.
  set (pdu := encode_request (WriteRegisters addr values)).
  assert (zlen pdu = 6 + 2 * zlen values) as Hl by (subst pdu; cbn [encode_request]; zlength).
  apply append_body_run with (drop (7 + length (words_be values)) p);
    [|f_equal; simpl length; lia | lia | lia | lia | done].
  destruct p as [|x0 [|x1 [|x2 [|x3 [|x4 [|x5 [|x6 r]]]]]]]; try (cbn [length] in Hc; lia).
  apply deref_ok. run_stores.
  rewrite store_words_run by (rewrite ?length_app; simpl length in *; lia).
  rewrite Nat2Z.id, take_app_length.
  replace (Z.to_nat (7 + 2 * zlen values)) with (7 + length (words_be values))%nat by lia.
  subst pdu. cbn [encode_request]. unfold MODBUS_FUNC_WRITE_MULTIPLE_REGISTERS.
  change (Z.to_nat 7) with 7%nat. cbn [take drop Nat.add].
  by rewrite (u8_small (zlen values * 2)) by (unfold is_u8; lia).
Qed.

Lemma rtu_build_read_response_run fc unit values more p cap :
  zlen values <= 125 -> 5 + 2 * zlen values <= cap <= zlen p -> is_u64 cap ->
  mb_rtu_build_read_registers_response fc unit (Some (values ++ more)) (zlen values) cap (Some p)
  = writes (adu unit (encode_response (RegistersRead fc values))) p.
Proof.
  intros Hv Hc Hu. unfold mb_rtu_build_read_registers_response. erewrite bind_ok by done.
  unfold MODBUS_MAX_READ_REGISTERS, MODBUS_RTU_MAX_ADU_LENGTH, MODBUS_RTU_CRC_LEN.
  cbn [is_null]. cbv zeta. rewrite !(proj2 (Z.ltb_ge _ _)) by lia. cbn [orb].
  pose proof (words_be_length values) as Hw.
  set (pdu := encode_response (RegistersRead fc values)).
  assert (zlen pdu = 2 + 2 * zlen values) as Hl by (subst pdu; cbn [encode_response]; zlength).
  apply append_body_run with (drop (3 + length (words_be values)) p);
    [|f_equal; simpl length; lia | lia | lia | lia | done].
  destruct p as [|x0 [|x1 [|x2 r]]]; try (cbn [length] in Hc; lia).
  apply deref_ok. run_stores.
  rewrite store_words_run by (rewrite ?length_app; simpl length in *; lia).
  rewrite Nat2Z.id, take_app_length.
  replace (Z.to_nat (3 + 2 * zlen values)) with (3 + length (words_be values))%nat by lia.
  done.
Qed.

(** ** Rejected calls *)

Lemma rtu_build_basis_reject unit fc addr nb cap o :
  o = None \/ cap < 8 \/ ~ (0 <= fc <= 255) \/ ~ (0 <= addr <= 65535) ->
  mb_rtu_build_request_basis unit fc addr nb cap o = Ok (-1, o).
Proof.
  intros H. unfold mb_rtu_build_request_basis. erewrite bind_ok by done.
  unfold MODBUS_RTU_MIN_REQ_LENGTH.
  destruct (is_null o) eqn:Ho; [done|]. destruct (Z.ltb_spec cap 8); [done|]. cbn [orb].
  destruct (Z.ltb_spec fc 0); [done|]. destruct (Z.ltb_spec 255 fc); [done|].
  destruct (Z.ltb_spec addr 0); [done|]. destruct (Z.ltb_spec 65535 addr); [done|].
  destruct H as [->|]; [done | lia].
Qed.

Lemma rtu_build_fc16_reject unit addr n values cap o :
  0 <= n ->
  o = None \/ values = None \/ n = 0 \/ 123 < n \/ cap < 9 + 2 * n ->
  mb_rtu_build_fc16_request unit addr n values cap o = Ok (-1, o).
Proof.
  intros Hn H. unfold mb_rtu_build_fc16_request. erewrite bind_ok by done.
  unfold MODBUS_MAX_WRITE_REGISTERS, MODBUS_RTU_MAX_ADU_LENGTH.
  destruct o as [p|]; [|done]. destruct values as [vs|]; [|done]. cbn [is_null orb].
  destruct (Z.eqb_spec n 0); [done|]. destruct (Z.ltb_spec 123 n); [done|]. cbn [orb]. cbv zeta.
  rewrite u8_small by (unfold is_u8; lia).
  rewrite (proj2 (Z.ltb_lt _ _)); [done|]. destruct H as [|[|]]; [done | done | lia].
Qed.

Lemma rtu_build_read_response_reject fc unit data n cap o :
  0 <= n -> o = None \/ data = None \/ 125 < n \/ cap < 5 + 2 * n ->
  mb_rtu_build_read_registers_response fc unit data n cap o = Ok (-1, o).
Proof.
  intros Hn H. unfold mb_rtu_build_read_registers_response. erewrite bind_ok by done.
  unfold MODBUS_MAX_READ_REGISTERS, MODBUS_RTU_MAX_ADU_LENGTH.
  destruct o as [p|]; [|done]. destruct data as [vs|]; [|done]. cbn [is_null orb].
  destruct (Z.ltb_spec 125 n); [done|]. cbv zeta.
  rewrite (proj2 (Z.ltb_lt _ _)); [done|]. destruct H as [|[|]]; [done | done | lia].
Qed.

(** ** Parsing *)

Definition rtu_parsed_quantity (p : list Z) : Z :=
  if p !!! 1%nat =? MODBUS_FUNC_WRITE_SINGLE_REGISTER then 1
  else of_be16 (p !!! 4%nat) (p !!! 5%nat).

Lemma rtu_parse_request_run p n f0 a0 q0 :
  bytes p -> 0 <= n <= zlen p ->
  mb_rtu_parse_request (Some p) n (Some f0) (Some a0) (Some q0)
  = Ok (if (8 <=? n) && frame_ok (take (Z.to_nat n) p)
        then (0, (Some (p !!! 1%nat), Some (of_be16 (p !!! 2%nat) (p !!! 3%nat)),
                  Some (rtu_parsed_quantity p)))
        else (-1, (Some f0, Some a0, Some q0))).
Proof.
  intros Hp Hn. unfold mb_rtu_parse_request, MODBUS_RTU_MIN_REQ_LENGTH. cbn [is_null orb].
  destruct (Z.ltb_spec n 8) as [H8|H8]; [by rewrite (proj2 (Z.leb_gt _ _)) by lia|].
  rewrite (proj2 (Z.leb_le _ _)) by lia. cbn [andb].
  erewrite obind_ok by by apply validate_crc_run.
  destruct (frame_ok _); [|done]. cbn [Z.eqb negb]. erewrite obind_ok by done.
  do 3 (erewrite obind_ok by (apply load_lookup_total; lia)).
  unfold rtu_parsed_quantity. change (Z.to_nat 1) with 1%nat. destruct (_ =? _); [done|].
  by do 2 (erewrite obind_ok by (apply load_lookup_total; lia)).
Qed.
