(* ===== verification/RtuTheorems.v ===== *)
(** * Properties of the RTU framing helpers

    Exact behaviour of CRC validation and of the builders on every argument,
    the round trips through the parser, error detection of the CRC, and the
    inter-frame silence. *)

From S2P Require Import Prelude Buffer Defines Bits Pdu PduSpec PduClient Ptr Rtu Crc RtuFrames.

Definition sample_frame : list Z := [1; 3; 0; 0; 0; 10; 0xC5; 0xCD].
Definition other_frame : list Z := adu 1 [6; 0; 1; 0; 3].

(** C35. CRC validation is exact: on any readable bytes it terminates without
    leaving the buffer, answers 0 or -1, and answers 0 exactly when the frame
    holds the two check bytes that [mb_rtu_append_crc] would write there, that
    is, when appending the CRC to all but its last two bytes changes nothing. *)
Theorem validate_crc_exact p n :
  bytes p -> 0 <= n <= zlen p -> is_u64 n ->
  exists r, mb_rtu_validate_crc (Some p) n = Ok r /\ (r = 0 \/ r = -1) /\
    (r = 0 <-> 2 <= n /\ mb_rtu_append_crc (n - 2) n (Some p) = Ok (0, Some p)).
Proof.
  intros Hp Hn Hu. rewrite validate_crc_run by done. eexists. split; [done|].
  split; [destruct (frame_ok _); auto|].
  destruct (decide (2 <= n)) as [H2|H2].
  - rewrite append_crc_run by (done || lia). replace (n - 2 + 2) with n by lia.
    pose proof (Forall_take is_u8 (Z.to_nat (n - 2)) p Hp) as Hb.
    split; [|intros [_ E]; injection E as E].
    + destruct (frame_ok _) eqn:Hok; [|done]. intros _. split; [done|].
      apply frame_ok_split in Hok as (l & Hl & _); [|by apply Forall_take].
      assert (zlen l = n - 2) as Hlen.
      { apply (f_equal length) in Hl. rewrite length_take, length_app in Hl. simpl in Hl. lia. }
      assert (take (Z.to_nat (n - 2)) p = l) as ->.
      { transitivity (take (Z.to_nat (n - 2)) (take (Z.to_nat n) p)).
        - by rewrite take_take, Nat.min_l by lia.
        - rewrite Hl. apply take_app_length'. lia. }
      rewrite app_assoc, <- Hl. by rewrite take_drop.
    + assert (take (Z.to_nat n) p = take (Z.to_nat (n - 2)) p ++ crc_wire (take (Z.to_nat (n - 2)) p)) as ->;
        [|by rewrite frame_ok_wire].
      pose proof (length_take p (Z.to_nat (n - 2))) as Hl.
      set (t := take (Z.to_nat (n - 2)) p) in *. clearbody t.
      transitivity (take (Z.to_nat n) (t ++ crc_wire t ++ drop (Z.to_nat n) p)); [f_equal; exact (eq_sym E)|].
      rewrite app_assoc. apply take_app_length'. rewrite length_app. simpl. lia.
  - split; [|lia]. unfold frame_ok. rewrite length_take, (proj2 (Z.leb_gt _ _)) by lia. done.
Qed.

Lemma validate_crc_exact_witness :
  exists r, mb_rtu_validate_crc (Some sample_frame) 8 = Ok r /\ (r = 0 \/ r = -1) /\
    (r = 0 <-> 2 <= 8 /\ mb_rtu_append_crc (8 - 2) 8 (Some sample_frame) = Ok (0, Some sample_frame)).
Proof.
  apply (validate_crc_exact sample_frame 8).
  - zforall.
  - by vm_compute.
  - by vm_compute.
Defined.

(** C29. The CRC separates frames: two different frames of the same length, no
    longer than the 256 bytes of an RTU ADU, that both pass
    [mb_rtu_validate_crc] differ in at least four bits, so every corruption
    of one, two or three bits anywhere in a frame is rejected. *)
Theorem crc_detects_three_bit_errors f g :
  bytes f -> bytes g -> length f = length g -> zlen f <= MODBUS_RTU_MAX_ADU_LENGTH -> f <> g ->
  mb_rtu_validate_crc (Some f) (zlen f) = Ok 0 -> mb_rtu_validate_crc (Some g) (zlen g) = Ok 0 ->
  (4 <= bit_distance f g)%nat.
Proof.
  intros Hf Hg Hlen Hmax Hne Hvf Hvg. unfold MODBUS_RTU_MAX_ADU_LENGTH in Hmax.
  apply distance_4; auto using valid_crc_zero; lia.
Qed.

Lemma crc_detects_three_bit_errors_witness :
  (4 <= bit_distance sample_frame other_frame)%nat.
Proof.
  apply (crc_detects_three_bit_errors sample_frame other_frame).
  - zforall.
  - apply adu_bytes; zforall.
  - by vm_compute.
  - by vm_compute.
  - by vm_compute.
  - by vm_compute.
  - by vm_compute.
Defined.

(** The CRC detects bursts: if a frame passes validation and a frame of the
    same length whose differences from it all lie inside one window of 16
    consecutive transmitted bits also passes, then it is the same frame; every
    burst of noise of at most 16 bits is rejected, whatever the frame length. *)
Theorem crc_detects_bursts f g a :
  bytes f -> bytes g -> length f = length g ->
  mb_rtu_validate_crc (Some f) (zlen f) = Ok 0 -> mb_rtu_validate_crc (Some g) (zlen g) = Ok 0 ->
  (a + 16 <= 8 * length f)%nat ->
  (forall i, bit_errors f g !! i = Some true -> (a <= i < a + 16)%nat) ->
  f = g.
Proof. intros Hf Hg Hlen Hvf Hvg. apply window_undetected; auto using valid_crc_zero. Qed.

Lemma crc_detects_bursts_witness : sample_frame = adu 1 [3; 0; 0; 0; 10].
Proof.
  apply (crc_detects_bursts sample_frame (adu 1 [3; 0; 0; 0; 10]) 0).
  - zforall.
  - apply adu_bytes; zforall.
  - by vm_compute.
  - by vm_compute.
  - by vm_compute.
  - apply (bool_decide_unpack _). by vm_compute.
  - intros i Hi. apply list_elem_of_lookup_2 in Hi.
    apply (bool_decide_unpack (true ∉ bit_errors sample_frame (adu 1 [3; 0; 0; 0; 10]))) in Hi;
      [done | by vm_compute].
Defined.

(** The three builders are exact on every argument: given a buffer whose
    capacity is not overstated, each either writes the ADU of the PDU that the
    PDU layer builds for the same request (unit id, PDU, CRC) at the start of
    the buffer and returns its length, or returns -1 and writes nothing; it
    refuses exactly a NULL buffer or source, an out-of-range function, address
    or count, and a capacity below the length of the frame. *)
Theorem rtu_builders_exact unit addr nb fc o cap values more :
  capacity cap o ->
  mb_rtu_build_request_basis unit fc addr nb cap o
  = (if decide (0 <= fc <= 255 /\ 0 <= addr <= 65535)
     then emit (adu unit (fc :: be16 addr ++ be16 nb)) cap o else Ok (-1, o)) /\
  mb_rtu_build_fc16_request unit addr (zlen values) (Some (values ++ more)) cap o
  = (if decide (1 <= zlen values <= MODBUS_MAX_WRITE_REGISTERS)
     then emit (adu unit (encode_request (WriteRegisters addr values))) cap o else Ok (-1, o)) /\
  mb_rtu_build_read_registers_response fc unit (Some (values ++ more)) (zlen values) cap o
  = (if decide (zlen values <= MODBUS_MAX_READ_REGISTERS)
     then emit (adu unit (encode_response (RegistersRead fc values))) cap o else Ok (-1, o)) /\
  mb_rtu_build_fc16_request unit addr nb None cap o = Ok (-1, o) /\
  mb_rtu_build_read_registers_response fc unit None nb cap o = Ok (-1, o).
Proof.
  intros Ho. pose proof (words_be_length values) as Hw.
  unfold MODBUS_MAX_WRITE_REGISTERS, MODBUS_MAX_READ_REGISTERS. split_and!.
  - case_decide; [|apply rtu_build_basis_reject; lia].
    apply emit_run with 8; [done | apply adu_length | |].
    + intros p Hc Hu. by apply rtu_build_basis_run; try (unfold is_u8, is_u16; lia).
    + intros H'. apply rtu_build_basis_reject. tauto.
  - case_decide; [|apply rtu_build_fc16_reject; lia].
    apply emit_run with (9 + 2 * zlen values); [done | | |].
    + rewrite adu_length. cbn [encode_request]. zlength.
    + intros p Hc Hu. by apply rtu_build_fc16_run.
    + intros H'. apply rtu_build_fc16_reject; [lia | tauto].
  - case_decide; [|apply rtu_build_read_response_reject; lia].
    apply emit_run with (5 + 2 * zlen values); [done | | |].
    + rewrite adu_length. cbn [encode_response]. zlength.
    + intros p Hc Hu. by apply rtu_build_read_response_run.
    + intros H'. apply rtu_build_read_response_reject; [lia | tauto].
  - by destruct o.
  - by destruct o.
Qed.

Lemma rtu_builders_exact_witness :
  mb_rtu_build_request_basis 1 3 0 10 8 (Some (replicate 8 0))
  = (if decide (0 <= 3 <= 255 /\ 0 <= 0 <= 65535)
     then emit (adu 1 (3 :: be16 0 ++ be16 10)) 8 (Some (replicate 8 0))
     else Ok (-1, Some (replicate 8 0))).
Proof.
  destruct (rtu_builders_exact 1 0 10 3 (Some (replicate 8 0)) 8 [] []) as [H _].
  - split; by vm_compute.
  - exact H.
Defined.

(** The parser accepts exactly the frames of at least eight bytes whose CRC
    is right: it then returns the function code, the address and the quantity
    (1 for a single-register write); otherwise, or when a pointer is NULL, it
    returns -1 and stores nothing.  It never reads outside the frame. *)
Theorem rtu_parse_request_exact o n fc addr qty :
  match o with Some p => bytes p /\ 0 <= n <= zlen p | None => True end ->
  mb_rtu_parse_request o n fc addr qty =
  match o, fc, addr, qty with
  | Some p, Some _, Some _, Some _ =>
      if (8 <=? n) && frame_ok (take (Z.to_nat n) p)
      then Ok (0, (Some (p !!! 1%nat), Some (of_be16 (p !!! 2%nat) (p !!! 3%nat)),
                   Some (rtu_parsed_quantity p)))
      else Ok (-1, (fc, addr, qty))
  | _, _, _, _ => Ok (-1, (fc, addr, qty))
  end.
Proof.
  destruct o as [p|]; [|done]. intros [Hp Hn].
  destruct fc as [f|], addr as [a|], qty as [q|]; try done.
  rewrite rtu_parse_request_run by done. by destruct (_ && _).
Qed.

Lemma rtu_parse_request_exact_witness :
  mb_rtu_parse_request (Some sample_frame) 8 (Some 0) (Some 0) (Some 0)
  = Ok (0, (Some 3, Some 0, Some 10)).
Proof.
  rewrite (rtu_parse_request_exact (Some sample_frame) 8 (Some 0) (Some 0) (Some 0)).
  - by vm_compute.
  - split; [zforall | by vm_compute].
Defined.

(** Build then parse: a request frame written by any of the request builders
    into a large enough buffer validates, and the parser reads back the
    function code, the address and the quantity it was built from (for FC06
    the quantity is 1). *)
Theorem rtu_build_parse unit fc addr nb p cap f0 a0 q0 :
  is_u8 unit -> is_u8 fc -> is_u16 addr -> is_u16 nb ->
  8 <= cap <= zlen p -> is_u64 cap -> bytes p ->
  exists frame, mb_rtu_build_request_basis unit fc addr nb cap (Some p) = Ok (8, Some frame) /\
    mb_rtu_validate_crc (Some frame) 8 = Ok 0 /\
    mb_rtu_parse_request (Some frame) 8 (Some f0) (Some a0) (Some q0)
    = Ok (0, (Some fc, Some addr,
              Some (if fc =? MODBUS_FUNC_WRITE_SINGLE_REGISTER then 1 else nb))).
Proof.
  intros Hun Hf Ha Hnb Hc Hu Hp.
  rewrite rtu_build_basis_run by done. eexists. split; [done|].
  set (pdu := fc :: be16 addr ++ be16 nb).
  assert (bytes pdu) as Hpdu.
  { apply List.Forall_cons; [done|]. apply Forall_app_2; apply be16_bytes. }
  assert (bytes (adu unit pdu ++ drop (length (adu unit pdu)) p)) as Hb.
  { apply Forall_app_2; [by apply adu_bytes | by apply Forall_drop]. }
  assert (take (Z.to_nat 8) (adu unit pdu ++ drop (length (adu unit pdu)) p) = adu unit pdu) as Ht
    by done.
  assert (8 <= zlen (adu unit pdu ++ drop (length (adu unit pdu)) p)) as Hl.
  { rewrite length_app, length_drop. pose proof (adu_length unit pdu). simpl in *. lia. }
  rewrite validate_crc_run, rtu_parse_request_run, Ht, adu_ok by (done || lia).
  split; [done|]. cbn [Z.leb andb Z.compare Pos.compare Pos.compare_cont].
  unfold rtu_parsed_quantity. simpl. by rewrite !of_be16_be16.
Qed.

Lemma rtu_build_parse_witness :
  exists frame, mb_rtu_build_request_basis 17 3 107 3 8 (Some (replicate 8 0)) = Ok (8, Some frame) /\
    mb_rtu_validate_crc (Some frame) 8 = Ok 0 /\
    mb_rtu_parse_request (Some frame) 8 (Some 0) (Some 0) (Some 0)
    = Ok (0, (Some 3, Some 107, Some 3)).
Proof.
  apply (rtu_build_parse 17 3 107 3 (replicate 8 0) 8 0 0 0); try by vm_compute.
  apply Forall_replicate. by vm_compute.
Defined.

(** C37. The inter-frame silence: above 19200 baud [mb_rtu_t35_us] is 1750 us;
    otherwise it is the least number of microseconds that covers 3.5
    characters of the configured format (start, data, parity and stop bits),
    computed without any 32-bit overflow, for every configuration. *)
Theorem t35_exact s :
  is_u32 (baud_rate s) -> is_u8 (data_bits s) -> is_u8 (stop_bits s) ->
  let baud := if baud_rate s =? 0 then 9600 else baud_rate s in
  let bits := 1 + effective_data_bits (data_bits s) + effective_stop_bits (stop_bits s)
              + (if parity s =? MB_RTU_PARITY_NONE then 0 else 1) in
  let r := mb_rtu_t35_us (Some s) in
  is_u32 r /\ 1 <= r /\
  (19200 < baud -> r = 1750) /\
  (baud <= 19200 -> (r - 1) * baud * 2 < 7 * bits * 1000000 <= r * baud * 2).
Proof.
  intros Hb Hd Hs baud bits r. subst r. cbn [mb_rtu_t35_us]. fold baud.
  unfold RTU_T35_FIXED_BAUD_ABOVE, RTU_T35_FIXED_US.
  assert (1 <= baud < 2 ^ 32) as Hbaud.
  { subst baud. unfold is_u32 in Hb. destruct (Z.eqb_spec (baud_rate s) 0); lia. }
  assert (3 <= bits <= 512) as Hbits.
  { subst bits. unfold effective_data_bits, effective_stop_bits, is_u8 in *.
    destruct (data_bits s =? 0) eqn:?, (stop_bits s =? 0) eqn:?, (parity s =? _); lia. }
  destruct (Z.ltb_spec 19200 baud) as [H|H].
  { unfold is_u32. repeat split; lia. }
  cbv zeta.
  replace (1 + effective_data_bits (data_bits s) + effective_stop_bits (stop_bits s)
           + (if negb (parity s =? MB_RTU_PARITY_NONE) then 1 else 0)) with bits
    by (subst bits; by destruct (parity s =? _)).
  rewrite (u32_small bits) by (unfold is_u32; lia).
  rewrite u64_small by (unfold is_u64; lia).
  set (q := (bits * 3500000 + baud - 1) / baud).
  assert (q * baud <= bits * 3500000 + baud - 1 < (q + 1) * baud) as Hq.
  { subst q. pose proof (Z.div_mod (bits * 3500000 + baud - 1) baud).
    pose proof (Z.mod_pos_bound (bits * 3500000 + baud - 1) baud). lia. }
  clearbody q. assert (1 <= q < 2 ^ 32) by nia.
  rewrite u32_small by (unfold is_u32; lia).
  unfold is_u32. repeat split; nia.
Qed.

Lemma t35_exact_witness :
  mb_rtu_t35_us (Some (SerialConfig None 9600 8 1 0 0)) = 3646 /\
  (3646 - 1) * 9600 * 2 < 7 * 10 * 1000000 <= 3646 * 9600 * 2.
Proof.
  destruct (t35_exact (SerialConfig None 9600 8 1 0 0)) as (_ & _ & _ & H); [by vm_compute..|].
  split; [reflexivity | apply H; by vm_compute].
Defined.
