(* ===== verification/Tcp.v ===== *)
(** * TCP framing: [src/modbus_tcp.c], the transport context and the framing helpers

    The builders of MBAP frames work on two objects, the transport context
    (they take the next transaction id from it) and the frame buffer; a call
    is a computation over the pair.  The mutex around the transaction id makes
    the increment one step. *)

From S2P Require Import Prelude Buffer Defines Bits Pdu PduSpec Ptr.

(** ** The transport context *)

Definition MB_TCP_MODE_LISTEN_SERVER : Z := 0.
Definition MB_TCP_MODE_CONNECT_CLIENT : Z := 1.
Definition MB_TCP_KEEPALIVE_DISABLED : Z := 2 ^ 32 - 1.
Definition MB_TCP_DEFAULT_KEEPALIVE_IDLE_SEC : Z := 5.
Definition MB_TCP_DEFAULT_KEEPALIVE_INTERVAL_SEC : Z := 5.
Definition MB_TCP_DEFAULT_KEEPALIVE_COUNT : Z := 1.
Definition MB_TCP_DEFAULT_IDLE_POLL_MS : Z := 5000.
Definition MB_TCP_DEFAULT_MAX_CLIENTS : Z := 10.

(** Of the callbacks the configuration says whether they are set; what they do
    is up to the operations that call them. *)
Record mb_tcp_config := TcpConfig {
  mode : Z;
  remote_host : option string;
  port : Z;
  bind_iface : option string;
  connect_timeout_sec : Z;
  connect_retry_sec : Z;
  recv_timeout_ms : Z;
  max_clients : Z;
  keepalive_idle_sec : Z;
  keepalive_interval_sec : Z;
  keepalive_count : Z;
  idle_poll_ms : Z;
  has_on_link : bool;
  has_on_init : bool;
  has_on_process : bool;
  has_on_error : bool;
}.

Record mb_tcp_ctx := TcpCtx {
  keep_running : Z;
  tid : Z;
  cfg : mb_tcp_config;
  listen_sock : Z;
  stream_sock : Z;
  client_fds : list Z;
  client_cap : Z;
  initialized : Z;
}.

Definition set_tid (t : Z) (c : mb_tcp_ctx) : mb_tcp_ctx :=
  TcpCtx (keep_running c) t (cfg c) (listen_sock c) (stream_sock c) (client_fds c)
    (client_cap c) (initialized c).

Definition value_or_default (value default_value : Z) : Z :=
  if negb (value =? 0) then value else default_value.

(** ** Request builders *)

Abbreviation framing := (option mb_tcp_ctx * option (list Z))%type.

(** The critical section: increment the id, skipping 0 on wrap-around. *)
Definition next_transaction_id (t : Z) : Z := if t <? 65535 then u16 (t + 1) else 1.

Definition take_tid : st framing Z := fun '(c, req) =>
  match c with
  | None => Fail UB
  | Some c' => let t := next_transaction_id (tid c') in Ok (t, (Some (set_tid t c'), req))
  end.

(** Write through the frame pointer. *)
Definition on_frame {A} (m : st (list Z) A) : st framing A := fun '(c, req) =>
  match deref m req with
  | Ok (a, req') => Ok (a, (c, req'))
  | Fail e => Fail e
  end.

Definition mb_tcp_build_request_basis (modbus_uid function addr nb req_cap : Z) : st framing Z :=
  let! '(ctx, req) := get in
  if is_null ctx || is_null req || (req_cap <? MODBUS_TCP_MIN_READ_REQ_LENGTH) then ret (-1)
  else if (function <? 0) || (255 <? function) || (addr <? 0) || (65535 <? addr) then ret (-1)
  else
    let! t := take_tid in
    let mbap_len := 1 + 5 in
    on_frame (store 0 (u8 (Z.shiftr t 8)) ;;;
              store 1 (u8 (Z.land t 0xFF)) ;;;
              store 2 0 ;;;
              store 3 0 ;;;
              store 4 (u8 (Z.shiftr mbap_len 8)) ;;;
              store 5 (u8 (Z.land mbap_len 0xFF)) ;;;
              store 6 modbus_uid ;;;
              store 7 (u8 function) ;;;
              store 8 (u8 (Z.shiftr addr 8)) ;;;
              store 9 (u8 (Z.land addr 0xFF)) ;;;
              store 10 (u8 (Z.shiftr nb 8)) ;;;
              store 11 (u8 (Z.land nb 0xFF))) ;;;
    ret 0.

Definition mb_tcp_build_fc06_request (modbus_uid addr value req_cap : Z) : st framing Z :=
  let! '(ctx, req) := get in
  if is_null ctx || is_null req || (req_cap <? MODBUS_TCP_MIN_READ_REQ_LENGTH) then ret (-1)
  else
    let! t := take_tid in
    on_frame (store 0 (u8 (Z.shiftr t 8)) ;;;
              store 1 (u8 (Z.land t 0xFF)) ;;;
              store 2 0x00 ;;;
              store 3 0x00 ;;;
              store 4 0x00 ;;;
              store 5 MODBUS_TCP_MBAP_LEN_STANDARD_REQ ;;;
              store 6 modbus_uid ;;;
              store 7 MODBUS_FUNC_WRITE_SINGLE_REGISTER ;;;
              store 8 (u8 (Z.shiftr addr 8)) ;;;
              store 9 (u8 (Z.land addr 0xFF)) ;;;
              store 10 (u8 (Z.shiftr value 8)) ;;;
              store 11 (u8 (Z.land value 0xFF))) ;;;
    ret 0.

Definition mb_tcp_build_fc16_request (modbus_uid addr num_registers : Z)
    (values : option (list Z)) (req_cap : Z) : st framing Z :=
  let! '(ctx, req) := get in
  if is_null ctx || is_null req || is_null values || (num_registers =? 0)
     || (MODBUS_MAX_WRITE_REGISTERS <? num_registers) then ret (-1)
  else
    let byte_count := u8 (num_registers * 2) in
    let mbap_len := u16 (7 + byte_count) in
    let total_len := MODBUS_TCP_MBAP_HEADER_LEN + mbap_len in
    if req_cap <? total_len then ret (-1)
    else
      let! t := take_tid in
      on_frame (store 0 (u8 (Z.shiftr t 8)) ;;;
                store 1 (u8 (Z.land t 0xFF)) ;;;
                store 2 0x00 ;;;
                store 3 0x00 ;;;
                store 4 (u8 (Z.shiftr mbap_len 8)) ;;;
                store 5 (u8 (Z.land mbap_len 0xFF)) ;;;
                store 6 modbus_uid ;;;
                store 7 MODBUS_FUNC_WRITE_MULTIPLE_REGISTERS ;;;
                store 8 (u8 (Z.shiftr addr 8)) ;;;
                store 9 (u8 (Z.land addr 0xFF)) ;;;
                store 10 (u8 (Z.shiftr num_registers 8)) ;;;
                store 11 (u8 (Z.land num_registers 0xFF)) ;;;
                store 12 byte_count ;;;
                for_upto num_registers (fun i =>
                  let! vs := lift (fun_ptr values) in
                  let! v := lift (load vs i) in
                  let offset := 13 + i * 2 in
                  store offset (u8 (Z.shiftr v 8)) ;;;
                  store (offset + 1) (u8 (Z.land v 0xFF)))) ;;;
      ret total_len.

(** ** Request parser *)

Definition mb_tcp_parse_request (request : option (list Z)) (length : Z)
    (function_code address quantity : option Z)
    : outcome (Z * (option Z * option Z * option Z)) :=
  let keep := (function_code, address, quantity) in
  if is_null request || is_null function_code || is_null address || is_null quantity
  then Ok (-1, keep)
  else if length <? MODBUS_TCP_MBAP_PREFIX_LEN then Ok (-1, keep)
  else
    let? p := fun_ptr request in
    let? lh := load p 4 in
    let? ll := load p 5 in
    let mbap_len := of_be16 lh ll in
    if mbap_len <? 6 then Ok (-1, keep)
    else if u16 (MODBUS_TCP_MAX_ADU_LENGTH - MODBUS_TCP_MBAP_PREFIX_LEN) <? mbap_len
    then Ok (-1, keep)
    else if length <? MODBUS_TCP_MBAP_PREFIX_LEN + mbap_len then Ok (-1, keep)
    else
      let? fc := load p 7 in
      let? ah := load p 8 in
      let? al := load p 9 in
      if fc =? MODBUS_FUNC_WRITE_SINGLE_REGISTER then
        Ok (0, (Some fc, Some (of_be16 ah al), Some 1))
      else
        let? qh := load p 10 in
        let? ql := load p 11 in
        Ok (0, (Some fc, Some (of_be16 ah al), Some (of_be16 qh ql))).

(** ** Response builder *)

Definition mb_tcp_build_read_registers_response (tid function_code unit_id : Z)
    (data : option (list Z)) (quantity response_cap : Z) : st (option (list Z)) Z :=
  let! response := get in
  if is_null response || is_null data then ret (-1)
  else if 125 <? quantity then ret (-1)
  else
    let pdu_len := 1 + 1 + quantity * 2 in
    let mbap_len := 1 + pdu_len in
    let total := MODBUS_TCP_MBAP_PREFIX_LEN + mbap_len in
    if response_cap <? total then ret (-1)
    else
      deref (store 0 (u8 (Z.land (Z.shiftr tid 8) 0xFF)) ;;;
             store 1 (u8 (Z.land tid 0xFF)) ;;;
             store 2 0 ;;;
             store 3 0 ;;;
             store 4 (u8 (Z.shiftr mbap_len 8)) ;;;
             store 5 (u8 (Z.land mbap_len 0xFF)) ;;;
             store 6 unit_id ;;;
             store 7 function_code ;;;
             store 8 (u8 (quantity * 2)) ;;;
             for_upto quantity (fun i =>
               let! ds := lift (fun_ptr data) in
               let! v := lift (load ds i) in
               store (9 + i * 2) (u8 (Z.land (Z.shiftr v 8) 0xFF)) ;;;
               store (10 + i * 2) (u8 (Z.land v 0xFF)))) ;;;
      ret total.
