(* ===== verification/TcpFrames.v ===== *)
(** * TCP frames: what the helpers of [src/modbus_tcp.c] compute

    The frame of a PDU is [mbap t unit pdu]: the transaction id, protocol id 0,
    the length of what follows, the unit id and the PDU. *)

From S2P Require Import Prelude Buffer Defines Bits Pdu PduSpec PduClient Ptr Tcp.

Definition mbap (t unit : Z) (pdu : list Z) : list Z :=
  be16 t ++ [0; 0] ++ be16 (zlen pdu + 1) ++ unit :: pdu.

Lemma mbap_length t unit pdu : zlen (mbap t unit pdu) = zlen pdu + 7.
Proof. unfold mbap. zlength. Qed.

Lemma mbap_bytes t unit pdu : is_u8 unit -> bytes pdu -> bytes (mbap t unit pdu).
Proof.
  intros Hu Hp. unfold mbap.
  repeat apply Forall_app_2; [apply be16_bytes | zforall | apply be16_bytes | by apply List.Forall_cons].
Qed.

(** What a successful request builder leaves: the next transaction id in the
    context and the frame at the start of the buffer. *)
Definition emit_request (k unit : Z) (pdu : list Z) (cap : Z) (s : framing) : outcome (Z * framing) :=
  match s with
  | (Some c, Some p) =>
      if zlen pdu + 7 <=? cap then
        let t := next_transaction_id (tid c) in
        let bs := mbap t unit pdu in
        Ok (k, (Some (set_tid t c), Some (bs ++ drop (length bs) p)))
      else Ok (-1, s)
  | _ => Ok (-1, s)
  end.

Lemma take_tid_run c req :
  take_tid (Some c, req)
  = Ok (next_transaction_id (tid c), (Some (set_tid (next_transaction_id (tid c)) c), req)).
Proof. done. Qed.

Lemma on_frame_ok {A} (m : st (list Z) A) c p a q :
  m p = Ok (a, q) -> on_frame m (c, Some p) = Ok (a, (c, Some q)).
Proof. unfold on_frame, deref. by intros ->. Qed.

Ltac open_frame p H :=
  destruct p as [|?x [|?x [|?x [|?x [|?x [|?x [|?x [|?x [|?x [|?x [|?x [|?x p]]]]]]]]]]]];
  try (cbn [length] in H; lia).

Lemma tcp_build_basis_run unit fc addr nb cap c p :
  is_u8 fc -> is_u16 addr -> 12 <= cap <= zlen p ->
  mb_tcp_build_request_basis unit fc addr nb cap (Some c, Some p)
  = emit_request 0 unit (fc :: be16 addr ++ be16 nb) cap (Some c, Some p).
Proof.
  intros Hf Ha Hc. unfold mb_tcp_build_request_basis. erewrite bind_ok by done.
  unfold MODBUS_TCP_MIN_READ_REQ_LENGTH. cbn [is_null].
  rewrite !(proj2 (Z.ltb_ge _ _)) by (unfold is_u8, is_u16 in *; lia). cbn [orb].
  erewrite bind_ok by apply take_tid_run. cbv zeta.
  unfold emit_request. rewrite (proj2 (Z.leb_le _ _)) by (simpl; lia).
  generalize (next_transaction_id (tid c)). intros t.
  erewrite bind_ok; [done|]. apply on_frame_ok. open_frame p Hc.
  run_stores. rewrite store_ok by zlength. by rewrite (u8_small fc) by done.
Qed.

Lemma tcp_build_fc06_run unit addr value cap c p :
  12 <= cap <= zlen p ->
  mb_tcp_build_fc06_request unit addr value cap (Some c, Some p)
  = emit_request 0 unit (encode_request (WriteRegister addr value)) cap (Some c, Some p).
Proof.
  intros Hc. unfold mb_tcp_build_fc06_request. erewrite bind_ok by done.
  unfold MODBUS_TCP_MIN_READ_REQ_LENGTH. cbn [is_null].
  rewrite !(proj2 (Z.ltb_ge _ _)) by lia. cbn [orb].
  erewrite bind_ok by apply take_tid_run.
  unfold emit_request. rewrite (proj2 (Z.leb_le _ _)) by (simpl; lia).
  generalize (next_transaction_id (tid c)). intros t.
  erewrite bind_ok; [done|]. apply on_frame_ok. open_frame p Hc.
  run_stores. by rewrite store_ok by zlength.
Qed.

Lemma tcp_build_fc16_run unit addr values more cap c p :
  1 <= zlen values <= 123 -> 13 + 2 * zlen values <= cap <= zlen p ->
  mb_tcp_build_fc16_request unit addr (zlen values) (Some (values ++ more)) cap (Some c, Some p)
  = emit_request (13 + 2 * zlen values) unit
      (encode_request (WriteRegisters addr values)) cap (Some c, Some p).
Proof.
  intros Hv Hc. unfold mb_tcp_build_fc16_request. erewrite bind_ok by done.
  unfold MODBUS_MAX_WRITE_REGISTERS, MODBUS_TCP_MBAP_HEADER_LEN. cbn [is_null]. cbv zeta.
  rewrite (u8_small (zlen values * 2)) by (unfold is_u8; lia).
  rewrite (u16_small (7 + _)) by (unfold is_u16; lia).
  rewrite (proj2 (Z.eqb_neq _ _)), !(proj2 (Z.ltb_ge _ _)) by lia. cbn [orb].
  pose proof (words_be_length values) as Hw.
  set (pdu := encode_request (WriteRegisters addr values)).
  assert (zlen pdu = 6 + 2 * zlen values) as Hl by (subst pdu; cbn [encode_request]; zlength).
  erewrite bind_ok by apply take_tid_run.
  unfold emit_request. rewrite (proj2 (Z.leb_le _ _)) by lia.
  generalize (next_transaction_id (tid c)). intros t. cbv zeta.
  rewrite (bind_ok _ _ _ tt (Some (set_tid t c),
    Some (mbap t unit pdu ++ drop (length (mbap t unit pdu)) p))).
  { unfold ret. do 2 f_equal. lia. }
  apply on_frame_ok. pose proof (mbap_length t unit pdu) as Hm.
  replace (length (mbap t unit pdu)) with (13 + length (words_be values))%nat by lia.
  open_frame p Hc. destruct p as [|y p]; [cbn [length] in Hc; lia|]. run_stores.
  rewrite store_words_run by (rewrite ?length_app; simpl length in *; lia).
  rewrite Nat2Z.id, take_app_length.
  replace (Z.to_nat (13 + 2 * zlen values)) with (13 + length (words_be values))%nat by lia.
  unfold mbap. rewrite Hl. subst pdu. cbn [encode_request].
  replace (6 + 2 * zlen values + 1) with (7 + zlen values * 2) by lia.
  change (Z.to_nat 13) with 13%nat. cbn [take drop Nat.add app].
  by rewrite (u8_small (zlen values * 2)) by (unfold is_u8; lia).
Qed.

Lemma store_be16_land offset v :
  (store offset (u8 (Z.land (Z.shiftr v 8) 0xFF)) ;;; store (offset + 1) (u8 (Z.land v 0xFF)))
  = store_be16 offset v.
Proof.
  unfold store_be16. do 2 f_equal. rewrite land_255. apply Z.mod_mod. lia.
Qed.

Lemma tcp_build_read_response_run t fc unit values more p cap :
  zlen values <= 125 -> 9 + 2 * zlen values <= cap <= zlen p ->
  mb_tcp_build_read_registers_response t fc unit (Some (values ++ more)) (zlen values) cap (Some p)
  = writes (mbap t unit (encode_response (RegistersRead fc values))) p.
Proof.
  intros Hv Hc. unfold mb_tcp_build_read_registers_response. erewrite bind_ok by done.
  unfold MODBUS_TCP_MBAP_PREFIX_LEN, MODBUS_TCP_MBAP_HEADER_LEN. cbn [is_null]. cbv zeta.
  rewrite !(proj2 (Z.ltb_ge _ _)) by lia. cbn [orb].
  pose proof (words_be_length values) as Hw.
  set (pdu := encode_response (RegistersRead fc values)).
  assert (zlen pdu = 2 + 2 * zlen values) as Hl by (subst pdu; cbn [encode_response]; zlength).
  pose proof (mbap_length t unit pdu) as Hm. unfold writes.
  rewrite (bind_ok _ _ _ tt (Some (mbap t unit pdu ++ drop (length (mbap t unit pdu)) p))).
  { unfold ret. do 2 f_equal. lia. }
  apply deref_ok.
  replace (length (mbap t unit pdu)) with (9 + length (words_be values))%nat by lia.
  destruct p as [|?x [|?x [|?x [|?x [|?x [|?x [|?x [|?x [|?x p]]]]]]]]];
    try (cbn [length] in Hc; lia).
  run_stores.
  rewrite (words_loop_run (values ++ more) 9); [|lia|rewrite length_app; lia|simpl length in *; lia|].
  - rewrite Nat2Z.id, take_app_length.
    replace (Z.to_nat (9 + 2 * zlen values)) with (9 + length (words_be values))%nat by lia.
    unfold mbap. rewrite Hl. subst pdu. cbn [encode_response].
    replace (2 + 2 * zlen values + 1) with (1 + (1 + 1 + zlen values * 2)) by lia.
    change (Z.to_nat 9) with 9%nat. cbn [take drop Nat.add app].
    do 3 f_equal. unfold be16. rewrite land_255, u8_small; [done | apply is_u8_u8].
  - intros i q Hi. erewrite bind_ok by by apply lift_ok.
    erewrite bind_ok by (apply lift_ok, load_lookup_total; rewrite length_app; lia).
    rewrite <- store_be16_land. by replace (10 + i * 2) with (9 + i * 2 + 1) by lia.
Qed.

(** ** Rejected calls *)

Lemma tcp_build_basis_reject unit fc addr nb cap c o :
  c = None \/ o = None \/ cap < 12 \/ ~ (0 <= fc <= 255) \/ ~ (0 <= addr <= 65535) ->
  mb_tcp_build_request_basis unit fc addr nb cap (c, o) = Ok (-1, (c, o)).
Proof.
  intros H. unfold mb_tcp_build_request_basis. erewrite bind_ok by done.
  unfold MODBUS_TCP_MIN_READ_REQ_LENGTH.
  destruct c as [c|]; [|done]. destruct o as [p|]; [|done]. cbn [is_null orb].
  destruct (Z.ltb_spec cap 12); [done|].
  destruct (Z.ltb_spec fc 0); [done|]. destruct (Z.ltb_spec 255 fc); [done|].
  destruct (Z.ltb_spec addr 0); [done|]. destruct (Z.ltb_spec 65535 addr); [done|].
  destruct H as [|[|H]]; [done | done | lia].
Qed.

Lemma tcp_build_fc06_reject unit addr value cap c o :
  c = None \/ o = None \/ cap < 12 ->
  mb_tcp_build_fc06_request unit addr value cap (c, o) = Ok (-1, (c, o)).
Proof.
  intros H. unfold mb_tcp_build_fc06_request. erewrite bind_ok by done.
  unfold MODBUS_TCP_MIN_READ_REQ_LENGTH.
  destruct c as [c|]; [|done]. destruct o as [p|]; [|done]. cbn [is_null orb].
  destruct (Z.ltb_spec cap 12); [done|]. destruct H as [|[|H]]; [done | done | lia].
Qed.

Lemma tcp_build_fc16_reject unit addr n values cap c o :
  0 <= n ->
  c = None \/ o = None \/ values = None \/ n = 0 \/ 123 < n \/ cap < 13 + 2 * n ->
  mb_tcp_build_fc16_request unit addr n values cap (c, o) = Ok (-1, (c, o)).
Proof.
  intros Hn H. unfold mb_tcp_build_fc16_request. erewrite bind_ok by done.
  unfold MODBUS_MAX_WRITE_REGISTERS, MODBUS_TCP_MBAP_HEADER_LEN.
  destruct c as [c|]; [|done]. destruct o as [p|]; [|done]. destruct values as [vs|]; [|done].
  cbn [is_null orb]. destruct (Z.eqb_spec n 0); [done|]. destruct (Z.ltb_spec 123 n); [done|].
  cbn [orb]. cbv zeta. rewrite (u8_small (n * 2)) by (unfold is_u8; lia).
  rewrite u16_small by (unfold is_u16; lia).
  rewrite (proj2 (Z.ltb_lt _ _)); [done|]. destruct H as [|[|[|]]]; [done.. | lia].
Qed.

Lemma tcp_build_read_response_reject t fc unit data n cap o :
  0 <= n -> o = None \/ data = None \/ 125 < n \/ cap < 9 + 2 * n ->
  mb_tcp_build_read_registers_response t fc unit data n cap o = Ok (-1, o).
Proof.
  intros Hn H. unfold mb_tcp_build_read_registers_response. erewrite bind_ok by done.
  unfold MODBUS_TCP_MBAP_PREFIX_LEN, MODBUS_TCP_MBAP_HEADER_LEN.
  destruct o as [p|]; [|done]. destruct data as [vs|]; [|done]. cbn [is_null orb].
  destruct (Z.ltb_spec 125 n); [done|]. cbv zeta.
  rewrite (proj2 (Z.ltb_lt _ _)); [done|]. destruct H as [|[|]]; [done | done | lia].
Qed.

(** ** Parsing *)

Definition tcp_parsed_quantity (p : list Z) : Z :=
  if p !!! 7%nat =? MODBUS_FUNC_WRITE_SINGLE_REGISTER then 1
  else of_be16 (p !!! 10%nat) (p !!! 11%nat).

(** The length field of a complete request: at least the unit id and a
    five-byte PDU, at most what an ADU may hold, and all of it received. *)
Definition complete_request (p : list Z) (n : Z) : bool :=
  let len := of_be16 (p !!! 4%nat) (p !!! 5%nat) in
  (6 <=? n) && (6 <=? len) && (len <=? 254) && (6 + len <=? n).

Lemma tcp_parse_request_run p n f0 a0 q0 :
  0 <= n <= zlen p ->
  mb_tcp_parse_request (Some p) n (Some f0) (Some a0) (Some q0)
  = Ok (if complete_request p n
        then (0, (Some (p !!! 7%nat), Some (of_be16 (p !!! 8%nat) (p !!! 9%nat)),
                  Some (tcp_parsed_quantity p)))
        else (-1, (Some f0, Some a0, Some q0))).
Proof.
  intros Hn. unfold mb_tcp_parse_request, complete_request.
  unfold MODBUS_TCP_MBAP_PREFIX_LEN, MODBUS_TCP_MBAP_HEADER_LEN, MODBUS_TCP_MAX_ADU_LENGTH.
  cbn [is_null orb]. cbv zeta. rewrite !Z.leb_antisym.
  destruct (Z.ltb_spec n 6) as [H6|H6]; [done|].
  erewrite obind_ok by done.
  do 2 (erewrite obind_ok by (apply load_lookup_total; lia)).
  change (Z.to_nat 4) with 4%nat. change (Z.to_nat 5) with 5%nat.
  change (u16 (260 - 6)) with 254.
  set (len := of_be16 (p !!! 4%nat) (p !!! 5%nat)). cbn [negb andb].
  destruct (Z.ltb_spec len 6); [done|]. cbn [negb andb].
  destruct (Z.ltb_spec 254 len); [done|]. cbn [negb andb].
  destruct (Z.ltb_spec n (6 + len)); [done|]. cbn [negb andb].
  do 3 (erewrite obind_ok by (apply load_lookup_total; lia)).
  unfold tcp_parsed_quantity. change (Z.to_nat 7) with 7%nat. destruct (_ =? _); [done|].
  by do 2 (erewrite obind_ok by (apply load_lookup_total; lia)).
Qed.

(** ** Transaction ids *)

Lemma next_transaction_id_range t : 0 <= t < 65536 -> 1 <= next_transaction_id t <= 65535.
Proof.
  intros Ht. unfold next_transaction_id. destruct (Z.ltb_spec t 65535); [|lia].
  rewrite u16_small by (unfold is_u16; lia). lia.
Qed.

(** The id after [k] increments, in closed form. *)
Lemma next_transaction_id_iter k t :
  1 <= t <= 65535 -> Nat.iter k next_transaction_id t = (t - 1 + Z.of_nat k) mod 65535 + 1.
Proof.
  intros Ht. induction k as [|k IH].
  - simpl. rewrite Z.add_0_r, Z.mod_small; lia.
  - change (Nat.iter (S k) next_transaction_id t)
      with (next_transaction_id (Nat.iter k next_transaction_id t)).
    rewrite IH. unfold next_transaction_id.
    rewrite Nat2Z.inj_succ. set (x := t - 1 + Z.of_nat k).
    replace (t - 1 + Z.succ (Z.of_nat k)) with (x + 1) by lia.
    destruct (Z.ltb_spec (x mod 65535 + 1) 65535) as [H|H].
    + rewrite u16_small by (unfold is_u16; Z.div_mod_to_equations; lia).
      Z.div_mod_to_equations. lia.
    + Z.div_mod_to_equations. lia.
Qed.

Lemma emit_request_run (f : st framing Z) k unit pdu n cap c o :
  capacity cap o -> zlen pdu + 7 = n ->
  (forall c p, n <= cap <= zlen p -> f (Some c, Some p) = emit_request k unit pdu cap (Some c, Some p)) ->
  ((c = None \/ o = None \/ cap < n) -> f (c, o) = Ok (-1, (c, o))) ->
  f (c, o) = emit_request k unit pdu cap (c, o).
Proof.
  intros [_ Hc] Hn Hw Hr. destruct c as [c|]; [|by apply Hr; auto].
  destruct o as [p|]; [|by apply Hr; auto].
  destruct (decide (n <= cap)); [by apply Hw|]. rewrite Hr by (right; right; lia).
  unfold emit_request. by rewrite (proj2 (Z.leb_gt _ _)) by lia.
Qed.
