(* ===== verification/TcpTheorems.v ===== *)
(** * Properties of the TCP framing helpers

    The builders and the parser on every argument, and the transaction ids
    they hand out. *)

From S2P Require Import Prelude Buffer Defines Bits Pdu PduSpec PduClient Ptr Tcp TcpFrames.

Definition sample_config : mb_tcp_config :=
  TcpConfig MB_TCP_MODE_LISTEN_SERVER None 502 None 5 3 5000 0 0 0 0 0 false false false false.
Definition sample_ctx (t : Z) : mb_tcp_ctx := TcpCtx 1 t sample_config (-1) (-1) [] 0 1.

(** The TCP builders are exact on every argument: given a buffer whose
    capacity is not overstated, a request builder either takes the next
    transaction id from the context and writes the MBAP frame of the PDU that
    the PDU layer builds for the same request, or returns -1, consumes no
    transaction id and writes nothing; it refuses exactly a NULL context,
    buffer or source, an out-of-range function, address or count, and a
    capacity below the length of the frame.  The response builder frames the
    register response with the transaction id it is given. *)
Theorem tcp_builders_exact unit addr nb fc t c o cap values more :
  capacity cap o ->
  mb_tcp_build_request_basis unit fc addr nb cap (c, o)
  = (if decide (0 <= fc <= 255 /\ 0 <= addr <= 65535)
     then emit_request 0 unit (fc :: be16 addr ++ be16 nb) cap (c, o) else Ok (-1, (c, o))) /\
  mb_tcp_build_fc06_request unit addr nb cap (c, o)
  = emit_request 0 unit (encode_request (WriteRegister addr nb)) cap (c, o) /\
  mb_tcp_build_fc16_request unit addr (zlen values) (Some (values ++ more)) cap (c, o)
  = (if decide (1 <= zlen values <= MODBUS_MAX_WRITE_REGISTERS)
     then emit_request (13 + 2 * zlen values) unit
            (encode_request (WriteRegisters addr values)) cap (c, o) else Ok (-1, (c, o))) /\
  mb_tcp_build_read_registers_response t fc unit (Some (values ++ more)) (zlen values) cap o
  = (if decide (zlen values <= MODBUS_MAX_READ_REGISTERS)
     then emit (mbap t unit (encode_response (RegistersRead fc values))) cap o else Ok (-1, o)).
Proof.
  intros Ho. pose proof (words_be_length values) as Hw.
  unfold MODBUS_MAX_WRITE_REGISTERS, MODBUS_MAX_READ_REGISTERS. split_and!.
  - case_decide; [|apply tcp_build_basis_reject; lia].
    apply emit_request_run with 12; [done | simpl; lia | |].
    + intros c' p Hc. by apply tcp_build_basis_run; try (unfold is_u8, is_u16; lia).
    + intros H'. apply tcp_build_basis_reject. tauto.
  - apply emit_request_run with 12; [done | simpl; lia | |].
    + intros c' p Hc. by apply tcp_build_fc06_run.
    + intros H'. by apply tcp_build_fc06_reject.
  - case_decide; [|apply tcp_build_fc16_reject; lia].
    apply emit_request_run with (13 + 2 * zlen values); [done | cbn [encode_request]; zlength | |].
    + intros c' p Hc. by apply tcp_build_fc16_run.
    + intros H'. apply tcp_build_fc16_reject; [lia | tauto].
  - case_decide; [|apply tcp_build_read_response_reject; lia].
    apply emit_run with (9 + 2 * zlen values); [done | | |].
    + rewrite mbap_length. cbn [encode_response]. zlength.
    + intros p Hc _. by apply tcp_build_read_response_run.
    + intros H'. apply tcp_build_read_response_reject; [lia | tauto].
Qed.

Lemma tcp_builders_exact_witness :
  mb_tcp_build_fc06_request 1 16 7 12 (Some (sample_ctx 65535), Some (replicate 12 0))
  = Ok (0, (Some (sample_ctx 1), Some [0; 1; 0; 0; 0; 6; 1; 6; 0; 16; 0; 7])).
Proof.
  destruct (tcp_builders_exact 1 16 7 3 0 (Some (sample_ctx 65535)) (Some (replicate 12 0)) 12 [] [])
    as (_ & H & _); [split; by vm_compute|].
  rewrite H. by vm_compute.
Defined.

(** The parser accepts exactly the requests whose MBAP length field covers
    at least the unit id and a five-byte PDU, fits an ADU, and is wholly inside
    the received bytes; it then returns the function code, the address and the
    quantity (1 for a single-register write).  Otherwise, or when a pointer is
    NULL, it returns -1 and stores nothing; it never reads past the bytes it is
    given. *)
Theorem tcp_parse_request_exact o n fc addr qty :
  match o with Some p => 0 <= n <= zlen p | None => True end ->
  mb_tcp_parse_request o n fc addr qty =
  match o, fc, addr, qty with
  | Some p, Some _, Some _, Some _ =>
      if complete_request p n
      then Ok (0, (Some (p !!! 7%nat), Some (of_be16 (p !!! 8%nat) (p !!! 9%nat)),
                   Some (tcp_parsed_quantity p)))
      else Ok (-1, (fc, addr, qty))
  | _, _, _, _ => Ok (-1, (fc, addr, qty))
  end.
Proof.
  destruct o as [p|]; [|done]. intros Hn.
  destruct fc as [f|], addr as [a|], qty as [q|]; try done.
  rewrite tcp_parse_request_run by done. by destruct (complete_request p n).
Qed.

Lemma tcp_parse_request_exact_witness :
  mb_tcp_parse_request (Some [0; 1; 0; 0; 0; 6; 1; 6; 0; 16; 0; 7]) 12 (Some 0) (Some 0) (Some 0)
  = Ok (0, (Some 6, Some 16, Some 1)).
Proof.
  rewrite (tcp_parse_request_exact (Some [0; 1; 0; 0; 0; 6; 1; 6; 0; 16; 0; 7]) 12 (Some 0) (Some 0) (Some 0)).
  - by vm_compute.
  - by vm_compute.
Defined.

(** Build then parse, on TCP: what any request builder writes into a large
    enough buffer is accepted by the parser, which reads back the function
    code, the address and the quantity. *)
Theorem tcp_build_parse unit fc addr nb c p cap f0 a0 q0 :
  is_u8 fc -> is_u16 addr -> is_u16 nb -> 12 <= cap <= zlen p ->
  exists c' frame,
    mb_tcp_build_request_basis unit fc addr nb cap (Some c, Some p) = Ok (0, (Some c', Some frame)) /\
    mb_tcp_parse_request (Some frame) cap (Some f0) (Some a0) (Some q0)
    = Ok (0, (Some fc, Some addr,
              Some (if fc =? MODBUS_FUNC_WRITE_SINGLE_REGISTER then 1 else nb))).
Proof.
  intros Hf Ha Hnb Hc. rewrite tcp_build_basis_run by done. unfold emit_request.
  rewrite (proj2 (Z.leb_le _ _)) by (simpl; lia). do 2 eexists. split; [done|].
  rewrite tcp_parse_request_run by (rewrite length_app, length_drop; simpl; lia).
  unfold complete_request, tcp_parsed_quantity, mbap.
  change (zlen (fc :: be16 addr ++ be16 nb) + 1) with 6. cbn [be16 app].
  change (of_be16 _ _) with 6 at 1 2 3.
  simpl lookup_total. rewrite !of_be16_be16 by done.
  rewrite !(proj2 (Z.leb_le _ _)) by (simpl; lia). done.
Qed.

Lemma tcp_build_parse_witness :
  exists c' frame,
    mb_tcp_build_request_basis 1 3 16 2 12 (Some (sample_ctx 0), Some (replicate 12 0))
    = Ok (0, (Some c', Some frame)) /\
    mb_tcp_parse_request (Some frame) 12 (Some 0) (Some 0) (Some 0)
    = Ok (0, (Some 3, Some 16, Some 2)).
Proof. apply (tcp_build_parse 1 3 16 2 (sample_ctx 0) (replicate 12 0) 12 0 0 0); by vm_compute. Defined.

(** Transaction ids: whatever the context's id, the ids of any 65535
    successive requests are pairwise different, none is 0, and each fits its
    16-bit field, also across the wrap-around. *)
Theorem transaction_ids_distinct t i j :
  is_u16 t -> (0 < i < j)%nat -> Z.of_nat j - Z.of_nat i < 65535 ->
  Nat.iter i next_transaction_id t <> Nat.iter j next_transaction_id t /\
  1 <= Nat.iter j next_transaction_id t <= 65535.
Proof.
  intros Ht Hij Hd. unfold is_u16 in Ht. change (2 ^ 16) with 65536 in Ht.
  pose proof (next_transaction_id_range t ltac:(lia)) as H1.
  destruct i as [|i]; [lia|]. destruct j as [|j]; [lia|].
  rewrite !Nat.iter_succ_r, !next_transaction_id_iter by done.
  set (x := next_transaction_id t - 1). clearbody x.
  split; Z.div_mod_to_equations; lia.
Qed.

Lemma transaction_ids_distinct_witness :
  Nat.iter 1 next_transaction_id 65534 <> Nat.iter 3 next_transaction_id 65534 /\
  1 <= Nat.iter 3 next_transaction_id 65534 <= 65535.
Proof. apply (transaction_ids_distinct 65534 1 3); [by vm_compute | lia | lia]. Defined.
