(* ===== verification/Sys.v ===== *)
(** * The operating system, as the code sees it through one descriptor

    Every call that the environment answers (read, write, select, tcdrain, the
    clock) takes its answer from a script in the [world]: the theorems are
    about all scripts, that is, about all behaviours of the peer, the driver
    and the kernel.  A call whose script is exhausted has not returned yet
    ([Blocked]).  What the code does to the outside (bytes accepted by write,
    transmit-enable toggles, sleeps) is appended to the trace.

    EWOULDBLOCK is EAGAIN, as on Linux. *)

From S2P Require Import Prelude Buffer.

Inductive errno := EINTR | EAGAIN | ETIMEDOUT | EOTHER (code : Z).

#[global] Instance errno_eq_dec : EqDecision errno.
Proof. solve_decision. Defined.

(** A read returns at most the bytes asked for; what is left of a chunk stays
    readable.  [RxData []] is a read that returns 0. *)
Inductive rx_event := RxData (bs : list Z) | RxErr (e : errno).
(** A write accepts at most [n] bytes. *)
Inductive tx_event := TxTakes (n : Z) | TxErr (e : errno).

(** The answer of select or poll on one descriptor: it is ready, the timeout
    has passed, or an error. *)
Inductive poll_event := Ready | Expired | PollErr (e : errno).

(** [Waited]: a select without timeout until the descriptor is writable.
    [Flushed]: both queues of the line are discarded.  [Closed]: the descriptor
    is shut down and closed. *)
Inductive action :=
  | Sent (bs : list Z) | Waited | TxEnable (on : Z) | Slept (us : Z) | Flushed | Closed.

Record world := World {
  rx : list rx_event;
  tx : list tx_event;
  clock : list (option (Z * Z));
  selects : list poll_event;
  drains : list Z;
  trace : list action;
}.

Definition set_rx (l : list rx_event) (w : world) : world :=
  World l (tx w) (clock w) (selects w) (drains w) (trace w).
Definition set_tx (l : list tx_event) (w : world) : world :=
  World (rx w) l (clock w) (selects w) (drains w) (trace w).
Definition set_clock (l : list (option (Z * Z))) (w : world) : world :=
  World (rx w) (tx w) l (selects w) (drains w) (trace w).
Definition set_selects (l : list poll_event) (w : world) : world :=
  World (rx w) (tx w) (clock w) l (drains w) (trace w).
Definition set_drains (l : list Z) (w : world) : world :=
  World (rx w) (tx w) (clock w) (selects w) l (trace w).
Definition log (a : action) (w : world) : world :=
  World (rx w) (tx w) (clock w) (selects w) (drains w) (trace w ++ [a]).

(** ** System calls *)

Definition sys_read (want : Z) : st world (list Z + errno) := fun w =>
  match rx w with
  | [] => Fail Blocked
  | RxErr e :: r => Ok (inr e, set_rx r w)
  | RxData bs :: r =>
      if zlen bs <=? want then Ok (inl bs, set_rx r w)
      else Ok (inl (take (Z.to_nat want) bs), set_rx (RxData (drop (Z.to_nat want) bs) :: r) w)
  end.

(** [write(fd, buf, n)]: the number of bytes accepted. *)
Definition sys_write (buf : list Z) (n : Z) : st world (Z + errno) := fun w =>
  match tx w with
  | [] => Fail Blocked
  | TxErr e :: r => Ok (inr e, set_tx r w)
  | TxTakes k :: r =>
      let m := Z.min (Z.max k 0) n in
      Ok (inl m, log (Sent (take (Z.to_nat m) buf)) (set_tx r w))
  end.

Definition pop {A} (field : world -> list A) (set : list A -> world -> world) : st world A := fun w =>
  match field w with
  | [] => Fail Blocked
  | v :: r => Ok (v, set r w)
  end.

(** [select] for reading, with a timeout. *)
Definition sys_select : st world poll_event := pop selects set_selects.
(** [poll] for reading; with a negative timeout it never expires. *)
Definition sys_poll (timeout_ms : Z) : st world poll_event :=
  let! e := sys_select in
  match e with
  | Expired => if timeout_ms <? 0 then stop Blocked else ret Expired
  | _ => ret e
  end.
Definition sys_tcdrain : st world Z := pop drains set_drains.
(** [clock_gettime]: [None] is a failure, else seconds and nanoseconds. *)
Definition sys_clock : st world (option (Z * Z)) := pop clock set_clock.
Definition act (a : action) : st world unit := fun w => Ok (tt, log a w).

(** ** Computations over a buffer and the world *)

Definition on_buf {A W} (m : st (list Z) A) : st (list Z * W) A := fun '(p, w) =>
  match m p with
  | Ok (a, q) => Ok (a, (q, w))
  | Fail e => Fail e
  end.

Definition on_snd {A B W} (m : st W A) : st (B * W) A := fun '(b, w) =>
  match m w with
  | Ok (a, w') => Ok (a, (b, w'))
  | Fail e => Fail e
  end.

Definition on_fst {A B W} (m : st B A) : st (B * W) A := fun '(b, w) =>
  match m b with
  | Ok (a, b') => Ok (a, (b', w))
  | Fail e => Fail e
  end.

(** Run [m] on the buffer seen from [p + k]. *)
Definition at_ptr {A W} (k : Z) (m : st (list Z * W) A) : st (list Z * W) A := fun '(p, w) =>
  if (0 <=? k) && (k <=? zlen p) then
    match m (drop (Z.to_nat k) p, w) with
    | Ok (a, (q, w')) => Ok (a, (take (Z.to_nat k) p ++ q, w'))
    | Fail e => Fail e
    end
  else Fail UB.

(** Run [m] on a local buffer [p] of a function whose state is the world and
    the application: the buffer is returned to the caller. *)
Definition with_buf {A W U} (p : list Z) (m : st (list Z * W) A) : st (W * U) (A * list Z) :=
  fun '(w, u) =>
  match m (p, w) with
  | Ok (a, (q, w')) => Ok ((a, q), (w', u))
  | Fail e => Fail e
  end.

Lemma on_fst_ok {A B W} (m : st B A) b (w : W) a b' :
  m b = Ok (a, b') -> on_fst m (b, w) = Ok (a, (b', w)).
Proof. unfold on_fst. by intros ->. Qed.

Lemma on_fst_fail {A B W} (m : st B A) b (w : W) e : m b = Fail e -> on_fst m (b, w) = Fail e.
Proof. unfold on_fst. by intros ->. Qed.

Lemma with_buf_ok {A W U} p (m : st (list Z * W) A) w (u : U) a q w' :
  m (p, w) = Ok (a, (q, w')) -> with_buf p m (w, u) = Ok ((a, q), (w', u)).
Proof. unfold with_buf. by intros ->. Qed.

Lemma with_buf_fail {A W U} p (m : st (list Z * W) A) w (u : U) e :
  m (p, w) = Fail e -> with_buf p m (w, u) = Fail e.
Proof. unfold with_buf. by intros ->. Qed.

(** ** The byte stream behind a read script

    [stream l]: the bytes that reads interrupted only by signals deliver, and
    whether they are followed by an end of file or an error ([true]) or the
    peer has simply sent no more yet. *)
Fixpoint stream (l : list rx_event) : list Z * bool :=
  match l with
  | [] => ([], false)
  | RxErr EINTR :: r => stream r
  | RxErr _ :: _ => ([], true)
  | RxData bs :: r => if zlen bs =? 0 then ([], true) else (bs ++ fst (stream r), snd (stream r))
  end.

(** The script holds bytes. *)
Definition rx_bytes (l : list rx_event) : Prop :=
  Forall (fun e => match e with RxData bs => bytes bs | RxErr _ => True end) l.

(** Does a writer that retries after the errors in [retry] get [n] bytes
    accepted?  [None] when it would still be waiting. *)
Fixpoint accepts (retry : errno -> bool) (l : list tx_event) (n : Z) : option bool :=
  if n <=? 0 then Some true else
  match l with
  | [] => None
  | TxErr e :: r => if retry e then accepts retry r n else Some false
  | TxTakes k :: r => if k <=? 0 then Some false else accepts retry r (n - Z.min k n)
  end.

(** The script such a writer leaves behind. *)
Fixpoint leftover (retry : errno -> bool) (l : list tx_event) (n : Z) : list tx_event :=
  if n <=? 0 then l else
  match l with
  | [] => []
  | TxErr e :: r => if retry e then leftover retry r n else r
  | TxTakes k :: r => if k <=? 0 then r else leftover retry r (n - Z.min k n)
  end.

Definition on_signal (e : errno) : bool := bool_decide (e = EINTR).
Definition on_signal_or_full (e : errno) : bool :=
  bool_decide (e = EINTR) || bool_decide (e = EAGAIN).

(** A peer that goes on reading: every write accepts something or asks for a
    retry, and at least [n] writes accept something. *)
Definition tx_willing (retry : errno -> bool) (e : tx_event) : bool :=
  match e with TxTakes k => 0 <? k | TxErr e => retry e end.
Fixpoint tx_count (l : list tx_event) : Z :=
  match l with
  | [] => 0
  | TxTakes _ :: r => 1 + tx_count r
  | TxErr _ :: r => tx_count r
  end.
Definition eager (retry : errno -> bool) (l : list tx_event) (n : Z) : Prop :=
  Forall (fun e => tx_willing retry e = true) l /\ n <= tx_count l.

(** The bytes that left, in order. *)
Definition sent_bytes (a : action) : list Z := match a with Sent bs => bs | _ => [] end.
Definition output (w : world) : list Z := concat (map sent_bytes (trace w)).

Lemma output_log a w : output (log a w) = output w ++ sent_bytes a.
Proof. unfold output, log. simpl. rewrite map_app, concat_app. simpl. by rewrite app_nil_r. Qed.

Lemma stream_bytes l : rx_bytes l -> bytes (fst (stream l)).
Proof.
  induction 1 as [|[bs|[]] l Hb Hl IH]; simpl; try by constructor; auto.
  - destruct (_ =? 0); simpl; [by constructor | by apply Forall_app_2].
  - done.
Qed.

Lemma eager_accepts retry l n m :
  0 <= n -> 0 <= m -> eager retry l (n + m) ->
  accepts retry l n = Some true /\ eager retry (leftover retry l n) m.
Proof.
  intros Hn Hm [Hw Hc]. revert n Hn Hc. induction l as [|e l IH]; intros n Hn Hc.
  - simpl in Hc. replace n with 0 by lia. split; [done|]. split; [done | simpl; lia].
  - apply Forall_cons_iff in Hw as [He Hw]. cbn [accepts leftover].
    destruct (Z.leb_spec n 0).
    { split; [done|]. split; [by apply List.Forall_cons | lia]. }
    destruct e as [k|e]; simpl in He, Hc.
    + apply Z.ltb_lt in He. rewrite (proj2 (Z.leb_gt _ _)) by lia.
      apply IH; [done | lia | lia].
    + rewrite He. by apply IH.
Qed.

(** ** Writing a frame

    [wrote w out w']: [w'] is [w] after the bytes [out] have been written, in
    some chunks and with some waits in between. *)
Definition is_write (a : action) : bool := match a with Sent _ | Waited => true | _ => false end.

Definition wrote (w : world) (out : list Z) (w' : world) : Prop :=
  exists tx' tr, Forall (fun a => is_write a = true) tr /\ concat (map sent_bytes tr) = out /\
    w' = World (rx w) tx' (clock w) (selects w) (drains w) (trace w ++ tr).

Lemma wrote_nil w : wrote w [] w.
Proof.
  exists (tx w), []. split; [done|]. split; [done|]. rewrite app_nil_r. by destruct w.
Qed.

Lemma wrote_output w out w' : wrote w out w' -> output w' = output w ++ out.
Proof.
  intros (tx' & tr & _ & <- & ->). unfold output. simpl. by rewrite map_app, concat_app.
Qed.

Lemma wrote_action w a out w' tx' :
  is_write a = true -> wrote (log a (set_tx tx' w)) out w' -> wrote w (sent_bytes a ++ out) w'.
Proof.
  intros Ha (tx2 & tr & Htr & <- & ->). exists tx2, (a :: tr).
  split; [by apply List.Forall_cons|]. split; [done|]. simpl. by rewrite <- app_assoc.
Qed.

Lemma wrote_retry w out w' tx' : wrote (set_tx tx' w) out w' -> wrote w out w'.
Proof. intros (tx2 & tr & Htr & <- & ->). by exists tx2, tr. Qed.

(** What a write loop leads to. *)
Definition send_result (retry : errno -> bool) (bs : list Z) (w : world) (o : outcome (Z * world))
    : Prop :=
  match accepts retry (tx w) (zlen bs) with
  | Some true => exists w', o = Ok (0, w') /\ wrote w bs w' /\ tx w' = leftover retry (tx w) (zlen bs)
  | Some false => exists w' out, o = Ok (-1, w') /\ wrote w out w' /\ out `prefix_of` bs
  | None => o = Fail Blocked
  end.

Lemma send_result_nil retry w : send_result retry [] w (Ok (0, w)).
Proof.
  unfold send_result. replace (accepts _ (tx w) _) with (Some true) by (by destruct (tx w)).
  exists w. split; [done|]. split; [apply wrote_nil | by destruct (tx w)].
Qed.

Lemma send_result_blocked retry bs w : bs <> [] -> tx w = [] -> send_result retry bs w (Fail Blocked).
Proof.
  intros Hbs Htx. unfold send_result. rewrite Htx. cbn [accepts].
  by rewrite (proj2 (Z.leb_gt _ _)) by (destruct bs; simpl; [done | lia]).
Qed.

Lemma send_result_retry retry bs w e r w1 o :
  bs <> [] -> tx w = TxErr e :: r -> retry e = true ->
  w1 = set_tx r w \/ w1 = log Waited (set_tx r w) ->
  send_result retry bs w1 o -> send_result retry bs w o.
Proof.
  intros Hbs Htx He Hw1.
  assert (tx w1 = r) as Htx1 by (by destruct Hw1 as [-> | ->]).
  assert (forall out w', wrote w1 out w' -> wrote w out w') as Hwr.
  { intros out w'. destruct Hw1 as [-> | ->]; [by apply wrote_retry | by apply (wrote_action w Waited)]. }
  unfold send_result. rewrite Htx, Htx1. cbn [accepts leftover]. rewrite He.
  rewrite !(proj2 (Z.leb_gt _ _)) by (destruct bs; simpl; [done | lia]).
  destruct (accepts retry r (zlen bs)) as [[]|]; [| |done].
  - intros (w' & -> & Hw & Hl). exists w'. auto.
  - intros (w' & out & -> & Hw & Hp). exists w', out. auto.
Qed.

Lemma send_result_error retry bs w e r :
  bs <> [] -> tx w = TxErr e :: r -> retry e = false ->
  send_result retry bs w (Ok (-1, set_tx r w)).
Proof.
  intros Hbs Htx He. unfold send_result. rewrite Htx. cbn [accepts]. rewrite He.
  rewrite (proj2 (Z.leb_gt _ _)) by (destruct bs; simpl; [done | lia]).
  exists (set_tx r w), []. split; [done|]. split; [|apply prefix_nil].
  apply (wrote_retry _ _ _ r), wrote_nil.
Qed.

Lemma send_result_zero retry bs w k r :
  bs <> [] -> tx w = TxTakes k :: r -> k <= 0 ->
  send_result retry bs w (Ok (-1, log (Sent []) (set_tx r w))).
Proof.
  intros Hbs Htx Hk. unfold send_result. rewrite Htx. cbn [accepts].
  rewrite (proj2 (Z.leb_gt _ _)) by (destruct bs; simpl; [done | lia]).
  rewrite (proj2 (Z.leb_le _ _)) by lia.
  exists (log (Sent []) (set_tx r w)), []. split; [done|]. split; [|apply prefix_nil].
  apply (wrote_action w (Sent []) [] _ r); [done | apply wrote_nil].
Qed.

Lemma send_result_chunk retry bs w k r o :
  tx w = TxTakes k :: r -> 0 < k -> bs <> [] ->
  let m := Z.min k (zlen bs) in
  send_result retry (drop (Z.to_nat m) bs) (log (Sent (take (Z.to_nat m) bs)) (set_tx r w)) o ->
  send_result retry bs w o.
Proof.
  intros Htx Hk Hbs m. unfold send_result. rewrite Htx. cbn [tx log set_tx accepts leftover].
  assert (0 < zlen bs) by (destruct bs; simpl; [done | lia]).
  rewrite !(proj2 (Z.leb_gt _ _)) by lia. fold m.
  replace (zlen (drop (Z.to_nat m) bs)) with (zlen bs - m) by (rewrite length_drop; lia).
  pose proof (take_drop (Z.to_nat m) bs) as Hd.
  destruct (accepts retry r (zlen bs - m)) as [[]|]; [| |done].
  - intros (w' & -> & Hw & Hl). exists w'. split; [done|].
    apply wrote_action in Hw; [|done]. simpl in Hw. by rewrite Hd in Hw.
  - intros (w' & out & -> & Hw & Hp). exists w', (take (Z.to_nat m) bs ++ out).
    split; [done|]. split; [by apply wrote_action in Hw|].
    rewrite <- Hd at 2. by apply prefix_app.
Qed.
