(* ===== verification/TcpServer.v ===== *)
(** * The TCP server: [src/modbus_tcp_server.c] and [mb_tcp_send_all]

    One call of [server_on_process] serves one request on a readable client
    socket: it receives an ADU, checks it, dispatches the PDU and sends the
    response.  The state is the world of the socket and the application state
    behind the callbacks; log calls are left out. *)

From S2P Require Import Prelude Buffer Defines Bits Pdu PduSpec PduClient Ptr Tcp TcpFrames Sys.

(** ** Sending ([src/modbus_tcp.c]) *)

Fixpoint send_all_loop (fuel : nat) (buf : list Z) (len sent : Z) : st world Z :=
  match fuel with
  | O => stop NoFuel
  | S fuel' =>
      if sent <? len then
        let! n := sys_write (padd buf sent) (len - sent) in
        match n with
        | inr e => if decide (e = EINTR) then send_all_loop fuel' buf len sent else ret (-1)
        | inl k => if k =? 0 then ret (-1) else send_all_loop fuel' buf len (sent + k)
        end
      else ret 0
  end.

(** Every iteration takes an answer from the script, so its length is enough fuel. *)
Definition mb_tcp_send_all (buf : list Z) (len : Z) : st world Z := fun w =>
  if len <=? zlen buf then send_all_loop (S (length (tx w))) buf len 0 w else Fail UB.

(** ** Receiving *)

Fixpoint recv_exact_loop (fuel : nat) (received len : Z) : st (list Z * world) Z :=
  match fuel with
  | O => stop NoFuel
  | S fuel' =>
      if received <? len then
        let! n := on_snd (sys_read (len - received)) in
        match n with
        | inr e => if decide (e = EINTR) then recv_exact_loop fuel' received len else ret (-1)
        | inl bs =>
            if zlen bs =? 0 then ret (-1)
            else
              on_buf (at_off received (memcpy bs (zlen bs))) ;;;
              recv_exact_loop fuel' (received + zlen bs) len
        end
      else ret 0
  end.

(** A read leaves the script shorter or ends the loop: two more than its
    length is enough fuel. *)
Definition recv_exact (len : Z) : st (list Z * world) Z := fun s =>
  recv_exact_loop (S (S (length (rx (snd s))))) 0 len s.

(** ** The server *)

Definition MB_TCP_SERVER_UNIT_ID_ANY : Z := 0xFF.
Definition MB_TCP_SERVER_DEFAULT_RECV_TIMEOUT_MS : Z := 5000.

Record mb_tcp_server_config (U : Type) := SrvConfig {
  srv_port : Z;
  srv_unit_id : Z;
  srv_max_clients : Z;
  srv_recv_timeout_ms : Z;
  srv_keepalive_idle_sec : Z;
  srv_keepalive_interval_sec : Z;
  srv_keepalive_count : Z;
  srv_idle_poll_ms : Z;
  on_read : option (Z -> Z -> Z -> list Z -> U -> Z * list Z * U);
  on_write : option (Z -> Z -> list Z -> U -> Z * U);
  on_read_bits : option (Z -> Z -> Z -> list Z -> U -> Z * list Z * U);
  on_write_bits : option (Z -> Z -> list Z -> U -> Z * U);
}.
Arguments SrvConfig {U}.
Arguments srv_port {U}.
Arguments srv_unit_id {U}.
Arguments srv_max_clients {U}.
Arguments srv_recv_timeout_ms {U}.
Arguments srv_keepalive_idle_sec {U}.
Arguments srv_keepalive_interval_sec {U}.
Arguments srv_keepalive_count {U}.
Arguments srv_idle_poll_ms {U}.
Arguments on_read {U}.
Arguments on_write {U}.
Arguments on_read_bits {U}.
Arguments on_write_bits {U}.

Definition ADU_OFFSET_PROTO_HIGH : Z := 2.
Definition ADU_OFFSET_PROTO_LOW : Z := 3.
Definition ADU_OFFSET_LEN_HIGH : Z := 4.
Definition ADU_OFFSET_LEN_LOW : Z := 5.
Definition ADU_OFFSET_UNIT_ID : Z := 6.
Definition ADU_OFFSET_PDU : Z := 7.

Section Server.
Context {I : Indet} {U : Type}.
Variable cfg : mb_tcp_server_config U.

Definition handlers : mb_pdu_handlers U :=
  MkHandlers (on_read cfg) (on_write cfg) (on_read_bits cfg) (on_write_bits cfg).

(** [server_on_process] from the moment the ADU is complete: steps 3 and 4. *)
Definition server_dispatch (adu : list Z) (mbap_remaining : Z) : st (world * U) Z :=
  let! unit_id := lift (load adu ADU_OFFSET_UNIT_ID) in
  let! proto_high := lift (load adu ADU_OFFSET_PROTO_HIGH) in
  let! proto_low := lift (load adu ADU_OFFSET_PROTO_LOW) in
  if negb (proto_high =? 0) || negb (proto_low =? 0) then ret 0 else
  if negb (srv_unit_id cfg =? MB_TCP_SERVER_UNIT_ID_ANY) && negb (unit_id =? srv_unit_id cfg)
  then ret 0 else
  let pdu_len := mbap_remaining - 1 in
  let! '(_, u) := get in
  let! '((resp_pdu_len, u'), resp) := lift
    (at_off ADU_OFFSET_PDU (mb_pdu_handle_request handlers (padd adu ADU_OFFSET_PDU) pdu_len u)
       (auto_u8 MODBUS_TCP_MAX_ADU_LENGTH)) in
  on_snd (put u') ;;;
  let resp_mbap_len := u16 (1 + resp_pdu_len) in
  let! '(_, resp) := lift
    ((memcpy adu ADU_OFFSET_LEN_HIGH ;;;
      store ADU_OFFSET_LEN_HIGH (u8 (Z.shiftr resp_mbap_len 8)) ;;;
      store ADU_OFFSET_LEN_LOW (u8 (Z.land resp_mbap_len 0xFF)) ;;;
      store ADU_OFFSET_UNIT_ID unit_id) resp) in
  let resp_len := ADU_OFFSET_PDU + resp_pdu_len in
  let! rc := on_fst (mb_tcp_send_all resp resp_len) in
  if negb (rc =? 0) then ret (-1) else ret 0.

Definition server_on_process : st (world * U) Z :=
  let! '(rc1, adu) := with_buf (auto_u8 MODBUS_TCP_MAX_ADU_LENGTH)
                        (recv_exact MODBUS_TCP_MBAP_HEADER_LEN) in
  if rc1 <? 0 then ret (-1) else
  let! len_high := lift (load adu ADU_OFFSET_LEN_HIGH) in
  let! len_low := lift (load adu ADU_OFFSET_LEN_LOW) in
  let mbap_remaining := of_be16 len_high len_low in
  if (mbap_remaining <? 2)
     || (MODBUS_TCP_MAX_ADU_LENGTH - MODBUS_TCP_MBAP_HEADER_LEN <? mbap_remaining)
  then ret (-1) else
  let! '(rc2, adu) := with_buf adu
                        (at_ptr MODBUS_TCP_MBAP_HEADER_LEN (recv_exact mbap_remaining)) in
  if rc2 <? 0 then ret (-1) else
  server_dispatch adu mbap_remaining.
End Server.

(** [mb_tcp_server_config_init]: zero everything, then the receive timeout. *)
Definition mb_tcp_server_config_init {U} (cfg : option (mb_tcp_server_config U))
    : option (mb_tcp_server_config U) :=
  match cfg with
  | None => None
  | Some _ => Some (SrvConfig 0 0 0 MB_TCP_SERVER_DEFAULT_RECV_TIMEOUT_MS 0 0 0 0
                      None None None None)
  end.
