(* ===== verification/TcpServerSpec.v ===== *)
(** * What the TCP server promises

    [next_frame] cuts the first ADU off a byte stream and [tcp_reply] says what
    is answered to it; the refinement lemma [on_process_run] says that one call
    of [server_on_process] does exactly that, for every way the network may cut
    the stream into reads and the responses into writes. *)

From S2P Require Import Prelude Buffer Defines Bits Pdu PduSpec PduClient Ptr Tcp TcpFrames Sys TcpServer.

(** ** Receiving *)

(** [w'] is [w] after [n] bytes of its stream have been read, and nothing else
    has happened. *)
Definition read_from (w : world) (n : nat) (w' : world) : Prop :=
  stream (rx w') = (drop n (fst (stream (rx w))), snd (stream (rx w))) /\
  rx_bytes (rx w') /\ w' = set_rx (rx w') w.

Lemma read_from_refl w : rx_bytes (rx w) -> read_from w 0 w.
Proof. intros Hb. split; [by destruct (stream (rx w))|]. split; [done | by destruct w]. Qed.

Lemma read_from_trans w n w1 m w2 :
  read_from w n w1 -> read_from w1 m w2 -> read_from w (n + m) w2.
Proof.
  intros (Hs1 & _ & ->) (Hs2 & Hb2 & ->). simpl in *. split; [|split; [done | done]].
  simpl. rewrite Hs2. simpl. rewrite Hs1. simpl. by rewrite drop_drop.
Qed.

(** What receiving [need] more bytes into the buffer [pre ++ rest] leads to. *)
Definition recv_result (pre rest : list Z) (need : nat) (w : world)
    (o : outcome (Z * (list Z * world))) : Prop :=
  let '(bs, closed) := stream (rx w) in
  if decide (need <= length bs)%nat then
    exists w', read_from w need w' /\ o = Ok (0, (pre ++ take need bs ++ drop need rest, w'))
  else if closed then exists p' r', o = Ok (-1, (p', set_rx r' w)) /\ length p' = length (pre ++ rest)
  else o = Fail Blocked.

Lemma recv_result_signal pre rest need w r o :
  rx w = RxErr EINTR :: r ->
  recv_result pre rest need (set_rx r w) o -> recv_result pre rest need w o.
Proof.
  intros Hrx. unfold recv_result, read_from. rewrite Hrx. cbn [rx set_rx stream].
  destruct (stream r) as [bs closed]. by case_decide; [|destruct closed].
Qed.

Lemma recv_result_data pre rest need w bs r o :
  rx w = RxData bs :: r -> (0 < length bs <= need)%nat -> (need <= length rest)%nat ->
  recv_result (pre ++ bs) (drop (length bs) rest) (need - length bs) (set_rx r w) o ->
  recv_result pre rest need w o.
Proof.
  intros Hrx Hbs Hn. unfold recv_result, read_from. rewrite Hrx. cbn [rx set_rx stream].
  rewrite (proj2 (Z.eqb_neq _ _)) by lia.
  destruct (stream r) as [bs' closed]. cbn [fst snd]. rewrite (length_app bs bs').
  case_decide; case_decide; try lia.
  - intros (w' & (Hs & Hb & Hw) & ->). exists w'. split.
    + split; [|split; [exact Hb | exact Hw]]. rewrite Hs. by rewrite drop_app_ge by lia.
    + rewrite <- !app_assoc, drop_drop, (take_app_ge bs bs'), <- !app_assoc by lia.
      by replace (length bs + (need - length bs))%nat with need by lia.
  - destruct closed; [|done]. intros (p' & r' & -> & Hp'). exists p', r'. split; [done|].
    rewrite Hp', !length_app, length_drop. lia.
Qed.

Lemma recv_loop_chunk pre rest bs (w : world) :
  (length bs <= length rest)%nat ->
  on_buf (at_off (zlen pre) (memcpy bs (zlen bs))) (pre ++ rest, w)
  = Ok (tt, ((pre ++ bs) ++ drop (length bs) rest, w)).
Proof.
  intros Hr. unfold on_buf.
  erewrite at_off_ok; [|rewrite length_app; lia|].
  2:{ rewrite Nat2Z.id, drop_app_length. apply memcpy_ok; lia. }
  by rewrite !Nat2Z.id, take_app_length, firstn_all, <- app_assoc.
Qed.

(** The last read of a frame may leave bytes of the next one behind. *)
Lemma sys_read_partial {B} (b : B) bs r w need :
  rx w = RxData bs :: r -> (0 < need < length bs)%nat -> rx_bytes (rx w) ->
  exists w', on_snd (sys_read (Z.of_nat need)) (b, w) = Ok (inl (take need bs), (b, w')) /\
    read_from w need w'.
Proof.
  intros Hrx Hn Hb. exists (set_rx (RxData (drop need bs) :: r) w). unfold on_snd, sys_read.
  rewrite Hrx, (proj2 (Z.leb_gt _ _)), Nat2Z.id by lia. split; [done|].
  rewrite Hrx in Hb. apply Forall_cons_iff in Hb as [Hbs Hb].
  split; [|split; [|done]].
  - cbn [rx set_rx stream]. rewrite Hrx. cbn [stream].
    rewrite !(proj2 (Z.eqb_neq _ _)) by (rewrite ?length_drop; lia). cbn [fst snd].
    by rewrite drop_app_le by lia.
  - apply List.Forall_cons; [by apply Forall_drop | done].
Qed.

Lemma sys_read_whole {B} (b : B) bs r w want :
  rx w = RxData bs :: r -> zlen bs <= want ->
  on_snd (sys_read want) (b, w) = Ok (inl bs, (b, set_rx r w)).
Proof. intros Hrx Hn. unfold on_snd, sys_read. by rewrite Hrx, (proj2 (Z.leb_le _ _)) by lia. Qed.

Lemma recv_exact_loop_run fuel pre rest need w :
  rx_bytes (rx w) -> (S (length (rx w)) < fuel)%nat -> (need <= length rest)%nat ->
  recv_result pre rest need w
    (recv_exact_loop fuel (zlen pre) (zlen pre + Z.of_nat need) (pre ++ rest, w)).
Proof.
  revert pre rest need w. induction fuel as [|fuel IH]; intros pre rest need w Hb Hf Hn; [lia|].
  cbn [recv_exact_loop]. destruct need as [|need].
  { rewrite (proj2 (Z.ltb_ge _ _)) by lia. unfold recv_result.
    destruct (stream (rx w)) as [bs closed]. rewrite decide_True by lia.
    exists w. split; [by apply read_from_refl | done]. }
  rewrite (proj2 (Z.ltb_lt _ _)) by lia.
  replace (zlen pre + Z.of_nat (S need) - zlen pre) with (Z.of_nat (S need)) by lia.
  set (n := S need) in *. destruct (rx w) as [|[bs|e] r] eqn:Hrx.
  - rewrite (bind_fail _ _ _ Blocked) by (unfold on_snd, sys_read; by rewrite Hrx).
    unfold recv_result. rewrite Hrx. cbn [stream]. by rewrite decide_False by (simpl; lia).
  - destruct (decide (length bs <= n)%nat) as [Hle|Hgt].
    + erewrite bind_ok by (apply sys_read_whole; [done | lia]).
      destruct (Z.eqb_spec (zlen bs) 0) as [H0|H0].
      { unfold recv_result. rewrite Hrx. cbn [stream]. rewrite !(proj2 (Z.eqb_eq _ _)) by done.
        rewrite decide_False by (simpl; lia). by exists (pre ++ rest), r. }
      rewrite (proj2 (Z.eqb_neq _ _)) by done.
      erewrite bind_ok by (apply recv_loop_chunk; lia).
      eapply recv_result_data; [done | lia | lia |].
      replace (zlen pre + zlen bs) with (zlen (pre ++ bs)) by (rewrite length_app; lia).
      replace (zlen pre + Z.of_nat n) with (zlen (pre ++ bs) + Z.of_nat (n - length bs))
        by (rewrite length_app; lia).
      apply Forall_cons_iff in Hb as [_ Hb].
      apply IH; [done | simpl in *; lia | rewrite length_drop; lia].
    + destruct (sys_read_partial (pre ++ rest) bs r w n Hrx) as (w' & Hrun & Hw');
        [lia | by rewrite Hrx |].
      erewrite bind_ok by exact Hrun. cbv beta iota.
      rewrite (proj2 (Z.eqb_neq _ _)) by (rewrite length_take; lia).
      erewrite bind_ok by (apply recv_loop_chunk; rewrite length_take; lia).
      destruct fuel as [|fuel]; [lia|]. cbn [recv_exact_loop].
      rewrite (proj2 (Z.ltb_ge _ _)) by (rewrite length_take; lia).
      unfold recv_result. rewrite Hrx. cbn [stream]. rewrite (proj2 (Z.eqb_neq _ _)) by lia.
      rewrite decide_True by (rewrite length_app; lia).
      exists w'. split; [done|]. rewrite length_take, Nat.min_l, <- app_assoc by lia.
      by rewrite (take_app_le bs) by lia.
  - apply Forall_cons_iff in Hb as [_ Hb].
    rewrite (bind_ok _ _ _ (inr e) (pre ++ rest, set_rx r w)) by (unfold on_snd, sys_read; by rewrite Hrx).
    cbv beta iota. case_decide as He; [subst e|].
    + eapply recv_result_signal; [done|]. apply IH; [done | simpl in *; lia | done].
    + unfold recv_result. rewrite Hrx. destruct e; [done|..]; cbn [stream];
        (rewrite decide_False by (simpl; lia)); by exists (pre ++ rest), r.
Qed.

Lemma recv_exact_run n rest w :
  rx_bytes (rx w) -> 0 <= n <= zlen rest ->
  recv_result [] rest (Z.to_nat n) w (recv_exact n (rest, w)).
Proof.
  intros Hb Hn. unfold recv_exact. cbn [snd].
  pose proof (recv_exact_loop_run (S (S (length (rx w)))) [] rest (Z.to_nat n) w Hb
    ltac:(lia) ltac:(lia)) as H.
  cbn [length app] in H. by rewrite Z2Nat.id in H by lia.
Qed.

(** ** Sending *)

Lemma send_all_loop_run fuel buf sent bs w more :
  padd buf sent = bs ++ more -> 0 <= sent -> (length (tx w) < fuel)%nat ->
  send_result on_signal bs w (send_all_loop fuel buf (sent + zlen bs) sent w).
Proof.
  revert sent bs w. induction fuel as [|fuel IH]; intros sent bs w Hbuf Hs Hf; [lia|].
  cbn [send_all_loop]. destruct (decide (bs = [])) as [->|Hbs].
  { rewrite (proj2 (Z.ltb_ge _ _)) by (simpl; lia). apply send_result_nil. }
  assert (0 < zlen bs) as Hpos by (destruct bs; simpl; [done | lia]).
  rewrite (proj2 (Z.ltb_lt _ _)) by lia.
  replace (sent + zlen bs - sent) with (zlen bs) by lia. rewrite Hbuf.
  unfold bind, sys_write. destruct (tx w) as [|[k|e] r] eqn:Htx; simpl in Hf.
  - by apply send_result_blocked.
  - set (m := Z.min k (zlen bs)). destruct (Z.leb_spec k 0) as [Hk|Hk].
    + replace (Z.min (Z.max k 0) (zlen bs)) with 0 by lia. by apply (send_result_zero _ _ _ k).
    + replace (Z.min (Z.max k 0) (zlen bs)) with m by lia.
      rewrite (proj2 (Z.eqb_neq _ _)) by lia. rewrite take_app_le by lia.
      apply (send_result_chunk _ _ _ k r); [done..|]. fold m.
      replace (sent + zlen bs) with (sent + m + zlen (drop (Z.to_nat m) bs))
        by (rewrite length_drop; lia).
      apply IH; [|lia | simpl; lia].
      unfold padd in *. rewrite Z2Nat.inj_add by lia.
      by rewrite <- drop_drop, Hbuf, drop_app_le by lia.
  - case_decide as He; [subst e|].
    + apply (send_result_retry _ _ _ EINTR r (set_tx r w)); auto.
      by apply IH; [| | simpl; lia].
    + apply (send_result_error _ _ _ e); [done.. | by apply bool_decide_eq_false].
Qed.

Lemma send_all_run bs more w :
  send_result on_signal bs w (mb_tcp_send_all (bs ++ more) (zlen bs) w).
Proof.
  unfold mb_tcp_send_all. rewrite (proj2 (Z.leb_le _ _)) by (rewrite length_app; lia).
  by apply (send_all_loop_run _ _ 0 _ _ more); [|lia | lia].
Qed.

(** ** The server as a function of the byte stream *)

Inductive next := NeedMore | BadLength | Frame (f rest : list Z).

Definition mbap_remaining (bs : list Z) : Z := of_be16 (bs !!! 4%nat) (bs !!! 5%nat).

(** Cut the first ADU off a stream. *)
Definition next_frame (bs : list Z) : next :=
  if zlen bs <? 6 then NeedMore
  else
    let len := mbap_remaining bs in
    if (len <? 2) || (254 <? len) then BadLength
    else if zlen bs <? 6 + len then NeedMore
    else Frame (take (Z.to_nat (6 + len)) bs) (drop (Z.to_nat (6 + len)) bs).

(** Whether a server with unit id [own] listens to [unit_id]. *)
Definition accepts_unit (own unit_id : Z) : bool :=
  (own =? MB_TCP_SERVER_UNIT_ID_ANY) || (unit_id =? own).

(** The answer to one ADU: frames of another protocol or for another unit are
    dropped, the others get the response to their PDU in their own MBAP. *)
Definition tcp_reply {U} (own : Z) (d : device U) (f : list Z) (u : U) : option (list Z) * U :=
  if (f !!! 2%nat =? 0) && (f !!! 3%nat =? 0) && accepts_unit own (f !!! 6%nat) then
    let '(r, u') := respond d (drop 7 f) u in
    (Some (mbap (of_be16 (f !!! 0%nat) (f !!! 1%nat)) (f !!! 6%nat) (encode_response r)), u')
  else (None, u).

Definition reply_result {U} (w : world) (reply : option (list Z) * U)
    (o : outcome (Z * (world * U))) : Prop :=
  match reply with
  | (None, u') => o = Ok (0, (w, u'))
  | (Some out, u') =>
      match accepts on_signal (tx w) (zlen out) with
      | Some true => exists w', o = Ok (0, (w', u')) /\ wrote w out w' /\
                       tx w' = leftover on_signal (tx w) (zlen out)
      | Some false => exists w' part, o = Ok (-1, (w', u')) /\ wrote w part w' /\ part `prefix_of` out
      | None => o = Fail Blocked
      end
  end.

Lemma at_ptr_ok pre rest n w a q w' :
  zlen pre = 6 -> recv_exact n (rest, w) = Ok (a, (q, w')) ->
  at_ptr 6 (recv_exact n) (pre ++ rest, w) = Ok (a, (pre ++ q, w')).
Proof.
  intros Hp Hr. unfold at_ptr. rewrite !(proj2 (Z.leb_le _ _)) by (rewrite ?length_app; lia).
  rewrite drop_app_length', take_app_length' by lia. by rewrite Hr.
Qed.

Lemma at_ptr_fail pre rest n w e :
  zlen pre = 6 -> recv_exact n (rest, w) = Fail e ->
  at_ptr 6 (recv_exact n) (pre ++ rest, w) = Fail e.
Proof.
  intros Hp Hr. unfold at_ptr. rewrite !(proj2 (Z.leb_le _ _)) by (rewrite ?length_app; lia).
  rewrite drop_app_length' by lia. by rewrite Hr.
Qed.

Section Refinement.
Context `{Indet} {U : Type} (cfg : mb_tcp_server_config U) (d : device U).
Context `{!Implements (handlers cfg) d}.

(** The response frame is assembled around the PDU the dispatcher wrote. *)
Lemma frame_response_run f tl pdu resp unit_id n :
  zlen (f ++ tl) = 260 -> 7 <= zlen f -> f !!! 2%nat = 0 -> f !!! 3%nat = 0 ->
  is_u8 (f !!! 0%nat) -> is_u8 (f !!! 1%nat) -> n = zlen pdu -> n <= 253 ->
  zlen resp = 260 ->
  (memcpy (f ++ tl) ADU_OFFSET_LEN_HIGH ;;;
   store ADU_OFFSET_LEN_HIGH (u8 (Z.shiftr (u16 (1 + n)) 8)) ;;;
   store ADU_OFFSET_LEN_LOW (u8 (Z.land (u16 (1 + n)) 0xFF)) ;;;
   store ADU_OFFSET_UNIT_ID unit_id) (take 7 resp ++ pdu ++ drop (length pdu) (drop 7 resp))
  = Ok (tt, mbap (of_be16 (f !!! 0%nat) (f !!! 1%nat)) unit_id pdu
            ++ drop (length pdu) (drop 7 resp)).
Proof.
  intros Hl Hf H2 H3 H0 H1 -> Hn Hr.
  destruct f as [|f0 [|f1 [|f2 [|f3 [|f4 [|f5 [|f6 f]]]]]]]; try (cbn [length] in Hf; lia).
  cbn [lookup_total list_lookup_total] in *. subst f2 f3.
  destruct resp as [|?r [|?r [|?r [|?r [|?r [|?r [|?r resp]]]]]]]; try (cbn [length] in Hr; lia).
  cbn [take drop app].
  unfold ADU_OFFSET_LEN_HIGH, ADU_OFFSET_LEN_LOW, ADU_OFFSET_UNIT_ID.
  erewrite bind_ok by (apply memcpy_ok; [simpl length in *; lia | simpl length; lia]).
  cbn [app]. change (Z.to_nat 4) with 4%nat. cbn [take drop app].
  run_stores. rewrite store_ok by (simpl length; lia).
  change (Z.to_nat 6) with 6%nat. cbn [insert list_insert].
  unfold mbap. rewrite be16_of_be16 by done. cbn [app].
  rewrite u16_small by (unfold is_u16; lia). by replace (1 + zlen pdu) with (zlen pdu + 1) by lia.
Qed.

(** The dispatcher runs on the PDU inside the ADU, into the PDU of the response. *)
Lemma dispatch_pdu_run f tl u resp :
  bytes (f ++ tl) -> 8 <= zlen f -> zlen resp = 260 ->
  let '(r, u') := respond d (drop 7 f) u in
  at_off ADU_OFFSET_PDU (mb_pdu_handle_request (handlers cfg) (padd (f ++ tl) ADU_OFFSET_PDU)
    (zlen f - 7) u) resp
  = Ok ((zlen (encode_response r), u'),
        take 7 resp ++ encode_response r ++ drop (length (encode_response r)) (drop 7 resp)).
Proof.
  intros Hb Hf Hr. unfold padd, ADU_OFFSET_PDU. change (Z.to_nat 7) with 7%nat.
  rewrite drop_app_le by lia. apply Forall_app in Hb as [Hbf Hbt].
  destruct (respond d (drop 7 f) u) as [r u'] eqn:Hresp.
  apply at_off_ok; [lia|].
  rewrite (handle_request_run _ d); [| |rewrite length_app, length_drop; lia|rewrite length_drop; lia].
  2:{ apply Forall_app_2; [by apply Forall_drop | done]. }
  rewrite take_app_length' by (rewrite length_drop; lia).
  by rewrite Hresp.
Qed.

Lemma server_dispatch_run f tl w u :
  zlen (f ++ tl) = 260 -> bytes (f ++ tl) -> 8 <= zlen f ->
  reply_result w (tcp_reply (srv_unit_id cfg) d f u)
    (server_dispatch cfg (f ++ tl) (zlen f - 6) (w, u)).
Proof.
  intros Hl Hb Hf. unfold server_dispatch, tcp_reply, accepts_unit.
  pose proof (proj1 (Forall_app _ _ _) Hb) as [Hbf _].
  do 3 (erewrite bind_ok by (apply lift_ok, load_lookup_total;
    unfold ADU_OFFSET_UNIT_ID, ADU_OFFSET_PROTO_HIGH, ADU_OFFSET_PROTO_LOW; lia)).
  rewrite !lookup_total_app_l by
    (unfold ADU_OFFSET_UNIT_ID, ADU_OFFSET_PROTO_HIGH, ADU_OFFSET_PROTO_LOW; lia).
  change (Z.to_nat ADU_OFFSET_UNIT_ID) with 6%nat.
  change (Z.to_nat ADU_OFFSET_PROTO_HIGH) with 2%nat.
  change (Z.to_nat ADU_OFFSET_PROTO_LOW) with 3%nat.
  destruct (Z.eqb_spec (f !!! 2%nat) 0) as [H2|]; [|done].
  destruct (Z.eqb_spec (f !!! 3%nat) 0) as [H3|]; [|done]. cbn [negb orb].
  rewrite <- negb_orb. destruct (_ || _); [|done]. cbn [negb andb].
  erewrite bind_ok by done. cbv beta iota.
  pose proof (dispatch_pdu_run f tl u (auto_u8 MODBUS_TCP_MAX_ADU_LENGTH) Hb Hf
    ltac:(rewrite auto_u8_length; done)) as Hrun.
  pose proof (respond_bound (handlers cfg) d (drop 7 f) u) as Hbound.
  destruct (respond d (drop 7 f) u) as [r u']. cbn [fst] in Hbound.
  replace (zlen f - 6 - 1) with (zlen f - 7) by lia.
  erewrite bind_ok by (apply lift_ok, Hrun). cbv beta iota. erewrite bind_ok by done.
  assert (forall i, (i < length f)%nat -> is_u8 (f !!! i)) as Hu8
    by (intros i; by apply Forall_lookup_total_1).
  erewrite bind_ok by (apply lift_ok,
    (frame_response_run f tl (encode_response r) (auto_u8 MODBUS_TCP_MAX_ADU_LENGTH));
    [done | lia | done | done | apply Hu8; lia | apply Hu8; lia | done | lia | by rewrite auto_u8_length]).
  cbv beta iota. unfold reply_result.
  set (out := mbap _ _ _). assert (zlen out = 7 + zlen (encode_response r)) as Hout
    by (subst out; rewrite mbap_length; lia).
  pose proof (send_all_run out (drop (length (encode_response r))
    (drop 7 (auto_u8 MODBUS_TCP_MAX_ADU_LENGTH))) w) as Hsend.
  unfold ADU_OFFSET_PDU. rewrite <- Hout. clearbody out.
  unfold send_result in Hsend.
  destruct (accepts on_signal (tx w) (zlen out)) as [[]|].
  - destruct Hsend as (w' & Hs & Hw & Hx). exists w'. by erewrite bind_ok by (by apply on_fst_ok).
  - destruct Hsend as (w' & part & Hs & Hw & Hp). exists w', part.
    by erewrite bind_ok by (by apply on_fst_ok).
  - by erewrite bind_fail by (by apply on_fst_fail).
Qed.

(** ** One call of the server *)

Definition process_result (w : world) (u : U) (o : outcome (Z * (world * U))) : Prop :=
  let '(bs, closed) := stream (rx w) in
  match next_frame bs with
  | NeedMore => if closed then exists r', o = Ok (-1, (set_rx r' w, u)) else o = Fail Blocked
  | BadLength => exists r', o = Ok (-1, (set_rx r' w, u))
  | Frame f rest =>
      exists w1, read_from w (length f) w1 /\ stream (rx w1) = (rest, closed) /\
        reply_result w1 (tcp_reply (srv_unit_id cfg) d f u) o
  end.

(** From the header on: the length [len] is known and acceptable. *)
Lemma server_body_run hdr junk len w u :
  zlen hdr = 6 -> bytes hdr -> zlen junk = 254 -> bytes junk -> 2 <= len <= 254 ->
  rx_bytes (rx w) ->
  let '(bs, closed) := stream (rx w) in
  let o := (let! '(rc2, adu) := with_buf (hdr ++ junk) (at_ptr 6 (recv_exact len)) in
            if rc2 <? 0 then ret (-1) else server_dispatch cfg adu len) (w, u) in
  if zlen bs <? len
  then if closed then exists r', o = Ok (-1, (set_rx r' w, u)) else o = Fail Blocked
  else exists w', read_from w (Z.to_nat len) w' /\
         reply_result w' (tcp_reply (srv_unit_id cfg) d (hdr ++ take (Z.to_nat len) bs) u) o.
Proof.
  intros Hh Hhb Hj Hjb Hlen Hb. pose proof (stream_bytes _ Hb) as Hsb.
  pose proof (recv_exact_run len junk w Hb ltac:(lia)) as HR. unfold recv_result in HR.
  destruct (stream (rx w)) as [bs closed] eqn:Hs. cbn [fst] in Hsb. cbv zeta.
  destruct (Z.ltb_spec (zlen bs) len).
  - rewrite decide_False in HR by lia. destruct closed.
    + destruct HR as (p' & r' & Hr & _). exists r'.
      by erewrite bind_ok by (by apply with_buf_ok, at_ptr_ok).
    + by erewrite bind_fail by (by apply with_buf_fail, at_ptr_fail).
  - rewrite decide_True in HR by lia. destruct HR as (w' & Hw' & Hr). exists w'. split; [done|].
    erewrite bind_ok by (by apply with_buf_ok, at_ptr_ok). cbv beta iota. cbn [Z.ltb Z.compare app].
    rewrite app_assoc. set (f := hdr ++ take (Z.to_nat len) bs).
    assert (zlen f = 6 + len) as Hf by (subst f; rewrite length_app, length_take; lia).
    replace len with (zlen f - 6) by lia. apply server_dispatch_run; [| |lia].
    + rewrite length_app, length_drop. lia.
    + repeat apply Forall_app_2; [done | by apply Forall_take | by apply Forall_drop].
Qed.

Lemma server_on_process_run w u :
  rx_bytes (rx w) -> process_result w u (server_on_process cfg (w, u)).
Proof.
  intros Hb. unfold process_result, server_on_process, next_frame, MODBUS_TCP_MBAP_HEADER_LEN.
  pose proof (auto_u8_length MODBUS_TCP_MAX_ADU_LENGTH) as Hadu.
  pose proof (auto_u8_bytes MODBUS_TCP_MAX_ADU_LENGTH) as Hj.
  set (junk := auto_u8 MODBUS_TCP_MAX_ADU_LENGTH) in *. clearbody junk.
  change (Z.to_nat MODBUS_TCP_MAX_ADU_LENGTH) with 260%nat in Hadu.
  pose proof (stream_bytes _ Hb) as Hsb.
  pose proof (recv_exact_run 6 junk w Hb ltac:(lia)) as H6. unfold recv_result in H6.
  change (Z.to_nat 6) with 6%nat in H6.
  destruct (stream (rx w)) as [bs closed] eqn:Hs. cbn [fst] in Hsb.
  destruct (Z.ltb_spec (zlen bs) 6) as [Hlt|Hge].
  { rewrite decide_False in H6 by lia. destruct closed.
    - destruct H6 as (p' & r' & Hr & _). exists r'. by erewrite bind_ok by (by apply with_buf_ok).
    - by erewrite bind_fail by (by apply with_buf_fail). }
  rewrite decide_True in H6 by lia. destruct H6 as (w1 & Hread & Hr).
  erewrite bind_ok by (by apply with_buf_ok). cbv beta iota. cbn [Z.ltb Z.compare app].
  pose proof (take_drop 6 bs) as Hbs. pose proof (length_take bs 6) as Hhl.
  set (hdr := take 6 bs) in *. set (tail := drop 6 bs) in *.
  assert (bytes hdr /\ bytes tail) as [Hhb Htb] by (by rewrite <- Hbs, Forall_app in Hsb).
  do 2 (erewrite bind_ok by (apply lift_ok, load_lookup_total;
    unfold ADU_OFFSET_LEN_HIGH, ADU_OFFSET_LEN_LOW; rewrite length_app; lia)).
  rewrite !lookup_total_app_l by (unfold ADU_OFFSET_LEN_HIGH, ADU_OFFSET_LEN_LOW; lia).
  change (Z.to_nat ADU_OFFSET_LEN_HIGH) with 4%nat. change (Z.to_nat ADU_OFFSET_LEN_LOW) with 5%nat.
  assert (of_be16 (hdr !!! 4%nat) (hdr !!! 5%nat) = mbap_remaining bs) as ->
    by (unfold mbap_remaining; rewrite <- Hbs, !lookup_total_app_l by lia; done).
  change (MODBUS_TCP_MAX_ADU_LENGTH - 6) with 254. set (len := mbap_remaining bs).
  destruct Hread as (Hs1 & Hb1 & Hw1). rewrite Hs in Hs1. cbn [fst snd] in Hs1.
  destruct ((len <? 2) || (254 <? len)) eqn:Hlen; [rewrite Hw1; by exists (rx w1)|].
  apply orb_false_iff in Hlen as [Hl2%Z.ltb_ge Hl254%Z.ltb_ge].
  pose proof (server_body_run hdr (drop 6 junk) len w1 u ltac:(lia) Hhb
    ltac:(rewrite length_drop; lia) ltac:(by apply Forall_drop) ltac:(lia) Hb1) as HR.
  rewrite Hs1 in HR. fold tail in HR. cbv zeta in HR.
  assert (zlen bs = 6 + zlen tail) as Hbl by (rewrite <- Hbs, length_app; lia).
  destruct (Z.ltb_spec (zlen tail) len), (Z.ltb_spec (zlen bs) (6 + len)); try lia.
  - destruct closed; [|exact HR]. destruct HR as (r' & ->). exists r'. by rewrite Hw1.
  - destruct HR as (w' & Hread2 & HR). exists w'.
    assert (take (Z.to_nat (6 + len)) bs = hdr ++ take (Z.to_nat len) tail) as ->.
    { rewrite Z2Nat.inj_add by lia. rewrite <- Hbs, take_app_ge by lia. do 2 f_equal. lia. }
    assert (read_from w 6 w1) as Hread1
      by (split; [by rewrite Hs1, Hs | done]).
    pose proof (read_from_trans _ _ _ _ _ Hread1 Hread2) as Hread.
    split; [|split; [|done]].
    + replace (length _) with (6 + Z.to_nat len)%nat; [done|]. rewrite length_app, length_take. lia.
    + destruct Hread as (-> & _). rewrite Hs. cbn [fst snd]. do 2 f_equal. lia.
Qed.
End Refinement.
