(* ===== verification/TcpServerTheorems.v ===== *)
(** * Properties of the TCP server

    Refinement of the stream specification, independence of segmentation,
    safety on every input, and pipelined requests. *)

From S2P Require Import Prelude Buffer Defines Bits Pdu PduSpec PduClient Bank Ptr Tcp TcpFrames Sys TcpServer TcpServerSpec.

#[local] Instance junk : Indet := fun i => 17 * Z.of_nat i.

Definition bank_config (unit_id : Z) : mb_tcp_server_config bank :=
  SrvConfig 502 unit_id 0 0 0 0 0 0 (Some e2e_read) (Some e2e_write) (Some e2e_read_bits)
    (Some e2e_write_bits).

#[local] Instance bank_config_implements unit_id :
  Implements (handlers (bank_config unit_id)) bank_device := bank_implements.

Definition sample_bank : bank :=
  Bank (map (fun i => 1000 + i) (seqZ 0 64)) (map (fun i => i mod 3) (seqZ 0 64)).

(** A read of two registers, in three segments with a signal in between, and
    the first byte of the next request. *)
Definition sample_rx : list rx_event :=
  [RxData [0; 7; 0]; RxErr EINTR; RxData [0; 0; 6; 1; 3]; RxData [0; 10; 0; 2; 0]].
Definition sample_world (l : list rx_event) (t : list tx_event) : world := World l t [] [] [] [].

(** C5. [server_on_process] implements the stream specification: whatever the
    read and write scripts of the socket, one call consumes exactly the first
    ADU of the byte stream (however it is segmented and interrupted), leaves
    the application in the state the abstract server computes, and sends the
    abstract reply, or nothing for a foreign protocol id or unit id.  A length
    field outside [2, 254] or a connection that ends early makes it return -1
    without touching the application and without sending. *)
Theorem tcp_server_refines `{Indet} {U} (cfg : mb_tcp_server_config U) (d : device U)
    `{!Implements (handlers cfg) d} w u :
  rx_bytes (rx w) -> process_result cfg d w u (server_on_process cfg (w, u)).
Proof. intros Hb. by apply server_on_process_run. Qed.

Lemma tcp_server_refines_witness :
  process_result (bank_config 1) bank_device (sample_world sample_rx [TxTakes 5; TxTakes 100]) sample_bank
    (server_on_process (bank_config 1) (sample_world sample_rx [TxTakes 5; TxTakes 100], sample_bank)).
Proof.
  apply (tcp_server_refines (bank_config 1) bank_device); cbn [rx sample_world].
  repeat (apply List.Forall_cons; [try exact I; zforall|]). apply List.Forall_nil.
Defined.

(** What a caller can see of a run: the return code and the application state,
    or that the call is still waiting. *)
Definition visible {U} (o : outcome (Z * (world * U))) : option (Z * U) + fault :=
  match o with
  | Ok (rc, (_, u)) => inl (Some (rc, u))
  | Fail e => inr e
  end.

(** Segmentation is invisible: on two sockets that carry the same byte
    stream, cut into reads in any two ways and interrupted by any signals, and
    that accept writes alike, the server returns the same code, leaves the
    application in the same state, and waits in the same cases. *)
Theorem tcp_server_segmentation `{Indet} {U} (cfg : mb_tcp_server_config U) (d : device U)
    `{!Implements (handlers cfg) d} w1 w2 u :
  rx_bytes (rx w1) -> rx_bytes (rx w2) -> stream (rx w1) = stream (rx w2) -> tx w1 = tx w2 ->
  visible (server_on_process cfg (w1, u)) = visible (server_on_process cfg (w2, u)).
Proof.
  intros Hb1 Hb2 Hs Ht.
  pose proof (server_on_process_run cfg d w1 u Hb1) as H1.
  pose proof (server_on_process_run cfg d w2 u Hb2) as H2.
  revert H1 H2. unfold process_result. rewrite Hs. destruct (stream (rx w2)) as [bs closed].
  destruct (next_frame bs) as [| |f rest].
  - destruct closed; [|by intros -> ->]. by intros [? ->] [? ->].
  - by intros [? ->] [? ->].
  - intros (x1 & (_ & _ & Hx1) & _ & H1) (x2 & (_ & _ & Hx2) & _ & H2). revert H1 H2.
    unfold reply_result. replace (tx x1) with (tx x2) by (by rewrite Hx1, Hx2).
    destruct (tcp_reply _ d f u) as [[out|] u']; [|by intros -> ->].
    destruct (accepts on_signal (tx x2) (zlen out)) as [[]|]; [| |by intros -> ->].
    + by intros (? & -> & _) (? & -> & _).
    + by intros (? & ? & -> & _) (? & ? & -> & _).
Qed.

Lemma tcp_server_segmentation_witness :
  visible (server_on_process (bank_config 1) (sample_world sample_rx [TxTakes 100], sample_bank))
  = visible (server_on_process (bank_config 1)
      (sample_world [RxData [0; 7; 0; 0; 0; 6; 1; 3; 0; 10; 0; 2; 0]] [TxTakes 100], sample_bank)).
Proof.
  apply (tcp_server_segmentation (bank_config 1) bank_device); [| |reflexivity|reflexivity];
    cbn [rx sample_world];
    repeat (apply List.Forall_cons; [try exact I; zforall|]); apply List.Forall_nil.
Defined.

Lemma tcp_call_bounded `{Indet} {U} (cfg : mb_tcp_server_config U) (d : device U)
    `{!Implements (handlers cfg) d} w u :
  rx_bytes (rx w) ->
  match server_on_process cfg (w, u) with
  | Fail e => e = Blocked
  | Ok (rc, (w', u')) =>
      (rc = 0 \/ rc = -1) /\
      exists out, output w' = output w ++ out /\ zlen out <= MODBUS_TCP_MAX_ADU_LENGTH
  end.
Proof.
  intros Hb. pose proof (server_on_process_run cfg d w u Hb) as Hr.
  revert Hr. unfold process_result. destruct (stream (rx w)) as [bs closed].
  assert (forall r', exists out, output (set_rx r' w) = output w ++ out
            /\ zlen out <= MODBUS_TCP_MAX_ADU_LENGTH) as Hnone.
  { intros r'. exists []. by rewrite app_nil_r. }
  destruct (next_frame bs) as [| |f rest].
  - destruct closed; [|by intros ->]. intros [r' ->]. auto.
  - intros [r' ->]. auto.
  - intros (w1 & (_ & _ & ->) & _ & Hr). revert Hr. unfold reply_result, tcp_reply.
    destruct (_ && _); [|intros ->; auto].
    pose proof (respond_bound (handlers cfg) d (drop 7 f) u) as Hbound.
    destruct (respond d (drop 7 f) u) as [r u']. cbn [fst] in Hbound.
    set (out := mbap _ _ _).
    assert (zlen out <= 260) as Hout by (subst out; rewrite mbap_length; lia).
    destruct (accepts _ _ _) as [[]|]; [| |by intros ->].
    + intros (w' & -> & Hw & _). split; [auto|]. exists out. split; [|done].
      by rewrite (wrote_output _ _ _ Hw).
    + intros (w' & part & -> & Hw & Hp). split; [auto|]. exists part.
      rewrite (wrote_output _ _ _ Hw). split; [done|]. apply prefix_length in Hp.
      unfold MODBUS_TCP_MAX_ADU_LENGTH. lia.
Qed.

(** The server is safe on every input: for any bytes from the network and
    any behaviour of the socket, a call never accesses memory outside its
    buffers and its loops end (if it has not returned, a system call is
    blocking); it returns 0 or -1, sends at most one ADU (260 bytes), and only
    appends to what was sent. *)
Theorem tcp_server_safe `{Indet} {U} (cfg : mb_tcp_server_config U) (d : device U)
    `{!Implements (handlers cfg) d} w u :
  rx_bytes (rx w) ->
  match server_on_process cfg (w, u) with
  | Fail e => e = Blocked
  | Ok (rc, (w', u')) =>
      (rc = 0 \/ rc = -1) /\
      exists out, output w' = output w ++ out /\ zlen out <= MODBUS_TCP_MAX_ADU_LENGTH
  end.
Proof. exact (tcp_call_bounded cfg d w u). Qed.

Lemma tcp_server_safe_witness :
  match server_on_process (bank_config 1) (sample_world sample_rx [TxTakes 100], sample_bank) with
  | Fail e => e = Blocked
  | Ok (rc, (w', u')) =>
      (rc = 0 \/ rc = -1) /\
      exists out, output w' = output (sample_world sample_rx [TxTakes 100]) ++ out
        /\ zlen out <= MODBUS_TCP_MAX_ADU_LENGTH
  end.
Proof.
  apply (tcp_server_safe (bank_config 1) bank_device); cbn [rx sample_world].
  repeat (apply List.Forall_cons; [try exact I; zforall|]). apply List.Forall_nil.
Defined.

(** ** Pipelined requests *)

(** [n] calls, one after the other, as long as they return 0. *)
Fixpoint process_all `{Indet} {U} (cfg : mb_tcp_server_config U) (n : nat) : st (world * U) Z :=
  match n with
  | O => ret 0
  | S n' =>
      let! rc := server_on_process cfg in
      if rc <? 0 then ret rc else process_all cfg n'
  end.

(** The replies of the abstract server to a list of ADUs, in order. *)
Fixpoint replies {U} (own : Z) (d : device U) (frames : list (list Z)) (u : U) : list Z * U :=
  match frames with
  | [] => ([], u)
  | f :: fs =>
      let '(r, u') := tcp_reply own d f u in
      let '(rs, u'') := replies own d fs u' in
      (default [] r ++ rs, u'')
  end.

(** A complete ADU of acceptable length. *)
Definition well_formed (f : list Z) : Prop :=
  2 <= mbap_remaining f <= 254 /\ zlen f = 6 + mbap_remaining f.

Lemma next_frame_app f rest : well_formed f -> next_frame (f ++ rest) = Frame f rest.
Proof.
  intros [Hr Hl]. unfold next_frame.
  assert (mbap_remaining (f ++ rest) = mbap_remaining f) as ->
    by (unfold mbap_remaining; rewrite !lookup_total_app_l by lia; done).
  rewrite length_app. rewrite !(proj2 (Z.ltb_ge _ _)) by lia. cbn [orb].
  rewrite <- Hl, Nat2Z.id, take_app_length, drop_app_length. done.
Qed.

(** One call on a peer that reads its replies. *)
Lemma process_one_run `{Indet} {U} (cfg : mb_tcp_server_config U) (d : device U)
    `{!Implements (handlers cfg) d} f rest closed w u n :
  rx_bytes (rx w) -> stream (rx w) = (f ++ rest, closed) -> well_formed f -> 0 <= n ->
  let '(r, u') := tcp_reply (srv_unit_id cfg) d f u in
  eager on_signal (tx w) (zlen (default [] r) + n) ->
  exists w', server_on_process cfg (w, u) = Ok (0, (w', u')) /\ rx_bytes (rx w') /\
    stream (rx w') = (rest, closed) /\ output w' = output w ++ default [] r /\ eager on_signal (tx w') n.
Proof.
  intros Hb Hs Hf Hn. pose proof (server_on_process_run cfg d w u Hb) as Hrun.
  unfold process_result in Hrun. rewrite Hs, next_frame_app in Hrun by done.
  destruct Hrun as (w1 & (_ & Hb1 & Hw1) & Hs1 & Hreply). unfold reply_result in Hreply.
  destruct (tcp_reply (srv_unit_id cfg) d f u) as [[out|] u1].
  - change (default [] (Some out)) with out. intros He.
    apply eager_accepts in He as [Hacc He]; [|lia..].
    replace (tx w1) with (tx w) in Hreply by (by rewrite Hw1). rewrite Hacc in Hreply.
    destruct Hreply as (w2 & Hrun & Hwr & Htx). exists w2. rewrite Htx.
    rewrite (wrote_output _ _ _ Hwr). destruct Hwr as (tx2 & tr & _ & _ & Hw2).
    rewrite Hw2. simpl. rewrite <- Hw2. split; [done|]. rewrite Hw1. done.
  - change (default [] None) with (@nil Z). rewrite app_nil_r. simpl. intros He.
    exists w1. split; [done|]. rewrite Hw1. done.
Qed.

Lemma process_all_run `{Indet} {U} (cfg : mb_tcp_server_config U) (d : device U)
    `{!Implements (handlers cfg) d} frames rest closed w u :
  rx_bytes (rx w) -> stream (rx w) = (concat frames ++ rest, closed) -> Forall well_formed frames ->
  let '(rs, u') := replies (srv_unit_id cfg) d frames u in
  eager on_signal (tx w) (zlen rs) ->
  exists w', process_all cfg (length frames) (w, u) = Ok (0, (w', u')) /\
    output w' = output w ++ rs /\ stream (rx w') = (rest, closed).
Proof.
  revert w u. induction frames as [|f fs IH]; intros w u Hb Hs Hf.
  { exists w. rewrite app_nil_r. done. }
  apply Forall_cons_iff in Hf as [Hf Hfs]. cbn [replies concat] in *. rewrite <- app_assoc in Hs.
  pose proof (process_one_run cfg d f (concat fs ++ rest) closed w u) as Hone.
  destruct (tcp_reply (srv_unit_id cfg) d f u) as [r u1].
  pose proof (fun w Hb Hs => IH w u1 Hb Hs Hfs) as IH'.
  destruct (replies (srv_unit_id cfg) d fs u1) as [rs u2]. intros He.
  destruct (Hone (zlen rs) Hb Hs Hf ltac:(lia)) as (w1 & Hrun & Hb1 & Hs1 & Ho1 & He1).
  { replace (_ + _) with (zlen (default [] r ++ rs)); [done|]. rewrite length_app. lia. }
  destruct (IH' w1 Hb1 Hs1 He1) as (w2 & Hrun2 & Ho2 & Hs2).
  exists w2. cbn [process_all length]. erewrite bind_ok by exact Hrun.
  split; [exact Hrun2|]. split; [by rewrite Ho2, Ho1, app_assoc | done].
Qed.

(** C10. Pipelining: if a connection carries any number of well-formed ADUs back
    to back, followed by anything, in any segmentation, and the peer keeps
    reading, then as many calls of the server answer all of them, in order,
    each in the application state the previous one left, and leave the stream
    at the first byte after the last ADU: the server never loses framing. *)
Theorem tcp_server_pipeline `{Indet} {U} (cfg : mb_tcp_server_config U) (d : device U)
    `{!Implements (handlers cfg) d} frames rest closed w u rs u' :
  rx_bytes (rx w) -> stream (rx w) = (concat frames ++ rest, closed) -> Forall well_formed frames ->
  replies (srv_unit_id cfg) d frames u = (rs, u') -> eager on_signal (tx w) (zlen rs) ->
  exists w', process_all cfg (length frames) (w, u) = Ok (0, (w', u')) /\
    output w' = output w ++ rs /\ stream (rx w') = (rest, closed).
Proof.
  intros Hb Hs Hf Hr He. pose proof (process_all_run cfg d frames rest closed w u Hb Hs Hf) as Hrun.
  rewrite Hr in Hrun. by apply Hrun.
Qed.

Definition two_frames : list (list Z) :=
  [[0; 7; 0; 0; 0; 6; 1; 3; 0; 10; 0; 2]; [0; 8; 0; 0; 0; 2; 1; 99]].

Lemma tcp_server_pipeline_witness :
  exists w', process_all (bank_config 1) 2
      (sample_world [RxData (take 15 (concat two_frames)); RxData (drop 15 (concat two_frames))]
         (replicate 22 (TxTakes 9)), sample_bank) = Ok (0, (w', sample_bank)) /\
    output w' = [] ++ [0; 7; 0; 0; 0; 7; 1; 3; 4; 3; 242; 3; 243; 0; 8; 0; 0; 0; 3; 1; 227; 1] /\
    stream (rx w') = ([], false).
Proof.
  apply (tcp_server_pipeline (bank_config 1) bank_device two_frames [] false).
  - cbn [rx sample_world]. repeat (apply List.Forall_cons; [zforall|]). apply List.Forall_nil.
  - reflexivity.
  - repeat (apply List.Forall_cons; [split; by vm_compute|]). apply List.Forall_nil.
  - reflexivity.
  - split; [apply Forall_replicate; reflexivity | by vm_compute].
Defined.
