(* ===== verification/TcpClient.v ===== *)
(** * The TCP client: [src/modbus_tcp_client.c]

    Every public call is one transaction: it sends one ADU and waits for the
    ADU with its transaction id, skipping late replies to earlier requests.
    The state is the world of the socket and the client context; the context
    mutex makes a transaction one step.  [mb_tcp_client_connect] is in
    [TcpPort]; log calls are left out. *)

From S2P Require Import Prelude Buffer Defines Bits Pdu PduSpec PduClient Ptr Tcp TcpFrames Sys TcpServer.

(** ** Codes, configuration, context *)

Definition DEFAULT_CONNECT_TIMEOUT_SEC : Z := 5.
Definition DEFAULT_RESPONSE_TIMEOUT_MS : Z := 1000.

Definition ADU_OFFSET_TID_HIGH : Z := 0.
Definition ADU_OFFSET_TID_LOW : Z := 1.
Definition ADU_OFFSET_PROTO_HIGH : Z := 2.
Definition ADU_OFFSET_PROTO_LOW : Z := 3.
Definition ADU_OFFSET_LEN_HIGH : Z := 4.
Definition ADU_OFFSET_LEN_LOW : Z := 5.
Definition ADU_OFFSET_UNIT_ID : Z := 6.
Definition ADU_OFFSET_PDU : Z := 7.

Definition RECV_PROTOCOL_ID_ERROR : Z := -3.
Definition RECV_PARTIAL_TIMEOUT : Z := -4.

Definition MB_TCP_CLIENT_OK : Z := 0.
Definition MB_TCP_CLIENT_ERR_ARG : Z := -1.
Definition MB_TCP_CLIENT_ERR_NOT_CONNECTED : Z := -2.
Definition MB_TCP_CLIENT_ERR_TRANSPORT : Z := -3.
Definition MB_TCP_CLIENT_ERR_TIMEOUT : Z := -4.
Definition MB_TCP_CLIENT_ERR_FRAME : Z := -5.
Definition MB_TCP_CLIENT_ERR_TID : Z := -6.

Record mb_tcp_client_config := CliConfig {
  cli_remote_host : option string;
  cli_port : Z;
  cli_bind_iface : option string;
  cli_unit_id : Z;
  cli_connect_timeout_sec : Z;
  cli_response_timeout_ms : Z;
}.

Record mb_tcp_client_ctx := CliCtx {
  cli_sock : Z;
  cli_tid : Z;
  cli_initialized : Z;
  cli_cfg : mb_tcp_client_config;
}.

Definition set_sock (s : Z) (c : mb_tcp_client_ctx) : mb_tcp_client_ctx :=
  CliCtx s (cli_tid c) (cli_initialized c) (cli_cfg c).
Definition set_cli_tid (t : Z) (c : mb_tcp_client_ctx) : mb_tcp_client_ctx :=
  CliCtx (cli_sock c) t (cli_initialized c) (cli_cfg c).
Definition set_cli_initialized (i : Z) (c : mb_tcp_client_ctx) : mb_tcp_client_ctx :=
  CliCtx (cli_sock c) (cli_tid c) i (cli_cfg c).
Definition set_cli_unit_id (v : Z) (c : mb_tcp_client_ctx) : mb_tcp_client_ctx :=
  let cfg := cli_cfg c in
  CliCtx (cli_sock c) (cli_tid c) (cli_initialized c)
    (CliConfig (cli_remote_host cfg) (cli_port cfg) (cli_bind_iface cfg) v
       (cli_connect_timeout_sec cfg) (cli_response_timeout_ms cfg)).

(** ** Receiving *)

Fixpoint recv_exact_loop (fuel : nat) (received len : Z) : st (list Z * world) Z :=
  match fuel with
  | O => stop NoFuel
  | S fuel' =>
      if received <? len then
        let! n := on_snd (sys_read (len - received)) in
        match n with
        | inl bs =>
            if zlen bs =? 0 then ret (-1)
            else
              on_buf (at_off received (memcpy bs (zlen bs))) ;;;
              recv_exact_loop fuel' (received + zlen bs) len
        | inr e =>
            if decide (e = EINTR) then recv_exact_loop fuel' received len
            else if decide (e = EAGAIN) then ret (-2)
            else if decide (e = ETIMEDOUT) then ret (-2)
            else ret (-1)
        end
      else ret 0
  end.

(** A read leaves the script shorter or ends the loop. *)
Definition recv_exact (len : Z) : st (list Z * world) Z := fun s =>
  recv_exact_loop (S (S (length (rx (snd s))))) 0 len s.

Definition recv_err_to_client_err (recv_rc : Z) : Z :=
  if (recv_rc =? -2) || (recv_rc =? RECV_PARTIAL_TIMEOUT) then MB_TCP_CLIENT_ERR_TIMEOUT
  else if recv_rc =? RECV_PROTOCOL_ID_ERROR then MB_TCP_CLIENT_ERR_FRAME
  else MB_TCP_CLIENT_ERR_TRANSPORT.

(** Returns the new id. *)
Definition next_tid : st mb_tcp_client_ctx Z := fun c =>
  let t := if cli_tid c <? 65535 then u16 (cli_tid c + 1) else 1 in
  Ok (t, set_cli_tid t c).

Definition effective_response_timeout_ms (c : mb_tcp_client_ctx) : Z :=
  if negb (cli_response_timeout_ms (cli_cfg c) =? 0) then cli_response_timeout_ms (cli_cfg c)
  else DEFAULT_RESPONSE_TIMEOUT_MS.

(** Shutdown and close; the new value of [*fd]. *)
Definition mb_tcp_close (fd : option Z) : st world (option Z) :=
  match fd with
  | None => ret None
  | Some v => if 0 <=? v then act Closed ;;; ret (Some (-1)) else ret fd
  end.

Definition close_sock : st (world * mb_tcp_client_ctx) unit :=
  let! '(_, c) := get in
  let! fd := on_fst (mb_tcp_close (Some (cli_sock c))) in
  on_snd (put (set_sock (default (cli_sock c) fd) c)).

Section Client.
Context {I : Indet}.

(** The result of [clock_gettime] is not checked: after a failure the time is
    whatever the automatic variable held. *)
Definition monotonic_ms : st world Z :=
  let! now := sys_clock in
  let '(sec, nsec) := default (indet 0, indet 1) now in
  ret (u64 (u64 (u64 sec * 1000) + u64 nsec / 1000000)).

(** The last argument of [poll] is an [int]. *)
Fixpoint wait_readable_loop (fuel : nat) (deadline_ms : Z) : st world Z :=
  match fuel with
  | O => stop NoFuel
  | S fuel' =>
      let! now_ms := monotonic_ms in
      if deadline_ms <=? now_ms then ret (-2)
      else
        let! rc := sys_poll (int_of (u64 (deadline_ms - now_ms))) in
        match rc with
        | Ready => ret 0
        | Expired => ret (-2)
        | PollErr e => if decide (e = EINTR) then wait_readable_loop fuel' deadline_ms else ret (-1)
        end
  end.

(** Every round reads the clock. *)
Definition wait_readable (deadline_ms : Z) : st world Z := fun w =>
  wait_readable_loop (S (length (clock w))) deadline_ms w.

(** [recv_response] once the header is there.  Returns the code and the new
    value of [*total_len]. *)
Definition recv_body (buf_cap total_len : Z) : st (list Z * world) (Z * Z) :=
  let! '(buf, _) := get in
  let! len_high := lift (load buf ADU_OFFSET_LEN_HIGH) in
  let! len_low := lift (load buf ADU_OFFSET_LEN_LOW) in
  let mbap_remaining := of_be16 len_high len_low in
  if (mbap_remaining =? 0) || (buf_cap - MODBUS_TCP_MBAP_HEADER_LEN <? mbap_remaining)
  then ret (-1, total_len) else
  let! rc := at_ptr MODBUS_TCP_MBAP_HEADER_LEN (recv_exact mbap_remaining) in
  if negb (rc =? 0) then ret (if rc =? -2 then RECV_PARTIAL_TIMEOUT else rc, total_len) else
  let total_len := MODBUS_TCP_MBAP_HEADER_LEN + mbap_remaining in
  let! '(buf, _) := get in
  let! proto_high := lift (load buf ADU_OFFSET_PROTO_HIGH) in
  let! proto_low := lift (load buf ADU_OFFSET_PROTO_LOW) in
  if negb (proto_high =? 0) || negb (proto_low =? 0) then ret (RECV_PROTOCOL_ID_ERROR, total_len)
  else ret (0, total_len).

Definition recv_response (buf_cap deadline_ms total_len : Z) : st (list Z * world) (Z * Z) :=
  let! rc := on_snd (wait_readable deadline_ms) in
  if negb (rc =? 0) then ret (rc, total_len) else
  let! rc := recv_exact MODBUS_TCP_MBAP_HEADER_LEN in
  if negb (rc =? 0) then ret (if rc =? -2 then RECV_PARTIAL_TIMEOUT else rc, total_len) else
  recv_body buf_cap total_len.

(** ** Transactions *)

(** Late replies to earlier requests carry an older id: they are skipped. *)
Fixpoint response_loop (fuel : nat) (tid deadline_ms : Z) (stale_seen : bool) (total_len : Z)
    : st (list Z * world) (Z * bool * Z) :=
  match fuel with
  | O => stop NoFuel
  | S fuel' =>
      let! '(rc, total_len) := recv_response MODBUS_TCP_MAX_ADU_LENGTH deadline_ms total_len in
      if negb (rc =? 0) then ret (rc, stale_seen, total_len) else
      let! '(resp, _) := get in
      let! tid_high := lift (load resp ADU_OFFSET_TID_HIGH) in
      let! tid_low := lift (load resp ADU_OFFSET_TID_LOW) in
      if of_be16 tid_high tid_low =? tid then ret (rc, stale_seen, total_len)
      else response_loop fuel' tid deadline_ms true total_len
  end.

(** Every reception reads the clock. *)
Definition await_response (tid deadline_ms : Z) : st (list Z * world) (Z * bool * Z) := fun s =>
  response_loop (S (length (clock (snd s)))) tid deadline_ms false 0 s.

(** [transact] once the wait is over. *)
Definition conclude (pdu resp : list Z) (rc : Z) (stale_seen : bool) (total_len : Z)
    : st (world * mb_tcp_client_ctx) (Z * list Z) :=
  (if (rc =? -1) || (rc =? RECV_PARTIAL_TIMEOUT) then close_sock else ret tt) ;;;
  if (rc =? -2) && stale_seen then ret (MB_TCP_CLIENT_ERR_TID, resp) else
  if negb (rc =? 0) then ret (recv_err_to_client_err rc, resp) else
  if total_len <=? ADU_OFFSET_PDU then ret (MB_TCP_CLIENT_ERR_FRAME, resp) else
  let! rc := lift (mb_pdu_check_response pdu (padd resp ADU_OFFSET_PDU) (total_len - ADU_OFFSET_PDU)) in
  if rc =? MB_PDU_ERR_FRAME then ret (MB_TCP_CLIENT_ERR_FRAME, resp) else ret (rc, resp).

(** [transact] once the request is sent. *)
Definition take_response (pdu resp : list Z) (tid deadline_ms : Z)
    : st (world * mb_tcp_client_ctx) (Z * list Z) :=
  let! '((rc, stale_seen, total_len), resp) := with_buf resp (await_response tid deadline_ms) in
  conclude pdu resp rc stale_seen total_len.

(** Returns the code and the response buffer. *)
Definition transact (pdu : list Z) (pdu_len : Z) (resp : list Z)
    : st (world * mb_tcp_client_ctx) (Z * list Z) :=
  let! fc := lift (load pdu 0) in
  let! '(_, c) := get in
  if cli_initialized c =? 0 then ret (MB_TCP_CLIENT_ERR_NOT_CONNECTED, resp) else
  let mbap_len := u16 (1 + pdu_len) in
  let! '(_, req) := lift
    ((store ADU_OFFSET_PROTO_HIGH 0x00 ;;;
      store ADU_OFFSET_PROTO_LOW 0x00 ;;;
      store ADU_OFFSET_LEN_HIGH (u8 (Z.shiftr mbap_len 8)) ;;;
      store ADU_OFFSET_LEN_LOW (u8 (Z.land mbap_len 0xFF)) ;;;
      at_off ADU_OFFSET_PDU (memcpy pdu pdu_len)) (auto_u8 MODBUS_TCP_MAX_ADU_LENGTH)) in
  if cli_sock c <? 0 then ret (MB_TCP_CLIENT_ERR_NOT_CONNECTED, resp) else
  let! tid := on_snd next_tid in
  let! '(_, req) := lift
    ((store ADU_OFFSET_TID_HIGH (u8 (Z.shiftr tid 8)) ;;;
      store ADU_OFFSET_TID_LOW (u8 (Z.land tid 0xFF)) ;;;
      store ADU_OFFSET_UNIT_ID (cli_unit_id (cli_cfg c))) req) in
  let! rc := on_fst (mb_tcp_send_all req (ADU_OFFSET_PDU + pdu_len)) in
  if negb (rc =? 0) then close_sock ;;; ret (MB_TCP_CLIENT_ERR_TRANSPORT, resp) else
  let! now_ms := on_fst monotonic_ms in
  let deadline_ms := u64 (now_ms + effective_response_timeout_ms c) in
  take_response pdu resp tid deadline_ms.

(** ** The public calls: the context may be NULL *)

Abbreviation calls := (st (world * option mb_tcp_client_ctx)).

Definition on_ctx {A} (m : st (world * mb_tcp_client_ctx) A) : calls A := fun '(w, ctx) =>
  match ctx with
  | None => Fail UB
  | Some c => match m (w, c) with
              | Ok (a, (w', c')) => Ok (a, (w', Some c'))
              | Fail e => Fail e
              end
  end.

(** Returns the code and the caller's array. *)
Definition read_registers (fc addr qty : Z) (out : option (list Z)) : calls (Z * option (list Z)) :=
  let! '(_, ctx) := get in
  if is_null ctx || is_null out || (qty =? 0) || (MODBUS_MAX_READ_REGISTERS <? qty)
  then ret (MB_TCP_CLIENT_ERR_ARG, out) else
  let! '(pdu_len, pdu) := lift (mb_pdu_build_read fc addr qty (auto_u8 MODBUS_MAX_PDU_LENGTH)) in
  let! '(rc, resp) := on_ctx (transact pdu pdu_len (auto_u8 MODBUS_TCP_MAX_ADU_LENGTH)) in
  if rc =? MB_TCP_CLIENT_OK then
    let! '(_, out) := lift (deref (mb_pdu_get_registers (padd resp ADU_OFFSET_PDU) qty) out) in
    ret (rc, out)
  else ret (rc, out).

Definition read_bits (fc addr qty : Z) (out : option (list Z)) : calls (Z * option (list Z)) :=
  let! '(_, ctx) := get in
  if is_null ctx || is_null out || (qty =? 0) || (MODBUS_MAX_READ_BITS <? qty)
  then ret (MB_TCP_CLIENT_ERR_ARG, out) else
  let! '(pdu_len, pdu) := lift (mb_pdu_build_read fc addr qty (auto_u8 MODBUS_MAX_PDU_LENGTH)) in
  let! '(rc, resp) := on_ctx (transact pdu pdu_len (auto_u8 MODBUS_TCP_MAX_ADU_LENGTH)) in
  if rc =? MB_TCP_CLIENT_OK then
    let! '(_, out) := lift (deref (mb_pdu_get_bits (padd resp ADU_OFFSET_PDU) qty) out) in
    ret (rc, out)
  else ret (rc, out).

Definition mb_tcp_client_read_holding_registers := read_registers MODBUS_FUNC_READ_HOLDING_REGISTERS.
Definition mb_tcp_client_read_input_registers := read_registers MODBUS_FUNC_READ_INPUT_REGISTERS.
Definition mb_tcp_client_read_coils := read_bits MODBUS_FUNC_READ_COILS.
Definition mb_tcp_client_read_discrete_inputs := read_bits MODBUS_FUNC_READ_DISCRETE_INPUTS.

(** Send a PDU that is ready and drop the response. *)
Definition transact_write (built : outcome (Z * list Z)) : calls Z :=
  let! '(pdu_len, pdu) := lift built in
  let! '(rc, _) := on_ctx (transact pdu pdu_len (auto_u8 MODBUS_TCP_MAX_ADU_LENGTH)) in
  ret rc.

Definition mb_tcp_client_write_single_register (addr value : Z) : calls Z :=
  let! '(_, ctx) := get in
  if is_null ctx then ret MB_TCP_CLIENT_ERR_ARG else
  transact_write (mb_pdu_build_write_single MODBUS_FUNC_WRITE_SINGLE_REGISTER addr value
                    (auto_u8 MODBUS_MAX_PDU_LENGTH)).

Definition mb_tcp_client_write_single_coil (addr value : Z) : calls Z :=
  let! '(_, ctx) := get in
  if is_null ctx then ret MB_TCP_CLIENT_ERR_ARG else
  transact_write (mb_pdu_build_write_single MODBUS_FUNC_WRITE_SINGLE_COIL addr
                    (if negb (value =? 0) then MODBUS_COIL_ON else MODBUS_COIL_OFF)
                    (auto_u8 MODBUS_MAX_PDU_LENGTH)).

Definition mb_tcp_client_write_multiple_registers (addr qty : Z) (data : option (list Z)) : calls Z :=
  let! '(_, ctx) := get in
  if is_null ctx || is_null data || (qty =? 0) || (MODBUS_MAX_WRITE_REGISTERS <? qty)
  then ret MB_TCP_CLIENT_ERR_ARG else
  let! data := lift (fun_ptr data) in
  transact_write (mb_pdu_build_write_registers addr qty data (auto_u8 MODBUS_MAX_PDU_LENGTH)).

Definition mb_tcp_client_write_multiple_coils (addr qty : Z) (values : option (list Z)) : calls Z :=
  let! '(_, ctx) := get in
  if is_null ctx || is_null values || (qty =? 0) || (MODBUS_MAX_WRITE_BITS <? qty)
  then ret MB_TCP_CLIENT_ERR_ARG else
  let! values := lift (fun_ptr values) in
  transact_write (mb_pdu_build_write_coils addr qty values (auto_u8 MODBUS_MAX_PDU_LENGTH)).
End Client.

Definition mb_tcp_client_disconnect : st (world * option mb_tcp_client_ctx) unit :=
  let! '(_, ctx) := get in
  match ctx with
  | None => ret tt
  | Some c =>
      if cli_initialized c =? 0 then ret tt
      else
        on_ctx close_sock ;;;
        on_ctx (let! '(_, c) := get in on_snd (put (set_cli_initialized 0 c)))
  end.

Definition mb_tcp_client_set_unit_id (unit_id : Z) : st (world * option mb_tcp_client_ctx) Z :=
  let! '(_, ctx) := get in
  match ctx with
  | None => ret MB_TCP_CLIENT_ERR_ARG
  | Some c =>
      if cli_initialized c =? 0 then ret MB_TCP_CLIENT_ERR_NOT_CONNECTED
      else on_ctx (on_snd (put (set_cli_unit_id unit_id c))) ;;; ret MB_TCP_CLIENT_OK
  end.
