(* ===== verification/TcpClientSpec.v ===== *)
(** * What the TCP client promises

    [receives] says how the bytes of the socket end a wait for a response:
    whole frames with another transaction id are skipped until the answer, a
    foreign protocol, a silent deadline, or a stream that can no longer be
    trusted.  [transact_run] says that a transaction is the transmission of
    one frame followed by such a wait. *)

From S2P Require Import Prelude Buffer Defines Bits Pdu PduSpec PduClient Ptr Tcp TcpFrames Sys TcpServer TcpServerSpec TcpClient.

(** ** Receiving *)

(** What follows the bytes of a stream: nothing yet, a receive timeout, or the
    end of the connection. *)
Inductive recv_end := Waiting | Quiet | Gone.
#[global] Instance recv_end_eq_dec : EqDecision recv_end.
Proof. solve_decision. Defined.

Fixpoint stream_end (l : list rx_event) : recv_end :=
  match l with
  | [] => Waiting
  | RxErr EINTR :: r => stream_end r
  | RxErr EAGAIN :: _ | RxErr ETIMEDOUT :: _ => Quiet
  | RxErr (EOTHER _) :: _ => Gone
  | RxData bs :: r => if zlen bs =? 0 then Gone else stream_end r
  end.

Definition end_code (e : recv_end) : Z := match e with Quiet => -2 | _ => -1 end.

Lemma stream_end_closed l : snd (stream l) = negb (bool_decide (stream_end l = Waiting)).
Proof.
  induction l as [|[bs|[]] l IH]; cbn [stream stream_end]; try done.
  by destruct (zlen bs =? 0).
Qed.

(** The loop of the client and the loop of the server differ in the code of a
    failure only. *)
Lemma recv_loop_codes fuel received len p w :
  recv_exact_loop fuel received len (p, w) =
  match TcpServer.recv_exact_loop fuel received len (p, w) with
  | Ok (rc, s) => Ok (if rc =? 0 then 0 else end_code (stream_end (rx w)), s)
  | Fail e => Fail e
  end.
Proof.
  revert received p w. induction fuel as [|fuel IH]; intros received p w; [done|].
  cbn [recv_exact_loop TcpServer.recv_exact_loop].
  destruct (Z.ltb_spec received len) as [Hlt|]; [|done].
  unfold bind, on_snd, sys_read. destruct (rx w) as [|[bs|e] r] eqn:Hrx; [done| |].
  - assert (forall bs' p' w', stream_end (rx w') = stream_end (RxData bs :: r) ->
      match on_buf (at_off received (memcpy bs' (zlen bs'))) (p', w') with
      | Ok (_, s') => recv_exact_loop fuel (received + zlen bs') len s'
      | Fail e => Fail e
      end = match match on_buf (at_off received (memcpy bs' (zlen bs'))) (p', w') with
      | Ok (_, s') => TcpServer.recv_exact_loop fuel (received + zlen bs') len s'
      | Fail e => Fail e
      end with
      | Ok (rc, s) => Ok (if rc =? 0 then 0 else end_code (stream_end (RxData bs :: r)), s)
      | Fail e => Fail e
      end) as Hgo.
    { intros bs' p' w' He. unfold on_buf. destruct (at_off _ _ p') as [[[] q]|]; [|done].
      by rewrite IH, He. }
    destruct (Z.leb_spec (zlen bs) (len - received)) as [Hle|Hgt].
    + destruct (Z.eqb_spec (zlen bs) 0) as [H0|H0].
      { cbn [stream_end]. by rewrite (proj2 (Z.eqb_eq _ _)) by done. }
      apply Hgo. cbn [rx set_rx stream_end]. by rewrite (proj2 (Z.eqb_neq _ _)) by done.
    + rewrite (proj2 (Z.eqb_neq _ _)) by (rewrite length_take; lia).
      apply Hgo. cbn [rx set_rx stream_end].
      by zbool.
  - destruct e; cbn [stream_end]; by repeat (case_decide; simplify_eq).
Qed.

(** [w'] is [w] after [n] bytes have been read; what ends the stream is the same. *)
Definition got (w : world) (n : nat) (w' : world) : Prop :=
  read_from w n w' /\ stream_end (rx w') = stream_end (rx w).

Lemma got_refl w : rx_bytes (rx w) -> got w 0 w.
Proof. intros Hb. split; [by apply read_from_refl | done]. Qed.

Lemma got_trans w n w1 m w2 : got w n w1 -> got w1 m w2 -> got w (n + m) w2.
Proof. intros [H1 E1] [H2 E2]. split; [by eapply read_from_trans | congruence]. Qed.

Lemma recv_loop_end fuel received len p w q w' :
  TcpServer.recv_exact_loop fuel received len (p, w) = Ok (0, (q, w')) ->
  stream_end (rx w') = stream_end (rx w).
Proof.
  revert received p w. induction fuel as [|fuel IH]; intros received p w; [done|].
  cbn [TcpServer.recv_exact_loop].
  destruct (Z.ltb_spec received len) as [Hlt|]; [|unfold ret; intros; by simplify_eq].
  unfold bind, on_snd, sys_read. destruct (rx w) as [|[bs|e] r] eqn:Hrx; [done| |].
  - destruct (Z.leb_spec (zlen bs) (len - received)) as [Hle|Hgt].
    + destruct (Z.eqb_spec (zlen bs) 0) as [H0|H0]; [done|].
      unfold on_buf. destruct (at_off _ _ p) as [[[] p1]|]; [|done]. intros ->%IH.
      cbn [rx set_rx stream_end]. by rewrite (proj2 (Z.eqb_neq _ _)) by done.
    + rewrite (proj2 (Z.eqb_neq _ _)) by (rewrite length_take; lia).
      unfold on_buf. destruct (at_off _ _ p) as [[[] p1]|]; [|done]. intros ->%IH.
      cbn [rx set_rx stream_end].
      by zbool.
  - case_decide; [|done]. subst e. by intros ->%IH.
Qed.

(** What receiving [n] bytes into [rest] leads to. *)
Definition recv_spec (n : nat) (rest : list Z) (w : world) (o : outcome (Z * (list Z * world))) : Prop :=
  let bs := fst (stream (rx w)) in
  if decide (n <= length bs)%nat then
    exists w', got w n w' /\ o = Ok (0, (take n bs ++ drop n rest, w'))
  else match stream_end (rx w) with
       | Waiting => o = Fail Blocked
       | e => exists p' r', o = Ok (end_code e, (p', set_rx r' w)) /\ length p' = length rest
       end.

Lemma recv_exact_spec n rest w :
  rx_bytes (rx w) -> 0 <= n <= zlen rest ->
  recv_spec (Z.to_nat n) rest w (recv_exact n (rest, w)).
Proof.
  intros Hb Hn. pose proof (recv_exact_run n rest w Hb Hn) as HR.
  unfold recv_result, TcpServer.recv_exact in HR. unfold recv_spec, recv_exact.
  cbn [snd] in *. rewrite recv_loop_codes. remember (TcpServer.recv_exact_loop _ _ _ _) as o eqn:Ho.
  pose proof (stream_end_closed (rx w)) as Hc. destruct (stream (rx w)) as [bs closed].
  cbn [fst snd] in *. case_decide.
  - destruct HR as (w' & Hw' & Hr). exists w'. split; [|by rewrite Hr].
    split; [done|]. eapply recv_loop_end. by rewrite <- Ho.
  - destruct (stream_end (rx w)); subst closed; cbn [negb] in HR; [by rewrite HR|..];
      destruct HR as (p' & r' & -> & Hp); by exists p', r'.
Qed.

(** ** Waiting for the socket to become readable *)

Section Client.
Context {I : Indet}.

Definition time_ms (t : option (Z * Z)) : Z :=
  let '(sec, nsec) := default (indet 0, indet 1) t in
  u64 (u64 (u64 sec * 1000) + u64 nsec / 1000000).

(** How a wait ends: the code, and what is left of the answers of the clock
    and of poll. *)
Fixpoint awaited (deadline : Z) (clk : list (option (Z * Z))) (sel : list poll_event)
    : option (Z * list (option (Z * Z)) * list poll_event) :=
  match clk with
  | [] => None
  | t :: clk' =>
      if deadline <=? time_ms t then Some (-2, clk', sel) else
      match sel with
      | [] => None
      | Ready :: s => Some (0, clk', s)
      | Expired :: s =>
          if int_of (u64 (deadline - time_ms t)) <? 0 then None else Some (-2, clk', s)
      | PollErr e :: s => if decide (e = EINTR) then awaited deadline clk' s else Some (-1, clk', s)
      end
  end.

Definition after_wait (clk : list (option (Z * Z))) (sel : list poll_event) (w : world) : world :=
  set_selects sel (set_clock clk w).

Lemma monotonic_ms_run w :
  monotonic_ms w = match clock w with
                   | [] => Fail Blocked
                   | t :: clk => Ok (time_ms t, set_clock clk w)
                   end.
Proof.
  unfold monotonic_ms, sys_clock, pop, bind, time_ms. destruct (clock w) as [|t clk]; [done|].
  by destruct (default _ t).
Qed.

Lemma wait_readable_loop_run fuel deadline w :
  (length (clock w) < fuel)%nat ->
  wait_readable_loop fuel deadline w =
  match awaited deadline (clock w) (selects w) with
  | None => Fail Blocked
  | Some (rc, clk, sel) => Ok (rc, after_wait clk sel w)
  end.
Proof.
  revert w. induction fuel as [|fuel IH]; intros w Hf; [lia|].
  cbn [wait_readable_loop]. unfold bind at 1. rewrite monotonic_ms_run.
  destruct (clock w) as [|t clk]; [done|]. cbn [awaited]. simpl in Hf.
  destruct (deadline <=? time_ms t).
  { unfold after_wait, ret. by destruct w. }
  unfold sys_poll, sys_select, pop, bind. cbn [selects set_clock].
  destruct (selects w) as [|[| |e] sel]; [done..| |].
  - by destruct (_ <? 0).
  - unfold ret. case_decide; [|done].
    rewrite (IH (set_selects sel (set_clock clk w))) by (simpl; lia). cbn [clock selects set_selects set_clock].
    destruct (awaited _ clk sel) as [[[rc clk'] sel']|]; [|done]. by destruct w.
Qed.

Lemma wait_readable_run deadline w :
  wait_readable deadline w =
  match awaited deadline (clock w) (selects w) with
  | None => Fail Blocked
  | Some (rc, clk, sel) => Ok (rc, after_wait clk sel w)
  end.
Proof. apply wait_readable_loop_run. lia. Qed.

Lemma awaited_code deadline clk sel rc clk' sel' :
  awaited deadline clk sel = Some (rc, clk', sel') ->
  (rc = 0 \/ rc = -1 \/ rc = -2) /\ (length clk' < length clk)%nat.
Proof.
  revert sel. induction clk as [|t clk IH]; intros sel; [done|]. cbn [awaited length].
  destruct (deadline <=? time_ms t); [intros; simplify_eq; lia|].
  destruct sel as [|[| |e] sel]; [done|intros; simplify_eq; lia| |].
  - destruct (_ <? 0); [done|]. intros; simplify_eq; lia.
  - case_decide; [|intros; simplify_eq; lia]. intros [? ?]%IH. lia.
Qed.

(** ** One frame *)

(** Cut the first ADU off a stream, as a client does: the unit id alone is
    accepted as a body. *)
Definition cut (bs : list Z) : next :=
  if zlen bs <? 6 then NeedMore
  else
    let len := mbap_remaining bs in
    if (len =? 0) || (254 <? len) then BadLength
    else if zlen bs <? 6 + len then NeedMore
    else Frame (take (Z.to_nat (6 + len)) bs) (drop (Z.to_nat (6 + len)) bs).

Definition complete (f : list Z) : Prop :=
  1 <= mbap_remaining f <= 254 /\ zlen f = 6 + mbap_remaining f.

(** Protocol id 0. *)
Definition is_modbus (f : list Z) : bool := (f !!! 2%nat =? 0) && (f !!! 3%nat =? 0).
Definition tid_of (f : list Z) : Z := of_be16 (f !!! 0%nat) (f !!! 1%nat).

Lemma cut_frame bs f rest : cut bs = Frame f rest -> bs = f ++ rest /\ complete f.
Proof.
  unfold cut. destruct (Z.ltb_spec (zlen bs) 6) as [|H6]; [done|].
  set (len := mbap_remaining bs). destruct (Z.eqb_spec len 0); [done|].
  destruct (Z.ltb_spec 254 len); [done|]. cbn [orb].
  destruct (Z.ltb_spec (zlen bs) (6 + len)); [done|]. intros; simplify_eq.
  assert (0 <= len) as Hlen by (subst len; apply of_be16_u16).
  split; [by rewrite take_drop|]. unfold complete.
  assert (mbap_remaining (take (Z.to_nat (6 + len)) bs) = len) as ->.
  { unfold mbap_remaining. by rewrite !lookup_total_take_lt by lia. }
  rewrite length_take. lia.
Qed.

Lemma cut_complete f rest : complete f -> cut (f ++ rest) = Frame f rest.
Proof.
  intros [Hr Hl]. unfold cut.
  assert (mbap_remaining (f ++ rest) = mbap_remaining f) as ->
    by (unfold mbap_remaining; rewrite !lookup_total_app_l by lia; done).
  rewrite length_app. rewrite !(proj2 (Z.ltb_ge _ _)), (proj2 (Z.eqb_neq _ _)) by lia. cbn [orb].
  rewrite <- Hl, Nat2Z.id, take_app_length, drop_app_length. done.
Qed.

(** What waiting for one frame leads to: [fin] is the code and the new
    [total_len], [buf] the 260 bytes of the response buffer. *)
Definition reception (deadline total : Z) (buf : list Z) (w : world)
    (o : outcome ((Z * Z) * (list Z * world))) : Prop :=
  match awaited deadline (clock w) (selects w) with
  | None => o = Fail Blocked
  | Some (rc, clk, sel) =>
      let w1 := after_wait clk sel w in
      let broken code := exists p r, o = Ok ((code, total), (p, set_rx r w1)) /\ zlen p = zlen buf in
      if rc =? 0 then
        match cut (fst (stream (rx w))) with
        | NeedMore => match stream_end (rx w) with
                      | Waiting => o = Fail Blocked
                      | Quiet => broken RECV_PARTIAL_TIMEOUT
                      | Gone => broken (-1)
                      end
        | BadLength => broken (-1)
        | Frame f _ => exists w', got w1 (length f) w' /\
            o = Ok ((if is_modbus f then 0 else RECV_PROTOCOL_ID_ERROR, zlen f),
                    (f ++ drop (length f) buf, w'))
        end
      else o = Ok ((rc, total), (buf, w1))
  end.

Lemma at_ptr_run {A W} k (m : st (list Z * W) A) p (w : W) :
  0 <= k <= zlen p ->
  at_ptr k m (p, w) = match m (drop (Z.to_nat k) p, w) with
                      | Ok (a, (q, w')) => Ok (a, (take (Z.to_nat k) p ++ q, w'))
                      | Fail e => Fail e
                      end.
Proof. intros Hk. unfold at_ptr. by rewrite !(proj2 (Z.leb_le _ _)) by lia. Qed.

(** From the header on. *)
Lemma recv_body_run hdr rest total w1 w o :
  zlen hdr = 6 -> zlen rest = 254 -> rx_bytes (rx w) -> got w1 6 w ->
  fst (stream (rx w1)) = hdr ++ fst (stream (rx w)) ->
  recv_body MODBUS_TCP_MAX_ADU_LENGTH total (hdr ++ rest, w) = o ->
  let broken code := exists p r, o = Ok ((code, total), (p, set_rx r w1)) /\ zlen p = 260 in
  match cut (fst (stream (rx w1))) with
  | NeedMore => match stream_end (rx w) with
                | Waiting => o = Fail Blocked
                | Quiet => broken RECV_PARTIAL_TIMEOUT
                | Gone => broken (-1)
                end
  | BadLength => broken (-1)
  | Frame f _ => exists w', got w1 (length f) w' /\
      o = Ok ((if is_modbus f then 0 else RECV_PROTOCOL_ID_ERROR, zlen f),
              (f ++ drop (length f) (hdr ++ rest), w'))
  end.
Proof.
  intros Hh Hr Hb Hgot Hs Ho. cbv zeta. unfold recv_body in Ho.
  erewrite bind_ok in Ho by done. cbv beta iota in Ho.
  do 2 (erewrite bind_ok in Ho by (apply lift_ok, load_lookup_total;
    unfold ADU_OFFSET_LEN_HIGH, ADU_OFFSET_LEN_LOW; rewrite length_app; lia)).
  rewrite !lookup_total_app_l in Ho by (unfold ADU_OFFSET_LEN_HIGH, ADU_OFFSET_LEN_LOW; lia).
  unfold MODBUS_TCP_MBAP_HEADER_LEN in Ho. change (MODBUS_TCP_MAX_ADU_LENGTH - 6) with 254 in Ho.
  change (Z.to_nat ADU_OFFSET_LEN_HIGH) with 4%nat in Ho.
  change (Z.to_nat ADU_OFFSET_LEN_LOW) with 5%nat in Ho.
  rewrite Hs. unfold cut. rewrite (length_app hdr). rewrite (proj2 (Z.ltb_ge _ 6)) by lia.
  assert (mbap_remaining (hdr ++ fst (stream (rx w))) = of_be16 (hdr !!! 4%nat) (hdr !!! 5%nat)) as ->
    by (unfold mbap_remaining; rewrite !lookup_total_app_l by lia; done).
  set (len := of_be16 _ _) in *. assert (0 <= len) as Hlen by (subst len; apply of_be16_u16).
  pose proof Hgot as [(_ & _ & Hw) _].
  destruct (Z.eqb_spec len 0) as [H0|H0], (Z.ltb_spec 254 len) as [H254|H254]; cbn [orb] in *;
    try (exists (hdr ++ rest), (rx w); rewrite length_app, <- Hw, <- Ho; split; [done | lia]).
  pose proof (recv_exact_spec len rest w Hb ltac:(lia)) as HR. unfold recv_spec in HR.
  unfold bind at 1 in Ho. rewrite at_ptr_run in Ho by (rewrite length_app; lia).
  change (Z.to_nat 6) with 6%nat in Ho.
  rewrite (drop_app_length' hdr rest 6), (take_app_length' hdr rest 6) in Ho by lia.
  set (bs := fst (stream (rx w))) in *.
  case_decide as Hn; (destruct (Z.ltb_spec (Z.of_nat (length hdr + length bs)) (6 + len)); try lia).
  - destruct HR as (w' & Hgot' & HR). rewrite HR in Ho. exists w'.
    assert (take (Z.to_nat (6 + len)) (hdr ++ bs) = hdr ++ take (Z.to_nat len) bs) as ->.
    { rewrite take_app_ge by lia. do 2 f_equal. lia. }
    rewrite (app_assoc hdr) in Ho. set (f := hdr ++ take (Z.to_nat len) bs) in *.
    assert (length f = 6 + Z.to_nat len)%nat as Hf by (subst f; rewrite length_app, length_take; lia).
    split; [rewrite Hf; by eapply got_trans|]. cbn [Z.eqb negb] in Ho.
    erewrite bind_ok in Ho by done. cbv beta iota in Ho.
    do 2 (erewrite bind_ok in Ho by (apply lift_ok, load_lookup_total;
      unfold ADU_OFFSET_PROTO_HIGH, ADU_OFFSET_PROTO_LOW; rewrite length_app; lia)).
    rewrite !lookup_total_app_l in Ho by (unfold ADU_OFFSET_PROTO_HIGH, ADU_OFFSET_PROTO_LOW; lia).
    rewrite drop_app_ge by lia. replace (length f - length hdr)%nat with (Z.to_nat len) by lia.
    replace (zlen f) with (6 + len) by lia. rewrite <- negb_andb in Ho. unfold is_modbus.
    rewrite <- Ho.
    change (Z.to_nat ADU_OFFSET_PROTO_HIGH) with 2%nat. change (Z.to_nat ADU_OFFSET_PROTO_LOW) with 3%nat.
    by destruct (_ && _).
  - destruct (stream_end (rx w)); [by rewrite HR in Ho|..];
      destruct HR as (p' & r' & HR & Hp'); rewrite HR in Ho; exists (hdr ++ p'), r';
      rewrite <- Ho, Hw, length_app; (split; [done | lia]).
Qed.

Lemma recv_response_run deadline total buf w o :
  zlen buf = 260 -> rx_bytes (rx w) ->
  recv_response MODBUS_TCP_MAX_ADU_LENGTH deadline total (buf, w) = o -> reception deadline total buf w o.
Proof.
  intros Hbuf Hb Ho. unfold reception, recv_response in *.
  unfold bind at 1, on_snd in Ho. rewrite wait_readable_run in Ho.
  destruct (awaited deadline (clock w) (selects w)) as [[[rc clk] sel]|]; [|done].
  set (w1 := after_wait clk sel w) in *. cbv zeta.
  destruct (Z.eqb_spec rc 0) as [->|Hrc]; [|done]. cbn [negb Z.eqb] in Ho.
  unfold MODBUS_TCP_MBAP_HEADER_LEN in Ho.
  assert (rx_bytes (rx w1)) as Hb1 by done.
  pose proof (recv_exact_spec 6 buf w1 Hb1 ltac:(lia)) as HR. unfold recv_spec in HR.
  change (rx w) with (rx w1). change (Z.to_nat 6) with 6%nat in HR.
  case_decide as Hn.
  - destruct HR as (w2 & Hgot & HR). erewrite bind_ok in Ho by exact HR.
    pose proof Hgot as [(Hs & Hb2 & Hw2) He]. rewrite <- He, Hbuf.
    pose proof (take_drop 6 (fst (stream (rx w1)))) as Hd.
    set (hdr := take 6 (fst (stream (rx w1)))) in *.
    assert (zlen hdr = 6) as Hh by (subst hdr; rewrite length_take; lia).
    replace (drop 6 buf) with (drop 6 buf) in Ho by done.
    pose proof (recv_body_run hdr (drop 6 buf) total w1 w2 o Hh
      ltac:(rewrite length_drop; lia) Hb2 Hgot) as Hbody.
    rewrite Hs in Hbody. specialize (Hbody (eq_sym Hd) Ho).
    destruct (cut (fst (stream (rx w1)))) as [| |f rest] eqn:Hcut; [exact Hbody..|].
    destruct Hbody as (w' & Hg & ->). exists w'. split; [done|].
    apply cut_frame in Hcut as [_ [Hr Hl]]. do 3 f_equal.
    rewrite drop_app_ge, drop_drop by lia. do 2 f_equal. lia.
  - unfold cut. rewrite (proj2 (Z.ltb_lt _ _)) by lia.
    destruct (stream_end (rx w1)).
    + by erewrite bind_fail in Ho by exact HR.
    + destruct HR as (p' & r' & HR & Hp'). erewrite bind_ok in Ho by exact HR.
      exists p', r'. by rewrite <- Ho, Hp'.
    + destruct HR as (p' & r' & HR & Hp'). erewrite bind_ok in Ho by exact HR.
      exists p', r'. by rewrite <- Ho, Hp'.
Qed.

(** ** Waiting for the answer *)

(** How a wait for the answer to a request ends. *)
Inductive ending :=
  | Silent                  (** nothing before the deadline, between frames *)
  | Broken                  (** end of the connection, or a bad length field *)
  | MidFrame                (** a timeout inside a frame *)
  | Foreign (f : list Z)    (** a frame of another protocol *)
  | Answer (f : list Z).    (** the frame with the transaction id of the request *)

Definition ending_code (e : ending) : Z :=
  match e with
  | Silent => -2
  | Broken => -1
  | MidFrame => RECV_PARTIAL_TIMEOUT
  | Foreign _ => RECV_PROTOCOL_ID_ERROR
  | Answer _ => 0
  end.

Definition last_frame (e : ending) : list (list Z) :=
  match e with Foreign f | Answer f => [f] | _ => [] end.

(** [receives w stale e w']: waiting in [w] skips the frames [stale] and ends
    with [e] in [w']. *)
Inductive receives (tid deadline : Z) : world -> list (list Z) -> ending -> world -> Prop :=
  | receives_silent w clk sel :
      awaited deadline (clock w) (selects w) = Some (-2, clk, sel) ->
      receives tid deadline w [] Silent (after_wait clk sel w)
  | receives_error w clk sel :
      awaited deadline (clock w) (selects w) = Some (-1, clk, sel) ->
      receives tid deadline w [] Broken (after_wait clk sel w)
  | receives_bad w clk sel r :
      awaited deadline (clock w) (selects w) = Some (0, clk, sel) ->
      cut (fst (stream (rx w))) = BadLength \/
        (cut (fst (stream (rx w))) = NeedMore /\ stream_end (rx w) = Gone) ->
      receives tid deadline w [] Broken (set_rx r (after_wait clk sel w))
  | receives_partial w clk sel r :
      awaited deadline (clock w) (selects w) = Some (0, clk, sel) ->
      cut (fst (stream (rx w))) = NeedMore -> stream_end (rx w) = Quiet ->
      receives tid deadline w [] MidFrame (set_rx r (after_wait clk sel w))
  | receives_foreign w clk sel f rest w' :
      awaited deadline (clock w) (selects w) = Some (0, clk, sel) ->
      cut (fst (stream (rx w))) = Frame f rest -> got (after_wait clk sel w) (length f) w' ->
      is_modbus f = false ->
      receives tid deadline w [] (Foreign f) w'
  | receives_answer w clk sel f rest w' :
      awaited deadline (clock w) (selects w) = Some (0, clk, sel) ->
      cut (fst (stream (rx w))) = Frame f rest -> got (after_wait clk sel w) (length f) w' ->
      is_modbus f = true -> tid_of f = tid ->
      receives tid deadline w [] (Answer f) w'
  | receives_stale w clk sel f rest w1 stale e w' :
      awaited deadline (clock w) (selects w) = Some (0, clk, sel) ->
      cut (fst (stream (rx w))) = Frame f rest -> got (after_wait clk sel w) (length f) w1 ->
      is_modbus f = true -> tid_of f <> tid ->
      receives tid deadline w1 stale e w' ->
      receives tid deadline w (f :: stale) e w'.

(** What the loop returns. *)
Definition loop_result (tid deadline : Z) (seen : bool) (w : world)
    (o : outcome ((Z * bool * Z) * (list Z * world))) : Prop :=
  match o with
  | Fail e => e = Blocked
  | Ok ((rc, seen', total), (buf', w')) =>
      exists stale e, receives tid deadline w stale e w' /\ rc = ending_code e /\
        seen' = seen || negb (bool_decide (stale = [])) /\ zlen buf' = 260 /\
        forall f, e = Answer f -> total = zlen f /\ f `prefix_of` buf'
  end.

Lemma response_loop_run fuel tid deadline seen total buf w :
  zlen buf = 260 -> rx_bytes (rx w) -> (length (clock w) < fuel)%nat ->
  loop_result tid deadline seen w (response_loop fuel tid deadline seen total (buf, w)).
Proof.
  revert seen total buf w. induction fuel as [|fuel IH]; intros seen total buf w Hbuf Hb Hf; [lia|].
  cbn [response_loop]. unfold bind at 1.
  destruct (recv_response MODBUS_TCP_MAX_ADU_LENGTH deadline total (buf, w)) as [[[rc total'] [p w2]]|] eqn:Hrun.
  2:{ apply recv_response_run in Hrun; [|done..]. unfold reception in Hrun. cbn.
      repeat case_match; first [congruence | destruct Hrun as (? & ? & ? & ?); congruence
        | destruct Hrun as (? & ? & ?); congruence]. }
  apply recv_response_run in Hrun; [|done..]. unfold reception in Hrun.
  destruct (awaited deadline (clock w) (selects w)) as [[[v clk] sel]|] eqn:Haw; [|done].
  pose proof (awaited_code _ _ _ _ _ _ Haw) as [Hcode Hclk]. cbv zeta in Hrun.
  assert (forall e, rc = ending_code e -> (forall f, e <> Answer f) -> rc <> 0 ->
    receives tid deadline w [] e w2 -> zlen p = 260 ->
    loop_result tid deadline seen w
      ((if negb (rc =? 0) then ret (rc, seen, total') else
        let! '(resp, _) := get in
        let! tid_high := lift (load resp ADU_OFFSET_TID_HIGH) in
        let! tid_low := lift (load resp ADU_OFFSET_TID_LOW) in
        if of_be16 tid_high tid_low =? tid then ret (rc, seen, total')
        else response_loop fuel tid deadline true total') (p, w2))) as Hstop.
  { intros e He Hna Hrc Hrec Hp. rewrite (proj2 (Z.eqb_neq _ _)) by done. cbn.
    exists [], e. split; [done|]. split; [done|]. split; [by rewrite bool_decide_true, orb_false_r by done|].
    split; [done|]. intros f ->. by destruct (Hna f). }
  destruct (Z.eqb_spec v 0) as [->|Hv].
  2:{ simplify_eq. destruct Hcode as [|[->| ->]]; [done|..].
      - apply (Hstop Broken); try done. by apply receives_error.
      - apply (Hstop Silent); try done. by apply receives_silent. }
  destruct (cut (fst (stream (rx w)))) as [| |f rest] eqn:Hcut.
  - destruct (stream_end (rx w)) eqn:Hend; [done|..]; destruct Hrun as (p' & r & Heq & Hp); simplify_eq.
    + apply (Hstop MidFrame); try done; [|congruence]. by apply receives_partial.
    + apply (Hstop Broken); try done; [|congruence]. apply receives_bad; auto.
  - destruct Hrun as (p' & r & Heq & Hp); simplify_eq.
    apply (Hstop Broken); try done; [|congruence]. apply receives_bad; auto.
  - destruct Hrun as (w' & Hgot & Heq). simplify_eq.
    pose proof (cut_frame _ _ _ Hcut) as [_ [Hm Hl]].
    assert (zlen (f ++ drop (length f) buf) = 260) as Hp by (rewrite length_app, length_drop; lia).
    destruct (is_modbus f) eqn:Hmod.
    2:{ apply (Hstop (Foreign f)); try done. by eapply receives_foreign. }
    cbn [Z.eqb negb]. erewrite bind_ok by done. cbv beta iota.
    do 2 (erewrite bind_ok by (apply lift_ok, load_lookup_total;
      unfold ADU_OFFSET_TID_HIGH, ADU_OFFSET_TID_LOW; lia)).
    rewrite !lookup_total_app_l by (unfold ADU_OFFSET_TID_HIGH, ADU_OFFSET_TID_LOW; lia).
    change (of_be16 _ _) with (tid_of f).
    destruct (Z.eqb_spec (tid_of f) tid) as [Ht|Ht].
    + exists [], (Answer f). split; [by eapply receives_answer|]. split; [done|].
      split; [by rewrite bool_decide_true, orb_false_r by done|]. split; [done|].
      intros ? [= <-]. split; [done | by apply prefix_app_r].
    + destruct Hgot as [(Hs & Hb2 & Hw2) He].
      assert (length (clock w') < fuel)%nat as Hf2 by (rewrite Hw2; simpl; lia).
      pose proof (IH true (zlen f) _ w' Hp Hb2 Hf2) as HIH. unfold loop_result in *.
      destruct (response_loop _ _ _ _ _ _) as [[[[rc s] t] [q w3]]|]; [|done].
      destruct HIH as (stale & e & Hrec & -> & -> & Hq & Hans).
      exists (f :: stale), e. split; [eapply receives_stale; try done; by split|].
      split; [done|]. split; [by rewrite (bool_decide_false (f :: stale = [])), orb_true_r by done|]. done.
Qed.

(** ** Transactions *)

(** The two passes over the request buffer write one frame. *)
Lemma request_header_run pdu j buf :
  zlen buf = 260 -> zlen pdu <= 253 ->
  exists p1,
    (store ADU_OFFSET_PROTO_HIGH 0x00 ;;;
     store ADU_OFFSET_PROTO_LOW 0x00 ;;;
     store ADU_OFFSET_LEN_HIGH (u8 (Z.shiftr (u16 (1 + zlen pdu)) 8)) ;;;
     store ADU_OFFSET_LEN_LOW (u8 (Z.land (u16 (1 + zlen pdu)) 0xFF)) ;;;
     at_off ADU_OFFSET_PDU (memcpy (pdu ++ j) (zlen pdu))) buf = Ok (tt, p1) /\
    forall t unit,
      (store ADU_OFFSET_TID_HIGH (u8 (Z.shiftr t 8)) ;;;
       store ADU_OFFSET_TID_LOW (u8 (Z.land t 0xFF)) ;;;
       store ADU_OFFSET_UNIT_ID unit) p1
      = Ok (tt, mbap t unit pdu ++ drop (7 + length pdu) buf).
Proof.
  intros Hb Hp. unfold ADU_OFFSET_PROTO_HIGH, ADU_OFFSET_PROTO_LOW, ADU_OFFSET_LEN_HIGH,
    ADU_OFFSET_LEN_LOW, ADU_OFFSET_PDU, ADU_OFFSET_TID_HIGH, ADU_OFFSET_TID_LOW, ADU_OFFSET_UNIT_ID.
  destruct buf as [|b0 [|b1 [|b2 [|b3 [|b4 [|b5 [|b6 buf]]]]]]]; try (cbn [length] in Hb; lia).
  eexists. split.
  - run_stores. apply at_off_ok; [zlength|]. change (Z.to_nat 7) with 7%nat. cbn [drop].
    rewrite drop_0. apply memcpy_ok; [rewrite length_app; lia | cbn [length] in *; lia].
  - intros t unit. rewrite Nat2Z.id, take_app_length. change (Z.to_nat 7) with 7%nat. cbn [take app].
    run_stores. rewrite store_ok by zlength. change (Z.to_nat 6) with 6%nat.
    cbn [insert list_insert Nat.add drop]. unfold mbap. rewrite u16_small by (unfold is_u16; lia).
    rewrite (Z.add_comm 1). done.
Qed.

(** What a client learns from a wait. *)
Definition client_code (r : request) (stale : list (list Z)) (e : ending) : Z :=
  match e with
  | Silent => if decide (stale = []) then MB_TCP_CLIENT_ERR_TIMEOUT else MB_TCP_CLIENT_ERR_TID
  | Broken => MB_TCP_CLIENT_ERR_TRANSPORT
  | MidFrame => MB_TCP_CLIENT_ERR_TIMEOUT
  | Foreign _ => MB_TCP_CLIENT_ERR_FRAME
  | Answer f =>
      if zlen f <=? 7 then MB_TCP_CLIENT_ERR_FRAME
      else if verdict r (drop 7 f) =? MB_PDU_ERR_FRAME then MB_TCP_CLIENT_ERR_FRAME
      else verdict r (drop 7 f)
  end.

(** The endings after which the stream cannot be trusted. *)
Definition breaks (e : ending) : bool :=
  match e with Broken | MidFrame => true | _ => false end.

Definition hang_up (b : bool) (w : world) : world := if b then log Closed w else w.

Definition request_frame (c : mb_tcp_client_ctx) (r : request) : list Z :=
  mbap (next_transaction_id (cli_tid c)) (cli_unit_id (cli_cfg c)) (encode_request r).

(** One transaction of a connected client. *)
Inductive transaction (r : request) (w : world) (c : mb_tcp_client_ctx)
    : Z -> list Z -> world -> mb_tcp_client_ctx -> Prop :=
  | transaction_unsent resp part w1 :
      wrote w part w1 -> part `prefix_of` request_frame c r ->
      transaction r w c MB_TCP_CLIENT_ERR_TRANSPORT resp (log Closed w1)
        (set_sock (-1) (set_cli_tid (next_transaction_id (cli_tid c)) c))
  | transaction_ends resp w1 t clk stale e w2 :
      wrote w (request_frame c r) w1 -> clock w = t :: clk ->
      receives (next_transaction_id (cli_tid c))
        (u64 (time_ms t + effective_response_timeout_ms c)) (set_clock clk w1) stale e w2 ->
      (forall f, e = Answer f -> f `prefix_of` resp) ->
      transaction r w c (client_code r stale e) resp (hang_up (breaks e) w2)
        (set_sock (if breaks e then -1 else cli_sock c)
           (set_cli_tid (next_transaction_id (cli_tid c)) c)).

Lemma close_sock_run w c : 0 <= cli_sock c -> close_sock (w, c) = Ok (tt, (log Closed w, set_sock (-1) c)).
Proof.
  intros Hs. unfold close_sock. erewrite bind_ok by done. cbv beta iota. unfold mb_tcp_close.
  rewrite (proj2 (Z.leb_le _ _)) by done. by erewrite bind_ok by (by apply on_fst_ok).
Qed.

(** The end of [transact], once the wait is over. *)
Lemma finish_run r j stale e total resp w c :
  sendable r -> zlen resp = 260 -> 0 <= cli_sock c ->
  (forall f, e = Answer f -> total = zlen f /\ f `prefix_of` resp) ->
  conclude (encode_request r ++ j) resp (ending_code e) (negb (bool_decide (stale = []))) total (w, c)
  = Ok ((client_code r stale e, resp),
        (hang_up (breaks e) w, set_sock (if breaks e then -1 else cli_sock c) c)).
Proof.
  intros Hr Hresp Hs Ha. unfold conclude.
  assert (set_sock (cli_sock c) c = c) as Hc by (by destruct c).
  destruct e as [| | |f|f]; cbn.
  - unfold ret, bind. rewrite Hc. by case_decide; case_bool_decide.
  - unfold bind. by rewrite close_sock_run.
  - unfold bind. by rewrite close_sock_run.
  - unfold ret, bind. by rewrite Hc.
  - destruct (Ha f eq_refl) as [-> [tl Htl]].
    unfold ADU_OFFSET_PDU. destruct (Z.leb_spec (zlen f) 7); [unfold ret; by rewrite Hc|].
    unfold padd. change (Z.to_nat 7) with 7%nat. rewrite Htl at 1. rewrite drop_app_le by lia.
    replace (zlen f - 7) with (zlen (drop 7 f)) by (rewrite length_drop; lia).
    erewrite bind_ok by (apply lift_ok; by apply check_response_run).
    rewrite Hc. unfold ret. by destruct (_ =? _).
Qed.

(** Waiting and finishing, from the moment the request is sent. *)
Lemma await_run r j resp w1 c t clk :
  sendable r -> zlen resp = 260 -> rx_bytes (rx w1) -> 0 <= cli_sock c -> clock w1 = t :: clk ->
  let tid := next_transaction_id (cli_tid c) in
  let c1 := set_cli_tid tid c in
  let deadline := u64 (time_ms t + effective_response_timeout_ms c) in
  match take_response (encode_request r ++ j) resp tid deadline (set_clock clk w1, c1)
  with
  | Fail e => e = Blocked
  | Ok ((rc, resp'), (w', c')) => zlen resp' = 260 /\ exists stale e w2,
      receives tid deadline (set_clock clk w1) stale e w2 /\
      (forall f, e = Answer f -> f `prefix_of` resp') /\
      rc = client_code r stale e /\ w' = hang_up (breaks e) w2 /\
      c' = set_sock (if breaks e then -1 else cli_sock c) c1
  end.
Proof.
  intros Hr Hresp Hb Hs Hclk. cbv zeta. set (c1 := set_cli_tid _ c).
  set (tid := next_transaction_id _). set (deadline := u64 _). unfold take_response, await_response.
  unfold bind at 1, with_buf. cbn [snd].
  pose proof (response_loop_run (S (length (clock (set_clock clk w1)))) tid deadline false 0 resp
    (set_clock clk w1) Hresp Hb ltac:(lia)) as Hloop. unfold loop_result in Hloop.
  destruct (response_loop _ _ _ _ _ _) as [[[[rc seen] total] [resp' w2]]|]; [|done].
  destruct Hloop as (stale & e & Hrec & -> & -> & Hlen & Ha). cbn [orb].
  pose proof (finish_run r j stale e total resp' w2 c1 Hr Hlen Hs Ha) as Hfin.
  rewrite Hfin. split; [done|]. exists stale, e, w2. split; [done|]. split; [|done].
  intros f Hf. by apply Ha.
Qed.

(** Sending, and what follows. *)
Lemma transact_split r j resp w c :
  sendable r -> cli_initialized c <> 0 -> 0 <= cli_sock c ->
  let tid := next_transaction_id (cli_tid c) in
  let c1 := set_cli_tid tid c in
  let o := transact (encode_request r ++ j) (zlen (encode_request r)) resp (w, c) in
  match accepts on_signal (tx w) (zlen (request_frame c r)) with
  | Some true => exists w1, wrote w (request_frame c r) w1 /\
      tx w1 = leftover on_signal (tx w) (zlen (request_frame c r)) /\
      o = match clock w with
          | [] => Fail Blocked
          | t :: clk => take_response (encode_request r ++ j) resp tid
                          (u64 (time_ms t + effective_response_timeout_ms c)) (set_clock clk w1, c1)
          end
  | Some false => exists w1 part, wrote w part w1 /\ part `prefix_of` request_frame c r /\
      o = Ok ((MB_TCP_CLIENT_ERR_TRANSPORT, resp), (log Closed w1, set_sock (-1) c1))
  | None => o = Fail Blocked
  end.
Proof.
  intros Hr Hi Hs tid c1 o. pose proof (eq_refl o) as Ho. unfold o at 1 in Ho. clearbody o.
  unfold transact in Ho. pose proof (encode_request_bound r Hr) as Hlen.
  erewrite bind_ok in Ho by (apply lift_ok, load_lookup_total; rewrite length_app; lia).
  erewrite bind_ok in Ho by done. cbv beta iota zeta in Ho.
  rewrite (proj2 (Z.eqb_neq _ _)), (proj2 (Z.ltb_ge _ _)) in Ho by done.
  destruct (request_header_run (encode_request r) j (auto_u8 MODBUS_TCP_MAX_ADU_LENGTH))
    as (p1 & Hp1 & Hp2); [by rewrite auto_u8_length | lia |].
  erewrite bind_ok in Ho by (apply lift_ok, Hp1). cbv beta iota in Ho.
  erewrite bind_ok in Ho by (unfold on_snd, next_tid; done). cbv beta in Ho.
  erewrite bind_ok in Ho by apply lift_ok, Hp2. cbv beta iota in Ho.
  change (mbap _ _ (encode_request r)) with (request_frame c r) in Ho. set (more := drop _ _) in Ho.
  assert (zlen (request_frame c r) = ADU_OFFSET_PDU + zlen (encode_request r)) as Hreq
    by (unfold request_frame; rewrite mbap_length; unfold ADU_OFFSET_PDU; lia).
  pose proof (send_all_run (request_frame c r) more w) as Hsend. unfold send_result in Hsend.
  rewrite <- Hreq in Ho. unfold bind at 1, on_fst in Ho.
  destruct (accepts on_signal (tx w) (zlen (request_frame c r))) as [[]|].
  - destruct Hsend as (w1 & Hsend & Hw & Htx). exists w1. split; [done|]. split; [done|].
    rewrite Hsend in Ho. cbn [Z.eqb negb] in Ho.
    assert (clock w1 = clock w) as Hc1 by (destruct Hw as (? & ? & _ & _ & ->); done).
    unfold bind at 1 in Ho. rewrite monotonic_ms_run, Hc1 in Ho. rewrite <- Ho. by destruct (clock w).
  - destruct Hsend as (w1 & part & Hsend & Hw & Hp). exists w1, part. split; [done|]. split; [done|].
    rewrite Hsend in Ho. cbn [Z.eqb negb] in Ho.
    erewrite bind_ok in Ho by (by apply close_sock_run). by rewrite <- Ho.
  - by rewrite Hsend in Ho.
Qed.

Lemma transact_run r j resp w c :
  sendable r -> zlen resp = 260 -> rx_bytes (rx w) -> cli_initialized c <> 0 -> 0 <= cli_sock c ->
  match transact (encode_request r ++ j) (zlen (encode_request r)) resp (w, c) with
  | Fail e => e = Blocked
  | Ok ((rc, resp'), (w', c')) => transaction r w c rc resp' w' c' /\ zlen resp' = 260
  end.
Proof.
  intros Hr Hresp Hb Hi Hs. pose proof (transact_split r j resp w c Hr Hi Hs) as Hsplit. cbv zeta in Hsplit.
  destruct (accepts _ _ _) as [[]|].
  - destruct Hsplit as (w1 & Hw & _ & ->). destruct (clock w) as [|t clk] eqn:Hclk; [done|].
    assert (clock w1 = clock w /\ rx w1 = rx w) as [Hc1 Hrx1]
      by (destruct Hw as (? & ? & _ & _ & ->); done).
    assert (rx_bytes (rx w1)) as Hb1 by (by rewrite Hrx1). rewrite Hclk in Hc1.
    pose proof (await_run r j resp w1 c t clk Hr Hresp Hb1 Hs Hc1) as Haw. cbv zeta in Haw.
    destruct (take_response _ _ _ _ _) as [[[rc resp'] [w' c']]|]; [|exact Haw].
    destruct Haw as (Hl & stale & e & w2 & Hrec & Ha & -> & -> & ->). split; [|done].
    by eapply transaction_ends.
  - destruct Hsplit as (w1 & part & Hw & Hp & ->). split; [|done]. by eapply transaction_unsent.
  - by rewrite Hsplit.
Qed.
End Client.
