(* ===== verification/TcpClientCalls.v ===== *)
(** * The public calls of the TCP client

    [call r] is the function an application calls for the request [r];
    [call_run] says that it runs one transaction and, when that succeeds,
    stores the data of the response in the caller's array. *)

From S2P Require Import Prelude Buffer Defines Bits Pdu PduSpec PduClient PduReplies Ptr Tcp TcpFrames Sys TcpServer TcpServerSpec TcpClient TcpClientSpec.

Section Client.
Context {I : Indet}.

(** The public function for each request.  A coil is any nonzero cell. *)
Definition call (r : request) (out : option (list Z))
    : st (world * option mb_tcp_client_ctx) (Z * option (list Z)) :=
  match r with
  | ReadBits fc addr qty =>
      if fc =? MODBUS_FUNC_READ_COILS then mb_tcp_client_read_coils addr qty out
      else mb_tcp_client_read_discrete_inputs addr qty out
  | ReadRegisters fc addr qty =>
      if fc =? MODBUS_FUNC_READ_HOLDING_REGISTERS then mb_tcp_client_read_holding_registers addr qty out
      else mb_tcp_client_read_input_registers addr qty out
  | WriteCoil addr on => let! rc := mb_tcp_client_write_single_coil addr (Z.b2z on) in ret (rc, out)
  | WriteRegister addr value =>
      let! rc := mb_tcp_client_write_single_register addr value in ret (rc, out)
  | WriteCoils addr bits =>
      let! rc := mb_tcp_client_write_multiple_coils addr (zlen bits) (Some (map Z.b2z bits)) in
      ret (rc, out)
  | WriteRegisters addr values =>
      let! rc := mb_tcp_client_write_multiple_registers addr (zlen values) (Some values) in
      ret (rc, out)
  end.

(** Every call is: build the PDU, run the transaction, store the data. *)
Definition perform (r : request) (out : list Z) (w : world) (c : mb_tcp_client_ctx)
    : outcome ((Z * option (list Z)) * (world * option mb_tcp_client_ctx)) :=
  let pdu := encode_request r in
  match transact (pdu ++ drop (length pdu) (auto_u8 MODBUS_MAX_PDU_LENGTH)) (zlen pdu)
          (auto_u8 MODBUS_TCP_MAX_ADU_LENGTH) (w, c) with
  | Fail e => Fail e
  | Ok ((rc, resp), (w', c')) =>
      if rc =? 0 then
        match r with
        | ReadRegisters _ _ qty =>
            match mb_pdu_get_registers (drop 7 resp) qty out with
            | Ok (_, o) => Ok ((rc, Some o), (w', Some c'))
            | Fail e => Fail e
            end
        | ReadBits _ _ qty =>
            match mb_pdu_get_bits (drop 7 resp) qty out with
            | Ok (_, o) => Ok ((rc, Some o), (w', Some c'))
            | Fail e => Fail e
            end
        | _ => Ok ((rc, Some out), (w', Some c'))
        end
      else Ok ((rc, Some out), (w', Some c'))
  end.

Lemma read_registers_perform fc addr qty out w c :
  1 <= qty <= MODBUS_MAX_READ_REGISTERS ->
  read_registers fc addr qty (Some out) (w, Some c) = perform (ReadRegisters fc addr qty) out w c.
Proof.
  unfold_defs. intros Hq. unfold read_registers, perform. erewrite bind_ok by done. cbv beta iota.
  cbn [is_null orb]. unfold_defs. zbool.
  pose proof (build_read_run fc addr qty (auto_u8 253) ltac:(rewrite auto_u8_length; lia)) as Hb.
  erewrite bind_ok by apply lift_ok, Hb. cbv beta iota zeta.
  unfold bind at 1, on_ctx. cbn [encode_request].
  destruct (transact _ _ _ _) as [[[rc resp] [w' c']]|]; [|done].
  unfold MB_TCP_CLIENT_OK. destruct (rc =? 0); [|done].
  unfold bind, lift, deref, padd, ADU_OFFSET_PDU. change (Z.to_nat 7) with 7%nat.
  by destruct (mb_pdu_get_registers _ _ _) as [[[] o]|].
Qed.

Lemma read_bits_perform fc addr qty out w c :
  1 <= qty <= MODBUS_MAX_READ_BITS ->
  read_bits fc addr qty (Some out) (w, Some c) = perform (ReadBits fc addr qty) out w c.
Proof.
  unfold_defs. intros Hq. unfold read_bits, perform. erewrite bind_ok by done. cbv beta iota.
  cbn [is_null orb]. unfold_defs. zbool.
  pose proof (build_read_run fc addr qty (auto_u8 253) ltac:(rewrite auto_u8_length; lia)) as Hb.
  erewrite bind_ok by apply lift_ok, Hb. cbv beta iota zeta.
  unfold bind at 1, on_ctx. cbn [encode_request].
  destruct (transact _ _ _ _) as [[[rc resp] [w' c']]|]; [|done].
  unfold MB_TCP_CLIENT_OK. destruct (rc =? 0); [|done].
  unfold bind, lift, deref, padd, ADU_OFFSET_PDU. change (Z.to_nat 7) with 7%nat.
  by destruct (mb_pdu_get_bits _ _ _) as [[[] o]|].
Qed.

Lemma transact_write_perform r built out w c :
  is_read r = false ->
  built = (let pdu := encode_request r in
           Ok (zlen pdu, pdu ++ drop (length pdu) (auto_u8 MODBUS_MAX_PDU_LENGTH))) ->
  (let! rc := transact_write built in ret (rc, Some out)) (w, Some c) = perform r out w c.
Proof.
  intros Hr ->. unfold transact_write, perform, bind, lift, on_ctx. cbv zeta.
  destruct (transact _ _ _ _) as [[[rc resp] [w' c']]|]; [|done].
  destruct r; try done; unfold ret; by destruct (rc =? 0).
Qed.

Lemma call_perform r out w c :
  sendable r -> call r (Some out) (w, Some c) = perform r out w c.
Proof.
  intros Hr. pose proof (auto_u8_length MODBUS_MAX_PDU_LENGTH) as Hl.
  change (Z.to_nat MODBUS_MAX_PDU_LENGTH) with 253%nat in Hl.
  pose proof (auto_u8_length 253) as Hl'. change (Z.to_nat 253) with 253%nat in Hl'.
  destruct r; cbn [call sendable] in *.
  - destruct Hr as ([-> | ->] & _ & Hq); by apply read_bits_perform.
  - destruct Hr as ([-> | ->] & _ & Hq); by apply read_registers_perform.
  - apply transact_write_perform; [done|]. unfold mb_pdu_build_write_single.
    rewrite build_read_run by lia. by destruct on.
  - apply transact_write_perform; [done|]. unfold mb_pdu_build_write_single.
    by rewrite build_read_run by lia.
  - destruct Hr as [Ha Hq]. unfold mb_tcp_client_write_multiple_coils. unfold_defs.
    rewrite <- (transact_write_perform (WriteCoils addr bits)
      (mb_pdu_build_write_coils addr (zlen bits) (map Z.b2z bits ++ []) (auto_u8 253))); [|done|].
    + unfold bind, get, lift. cbn [is_null orb fun_ptr]. zbool. by rewrite app_nil_r.
    + unfold_defs. apply build_write_coils_run; [lia | | lia]. rewrite map_map. rewrite <- (map_id bits) at 2.
      apply map_ext. by intros [].
  - destruct Hr as (Ha & Hw & Hq). unfold mb_tcp_client_write_multiple_registers. unfold_defs.
    rewrite <- (transact_write_perform (WriteRegisters addr values)
      (mb_pdu_build_write_registers addr (zlen values) (values ++ []) (auto_u8 253))); [|done|].
    + unfold bind, get, lift. cbn [is_null orb fun_ptr]. zbool. by rewrite app_nil_r.
    + unfold_defs. apply build_write_registers_run; [zint | lia].
Qed.

(** ** What a call does *)

Lemma transaction_ok r w c resp w' c' :
  transaction r w c 0 resp w' c' -> exists f more, resp = f ++ more /\ 7 < zlen f /\
    normal_reply r (drop 7 f) = true.
Proof.
  intros Ht. inversion Ht as [|? ? ? ? stale e w2 _ _ _ Hf Hrc]; subst.
  destruct e as [| | |f|f]; cbn [client_code] in Hrc; try (by (case_decide || idtac)).
  destruct (Hf f eq_refl) as [more ->]. exists f, more. split; [done|].
  destruct (Z.leb_spec (zlen f) 7); [done|]. split; [done|]. apply verdict_ok.
  by destruct (_ =? MB_PDU_ERR_FRAME).
Qed.

Lemma perform_run r out w c rc resp w' c' reply more :
  sendable r -> room r out ->
  transact (encode_request r ++ drop (length (encode_request r)) (auto_u8 MODBUS_MAX_PDU_LENGTH))
    (zlen (encode_request r)) (auto_u8 MODBUS_TCP_MAX_ADU_LENGTH) (w, c) = Ok ((rc, resp), (w', c')) ->
  (rc = 0 -> drop 7 resp = reply ++ more /\ normal_reply r reply = true) ->
  perform r out w c = Ok ((rc, Some (if rc =? 0 then stored r (drop 7 resp) out else out)), (w', Some c')).
Proof.
  intros Hr Hout Ht Hok. unfold perform. cbv zeta. rewrite Ht.
  destruct (Z.eqb_spec rc 0) as [->|]; [|done]. destruct (Hok eq_refl) as [Hd Hn].
  destruct (is_read r) eqn:Hread; [|by destruct r].
  unfold room in Hout. rewrite Hd, stored_app by done.
  destruct r as [fc addr qty|fc addr qty| | | |]; try done; cbn [cells] in Hout;
    destruct Hr as (Hfc & Ha & Hq); unfold_defs.
  - by erewrite get_bits_reply by (done || zint).
  - by erewrite get_registers_reply by (done || lia).
Qed.

Lemma perform_ok r out w c rc resp w' c' :
  sendable r -> room r out ->
  transact (encode_request r ++ drop (length (encode_request r)) (auto_u8 MODBUS_MAX_PDU_LENGTH))
    (zlen (encode_request r)) (auto_u8 MODBUS_TCP_MAX_ADU_LENGTH) (w, c) = Ok ((rc, resp), (w', c')) ->
  transaction r w c rc resp w' c' ->
  perform r out w c = Ok ((rc, Some (if rc =? 0 then stored r (drop 7 resp) out else out)), (w', Some c')).
Proof.
  intros Hr Hout Ht Htr.
  assert (exists reply more, rc = 0 -> drop 7 resp = reply ++ more /\ normal_reply r reply = true)
    as (reply & more & Hok).
  { destruct (decide (rc = 0)) as [->|]; [|by exists [], []].
    destruct (transaction_ok _ _ _ _ _ _ Htr) as (f & more & -> & Hf & Hn).
    exists (drop 7 f), more. by rewrite drop_app_le by lia. }
  by apply (perform_run r out w c rc resp w' c' reply more).
Qed.

(** One transaction; on success, and only then, the data is stored. *)
Lemma call_run r out w c :
  sendable r -> room r out -> rx_bytes (rx w) -> cli_initialized c <> 0 -> 0 <= cli_sock c ->
  match call r (Some out) (w, Some c) with
  | Fail e => e = Blocked
  | Ok ((rc, out'), (w', ctx')) => exists resp c', ctx' = Some c' /\ transaction r w c rc resp w' c' /\
      out' = Some (if rc =? 0 then stored r (drop 7 resp) out else out)
  end.
Proof.
  intros Hr Hout Hb Hi Hs. rewrite call_perform by done.
  pose proof (transact_run r (drop (length (encode_request r)) (auto_u8 MODBUS_MAX_PDU_LENGTH))
    (auto_u8 MODBUS_TCP_MAX_ADU_LENGTH) w c Hr ltac:(by rewrite auto_u8_length) Hb Hi Hs) as Hrun.
  destruct (transact _ _ _ _) as [[[rc resp] [w' c']]|e] eqn:Ht; [|unfold perform; cbv zeta; by rewrite Ht].
  destruct Hrun as [Htr _]. rewrite (perform_ok r out w c rc resp w' c' Hr Hout Ht Htr). by exists resp, c'.
Qed.

(** A context without a connection. *)
Definition disconnected (c : mb_tcp_client_ctx) : Prop := cli_initialized c = 0 \/ cli_sock c < 0.

Lemma transact_disconnected r j resp w c :
  sendable r -> disconnected c ->
  transact (encode_request r ++ j) (zlen (encode_request r)) resp (w, c)
  = Ok ((MB_TCP_CLIENT_ERR_NOT_CONNECTED, resp), (w, c)).
Proof.
  intros Hr Hd. unfold transact. pose proof (encode_request_bound r Hr) as Hlen.
  erewrite bind_ok by (apply lift_ok, load_lookup_total; rewrite length_app; lia).
  erewrite bind_ok by done. cbv beta iota zeta.
  destruct (Z.eqb_spec (cli_initialized c) 0); [done|]. destruct Hd as [|Hd]; [done|].
  destruct (request_header_run (encode_request r) j (auto_u8 MODBUS_TCP_MAX_ADU_LENGTH))
    as (p1 & Hp1 & _); [by rewrite auto_u8_length | lia |].
  erewrite bind_ok by (apply lift_ok, Hp1). cbv beta iota.
  by rewrite (proj2 (Z.ltb_lt _ _)).
Qed.

Lemma call_disconnected r out w c :
  sendable r -> disconnected c ->
  call r (Some out) (w, Some c) = Ok ((MB_TCP_CLIENT_ERR_NOT_CONNECTED, Some out), (w, Some c)).
Proof.
  intros Hr Hd. rewrite call_perform by done. unfold perform. cbv zeta.
  by rewrite transact_disconnected.
Qed.
End Client.
