(* ===== verification/TcpClientAnswers.v ===== *)
(** * The TCP client gets its answer

    When the socket becomes readable before the deadline and the stream holds
    late replies followed by the answer, the transaction returns the verdict on
    that answer.  With the server's side this gives the end-to-end theorem. *)

From S2P Require Import Prelude Buffer Defines Bits Pdu PduSpec PduClient PduReplies Ptr Tcp TcpFrames Sys TcpServer TcpServerSpec TcpClient TcpClientSpec TcpClientCalls.

(** A whole reply to an earlier request. *)
Definition late (tid : Z) (f : list Z) : Prop :=
  complete f /\ is_modbus f = true /\ tid_of f <> tid.

Lemma mbap_complete t unit pdu :
  zlen pdu <= 253 -> complete (mbap t unit pdu).
Proof.
  intros Hp. unfold complete. rewrite mbap_length.
  assert (mbap_remaining (mbap t unit pdu) = zlen pdu + 1) as ->; [|lia].
  unfold mbap, mbap_remaining, be16. cbn [app lookup_total list_lookup_total].
  apply of_be16_be16. zint.
Qed.

Lemma mbap_modbus t unit pdu : is_modbus (mbap t unit pdu) = true.
Proof. done. Qed.

Lemma mbap_tid t unit pdu : is_u16 t -> tid_of (mbap t unit pdu) = t.
Proof. intros Ht. by apply of_be16_be16. Qed.

Section Client.
Context {I : Indet}.

(** The clock is before the deadline and the socket ready, [n] times. *)
Definition prompt (deadline : Z) (n : nat) (clk : list (option (Z * Z))) (sel : list poll_event)
    (clk' : list (option (Z * Z))) (sel' : list poll_event) : Prop :=
  exists ts, length ts = n /\ Forall (fun t => time_ms t < deadline) ts /\
    clk = ts ++ clk' /\ sel = replicate n Ready ++ sel'.

Lemma prompt_awaited deadline n clk sel clk' sel' :
  prompt deadline (S n) clk sel clk' sel' ->
  exists clk1 sel1, awaited deadline clk sel = Some (0, clk1, sel1) /\
    prompt deadline n clk1 sel1 clk' sel'.
Proof.
  intros ([|t ts] & Hn & Ht & -> & ->); [done|]. apply Forall_cons_iff in Ht as [Ht Hts].
  simpl in Hn. exists (ts ++ clk'), (replicate n Ready ++ sel'). split; [|exists ts; naive_solver].
  cbn [awaited app replicate]. by rewrite (proj2 (Z.leb_gt _ _)).
Qed.

(** One frame arrives. *)
Lemma reception_frame deadline total buf w f rest closed clk sel o :
  awaited deadline (clock w) (selects w) = Some (0, clk, sel) ->
  stream (rx w) = (f ++ rest, closed) -> complete f -> is_modbus f = true ->
  reception deadline total buf w o ->
  exists w', got (after_wait clk sel w) (length f) w' /\
    o = Ok ((0, zlen f), (f ++ drop (length f) buf, w')) /\ stream (rx w') = (rest, closed) /\
    w' = set_rx (rx w') (after_wait clk sel w).
Proof.
  intros Haw Hs Hf Hm. unfold reception. rewrite Haw, Hs. cbn [Z.eqb fst]. rewrite cut_complete by done.
  intros (w' & Hg & ->). rewrite Hm. exists w'. split; [done|]. split; [done|].
  destruct Hg as [(Hs' & _ & Hw) _]. split; [|done].
  cbn [after_wait set_selects set_clock rx] in Hs'. rewrite Hs in Hs'. cbn [fst snd] in Hs'.
  by rewrite drop_app_length in Hs'.
Qed.

Lemma response_loop_answers fuel tid deadline seen total buf w stale f more closed clk' sel' :
  zlen buf = 260 -> rx_bytes (rx w) -> (length stale < fuel)%nat ->
  stream (rx w) = (concat stale ++ f ++ more, closed) -> Forall (late tid) stale ->
  complete f -> is_modbus f = true -> tid_of f = tid ->
  prompt deadline (S (length stale)) (clock w) (selects w) clk' sel' ->
  exists seen' w' tl, response_loop fuel tid deadline seen total (buf, w)
      = Ok ((0, seen', zlen f), (f ++ tl, w')) /\ zlen (f ++ tl) = 260 /\
    stream (rx w') = (more, closed) /\ rx_bytes (rx w') /\ w' = set_rx (rx w') (after_wait clk' sel' w).
Proof.
  intros Hbuf Hb Hfuel Hs Hst Hf Hm Ht Hp. revert seen total buf w stale Hbuf Hb Hfuel Hs Hst Hp.
  induction fuel as [|fuel IH]; intros seen total buf w stale Hbuf Hb Hfuel Hs Hst Hp; [lia|].
  apply prompt_awaited in Hp as (clk1 & sel1 & Haw & Hp).
  cbn [response_loop]. unfold bind at 1.
  destruct (recv_response MODBUS_TCP_MAX_ADU_LENGTH deadline total (buf, w)) as [[[rc total'] [p w2]]|e] eqn:Hrun;
    apply recv_response_run in Hrun; try done.
  all: destruct stale as [|s stale]; cbn [concat app] in Hs; rewrite <- ?app_assoc in Hs.
  all: try (apply Forall_cons_iff in Hst as [(Hc & Hsm & Hst) Hstale]).
  all: eapply reception_frame in Hrun as (w' & Hg & Heq & Hs' & Hw'); [|done..]; simplify_eq.
  all: cbn [Z.eqb negb]; erewrite bind_ok by done; cbv beta iota.
  all: pose proof (Hf) as [Hf1 Hf2].
  - do 2 (erewrite bind_ok by (apply lift_ok, load_lookup_total;
      unfold ADU_OFFSET_TID_HIGH, ADU_OFFSET_TID_LOW; rewrite length_app; lia)).
    rewrite !lookup_total_app_l by (unfold ADU_OFFSET_TID_HIGH, ADU_OFFSET_TID_LOW; lia).
    change (of_be16 _ _) with (tid_of f). rewrite Z.eqb_refl.
    exists seen, w2, (drop (length f) buf). split; [done|].
    split; [rewrite length_app, length_drop; lia|]. split; [done|]. split; [apply Hg|].
    destruct Hp as (ts & Hn & _ & -> & ->). destruct ts; [|done]. exact Hw'.
  - destruct Hc as [Hc1 Hc2].
    do 2 (erewrite bind_ok by (apply lift_ok, load_lookup_total;
      unfold ADU_OFFSET_TID_HIGH, ADU_OFFSET_TID_LOW; rewrite length_app; lia)).
    rewrite !lookup_total_app_l by (unfold ADU_OFFSET_TID_HIGH, ADU_OFFSET_TID_LOW; lia).
    change (of_be16 _ _) with (tid_of s). rewrite (proj2 (Z.eqb_neq _ _)) by done.
    destruct (IH true (zlen s) (s ++ drop (length s) buf) w2 stale) as (seen' & w3 & tl & Hrun & Htl & Hs3 & Hb3 & Hw3).
    { rewrite length_app, length_drop. lia. }
    { apply Hg. }
    { simpl in Hfuel. lia. }
    { done. }
    { done. }
    { rewrite Hw'. exact Hp. }
    exists seen', w3, tl. split; [done|]. split; [done|]. split; [done|]. split; [done|]. rewrite Hw3 at 1. by rewrite Hw'.
Qed.

(** The answer [reply] in the frame [mbap tid unit reply]. *)
Definition reply_code (r : request) (reply : list Z) : Z :=
  if verdict r reply =? MB_PDU_ERR_FRAME then MB_TCP_CLIENT_ERR_FRAME else verdict r reply.

(** The socket becomes readable [n] times before the response deadline. *)
Definition in_time (c : mb_tcp_client_ctx) (n : nat) (w : world) : Prop :=
  exists t clk clk' sel', clock w = t :: clk /\
    prompt (u64 (time_ms t + effective_response_timeout_ms c)) n clk (selects w) clk' sel'.

(** The peer takes the request, and delivers, in time, replies to earlier
    requests and then the reply to this one. *)
Definition answered (r : request) (c : mb_tcp_client_ctx) (w : world) (unit : Z)
    (stale : list (list Z)) (reply more : list Z) (closed : bool) : Prop :=
  let tid := next_transaction_id (cli_tid c) in
  eager on_signal (tx w) (zlen (request_frame c r)) /\
  rx_bytes (rx w) /\ stream (rx w) = (concat stale ++ mbap tid unit reply ++ more, closed) /\
  Forall (late tid) stale /\ 1 <= zlen reply <= 253 /\ in_time c (S (length stale)) w.

Lemma next_tid_u16 t : is_u16 (next_transaction_id t).
Proof. unfold next_transaction_id. destruct (t <? 65535); [apply is_u16_u16 | done]. Qed.

(** What a call with [n] receptions leaves of the line: the readings of the
    clock and the answers of poll it used, and room to send. *)
Definition line_left (r : request) (c : mb_tcp_client_ctx) (n : nat) (w w' : world) : Prop :=
  rx_bytes (rx w') /\
  (forall m, 0 <= m -> eager on_signal (tx w) (zlen (request_frame c r) + m) -> eager on_signal (tx w') m) /\
  exists t ts, clock w = t :: ts ++ clock w' /\ length ts = n /\ selects w = replicate n Ready ++ selects w'.

Lemma transact_answers r j resp w c unit stale reply more closed :
  sendable r -> cli_initialized c <> 0 -> 0 <= cli_sock c -> zlen resp = 260 ->
  answered r c w unit stale reply more closed ->
  exists w' tl, transact (encode_request r ++ j) (zlen (encode_request r)) resp (w, c)
      = Ok ((reply_code r reply, mbap (next_transaction_id (cli_tid c)) unit reply ++ tl),
            (w', set_cli_tid (next_transaction_id (cli_tid c)) c)) /\
    output w' = output w ++ request_frame c r /\ stream (rx w') = (more, closed) /\
    line_left r c (S (length stale)) w w'.
Proof.
  intros Hr Hi Hsock Hresp (He & Hb & Hs & Hst & Hl & t & clk & clk' & sel' & Hclk & Hp).
  pose proof (transact_split r j resp w c Hr Hi Hsock) as Hsplit. cbv zeta in Hsplit.
  rewrite <- (Z.add_0_r (zlen (request_frame c r))) in He.
  apply eager_accepts in He as [Hacc _]; [|lia..]. rewrite Hacc, Hclk in Hsplit.
  destruct Hsplit as (w1 & Hw & Htx & ->). pose proof (wrote_output _ _ _ Hw) as Hout.
  set (tid := next_transaction_id (cli_tid c)) in *. set (f := mbap tid unit reply) in *.
  assert (rx w1 = rx w /\ selects w1 = selects w) as [Hrx Hsel]
    by (destruct Hw as (? & ? & _ & _ & ->); done).
  unfold take_response, await_response, bind at 1, with_buf. cbn [snd].
  edestruct (response_loop_answers (S (length (clock (set_clock clk w1)))) tid
    (u64 (time_ms t + effective_response_timeout_ms c)) false 0 resp (set_clock clk w1) stale f more
    closed clk' sel') as (seen & w2 & tl & -> & Htl & Hs2 & Hb2 & Hw2); try done.
  { cbn [rx set_clock]. by rewrite Hrx. }
  { cbn [clock set_clock]. destruct Hp as (ts & Hn & _ & -> & _). rewrite length_app. lia. }
  { cbn [rx set_clock]. by rewrite Hrx. }
  { apply mbap_complete. lia. }
  { apply mbap_tid, next_tid_u16. }
  { cbn [clock selects set_clock]. by rewrite Hsel. }
  assert (tx w2 = tx w1 /\ clock w2 = clk' /\ selects w2 = sel') as (Htx2 & Hck2 & Hsel2) by (by rewrite Hw2).
  exists w2, tl. split; [|split; [|split; [done|]]].
  - pose proof (finish_run r j [] (Answer f) (zlen f) (f ++ tl) w2 (set_cli_tid tid c) Hr Htl Hsock) as Hfin.
    cbn [ending_code client_code breaks hang_up] in Hfin.
    rewrite (proj2 (Z.leb_gt (zlen f) 7)) in Hfin by (subst f; rewrite mbap_length; lia).
    change (drop 7 f) with reply in Hfin. unfold reply_code.
    assert (set_sock (cli_sock (set_cli_tid tid c)) (set_cli_tid tid c) = set_cli_tid tid c) as Hc by done.
    rewrite Hc in Hfin. rewrite <- Hfin; [done|]. intros ? [= <-]. split; [done | by apply prefix_app_r].
  - rewrite Hw2. exact Hout.
  - split; [done|]. split; [|destruct Hp as (ts & Hn & _ & -> & Hsl); exists t, ts; by rewrite Hck2, Hsel2].
    intros m Hm He. apply eager_accepts in He as [_ He]; [|lia..]. by rewrite Htx2, Htx.
Qed.

Lemma reply_code_ok r reply : reply_code r reply = 0 -> normal_reply r reply = true.
Proof.
  unfold reply_code. destruct (verdict r reply =? MB_PDU_ERR_FRAME); [done | apply verdict_ok].
Qed.

(** A call whose answer arrives in time. *)
Lemma call_answers r out w c unit stale reply more closed :
  sendable r -> room r out -> cli_initialized c <> 0 -> 0 <= cli_sock c ->
  answered r c w unit stale reply more closed ->
  exists w', call r (Some out) (w, Some c)
      = Ok ((reply_code r reply, Some (if reply_code r reply =? 0 then stored r reply out else out)),
            (w', Some (set_cli_tid (next_transaction_id (cli_tid c)) c))) /\
    output w' = output w ++ request_frame c r /\ stream (rx w') = (more, closed) /\
    line_left r c (S (length stale)) w w'.
Proof.
  intros Hr Hout Hi Hs Ha. rewrite call_perform by done.
  destruct (transact_answers r (drop (length (encode_request r)) (auto_u8 MODBUS_MAX_PDU_LENGTH))
    (auto_u8 MODBUS_TCP_MAX_ADU_LENGTH) w c unit stale reply more closed Hr Hi Hs
    ltac:(by rewrite auto_u8_length) Ha) as (w' & tl & Ht & Ho & Hst & Hleft).
  exists w'. split; [|done].
  assert (drop 7 (mbap (next_transaction_id (cli_tid c)) unit reply ++ tl) = reply ++ tl) as Hd by done.
  erewrite perform_run; [|done|done|exact Ht|].
  - rewrite Hd. destruct (Z.eqb_spec (reply_code r reply) 0) as [Hc|]; [|done].
    by rewrite stored_app by (done || by apply reply_code_ok).
  - intros Hc. rewrite Hd. split; [done|]. by apply reply_code_ok.
Qed.
End Client.

(** ** The client's view of the device *)

Section Device.
Context `{Indet} {U : Type} (h : mb_pdu_handlers U) (d : device U) `{!Implements h d}.

(** The reply code and the data of the device's answer. *)
Lemma reply_serve r u out :
  valid_request r -> offers d r = true -> has_words (fst (serve d r u)) ->
  let x := fst (serve d r u) in
  reply_code r (encode_response x) = exception_code x /\
  (if exception_code x =? 0 then stored r (encode_response x) out else out) = filled x out.
Proof.
  intros Hr Ho Hw x. split.
  - unfold reply_code. subst x. rewrite (verdict_serve h d) by done.
    unfold MB_PDU_ERR_FRAME. rewrite (proj2 (Z.eqb_neq _ _)); [done|].
    pose proof (serve_code d r u). lia.
  - destruct (Z.eqb_spec (exception_code x) 0) as [Hx|Hx]; [by apply (stored_serve h d)|].
    by destruct x.
Qed.
End Device.
