(* ===== verification/TcpClientEnds.v ===== *)
(** * Calls of the TCP client end

    A call that has not returned is blocked in a system call; [punctual] says
    what the system owes: the clock passes the deadline, every poll answers,
    and the receive timeout of the socket ends every read.  Then no wait stays
    blocked, and the code does not read the clock again once it has seen the
    deadline pass. *)

From S2P Require Import Prelude Buffer Defines Bits Pdu PduSpec PduClient PduReplies Ptr Tcp TcpFrames Sys TcpServer TcpServerSpec TcpClient TcpClientSpec TcpClientCalls.

Section Client.
Context {I : Indet}.

(** [deadline - now] must fit the [int] of [poll] at every reading. *)
Record punctual (deadline : Z) (w : world) : Prop := Punctual {
  punctual_late : Exists (fun t => deadline <= time_ms t) (clock w);
  punctual_near : Forall (fun t => deadline - time_ms t < 2 ^ 31) (clock w);
  punctual_polls : (length (clock w) <= length (selects w))%nat;
  punctual_stream : stream_end (rx w) <> Waiting;
}.

Lemma time_ms_u64 t : is_u64 (time_ms t).
Proof. unfold time_ms. destruct (default _ t). unfold u64, is_u64. apply Z.mod_pos_bound. lia. Qed.

(** The timeout handed to [poll] before the deadline. *)
Lemma poll_timeout_positive deadline t :
  is_u64 deadline -> time_ms t < deadline -> deadline - time_ms t < 2 ^ 31 ->
  int_of (u64 (deadline - time_ms t)) = deadline - time_ms t.
Proof.
  intros Hd Ht Hn. pose proof (time_ms_u64 t). rewrite u64_small by zint.
  unfold int_of. change (2 ^ 31) with 2147483648 in *. rewrite Z.mod_small; zint.
Qed.

(** A wait ends, and leaves a punctual world when the socket is readable. *)
Lemma awaited_ends deadline w :
  is_u64 deadline -> punctual deadline w ->
  exists rc clk sel, awaited deadline (clock w) (selects w) = Some (rc, clk, sel) /\
    (rc = 0 -> punctual deadline (after_wait clk sel w)).
Proof.
  intros Hd [Hlate Hnear Hpolls Hs]. destruct w as [rx0 tx0 clk sel dr tr]. cbn [clock selects rx] in *.
  revert sel Hpolls. induction clk as [|t clk IH]; intros sel Hpolls; [by apply Exists_nil in Hlate|].
  cbn [awaited]. destruct (Z.leb_spec deadline (time_ms t)) as [|Hearly]; [by eexists _, _, _|].
  apply Exists_cons in Hlate as [|Hlate]; [lia|]. apply Forall_cons_iff in Hnear as [Hn Hnear].
  rewrite poll_timeout_positive by done.
  destruct sel as [|[| |e] sel]; cbn [length] in Hpolls; [lia|..].
  - exists 0, clk, sel. split; [done|]. intros _. by constructor; cbn; [..|lia|].
  - rewrite (proj2 (Z.ltb_ge _ _)) by lia. by eexists _, _, _.
  - case_decide; [|by eexists _, _, _]. apply (IH Hlate Hnear sel). lia.
Qed.

Lemma punctual_got deadline w n w' : got w n w' -> punctual deadline w -> punctual deadline w'.
Proof. intros [(_ & _ & Hw) He] [Hl Hn Hp Hs]. constructor; [..|by rewrite He]; by rewrite Hw. Qed.

(** One reception ends. *)
Lemma reception_ends deadline total buf w o :
  is_u64 deadline -> punctual deadline w -> reception deadline total buf w o ->
  exists rc total' p w', o = Ok ((rc, total'), (p, w')) /\ (rc = 0 -> punctual deadline w').
Proof.
  intros Hd Hw Ho. destruct (awaited_ends deadline w Hd Hw) as (rc & clk & sel & Haw & Hnext).
  unfold reception in Ho. rewrite Haw in Ho. cbv zeta in Ho.
  assert (forall code, (exists p r, o = Ok ((code, total), (p, set_rx r (after_wait clk sel w))) /\
      zlen p = zlen buf) -> code <> 0 ->
    exists rc total' p w', o = Ok ((rc, total'), (p, w')) /\ (rc = 0 -> punctual deadline w')) as Hbroken
    by (intros code (p & r & -> & _) Hne; by eexists _, _, _, _).
  destruct (Z.eqb_spec rc 0) as [->|]; [|by eexists _, _, _, _]. specialize (Hnext eq_refl).
  destruct (cut (fst (stream (rx w)))).
  - pose proof (punctual_stream _ _ Hw).
    destruct (stream_end (rx w)); [done | by apply (Hbroken _ Ho) | by apply (Hbroken _ Ho)].
  - by apply (Hbroken _ Ho).
  - destruct Ho as (w' & Hg & ->). eexists _, _, _, _. split; [done|]. intros _. by eapply punctual_got.
Qed.

Lemma reception_next deadline total buf w total' p w' :
  zlen buf = 260 -> reception deadline total buf w (Ok ((0, total'), (p, w'))) ->
  zlen p = 260 /\ rx_bytes (rx w') /\ (length (clock w') < length (clock w))%nat.
Proof.
  intros Hl. unfold reception.
  destruct (awaited deadline (clock w) (selects w)) as [[[rc clk] sel]|] eqn:Haw; [|done].
  apply awaited_code in Haw as [_ Hclk]. cbv zeta. destruct (Z.eqb_spec rc 0); [|congruence].
  destruct (cut (fst (stream (rx w)))) as [| |f rest] eqn:Hcut.
  - destruct (stream_end (rx w)); [done|..]; by intros (? & ? & ? & ?).
  - by intros (? & ? & ? & ?).
  - apply cut_frame in Hcut as [_ [Hr Hf]]. intros (w1 & [(_ & Hb & Hw) _] & Heq).
    simplify_eq. rewrite length_app, length_drop. split; [lia|]. split; [done|]. by rewrite Hw.
Qed.

Lemma response_loop_ends fuel tid deadline seen total buf w :
  is_u64 deadline -> zlen buf = 260 -> rx_bytes (rx w) -> (length (clock w) < fuel)%nat ->
  punctual deadline w ->
  exists v, response_loop fuel tid deadline seen total (buf, w) = Ok v.
Proof.
  intros Hd. revert seen total buf w. induction fuel as [|fuel IH]; intros seen total buf w Hl Hb Hf Hw; [lia|].
  cbn [response_loop]. unfold bind at 1.
  destruct (recv_response MODBUS_TCP_MAX_ADU_LENGTH deadline total (buf, w)) as [[[rc total'] [p w2]]|e] eqn:Hr.
  - apply recv_response_run in Hr as Hrec; [|done..].
    destruct (reception_ends _ _ _ _ _ Hd Hw Hrec) as (? & ? & ? & ? & [= <- <- <- <-] & Hnext).
    destruct (Z.eqb_spec rc 0) as [->|]; [|by eexists]. cbn [negb] in *. specialize (Hnext eq_refl).
    destruct (reception_next _ _ _ _ _ _ _ Hl Hrec) as (Hp & Hb2 & Hclk).
    erewrite bind_ok by done. cbv beta iota.
    do 2 (erewrite bind_ok by (apply lift_ok, load_lookup_total;
      unfold ADU_OFFSET_TID_HIGH, ADU_OFFSET_TID_LOW; lia)).
    destruct (_ =? tid); [by eexists|]. apply IH; [done | done | lia | done].
  - apply recv_response_run in Hr as Hrec; [|done..].
    by destruct (reception_ends _ _ _ _ _ Hd Hw Hrec) as (? & ? & ? & ? & ? & _).
Qed.

(** [stops_at deadline clk clk']: of the readings between [clk] and [clk'] only
    the last may lie past the deadline. *)
Definition stops_at (deadline : Z) (clk clk' : list (option (Z * Z))) : Prop :=
  exists early t, clk = early ++ t :: clk' /\ Forall (fun u => time_ms u < deadline) early.

Lemma awaited_stops deadline clk sel rc clk' sel' :
  awaited deadline clk sel = Some (rc, clk', sel') ->
  stops_at deadline clk clk' /\
  (rc = 0 -> exists early, clk = early ++ clk' /\ Forall (fun u => time_ms u < deadline) early).
Proof.
  revert sel. induction clk as [|t clk IH]; intros sel; [done|]. cbn [awaited].
  assert (stops_at deadline (t :: clk) clk) as Hhere by (by exists [], t).
  destruct (Z.leb_spec deadline (time_ms t)); [by intros [= <- <- <-]|].
  destruct sel as [|[| |e] sel]; [done|..].
  - intros [= <- <- <-]. split; [done|]. intros _. exists [t]. split; [done|]. by repeat constructor.
  - destruct (_ <? 0); [done|]. by intros [= <- <- <-].
  - case_decide; [|by intros [= <- <- <-]]. intros [(early & u & -> & Hearly) Hz]%IH. split.
    + exists (t :: early), u. split; [done|]. by constructor.
    + intros Hrc. destruct (Hz Hrc) as (early' & Heq & He). exists (t :: early'). split; [by rewrite Heq|].
      by constructor.
Qed.

Lemma receives_stops tid deadline w stale e w' :
  receives tid deadline w stale e w' -> stops_at deadline (clock w) (clock w').
Proof.
  assert (forall w clk sel n w', got (after_wait clk sel w) n w' -> clock w' = clk) as Hg
    by (by intros ? ? ? ? ? [(_ & _ & ->) _]).
  induction 1 as [w clk sel Haw|w clk sel Haw|w clk sel r Haw|w clk sel r Haw|w clk sel f rest w' Haw _ Hgot
    |w clk sel f rest w' Haw _ Hgot|w clk sel f rest w1 stale e w' Haw _ Hgot _ _ _ IH];
    apply awaited_stops in Haw as [Hstop Hread]; try exact Hstop.
  - by rewrite (Hg _ _ _ _ _ Hgot).
  - by rewrite (Hg _ _ _ _ _ Hgot).
  - destruct (Hread eq_refl) as (early & -> & He). rewrite (Hg _ _ _ _ _ Hgot) in IH.
    destruct IH as (early' & t & -> & He'). exists (early ++ early'), t.
    split; [by rewrite app_assoc | by apply Forall_app].
Qed.

(** ** Calls *)

(** The system lets the call of [r] end: the socket takes the request or
    refuses it, the clock answers, and the wait for the response is punctual. *)
Definition call_ends (r : request) (w : world) (c : mb_tcp_client_ctx) : Prop :=
  accepts on_signal (tx w) (zlen (request_frame c r)) <> None /\
  exists t clk, clock w = t :: clk /\
    punctual (u64 (time_ms t + effective_response_timeout_ms c)) (set_clock clk w).

Lemma transact_ends r j resp w c :
  sendable r -> zlen resp = 260 -> rx_bytes (rx w) -> cli_initialized c <> 0 -> 0 <= cli_sock c ->
  call_ends r w c ->
  exists v, transact (encode_request r ++ j) (zlen (encode_request r)) resp (w, c) = Ok v.
Proof.
  intros Hr Hresp Hb Hi Hs [Hacc (t & clk & Hclk & Hp)].
  pose proof (transact_split r j resp w c Hr Hi Hs) as Hsplit. cbv zeta in Hsplit.
  destruct (accepts _ _ _) as [[]|]; [| |done].
  2:{ destruct Hsplit as (? & ? & _ & _ & ->). by eexists. }
  destruct Hsplit as (w1 & (tx' & tr & _ & _ & ->) & _ & ->). rewrite Hclk in *.
  set (deadline := u64 _) in *. unfold take_response, await_response, bind, with_buf. cbn [snd].
  set (w1 := set_clock clk _).
  assert (punctual deadline w1) as Hp1 by (destruct Hp; by constructor).
  assert (is_u64 deadline) as Hd by (unfold deadline, u64, is_u64; apply Z.mod_pos_bound; lia).
  pose proof (response_loop_run (S (length (clock w1))) (next_transaction_id (cli_tid c)) deadline false 0
    resp w1 Hresp Hb ltac:(lia)) as Hrun.
  destruct (response_loop_ends (S (length (clock w1))) (next_transaction_id (cli_tid c)) deadline false 0
    resp w1 Hd Hresp Hb ltac:(lia) Hp1) as ([[[rc seen] total] [resp' w2]] & Hgo).
  rewrite Hgo in *. destruct Hrun as (stale & e & _ & -> & -> & Hl & Ha). cbn [orb].
  rewrite (finish_run r j stale e total resp' w2 _ Hr Hl) by done. by eexists.
Qed.

Lemma transaction_stops r w c rc resp w' c' t clk :
  transaction r w c rc resp w' c' -> clock w = t :: clk ->
  clock w' = clock w \/ stops_at (u64 (time_ms t + effective_response_timeout_ms c)) clk (clock w').
Proof.
  intros Ht Hclk. inversion Ht as [? part w1 Hw Hp|? w1 t' clk' stale e w2 Hw Hclk' Hrec Ha]; subst.
  - left. by destruct Hw as (? & ? & _ & _ & ->).
  - right. rewrite Hclk in Hclk'. injection Hclk' as <- <-. apply receives_stops in Hrec.
    by destruct (breaks e).
Qed.

Lemma call_terminates r out w c :
  sendable r -> room r out -> rx_bytes (rx w) -> cli_initialized c <> 0 -> 0 <= cli_sock c ->
  call_ends r w c ->
  exists rc out' w' c', call r (Some out) (w, Some c) = Ok ((rc, out'), (w', Some c')).
Proof.
  intros Hr Hout Hb Hi Hs He. rewrite call_perform by done.
  set (j := drop (length (encode_request r)) (auto_u8 MODBUS_MAX_PDU_LENGTH)).
  set (resp0 := auto_u8 MODBUS_TCP_MAX_ADU_LENGTH).
  assert (zlen resp0 = 260) as Hl by (unfold resp0; by rewrite auto_u8_length).
  destruct (transact_ends r j resp0 w c Hr Hl Hb Hi Hs He) as ([[rc resp] [w' c']] & Ht).
  pose proof (transact_run r j resp0 w c Hr Hl Hb Hi Hs) as Hrun. rewrite Ht in Hrun.
  rewrite (perform_ok r out w c rc resp w' c') by (done || apply Hrun). by eexists _, _, _, _.
Qed.
End Client.
