(* ===== verification/TcpClientTheorems.v ===== *)
(** * Properties of the TCP client

    Refinement of every public call, framing of the connection, rejected
    calls, and client and server together. *)

From S2P Require Import Prelude Buffer Defines Bits Pdu PduSpec PduClient PduReplies Bank Ptr Tcp TcpFrames Sys TcpServer TcpServerSpec TcpServerTheorems TcpClient TcpClientSpec TcpClientCalls TcpClientAnswers TcpClientEnds.

#[local] Instance junk : Indet := fun i => 11 + 3 * Z.of_nat i.

Definition sample_client (sock tid : Z) : mb_tcp_client_ctx :=
  CliCtx sock tid 1 (CliConfig (Some "10.0.0.7"%string) 502 None 1 0 0).

(** The clock at 5.0 s, 5.1 s, ...; the response deadline is at 6.0 s. *)
Definition ticks (n : nat) : list (option (Z * Z)) :=
  map (fun i => Some (5, 100000000 * Z.of_nat i)) (seq 0 n).

(** A late reply (transaction 8) and the answer (transaction 9): registers 1000, 1001. *)
Definition sample_stream : list Z :=
  [0; 8; 0; 0; 0; 7; 1; 3; 4; 0; 1; 0; 2; 0; 9; 0; 0; 0; 7; 1; 3; 4; 3; 232; 3; 233].
Definition sample_world : world :=
  World [RxData (take 9 sample_stream); RxErr EINTR; RxData (drop 9 sample_stream)]
    (replicate 12 (TxTakes 5)) (ticks 6) [PollErr EINTR; Ready; Ready] [] [].

(** C8. Every public call of the client is one transaction: given a request it
    can encode, a large enough array and a connected context, it sends the one
    frame with the next transaction id, unit id and request PDU, or fails to;
    then it waits until the deadline, skipping whole frames with another
    transaction id, and the return code says how that wait ended.  Only code 0
    stores data: exactly the registers or bits of the reply.  For any bytes
    from the network and any behaviour of the socket there is no access outside
    a buffer and every loop ends (a call that has not returned is blocked in a
    system call). *)
Theorem tcp_client_refines `{Indet} r out w c :
  sendable r -> room r out -> rx_bytes (rx w) -> cli_initialized c <> 0 -> 0 <= cli_sock c ->
  match call r (Some out) (w, Some c) with
  | Fail e => e = Blocked
  | Ok ((rc, out'), (w', ctx')) => exists resp c', ctx' = Some c' /\ transaction r w c rc resp w' c' /\
      out' = Some (if rc =? 0 then stored r (drop 7 resp) out else out)
  end.
Proof. apply call_run. Qed.

Lemma sample_world_bytes : rx_bytes (rx sample_world).
Proof. repeat (apply List.Forall_cons; [try exact I; zforall|]). apply List.Forall_nil. Qed.

Lemma sample_read_sendable addr : is_u16 addr -> sendable (ReadRegisters 3 addr 2).
Proof. intros Ha. split; [by left|]. split; [exact Ha | unfold_defs; lia]. Qed.

Lemma tcp_client_refines_witness :
  match call (ReadRegisters 3 0 2) (Some [7; 7; 7]) (sample_world, Some (sample_client 4 8)) with
  | Fail e => e = Blocked
  | Ok ((rc, out'), (w', ctx')) => exists resp c', ctx' = Some c' /\
      transaction (ReadRegisters 3 0 2) sample_world (sample_client 4 8) rc resp w' c' /\
      out' = Some (if rc =? 0 then stored (ReadRegisters 3 0 2) (drop 7 resp) [7; 7; 7] else [7; 7; 7])
  end.
Proof.
  assert (Hs : sendable (ReadRegisters 3 0 2)) by (by apply sample_read_sendable).
  exact (tcp_client_refines (ReadRegisters 3 0 2) [7; 7; 7] sample_world (sample_client 4 8) Hs
    ltac:(by vm_compute) sample_world_bytes ltac:(done) ltac:(done)).
Defined.

(** The sample call, evaluated: the late reply is skipped. *)
Example sample_call :
  match call (ReadRegisters 3 0 2) (Some [7; 7; 7]) (sample_world, Some (sample_client 4 8)) with
  | Ok ((rc, out), (w, _)) => rc = 0 /\ out = Some [1000; 1001; 7] /\
      output w = [0; 9; 0; 0; 0; 6; 1; 3; 0; 0; 0; 2]
  | Fail _ => False
  end.
Proof. by vm_compute. Qed.

(** The world after the sample call. *)
Definition after_sample (n : nat) : world :=
  World [] (replicate 9 (TxTakes 5)) (drop 4 (ticks n)) [] []
    [Sent [0; 9; 0; 0; 0]; Sent [6; 1; 3; 0; 0]; Sent [0; 2]].

(** ** Termination *)

(** C18. Every public call of the client ends when the system does its part: the
    socket takes or refuses the request, the clock passes the response
    deadline, poll answers (before INT_MAX milliseconds are left) and the
    receive timeout of the socket ends every read.  However many late replies
    the server sends, the call returns, and it does not look at the clock again
    once it has seen the deadline pass: only the last reading it made may lie
    past it. *)
Theorem tcp_client_terminates `{Indet} r out w c :
  sendable r -> room r out -> rx_bytes (rx w) -> cli_initialized c <> 0 -> 0 <= cli_sock c ->
  call_ends r w c ->
  exists rc out' w' c', call r (Some out) (w, Some c) = Ok ((rc, out'), (w', Some c')) /\
    forall t clk, clock w = t :: clk ->
      clock w' = clock w \/ stops_at (u64 (time_ms t + effective_response_timeout_ms c)) clk (clock w').
Proof.
  intros Hr Hout Hb Hi Hs He.
  destruct (call_terminates r out w c Hr Hout Hb Hi Hs He) as (rc & out' & w' & c' & Hgo).
  exists rc, out', w', c'. split; [done|]. intros t clk Hclk.
  pose proof (call_run r out w c Hr Hout Hb Hi Hs) as Hrun. rewrite Hgo in Hrun.
  destruct Hrun as (resp & c1 & _ & Ht & _). by eapply transaction_stops.
Qed.

(** A late reply, a signal, and then silence until after the deadline. *)
Definition silent_world : world :=
  World [RxData (take 13 sample_stream); RxErr EAGAIN] (replicate 12 (TxTakes 5))
    [Some (5, 0); Some (5, 1000000); Some (5, 300000000); Some (5, 900000000); Some (6, 2000000); Some (7, 0)]
    (Ready :: replicate 5 (PollErr EINTR)) [] [].

Lemma silent_world_ends : call_ends (ReadRegisters 3 0 2) silent_world (sample_client 4 8).
Proof.
  split; [by vm_compute|]. eexists _, _. split; [done|]. constructor; [|by apply (bool_decide_unpack _); vm_compute|cbn; lia|by vm_compute].
  by apply (bool_decide_unpack _); vm_compute.
Qed.

Lemma tcp_client_terminates_witness :
  exists rc out' w' c',
    call (ReadRegisters 3 0 2) (Some [7; 7; 7]) (silent_world, Some (sample_client 4 8))
      = Ok ((rc, out'), (w', Some c')) /\
    forall t clk, clock silent_world = t :: clk ->
      clock w' = clock silent_world \/
      stops_at (u64 (time_ms t + effective_response_timeout_ms (sample_client 4 8))) clk (clock w').
Proof.
  apply (tcp_client_terminates (ReadRegisters 3 0 2) [7; 7; 7] silent_world (sample_client 4 8));
    [by apply sample_read_sendable | by vm_compute | | done | done | exact silent_world_ends].
  repeat (apply List.Forall_cons; [try exact I; zforall|]). apply List.Forall_nil.
Defined.

(** The silent server, evaluated: the late reply makes it a TID error. *)
Example silent_call :
  match call (ReadRegisters 3 0 2) (Some [7; 7; 7]) (silent_world, Some (sample_client 4 8)) with
  | Ok ((rc, out), (w, _)) => rc = MB_TCP_CLIENT_ERR_TID /\ out = Some [7; 7; 7] /\ clock w = [Some (7, 0)]
  | Fail _ => False
  end.
Proof. by vm_compute. Qed.

(** ** Framing *)

Lemma receives_framing `{Indet} tid deadline w stale e w' :
  receives tid deadline w stale e w' -> rx_bytes (rx w) ->
  Forall complete (stale ++ last_frame e) /\
  (breaks e = false ->
   stream (rx w) = (concat (stale ++ last_frame e) ++ fst (stream (rx w')), snd (stream (rx w')))).
Proof.
  assert (forall w clk sel f rest w1, cut (fst (stream (rx w))) = Frame f rest ->
    got (after_wait clk sel w) (length f) w1 ->
    complete f /\ rx_bytes (rx w1) /\ stream (rx w) = (f ++ fst (stream (rx w1)), snd (stream (rx w1)))) as Hf.
  { intros w0 clk sel f rest w1 [Hs Hc]%cut_frame [(Hs1 & Hb1 & _) _]. split; [done|]. split; [done|].
    rewrite Hs1. cbn [fst snd after_wait set_selects set_clock rx]. rewrite Hs, drop_app_length.
    rewrite <- Hs. by destruct (stream (rx w0)). }
  induction 1 as [w clk sel Haw|w clk sel Haw|w clk sel r Haw Hcut|w clk sel r Haw Hcut Hend
    |w clk sel f rest w' Haw Hcut Hg Hm|w clk sel f rest w' Haw Hcut Hg Hm Ht
    |w clk sel f rest w1 stale e w' Haw Hcut Hg Hm Ht Hrec IH]; intros Hb; cbn [last_frame app breaks concat].
  - split; [done|]. intros _. change (rx (after_wait clk sel w)) with (rx w). by destruct (stream (rx w)).
  - done.
  - done.
  - done.
  - destruct (Hf _ _ _ _ _ _ Hcut Hg) as (Hc & _ & ->). split; [by apply List.Forall_cons; [|apply List.Forall_nil]|].
    by rewrite app_nil_r.
  - destruct (Hf _ _ _ _ _ _ Hcut Hg) as (Hc & _ & ->). split; [by apply List.Forall_cons; [|apply List.Forall_nil]|].
    by rewrite app_nil_r.
  - destruct (Hf _ _ _ _ _ _ Hcut Hg) as (Hc & Hb1 & ->). destruct (IH Hb1) as [Hcs Hs].
    split; [by apply List.Forall_cons|]. intros Hbr. rewrite Hs by done. cbn [fst snd].
    by rewrite <- app_assoc.
Qed.

(** The state of the connection after a transaction that started in [w]. *)
Definition in_frame_sync (w w' : world) : Prop :=
  exists frames, Forall complete frames /\
    stream (rx w) = (concat frames ++ fst (stream (rx w')), snd (stream (rx w'))).

Lemma transaction_framing `{Indet} r w c rc resp w' c' :
  transaction r w c rc resp w' c' -> rx_bytes (rx w) ->
  (cli_sock c' = cli_sock c /\ in_frame_sync w w') \/
  (cli_sock c' = -1 /\ last (trace w') = Some Closed /\
   (rc = MB_TCP_CLIENT_ERR_TRANSPORT \/ rc = MB_TCP_CLIENT_ERR_TIMEOUT)).
Proof.
  intros Ht Hb. inversion Ht as [? part w1 Hw Hp|? w1 t clk stale e w2 Hw Hclk Hrec Ha]; subst.
  - right. split; [done|]. split; [|by left]. cbn. by rewrite last_snoc.
  - assert (rx w1 = rx w) as Hrx by (destruct Hw as (? & ? & _ & _ & ->); done).
    apply receives_framing in Hrec as [Hc Hs]; [|cbn [rx set_clock]; by rewrite Hrx].
    cbn [rx set_clock] in Hs. rewrite Hrx in Hs.
    destruct (breaks e) eqn:Hbr.
    + right. split; [done|]. split; [cbn; by rewrite last_snoc|].
      destruct e; try done; [by left | by right].
    + left. split; [done|]. exists (stale ++ last_frame e). auto.
Qed.

Lemma receives_trace `{Indet} tid deadline w stale e w' :
  receives tid deadline w stale e w' -> trace w' = trace w.
Proof.
  assert (forall w n w1, got w n w1 -> trace w1 = trace w) as Hg
    by (by intros w0 n w1 [(_ & _ & ->) _]).
  induction 1 as [| | | |? ? ? ? ? ? ? ? Hgot|? ? ? ? ? ? ? ? Hgot|? ? ? ? ? ? ? ? ? ? ? Hgot ? ? ? IH]; try done.
  - by rewrite (Hg _ _ _ Hgot).
  - by rewrite (Hg _ _ _ Hgot).
  - by rewrite IH, (Hg _ _ _ Hgot).
Qed.

(** At most the one request frame is sent. *)
Lemma transaction_output `{Indet} r w c rc resp w' c' :
  transaction r w c rc resp w' c' ->
  exists part, part `prefix_of` request_frame c r /\ output w' = output w ++ part.
Proof.
  intros Ht. inversion Ht as [? part w1 Hw Hp|? w1 t clk stale e w2 Hw Hclk Hrec Ha]; subst.
  - exists part. split; [done|]. rewrite output_log, (wrote_output _ _ _ Hw). by rewrite app_nil_r.
  - exists (request_frame c r). split; [done|].
    assert (output (hang_up (breaks e) w2) = output w2) as ->
      by (destruct (breaks e); cbn [hang_up]; [rewrite output_log; by rewrite app_nil_r | done]).
    apply receives_trace in Hrec. unfold output in *. rewrite Hrec. exact (wrote_output _ _ _ Hw).
Qed.

(** C11. The connection stays in frame sync or is closed: after a call that
    returned, either the socket is still open and the bytes consumed are whole
    frames, so the next call starts at a frame boundary; or the stream can no
    longer be trusted, the socket was shut down and closed as the last action,
    the code is TRANSPORT or TIMEOUT, and every later call returns
    NOT_CONNECTED without doing anything.  At most the one request frame was
    sent, and of the context only the transaction id and the socket change. *)
Theorem tcp_client_frame_sync `{Indet} r out w c rc out' w' ctx' :
  sendable r -> room r out -> rx_bytes (rx w) -> cli_initialized c <> 0 -> 0 <= cli_sock c ->
  call r (Some out) (w, Some c) = Ok ((rc, out'), (w', ctx')) ->
  exists c', ctx' = Some c' /\
    c' = set_sock (cli_sock c') (set_cli_tid (next_transaction_id (cli_tid c)) c) /\
    (exists part, part `prefix_of` request_frame c r /\ output w' = output w ++ part) /\
    ((cli_sock c' = cli_sock c /\ in_frame_sync w w') \/
     (cli_sock c' = -1 /\ last (trace w') = Some Closed /\
      (rc = MB_TCP_CLIENT_ERR_TRANSPORT \/ rc = MB_TCP_CLIENT_ERR_TIMEOUT) /\
      forall r2 out2 w2, sendable r2 ->
        call r2 (Some out2) (w2, Some c')
        = Ok ((MB_TCP_CLIENT_ERR_NOT_CONNECTED, Some out2), (w2, Some c')))).
Proof.
  intros Hr Hout Hb Hi Hs Hcall. pose proof (call_run r out w c Hr Hout Hb Hi Hs) as Hrun.
  rewrite Hcall in Hrun. destruct Hrun as (resp & c' & -> & Ht & _). exists c'. split; [done|].
  split; [by inversion Ht|]. split; [by eapply transaction_output|].
  destruct (transaction_framing _ _ _ _ _ _ _ Ht Hb) as [|(Hc & Hl & Hrc)]; [by left|].
  right. split_and!; [done..|]. intros r2 out2 w2 Hr2. apply call_disconnected; [done|].
  right. rewrite Hc. lia.
Qed.

Lemma tcp_client_frame_sync_witness :
  let c := sample_client 4 8 in
  exists c', Some (set_cli_tid 9 c) = Some c' /\
    c' = set_sock (cli_sock c') (set_cli_tid (next_transaction_id (cli_tid c)) c) /\
    (exists part, part `prefix_of` request_frame c (ReadRegisters 3 0 2) /\
      output (after_sample 6) = output sample_world ++ part) /\
    ((cli_sock c' = cli_sock c /\ in_frame_sync sample_world (after_sample 6)) \/
     (cli_sock c' = -1 /\ last (trace (after_sample 6)) = Some Closed /\
      (0 = MB_TCP_CLIENT_ERR_TRANSPORT \/ 0 = MB_TCP_CLIENT_ERR_TIMEOUT) /\
      forall r2 out2 w2, sendable r2 ->
        call r2 (Some out2) (w2, Some c')
        = Ok ((MB_TCP_CLIENT_ERR_NOT_CONNECTED, Some out2), (w2, Some c')))).
Proof.
  intros c. assert (Hs : sendable (ReadRegisters 3 0 2)) by (by apply sample_read_sendable).
  apply (tcp_client_frame_sync (ReadRegisters 3 0 2) [7; 7; 7] sample_world c 0 (Some [1000; 1001; 7]));
    [exact Hs | by vm_compute | exact sample_world_bytes | done | done | by vm_compute].
Defined.

(** ** Client and server *)

(** The server's answer to a client's frame. *)
Lemma tcp_reply_request {U} own (d : device U) t unit r u :
  is_u16 t -> valid_request r -> offers d r = true -> accepts_unit own unit = true ->
  tcp_reply own d (mbap t unit (encode_request r)) u
  = (Some (mbap t unit (encode_response (fst (serve d r u)))), snd (serve d r u)).
Proof.
  intros Ht Hr Ho Ha. unfold tcp_reply.
  change (mbap t unit (encode_request r) !!! 6%nat) with unit.
  change (drop 7 (mbap t unit (encode_request r))) with (encode_request r).
  change (of_be16 (_ !!! 0%nat) (_ !!! 1%nat)) with (tid_of (mbap t unit (encode_request r))).
  rewrite Ha, mbap_tid by done. cbn [Z.eqb andb mbap app be16 lookup_total list_lookup_total].
  unfold respond. rewrite parse_encode_request by done. cbn [finish].
  by destruct (serve d r u).
Qed.

(** C6. Client and server together: for every request a client can express and
    the device supports, the frame the client sends, delivered to the server
    in any pieces, is executed once, with the effect of the device operation;
    and when the server's reply is delivered to the client in time, in any
    pieces and behind any number of late replies to earlier requests, the
    client's call returns 0 and the device's values (or the device's exception
    code, leaving the caller's array alone). *)
Theorem tcp_end_to_end `{Indet} {U} (cfg : mb_tcp_server_config U) (d : device U)
    `{!Implements (handlers cfg) d} r u c ws rest closed :
  valid_request r -> offers d r = true -> has_words (fst (serve d r u)) ->
  cli_initialized c <> 0 -> 0 <= cli_sock c ->
  accepts_unit (srv_unit_id cfg) (cli_unit_id (cli_cfg c)) = true ->
  rx_bytes (rx ws) -> stream (rx ws) = (request_frame c r ++ rest, closed) ->
  eager on_signal (tx ws) MODBUS_TCP_MAX_ADU_LENGTH ->
  exists reply ws', server_on_process cfg (ws, u) = Ok (0, (ws', snd (serve d r u))) /\
    output ws' = output ws ++ reply /\ stream (rx ws') = (rest, closed) /\
    forall out w stale more closed', room r out ->
      eager on_signal (tx w) (zlen (request_frame c r)) -> rx_bytes (rx w) ->
      stream (rx w) = (concat stale ++ reply ++ more, closed') ->
      Forall (late (next_transaction_id (cli_tid c))) stale -> in_time c (S (length stale)) w ->
      exists w', call r (Some out) (w, Some c)
          = Ok ((exception_code (fst (serve d r u)), Some (filled (fst (serve d r u)) out)),
                (w', Some (set_cli_tid (next_transaction_id (cli_tid c)) c))) /\
        output w' = output w ++ request_frame c r /\ stream (rx w') = (more, closed').
Proof.
  intros Hr Ho Hw Hi Hsock Ha Hb Hs He. pose proof (valid_sendable r Hr) as Hsend.
  pose proof (encode_request_bound r Hsend) as Hlen.
  set (t := next_transaction_id (cli_tid c)). set (unit := cli_unit_id (cli_cfg c)) in *.
  pose proof (mbap_complete t unit (encode_request r) ltac:(lia)) as [Hm1 Hm2].
  assert (well_formed (request_frame c r)) as Hwf.
  { unfold request_frame. fold t unit. rewrite mbap_length in Hm2. split; [lia|]. rewrite mbap_length. lia. }
  assert (2 <= zlen (encode_response (fst (serve d r u))) <= 253) as Hx.
  { pose proof (respond_bound (handlers cfg) d (encode_request r) u) as Hbound. unfold respond in Hbound.
    rewrite parse_encode_request in Hbound by done. exact Hbound. }
  pose proof (process_one_run cfg d (request_frame c r) rest closed ws u 0 Hb Hs Hwf ltac:(lia)) as Hsrv.
  unfold request_frame in Hsrv at 1. fold t unit in Hsrv.
  rewrite tcp_reply_request in Hsrv by (done || apply next_tid_u16).
  set (reply := mbap t unit (encode_response (fst (serve d r u)))) in *.
  destruct Hsrv as (ws' & Hrun & _ & Hs' & Hout & _).
  { destruct He as [He1 He2]. split; [done|]. change (default [] (Some reply)) with reply.
    subst reply. rewrite mbap_length. unfold MODBUS_TCP_MAX_ADU_LENGTH in He2. lia. }
  exists reply, ws'. split_and!; [done..|]. intros out w stale more closed' Hroom He' Hb' Hst Hstale Htime.
  destruct (call_answers r out w c unit stale (encode_response (fst (serve d r u))) more closed')
    as (w' & Hcall & Ho' & Hst' & _); [done..| |].
  { split; [exact He'|]. split; [exact Hb'|]. split; [exact Hst|]. split; [exact Hstale|]. split; [lia|done]. }
  exists w'. split; [|done]. rewrite Hcall.
  destruct (reply_serve (handlers cfg) d r u out Hr Ho Hw) as [Hc Hf]. cbv zeta in *.
  by rewrite Hc, Hf.
Qed.

(** The sample device's server, with the frame of the sample client and the
    start of another one. *)
Definition sample_server : world :=
  World [RxData [0; 9; 0; 0; 0; 6; 1; 3]; RxErr EINTR; RxData [0; 0; 0; 2; 0]] (replicate 260 (TxTakes 9))
    [] [] [] [].

Lemma tcp_end_to_end_witness :
  let r := ReadRegisters 3 0 2 in
  let c := sample_client 4 8 in
  exists reply ws', server_on_process (bank_config 1) (sample_server, sample_bank)
      = Ok (0, (ws', snd (serve bank_device r sample_bank))) /\
    output ws' = output sample_server ++ reply /\ stream (rx ws') = ([0], false) /\
    forall out w stale more closed', room r out ->
      eager on_signal (tx w) (zlen (request_frame c r)) -> rx_bytes (rx w) ->
      stream (rx w) = (concat stale ++ reply ++ more, closed') ->
      Forall (late (next_transaction_id (cli_tid c))) stale -> in_time c (S (length stale)) w ->
      exists w', call r (Some out) (w, Some c)
          = Ok ((exception_code (fst (serve bank_device r sample_bank)),
                 Some (filled (fst (serve bank_device r sample_bank)) out)),
                (w', Some (set_cli_tid (next_transaction_id (cli_tid c)) c))) /\
        output w' = output w ++ request_frame c r /\ stream (rx w') = (more, closed').
Proof.
  intros r c.
  assert (Hr : valid_request r) by (split; [by left|]; unfold_defs; unfold is_u16; lia).
  apply (tcp_end_to_end (bank_config 1) bank_device r sample_bank c sample_server [0] false);
    [exact Hr | reflexivity | | done | done | reflexivity | | by vm_compute |].
  - apply (bool_decide_unpack _); by vm_compute.
  - repeat (apply List.Forall_cons; [try exact I; zforall|]). apply List.Forall_nil.
  - split; [apply Forall_replicate; reflexivity | by vm_compute].
Defined.

(** Calls that cannot be made do nothing: without a context, with an array
    that is missing, or with a quantity of 0 or beyond the protocol's limit the
    code is ARG; on a context that is not connected, or whose connection was
    closed after an error, it is NOT_CONNECTED; in all these cases nothing is
    sent, received or waited for, and context and array are unchanged. *)
Theorem tcp_client_rejects `{Indet} w :
  (forall r out, call r out (w, None) = Ok ((MB_TCP_CLIENT_ERR_ARG, out), (w, None))) /\
  (forall ctx addr qty out, out = None \/ qty = 0 \/ MODBUS_MAX_READ_REGISTERS < qty ->
     Forall (fun read => read addr qty out (w, ctx) = Ok ((MB_TCP_CLIENT_ERR_ARG, out), (w, ctx)))
       [mb_tcp_client_read_holding_registers; mb_tcp_client_read_input_registers]) /\
  (forall ctx addr qty out, out = None \/ qty = 0 \/ MODBUS_MAX_READ_BITS < qty ->
     Forall (fun read => read addr qty out (w, ctx) = Ok ((MB_TCP_CLIENT_ERR_ARG, out), (w, ctx)))
       [mb_tcp_client_read_coils; mb_tcp_client_read_discrete_inputs]) /\
  (forall ctx addr qty data, data = None \/ qty = 0 \/ MODBUS_MAX_WRITE_REGISTERS < qty ->
     mb_tcp_client_write_multiple_registers addr qty data (w, ctx) = Ok (MB_TCP_CLIENT_ERR_ARG, (w, ctx))) /\
  (forall ctx addr qty values, values = None \/ qty = 0 \/ MODBUS_MAX_WRITE_BITS < qty ->
     mb_tcp_client_write_multiple_coils addr qty values (w, ctx) = Ok (MB_TCP_CLIENT_ERR_ARG, (w, ctx))) /\
  (forall r out c, sendable r -> disconnected c ->
     call r (Some out) (w, Some c) = Ok ((MB_TCP_CLIENT_ERR_NOT_CONNECTED, Some out), (w, Some c))).
Proof.
  assert (forall (ctx : option mb_tcp_client_ctx) (a : option (list Z)) qty max,
    a = None \/ qty = 0 \/ max < qty -> is_null ctx || is_null a || (qty =? 0) || (max <? qty) = true) as Hg.
  { intros ctx a qty max [-> | [-> | Hq]]; [by rewrite orb_true_r | by rewrite !orb_true_r |].
    rewrite (proj2 (Z.ltb_lt _ _)) by done. by rewrite orb_true_r. }
  split_and!.
  - intros [fc ? ?|fc ? ?| | | |] out; cbn [call]; try done; by destruct (fc =? _).
  - intros ctx addr qty out Hq%(Hg ctx). apply Forall_forall. intros read Hin.
    rewrite !elem_of_cons, elem_of_nil in Hin.
    destruct Hin as [-> | [-> | []]]; unfold mb_tcp_client_read_holding_registers,
      mb_tcp_client_read_input_registers, read_registers; (erewrite bind_ok by done); cbv beta iota; by rewrite Hq.
  - intros ctx addr qty out Hq%(Hg ctx). apply Forall_forall. intros read Hin.
    rewrite !elem_of_cons, elem_of_nil in Hin.
    destruct Hin as [-> | [-> | []]]; unfold mb_tcp_client_read_coils,
      mb_tcp_client_read_discrete_inputs, read_bits; (erewrite bind_ok by done); cbv beta iota; by rewrite Hq.
  - intros ctx addr qty data Hq%(Hg ctx). unfold mb_tcp_client_write_multiple_registers.
    erewrite bind_ok by done. cbv beta iota. by rewrite Hq.
  - intros ctx addr qty data Hq%(Hg ctx). unfold mb_tcp_client_write_multiple_coils.
    erewrite bind_ok by done. cbv beta iota. by rewrite Hq.
  - intros r out c. apply call_disconnected.
Qed.

(** ** A response timeout beyond [INT_MAX] milliseconds

    [wait_readable] hands the remaining time to [poll] as an [int].  With a
    [response_timeout_ms] of 2^31 or more it becomes negative, which [poll]
    takes as "no timeout": the wait does not end when the time is over. *)
Theorem tcp_client_long_timeout `{Indet} deadline w t clk sel :
  clock w = t :: clk -> selects w = Expired :: sel ->
  2 ^ 31 <= deadline - time_ms t < 2 ^ 32 ->
  wait_readable deadline w = Fail Blocked.
Proof.
  intros Hc Hs Hd. rewrite wait_readable_run, Hc, Hs. cbn [awaited].
  rewrite (proj2 (Z.leb_gt _ _)) by lia. rewrite u64_small by (unfold is_u64; lia).
  rewrite (proj2 (Z.ltb_lt _ _)); [done|]. unfold int_of.
  change (2 ^ 31) with 2147483648 in *. change (2 ^ 32) with 4294967296 in *.
  Z.div_mod_to_equations. lia.
Qed.
