(* ===== verification/RtuServer.v ===== *)
(** * The RTU server: [src/modbus_rtu_server.c]

    The context keeps the bytes received so far; one call of
    [server_on_process] polls the serial line, cuts the first CRC-valid
    request out of those bytes and answers it.  The state is the world of the
    serial descriptor, the context and the application behind the callbacks;
    log calls are left out. *)

From S2P Require Import Prelude Buffer Defines Bits Pdu PduSpec Ptr Rtu Sys.

Definition RTU_OFFSET_UNIT_ID : Z := 0.
Definition RTU_OFFSET_FC : Z := 1.
Definition RTU_OFFSET_PDU : Z := 1.
Definition RTU_OFFSET_WRITE_BYTE_CNT : Z := 6.
Definition RTU_IO_FRAME_ERROR : Z := -10.
Definition MB_RTU_SERVER_UNIT_ID_ANY : Z := 0xFF.
Definition MB_RTU_SERVER_DEFAULT_RECV_TIMEOUT_MS : Z := MODBUS_RTU_DEFAULT_TIMEOUT_MS.

Record mb_rtu_server_config (U : Type) := SrvConfig {
  srv_device : option string;
  srv_baud_rate : Z;
  srv_data_bits : Z;
  srv_stop_bits : Z;
  srv_parity : Z;
  srv_unit_id : Z;
  srv_recv_timeout_ms : Z;
  srv_inter_frame_delay_us : Z;
  srv_rs485_mode : Z;
  srv_local_echo : Z;
  on_read : option (Z -> Z -> Z -> list Z -> U -> Z * list Z * U);
  on_write : option (Z -> Z -> list Z -> U -> Z * U);
  on_read_bits : option (Z -> Z -> Z -> list Z -> U -> Z * list Z * U);
  on_write_bits : option (Z -> Z -> list Z -> U -> Z * U);
  on_tx_enable : bool;
}.
Arguments SrvConfig {U}.
Arguments srv_device {U}.
Arguments srv_baud_rate {U}.
Arguments srv_data_bits {U}.
Arguments srv_stop_bits {U}.
Arguments srv_parity {U}.
Arguments srv_unit_id {U}.
Arguments srv_recv_timeout_ms {U}.
Arguments srv_inter_frame_delay_us {U}.
Arguments srv_rs485_mode {U}.
Arguments srv_local_echo {U}.
Arguments on_read {U}.
Arguments on_write {U}.
Arguments on_read_bits {U}.
Arguments on_write_bits {U}.
Arguments on_tx_enable {U}.

(** The request assembly state and the cached silence of the context. *)
Record mb_rtu_server_ctx := SrvCtx {
  rx_buffer : list Z;
  rx_len : Z;
  last_rx_us : Z;
  t35_us : Z;
}.

Definition set_rx_state (buf : list Z) (len last : Z) (c : mb_rtu_server_ctx) : mb_rtu_server_ctx :=
  SrvCtx buf len last (t35_us c).

(** ** Time *)

Definition current_time_us : st world Z :=
  let! ts := sys_clock in
  match ts with
  | None => ret 0
  | Some (sec, nsec) => ret (u64 (u64 (u64 sec * 1000000) + u64 nsec / 1000))
  end.

(** [nanosleep], resumed after every signal until the time is over. *)
Definition sleep_us (us : Z) : st world unit := act (Slept us).

Definition wait_response_silence (since_us required_us : Z) : st world unit :=
  if required_us =? 0 then ret tt
  else if since_us =? 0 then sleep_us required_us
  else
    let! now_us := current_time_us in
    if now_us <? since_us then sleep_us required_us
    else
      let elapsed_us := u64 (now_us - since_us) in
      if elapsed_us <? required_us then sleep_us (u64 (required_us - elapsed_us)) else ret tt.

(** ** Receiving *)

Definition reset_rx_state (c : mb_rtu_server_ctx) : mb_rtu_server_ctx := set_rx_state (rx_buffer c) 0 0 c.

Fixpoint read_available_loop (fuel : nat) (now_us : Z) : st (mb_rtu_server_ctx * world) Z :=
  match fuel with
  | O => stop NoFuel
  | S fuel' =>
      let! '(c, _) := get in
      if rx_len c <? MODBUS_RTU_MAX_ADU_LENGTH then
        let! n := on_snd (sys_read (MODBUS_RTU_MAX_ADU_LENGTH - rx_len c)) in
        match n with
        | inl bs =>
            if 0 <? zlen bs then
              let! '(_, buf) := lift (at_off (rx_len c) (memcpy bs (zlen bs)) (rx_buffer c)) in
              on_fst (put (set_rx_state buf (rx_len c + zlen bs) now_us c)) ;;;
              read_available_loop fuel' now_us
            else ret 0
        | inr e =>
            if decide (e = EINTR) then read_available_loop fuel' now_us
            else if decide (e = EAGAIN) then ret 0
            else ret (-1)
        end
      else ret 0
  end.

(** A read leaves the script shorter or fills the buffer. *)
Definition read_available_bytes (now_us : Z) : st (mb_rtu_server_ctx * world) Z := fun s =>
  read_available_loop (S (S (length (rx (snd s))))) now_us s.

(** ** Framing *)

(** Returns the code and the new value of [*total_len]. *)
Definition get_complete_request_len (adu : list Z) (rx_len adu_cap total_len : Z) : outcome (Z * Z) :=
  if rx_len <? 2 then Ok (0, total_len) else
  let? fc := load adu RTU_OFFSET_FC in
  if (fc =? MODBUS_FUNC_WRITE_MULTIPLE_COILS) || (fc =? MODBUS_FUNC_WRITE_MULTIPLE_REGISTERS) then
    if rx_len <=? RTU_OFFSET_WRITE_BYTE_CNT then Ok (0, total_len) else
    let? byte_count := load adu RTU_OFFSET_WRITE_BYTE_CNT in
    let frame_len := 9 + byte_count in
    if (byte_count =? 0) || (adu_cap <? frame_len) then Ok (RTU_IO_FRAME_ERROR, total_len)
    else if rx_len <? frame_len then Ok (0, total_len)
    else Ok (1, frame_len)
  else if adu_cap <? MODBUS_RTU_MIN_REQ_LENGTH then Ok (RTU_IO_FRAME_ERROR, total_len)
  else if rx_len <? MODBUS_RTU_MIN_REQ_LENGTH then Ok (0, total_len)
  else Ok (1, MODBUS_RTU_MIN_REQ_LENGTH).

(** [memmove] of the remaining bytes to the front; the cells behind keep what
    they held. *)
Definition drop_rx_bytes (count : Z) : st mb_rtu_server_ctx unit := fun c =>
  let remaining := u64 (rx_len c - count) in
  if 0 <? remaining then
    if count + remaining <=? zlen (rx_buffer c) then
      Ok (tt, set_rx_state (take (Z.to_nat remaining) (padd (rx_buffer c) count)
                            ++ drop (Z.to_nat remaining) (rx_buffer c))
                remaining (last_rx_us c) c)
    else Fail UB
  else Ok (tt, set_rx_state (rx_buffer c) remaining (last_rx_us c) c).

(** The search loop: the code it stops with and [frame_len]. *)
Fixpoint extract_loop (fuel : nat) (adu_cap frame_len : Z) : st mb_rtu_server_ctx (Z * Z) :=
  match fuel with
  | O => stop NoFuel
  | S fuel' =>
      let! c := get in
      let! '(rc, frame_len) := lift (get_complete_request_len (rx_buffer c) (rx_len c)
                                       (zlen (rx_buffer c)) frame_len) in
      if rc =? 0 then ret (rc, frame_len) else
      let! stop_here :=
        if (rc =? 1) && (frame_len <=? adu_cap) then
          let! v := lift (mb_rtu_validate_crc (Some (rx_buffer c)) frame_len) in ret (v =? 0)
        else ret false in
      if stop_here : bool then ret (rc, frame_len) else
      drop_rx_bytes 1 ;;;
      extract_loop fuel' adu_cap frame_len
  end.

Definition clear_if_empty : st mb_rtu_server_ctx unit :=
  let! c := get in
  if rx_len c =? 0 then put (set_rx_state (rx_buffer c) (rx_len c) 0 c) else ret tt.

(** Every round that goes on drops a byte: [rx_len + 1] rounds are enough.  The
    frame goes to [adu]; the result is the code and [*total_len]. *)
Definition extract_request_frame (adu_cap total_len : Z) : st (list Z * mb_rtu_server_ctx) (Z * Z) :=
  fun '(adu, c) =>
  (let! '(rc, frame_len) := on_snd (extract_loop (S (Z.to_nat (rx_len c))) adu_cap 0) in
   if rc =? 0 then
     on_snd clear_if_empty ;;;
     ret (0, total_len)
   else
     let! '(_, c) := get in
     on_fst (memcpy (rx_buffer c) frame_len) ;;;
     on_snd (drop_rx_bytes frame_len) ;;;
     on_snd clear_if_empty ;;;
     ret (1, frame_len)) (adu, c).

(** ** Sending *)

Fixpoint write_all_loop (fuel : nat) (buf : list Z) (len sent : Z) : st world Z :=
  match fuel with
  | O => stop NoFuel
  | S fuel' =>
      if sent <? len then
        let! n := sys_write (padd buf sent) (len - sent) in
        match n with
        | inr e =>
            if decide (e = EINTR) then write_all_loop fuel' buf len sent
            else if decide (e = EAGAIN) then
              act Waited ;;;
              write_all_loop fuel' buf len sent
            else ret (-1)
        | inl k => if k =? 0 then ret (-1) else write_all_loop fuel' buf len (sent + k)
        end
      else ret 0
  end.

Definition write_all (buf : list Z) (len : Z) : st world Z := fun w =>
  if len <=? zlen buf then
    (let! rc := write_all_loop (S (length (tx w))) buf len 0 in
     if rc <? 0 then ret (-1) else
     let! d := sys_tcdrain in
     if negb (d =? 0) then ret (-1) else ret 0) w
  else Fail UB.

Section Server.
Context {I : Indet} {U : Type}.
Variable cfg : mb_rtu_server_config U.

Definition effective_timeout_ms : Z :=
  if negb (srv_recv_timeout_ms cfg =? 0) then srv_recv_timeout_ms cfg
  else MB_RTU_SERVER_DEFAULT_RECV_TIMEOUT_MS.

Definition effective_inter_frame_us (c : mb_rtu_server_ctx) : Z :=
  mb_rtu_effective_timing (srv_inter_frame_delay_us cfg) (t35_us c).

Definition tx_enable (on : Z) : st world unit :=
  if on_tx_enable cfg then act (TxEnable on) else ret tt.

Definition send_frame (buf : list Z) (len : Z) : st world Z :=
  tx_enable 1 ;;;
  let! rc := write_all buf len in
  tx_enable 0 ;;;
  ret rc.

(** Every round reads the clock. *)
Fixpoint discard_echo_loop (fuel : nat) (deadline_us len got : Z) : st world unit :=
  match fuel with
  | O => stop NoFuel
  | S fuel' =>
      if got <? len then
        let! now_us := current_time_us in
        if deadline_us <=? now_us then ret tt else
        let! ready := sys_select in
        match ready with
        | Ready =>
            let! n := sys_read (len - got) in
            match n with
            | inl bs =>
                if 0 <? zlen bs then discard_echo_loop fuel' deadline_us len (got + zlen bs)
                else ret tt
            | inr e =>
                if decide (e = EINTR) then discard_echo_loop fuel' deadline_us len got
                else if decide (e = EAGAIN) then discard_echo_loop fuel' deadline_us len got
                else ret tt
            end
        | _ => discard_echo_loop fuel' deadline_us len got
        end
      else ret tt
  end.

Definition discard_echo (len : Z) : st world unit := fun w =>
  (let! now_us := current_time_us in
   let deadline_us := u64 (now_us + effective_timeout_ms * 1000) in
   discard_echo_loop (S (length (clock w))) deadline_us len 0) w.

(** ** The server *)

Definition unit_id_matches (unit_id : Z) : bool :=
  if unit_id =? MODBUS_RTU_BROADCAST_ADDRESS then true
  else if srv_unit_id cfg =? MB_RTU_SERVER_UNIT_ID_ANY then true
  else unit_id =? srv_unit_id cfg.

Definition handlers : mb_pdu_handlers U :=
  MkHandlers (on_read cfg) (on_write cfg) (on_read_bits cfg) (on_write_bits cfg).

Definition server_state : Type := (mb_rtu_server_ctx * world) * U.

(** [server_on_process] from the moment a request has been extracted. *)
Definition server_dispatch (adu : list Z) (total_len request_end_us : Z) : st server_state Z :=
  let! unit_id := lift (load adu RTU_OFFSET_UNIT_ID) in
  let! fc := lift (load adu RTU_OFFSET_FC) in
  let is_broadcast := unit_id =? MODBUS_RTU_BROADCAST_ADDRESS in
  if negb (unit_id_matches unit_id) then ret 0 else
  if is_broadcast && negb (mb_pdu_is_write fc) then ret 0 else
  let pdu_len := total_len - RTU_OFFSET_PDU - MODBUS_RTU_CRC_LEN in
  let! '(_, u) := get in
  let! '((resp_pdu_len, u'), resp) := lift
    (at_off RTU_OFFSET_PDU (mb_pdu_handle_request handlers (padd adu RTU_OFFSET_PDU) pdu_len u)
       (auto_u8 MODBUS_RTU_MAX_ADU_LENGTH)) in
  on_snd (put u') ;;;
  if is_broadcast then ret 0 else
  let! '(_, resp) := lift (store RTU_OFFSET_UNIT_ID unit_id resp) in
  let resp_len := RTU_OFFSET_PDU + resp_pdu_len in
  let! '(rc, resp) := lift (mb_rtu_append_crc resp_len (zlen resp) (Some resp)) in
  if negb (rc =? 0) then ret (-1) else
  let! resp := lift (fun_ptr resp) in
  let resp_len := resp_len + MODBUS_RTU_CRC_LEN in
  let! '((c, _), _) := get in
  on_fst (on_snd (wait_response_silence request_end_us (effective_inter_frame_us c))) ;;;
  let! sent := on_fst (on_snd (send_frame resp resp_len)) in
  if negb (sent =? 0) then ret (-1) else
  (if negb (srv_local_echo cfg =? 0) then on_fst (on_snd (discard_echo resp_len)) else ret tt) ;;;
  ret 0.

Definition server_on_process : st server_state Z :=
  let! now_us := on_fst (on_snd current_time_us) in
  let timeout_us := u64 (effective_timeout_ms * 1000) in
  let! '((c, _), _) := get in
  (if (0 <? rx_len c) && (0 <? last_rx_us c) && (last_rx_us c <=? now_us)
      && (timeout_us <? u64 (now_us - last_rx_us c))
   then on_fst (on_fst (put (reset_rx_state c))) else ret tt) ;;;
  let! rc := on_fst (read_available_bytes now_us) in
  if rc <? 0 then ret (-1) else
  let! '((c, _), _) := get in
  let request_end_us := last_rx_us c in
  let! '((found, total_len), (adu, c)) := lift
    (extract_request_frame MODBUS_RTU_MAX_ADU_LENGTH 0 (auto_u8 MODBUS_RTU_MAX_ADU_LENGTH, c)) in
  on_fst (on_fst (put c)) ;;;
  if found =? 0 then ret 0 else
  server_dispatch adu total_len request_end_us.
End Server.

(** [mb_rtu_server_config_init]. *)
Definition mb_rtu_server_config_init {U} (cfg : option (mb_rtu_server_config U))
    : option (mb_rtu_server_config U) :=
  match cfg with
  | None => None
  | Some _ => Some (SrvConfig None 9600 8 1 MB_RTU_PARITY_NONE 0
                      MB_RTU_SERVER_DEFAULT_RECV_TIMEOUT_MS 0 MB_RTU_RS485_NONE 0
                      None None None None false)
  end.
