(* ===== verification/RtuServerSpec.v ===== *)
(** * What the RTU server promises

    [resync] cuts the first valid request out of the received bytes,
    [arrived] is what one poll of the line delivers, and [rtu_reply] what is
    answered to a request.  The run lemmas say that the pieces of
    [RtuServer] compute them; [rtu_server_on_process_run] puts them together. *)

From S2P Require Import Prelude Buffer Defines Bits Pdu PduSpec PduClient Ptr Rtu Crc RtuFrames Sys RtuServer.

(** ** The bytes a context holds *)

Definition held (c : mb_rtu_server_ctx) : list Z := take (Z.to_nat (rx_len c)) (rx_buffer c).

Definition srv_inv (c : mb_rtu_server_ctx) : Prop :=
  length (rx_buffer c) = 256%nat /\ bytes (rx_buffer c) /\ 0 <= rx_len c <= 256.

(** A context that differs only in its assembly state. *)
Definition same_timing (c c' : mb_rtu_server_ctx) : Prop := t35_us c' = t35_us c.

Lemma held_length c : srv_inv c -> zlen (held c) = rx_len c.
Proof. intros (Hl & _ & Hr). unfold held. rewrite length_take. lia. Qed.

Lemma held_bytes c : srv_inv c -> bytes (held c).
Proof. intros (_ & Hb & _). by apply Forall_take. Qed.

Lemma held_split c : srv_inv c -> rx_buffer c = held c ++ drop (Z.to_nat (rx_len c)) (rx_buffer c).
Proof. intros _. unfold held. by rewrite take_drop. Qed.

(** ** Framing *)

Inductive candidate := Incomplete | Malformed | Complete (n : nat).

(** The request that may start at the first byte: a multiple write announces
    its length, every other request has eight bytes. *)
Definition classify (l : list Z) : candidate :=
  match l with
  | _ :: fc :: _ =>
      if (fc =? MODBUS_FUNC_WRITE_MULTIPLE_COILS) || (fc =? MODBUS_FUNC_WRITE_MULTIPLE_REGISTERS)
      then
        match l !! 6%nat with
        | None => Incomplete
        | Some byte_count =>
            if (byte_count =? 0) || (256 <? 9 + byte_count) then Malformed
            else if zlen l <? 9 + byte_count then Incomplete
            else Complete (Z.to_nat (9 + byte_count))
        end
      else if zlen l <? 8 then Incomplete else Complete 8
  | _ => Incomplete
  end.

(** Skip bytes until a complete candidate with a valid CRC starts. *)
Fixpoint resync (l : list Z) : option (list Z) * list Z :=
  match l with
  | [] => (None, [])
  | _ :: t =>
      match classify l with
      | Incomplete => (None, l)
      | Malformed => resync t
      | Complete n => if frame_ok (take n l) then (Some (take n l), drop n l) else resync t
      end
  end.

Lemma classify_complete l n : bytes l -> classify l = Complete n -> (8 <= n <= length l)%nat /\ (n <= 256)%nat.
Proof.
  intros Hb. destruct l as [|a [|fc l]]; try done. unfold classify.
  destruct (_ || _).
  - destruct ((a :: fc :: l) !! 6%nat) as [bc|] eqn:Hbc; [|done].
    assert (is_u8 bc) as Hu by (by eapply Forall_lookup_1). unfold is_u8 in Hu.
    destruct ((bc =? 0) || (256 <? 9 + bc)) eqn:H1; [done|].
    apply orb_false_iff in H1 as [H1%Z.eqb_neq H2%Z.ltb_ge].
    destruct (Z.ltb_spec (zlen (a :: fc :: l)) (9 + bc)); [done|]. intros [= <-]. lia.
  - destruct (Z.ltb_spec (zlen (a :: fc :: l)) 8); [done|]. intros [= <-]. lia.
Qed.

Lemma resync_spec l :
  bytes l ->
  match resync l with
  | (None, rest) => (rest = [] \/ classify rest = Incomplete) /\ rest `suffix_of` l
  | (Some f, rest) => classify (f ++ rest) = Complete (length f) /\ frame_ok f = true /\
                      (f ++ rest) `suffix_of` l
  end.
Proof.
  intros Hb. induction Hb as [|b l Hb Hl IH]; [by split; [left | apply suffix_nil]|].
  cbn [resync]. assert (forall x, x `suffix_of` l -> x `suffix_of` (b :: l)) as Hs
    by (intros x; apply suffix_cons_r).
  assert (match resync l with
    | (None, rest) => (rest = [] \/ classify rest = Incomplete) /\ rest `suffix_of` (b :: l)
    | (Some f, rest) => classify (f ++ rest) = Complete (length f) /\ frame_ok f = true /\
                        (f ++ rest) `suffix_of` (b :: l)
    end) as IH' by (destruct (resync l) as [[f|] rest]; [destruct IH as (? & ? & ?) | destruct IH]; auto).
  destruct (classify (b :: l)) as [| |n] eqn:Hc; [by auto | done |].
  destruct (frame_ok (take n (b :: l))) eqn:Hok; [|done].
  apply classify_complete in Hc as Hn; [|by apply List.Forall_cons].
  rewrite take_drop, Hc. split; [|done]. f_equal. rewrite length_take. lia.
Qed.

Lemma get_complete_run c tl :
  srv_inv c ->
  get_complete_request_len (rx_buffer c) (rx_len c) (zlen (rx_buffer c)) tl
  = Ok (match classify (held c) with
        | Incomplete => (0, tl)
        | Malformed => (RTU_IO_FRAME_ERROR, tl)
        | Complete n => (1, Z.of_nat n)
        end).
Proof.
  intros Hi. pose proof (held_length c Hi) as Hl. pose proof (held_bytes c Hi) as Hb.
  pose proof (held_split c Hi) as Hs. destruct Hi as (Hbl & _ & Hr).
  unfold get_complete_request_len. rewrite Hbl. rewrite Hs. set (more := drop _ _). clearbody more.
  rewrite <- Hl in *. revert Hb Hr. generalize (held c). clear. intros l Hb Hr.
  destruct l as [|a [|fc l]]; [done | done |].
  rewrite (proj2 (Z.ltb_ge _ _)) by (simpl; lia). erewrite obind_ok by done.
  unfold classify. destruct (_ || _).
  - unfold RTU_OFFSET_WRITE_BYTE_CNT. destruct (Z.leb_spec (zlen (a :: fc :: l)) 6) as [H6|H6].
    { by rewrite lookup_ge_None_2 by lia. }
    destruct (lookup_lt_is_Some_2 (a :: fc :: l) 6) as [bc Hbc]; [lia|].
    erewrite obind_ok by (apply load_ok; [lia | by apply lookup_app_l_Some]).
    rewrite Hbc. change (Z.of_nat 256) with 256. cbv zeta. destruct (_ || _) eqn:H1; [done|].
    destruct (Z.ltb_spec (zlen (a :: fc :: l)) (9 + bc)); [done|].
    apply (Forall_lookup_1 _ _ _ _ Hb) in Hbc. unfold is_u8 in Hbc. by rewrite Z2Nat.id by lia.
  - unfold MODBUS_RTU_MIN_REQ_LENGTH. change (Z.of_nat 256 <? 8) with false.
    by destruct (Z.ltb_spec (zlen (a :: fc :: l)) 8).
Qed.

Lemma drop_rx_run c n :
  srv_inv c -> 0 <= n <= rx_len c ->
  exists c', drop_rx_bytes n c = Ok (tt, c') /\ srv_inv c' /\ held c' = drop (Z.to_nat n) (held c) /\
    last_rx_us c' = last_rx_us c /\ same_timing c c'.
Proof.
  intros Hi Hn. pose proof Hi as (Hl & Hb & Hr). unfold drop_rx_bytes.
  rewrite u64_small by (unfold is_u64; lia).
  destruct (Z.ltb_spec 0 (rx_len c - n)) as [Hpos|Hpos].
  - rewrite (proj2 (Z.leb_le _ _)) by lia. eexists. split; [done|].
    set (t := take (Z.to_nat (rx_len c - n)) (padd (rx_buffer c) n)).
    assert (length t = Z.to_nat (rx_len c - n)) as Ht
      by (subst t; unfold padd; rewrite length_take, length_drop; lia).
    split; [|split; [|done]].
    + split; [|split]; cbn [rx_buffer rx_len set_rx_state]; [|apply Forall_app_2|lia].
      * rewrite length_app, length_drop. lia.
      * by apply Forall_take, Forall_drop.
      * by apply Forall_drop.
    + unfold held at 1. cbn [rx_buffer rx_len set_rx_state]. rewrite take_app_length' by done.
      subst t. unfold held, padd. rewrite skipn_firstn_comm. f_equal. lia.
  - eexists. split; [done|]. split; [|split; [|done]].
    + split; [done|]. split; [done|]. cbn [rx_len set_rx_state]. lia.
    + unfold held. cbn [rx_buffer rx_len set_rx_state].
      replace (rx_len c - n) with 0 by lia. replace n with (rx_len c) by lia.
      symmetry. apply drop_ge. rewrite length_take. lia.
Qed.

Lemma extract_loop_run fuel fl c :
  srv_inv c -> rx_len c < Z.of_nat fuel ->
  exists c', srv_inv c' /\ last_rx_us c' = last_rx_us c /\ same_timing c c' /\
  match resync (held c) with
  | (None, rest) => exists fl', extract_loop fuel 256 fl c = Ok ((0, fl'), c') /\ held c' = rest
  | (Some f, rest) => extract_loop fuel 256 fl c = Ok ((1, zlen f), c') /\ held c' = f ++ rest
  end.
Proof.
  revert fl c. induction fuel as [|fuel IH]; intros fl c Hi Hf;
    [destruct Hi as (_ & _ & Hr); lia|].
  pose proof (held_length c Hi) as Hl. pose proof (held_bytes c Hi) as Hb.
  cbn [extract_loop]. erewrite bind_ok by done.
  erewrite bind_ok by (apply lift_ok, get_complete_run; done).
  destruct (held c) as [|b l] eqn:Hh.
  { exists c. split; [done|]. split; [done|]. split; [done|]. cbn [resync]. by exists fl. }
  assert (exists c', drop_rx_bytes 1 c = Ok (tt, c') /\ srv_inv c' /\ held c' = l /\
    last_rx_us c' = last_rx_us c /\ same_timing c c') as (c1 & Hdrop & Hi1 & Hh1 & Hlast & Ht).
  { destruct (drop_rx_run c 1 Hi) as (c1 & ? & ? & Hd & ? & ?); [simpl in Hl; lia|].
    rewrite Hh in Hd. by exists c1. }
  assert (rx_len c1 < Z.of_nat fuel) as Hf1.
  { pose proof (held_length c1 Hi1) as Hl1. rewrite Hh1 in Hl1. simpl in Hl. lia. }
  assert (forall fl, exists c', srv_inv c' /\ last_rx_us c' = last_rx_us c /\ same_timing c c' /\
    match resync l with
    | (None, rest) => exists fl', extract_loop fuel 256 fl c1 = Ok ((0, fl'), c') /\ held c' = rest
    | (Some f, rest) => extract_loop fuel 256 fl c1 = Ok ((1, zlen f), c') /\ held c' = f ++ rest
    end) as IH1.
  { intros fl1. destruct (IH fl1 c1 Hi1 Hf1) as (c' & Hi' & Hlast' & Ht' & Hm). rewrite Hh1 in Hm.
    exists c'. split; [done|]. split; [congruence|]. by split; [unfold same_timing in *; congruence|]. }
  cbn [resync]. destruct (classify (b :: l)) as [| |n] eqn:Hc; cbv beta iota.
  - exists c. split; [done|]. split; [done|]. split; [done|]. by exists fl.
  - change (RTU_IO_FRAME_ERROR =? 0) with false. change (RTU_IO_FRAME_ERROR =? 1) with false.
    cbn [andb]. erewrite bind_ok by done. cbv beta iota. erewrite bind_ok by exact Hdrop. apply IH1.
  - apply classify_complete in Hc as [Hn Hn256]; [|done].
    pose proof Hi as (Hbl & Hbb & Hr).
    change (1 =? 0) with false. change (1 =? 1) with true. cbv iota.
    rewrite (proj2 (Z.leb_le _ _)) by lia. cbn [andb].
    rewrite (bind_ok _ _ _ (frame_ok (take n (b :: l))) c).
    2:{ erewrite bind_ok by (apply lift_ok, validate_crc_run; [done | lia]).
        rewrite Nat2Z.id. replace (take n (rx_buffer c)) with (take n (b :: l)).
        - unfold ret. by destruct (frame_ok _).
        - rewrite <- Hh. unfold held. rewrite take_take. f_equal. lia. }
    destruct (frame_ok (take n (b :: l))).
    + exists c. split; [done|]. split; [done|]. split; [done|].
      rewrite take_drop. split; [|done]. unfold ret. do 3 f_equal. rewrite length_take. lia.
    + erewrite bind_ok by exact Hdrop. apply IH1.
Qed.

(** The time stamp is cleared with the last byte. *)
Definition last_after (rest : list Z) (last : Z) : Z := if zlen rest =? 0 then 0 else last.

Lemma clear_if_empty_run c :
  srv_inv c ->
  exists c', clear_if_empty c = Ok (tt, c') /\ srv_inv c' /\ held c' = held c /\
    last_rx_us c' = last_after (held c) (last_rx_us c) /\ same_timing c c'.
Proof.
  intros Hi. unfold clear_if_empty, last_after. rewrite held_length by done.
  erewrite bind_ok by done. destruct (rx_len c =? 0); [|by exists c].
  eexists. split; [done|]. done.
Qed.

Lemma extract_request_frame_run c adu tl :
  srv_inv c -> length adu = 256%nat ->
  let '(found, rest) := resync (held c) in
  exists c', srv_inv c' /\ held c' = rest /\ same_timing c c' /\
    last_rx_us c' = last_after rest (last_rx_us c) /\
    extract_request_frame 256 tl (adu, c)
    = match found with
      | None => Ok ((0, tl), (adu, c'))
      | Some f => Ok ((1, zlen f), (f ++ drop (length f) adu, c'))
      end.
Proof.
  intros Hi Ha. pose proof (held_length c Hi) as Hl. unfold extract_request_frame.
  destruct (extract_loop_run (S (Z.to_nat (rx_len c))) 0 c Hi ltac:(lia)) as (c1 & Hi1 & Hlast & Ht & Hm).
  destruct (resync (held c)) as [[f|] rest].
  - destruct Hm as [Hrun Hh1].
    pose proof (held_length c1 Hi1) as Hl1. rewrite Hh1, length_app in Hl1.
    pose proof Hi1 as (Hbl & _ & Hr).
    destruct (drop_rx_run c1 (zlen f) Hi1) as (c2 & Hdrop & Hi2 & Hh2 & Hlast2 & Ht2); [lia|].
    rewrite Hh1, Nat2Z.id, drop_app_length in Hh2.
    destruct (clear_if_empty_run c2 Hi2) as (c3 & Hclear & Hi3 & Hh3 & Hlast3 & Ht3).
    exists c3. rewrite Hh3, Hh2. split; [done|]. split; [done|].
    unfold same_timing in *. split; [congruence|]. split; [rewrite Hlast3, Hh2; congruence|].
    rewrite (bind_ok _ _ _ (1, zlen f) (adu, c1)) by (unfold on_snd; by rewrite Hrun).
    cbv beta iota. change (1 =? 0) with false. cbv iota. erewrite bind_ok by done. cbv beta iota.
    erewrite bind_ok by (apply on_fst_ok, memcpy_ok; lia).
    rewrite (held_split c1 Hi1), Hh1, <- app_assoc, Nat2Z.id, take_app_length.
    rewrite (bind_ok _ _ _ tt (f ++ drop (length f) adu, c2)) by (unfold on_snd; by rewrite Hdrop).
    by rewrite (bind_ok _ _ _ tt (f ++ drop (length f) adu, c3)) by (unfold on_snd; by rewrite Hclear).
  - destruct Hm as (fl' & Hrun & Hh1).
    destruct (clear_if_empty_run c1 Hi1) as (c3 & Hclear & Hi3 & Hh3 & Hlast3 & Ht3).
    exists c3. rewrite Hh3, Hh1. split; [done|]. split; [done|].
    unfold same_timing in *. split; [congruence|]. split; [rewrite Hlast3, Hh1; congruence|].
    rewrite (bind_ok _ _ _ (0, fl') (adu, c1)) by (unfold on_snd; by rewrite Hrun).
    cbv beta iota. change (0 =? 0) with true. cbv iota.
    by rewrite (bind_ok _ _ _ tt (adu, c3)) by (unfold on_snd; by rewrite Hclear).
Qed.

(** ** Receiving *)

(** What one poll with [room] free bytes takes from the line, and how it ends:
    normally, with an error, or ([None]) still blocked. *)
Fixpoint arrived (room : Z) (l : list rx_event) : list Z * option bool :=
  if room <=? 0 then ([], Some true) else
  match l with
  | [] => ([], None)
  | RxErr EINTR :: r => arrived room r
  | RxErr EAGAIN :: _ => ([], Some true)
  | RxErr _ :: _ => ([], Some false)
  | RxData bs :: r =>
      if zlen bs =? 0 then ([], Some true)
      else if zlen bs <=? room then
        let '(more, e) := arrived (room - zlen bs) r in (bs ++ more, e)
      else (take (Z.to_nat room) bs, Some true)
  end.

Definition stamp (bs : list Z) (now last : Z) : Z := if zlen bs =? 0 then last else now.

Lemma stamp_app bs more now last : bs <> [] -> stamp (bs ++ more) now last = stamp more now now.
Proof.
  intros Hbs. unfold stamp. rewrite length_app. destruct bs; [done|].
  rewrite (proj2 (Z.eqb_neq _ _)) by (simpl; lia). by destruct (_ =? _).
Qed.

(** The end of a poll that started with [c]. *)
Definition poll_result (c : mb_rtu_server_ctx) (w : world) (now : Z)
    (o : outcome (Z * (mb_rtu_server_ctx * world))) : Prop :=
  let '(bs, e) := arrived (256 - rx_len c) (rx w) in
  match e with
  | None => o = Fail Blocked
  | Some ok => exists c' r', o = Ok (if ok : bool then 0 else -1, (c', set_rx r' w)) /\
      srv_inv c' /\ held c' = held c ++ bs /\ last_rx_us c' = stamp bs now (last_rx_us c) /\
      same_timing c c' /\ rx_bytes r'
  end.

Lemma poll_done c w now ok :
  srv_inv c -> rx_bytes (rx w) -> arrived (256 - rx_len c) (rx w) = ([], Some ok) ->
  forall r', rx_bytes r' -> poll_result c w now (Ok (if ok : bool then 0 else -1, (c, set_rx r' w))).
Proof.
  intros Hi Hb Ha r' Hr'. unfold poll_result. rewrite Ha. exists c, r'. by rewrite app_nil_r.
Qed.

Lemma append_run c bs now :
  srv_inv c -> bytes bs -> zlen bs <= 256 - rx_len c ->
  exists buf, at_off (rx_len c) (memcpy bs (zlen bs)) (rx_buffer c) = Ok (tt, buf) /\
    let c' := set_rx_state buf (rx_len c + zlen bs) now c in
    srv_inv c' /\ held c' = held c ++ bs.
Proof.
  intros Hi Hbs Hn. pose proof (held_length c Hi) as Hl. pose proof Hi as (Hbl & Hb & Hr).
  eexists. split.
  - apply at_off_ok; [lia|]. apply memcpy_ok; [lia | rewrite length_drop; lia].
  - rewrite Nat2Z.id, firstn_all, drop_drop. fold (held c). split; [split; [|split]|];
      cbn [rx_buffer rx_len set_rx_state].
    + rewrite !length_app, length_drop. lia.
    + apply Forall_app_2; [by apply held_bytes | apply Forall_app_2; [done | by apply Forall_drop]].
    + lia.
    + unfold held at 1. cbn [rx_buffer rx_len set_rx_state]. rewrite app_assoc.
      apply take_app_length'. rewrite length_app. lia.
Qed.

Lemma poll_data c w now bs r c' o :
  rx w = RxData bs :: r -> (0 < length bs)%nat -> zlen bs <= 256 - rx_len c ->
  held c' = held c ++ bs -> rx_len c' = rx_len c + zlen bs -> last_rx_us c' = now -> same_timing c c' ->
  poll_result c' (set_rx r w) now o -> poll_result c w now o.
Proof.
  intros Hrx Hbs Hn Hh Hlen Hlast Ht. unfold poll_result. rewrite Hrx, Hlen.
  cbn [rx set_rx arrived]. rewrite (proj2 (Z.leb_gt (256 - rx_len c) 0)) by lia.
  rewrite (proj2 (Z.eqb_neq _ _)), (proj2 (Z.leb_le _ _)) by lia.
  replace (256 - (rx_len c + zlen bs)) with (256 - rx_len c - zlen bs) by lia.
  destruct (arrived _ r) as [more [ok|]]; [|done].
  intros (c2 & r' & -> & Hi & Hh2 & Hl2 & Ht2 & Hb). exists c2, r'.
  split; [done|]. split; [done|]. split; [by rewrite Hh2, Hh, app_assoc|].
  split; [rewrite Hl2, Hlast, stamp_app; [done | by destruct bs; simpl in Hbs; [lia|]]|].
  unfold same_timing in *. split; [congruence | done].
Qed.

Lemma poll_signal c w now r o :
  rx w = RxErr EINTR :: r -> rx_len c < 256 ->
  poll_result c (set_rx r w) now o -> poll_result c w now o.
Proof.
  intros Hrx Hn. unfold poll_result. rewrite Hrx. cbn [rx set_rx arrived].
  by rewrite (proj2 (Z.leb_gt _ _)) by lia.
Qed.

Lemma read_available_loop_run fuel now c w :
  srv_inv c -> rx_bytes (rx w) -> (S (length (rx w)) < fuel)%nat ->
  poll_result c w now (read_available_loop fuel now (c, w)).
Proof.
  revert c w. induction fuel as [|fuel IH]; intros c w Hi Hb Hf; [lia|].
  cbn [read_available_loop]. erewrite bind_ok by done. cbv beta iota.
  unfold MODBUS_RTU_MAX_ADU_LENGTH. destruct (Z.ltb_spec (rx_len c) 256) as [Hlt|Hge].
  2:{ replace w with (set_rx (rx w) w) at 2 by (by destruct w).
      apply (poll_done c w now true); [done | done | | done].
      destruct (rx w); cbn [arrived]; by rewrite (proj2 (Z.leb_le _ _)) by lia. }
  destruct (rx w) as [|[bs|e] r] eqn:Hrx.
  - rewrite (bind_fail _ _ _ Blocked) by (unfold on_snd, sys_read; by rewrite Hrx).
    unfold poll_result. rewrite Hrx. cbn [arrived]. by rewrite (proj2 (Z.leb_gt _ _)) by lia.
  - apply Forall_cons_iff in Hb as [Hbs Hb]. simpl in Hf.
    destruct (Z.leb_spec (zlen bs) (256 - rx_len c)) as [Hle|Hgt].
    + rewrite (bind_ok _ _ _ (inl bs) (c, set_rx r w))
        by (unfold on_snd, sys_read; by rewrite Hrx, (proj2 (Z.leb_le _ _)) by lia).
      cbv beta iota. destruct (Z.ltb_spec 0 (zlen bs)) as [Hpos|Hz].
      * destruct (append_run c bs now Hi Hbs Hle) as (buf & Happ & Hi' & Hh').
        erewrite bind_ok by (apply lift_ok, Happ). cbv beta iota. erewrite bind_ok by done.
        eapply poll_data; [done | lia | done | exact Hh' | done | done | done |].
        apply IH; [done | done | simpl; lia].
      * apply (poll_done c w now true); [done | by rewrite Hrx; apply List.Forall_cons | | done].
        rewrite Hrx. cbn [arrived].
        by rewrite (proj2 (Z.leb_gt _ _)), (proj2 (Z.eqb_eq _ _)) by lia.
    + set (n := Z.to_nat (256 - rx_len c)).
      set (w1 := set_rx (RxData (drop n bs) :: r) w).
      rewrite (bind_ok _ _ _ (inl (take n bs)) (c, w1))
        by (unfold on_snd, sys_read; by rewrite Hrx, (proj2 (Z.leb_gt _ _)) by lia).
      cbv beta iota. assert (zlen (take n bs) = 256 - rx_len c) as Hl by (rewrite length_take; lia).
      rewrite (proj2 (Z.ltb_lt _ _)) by lia.
      destruct (append_run c (take n bs) now Hi) as (buf & Happ & Hi' & Hh');
        [by apply Forall_take | lia |].
      erewrite bind_ok by (apply lift_ok, Happ). cbv beta iota. erewrite bind_ok by done.
      destruct fuel as [|fuel]; [lia|]. cbn [read_available_loop]. erewrite bind_ok by done.
      cbv beta iota. cbn [rx_len set_rx_state]. unfold MODBUS_RTU_MAX_ADU_LENGTH.
      rewrite (proj2 (Z.ltb_ge _ _)) by lia. unfold poll_result. rewrite Hrx. cbn [arrived].
      rewrite !(proj2 (Z.leb_gt _ _)), (proj2 (Z.eqb_neq _ _)) by lia. fold n.
      eexists _, (RxData (drop n bs) :: r). split; [done|]. split; [exact Hi'|]. split; [exact Hh'|].
      split; [unfold stamp; by rewrite (proj2 (Z.eqb_neq _ _)) by lia|].
      split; [done | apply List.Forall_cons; [by apply Forall_drop | done]].
  - apply Forall_cons_iff in Hb as [_ Hb]. simpl in Hf.
    rewrite (bind_ok _ _ _ (inr e) (c, set_rx r w)) by (unfold on_snd, sys_read; by rewrite Hrx).
    cbv beta iota. case_decide as He; [subst e|case_decide as He2; [subst e|]].
    + eapply poll_signal; [done | lia |]. apply IH; [done | done | simpl; lia].
    + apply (poll_done c w now true); [done | by rewrite Hrx; apply List.Forall_cons | | done].
      rewrite Hrx. cbn [arrived]. by rewrite (proj2 (Z.leb_gt _ _)) by lia.
    + apply (poll_done c w now false); [done | by rewrite Hrx; apply List.Forall_cons | | done].
      rewrite Hrx. cbn [arrived]. rewrite (proj2 (Z.leb_gt _ _)) by lia. by destruct e.
Qed.

Lemma read_available_run c w now :
  srv_inv c -> rx_bytes (rx w) -> poll_result c w now (read_available_bytes now (c, w)).
Proof. intros Hi Hb. by apply read_available_loop_run; [| |simpl; lia]. Qed.
