(* ===== verification/RtuServerSend.v ===== *)
(** * The RTU server on the line: silence, transmission, echo

    [transmit] is the part of [server_on_process] that runs once a response is
    ready.  Its run lemma gives the order of the visible actions: the silence,
    the transmit-enable hook, the bytes of the frame, the hook again. *)

From S2P Require Import Prelude Buffer Defines Bits Pdu PduSpec PduClient Ptr Rtu Crc RtuFrames Sys RtuServer.

(** ** Writing *)

Lemma write_all_loop_run fuel buf sent bs w more :
  padd buf sent = bs ++ more -> 0 <= sent -> (length (tx w) < fuel)%nat ->
  send_result on_signal_or_full bs w (write_all_loop fuel buf (sent + zlen bs) sent w).
Proof.
  revert sent bs w. induction fuel as [|fuel IH]; intros sent bs w Hbuf Hs Hf; [lia|].
  cbn [write_all_loop]. destruct (decide (bs = [])) as [->|Hbs].
  { rewrite (proj2 (Z.ltb_ge _ _)) by (simpl; lia). apply send_result_nil. }
  assert (0 < zlen bs) as Hpos by (destruct bs; simpl; [done | lia]).
  rewrite (proj2 (Z.ltb_lt _ _)) by lia.
  replace (sent + zlen bs - sent) with (zlen bs) by lia. rewrite Hbuf.
  unfold bind at 1, sys_write. destruct (tx w) as [|[k|e] r] eqn:Htx; simpl in Hf.
  - by apply send_result_blocked.
  - set (m := Z.min k (zlen bs)). destruct (Z.leb_spec k 0) as [Hk|Hk].
    + replace (Z.min (Z.max k 0) (zlen bs)) with 0 by lia. by apply (send_result_zero _ _ _ k).
    + replace (Z.min (Z.max k 0) (zlen bs)) with m by lia.
      rewrite (proj2 (Z.eqb_neq _ _)) by lia. rewrite take_app_le by lia.
      apply (send_result_chunk _ _ _ k r); [done..|]. fold m.
      replace (sent + zlen bs) with (sent + m + zlen (drop (Z.to_nat m) bs))
        by (rewrite length_drop; lia).
      apply IH; [|lia | simpl; lia].
      unfold padd in *. rewrite Z2Nat.inj_add by lia.
      by rewrite <- drop_drop, Hbuf, drop_app_le by lia.
  - case_decide as He; [subst e|case_decide as He2; [subst e|]].
    + apply (send_result_retry _ _ _ EINTR r (set_tx r w)); auto. by apply IH; [| |simpl; lia].
    + apply (send_result_retry _ _ _ EAGAIN r (log Waited (set_tx r w))); auto.
      erewrite bind_ok by done. by apply IH; [| |simpl; lia].
    + apply (send_result_error _ _ _ e); [done..|]. unfold on_signal_or_full.
      by rewrite !bool_decide_eq_false_2.
Qed.

(** Everything accepted and drained, or -1, or still waiting. *)
Definition write_result (bs : list Z) (w : world) (o : outcome (Z * world)) : Prop :=
  match accepts on_signal_or_full (tx w) (zlen bs), drains w with
  | Some true, [] => o = Fail Blocked
  | Some true, d :: r => exists w1, wrote w bs w1 /\ drains w1 = d :: r /\
      o = Ok (if d =? 0 then 0 else -1, set_drains r w1)
  | Some false, _ => exists w1 out, o = Ok (-1, w1) /\ wrote w out w1 /\ out `prefix_of` bs
  | None, _ => o = Fail Blocked
  end.

Lemma wrote_drains w out w' : wrote w out w' -> drains w' = drains w.
Proof. by intros (? & ? & _ & _ & ->). Qed.

Lemma write_all_run bs more w : write_result bs w (write_all (bs ++ more) (zlen bs) w).
Proof.
  unfold write_all. rewrite (proj2 (Z.leb_le _ _)) by (rewrite length_app; lia).
  assert (send_result on_signal_or_full bs w
    (write_all_loop (S (length (tx w))) (bs ++ more) (zlen bs) 0 w)) as Hs
    by (by apply (write_all_loop_run _ _ 0 _ _ more); [|lia | lia]).
  unfold send_result in Hs. unfold write_result.
  destruct (accepts on_signal_or_full (tx w) (zlen bs)) as [[]|].
  - destruct Hs as (w1 & Hrun & Hw & _). erewrite bind_ok by exact Hrun. change (0 <? 0) with false.
    cbv iota. pose proof (wrote_drains _ _ _ Hw) as Hd.
    unfold bind, sys_tcdrain, pop. rewrite Hd. destruct (drains w) as [|d r]; [done|].
    exists w1. split; [done|]. split; [done|]. by destruct (d =? 0).
  - destruct Hs as (w1 & out & Hrun & Hw & Hp). exists w1, out.
    by erewrite bind_ok by exact Hrun.
  - by erewrite bind_fail by exact Hs.
Qed.

Section Send.
Context {U : Type} (cfg : mb_rtu_server_config U).

(** ** Transmission of a response *)

Definition transmit (silence since : Z) (resp : list Z) (resp_len : Z) : st world Z :=
  wait_response_silence since silence ;;;
  let! sent := send_frame cfg resp resp_len in
  if negb (sent =? 0) then ret (-1) else
  (if negb (srv_local_echo cfg =? 0) then discard_echo cfg resp_len else ret tt) ;;;
  ret 0.

(** The actions of one transmission that wrote [out] after the pause [pause]. *)
Definition hook (on : Z) : list action := if on_tx_enable cfg then [TxEnable on] else [].

Definition transmitted (w : world) (pause : list action) (out : list Z) (w' : world) : Prop :=
  exists tr, trace w' = trace w ++ pause ++ hook 1 ++ tr ++ hook 0 /\
    Forall (fun a => is_write a = true) tr /\ concat (map sent_bytes tr) = out.

(** The time a clock reading stands for. *)
Definition time_us (ts : option (Z * Z)) : Z :=
  match ts with
  | None => 0
  | Some (sec, nsec) => u64 (u64 (u64 sec * 1000000) + u64 nsec / 1000)
  end.

Lemma current_time_run w :
  current_time_us w = match clock w with
                      | [] => Fail Blocked
                      | ts :: r => Ok (time_us ts, set_clock r w)
                      end.
Proof.
  unfold current_time_us, bind, sys_clock, pop. destruct (clock w) as [|[[sec nsec]|] r]; done.
Qed.

Lemma time_us_u64 ts : is_u64 (time_us ts).
Proof. destruct ts as [[sec nsec]|]; [apply Z.mod_pos_bound; lia | done]. Qed.

(** The pause before a response and the clock it leaves, [None] when the clock
    has not answered: the whole silence when the end of the request is unknown
    or the clock went back, else what is missing of it. *)
Definition pause (silence since : Z) (clk : list (option (Z * Z)))
    : option (list action * list (option (Z * Z))) :=
  if silence =? 0 then Some ([], clk)
  else if since =? 0 then Some ([Slept silence], clk)
  else match clk with
       | [] => None
       | ts :: r =>
           let now := time_us ts in
           Some (if now <? since then [Slept silence]
                 else if now - since <? silence then [Slept (silence - (now - since))] else [], r)
       end.

Definition after (w : world) (acts : list action) (clk : list (option (Z * Z))) : world :=
  World (rx w) (tx w) clk (selects w) (drains w) (trace w ++ acts).

Lemma wait_silence_run silence since w :
  is_u64 silence -> is_u64 since ->
  wait_response_silence since silence w
  = match pause silence since (clock w) with
    | None => Fail Blocked
    | Some (acts, clk) => Ok (tt, after w acts clk)
    end.
Proof.
  intros Hs Hsi. unfold wait_response_silence, pause, after.
  assert (forall l, World (rx w) (tx w) l (selects w) (drains w) (trace w ++ []) = set_clock l w) as Hnil
    by (intros l; by rewrite app_nil_r).
  destruct (silence =? 0); [rewrite Hnil; by destruct w|].
  destruct (since =? 0); [done|].
  unfold bind. rewrite current_time_run. destruct (clock w) as [|ts r]; [done|].
  pose proof (time_us_u64 ts). set (now := time_us ts) in *. clearbody now. unfold is_u64 in *.
  destruct (Z.ltb_spec now since); [done|].
  rewrite (u64_small (now - since)) by (unfold is_u64; lia).
  destruct (Z.ltb_spec (now - since) silence); [|by rewrite Hnil].
  rewrite u64_small by (unfold is_u64; lia). done.
Qed.

Lemma tx_enable_run on w : tx_enable cfg on w = Ok (tt, after w (hook on) (clock w)).
Proof.
  unfold tx_enable, hook, after. destruct (on_tx_enable cfg); [done|].
  rewrite app_nil_r. by destruct w.
Qed.

Lemma send_frame_run bs more w :
  match send_frame cfg (bs ++ more) (zlen bs) w with
  | Ok (rc, w') => (rc = 0 \/ rc = -1) /\ exists out, transmitted w [] out w' /\
      out `prefix_of` bs /\ (rc = 0 -> out = bs) /\ rx w' = rx w /\ clock w' = clock w /\
      selects w' = selects w
  | Fail e => e = Blocked
  end.
Proof.
  unfold send_frame. erewrite bind_ok by apply tx_enable_run.
  set (w1 := after w (hook 1) (clock w)).
  pose proof (write_all_run bs more w1) as Hw. unfold write_result in Hw.
  assert (forall rc d w2 out, wrote w1 out w2 -> out `prefix_of` bs -> rc = 0 \/ rc = -1 ->
    (rc = 0 -> out = bs) ->
    match (tx_enable cfg 0 ;;; ret rc) (set_drains d w2) with
    | Ok (rc, w') => (rc = 0 \/ rc = -1) /\ exists out, transmitted w [] out w' /\
        out `prefix_of` bs /\ (rc = 0 -> out = bs) /\ rx w' = rx w /\ clock w' = clock w /\
        selects w' = selects w
    | Fail e => e = Blocked
    end) as Hend.
  { intros rc d w2 out (tx2 & tr & Htr & Ho & ->) Hp Hrc Heq.
    erewrite bind_ok by apply tx_enable_run. cbn. split; [done|]. exists out.
    split; [|done]. exists tr. split; [|done]. cbn. by rewrite <- !app_assoc. }
  destruct (accepts on_signal_or_full (tx w1) (zlen bs)) as [[]|].
  - destruct (drains w1) as [|d r]; [by erewrite bind_fail by exact Hw|].
    destruct Hw as (w2 & Hw2 & _ & Hrun). erewrite bind_ok by exact Hrun.
    apply (Hend _ _ _ bs); [done | done | by destruct (d =? 0); auto | done].
  - destruct Hw as (w2 & out & Hrun & Hw2 & Hp). erewrite bind_ok by exact Hrun.
    replace w2 with (set_drains (drains w2) w2) by (by destruct w2).
    by apply (Hend _ _ _ out); auto.
  - by erewrite bind_fail by exact Hw.
Qed.

(** ** The local echo *)

Lemma discard_echo_loop_run fuel deadline len got w :
  0 <= got <= len -> (length (clock w) < fuel)%nat ->
  match discard_echo_loop fuel deadline len got w with
  | Ok (_, w') => trace w' = trace w /\ tx w' = tx w /\ drains w' = drains w
  | Fail e => e = Blocked
  end.
Proof.
  revert got w. induction fuel as [|fuel IH]; intros got w Hg Hf; [lia|].
  cbn [discard_echo_loop]. destruct (Z.ltb_spec got len) as [Hlt|]; [|done].
  unfold bind at 1. rewrite current_time_run. destruct (clock w) as [|ts clk] eqn:Hc; [done|].
  destruct (deadline <=? time_us ts); [done|]. simpl in Hf.
  unfold bind at 1, sys_select, pop. cbn [selects set_clock].
  destruct (selects w) as [|s sel]; [done|].
  set (w1 := set_selects sel (set_clock clk w)).
  assert (forall got' l, 0 <= got' <= len ->
    match discard_echo_loop fuel deadline len got' (set_rx l w1) with
    | Ok (_, w') => trace w' = trace w /\ tx w' = tx w /\ drains w' = drains w
    | Fail e => e = Blocked
    end) as IH1.
  { intros got' l Hg'. apply (IH got' (set_rx l w1)); [done | simpl; lia]. }
  pose proof (IH1 got (rx w1) Hg) as Hagain.
  replace (set_rx (rx w1) w1) with w1 in Hagain by (by destruct w1).
  destruct s; [|exact Hagain..].
  unfold bind at 1, sys_read. destruct (rx w1) as [|[bs|e] r]; [done| |].
  - destruct (Z.leb_spec (zlen bs) (len - got)).
    + destruct (Z.ltb_spec 0 (zlen bs)); [apply IH1; lia | done].
    + rewrite length_take. destruct (Z.ltb_spec 0 (Z.of_nat (Z.to_nat (len - got) `min` length bs)));
        [apply IH1; lia | done].
  - case_decide; [by apply IH1|]. case_decide; [by apply IH1 | done].
Qed.

Lemma discard_echo_run len w :
  0 <= len ->
  match discard_echo cfg len w with
  | Ok (_, w') => trace w' = trace w /\ tx w' = tx w /\ drains w' = drains w
  | Fail e => e = Blocked
  end.
Proof.
  intros Hl. unfold discard_echo, bind. rewrite current_time_run.
  destruct (clock w) as [|ts clk] eqn:Hc; [done|]. cbv zeta.
  apply (discard_echo_loop_run _ _ len 0 (set_clock clk w)); [lia | simpl; lia].
Qed.

Lemma transmit_run silence since bs more w :
  is_u64 silence -> is_u64 since ->
  match transmit silence since (bs ++ more) (zlen bs) w with
  | Ok (rc, w') => (rc = 0 \/ rc = -1) /\
      exists acts clk out, pause silence since (clock w) = Some (acts, clk) /\
        transmitted w acts out w' /\ out `prefix_of` bs /\ (rc = 0 -> out = bs)
  | Fail e => e = Blocked
  end.
Proof.
  intros Hs Hsi. unfold transmit, bind at 1. rewrite wait_silence_run by done.
  destruct (pause silence since (clock w)) as [[acts clk]|]; [|done].
  set (w1 := after w acts clk). pose proof (send_frame_run bs more w1) as Hf.
  unfold bind at 1. destruct (send_frame cfg (bs ++ more) (zlen bs) w1) as [[rc w2]|e]; [|done].
  destruct Hf as (Hrc & out & (tr & Htr & Hio & Ho) & Hp & Heq & _).
  assert (transmitted w acts out w2) as Ht.
  { exists tr. split; [|done]. rewrite Htr. unfold w1, after. simpl. by rewrite <- app_assoc. }
  destruct (Z.eqb_spec rc 0) as [->|Hne]; cbn [negb].
  - assert (forall w3, trace w3 = trace w2 -> exists acts' clk' out', Some (acts, clk) = Some (acts', clk') /\
      transmitted w acts' out' w3 /\ out' `prefix_of` bs /\ (0 = 0 -> out' = bs)) as Hdone.
    { intros w3 Hw3. exists acts, clk, out. split; [done|]. split; [|auto].
      destruct Ht as (tr' & H1 & H2 & H3). exists tr'. by rewrite Hw3. }
    unfold bind. destruct (srv_local_echo cfg =? 0); cbn [negb].
    + split; [by left|]. by apply Hdone.
    + pose proof (discard_echo_run (zlen bs) w2 ltac:(lia)) as He.
      destruct (discard_echo cfg (zlen bs) w2) as [[[] w3]|e]; [|done].
      split; [by left|]. apply Hdone, He.
  - split; [by right|]. exists acts, clk, out. split; [done|]. split; [done|]. split; [done|].
    intros [=].
Qed.

(** On a line that accepts bytes and drains, the whole response goes out. *)
Lemma send_frame_ok bs more w r :
  eager on_signal_or_full (tx w) (zlen bs) -> drains w = 0 :: r ->
  exists w', send_frame cfg (bs ++ more) (zlen bs) w = Ok (0, w') /\ transmitted w [] bs w'.
Proof.
  intros He Hd. unfold send_frame. erewrite bind_ok by apply tx_enable_run.
  set (w1 := after w (hook 1) (clock w)).
  pose proof (write_all_run bs more w1) as Hw. unfold write_result in Hw.
  rewrite <- (Z.add_0_r (zlen bs)) in He. apply eager_accepts in He as [Hacc _]; [|lia..].
  change (tx w1) with (tx w) in Hw. change (drains w1) with (drains w) in Hw. rewrite Hacc, Hd in Hw.
  destruct Hw as (w2 & (tx2 & tr & Htr & Ho & ->) & _ & Hrun). erewrite bind_ok by exact Hrun.
  erewrite bind_ok by apply tx_enable_run. eexists. split; [done|].
  exists tr. split; [|done]. cbn. by rewrite <- !app_assoc.
Qed.

Lemma transmit_ok silence since bs more w acts clk r :
  is_u64 silence -> is_u64 since -> pause silence since (clock w) = Some (acts, clk) ->
  eager on_signal_or_full (tx w) (zlen bs) -> drains w = 0 :: r -> srv_local_echo cfg = 0 ->
  exists w', transmit silence since (bs ++ more) (zlen bs) w = Ok (0, w') /\
    transmitted w acts bs w'.
Proof.
  intros Hs Hsi Hp He Hd Hecho. unfold transmit.
  rewrite (bind_ok _ _ _ tt (after w acts clk)) by (by rewrite wait_silence_run, Hp).
  destruct (send_frame_ok bs more (after w acts clk) r He Hd) as (w' & Hrun & tr & Htr & Hrest).
  erewrite bind_ok by exact Hrun. rewrite Hecho. cbn [Z.eqb negb]. exists w'. split; [done|].
  exists tr. split; [|done]. rewrite Htr. cbn. by rewrite <- !app_assoc.
Qed.

Lemma transmitted_output w acts out w' :
  transmitted w acts out w' -> Forall (fun a => sent_bytes a = []) acts -> output w' = output w ++ out.
Proof.
  intros (tr & Htr & _ & <-) Ha. unfold output. rewrite Htr, !map_app, !concat_app.
  assert (concat (map sent_bytes acts) = []) as -> by (clear Htr; induction Ha as [|a l H _ IH]; [done | simpl; rewrite H; exact IH]).
  assert (forall on, concat (map sent_bytes (hook on)) = []) as Hh
    by (intros on; unfold hook; by destruct (on_tx_enable cfg)).
  by rewrite !Hh, app_nil_r.
Qed.

Lemma pause_silent silence since clk acts clk' :
  pause silence since clk = Some (acts, clk') -> Forall (fun a => sent_bytes a = []) acts.
Proof.
  unfold pause. destruct (silence =? 0); [by intros [= <- _]|].
  destruct (since =? 0); [intros [= <- _]; by repeat constructor|].
  destruct clk as [|ts r]; [done|]. intros [= <- _]. repeat case_match; by repeat constructor.
Qed.
End Send.
