(* ===== verification/RtuServerRun.v ===== *)
(** * One call of the RTU server

    The refinement lemma: [server_on_process] is the clock check, a poll of
    the line, the cut of the first request and its answer. *)

From S2P Require Import Prelude Buffer Defines Bits Pdu PduSpec PduClient Ptr Rtu Crc RtuFrames Sys RtuServer RtuServerSpec RtuServerSend.

(** The answer to a request frame.  Broadcasts are executed if they are writes
    and never answered; frames for another unit are ignored. *)
Definition rtu_reply {U} (own : Z) (d : device U) (f : list Z) (u : U) : option (list Z) * U :=
  if unit_of f =? MODBUS_RTU_BROADCAST_ADDRESS then
    if mb_pdu_is_write (f !!! 1%nat) then (None, snd (respond d (pdu_of f) u)) else (None, u)
  else if (own =? MB_RTU_SERVER_UNIT_ID_ANY) || (unit_of f =? own) then
    let '(r, u') := respond d (pdu_of f) u in
    (Some (adu (unit_of f) (encode_response r)), u')
  else (None, u).

(** Bytes older than the timeout are dropped before a poll. *)
Definition stale (timeout_ms now : Z) (c : mb_rtu_server_ctx) : bool :=
  (0 <? rx_len c) && (0 <? last_rx_us c) && (last_rx_us c <=? now)
  && (timeout_ms * 1000 <? now - last_rx_us c).

Definition freshen (timeout_ms now : Z) (c : mb_rtu_server_ctx) : mb_rtu_server_ctx :=
  if stale timeout_ms now c then reset_rx_state c else c.

Lemma freshen_inv t now c : srv_inv c -> srv_inv (freshen t now c).
Proof.
  intros (Hl & Hb & Hr). unfold freshen. destruct (stale t now c); [|done].
  split; [done|]. split; [done|]. simpl. lia.
Qed.

Section Run.
Context `{Indet} {U : Type} (cfg : mb_rtu_server_config U) (d : device U).
Context `{!Implements (handlers cfg) d}.

(** What happens after a request frame [f] has been cut out: nothing visible,
    or the transmission of the response. *)
Definition answer_result (c : mb_rtu_server_ctx) (w : world) (since : Z) (f : list Z) (u : U)
    (o : outcome (Z * server_state)) : Prop :=
  match rtu_reply (srv_unit_id cfg) d f u with
  | (None, u') => o = Ok (0, ((c, w), u'))
  | (Some out, u') => exists more,
      o = match transmit cfg (effective_inter_frame_us cfg c) since (out ++ more) (zlen out) w with
          | Ok (rc, w') => Ok (rc, ((c, w'), u'))
          | Fail e => Fail e
          end
  end.

Lemma rtu_dispatch_pdu_run f tl u resp :
  bytes (f ++ tl) -> 8 <= zlen f <= 256 -> zlen resp = 256 ->
  let '(r, u') := respond d (pdu_of f) u in
  at_off RTU_OFFSET_PDU (mb_pdu_handle_request (handlers cfg) (padd (f ++ tl) RTU_OFFSET_PDU)
    (zlen f - RTU_OFFSET_PDU - MODBUS_RTU_CRC_LEN) u) resp
  = Ok ((zlen (encode_response r), u'),
        take 1 resp ++ encode_response r ++ drop (length (encode_response r)) (drop 1 resp)).
Proof.
  intros Hb Hf Hr. unfold padd, RTU_OFFSET_PDU, MODBUS_RTU_CRC_LEN, pdu_of.
  change (Z.to_nat 1) with 1%nat. rewrite drop_app_le by lia.
  apply Forall_app in Hb as [Hbf Hbt].
  destruct (respond d (take (length f - 3) (drop 1 f)) u) as [r u'] eqn:Hresp.
  apply at_off_ok; [lia|].
  rewrite (handle_request_run _ d); [| |rewrite length_app, length_drop; lia|rewrite length_drop; lia].
  2:{ apply Forall_app_2; [by apply Forall_drop | done]. }
  replace (take (Z.to_nat (zlen f - 1 - 2)) (drop 1 f ++ tl)) with (take (length f - 3) (drop 1 f)).
  - by rewrite Hresp.
  - rewrite take_app_le by (rewrite length_drop; lia). f_equal. lia.
Qed.

(** The response frame is completed around the PDU. *)
Lemma complete_frame_run unit_id pdu resp :
  zlen resp = 256 -> 2 <= zlen pdu <= 253 ->
  exists r1, store RTU_OFFSET_UNIT_ID unit_id
      (take 1 resp ++ pdu ++ drop (length pdu) (drop 1 resp)) = Ok (tt, r1) /\ length r1 = 256%nat /\
  exists more, mb_rtu_append_crc (RTU_OFFSET_PDU + zlen pdu) (zlen r1) (Some r1)
    = Ok (0, Some (adu unit_id pdu ++ more)).
Proof.
  intros Hr Hp. unfold RTU_OFFSET_UNIT_ID, RTU_OFFSET_PDU.
  destruct resp as [|r0 resp]; [done|]. cbn [take drop app]. rewrite take_0. cbn [app].
  rewrite store_ok by (simpl length; lia). eexists. split; [done|].
  change (Z.to_nat 0) with 0%nat. cbn [insert list_insert length].
  assert (length (pdu ++ drop (length pdu) resp) = 255%nat) as Hl
    by (rewrite length_app, length_drop; simpl in Hr; lia).
  rewrite drop_0. split; [lia|].
  rewrite append_crc_run by (unfold is_u64; simpl length; rewrite ?Hl; lia).
  replace (Z.to_nat (1 + zlen pdu)) with (length (unit_id :: pdu)) by (simpl; lia).
  change (unit_id :: pdu ++ drop (length pdu) resp) with ((unit_id :: pdu) ++ drop (length pdu) resp).
  rewrite take_app_length. eexists. unfold adu. by rewrite <- app_assoc.
Qed.

Lemma unit_id_matches_eq f :
  unit_of f <> MODBUS_RTU_BROADCAST_ADDRESS ->
  unit_id_matches cfg (unit_of f) = (srv_unit_id cfg =? MB_RTU_SERVER_UNIT_ID_ANY) || (unit_of f =? srv_unit_id cfg).
Proof.
  intros Hn. unfold unit_id_matches. rewrite (proj2 (Z.eqb_neq _ _)) by done.
  by destruct (srv_unit_id cfg =? _).
Qed.

Lemma rtu_server_dispatch_run f tl since c w u :
  bytes (f ++ tl) -> 8 <= zlen f <= 256 ->
  answer_result c w since f u (server_dispatch cfg (f ++ tl) (zlen f) since ((c, w), u)).
Proof.
  intros Hb Hf. unfold server_dispatch, answer_result, rtu_reply.
  do 2 (erewrite bind_ok by (apply lift_ok, load_lookup_total;
    unfold RTU_OFFSET_UNIT_ID, RTU_OFFSET_FC; rewrite length_app; lia)).
  rewrite !lookup_total_app_l by (unfold RTU_OFFSET_UNIT_ID, RTU_OFFSET_FC; lia).
  change (Z.to_nat RTU_OFFSET_UNIT_ID) with 0%nat. change (Z.to_nat RTU_OFFSET_FC) with 1%nat.
  fold (unit_of f). cbv zeta.
  pose proof (rtu_dispatch_pdu_run f tl u (auto_u8 MODBUS_RTU_MAX_ADU_LENGTH) Hb Hf
    ltac:(rewrite auto_u8_length; done)) as Hrun.
  pose proof (respond_bound (handlers cfg) d (pdu_of f) u) as Hbound.
  destruct (respond d (pdu_of f) u) as [r u']. cbn [fst snd] in *.
  destruct (Z.eqb_spec (unit_of f) MODBUS_RTU_BROADCAST_ADDRESS) as [Hbc|Hbc].
  - replace (unit_id_matches cfg (unit_of f)) with true by (unfold unit_id_matches; by rewrite Hbc).
    cbn [negb andb]. destruct (mb_pdu_is_write (f !!! 1%nat)); cbn [negb]; [|done].
    erewrite bind_ok by done. cbv beta iota. by erewrite bind_ok by (apply lift_ok, Hrun).
  - rewrite unit_id_matches_eq by done. destruct (_ || _); [|done]. cbn [negb andb].
    erewrite bind_ok by done. cbv beta iota.
    erewrite bind_ok by (apply lift_ok, Hrun). cbv beta iota. erewrite bind_ok by done.
    destruct (complete_frame_run (unit_of f) (encode_response r) (auto_u8 MODBUS_RTU_MAX_ADU_LENGTH))
      as (r1 & Hstore & Hl1 & more & Hcrc); [by rewrite auto_u8_length | done |].
    erewrite bind_ok by (apply lift_ok, Hstore). cbv beta iota.
    erewrite bind_ok by (apply lift_ok, Hcrc). cbv beta iota.
    change (0 =? 0) with true. cbn [negb]. erewrite bind_ok by by apply lift_ok.
    erewrite bind_ok by done. cbv beta iota. exists more.
    replace (RTU_OFFSET_PDU + zlen (encode_response r) + MODBUS_RTU_CRC_LEN)
      with (zlen (adu (unit_of f) (encode_response r)))
      by (rewrite adu_length; unfold RTU_OFFSET_PDU, MODBUS_RTU_CRC_LEN; lia).
    set (out := adu (unit_of f) (encode_response r)).
    unfold transmit, bind, on_fst, on_snd. cbv beta iota.
    destruct (wait_response_silence since _ w) as [[[] w1]|]; [|done].
    destruct (send_frame cfg (out ++ more) (zlen out) w1) as [[sent w2]|]; [|done].
    destruct (negb (sent =? 0)); [done|].
    destruct (negb (srv_local_echo cfg =? 0)); [|done].
    by destruct (discard_echo cfg (zlen out) w2) as [[[] w3]|].
Qed.

(** Only the line and the clock have moved. *)
Definition polled (w : world) (r' : list rx_event) (clk : list (option (Z * Z))) : world :=
  World r' (tx w) clk (selects w) (drains w) (trace w).

Definition process_result (c : mb_rtu_server_ctx) (w : world) (u : U)
    (o : outcome (Z * server_state)) : Prop :=
  match clock w with
  | [] => o = Fail Blocked
  | ts :: clk =>
      let now := time_us ts in
      let c0 := freshen (effective_timeout_ms cfg) now c in
      let '(bs, e) := arrived (256 - rx_len c0) (rx w) in
      let since := stamp bs now (last_rx_us c0) in
      match e with
      | None => o = Fail Blocked
      | Some ok => exists c' r', srv_inv c' /\ same_timing c c' /\ rx_bytes r' /\
          if ok : bool then
            let '(found, rest) := resync (held c0 ++ bs) in
            held c' = rest /\ last_rx_us c' = last_after rest since /\
            match found with
            | None => o = Ok (0, ((c', polled w r' clk), u))
            | Some f => answer_result c' (polled w r' clk) since f u o
            end
          else held c' = held c0 ++ bs /\ last_rx_us c' = since /\ o = Ok (-1, ((c', polled w r' clk), u))
      end
  end.

Lemma stale_code now c :
  is_u64 now -> is_u64 (last_rx_us c) -> is_u32 (effective_timeout_ms cfg) ->
  (0 <? rx_len c) && (0 <? last_rx_us c) && (last_rx_us c <=? now)
    && (u64 (effective_timeout_ms cfg * 1000) <? u64 (now - last_rx_us c))
  = stale (effective_timeout_ms cfg) now c.
Proof.
  intros Hn Hl Ht. unfold stale. rewrite (u64_small (_ * 1000)) by (unfold is_u64, is_u32 in *; lia).
  destruct (Z.leb_spec (last_rx_us c) now); [|by rewrite !andb_false_r].
  by rewrite u64_small by (unfold is_u64 in *; lia).
Qed.

Lemma rtu_server_on_process_run c w u :
  srv_inv c -> is_u64 (last_rx_us c) -> is_u32 (effective_timeout_ms cfg) -> rx_bytes (rx w) ->
  process_result c w u (server_on_process cfg ((c, w), u)).
Proof.
  intros Hi Hlast Ht Hb. unfold process_result, server_on_process.
  destruct (clock w) as [|ts clk] eqn:Hclk.
  { by rewrite (bind_fail _ _ _ Blocked)
      by (unfold on_fst, on_snd; by rewrite current_time_run, Hclk). }
  set (now := time_us ts). set (w0 := set_clock clk w).
  rewrite (bind_ok _ _ _ now ((c, w0), u))
    by (unfold on_fst, on_snd; by rewrite current_time_run, Hclk).
  cbv zeta. erewrite bind_ok by done. cbv beta iota.
  rewrite stale_code by (done || apply time_us_u64).
  set (c0 := freshen (effective_timeout_ms cfg) now c).
  rewrite (bind_ok _ _ _ tt ((c0, w0), u)) by (subst c0; unfold freshen; by destruct (stale _ _ c)).
  assert (srv_inv c0) as Hi0 by by apply freshen_inv.
  assert (same_timing c c0) as Ht0 by (subst c0; unfold freshen; by destruct (stale _ _ c)).
  pose proof (read_available_run c0 w0 now Hi0 Hb) as Hp. unfold poll_result in Hp.
  change (rx w0) with (rx w) in Hp.
  destruct (arrived (256 - rx_len c0) (rx w)) as [bs [ok|]].
  2:{ by rewrite (bind_fail _ _ _ Blocked) by (unfold on_fst; by rewrite Hp). }
  destruct Hp as (c1 & r' & Hrun & Hi1 & Hh1 & Hl1 & Ht1 & Hb1).
  rewrite (bind_ok _ _ _ (if ok : bool then 0 else -1) ((c1, set_rx r' w0), u))
    by (unfold on_fst; by rewrite Hrun).
  change (set_rx r' w0) with (polled w r' clk). destruct ok.
  2:{ exists c1, r'. split; [done|]. split; [unfold same_timing in *; congruence|]. done. }
  change (0 <? 0) with false. cbv iota. erewrite bind_ok by done. cbv beta iota zeta.
  assert (length (auto_u8 MODBUS_RTU_MAX_ADU_LENGTH) = 256%nat) as Hadu by by rewrite auto_u8_length.
  pose proof (extract_request_frame_run c1 (auto_u8 MODBUS_RTU_MAX_ADU_LENGTH) 0 Hi1 Hadu) as He.
  rewrite Hh1 in He. pose proof (resync_spec (held c0 ++ bs)) as Hr.
  pose proof (held_bytes c1 Hi1) as Hhb. rewrite Hh1 in Hhb. specialize (Hr Hhb).
  destruct (resync (held c0 ++ bs)) as [[f|] rest].
  - destruct He as (c2 & Hi2 & Hh2 & Ht2 & Hl2 & Hrun2). rewrite Hl1 in Hl2.
    erewrite bind_ok by (apply lift_ok, Hrun2). cbv beta iota. erewrite bind_ok by done.
    change (1 =? 0) with false. cbv iota. exists c2, r'. split; [done|].
    split; [unfold same_timing in *; congruence|]. split; [done|]. split; [done|]. split; [done|].
    destruct Hr as (Hc & _ & [x Hx]). rewrite Hl1.
    assert (bytes (f ++ rest)) as Hfr by (rewrite Hx in Hhb; by apply Forall_app in Hhb as [_ ?]).
    apply classify_complete in Hc; [|done]. rewrite length_app in Hc.
    apply rtu_server_dispatch_run; [|lia].
    apply Forall_app in Hfr as [Hbf _]. apply Forall_app_2; [done|].
    apply Forall_drop, auto_u8_bytes.
  - destruct He as (c2 & Hi2 & Hh2 & Ht2 & Hl2 & Hrun2). rewrite Hl1 in Hl2.
    erewrite bind_ok by (apply lift_ok, Hrun2). cbv beta iota. erewrite bind_ok by done.
    exists c2, r'. split; [done|].
    split; [unfold same_timing in *; congruence|]. done.
Qed.
End Run.
