(* ===== verification/RtuServerTheorems.v ===== *)
(** * Properties of the RTU server

    Refinement of one call, resynchronisation, assembly of frames from pieces,
    progress, broadcasts, the discipline on the line and safety. *)

From S2P Require Import Prelude Buffer Defines Bits Pdu PduSpec PduClient Bank Ptr Rtu Crc RtuFrames Sys RtuServer RtuServerSpec RtuServerSend RtuServerRun.

#[local] Instance junk : Indet := fun i => 13 + 3 * Z.of_nat i.

Definition bank_config (unit_id : Z) : mb_rtu_server_config bank :=
  SrvConfig (Some "/dev/ttyS0"%string) 9600 8 1 MB_RTU_PARITY_NONE unit_id 0 0 0 0
    (Some e2e_read) (Some e2e_write) (Some e2e_read_bits) (Some e2e_write_bits) true.

#[local] Instance bank_config_implements unit_id :
  Implements (handlers (bank_config unit_id)) bank_device := bank_implements.

Definition sample_bank : bank :=
  Bank (map (fun i => 1000 + i) (seqZ 0 64)) (map (fun i => i mod 3) (seqZ 0 64)).

(** A context that holds [l]. *)
Definition holding (l : list Z) (last : Z) : mb_rtu_server_ctx :=
  SrvCtx (l ++ replicate (256 - length l) 0) (zlen l) last 3646.

(** Noise, then a read of two registers, cut into two polls. *)
Definition sample_frame : list Z := adu 1 [3; 0; 10; 0; 2].
Definition sample_world (l : list rx_event) : world :=
  World l (replicate 20 (TxTakes 7)) [Some (5, 0); Some (5, 1000000); Some (5, 2000000)] [] [0] [].

(** C2. One call of the RTU server does exactly what its specification says, for
    every behaviour of the line and the clock: bytes older than the timeout are
    dropped, what has arrived is appended, the first CRC-valid request is cut
    out, and it is answered (after the silence, between the transmit-enable
    hooks) if it is for this unit, executed silently if it is a broadcast
    write, and ignored otherwise. *)
Theorem rtu_server_refines `{Indet} {U} (cfg : mb_rtu_server_config U) (d : device U)
    `{!Implements (handlers cfg) d} c w u :
  srv_inv c -> is_u64 (last_rx_us c) -> is_u32 (effective_timeout_ms cfg) -> rx_bytes (rx w) ->
  process_result cfg d c w u (server_on_process cfg ((c, w), u)).
Proof. intros Hi Hl Ht Hb. by apply rtu_server_on_process_run. Qed.

Lemma holding_inv l last : bytes l -> (length l <= 256)%nat -> srv_inv (holding l last).
Proof.
  intros Hb Hl. split; [|split]; cbn [rx_buffer rx_len holding]; [|apply Forall_app_2|lia].
  - rewrite length_app, length_replicate. lia.
  - done.
  - apply Forall_replicate. done.
Qed.

Lemma rtu_server_refines_witness :
  process_result (bank_config 1) bank_device (holding [255; 1; 3] 4999000)
    (sample_world [RxData [0; 10; 0]; RxErr EAGAIN]) sample_bank
    (server_on_process (bank_config 1)
      ((holding [255; 1; 3] 4999000, sample_world [RxData [0; 10; 0]; RxErr EAGAIN]), sample_bank)).
Proof.
  apply (rtu_server_refines (bank_config 1) bank_device).
  - apply holding_inv; [zforall | simpl; lia].
  - by vm_compute.
  - by vm_compute.
  - cbn [rx sample_world]. repeat (apply List.Forall_cons; [try exact I; zforall|]). apply List.Forall_nil.
Defined.

(** ** Resynchronisation *)

(** No request starts in [l] at an offset before [n]: what starts there is
    malformed or fails its CRC, and nothing is left undecided. *)
Definition no_request_before (l : list Z) (n : nat) : Prop :=
  forall i, (i < n)%nat ->
    match classify (drop i l) with
    | Incomplete => False
    | Malformed => True
    | Complete k => frame_ok (take k (drop i l)) = false
    end.

Lemma no_request_cons b l n :
  match classify (b :: l) with
  | Incomplete => False | Malformed => True | Complete k => frame_ok (take k (b :: l)) = false
  end -> no_request_before l n -> no_request_before (b :: l) (S n).
Proof. intros H0 Hn [|i] Hi; [done|]. apply (Hn i). lia. Qed.

Lemma resync_first l :
  let '(found, rest) := resync l in
  exists skipped, l = skipped ++ default [] found ++ rest /\ no_request_before l (length skipped).
Proof.
  induction l as [|b l IH]; [exists []; split; [done | intros i Hi; simpl in Hi; lia]|].
  cbn [resync]. destruct (resync l) as [found rest] eqn:Hr. destruct IH as (sk & -> & Hn).
  assert (forall i, no_request_before i 0) as H0 by (intros i j Hj; lia).
  pose proof (no_request_cons b (sk ++ default [] found ++ rest) (length sk)) as Hcons.
  set (l := sk ++ default [] found ++ rest) in *.
  destruct (classify (b :: l)) as [| |n].
  - by exists [].
  - exists (b :: sk). split; [done | by apply Hcons].
  - destruct (frame_ok (take n (b :: l))).
    + exists []. split; [|done]. simpl. by rewrite take_drop.
    + exists (b :: sk). split; [done | by apply Hcons].
Qed.

(** C17. Resynchronisation finds the first request: [extract_request_frame]
    always ends, within its buffers; it skips only bytes at which no valid
    request starts, the frame it copies out is complete with a valid CRC, and
    when it finds none the bytes it keeps are nothing or the undecided
    beginning of a request.  The bytes behind are kept in order. *)
Theorem extract_finds_first_request c adu_buf :
  srv_inv c -> length adu_buf = 256%nat ->
  exists code total adu_buf' c' skipped found rest,
    extract_request_frame 256 0 (adu_buf, c) = Ok ((code, total), (adu_buf', c')) /\
    srv_inv c' /\ held c' = rest /\ held c = skipped ++ found ++ rest /\
    no_request_before (held c) (length skipped) /\
    ((code = 1 /\ total = zlen found /\ take (length found) adu_buf' = found /\
      classify (found ++ rest) = Complete (length found) /\ frame_ok found = true) \/
     (code = 0 /\ found = [] /\ (rest = [] \/ classify rest = Incomplete))).
Proof.
  intros Hi Ha. pose proof (extract_request_frame_run c adu_buf 0 Hi Ha) as Hx.
  pose proof (resync_first (held c)) as Hf. pose proof (resync_spec (held c) (held_bytes c Hi)) as Hs.
  destruct (resync (held c)) as [[f|] rest]; destruct Hx as (c' & Hi' & Hh' & _ & _ & Hrun);
    destruct Hf as (sk & Hl & Hn).
  - exists 1, (zlen f), (f ++ drop (length f) adu_buf), c', sk, f, rest.
    destruct Hs as (Hc & Hok & _). repeat (split; [done|]). left. by rewrite take_app_length.
  - exists 0, 0, adu_buf, c', sk, [], rest. repeat (split; [done|]). right. split; [done|]. split; [done|]. apply Hs.
Qed.

Lemma extract_finds_first_request_witness :
  exists code total adu_buf' c' skipped found rest,
    extract_request_frame 256 0 (replicate 256 0, holding ([9; 8] ++ sample_frame ++ [1]) 7)
    = Ok ((code, total), (adu_buf', c')) /\
    srv_inv c' /\ held c' = rest /\
    held (holding ([9; 8] ++ sample_frame ++ [1]) 7) = skipped ++ found ++ rest /\
    no_request_before (held (holding ([9; 8] ++ sample_frame ++ [1]) 7)) (length skipped) /\
    ((code = 1 /\ total = zlen found /\ take (length found) adu_buf' = found /\
      classify (found ++ rest) = Complete (length found) /\ frame_ok found = true) \/
     (code = 0 /\ found = [] /\ (rest = [] \/ classify rest = Incomplete))).
Proof.
  apply (extract_finds_first_request (holding ([9; 8] ++ sample_frame ++ [1]) 7) (replicate 256 0)).
  - apply holding_inv; [|by vm_compute; lia].
    apply (bool_decide_unpack _). by vm_compute.
  - reflexivity.
Defined.

(** ** Assembly of requests *)

Lemma classify_fixed unit fc a v more :
  1 <= fc <= 6 -> classify (adu unit (fc :: be16 a ++ be16 v) ++ more) = Complete 8.
Proof.
  intros Hfc. set (pdu := fc :: be16 a ++ be16 v).
  assert (8 <= zlen (adu unit pdu ++ more)) as Hl
    by (rewrite length_app; pose proof (adu_length unit pdu); subst pdu; simpl in *; lia).
  unfold adu, pdu in *. cbn [app be16] in *. unfold classify.
  unfold_defs. rewrite !(proj2 (Z.eqb_neq _ _)) by lia. cbn [orb].
  by rewrite (proj2 (Z.ltb_ge _ _)) by lia.
Qed.

Lemma classify_multiple unit fc a v bc data more :
  fc = MODBUS_FUNC_WRITE_MULTIPLE_COILS \/ fc = MODBUS_FUNC_WRITE_MULTIPLE_REGISTERS ->
  zlen data = bc -> 1 <= bc <= 247 ->
  classify (adu unit (fc :: be16 a ++ be16 v ++ bc :: data) ++ more) = Complete (Z.to_nat (9 + bc)).
Proof.
  intros Hfc Hd Hbc. set (pdu := fc :: be16 a ++ be16 v ++ bc :: data).
  assert (9 + bc <= zlen (adu unit pdu ++ more)) as Hl
    by (rewrite length_app; pose proof (adu_length unit pdu); subst pdu; simpl in *; lia).
  unfold adu, pdu in *. cbn [app be16] in *. unfold classify.
  replace ((fc =? _) || _) with true by (by destruct Hfc as [-> | ->]).
  cbn [lookup list_lookup]. rewrite (proj2 (Z.eqb_neq _ _)), !(proj2 (Z.ltb_ge _ _)) by lia. done.
Qed.

Lemma classify_request unit r more :
  valid_request r ->
  classify (adu unit (encode_request r) ++ more) = Complete (length (adu unit (encode_request r))).
Proof.
  intros Hr. pose proof (adu_length unit (encode_request r)) as Hl.
  destruct r; cbn [valid_request encode_request] in *; unfold MODBUS_MAX_WRITE_BITS, MODBUS_MAX_WRITE_REGISTERS in *.
  1-4: rewrite classify_fixed by (revert Hr; unfold_defs; lia); reflexivity.
  all: rewrite !length_cons, !length_app, !be16_length, !length_cons in Hl.
  - pose proof (packed_length bits) as Hp. unfold nbytes in *.
    rewrite u8_small in Hl |- * by zint.
    rewrite (classify_multiple _ _ _ _ ((zlen bits + 7) / 8)) by (auto || zint). f_equal. zint.
  - pose proof (words_be_length values) as Hw. rewrite u8_small in Hl |- * by zint.
    rewrite (classify_multiple _ _ _ _ (zlen values * 2)) by (auto || lia). f_equal. lia.
Qed.

Lemma resync_request unit r more :
  is_u8 unit -> valid_request r ->
  resync (adu unit (encode_request r) ++ more) = (Some (adu unit (encode_request r)), more).
Proof.
  intros Hu Hr. pose proof (classify_request unit r more Hr) as Hc.
  pose proof (adu_ok unit (encode_request r) Hu (encode_request_bytes r (valid_sendable r Hr))) as Hok.
  assert (exists b t, adu unit (encode_request r) ++ more = b :: t) as (b & t & E) by (by do 2 eexists).
  set (f := adu unit (encode_request r)) in *.
  pose proof (take_app_length f more) as Ht. pose proof (drop_app_length f more) as Hd.
  rewrite E in *. cbn [resync]. by rewrite Hc, Ht, Hok, Hd.
Qed.

Lemma classify_short fc_pos unit fc l k :
  fc_pos = unit :: fc :: l -> (k < length fc_pos)%nat ->
  (match l !! 4%nat with
   | Some bc => if (fc =? MODBUS_FUNC_WRITE_MULTIPLE_COILS) || (fc =? MODBUS_FUNC_WRITE_MULTIPLE_REGISTERS)
                then 1 <= bc <= 247 /\ zlen fc_pos = 9 + bc else zlen fc_pos = 8
   | None => False
   end) ->
  classify (take k fc_pos) = Incomplete.
Proof.
  intros -> Hk Hm. destruct k as [|[|k]]; [done | done |]. cbn [take]. unfold classify.
  destruct (l !! 4%nat) as [bc|] eqn:Hbc; [|done].
  assert (zlen (unit :: fc :: take k l) < zlen (unit :: fc :: l)) as Hlt
    by (simpl in *; rewrite length_take; lia).
  destruct (_ || _).
  - destruct Hm as [Hr Hl].
    change ((unit :: fc :: take k l) !! 6%nat) with (take k l !! 4%nat).
    destruct (decide (4 < k)%nat).
    + rewrite lookup_take_lt, Hbc by done.
      rewrite (proj2 (Z.eqb_neq _ _)), (proj2 (Z.ltb_ge 256 _)), (proj2 (Z.ltb_lt _ _)) by lia. done.
    + by rewrite lookup_take_ge by lia.
  - by rewrite (proj2 (Z.ltb_lt _ _)) by lia.
Qed.

Lemma resync_prefix unit r k :
  is_u8 unit -> valid_request r -> (k < length (adu unit (encode_request r)))%nat ->
  resync (take k (adu unit (encode_request r))) = (None, take k (adu unit (encode_request r))).
Proof.
  intros Hu Hr Hk.
  assert (classify (take k (adu unit (encode_request r))) = Incomplete) as Hc.
  { pose proof (adu_length unit (encode_request r)) as Hl.
    destruct r; cbn [valid_request encode_request] in *;
      unfold MODBUS_MAX_WRITE_BITS, MODBUS_MAX_WRITE_REGISTERS in *;
      (eapply classify_short; [reflexivity | done |]).
    1-2: destruct Hr as [[-> | ->] _]; reflexivity.
    1-2: reflexivity.
    - change (1 <= u8 (nbytes (zlen bits)) <= 247 /\
        zlen (adu unit (encode_request (WriteCoils addr bits))) = 9 + u8 (nbytes (zlen bits))).
      rewrite adu_length. cbn [encode_request].
      rewrite !length_cons, !length_app, !be16_length, length_cons.
      pose proof (packed_length bits) as Hp. unfold nbytes in *. rewrite u8_small by zint. zint.
    - change (1 <= u8 (zlen values * 2) <= 247 /\
        zlen (adu unit (encode_request (WriteRegisters addr values))) = 9 + u8 (zlen values * 2)).
      rewrite adu_length. cbn [encode_request].
      rewrite !length_cons, !length_app, !be16_length, length_cons.
      pose proof (words_be_length values) as Hw. rewrite u8_small by zint. lia. }
  destruct (take k _) as [|b l]; [done|]. cbn [resync]. by rewrite Hc.
Qed.

(** Requests assemble from pieces: with only a proper beginning of a valid
    request in the buffer the server keeps every byte and waits; once the
    request is complete it is cut out exactly, without skipping a byte, and
    what follows it stays in the buffer.  This holds for each of the eight
    requests, so the length rules agree with the client's encoding. *)
Theorem rtu_requests_assemble unit r k more c1 c2 adu_buf :
  is_u8 unit -> valid_request r -> (k < length (adu unit (encode_request r)))%nat ->
  length adu_buf = 256%nat ->
  srv_inv c1 -> held c1 = take k (adu unit (encode_request r)) ->
  srv_inv c2 -> held c2 = adu unit (encode_request r) ++ more ->
  (exists c1', extract_request_frame 256 0 (adu_buf, c1) = Ok ((0, 0), (adu_buf, c1')) /\
     srv_inv c1' /\ held c1' = held c1) /\
  (exists c2', extract_request_frame 256 0 (adu_buf, c2)
       = Ok ((1, zlen (adu unit (encode_request r))),
             (adu unit (encode_request r) ++ drop (length (adu unit (encode_request r))) adu_buf, c2')) /\
     srv_inv c2' /\ held c2' = more).
Proof.
  intros Hu Hr Hk Ha Hi1 Hh1 Hi2 Hh2. split.
  - pose proof (extract_request_frame_run c1 adu_buf 0 Hi1 Ha) as Hx.
    rewrite Hh1, resync_prefix in Hx by done. destruct Hx as (c' & Hi' & Hh' & _ & _ & Hrun).
    exists c'. by rewrite Hh1.
  - pose proof (extract_request_frame_run c2 adu_buf 0 Hi2 Ha) as Hx.
    rewrite Hh2, resync_request in Hx by done. destruct Hx as (c' & Hi' & Hh' & _ & _ & Hrun).
    by exists c'.
Qed.

Definition sample_request : request := WriteRegisters 16 [7; 8].
Definition request_frame : list Z := adu 1 (encode_request sample_request).

Lemma rtu_requests_assemble_witness :
  (exists c1', extract_request_frame 256 0 (replicate 256 0, holding (take 9 request_frame) 5)
       = Ok ((0, 0), (replicate 256 0, c1')) /\
     srv_inv c1' /\ held c1' = held (holding (take 9 request_frame) 5)) /\
  (exists c2', extract_request_frame 256 0 (replicate 256 0, holding (request_frame ++ [1; 2]) 5)
       = Ok ((1, zlen request_frame),
             (request_frame ++ drop (length request_frame) (replicate 256 0), c2')) /\
     srv_inv c2' /\ held c2' = [1; 2]).
Proof.
  apply (rtu_requests_assemble 1 sample_request 9 [1; 2]
    (holding (take 9 request_frame) 5) (holding (request_frame ++ [1; 2]) 5) (replicate 256 0)).
  - by vm_compute.
  - split; [by vm_compute|]. split; [zforall | split; by vm_compute].
  - by vm_compute; lia.
  - reflexivity.
  - apply holding_inv; [apply (bool_decide_unpack _); by vm_compute | by vm_compute; lia].
  - by vm_compute.
  - apply holding_inv; [apply (bool_decide_unpack _); by vm_compute | by vm_compute; lia].
  - by vm_compute.
Defined.

(** ** Progress, safety and the line *)

Lemma arrived_room room l : fst (arrived room l) = [] \/ zlen (fst (arrived room l)) <= room.
Proof.
  revert room. induction l as [|[bs|e] l IH]; intros room; cbn [arrived];
    (destruct (Z.leb_spec room 0); [by left|]).
  - by left.
  - destruct (zlen bs =? 0); [by left|]. destruct (Z.leb_spec (zlen bs) room).
    + specialize (IH (room - zlen bs)). destruct (arrived (room - zlen bs) l) as [more e].
      cbn [fst] in *. right. rewrite length_app. destruct IH as [-> | IH]; [simpl; lia | lia].
    + right. cbn [fst]. rewrite length_take. lia.
  - destruct e; try (by left). apply IH.
Qed.

Lemma arrived_bytes room l : rx_bytes l -> bytes (fst (arrived room l)).
Proof.
  intros Hl. revert room. induction Hl as [|[bs|e] l Hb Hl IH]; intros room; cbn [arrived];
    (destruct (room <=? 0); [done|]); [done| |].
  - destruct (zlen bs =? 0); [done|]. destruct (zlen bs <=? room); [|by apply Forall_take].
    specialize (IH (room - zlen bs)). destruct (arrived (room - zlen bs) l).
    by apply Forall_app_2.
  - by destruct e.
Qed.

Lemma arrived_error room l bs : arrived room l = (bs, Some false) -> zlen bs < room.
Proof.
  revert room bs. induction l as [|[bs0|e] l IH]; intros room bs; cbn [arrived];
    (destruct (Z.leb_spec room 0); [done|]); [done| |].
  - destruct (zlen bs0 =? 0); [done|]. destruct (zlen bs0 <=? room); [|done].
    destruct (arrived (room - zlen bs0) l) as [more e] eqn:Ha. intros [= <- ->].
    specialize (IH _ _ Ha). rewrite length_app. lia.
  - destruct e; [by apply IH | done | |]; intros [= <-]; simpl; lia.
Qed.

Lemma classify_full l : zlen l = 256 -> classify l <> Incomplete.
Proof.
  intros Hl. destruct l as [|a [|fc l]]; [done | simpl in Hl; lia |].
  unfold classify. destruct (_ || _).
  - destruct (lookup_lt_is_Some_2 (a :: fc :: l) 6) as [bc ->]; [lia|].
    destruct ((bc =? 0) || (256 <? 9 + bc)) eqn:Hb; [done|].
    apply orb_false_iff in Hb as [_ Hb%Z.ltb_ge]. by rewrite (proj2 (Z.ltb_ge _ _)) by lia.
  - by rewrite (proj2 (Z.ltb_ge _ _)) by lia.
Qed.

Lemma resync_leaves_room l : bytes l -> zlen l <= 256 -> zlen (snd (resync l)) < 256.
Proof.
  intros Hb Hl. pose proof (resync_spec l Hb) as Hs. destruct (resync l) as [[f|] rest]; cbn [snd].
  - destruct Hs as (Hc & _ & [x Hx]). rewrite Hx in Hb, Hl. apply Forall_app in Hb as [_ Hb].
    rewrite !length_app in Hl. apply classify_complete in Hc; [lia | done].
  - destruct Hs as [Hr [x Hx]]. rewrite Hx, length_app in Hl.
    destruct Hr as [-> | Hr]; [simpl; lia|].
    destruct (decide (zlen rest = 256)) as [H256|]; [|lia]. by apply classify_full in H256.
Qed.

Definition room_left (c : mb_rtu_server_ctx) : Prop := srv_inv c /\ is_u64 (last_rx_us c) /\ rx_len c < 256.

Lemma stamp_u64 bs now last : is_u64 now -> is_u64 last -> is_u64 (stamp bs now last).
Proof. intros. unfold stamp. by destruct (_ =? _). Qed.

Lemma last_after_u64 rest last : is_u64 last -> is_u64 (last_after rest last).
Proof. intros. unfold last_after. by destruct (_ =? _). Qed.

Lemma freshen_last t now c : is_u64 (last_rx_us c) -> is_u64 (last_rx_us (freshen t now c)).
Proof. intros. unfold freshen. by destruct (stale t now c). Qed.

(** The actions of a silence and what they guarantee: the transmission starts
    no earlier than [silence] after [since], by the clock read in between. *)
Definition slept (acts : list action) : Z :=
  foldr (fun a n => match a with Slept us => us + n | _ => n end) 0 acts.

Definition silence_kept (silence since : Z) (clk : list (option (Z * Z))) (acts : list action) : Prop :=
  silence <= slept acts \/
  exists ts rest, clk = ts :: rest /\ since <= time_us ts /\
    silence <= time_us ts - since + slept acts.

Lemma pause_keeps silence since clk acts clk' :
  pause silence since clk = Some (acts, clk') -> silence_kept silence since clk acts.
Proof.
  unfold pause, silence_kept. destruct (Z.eqb_spec silence 0) as [->|_].
  { intros [= <- <-]. left. done. }
  destruct (since =? 0); [intros [= <- <-]; left; simpl; lia|].
  destruct clk as [|ts r]; [done|]. intros [= <- <-].
  destruct (Z.ltb_spec (time_us ts) since); [left; simpl; lia|].
  destruct (Z.ltb_spec (time_us ts - since) silence); right; exists ts, r; simpl; auto with lia.
Qed.

Section Safety.
Context `{Indet} {U : Type} (cfg : mb_rtu_server_config U) (d : device U).
Context `{!Implements (handlers cfg) d}.

(** What a call that returns has made visible on the line: nothing, or the
    transmission of (a beginning of) one response frame of this unit. *)
Definition line_effect (c : mb_rtu_server_ctx) (w : world) (rc : Z) (w' : world) : Prop :=
  trace w' = trace w \/
  exists ts clk since acts out unit pdu, clock w = ts :: clk /\
    (since = time_us ts \/ since = last_rx_us c \/ since = 0) /\
    silence_kept (effective_inter_frame_us cfg c) since clk acts /\
    transmitted cfg w acts out w' /\ out `prefix_of` adu unit pdu /\ (rc = 0 -> out = adu unit pdu) /\
    2 <= zlen pdu <= MODBUS_MAX_PDU_LENGTH /\ unit <> MODBUS_RTU_BROADCAST_ADDRESS /\
    (srv_unit_id cfg = MB_RTU_SERVER_UNIT_ID_ANY \/ unit = srv_unit_id cfg).

Lemma answer_effect c0 c w ts clk since f u o r' :
  clock w = ts :: clk -> is_u64 since -> is_u64 (effective_inter_frame_us cfg c) ->
  effective_inter_frame_us cfg c = effective_inter_frame_us cfg c0 ->
  (since = time_us ts \/ since = last_rx_us c0 \/ since = 0) ->
  answer_result cfg d c (polled w r' clk) since f u o ->
  match o with
  | Fail e => e = Blocked
  | Ok (rc, ((c', w'), u')) => (rc = 0 \/ rc = -1) /\ c' = c /\ line_effect c0 w rc w'
  end.
Proof.
  intros Hclk Hsi Hs Hsame Hsince. unfold answer_result, rtu_reply, line_effect.
  destruct (Z.eqb_spec (unit_of f) MODBUS_RTU_BROADCAST_ADDRESS) as [Hbc|Hbc].
  { destruct (mb_pdu_is_write _); intros ->; auto. }
  destruct (_ || _) eqn:Hown; [|intros ->; auto].
  pose proof (respond_bound (handlers cfg) d (pdu_of f) u) as Hbound.
  destruct (respond d (pdu_of f) u) as [r u']. cbn [fst] in Hbound. intros [more ->].
  set (out := adu (unit_of f) (encode_response r)).
  pose proof (transmit_run cfg (effective_inter_frame_us cfg c) since out more (polled w r' clk) Hs Hsi) as Ht.
  destruct (transmit cfg _ since (out ++ more) (zlen out) _) as [[rc w']|e]; [|done].
  destruct Ht as (Hrc & acts & clk' & part & Hp & Htr & Hpre & Hall).
  split; [done|]. split; [done|]. right.
  exists ts, clk, since, acts, part, (unit_of f), (encode_response r). rewrite Hsame in Hp.
  split; [done|]. split; [done|]. split; [by eapply pause_keeps|].
  split; [exact Htr|]. split; [done|]. split; [done|].
  split; [exact Hbound|]. split; [done|].
  apply orb_true_iff in Hown as [H1%Z.eqb_eq | H1%Z.eqb_eq]; auto.
Qed.
Lemma server_call_effect c w u :
  srv_inv c -> is_u64 (last_rx_us c) -> is_u32 (effective_timeout_ms cfg) ->
  is_u32 (effective_inter_frame_us cfg c) -> rx_bytes (rx w) ->
  match server_on_process cfg ((c, w), u) with
  | Fail e => e = Blocked
  | Ok (rc, ((c', w'), u')) =>
      (rc = 0 \/ rc = -1) /\ room_left c' /\ same_timing c c' /\ line_effect c w rc w'
  end.
Proof.
  intros Hi Hl Ht Hs Hb. pose proof (rtu_server_on_process_run cfg d c w u Hi Hl Ht Hb) as Hr.
  unfold process_result in Hr. destruct (clock w) as [|ts clk] eqn:Hclk; [by rewrite Hr|].
  set (c0 := freshen (effective_timeout_ms cfg) (time_us ts) c) in *. cbv zeta in Hr.
  assert (srv_inv c0) as Hi0 by by apply freshen_inv.
  pose proof (held_length c0 Hi0) as Hh0. pose proof (held_bytes c0 Hi0) as Hhb0.
  pose proof (arrived_bytes (256 - rx_len c0) _ Hb) as Hab.
  pose proof (arrived_room (256 - rx_len c0) (rx w)) as Har.
  destruct (arrived (256 - rx_len c0) (rx w)) as [bs [ok|]] eqn:Ha; [|by rewrite Hr].
  cbn [fst] in Hab, Har. destruct Hr as (c' & r' & Hi' & Ht' & _ & Hr).
  pose proof (held_length c' Hi') as Hh'. pose proof Hi0 as (_ & _ & Hr0).
  set (since := stamp bs (time_us ts) (last_rx_us c0)) in *.
  assert (is_u64 since) as Hsi by (apply stamp_u64; [apply time_us_u64 | by apply freshen_last]).
  assert (zlen (held c0 ++ bs) <= 256) as Hle
    by (rewrite length_app; destruct Har as [-> | ?]; simpl; lia).
  assert (since = time_us ts \/ since = last_rx_us c \/ since = 0) as Hsince.
  { subst since c0. unfold stamp, freshen. destruct (zlen bs =? 0); [|by left].
    destruct (stale _ _ c); auto. }
  destruct ok.
  - pose proof (resync_leaves_room (held c0 ++ bs) ltac:(by apply Forall_app_2) Hle) as Hroom.
    destruct (resync (held c0 ++ bs)) as [found rest]. destruct Hr as (Hh & Hlast & Hr).
    assert (room_left c') as Hrl.
    { split; [done|]. split; [rewrite Hlast; by apply last_after_u64|]. by rewrite <- Hh', Hh. }
    destruct found as [f|]; [|rewrite Hr; unfold line_effect; auto].
    assert (effective_inter_frame_us cfg c' = effective_inter_frame_us cfg c) as Hsame
      by (unfold effective_inter_frame_us; by rewrite Ht').
    pose proof (answer_effect c c' w ts clk since f u (server_on_process cfg ((c, w), u)) r' Hclk Hsi) as He.
    rewrite Hsame in He. specialize (He (is_u32_is_u64 _ Hs) eq_refl Hsince Hr).
    destruct (server_on_process cfg _) as [[rc [[c2 w2] u2]]|]; [|done].
    destruct He as (Hrc & -> & He). auto.
  - destruct Hr as (Hh & Hlast & Hr). rewrite Hr. split; [auto|]. split; [|by split; [|left]].
    apply arrived_error in Ha. split; [done|]. split; [by rewrite Hlast|].
    rewrite <- Hh', Hh, length_app. lia.
Qed.
End Safety.

(** C30. The RTU server is safe on every input: whatever arrives, whatever the
    clock says and however the driver behaves, a call makes no access outside
    its buffers and its loops end (if it has not returned, a system call is
    blocking).  It returns 0 or -1, keeps the context well-formed, and always
    leaves free room in the receive buffer, so no byte sequence can wedge it. *)
Theorem rtu_server_safe `{Indet} {U} (cfg : mb_rtu_server_config U) (d : device U)
    `{!Implements (handlers cfg) d} c w u :
  srv_inv c -> is_u64 (last_rx_us c) -> is_u32 (effective_timeout_ms cfg) ->
  is_u32 (effective_inter_frame_us cfg c) -> rx_bytes (rx w) ->
  match server_on_process cfg ((c, w), u) with
  | Fail e => e = Blocked
  | Ok (rc, ((c', w'), u')) => (rc = 0 \/ rc = -1) /\ room_left c' /\ same_timing c c'
  end.
Proof.
  intros Hi Hl Ht Hs Hb. pose proof (server_call_effect cfg d c w u Hi Hl Ht Hs Hb) as Hr.
  destruct (server_on_process cfg _) as [[rc [[c' w'] u']]|e]; [|done]. destruct Hr as (? & ? & ? & _). auto.
Qed.

Lemma sample_rx_bytes : rx_bytes [RxData [9]; RxData sample_frame; RxErr EAGAIN].
Proof.
  apply List.Forall_cons; [zforall|]. apply List.Forall_cons; [apply (bool_decide_unpack _); by vm_compute|].
  apply List.Forall_cons; [exact I | apply List.Forall_nil].
Qed.

Lemma rtu_server_safe_witness :
  match server_on_process (bank_config 1)
      ((holding [] 0, sample_world [RxData [9]; RxData sample_frame; RxErr EAGAIN]), sample_bank) with
  | Fail e => e = Blocked
  | Ok (rc, ((c', w'), u')) => (rc = 0 \/ rc = -1) /\ room_left c' /\ same_timing (holding [] 0) c'
  end.
Proof.
  apply (rtu_server_safe (bank_config 1) bank_device); [|by vm_compute..|apply sample_rx_bytes].
  apply holding_inv; [zforall | simpl; lia].
Defined.

(** C27. Discipline on the line: a call that returns has either put nothing on
    the line, or exactly one transmission: first the pause that keeps the
    inter-frame silence since the end of the request, then the transmit-enable
    hook, then bytes of one response frame of this unit (CRC included, at most
    256 bytes; all of it when the call returns 0), then the hook switched off,
    also when the write failed.  Nothing is ever sent for unit 0. *)
Theorem rtu_server_line_discipline `{Indet} {U} (cfg : mb_rtu_server_config U) (d : device U)
    `{!Implements (handlers cfg) d} c w u rc c' w' u' :
  srv_inv c -> is_u64 (last_rx_us c) -> is_u32 (effective_timeout_ms cfg) ->
  is_u32 (effective_inter_frame_us cfg c) -> rx_bytes (rx w) ->
  server_on_process cfg ((c, w), u) = Ok (rc, ((c', w'), u')) ->
  line_effect cfg c w rc w'.
Proof.
  intros Hi Hl Ht Hs Hb Hrun. pose proof (server_call_effect cfg d c w u Hi Hl Ht Hs Hb) as Hr.
  rewrite Hrun in Hr. apply Hr.
Qed.

Definition sample_run : outcome (Z * server_state) :=
  server_on_process (bank_config 1)
    ((holding [] 0, sample_world [RxData [9]; RxData sample_frame; RxErr EAGAIN]), sample_bank).
Definition world_after (o : outcome (Z * @server_state bank)) : world :=
  match o with Ok (_, ((_, w), _)) => w | Fail _ => sample_world [] end.

Lemma rtu_server_line_discipline_witness :
  line_effect (bank_config 1) (holding [] 0)
    (sample_world [RxData [9]; RxData sample_frame; RxErr EAGAIN]) 0 (world_after sample_run) /\
  trace (world_after sample_run)
  = [Slept 2646; TxEnable 1; Sent [1; 3; 4; 3; 242; 3; 243]; Sent [27; 49]; TxEnable 0].
Proof.
  split; [|by vm_compute].
  eapply (rtu_server_line_discipline (bank_config 1) bank_device (holding [] 0) _ sample_bank 0);
    [|by vm_compute..|apply sample_rx_bytes|by vm_compute].
  apply holding_inv; [zforall | simpl; lia].
Defined.

(** Broadcasts are silent: a request to unit 0 is never answered; a write is
    executed on the application exactly as a unicast write would be, a read or
    an unknown function does not reach the application at all. *)
Theorem rtu_broadcast_silent `{Indet} {U} (cfg : mb_rtu_server_config U) (d : device U)
    `{!Implements (handlers cfg) d} c w u ts clk bs f rest :
  srv_inv c -> is_u64 (last_rx_us c) -> is_u32 (effective_timeout_ms cfg) -> rx_bytes (rx w) ->
  clock w = ts :: clk ->
  let c0 := freshen (effective_timeout_ms cfg) (time_us ts) c in
  arrived (256 - rx_len c0) (rx w) = (bs, Some true) -> resync (held c0 ++ bs) = (Some f, rest) ->
  unit_of f = MODBUS_RTU_BROADCAST_ADDRESS ->
  exists c' r', held c' = rest /\
    server_on_process cfg ((c, w), u)
    = Ok (0, ((c', polled w r' clk),
              if mb_pdu_is_write (f !!! 1%nat) then snd (respond d (pdu_of f) u) else u)).
Proof.
  intros Hi Hl Ht Hb Hclk c0 Ha Hr Hu.
  pose proof (rtu_server_on_process_run cfg d c w u Hi Hl Ht Hb) as Hp. unfold process_result in Hp.
  rewrite Hclk in Hp. cbv zeta in Hp. fold c0 in Hp. rewrite Ha, Hr in Hp.
  destruct Hp as (c' & r' & _ & _ & _ & Hh & _ & Hp). exists c', r'. split; [done|].
  unfold answer_result, rtu_reply in Hp. rewrite (proj2 (Z.eqb_eq _ _) Hu) in Hp.
  by destruct (mb_pdu_is_write _).
Qed.

Lemma rtu_broadcast_silent_witness :
  exists c' r', held c' = [] /\
    server_on_process (bank_config 1)
      ((holding [] 0, sample_world [RxData (adu 0 [6; 0; 1; 0; 9]); RxErr EAGAIN]), sample_bank)
    = Ok (0, ((c', polled (sample_world [RxData (adu 0 [6; 0; 1; 0; 9]); RxErr EAGAIN]) r'
                     [Some (5, 1000000); Some (5, 2000000)]),
              snd (respond bank_device [6; 0; 1; 0; 9] sample_bank))).
Proof.
  apply (rtu_broadcast_silent (bank_config 1) bank_device (holding [] 0)
    (sample_world [RxData (adu 0 [6; 0; 1; 0; 9]); RxErr EAGAIN]) sample_bank (Some (5, 0))
    [Some (5, 1000000); Some (5, 2000000)] (adu 0 [6; 0; 1; 0; 9]) (adu 0 [6; 0; 1; 0; 9]) []);
    try by vm_compute.
  - apply holding_inv; [zforall | simpl; lia].
  - apply List.Forall_cons; [apply (bool_decide_unpack _); by vm_compute|].
    apply List.Forall_cons; [exact I | apply List.Forall_nil].
Defined.

Lemma pause_some silence since ts clk : exists acts clk', pause silence since (ts :: clk) = Some (acts, clk').
Proof. unfold pause. destruct (silence =? 0); [eauto|]. destruct (since =? 0); eauto. Qed.

(** Server side: the answer to a request that has arrived. *)
Lemma server_answers_run `{Indet} {U} (cfg : mb_rtu_server_config U) (d : device U)
    `{!Implements (handlers cfg) d} c w u ts ts2 clk bs r more unit drained :
  srv_inv c -> is_u64 (last_rx_us c) -> is_u32 (effective_timeout_ms cfg) ->
  is_u32 (effective_inter_frame_us cfg c) -> rx_bytes (rx w) ->
  clock w = ts :: ts2 :: clk -> stale (effective_timeout_ms cfg) (time_us ts) c = false ->
  arrived (256 - rx_len c) (rx w) = (bs, Some true) ->
  is_u8 unit -> valid_request r -> offers d r = true -> unit <> MODBUS_RTU_BROADCAST_ADDRESS ->
  srv_unit_id cfg = unit \/ srv_unit_id cfg = MB_RTU_SERVER_UNIT_ID_ANY ->
  held c ++ bs = adu unit (encode_request r) ++ more ->
  eager on_signal_or_full (tx w) (zlen (adu unit (encode_response (fst (serve d r u))))) -> drains w = 0 :: drained -> srv_local_echo cfg = 0 ->
  exists c' w', server_on_process cfg ((c, w), u) = Ok (0, ((c', w'), snd (serve d r u))) /\
    held c' = more /\ output w' = output w ++ adu unit (encode_response (fst (serve d r u))).
Proof.
  intros Hi Hl Ht Hs Hb Hclk Hst Ha Hu Hr Hoff Hne Hown Hall He Hd Hecho.
  pose proof (rtu_server_on_process_run cfg d c w u Hi Hl Ht Hb) as Hp. unfold process_result in Hp.
  rewrite Hclk in Hp. cbv zeta in Hp. unfold freshen in Hp. rewrite Hst, Ha, Hall in Hp.
  rewrite resync_request in Hp by done. destruct Hp as (c' & r' & _ & Ht' & _ & Hh & _ & Hp).
  unfold answer_result, rtu_reply in Hp. change (unit_of (adu unit (encode_request r))) with unit in Hp.
  rewrite (proj2 (Z.eqb_neq _ _)) in Hp by done.
  replace ((srv_unit_id cfg =? MB_RTU_SERVER_UNIT_ID_ANY) || (unit =? srv_unit_id cfg)) with true in Hp
    by (symmetry; apply orb_true_iff; rewrite !Z.eqb_eq; destruct Hown as [<- | ->]; auto).
  rewrite pdu_of_adu in Hp. unfold respond in Hp. rewrite parse_encode_request in Hp by done.
  cbn [finish] in Hp.
  destruct (serve d r u) as [resp u']. cbn [fst snd] in *. destruct Hp as [rest Hp].
  set (out := adu unit (encode_response resp)) in *.
  set (since := stamp bs (time_us ts) (last_rx_us c)) in *.
  destruct (pause_some (effective_inter_frame_us cfg c') since ts2 clk) as (acts & clk' & Hpause).
  destruct (transmit_ok cfg (effective_inter_frame_us cfg c') since out rest
    (polled w r' (ts2 :: clk)) acts clk' drained) as (w' & Hrun & Htr); try done.
  - unfold effective_inter_frame_us in *. rewrite Ht'. by apply is_u32_is_u64.
  - apply stamp_u64; [apply time_us_u64 | done].
  - exists c', w'. rewrite Hp, Hrun. split; [done|]. split; [done|].
    apply (transmitted_output _ _ _ _ _ Htr). by eapply pause_silent.
Qed.

(** The server answers: when the bytes it already holds and the bytes of
    this poll together are the frame of a valid request for this unit (in any
    split, followed by anything), the line accepts writes and drains, then the
    call returns 0, the application has executed the request, exactly the
    frame of the device's response has gone out, and the bytes that followed
    the request are kept for the next call. *)
Theorem rtu_server_answers `{Indet} {U} (cfg : mb_rtu_server_config U) (d : device U)
    `{!Implements (handlers cfg) d} c w u ts ts2 clk bs r more unit drained :
  srv_inv c -> is_u64 (last_rx_us c) -> is_u32 (effective_timeout_ms cfg) ->
  is_u32 (effective_inter_frame_us cfg c) -> rx_bytes (rx w) ->
  clock w = ts :: ts2 :: clk -> stale (effective_timeout_ms cfg) (time_us ts) c = false ->
  arrived (256 - rx_len c) (rx w) = (bs, Some true) ->
  is_u8 unit -> valid_request r -> offers d r = true -> unit <> MODBUS_RTU_BROADCAST_ADDRESS ->
  srv_unit_id cfg = unit \/ srv_unit_id cfg = MB_RTU_SERVER_UNIT_ID_ANY ->
  held c ++ bs = adu unit (encode_request r) ++ more ->
  eager on_signal_or_full (tx w) (zlen (adu unit (encode_response (fst (serve d r u))))) -> drains w = 0 :: drained -> srv_local_echo cfg = 0 ->
  exists c' w', server_on_process cfg ((c, w), u) = Ok (0, ((c', w'), snd (serve d r u))) /\
    held c' = more /\ output w' = output w ++ adu unit (encode_response (fst (serve d r u))).
Proof. exact (server_answers_run cfg d c w u ts ts2 clk bs r more unit drained). Qed.

Lemma rtu_server_answers_witness :
  exists c' w', server_on_process (bank_config 1)
      ((holding (take 5 sample_frame) 4999000, sample_world [RxData (drop 5 sample_frame ++ [7]); RxErr EAGAIN]),
       sample_bank)
    = Ok (0, ((c', w'), snd (serve bank_device (ReadRegisters 3 10 2) sample_bank))) /\
    held c' = [7] /\
    output w' = [] ++ adu 1 (encode_response (fst (serve bank_device (ReadRegisters 3 10 2) sample_bank))).
Proof.
  eapply (rtu_server_answers (bank_config 1) bank_device (holding (take 5 sample_frame) 4999000)
    (sample_world [RxData (drop 5 sample_frame ++ [7]); RxErr EAGAIN]) sample_bank
    (Some (5, 0)) (Some (5, 1000000)) [Some (5, 2000000)] (drop 5 sample_frame ++ [7])
    (ReadRegisters 3 10 2) [7] 1 []); try (by vm_compute).
  - apply holding_inv; [apply (bool_decide_unpack _); by vm_compute | by vm_compute; lia].
  - apply List.Forall_cons; [apply (bool_decide_unpack _); by vm_compute|].
    apply List.Forall_cons; [exact I | apply List.Forall_nil].
  - split; [by left|]. split; [by vm_compute|]. split; by vm_compute.
  - by left.
  - split; [apply Forall_replicate; reflexivity | by vm_compute].
Defined.
