(* ===== verification/RtuClient.v ===== *)
(** * The RTU client: [src/modbus_rtu_client.c], one transaction on a bus

    Every public call is one transaction on the shared bus record its context
    points to: it waits out the silence the bus needs, sends one frame under
    the transmit-enable hook, checks the local echo, and receives a response
    whose length follows from its function code.  The state is the world of the
    line and the bus record ([None]: a NULL pointer); the context mutex and the
    bus mutex make a transaction one step.  The registry of buses is modelled
    in [RtuBus]; the log calls are in [RtuClientLog]. *)

From S2P Require Import Prelude Buffer Defines Bits Pdu PduSpec PduClient Ptr Rtu Crc RtuFrames Sys.

(** ** Codes, configuration, context, bus record *)

Definition DEFAULT_RESPONSE_TIMEOUT_MS : Z := MODBUS_RTU_DEFAULT_TIMEOUT_MS.
Definition RTU_OFFSET_UNIT_ID : Z := 0.
Definition RTU_OFFSET_FC : Z := 1.
Definition RTU_OFFSET_PDU : Z := 1.
Definition RTU_READ_BYTE_COUNT_OFF : Z := 2.
Definition RTU_EXCEPTION_LEN : Z := 5.
Definition RTU_WRITE_RESPONSE_LEN : Z := 8.
Definition RTU_IO_FRAME_ERROR : Z := -10.
Definition RTU_IO_CRC_ERROR : Z := -11.
Definition RTU_IO_UNIT_ID_ERROR : Z := -12.

Definition MB_RTU_CLIENT_OK : Z := 0.
Definition MB_RTU_CLIENT_ERR_ARG : Z := -1.
Definition MB_RTU_CLIENT_ERR_NOT_CONNECTED : Z := -2.
Definition MB_RTU_CLIENT_ERR_TRANSPORT : Z := -3.
Definition MB_RTU_CLIENT_ERR_TIMEOUT : Z := -4.
Definition MB_RTU_CLIENT_ERR_FRAME : Z := -5.
Definition MB_RTU_CLIENT_ERR_UNIT_ID : Z := -6.
Definition MB_RTU_CLIENT_ERR_CRC : Z := -7.
Definition MB_RTU_CLIENT_DEFAULT_HANDOFF_SILENCE_MS : Z := 30.

(** [on_tx_enable] says whether there is a hook. *)
Record mb_rtu_client_config := CliConfig {
  cli_device : option string;
  cli_baud_rate : Z;
  cli_data_bits : Z;
  cli_stop_bits : Z;
  cli_parity : Z;
  cli_unit_id : Z;
  cli_response_timeout_ms : Z;
  cli_inter_frame_delay_us : Z;
  cli_bus_handoff_silence_ms : Z;
  cli_rs485_mode : Z;
  cli_local_echo : Z;
  cli_on_tx_enable : bool;
}.

(** [shared_bus] is an address; [None] is NULL. *)
Record mb_rtu_client_ctx := CliCtx {
  cli_fd : Z;
  shared_bus : option Z;
  cli_initialized : Z;
  cli_cfg : mb_rtu_client_config;
}.

(** Without the link to the next record, which is the registry's. *)
Record mb_rtu_shared_bus := Bus {
  bus_path : string;
  bus_fd : Z;
  refcnt : Z;
  bus_baud_rate : Z;
  bus_data_bits : Z;
  bus_stop_bits : Z;
  bus_parity : Z;
  bus_rs485_mode : Z;
  bus_t35_us : Z;
  has_last_transaction : bool;
  last_unit_id : Z;
  last_release_time : Z * Z;
}.

Definition set_release (unit_id : Z) (t : Z * Z) (b : mb_rtu_shared_bus) : mb_rtu_shared_bus :=
  Bus (bus_path b) (bus_fd b) (refcnt b) (bus_baud_rate b) (bus_data_bits b) (bus_stop_bits b)
    (bus_parity b) (bus_rs485_mode b) (bus_t35_us b) true unit_id t.

(** ** Silence on the bus *)

Definition effective_handoff_silence_ms (c : mb_rtu_client_ctx) : Z :=
  mb_rtu_effective_timing (cli_bus_handoff_silence_ms (cli_cfg c))
    MB_RTU_CLIENT_DEFAULT_HANDOFF_SILENCE_MS.

Definition effective_inter_frame_us (c : mb_rtu_client_ctx) (b : mb_rtu_shared_bus) : Z :=
  mb_rtu_effective_timing (cli_inter_frame_delay_us (cli_cfg c)) (bus_t35_us b).

Definition sleep_us (us : Z) : st world unit := act (Slept us).

(** Signed 64-bit arithmetic: overflow is undefined. *)
Definition i64 (v : Z) : outcome Z :=
  if (- 2 ^ 63 <=? v) && (v <? 2 ^ 63) then Ok v else Fail UB.

Section Client.
Context {I : Indet}.

(** [clock_gettime] into an automatic variable, its result not checked. *)
Definition clock_now : st world (Z * Z) :=
  let! t := sys_clock in ret (default (indet 0, indet 1) t).

Definition wait_bus_silence (b : mb_rtu_shared_bus) (unit_id inter_frame_us handoff_ms : Z)
    : st world unit :=
  if negb (has_last_transaction b) then ret tt else
  let handoff_us := u64 (handoff_ms * 1000) in
  let required_us :=
    if negb (last_unit_id b =? unit_id) && (inter_frame_us <? handoff_us)
    then handoff_us else inter_frame_us in
  if required_us =? 0 then ret tt else
  let! now := clock_now in
  let! elapsed_s := lift (i64 ((fst now - fst (last_release_time b)) * 1000000)) in
  let! elapsed_us := lift (i64 (elapsed_s + Z.quot (snd now - snd (last_release_time b)) 1000)) in
  if (0 <=? elapsed_us) && (u64 elapsed_us <? required_us)
  then sleep_us (u64 (required_us - u64 elapsed_us)) else ret tt.

(** A failing clock leaves the old time. *)
Definition mark_bus_transaction_done (unit_id : Z) (b : mb_rtu_shared_bus) : st world mb_rtu_shared_bus :=
  let! t := sys_clock in
  ret (set_release unit_id (default (last_release_time b) t) b).

(** ** Input and output *)

Definition monotonic_us : st world Z :=
  let! now := clock_now in
  ret (u64 (u64 (u64 (fst now) * 1000000) + u64 (snd now) / 1000)).

Definition frame_wire_time_us (b : mb_rtu_shared_bus) (nbytes : Z) : outcome Z :=
  let char_bits := u32 (1 + bus_data_bits b + bus_stop_bits b
                        + (if negb (bus_parity b =? MB_RTU_PARITY_NONE) then 1 else 0)) in
  if bus_baud_rate b =? 0 then Fail UB
  else Ok (u64 (char_bits * nbytes * 1000000 + bus_baud_rate b - 1) / bus_baud_rate b).

Definition response_deadline_us (c : mb_rtu_client_ctx) (b : mb_rtu_shared_bus) : st world Z :=
  let timeout_ms := if negb (cli_response_timeout_ms (cli_cfg c) =? 0)
                    then cli_response_timeout_ms (cli_cfg c) else DEFAULT_RESPONSE_TIMEOUT_MS in
  let! now_us := monotonic_us in
  let! wire := lift (frame_wire_time_us b MODBUS_RTU_MAX_ADU_LENGTH) in
  ret (u64 (u64 (now_us + timeout_ms * 1000) + wire)).

Fixpoint wait_readable_loop (fuel : nat) (deadline_us : Z) : st world Z :=
  match fuel with
  | O => stop NoFuel
  | S fuel' =>
      let! now_us := monotonic_us in
      if deadline_us <=? now_us then ret (-2)
      else
        let! rc := sys_select in
        match rc with
        | Ready => ret 0
        | Expired => ret (-2)
        | PollErr e => if decide (e = EINTR) then wait_readable_loop fuel' deadline_us else ret (-1)
        end
  end.

(** Every round reads the clock. *)
Definition wait_readable (deadline_us : Z) : st world Z := fun w =>
  wait_readable_loop (S (length (clock w))) deadline_us w.

Fixpoint read_exact_loop (fuel : nat) (received len deadline_us : Z) : st (list Z * world) Z :=
  match fuel with
  | O => stop NoFuel
  | S fuel' =>
      if received <? len then
        let! ready := on_snd (wait_readable deadline_us) in
        if negb (ready =? 0) then ret ready else
        let! n := on_snd (sys_read (len - received)) in
        match n with
        | inr e => if decide (e = EINTR) then read_exact_loop fuel' received len deadline_us else ret (-1)
        | inl bs =>
            if zlen bs =? 0 then ret (-2)
            else
              on_buf (at_off received (memcpy bs (zlen bs))) ;;;
              read_exact_loop fuel' (received + zlen bs) len deadline_us
        end
      else ret 0
  end.

(** Every round but the last waits, so it reads the clock. *)
Definition read_exact_timeout (len deadline_us : Z) : st (list Z * world) Z := fun s =>
  read_exact_loop (S (length (clock (snd s)))) 0 len deadline_us s.

Fixpoint write_all_loop (fuel : nat) (buf : list Z) (len sent : Z) : st world Z :=
  match fuel with
  | O => stop NoFuel
  | S fuel' =>
      if sent <? len then
        let! n := sys_write (padd buf sent) (len - sent) in
        match n with
        | inr e => if decide (e = EINTR) then write_all_loop fuel' buf len sent else ret (-1)
        | inl k => if k =? 0 then ret (-1) else write_all_loop fuel' buf len (sent + k)
        end
      else ret 0
  end.

Definition write_all (buf : list Z) (len : Z) : st world Z := fun w =>
  if len <=? zlen buf then
    (let! rc := write_all_loop (S (length (tx w))) buf len 0 in
     if negb (rc =? 0) then ret rc else
     let! d := sys_tcdrain in
     if negb (d =? 0) then ret (-1) else ret 0) w
  else Fail UB.

Definition tx_enable (c : mb_rtu_client_ctx) (enable : Z) : st world unit :=
  if cli_on_tx_enable (cli_cfg c) then act (TxEnable enable) else ret tt.

Definition send_frame (c : mb_rtu_client_ctx) (buf : list Z) (len : Z) : st world Z :=
  tx_enable c 1 ;;;
  let! rc := write_all buf len in
  tx_enable c 0 ;;;
  ret rc.

Definition io_err_to_client_err (rc : Z) : Z :=
  if rc =? -2 then MB_RTU_CLIENT_ERR_TIMEOUT
  else if rc =? RTU_IO_CRC_ERROR then MB_RTU_CLIENT_ERR_CRC
  else if rc =? RTU_IO_FRAME_ERROR then MB_RTU_CLIENT_ERR_FRAME
  else if rc =? RTU_IO_UNIT_ID_ERROR then MB_RTU_CLIENT_ERR_UNIT_ID
  else MB_RTU_CLIENT_ERR_TRANSPORT.

(** ** One response *)

(** The length of the response from its function code: an early return, or the
    number of bytes received so far and the length of the frame. *)
Definition response_length (expected_fc deadline_us : Z) : st (list Z * world) ((Z * Z) + (Z * Z)) :=
  let! '(buf, _) := get in
  let! resp_fc := lift (load buf RTU_OFFSET_FC) in
  if resp_fc =? u8 (Z.lor expected_fc MODBUS_EXCEPTION_FLAG) then ret (inr (2, RTU_EXCEPTION_LEN))
  else if negb (resp_fc =? expected_fc) then ret (inl (RTU_IO_FRAME_ERROR, 2))
  else if expected_fc <=? MODBUS_FUNC_READ_INPUT_REGISTERS then
    let! rc := at_ptr 2 (read_exact_timeout 1 deadline_us) in
    if negb (rc =? 0) then ret (inl (rc, 2)) else
    let! '(buf, _) := get in
    let! count := lift (load buf RTU_READ_BYTE_COUNT_OFF) in
    let frame_len := 3 + count + MODBUS_RTU_CRC_LEN in
    if MODBUS_RTU_MAX_ADU_LENGTH <? frame_len then ret (inl (RTU_IO_FRAME_ERROR, 3))
    else ret (inr (3, frame_len))
  else ret (inr (2, RTU_WRITE_RESPONSE_LEN)).

(** Returns the code and the value of [*total_len]. *)
Definition recv_response (c : mb_rtu_client_ctx) (b : mb_rtu_shared_bus) (unit_id expected_fc : Z)
    : st (list Z * world) (Z * Z) :=
  let! deadline_us := on_snd (response_deadline_us c b) in
  let! rc := read_exact_timeout 2 deadline_us in
  if negb (rc =? 0) then ret (rc, 0) else
  let! len := response_length expected_fc deadline_us in
  match len with
  | inl early => ret early
  | inr (total_len, frame_len) =>
      let! rc := at_ptr total_len (read_exact_timeout (frame_len - total_len) deadline_us) in
      if negb (rc =? 0) then ret (rc, total_len) else
      let! '(buf, _) := get in
      let! crc := lift (mb_rtu_validate_crc (Some buf) frame_len) in
      if negb (crc =? 0) then ret (RTU_IO_CRC_ERROR, frame_len) else
      let! resp_unit := lift (load buf RTU_OFFSET_UNIT_ID) in
      if negb (resp_unit =? unit_id) then ret (RTU_IO_UNIT_ID_ERROR, frame_len)
      else ret (0, frame_len)
  end.

(** ** Transactions *)

Abbreviation on_the_bus := (st (world * mb_rtu_shared_bus)).

Definition bus_transaction_begin (c : mb_rtu_client_ctx) : on_the_bus unit :=
  let! '(_, b) := get in
  on_fst (wait_bus_silence b (cli_unit_id (cli_cfg c)) (effective_inter_frame_us c b)
            (effective_handoff_silence_ms c)).

Definition bus_transaction_end (c : mb_rtu_client_ctx) : on_the_bus unit :=
  let! '(_, b) := get in
  let! b := on_fst (mark_bus_transaction_done (cli_unit_id (cli_cfg c)) b) in
  on_snd (put b).

(** Whether the local echo is the request. *)
Definition check_echo (c : mb_rtu_client_ctx) (req : list Z) (req_len : Z) : on_the_bus bool :=
  let! '(_, b) := get in
  let! deadline_us := on_fst (response_deadline_us c b) in
  let! '(rc, echo) := with_buf (auto_u8 MODBUS_RTU_MAX_ADU_LENGTH)
                        (read_exact_timeout req_len deadline_us) in
  if negb (rc =? 0) then ret false else lift (memcmp_eq echo req req_len).

(** [transact] once the response is in. *)
Definition conclude (pdu resp : list Z) (rc resp_len : Z) : on_the_bus (Z * list Z) :=
  if negb (rc =? 0) then ret (io_err_to_client_err rc, resp) else
  let! rc := lift (mb_pdu_check_response pdu (padd resp RTU_OFFSET_PDU)
                     (resp_len - RTU_OFFSET_PDU - MODBUS_RTU_CRC_LEN)) in
  if rc =? MB_PDU_ERR_FRAME then ret (MB_RTU_CLIENT_ERR_FRAME, resp) else ret (rc, resp).

(** [transact] between the two locks of the bus. *)
Definition bus_transaction (c : mb_rtu_client_ctx) (fc : Z) (pdu req : list Z) (req_len : Z)
    (resp : list Z) : on_the_bus (Z * list Z) :=
  let unit_id := cli_unit_id (cli_cfg c) in
  bus_transaction_begin c ;;;
  on_fst (act Flushed) ;;;
  let! rc := on_fst (send_frame c req req_len) in
  if negb (rc =? 0) then bus_transaction_end c ;;; ret (MB_RTU_CLIENT_ERR_TRANSPORT, resp) else
  let! echoed := if negb (cli_local_echo (cli_cfg c) =? 0) then check_echo c req req_len
                 else ret true in
  if negb echoed then bus_transaction_end c ;;; ret (MB_RTU_CLIENT_ERR_TRANSPORT, resp) else
  if unit_id =? MODBUS_RTU_BROADCAST_ADDRESS then
    bus_transaction_end c ;;; ret (MB_RTU_CLIENT_OK, resp) else
  let! '(_, b) := get in
  let! '((rc, resp_len), resp) := with_buf resp (recv_response c b unit_id fc) in
  bus_transaction_end c ;;;
  conclude pdu resp rc resp_len.

Abbreviation calls := (st (world * option mb_rtu_shared_bus)).

Definition on_bus {A} (m : on_the_bus A) : calls A := fun '(w, bus) =>
  match bus with
  | None => Fail UB
  | Some b => match m (w, b) with
              | Ok (a, (w', b')) => Ok (a, (w', Some b'))
              | Fail e => Fail e
              end
  end.

(** Returns the code and the response buffer. *)
Definition transact (c : mb_rtu_client_ctx) (pdu : list Z) (pdu_len : Z) (resp : list Z)
    : calls (Z * list Z) :=
  let! fc := lift (load pdu 0) in
  if cli_initialized c =? 0 then ret (MB_RTU_CLIENT_ERR_NOT_CONNECTED, resp) else
  let unit_id := cli_unit_id (cli_cfg c) in
  if (unit_id =? MODBUS_RTU_BROADCAST_ADDRESS) && negb (mb_pdu_is_write fc)
  then ret (MB_RTU_CLIENT_ERR_ARG, resp) else
  let! '(_, req) := lift
    ((store RTU_OFFSET_UNIT_ID unit_id ;;; at_off RTU_OFFSET_PDU (memcpy pdu pdu_len))
       (auto_u8 MODBUS_RTU_MAX_ADU_LENGTH)) in
  let req_len := RTU_OFFSET_PDU + pdu_len in
  let! '(_, req) := lift (mb_rtu_append_crc req_len MODBUS_RTU_MAX_ADU_LENGTH (Some req)) in
  let! req := lift (fun_ptr req) in
  let req_len := req_len + MODBUS_RTU_CRC_LEN in
  on_bus (bus_transaction c fc pdu req req_len resp).

(** ** The public calls: the context may be NULL *)

Definition on_ctx {A} (ctx : option mb_rtu_client_ctx) (m : mb_rtu_client_ctx -> calls A) : calls A :=
  let! c := lift (fun_ptr ctx) in m c.

(** Returns the code and the caller's array. *)
Definition read_registers (ctx : option mb_rtu_client_ctx) (fc addr qty : Z) (out : option (list Z))
    : calls (Z * option (list Z)) :=
  if is_null ctx || is_null out || (qty =? 0) || (MODBUS_MAX_READ_REGISTERS <? qty)
  then ret (MB_RTU_CLIENT_ERR_ARG, out) else
  let! '(pdu_len, pdu) := lift (mb_pdu_build_read fc addr qty (auto_u8 MODBUS_MAX_PDU_LENGTH)) in
  let! '(rc, resp) := on_ctx ctx (fun c => transact c pdu pdu_len (auto_u8 MODBUS_RTU_MAX_ADU_LENGTH)) in
  if rc =? MB_RTU_CLIENT_OK then
    let! '(_, out) := lift (deref (mb_pdu_get_registers (padd resp RTU_OFFSET_PDU) qty) out) in
    ret (rc, out)
  else ret (rc, out).

Definition read_bits (ctx : option mb_rtu_client_ctx) (fc addr qty : Z) (out : option (list Z))
    : calls (Z * option (list Z)) :=
  if is_null ctx || is_null out || (qty =? 0) || (MODBUS_MAX_READ_BITS <? qty)
  then ret (MB_RTU_CLIENT_ERR_ARG, out) else
  let! '(pdu_len, pdu) := lift (mb_pdu_build_read fc addr qty (auto_u8 MODBUS_MAX_PDU_LENGTH)) in
  let! '(rc, resp) := on_ctx ctx (fun c => transact c pdu pdu_len (auto_u8 MODBUS_RTU_MAX_ADU_LENGTH)) in
  if rc =? MB_RTU_CLIENT_OK then
    let! '(_, out) := lift (deref (mb_pdu_get_bits (padd resp RTU_OFFSET_PDU) qty) out) in
    ret (rc, out)
  else ret (rc, out).

Definition mb_rtu_client_read_holding_registers (ctx : option mb_rtu_client_ctx) :=
  read_registers ctx MODBUS_FUNC_READ_HOLDING_REGISTERS.
Definition mb_rtu_client_read_input_registers (ctx : option mb_rtu_client_ctx) :=
  read_registers ctx MODBUS_FUNC_READ_INPUT_REGISTERS.
Definition mb_rtu_client_read_coils (ctx : option mb_rtu_client_ctx) :=
  read_bits ctx MODBUS_FUNC_READ_COILS.
Definition mb_rtu_client_read_discrete_inputs (ctx : option mb_rtu_client_ctx) :=
  read_bits ctx MODBUS_FUNC_READ_DISCRETE_INPUTS.

(** Send a PDU that is ready and drop the response. *)
Definition transact_write (ctx : option mb_rtu_client_ctx) (built : outcome (Z * list Z)) : calls Z :=
  let! '(pdu_len, pdu) := lift built in
  let! '(rc, _) := on_ctx ctx (fun c => transact c pdu pdu_len (auto_u8 MODBUS_RTU_MAX_ADU_LENGTH)) in
  ret rc.

Definition mb_rtu_client_write_single_register (ctx : option mb_rtu_client_ctx) (addr value : Z) : calls Z :=
  if is_null ctx then ret MB_RTU_CLIENT_ERR_ARG else
  transact_write ctx (mb_pdu_build_write_single MODBUS_FUNC_WRITE_SINGLE_REGISTER addr value
                        (auto_u8 MODBUS_MAX_PDU_LENGTH)).

Definition mb_rtu_client_write_single_coil (ctx : option mb_rtu_client_ctx) (addr value : Z) : calls Z :=
  if is_null ctx then ret MB_RTU_CLIENT_ERR_ARG else
  transact_write ctx (mb_pdu_build_write_single MODBUS_FUNC_WRITE_SINGLE_COIL addr
                        (if negb (value =? 0) then MODBUS_COIL_ON else MODBUS_COIL_OFF)
                        (auto_u8 MODBUS_MAX_PDU_LENGTH)).

Definition mb_rtu_client_write_multiple_registers (ctx : option mb_rtu_client_ctx) (addr qty : Z)
    (data : option (list Z)) : calls Z :=
  if is_null ctx || is_null data || (qty =? 0) || (MODBUS_MAX_WRITE_REGISTERS <? qty)
  then ret MB_RTU_CLIENT_ERR_ARG else
  let! data := lift (fun_ptr data) in
  transact_write ctx (mb_pdu_build_write_registers addr qty data (auto_u8 MODBUS_MAX_PDU_LENGTH)).

Definition mb_rtu_client_write_multiple_coils (ctx : option mb_rtu_client_ctx) (addr qty : Z)
    (values : option (list Z)) : calls Z :=
  if is_null ctx || is_null values || (qty =? 0) || (MODBUS_MAX_WRITE_BITS <? qty)
  then ret MB_RTU_CLIENT_ERR_ARG else
  let! values := lift (fun_ptr values) in
  transact_write ctx (mb_pdu_build_write_coils addr qty values (auto_u8 MODBUS_MAX_PDU_LENGTH)).

Definition mb_rtu_client_probe_device (ctx : option mb_rtu_client_ctx) (addr qty : Z) : calls Z :=
  if (qty =? 0) || (MODBUS_MAX_READ_REGISTERS <? qty) then ret MB_RTU_CLIENT_ERR_ARG else
  let! '(rc, _) := mb_rtu_client_read_holding_registers ctx addr qty
                     (Some (auto_u16 MODBUS_MAX_READ_REGISTERS)) in
  ret rc.
End Client.
