(* ===== verification/RtuClientSpec.v ===== *)
(** * What the RTU client receives

    [ready] is a wait for the line, [reads] what a bounded read took from it,
    and [received] how the bytes of a response are judged: by their length,
    function code, check sequence and unit id. *)

From S2P Require Import Prelude Buffer Defines Bits Pdu PduSpec PduClient PduReplies Ptr Rtu Crc RtuFrames Sys TcpServer TcpServerSpec RtuClient.

Section Client.
Context {I : Indet}.

(** ** Waiting for the line *)

Definition time_us (t : option (Z * Z)) : Z :=
  let now := default (indet 0, indet 1) t in
  u64 (u64 (u64 (fst now) * 1000000) + u64 (snd now) / 1000).

Lemma clock_now_run w :
  clock_now w = match clock w with
                | [] => Fail Blocked
                | t :: clk => Ok (default (indet 0, indet 1) t, set_clock clk w)
                end.
Proof. unfold clock_now, sys_clock, pop, bind. by destruct (clock w). Qed.

Lemma monotonic_us_run w :
  monotonic_us w = match clock w with
                   | [] => Fail Blocked
                   | t :: clk => Ok (time_us t, set_clock clk w)
                   end.
Proof. unfold monotonic_us, bind. rewrite clock_now_run. by destruct (clock w). Qed.

(** How a wait ends: the code, and what is left of the answers of the clock
    and of select. *)
Fixpoint ready (deadline : Z) (clk : list (option (Z * Z))) (sel : list poll_event)
    : option (Z * list (option (Z * Z)) * list poll_event) :=
  match clk with
  | [] => None
  | t :: clk' =>
      if deadline <=? time_us t then Some (-2, clk', sel) else
      match sel with
      | [] => None
      | Ready :: s => Some (0, clk', s)
      | Expired :: s => Some (-2, clk', s)
      | PollErr e :: s => if decide (e = EINTR) then ready deadline clk' s else Some (-1, clk', s)
      end
  end.

Definition after_wait (clk : list (option (Z * Z))) (sel : list poll_event) (w : world) : world :=
  set_selects sel (set_clock clk w).

Lemma rtu_wait_readable_loop_run fuel deadline w :
  (length (clock w) < fuel)%nat ->
  wait_readable_loop fuel deadline w =
  match ready deadline (clock w) (selects w) with
  | None => Fail Blocked
  | Some (rc, clk, sel) => Ok (rc, after_wait clk sel w)
  end.
Proof.
  revert w. induction fuel as [|fuel IH]; intros w Hf; [lia|].
  cbn [wait_readable_loop]. unfold bind at 1. rewrite monotonic_us_run.
  destruct (clock w) as [|t clk]; [done|]. cbn [ready]. simpl in Hf.
  destruct (deadline <=? time_us t); [unfold after_wait, ret; by destruct w|].
  unfold sys_select, pop, bind. cbn [selects set_clock].
  destruct (selects w) as [|[| |e] sel]; [done..|].
  unfold ret. case_decide; [|done].
  rewrite (IH (set_selects sel (set_clock clk w))) by (simpl; lia). cbn [clock selects set_selects set_clock].
  destruct (ready _ clk sel) as [[[rc clk'] sel']|]; [|done]. by destruct w.
Qed.

Lemma rtu_wait_readable_run deadline w :
  wait_readable deadline w =
  match ready deadline (clock w) (selects w) with
  | None => Fail Blocked
  | Some (rc, clk, sel) => Ok (rc, after_wait clk sel w)
  end.
Proof. apply rtu_wait_readable_loop_run. lia. Qed.

Lemma ready_code deadline clk sel rc clk' sel' :
  ready deadline clk sel = Some (rc, clk', sel') ->
  (rc = 0 \/ rc = -1 \/ rc = -2) /\ exists used, used <> [] /\ clk = used ++ clk'.
Proof.
  revert sel. induction clk as [|t clk IH]; intros sel; [done|]. cbn [ready].
  assert (forall rc', Some (rc', clk, sel) = Some (rc, clk', sel') \/ (exists s, Some (rc', clk, s) = Some (rc, clk', sel')) ->
    rc' = 0 \/ rc' = -1 \/ rc' = -2 ->
    (rc = 0 \/ rc = -1 \/ rc = -2) /\ exists used, used <> [] /\ t :: clk = used ++ clk') as Hend.
  { intros rc' [Heq|[s Heq]] Hrc; simplify_eq; (split; [done | by exists [t]]). }
  destruct (deadline <=? time_us t); [intros; apply (Hend (-2)); auto|].
  destruct sel as [|[| |e] sel]; [done|intros; apply (Hend 0); eauto|intros; apply (Hend (-2)); eauto|].
  case_decide; [|intros; apply (Hend (-1)); eauto].
  intros [? (used & Hu & ->)]%IH. split; [done|]. by exists (t :: used).
Qed.

(** ** Reading *)

(** [w'] is [w] after reading, apart from what it used of the clock, of select
    and of the incoming bytes. *)
Definition only_read (w w' : world) : Prop :=
  tx w' = tx w /\ drains w' = drains w /\ trace w' = trace w /\
  exists used, clock w = used ++ clock w'.

Lemma only_read_refl w : only_read w w.
Proof. split_and!; try done. by exists []. Qed.

Lemma only_read_trans w1 w2 w3 : only_read w1 w2 -> only_read w2 w3 -> only_read w1 w3.
Proof.
  intros (Ht1 & Hd1 & Hr1 & u1 & Hu1) (Ht2 & Hd2 & Hr2 & u2 & Hu2). split_and!; [congruence..|].
  exists (u1 ++ u2). by rewrite Hu1, Hu2, app_assoc.
Qed.

Lemma only_read_set_rx w r : only_read w (set_rx r w).
Proof. split_and!; try done. by exists []. Qed.

Lemma only_read_wait deadline w rc clk sel :
  ready deadline (clock w) (selects w) = Some (rc, clk, sel) -> only_read w (after_wait clk sel w).
Proof. intros [_ (used & _ & Hc)]%ready_code. split_and!; try done. by exists used. Qed.

(** All the bytes that the line still has to give. *)
Definition incoming (l : list rx_event) : list Z :=
  concat (map (fun e => match e with RxData bs => bs | RxErr _ => [] end) l).

Lemma read_incoming want w r w' :
  sys_read want w = Ok (r, w') -> incoming (rx w) = match r with inl c => c | inr _ => [] end ++ incoming (rx w').
Proof.
  unfold sys_read. destruct (rx w) as [|[bs|e] l]; [done| |by intros [= <- <-]].
  destruct (_ <=? _); intros [= <- <-]; [done|]. cbn [rx set_rx incoming map concat]. unfold incoming. cbn.
  by rewrite app_assoc, take_drop.
Qed.

(** [reads need got rc w w']: a read of [need] bytes took [got] off the line. *)
Definition reads (need : nat) (got : list Z) (rc : Z) (w w' : world) : Prop :=
  only_read w w' /\ rx_bytes (rx w') /\ (length got <= need)%nat /\ got `prefix_of` fst (stream (rx w)) /\
  incoming (rx w) = got ++ incoming (rx w') /\
  if decide (rc = 0) then length got = need /\
    stream (rx w) = (got ++ fst (stream (rx w')), snd (stream (rx w')))
  else (length got < need)%nat /\ (rc = -1 \/ rc = -2).

Lemma reads_chunk n bs got rc w w1 w' :
  (length bs <= n)%nat -> stream (rx w) = (bs ++ fst (stream (rx w1)), snd (stream (rx w1))) ->
  incoming (rx w) = bs ++ incoming (rx w1) ->
  only_read w w1 -> reads (n - length bs) got rc w1 w' -> reads n (bs ++ got) rc w w'.
Proof.
  intros Hn Hs Hi Ho (Ho' & Hb & Hl & Hp & Hi' & Hrc). unfold reads. rewrite Hs. cbn [fst].
  split; [by eapply only_read_trans|]. split; [done|]. rewrite length_app. split; [lia|].
  split; [by apply prefix_app|]. split; [by rewrite Hi, Hi', app_assoc|]. case_decide.
  - destruct Hrc as [Hg Hs1]. split; [lia|]. rewrite Hs1. cbn [fst snd]. by rewrite app_assoc.
  - destruct Hrc. split; [lia | done].
Qed.

(** A read that returns data: the first bytes of the stream. *)
Lemma read_some w bs r want :
  rx w = RxData bs :: r -> 0 < want -> zlen bs <> 0 -> rx_bytes (rx w) ->
  exists c w1, sys_read want w = Ok (inl c, w1) /\ w1 = set_rx (rx w1) w /\ 0 < zlen c <= want /\
    stream (rx w) = (c ++ fst (stream (rx w1)), snd (stream (rx w1))) /\ rx_bytes (rx w1) /\
    (length (rx w1) + (if bool_decide (zlen c = want)%Z then 0 else 1) <= length (rx w))%nat.
Proof.
  intros Hrx Hw Hbs Hb. unfold sys_read. rewrite Hrx in *. cbn [stream].
  rewrite (proj2 (Z.eqb_neq _ _)) by done. apply Forall_cons_iff in Hb as [Hbb Hb].
  destruct (Z.leb_spec (zlen bs) want) as [Hle|Hgt].
  - exists bs, (set_rx r w). split_and!; try done; [lia|]. cbn. case_match; lia.
  - exists (take (Z.to_nat want) bs), (set_rx (RxData (drop (Z.to_nat want) bs) :: r) w).
    rewrite !length_take. split_and!; try done; [lia | lia | | |].
    + cbn [rx set_rx stream]. rewrite (proj2 (Z.eqb_neq _ _)) by (rewrite length_drop; lia).
      cbn [fst snd]. by rewrite app_assoc, take_drop.
    + apply List.Forall_cons; [by apply Forall_drop | done].
    + cbn. rewrite bool_decide_true by lia. lia.
Qed.

Definition read_outcome (pre rest : list Z) (need : nat) (w : world)
    (o : outcome (Z * (list Z * world))) : Prop :=
  match o with
  | Fail e => e = Blocked
  | Ok (rc, (p, w')) => exists got, reads need got rc w w' /\
      p = pre ++ got ++ drop (length got) rest
  end.

Lemma read_exact_loop_run fuel pre rest need deadline w :
  rx_bytes (rx w) -> (length (clock w) < fuel)%nat -> (need <= length rest)%nat ->
  read_outcome pre rest need w
    (read_exact_loop fuel (zlen pre) (zlen pre + Z.of_nat need) deadline (pre ++ rest, w)).
Proof.
  revert pre rest need w. induction fuel as [|fuel IH]; intros pre rest need w Hb Hf Hn; [lia|].
  cbn [read_exact_loop]. destruct need as [|need].
  { rewrite (proj2 (Z.ltb_ge _ _)) by lia. exists []. split; [|done].
    split; [apply only_read_refl|]. split; [done|]. split; [simpl; lia|]. split; [apply prefix_nil|]. split; [done|].
    split; [done|]. by destruct (stream (rx w)). }
  rewrite (proj2 (Z.ltb_lt _ _)) by lia. set (n := S need) in *.
  replace (zlen pre + Z.of_nat n - zlen pre) with (Z.of_nat n) by lia.
  unfold bind at 1, on_snd at 1. rewrite rtu_wait_readable_run.
  destruct (ready deadline (clock w) (selects w)) as [[[rc clk] sel]|] eqn:Hready; [|done].
  pose proof (only_read_wait _ _ _ _ _ Hready) as Hwait.
  pose proof (ready_code _ _ _ _ _ _ Hready) as [Hrc (used & Hused & Hclk)].
  assert (length clk < length (clock w))%nat as Hlen.
  { rewrite Hclk, length_app. destruct used; [done | simpl; lia]. }
  set (w1 := after_wait clk sel w) in *.
  assert (forall rc' w', only_read w w' -> rx_bytes (rx w') -> incoming (rx w) = incoming (rx w') -> rc' = -1 \/ rc' = -2 ->
    read_outcome pre rest n w (Ok (rc', (pre ++ rest, w')))) as Hstop.
  { intros rc' w' Ho Hb' Hi' Hrc'. exists []. split; [|done]. split; [done|]. split; [done|].
    split; [simpl; lia|]. split; [apply prefix_nil|]. split; [done|]. rewrite decide_False by lia. split; [simpl; lia | done]. }
  destruct (Z.eqb_spec rc 0) as [->|Hne]; cbn [negb]; [|apply Hstop; [done | done | done | lia]].
  destruct (rx w1) as [|[bs|e] r] eqn:Hrx.
  - unfold bind, on_snd, sys_read. by rewrite Hrx.
  - destruct (decide (zlen bs = 0)) as [H0|H0].
    { unfold bind, on_snd, sys_read. rewrite Hrx, (proj2 (Z.leb_le _ _)) by lia.
      rewrite (proj2 (Z.eqb_eq _ _)) by done. apply Hstop; [| | |by right].
      - eapply only_read_trans; [done | apply only_read_set_rx].
      - change (rx w) with (rx w1) in Hb. rewrite Hrx in Hb. by apply Forall_cons_iff in Hb as [_ Hb].
      - change (rx w) with (rx w1). rewrite Hrx. by apply nil_length_inv in H0 as -> || (destruct bs; [done | simpl in H0; lia]). }
    destruct (read_some w1 bs r (Z.of_nat n) Hrx ltac:(lia) H0 Hb) as (c & w2 & Hread & Hw2 & Hc & Hs & Hb2 & _).
    unfold bind at 1, on_snd at 1. rewrite Hread. rewrite (proj2 (Z.eqb_neq _ _)) by lia.
    erewrite bind_ok by (apply recv_loop_chunk; lia).
    replace (zlen pre + zlen c) with (zlen (pre ++ c)) by (rewrite length_app; lia).
    replace (zlen pre + Z.of_nat n) with (zlen (pre ++ c) + Z.of_nat (n - length c)) by (rewrite length_app; lia).
    pose proof (IH (pre ++ c) (drop (length c) rest) (n - length c)%nat w2 Hb2
      ltac:(rewrite Hw2; simpl; lia) ltac:(rewrite length_drop; lia)) as Hrec.
    unfold read_outcome in *. destruct (read_exact_loop _ _ _ _ _) as [[rc' [p w']]|]; [|done].
    destruct Hrec as (got & Hgot & ->). exists (c ++ got). split.
    + eapply reads_chunk; [lia | exact Hs | by apply (read_incoming _ _ _ _ Hread) | | exact Hgot].
      eapply only_read_trans; [exact Hwait|]. rewrite Hw2. apply only_read_set_rx.
    + by rewrite <- !app_assoc, drop_drop, length_app.
  - change (rx w) with (rx w1) in Hb. rewrite Hrx in Hb. apply Forall_cons_iff in Hb as [_ Hb].
    unfold bind at 1, on_snd at 1, sys_read. rewrite Hrx.
    assert (only_read w (set_rx r w1)) as Ho by (eapply only_read_trans; [done | apply only_read_set_rx]).
    case_decide as He; [subst e|by apply Hstop; [| | change (rx w) with (rx w1); rewrite Hrx | left]].
    pose proof (IH pre rest n (set_rx r w1) Hb ltac:(simpl; lia) Hn) as Hrec.
    unfold read_outcome in *. destruct (read_exact_loop _ _ _ _ _) as [[rc' [p w']]|]; [|done].
    destruct Hrec as (got & Hgot & ->). exists got. split; [|done].
    apply (reads_chunk n [] got rc' w (set_rx r w1) w'); [simpl; lia | | | done | by rewrite Nat.sub_0_r];
      [|change (rx w) with (rx w1); by rewrite Hrx].
    change (rx w) with (rx w1). rewrite Hrx. cbn [stream rx set_rx app]. by destruct (stream r).
Qed.

Lemma read_exact_run n rest deadline w :
  rx_bytes (rx w) -> 0 <= n <= zlen rest ->
  read_outcome [] rest (Z.to_nat n) w (read_exact_timeout n deadline (rest, w)).
Proof.
  intros Hb Hn. unfold read_exact_timeout. cbn [snd].
  pose proof (read_exact_loop_run (S (length (clock w))) [] rest (Z.to_nat n) deadline w Hb
    ltac:(lia) ltac:(lia)) as H.
  cbn [length app] in H. by rewrite Z2Nat.id in H by lia.
Qed.

(** ** One response *)

(** The size of a response to function code [efc], from its first bytes;
    [None]: not a response to it, or too long. *)
Definition frame_size (efc : Z) (got : list Z) : option Z :=
  let f := got !!! 1%nat in
  if f =? efc + 128 then Some 5
  else if negb (f =? efc) then None
  else if efc <=? MODBUS_FUNC_READ_INPUT_REGISTERS then
    let n := 5 + got !!! 2%nat in if MODBUS_RTU_MAX_ADU_LENGTH <? n then None else Some n
  else Some 8.

(** How the bytes [got] of a response are judged. *)
Inductive received (efc unit : Z) (got : list Z) : Z -> Prop :=
  | received_io code : code = -1 \/ code = -2 -> received efc unit got code
  | received_unknown : 2 <= zlen got -> frame_size efc got = None ->
      received efc unit got RTU_IO_FRAME_ERROR
  | received_crc : frame_size efc got = Some (zlen got) -> frame_ok got = false ->
      received efc unit got RTU_IO_CRC_ERROR
  | received_unit : frame_size efc got = Some (zlen got) -> frame_ok got = true ->
      unit_of got <> unit -> received efc unit got RTU_IO_UNIT_ID_ERROR
  | received_frame : frame_size efc got = Some (zlen got) -> frame_ok got = true ->
      unit_of got = unit -> received efc unit got 0.

Definition deadline (c : mb_rtu_client_ctx) (b : mb_rtu_shared_bus) (t : option (Z * Z)) : Z :=
  let timeout_ms := if negb (cli_response_timeout_ms (cli_cfg c) =? 0)
                    then cli_response_timeout_ms (cli_cfg c) else DEFAULT_RESPONSE_TIMEOUT_MS in
  let char_bits := u32 (1 + bus_data_bits b + bus_stop_bits b
                        + (if negb (bus_parity b =? MB_RTU_PARITY_NONE) then 1 else 0)) in
  u64 (u64 (time_us t + timeout_ms * 1000)
       + u64 (char_bits * MODBUS_RTU_MAX_ADU_LENGTH * 1000000 + bus_baud_rate b - 1) / bus_baud_rate b).

Lemma response_deadline_run c b w :
  0 < bus_baud_rate b ->
  response_deadline_us c b w = match clock w with
                               | [] => Fail Blocked
                               | t :: clk => Ok (deadline c b t, set_clock clk w)
                               end.
Proof.
  intros Hb. unfold response_deadline_us, bind. rewrite monotonic_us_run.
  destruct (clock w) as [|t clk]; [done|]. unfold frame_wire_time_us, lift.
  by rewrite (proj2 (Z.eqb_neq _ _)) by lia.
Qed.

Lemma read_at_run got rest n dl w0 w :
  reads (length got) got 0 w0 w -> 0 <= n <= zlen rest ->
  match at_ptr (zlen got) (read_exact_timeout n dl) (got ++ rest, w) with
  | Fail e => e = Blocked
  | Ok (rc, (p, w')) => exists g, reads (length got + Z.to_nat n) (got ++ g) rc w0 w' /\
      p = (got ++ g) ++ drop (length g) rest
  end.
Proof.
  intros (Ho & Hb & _ & _ & Hi & _ & Hs) Hn. pose proof (read_exact_run n rest dl w Hb Hn) as Hr.
  unfold at_ptr. rewrite !(proj2 (Z.leb_le _ _)) by (rewrite ?length_app; lia).
  rewrite Nat2Z.id, drop_app_length, take_app_length. unfold read_outcome in Hr.
  destruct (read_exact_timeout _ _ _) as [[rc [p w']]|]; [|done]. destruct Hr as (g & Hg & ->).
  exists g. split; [|by rewrite <- app_assoc].
  apply (reads_chunk _ got g rc w0 w w'); [lia | exact Hs | exact Hi | exact Ho|].
  by replace (length got + Z.to_nat n - length got)%nat with (Z.to_nat n) by lia.
Qed.

Lemma efc_exception efc : 0 <= efc < 128 -> u8 (Z.lor efc MODBUS_EXCEPTION_FLAG) = efc + 128.
Proof.
  intros He. assert (forall n, (n < 128)%nat -> u8 (Z.lor (Z.of_nat n) 128) = Z.of_nat n + 128) as Hall.
  { intros n Hn. do 128 (destruct n as [|n]; [reflexivity|]). lia. }
  rewrite <- (Z2Nat.id efc) by lia. apply Hall. lia.
Qed.

Lemma reads_bytes need got rc w w' : reads need got rc w w' -> rx_bytes (rx w) -> bytes got.
Proof.
  intros (_ & _ & _ & [more Hp] & _) Hb%stream_bytes. rewrite Hp in Hb.
  by apply Forall_app in Hb as [Hb _].
Qed.

(** How many of the bytes [got] the program counts as received: only whole
    parts count, the unit and the function code, the byte count of a response to
    a read, and the rest. *)
Definition noted (efc : Z) (got : list Z) : Z :=
  if zlen got <? 2 then 0
  else if bool_decide (frame_size efc got = Some (zlen got)) then zlen got
  else if (got !!! 1%nat =? efc) && (efc <=? MODBUS_FUNC_READ_INPUT_REGISTERS) && (3 <=? zlen got) then 3 else 2.

Lemma noted_range efc got : 0 <= noted efc got <= zlen got.
Proof. unfold noted. repeat case_match; lia. Qed.

Lemma noted_whole efc got : 2 <= zlen got -> frame_size efc got = Some (zlen got) -> noted efc got = zlen got.
Proof. intros H2 Hs. unfold noted. rewrite (proj2 (Z.ltb_ge _ _)) by lia. by rewrite bool_decide_true. Qed.

Lemma noted_parts efc got : 2 <= zlen got -> frame_size efc got <> Some (zlen got) ->
  noted efc got = if (got !!! 1%nat =? efc) && (efc <=? MODBUS_FUNC_READ_INPUT_REGISTERS) && (3 <=? zlen got) then 3 else 2.
Proof. intros H2 Hs. unfold noted. rewrite (proj2 (Z.ltb_ge _ _)) by lia. by rewrite bool_decide_false. Qed.

(** The three kinds of response, while they come in: size, and what is noted of
    a part. *)
Definition coming (efc : Z) (got : list Z) (n k : Z) : Prop :=
  frame_size efc got = Some n /\ (zlen got < n -> noted efc got = k).

Lemma exception_coming efc got : 2 <= zlen got -> got !!! 1%nat = efc + 128 -> coming efc got 5 2.
Proof.
  intros H2 Hf. assert (frame_size efc got = Some 5) as Hs by (unfold frame_size; rewrite Hf; by zbool).
  split; [done|]. intros Hlt. rewrite noted_parts by (rewrite ?Hs; first [lia | intros [= ?]; lia]). rewrite Hf. by zbool.
Qed.

Lemma write_coming efc got :
  2 <= zlen got -> got !!! 1%nat = efc -> MODBUS_FUNC_READ_INPUT_REGISTERS < efc -> coming efc got 8 2.
Proof.
  intros H2 Hf He. assert (frame_size efc got = Some 8) as Hs by (unfold frame_size; rewrite Hf; by zbool).
  split; [done|]. intros Hlt. rewrite noted_parts by (rewrite ?Hs; first [lia | intros [= ?]; lia]). rewrite Hf. by zbool.
Qed.

Lemma read_coming efc got count :
  3 <= zlen got -> got !!! 1%nat = efc -> efc <= MODBUS_FUNC_READ_INPUT_REGISTERS -> got !!! 2%nat = count ->
  5 + count <= MODBUS_RTU_MAX_ADU_LENGTH -> coming efc got (5 + count) 3.
Proof.
  intros H3 Hf He Hc Hn. assert (frame_size efc got = Some (5 + count)) as Hs by (unfold frame_size; rewrite Hf, Hc; by zbool).
  split; [done|]. intros Hlt. rewrite noted_parts by (rewrite ?Hs; first [lia | intros [= ?]; lia]). rewrite Hf. by zbool.
Qed.

(** What is refused. *)
Lemma unknown_noted efc got :
  2 <= zlen got -> got !!! 1%nat <> efc -> got !!! 1%nat <> efc + 128 -> frame_size efc got = None /\ 2 = noted efc got.
Proof.
  intros H2 Hf Hx. assert (frame_size efc got = None) as Hs by (unfold frame_size; by zbool).
  split; [done|]. rewrite noted_parts by (rewrite ?Hs; done). by zbool.
Qed.

Lemma header_noted efc got :
  zlen got = 2 -> got !!! 1%nat = efc -> efc <= MODBUS_FUNC_READ_INPUT_REGISTERS -> 2 = noted efc got.
Proof.
  intros H2 Hf He. assert (got !!! 2%nat = 1) as H0 by (rewrite list_lookup_total_alt, lookup_ge_None_2 by lia; reflexivity).
  assert (frame_size efc got = Some 6) as Hs by (unfold frame_size, MODBUS_RTU_MAX_ADU_LENGTH; rewrite H0; by zbool).
  rewrite noted_parts by (rewrite ?Hs; first [lia | intros [= ?]; lia]). by zbool.
Qed.

Lemma long_noted efc got :
  zlen got = 3 -> got !!! 1%nat = efc -> efc <= MODBUS_FUNC_READ_INPUT_REGISTERS -> MODBUS_RTU_MAX_ADU_LENGTH < 5 + got !!! 2%nat ->
  frame_size efc got = None /\ 3 = noted efc got.
Proof.
  intros H3 Hf He Hl. assert (frame_size efc got = None) as Hs by (unfold frame_size; by zbool).
  split; [done|]. rewrite noted_parts by (rewrite ?Hs; first [lia | done]). by zbool.
Qed.

(** The length: the response is refused, or its first bytes are in the buffer
    and say how long it is. *)
Lemma response_length_run efc unit dl got rest w0 w :
  reads 2 got 0 w0 w -> length got = 2%nat -> zlen rest = 254 -> 1 <= efc <= 16 -> rx_bytes (rx w0) ->
  match response_length efc dl (got ++ rest, w) with
  | Fail e => e = Blocked
  | Ok (inl (rc, k), (p, w')) => zlen p = 256 /\ rc <> 0 /\ exists n g code,
      reads n g code w0 w' /\ received efc unit g rc /\ g `prefix_of` p /\ k = noted efc g
  | Ok (inr (k, n), (p, w')) => exists g m, p = g ++ drop m rest /\ zlen p = 256 /\ zlen g = k /\
      reads (length g) g 0 w0 w' /\ (2 <= k <= n /\ n <= 256) /\
      forall g', coming efc (g ++ g') n k
  end.
Proof.
  intros Hr Hg Hrest He Hb0. unfold response_length. erewrite bind_ok by done. cbv beta iota.
  pose proof Hr as (_ & Hb & _).
  erewrite bind_ok by (apply lift_ok, load_lookup_total; unfold RTU_OFFSET_FC; rewrite length_app; lia).
  rewrite lookup_total_app_l by (unfold RTU_OFFSET_FC; lia).
  change (Z.to_nat RTU_OFFSET_FC) with 1%nat. rewrite efc_exception by lia.
  assert (forall g', (got ++ g') !!! 1%nat = got !!! 1%nat) as Hf
    by (intros; by rewrite lookup_total_app_l by lia).
  assert (zlen (got ++ rest) = 256) as Hl by (rewrite length_app; lia).
  destruct (Z.eqb_spec (got !!! 1%nat) (efc + 128)) as [Hx|Hx].
  { exists got, 0%nat. split; [by rewrite drop_0|]. split; [done|]. split; [lia|]. split; [by rewrite Hg|].
    unfold RTU_EXCEPTION_LEN. split; [lia|]. intros g'. apply exception_coming; [rewrite length_app; lia | by rewrite Hf]. }
  destruct (Z.eqb_spec (got !!! 1%nat) efc) as [Hfc|Hfc]; cbn [negb].
  2:{ split; [done|]. split; [done|]. exists 2%nat, got, 0. split; [done|].
      destruct (unknown_noted efc got) as [Hs Hk]; [lia | done | done |].
      split; [apply received_unknown; [lia | done]|]. split; [by eexists | done]. }
  destruct (Z.leb_spec efc MODBUS_FUNC_READ_INPUT_REGISTERS) as [Hread|Hread].
  2:{ exists got, 0%nat. split; [by rewrite drop_0|]. split; [done|]. split; [lia|]. split; [by rewrite Hg|].
      unfold RTU_WRITE_RESPONSE_LEN. split; [lia|]. intros g'. apply write_coming; [rewrite length_app; lia | by rewrite Hf | done]. }
  rewrite <- Hg in Hr. pose proof (read_at_run got rest 1 dl w0 w Hr ltac:(lia)) as Hone.
  replace (zlen got) with 2 in Hone by lia. unfold bind at 1.
  destruct (at_ptr 2 (read_exact_timeout 1 dl) (got ++ rest, w)) as [[rc [p w']]|]; [|exact Hone].
  destruct Hone as (g & Hreads & ->). pose proof Hreads as (_ & Hb' & Hlen & _ & _ & Hrc).
  rewrite length_app in Hlen.
  assert (zlen ((got ++ g) ++ drop (length g) rest) = 256) as Hl'
    by (rewrite !length_app, length_drop; lia).
  destruct (Z.eqb_spec rc 0) as [->|Hne]; cbn [negb].
  2:{ split; [done|]. split; [done|]. exists (length got + 1)%nat, (got ++ g), rc. split; [exact Hreads|].
      rewrite decide_False in Hrc by done. destruct Hrc as [Hlt Hio]. rewrite length_app in Hlt.
      split; [by apply received_io|]. split; [by eexists|].
      assert (g = []) as -> by (destruct g; [done | simpl in Hlt; lia]). rewrite app_nil_r.
      by apply header_noted; [lia | ..]. }
  destruct Hrc as [Hgl _]. rewrite length_app in Hgl.
  erewrite bind_ok by done. cbv beta iota.
  erewrite bind_ok by (apply lift_ok, load_lookup_total; unfold RTU_READ_BYTE_COUNT_OFF; lia).
  rewrite lookup_total_app_l by (unfold RTU_READ_BYTE_COUNT_OFF; rewrite length_app; lia).
  change (Z.to_nat RTU_READ_BYTE_COUNT_OFF) with 2%nat. set (count := (got ++ g) !!! 2%nat).
  assert (is_u8 count) as Hcount.
  { apply Forall_lookup_total_1; [|rewrite length_app; lia]. eapply reads_bytes; done. }
  assert (forall g', ((got ++ g) ++ g') !!! 1%nat = efc /\ ((got ++ g) ++ g') !!! 2%nat = count) as Hf'.
  { intros g'. split; [by rewrite <- app_assoc, Hf|]. by rewrite lookup_total_app_l by (rewrite length_app; lia). }
  unfold MODBUS_RTU_CRC_LEN. replace (3 + count + 2) with (5 + count) by lia.
  destruct (Z.ltb_spec MODBUS_RTU_MAX_ADU_LENGTH (5 + count)) as [Hlong|Hshort].
  - split; [done|]. split; [done|]. exists (length got + 1)%nat, (got ++ g), 0. split; [exact Hreads|].
    destruct (Hf' []) as [H1 H2]. rewrite app_nil_r in H1, H2.
    destruct (long_noted efc (got ++ g)) as [Hs Hk]; [rewrite length_app; lia | done | done | by rewrite H2 |].
    split; [apply received_unknown; [rewrite length_app; lia | done]|]. split; [by eexists | done].
  - exists (got ++ g), (length g). split; [done|]. split; [done|].
    split; [rewrite length_app; lia|]. split; [by replace (length (got ++ g)) with (length got + 1)%nat
      by (rewrite length_app; lia)|].
    unfold MODBUS_RTU_MAX_ADU_LENGTH in Hshort. split; [unfold is_u8 in Hcount; lia|]. intros g'.
    destruct (Hf' g') as [H1 H2]. apply read_coming; [rewrite !length_app; lia | done | done | done | done].
Qed.

Lemma rtu_recv_response_run c b unit efc buf w :
  zlen buf = 256 -> bytes buf -> rx_bytes (rx w) -> 1 <= efc <= 16 -> 0 < bus_baud_rate b ->
  match recv_response c b unit efc (buf, w) with
  | Fail e => e = Blocked
  | Ok ((rc, total), (p, w')) => zlen p = 256 /\ only_read w w' /\
      exists got, got `prefix_of` fst (stream (rx w)) /\ received efc unit got rc /\
        incoming (rx w) = got ++ incoming (rx w') /\ got `prefix_of` p /\ total = noted efc got
  end.
Proof.
  intros Hl Hbb Hb He Hbaud. unfold recv_response.
  unfold bind at 1, on_snd. rewrite response_deadline_run by done.
  destruct (clock w) as [|t clk] eqn:Hclk; [done|]. set (dl := deadline c b t).
  set (w0 := set_clock clk w). assert (only_read w w0) as Hw0.
  { split_and!; try done. exists [t]. by rewrite Hclk. }
  pose proof (read_exact_run 2 buf dl w0 Hb ltac:(lia)) as H2. unfold read_outcome in H2.
  unfold bind at 1. destruct (read_exact_timeout 2 dl (buf, w0)) as [[rc [p w1]]|]; [|done].
  destruct H2 as (got & Hreads & ->). pose proof Hreads as (Ho1 & _ & Hgl & Hp1 & Hi1 & Hrc). cbn [app].
  assert (zlen (got ++ drop (length got) buf) = 256) as Hl1 by (rewrite length_app, length_drop; lia).
  destruct (Z.eqb_spec rc 0) as [->|Hne]; cbn [negb].
  2:{ split; [done|]. split; [by eapply only_read_trans|]. exists got. split; [done|].
      rewrite decide_False in Hrc by done. split; [apply received_io, Hrc|]. split; [done|]. split; [by eexists|].
      unfold noted. by zbool. }
  destruct Hrc as [Hg2 _]. change (Z.to_nat 2) with 2%nat in *.
  pose proof (response_length_run efc unit dl got (drop (length got) buf) w0 w1 Hreads Hg2
    ltac:(rewrite length_drop; lia) He Hb) as Hlen. unfold bind at 1.
  destruct (response_length _ _ _) as [[[[rc total]|[k n]] [p w2]]|]; [| |exact Hlen].
  { destruct Hlen as (Hp & Hne & m & g & code & (Ho2 & _ & _ & Hp2 & Hi2 & _) & Hrec & Hgp & Hk).
    split; [done|]. split; [by eapply only_read_trans|]. by exists g. }
  destruct Hlen as (g & m & -> & Hp & <- & Hreads2 & Hn & Hsize). rewrite drop_drop in *.
  set (rest := drop (length got + m) buf) in *. assert (bytes rest) as Hrb by (by apply Forall_drop).
  pose proof (read_at_run g rest (n - zlen g) dl w0 w2 Hreads2 ltac:(rewrite length_app in Hp; lia)) as H3.
  unfold bind at 1. destruct (at_ptr _ _ _) as [[rc [p3 w3]]|]; [|exact H3].
  destruct H3 as (g' & Hreads3 & ->). pose proof Hreads3 as (Ho3 & _ & Hgl3 & Hp3 & Hi3 & Hrc).
  pose proof (reads_bytes _ _ _ _ _ Hreads3 Hb) as Hfb.
  assert (zlen ((g ++ g') ++ drop (length g') rest) = 256) as Hl3
    by (rewrite !length_app, length_drop in *; lia).
  assert (bytes ((g ++ g') ++ drop (length g') rest)) as Hb3
    by (apply Forall_app_2; [done | by apply Forall_drop]).
  destruct (Z.eqb_spec rc 0) as [->|Hne]; cbn [negb].
  2:{ split; [done|]. split; [by eapply only_read_trans|]. exists (g ++ g'). split; [done|].
      rewrite decide_False in Hrc by done. split; [apply received_io, Hrc|]. split; [done|]. split; [by eexists|].
      destruct Hrc as [Hlt _]. symmetry. apply (Hsize g'). lia. }
  rewrite decide_True in Hrc by done. destruct Hrc as [Hg3 _].
  assert (zlen (g ++ g') = n) as Hgn by lia. destruct (Hsize g') as [Hs _]. clear Hsize. rename Hs into Hsize.
  set (f := g ++ g') in *. erewrite bind_ok by done. cbv beta iota.
  erewrite bind_ok by (apply lift_ok, validate_crc_run; [exact Hb3 | lia]).
  rewrite <- Hgn, Nat2Z.id, take_app_length.
  rewrite <- Hgn in Hsize.
  assert (forall rc, received efc unit f rc -> zlen (f ++ drop (length g') rest) = 256 /\ only_read w w3 /\
    exists got, got `prefix_of` fst (stream (rx w)) /\ received efc unit got rc /\
      incoming (rx w) = got ++ incoming (rx w3) /\ got `prefix_of` f ++ drop (length g') rest /\ n = noted efc got) as Hend.
  { intros rc Hrec. split; [done|]. split; [by eapply only_read_trans|]. exists f. do 3 (split; [done|]).
    split; [by eexists|]. by rewrite noted_whole by (try done; lia). }
  destruct (frame_ok f) eqn:Hok; cbn [Z.eqb negb]; [|rewrite Hgn; by apply Hend, received_crc].
  erewrite bind_ok by (apply lift_ok, load_lookup_total; unfold RTU_OFFSET_UNIT_ID; lia).
  rewrite lookup_total_app_l by (unfold RTU_OFFSET_UNIT_ID; lia).
  change (f !!! Z.to_nat RTU_OFFSET_UNIT_ID) with (unit_of f). rewrite Hgn.
  destruct (Z.eqb_spec (unit_of f) unit); cbn [negb]; apply Hend; [by apply received_frame | by apply received_unit].
Qed.
End Client.
