(* ===== verification/RtuClientTransact.v ===== *)
(** * One transaction of the RTU client

    [pause] is the silence before the request, [transaction] what a transaction
    does to the line, to the bus record and to the caller: the order of the
    visible actions and the return code of every ending. *)

From S2P Require Import Prelude Buffer Defines Bits Pdu PduSpec PduClient PduReplies Ptr Rtu Crc RtuFrames Sys TcpServer TcpServerSpec RtuClient RtuClientSpec.

Section Client.
Context {I : Indet}.

(** ** Silence *)

(** A monotonic clock counts from boot; it does not fail. *)
Definition sane_time (t : Z * Z) : Prop := 0 <= fst t < 2 ^ 40 /\ 0 <= snd t < 1000000000.
Definition sane_clock (clk : list (option (Z * Z))) : Prop :=
  Forall (fun t => exists v, t = Some v /\ sane_time v) clk.

Definition client_ok (c : mb_rtu_client_ctx) : Prop :=
  is_u32 (cli_inter_frame_delay_us (cli_cfg c)) /\ is_u32 (cli_bus_handoff_silence_ms (cli_cfg c)).
Definition bus_ok (b : mb_rtu_shared_bus) : Prop :=
  0 < bus_baud_rate b /\ is_u32 (bus_t35_us b) /\
  (has_last_transaction b = true -> sane_time (last_release_time b)).

(** The silence the bus needs before a request of [c], in microseconds: the
    inter-frame silence, or the longer hand-off silence when the last
    transaction was with another unit. *)
Definition required_silence (c : mb_rtu_client_ctx) (b : mb_rtu_shared_bus) : Z :=
  let inter_frame := effective_inter_frame_us c b in
  if negb (has_last_transaction b) then 0
  else if last_unit_id b =? cli_unit_id (cli_cfg c) then inter_frame
  else Z.max inter_frame (effective_handoff_silence_ms c * 1000).

(** The time since the last transaction, as the code computes it. *)
Definition elapsed (b : mb_rtu_shared_bus) (t : Z * Z) : Z :=
  (fst t - fst (last_release_time b)) * 1000000 + Z.quot (snd t - snd (last_release_time b)) 1000.

(** The sleep before the request, and the clock it leaves. *)
Definition pause (c : mb_rtu_client_ctx) (b : mb_rtu_shared_bus) (clk : list (option (Z * Z)))
    : option (list action * list (option (Z * Z))) :=
  let required := required_silence c b in
  if required =? 0 then Some ([], clk) else
  match clk with
  | [] => None
  | t :: clk' =>
      let gap := elapsed b (default (indet 0, indet 1) t) in
      Some (if (0 <=? gap) && (gap <? required) then [Slept (required - gap)] else [], clk')
  end.

Definition after (w : world) (acts : list action) (clk : list (option (Z * Z))) : world :=
  World (rx w) (tx w) clk (selects w) (drains w) (trace w ++ acts).

Lemma after_nil w clk : after w [] clk = set_clock clk w.
Proof. unfold after. by rewrite app_nil_r. Qed.

Lemma effective_timing_u32 v d : is_u32 v -> is_u32 d -> is_u32 (mb_rtu_effective_timing v d).
Proof. intros Hv Hd. unfold mb_rtu_effective_timing. by repeat case_match. Qed.

Lemma inter_frame_u32 c b : client_ok c -> bus_ok b -> is_u32 (effective_inter_frame_us c b).
Proof. intros [Hi _] (_ & Ht & _). by apply effective_timing_u32. Qed.

Lemma handoff_u32 c : client_ok c -> is_u32 (effective_handoff_silence_ms c).
Proof. intros [_ Hh]. by apply effective_timing_u32. Qed.

Lemma required_bound c b : client_ok c -> bus_ok b -> 0 <= required_silence c b <= 2 ^ 32 * 1000.
Proof.
  intros Hc Hb. pose proof (inter_frame_u32 c b Hc Hb) as Hi. pose proof (handoff_u32 c Hc) as Hh.
  unfold is_u32 in *. change (2 ^ 32) with 4294967296 in *. unfold required_silence.
  destruct (has_last_transaction b); [|done]. cbn [negb]. destruct (_ =? _); lia.
Qed.

Lemma elapsed_bound b t :
  sane_time t -> sane_time (last_release_time b) ->
  - 2 ^ 63 <= (fst t - fst (last_release_time b)) * 1000000 < 2 ^ 63 /\
  - 2 ^ 63 <= elapsed b t < 2 ^ 63.
Proof.
  intros [Hs Hn] [Hs' Hn']. unfold elapsed.
  change (2 ^ 63) with 9223372036854775808. change (2 ^ 40) with 1099511627776 in *.
  assert (- 1000000 <= Z.quot (snd t - snd (last_release_time b)) 1000 <= 1000000); [|lia].
  Z.quot_rem_to_equations. lia.
Qed.

Lemma i64_ok v : - 2 ^ 63 <= v < 2 ^ 63 -> i64 v = Ok v.
Proof. intros Hv. unfold i64. by rewrite (proj2 (Z.leb_le _ _)), (proj2 (Z.ltb_lt _ _)) by lia. Qed.

Lemma client_silence_run c b w :
  client_ok c -> bus_ok b -> sane_clock (clock w) ->
  wait_bus_silence b (cli_unit_id (cli_cfg c)) (effective_inter_frame_us c b) (effective_handoff_silence_ms c) w
  = match pause c b (clock w) with
    | None => Fail Blocked
    | Some (acts, clk) => Ok (tt, after w acts clk)
    end.
Proof.
  intros Hc Hb Hclk. pose proof (required_bound c b Hc Hb) as Hreq. pose proof (handoff_u32 c Hc) as Hh.
  change (2 ^ 32) with 4294967296 in *.
  assert (forall clk, after w [] clk = set_clock clk w) as Hnil by (intros; apply after_nil).
  unfold wait_bus_silence, pause. destruct (has_last_transaction b) eqn:Hlast.
  2:{ unfold required_silence. rewrite Hlast. cbn. rewrite Hnil. by destruct w. }
  cbn [negb]. rewrite u64_small by zint.
  assert ((if negb (last_unit_id b =? cli_unit_id (cli_cfg c)) &&
              (effective_inter_frame_us c b <? effective_handoff_silence_ms c * 1000)
           then effective_handoff_silence_ms c * 1000 else effective_inter_frame_us c b)
          = required_silence c b) as ->.
  { unfold required_silence. rewrite Hlast. cbn [negb]. destruct (_ =? _); [done|]. cbn [negb andb].
    destruct (Z.ltb_spec (effective_inter_frame_us c b) (effective_handoff_silence_ms c * 1000)); lia. }
  set (req := required_silence c b) in *. destruct (Z.eqb_spec req 0); [rewrite Hnil; by destruct w|].
  unfold bind at 1. rewrite clock_now_run. destruct (clock w) as [|t clk] eqn:Hw; [done|].
  apply Forall_cons_iff in Hclk as [(v & -> & Hv) _]. cbn [default from_option id].
  destruct Hb as (_ & _ & Hl). destruct (elapsed_bound b v Hv (Hl Hlast)) as [H1 H2].
  erewrite bind_ok by (apply lift_ok, i64_ok, H1). erewrite bind_ok by (apply lift_ok, i64_ok, H2).
  fold (elapsed b v). change (2 ^ 63) with 9223372036854775808 in *.
  destruct (Z.leb_spec 0 (elapsed b v)); [|cbn [andb]; by rewrite Hnil]. cbn [andb].
  rewrite (u64_small (elapsed b v)) by zint.
  destruct (Z.ltb_spec (elapsed b v) req); [|by rewrite Hnil]. by rewrite u64_small by zint.
Qed.

(** ** Sending *)

Definition hook (c : mb_rtu_client_ctx) (on : Z) : list action :=
  if cli_on_tx_enable (cli_cfg c) then [TxEnable on] else [].

Lemma client_tx_enable_run c on w : tx_enable c on w = Ok (tt, after w (hook c on) (clock w)).
Proof. unfold tx_enable, hook, after. destruct (cli_on_tx_enable _); [done|]. rewrite app_nil_r. by destruct w. Qed.

(** The loop is that of [mb_tcp_send_all]. *)
Lemma write_all_loop_eq fuel buf len sent w :
  write_all_loop fuel buf len sent w = send_all_loop fuel buf len sent w.
Proof.
  revert sent w. induction fuel as [|fuel IH]; intros sent w; [done|]. cbn.
  destruct (sent <? len); [|done]. unfold bind.
  destruct (sys_write _ _ w) as [[[k|e] w1]|]; [|by case_decide|done]. by destruct (k =? 0).
Qed.

(** Everything accepted and drained, or -1, or still waiting; then what the
    line keeps of the clock and of the incoming bytes is untouched. *)
Definition write_result (bs : list Z) (w : world) (o : outcome (Z * world)) : Prop :=
  match accepts on_signal (tx w) (zlen bs), drains w with
  | Some true, [] => o = Fail Blocked
  | Some true, d :: r => exists w1, wrote w bs w1 /\
      o = Ok (if d =? 0 then 0 else -1, set_drains r w1)
  | Some false, _ => exists w1 out, o = Ok (-1, w1) /\ wrote w out w1 /\ out `prefix_of` bs
  | None, _ => o = Fail Blocked
  end.

Lemma client_write_all_run bs more w : write_result bs w (write_all (bs ++ more) (zlen bs) w).
Proof.
  unfold write_all. rewrite (proj2 (Z.leb_le _ _)) by (rewrite length_app; lia).
  pose proof (send_all_loop_run (S (length (tx w))) (bs ++ more) 0 bs w more eq_refl ltac:(lia) ltac:(lia)) as Hs.
  cbn [Z.add] in Hs. rewrite <- write_all_loop_eq in Hs. unfold send_result in Hs. unfold write_result.
  destruct (accepts on_signal (tx w) (zlen bs)) as [[]|].
  - destruct Hs as (w1 & Hrun & Hw & _). erewrite bind_ok by exact Hrun. cbn [Z.eqb negb].
    assert (drains w1 = drains w) as Hd by (by destruct Hw as (? & ? & _ & _ & ->)).
    unfold bind, sys_tcdrain, pop. rewrite Hd. destruct (drains w) as [|d r]; [done|].
    exists w1. split; [done|]. by destruct (d =? 0).
  - destruct Hs as (w1 & out & Hrun & Hw & Hp). exists w1, out. by erewrite bind_ok by exact Hrun.
  - by erewrite bind_fail by exact Hs.
Qed.

(** [transmits c w out w']: the bytes [out] between the two calls of the hook. *)
Definition transmits (c : mb_rtu_client_ctx) (w : world) (out : list Z) (w' : world) : Prop :=
  (exists tr, trace w' = trace w ++ hook c 1 ++ tr ++ hook c 0 /\
    Forall (fun a => is_write a = true) tr /\ concat (map sent_bytes tr) = out) /\
  rx w' = rx w /\ clock w' = clock w /\ selects w' = selects w.

Lemma transmits_wrote c w out w1 d :
  wrote (after w (hook c 1) (clock w)) out w1 ->
  transmits c w out (after (set_drains d w1) (hook c 0) (clock w1)).
Proof.
  intros (tx' & tr & Htr & Ho & ->). split; [|done]. exists tr. split; [|done].
  cbn. by rewrite <- !app_assoc.
Qed.

Lemma client_send_frame_run c bs more w :
  match send_frame c (bs ++ more) (zlen bs) w with
  | Ok (rc, w') => (rc = 0 \/ rc = -1) /\ exists out, transmits c w out w' /\
      out `prefix_of` bs /\ (rc = 0 -> out = bs)
  | Fail e => e = Blocked
  end.
Proof.
  unfold send_frame. erewrite bind_ok by apply client_tx_enable_run.
  set (w1 := after w (hook c 1) (clock w)).
  pose proof (client_write_all_run bs more w1) as Hw. unfold write_result in Hw.
  destruct (accepts on_signal (tx w1) (zlen bs)) as [[]|].
  - destruct (drains w1) as [|d r]; [by erewrite bind_fail by exact Hw|].
    destruct Hw as (w2 & Hw2 & Hrun). erewrite bind_ok by exact Hrun.
    erewrite bind_ok by apply client_tx_enable_run. cbn. split; [destruct (d =? 0); auto|].
    exists bs. split; [by apply transmits_wrote|]. done.
  - destruct Hw as (w2 & out & Hrun & Hw2 & Hp). erewrite bind_ok by exact Hrun.
    erewrite bind_ok by apply client_tx_enable_run. cbn. split; [by right|].
    exists out. split; [|by split; [|intros]]. pose proof (transmits_wrote c w out w2 (drains w2) Hw2) as Ht.
    by destruct w2.
  - by erewrite bind_fail by exact Hw.
Qed.

(** On a line that accepts bytes and drains, the whole frame goes out. *)
Lemma client_send_frame_ok c bs more w r :
  eager on_signal (tx w) (zlen bs) -> drains w = 0 :: r ->
  exists w', send_frame c (bs ++ more) (zlen bs) w = Ok (0, w') /\ transmits c w bs w'.
Proof.
  intros He Hd. unfold send_frame. erewrite bind_ok by apply client_tx_enable_run.
  pose proof (client_write_all_run bs more (after w (hook c 1) (clock w))) as Hw. unfold write_result in Hw.
  rewrite <- (Z.add_0_r (zlen bs)) in He. apply eager_accepts in He as [Hacc _]; [|lia..].
  cbn [tx drains after] in Hw. rewrite Hacc, Hd in Hw. destruct Hw as (w2 & Hw2 & Hrun).
  erewrite bind_ok by exact Hrun. erewrite bind_ok by apply client_tx_enable_run.
  exists (after (set_drains r w2) (hook c 0) (clock w2)). split; [done|]. by apply transmits_wrote.
Qed.

(** ** Transactions *)

Definition request_frame (c : mb_rtu_client_ctx) (r : request) : list Z :=
  adu (cli_unit_id (cli_cfg c)) (encode_request r).

(** What comes back first: the request, when the driver hears itself. *)
Definition echo (c : mb_rtu_client_ctx) (r : request) : list Z :=
  if cli_local_echo (cli_cfg c) =? 0 then [] else request_frame c r.

(** How a transaction ends: the frame could not be written; the echo did not
    come or was not the request; a broadcast expects no answer; the bytes [got]
    were received and judged [io]. *)
Inductive ending :=
  | Unsent
  | EchoLost
  | Unanswered
  | Received (got : list Z) (io : Z).

Definition client_code (r : request) (e : ending) : Z :=
  match e with
  | Unsent | EchoLost => MB_RTU_CLIENT_ERR_TRANSPORT
  | Unanswered => MB_RTU_CLIENT_OK
  | Received got io =>
      if negb (io =? 0) then io_err_to_client_err io
      else if verdict r (pdu_of got) =? MB_PDU_ERR_FRAME then MB_RTU_CLIENT_ERR_FRAME
      else verdict r (pdu_of got)
  end.

(** When an ending is possible: [w] gives the incoming bytes, [resp] is the
    response buffer. *)
Definition ends (c : mb_rtu_client_ctx) (r : request) (w : world) (resp : list Z) (e : ending) : Prop :=
  match e with
  | Unsent => True
  | EchoLost => cli_local_echo (cli_cfg c) <> 0
  | Unanswered => cli_unit_id (cli_cfg c) = MODBUS_RTU_BROADCAST_ADDRESS /\
      echo c r `prefix_of` fst (stream (rx w))
  | Received got io => cli_unit_id (cli_cfg c) <> MODBUS_RTU_BROADCAST_ADDRESS /\
      echo c r ++ got `prefix_of` fst (stream (rx w)) /\
      received (request_fc r) (cli_unit_id (cli_cfg c)) got io /\ (io = 0 -> got `prefix_of` resp)
  end.

(** [progress w acts part w']: from [w] to [w'] the actions are the silence
    [acts], the flush, and [part] of the frame between the hook's calls. *)
Definition progress (c : mb_rtu_client_ctx) (w : world) (acts : list action) (part : list Z)
    (w' : world) : Prop :=
  (exists tr, trace w' = trace w ++ acts ++ Flushed :: hook c 1 ++ tr ++ hook c 0 /\
    Forall (fun a => is_write a = true) tr /\ concat (map sent_bytes tr) = part) /\
  exists used, clock w = used ++ clock w'.

(** One transaction: silence, frame, ending; then the bus record notes the unit
    and the time. *)
Inductive transaction (r : request) (c : mb_rtu_client_ctx) (w : world) (b : mb_rtu_shared_bus)
    : Z -> list Z -> world -> mb_rtu_shared_bus -> Prop :=
  | transaction_intro e resp acts clk part w1 t clk' w' :
      pause c b (clock w) = Some (acts, clk) ->
      progress c w acts part w1 -> part `prefix_of` request_frame c r ->
      (e <> Unsent -> part = request_frame c r) ->
      ends c r w resp e -> clock w1 = t :: clk' -> w' = set_clock clk' w1 ->
      transaction r c w b (client_code r e) resp w'
        (set_release (cli_unit_id (cli_cfg c)) (default (last_release_time b) t) b).

Definition transaction_result r c w b (o : outcome ((Z * list Z) * (world * mb_rtu_shared_bus))) : Prop :=
  match o with
  | Fail e => e = Blocked
  | Ok ((code, resp), (w', b')) => transaction r c w b code resp w' b' /\ zlen resp = 256
  end.

Lemma end_run r c w b w1 e resp acts clk part (m : st (world * mb_rtu_shared_bus) (Z * list Z)) :
  pause c b (clock w) = Some (acts, clk) -> progress c w acts part w1 ->
  part `prefix_of` request_frame c r -> (e <> Unsent -> part = request_frame c r) ->
  ends c r w resp e -> zlen resp = 256 -> (forall s, m s = Ok ((client_code r e, resp), s)) ->
  transaction_result r c w b ((bus_transaction_end c ;;; m) (w1, b)).
Proof.
  intros Hpause Hpr Hp Hpart He Hl Hm. unfold bus_transaction_end, mark_bus_transaction_done, bind, get,
    on_fst, on_snd, sys_clock, pop, ret, put.
  destruct (clock w1) as [|t clk'] eqn:Hc; [done|]. rewrite Hm. split; [|done].
  by eapply transaction_intro.
Qed.

Lemma progress_read c w acts part w1 w2 :
  progress c w acts part w1 -> only_read w1 w2 -> progress c w acts part w2.
Proof.
  intros [(tr & Htr & Hrest) [u Hu]] (_ & _ & Ht & u' & Hu'). split; [exists tr; by rewrite Ht|].
  exists (u ++ u'). by rewrite <- app_assoc, <- Hu', <- Hu.
Qed.

Lemma received_size efc unit got : received efc unit got 0 -> frame_size efc got = Some (zlen got).
Proof. by inversion 1 as [? [|]| | | |]. Qed.

Lemma frame_size_bound efc got n :
  frame_size efc got = Some n -> bytes got -> 5 <= n.
Proof.
  intros Hn Hb. assert (0 <= got !!! 2%nat).
  { destruct (decide (2 < length got)%nat); [by apply (Forall_lookup_total_1 is_u8)|].
    by rewrite list_lookup_total_alt, lookup_ge_None_2 by lia. }
  unfold frame_size in Hn. repeat case_match; simplify_eq; lia.
Qed.

Lemma received_noted efc unit got : received efc unit got 0 -> bytes got -> noted efc got = zlen got.
Proof.
  intros Hs%received_size Hb. pose proof (frame_size_bound _ _ _ Hs Hb). apply noted_whole; [lia | done].
Qed.

(** The check of a whole response. *)
Lemma response_verdict r j unit got resp :
  sendable r -> bytes got -> received (request_fc r) unit got 0 -> got `prefix_of` resp ->
  mb_pdu_check_response (encode_request r ++ j) (padd resp RTU_OFFSET_PDU)
    (zlen got - RTU_OFFSET_PDU - MODBUS_RTU_CRC_LEN) = Ok (verdict r (pdu_of got)).
Proof.
  intros Hr Hb Hrec [tl ->]. apply received_size, frame_size_bound in Hrec; [|done].
  unfold padd, RTU_OFFSET_PDU, MODBUS_RTU_CRC_LEN. change (Z.to_nat 1) with 1%nat.
  rewrite drop_app_le by lia.
  pose proof (take_drop (length got - 3) (drop 1 got)) as Hd. fold (pdu_of got) in Hd.
  rewrite <- Hd, <- app_assoc.
  replace (zlen got - 1 - 2) with (zlen (pdu_of got))
    by (unfold pdu_of; rewrite length_take, length_drop; lia).
  by apply check_response_run.
Qed.

(** The verdict on what was received. *)
Lemma client_conclude_run r j unit got io total resp t :
  sendable r -> bytes got -> (io = 0 -> total = zlen got /\ got `prefix_of` resp) ->
  received (request_fc r) unit got io ->
  conclude (encode_request r ++ j) resp io total t = Ok ((client_code r (Received got io), resp), t).
Proof.
  intros Hr Hb Hok Hrec. unfold conclude, client_code.
  destruct (Z.eqb_spec io 0) as [->|]; [|done]. cbn [negb]. destruct (Hok eq_refl) as [-> Hp].
  erewrite bind_ok by (apply lift_ok; by eapply response_verdict). by destruct (_ =? _).
Qed.

(** The response, once the request (and its echo) is out of the way. *)
Lemma response_run r j c w b w1 w2 acts clk resp :
  sendable r -> zlen resp = 256 -> bytes resp -> bus_ok b ->
  pause c b (clock w) = Some (acts, clk) -> progress c w acts (request_frame c r) w1 ->
  only_read w1 w2 -> rx_bytes (rx w) -> rx_bytes (rx w2) ->
  fst (stream (rx w)) = echo c r ++ fst (stream (rx w2)) ->
  cli_unit_id (cli_cfg c) <> MODBUS_RTU_BROADCAST_ADDRESS ->
  transaction_result r c w b
    ((let! '(_, b) := get in
      let! '((rc, resp_len), resp) := with_buf resp (recv_response c b (cli_unit_id (cli_cfg c)) (request_fc r)) in
      bus_transaction_end c ;;;
      conclude (encode_request r ++ j) resp rc resp_len) (w2, b)).
Proof.
  intros Hr Hl Hrb Hbus Hpause Hpr Ho Hb Hb2 Hs Hne. erewrite bind_ok by done. cbv beta iota.
  unfold bind at 1, with_buf.
  pose proof (rtu_recv_response_run c b (cli_unit_id (cli_cfg c)) (request_fc r) resp w2 Hl Hrb Hb2
    (request_fc_bound r Hr) ltac:(apply Hbus)) as Hrun.
  destruct (recv_response _ _ _ _ _) as [[[rc total] [p w3]]|]; [|exact Hrun].
  destruct Hrun as (Hp & Ho3 & got & Hpre & Hrec & _ & Hgp & ->).
  assert (bytes got) as Hgb.
  { apply stream_bytes in Hb2. destruct Hpre as [more Hpre]. rewrite Hpre in Hb2.
    by apply Forall_app in Hb2 as [? _]. }
  assert (rc = 0 -> noted (request_fc r) got = zlen got /\ got `prefix_of` p) as Hok
    by (intros ->; split; [by eapply received_noted | done]).
  apply (end_run r c w b w3 (Received got rc) p acts clk (request_frame c r)); try done.
  - eapply progress_read; [exact Hpr | by eapply only_read_trans].
  - split; [done|]. split; [|split; [done | intros Hrc; by apply Hok]].
    rewrite Hs. by apply prefix_app.
  - intros t. by eapply client_conclude_run.
Qed.

(** The echo, and what follows. *)
Lemma check_echo_run c b r more w :
  rx_bytes (rx w) -> 0 < bus_baud_rate b -> zlen (request_frame c r) <= 256 ->
  match check_echo c (request_frame c r ++ more) (zlen (request_frame c r)) (w, b) with
  | Fail e => e = Blocked
  | Ok (true, (w', b')) => b' = b /\ only_read w w' /\ rx_bytes (rx w') /\
      stream (rx w) = (request_frame c r ++ fst (stream (rx w')), snd (stream (rx w'))) /\
      incoming (rx w) = request_frame c r ++ incoming (rx w')
  | Ok (false, (w', b')) => b' = b /\ only_read w w' /\ exists heard,
      incoming (rx w) = heard ++ incoming (rx w') /\ heard <> request_frame c r /\
      (length heard <= length (request_frame c r))%nat
  end.
Proof.
  intros Hb Hbaud Hlen. unfold check_echo. erewrite bind_ok by done. cbv beta iota.
  unfold bind at 1, on_fst. rewrite response_deadline_run by done.
  destruct (clock w) as [|t clk] eqn:Hclk; [done|]. set (dl := deadline c b t).
  set (w0 := set_clock clk w). assert (only_read w w0) as Hw0.
  { split_and!; try done. exists [t]. by rewrite Hclk. }
  pose proof (auto_u8_length MODBUS_RTU_MAX_ADU_LENGTH) as Hal.
  change (Z.to_nat MODBUS_RTU_MAX_ADU_LENGTH) with 256%nat in Hal.
  set (f := request_frame c r) in *. set (buf := auto_u8 MODBUS_RTU_MAX_ADU_LENGTH) in *.
  pose proof (read_exact_run (zlen f) buf dl w0 Hb ltac:(lia)) as Hr.
  unfold read_outcome in Hr. unfold bind at 1, with_buf.
  destruct (read_exact_timeout (zlen f) dl (buf, w0)) as [[rc [p w1]]|]; [|done].
  destruct Hr as (got & (Ho & Hb1 & Hgl & _ & Hi & Hrc) & ->). rewrite Nat2Z.id in *.
  assert (only_read w w1) as Ho1 by (by eapply only_read_trans).
  destruct (Z.eqb_spec rc 0) as [->|]; cbn [negb].
  2:{ rewrite decide_False in Hrc by done. split; [done|]. split; [done|]. exists got. split; [done|].
      split; [|lia]. intros ->. lia. }
  destruct Hrc as [Hl Hs]. unfold lift. cbn [app].
  rewrite memcmp_eq_ok by (rewrite ?length_app, ?length_drop; lia).
  rewrite Nat2Z.id, (take_app_length' got), (take_app_length' f) by lia.
  case_bool_decide as Heq; [by subst got|]. split; [done|]. split; [done|]. exists got. split; [done|]. split; [done | lia].
Qed.

Lemma pause_used c b clk0 acts clk :
  pause c b clk0 = Some (acts, clk) -> exists used, clk0 = used ++ clk.
Proof.
  unfold pause. destruct (_ =? 0); [intros [= _ <-]; by exists []|].
  destruct clk0 as [|t clk0]; [done|]. intros [= _ <-]. by exists [t].
Qed.


Lemma bus_transaction_run r j c w b more resp :
  sendable r -> client_ok c -> bus_ok b -> sane_clock (clock w) -> rx_bytes (rx w) ->
  zlen resp = 256 -> bytes resp ->
  transaction_result r c w b
    (bus_transaction c (request_fc r) (encode_request r ++ j) (request_frame c r ++ more)
       (zlen (request_frame c r)) resp (w, b)).
Proof.
  intros Hr Hc Hbus Hclk Hb Hl Hrb. unfold bus_transaction, bus_transaction_begin.
  pose proof (encode_request_bound r Hr) as Hlen.
  assert (zlen (request_frame c r) <= 256) as Hf by (unfold request_frame; rewrite adu_length; lia).
  unfold bind at 1. erewrite bind_ok by done. cbv beta iota. unfold on_fst at 1.
  rewrite client_silence_run by done.
  destruct (pause c b (clock w)) as [[acts clk]|] eqn:Hpause; [|done].
  erewrite bind_ok by done. set (w0 := log Flushed (after w acts clk)).
  pose proof (client_send_frame_run c (request_frame c r) more w0) as Hsend.
  unfold bind at 1, on_fst at 1. destruct (send_frame _ _ _ w0) as [[rc w1]|]; [|done].
  destruct Hsend as (Hrc & out & ((tr & Htr & Htr') & Hrx & Hck & _) & Hp & Hout).
  assert (progress c w acts out w1) as Hpr.
  { split; [exists tr; split; [|done]; rewrite Htr; unfold w0; simpl; by rewrite <- !app_assoc|].
    apply pause_used in Hpause as [used Hu]. exists used. by rewrite Hck. }
  change (rx w0) with (rx w) in Hrx.
  destruct (Z.eqb_spec rc 0) as [->|Hne]; cbn [negb]; [|by eapply (end_run r c w b w1 Unsent)].
  rewrite Hout in Hpr by done. unfold bind at 1.
  destruct (Z.eqb_spec (cli_local_echo (cli_cfg c)) 0) as [He|He]; cbn [negb].
  - assert (echo c r = []) as Hecho by (unfold echo; by rewrite He). cbn [ret negb].
    destruct (Z.eqb_spec (cli_unit_id (cli_cfg c)) MODBUS_RTU_BROADCAST_ADDRESS) as [Hu|Hu].
    + apply (end_run r c w b w1 Unanswered resp acts clk (request_frame c r)); try done. split; [done|]. rewrite Hecho. apply prefix_nil.
    + eapply response_run; try done; [apply only_read_refl|by rewrite Hrx|]. by rewrite Hecho, Hrx.
  - assert (echo c r = request_frame c r) as Hecho by (unfold echo; by rewrite (proj2 (Z.eqb_neq _ _))).
    assert (rx_bytes (rx w1)) as Hb1 by (by rewrite Hrx).
    pose proof (check_echo_run c b r more w1 Hb1 ltac:(apply Hbus) Hf) as Hce.
    destruct (check_echo _ _ _ _) as [[[] [w2 b2]]|]; [| |done]; cbn [negb].
    + destruct Hce as (-> & Ho & Hb2 & Hs & _). rewrite Hrx in Hs.
      destruct (Z.eqb_spec (cli_unit_id (cli_cfg c)) MODBUS_RTU_BROADCAST_ADDRESS) as [Hu|Hu].
      * apply (end_run r c w b w2 Unanswered resp acts clk (request_frame c r)); try done; [by eapply progress_read|].
        split; [done|]. rewrite Hecho, Hs. by eexists.
      * eapply response_run; try done. by rewrite Hecho, Hs.
    + destruct Hce as (-> & Ho & _). apply (end_run r c w b w2 EchoLost resp acts clk (request_frame c r)); try done. by eapply progress_read.
Qed.

Lemma request_is_write r : sendable r -> mb_pdu_is_write (request_fc r) = negb (is_read r).
Proof. destruct r; cbn; intros; destruct_and?; destruct_or?; subst; done. Qed.

(** The frame that [transact] builds in its array. *)
Lemma request_frame_built r j c :
  sendable r ->
  let pdu := encode_request r in
  exists req more n,
    (store RTU_OFFSET_UNIT_ID (cli_unit_id (cli_cfg c)) ;;;
     at_off RTU_OFFSET_PDU (memcpy (pdu ++ j) (zlen pdu))) (auto_u8 MODBUS_RTU_MAX_ADU_LENGTH) = Ok (tt, req) /\
    mb_rtu_append_crc (RTU_OFFSET_PDU + zlen pdu) MODBUS_RTU_MAX_ADU_LENGTH (Some req)
    = Ok (n, Some (request_frame c r ++ more)) /\
    RTU_OFFSET_PDU + zlen pdu + MODBUS_RTU_CRC_LEN = zlen (request_frame c r).
Proof.
  intros Hr pdu. pose proof (encode_request_bound r Hr) as Hlen. fold pdu in Hlen.
  pose proof (auto_u8_length MODBUS_RTU_MAX_ADU_LENGTH) as Hal.
  change (Z.to_nat MODBUS_RTU_MAX_ADU_LENGTH) with 256%nat in Hal.
  destruct (auto_u8 MODBUS_RTU_MAX_ADU_LENGTH) as [|b0 buf']; [done|]. simpl in Hal.
  exists ((cli_unit_id (cli_cfg c) :: pdu) ++ drop (length pdu) buf'), (drop (length pdu + 2) buf').
  eexists. split_and!.
  - unfold RTU_OFFSET_UNIT_ID, RTU_OFFSET_PDU. erewrite bind_ok by (apply store_ok; zlength).
    change (Z.to_nat 0) with 0%nat. cbn [insert list_insert].
    rewrite (at_off_ok 1 _ _ tt (pdu ++ drop (length pdu) buf')); [done | simpl; lia|].
    change (Z.to_nat 1) with 1%nat. cbn [drop]. rewrite drop_0.
    rewrite memcpy_ok by (rewrite ?length_app; lia). by rewrite Nat2Z.id, take_app_length.
  - unfold RTU_OFFSET_PDU. rewrite append_crc_run;
      [|lia | rewrite length_app, length_drop; unfold MODBUS_RTU_MAX_ADU_LENGTH; simpl length; lia | done].
    do 2 f_equal. unfold request_frame. fold pdu.
    replace (Z.to_nat (1 + zlen pdu)) with (length (cli_unit_id (cli_cfg c) :: pdu)) by (simpl; lia).
    rewrite take_app_length. unfold adu. rewrite <- app_assoc.
    replace (Z.to_nat (1 + zlen pdu + 2)) with (length (cli_unit_id (cli_cfg c) :: pdu) + 2)%nat by (simpl; lia).
    by rewrite drop_app_add, drop_drop.
  - unfold RTU_OFFSET_PDU, MODBUS_RTU_CRC_LEN, request_frame. fold pdu. rewrite adu_length. lia.
Qed.

(** [transact] builds the frame, or returns before it touches the bus. *)
Lemma rtu_transact_split r j resp c w b :
  sendable r ->
  exists more, transact c (encode_request r ++ j) (zlen (encode_request r)) resp (w, Some b) =
  if cli_initialized c =? 0 then Ok ((MB_RTU_CLIENT_ERR_NOT_CONNECTED, resp), (w, Some b))
  else if (cli_unit_id (cli_cfg c) =? MODBUS_RTU_BROADCAST_ADDRESS) && is_read r
  then Ok ((MB_RTU_CLIENT_ERR_ARG, resp), (w, Some b))
  else on_bus (bus_transaction c (request_fc r) (encode_request r ++ j) (request_frame c r ++ more)
                 (zlen (request_frame c r)) resp) (w, Some b).
Proof.
  intros Hr. destruct (request_frame_built r j c Hr) as (req & more & n & Hfill & Hcrc & Hlen).
  exists more. unfold transact.
  destruct (encode_request_head r j) as (a & v & rest & Henc & _).
  assert (load (encode_request r ++ j) 0 = Ok (request_fc r)) as Hfc by (by rewrite Henc).
  erewrite bind_ok by apply lift_ok, Hfc. rewrite (request_is_write r Hr), negb_involutive.
  destruct (_ =? 0); [done|]. destruct (_ && _); [done|].
  erewrite bind_ok by apply lift_ok, Hfill. cbv beta iota. erewrite bind_ok by apply lift_ok, Hcrc.
  cbv beta iota. erewrite bind_ok by done. by rewrite Hlen.
Qed.

(** What a call does to the world and the bus of its context. *)
Definition call_result (r : request) (c : mb_rtu_client_ctx) (w : world) (b : mb_rtu_shared_bus)
    (code : Z) (resp : list Z) (w' : world) (bus' : option mb_rtu_shared_bus) : Prop :=
  if cli_initialized c =? 0 then code = MB_RTU_CLIENT_ERR_NOT_CONNECTED /\ w' = w /\ bus' = Some b
  else if (cli_unit_id (cli_cfg c) =? MODBUS_RTU_BROADCAST_ADDRESS) && is_read r
  then code = MB_RTU_CLIENT_ERR_ARG /\ w' = w /\ bus' = Some b
  else exists b', bus' = Some b' /\ transaction r c w b code resp w' b'.

Lemma rtu_transact_run r j resp c w b :
  sendable r -> client_ok c -> bus_ok b -> sane_clock (clock w) -> rx_bytes (rx w) ->
  zlen resp = 256 -> bytes resp ->
  match transact c (encode_request r ++ j) (zlen (encode_request r)) resp (w, Some b) with
  | Fail e => e = Blocked
  | Ok ((code, resp'), (w', bus')) => call_result r c w b code resp' w' bus'
  end.
Proof.
  intros Hr Hc Hbus Hclk Hb Hl Hrb. unfold call_result.
  destruct (rtu_transact_split r j resp c w b Hr) as [more ->].
  destruct (_ =? 0); [done|]. destruct (_ && _); [done|]. unfold on_bus.
  pose proof (bus_transaction_run r j c w b more resp Hr Hc Hbus Hclk Hb Hl Hrb) as Hrun.
  destruct (bus_transaction _ _ _ _ _ _ _) as [[[code resp'] [w' b']]|]; [|done].
  destruct Hrun as [Ht _]. by exists b'.
Qed.
End Client.
