(* ===== verification/RtuClientCalls.v ===== *)
(** * The public calls of the RTU client

    [call] is the function an application calls for a request; [call_run]: it
    is one transaction and, when that succeeds, the data of the response is
    stored in the caller's array. *)

From S2P Require Import Prelude Buffer Defines Bits Pdu PduSpec PduClient PduReplies Ptr Rtu Crc RtuFrames Sys TcpServer TcpServerSpec RtuClient RtuClientSpec RtuClientTransact.

Section Client.
Context {I : Indet}.

(** The public function for each request.  A coil is any nonzero cell. *)
Definition call (ctx : option mb_rtu_client_ctx) (r : request) (out : option (list Z))
    : st (world * option mb_rtu_shared_bus) (Z * option (list Z)) :=
  match r with
  | ReadBits fc addr qty =>
      if fc =? MODBUS_FUNC_READ_COILS then mb_rtu_client_read_coils ctx addr qty out
      else mb_rtu_client_read_discrete_inputs ctx addr qty out
  | ReadRegisters fc addr qty =>
      if fc =? MODBUS_FUNC_READ_HOLDING_REGISTERS then mb_rtu_client_read_holding_registers ctx addr qty out
      else mb_rtu_client_read_input_registers ctx addr qty out
  | WriteCoil addr on => let! rc := mb_rtu_client_write_single_coil ctx addr (Z.b2z on) in ret (rc, out)
  | WriteRegister addr value =>
      let! rc := mb_rtu_client_write_single_register ctx addr value in ret (rc, out)
  | WriteCoils addr bits =>
      let! rc := mb_rtu_client_write_multiple_coils ctx addr (zlen bits) (Some (map Z.b2z bits)) in
      ret (rc, out)
  | WriteRegisters addr values =>
      let! rc := mb_rtu_client_write_multiple_registers ctx addr (zlen values) (Some values) in
      ret (rc, out)
  end.

(** Every call is: build the PDU, run the transaction, store the data. *)
Definition perform (c : mb_rtu_client_ctx) (r : request) (out : list Z)
    (s : world * option mb_rtu_shared_bus)
    : outcome ((Z * option (list Z)) * (world * option mb_rtu_shared_bus)) :=
  let pdu := encode_request r in
  match transact c (pdu ++ drop (length pdu) (auto_u8 MODBUS_MAX_PDU_LENGTH)) (zlen pdu)
          (auto_u8 MODBUS_RTU_MAX_ADU_LENGTH) s with
  | Fail e => Fail e
  | Ok ((rc, resp), s') =>
      if rc =? 0 then
        match r with
        | ReadRegisters _ _ qty =>
            match mb_pdu_get_registers (drop 1 resp) qty out with
            | Ok (_, o) => Ok ((rc, Some o), s')
            | Fail e => Fail e
            end
        | ReadBits _ _ qty =>
            match mb_pdu_get_bits (drop 1 resp) qty out with
            | Ok (_, o) => Ok ((rc, Some o), s')
            | Fail e => Fail e
            end
        | _ => Ok ((rc, Some out), s')
        end
      else Ok ((rc, Some out), s')
  end.

Lemma rtu_read_registers_perform c fc addr qty out s :
  1 <= qty <= MODBUS_MAX_READ_REGISTERS ->
  read_registers (Some c) fc addr qty (Some out) s = perform c (ReadRegisters fc addr qty) out s.
Proof.
  unfold_defs. intros Hq. unfold read_registers, perform. cbn [is_null orb]. unfold_defs. zbool.
  pose proof (build_read_run fc addr qty (auto_u8 253) ltac:(rewrite auto_u8_length; lia)) as Hb.
  erewrite bind_ok by apply lift_ok, Hb. cbv beta iota zeta.
  unfold bind at 1, on_ctx. erewrite bind_ok by done. cbn [encode_request].
  destruct (transact _ _ _ _ _) as [[[rc resp] s']|]; [|done].
  unfold MB_RTU_CLIENT_OK. destruct (rc =? 0); [|done].
  unfold bind, lift, deref, padd, RTU_OFFSET_PDU. change (Z.to_nat 1) with 1%nat.
  by destruct (mb_pdu_get_registers _ _ _) as [[[] o]|].
Qed.

Lemma rtu_read_bits_perform c fc addr qty out s :
  1 <= qty <= MODBUS_MAX_READ_BITS ->
  read_bits (Some c) fc addr qty (Some out) s = perform c (ReadBits fc addr qty) out s.
Proof.
  unfold_defs. intros Hq. unfold read_bits, perform. cbn [is_null orb]. unfold_defs. zbool.
  pose proof (build_read_run fc addr qty (auto_u8 253) ltac:(rewrite auto_u8_length; lia)) as Hb.
  erewrite bind_ok by apply lift_ok, Hb. cbv beta iota zeta.
  unfold bind at 1, on_ctx. erewrite bind_ok by done. cbn [encode_request].
  destruct (transact _ _ _ _ _) as [[[rc resp] s']|]; [|done].
  unfold MB_RTU_CLIENT_OK. destruct (rc =? 0); [|done].
  unfold bind, lift, deref, padd, RTU_OFFSET_PDU. change (Z.to_nat 1) with 1%nat.
  by destruct (mb_pdu_get_bits _ _ _) as [[[] o]|].
Qed.

Lemma rtu_transact_write_perform c r built out s :
  is_read r = false ->
  built = (let pdu := encode_request r in
           Ok (zlen pdu, pdu ++ drop (length pdu) (auto_u8 MODBUS_MAX_PDU_LENGTH))) ->
  (let! rc := transact_write (Some c) built in ret (rc, Some out)) s = perform c r out s.
Proof.
  intros Hr ->. unfold transact_write, perform, on_ctx, fun_ptr, lift, bind. cbv zeta beta iota.
  destruct (transact _ _ _ _ _) as [[[rc resp] s']|]; [|done].
  destruct r; try done; unfold ret; by destruct (rc =? 0).
Qed.

Lemma rtu_call_perform c r out s :
  sendable r -> call (Some c) r (Some out) s = perform c r out s.
Proof.
  intros Hr. pose proof (auto_u8_length MODBUS_MAX_PDU_LENGTH) as Hl.
  change (Z.to_nat MODBUS_MAX_PDU_LENGTH) with 253%nat in Hl.
  pose proof (auto_u8_length 253) as Hl'. change (Z.to_nat 253) with 253%nat in Hl'.
  destruct r; cbn [call sendable] in *.
  - destruct Hr as ([-> | ->] & _ & Hq); by apply rtu_read_bits_perform.
  - destruct Hr as ([-> | ->] & _ & Hq); by apply rtu_read_registers_perform.
  - apply rtu_transact_write_perform; [done|]. unfold mb_pdu_build_write_single.
    rewrite build_read_run by lia. by destruct on.
  - apply rtu_transact_write_perform; [done|]. unfold mb_pdu_build_write_single.
    by rewrite build_read_run by lia.
  - destruct Hr as [Ha Hq]. unfold mb_rtu_client_write_multiple_coils. unfold_defs.
    rewrite <- (rtu_transact_write_perform c (WriteCoils addr bits)
      (mb_pdu_build_write_coils addr (zlen bits) (map Z.b2z bits ++ []) (auto_u8 253))); [|done|].
    + unfold bind, get, lift. cbn [is_null orb fun_ptr]. zbool. by rewrite app_nil_r.
    + unfold_defs. apply build_write_coils_run; [lia | | lia]. rewrite map_map. rewrite <- (map_id bits) at 2.
      apply map_ext. by intros [].
  - destruct Hr as (Ha & Hw & Hq). unfold mb_rtu_client_write_multiple_registers. unfold_defs.
    rewrite <- (rtu_transact_write_perform c (WriteRegisters addr values)
      (mb_pdu_build_write_registers addr (zlen values) (values ++ []) (auto_u8 253))); [|done|].
    + unfold bind, get, lift. cbn [is_null orb fun_ptr]. zbool. by rewrite app_nil_r.
    + unfold_defs. apply build_write_registers_run; [zint | lia].
Qed.

(** ** What a call does *)

Lemma io_err_nonzero io : io_err_to_client_err io <> 0.
Proof. unfold io_err_to_client_err. by repeat case_match. Qed.

Lemma pdu_of_resp got more :
  5 <= zlen got -> exists tl, drop 1 (got ++ more) = pdu_of got ++ tl.
Proof.
  intros Hl. exists (drop (length got - 3) (drop 1 got) ++ more). rewrite drop_app_le by lia.
  unfold pdu_of. by rewrite app_assoc, take_drop.
Qed.

Lemma rtu_transaction_ok r c w b resp w' b' :
  rx_bytes (rx w) -> transaction r c w b 0 resp w' b' ->
  cli_unit_id (cli_cfg c) = MODBUS_RTU_BROADCAST_ADDRESS \/
  exists reply more, drop 1 resp = reply ++ more /\ normal_reply r reply = true.
Proof.
  intros Hb Ht. inversion Ht as [e ? ? ? ? ? ? ? ? _ _ _ _ He _ _ Hcode]; subst.
  destruct e as [| | |got io]; cbn [client_code] in Hcode; try done; [left; apply He|].
  destruct He as (_ & Hpre & Hrec & Hok). right.
  destruct (Z.eqb_spec io 0) as [->|Hio]; [|by apply io_err_nonzero in Hcode]. cbn [negb] in Hcode.
  assert (bytes got) as Hgb.
  { apply stream_bytes in Hb. destruct Hpre as [more Hpre]. rewrite Hpre in Hb.
    apply Forall_app in Hb as [Hb _]. by apply Forall_app in Hb as [_ Hb]. }
  apply received_size, frame_size_bound in Hrec; [|done]. destruct (Hok eq_refl) as [more ->].
  destruct (pdu_of_resp got more Hrec) as [tl Htl]. exists (pdu_of got), tl. split; [done|].
  apply verdict_ok. by destruct (_ =? MB_PDU_ERR_FRAME).
Qed.

Lemma rtu_call_result_ok r c w b resp w' bus' :
  rx_bytes (rx w) -> call_result r c w b 0 resp w' bus' -> is_read r = true ->
  exists reply more, drop 1 resp = reply ++ more /\ normal_reply r reply = true.
Proof.
  unfold call_result. intros Hb Hres Hread. destruct (_ =? 0); [by destruct Hres|].
  destruct (Z.eqb_spec (cli_unit_id (cli_cfg c)) MODBUS_RTU_BROADCAST_ADDRESS) as [|Hne];
    cbn [andb] in Hres; [rewrite Hread in Hres; by destruct Hres|].
  destruct Hres as (b' & _ & Ht). by destruct (rtu_transaction_ok _ _ _ _ _ _ _ Hb Ht).
Qed.

Lemma rtu_perform_run c r out s rc resp s' :
  sendable r -> room r out ->
  transact c (encode_request r ++ drop (length (encode_request r)) (auto_u8 MODBUS_MAX_PDU_LENGTH))
    (zlen (encode_request r)) (auto_u8 MODBUS_RTU_MAX_ADU_LENGTH) s = Ok ((rc, resp), s') ->
  (rc = 0 -> is_read r = true -> exists reply more, drop 1 resp = reply ++ more /\ normal_reply r reply = true) ->
  perform c r out s = Ok ((rc, Some (if rc =? 0 then stored r (drop 1 resp) out else out)), s').
Proof.
  intros Hr Hout Ht Hok. unfold perform. cbv zeta. rewrite Ht.
  destruct (Z.eqb_spec rc 0) as [->|]; [|done].
  destruct (is_read r) eqn:Hread; [|by destruct r].
  destruct (Hok eq_refl eq_refl) as (reply & more & Hd & Hn).
  unfold room in Hout. rewrite Hd, stored_app by done.
  destruct r as [fc addr qty|fc addr qty| | | |]; try done; cbn [cells] in Hout;
    destruct Hr as (Hfc & Ha & Hq); unfold_defs.
  - by erewrite get_bits_reply by (done || zint).
  - by erewrite get_registers_reply by (done || lia).
Qed.

(** One transaction; on success, and only then, the data is stored. *)
Lemma rtu_call_run c r out w b :
  sendable r -> room r out -> client_ok c -> bus_ok b -> sane_clock (clock w) -> rx_bytes (rx w) ->
  match call (Some c) r (Some out) (w, Some b) with
  | Fail e => e = Blocked
  | Ok ((rc, out'), (w', bus')) => exists resp, call_result r c w b rc resp w' bus' /\
      out' = Some (if rc =? 0 then stored r (drop 1 resp) out else out)
  end.
Proof.
  intros Hr Hout Hc Hbus Hclk Hb. rewrite rtu_call_perform by done.
  pose proof (rtu_transact_run r (drop (length (encode_request r)) (auto_u8 MODBUS_MAX_PDU_LENGTH))
    (auto_u8 MODBUS_RTU_MAX_ADU_LENGTH) c w b Hr Hc Hbus Hclk Hb ltac:(by rewrite auto_u8_length)
    ltac:(apply auto_u8_bytes)) as Hrun.
  destruct (transact _ _ _ _ _) as [[[rc resp] [w' bus']]|e] eqn:Ht; [|unfold perform; cbv zeta; by rewrite Ht].
  rewrite (rtu_perform_run c r out (w, Some b) rc resp (w', bus') Hr Hout Ht).
  - by exists resp.
  - intros ->. by apply (rtu_call_result_ok r c w b resp w' bus').
Qed.
End Client.
