(* ===== verification/RtuClientLocal.v ===== *)
(** * A call depends on what it has read

    [extend e w]: the line of [w] on which, after everything [w] gives, [e]
    follows.  A call that returns on [w] returns the same on [extend e w] and
    leaves [e] untouched ([call_local]): what a line does during one call can
    be said without what it does later. *)

From S2P Require Import Prelude Buffer Defines Bits Pdu PduSpec PduClient Ptr Rtu Sys RtuClient RtuClientCalls.

Definition extend (e w : world) : world :=
  World (rx w ++ rx e) (tx w ++ tx e) (clock w ++ clock e) (selects w ++ selects e) (drains w ++ drains e) (trace w).

(** What [m] does, [m'] does on the states that [f] extends. *)
Definition grows {S A} (f : S -> S) (m m' : st S A) : Prop :=
  forall s a s', m s = Ok (a, s') -> m' (f s) = Ok (a, f s').

Lemma grows_ret {S A} f (a : A) : grows (S:=S) f (ret a) (ret a).
Proof. by intros s ? ? [= <- <-]. Qed.

Lemma grows_stop {S A} f e m' : grows (S:=S) (A:=A) f (stop e) m'.
Proof. by intros s ? ?. Qed.

Lemma grows_lift {S A} f (o : outcome A) : grows (S:=S) f (lift o) (lift o).
Proof. intros s a s'. unfold lift. destruct o; [|done]. by intros [= <- <-]. Qed.

Lemma grows_bind {S A B} f (m m' : st S A) (k k' : A -> st S B) :
  grows f m m' -> (forall a, grows f (k a) (k' a)) -> grows f (bind m k) (bind m' k').
Proof.
  intros Hm Hk s b s' (a & s1 & E & Hrun)%bind_inv. apply Hm in E. apply Hk in Hrun.
  by erewrite bind_ok.
Qed.

Lemma grows_get {S B} f (k k' : S -> st S B) :
  (forall s, grows f (k s) (k' (f s))) -> grows f (bind get k) (bind get k').
Proof. intros Hk s b s'. exact (Hk s s b s'). Qed.

Lemma grows_on_snd {B W A} f (m m' : st W A) :
  grows f m m' -> grows (prod_map (@id B) f) (on_snd m) (on_snd m').
Proof.
  intros Hm [b w] a [b' w']. unfold on_snd. cbn. destruct (m w) as [[a1 w1]|] eqn:E; [|done].
  apply Hm in E as ->. by intros [= <- <- <-].
Qed.

Lemma grows_on_fst {B W A} f (m m' : st B A) :
  grows f m m' -> grows (prod_map f (@id W)) (on_fst m) (on_fst m').
Proof.
  intros Hm [b w] a [b' w']. unfold on_fst. cbn. destruct (m b) as [[a1 b1]|] eqn:E; [|done].
  apply Hm in E as ->. by intros [= <- <- <-].
Qed.

(** The rest of the state is not extended. *)
Lemma grows_aside {B W A} f (m : st W A) : grows (prod_map f (@id W)) (on_snd (B:=B) m) (on_snd m).
Proof. intros [b w] a [b' w']. unfold on_snd. cbn. destruct (m w) as [[? ?]|]; [|done]. by intros [= <- <- <-]. Qed.

Lemma grows_on_buf {W A} f (m : st (list Z) A) : grows (prod_map id f) (on_buf (W:=W) m) (on_buf m).
Proof. intros [b w] a [b' w']. unfold on_buf. cbn. destruct (m b) as [[? ?]|]; [|done]. by intros [= <- <- <-]. Qed.

Lemma grows_at_ptr {W A} f k (m m' : st (list Z * W) A) :
  grows (prod_map id f) m m' -> grows (prod_map id f) (at_ptr k m) (at_ptr k m').
Proof.
  intros Hm [p w] a [q w']. unfold at_ptr. cbn. destruct (_ && _); [|done].
  destruct (m _) as [[a1 [q1 w1]]|] eqn:E; [|done]. apply Hm in E. cbn in E. rewrite E. by intros [= <- <- <-].
Qed.

Lemma grows_with_buf {W U A} f p (m m' : st (list Z * W) A) :
  grows (prod_map id f) m m' -> grows (prod_map f (@id U)) (with_buf p m) (with_buf p m').
Proof.
  intros Hm [w u] [a q] [w' u']. unfold with_buf. cbn. destruct (m _) as [[a1 [q1 w1]]|] eqn:E; [|done].
  apply Hm in E. cbn in E. rewrite E. by intros [= <- <- <- <-].
Qed.

Create HintDb grows.
#[export] Hint Resolve grows_ret grows_stop grows_lift grows_aside grows_on_buf : grows.

(** Follows the structure of the two computations. *)
Ltac grow :=
  repeat first
    [ progress intros
    | solve [auto with grows]
    | match goal with
      | |- grows _ (bind get _) (bind get _) => apply grows_get; intros [? ?]
      | |- grows _ (bind _ _) (bind _ _) => apply grows_bind
      | |- grows _ (if ?b then _ else _) _ => destruct b
      | |- grows _ (match ?x with _ => _ end) _ => destruct x
      | |- grows (prod_map id _) (on_snd _) _ => apply grows_on_snd
      | |- grows (prod_map _ id) (on_fst _) _ => apply grows_on_fst
      | |- grows _ (at_ptr _ _) _ => apply grows_at_ptr
      | |- grows _ (with_buf _ _) _ => apply grows_with_buf
      end
    | progress cbn beta iota delta [prod_map] ].

(** ** The system *)

Section Later.
Context {I : Indet} (e : world).

Lemma grows_read n : grows (extend e) (sys_read n) (sys_read n).
Proof.
  intros w a w'. unfold sys_read. cbn [extend rx]. destruct (rx w) as [|[bs|err] r]; [done| |].
  - cbn [app]. destruct (_ <=? n); by intros [= <- <-].
  - by intros [= <- <-].
Qed.

Lemma grows_write buf n : grows (extend e) (sys_write buf n) (sys_write buf n).
Proof. intros w a w'. unfold sys_write. cbn [extend tx]. destruct (tx w) as [|[k|err] r]; [done| |]; by intros [= <- <-]. Qed.

Lemma grows_pop {A} (field : world -> list A) set :
  (forall w, field (extend e w) = field w ++ field e) -> (forall l w, extend e (set l w) = set (l ++ field e) (extend e w)) ->
  grows (extend e) (pop field set) (pop field set).
Proof.
  intros Hf Hset w a w'. unfold pop. rewrite Hf. destruct (field w) as [|v r]; [done|]. intros [= <- <-].
  cbn [app]. by rewrite Hset.
Qed.

Lemma grows_clock : grows (extend e) sys_clock sys_clock.
Proof. by apply grows_pop. Qed.
Lemma grows_select : grows (extend e) sys_select sys_select.
Proof. by apply grows_pop. Qed.
Lemma grows_tcdrain : grows (extend e) sys_tcdrain sys_tcdrain.
Proof. by apply grows_pop. Qed.
Lemma grows_act a : grows (extend e) (act a) (act a).
Proof. by intros w ? ? [= <- <-]. Qed.

#[local] Hint Resolve grows_read grows_write grows_clock grows_select grows_tcdrain grows_act : grows.

(** ** The client; more fuel changes nothing *)

Lemma grows_clock_now : grows (extend e) clock_now clock_now.
Proof. unfold clock_now. grow. Qed.

#[local] Hint Resolve grows_clock_now : grows.

Lemma grows_monotonic : grows (extend e) monotonic_us monotonic_us.
Proof. unfold monotonic_us. grow. Qed.

#[local] Hint Resolve grows_monotonic : grows.

Lemma grows_bus_silence b u i h : grows (extend e) (wait_bus_silence b u i h) (wait_bus_silence b u i h).
Proof. unfold wait_bus_silence, sleep_us. grow. Qed.

Lemma grows_deadline c b : grows (extend e) (response_deadline_us c b) (response_deadline_us c b).
Proof. unfold response_deadline_us. grow. Qed.

Lemma grows_wait_loop dl fuel fuel' :
  (fuel <= fuel')%nat -> grows (extend e) (wait_readable_loop fuel dl) (wait_readable_loop fuel' dl).
Proof.
  revert fuel'. induction fuel as [|fuel IH]; intros [|fuel'] Hf; try lia; cbn [wait_readable_loop]; [grow..|].
  assert (grows (extend e) (wait_readable_loop fuel dl) (wait_readable_loop fuel' dl)) as IH' by (apply IH; lia). grow.
Qed.

Lemma grows_wait dl : grows (extend e) (wait_readable dl) (wait_readable dl).
Proof. intros w a w'. apply grows_wait_loop. cbn. rewrite length_app. lia. Qed.

#[local] Hint Resolve grows_bus_silence grows_deadline grows_wait : grows.

Lemma grows_read_loop dl fuel fuel' received len :
  (fuel <= fuel')%nat ->
  grows (prod_map id (extend e)) (read_exact_loop fuel received len dl) (read_exact_loop fuel' received len dl).
Proof.
  revert fuel' received. induction fuel as [|fuel IH]; intros [|fuel'] received Hf; try lia; cbn [read_exact_loop]; [grow..|].
  assert (forall received, grows (prod_map id (extend e)) (read_exact_loop fuel received len dl)
    (read_exact_loop fuel' received len dl)) as IH' by (intros; apply IH; lia). grow.
Qed.

Lemma grows_read_exact len dl :
  grows (prod_map id (extend e)) (read_exact_timeout len dl) (read_exact_timeout len dl).
Proof. intros [b w] a s'. apply grows_read_loop. cbn. rewrite length_app. lia. Qed.

Lemma grows_write_loop buf len fuel fuel' sent :
  (fuel <= fuel')%nat -> grows (extend e) (write_all_loop fuel buf len sent) (write_all_loop fuel' buf len sent).
Proof.
  revert fuel' sent. induction fuel as [|fuel IH]; intros [|fuel'] sent Hf; try lia; cbn [write_all_loop]; [grow..|].
  assert (forall sent, grows (extend e) (write_all_loop fuel buf len sent) (write_all_loop fuel' buf len sent)) as IH'
    by (intros; apply IH; lia). grow.
Qed.

Lemma grows_write_all buf len : grows (extend e) (write_all buf len) (write_all buf len).
Proof.
  intros w a w'. unfold write_all. destruct (_ <=? _); [|done].
  assert (grows (extend e) (write_all_loop (S (length (tx w))) buf len 0)
    (write_all_loop (S (length (tx (extend e w)))) buf len 0)) as Hloop
    by (apply grows_write_loop; cbn; rewrite length_app; lia).
  apply (grows_bind (extend e) _ _ _ _ Hloop). grow.
Qed.

#[local] Hint Resolve grows_read_exact grows_write_all : grows.

Lemma grows_send_frame c buf len : grows (extend e) (send_frame c buf len) (send_frame c buf len).
Proof. unfold send_frame, tx_enable. grow. Qed.

Lemma grows_response_length fc dl :
  grows (prod_map id (extend e)) (response_length fc dl) (response_length fc dl).
Proof. unfold response_length. grow. Qed.

#[local] Hint Resolve grows_send_frame grows_response_length : grows.

Lemma grows_recv_response c b u fc :
  grows (prod_map id (extend e)) (recv_response c b u fc) (recv_response c b u fc).
Proof. unfold recv_response. grow. Qed.

#[local] Hint Resolve grows_recv_response : grows.

Lemma grows_check_echo c req len : grows (prod_map (extend e) id) (check_echo c req len) (check_echo c req len).
Proof. unfold check_echo. grow. Qed.

Lemma grows_bus_end c : grows (prod_map (extend e) id) (bus_transaction_end c) (bus_transaction_end c).
Proof. unfold bus_transaction_end, mark_bus_transaction_done. grow. Qed.

Lemma grows_bus_begin c : grows (prod_map (extend e) id) (bus_transaction_begin c) (bus_transaction_begin c).
Proof. unfold bus_transaction_begin. grow. Qed.

#[local] Hint Resolve grows_check_echo grows_bus_end grows_bus_begin : grows.

Lemma grows_bus_transaction c fc pdu req n resp :
  grows (prod_map (extend e) id) (bus_transaction c fc pdu req n resp) (bus_transaction c fc pdu req n resp).
Proof. unfold bus_transaction, conclude. grow. Qed.

Lemma grows_on_bus {A} (m : st (world * mb_rtu_shared_bus) A) :
  grows (prod_map (extend e) id) m m -> grows (prod_map (extend e) id) (on_bus m) (on_bus m).
Proof.
  intros Hm [w [b|]] a [w' b']; [|done]. unfold on_bus. cbn. destruct (m (w, b)) as [[a1 [w1 b1]]|] eqn:E; [|done].
  apply Hm in E. cbn in E. rewrite E. by intros [= <- <- <-].
Qed.

#[local] Hint Resolve grows_bus_transaction grows_on_bus : grows.

Lemma grows_transact c pdu n resp :
  grows (prod_map (extend e) id) (transact c pdu n resp) (transact c pdu n resp).
Proof. unfold transact. grow. Qed.

#[local] Hint Resolve grows_transact : grows.

(** Any call, with its arguments as they may be. *)
Lemma call_local ctx r out : grows (prod_map (extend e) id) (call ctx r out) (call ctx r out).
Proof.
  destruct r; unfold call, mb_rtu_client_read_coils, mb_rtu_client_read_discrete_inputs, mb_rtu_client_read_holding_registers,
    mb_rtu_client_read_input_registers, mb_rtu_client_write_single_coil, mb_rtu_client_write_single_register,
    mb_rtu_client_write_multiple_coils, mb_rtu_client_write_multiple_registers, read_bits, read_registers, transact_write, on_ctx; grow.
Qed.
End Later.
