(* ===== verification/RtuClientAnswers.v ===== *)
(** * The RTU client gets its answer

    When the line delivers the echo and the answer in time, the transaction
    returns the verdict on that answer. *)

From S2P Require Import Prelude Buffer Defines Bits Pdu PduSpec PduClient PduReplies Ptr Rtu Crc RtuFrames Sys TcpServer TcpServerSpec RtuClient RtuClientSpec RtuClientTransact RtuClientCalls.

Section Client.
Context {I : Indet}.

(** The environment can answer [k] more waits than there are events on the
    line: that many readings of the clock and as many times [Ready]. *)
Definition attentive (k : nat) (w : world) : Prop :=
  (k + length (rx w) <= length (clock w))%nat /\
  exists m, selects w = replicate m Ready /\ (k + length (rx w) <= m)%nat.

(** Whatever is read of the clock is before the deadline. *)
Definition before (dl : Z) (w : world) : Prop := Forall (fun t => time_us t < dl) (clock w).

(** [delivered w more closed k w']: reading went from [w] to [w'], [more] is
    still to come, and [k] spare waits are left. *)
Definition delivered (w : world) (more : list Z) (closed : bool) (k : nat) (w' : world) : Prop :=
  only_read w w' /\ rx_bytes (rx w') /\ stream (rx w') = (more, closed) /\ attentive k w'.

Lemma delivered_trans w w1 w2 more1 closed1 k1 more closed k :
  delivered w more1 closed1 k1 w1 -> delivered w1 more closed k w2 -> delivered w more closed k w2.
Proof. intros (? & _) (? & ? & ? & ?). split; [by eapply only_read_trans | done]. Qed.

Lemma only_read_before dl w w' : only_read w w' -> before dl w -> before dl w'.
Proof. intros (_ & _ & _ & u & Hu). unfold before. rewrite Hu. intros Hb. by apply Forall_app in Hb as [_ Hb]. Qed.

Lemma attentive_mono k k' w w' :
  clock w' = clock w -> selects w' = selects w -> (k' + length (rx w') <= k + length (rx w))%nat ->
  attentive k w -> attentive k' w'.
Proof. intros Hc Hs Hl [H1 (m & H2 & H3)]. unfold attentive. rewrite Hc, Hs. split; [lia|]. exists m. split; [done | lia]. Qed.

Lemma wait_ready dl k w :
  before dl w -> attentive (S k) w ->
  exists clk sel, ready dl (clock w) (selects w) = Some (0, clk, sel) /\ attentive k (after_wait clk sel w) /\
    (length clk < length (clock w))%nat.
Proof.
  unfold before, attentive. intros Hb [Hc (m & Hs & Hm)]. rewrite Hs.
  destruct (clock w) as [|t clk]; [simpl in Hc; lia|]. destruct m as [|m]; [lia|].
  apply Forall_cons_iff in Hb as [Ht Hb]. exists clk, (replicate m Ready).
  cbn [ready replicate]. rewrite (proj2 (Z.leb_gt _ _)) by lia. split; [done|].
  simpl in *. split; [|lia]. split; [lia|]. exists m. split; [done | lia].
Qed.

(** One round of the reading loop takes a nonempty piece of what is to come. *)
Lemma read_round w bs more closed want :
  rx_bytes (rx w) -> stream (rx w) = (bs ++ more, closed) -> bs <> [] -> want = zlen bs ->
  exists o w1, sys_read want w = Ok (o, w1) /\ w1 = set_rx (rx w1) w /\ rx_bytes (rx w1) /\
    match o with
    | inr e => e = EINTR /\ stream (rx w1) = (bs ++ more, closed) /\ (length (rx w1) < length (rx w))%nat
    | inl c => exists rest, bs = c ++ rest /\ c <> [] /\ stream (rx w1) = (rest ++ more, closed) /\
        (length (rx w1) + (if bool_decide (rest = []) then 0 else 1) <= length (rx w))%nat
    end.
Proof.
  intros Hb Hs Hbs ->. assert (0 < zlen bs) as Hpos by (destruct bs; simpl; [done|lia]).
  destruct (rx w) as [|[c|e] r] eqn:Hrx; [by destruct bs| |].
  - destruct (decide (zlen c = 0)) as [H0|H0].
    { cbn [stream] in Hs. rewrite (proj2 (Z.eqb_eq _ _)) in Hs by done. by destruct bs. }
    destruct (read_some w c r (zlen bs) Hrx Hpos H0 ltac:(by rewrite Hrx)) as (d & w1 & Hr & Hw1 & Hd & Hs1 & Hb1 & Hl).
    exists (inl d), w1. split; [done|]. split; [done|]. split; [done|].
    rewrite Hrx, Hs in Hs1. injection Hs1 as Hs1 Hcl.
    assert (bs = d ++ drop (length d) bs) as Hbd.
    { rewrite <- (take_drop (length d) bs) at 1. f_equal.
      apply (f_equal (take (length d))) in Hs1. rewrite take_app_le, take_app_length in Hs1 by lia. done. }
    exists (drop (length d) bs). split; [done|]. split; [intros ->; simpl in Hd; lia|]. split.
    + rewrite Hbd, <- app_assoc in Hs1. apply app_inv_head in Hs1. rewrite Hs1, Hcl. by destruct (stream (rx w1)).
    + rewrite <- Hrx. case_bool_decide as Hd0.
      * rewrite bool_decide_true; [lia|]. apply nil_length_inv. rewrite length_drop. lia.
      * case_bool_decide; lia.
  - apply Forall_cons_iff in Hb as [_ Hb]. exists (inr e), (set_rx r w).
    unfold sys_read. rewrite Hrx. split; [done|]. split; [done|]. split; [done|].
    destruct e; cbn [stream] in Hs; try (by destruct bs). split; [done|]. split; [done|]. simpl. lia.
Qed.

Lemma read_exact_loop_ok fuel pre rest bs more closed dl k w :
  rx_bytes (rx w) -> (length (clock w) < fuel)%nat -> (length bs <= length rest)%nat ->
  stream (rx w) = (bs ++ more, closed) -> before dl w ->
  attentive (if bool_decide (bs = []) then k else S k) w ->
  exists w', read_exact_loop fuel (zlen pre) (zlen pre + zlen bs) dl (pre ++ rest, w)
      = Ok (0, (pre ++ bs ++ drop (length bs) rest, w')) /\ delivered w more closed k w'.
Proof.
  revert pre rest bs w. induction fuel as [|fuel IH]; intros pre rest bs w Hb Hf Hl Hs Hbef Hatt; [lia|].
  cbn [read_exact_loop]. destruct (decide (bs = [])) as [->|Hne].
  { rewrite (proj2 (Z.ltb_ge _ _)) by (simpl; lia). exists w. split; [done|].
    split; [apply only_read_refl|]. done. }
  rewrite bool_decide_false in Hatt by done.
  assert (0 < zlen bs) as Hpos by (destruct bs; simpl; [done|lia]).
  rewrite (proj2 (Z.ltb_lt _ _)) by lia. replace (zlen pre + zlen bs - zlen pre) with (zlen bs) by lia.
  destruct (wait_ready dl k w Hbef Hatt) as (clk & sel & Hready & Hatt1 & Hclk).
  pose proof (only_read_wait _ _ _ _ _ Hready) as Hwait. set (w1 := after_wait clk sel w) in *.
  unfold bind at 1, on_snd at 1. rewrite rtu_wait_readable_run, Hready. fold w1. cbn [Z.eqb negb].
  destruct (read_round w1 bs more closed (zlen bs) Hb Hs Hne eq_refl) as (o & w2 & Hrd & Hw2 & Hb2 & Ho).
  unfold bind at 1, on_snd at 1. rewrite Hrd.
  assert (only_read w w2) as Hor by (eapply only_read_trans; [exact Hwait | rewrite Hw2; apply only_read_set_rx]).
  pose proof (only_read_before dl _ _ Hor Hbef) as Hbef2.
  assert (length (clock w2) < fuel)%nat as Hf2 by (rewrite Hw2; simpl; lia).
  assert (clock w2 = clock w1 /\ selects w2 = selects w1) as [Hc2 Hs2] by (by rewrite Hw2).
  destruct o as [c|e].
  - destruct Ho as (tl & -> & Hc & Hst & Hlen). rewrite length_app in *.
    assert (0 < zlen c) by (destruct c; simpl; [done|lia]). rewrite (proj2 (Z.eqb_neq _ _)) by lia.
    erewrite bind_ok by (apply recv_loop_chunk; lia).
    replace (zlen pre + zlen c) with (zlen (pre ++ c)) by (rewrite length_app; lia).
    replace (zlen pre + Z.of_nat (length c + length tl)) with (zlen (pre ++ c) + zlen tl) by (rewrite length_app; lia).
    destruct (IH (pre ++ c) (drop (length c) rest) tl w2) as (w' & Hrun & Hd); try done.
    { rewrite length_drop. lia. }
    { apply (attentive_mono k _ w1); [done..|case_bool_decide; lia|done]. }
    exists w'. rewrite Hrun. split; [by rewrite <- !app_assoc, drop_drop|].
    destruct Hd as [Ho' Hd]. split; [by eapply only_read_trans | done].
  - destruct Ho as (-> & Hst & Hlen). cbn [decide]. rewrite decide_True by done.
    destruct (IH pre rest bs w2) as (w' & Hrun & Hd); try done.
    { rewrite bool_decide_false by done. apply (attentive_mono k _ w1); [done..|lia|done]. }
    exists w'. rewrite Hrun. split; [done|].
    destruct Hd as [Ho' Hd]. split; [by eapply only_read_trans | done].
Qed.

Lemma read_exact_ok rest bs more closed dl k w :
  rx_bytes (rx w) -> (length bs <= length rest)%nat -> stream (rx w) = (bs ++ more, closed) ->
  before dl w -> attentive (S k) w ->
  exists w', read_exact_timeout (zlen bs) dl (rest, w) = Ok (0, (bs ++ drop (length bs) rest, w')) /\
    delivered w more closed k w'.
Proof.
  intros Hb Hl Hs Hbef Hatt. unfold read_exact_timeout. cbn [snd].
  apply (read_exact_loop_ok (S (length (clock w))) [] rest bs more closed dl k w); try done; [lia|].
  case_bool_decide; [|done]. by apply (attentive_mono (S k) _ w); [| |lia|].
Qed.

Lemma read_at_ok got rest bs more closed dl k w :
  rx_bytes (rx w) -> (length bs <= length rest)%nat -> stream (rx w) = (bs ++ more, closed) ->
  before dl w -> attentive (S k) w ->
  exists w', at_ptr (zlen got) (read_exact_timeout (zlen bs) dl) (got ++ rest, w)
      = Ok (0, (got ++ bs ++ drop (length bs) rest, w')) /\ delivered w more closed k w'.
Proof.
  intros Hb Hl Hs Hbef Hatt.
  destruct (read_exact_ok rest bs more closed dl k w Hb Hl Hs Hbef Hatt) as (w' & Hr & Hd).
  exists w'. split; [|done]. unfold at_ptr. rewrite !(proj2 (Z.leb_le _ _)) by (rewrite ?length_app; lia).
  by rewrite Nat2Z.id, drop_app_length, take_app_length, Hr.
Qed.

Lemma delivered_refl w more closed k :
  rx_bytes (rx w) -> stream (rx w) = (more, closed) -> attentive (S k) w -> delivered w more closed k w.
Proof.
  intros Hb Hs Ha. split; [apply only_read_refl|]. split; [done|]. split; [done|].
  by apply (attentive_mono (S k) _ w); [| |lia|].
Qed.

(** The length of a whole response [f], from its first bytes. *)
Lemma response_length_ok efc dl f rest more closed k w :
  frame_size efc f = Some (zlen f) -> bytes f -> 1 <= efc <= 16 -> zlen rest = 254 ->
  rx_bytes (rx w) -> stream (rx w) = (drop 2 f ++ more, closed) -> before dl w -> attentive (S k) w ->
  exists m w', response_length efc dl (take 2 f ++ rest, w)
      = Ok (inr (Z.of_nat m, zlen f), (take m f ++ drop (m - 2) rest, w')) /\
    (2 <= m <= length f)%nat /\ (length f <= 256)%nat /\ delivered w (drop m f ++ more) closed k w'.
Proof.
  intros Hsize Hf He Hrest Hb Hs Hbef Hatt. pose proof (frame_size_bound _ _ _ Hsize Hf) as H5.
  assert (length (take 2 f) = 2%nat) as H2 by (rewrite length_take; lia).
  unfold response_length. erewrite bind_ok by done. cbv beta iota.
  erewrite bind_ok by (apply lift_ok, load_lookup_total; unfold RTU_OFFSET_FC; rewrite length_app; lia).
  rewrite lookup_total_app_l by (unfold RTU_OFFSET_FC; lia). change (Z.to_nat RTU_OFFSET_FC) with 1%nat.
  rewrite lookup_total_take_lt, efc_exception by lia. unfold frame_size in Hsize.
  destruct (_ =? efc + 128).
  { injection Hsize as Hl. exists 2%nat, w. rewrite drop_0, <- Hl. split; [done|]. split; [lia|].
    split; [lia|]. by apply delivered_refl. }
  destruct (Z.eqb_spec (f !!! 1%nat) efc) as [Hfc|Hfc]; [|done]. cbn [negb] in *.
  destruct (efc <=? MODBUS_FUNC_READ_INPUT_REGISTERS).
  2:{ injection Hsize as Hl. exists 2%nat, w. rewrite drop_0, <- Hl. split; [done|]. split; [lia|].
      split; [lia|]. by apply delivered_refl. }
  destruct (Z.ltb_spec MODBUS_RTU_MAX_ADU_LENGTH (5 + f !!! 2%nat)) as [|Hmax]; [done|].
  injection Hsize as Hl. unfold MODBUS_RTU_MAX_ADU_LENGTH in Hmax.
  assert (drop 2 f = [f !!! 2%nat] ++ drop 3 f) as Hd.
  { apply (drop_S f _ 2), list_lookup_lookup_total_lt. lia. }
  rewrite Hd, <- app_assoc in Hs.
  destruct (read_at_ok (take 2 f) rest [f !!! 2%nat] (drop 3 f ++ more) closed dl k w) as (w' & Hr & Hdel);
    [done | simpl; lia | done..|].
  rewrite H2 in Hr. change (Z.of_nat 2) with 2 in Hr. change (zlen [_]) with 1 in Hr.
  erewrite bind_ok by exact Hr. cbn [Z.eqb negb].
  assert (take 2 f ++ [f !!! 2%nat] = take 3 f) as Ht.
  { symmetry. apply take_S_r, list_lookup_lookup_total_lt. lia. }
  rewrite (app_assoc (take 2 f)), Ht. erewrite bind_ok by done. cbv beta iota.
  assert (length (take 3 f) = 3%nat) as H3 by (rewrite length_take; lia).
  erewrite bind_ok by (apply lift_ok, load_lookup_total; unfold RTU_READ_BYTE_COUNT_OFF; rewrite length_app; lia).
  rewrite lookup_total_app_l by (unfold RTU_READ_BYTE_COUNT_OFF; lia).
  change (Z.to_nat RTU_READ_BYTE_COUNT_OFF) with 2%nat. rewrite lookup_total_take_lt by lia.
  unfold MODBUS_RTU_CRC_LEN, MODBUS_RTU_MAX_ADU_LENGTH. replace (3 + f !!! 2%nat + 2) with (zlen f) by lia.
  rewrite (proj2 (Z.ltb_ge _ _)) by lia. exists 3%nat, w'. split; [done|]. split; [lia|]. split; [lia | done].
Qed.

(** All readings of the clock are within a response timeout of each other. *)
Definition punctual (c : mb_rtu_client_ctx) (b : mb_rtu_shared_bus) (w : world) : Prop :=
  forall t t', t ∈ clock w -> t' ∈ clock w -> time_us t' < deadline c b t.

Lemma punctual_read c b w w' : only_read w w' -> punctual c b w -> punctual c b w'.
Proof. intros (_ & _ & _ & u & Hu) Hp t t' Ht Ht'. apply Hp; rewrite Hu, elem_of_app; auto. Qed.

(** The deadline is taken, and everything else is read before it. *)
Lemma deadline_ok c b k w :
  0 < bus_baud_rate b -> punctual c b w -> attentive (S k) w ->
  exists t clk, clock w = t :: clk /\ response_deadline_us c b w = Ok (deadline c b t, set_clock clk w) /\
    before (deadline c b t) (set_clock clk w) /\ attentive k (set_clock clk w) /\ only_read w (set_clock clk w).
Proof.
  intros Hb Hp [Hc (m & Hs & Hm)]. rewrite response_deadline_run by done. unfold punctual in Hp.
  destruct (clock w) as [|t clk] eqn:Hclk; [simpl in Hc; lia|]. exists t, clk. split; [done|]. split; [done|].
  split; [|split; [split; [simpl in *; lia|exists m; split; [done|simpl; lia]]|]].
  - apply Forall_forall. intros t' Ht'. apply Hp; rewrite elem_of_cons; auto.
  - split_and!; try done. exists [t]. by rewrite Hclk.
Qed.

Lemma recv_response_ok c b unit efc buf f more closed k w :
  0 < bus_baud_rate b -> zlen buf = 256 -> bytes buf -> rx_bytes (rx w) -> 1 <= efc <= 16 ->
  frame_size efc f = Some (zlen f) -> bytes f -> frame_ok f = true -> unit_of f = unit ->
  stream (rx w) = (f ++ more, closed) -> punctual c b w -> attentive (4 + k) w ->
  exists w' tl, recv_response c b unit efc (buf, w) = Ok ((0, zlen f), (f ++ tl, w')) /\
    zlen (f ++ tl) = 256 /\ delivered w more closed k w'.
Proof.
  intros Hbaud Hl Hbb Hb He Hsize Hf Hok Hu Hs Hp Ha. pose proof (frame_size_bound _ _ _ Hsize Hf) as H5.
  destruct (deadline_ok c b (3 + k) w Hbaud Hp Ha) as (t & clk & Hclk & Hdl & Hbef & Ha0 & Ho0).
  unfold recv_response, bind at 1, on_snd. rewrite Hdl. set (dl := deadline c b t) in *.
  set (w0 := set_clock clk w) in *.
  assert (length (take 2 f) = 2%nat) as H2 by (rewrite length_take; lia).
  destruct (read_exact_ok buf (take 2 f) (drop 2 f ++ more) closed dl (2 + k) w0) as (w1 & Hr1 & Hd1);
    [done | lia | by rewrite app_assoc, take_drop | done..|].
  rewrite H2 in Hr1. change (Z.of_nat 2) with 2 in Hr1. erewrite bind_ok by exact Hr1. cbn [Z.eqb negb].
  pose proof Hd1 as (Ho1 & Hb1 & Hs1 & Ha1). pose proof (only_read_before _ _ _ Ho1 Hbef) as Hbef1.
  destruct (response_length_ok efc dl f (drop 2 buf) more closed (1 + k) w1) as (m & w2 & Hr2 & Hm & H256 & Hd2);
    try done; [rewrite length_drop; lia|].
  erewrite bind_ok by exact Hr2. cbv beta iota.
  pose proof Hd2 as (Ho2 & Hb2 & Hs2 & Ha2). pose proof (only_read_before _ _ _ Ho2 Hbef1) as Hbef2.
  rewrite drop_drop. replace (2 + (m - 2))%nat with m by lia.
  assert (length (take m f) = m) as Htm by (rewrite length_take; lia).
  destruct (read_at_ok (take m f) (drop m buf) (drop m f) more closed dl k w2) as (w3 & Hr3 & Hd3);
    try done; [rewrite !length_drop; lia|].
  rewrite Htm in Hr3. replace (zlen f - Z.of_nat m) with (zlen (drop m f)) by (rewrite length_drop; lia).
  erewrite bind_ok by exact Hr3. cbn [Z.eqb negb]. rewrite app_assoc, take_drop, drop_drop, length_drop.
  replace (m + (length f - m))%nat with (length f) by lia. set (tl := drop (length f) buf).
  exists w3, tl. erewrite bind_ok by done. cbv beta iota.
  assert (zlen (f ++ tl) = 256) as Htl by (subst tl; rewrite length_app, length_drop; lia).
  erewrite bind_ok by (apply lift_ok, validate_crc_run; [apply Forall_app_2; [done | by apply Forall_drop] | lia]).
  rewrite Nat2Z.id, take_app_length, Hok. cbn [Z.eqb negb].
  erewrite bind_ok by (apply lift_ok, load_lookup_total; unfold RTU_OFFSET_UNIT_ID; lia).
  rewrite lookup_total_app_l by (unfold RTU_OFFSET_UNIT_ID; lia).
  change (f !!! Z.to_nat RTU_OFFSET_UNIT_ID) with (unit_of f). rewrite Hu, Z.eqb_refl. cbn [negb].
  split; [done|]. split; [done|]. destruct Hd3 as [Ho3 Hd3]. split; [|exact Hd3].
  eapply only_read_trans; [exact Ho0|]. eapply only_read_trans; [exact Ho1|]. by eapply only_read_trans.
Qed.

(** A reply to [r] has the length its first bytes announce. *)
Lemma reply_size r unit reply :
  sendable r -> verdict r reply <> MB_PDU_ERR_FRAME ->
  frame_size (request_fc r) (adu unit reply) = Some (zlen (adu unit reply)).
Proof.
  intros Hr Hv. rewrite adu_length. pose proof (request_fc_bound r Hr) as Hfc.
  pose proof (request_fc_read r Hr) as Hrd. unfold verdict in Hv.
  destruct (normal_reply r reply) eqn:Hn.
  - pose proof (normal_reply_head r) as Hhd. destruct reply as [|b0 t]; [by destruct r|].
    rewrite (Hhd _ _ Hn) in *. unfold frame_size.
    change (adu unit (request_fc r :: t) !!! 1%nat) with (request_fc r).
    rewrite (proj2 (Z.eqb_neq _ _)), Z.eqb_refl by lia. cbn [negb].
    destruct (is_read r) eqn:Hread.
    + rewrite normal_reply_read in Hn by done. destruct t as [|bc data]; [done|].
      apply andb_true_iff in Hn as [[_ Hbc%Z.eqb_eq]%andb_true_iff Hdl%Z.eqb_eq].
      change (adu unit (request_fc r :: bc :: data) !!! 2%nat) with bc.
      pose proof (read_bytes_bound r Hr). unfold MODBUS_RTU_MAX_ADU_LENGTH.
      assert (request_fc r <= 4) by (destruct r; try done; cbn in Hr |- *; unfold_defs; lia).
      unfold_defs. rewrite (proj2 (Z.leb_le _ 4)), (proj2 (Z.ltb_ge _ _)) by lia. f_equal. simpl length. lia.
    + rewrite normal_reply_write in Hn by done. apply bool_decide_eq_true in Hn.
      destruct (encode_request_head r []) as (a & v & rest & _ & Ht & _). rewrite Ht in Hn. simplify_eq.
      by destruct r.
  - destruct reply as [|b0 [|code [|]]]; try done. destruct (Z.eqb_spec b0 (request_fc r + 128)) as [->|]; [|done].
    unfold frame_size. change (adu unit [request_fc r + 128; code] !!! 1%nat) with (request_fc r + 128).
    by rewrite Z.eqb_refl.
Qed.

Lemma check_echo_ok c b r j more closed k w :
  rx_bytes (rx w) -> 0 < bus_baud_rate b -> zlen (request_frame c r) <= 256 ->
  stream (rx w) = (request_frame c r ++ more, closed) -> punctual c b w -> attentive (2 + k) w ->
  exists w', check_echo c (request_frame c r ++ j) (zlen (request_frame c r)) (w, b) = Ok (true, (w', b)) /\
    delivered w more closed k w'.
Proof.
  intros Hb Hbaud Hlen Hs Hp Ha. unfold check_echo. erewrite bind_ok by done. cbv beta iota.
  destruct (deadline_ok c b (1 + k) w Hbaud Hp Ha) as (t & clk & Hclk & Hdl & Hbef & Ha0 & Ho0).
  unfold bind at 1, on_fst. rewrite Hdl.
  pose proof (auto_u8_length MODBUS_RTU_MAX_ADU_LENGTH) as Hal.
  change (Z.to_nat MODBUS_RTU_MAX_ADU_LENGTH) with 256%nat in Hal.
  set (buf := auto_u8 MODBUS_RTU_MAX_ADU_LENGTH) in *. set (f := request_frame c r) in *.
  destruct (read_exact_ok buf f more closed (deadline c b t) k (set_clock clk w)) as (w1 & Hr & Hd); try done; [lia|].
  erewrite bind_ok by (by apply with_buf_ok). cbn [Z.eqb negb]. unfold lift.
  rewrite memcmp_eq_ok by (rewrite ?length_app, ?length_drop; lia).
  rewrite !Nat2Z.id, !take_app_length, bool_decide_true by done.
  exists w1. split; [done|]. destruct Hd as [Ho1 Hd]. split; [by eapply only_read_trans | done].
Qed.

(** The line takes the request and delivers, in time, its echo (if there is
    one) and the frame of [reply]. *)
Definition answered (r : request) (c : mb_rtu_client_ctx) (b : mb_rtu_shared_bus) (w : world)
    (reply more : list Z) (closed : bool) : Prop :=
  (eager on_signal (tx w) (zlen (request_frame c r)) /\ exists d, drains w = 0 :: d) /\
  (rx_bytes (rx w) /\ stream (rx w) = (echo c r ++ adu (cli_unit_id (cli_cfg c)) reply ++ more, closed)) /\
  (bytes reply /\ verdict r reply <> MB_PDU_ERR_FRAME) /\
  (sane_clock (clock w) /\ punctual c b w /\ attentive 8 w).

Lemma client_pause_some c b k w :
  attentive (S k) w -> exists acts clk used, pause c b (clock w) = Some (acts, clk) /\
    clock w = used ++ clk /\ (k + length (rx w) <= length clk)%nat /\ Forall (fun a => sent_bytes a = []) acts.
Proof.
  intros [Hc _]. unfold pause. destruct (_ =? 0).
  { exists [], (clock w), []. split; [done|]. split; [done|]. split; [lia | by apply List.Forall_nil]. }
  destruct (clock w) as [|t clk]; [simpl in Hc; lia|]. eexists _, clk, [t]. split; [done|]. split; [done|].
  split; [simpl in Hc; lia|]. case_match; [by apply List.Forall_cons | by apply List.Forall_nil].
Qed.

Lemma transmits_output c w out w' : transmits c w out w' -> output w' = output w ++ out.
Proof.
  intros [(tr & Htr & _ & <-) _]. unfold output. rewrite Htr, !map_app, !concat_app.
  assert (forall on, concat (map sent_bytes (hook c on)) = []) as Hh
    by (intros on; unfold hook; by destruct (cli_on_tx_enable _)).
  by rewrite !Hh, app_nil_r.
Qed.

Lemma silent_output (acts : list action) : Forall (fun a => sent_bytes a = []) acts -> concat (map sent_bytes acts) = [].
Proof. induction 1 as [|a l H _ IH]; [done|]. simpl. by rewrite H, IH. Qed.

(** Silence and request. *)
Lemma request_sent r j c b w reply more closed :
  sendable r -> client_ok c -> bus_ok b -> answered r c b w reply more closed ->
  exists w1 acts clk, pause c b (clock w) = Some (acts, clk) /\
    send_frame c (request_frame c r ++ j) (zlen (request_frame c r)) (log Flushed (after w acts clk)) = Ok (0, w1) /\
    output w1 = output w ++ request_frame c r /\ rx w1 = rx w /\ attentive 7 w1 /\ punctual c b w1 /\
    sane_clock (clock w1) /\ exists used, clock w = used ++ clock w1.
Proof.
  intros Hr Hc Hb ((He & d & Hd) & _ & _ & Hclk & Hp & Ha).
  destruct (client_pause_some c b 7 w Ha) as (acts & clk & used & Hpause & Hu & Hl & Hs).
  set (w0 := log Flushed (after w acts clk)).
  destruct (client_send_frame_ok c (request_frame c r) j w0 d) as (w1 & Hsend & Ht); [done|done|].
  exists w1, acts, clk. split; [done|]. split; [done|].
  pose proof Ht as (_ & Hrx & Hck & Hsel). cbn in Hrx, Hck, Hsel.
  assert (only_read w (set_clock clk w)) as Hor by (split_and!; try done; by exists used).
  split; [|split; [done|split; [|split; [|split]]]].
  - rewrite (transmits_output _ _ _ _ Ht). unfold w0. rewrite output_log. unfold output, after. cbn.
    by rewrite map_app, concat_app, (silent_output acts Hs), !app_nil_r.
  - destruct Ha as [_ (m & Hm & Hml)]. split; [by rewrite Hrx, Hck|]. exists m. rewrite Hsel, Hrx.
    split; [done | lia].
  - apply (punctual_read c b _ _ Hor) in Hp. unfold punctual in *. by rewrite Hck.
  - rewrite Hck. unfold sane_clock in Hclk. rewrite Hu in Hclk. by apply Forall_app in Hclk as [_ Hclk].
  - exists used. by rewrite Hck.
Qed.

(** The response. *)
Lemma response_answers r j c b w reply more closed resp :
  sendable r -> bus_ok b -> zlen resp = 256 -> bytes resp -> bytes reply -> verdict r reply <> MB_PDU_ERR_FRAME ->
  is_u8 (cli_unit_id (cli_cfg c)) -> rx_bytes (rx w) ->
  stream (rx w) = (adu (cli_unit_id (cli_cfg c)) reply ++ more, closed) -> punctual c b w -> attentive 5 w ->
  exists w' t tl used,
    (let! '(_, b) := get in
     let! '((rc, resp_len), resp) := with_buf resp (recv_response c b (cli_unit_id (cli_cfg c)) (request_fc r)) in
     bus_transaction_end c ;;;
     conclude (encode_request r ++ j) resp rc resp_len) (w, b)
    = Ok ((verdict r reply, adu (cli_unit_id (cli_cfg c)) reply ++ tl),
          (w', set_release (cli_unit_id (cli_cfg c)) (default (last_release_time b) t) b)) /\
    clock w = used ++ t :: clock w' /\ output w' = output w /\ stream (rx w') = (more, closed).
Proof.
  intros Hr Hbus Hl Hrb Hreply Hv Hu Hb Hs Hp Ha. set (unit := cli_unit_id (cli_cfg c)) in *.
  pose proof (adu_bytes unit reply Hu Hreply) as Hfb. set (f := adu unit reply) in *.
  destruct (recv_response_ok c b unit (request_fc r) resp f more closed 1 w) as (w1 & tl & Hrun & Htl & Hd);
    try done; [apply Hbus | by apply request_fc_bound | by apply reply_size | by apply adu_ok|].
  destruct Hd as ((_ & _ & Htr & u & Hu1) & _ & Hs1 & [Hc1 _]).
  destruct (clock w1) as [|t clk] eqn:Hclk; [simpl in Hc1; lia|].
  exists (set_clock clk w1), t, tl, u. split; [|split; [done|]].
  - assert (client_code r (Received f 0) = verdict r reply) as <-.
    { unfold client_code. subst f. rewrite pdu_of_adu. cbn [Z.eqb negb]. by rewrite (proj2 (Z.eqb_neq _ _)). }
    erewrite bind_ok by done. cbv beta iota. erewrite bind_ok by (by apply with_buf_ok). cbv beta iota.
    erewrite bind_ok; [apply (client_conclude_run r j unit f 0 (zlen f))|]; try done.
    + intros _. split; [done | by apply prefix_app_r].
    + apply received_frame; [by apply reply_size | by apply adu_ok | done].
    + unfold bus_transaction_end, mark_bus_transaction_done, bind, get, on_fst, on_snd, sys_clock, pop, ret, put.
      by rewrite Hclk.
  - split; [unfold output; cbn; by rewrite Htr | done].
Qed.

(** One call whose answer arrives. *)
Lemma bus_transaction_answers r j more' c b w reply more closed resp :
  sendable r -> client_ok c -> bus_ok b -> is_u8 (cli_unit_id (cli_cfg c)) ->
  cli_unit_id (cli_cfg c) <> MODBUS_RTU_BROADCAST_ADDRESS -> zlen resp = 256 -> bytes resp ->
  answered r c b w reply more closed ->
  exists w' t tl used,
    bus_transaction c (request_fc r) (encode_request r ++ j) (request_frame c r ++ more')
      (zlen (request_frame c r)) resp (w, b)
    = Ok ((verdict r reply, adu (cli_unit_id (cli_cfg c)) reply ++ tl),
          (w', set_release (cli_unit_id (cli_cfg c)) (default (last_release_time b) t) b)) /\
    clock w = used ++ t :: clock w' /\ output w' = output w ++ request_frame c r /\
    stream (rx w') = (more, closed).
Proof.
  intros Hr Hc Hbus Hu Hne Hl Hrb Hans. pose proof Hans as (_ & (Hb & Hs) & (Hrep & Hv) & Hclk & _).
  destruct (request_sent r more' c b w reply more closed Hr Hc Hbus Hans)
    as (w1 & acts & clk & Hpause & Hsend & Hout & Hrx & Ha & Hp & Hclk1 & u & Hu1).
  unfold bus_transaction, bus_transaction_begin. unfold bind at 1. erewrite bind_ok by done. cbv beta iota.
  unfold on_fst at 1. rewrite client_silence_run by done. rewrite Hpause.
  erewrite bind_ok by done. erewrite bind_ok by (apply on_fst_ok, Hsend). cbn [Z.eqb negb].
  rewrite <- Hrx in Hs, Hb.
  assert (exists w2, (if negb (cli_local_echo (cli_cfg c) =? 0)
      then check_echo c (request_frame c r ++ more') (zlen (request_frame c r)) else ret true) (w1, b)
      = Ok (true, (w2, b)) /\ delivered w1 (adu (cli_unit_id (cli_cfg c)) reply ++ more) closed 5 w2)
    as (w2 & Hecho & Hd).
  { unfold echo in Hs. destruct (cli_local_echo (cli_cfg c) =? 0); cbn [negb].
    - exists w1. split; [done|]. apply delivered_refl; [done|done|]. by apply (attentive_mono 7 _ w1); [| |lia|].
    - apply check_echo_ok; [done | apply Hbus | | done | done | done].
      unfold request_frame. rewrite adu_length. pose proof (encode_request_bound r Hr). lia. }
  erewrite bind_ok by exact Hecho. cbn [negb]. rewrite (proj2 (Z.eqb_neq _ _)) by done.
  destruct Hd as (Ho & Hb2 & Hs2 & Ha2).
  destruct (response_answers r j c b w2 reply more closed resp) as (w' & t & tl & u2 & Hrun & Hc2 & Hout2 & Hs');
    try done; [by eapply punctual_read|].
  destruct Ho as (_ & _ & Htr & u3 & Hu3).
  exists w', t, tl, (u ++ u3 ++ u2). split; [exact Hrun|].
  split; [by rewrite Hu1, Hu3, Hc2, <- !app_assoc|]. split; [|done].
  rewrite Hout2, <- Hout. unfold output. by rewrite Htr.
Qed.

Lemma rtu_call_answers r out c b w reply more closed :
  sendable r -> room r out -> client_ok c -> bus_ok b -> is_u8 (cli_unit_id (cli_cfg c)) ->
  cli_unit_id (cli_cfg c) <> MODBUS_RTU_BROADCAST_ADDRESS -> cli_initialized c <> 0 ->
  answered r c b w reply more closed ->
  exists w' t, call (Some c) r (Some out) (w, Some b)
      = Ok ((verdict r reply, Some (if verdict r reply =? 0 then stored r reply out else out)),
            (w', Some (set_release (cli_unit_id (cli_cfg c)) t b))) /\
    output w' = output w ++ request_frame c r /\ stream (rx w') = (more, closed) /\ Some t ∈ clock w.
Proof.
  intros Hr Hroom Hc Hbus Hu Hne Hi Hans. rewrite rtu_call_perform by done.
  destruct (rtu_transact_split r (drop (length (encode_request r)) (auto_u8 MODBUS_MAX_PDU_LENGTH))
    (auto_u8 MODBUS_RTU_MAX_ADU_LENGTH) c w b Hr) as [more' Hsplit].
  rewrite (proj2 (Z.eqb_neq (cli_initialized c) 0)), (proj2 (Z.eqb_neq (cli_unit_id _) _)) in Hsplit by done.
  cbn [andb] in Hsplit.
  destruct (bus_transaction_answers r (drop (length (encode_request r)) (auto_u8 MODBUS_MAX_PDU_LENGTH))
    more' c b w reply more closed (auto_u8 MODBUS_RTU_MAX_ADU_LENGTH))
    as (w' & t & tl & u & Hrun & Hclk & Hout & Hs); try done; [apply auto_u8_bytes|].
  unfold on_bus in Hsplit. rewrite Hrun in Hsplit.
  pose proof Hans as (_ & _ & _ & Hsane & _). unfold sane_clock in Hsane. rewrite Hclk in Hsane.
  apply Forall_app in Hsane as [_ Hsane]. apply Forall_cons_iff in Hsane as [(v & -> & _) _].
  exists w', v. split; [|split; [done|split; [done|]]].
  2:{ rewrite Hclk, elem_of_app, elem_of_cons. auto. }
  assert (drop 1 (adu (cli_unit_id (cli_cfg c)) reply ++ tl) = reply ++ crc_wire (cli_unit_id (cli_cfg c) :: reply) ++ tl)
    as Hd by (unfold adu; cbn; by rewrite drop_0, <- app_assoc).
  rewrite (rtu_perform_run c r out (w, Some b) _ _ _ Hr Hroom Hsplit).
  - cbn [default from_option id]. rewrite Hd. destruct (Z.eqb_spec (verdict r reply) 0) as [Hz|]; [|done].
    by rewrite stored_app by (done || by apply verdict_ok).
  - intros Hz _. exists reply. eexists. split; [exact Hd | by apply verdict_ok].
Qed.
End Client.
