(* ===== verification/RtuClientEnds.v ===== *)
(** * Calls of the RTU client end

    A response has one deadline, from the request on: every wait for a byte
    looks at it, so a slave that trickles its answer cannot hold the bus.
    [rounds dl n clk z]: [n] such deadlines pass, one after the other, before
    the readings [z] of the clock; a call waits for at most two (the echo of
    the request and the response). *)

From stdpp Require Import list sorting.
From S2P Require Import Prelude Buffer Defines Bits Pdu PduSpec PduClient PduReplies Ptr Rtu Crc RtuFrames Sys TcpServer TcpServerSpec RtuClient RtuClientSpec RtuClientTransact RtuClientCalls.

(** ** Computations that never wait *)

Definition calm {A} (o : outcome A) : Prop := o <> Fail Blocked.

Create HintDb calm.

Lemma calm_obind {A B} (o : outcome A) (f : A -> outcome B) :
  calm o -> (forall a, calm (f a)) -> calm (obind o f).
Proof. destruct o; cbn; [auto|]. unfold calm. congruence. Qed.

Lemma calm_bind {S A B} (m : st S A) (f : A -> st S B) s :
  (forall s, calm (m s)) -> (forall a s, calm (f a s)) -> calm (bind m f s).
Proof. intros Hm Hf. unfold bind. pose proof (Hm s). destruct (m s) as [[a s']|]; [apply Hf|]. unfold calm in *. congruence. Qed.

Lemma calm_lift {S A} (o : outcome A) (s : S) : calm o -> calm (lift o s).
Proof. unfold calm, lift. destruct o; congruence. Qed.

Lemma calm_load p i : calm (load p i).
Proof. unfold load. destruct (0 <=? i); [|done]. by destruct (_ !! _). Qed.

Lemma calm_fun_ptr {A} (p : option A) : calm (fun_ptr p).
Proof. by destruct p. Qed.

Lemma calm_memcmp p q n : calm (memcmp_eq p q n).
Proof. unfold memcmp_eq. by destruct (_ && _). Qed.

Lemma calm_for_from {S} k i (body : Z -> st S unit) s :
  (forall i s, calm (body i s)) -> calm (for_from k i body s).
Proof.
  intros Hb. revert i s. induction k as [|k IH]; intros i s; [done|]. by apply calm_bind.
Qed.

#[export] Hint Resolve calm_load calm_fun_ptr calm_memcmp : calm.
#[export] Hint Extern 2 (calm (Ok _)) => discriminate : calm.
#[export] Hint Extern 2 (calm (ret _ _)) => discriminate : calm.
#[export] Hint Extern 2 (calm (get _)) => discriminate : calm.
#[export] Hint Extern 2 (calm (put _ _)) => discriminate : calm.

(** Walk through a computation that only reads and computes. *)
Ltac calm_step :=
  match goal with
  | |- forall _, _ => intro
  | |- calm (obind _ _) => apply calm_obind
  | |- calm (bind _ _ _) => apply calm_bind
  | |- calm (lift _ _) => apply calm_lift
  | |- calm (for_from _ _ _ _) => apply calm_for_from
  | |- calm (match ?x with _ => _ end) => destruct x
  | |- calm ((match ?x with _ => _ end) _) => destruct x
  | |- _ => solve [auto with calm]
  end.
Ltac calm := repeat calm_step.

Lemma calm_crc16 data n : calm (mb_rtu_crc16 data n).
Proof. unfold mb_rtu_crc16, for_upto. calm. Qed.

Lemma calm_validate_crc frame n : calm (mb_rtu_validate_crc frame n).
Proof. pose proof calm_crc16. unfold mb_rtu_validate_crc. destruct frame; calm. Qed.

Lemma calm_check_response req resp n : calm (mb_pdu_check_response req resp n).
Proof. unfold mb_pdu_check_response, get_u16. calm. Qed.

#[export] Hint Resolve calm_validate_crc calm_check_response : calm.

Section Client.
Context {I : Indet}.

(** ** The clock *)

Definition le_time (t u : option (Z * Z)) : Prop := time_us t <= time_us u.

Fixpoint rounds (dl : option (Z * Z) -> Z) (n : nat) (clk z : list (option (Z * Z))) : Prop :=
  match n with
  | O => exists t b, clk = t :: b ++ z
  | S n' => exists t a u rest, clk = t :: a ++ u :: rest /\ dl t <= time_us u /\ rounds dl n' rest z
  end.

(** The system answers: a monotonic clock, a select for every reading of it,
    and a read for every select. *)
Record answering (w : world) : Prop := Answering {
  answering_sane : sane_clock (clock w);
  answering_sorted : StronglySorted le_time (clock w);
  answering_selects : (length (clock w) <= length (selects w))%nat;
  answering_reads : (length (clock w) <= length (rx w))%nat;
}.

(** A reading further back has an earlier deadline. *)
Lemma rounds_app dl n b clk z :
  (forall t u, t ∈ b -> u ∈ clk -> dl t <= dl u) -> rounds dl n clk z -> rounds dl n (b ++ clk) z.
Proof.
  intros Hdl Hr. destruct b as [|t b]; [done|]. destruct n as [|n]; cbn [rounds] in *.
  - destruct Hr as (t1 & b1 & ->). exists t, (b ++ t1 :: b1). by rewrite <- app_assoc.
  - destruct Hr as (t1 & a & u & rest & -> & Hu & Hr). exists t, (b ++ t1 :: a), u, rest.
    split; [by rewrite <- app_assoc|]. split; [|done].
    etrans; [|exact Hu]. apply Hdl; by left.
Qed.

Definition is_client_timeout (c : mb_rtu_client_ctx) : Prop := is_u32 (cli_response_timeout_ms (cli_cfg c)).

(** No overflow in the deadline. *)
Lemma deadline_mono c b t u :
  is_client_timeout c -> 0 < bus_baud_rate b < 2 ^ 32 ->
  (exists v, t = Some v /\ sane_time v) -> (exists v, u = Some v /\ sane_time v) ->
  le_time t u -> deadline c b t <= deadline c b u.
Proof.
  intros Hc Hb (v & -> & Hv) (v' & -> & Hv') Hle. unfold le_time in Hle.
  assert (forall x, sane_time x -> 0 <= time_us (Some x) < 2 ^ 61) as Htime.
  { intros x [H1 H2]. unfold time_us. cbn. change (2 ^ 40) with 1099511627776 in H1.
    change (2 ^ 61) with 2305843009213693952.
    assert (0 <= snd x / 1000 < 1000000) by (split; [apply Z.div_pos; lia | apply Z.div_lt_upper_bound; lia]).
    rewrite !u64_small by zint. zint. }
  pose proof (Htime v Hv) as H1. pose proof (Htime v' Hv') as H2. unfold deadline.
  set (timeout := if negb (cli_response_timeout_ms _ =? 0) then _ else _). set (bits := u32 _).
  assert (0 <= timeout < 2 ^ 32) as Ht.
  { unfold is_client_timeout, is_u32 in Hc. subst timeout.
    destruct (cli_response_timeout_ms (cli_cfg c) =? 0); [by vm_compute | exact Hc]. }
  assert (0 <= bits < 2 ^ 32) as Hbits by (apply Z.mod_pos_bound; lia).
  change (2 ^ 32) with 4294967296 in *. change (2 ^ 61) with 2305843009213693952 in *.
  rewrite (u64_small (bits * _ * _ + _ - _)) by (unfold MODBUS_RTU_MAX_ADU_LENGTH; zint).
  set (wire := _ / _).
  assert (0 <= wire < 2 ^ 61).
  { subst wire. change (2 ^ 61) with 2305843009213693952. unfold MODBUS_RTU_MAX_ADU_LENGTH.
    split; [apply Z.div_pos; lia | apply Z.div_lt_upper_bound; nia]. }
  change (2 ^ 61) with 2305843009213693952 in *. rewrite !u64_small by zint. lia.
Qed.

(** ** Reading *)

(** [holds_back m w P]: run on any buffer, [m] does not block in [w], and what
    it returns and leaves satisfies [P]. *)
Definition returns {A} (m : st (list Z * world) A) (P : A -> world -> Prop) (w : world) : Prop :=
  forall p, match m (p, w) with
            | Ok (a, (_, w')) => P a w'
            | Fail e => e <> Blocked
            end.

Lemma returns_ret {A} (a : A) P w : P a w -> returns (ret a) P w.
Proof. by intros HP p. Qed.

Lemma returns_bind {A B} (m : st (list Z * world) A) (f : A -> st (list Z * world) B) P w :
  returns m (fun a => returns (f a) P) w -> returns (bind m f) P w.
Proof.
  intros Hm p. unfold bind. specialize (Hm p). destruct (m (p, w)) as [[a [q w']]|]; [apply Hm | done].
Qed.

Lemma returns_mono {A} (m : st (list Z * world) A) (P Q : A -> world -> Prop) w :
  returns m P w -> (forall a w', P a w' -> Q a w') -> returns m Q w.
Proof. intros Hm HPQ p. specialize (Hm p). destruct (m (p, w)) as [[a [q w']]|]; auto. Qed.

Lemma returns_lift {A} (o : outcome A) (P : A -> world -> Prop) w :
  calm o -> (forall a, P a w) -> returns (lift o) P w.
Proof. intros Ho HP p. unfold lift, calm in *. destruct o; [apply HP | congruence]. Qed.

Lemma returns_get {A} (f : list Z * world -> st (list Z * world) A) P w :
  (forall p, returns (f (p, w)) P w) -> returns (bind get f) P w.
Proof. intros Hf p. apply Hf. Qed.

Lemma returns_at_ptr {A} k (m : st (list Z * world) A) P w : returns m P w -> returns (at_ptr k m) P w.
Proof.
  intros Hm p. unfold at_ptr. destruct (_ && _); [|done]. specialize (Hm (drop (Z.to_nat k) p)).
  by destruct (m _) as [[a [q w']]|].
Qed.

(** The readings [u :: z], [u] past the deadline, or [z] are still to come. *)
Definition due (clk : list (option (Z * Z))) (w : world) : Prop :=
  answering w /\ exists b, clock w = b ++ clk.

Lemma due_later u z w : due (u :: z) w -> due z w.
Proof. intros [Ha [b Hb]]. split; [done|]. exists (b ++ [u]). by rewrite <- app_assoc. Qed.

Lemma answering_after used clk sel w :
  answering w -> clock w = used ++ clk -> (length clk <= length sel)%nat ->
  answering (after_wait clk sel w).
Proof.
  intros [H1 H2 H3 H4] Hu Hl. unfold sane_clock in H1. rewrite Hu in *.
  rewrite length_app in H4. apply Forall_app in H1 as [_ H1].
  constructor; cbn; [done | by eapply StronglySorted_app_1_r | done | lia].
Qed.

(** A wait ends; after it, a read may follow. *)
Lemma ready_returns dl u z clk sel b :
  dl <= time_us u -> clk = b ++ u :: z -> (length clk <= length sel)%nat ->
  exists rc clk' sel', ready dl clk sel = Some (rc, clk', sel') /\ (length clk' <= length sel')%nat /\
    (exists b', clk' = b' ++ z) /\ (rc = 0 -> exists b', clk' = b' ++ u :: z).
Proof.
  intros Hu. revert b sel. induction clk as [|t clk IH]; intros b sel Hclk Hl; [by destruct b|].
  cbn [ready]. simpl in Hl. assert (exists b', clk = b' ++ z) as Hz.
  { destruct b as [|? b]; simplify_eq/=; [by exists [] | exists (b ++ [u]); by rewrite <- app_assoc]. }
  destruct (Z.leb_spec dl (time_us t)) as [|Hearly]; [eexists _, _, _; split; [done|]; split; [lia | done]|].
  destruct b as [|t' b]; simplify_eq/=; [lia|].
  destruct sel as [|[| |e] sel]; simpl in Hl; [lia| | |].
  - eexists _, _, _. split; [done|]. split; [lia|]. split; [done|]. by exists b.
  - eexists _, _, _. split; [done|]. split; [lia | done].
  - case_decide; [|eexists _, _, _; split; [done|]; split; [lia | done]]. apply (IH b); [done | lia].
Qed.

Lemma read_exact_loop_returns fuel received len dl u z w :
  dl <= time_us u -> due (u :: z) w -> (length (clock w) < fuel)%nat ->
  returns (read_exact_loop fuel received len dl) (fun rc w' => due z w' /\ (rc = 0 -> due (u :: z) w')) w.
Proof.
  intros Hu. revert received w. induction fuel as [|fuel IH]; intros received w Hd Hf; [lia|].
  cbn [read_exact_loop]. destruct (received <? len); [|apply returns_ret; eauto using due_later].
  intros p. unfold bind at 1, on_snd at 1. rewrite rtu_wait_readable_run.
  pose proof Hd as [Ha [b Hb]].
  destruct (ready_returns dl u z (clock w) (selects w) b Hu Hb ltac:(apply Ha))
    as (rc & clk & sel & Hready & Hl & Hz & Hnext).
  rewrite Hready. apply ready_code in Hready as [_ (used & Hused & Hclk)].
  pose proof (answering_after used clk sel w Ha Hclk Hl) as Ha1.
  assert (S (length clk) <= length (clock w))%nat as Hlen
    by (rewrite Hclk, length_app; destruct used; [done | simpl; lia]).
  destruct (Z.eqb_spec rc 0) as [->|Hne]; cbn [negb]; [|by split; [split|]].
  specialize (Hnext eq_refl). set (w1 := after_wait clk sel w) in *.
  pose proof (answering_reads _ Ha) as Hrd.
  assert (forall r, (length (rx w) <= S (length r))%nat -> due (u :: z) (set_rx r w1)) as Hdue.
  { intros r Hr. split; [|done]. destruct Ha1 as [H1 H2 H3 H4]. constructor; [done..|]. cbn. lia. }
  unfold bind at 1, on_snd at 1, sys_read. change (rx w1) with (rx w).
  destruct (rx w) as [|[bs|e] r]; simpl in Hrd; [lia| |].
  - assert (forall bs' r', (S (length r) <= S (length r'))%nat ->
      match (if zlen bs' =? 0 then ret (-2) else
               on_buf (at_off received (memcpy bs' (zlen bs'))) ;;;
               read_exact_loop fuel (received + zlen bs') len dl) (p, set_rx r' w1) with
      | Ok (rc, (_, w')) => due z w' /\ (rc = 0 -> due (u :: z) w')
      | Fail e => e <> Blocked
      end) as Hgo.
    { intros bs' r' Hr'. pose proof (Hdue r' Hr') as Hd'. destruct (_ =? 0); [by split; [eapply due_later|]|].
      unfold bind, on_buf. unfold at_off, memcpy. destruct (_ && _); [|done]. destruct (_ && _); [|done].
      apply IH; [done | cbn; lia]. }
    destruct (zlen bs <=? _); apply Hgo; simpl; lia.
  - pose proof (Hdue r ltac:(simpl; lia)) as Hd'. case_decide; [apply IH; [done | cbn; lia]|].
    by split; [eapply due_later|].
Qed.

Lemma read_exact_returns n dl u z w :
  dl <= time_us u -> due (u :: z) w ->
  returns (read_exact_timeout n dl) (fun rc w' => due z w' /\ (rc = 0 -> due (u :: z) w')) w.
Proof. intros Hu Hd p. unfold read_exact_timeout. cbn [snd]. eapply read_exact_loop_returns; eauto. Qed.

(** ** The response *)

Lemma response_length_returns efc dl u z w :
  dl <= time_us u -> due (u :: z) w ->
  returns (response_length efc dl) (fun v w' => due z w' /\ (forall x, v = inr x -> due (u :: z) w')) w.
Proof.
  intros Hu Hd. assert (due z w) as Hz by (by eapply due_later).
  unfold response_length. apply returns_get. intros p.
  apply returns_bind, returns_lift; [auto with calm|]. intros fc.
  destruct (_ =? _); [by apply returns_ret|]. destruct (negb _); [by apply returns_ret|].
  destruct (_ <=? _); [|by apply returns_ret].
  apply returns_bind, returns_at_ptr. eapply returns_mono; [by apply read_exact_returns|].
  intros rc w1 [Hz1 Hd1]. destruct (Z.eqb_spec rc 0) as [->|]; cbn [negb]; [|by apply returns_ret].
  specialize (Hd1 eq_refl). apply returns_get. intros p1. apply returns_bind, returns_lift; [auto with calm|].
  intros count. destruct (_ <? _); by apply returns_ret.
Qed.

(** [lively c b n z w]: the system answers, and [n] response deadlines pass
    before the readings [z]. *)
Definition lively (c : mb_rtu_client_ctx) (b : mb_rtu_shared_bus) (n : nat)
    (z : list (option (Z * Z))) (w : world) : Prop :=
  answering w /\ rounds (deadline c b) n (clock w) z.

Definition timing_ok (c : mb_rtu_client_ctx) (b : mb_rtu_shared_bus) : Prop :=
  is_client_timeout c /\ 0 < bus_baud_rate b < 2 ^ 32.

Lemma lively_due c b n z clk w :
  timing_ok c b -> due clk w -> rounds (deadline c b) n clk z -> lively c b n z w.
Proof.
  intros [Hc Hb] [Ha [pre Hpre]] Hr. split; [done|]. rewrite Hpre.
  destruct Ha as [Hsane Hsort _ _]. unfold sane_clock in Hsane. rewrite Hpre in *.
  apply Forall_app in Hsane as [Hs1 Hs2]. rewrite Forall_forall in Hs1, Hs2.
  apply rounds_app; [|done]. intros t u Ht Hu. apply deadline_mono; auto.
  by apply (StronglySorted_app_1_elem_of le_time pre clk).
Qed.

(** Reading the clock for a deadline. *)
Lemma lively_clock c b n z t clk w :
  lively c b (S n) z w -> clock w = t :: clk ->
  exists u rest, deadline c b t <= time_us u /\ rounds (deadline c b) n rest z /\
    due (u :: rest) (set_clock clk w).
Proof.
  intros [Ha (t1 & a & u & rest & Heq & Hu & Hr)] Hclk. rewrite Hclk in Heq. injection Heq as <- ->.
  exists u, rest. split; [done|]. split; [done|]. split; [|by exists a].
  apply (answering_after [t] (a ++ u :: rest) (selects w)) in Ha as Ha1; [by destruct w | done|].
  destruct Ha as [_ _ Hl _]. rewrite Hclk in Hl. simpl in Hl. lia.
Qed.

Lemma lively_cons c b n z w : lively c b n z w -> exists t clk, clock w = t :: clk.
Proof.
  intros [_ Hr]. destruct n; cbn [rounds] in Hr; [destruct Hr as (? & ? & ->)|destruct Hr as (? & ? & ? & ? & -> & _)];
    by eexists _, _.
Qed.

(** After a wait with a deadline, the next round is still to come. *)
Lemma deadline_returns {A} c b n z (m : Z -> st (list Z * world) A) w :
  timing_ok c b -> lively c b (S n) z w ->
  (forall dl u rest w1, dl <= time_us u -> due (u :: rest) w1 ->
     returns (m dl) (fun _ w' => due rest w') w1) ->
  returns (let! dl := on_snd (response_deadline_us c b) in m dl) (fun _ w' => lively c b n z w') w.
Proof.
  intros Ht Hw Hm p. destruct (lively_cons _ _ _ _ _ Hw) as (t & clk & Hclk).
  destruct (lively_clock c b n z t clk w Hw Hclk) as (u & rest & Hu & Hr & Hd).
  unfold bind, on_snd. rewrite response_deadline_run by apply Ht. rewrite Hclk.
  specialize (Hm _ u rest _ Hu Hd p).
  destruct (m _ _) as [[a [q w']]|]; [|done]. by eapply lively_due.
Qed.

Lemma recv_response_returns c b unit efc n z w :
  timing_ok c b -> lively c b (S n) z w ->
  returns (recv_response c b unit efc) (fun _ w' => lively c b n z w') w.
Proof.
  intros Ht Hw. unfold recv_response. apply deadline_returns; [done..|]. clear w Hw.
  intros dl u rest w Hu Hd. apply returns_bind. eapply returns_mono; [by apply read_exact_returns|].
  intros rc w1 [Hz1 Hd1]. destruct (Z.eqb_spec rc 0) as [->|]; cbn [negb]; [|by apply returns_ret].
  apply returns_bind. eapply returns_mono; [by apply response_length_returns; [|apply Hd1]|].
  intros [early|[total len]] w2 [Hz2 Hd2]; [by apply returns_ret|]. specialize (Hd2 _ eq_refl).
  apply returns_bind, returns_at_ptr. eapply returns_mono; [by apply read_exact_returns|].
  intros rc w3 [Hz3 Hd3]. destruct (negb _); [by apply returns_ret|].
  apply returns_get. intros p. apply returns_bind, returns_lift; [auto with calm|]. intros crc.
  destruct (negb _); [by apply returns_ret|]. apply returns_bind, returns_lift; [auto with calm|].
  intros ru. destruct (negb _); by apply returns_ret.
Qed.

(** ** Transactions *)

Definition returns_on {A} (m : st (world * mb_rtu_shared_bus) A) (P : A -> world * mb_rtu_shared_bus -> Prop)
    (s : world * mb_rtu_shared_bus) : Prop :=
  match m s with
  | Ok (a, s') => P a s'
  | Fail e => e <> Blocked
  end.

Lemma returns_on_bind {A B} (m : st _ A) (f : A -> st _ B) P s :
  returns_on m (fun a => returns_on (f a) P) s -> returns_on (bind m f) P s.
Proof. unfold returns_on, bind. by destruct (m s) as [[a s']|]. Qed.

Lemma returns_on_with_buf {A} buf (m : st (list Z * world) A) P w b :
  returns m (fun a w' => forall q, P (a, q) (w', b)) w -> returns_on (with_buf buf m) P (w, b).
Proof. intros Hm. unfold returns_on, with_buf. specialize (Hm buf). by destruct (m _) as [[a [q w']]|]. Qed.

Lemma returns_on_lift {A} (o : outcome A) (P : A -> world * mb_rtu_shared_bus -> Prop) s :
  calm o -> (forall a, P a s) -> returns_on (lift o) P s.
Proof. intros Ho HP. unfold returns_on, lift, calm in *. destruct o; [apply HP | congruence]. Qed.

Lemma check_echo_returns c b req len n z w :
  timing_ok c b -> lively c b (S n) z w ->
  returns_on (check_echo c req len) (fun _ '(w', b') => b' = b /\ lively c b n z w') (w, b).
Proof.
  intros Ht Hw. unfold check_echo, returns_on. unfold bind at 1, get. cbv beta iota.
  set (buf := auto_u8 _).
  pose proof (deadline_returns c b n z (read_exact_timeout len) w Ht Hw) as Hrun.
  assert (returns (let! dl := on_snd (response_deadline_us c b) in read_exact_timeout len dl)
            (fun _ w' => lively c b n z w') w) as Hr.
  { apply Hrun. intros dl u rest w1 Hu Hd. eapply returns_mono; [by apply read_exact_returns|].
    by intros rc w2 [Hz _]. }
  specialize (Hr buf). unfold bind, on_snd, on_fst, with_buf in *.
  destruct (response_deadline_us c b w) as [[dl w1]|]; [|done].
  destruct (read_exact_timeout len dl (buf, w1)) as [[rc [p w2]]|]; [|done].
  destruct (negb _); [done|]. unfold lift. pose proof (calm_memcmp p req len) as Hc. unfold calm in Hc.
  destruct (memcmp_eq _ _ _); [done | congruence].
Qed.

Lemma end_returns {A} c b z w (m : st (world * mb_rtu_shared_bus) A) :
  lively c b 0 z w -> (forall s, calm (m s)) -> (forall s a s', m s = Ok (a, s') -> s' = s) ->
  returns_on (bus_transaction_end c ;;; m) (fun _ '(w', _) => exists pre, clock w' = pre ++ z) (w, b).
Proof.
  intros [_ (t & pre & Hclk)] Hm Hs. unfold bus_transaction_end, mark_bus_transaction_done, returns_on, bind, get,
    on_fst, on_snd, sys_clock, pop, ret, put. rewrite Hclk.
  specialize (Hs (set_clock (pre ++ z) w, set_release (cli_unit_id (cli_cfg c)) (default (last_release_time b) t) b)).
  pose proof (Hm (set_clock (pre ++ z) w, set_release (cli_unit_id (cli_cfg c)) (default (last_release_time b) t) b)) as Hc.
  destruct (m _) as [[a s']|]; [|unfold calm in Hc; congruence]. rewrite (Hs a s' eq_refl). by exists pre.
Qed.

Lemma rounds_zero dl n clk z : rounds dl n clk z -> rounds dl 0 clk z.
Proof.
  revert clk. induction n as [|n IH]; intros clk; [done|].
  intros (t & a & u & rest & -> & _ & (t' & b & ->)%IH). exists t, (a ++ u :: t' :: b).
  by rewrite <- app_assoc.
Qed.

Lemma lively_zero c b n z w : lively c b n z w -> lively c b 0 z w.
Proof. intros [Ha Hr]. split; [done | by eapply rounds_zero]. Qed.

(** The driver takes the frame, or refuses it, and drains. *)
Lemma send_frame_returns c bs more w :
  accepts on_signal (tx w) (zlen bs) <> None -> drains w <> [] ->
  exists rc w', send_frame c (bs ++ more) (zlen bs) w = Ok (rc, w').
Proof.
  intros Ha Hd. unfold send_frame. erewrite bind_ok by apply client_tx_enable_run.
  pose proof (client_write_all_run bs more (after w (hook c 1) (clock w))) as Hw. unfold write_result in Hw.
  cbn [tx drains after] in Hw. destruct (accepts on_signal (tx w) (zlen bs)) as [[]|]; [| |done].
  - destruct (drains w) as [|d r]; [done|]. destruct Hw as (w1 & _ & Hrun). erewrite bind_ok by exact Hrun.
    erewrite bind_ok by apply client_tx_enable_run. by eexists _, _.
  - destruct Hw as (w1 & out & Hrun & _). erewrite bind_ok by exact Hrun.
    erewrite bind_ok by apply client_tx_enable_run. by eexists _, _.
Qed.

(** The system lets a transaction with the frame [bs] end before the readings
    [z]: one reading for the silence, two deadlines, one for the release. *)
Record line_ends (c : mb_rtu_client_ctx) (b : mb_rtu_shared_bus) (bs : list Z)
    (z : list (option (Z * Z))) (w : world) : Prop := LineEnds {
  line_takes : accepts on_signal (tx w) (zlen bs) <> None;
  line_drains : drains w <> [];
  line_answers : answering w;
  line_rounds : rounds (deadline c b) 2 (tail (clock w)) z;
}.

Lemma lively_pause c b bs z w acts clk :
  timing_ok c b -> line_ends c b bs z w -> pause c b (clock w) = Some (acts, clk) ->
  lively c b 2 z (after w acts clk).
Proof.
  intros Ht [_ _ Ha Hr] Hp. apply pause_used in Hp as Hu. destruct Hu as [used Hu].
  apply (lively_due c b 2 z (tail (clock w))); [done | | done]. split.
  - pose proof (answering_after used clk (selects w) w Ha Hu) as Ha1.
    destruct Ha as [_ _ Hl _]. rewrite Hu, length_app in Hl.
    destruct (Ha1 ltac:(lia)) as [H1 H2 H3 H4]. by constructor.
  - cbn [clock after]. unfold pause in Hp. destruct (_ =? 0).
    + injection Hp as _ <-. destruct (clock w) as [|t clk0]; [by exists []|]. by exists [t].
    + destruct (clock w); [done|]. injection Hp as _ <-. by exists [].
Qed.

Lemma conclude_calm pdu resp rc len s : calm (conclude pdu resp rc len s).
Proof. unfold conclude. calm. Qed.

Lemma ret_state {S A} (v : A) (s : S) a s' : ret v s = Ok (a, s') -> s' = s.
Proof. by intros [= _ ->]. Qed.

Lemma conclude_state pdu resp rc len s a s' : conclude pdu resp rc len s = Ok (a, s') -> s' = s.
Proof.
  unfold conclude, bind, lift, ret. destruct (negb _); [by intros [= _ ->]|].
  destruct (mb_pdu_check_response _ _ _) as [v|]; [|done]. destruct (v =? _); by intros [= _ ->].
Qed.

Lemma bus_transaction_returns c b fc pdu bs more resp z w :
  timing_ok c b -> client_ok c -> bus_ok b -> line_ends c b bs z w ->
  returns_on (bus_transaction c fc pdu (bs ++ more) (zlen bs) resp)
    (fun _ '(w', _) => exists pre, clock w' = pre ++ z) (w, b).
Proof.
  intros Ht Hc Hb Hl. pose proof Hl as [Htake Hdr [Hsane _ _ _] _]. unfold bus_transaction, bus_transaction_begin.
  assert (forall w1 n (r : Z), lively c b n z w1 ->
    returns_on (bus_transaction_end c ;;; ret (r, resp)) (fun _ '(w', _) => exists pre, clock w' = pre ++ z) (w1, b))
    as Hend by (intros w1 n r Hw1%lively_zero; by apply end_returns; [| |apply ret_state]).
  apply returns_on_bind. unfold returns_on at 1. erewrite bind_ok by done. cbv beta iota. unfold on_fst at 1.
  rewrite client_silence_run by done.
  destruct (pause c b (clock w)) as [[acts clk]|] eqn:Hpause.
  2:{ exfalso. destruct (line_rounds _ _ _ _ _ Hl) as (t & a & u & rest & Hclk & _).
      unfold pause in Hpause. by destruct (_ =? 0), (clock w). }
  pose proof (lively_pause _ _ _ _ _ _ _ Ht Hl Hpause) as Hlive.
  set (w0 := log Flushed (after w acts clk)).
  assert (lively c b 2 z w0) as Hlive0 by (destruct Hlive as [[? ? ? ?] ?]; by repeat constructor).
  apply returns_on_bind. change (on_fst (act Flushed) _) with (Ok (tt, (w0, b))). unfold returns_on at 1. cbv beta iota.
  apply returns_on_bind. unfold returns_on at 1, on_fst at 1. fold w0.
  destruct (send_frame_returns c bs more w0 Htake Hdr) as (rc & w1 & Hsend). rewrite Hsend.
  pose proof (client_send_frame_run c bs more w0) as Hrun. rewrite Hsend in Hrun.
  destruct Hrun as (_ & out & (_ & Hrx & Hclk & Hsel) & _).
  assert (lively c b 2 z w1) as Hlive1.
  { destruct Hlive0 as [[? ? ? ?] ?]. split; [|by rewrite Hclk]. by constructor; rewrite ?Hclk, ?Hrx, ?Hsel. }
  destruct (negb (rc =? 0)); [by eapply Hend|]. apply returns_on_bind.
  assert (forall w2, lively c b 1 z w2 -> returns_on
    (if cli_unit_id (cli_cfg c) =? MODBUS_RTU_BROADCAST_ADDRESS
     then bus_transaction_end c ;;; ret (MB_RTU_CLIENT_OK, resp)
     else let! '(_, b) := get in
          let! '((rc, resp_len), resp) := with_buf resp (recv_response c b (cli_unit_id (cli_cfg c)) fc) in
          bus_transaction_end c ;;; conclude pdu resp rc resp_len)
    (fun _ '(w', _) => exists pre, clock w' = pre ++ z) (w2, b)) as Hrest.
  { intros w2 Hw2. destruct (_ =? _); [by eapply Hend|]. apply returns_on_bind. unfold returns_on at 1, get.
    apply returns_on_bind, returns_on_with_buf. eapply returns_mono; [by apply recv_response_returns|].
    intros [rc' len] w3 Hw3 q. apply end_returns; [done | apply conclude_calm | apply conclude_state]. }
  destruct (negb (cli_local_echo (cli_cfg c) =? 0)).
  - pose proof (check_echo_returns c b (bs ++ more) (zlen bs) 1 z w1 Ht Hlive1) as Hecho.
    unfold returns_on at 1. unfold returns_on at 1 in Hecho.
    destruct (check_echo _ _ _ _) as [[ok [w2 b2]]|]; [|done]. destruct Hecho as [-> Hw2].
    destruct ok; cbn [negb]; [by apply Hrest | by eapply Hend].
  - unfold returns_on at 1, ret. cbn [negb]. apply Hrest.
    destruct Hlive1 as [Ha (t & a & u & rest & Hck & Hu & Hr)].
    apply (lively_due c b 1 z rest); [done | | done]. split; [done|]. exists (t :: a ++ [u]).
    by rewrite Hck, <- app_comm_cons, <- app_assoc.
Qed.

(** ** Calls *)

Lemma rounds_suffix dl n clk z : rounds dl n (tail clk) z -> exists pre, clk = pre ++ z.
Proof.
  intros (t & b & Hclk)%rounds_zero. destruct clk as [|t0 clk]; simplify_eq/=. by exists (t0 :: t :: b).
Qed.

Lemma rtu_transact_returns r j resp c w b z :
  sendable r -> client_ok c -> bus_ok b -> timing_ok c b -> line_ends c b (request_frame c r) z w ->
  match transact c (encode_request r ++ j) (zlen (encode_request r)) resp (w, Some b) with
  | Ok (_, (w', _)) => exists pre, clock w' = pre ++ z
  | Fail e => e <> Blocked
  end.
Proof.
  intros Hr Hc Hb Ht Hl. destruct (rtu_transact_split r j resp c w b Hr) as [more ->].
  pose proof (rounds_suffix _ _ _ _ (line_rounds _ _ _ _ _ Hl)) as Hz.
  destruct (_ =? 0); [done|]. destruct (_ && _); [done|].
  pose proof (bus_transaction_returns c b (request_fc r) (encode_request r ++ j) (request_frame c r) more resp
    z w Ht Hc Hb Hl) as Hrun. unfold returns_on in Hrun. unfold on_bus.
  destruct (bus_transaction _ _ _ _ _ _ _) as [[a [w' b']]|]; done.
Qed.

Lemma rtu_call_returns c r out w b z :
  sendable r -> room r out -> client_ok c -> bus_ok b -> timing_ok c b -> rx_bytes (rx w) ->
  line_ends c b (request_frame c r) z w ->
  exists rc out' w' bus', call (Some c) r (Some out) (w, Some b) = Ok ((rc, out'), (w', bus')) /\
    exists pre, clock w' = pre ++ z.
Proof.
  intros Hr Hout Hc Hb Ht Hrx Hl. rewrite rtu_call_perform by done.
  set (j := drop (length (encode_request r)) (auto_u8 MODBUS_MAX_PDU_LENGTH)).
  set (resp0 := auto_u8 MODBUS_RTU_MAX_ADU_LENGTH).
  pose proof (rtu_transact_run r j resp0 c w b Hr Hc Hb (answering_sane _ (line_answers _ _ _ _ _ Hl)) Hrx
    ltac:(unfold resp0; by rewrite auto_u8_length) ltac:(apply auto_u8_bytes)) as Hrun.
  pose proof (rtu_transact_returns r j resp0 c w b z Hr Hc Hb Ht Hl) as Hret.
  destruct (transact _ _ _ _ _) as [[[rc resp] [w' bus']]|] eqn:Hgo; [|congruence].
  rewrite (rtu_perform_run c r out (w, Some b) rc resp (w', bus') Hr Hout Hgo); [by eexists _, _, _, _|].
  intros ->. by apply (rtu_call_result_ok r c w b resp w' bus').
Qed.
End Client.
