(* ===== verification/RtuClientTheorems.v ===== *)
(** * Properties of the RTU client

    Refinement of every public call, the silence on a shared bus, and client
    and server together. *)

From stdpp Require Import list sorting.
From S2P Require Import Prelude Buffer Defines Bits Pdu PduSpec PduClient PduReplies Bank Ptr Rtu Crc RtuFrames Sys TcpServer TcpServerSpec RtuServer RtuServerSpec RtuServerSend RtuServerRun RtuServerTheorems RtuClient RtuClientSpec RtuClientTransact RtuClientCalls RtuClientAnswers RtuClientEnds.

#[local] Instance junk : Indet := fun i => 17 + 3 * Z.of_nat i.

(** A client of unit 1 on a bus whose last transaction was with unit 2, at 5.0 s. *)
Definition sample_client (unit_id local_echo : Z) : mb_rtu_client_ctx :=
  CliCtx 3 (Some 0) 1 (CliConfig (Some "/dev/ttyS0"%string) 9600 8 1 MB_RTU_PARITY_NONE unit_id
    1000 0 0 0 local_echo true).
Definition sample_bus : mb_rtu_shared_bus :=
  Bus "/dev/ttyS0" 3 2 9600 8 1 MB_RTU_PARITY_NONE 0 3646 true 2 (5, 0).

(** The clock at 5.01 s, 5.02 s, ... *)
Definition ticks (n : nat) : list (option (Z * Z)) :=
  map (fun i => Some (5, 10000000 * Z.of_nat i)) (seq 1 n).

Definition sample_request : request := ReadRegisters 3 10 2.
(** The echo in two pieces, a signal, the answer 1010, 1011. *)
Definition sample_line : world :=
  World [RxData (take 3 (adu 1 (encode_request sample_request))); RxErr EINTR;
         RxData (drop 3 (adu 1 (encode_request sample_request)) ++ [1]);
         RxData (drop 1 (adu 1 [3; 4; 3; 242; 3; 243]))]
    (replicate 9 (TxTakes 4)) (ticks 16) (replicate 16 Ready) [0] [].

Lemma transaction_bus_ok `{Indet} r c w b code resp w' b' :
  transaction r c w b code resp w' b' -> bus_ok b -> sane_clock (clock w) -> bus_ok b'.
Proof.
  intros Ht (Hb & Ht35 & _) Hclk.
  inversion Ht as [e ? acts clk part w1 t clk' ? _ [_ [used Hu]] _ _ _ Hc _]; subst.
  unfold sane_clock in Hclk. rewrite Hu, Hc in Hclk. apply Forall_app in Hclk as [_ Hclk].
  apply Forall_cons_iff in Hclk as [(v & -> & Hv) _]. split; [done|]. split; [done|]. by intros _.
Qed.

(** C9. Every public call of the RTU client is one transaction on its bus, for
    any bytes on the line and any behaviour of the driver: without a context
    the code is ARG; on a context that is not connected NOT_CONNECTED, and for
    a read addressed to the broadcast unit ARG, both with line and bus
    untouched; otherwise, in this order, the silence the bus needs, a flush,
    the one frame of the request between the calls of the transmit-enable
    hook, its echo where the driver hears itself, and a response judged by
    function code, length, check sequence and unit id, after which the bus
    record notes unit and time.  The code says how it ended and only code 0
    stores data: exactly the registers or bits of the reply.  No access is
    outside a buffer, no signed computation overflows and every loop ends (a
    call that has not returned is blocked in a system call). *)
Theorem rtu_client_refines `{Indet} c r out w b :
  sendable r -> room r out -> client_ok c -> bus_ok b -> sane_clock (clock w) -> rx_bytes (rx w) ->
  call None r (Some out) (w, Some b) = Ok ((MB_RTU_CLIENT_ERR_ARG, Some out), (w, Some b)) /\
  match call (Some c) r (Some out) (w, Some b) with
  | Fail e => e = Blocked
  | Ok ((rc, out'), (w', bus')) => exists resp b', bus' = Some b' /\ bus_ok b' /\
      call_result r c w b rc resp w' bus' /\
      out' = Some (if rc =? 0 then stored r (drop 1 resp) out else out)
  end.
Proof.
  intros Hr Hroom Hc Hb Hclk Hrx. split.
  { destruct r as [fc ? ?|fc ? ?| | | |]; cbn [call]; try done; by destruct (fc =? _). }
  pose proof (rtu_call_run c r out w b Hr Hroom Hc Hb Hclk Hrx) as Hrun.
  destruct (call (Some c) r (Some out) (w, Some b)) as [[[rc out'] [w' bus']]|]; [|done].
  destruct Hrun as (resp & Hres & Hout). pose proof Hres as Hres'. unfold call_result in Hres'.
  destruct (cli_initialized c =? 0); [destruct Hres' as (_ & _ & ->); by exists resp, b|].
  destruct (_ && _); [destruct Hres' as (_ & _ & ->); by exists resp, b|].
  destruct Hres' as (b' & -> & Ht). exists resp, b'. split; [done|].
  split; [by eapply transaction_bus_ok | done].
Qed.

Lemma sample_sendable : sendable sample_request.
Proof. split; [by left|]. split; [by vm_compute | unfold_defs; lia]. Qed.

Lemma sample_line_bytes : rx_bytes (rx sample_line).
Proof.
  repeat (apply List.Forall_cons; [try exact I; apply (bool_decide_unpack _); by vm_compute|]).
  apply List.Forall_nil.
Qed.

Lemma ticks_sane n : (n < 60)%nat -> sane_clock (ticks n).
Proof.
  intros Hn. unfold ticks. apply Forall_map, Forall_forall. intros i Hi%elem_of_seq.
  eexists. split; [done|]. split; cbn; lia.
Qed.

Lemma sample_bus_ok : bus_ok sample_bus.
Proof. split; [done|]. split; [by vm_compute|]. intros _. by vm_compute. Qed.

Lemma rtu_client_refines_witness :
  let c := sample_client 1 1 in
  call None sample_request (Some [7; 7; 7]) (sample_line, Some sample_bus)
    = Ok ((MB_RTU_CLIENT_ERR_ARG, Some [7; 7; 7]), (sample_line, Some sample_bus)) /\
  match call (Some c) sample_request (Some [7; 7; 7]) (sample_line, Some sample_bus) with
  | Fail e => e = Blocked
  | Ok ((rc, out'), (w', bus')) => exists resp b', bus' = Some b' /\ bus_ok b' /\
      call_result sample_request c sample_line sample_bus rc resp w' bus' /\
      out' = Some (if rc =? 0 then stored sample_request (drop 1 resp) [7; 7; 7] else [7; 7; 7])
  end.
Proof.
  intros c. apply (rtu_client_refines c sample_request [7; 7; 7] sample_line sample_bus);
    [exact sample_sendable | by vm_compute | split; by vm_compute | exact sample_bus_ok
    | apply ticks_sane; lia | exact sample_line_bytes].
Defined.

(** The sample call, evaluated: 20 ms of the hand-off silence are missing. *)
Example rtu_sample_call :
  match call (Some (sample_client 1 1)) sample_request (Some [7; 7; 7]) (sample_line, Some sample_bus) with
  | Ok ((rc, out), (w, _)) => rc = 0 /\ out = Some [1010; 1011; 7] /\
      take 3 (trace w) = [Slept 20000; Flushed; TxEnable 1] /\
      output w = adu 1 (encode_request sample_request)
  | Fail _ => False
  end.
Proof. by vm_compute. Qed.

(** ** Termination *)

(** C19. Every public call of the RTU client ends when the system does its part:
    the driver takes or refuses the frame and drains, the clock is monotonic,
    select answers and a read that select announced returns.  Whatever arrives
    on the line, byte by byte or never, the call returns before the readings
    [z] of the clock: at most two response deadlines (the echo of the request
    and the response) pass in it, one after the other, with one reading before
    and one after. *)
Theorem rtu_client_terminates `{Indet} c r out w b z :
  sendable r -> room r out -> client_ok c -> bus_ok b -> timing_ok c b -> rx_bytes (rx w) ->
  line_ends c b (request_frame c r) z w ->
  exists rc out' w' bus', call (Some c) r (Some out) (w, Some b) = Ok ((rc, out'), (w', bus')) /\
    exists pre, clock w' = pre ++ z.
Proof. apply rtu_call_returns. Qed.

(** A slave that sends its answer byte by byte, one every 400 ms.  The
    deadline is 1.294 s after the request: 1 s and 256 characters of 11 bits. *)
Definition slow_clock : list (option (Z * Z)) :=
  Some (5, 5000000) :: map (fun i => Some (5 + i * 400 / 1000, 10000000 + i * 400 mod 1000 * 1000000)) (seqZ 0 12).
Definition slow_line : world :=
  World (map (fun v => RxData [v]) (adu 1 [3; 4; 3; 242; 3; 243]) ++ replicate 4 (RxErr EINTR))
    (replicate 3 (TxTakes 4)) slow_clock (replicate 13 Ready) [0] [].

Lemma slow_line_ends c :
  c = sample_client 1 0 ->
  line_ends c sample_bus (request_frame c sample_request) (drop 12 slow_clock) slow_line.
Proof.
  intros ->. constructor; [by vm_compute | done | |].
  - constructor; [| |by apply Nat.leb_le|by apply Nat.leb_le].
    + change (clock slow_line) with slow_clock. let l := eval vm_compute in slow_clock in change slow_clock with l.
      repeat (apply List.Forall_cons; [eexists; split; [done | split; cbn; lia]|]). apply List.Forall_nil.
    + change (clock slow_line) with slow_clock. let l := eval vm_compute in slow_clock in change slow_clock with l.
      repeat (apply SSorted_cons; [|repeat (apply List.Forall_cons; [by vm_compute|]); apply List.Forall_nil]).
      apply SSorted_nil.
  - change (clock slow_line) with slow_clock. let l := eval vm_compute in slow_clock in change slow_clock with l.
    eexists _, [_; _; _], _, _. split; [done|]. split; [by vm_compute|].
    eexists _, [_; _; _], _, _. split; [done|]. split; [by vm_compute|]. by eexists _, [].
Qed.

Lemma rtu_client_terminates_witness :
  let c := sample_client 1 0 in
  exists rc out' w' bus',
    call (Some c) sample_request (Some [7; 7; 7]) (slow_line, Some sample_bus) = Ok ((rc, out'), (w', bus')) /\
    exists pre, clock w' = pre ++ drop 12 slow_clock.
Proof.
  intros c. apply (rtu_client_terminates c sample_request [7; 7; 7] slow_line sample_bus (drop 12 slow_clock));
    [exact sample_sendable | by vm_compute | split; by vm_compute | exact sample_bus_ok
    | split; by vm_compute | | by apply slow_line_ends].
  repeat (apply List.Forall_cons; [try exact I; apply (bool_decide_unpack _); by vm_compute|]).
  apply List.Forall_nil.
Defined.

(** Evaluated: the call gives up after four bytes. *)
Example slow_call :
  match call (Some (sample_client 1 0)) sample_request (Some [7; 7; 7]) (slow_line, Some sample_bus) with
  | Ok ((rc, out), (w, _)) => rc = MB_RTU_CLIENT_ERR_TIMEOUT /\ out = Some [7; 7; 7] /\
      length (clock w) = 6%nat
  | Fail _ => False
  end.
Proof. by vm_compute. Qed.

(** ** Silence on the bus *)

Definition ns (t : Z * Z) : Z := fst t * 1000000000 + snd t.

(** What the actions of a call sleep, in microseconds. *)
Definition slept (a : action) : Z := match a with Slept us => us | _ => 0 end.
Definition sleep_time (acts : list action) : Z := foldr Z.add 0 (map slept acts).

Lemma elapsed_ns b t : 1000 * elapsed b t < ns t - ns (last_release_time b) + 1000.
Proof.
  unfold elapsed, ns. pose proof (Z.quot_rem' (snd t - snd (last_release_time b)) 1000).
  pose proof (Z.rem_bound_abs (snd t - snd (last_release_time b)) 1000 ltac:(done)). lia.
Qed.

(** The time since the last transaction and the sleep make up the silence. *)
Lemma pause_gap `{Indet} c b v clk acts clk' :
  client_ok c -> bus_ok b -> ns (last_release_time b) <= ns v ->
  pause c b (Some v :: clk) = Some (acts, clk') ->
  Forall (fun a => exists us, a = Slept us) acts /\
  1000 * required_silence c b - 1000 < ns v - ns (last_release_time b) + 1000 * sleep_time acts.
Proof.
  intros Hc Hb Hns Hp. pose proof (elapsed_ns b v) as He. pose proof (required_bound c b Hc Hb) as Hreq.
  assert (0 <= elapsed b v) as Hpos.
  { unfold elapsed, ns in *. set (l := last_release_time b) in *.
    pose proof (Z.quot_le_mono ((- (fst v - fst l) * 1000000) * 1000) (snd v - snd l) 1000 ltac:(done) ltac:(lia)) as Hq.
    rewrite Z.quot_mul in Hq by done. lia. }
  unfold pause in Hp. destruct (Z.eqb_spec (required_silence c b) 0) as [Hz|Hne].
  { injection Hp as <- _. split; [apply List.Forall_nil | cbn -[Z.mul]; lia]. }
  cbn [default from_option id] in Hp. injection Hp as <- _.
  rewrite (proj2 (Z.leb_le _ _)) by done. cbn [andb].
  destruct (Z.ltb_spec (elapsed b v) (required_silence c b)); unfold sleep_time; simpl.
  - split; [apply List.Forall_cons; [by eexists | apply List.Forall_nil] | lia].
  - split; [apply List.Forall_nil | lia].
Qed.

(** C28. The bus is silent long enough between transactions, whichever of the
    contexts that share it make them: when a call returns, it either did
    nothing, or before the flush and the first byte of its frame it slept so
    long that, together with the time since the last release, the silence that
    the bus requires has passed (up to the microsecond the code's arithmetic
    truncates): the inter-frame silence, and the hand-off silence too when the
    last transaction was with another unit.  And it leaves its own unit id and
    a reading of the clock for the next one. *)
Theorem rtu_bus_silence `{Indet} c r out w b rc out' w' bus' v clk :
  sendable r -> room r out -> client_ok c -> bus_ok b -> sane_clock (clock w) -> rx_bytes (rx w) ->
  clock w = Some v :: clk -> ns (last_release_time b) <= ns v ->
  call (Some c) r (Some out) (w, Some b) = Ok ((rc, out'), (w', bus')) ->
  (w' = w /\ bus' = Some b) \/
  exists sleeps rest b', trace w' = trace w ++ sleeps ++ Flushed :: rest /\
    Forall (fun a => exists us, a = Slept us) sleeps /\
    1000 * required_silence c b - 1000 < ns v - ns (last_release_time b) + 1000 * sleep_time sleeps /\
    bus' = Some b' /\ has_last_transaction b' = true /\ last_unit_id b' = cli_unit_id (cli_cfg c) /\
    Some (last_release_time b') ∈ clock w.
Proof.
  intros Hr Hroom Hc Hb Hclk Hrx Hv Hns Hcall.
  pose proof (rtu_call_run c r out w b Hr Hroom Hc Hb Hclk Hrx) as Hrun. rewrite Hcall in Hrun.
  destruct Hrun as (resp & Hres & _). unfold call_result in Hres.
  destruct (cli_initialized c =? 0); [left; by destruct Hres as (_ & -> & ->)|].
  destruct (_ && _); [left; by destruct Hres as (_ & -> & ->)|]. right.
  destruct Hres as (b' & -> & Ht).
  inversion Ht as [e ? acts clk1 part w1 t clk' ? Hp [(tr & Htr & _) [used Hu]] _ _ _ Hck Hw]; subst.
  rewrite Hv in Hp. destruct (pause_gap c b v clk acts clk1 Hc Hb Hns Hp) as [Hs Hgap].
  exists acts, (hook c 1 ++ tr ++ hook c 0). eexists. split; [exact Htr|]. split; [done|].
  split; [done|]. split; [done|]. split; [done|]. split; [done|].
  rewrite Hck in Hu. rewrite Hu. unfold sane_clock in Hclk. rewrite Hu in Hclk.
  apply Forall_app in Hclk as [_ Hclk]. apply Forall_cons_iff in Hclk as [(v' & -> & _) _].
  cbn. rewrite elem_of_app, elem_of_cons. auto.
Qed.

(** The sample call after its 14 readings of the clock. *)
Definition after_sample : world * mb_rtu_shared_bus :=
  match call (Some (sample_client 1 1)) sample_request (Some [7; 7; 7]) (sample_line, Some sample_bus) with
  | Ok (_, (w, Some b)) => (w, b)
  | _ => (sample_line, sample_bus)
  end.

Lemma rtu_bus_silence_witness :
  let c := sample_client 1 1 in
  (fst after_sample = sample_line /\ Some (snd after_sample) = Some sample_bus) \/
  exists sleeps rest b', trace (fst after_sample) = [] ++ sleeps ++ Flushed :: rest /\
    Forall (fun a => exists us, a = Slept us) sleeps /\
    1000 * required_silence c sample_bus - 1000
      < ns (5, 10000000) - ns (last_release_time sample_bus) + 1000 * sleep_time sleeps /\
    Some (snd after_sample) = Some b' /\ has_last_transaction b' = true /\ last_unit_id b' = 1 /\
    Some (last_release_time b') ∈ clock sample_line.
Proof.
  intros c. apply (rtu_bus_silence c sample_request [7; 7; 7] sample_line sample_bus 0 (Some [1010; 1011; 7])
    (fst after_sample) (Some (snd after_sample)) (5, 10000000) (drop 1 (ticks 16)));
    [exact sample_sendable | by vm_compute | split; by vm_compute | exact sample_bus_ok
    | apply ticks_sane; lia | exact sample_line_bytes | done | by vm_compute | by vm_compute].
Defined.

(** ** Client and server *)

(** The client's verdict on the device's answer, and what it stores. *)
Lemma verdict_stored `{Indet} {U} (h : mb_pdu_handlers U) (d : device U) `{!Implements h d} r u out :
  valid_request r -> offers d r = true -> has_words (fst (serve d r u)) ->
  let x := fst (serve d r u) in
  verdict r (encode_response x) = exception_code x /\
  (if exception_code x =? 0 then stored r (encode_response x) out else out) = filled x out.
Proof.
  intros Hr Ho Hw x. subst x. rewrite (verdict_serve h d) by done. split; [done|].
  destruct (Z.eqb_spec (exception_code (fst (serve d r u))) 0); [by apply (stored_serve h d)|].
  by destruct (fst (serve d r u)).
Qed.

(** C7. Client and server together on one bus: for every request a client can
    express and the device supports, sent to a unit the server answers for,
    the frame the client writes, once it has arrived at the server in any
    pieces, is executed once, with the effect of the device operation; and when
    the server's frame comes back in time, in any pieces and behind the echo
    where the driver hears itself, the client's call returns 0 and the device's
    values (or the device's exception code, leaving the caller's array alone),
    and the bus record notes the unit and the time. *)
Theorem rtu_end_to_end `{Indet} {U} (cfg : mb_rtu_server_config U) (d : device U)
    `{!Implements (handlers cfg) d} r u c b cs ws ts ts2 clk bs more drained :
  valid_request r -> offers d r = true -> has_words (fst (serve d r u)) ->
  client_ok c -> bus_ok b -> is_u8 (cli_unit_id (cli_cfg c)) ->
  cli_unit_id (cli_cfg c) <> MODBUS_RTU_BROADCAST_ADDRESS -> cli_initialized c <> 0 ->
  srv_unit_id cfg = cli_unit_id (cli_cfg c) \/ srv_unit_id cfg = MB_RTU_SERVER_UNIT_ID_ANY ->
  srv_inv cs -> is_u64 (last_rx_us cs) -> is_u32 (effective_timeout_ms cfg) ->
  is_u32 (RtuServer.effective_inter_frame_us cfg cs) -> rx_bytes (rx ws) ->
  clock ws = ts :: ts2 :: clk -> stale (effective_timeout_ms cfg) (RtuServerSend.time_us ts) cs = false ->
  arrived (256 - rx_len cs) (rx ws) = (bs, Some true) ->
  held cs ++ bs = request_frame c r ++ more ->
  eager on_signal_or_full (tx ws) MODBUS_RTU_MAX_ADU_LENGTH -> drains ws = 0 :: drained -> srv_local_echo cfg = 0 ->
  exists reply cs' ws', server_on_process cfg ((cs, ws), u) = Ok (0, ((cs', ws'), snd (serve d r u))) /\
    output ws' = output ws ++ reply /\ held cs' = more /\
    forall out w more' closed, room r out ->
      eager on_signal (tx w) (zlen (request_frame c r)) -> (exists d, drains w = 0 :: d) ->
      rx_bytes (rx w) -> stream (rx w) = (echo c r ++ reply ++ more', closed) ->
      sane_clock (clock w) -> punctual c b w -> attentive 8 w ->
      exists w' t, call (Some c) r (Some out) (w, Some b)
          = Ok ((exception_code (fst (serve d r u)), Some (filled (fst (serve d r u)) out)),
                (w', Some (set_release (cli_unit_id (cli_cfg c)) t b))) /\
        output w' = output w ++ request_frame c r /\ stream (rx w') = (more', closed) /\ Some t ∈ clock w.
Proof.
  intros Hr Ho Hw Hc Hb Hu Hne Hi Hown Hinv Hlast Ht Hs Hrx Hclk Hst Harr Hheld [He1 He2] Hdr Hecho.
  pose proof (respond_bound (handlers cfg) d (encode_request r) u) as Hbound. unfold respond in Hbound.
  rewrite parse_encode_request in Hbound by done. cbn [finish] in Hbound.
  set (reply := adu (cli_unit_id (cli_cfg c)) (encode_response (fst (serve d r u)))).
  assert (zlen reply <= MODBUS_RTU_MAX_ADU_LENGTH) as Hmax
    by (unfold MODBUS_RTU_MAX_ADU_LENGTH; subst reply; rewrite adu_length; lia).
  destruct (server_answers_run cfg d cs ws u ts ts2 clk bs r more (cli_unit_id (cli_cfg c)) drained)
    as (cs' & ws' & Hrun & Hh & Hout); try done.
  { split; [done | fold reply; lia]. }
  exists reply, cs', ws'. split_and!; [done..|]. intros out w more' closed Hroom He Hd Hb' Hs' Hck Hp Ha.
  destruct (verdict_stored (handlers cfg) d r u out Hr Ho Hw) as [Hv Hf].
  destruct (rtu_call_answers r out c b w (encode_response (fst (serve d r u))) more' closed)
    as (w' & t & Hcall & Ho' & Hst' & Hin); try done; [by apply valid_sendable| |].
  { split; [done|]. split; [done|]. split; [|done]. split; [by apply response_bytes|].
    rewrite Hv. pose proof (serve_code d r u). unfold MB_PDU_ERR_FRAME. lia. }
  exists w', t. rewrite Hcall, Hv, Hf. done.
Qed.

(** The sample device's server: the request arrives in two polls. *)
Definition server_line : world :=
  World [RxData (drop 5 sample_frame ++ [7]); RxErr EAGAIN] (replicate 260 (TxTakes 7))
    [Some (5, 0); Some (5, 1000000); Some (5, 2000000)] [] [0] [].

Lemma rtu_end_to_end_witness :
  let r := ReadRegisters 3 10 2 in
  let c := sample_client 1 1 in
  let x := fst (serve bank_device r sample_bank) in
  exists reply cs' ws', server_on_process (bank_config 1)
      ((holding (take 5 sample_frame) 4999000, server_line), sample_bank)
      = Ok (0, ((cs', ws'), snd (serve bank_device r sample_bank))) /\
    output ws' = [] ++ reply /\ held cs' = [7] /\
    forall out w more' closed, room r out ->
      eager on_signal (tx w) (zlen (request_frame c r)) -> (exists d, drains w = 0 :: d) ->
      rx_bytes (rx w) -> stream (rx w) = (echo c r ++ reply ++ more', closed) ->
      sane_clock (clock w) -> punctual c sample_bus w -> attentive 8 w ->
      exists w' t, call (Some c) r (Some out) (w, Some sample_bus)
          = Ok ((exception_code x, Some (filled x out)), (w', Some (set_release 1 t sample_bus))) /\
        output w' = output w ++ request_frame c r /\ stream (rx w') = (more', closed) /\ Some t ∈ clock w.
Proof.
  intros r c x. apply (rtu_end_to_end (bank_config 1) bank_device r sample_bank c sample_bus
    (holding (take 5 sample_frame) 4999000) server_line (Some (5, 0)) (Some (5, 1000000))
    [Some (5, 2000000)] (drop 5 sample_frame ++ [7]) [7] []); try (by vm_compute).
  - split; [by left|]. split; [by vm_compute|]. split; by vm_compute.
  - apply (bool_decide_unpack _); by vm_compute.
  - by left.
  - apply holding_inv; [apply (bool_decide_unpack _); by vm_compute | by vm_compute; lia].
  - apply List.Forall_cons; [apply (bool_decide_unpack _); by vm_compute|].
    apply List.Forall_cons; [exact I | apply List.Forall_nil].
  - split; [apply Forall_replicate; reflexivity | by vm_compute].
Defined.
