(* ===== verification/Log.v ===== *)
(** * Log messages

    A log call hands a level and a message to the application's sink; here a
    message is the text its format denotes ([log_line]).  The conversions of the
    formats that the RTU client uses, the text it makes of a frame with snprintf
    in a fixed array ([format_hex_string]), and the sinks of the four example
    programs.  [dump] says what the text of a frame is, [read_dump] reads it
    back. *)

From Stdlib Require Import Ascii String.
From stdpp Require Import pretty strings list.
From S2P Require Import Prelude Buffer Defines Bits Pdu PduSpec Ptr.

Definition MB_RTU_LOG_DEBUG : Z := 0.
Definition MB_RTU_LOG_INFO : Z := 1.
Definition MB_RTU_LOG_WARN : Z := 2.
Definition MB_RTU_LOG_ERROR : Z := 3.

Definition MB_TCP_LOG_DEBUG : Z := 0.
Definition MB_TCP_LOG_INFO : Z := 1.
Definition MB_TCP_LOG_WARN : Z := 2.
Definition MB_TCP_LOG_ERROR : Z := 3.

Abbreviation log_line := (Z * string)%type.

(** ** Conversions *)

Definition hex_digits : list ascii := list_ascii_of_string "0123456789ABCDEF".
Definition hex_digit (d : Z) : ascii := default "0"%char (hex_digits !! Z.to_nat d).

(** [%02X] of a byte; [%u], [%d], [%zu]. *)
Definition fmt_02X (v : Z) : string := String (hex_digit (v / 16)) (String (hex_digit (v mod 16)) "").
Definition fmt_d (v : Z) : string := pretty v.

(** ** Strings in arrays *)

Definition codes (s : string) : list Z := map (fun a => Z.of_N (N_of_ascii a)) (list_ascii_of_string s).

(** [snprintf(p, size, ...)] with the text [s]: what fits, then NUL; the result
    is the length of the whole text. *)
Definition snprintf (size : Z) (s : string) : st (list Z) Z := fun p =>
  if size <=? 0 then Ok (Z.of_nat (String.length s), p) else
  let shown := take (Z.to_nat (size - 1)) (codes s) ++ [0] in
  if zlen shown <=? zlen p then Ok (Z.of_nat (String.length s), shown ++ drop (length shown) p) else Fail UB.

(** [%s]: the characters up to the NUL, which has to be there. *)
Fixpoint c_string (p : list Z) : outcome string :=
  match p with
  | [] => Fail UB
  | v :: p' => if v =? 0 then Ok "" else
      let? s := c_string p' in Ok (String (ascii_of_N (Z.to_N v)) s)
  end.

(** ** The text of a frame *)

Fixpoint format_hex_loop (fuel : nat) (buf : list Z) (len out_cap i pos : Z) : st (list Z) unit :=
  match fuel with
  | O => stop NoFuel
  | S fuel' =>
      if (i <? len) && (pos + 3 <? out_cap) then
        let! v := lift (load buf i) in
        let! n := at_off pos (snprintf (out_cap - pos) (fmt_02X v +:+ (if i + 1 <? len then " " else ""))) in
        if n <? 0 then ret tt else format_hex_loop fuel' buf len out_cap (i + 1) (pos + n)
      else ret tt
  end.

(** [len] rounds and the test that ends the loop. *)
Definition format_hex_string (buf : list Z) (len out_cap : Z) : st (option (list Z)) unit := fun out =>
  if is_null out || (out_cap =? 0) then Ok (tt, out) else
  deref (store 0 0 ;;; format_hex_loop (S (Z.to_nat len)) buf len out_cap 0 0) out.

(** ** The sinks of the examples: what they print on stderr *)

Definition newline : string := String (ascii_of_N 10) "".

Module Rtu.
Definition level_tag (level : Z) : outcome string :=
  match ["DEBUG"; "INFO "; "WARN "; "ERROR"]%string !! Z.to_nat level with
  | Some tag => if 0 <=? level then Ok tag else Fail UB
  | None => Fail UB
  end.

Definition client_log (l : log_line) : outcome string :=
  let? tag := level_tag (fst l) in Ok ("[RTU-CLIENT][" +:+ tag +:+ "] " +:+ snd l +:+ newline)%string.

Definition server_log (l : log_line) : outcome string :=
  let? tag := level_tag (fst l) in Ok ("[RTU-SERVER][" +:+ tag +:+ "] " +:+ snd l +:+ newline)%string.
End Rtu.

(** [time_buf]: the time of day as localtime_r and strftime give it. *)
Module Tcp.
Record client_log_ctx_t := ClientLogCtx { device_name : string; client_min_level : Z }.
Record server_log_ctx_t := ServerLogCtx { node_name : string; server_min_level : Z }.

Definition client_log (ctx : client_log_ctx_t) (time_buf : string) (l : log_line) : outcome string :=
  if fst l <? client_min_level ctx then Ok "" else
  let? tag := Rtu.level_tag (fst l) in
  Ok ("[" +:+ time_buf +:+ "][" +:+ device_name ctx +:+ "][" +:+ tag +:+ "] " +:+ snd l +:+ newline)%string.

Definition server_log (ctx : server_log_ctx_t) (time_buf : string) (l : log_line) : outcome string :=
  if fst l <? server_min_level ctx then Ok "" else
  let? tag := Rtu.level_tag (fst l) in
  Ok ("[" +:+ time_buf +:+ "][" +:+ node_name ctx +:+ "][" +:+ tag +:+ "] " +:+ snd l +:+ newline)%string.
End Tcp.

(** ** What the text of a frame is *)

(** The first [room] bytes, two digits each, with a blank after every byte that
    is not the frame's last. *)
Fixpoint dump (room : nat) (bs : list Z) : string :=
  match room, bs with
  | S room', b :: bs' =>
      fmt_02X b +:+ (match bs' with [] => "" | _ => " " end) +:+ dump room' bs'
  | _, _ => ""
  end.

Definition hex_text (bs : list Z) : string := dump (length bs) bs.

(** Reading it: pairs of digits, blanks between them. *)
Definition digit_value (a : ascii) : option Z :=
  match list_find (eq a) hex_digits with
  | Some (i, _) => Some (Z.of_nat i)
  | None => None
  end.

Fixpoint read_dump (s : string) : option (list Z) :=
  match s with
  | "" => Some []
  | String h (String l s') =>
      match digit_value h, digit_value l with
      | Some a, Some b =>
          option_map (cons (a * 16 + b))
            (match s' with String " " s'' => read_dump s'' | _ => read_dump s' end)
      | _, _ => None
      end
  | _ => None
  end%string.

(** ** Lemmas *)

Definition no_nul (s : string) : Prop := Forall (fun a => N_of_ascii a <> 0%N) (list_ascii_of_string s).

#[global] Instance no_nul_dec s : Decision (no_nul s).
Proof. unfold no_nul. apply _. Defined.

Lemma list_ascii_app s t : list_ascii_of_string (s +:+ t) = list_ascii_of_string s ++ list_ascii_of_string t.
Proof. induction s as [|a s IH]; [done|]. simpl. by rewrite IH. Qed.

Lemma codes_app s t : codes (s +:+ t) = codes s ++ codes t.
Proof. unfold codes. by rewrite list_ascii_app, map_app. Qed.

Lemma codes_length s : length (codes s) = String.length s.
Proof. unfold codes. rewrite length_map. induction s as [|a s IH]; [done|]. simpl. by rewrite IH. Qed.

Lemma no_nul_app s t : no_nul s -> no_nul t -> no_nul (s +:+ t).
Proof. unfold no_nul. rewrite list_ascii_app. by intros; apply Forall_app_2. Qed.

Lemma c_string_codes s rest : no_nul s -> c_string (codes s ++ 0 :: rest) = Ok s.
Proof.
  unfold no_nul, codes. induction s as [|a s IH]; [done|]. simpl. intros [Ha Hs]%Forall_cons_iff.
  rewrite (proj2 (Z.eqb_neq _ _)) by lia. rewrite IH by done. simpl. by rewrite N2Z.id, ascii_N_embedding.
Qed.

Lemma snprintf_fits s size p :
  Z.of_nat (String.length s) < size -> size <= zlen p ->
  exists rest, snprintf size s p = Ok (Z.of_nat (String.length s), codes s ++ 0 :: rest) /\
    length (codes s ++ 0 :: rest) = length p.
Proof.
  intros Hs Hp. pose proof (codes_length s) as Hc. unfold snprintf. rewrite (proj2 (Z.leb_gt _ _)) by lia.
  rewrite take_ge by lia. rewrite (proj2 (Z.leb_le _ _)) by zlength.
  eexists. rewrite <- app_assoc. split; [done|]. zlength.
Qed.

Lemma dump_cons room b bs :
  dump (S room) (b :: bs) = fmt_02X b +:+ (match bs with [] => "" | _ => " " end) +:+ dump room bs.
Proof. done. Qed.

Lemma dump_nil room : dump room [] = "".
Proof. by destruct room. Qed.

Lemma string_app_assoc (s t u : string) : (s +:+ t) +:+ u = s +:+ (t +:+ u).
Proof. induction s as [|a s IH]; [done|]. exact (f_equal (String a) IH). Qed.

Lemma string_app_nil (s : string) : s +:+ "" = s.
Proof. induction s as [|a s IH]; [done|]. exact (f_equal (String a) IH). Qed.

(** [snprintf] at the NUL of a text appends to it. *)
Lemma snprintf_appends s pre rest cap :
  zlen (codes pre ++ 0 :: rest) = cap -> zlen (codes pre) + Z.of_nat (String.length s) < cap ->
  exists rest', at_off (zlen (codes pre)) (snprintf (cap - zlen (codes pre)) s) (codes pre ++ 0 :: rest)
    = Ok (Z.of_nat (String.length s), codes (pre +:+ s) ++ 0 :: rest') /\
    zlen (codes (pre +:+ s) ++ 0 :: rest') = cap.
Proof.
  intros Hcap Hs. pose proof Hcap as Hcap'. rewrite length_app in Hcap'.
  destruct (snprintf_fits s (cap - zlen (codes pre)) (0 :: rest)) as (rest' & Hsn & Hl); [lia..|].
  exists rest'. unfold at_off. zbool. rewrite Nat2Z.id, drop_app_length, take_app_length, Hsn.
  rewrite codes_app, <- app_assoc. split; [done|]. by rewrite length_app, Hl, <- length_app.
Qed.

(** One round writes one byte of the frame and the NUL behind it. *)
Lemma format_hex_loop_run bs fuel buf len cap i pos pre rest :
  bs = drop (Z.to_nat i) (take (Z.to_nat len) buf) -> len <= zlen buf -> 0 <= i ->
  (bs <> [] -> pos = 3 * i) -> pos = zlen (codes pre) -> zlen (codes pre ++ 0 :: rest) = cap ->
  (length bs < fuel)%nat ->
  exists rest', format_hex_loop fuel buf len cap i pos (codes pre ++ 0 :: rest)
    = Ok (tt, codes (pre +:+ dump (Z.to_nat ((cap - 1) / 3 - i)) bs) ++ 0 :: rest') /\
    zlen (codes (pre +:+ dump (Z.to_nat ((cap - 1) / 3 - i)) bs) ++ 0 :: rest') = cap.
Proof.
  revert fuel i pos pre rest. induction bs as [|b bs IH]; intros [|fuel] i pos pre rest Hbs Hl Hi Hp Hpos Hcap Hf;
    simpl length in Hf; try lia.
  { exists rest. rewrite dump_nil. cbn [format_hex_loop].
    assert (len <= i) by (apply (f_equal length) in Hbs; rewrite length_drop, length_take in Hbs; simpl in Hbs; lia).
    rewrite (proj2 (Z.ltb_ge _ _)) by lia. cbn [andb]. by rewrite string_app_nil. }
  specialize (Hp ltac:(done)). cbn [format_hex_loop].
  assert (length (b :: bs) = (Z.to_nat len - Z.to_nat i)%nat) as Hlen
    by (rewrite Hbs, length_drop, length_take; lia). simpl in Hlen.
  rewrite (proj2 (Z.ltb_lt i len)) by lia. cbn [andb].
  destruct (Z.ltb_spec (pos + 3) cap) as [Hroom|Hroom].
  2:{ exists rest. replace (Z.to_nat ((cap - 1) / 3 - i)) with 0%nat by (Z.div_mod_to_equations; lia).
      cbn [dump]. by rewrite string_app_nil. }
  assert (buf !! Z.to_nat i = Some b) as Hb.
  { rewrite <- (lookup_take_lt buf (Z.to_nat len)) by lia.
    replace (Z.to_nat i) with (Z.to_nat i + 0)%nat by lia. by rewrite <- lookup_drop, <- Hbs. }
  erewrite bind_ok by (apply lift_ok; unfold load; rewrite (proj2 (Z.leb_le _ _)), Hb by lia; done).
  set (text := fmt_02X b +:+ (if i + 1 <? len then " " else "")).
  assert (text = fmt_02X b +:+ match bs with [] => "" | _ => " " end) as Htext.
  { unfold text. destruct bs; simpl in Hlen; [rewrite (proj2 (Z.ltb_ge _ _)) by lia | rewrite (proj2 (Z.ltb_lt _ _)) by lia]; done. }
  assert (Z.of_nat (String.length text) = if decide (bs = []) then 2 else 3) as Htl
    by (rewrite Htext; by destruct bs).
  destruct (snprintf_appends text pre rest cap Hcap) as (rest1 & Hsn & Hl1);
    [rewrite Htl; case_decide; lia|].
  rewrite <- Hpos in Hsn. erewrite bind_ok by exact Hsn. rewrite (proj2 (Z.ltb_ge _ _)) by lia.
  destruct (IH fuel (i + 1) (pos + Z.of_nat (String.length text)) (pre +:+ text) rest1) as (rest' & Hrun & Hlen').
  - replace (Z.to_nat (i + 1)) with (Z.to_nat i + 1)%nat by lia. by rewrite <- drop_drop, <- Hbs.
  - done.
  - lia.
  - intros Hne. rewrite Htl, decide_False by done. lia.
  - rewrite codes_app, length_app, (codes_length text). lia.
  - done.
  - lia.
  - exists rest'. replace (Z.to_nat ((cap - 1) / 3 - i)) with (S (Z.to_nat ((cap - 1) / 3 - (i + 1))))
      by (Z.div_mod_to_equations; lia).
    replace (pre +:+ dump (S (Z.to_nat ((cap - 1) / 3 - (i + 1)))) (b :: bs))
      with ((pre +:+ text) +:+ dump (Z.to_nat ((cap - 1) / 3 - (i + 1))) bs)
      by (by rewrite dump_cons, Htext, !string_app_assoc).
    by rewrite Hrun.
Qed.

Lemma no_nul_dump room bs : no_nul (dump room bs).
Proof.
  revert bs. induction room as [|room IH]; intros [|b bs]; try by constructor. rewrite dump_cons.
  assert (forall d, N_of_ascii (hex_digit d) <> 0%N) as Hd.
  { intros d. unfold hex_digit. destruct (hex_digits !! Z.to_nat d) as [a|] eqn:E; [|done].
    apply list_elem_of_lookup_2 in E. revert a E. apply Forall_forall, (bool_decide_unpack _). by vm_compute. }
  apply no_nul_app; [repeat constructor; apply Hd|]. apply no_nul_app; [|apply IH]. by destruct bs; repeat constructor.
Qed.

(** The whole function: the array holds the dump, and the string in it is the
    dump. *)
Lemma format_hex_string_run buf len out :
  0 <= len <= zlen buf -> 0 < zlen out ->
  exists out', format_hex_string buf len (zlen out) (Some out) = Ok (tt, Some out') /\
    length out' = length out /\
    c_string out' = Ok (dump (Z.to_nat ((zlen out - 1) / 3)) (take (Z.to_nat len) buf)).
Proof.
  intros Hlen Hout. unfold format_hex_string. cbn [is_null orb]. rewrite (proj2 (Z.eqb_neq _ _)) by lia.
  destruct out as [|v out]; [simpl in Hout; lia|].
  destruct (format_hex_loop_run (take (Z.to_nat len) buf) (S (Z.to_nat len)) buf len (zlen (v :: out)) 0 0 ""
    out) as (rest & Hrun & Hl); [by rewrite drop_0 | lia | lia | lia | done | done | rewrite length_take; lia |].
  rewrite Z.sub_0_r in *. eexists. split.
  - apply deref_ok. erewrite bind_ok by (apply store_ok; simpl; lia). exact Hrun.
  - split; [lia|]. apply c_string_codes, no_nul_dump.
Qed.

Lemma hex_digit_value d : 0 <= d < 16 -> digit_value (hex_digit d) = Some d.
Proof.
  intros Hd. assert (Forall (fun d => digit_value (hex_digit d) = Some d) (seqZ 0 16)) as H
    by (apply (bool_decide_unpack _); by vm_compute).
  rewrite Forall_forall in H. apply H, elem_of_seqZ. lia.
Qed.

Lemma read_dump_byte v s :
  is_u8 v -> read_dump (String (hex_digit (v / 16)) (String (hex_digit (v mod 16)) (String " " s)))
  = option_map (cons v) (read_dump s).
Proof.
  unfold is_u8. change (2 ^ 8) with 256. intros Hv. cbn [read_dump].
  rewrite !hex_digit_value by (Z.div_mod_to_equations; lia).
  by replace (v / 16 * 16 + v mod 16) with v by (Z.div_mod_to_equations; lia).
Qed.

Lemma read_dump_last v :
  is_u8 v -> read_dump (String (hex_digit (v / 16)) (String (hex_digit (v mod 16)) "")) = Some [v].
Proof.
  unfold is_u8. change (2 ^ 8) with 256. intros Hv. cbn [read_dump].
  rewrite !hex_digit_value by (Z.div_mod_to_equations; lia).
  by replace (v / 16 * 16 + v mod 16) with v by (Z.div_mod_to_equations; lia).
Qed.

(** Reading a dump gives back the bytes that it has room for. *)
Lemma read_dump_dump room bs : bytes bs -> read_dump (dump room bs) = Some (take room bs).
Proof.
  revert bs. induction room as [|room IH]; intros [|b bs] Hb; try done.
  apply Forall_cons_iff in Hb as [Hb Hbs]. rewrite dump_cons. destruct bs as [|b' bs].
  - rewrite dump_nil. by etransitivity; [apply (read_dump_last b Hb)|]; destruct room.
  - etransitivity; [apply (read_dump_byte b _ Hb)|]. by rewrite IH.
Qed.

Lemma dump_room room bs : (length bs <= room)%nat -> dump room bs = hex_text bs.
Proof.
  unfold hex_text. revert room. induction bs as [|b bs IH]; intros [|room] Hl; simpl in Hl; try lia; try done.
  cbn [length]. rewrite !dump_cons. by rewrite IH by lia.
Qed.
