(* ===== verification/RtuClientLog.v ===== *)
(** * What a transaction of the RTU client logs

    [transact] of [src/modbus_rtu_client.c] once more, with its log calls: the
    lines it hands to the sink of its context are part of the result.  The
    first theorem of the file: without the lines it is [RtuClient.transact], it
    stays inside the arrays in which it formats frames, and the lines say what
    happened ([told]). *)

From Stdlib Require Import Ascii String.
From stdpp Require Import strings list.
From S2P Require Import Prelude Buffer Defines Bits Pdu PduSpec PduClient PduReplies Ptr Rtu Crc RtuFrames Sys TcpServer TcpServerSpec RtuClient RtuClientSpec RtuClientTransact RtuClientCalls RtuClientTheorems Log.

Section Logged.
Context {I : Indet}.

(** Whether there is a sink, [cfg.logv]. *)
Context (sink : bool).

Definition cli_logv (level : Z) (text : string) : list log_line :=
  if sink then [(level, text)] else [].

Definition log_transaction_failure (err unit_id : Z) (req : list Z) (req_len : Z) (resp : list Z)
    (resp_len : Z) : outcome (list log_line) :=
  let size := MODBUS_RTU_MAX_ADU_LENGTH * 3 in
  let? tx := format_hex_string req req_len size (Some (auto_u8 size)) in
  let? rx := format_hex_string resp resp_len size (Some (auto_u8 size)) in
  let? tx_hex := obind (fun_ptr (snd tx)) c_string in
  let? rx_hex := obind (fun_ptr (snd rx)) c_string in
  Ok (cli_logv MB_RTU_LOG_WARN
    ("uid=" +:+ fmt_d unit_id +:+ " transaction failed (err=" +:+ fmt_d err +:+ "): tx["
     +:+ fmt_d req_len +:+ "]={" +:+ tx_hex +:+ "} rx[" +:+ fmt_d resp_len +:+ "]={" +:+ rx_hex +:+ "}")%string).

Abbreviation logged := ((Z * list Z) * list log_line)%type.

Definition conclude_logged (c : mb_rtu_client_ctx) (fc : Z) (pdu req : list Z) (req_len : Z)
    (resp : list Z) (rc resp_len : Z) : st (world * mb_rtu_shared_bus) logged :=
  let unit_id := cli_unit_id (cli_cfg c) in
  if negb (rc =? 0) then
    let rc := io_err_to_client_err rc in
    let! lines := lift (log_transaction_failure rc unit_id req req_len resp resp_len) in
    ret ((rc, resp), lines)
  else
  let! rc := lift (mb_pdu_check_response pdu (padd resp RtuClient.RTU_OFFSET_PDU)
                     (resp_len - RtuClient.RTU_OFFSET_PDU - MODBUS_RTU_CRC_LEN)) in
  if rc =? MB_PDU_ERR_FRAME then
    let! lines := lift (log_transaction_failure MB_RTU_CLIENT_ERR_FRAME unit_id req req_len resp resp_len) in
    ret ((MB_RTU_CLIENT_ERR_FRAME, resp), lines)
  else ret ((rc, resp), if 0 <? rc then
    cli_logv MB_RTU_LOG_WARN ("FC" +:+ fmt_02X fc +:+ " exception code " +:+ fmt_d rc) else []).

Definition bus_transaction_logged (c : mb_rtu_client_ctx) (fc : Z) (pdu req : list Z) (req_len : Z)
    (resp : list Z) : st (world * mb_rtu_shared_bus) logged :=
  let unit_id := cli_unit_id (cli_cfg c) in
  bus_transaction_begin c ;;;
  on_fst (act Flushed) ;;;
  let! rc := on_fst (RtuClient.send_frame c req req_len) in
  if negb (rc =? 0) then
    bus_transaction_end c ;;;
    ret ((MB_RTU_CLIENT_ERR_TRANSPORT, resp),
         cli_logv MB_RTU_LOG_ERROR ("FC" +:+ fmt_02X fc +:+ " send failed"))
  else
  let! echoed := if negb (cli_local_echo (cli_cfg c) =? 0) then check_echo c req req_len
                 else ret true in
  if negb echoed then
    bus_transaction_end c ;;;
    ret ((MB_RTU_CLIENT_ERR_TRANSPORT, resp),
         cli_logv MB_RTU_LOG_ERROR ("FC" +:+ fmt_02X fc +:+ " local echo missing or corrupted"))
  else
  if unit_id =? MODBUS_RTU_BROADCAST_ADDRESS then
    bus_transaction_end c ;;; ret ((MB_RTU_CLIENT_OK, resp), []) else
  let! '(_, b) := get in
  let! '((rc, resp_len), resp) := with_buf resp (RtuClient.recv_response c b unit_id fc) in
  bus_transaction_end c ;;;
  conclude_logged c fc pdu req req_len resp rc resp_len.

Definition transact_logged (c : mb_rtu_client_ctx) (pdu : list Z) (pdu_len : Z) (resp : list Z)
    : st (world * option mb_rtu_shared_bus) logged :=
  let! fc := lift (load pdu 0) in
  if cli_initialized c =? 0 then ret ((MB_RTU_CLIENT_ERR_NOT_CONNECTED, resp), []) else
  let unit_id := cli_unit_id (cli_cfg c) in
  if (unit_id =? MODBUS_RTU_BROADCAST_ADDRESS) && negb (mb_pdu_is_write fc)
  then ret ((MB_RTU_CLIENT_ERR_ARG, resp), []) else
  let! '(_, req) := lift
    ((store RtuClient.RTU_OFFSET_UNIT_ID unit_id ;;; at_off RtuClient.RTU_OFFSET_PDU (memcpy pdu pdu_len))
       (auto_u8 MODBUS_RTU_MAX_ADU_LENGTH)) in
  let req_len := RtuClient.RTU_OFFSET_PDU + pdu_len in
  let! '(_, req) := lift (mb_rtu_append_crc req_len MODBUS_RTU_MAX_ADU_LENGTH (Some req)) in
  let! req := lift (fun_ptr req) in
  let req_len := req_len + MODBUS_RTU_CRC_LEN in
  on_bus (bus_transaction_logged c fc pdu req req_len resp).

(** ** What the lines say *)

(** The line about the request [r] whose answer, of which [got] was received,
    was not accepted: the whole request, and what of the answer was counted
    ([noted]), as far as the array has room. *)
Definition failure_text (c : mb_rtu_client_ctx) (r : request) (err : Z) (got : list Z) : string :=
  let frame := request_frame c r in
  let n := noted (request_fc r) got in
  ("uid=" +:+ fmt_d (cli_unit_id (cli_cfg c)) +:+ " transaction failed (err=" +:+ fmt_d err +:+ "): tx["
   +:+ fmt_d (zlen frame) +:+ "]={" +:+ hex_text frame +:+ "} rx[" +:+ fmt_d n +:+ "]={"
   +:+ dump 255 (take (Z.to_nat n) got) +:+ "}")%string.

(** The lines of a transaction that received [got] and ended with [rc]. *)
Definition answer_lines (c : mb_rtu_client_ctx) (r : request) (rc : Z) (got : list Z) : list log_line :=
  if rc =? 0 then []
  else if 0 <? rc then cli_logv MB_RTU_LOG_WARN ("FC" +:+ fmt_02X (request_fc r) +:+ " exception code " +:+ fmt_d rc)
  else cli_logv MB_RTU_LOG_WARN (failure_text c r rc got).

(** The line takes the whole frame and drains. *)
Definition goes_out (c : mb_rtu_client_ctx) (r : request) (w : world) : Prop :=
  accepts on_signal (tx w) (zlen (request_frame c r)) = Some true /\ exists l, drains w = 0 :: l.

(** [told c r w rc w' lines]: the lines of the call of [r] from [w] to [w'] that
    returned [rc], by what happened. *)
Inductive told (c : mb_rtu_client_ctx) (r : request) (w : world) : Z -> world -> list log_line -> Prop :=
  | told_unconnected : cli_initialized c = 0 -> told c r w MB_RTU_CLIENT_ERR_NOT_CONNECTED w []
  | told_refused :
      cli_unit_id (cli_cfg c) = MODBUS_RTU_BROADCAST_ADDRESS -> is_read r = true -> told c r w MB_RTU_CLIENT_ERR_ARG w []
  | told_unsent w' : ~ goes_out c r w ->
      told c r w MB_RTU_CLIENT_ERR_TRANSPORT w'
        (cli_logv MB_RTU_LOG_ERROR ("FC" +:+ fmt_02X (request_fc r) +:+ " send failed"))
  | told_no_echo heard w' :
      goes_out c r w -> cli_local_echo (cli_cfg c) <> 0 ->
      incoming (rx w) = heard ++ incoming (rx w') -> heard <> request_frame c r ->
      (length heard <= length (request_frame c r))%nat ->
      told c r w MB_RTU_CLIENT_ERR_TRANSPORT w'
        (cli_logv MB_RTU_LOG_ERROR ("FC" +:+ fmt_02X (request_fc r) +:+ " local echo missing or corrupted"))
  | told_broadcast w' :
      goes_out c r w -> cli_unit_id (cli_cfg c) = MODBUS_RTU_BROADCAST_ADDRESS ->
      incoming (rx w) = echo c r ++ incoming (rx w') -> told c r w MB_RTU_CLIENT_OK w' []
  | told_answer got io w' :
      goes_out c r w -> cli_unit_id (cli_cfg c) <> MODBUS_RTU_BROADCAST_ADDRESS ->
      incoming (rx w) = echo c r ++ got ++ incoming (rx w') ->
      received (request_fc r) (cli_unit_id (cli_cfg c)) got io ->
      told c r w (client_code r (Received got io)) w' (answer_lines c r (client_code r (Received got io)) got).

Definition follows {X} (c : mb_rtu_client_ctx) (r : request) (w : world) (plain : outcome ((Z * list Z) * (world * X)))
    (o : outcome (logged * (world * X))) : Prop :=
  match plain, o with
  | Ok (a, s), Ok ((a', lines), s') => a' = a /\ s' = s /\ told c r w (fst a) (fst s) lines
  | Fail e, Fail e' => e' = e
  | _, _ => False
  end.

Lemma follows_bind {X A} c r w (m : st (world * X) A) k k' s :
  (forall a s', m s = Ok (a, s') -> follows c r w (k a s') (k' a s')) ->
  follows c r w (bind m k s) (bind m k' s).
Proof. unfold bind. destruct (m s) as [[a s']|e]; [|done]. intros H. by apply H. Qed.

Lemma failure_line c r err resp got more :
  sendable r -> got `prefix_of` resp ->
  log_transaction_failure err (cli_unit_id (cli_cfg c)) (request_frame c r ++ more)
    (zlen (request_frame c r)) resp (noted (request_fc r) got)
  = Ok (cli_logv MB_RTU_LOG_WARN (failure_text c r err got)).
Proof.
  intros Hr [tl ->]. pose proof (noted_range (request_fc r) got) as Hn. unfold log_transaction_failure, failure_text.
  set (n := noted (request_fc r) got) in *. assert (take (Z.to_nat n) got = take (Z.to_nat n) (got ++ tl)) as ->
    by (rewrite take_app_le; [done | lia]).
  pose proof (auto_u8_length (MODBUS_RTU_MAX_ADU_LENGTH * 3)) as Hal.
  change (MODBUS_RTU_MAX_ADU_LENGTH * 3) with 768 in *. set (out := auto_u8 768) in *.
  assert (zlen out = 768) as Ho by lia. clearbody out. rewrite <- Ho.
  pose proof (encode_request_bound r Hr) as Hlen.
  destruct (format_hex_string_run (request_frame c r ++ more) (zlen (request_frame c r)) out)
    as (tx & -> & _ & Htx); [rewrite length_app; lia | lia |].
  destruct (format_hex_string_run (got ++ tl) n out) as (rx & -> & _ & Hrx); [rewrite ?length_app; lia..|].
  cbn [obind snd fun_ptr]. rewrite Htx, Hrx, Ho. cbn [obind].
  change (Z.to_nat ((768 - 1) / 3)) with 255%nat. rewrite Nat2Z.id, take_app_length.
  pose proof (adu_length (cli_unit_id (cli_cfg c)) (encode_request r)) as Hfl. fold (request_frame c r) in Hfl.
  by rewrite (dump_room 255) by lia.
Qed.

Lemma io_err_range io : io <> 0 -> io_err_to_client_err io < -1.
Proof. intros. unfold io_err_to_client_err. repeat case_match; vm_compute; done. Qed.

Lemma verdict_range r bs : bytes bs -> verdict r bs = MB_PDU_ERR_FRAME \/ 0 <= verdict r bs <= 255.
Proof.
  intros Hb. unfold verdict. destruct (normal_reply r bs); [by right|].
  destruct bs as [|b0 [|code [|]]]; try by left. destruct (_ && _); [|by left]. right.
  apply Forall_cons_iff in Hb as [_ [Hc _]%Forall_cons_iff]. unfold is_u8 in Hc. lia.
Qed.

(** The verdict on the bytes [got]. *)
Lemma conclude_lines c r j more got resp io (s : world * mb_rtu_shared_bus) :
  sendable r -> bytes got -> got `prefix_of` resp ->
  received (request_fc r) (cli_unit_id (cli_cfg c)) got io ->
  let code := client_code r (Received got io) in
  conclude_logged c (request_fc r) (encode_request r ++ j) (request_frame c r ++ more)
    (zlen (request_frame c r)) resp io (noted (request_fc r) got) s = Ok (((code, resp), answer_lines c r code got), s).
Proof.
  intros Hr Hb Hp Hrec. cbv zeta. unfold conclude_logged, client_code, answer_lines.
  destruct (Z.eqb_spec io 0) as [->|Hne]; cbn [negb].
  2:{ erewrite (bind_ok _ _ s) by (apply lift_ok; by apply failure_line). pose proof (io_err_range io Hne). unfold ret. by zbool. }
  pose proof (received_noted _ _ _ Hrec Hb) as ->.
  erewrite (bind_ok _ _ s) by (apply lift_ok; by eapply response_verdict).
  assert (bytes (pdu_of got)) as Hpb by (unfold pdu_of; by apply Forall_take, Forall_drop).
  destruct (Z.eqb_spec (verdict r (pdu_of got)) MB_PDU_ERR_FRAME) as [Hv|Hv].
  - rewrite <- (received_noted _ _ _ Hrec Hb). by erewrite (bind_ok _ _ s) by (apply lift_ok; by apply failure_line).
  - destruct (verdict_range r _ Hpb) as [|Hrange]; [done|]. unfold ret.
    destruct (Z.eqb_spec (verdict r (pdu_of got)) 0) as [->|]; [done|]. by zbool.
Qed.

(** Up to the response the two run the same steps. *)
Lemma begin_keeps c w b u w0 b0 :
  client_ok c -> bus_ok b -> sane_clock (clock w) ->
  bus_transaction_begin c (w, b) = Ok (u, (w0, b0)) -> rx w0 = rx w /\ tx w0 = tx w /\ drains w0 = drains w /\ b0 = b.
Proof.
  intros Hc Hb Hclk. unfold bus_transaction_begin. erewrite bind_ok by done. cbv beta iota. unfold on_fst.
  rewrite client_silence_run by done. destruct (pause _ _ _) as [[acts clk]|]; [|done].
  by intros [= <- <- <-].
Qed.

Lemma end_keeps c w b u w' b' : bus_transaction_end c (w, b) = Ok (u, (w', b')) -> rx w' = rx w.
Proof.
  unfold bus_transaction_end, mark_bus_transaction_done, bind, get, on_fst, on_snd, sys_clock, pop, ret, put.
  destruct (clock w); [done|]. by intros [= <- <- <-].
Qed.

(** Whether the request goes out is up to the line. *)
Lemma send_code c r more w rc w' :
  RtuClient.send_frame c (request_frame c r ++ more) (zlen (request_frame c r)) w = Ok (rc, w') ->
  (rc = 0 <-> goes_out c r w).
Proof.
  unfold RtuClient.send_frame, goes_out. erewrite bind_ok by apply client_tx_enable_run.
  set (w1 := after w _ _). pose proof (client_write_all_run (request_frame c r) more w1) as Hw. unfold write_result in Hw.
  change (tx w1) with (tx w) in Hw. change (drains w1) with (drains w) in Hw.
  destruct (accepts on_signal (tx w) _) as [[]|].
  - destruct (drains w) as [|d l]; [by erewrite bind_fail by exact Hw|]. destruct Hw as (w2 & _ & Hrun).
    erewrite bind_ok by exact Hrun. erewrite bind_ok by apply client_tx_enable_run. intros [= <- _].
    destruct (Z.eqb_spec d 0) as [->|]; split; [by eauto | done | done | by intros (_ & l' & [= -> _])].
  - destruct Hw as (w2 & out & Hrun & _). erewrite bind_ok by exact Hrun. erewrite bind_ok by apply client_tx_enable_run.
    intros [= <- _]. by split; [|intros [? _]].
  - by erewrite bind_fail by exact Hw.
Qed.

(** The response. *)
Lemma response_follows c r j w w2 b more resp :
  sendable r -> zlen resp = 256 -> bytes resp -> bus_ok b -> rx_bytes (rx w2) ->
  goes_out c r w -> cli_unit_id (cli_cfg c) <> MODBUS_RTU_BROADCAST_ADDRESS ->
  incoming (rx w) = echo c r ++ incoming (rx w2) ->
  follows c r w
    ((let! '(_, b) := get in
      let! '((rc, resp_len), resp) := with_buf resp (RtuClient.recv_response c b (cli_unit_id (cli_cfg c)) (request_fc r)) in
      bus_transaction_end c ;;;
      conclude (encode_request r ++ j) resp rc resp_len) (w2, b))
    ((let! '(_, b) := get in
      let! '((rc, resp_len), resp) := with_buf resp (RtuClient.recv_response c b (cli_unit_id (cli_cfg c)) (request_fc r)) in
      bus_transaction_end c ;;;
      conclude_logged c (request_fc r) (encode_request r ++ j) (request_frame c r ++ more)
        (zlen (request_frame c r)) resp rc resp_len) (w2, b)).
Proof.
  intros Hr Hl Hrb Hbus Hb2 Hout Hne Hin. apply follows_bind. intros [? ?] s4 [= <- <- <-].
  apply follows_bind. intros [[rc n] resp'] [w5 b5] H5. unfold with_buf in H5.
  pose proof (rtu_recv_response_run c b (cli_unit_id (cli_cfg c)) (request_fc r) resp w2 Hl Hrb Hb2
    (request_fc_bound r Hr) ltac:(apply Hbus)) as Hrun.
  destruct (RtuClient.recv_response _ _ _ _ _) as [[[io k] [p w5']]|]; [|done]. injection H5 as <- <- <- <- <-.
  destruct Hrun as (Hp & _ & got & [tl Hpre] & Hrec & Hin2 & Hgp & ->).
  assert (bytes got) as Hgb by (apply stream_bytes in Hb2; rewrite Hpre in Hb2; by apply Forall_app in Hb2 as [? _]).
  assert (forall io, received (request_fc r) (cli_unit_id (cli_cfg c)) got io -> io = 0 ->
    noted (request_fc r) got = zlen got /\ got `prefix_of` p) as Hok
    by (intros ? Hrec' ->; split; [by eapply received_noted | done]). specialize (Hok _ Hrec).
  apply follows_bind. intros [] [w6 b6] H6%end_keeps.
  rewrite conclude_lines by done. rewrite (client_conclude_run r j (cli_unit_id (cli_cfg c)) got) by done.
  split; [done|]. split; [done|]. apply told_answer; [done | done | cbn [fst]; by rewrite Hin, Hin2, H6 | done].
Qed.

Lemma bus_transaction_follows c r j w b more resp :
  sendable r -> client_ok c -> bus_ok b -> sane_clock (clock w) -> rx_bytes (rx w) ->
  zlen resp = 256 -> bytes resp ->
  follows c r w
    (bus_transaction c (request_fc r) (encode_request r ++ j) (request_frame c r ++ more)
       (zlen (request_frame c r)) resp (w, b))
    (bus_transaction_logged c (request_fc r) (encode_request r ++ j) (request_frame c r ++ more)
       (zlen (request_frame c r)) resp (w, b)).
Proof.
  intros Hr Hc Hbus Hclk Hb Hl Hrb. unfold bus_transaction, bus_transaction_logged. cbv zeta.
  pose proof (encode_request_bound r Hr) as Hlen.
  pose proof (adu_length (cli_unit_id (cli_cfg c)) (encode_request r)) as Hfl. fold (request_frame c r) in Hfl.
  apply follows_bind. intros u [w0 b0] H0. destruct (begin_keeps c w b u w0 b0 Hc Hbus Hclk H0) as (Hrx0 & Htx0 & Hdr0 & ->).
  apply follows_bind. intros ? s1 H1. injection H1 as _ <-.
  apply follows_bind. intros rc [w2 b2] H2. unfold on_fst in H2.
  pose proof (client_send_frame_run c (request_frame c r) more (log Flushed w0)) as Hs.
  destruct (RtuClient.send_frame _ _ _ _) as [[rc' w2']|] eqn:Hsend; [|done]. injection H2 as <- <- <-.
  apply send_code in Hsend as Hout. unfold goes_out in Hout. cbn [tx drains log] in Hout. rewrite Htx0, Hdr0 in Hout.
  fold (goes_out c r w) in Hout. destruct Hs as (_ & out & (_ & Hrx2 & _) & _). cbn [rx log] in Hrx2. rewrite Hrx0 in Hrx2.
  assert (rx_bytes (rx w2')) as Hb2 by (by rewrite Hrx2).
  destruct (Z.eqb_spec rc' 0) as [Hrc|Hrc]; cbn [negb].
  2:{ apply follows_bind. intros [] s3 _. split_and!; [done..|]. apply told_unsent. tauto. }
  apply Hout in Hrc as Hgo. clear Hout Hsend.
  apply follows_bind. intros echoed [w3 b3] H3.
  assert (b3 = b /\ if echoed then rx_bytes (rx w3) /\ incoming (rx w) = echo c r ++ incoming (rx w3)
    else cli_local_echo (cli_cfg c) <> 0 /\ exists heard, incoming (rx w) = heard ++ incoming (rx w3) /\
      heard <> request_frame c r /\ (length heard <= length (request_frame c r))%nat) as [-> He].
  { unfold echo. rewrite <- Hrx2. destruct (Z.eqb_spec (cli_local_echo (cli_cfg c)) 0); cbn [negb] in H3; [by injection H3 as <- <- <-|].
    pose proof (check_echo_run c b r more w2' Hb2 ltac:(apply Hbus) ltac:(lia)) as He. rewrite H3 in He.
    destruct echoed; by destruct_and!. }
  destruct echoed; cbn [negb].
  2:{ apply follows_bind. intros [] [w4 b4] H4%end_keeps. destruct He as (Hcfg & heard & Hin & Hne & Hhl).
      split_and!; [done..|]. apply told_no_echo with heard; try done. cbn [fst]. by rewrite H4. }
  destruct He as [Hb3 Hin].
  destruct (Z.eqb_spec (cli_unit_id (cli_cfg c)) MODBUS_RTU_BROADCAST_ADDRESS).
  { apply follows_bind. intros [] [w4 b4] H4%end_keeps. split_and!; [done..|]. apply told_broadcast; [done | done | cbn [fst]; by rewrite H4]. }
  by apply response_follows.
Qed.

Lemma on_bus_follows c r m m' w b :
  follows c r w (m (w, b)) (m' (w, b)) -> follows c r w (on_bus m (w, Some b)) (on_bus m' (w, Some b)).
Proof.
  unfold follows, on_bus. destruct (m (w, b)) as [[? [w1 b1]]|], (m' (w, b)) as [[[? ?] [w2 b2]]|]; try done.
  by intros (-> & [= -> ->] & Ht).
Qed.

Lemma transact_follows c r j resp w b :
  sendable r -> client_ok c -> bus_ok b -> sane_clock (clock w) -> rx_bytes (rx w) ->
  zlen resp = 256 -> bytes resp ->
  follows c r w (transact c (encode_request r ++ j) (zlen (encode_request r)) resp (w, Some b))
    (transact_logged c (encode_request r ++ j) (zlen (encode_request r)) resp (w, Some b)).
Proof.
  intros Hr Hc Hbus Hclk Hb Hl Hrb. unfold transact, transact_logged. cbv zeta.
  destruct (request_frame_built r j c Hr) as (req & more & n & Hfill & Hcrc & Hlen).
  apply follows_bind. intros fc s Hfc. destruct (encode_request_head r j) as (a & v & rest & Henc & _).
  rewrite Henc in Hfc. injection Hfc as <- <-.
  destruct (Z.eqb_spec (cli_initialized c) 0) as [Hi|_]; [split; [done|]; split; [done | by apply told_unconnected]|].
  destruct (_ && _) eqn:Hbad.
  { apply andb_true_iff in Hbad as [Hu%Z.eqb_eq Hw]. pose proof (request_is_write r Hr) as Hiw. rewrite Hiw, negb_involutive in Hw.
    split; [done|]. split; [done | by apply told_refused]. }
  rewrite Hlen. erewrite !(bind_ok _ _ (w, Some b)) by apply lift_ok, Hfill. cbv beta iota.
  erewrite !(bind_ok _ _ (w, Some b)) by apply lift_ok, Hcrc. cbv beta iota.
  erewrite !(bind_ok _ _ (w, Some b)) by done.
  by apply on_bus_follows, bus_transaction_follows.
Qed.
End Logged.

(** C34. What a transaction of the RTU client logs, for any bytes on the line:
    logging changes neither its result nor what it does to line and bus, and
    never leaves the arrays in which frames are formatted.  The lines are
    determined by what happened on the line.  Nothing is logged when the call is
    refused before the bus is touched, when a broadcast has gone out, and when a
    response is accepted.  Otherwise there is exactly one line: 'send failed' if,
    and only if, the line did not take the whole frame or did not drain; the text
    about the echo if the frame went out but what was read instead of its echo
    was not the frame; the code of an exception; and for a response that did not
    come or was not accepted the error code that is returned, the request in
    full, and of the bytes [got], which are exactly those taken off the line
    after the echo, the number that the program counts and that many bytes, of
    which the 256th has no room.  It counts whole parts only ([noted]: the first
    two bytes, the byte count, the rest), so of a response that stops half-way
    bytes that did arrive are missing in the line. *)
Theorem rtu_client_log `{Indet} sink c r j resp w b :
  sendable r -> client_ok c -> bus_ok b -> sane_clock (clock w) -> rx_bytes (rx w) ->
  zlen resp = 256 -> bytes resp ->
  match transact_logged sink c (encode_request r ++ j) (zlen (encode_request r)) resp (w, Some b) with
  | Fail e => e = Blocked /\
      transact c (encode_request r ++ j) (zlen (encode_request r)) resp (w, Some b) = Fail Blocked
  | Ok ((result, lines), s') =>
      transact c (encode_request r ++ j) (zlen (encode_request r)) resp (w, Some b) = Ok (result, s') /\
      told sink c r w (fst result) (fst s') lines
  end.
Proof.
  intros Hr Hc Hbus Hclk Hb Hl Hrb.
  pose proof (transact_follows sink c r j resp w b Hr Hc Hbus Hclk Hb Hl Hrb) as Hf.
  pose proof (rtu_transact_run r j resp c w b Hr Hc Hbus Hclk Hb Hl Hrb) as Hrun.
  destruct (transact _ _ _ _ _) as [[a s]|e], (transact_logged _ _ _ _ _ _) as [[[a' lines] s']|e'];
    cbn [follows] in Hf; try done.
  - by destruct Hf as (-> & -> & Ht).
  - by subst.
Qed.

#[local] Instance junk : Indet := fun i => 17 + 3 * Z.of_nat i.

(** A response whose check sequence is wrong. *)
Definition bad_line : world :=
  World [RxData [1; 3; 4; 3; 242; 3; 243; 0; 0]] (replicate 9 (TxTakes 4)) (ticks 16) (replicate 16 Ready) [0] [].

Lemma rtu_client_log_witness :
  let c := sample_client 1 0 in
  let resp := replicate 256 0 in
  match transact_logged true c (encode_request sample_request ++ [9]) (zlen (encode_request sample_request))
          resp (bad_line, Some sample_bus) with
  | Fail e => e = Blocked /\ transact c (encode_request sample_request ++ [9])
      (zlen (encode_request sample_request)) resp (bad_line, Some sample_bus) = Fail Blocked
  | Ok ((result, lines), s') =>
      transact c (encode_request sample_request ++ [9]) (zlen (encode_request sample_request)) resp
        (bad_line, Some sample_bus) = Ok (result, s') /\
      told true c sample_request bad_line (fst result) (fst s') lines
  end.
Proof.
  intros c resp. apply (rtu_client_log true c sample_request [9] resp bad_line sample_bus);
    [exact sample_sendable | split; by vm_compute | exact sample_bus_ok
    | apply ticks_sane; lia | | done | apply (bool_decide_unpack _); by vm_compute].
  repeat (apply List.Forall_cons; [apply (bool_decide_unpack _); by vm_compute|]). apply List.Forall_nil.
Defined.

(** The line of that transaction. *)
Example bad_response_line :
  match transact_logged true (sample_client 1 0) (encode_request sample_request ++ [9]) 5 (replicate 256 0)
          (bad_line, Some sample_bus) with
  | Ok ((result, lines), _) => fst result = MB_RTU_CLIENT_ERR_CRC /\
      lines = [(MB_RTU_LOG_WARN,
        "uid=1 transaction failed (err=-7): tx[8]={01 03 00 0A 00 02 E4 09} rx[9]={01 03 04 03 F2 03 F3 00 00}"%string)]
  | Fail _ => False
  end.
Proof. by vm_compute. Qed.

(** A response that stops after five of nine bytes: all five were taken off the
    line, three are counted. *)
Definition cut_line : world :=
  World [RxData [1; 3; 4; 3; 242]] (replicate 9 (TxTakes 4)) (ticks 16) [Ready; Ready; Ready; Expired] [0] [].

Example cut_response_line :
  match transact_logged true (sample_client 1 0) (encode_request sample_request ++ [9]) 5 (replicate 256 0)
          (cut_line, Some sample_bus) with
  | Ok ((result, lines), (w, _)) => fst result = MB_RTU_CLIENT_ERR_TIMEOUT /\ rx w = [] /\
      lines = [(MB_RTU_LOG_WARN,
        "uid=1 transaction failed (err=-4): tx[8]={01 03 00 0A 00 02 E4 09} rx[3]={01 03 04}"%string)]
  | Fail _ => False
  end.
Proof. by vm_compute. Qed.

(** A line that takes nothing. *)
Example unsent_line :
  match transact_logged true (sample_client 1 0) (encode_request sample_request ++ [9]) 5 (replicate 256 0)
          (set_tx [TxTakes 0] bad_line, Some sample_bus) with
  | Ok ((result, lines), _) => fst result = MB_RTU_CLIENT_ERR_TRANSPORT /\
      lines = [(MB_RTU_LOG_ERROR, "FC03 send failed"%string)]
  | Fail _ => False
  end.
Proof. by vm_compute. Qed.

(** The array has 768 cells, enough for 256 bytes, but the guard of the loop
    asks for one more: the last byte of a frame of 256 bytes is not shown. *)
Example longest_frame_cut last :
  exists out text, format_hex_string (replicate 255 1 ++ [last]) 256 768 (Some (replicate 768 0)) = Ok (tt, Some out) /\
    c_string out = Ok text /\ text = dump 255 (replicate 256 1).
Proof.
  destruct (format_hex_string_run (replicate 255 1 ++ [last]) 256 (replicate 768 0)) as (out & Hrun & _ & Hc);
    [rewrite length_app, length_replicate; simpl; lia | by rewrite length_replicate |].
  rewrite length_replicate in Hrun, Hc. exists out. eexists. split; [exact Hrun|]. split; [exact Hc|].
  rewrite take_ge by (rewrite length_app, length_replicate; simpl; lia). by vm_compute.
Qed.

(** The sinks of the examples index their table of tags with the level; every
    level that a transaction logs is in it. *)
Lemma told_sinks sink c r w rc w' lines l :
  told sink c r w rc w' lines -> l ∈ lines ->
  exists tag, In tag ["WARN "; "ERROR"]%string /\ Log.Rtu.level_tag (fst l) = Ok tag /\
    Log.Rtu.client_log l = Ok ("[RTU-CLIENT][" +:+ tag +:+ "] " +:+ snd l +:+ newline)%string.
Proof.
  intros Ht Hl. assert (fst l = MB_RTU_LOG_WARN \/ fst l = MB_RTU_LOG_ERROR) as Hlevel.
  { unfold answer_lines, cli_logv in Ht. destruct Ht; unfold answer_lines, cli_logv in *; repeat case_match; try destruct sink; try by apply elem_of_nil in Hl.
    all: try (apply list_elem_of_singleton in Hl as ->; cbn; auto). }
  unfold Log.Rtu.client_log. destruct Hlevel as [-> | ->]; eexists; split_and!; try done; cbn; auto.
Qed.

(** What the example client prints of the bad response. *)
Example bad_response_printed :
  match transact_logged true (sample_client 1 0) (encode_request sample_request ++ [9]) 5 (replicate 256 0)
          (bad_line, Some sample_bus) with
  | Ok ((_, [l]), _) => Log.Rtu.client_log l = Ok ("[RTU-CLIENT][WARN ] uid=1 transaction failed (err=-7): tx[8]={01 03 00 0A 00 02 E4 09} rx[9]={01 03 04 03 F2 03 F3 00 00}" +:+ newline)%string
  | _ => False
  end.
Proof. by vm_compute. Qed.
