(* ===== verification/RtuClientLocks.v ===== *)
(** * The locks of the RTU client

    Threads that connect, call and disconnect contexts, as a relation in which
    every lock and unlock of [src/modbus_rtu_client.c] is a step of its own: the
    mutex of a context, the mutex of a bus and the lock of the registry.  Between
    them only what the locks are about is kept: which contexts are initialised,
    which bus they point to, and for every bus record the contexts that its
    reference count counts (that the count is their number is in [RtuBus]).  What
    a thread writes with a lock, or in a context that nobody else may look at, is
    written in the step that gives the lock back.

    The callers keep to what [modbus_rtu_client.h] asks: no thread starts a call
    on a context while another disconnects it, and one thread at a time connects
    or disconnects it.  That is not enough: [careful] is what they need besides,
    that no call waits for the mutex of a context when
    [mb_rtu_client_disconnect] gets it.  Nothing in the code sees to that. *)

From stdpp Require Import gmap relations.
From S2P Require Import Prelude.

Inductive mutex := Destroyed | Open | Held (t : Z).

Record ctx := Ctx { initialized : bool; shared_bus : option Z; lock : mutex }.
Record bus := Bus { users : gset Z; bus_mutex : mutex }.

(** Where a thread is, with its context [i].  A call: past the test of
    [initialized], before [lock(&ctx->lock)]; with the mutex; with the mutex of
    the bus too; before [unlock(&ctx->lock)].  Disconnect: the same two; with the
    registry; detached; before [destroy(&ctx->lock)].  Connect: before the
    registry; with it; after it. *)
Inductive pc :=
  | Idle
  | CallWait (i : Z) | CallHold (i : Z) | OnBus (i : Z) | CallDone (i : Z)
  | DiscWait (i : Z) | DiscHold (i : Z) | DiscReg (i : Z) | DiscClear (i : Z) | DiscDestroy (i : Z)
  | ConnWait (i : Z) | ConnReg (i : Z) | ConnDone (i : Z).

Record state := State {
  pcs : gmap Z pc;
  ctxs : gmap Z ctx;
  shared_buses : gmap Z bus;
  registry_lock : mutex;
}.

Definition zero_ctx : ctx := Ctx false None Destroyed.
Definition pc_of (s : state) (t : Z) : pc := default Idle (pcs s !! t).
Definition ctx_of (s : state) (i : Z) : ctx := default zero_ctx (ctxs s !! i).

Definition go (t : Z) (p : pc) (s : state) : state := State (<[t := p]> (pcs s)) (ctxs s) (shared_buses s) (registry_lock s).
Definition set_ctx (i : Z) (c : ctx) (s : state) : state := State (pcs s) (<[i := c]> (ctxs s)) (shared_buses s) (registry_lock s).
Definition set_lock (i : Z) (m : mutex) (s : state) : state :=
  set_ctx i (Ctx (initialized (ctx_of s i)) (shared_bus (ctx_of s i)) m) s.
Definition set_buses (m : gmap Z bus) (s : state) : state := State (pcs s) (ctxs s) m (registry_lock s).
Definition set_registry (m : mutex) (s : state) : state := State (pcs s) (ctxs s) (shared_buses s) m.

(** The mutex of the bus that context [i] points to. *)
Definition set_bus_mutex (i : Z) (m : mutex) (s : state) : state :=
  match shared_bus (ctx_of s i) with
  | Some b => set_buses (alter (fun r => Bus (users r) m) b (shared_buses s)) s
  | None => s
  end.

(** One reference less; the record goes with the last. *)
Definition detach (i : Z) (s : state) : state :=
  match shared_bus (ctx_of s i) with
  | Some b => set_buses (partial_alter (fun o =>
      match o with
      | Some r => if decide (users r ∖ {[i]} = ∅) then None else Some (Bus (users r ∖ {[i]}) (bus_mutex r))
      | None => None
      end) b (shared_buses s)) s
  | None => s
  end.

Definition not_held (m : mutex) : Prop := match m with Held _ => False | _ => True end.

(** The context of a thread; the context whose mutex it has; the context that
    nobody else may be in; the context it disconnects; does it have the
    registry? *)
Definition on (p : pc) : option Z :=
  match p with
  | Idle => None
  | CallWait i | CallHold i | OnBus i | CallDone i | DiscWait i | DiscHold i | DiscReg i | DiscClear i | DiscDestroy i
  | ConnWait i | ConnReg i | ConnDone i => Some i
  end.
Definition holder (p : pc) : option Z :=
  match p with
  | CallHold i | OnBus i | CallDone i | DiscHold i | DiscReg i | DiscClear i => Some i
  | _ => None
  end.
Definition alone (p : pc) : option Z :=
  match p with
  | DiscHold i | DiscReg i | DiscClear i | DiscDestroy i | ConnWait i | ConnReg i | ConnDone i => Some i
  | _ => None
  end.
Definition disconnecting (p : pc) : option Z :=
  match p with DiscWait i | DiscHold i | DiscReg i | DiscClear i | DiscDestroy i => Some i | _ => None end.
Definition has_registry (p : pc) : bool := match p with DiscReg _ | ConnReg _ => true | _ => false end.

(** [Use], [Detach]: the record that context [i] points to is used, given up. *)
Inductive action := Quiet | Lock (i : Z) | Unlock (i : Z) | Destroy (i : Z) | Use (i : Z) | Detach (i : Z).

(** ** The steps of thread [t] *)

Section Steps.
Context (t : Z) (s : state).

Definition no_disconnect (i : Z) : Prop := forall t', disconnecting (pc_of s t') <> Some i.

(** [transact] and [mb_rtu_client_set_unit_id]. *)
Inductive call_step : action -> state -> Prop :=
  | call_begin i : pc_of s t = Idle -> initialized (ctx_of s i) = true -> no_disconnect i ->
      call_step Quiet (go t (CallWait i) s)
  | call_lock i : pc_of s t = CallWait i -> not_held (lock (ctx_of s i)) ->
      call_step (Lock i) (go t (CallHold i) (set_lock i (Held t) s))
  | call_short i : pc_of s t = CallHold i -> call_step Quiet (go t (CallDone i) s)
  | call_bus i : pc_of s t = CallHold i ->
      (forall b r, shared_bus (ctx_of s i) = Some b -> shared_buses s !! b = Some r -> not_held (bus_mutex r)) ->
      call_step (Use i) (go t (OnBus i) (set_bus_mutex i (Held t) s))
  | call_transaction i : pc_of s t = OnBus i -> call_step (Use i) s
  | call_release i : pc_of s t = OnBus i -> call_step (Use i) (go t (CallDone i) (set_bus_mutex i Open s))
  | call_unlock i : pc_of s t = CallDone i -> call_step (Unlock i) (go t Idle (set_lock i Open s)).

(** [mb_rtu_client_disconnect]. *)
Inductive disconnect_step : action -> state -> Prop :=
  | disc_begin i : pc_of s t = Idle -> initialized (ctx_of s i) = true -> no_disconnect i ->
      disconnect_step Quiet (go t (DiscWait i) s)
  | disc_lock i : pc_of s t = DiscWait i -> not_held (lock (ctx_of s i)) ->
      disconnect_step (Lock i) (go t (DiscHold i) (set_lock i (Held t) s))
  | disc_registry i : pc_of s t = DiscHold i -> not_held (registry_lock s) ->
      disconnect_step Quiet (go t (DiscReg i) (set_registry (Held t) s))
  | disc_detach i : pc_of s t = DiscReg i ->
      disconnect_step (Detach i) (go t (DiscClear i)
        (set_ctx i (Ctx (initialized (ctx_of s i)) None (lock (ctx_of s i))) (set_registry Open (detach i s))))
  | disc_unlock i : pc_of s t = DiscClear i ->
      disconnect_step (Unlock i) (go t (DiscDestroy i) (set_ctx i (Ctx false None Open) s))
  | disc_destroy i : pc_of s t = DiscDestroy i ->
      disconnect_step (Destroy i) (go t Idle (set_lock i Destroyed s)).

(** [mb_rtu_client_connect] with [shared_bus_attach], which finds a bus, opens
    one, or gives none. *)
Inductive connect_step : action -> state -> Prop :=
  | conn_begin i : pc_of s t = Idle -> initialized (ctx_of s i) = false -> (forall t', on (pc_of s t') <> Some i) ->
      connect_step Quiet (go t (ConnWait i) (set_ctx i (Ctx false None Open) s))
  | conn_registry i : pc_of s t = ConnWait i -> not_held (registry_lock s) ->
      connect_step Quiet (go t (ConnReg i) (set_registry (Held t) s))
  | conn_found i b r : pc_of s t = ConnReg i -> shared_buses s !! b = Some r ->
      connect_step Quiet (go t (ConnDone i) (set_ctx i (Ctx false (Some b) (lock (ctx_of s i)))
        (set_registry Open (set_buses (<[b := Bus ({[i]} ∪ users r) (bus_mutex r)]> (shared_buses s)) s))))
  | conn_opened i b : pc_of s t = ConnReg i -> shared_buses s !! b = None ->
      connect_step Quiet (go t (ConnDone i) (set_ctx i (Ctx false (Some b) (lock (ctx_of s i)))
        (set_registry Open (set_buses (<[b := Bus {[i]} Open]> (shared_buses s)) s))))
  | conn_refused i : pc_of s t = ConnReg i -> connect_step Quiet (go t (ConnDone i) (set_registry Open s))
  | conn_done i b : pc_of s t = ConnDone i -> shared_bus (ctx_of s i) = Some b ->
      connect_step Quiet (go t Idle (set_ctx i (Ctx true (Some b) (lock (ctx_of s i))) s))
  | conn_failed i : pc_of s t = ConnDone i -> shared_bus (ctx_of s i) = None ->
      connect_step (Destroy i) (go t Idle (set_lock i Destroyed s)).

Inductive step : action -> state -> Prop :=
  | step_call a s' : call_step a s' -> step a s'
  | step_disconnect a s' : disconnect_step a s' -> step a s'
  | step_connect a s' : connect_step a s' -> step a s'.
End Steps.

Definition steps : state -> state -> Prop := rtc (fun s s' => exists t a, step t s a s').

(** Thread [t] does not get the mutex for a disconnect while a call waits for it. *)
Definition careful (t : Z) (s : state) : Prop := forall i t', pc_of s t = DiscWait i -> pc_of s t' <> CallWait i.

Definition careful_step (t : Z) (s : state) (a : action) (s' : state) : Prop := step t s a s' /\ careful t s.
Definition careful_steps : state -> state -> Prop := rtc (fun s s' => exists t a, careful_step t s a s').

(** Before the first call. *)
Definition fresh : state := State ∅ ∅ ∅ Open.

(** ** What a step may do *)

Definition allowed (t : Z) (s : state) (a : action) : Prop :=
  match a with
  | Quiet => True
  | Lock i => lock (ctx_of s i) <> Destroyed
  | Unlock i => lock (ctx_of s i) = Held t
  | Destroy i => lock (ctx_of s i) = Open /\ forall t', pc_of s t' <> CallWait i /\ pc_of s t' <> DiscWait i
  | Use i => exists b r, shared_bus (ctx_of s i) = Some b /\ shared_buses s !! b = Some r
  | Detach i => exists b r, shared_bus (ctx_of s i) = Some b /\ shared_buses s !! b = Some r /\ i ∈ users r /\
      (users r ∖ {[i]} = ∅ -> bus_mutex r = Open /\ forall j, shared_bus (ctx_of s j) = Some b -> j = i)
  end.

(** ** The invariant *)

(** What a thread knows of its context. *)
Definition pc_ok (s : state) (p : pc) : Prop :=
  match p with
  | Idle => True
  | CallWait i | CallHold i | OnBus i | CallDone i | DiscWait i | DiscHold i | DiscReg i =>
      initialized (ctx_of s i) = true /\ shared_bus (ctx_of s i) <> None /\ lock (ctx_of s i) <> Destroyed
  | DiscClear i => shared_bus (ctx_of s i) = None /\ lock (ctx_of s i) <> Destroyed
  | DiscDestroy i | ConnWait i | ConnReg i =>
      initialized (ctx_of s i) = false /\ shared_bus (ctx_of s i) = None /\ lock (ctx_of s i) = Open
  | ConnDone i => initialized (ctx_of s i) = false /\ lock (ctx_of s i) = Open
  end.

Record bus_ok (s : state) (b : Z) (r : bus) : Prop := BusOk {
  bus_users : forall i, i ∈ users r <-> shared_bus (ctx_of s i) = Some b;
  bus_used : users r <> ∅;
  bus_owner : forall t, bus_mutex r = Held t <-> exists i, pc_of s t = OnBus i /\ shared_bus (ctx_of s i) = Some b;
  bus_alive : bus_mutex r <> Destroyed;
}.

Record inv (s : state) : Prop := Inv {
  inv_lock : forall i t, lock (ctx_of s i) = Held t <-> holder (pc_of s t) = Some i;
  inv_registry : forall t, registry_lock s = Held t <-> has_registry (pc_of s t) = true;
  inv_alone : forall t t' i, alone (pc_of s t) = Some i -> on (pc_of s t') = Some i -> t = t';
  inv_disc : forall t t' i, disconnecting (pc_of s t) = Some i -> disconnecting (pc_of s t') = Some i -> t = t';
  inv_pc : forall t, pc_ok s (pc_of s t);
  inv_on : forall i, (forall t, alone (pc_of s t) <> Some i) ->
    if initialized (ctx_of s i) then shared_bus (ctx_of s i) <> None /\ lock (ctx_of s i) <> Destroyed
    else shared_bus (ctx_of s i) = None;
  inv_bus : forall b r, shared_buses s !! b = Some r -> bus_ok s b r;
  inv_live : forall i b, shared_bus (ctx_of s i) = Some b -> is_Some (shared_buses s !! b);
}.

#[global] Instance pc_eq_dec : EqDecision pc.
Proof. solve_decision. Defined.

(** Some thread gets on; a call that has the mutex does, to the bus. *)
Definition gets_on (s : state) : Prop := exists t a s', careful_step t s a s' /\ pc_of s t <> Idle /\ pc_of s' t <> pc_of s t /\
  forall i, pc_of s t = CallHold i -> pc_of s' t = OnBus i.

(** The threads of a given state that are somewhere. *)
Definition nobody (P : pc -> bool) (s : state) : bool := bool_decide (map_Forall (fun _ p => P p = false) (pcs s)).
Definition at_disconnect (i : Z) (p : pc) : bool := bool_decide (disconnecting p = Some i).
Definition anywhere (i : Z) (p : pc) : bool := bool_decide (on p = Some i).
