(* ===== verification/RtuClientLocksTheorems.v ===== *)
(** * The locks of the RTU client are used safely

    The invariant of [RtuClientLocks] holds in every reachable state; what every
    step may do, exclusion on a bus, and that threads cannot deadlock follow from
    it.  The examples are runs: three threads on two contexts of one bus; and, when
    a call may still wait for the mutex that a disconnect takes, the two ways in
    which it goes wrong. *)

From stdpp Require Import gmap relations.
From S2P Require Import Prelude RtuClientLocks.

Lemma fresh_inv : inv fresh.
Proof. split; try done; intros; unfold pc_of, ctx_of in *; cbn in *; rewrite ?lookup_empty in *; done. Qed.

(** ** What the updates do to a look-up *)

Lemma pc_of_go t p s t' : pc_of (go t p s) t' = if decide (t = t') then p else pc_of s t'.
Proof. unfold pc_of, go; cbn. case_decide; [subst; by rewrite lookup_insert_eq | by rewrite lookup_insert_ne]. Qed.

Lemma ctx_of_set_ctx i c s j : ctx_of (set_ctx i c s) j = if decide (i = j) then c else ctx_of s j.
Proof. unfold ctx_of, set_ctx; cbn. case_decide; [subst; by rewrite lookup_insert_eq | by rewrite lookup_insert_ne]. Qed.

Lemma ctx_of_go t p s j : ctx_of (go t p s) j = ctx_of s j. Proof. done. Qed.
Lemma ctx_of_set_registry m s j : ctx_of (set_registry m s) j = ctx_of s j. Proof. done. Qed.
Lemma ctx_of_set_buses m s j : ctx_of (set_buses m s) j = ctx_of s j. Proof. done. Qed.
Lemma ctx_of_set_bus_mutex i m s j : ctx_of (set_bus_mutex i m s) j = ctx_of s j.
Proof. unfold set_bus_mutex. by destruct (shared_bus _). Qed.
Lemma ctx_of_detach i s j : ctx_of (detach i s) j = ctx_of s j.
Proof. unfold detach. by destruct (shared_bus _). Qed.

Lemma pc_of_set_ctx i c s t : pc_of (set_ctx i c s) t = pc_of s t. Proof. done. Qed.
Lemma pc_of_set_registry m s t : pc_of (set_registry m s) t = pc_of s t. Proof. done. Qed.
Lemma pc_of_set_buses m s t : pc_of (set_buses m s) t = pc_of s t. Proof. done. Qed.
Lemma pc_of_set_bus_mutex i m s t : pc_of (set_bus_mutex i m s) t = pc_of s t.
Proof. unfold set_bus_mutex. by destruct (shared_bus _). Qed.
Lemma pc_of_detach i s t : pc_of (detach i s) t = pc_of s t.
Proof. unfold detach. by destruct (shared_bus _). Qed.

Lemma registry_set_bus_mutex i m s : registry_lock (set_bus_mutex i m s) = registry_lock s.
Proof. unfold set_bus_mutex. by destruct (shared_bus _). Qed.
Lemma registry_detach i s : registry_lock (detach i s) = registry_lock s.
Proof. unfold detach. by destruct (shared_bus _). Qed.

Create HintDb locks.
#[local] Hint Rewrite pc_of_go ctx_of_set_ctx ctx_of_go ctx_of_set_registry ctx_of_set_buses ctx_of_set_bus_mutex ctx_of_detach
  pc_of_set_ctx pc_of_set_registry pc_of_set_buses pc_of_set_bus_mutex pc_of_detach
  registry_set_bus_mutex registry_detach : locks.

Ltac look := unfold set_lock in *; autorewrite with locks in *; cbn [initialized shared_bus lock] in *.
Ltac steps_of H := let K := fresh "Careful" in destruct H as [H K]; destruct H as [a s' H | a s' H | a s' H]; destruct H; unfold careful in K.

(** ** Every step keeps it *)

Lemma holder_on p i : holder p = Some i -> on p = Some i.
Proof. by destruct p. Qed.
Lemma alone_on p i : alone p = Some i -> on p = Some i.
Proof. by destruct p. Qed.
Lemma disconnecting_on p i : disconnecting p = Some i -> on p = Some i.
Proof. by destruct p. Qed.

Section Preserved.
Context (s : state) (I : inv s).

Lemma unlocked_holder i t' : not_held (lock (ctx_of s i)) -> holder (pc_of s t') <> Some i.
Proof. intros N H. apply (inv_lock _ I) in H. by rewrite H in N. Qed.

Lemma unlocked_registry t' : not_held (registry_lock s) -> has_registry (pc_of s t') <> true.
Proof. intros N H. apply (inv_registry _ I) in H. by rewrite H in N. Qed.

(** A call, or a disconnect, begins where nobody is alone. *)
Lemma begins_shared i t' : initialized (ctx_of s i) = true -> no_disconnect s i -> alone (pc_of s t') <> Some i.
Proof.
  intros U D H. pose proof (inv_pc _ I t') as P. specialize (D t').
  destruct (pc_of s t'); cbn in *; simplify_eq; naive_solver congruence.
Qed.

(** The disconnect that gets the mutex with no call waiting for it is alone. *)
Lemma disconnect_alone t i t' : pc_of s t = DiscWait i -> not_held (lock (ctx_of s i)) ->
  (forall t', pc_of s t' <> CallWait i) -> on (pc_of s t') = Some i -> t = t'.
Proof.
  intros E N W O. pose proof (unlocked_holder i t' N) as F. specialize (W t').
  pose proof (inv_alone _ I t' t i) as A. pose proof (inv_disc _ I t t' i) as D. rewrite E in A, D. cbn in A, D.
  destruct (pc_of s t') eqn:?; cbn in *; simplify_eq; try solve [eauto | symmetry; eauto | congruence].
Qed.

Ltac at_pc := match goal with H : pc_of s _ = _ |- _ => rewrite H in *; rename H into Hpc end; cbn in *; look.
Ltac nobody t' := match goal with H : forall t', on (pc_of s t') <> Some _ |- _ =>
  specialize (H t'); pose proof (holder_on (pc_of s t')); pose proof (alone_on (pc_of s t')); pose proof (disconnecting_on (pc_of s t')) end.

Lemma keeps_lock t a s' : careful_step t s a s' -> forall i t', lock (ctx_of s' i) = Held t' <-> holder (pc_of s' t') = Some i.
Proof.
  intros H i' t'. pose proof (inv_pc _ I t) as P. pose proof (inv_lock _ I) as L.
  pose proof (L i' t') as L1; pose proof (L i' t) as L2.
  steps_of H; at_pc; try nobody t'; repeat case_decide; simplify_eq; cbn; try tauto;
    destruct (lock (ctx_of s i')) eqn:?; cbn in *; try solve [intuition congruence].
  naive_solver.
Qed.

Lemma keeps_registry t a s' : careful_step t s a s' -> forall t', registry_lock s' = Held t' <-> has_registry (pc_of s' t') = true.
Proof.
  intros H t'. pose proof (inv_registry _ I t') as L1; pose proof (inv_registry _ I t) as L2.
  steps_of H; at_pc; repeat case_decide; simplify_eq; cbn; try tauto;
    destruct (registry_lock s) eqn:?; cbn in *; try solve [intuition congruence].
Qed.

Lemma keeps_disc t a s' : careful_step t s a s' ->
  forall t1 t2 i, disconnecting (pc_of s' t1) = Some i -> disconnecting (pc_of s' t2) = Some i -> t1 = t2.
Proof.
  intros H t1 t2 i'. pose proof (inv_disc _ I t1 t2 i') as A.
  pose proof (inv_disc _ I t t2 i') as A1. pose proof (inv_disc _ I t1 t i') as A2.
  steps_of H; at_pc; repeat case_decide; simplify_eq; cbn; intros; simplify_eq; eauto; try congruence;
    match goal with D : no_disconnect _ _ |- _ => by destruct (D t1) || by destruct (D t2) end.
Qed.

Lemma keeps_alone t a s' : careful_step t s a s' ->
  forall t1 t2 i, alone (pc_of s' t1) = Some i -> on (pc_of s' t2) = Some i -> t1 = t2.
Proof.
  intros H t1 t2 i'. pose proof (inv_alone _ I t1 t2 i') as A.
  pose proof (inv_alone _ I t t2 i') as A1. pose proof (inv_alone _ I t1 t i') as A2.
  pose proof (alone_on (pc_of s t1)) as O1.
  steps_of H; at_pc; repeat case_decide; simplify_eq; cbn; intros; simplify_eq; eauto; try congruence;
    first [ eapply disconnect_alone; by eauto | exfalso; eapply begins_shared; by eauto | naive_solver ].
Qed.

Lemma begins_ok i : initialized (ctx_of s i) = true -> no_disconnect s i -> pc_ok s (CallWait i).
Proof.
  intros U D. pose proof (inv_on _ I i (fun t' => begins_shared i t' U D)) as P.
  rewrite U in P. destruct P. done.
Qed.

Lemma pc_ok_ctx s1 s2 p : (forall i, ctx_of s1 i = ctx_of s2 i) -> pc_ok s1 p -> pc_ok s2 p.
Proof. intros E. destruct p; cbn; by rewrite ?E. Qed.

(** What the other threads know stays true, of another context, and of a
    context of which only the mutex changes hands. *)
Lemma keeps_elsewhere i c s' t' : (forall j, ctx_of s' j = if decide (i = j) then c else ctx_of s j) ->
  on (pc_of s t') <> Some i -> pc_ok s' (pc_of s t').
Proof.
  intros E O. pose proof (inv_pc _ I t') as P.
  destruct (pc_of s t'); cbn in *; rewrite ?E; repeat case_decide; simplify_eq; done.
Qed.

Lemma keeps_shared i m s' t' :
  (forall j, ctx_of s' j = if decide (i = j) then Ctx (initialized (ctx_of s i)) (shared_bus (ctx_of s i)) m else ctx_of s j) ->
  alone (pc_of s t') <> Some i -> m <> Destroyed -> pc_ok s' (pc_of s t').
Proof.
  intros E O M. pose proof (inv_pc _ I t') as P.
  destruct (pc_of s t'); cbn in *; rewrite ?E; repeat case_decide; simplify_eq; cbn; naive_solver.
Qed.

Lemma others_shared t i t' : on (pc_of s t) = Some i -> t <> t' -> alone (pc_of s t') <> Some i.
Proof. intros O N A. by destruct N; symmetry; eapply (inv_alone _ I). Qed.

Lemma others_elsewhere t i t' : alone (pc_of s t) = Some i -> t <> t' -> on (pc_of s t') <> Some i.
Proof. intros O N A. by destruct N; eapply (inv_alone _ I). Qed.

Lemma keeps_pc t a s' : careful_step t s a s' -> forall t', pc_ok s' (pc_of s' t').
Proof.
  intros H t'. pose proof (inv_pc _ I t) as P. pose proof (inv_pc _ I t') as P'. destruct (decide (t = t')) as [<- | N].
  - steps_of H; at_pc; rewrite ?Hpc; repeat case_decide; simplify_eq; cbn; look; repeat case_decide; simplify_eq; cbn;
      try tauto; solve [naive_solver | apply begins_ok; done].
  - pose proof (others_shared t) as S. pose proof (others_elsewhere t) as E.
    steps_of H; at_pc; repeat case_decide; try done; try (revert P'; apply pc_ok_ctx; intros; by look);
      first [ eapply keeps_shared; [intros j; by look | by eauto | done]
            | eapply keeps_elsewhere; [intros j; by look | by eauto using disconnect_alone] ].
Qed.

Lemma pc_of_step t a s' t' : careful_step t s a s' -> t <> t' -> pc_of s' t' = pc_of s t'.
Proof. intros H N. steps_of H; look; by repeat case_decide. Qed.

Lemma keeps_on t a s' : careful_step t s a s' -> forall i, (forall t', alone (pc_of s' t') <> Some i) ->
  if initialized (ctx_of s' i) then shared_bus (ctx_of s' i) <> None /\ lock (ctx_of s' i) <> Destroyed
  else shared_bus (ctx_of s' i) = None.
Proof.
  intros H i' A. pose proof (inv_pc _ I t) as P. pose proof (A t) as At.
  assert (alone (pc_of s t) <> Some i' -> forall t', alone (pc_of s t') <> Some i') as A'.
  { intros B t'. destruct (decide (t = t')) as [<- | N]; [done|]. rewrite <-(pc_of_step t a s' t' H N). apply A. }
  pose proof (fun B => inv_on _ I i' (A' B)) as O. clear A A'.
  steps_of H; at_pc; repeat case_decide; simplify_eq; cbn in *; try naive_solver;
    try (destruct (initialized (ctx_of s i')); naive_solver).
  by destruct P as [_ ->].
Qed.

(** *** The buses *)

Record buses_ok (s' : state) : Prop := BusesOk {
  ok_bus : forall b r, shared_buses s' !! b = Some r -> bus_ok s' b r;
  ok_live : forall i b, shared_bus (ctx_of s' i) = Some b -> is_Some (shared_buses s' !! b);
}.

Lemma buses_same s' : shared_buses s' = shared_buses s -> (forall i, shared_bus (ctx_of s' i) = shared_bus (ctx_of s i)) ->
  (forall t i, pc_of s' t = OnBus i <-> pc_of s t = OnBus i) -> buses_ok s'.
Proof.
  intros B C P. split.
  - intros b r L. rewrite B in L. destruct (inv_bus _ I b r L) as [U V W X]. split; try done.
    + intros i. by rewrite C.
    + intros t. rewrite W. setoid_rewrite C. by setoid_rewrite P.
  - intros i b. rewrite C, B. apply (inv_live _ I).
Qed.

Lemma buses_quiet t p s' : (forall i, pc_of s t <> OnBus i) -> (forall i, p <> OnBus i) ->
  shared_buses s' = shared_buses s -> (forall i, shared_bus (ctx_of s' i) = shared_bus (ctx_of s i)) ->
  (forall t', pc_of s' t' = if decide (t = t') then p else pc_of s t') -> buses_ok s'.
Proof.
  intros N1 N2 B C P. apply buses_same; [done..|]. intros t' i. rewrite P.
  case_decide; [subst|done]. split; intros E; [by destruct (N2 i) | by destruct (N1 i)].
Qed.

Lemma buses_locked t i b r m p s' : shared_bus (ctx_of s i) = Some b -> shared_buses s !! b = Some r ->
  on (pc_of s t) = Some i -> on p = Some i -> (forall j, ctx_of s' j = ctx_of s j) ->
  (forall t', pc_of s' t' = if decide (t = t') then p else pc_of s t') ->
  shared_buses s' = <[b := Bus (users r) m]> (shared_buses s) ->
  (p = OnBus i /\ m = Held t /\ not_held (bus_mutex r) \/ pc_of s t = OnBus i /\ (forall i, p <> OnBus i) /\ m = Open) ->
  buses_ok s'.
Proof.
  intros C L O1 O2 E P B M. destruct (inv_bus _ I b r L) as [U V W X]. split.
  - intros b' r' L'. rewrite B in L'. destruct (decide (b = b')) as [<- | N].
    + rewrite lookup_insert_eq in L'. injection L' as <-. split; cbn; try done.
      * intros j. by rewrite E.
      * intros t'. setoid_rewrite E. rewrite P. specialize (W t') as Wt'. specialize (W t) as Wt.
        destruct M as [(-> & -> & M) | (M & N & ->)]; case_decide as D; split; intros Q; try done.
        -- by exists i.
        -- by rewrite D.
        -- congruence.
        -- apply Wt' in Q. by rewrite Q in M.
        -- destruct Q as (k & Q & _). rewrite Q in O2. injection O2 as ->. by destruct (N i).
        -- apply Wt' in Q. assert (bus_mutex r = Held t) by (apply Wt; eauto). congruence.
      * by destruct M as [(_ & -> & _) | (_ & _ & ->)].
    + rewrite lookup_insert_ne in L' by done. destruct (inv_bus _ I b' r' L') as [U' V' W' X']. split; try done.
      * intros j. by rewrite E.
      * intros t'. rewrite W'. setoid_rewrite E. setoid_rewrite P. case_decide; [subst|done].
        split; intros (k & Q & R); rewrite Q in *; cbn in *; simplify_eq.
  - intros j b'. rewrite E, B. intros J. apply lookup_insert_is_Some'. right. by apply (inv_live _ I j).
Qed.

(** A context whose pointer changes while nobody is on its bus. *)
Section Repointed.
Context (i : Z) (o : option Z) (s' : state).
Hypothesis off : forall t, pc_of s t <> OnBus i.
Hypothesis ons : forall t k, pc_of s' t = OnBus k <-> pc_of s t = OnBus k.
Hypothesis pointers : forall j, shared_bus (ctx_of s' j) = if decide (i = j) then o else shared_bus (ctx_of s j).

Lemma repointed_owner b t :
  (exists k, pc_of s t = OnBus k /\ shared_bus (ctx_of s k) = Some b) <->
  (exists k, pc_of s' t = OnBus k /\ shared_bus (ctx_of s' k) = Some b).
Proof.
  split; intros (k & Q & R); exists k; (split; [by apply ons|]); rewrite pointers in *; case_decide as D; subst; try done.
  - by destruct (off t).
  - apply ons in Q. by destruct (off t).
Qed.

Lemma repointed_elsewhere b r : bus_ok s b r -> o <> Some b -> shared_bus (ctx_of s i) <> Some b -> bus_ok s' b r.
Proof.
  intros [U V W X] N1 N2. split; try done.
  - intros j. rewrite U, pointers. case_decide; subst; naive_solver.
  - intros t. by rewrite W, repointed_owner.
Qed.

Lemma buses_attached b u m : o = Some b -> shared_bus (ctx_of s i) = None ->
  (forall j, j ∈ u <-> shared_bus (ctx_of s j) = Some b) ->
  (forall t, m = Held t <-> exists k, pc_of s t = OnBus k /\ shared_bus (ctx_of s k) = Some b) -> m <> Destroyed ->
  shared_buses s' = <[b := Bus ({[i]} ∪ u) m]> (shared_buses s) -> buses_ok s'.
Proof.
  intros O C U W X B. split.
  - intros b' r' L. rewrite B in L. destruct (decide (b = b')) as [<- | N].
    + rewrite lookup_insert_eq in L. injection L as <-. split; cbn; try done; [|set_solver|].
      * intros j. rewrite pointers, elem_of_union, elem_of_singleton, U. case_decide; subst; intuition congruence.
      * intros t. by rewrite W, repointed_owner.
    + rewrite lookup_insert_ne in L by done. apply repointed_elsewhere; [by apply (inv_bus _ I)|congruence..].
  - intros j b'. rewrite pointers, B, lookup_insert_is_Some'. case_decide; [|intros J; right; by apply (inv_live _ I j)].
    intros J. left. congruence.
Qed.

Lemma buses_detached b r : o = None -> shared_bus (ctx_of s i) = Some b -> shared_buses s !! b = Some r ->
  shared_buses s' = partial_alter (fun _ =>
    if decide (users r ∖ {[i]} = ∅) then None else Some (Bus (users r ∖ {[i]}) (bus_mutex r))) b (shared_buses s) ->
  buses_ok s'.
Proof.
  intros O C L B. destruct (inv_bus _ I b r L) as [U V W X].
  assert (forall j, j ∈ users r ∖ {[i]} <-> shared_bus (ctx_of s' j) = Some b) as U'.
  { intros j. rewrite pointers, elem_of_difference, elem_of_singleton, U. destruct (decide (i = j)); [|split; [tauto|auto]].
    split; [by intros [_ []] | congruence]. }
  split.
  - intros b' r' L'. rewrite B in L'. destruct (decide (b = b')) as [<- | N].
    + rewrite lookup_partial_alter_eq in L'. case_decide; [done|]. injection L' as <-. split; cbn; try done.
      intros t. by rewrite W, repointed_owner.
    + rewrite lookup_partial_alter_ne in L' by done. apply repointed_elsewhere; [by apply (inv_bus _ I)|congruence..].
  - intros j b' J. rewrite B. destruct (decide (b = b')) as [<- | N].
    + rewrite lookup_partial_alter_eq. apply U' in J. case_decide as D; [|by eexists]. rewrite D in J. set_solver.
    + rewrite lookup_partial_alter_ne by done. rewrite pointers in J. case_decide; [congruence|]. by apply (inv_live _ I j).
Qed.
End Repointed.

Lemma call_pointer t i : pc_of s t = CallHold i \/ pc_of s t = OnBus i \/ pc_of s t = DiscReg i ->
  exists b r, shared_bus (ctx_of s i) = Some b /\ shared_buses s !! b = Some r.
Proof.
  intros E. assert (shared_bus (ctx_of s i) <> None) as N by (pose proof (inv_pc _ I t) as P; destruct E as [E | [E | E]]; rewrite E in P; cbn in P; tauto).
  destruct (shared_bus (ctx_of s i)) as [b|] eqn:C; [|done]. destruct (inv_live _ I i b C) as [r L]. eauto.
Qed.

Lemma set_bus_mutex_eq i b r m : shared_bus (ctx_of s i) = Some b -> shared_buses s !! b = Some r ->
  shared_buses (set_bus_mutex i m s) = <[b := Bus (users r) m]> (shared_buses s).
Proof. intros C L. unfold set_bus_mutex. rewrite C. cbn. apply map_eq. intros b'. destruct (decide (b = b')) as [<- | N];
  [by rewrite lookup_alter_eq, L, lookup_insert_eq | by rewrite lookup_alter_ne, lookup_insert_ne]. Qed.

Ltac quiet t p := apply (buses_quiet t p); [intros; congruence | done | done | intros; look; by repeat (case_decide; subst) | by intros; look].

Lemma call_buses t a s' : call_step t s a s' -> buses_ok s'.
Proof.
  intros H. destruct H.
  - quiet t (CallWait i).
  - quiet t (CallHold i).
  - quiet t (CallDone i).
  - destruct (call_pointer t i ltac:(auto)) as (b & r & C & L).
    eapply (buses_locked t i b r (Held t) (OnBus i)); try done; [by rewrite H|intros; by look|intros; by look|by apply set_bus_mutex_eq|].
    left. split_and!; try done. by eapply H0.
  - by apply buses_same.
  - destruct (call_pointer t i ltac:(auto)) as (b & r & C & L).
    eapply (buses_locked t i b r Open (CallDone i)); try done; [by rewrite H|intros; by look|intros; by look|by apply set_bus_mutex_eq|].
    right. done.
  - quiet t Idle.
Qed.

Lemma alone_off t i : alone (pc_of s t) = Some i -> (forall j, pc_of s t <> OnBus j) -> forall t', pc_of s t' <> OnBus i.
Proof. intros A N t' E. assert (t = t') as -> by (apply (inv_alone _ I t t' i); [done | by rewrite E]). by destruct (N i). Qed.

Ltac repoint := intros; look; repeat case_decide; subst; repeat match goal with H : pc_of s _ = _ |- _ => rewrite H end; done.

Lemma disconnect_buses t a s' : disconnect_step t s a s' -> buses_ok s'.
Proof.
  intros H. destruct H as [i H | i H | i H | i H | i H | i H].
  - quiet t (DiscWait i).
  - quiet t (DiscHold i).
  - quiet t (DiscReg i).
  - destruct (call_pointer t i ltac:(auto)) as (b & r & C & L).
    eapply (buses_detached i None _ (alone_off t i ltac:(by rewrite H) ltac:(by rewrite H))); try done.
    + repoint.
    + repoint.
    + unfold detach. cbn. rewrite C. cbn. apply partial_alter_ext. intros o E. rewrite L in E. by subst.
  - pose proof (inv_pc _ I t) as P. rewrite H in P. destruct P as [P _].
    apply (buses_quiet t (DiscDestroy i)); [intros; congruence | done | done | intros; look; case_decide; by subst | by intros; look].
  - quiet t Idle.
Qed.

Lemma connect_buses t a s' : connect_step t s a s' -> buses_ok s'.
Proof.
  intros H. pose proof (inv_pc _ I t) as P.
  destruct H as [i H U F | i H | i b r H L | i b H L | i H | i b H | i H]; rewrite H in P; cbn in P.
  - assert (shared_bus (ctx_of s i) = None) as C.
    { assert (forall t', alone (pc_of s t') <> Some i) as A by (intros t' A; by destruct (F t'); apply alone_on).
      pose proof (inv_on _ I i A) as O. by rewrite U in O. }
    apply (buses_quiet t (ConnWait i)); [intros; congruence | done | done | intros; look; case_decide; by subst | by intros; look].
  - quiet t (ConnReg i).
  - destruct (inv_bus _ I b r L) as [V _ W X].
    eapply (buses_attached i (Some b) _ (alone_off t i ltac:(by rewrite H) ltac:(by rewrite H))) with (b := b) (u := users r); try done; try tauto; repoint.
  - eapply (buses_attached i (Some b) _ (alone_off t i ltac:(by rewrite H) ltac:(by rewrite H))) with (b := b) (u := (∅ : gset Z)) (m := Open); try done; try tauto; [repoint | repoint | | |].
    + intros j. split; [by rewrite elem_of_empty | intros J]. destruct (inv_live _ I j b J). congruence.
    + intros t'. split; [done | intros (k & _ & J)]. destruct (inv_live _ I k b J). congruence.
    + cbn. by rewrite (right_id_L ∅ (∪)).
  - quiet t (ConnDone i).
  - apply (buses_quiet t Idle); [intros; congruence | done | done | intros; look; case_decide; by subst | by intros; look].
  - quiet t Idle.
Qed.
End Preserved.

Lemma lock_step_inv t s a s' : inv s -> careful_step t s a s' -> inv s'.
Proof.
  intros I H. assert (buses_ok s') as B.
  { destruct (proj1 H); [by eapply call_buses | by eapply disconnect_buses | by eapply connect_buses]. }
  split; [by eapply keeps_lock | by eapply keeps_registry | by eapply keeps_alone | by eapply keeps_disc
    | by eapply keeps_pc | by eapply keeps_on | by apply B | by apply B].
Qed.

Lemma lock_steps_inv s : careful_steps fresh s -> inv s.
Proof. intros H. pattern s. eapply rtc_ind_r, H; [apply fresh_inv | intros s1 s2 _ (t & a & K) I; by eapply lock_step_inv]. Qed.

(** ** What follows from it *)

Section Safe.
Context (s : state) (I : inv s).

Lemma use_allowed t i : pc_of s t = CallHold i \/ pc_of s t = OnBus i -> allowed t s (Use i).
Proof. intros E. destruct (call_pointer _ I t i) as (b & r & C & L); [tauto|]. by exists b, r. Qed.

Lemma detach_allowed t i : pc_of s t = DiscReg i -> allowed t s (Detach i).
Proof.
  intros E. destruct (call_pointer _ I t i) as (b & r & C & L); [tauto|]. exists b, r.
  destruct (inv_bus _ I b r L) as [U _ W X]. split_and!; [done | done | by apply U |].
  intros E0. assert (forall j, shared_bus (ctx_of s j) = Some b -> j = i) as O.
  { intros j J. apply U in J. destruct (decide (j = i)) as [|N]; [done|].
    assert (j ∈ users r ∖ {[i]}) as K by (by apply elem_of_difference; rewrite elem_of_singleton). by rewrite E0 in K. }
  split; [|done]. destruct (bus_mutex r) as [| | t'] eqn:M; [done | done |].
  destruct (proj1 (W t') eq_refl) as (k & K & J). apply O in J as ->.
  by destruct (alone_off _ I t i ltac:(by rewrite E) ltac:(by rewrite E) t').
Qed.

Lemma lock_step_allowed t a s' : careful_step t s a s' -> allowed t s a.
Proof.
  intros H. pose proof (inv_pc _ I t) as P. pose proof (inv_lock _ I) as L. pose proof (inv_alone _ I t) as A.
  steps_of H; match goal with H : pc_of s t = _ |- _ => rename H into Hpc end; try done;
    try (by apply use_allowed; tauto); try (by apply detach_allowed).
  all: rewrite Hpc in P; cbn in P; cbn; try tauto.
  all: try (apply L; by rewrite Hpc).
  all: rewrite Hpc in A; (split; [tauto|]); intros t'; specialize (A t' i eq_refl);
    split; intros E; rewrite E in A; specialize (A eq_refl); congruence.
Qed.

Lemma bus_exclusive t1 t2 i1 i2 b : pc_of s t1 = OnBus i1 -> pc_of s t2 = OnBus i2 ->
  shared_bus (ctx_of s i1) = Some b -> shared_bus (ctx_of s i2) = Some b -> t1 = t2.
Proof.
  intros H1 H2 C1 C2. destruct (inv_live _ I i1 b C1) as [r L]. destruct (inv_bus _ I b r L) as [_ _ W _].
  assert (bus_mutex r = Held t1) as M1 by (apply W; eauto). assert (bus_mutex r = Held t2) as M2 by (apply W; eauto). congruence.
Qed.
End Safe.

(** ** No deadlock *)

Section Progress.
Context (s : state) (I : inv s).

Ltac advance t H R := exists t; eexists _, _; split; [split; [R | let E := fresh in intros ? ? E; rewrite H in E; first [discriminate E | injection E as <-; auto]]|]; look; rewrite H, ?decide_True by done; split_and!; [done | done | naive_solver].

Lemma on_bus_gets_on t i : pc_of s t = OnBus i -> gets_on s.
Proof. intros H. advance t H ltac:(by apply step_call, (call_release _ _ i)). Qed.

Lemma holding_gets_on t i : pc_of s t = CallHold i -> gets_on s.
Proof.
  intros H. destruct (call_pointer _ I t i) as (b & r & C & L); [tauto|]. destruct (inv_bus _ I b r L) as [_ _ W _].
  destruct (bus_mutex r) as [| | t'] eqn:M.
  3: destruct (proj1 (W t') eq_refl) as (k & K & _); by eapply on_bus_gets_on.
  all: advance t H ltac:(apply step_call, (call_bus _ _ i); [done | intros b' r' C' L'; simplify_eq; by rewrite M]).
Qed.

Lemma registered_gets_on t : has_registry (pc_of s t) = true -> gets_on s.
Proof.
  intros R. destruct (pc_of s t) eqn:H; try done.
  - advance t H ltac:(by eapply step_disconnect, disc_detach).
  - advance t H ltac:(by eapply step_connect, conn_refused).
Qed.

Lemma registry_gets_on : (not_held (registry_lock s) -> gets_on s) -> gets_on s.
Proof.
  intros G. destruct (registry_lock s) as [| | t'] eqn:R; [by apply G | by apply G |].
  apply (registered_gets_on t'), (inv_registry _ I), R.
Qed.

Lemma inside_gets_on t i : holder (pc_of s t) = Some i -> gets_on s.
Proof.
  intros O. destruct (pc_of s t) eqn:H; try done.
  - by eapply holding_gets_on.
  - by eapply on_bus_gets_on.
  - advance t H ltac:(by eapply step_call, call_unlock).
  - apply registry_gets_on. intros R. advance t H ltac:(by eapply step_disconnect, disc_registry).
  - by apply (registered_gets_on t); rewrite H.
  - advance t H ltac:(by eapply step_disconnect, disc_unlock).
Qed.

Lemma lock_gets_on i : (not_held (lock (ctx_of s i)) -> gets_on s) -> gets_on s.
Proof.
  intros G. destruct (lock (ctx_of s i)) as [| | t'] eqn:R; [by apply G | by apply G |].
  apply (inside_gets_on t' i), (inv_lock _ I), R.
Qed.

Lemma calling_gets_on t i : pc_of s t = CallWait i -> gets_on s.
Proof. intros H. apply (lock_gets_on i). intros R. advance t H ltac:(by eapply step_call, call_lock). Qed.

Lemma pcs_find p : p <> Idle -> (exists t, pc_of s t = p) \/ forall t, pc_of s t <> p.
Proof.
  intros N. destruct (decide (map_Exists (fun _ q => q = p) (pcs s))) as [(t & q & L & ->) | F].
  - left. exists t. unfold pc_of. by rewrite L.
  - right. intros t E. apply F. unfold pc_of in E. destruct (pcs s !! t) as [q|] eqn:L; cbn in E; [by exists t, q | congruence].
Qed.

Lemma active_gets_on t : pc_of s t <> Idle -> gets_on s.
Proof.
  intros N. destruct (pc_of s t) eqn:H; try done; try (by eapply inside_gets_on; rewrite H).
  - by eapply calling_gets_on.
  - apply (lock_gets_on i). intros R. destruct (pcs_find (CallWait i)) as [[t' W] | W]; [done | by eapply calling_gets_on |].
    advance t H ltac:(by eapply step_disconnect, disc_lock).
  - advance t H ltac:(by eapply step_disconnect, disc_destroy).
  - apply registry_gets_on. intros R. advance t H ltac:(by eapply step_connect, conn_registry).
  - apply (registered_gets_on t). by rewrite H.
  - destruct (shared_bus (ctx_of s i)) as [b|] eqn:C.
    + advance t H ltac:(by eapply step_connect, conn_done).
    + advance t H ltac:(by eapply step_connect, conn_failed).
Qed.
End Progress.

(** ** Runs *)

Lemma nobody_pc P s t : P Idle = false -> nobody P s = true -> P (pc_of s t) = false.
Proof.
  intros N F. apply bool_decide_eq_true in F. unfold pc_of. destruct (pcs s !! t) as [p|] eqn:L; [apply (F _ _ L) | done].
Qed.

Lemma nobody_disconnects i s : nobody (at_disconnect i) s = true -> no_disconnect s i.
Proof. intros F t. by apply (bool_decide_eq_false (disconnecting _ = _)), (nobody_pc (at_disconnect i)). Qed.
Lemma nobody_there i s : nobody (anywhere i) s = true -> forall t, on (pc_of s t) <> Some i.
Proof. intros F t. by apply (bool_decide_eq_false (on _ = _)), (nobody_pc (anywhere i)). Qed.
Ltac side := first
  [ vm_compute; reflexivity | exact Logic.I | apply nobody_disconnects; vm_compute; reflexivity | apply nobody_there; vm_compute; reflexivity
  | discriminate
  | intros ? ? C L; vm_compute in C, L; simplify_eq; exact Logic.I ].
Ltac unhurried := try (split; [| intros ? ? E; vm_compute in E; discriminate]).
Ltac evaluated := match goal with |- rtc _ ?s _ => let v := eval vm_compute in s in change s with v end.
Tactic Notation "calls" constr(t) uconstr(R) := eapply rtc_l; [exists t; eexists; unhurried; apply step_call; eapply R; side | evaluated].
Tactic Notation "disconnects" constr(t) uconstr(R) := eapply rtc_l; [exists t; eexists; unhurried; apply step_disconnect; eapply R; side | evaluated].
Tactic Notation "connects" constr(t) uconstr(R) := eapply rtc_l; [exists t; eexists; unhurried; apply step_connect; eapply R; side | evaluated].

(** Thread 1 has connected context 1 to bus 7 and is in a transaction; thread 2
    has connected context 2 to the same bus and has its mutex; thread 3
    disconnects context 1 and waits for the mutex. *)
Example three_threads : exists s, careful_steps fresh s /\
  pc_of s 1 = OnBus 1 /\ pc_of s 2 = CallHold 2 /\ pc_of s 3 = DiscWait 1 /\
  shared_bus (ctx_of s 1) = Some 7 /\ shared_bus (ctx_of s 2) = Some 7 /\ lock (ctx_of s 1) = Held 1.
Proof.
  eexists. split.
  - connects 1 (conn_begin 1 fresh 1). connects 1 (conn_registry 1 _ 1). connects 1 (conn_opened 1 _ 1 7). connects 1 (conn_done 1 _ 1 7).
    connects 2 (conn_begin 2 _ 2). connects 2 (conn_registry 2 _ 2). connects 2 (conn_found 2 _ 2 7). connects 2 (conn_done 2 _ 2 7).
    calls 1 (call_begin 1 _ 1). calls 1 (call_lock 1 _ 1). calls 1 (call_bus 1 _ 1). calls 2 (call_begin 2 _ 2). calls 2 (call_lock 2 _ 2).
    disconnects 3 (disc_begin 3 _ 1). apply rtc_refl.
  - vm_compute. done.
Qed.

(** Callers that keep to the header only: thread 1 starts its call before thread
    2 starts the disconnect.  Thread 2 gets the mutex first; thread 1, which
    waited for it, locks a destroyed mutex... *)
Lemma destroyed_mutex_locked : exists s s' i, steps fresh s /\ step 1 s (Lock i) s' /\ lock (ctx_of s i) = Destroyed.
Proof.
  eexists _, _, 1. split; [|split].
  - connects 1 (conn_begin 1 fresh 1). connects 1 (conn_registry 1 _ 1). connects 1 (conn_opened 1 _ 1 7). connects 1 (conn_done 1 _ 1 7).
    calls 1 (call_begin 1 _ 1). disconnects 2 (disc_begin 2 _ 1). disconnects 2 (disc_lock 2 _ 1).
    disconnects 2 (disc_registry 2 _ 1). disconnects 2 (disc_detach 2 _ 1). disconnects 2 (disc_unlock 2 _ 1).
    disconnects 2 (disc_destroy 2 _ 1). apply rtc_refl.
  - apply step_call, (call_lock 1 _ 1); side.
  - by vm_compute.
Qed.

(** ... or has it between the unlock and the destroy, and follows the pointer
    that the disconnect has cleared. *)
Lemma cleared_pointer_used : exists s s' i, steps fresh s /\ step 1 s (Use i) s' /\ shared_bus (ctx_of s i) = None.
Proof.
  eexists _, _, 1. split; [|split].
  - connects 1 (conn_begin 1 fresh 1). connects 1 (conn_registry 1 _ 1). connects 1 (conn_opened 1 _ 1 7). connects 1 (conn_done 1 _ 1 7).
    calls 1 (call_begin 1 _ 1). disconnects 2 (disc_begin 2 _ 1). disconnects 2 (disc_lock 2 _ 1).
    disconnects 2 (disc_registry 2 _ 1). disconnects 2 (disc_detach 2 _ 1). disconnects 2 (disc_unlock 2 _ 1).
    calls 1 (call_lock 1 _ 1). apply rtc_refl.
  - apply step_call, (call_bus 1 _ 1); side.
  - by vm_compute.
Qed.

(** ** The theorem *)

(** C24. The locks of the RTU client.  As long as no call is waiting for the
    mutex of a context at the moment when a disconnect gets it, every
    interleaving of threads that connect, call and disconnect contexts which
    share buses is safe: a mutex is locked only while it exists, unlocked by the
    thread that has it and destroyed while nobody has it or waits for it; the
    record of a bus is there when it is used, and goes with its last context,
    while no transaction is running; two transactions on a bus never overlap; a
    disconnect that has the mutex is alone in its context; and while a thread is
    inside, some thread gets on, so the order in which the three locks are taken
    cannot deadlock.  The condition is needed: without it, there are runs of
    callers that keep to the header in which a destroyed mutex is locked, and
    runs in which the cleared pointer to the bus is followed. *)
Theorem rtu_locks_safe :
  (forall s, careful_steps fresh s ->
    (forall t a s', careful_step t s a s' -> allowed t s a) /\
    (forall t1 t2 i1 i2 b, pc_of s t1 = OnBus i1 -> pc_of s t2 = OnBus i2 ->
       shared_bus (ctx_of s i1) = Some b -> shared_bus (ctx_of s i2) = Some b -> t1 = t2) /\
    (forall t t' i, pc_of s t = DiscHold i -> on (pc_of s t') = Some i -> t = t') /\
    (forall t, pc_of s t <> Idle -> gets_on s)) /\
  (exists s s' i, steps fresh s /\ step 1 s (Lock i) s' /\ lock (ctx_of s i) = Destroyed) /\
  (exists s s' i, steps fresh s /\ step 1 s (Use i) s' /\ shared_bus (ctx_of s i) = None).
Proof.
  split; [|split; [apply destroyed_mutex_locked | apply cleared_pointer_used]].
  intros s R%lock_steps_inv. split_and!.
  - intros t a s'. by apply lock_step_allowed.
  - by apply bus_exclusive.
  - intros t t' i E. apply (inv_alone _ R). by rewrite E.
  - by apply active_gets_on.
Qed.

Lemma rtu_locks_safe_witness : exists s, careful_steps fresh s /\
  pc_of s 1 = OnBus 1 /\ pc_of s 2 = CallHold 2 /\ pc_of s 3 = DiscWait 1 /\ gets_on s /\
  (forall t', shared_bus (ctx_of s 2) = Some 7 -> pc_of s t' = OnBus 2 -> 1 = t').
Proof.
  destruct three_threads as (s & R & H1 & H2 & H3 & C1 & C2 & _). exists s.
  destruct (proj1 rtu_locks_safe s R) as (_ & X & _ & G). split_and!; try done.
  - apply (G 1). by rewrite H1.
  - intros t' C H. by apply (X 1 t' 1 2 7).
Defined.
