(* ===== verification/Kernel.v ===== *)
(** * Descriptors, locks, threads: the process as the kernel accounts for it

    The functions that open, configure and close descriptors work on a
    [kernel]: the open descriptors, counts of live mutexes, threads and heap
    blocks, the answers of the environment to come, and the calls that are
    visible outside.  As in [Sys] the answers are a script, so the theorems are
    about every behaviour of the environment; a call whose answer is missing
    has not returned.

    A new descriptor is a number that was not open (an answer that is not
    counts as a failure: the kernel does not give one out twice).  Using or
    closing a descriptor that is not open, and releasing a lock, thread or
    block that is not live, is [UB]: it may hit somebody else's. *)

From stdpp Require Import gmap strings.
From S2P Require Import Prelude Buffer Sys.

(** A termios: the flags that the code sets, and the line speeds ([B0] is
    [(speed_t)0]). *)
Inductive cflag := CLOCAL | CREAD | CS7 | CS8 | PARENB | PARODD | CSTOPB.
Inductive iflag := IGNPAR.
Inductive speed_t := B0 | B1200 | B2400 | B4800 | B9600 | B19200 | B38400 | B57600 | B115200 | B230400 | B460800.

#[global] Instance cflag_eq_dec : EqDecision cflag.
Proof. solve_decision. Defined.
#[global] Instance iflag_eq_dec : EqDecision iflag.
Proof. solve_decision. Defined.
#[global] Instance speed_eq_dec : EqDecision speed_t.
Proof. solve_decision. Defined.

Record termios := Termios {
  c_iflag : list iflag;
  c_oflag : Z;
  c_cflag : list cflag;
  c_lflag : Z;
  cc_vmin : Z;
  cc_vtime : Z;
  c_ispeed : speed_t;
  c_ospeed : speed_t;
}.

(** What the code shows to the outside. *)
Inductive event :=
  | LineSet (fd : Z) (options : termios)  (** tcsetattr *)
  | LineFlushed (fd : Z)            (** tcflush *)
  | Rs485Set (fd mode : Z)          (** TIOCSRS485 *)
  | NonBlocking (fd : Z)            (** O_NONBLOCK *)
  | BlockingAgain (fd : Z)          (** the flags from before O_NONBLOCK *)
  | KeepAliveSet (fd idle interval count : Z)
  | RecvTimeoutSet (fd sec usec : Z)    (** SO_RCVTIMEO *)
  | SendTimeoutSet (fd sec usec : Z)    (** SO_SNDTIMEO *)
  | Bound (fd port : Z)             (** bind, to any address *)
  | Listening (fd backlog : Z)
  | Connecting (fd : Z) (host : option string) (port : Z)
  | LinkChanged (fd connected : Z)  (** the [on_link] callback *)
  | ErrorCalled (code : Z)          (** the [on_error] callback *)
  | InitCalled                      (** the [on_init] callback *)
  | ShutDown (fd : Z)
  | Paused.                         (** a sleep of fixed length *)

Record kernel := Kernel {
  fds : gset Z;
  locks : Z;
  threads : Z;
  blocks : Z;
  answers : list (Z + errno);
  events : list event;
}.

Definition set_fds (f : gset Z) (k : kernel) : kernel :=
  Kernel f (locks k) (threads k) (blocks k) (answers k) (events k).
Definition add_locks (n : Z) (k : kernel) : kernel :=
  Kernel (fds k) (locks k + n) (threads k) (blocks k) (answers k) (events k).
Definition add_threads (n : Z) (k : kernel) : kernel :=
  Kernel (fds k) (locks k) (threads k + n) (blocks k) (answers k) (events k).
Definition add_blocks (n : Z) (k : kernel) : kernel :=
  Kernel (fds k) (locks k) (threads k) (blocks k + n) (answers k) (events k).
Definition set_answers (l : list (Z + errno)) (k : kernel) : kernel :=
  Kernel (fds k) (locks k) (threads k) (blocks k) l (events k).
Definition add_event (e : event) (k : kernel) : kernel :=
  Kernel (fds k) (locks k) (threads k) (blocks k) (answers k) (events k ++ [e]).

(** ** System calls *)

Definition answer : st kernel (Z + errno) := fun k =>
  match answers k with
  | [] => Fail Blocked
  | a :: r => Ok (a, set_answers r k)
  end.

(** The C return value of a call: -1 is a failure. *)
Definition return_value (a : Z + errno) : Z := match a with inl v => v | inr _ => -1 end.

(** [open], [socket], [accept]: a new descriptor or -1. *)
Definition sys_open : st kernel Z :=
  let! a := answer in
  let! k := get in
  match a with
  | inl n => if bool_decide (0 <= n /\ n ∉ fds k) then put (set_fds ({[n]} ∪ fds k) k) ;;; ret n else ret (-1)
  | inr _ => ret (-1)
  end.

(** A call on a descriptor: setsockopt, ioctl, fcntl, tcsetattr, bind, ... *)
Definition sys_call (fd : Z) : st kernel (Z + errno) :=
  let! k := get in
  if bool_decide (fd ∈ fds k) then answer else stop UB.

(** Anything else that is done with a descriptor. *)
Definition sys_use (fd : Z) : st kernel unit := fun k => if bool_decide (fd ∈ fds k) then Ok (tt, k) else Fail UB.

Definition sys_ctl (fd : Z) : st kernel Z := let! a := sys_call fd in ret (return_value a).

Definition sys_close (fd : Z) : st kernel unit := fun k =>
  if bool_decide (fd ∈ fds k) then Ok (tt, set_fds (fds k ∖ {[fd]}) k) else Fail UB.

Definition emit (e : event) : st kernel unit := fun k => Ok (tt, add_event e k).

Definition sys_shutdown (fd : Z) : st kernel unit := fun k =>
  if bool_decide (fd ∈ fds k) then Ok (tt, add_event (ShutDown fd) k) else Fail UB.

(** [pthread_mutex_init], [pthread_create], [malloc]: 0 or success, an answer
    says whether. *)
Definition acquire (add : Z -> kernel -> kernel) : st kernel Z :=
  let! a := answer in
  let! k := get in
  if return_value a =? 0 then put (add 1 k) ;;; ret 0 else ret (-1).
Definition release (count : kernel -> Z) (add : Z -> kernel -> kernel) : st kernel unit := fun k =>
  if 0 <? count k then Ok (tt, add (-1) k) else Fail UB.

Definition mutex_init : st kernel Z := acquire add_locks.
Definition mutex_destroy : st kernel unit := release locks add_locks.
Definition thread_create : st kernel Z := acquire add_threads.
Definition thread_join : st kernel unit := release threads add_threads.
(** 0: a new block; else NULL. *)
Definition heap_alloc : st kernel Z := acquire add_blocks.
Definition heap_free : st kernel unit := release blocks add_blocks.

(** ** A logic of computations

    [wp m Q s]: from [s], [m] ends in a state that satisfies [Q] or is blocked
    in a call; nothing undefined happens and no loop runs out of fuel. *)

Definition wp {S A} (m : st S A) (Q : A -> S -> Prop) (s : S) : Prop :=
  match m s with
  | Ok (a, s') => Q a s'
  | Fail e => e = Blocked
  end.

Section Wp.
Context {S : Type}.

Lemma wp_ret {A} (a : A) Q (s : S) : Q a s -> wp (ret a) Q s.
Proof. done. Qed.

Lemma wp_get Q (s : S) : Q s s -> wp get Q s.
Proof. done. Qed.

Lemma wp_put Q (s s' : S) : Q tt s' -> wp (put s') Q s.
Proof. done. Qed.

Lemma wp_bind {A B} (m : st S A) (f : A -> st S B) Q s :
  wp m (fun a => wp (f a) Q) s -> wp (bind m f) Q s.
Proof. unfold wp, bind. by destruct (m s) as [[a s']|]. Qed.

Lemma wp_mono {A} (m : st S A) (P Q : A -> S -> Prop) s :
  wp m P s -> (forall a s', P a s' -> Q a s') -> wp m Q s.
Proof. unfold wp. destruct (m s) as [[a s']|]; auto. Qed.

Lemma wp_ok {A} (m : st S A) Q s a s' : wp m Q s -> m s = Ok (a, s') -> Q a s'.
Proof. unfold wp. intros H E. by rewrite E in H. Qed.

Lemma wp_no_ub {A} (m : st S A) Q s : wp m Q s -> no_ub (m s).
Proof. unfold wp, no_ub. destruct (m s) as [[a s']|e]; [done|]. by intros -> [=]. Qed.
End Wp.

Lemma wp_lift {S A} (o : outcome A) Q (s : S) a : o = Ok a -> Q a s -> wp (lift o) Q s.
Proof. by intros -> HQ. Qed.

Lemma wp_on_fst {A B W} (m : st B A) Q (b : B) (w : W) :
  wp m (fun a b' => Q a (b', w)) b -> wp (on_fst m) Q (b, w).
Proof. unfold wp, on_fst. destruct (m b) as [[a b']|]; done. Qed.

Lemma wp_on_snd {A B W} (m : st W A) Q (b : B) (w : W) :
  wp m (fun a w' => Q a (b, w')) w -> wp (on_snd m) Q (b, w).
Proof. unfold wp, on_snd. destruct (m w) as [[a w']|]; done. Qed.

(** ** The system calls in the logic *)

(** Like [k], with other answers to come. *)
Definition later (k : kernel) (l : list (Z + errno)) : kernel := set_answers l k.

Lemma wp_answer Q k : (forall a l, Q a (later k l)) -> wp answer Q k.
Proof. intros HQ. unfold wp, answer. destruct (answers k); [done | apply HQ]. Qed.

Lemma wp_open Q k :
  (forall l, Q (-1) (later k l)) ->
  (forall n l, 0 <= n -> n ∉ fds k -> Q n (set_fds ({[n]} ∪ fds k) (later k l))) ->
  wp sys_open Q k.
Proof.
  intros H1 H2. apply wp_bind, wp_answer. intros a l. apply wp_bind, wp_get.
  destruct a as [n|e]; [|apply H1]. case_bool_decide as Hn; [|apply H1].
  destruct Hn. apply wp_bind, wp_put, wp_ret. by apply H2.
Qed.

Lemma wp_call fd Q k : fd ∈ fds k -> (forall a l, Q a (later k l)) -> wp (sys_call fd) Q k.
Proof.
  intros Hfd HQ. apply wp_bind, wp_get. rewrite bool_decide_true by done. by apply wp_answer.
Qed.

Lemma wp_ctl fd Q k : fd ∈ fds k -> (forall v l, Q v (later k l)) -> wp (sys_ctl fd) Q k.
Proof. intros Hfd HQ. apply wp_bind, wp_call; [done|]. intros a l. apply HQ. Qed.

Lemma wp_use fd Q k : fd ∈ fds k -> Q tt k -> wp (sys_use fd) Q k.
Proof. intros Hfd HQ. unfold wp, sys_use. by rewrite bool_decide_true. Qed.

Lemma wp_close fd Q k : fd ∈ fds k -> Q tt (set_fds (fds k ∖ {[fd]}) k) -> wp (sys_close fd) Q k.
Proof. intros Hfd HQ. unfold wp, sys_close. by rewrite bool_decide_true. Qed.

Lemma wp_shutdown fd Q k : fd ∈ fds k -> Q tt (add_event (ShutDown fd) k) -> wp (sys_shutdown fd) Q k.
Proof. intros Hfd HQ. unfold wp, sys_shutdown. by rewrite bool_decide_true. Qed.

Lemma wp_emit e Q k : Q tt (add_event e k) -> wp (emit e) Q k.
Proof. done. Qed.

Lemma wp_acquire add Q k :
  (forall l, Q (-1) (later k l)) -> (forall l, Q 0 (add 1 (later k l))) -> wp (acquire add) Q k.
Proof.
  intros H1 H2. apply wp_bind, wp_answer. intros a l. apply wp_bind, wp_get.
  destruct (return_value a =? 0); [apply wp_bind, wp_put, wp_ret, H2 | apply wp_ret, H1].
Qed.

Lemma wp_release count add Q k : 0 < count k -> Q tt (add (-1) k) -> wp (release count add) Q k.
Proof. intros Hc HQ. unfold wp, release. by rewrite (proj2 (Z.ltb_lt _ _)). Qed.

(** The same for calls whose answer matters: it is the next of the script. *)
Lemma wp_acquire_next add Q k :
  (forall a l, answers k = a :: l -> Q (-1) (later k l)) -> (forall a l, answers k = a :: l -> Q 0 (add 1 (later k l))) ->
  wp (acquire add) Q k.
Proof.
  intros H1 H2. unfold wp, acquire, bind, answer, get. destruct (answers k) as [|a l] eqn:E; [done|].
  destruct (return_value a =? 0); [by apply (H2 a) | by apply (H1 a)].
Qed.

Lemma wp_open_next Q k :
  (forall a l, answers k = a :: l -> Q (-1) (later k l)) ->
  (forall n l, answers k = inl n :: l -> 0 <= n -> n ∉ fds k -> Q n (set_fds ({[n]} ∪ fds k) (later k l))) ->
  wp sys_open Q k.
Proof.
  intros H1 H2. unfold wp, sys_open, bind, answer, get. destruct (answers k) as [|[n|e] l] eqn:E; [done| |by apply (H1 (inr e))].
  case_bool_decide as Hn; [|by apply (H1 (inl n))]. destruct Hn. by apply H2.
Qed.

(** ** Accounts

    What a process holds. *)
Definition account (k : kernel) : gset Z * (Z * Z * Z) := (fds k, (locks k, threads k, blocks k)).

Lemma account_iff k k' :
  account k' = account k <->
  fds k' = fds k /\ locks k' = locks k /\ threads k' = threads k /\ blocks k' = blocks k.
Proof. unfold account. split; [by intros [= -> -> -> ->] | by intros (-> & -> & -> & ->)]. Qed.

(** A mutex more than at first: it can be given back. *)
Lemma lock_given_back base k : account k = account (add_locks 1 base) ->
  0 <= locks base -> 0 < locks k /\ account (add_locks (-1) k) = account base.
Proof.
  intros (Hf & Hl & Ht & Hb)%account_iff Hs. cbn in *. split; [lia|]. apply account_iff. cbn. split_and!; try done. lia.
Qed.

(** ** Calls of [on_link] *)

Definition is_link (e : event) : bool := match e with LinkChanged _ _ => true | _ => false end.

(** The calls of [on_link] so far. *)
Definition links (k : kernel) : list event := filter is_link (events k).

(** [k'] holds what [k] holds and [on_link] was not called in between. *)
Definition quiet (k k' : kernel) : Prop := account k' = account k /\ links k' = links k.

Lemma quiet_refl k : quiet k k.
Proof. done. Qed.

Lemma quiet_trans k1 k2 k3 : quiet k1 k2 -> quiet k2 k3 -> quiet k1 k3.
Proof. intros [H1 H2] [H3 H4]. split; congruence. Qed.

Lemma quiet_event k e : is_link e = false -> quiet k (add_event e k).
Proof.
  intros He. split; [done|]. unfold links. cbn [events add_event].
  rewrite filter_app, (filter_cons_False _ e []), filter_nil, app_nil_r; [done | rewrite He; tauto].
Qed.

Lemma wp_quiet e Q k : is_link e = false -> (forall k', quiet k k' -> Q tt k') -> wp (emit e) Q k.
Proof. intros He HQ. apply wp_emit, HQ. by apply quiet_event. Qed.

Lemma links_app l (es : list event) k : events k = l ++ es -> links k = filter is_link l ++ filter is_link es.
Proof. intros He. unfold links. by rewrite He, filter_app. Qed.

(** One step of a symbolic execution: the rule of the next call.  Side
    conditions about open descriptors and counts are left to [ledger]. *)
Ltac ledger := cbn [fds locks threads blocks later set_fds add_locks add_threads add_blocks set_answers add_event];
  first [set_solver | lia].

Ltac wp_step :=
  match goal with
  | |- wp (bind _ _) _ _ => apply wp_bind
  | |- wp (ret _) _ _ => apply wp_ret
  | |- wp get _ _ => apply wp_get
  | |- wp (put _) _ _ => apply wp_put
  | |- wp answer _ _ => apply wp_answer; intros ? ?
  | |- wp sys_open _ _ => apply wp_open; [intros ?|intros ? ? ? ?]
  | |- wp (sys_call _) _ _ => apply wp_call; [try ledger|intros ? ?]
  | |- wp (sys_ctl _) _ _ => apply wp_ctl; [try ledger|intros ? ?]
  | |- wp (sys_close _) _ _ => apply wp_close; [try ledger|]
  | |- wp (sys_shutdown _) _ _ => apply wp_shutdown; [try ledger|]
  | |- wp (emit _) _ _ => apply wp_emit
  | |- wp mutex_init _ _ => apply wp_acquire; intros ?
  | |- wp thread_create _ _ => apply wp_acquire; intros ?
  | |- wp heap_alloc _ _ => apply wp_acquire; intros ?
  | |- wp mutex_destroy _ _ => apply wp_release; [try ledger|]
  | |- wp thread_join _ _ => apply wp_release; [try ledger|]
  | |- wp heap_free _ _ => apply wp_release; [try ledger|]
  | |- wp (if ?b then _ else _) _ _ => destruct b eqn:?
  end.

(** An equation between sets of descriptors, from the equations for [fds] and
    from what is not open. *)
Ltac same_fds :=
  repeat match goal with H : fds _ = _ |- _ => rewrite H; clear H end;
  repeat match goal with H : _ ∉ _ |- _ => revert H end;
  clear; intros; set_solver.

(** Two states have the same account: field by field. *)
Ltac accounts :=
  apply account_iff;
  cbn [fds locks threads blocks later set_fds add_locks add_threads add_blocks set_answers add_event] in *;
  split_and!; first [lia | solve [same_fds] | set_solver].

#[export] Hint Resolve wp_ret wp_get wp_put wp_emit : modbus.
