(* ===== verification/RtuPort.v ===== *)
(** * The serial port and its thread: [src/modbus_rtu.c]

    Opening and configuring the port, starting and stopping the thread of a
    server, and the thread's loop.  A NULL pointer is [None]; [fd_out] is
    modelled by the value it points to. *)

From stdpp Require Import gmap.
From S2P Require Import Prelude Buffer Defines Bits Pdu PduSpec Ptr Rtu Sys Kernel.

(** ** Opening *)

(** With the rates that are there on some systems only. *)
Definition baud_to_speed (baud_rate : Z) : speed_t :=
  if (baud_rate =? 0) || (baud_rate =? 9600) then B9600
  else if baud_rate =? 1200 then B1200
  else if baud_rate =? 2400 then B2400
  else if baud_rate =? 4800 then B4800
  else if baud_rate =? 19200 then B19200
  else if baud_rate =? 38400 then B38400
  else if baud_rate =? 57600 then B57600
  else if baud_rate =? 115200 then B115200
  else if baud_rate =? 230400 then B230400
  else if baud_rate =? 460800 then B460800
  else B0.

Definition empty_path (p : option string) : bool :=
  match p with None => true | Some s => bool_decide (s = ""%string) end.

(** [options.c_cflag |= ...] *)
Definition add_cflag (l : list cflag) (t : termios) : termios :=
  Termios (c_iflag t) (c_oflag t) (c_cflag t ++ l) (c_lflag t) (cc_vmin t) (cc_vtime t) (c_ispeed t) (c_ospeed t).

Definition set_ispeed (speed : speed_t) (t : termios) : termios :=
  Termios (c_iflag t) (c_oflag t) (c_cflag t) (c_lflag t) (cc_vmin t) (cc_vtime t) speed (c_ospeed t).
Definition set_ospeed (speed : speed_t) (t : termios) : termios :=
  Termios (c_iflag t) (c_oflag t) (c_cflag t) (c_lflag t) (cc_vmin t) (cc_vtime t) (c_ispeed t) speed.

Definition configure_serial (fd : Z) (serial : mb_rtu_serial_config) : st kernel Z :=
  let speed := baud_to_speed (baud_rate serial) in
  let data_bits := effective_data_bits (data_bits serial) in
  let stop_bits := effective_stop_bits (stop_bits serial) in
  if bool_decide (speed = B0) || (negb (data_bits =? 7) && negb (data_bits =? 8))
     || (negb (stop_bits =? 1) && negb (stop_bits =? 2)) then ret (-1) else
  let options := Termios [IGNPAR] 0 [CLOCAL; CREAD] 0 0 0 B0 B0 in
  let options := if data_bits =? 7 then add_cflag [CS7] options else add_cflag [CS8] options in
  let parity := if parity serial =? MB_RTU_PARITY_EVEN then Some [PARENB]
                else if parity serial =? MB_RTU_PARITY_ODD then Some [PARENB; PARODD]
                else if negb (parity serial =? MB_RTU_PARITY_NONE) then None else Some [] in
  match parity with
  | None => ret (-1)
  | Some flags =>
      let options := add_cflag flags options in
      let options := if stop_bits =? 2 then add_cflag [CSTOPB] options else options in
      let! i := answer in
      if negb (return_value i =? 0) then ret (-1) else
      let options := set_ispeed speed options in
      let! o := answer in
      if negb (return_value o =? 0) then ret (-1) else
      let options := set_ospeed speed options in
      let! rc := sys_ctl fd in
      if negb (rc =? 0) then ret (-1) else
      emit (LineSet fd options) ;;;
      emit (LineFlushed fd) ;;;
      ret 0
  end.

Definition configure_rs485 (fd mode : Z) : st kernel Z :=
  if mode =? MB_RTU_RS485_NONE then ret 0
  else if negb (mode =? MB_RTU_RS485_RTS_ON_SEND) && negb (mode =? MB_RTU_RS485_RTS_AFTER_SEND) then ret (-1)
  else
    let! rc := sys_ctl fd in
    if rc =? 0 then emit (Rs485Set fd mode) ;;; ret rc else ret rc.

(** Returns the code and the new [*fd_out]. *)
Definition mb_rtu_open (fd_out : option Z) (serial : option mb_rtu_serial_config)
    : st kernel (Z * option Z) :=
  match fd_out, serial with
  | Some _, Some serial =>
      if empty_path (device_path serial) then ret (-1, fd_out) else
      let! fd := sys_open in
      if fd <? 0 then ret (-1, fd_out) else
      let! rc := configure_serial fd serial in
      let! rc := if negb (rc =? 0) then ret (-1) else configure_rs485 fd (rs485_mode serial) in
      if negb (rc =? 0) then sys_close fd ;;; ret (-1, fd_out)
      else ret (0, Some fd)
  | _, _ => ret (-1, fd_out)
  end.

(** Returns the new [*fd]. *)
Definition mb_rtu_close (fd : option Z) : st kernel (option Z) :=
  match fd with
  | Some fd => if 0 <=? fd then sys_close fd ;;; ret (Some (-1)) else ret (Some fd)
  | None => ret None
  end.

(** ** The transport of a server *)

(** Which callbacks are set; what they do is up to the operations that call
    them. *)
Record mb_rtu_config := RtuConfig {
  serial : mb_rtu_serial_config;
  recv_timeout_ms : Z;
  has_on_link : bool;
  has_on_init : bool;
  has_on_process : bool;
  has_on_error : bool;
}.

Record mb_rtu_ctx := RtuCtx {
  keep_running : Z;
  cfg : mb_rtu_config;
  serial_fd : Z;
  initialized : Z;
}.

Definition set_keep_running (v : Z) (c : mb_rtu_ctx) : mb_rtu_ctx := RtuCtx v (cfg c) (serial_fd c) (initialized c).
Definition set_serial_fd (v : Z) (c : mb_rtu_ctx) : mb_rtu_ctx := RtuCtx (keep_running c) (cfg c) v (initialized c).
Definition set_initialized (v : Z) (c : mb_rtu_ctx) : mb_rtu_ctx := RtuCtx (keep_running c) (cfg c) (serial_fd c) v.

Definition mb_rtu_link_call (c : mb_rtu_ctx) (fd connected : Z) : st kernel unit :=
  if has_on_link (cfg c) then emit (LinkChanged fd connected) else ret tt.

(** The serial port of [c], for functions that take [&ctx->serial_fd]. *)
Definition close_port (c : mb_rtu_ctx) : st kernel mb_rtu_ctx :=
  let! fd := mb_rtu_close (Some (serial_fd c)) in
  ret (set_serial_fd (default (serial_fd c) fd) c).

(** The way out of a failed start. *)
Definition abandon (c : mb_rtu_ctx) : st kernel mb_rtu_ctx :=
  let! c := close_port c in
  mutex_destroy ;;;
  ret c.

(** [mb_rtu_start] once the port is open and does not block. *)
Definition launch (c : mb_rtu_ctx) : st kernel (Z * option mb_rtu_ctx) :=
  let c := set_keep_running 1 c in
  (if has_on_init (cfg c) then emit InitCalled else ret tt) ;;;
  let! rc := thread_create in
  if negb (rc =? 0) then
    let! c := abandon c in
    ret (-1, Some (set_keep_running 0 c))
  else
  let c := set_initialized 1 c in
  mb_rtu_link_call c (serial_fd c) 1 ;;;
  ret (0, Some c).

(** Returns the code and the context (a NULL context stays NULL). *)
Definition mb_rtu_start (ctx : option mb_rtu_ctx) (config : option mb_rtu_config)
    : st kernel (Z * option mb_rtu_ctx) :=
  match ctx, config with
  | Some c, Some config =>
      if empty_path (device_path (serial config)) then ret (-1, ctx)
      else if negb (initialized c =? 0) then ret (-1, ctx) else
      let timeout := if recv_timeout_ms config =? 0 then MODBUS_RTU_DEFAULT_TIMEOUT_MS
                     else recv_timeout_ms config in
      let c := RtuCtx 0 (RtuConfig (serial config) timeout (has_on_link config) (has_on_init config)
                           (has_on_process config) (has_on_error config)) (-1) 0 in
      let! rc := mutex_init in
      if negb (rc =? 0) then ret (-1, Some c) else
      let! '(rc, fd) := mb_rtu_open (Some (serial_fd c)) (Some (serial (cfg c))) in
      let c := set_serial_fd (default (serial_fd c) fd) c in
      if negb (rc =? 0) then mutex_destroy ;;; ret (-1, Some c) else
      let! flags := sys_ctl (serial_fd c) in
      let! failed := if flags <? 0 then ret true
                     else let! rc := sys_ctl (serial_fd c) in ret (rc <? 0) in
      if failed then let! c := abandon c in ret (-1, Some c) else
      emit (NonBlocking (serial_fd c)) ;;;
      launch c
  | _, _ => ret (-1, ctx)
  end.

(** ** The thread

    It shares [keep_running] and [serial_fd] with the functions above, so what a
    round sees of the context is an argument. *)
Section Thread.
Context {W : Type} (on_process : Z -> st (kernel * W) Z).

(** A round after the loop condition.  [c] is the context when it begins, [c']
    when [on_process] has returned: another thread may have written it in the
    meantime.  [false]: leave the loop. *)
Definition thread_round (c c' : mb_rtu_ctx) : st (kernel * W) bool :=
  let fd := serial_fd c in
  if fd <? 0 then ret false
  else if has_on_process (cfg c) then
    let! rc := on_process fd in
    on_fst ((if (rc <? 0) && negb (keep_running c' =? 0) && has_on_error (cfg c')
             then emit (ErrorCalled rc) else ret tt) ;;;
            emit Paused) ;;;
    ret true
  else on_fst (emit Paused) ;;; ret true.

(** At most [n] rounds during which nobody writes the context.  [false]: the
    thread has left its loop. *)
Fixpoint mb_rtu_thread (n : nat) (c : mb_rtu_ctx) : st (kernel * W) bool :=
  match n with
  | O => ret true
  | S n =>
      if keep_running c =? 0 then ret false else
      let! continue := thread_round c c in
      if continue then mb_rtu_thread n c else ret false
  end.

(** What the thread still does once its context has become [c']: the end of a
    round that began with the context [c], if it was in one, and its loop, whose
    condition it reads once more.  If it goes on then, nothing ends it. *)
Definition thread_rest (inside : option mb_rtu_ctx) (c' : mb_rtu_ctx) : st (kernel * W) unit :=
  let! continue := match inside with Some c => thread_round c c' | None => ret true end in
  if continue then
    let! running := mb_rtu_thread 1 c' in
    if running : bool then stop NoFuel else ret tt
  else ret tt.

(** [rest]: what the thread does while [pthread_join] waits for its end. *)
Definition mb_rtu_stop (rest : mb_rtu_ctx -> st (kernel * W) unit) (ctx : option mb_rtu_ctx)
    : st (kernel * W) (option mb_rtu_ctx) :=
  match ctx with
  | None => ret None
  | Some c =>
      if initialized c =? 0 then ret (Some c) else
      let c := set_keep_running 0 c in
      rest c ;;;
      on_fst thread_join ;;;
      let! c := on_fst (if 0 <=? serial_fd c then mb_rtu_link_call c (serial_fd c) 0 ;;; close_port c
                        else ret c) in
      on_fst mutex_destroy ;;;
      ret (Some (set_initialized 0 c))
  end.
End Thread.
