(* ===== verification/RtuPortSpec.v ===== *)
(** * What opening, starting and stopping a serial port does to the process *)

From stdpp Require Import gmap.
From S2P Require Import Prelude Buffer Defines Bits Pdu PduSpec Ptr Rtu Sys Kernel RtuPort.

(** ** Line settings *)

Lemma t35_u32 s : is_u32 (mb_rtu_t35_us s).
Proof.
  unfold mb_rtu_t35_us, is_u32, u32, RTU_T35_FIXED_US. destruct s as [s|]; [|lia].
  destruct (_ <? _); [lia|]. apply Z.mod_pos_bound. lia.
Qed.

(** What a termios says of a line: the speed that a [Bnnn] stands for, the size
    of a character, the parity and the number of stop bits. *)
Definition bits_per_second (speed : speed_t) : Z :=
  match speed with
  | B0 => 0 | B1200 => 1200 | B2400 => 2400 | B4800 => 4800 | B9600 => 9600 | B19200 => 19200 | B38400 => 38400
  | B57600 => 57600 | B115200 => 115200 | B230400 => 230400 | B460800 => 460800
  end.

Definition on_line (f : cflag) (t : termios) : bool := bool_decide (f ∈ c_cflag t).

Record line_is (t : termios) (baud data par stop : Z) : Prop := LineIs {
  line_speed : bits_per_second (c_ispeed t) = baud /\ bits_per_second (c_ospeed t) = baud;
  line_size : on_line CS8 t = (data =? 8) /\ on_line CS7 t = (data =? 7);
  line_parity : on_line PARENB t = negb (par =? MB_RTU_PARITY_NONE) /\ on_line PARODD t = (par =? MB_RTU_PARITY_ODD);
  line_stop : on_line CSTOPB t = (stop =? 2);
  (** The receiver is on, the modem lines are ignored, bytes pass unchanged in
      both directions, and a read returns at once. *)
  line_raw : on_line CREAD t = true /\ on_line CLOCAL t = true /\ c_iflag t = [IGNPAR] /\ c_oflag t = 0 /\
    c_lflag t = 0 /\ cc_vmin t = 0 /\ cc_vtime t = 0;
}.

Definition rates : list Z := [1200; 2400; 4800; 9600; 19200; 38400; 57600; 115200; 230400; 460800].

(** A field that is 0 has its default: 9600 bits per second, 8 data bits, 1
    stop bit. *)
Definition baud_of (s : mb_rtu_serial_config) : Z := if baud_rate s =? 0 then 9600 else baud_rate s.
Definition data_of (s : mb_rtu_serial_config) : Z := if data_bits s =? 0 then 8 else data_bits s.
Definition stop_of (s : mb_rtu_serial_config) : Z := if stop_bits s =? 0 then 1 else stop_bits s.

Definition line_supported (s : mb_rtu_serial_config) : Prop :=
  baud_of s ∈ rates /\ data_of s ∈ [7; 8] /\ stop_of s ∈ [1; 2] /\
  parity s ∈ [MB_RTU_PARITY_NONE; MB_RTU_PARITY_EVEN; MB_RTU_PARITY_ODD].

(** [t] is the line that [s] asks for. *)
Definition line_for (s : mb_rtu_serial_config) (t : termios) : Prop :=
  line_supported s /\ line_is t (baud_of s) (data_of s) (parity s) (stop_of s).

Lemma baud_to_speed_rate s :
  (baud_to_speed (baud_rate s) = B0 /\ baud_of s ∉ rates) \/
  (baud_to_speed (baud_rate s) <> B0 /\ baud_of s ∈ rates /\ bits_per_second (baud_to_speed (baud_rate s)) = baud_of s).
Proof.
  unfold baud_to_speed, baud_of. destruct (baud_rate s =? 0); [right; split; [done|]; split; [by apply (bool_decide_unpack _) | done]|]. cbn [orb].
  repeat match goal with
  | |- context [if ?b =? ?n then _ else _] =>
      destruct (Z.eqb_spec b n) as [-> | ?]; [right; split; [done|]; split; [by apply (bool_decide_unpack _) | done]|]
  end.
  left. split; [done|]. unfold rates. rewrite !elem_of_cons, elem_of_nil. lia.
Qed.

Definition rs485_supported (mode : Z) : bool :=
  bool_decide (mode ∈ [MB_RTU_RS485_NONE; MB_RTU_RS485_RTS_ON_SEND; MB_RTU_RS485_RTS_AFTER_SEND]).

(** What the driver is told for a port that opens. *)
Definition line_events (fd : Z) (s : mb_rtu_serial_config) (options : termios) : list event :=
  [LineSet fd options; LineFlushed fd]
  ++ (if rs485_mode s =? MB_RTU_RS485_NONE then [] else [Rs485Set fd (rs485_mode s)]).

(** [k'] is [k] with more events [es] and other answers to come. *)
Definition moved (k : kernel) (es : list event) (k' : kernel) : Prop :=
  account k' = account k /\ events k' = events k ++ es.

Lemma moved_refl k : moved k [] k.
Proof. split; [done | by rewrite app_nil_r]. Qed.

Lemma moved_later k es k' l : moved k es k' -> moved k es (later k' l).
Proof. done. Qed.

Lemma moved_event k es k' e : moved k es k' -> moved k (es ++ [e]) (add_event e k').
Proof. intros [Ha He]. split; [done|]. cbn. by rewrite He, app_assoc. Qed.

Lemma moved_trans k es k1 es' k2 : moved k es k1 -> moved k1 es' k2 -> moved k (es ++ es') k2.
Proof. intros [Ha He] [Ha' He']. split; [congruence|]. by rewrite He', He, app_assoc. Qed.

Lemma moved_quiet k k' : account k' = account k -> events k' = events k -> moved k [] k'.
Proof. intros Ha He. split; [done|]. by rewrite He, app_nil_r. Qed.

Definition configured (fd : Z) (s : mb_rtu_serial_config) (k : kernel) (rc : Z) (k' : kernel) : Prop :=
  (rc <> 0 /\ moved k [] k') \/
  (rc = 0 /\ exists options, line_for s options /\ moved k [LineSet fd options; LineFlushed fd] k').

(** The flags of the parity, [None] if it is unknown. *)
Lemma parity_flags s l :
  (if parity s =? MB_RTU_PARITY_EVEN then Some [PARENB]
   else if parity s =? MB_RTU_PARITY_ODD then Some [PARENB; PARODD]
   else if negb (parity s =? MB_RTU_PARITY_NONE) then None else Some []) = Some l ->
  (parity s = MB_RTU_PARITY_NONE /\ l = []) \/ (parity s = MB_RTU_PARITY_EVEN /\ l = [PARENB]) \/
  (parity s = MB_RTU_PARITY_ODD /\ l = [PARENB; PARODD]).
Proof.
  unfold MB_RTU_PARITY_NONE, MB_RTU_PARITY_EVEN, MB_RTU_PARITY_ODD.
  destruct (Z.eqb_spec (parity s) 1); [intros [= <-]; tauto|].
  destruct (Z.eqb_spec (parity s) 2); [intros [= <-]; tauto|].
  destruct (Z.eqb_spec (parity s) 0); [intros [= <-]; tauto | done].
Qed.

Lemma options_for s speed flags :
  baud_of s ∈ rates -> bits_per_second speed = baud_of s -> data_of s = 7 \/ data_of s = 8 -> stop_of s = 1 \/ stop_of s = 2 ->
  (if parity s =? MB_RTU_PARITY_EVEN then Some [PARENB]
   else if parity s =? MB_RTU_PARITY_ODD then Some [PARENB; PARODD]
   else if negb (parity s =? MB_RTU_PARITY_NONE) then None else Some []) = Some flags ->
  let t := Termios [IGNPAR] 0 [CLOCAL; CREAD] 0 0 0 B0 B0 in
  let t := if data_of s =? 7 then add_cflag [CS7] t else add_cflag [CS8] t in
  let t := add_cflag flags t in
  let t := if stop_of s =? 2 then add_cflag [CSTOPB] t else t in
  line_for s (set_ospeed speed (set_ispeed speed t)).
Proof.
  intros Hb Hs Hd Hst Hp%parity_flags. cbv zeta. split.
  - split; [done|]. split; [destruct Hd as [-> | ->]; by apply (bool_decide_unpack _)|].
    split; [destruct Hst as [-> | ->]; by apply (bool_decide_unpack _)|].
    destruct Hp as [[-> _] | [[-> _] | [-> _]]]; by apply (bool_decide_unpack _).
  - destruct Hd as [-> | ->], Hst as [-> | ->], Hp as [[-> ->] | [[-> ->] | [-> ->]]]; by constructor.
Qed.

Lemma configure_serial_wp fd s k : fd ∈ fds k -> wp (configure_serial fd s) (configured fd s k) k.
Proof.
  intros Hfd. unfold configure_serial. cbv zeta.
  assert (forall k', account k' = account k -> events k' = events k -> wp (ret (-1)) (configured fd s k) k') as Hbad
    by (intros k' Ha He; left; split; [done | by apply moved_quiet]).
  destruct (baud_to_speed_rate s) as [[-> _] | (Hs & Hrate & Hbps)]; [by apply Hbad|].
  rewrite bool_decide_false by done. cbn [orb]. set (speed := baud_to_speed _) in *.
  change (effective_data_bits (data_bits s)) with (data_of s). change (effective_stop_bits (stop_bits s)) with (stop_of s).
  wp_step; [by apply Hbad|]. case_match eqn:Hpar; [|by apply Hbad].
  do 2 wp_step. wp_step; [by apply Hbad|]. do 2 wp_step. wp_step; [by apply Hbad|].
  do 2 wp_step. wp_step; [by apply Hbad|]. do 5 wp_step. right. split; [done|].
  eexists. split; [|split; [done | by cbn; rewrite <- app_assoc]].
  apply options_for; [done | done | lia | lia | done].
Qed.

(** Opening: the port is open and set up, or nothing has changed. *)
Definition opened (fd_out : option Z) (s : mb_rtu_serial_config) (k : kernel) (r : Z * option Z)
    (k' : kernel) : Prop :=
  (r = (-1, fd_out) /\ account k' = account k) \/
  exists n options, r = (0, Some n) /\ 0 <= n /\ n ∉ fds k /\
    line_for s options /\ rs485_supported (rs485_mode s) = true /\
    account k' = account (set_fds ({[n]} ∪ fds k) k) /\
    events k' = events k ++ line_events n s options.

Lemma close_fresh n k k' : n ∉ fds k -> account k' = account (set_fds ({[n]} ∪ fds k) k) ->
  account (set_fds (fds k' ∖ {[n]}) k') = account k.
Proof.
  intros Hn Ha. unfold account in *. cbn in *. injection Ha as Hf Hl Ht Hb.
  rewrite Hf, Hl, Ht, Hb. f_equal. clear -Hn. set_solver.
Qed.

Lemma account_fds k k' : account k' = account k -> fds k' = fds k.
Proof. by injection 1. Qed.

Lemma open_wp v s k : wp (mb_rtu_open (Some v) (Some s)) (opened (Some v) s k) k.
Proof.
  unfold mb_rtu_open. wp_step; [by left|]. do 2 wp_step; [by left|].
  rewrite (proj2 (Z.ltb_ge _ _)) by done. wp_step. eapply wp_mono; [apply configure_serial_wp; ledger|].
  set (k1 := set_fds _ _). cbn beta. intros rc k2 Hconf.
  assert (forall k', account k' = account k1 -> wp (sys_close n ;;; ret (-1, Some v)) (opened (Some v) s k) k') as Hfail.
  { intros k' Ha. pose proof (account_fds _ _ Ha) as Hf. apply wp_bind, wp_close; [rewrite Hf; ledger|]. left. split; [done|].
    by apply (close_fresh n). }
  wp_step. destruct Hconf as [[Hrc [Ha _]]|(-> & settings & Hset & Ha & He)].
  { rewrite (proj2 (Z.eqb_neq _ _)) by done. by apply wp_ret, Hfail. }
  cbn [Z.eqb negb]. unfold configure_rs485.
  assert (events k1 = events k) as Hk1 by done. rewrite Hk1 in He.
  wp_step.
  { apply wp_ret. right. exists n, settings. unfold rs485_supported, line_events. rewrite Heqb0, app_nil_r.
    split_and!; try done. apply Z.eqb_eq in Heqb0. by rewrite Heqb0. }
  wp_step; [by apply wp_ret, Hfail|].
  pose proof (account_fds _ _ Ha) as Hf. apply wp_bind, wp_ctl; [rewrite Hf; ledger|]. intros rc' l'.
  wp_step; [|apply wp_ret; rewrite Heqb2; by apply Hfail].
  do 3 wp_step. rewrite Heqb2. apply wp_ret. right. exists n, settings. unfold rs485_supported, line_events.
  rewrite Heqb0. split_and!; try done.
  - apply bool_decide_eq_true. rewrite !elem_of_cons, elem_of_nil. lia.
  - cbn [events add_event later set_answers]. by rewrite He, <- app_assoc.
Qed.

(** When a port opens: the path is not empty, the settings are supported, open
    gives the new descriptor [n], and the calls that set it up succeed; [l] are
    the answers to later calls. *)
Record opens (s : mb_rtu_serial_config) (k : kernel) (n : Z) (l : list (Z + errno)) : Prop := Opens {
  opens_path : empty_path (device_path s) = false;
  opens_line : line_supported s;
  opens_rs485 : rs485_supported (rs485_mode s) = true;
  opens_new : 0 <= n /\ n ∉ fds k;
  opens_answers : answers k = inl n :: inl 0 :: inl 0 :: inl 0 ::
    (if rs485_mode s =? MB_RTU_RS485_NONE then l else inl 0 :: l);
}.

Lemma answer_run k a l : answers k = a :: l -> answer k = Ok (a, later k l).
Proof. intros E. unfold answer. by rewrite E. Qed.

Lemma ctl_run fd k v l : fd ∈ fds k -> answers k = inl v :: l -> sys_ctl fd k = Ok (v, later k l).
Proof.
  intros Hfd E. unfold sys_ctl, sys_call, bind, get. rewrite bool_decide_true by done. by rewrite (answer_run _ _ _ E).
Qed.

Lemma configure_serial_succeeds fd s k l :
  fd ∈ fds k -> line_supported s -> answers k = inl 0 :: inl 0 :: inl 0 :: l ->
  exists k', configure_serial fd s k = Ok (0, k') /\ fds k' = fds k /\ answers k' = l.
Proof.
  intros Hfd (Hb & Hd & Hst & Hp) Ha. unfold configure_serial. cbv zeta.
  change (effective_data_bits (data_bits s)) with (data_of s). change (effective_stop_bits (stop_bits s)) with (stop_of s).
  destruct (baud_to_speed_rate s) as [[_ ?] | (Hs & _)]; [done|]. rewrite bool_decide_false by done.
  rewrite !elem_of_cons, elem_of_nil in Hd. rewrite !elem_of_cons, elem_of_nil in Hst. rewrite !elem_of_cons, elem_of_nil in Hp.
  replace (_ || _) with false by lia. case_match eqn:Hpar.
  - erewrite bind_ok by (by apply answer_run). cbn [return_value Z.eqb negb].
    erewrite bind_ok by (by apply answer_run). cbn [return_value Z.eqb negb].
    erewrite bind_ok by (by apply ctl_run). cbn [Z.eqb negb]. eexists. split; [done|]. done.
  - exfalso. unfold MB_RTU_PARITY_NONE, MB_RTU_PARITY_EVEN, MB_RTU_PARITY_ODD in *. repeat case_match; try done. lia.
Qed.

Lemma open_succeeds v s k n l :
  opens s k n l -> exists k', mb_rtu_open (Some v) (Some s) k = Ok ((0, Some n), k') /\ answers k' = l.
Proof.
  intros [Hp Hline Hr [Hn Hfr] Ha]. unfold mb_rtu_open. rewrite Hp. set (k1 := set_fds ({[n]} ∪ fds k) (later k (tail (answers k)))).
  assert (sys_open k = Ok (n, k1)) as Hopen.
  { unfold sys_open. erewrite bind_ok by (by apply answer_run). cbn [bind get]. unfold bind, get, put, ret. cbn [fds later set_answers].
    rewrite bool_decide_true by done. unfold k1. by rewrite Ha. }
  erewrite bind_ok by exact Hopen. rewrite (proj2 (Z.ltb_ge _ _)) by done.
  assert (n ∈ fds k1) as Hin by (cbn; set_solver).
  destruct (configure_serial_succeeds n s k1 (if rs485_mode s =? MB_RTU_RS485_NONE then l else inl 0 :: l))
    as (k2 & Hrun & Hf & Ha2); [done | done | by cbn; rewrite Ha |].
  erewrite bind_ok by exact Hrun. cbn [Z.eqb negb]. unfold configure_rs485.
  destruct (rs485_mode s =? MB_RTU_RS485_NONE) eqn:E; [by exists k2|].
  apply bool_decide_eq_true in Hr. rewrite !elem_of_cons, elem_of_nil in Hr. apply Z.eqb_neq in E.
  destruct (_ && _) eqn:E'; [exfalso; lia|]. rewrite <- Hf in Hin. exists (add_event (Rs485Set n (rs485_mode s)) (later k2 l)).
  split; [|done]. unfold bind at 1 2. by rewrite (ctl_run _ _ _ _ Hin Ha2).
Qed.

(** And the other way round: what a port that has opened has been answered. *)
Lemma return_zero a : return_value a = 0 -> a = inl 0.
Proof. destruct a; cbn; [by intros -> | done]. Qed.

Lemma answered_next {A} (f : Z + errno -> st kernel A) k r :
  (let! a := answer in f a) k = Ok r -> exists a l, answers k = a :: l /\ f a (later k l) = Ok r.
Proof. unfold bind, answer. destruct (answers k) as [|a l]; [done|]. by exists a, l. Qed.

Lemma ctl_next {A} fd (f : Z -> st kernel A) k r :
  (let! rc := sys_ctl fd in f rc) k = Ok r -> exists a l, answers k = a :: l /\ f (return_value a) (later k l) = Ok r.
Proof.
  unfold sys_ctl, sys_call, bind, get, answer. destruct (bool_decide _); [|done]. destruct (answers k) as [|a l]; [done|].
  by exists a, l.
Qed.

Lemma configure_serial_only fd s k k' :
  configure_serial fd s k = Ok (0, k') -> answers k = inl 0 :: inl 0 :: inl 0 :: answers k'.
Proof.
  unfold configure_serial. cbv zeta. destruct (_ || _); [done|]. case_match; [|done].
  intros (i & l1 & H1 & Hrun)%answered_next. destruct (Z.eqb_spec (return_value i) 0) as [->%return_zero|]; cbn [negb] in Hrun; [|done].
  apply answered_next in Hrun as (o & l2 & H2 & Hrun).
  destruct (Z.eqb_spec (return_value o) 0) as [->%return_zero|]; cbn [negb] in Hrun; [|done].
  apply ctl_next in Hrun as (a & l3 & H3 & Hrun).
  destruct (Z.eqb_spec (return_value a) 0) as [->%return_zero|]; cbn [negb] in Hrun; [|done].
  injection Hrun as <-. cbn in *. congruence.
Qed.

Lemma close_not_open (m v : Z) x k k' : (sys_close m ;;; ret (-1, Some v)) k <> Ok ((0, x), k').
Proof. unfold bind, sys_close. by destruct (bool_decide _). Qed.

Lemma open_only v s k n k' :
  mb_rtu_open (Some v) (Some s) k = Ok ((0, Some n), k') -> opens s k n (answers k').
Proof.
  intros Hrun. pose proof (open_wp v s k) as Hw. unfold wp in Hw. rewrite Hrun in Hw.
  destruct Hw as [[[=] _] | (n' & t & [= <-] & Hn & Hfr & [Hline _] & Hr & _)].
  unfold mb_rtu_open in Hrun. destruct (empty_path (device_path s)) eqn:Hp; [done|]. constructor; try done.
  unfold sys_open in Hrun. unfold bind at 1 in Hrun. unfold bind at 1, answer in Hrun. destruct (answers k) as [|a l] eqn:Ha; [done|].
  unfold bind at 1, get in Hrun. destruct a as [m|]; [|by cbn in Hrun].
  destruct (bool_decide _) eqn:Hm; [|by cbn in Hrun]. apply bool_decide_eq_true in Hm as [Hm _].
  unfold bind at 1, put in Hrun. unfold ret at 1 in Hrun. rewrite (proj2 (Z.ltb_ge _ _)) in Hrun by done.
  unfold bind at 1 in Hrun. destruct (configure_serial _ _ _) as [[rc k2]|] eqn:Hc; [|done].
  destruct (Z.eqb_spec rc 0) as [->|Hne]; cbn [negb] in Hrun.
  2:{ by apply close_not_open in Hrun. }
  apply configure_serial_only in Hc. cbn in Hc. rewrite Hc. unfold configure_rs485 in Hrun.
  destruct (rs485_mode s =? MB_RTU_RS485_NONE); [by injection Hrun as -> <-|].
  destruct (_ && _); [by apply close_not_open in Hrun|]. unfold bind at 1 in Hrun.
  destruct (bind _ _ k2) as [[rc k3]|] eqn:Hctl; [|done].
  destruct (Z.eqb_spec rc 0) as [->|]; cbn [negb] in Hrun; [|by apply close_not_open in Hrun].
  injection Hrun as -> <-. apply ctl_next in Hctl as (a & l3 & H3 & Hctl).
  destruct (Z.eqb_spec (return_value a) 0) as [->%return_zero|]; [|by injection Hctl as Hv _].
  injection Hctl as <-. by rewrite H3.
Qed.

(** ** Start and stop *)

Lemma close_port_wp c k Q :
  serial_fd c ∈ fds k \/ serial_fd c < 0 ->
  (0 <= serial_fd c -> Q (set_serial_fd (-1) c) (set_fds (fds k ∖ {[serial_fd c]}) k)) ->
  (serial_fd c < 0 -> Q c k) -> wp (close_port c) Q k.
Proof.
  intros Hfd H1 H2. unfold close_port, mb_rtu_close. wp_step. wp_step; apply Z.leb_le in Heqb || apply Z.leb_gt in Heqb.
  - apply wp_bind, wp_close; [destruct Hfd; [done | lia]|]. do 2 apply wp_ret. by apply H1.
  - do 2 apply wp_ret. replace (set_serial_fd _ c) with c by (by destruct c). by apply H2.
Qed.

Definition sane_kernel (k : kernel) : Prop := 0 <= locks k /\ 0 <= threads k /\ 0 <= blocks k.


(** A context whose port [n] was opened since [k]; a mutex is live too. *)
Definition port_open (k : kernel) (n : Z) (c : mb_rtu_ctx) (k' : kernel) : Prop :=
  serial_fd c = n /\ initialized c = 0 /\ 0 <= n /\ n ∉ fds k /\
  account k' = account (add_locks 1 (set_fds ({[n]} ∪ fds k) k)).

Lemma port_open_later k n c k' l : port_open k n c k' -> port_open k n c (later k' l).
Proof. done. Qed.

Lemma abandon_wp k n c k' Q :
  sane_kernel k -> port_open k n c k' ->
  (forall k'', account k'' = account k -> Q (set_serial_fd (-1) c) k'') -> wp (abandon c) Q k'.
Proof.
  intros (Hlk & _) (<- & Hi & Hn & Hfr & Ha) HQ. apply account_iff in Ha as (Hf & Hl & Ht & Hb). cbn in Hf, Hl, Ht, Hb.
  apply wp_bind, close_port_wp; [left; rewrite Hf; set_solver | | lia].
  intros _. apply wp_bind, wp_release; [cbn; lia|]. apply wp_ret, HQ. accounts.
Qed.

Definition link_event (c : mb_rtu_config) (fd connected : Z) : list event :=
  if has_on_link c then [LinkChanged fd connected] else [].

(** The system gives what a start asks for: a mutex, the open port, its flags,
    and a thread. *)
Definition starts (s : mb_rtu_serial_config) (k : kernel) : Prop :=
  exists m n f g l, answers k = inl 0 :: m /\ opens s (add_locks 1 (later k m)) n (inl f :: inl g :: inl 0 :: l) /\
    0 <= f /\ 0 <= g.

Lemma acquire_run add k l : answers k = inl 0 :: l -> acquire add k = Ok (0, add 1 (later k l)).
Proof. intros E. unfold acquire. by erewrite bind_ok by (by apply answer_run). Qed.

Lemma start_succeeds c config k :
  initialized c = 0 -> starts (serial config) k ->
  exists c' k', mb_rtu_start (Some c) (Some config) k = Ok ((0, Some c'), k').
Proof.
  intros Hi (m & n & f & g & l & Ha & Ho & Hf & Hg). unfold mb_rtu_start. rewrite (opens_path _ _ _ _ Ho), Hi. cbn [Z.eqb negb].
  cbv zeta. erewrite bind_ok by (by apply acquire_run). cbn [Z.eqb negb serial_fd cfg serial].
  destruct (open_succeeds (-1) (serial config) _ n _ Ho) as (k2 & Hrun & Ha2).
  pose proof (open_wp (-1) (serial config) (add_locks 1 (later k m))) as Hw. unfold wp in Hw. rewrite Hrun in Hw.
  destruct Hw as [[[=] _] | (n' & t & [= <-] & Hn & _ & _ & _ & Hacc & _)].
  assert (n ∈ fds k2) as Hin by (apply account_fds in Hacc as ->; cbn; set_solver).
  erewrite bind_ok by exact Hrun. cbn [Z.eqb negb default from_option id set_serial_fd serial_fd].
  erewrite bind_ok by (by apply ctl_run). rewrite (proj2 (Z.ltb_ge f 0)) by done.
  erewrite bind_ok by (erewrite bind_ok by (by apply (ctl_run n _ g (inl 0 :: l))); done).
  rewrite (proj2 (Z.ltb_ge g 0)) by done. unfold bind at 1, emit, launch. cbn [set_keep_running cfg].
  destruct (has_on_init _); (erewrite bind_ok by done; erewrite bind_ok by (by apply (acquire_run _ _ l)); cbn [Z.eqb negb];
    unfold mb_rtu_link_call; cbn [cfg set_initialized set_keep_running set_serial_fd]; destruct (has_on_link _); by eexists _, _).
Qed.

(** What a start leads to: nothing is held, or a port, a mutex and a thread. *)
Definition launched (k : kernel) (es : list event) (r : Z * option mb_rtu_ctx) (k' : kernel) : Prop :=
  exists c, snd r = Some c /\
    ((fst r = -1 /\ initialized c = 0 /\ serial_fd c = -1 /\ account k' = account k) \/
     (fst r = 0 /\ initialized c = 1 /\ keep_running c = 1 /\ 0 <= serial_fd c /\ serial_fd c ∉ fds k /\
      account k' = account (add_threads 1 (add_locks 1 (set_fds ({[serial_fd c]} ∪ fds k) k))) /\
      events k' = es ++ (if has_on_init (cfg c) then [InitCalled] else []) ++ link_event (cfg c) (serial_fd c) 1)).

Lemma launch_wp k n c k' :
  sane_kernel k -> port_open k n c k' ->
  wp (launch c) (fun r k'' => launched k (events k') r k'' /\
    forall c', snd r = Some c' -> cfg c' = cfg c /\ (fst r = 0 -> serial_fd c' = n)) k'.
Proof.
  intros Hk Hp. unfold launch. apply wp_bind. cbn [cfg set_keep_running].
  set (es := if has_on_init (cfg c) then [InitCalled] else []).
  apply (wp_mono _ (fun _ k2 => port_open k n c k2 /\ events k2 = events k' ++ es)).
  { subst es. destruct (has_on_init (cfg c)); [apply wp_emit; split; [exact Hp | done] | apply wp_ret; split; [done | by rewrite app_nil_r]]. }
  intros _ k2 [Hp2 He2]. apply wp_bind, wp_acquire; intros l; cbn [Z.eqb negb].
  - apply wp_bind, (abandon_wp k n); [done | exact Hp2|]. intros k3 Ha. split.
    + eexists. split; [done|]. left. by destruct Hp2 as (_ & Hi & _).
    + intros c' [= <-]. by split.
  - destruct Hp2 as (Hn & Hi & Hpos & Hfr & Ha). apply account_iff in Ha as (Hf & Hl & Ht & Hb). cbn in Hf, Hl, Ht, Hb.
    apply wp_bind. apply (wp_mono _ (fun _ k4 => account k4 = account (add_threads 1 k2) /\
      events k4 = events k' ++ es ++ link_event (cfg c) n 1)).
    { unfold mb_rtu_link_call, link_event. cbn [cfg set_initialized set_keep_running serial_fd]. rewrite Hn.
      destruct (has_on_link (cfg c)); [apply wp_emit | apply wp_ret]; (split; [done|]); cbn; rewrite He2;
        [by rewrite <- app_assoc | by rewrite app_nil_r]. }
    intros _ k4 [Ha4 He4]. apply account_iff in Ha4 as (Hf4 & Hl4 & Ht4 & Hb4). cbn in Hf4, Hl4, Ht4, Hb4.
    split; [|intros c' [= <-]; by split]. eexists. split; [done|]. right.
    cbn [serial_fd set_initialized set_keep_running cfg]. rewrite Hn. split_and!; try done. accounts.
Qed.

(** [launched] for the configuration [cf]: the line was set up first. *)
Definition started (cf : mb_rtu_config) (k : kernel) (r : Z * option mb_rtu_ctx) (k' : kernel) : Prop :=
  exists es, launched k es r k' /\
  forall c, snd r = Some c -> has_on_link (cfg c) = has_on_link cf /\ has_on_init (cfg c) = has_on_init cf /\
    (fst r = 0 -> exists settings, line_for (serial cf) settings /\
       es = events k ++ line_events (serial_fd c) (serial cf) settings ++ [NonBlocking (serial_fd c)]).

Definition same_callbacks (cf : mb_rtu_config) (c : mb_rtu_ctx) : Prop :=
  has_on_link (cfg c) = has_on_link cf /\ has_on_init (cfg c) = has_on_init cf.

Lemma not_started cf k c k' :
  same_callbacks cf c -> serial_fd c = -1 -> initialized c = 0 -> account k' = account k ->
  started cf k (-1, Some c) k'.
Proof.
  intros [H1 H2] H3 H4 H5. exists []. split; [eexists; split; [done|]; by left|]. by intros ? [= <-].
Qed.

(** From an open port on. *)
Lemma finish_wp cf k n c k' (failed : bool) settings :
  sane_kernel k -> same_callbacks cf c -> port_open k n c k' ->
  line_for (serial cf) settings ->
  events k' = events k ++ line_events n (serial cf) settings ->
  wp (if failed then let! c := abandon c in ret (-1, Some c)
      else emit (NonBlocking (serial_fd c)) ;;; launch c) (started cf k) k'.
Proof.
  intros Hk [Hl Hin] Hp Hset He. destruct failed.
  - apply wp_bind, (abandon_wp k n); [done | done|]. intros k3 Ha. apply wp_ret, not_started; try done.
    by destruct Hp as (_ & Hi & _).
  - apply wp_bind, wp_emit. eapply wp_mono; [apply (launch_wp k n); [done | exact Hp]|]. cbn beta.
    intros r k3 [Hr Hc]. eexists. split; [exact Hr|]. intros c' Hc'. destruct (Hc c' Hc') as [-> Hfd].
    split; [done|]. split; [done|]. intros Hz. exists settings. split; [done|]. rewrite (Hfd Hz).
    destruct Hp as (-> & _). cbn. by rewrite He, <- app_assoc.
Qed.

Lemma start_wp c cf k :
  sane_kernel k -> initialized c = 0 -> empty_path (device_path (serial cf)) = false ->
  wp (mb_rtu_start (Some c) (Some cf)) (started cf k) k.
Proof.
  intros Hk Hi Hpath. pose proof Hk as (Hlk & _). unfold mb_rtu_start. rewrite Hpath, Hi. cbn [Z.eqb negb]. cbv zeta.
  apply wp_bind, wp_acquire; intros l1; [by apply wp_ret, not_started|]. cbn [Z.eqb negb].
  set (k1 := add_locks 1 (later k l1)). apply wp_bind. cbn [RtuPort.cfg serial serial_fd].
  eapply wp_mono; [apply open_wp|]. cbn beta.
  intros [rc fd] k2 [[Heq Ha]|(n & settings & Heq & Hn & Hfr & Hset & _ & Ha & He)]; injection Heq as -> ->;
    apply account_iff in Ha as (Hf & Hl & Ht & Hb); cbn in Hf, Hl, Ht, Hb;
    cbn [default from_option id Z.eqb negb].
  { apply wp_bind, wp_release; [lia|]. apply wp_ret, not_started; try done. accounts. }
  cbn in Hfr, He. set (c0 := set_serial_fd n _).
  assert (port_open k n c0 k2) as Hp by (split_and!; try done; accounts).
  apply wp_bind, wp_ctl; [rewrite Hf; set_solver|]. intros flags l2. apply wp_bind.
  destruct (flags <? 0).
  - by apply wp_ret, (finish_wp cf k n c0 (later k2 l2) true settings).
  - apply wp_bind, wp_ctl; [cbn; rewrite Hf; set_solver|]. intros v l3.
    by apply wp_ret, (finish_wp cf k n c0 (later k2 l3) (v <? 0) settings).
Qed.

(** A started transport stops: everything it held is released. *)
Definition running (k : kernel) (c : mb_rtu_ctx) (k' : kernel) : Prop :=
  initialized c = 1 /\ 0 <= serial_fd c /\ serial_fd c ∉ fds k /\
  account k' = account (add_threads 1 (add_locks 1 (set_fds ({[serial_fd c]} ∪ fds k) k))).

Lemma running_account k c k1 k2 : running k c k1 -> account k2 = account k1 -> running k c k2.
Proof. intros (? & ? & ? & ?) E. split_and!; congruence. Qed.

Lemma stop_wp {W} (rest : mb_rtu_ctx -> st (kernel * W) unit) (Q : kernel * W -> Prop) k c k' (u : W) :
  sane_kernel k -> running k c k' ->
  wp (rest (set_keep_running 0 c)) (fun _ s => quiet k' (fst s) /\ Q s) (k', u) ->
  wp (mb_rtu_stop rest (Some c)) (fun c' s => account (fst s) = account k /\
    links (fst s) = links k' ++ link_event (cfg c) (serial_fd c) 0 /\
    (exists c1, c' = Some c1 /\ initialized c1 = 0 /\ serial_fd c1 = -1) /\ exists k1, Q (k1, snd s)) (k', u).
Proof.
  intros (Hlk & Hth & _) (Hi & Hn & Hfr & Ha) Hrest. apply account_iff in Ha as (Hf & Hl & Ht & Hb). cbn in Hf, Hl, Ht, Hb.
  unfold mb_rtu_stop. rewrite Hi. cbn [Z.eqb]. apply wp_bind. eapply wp_mono; [exact Hrest|]. cbn beta.
  intros _ [k1 u1] [[Ha1 Hk1] HQ]. cbn [fst] in *. apply account_iff in Ha1 as (Hf1 & Hl1 & Ht1 & Hb1).
  apply wp_bind, wp_on_fst, wp_release; [lia|].
  cbn [serial_fd set_keep_running]. rewrite (proj2 (Z.leb_le _ _)) by done. apply wp_bind, wp_on_fst, wp_bind.
  apply (wp_mono _ (fun _ k2 => account k2 = account (add_threads (-1) k1) /\
    links k2 = links k' ++ link_event (cfg c) (serial_fd c) 0)).
  { unfold mb_rtu_link_call, link_event. cbn [cfg set_keep_running]. change (links (add_threads (-1) k1)) with (links k1) in *.
    destruct (has_on_link (cfg c)); [apply wp_emit | apply wp_ret]; (split; [done|]).
    - by rewrite (links_app (events k1) [LinkChanged (serial_fd c) 0]), <- Hk1 by done.
    - by rewrite app_nil_r. }
  intros _ k2 [Ha2 He2]. apply account_iff in Ha2 as (Hf2 & Hl2 & Ht2 & Hb2). cbn in Hf2, Hl2, Ht2, Hb2.
  apply close_port_wp; [left; cbn; rewrite Hf2, Hf1, Hf; set_solver | | cbn; lia].
  intros _. apply wp_bind, wp_on_fst, wp_release; [cbn; lia|]. apply wp_ret. cbn [fst snd serial_fd set_keep_running].
  split; [accounts|]. split; [done|]. split; [by eexists | by exists k1].
Qed.
