(* ===== verification/Keeps.v ===== *)
(** * What a computation keeps

    [keeps J m]: if [J] holds before [m] it holds after, for the states in
    which [m] ends.  The [keep] tactic follows the structure of a computation;
    the hints know the system calls of [Sys]. *)

From S2P Require Import Prelude Buffer Sys.

Definition keeps {S A} (J : S -> Prop) (m : st S A) : Prop :=
  forall s a s', J s -> m s = Ok (a, s') -> J s'.

Lemma keeps_ret {S A} (J : S -> Prop) (a : A) : keeps J (ret a).
Proof. intros s ? ? ?. by intros [= _ <-]. Qed.

Lemma keeps_get {S} (J : S -> Prop) : keeps J get.
Proof. intros s ? ? ?. by intros [= _ <-]. Qed.

Lemma keeps_stop {S A} (J : S -> Prop) e : keeps J (stop (A:=A) e).
Proof. by intros ? ? ?. Qed.

Lemma keeps_lift {S A} (J : S -> Prop) (o : outcome A) : keeps J (lift o).
Proof. intros s a s' Hs. unfold lift. destruct o; [|done]. by intros [= _ <-]. Qed.

Lemma keeps_bind {S A B} (J : S -> Prop) (m : st S A) (f : A -> st S B) :
  keeps J m -> (forall a, keeps J (f a)) -> keeps J (bind m f).
Proof.
  intros Hm Hf s b s' Hs. unfold bind. destruct (m s) as [[a s1]|] eqn:E; [|done].
  apply Hf. by eapply Hm.
Qed.

Lemma keeps_on_fst {A B W} (J : W -> Prop) (m : st B A) : keeps (fun s => J (snd s)) (on_fst m).
Proof.
  intros [b w] a [b' w'] Hj. unfold on_fst. destruct (m b) as [[? ?]|]; [|done]. by intros [= _ _ <-].
Qed.

Lemma keeps_on_snd {A B W} (J : W -> Prop) (m : st W A) :
  keeps J m -> keeps (fun s : B * W => J (snd s)) (on_snd m).
Proof.
  intros Hm [b w] a [b' w'] Hj. unfold on_snd. destruct (m w) as [[? ?]|] eqn:E; [|done].
  intros [= _ _ <-]. by eapply Hm.
Qed.

Lemma keeps_on_fst_inner {A B W} (J : B -> Prop) (m : st B A) :
  keeps J m -> keeps (fun s : B * W => J (fst s)) (on_fst m).
Proof.
  intros Hm [b w] a [b' w'] Hj. unfold on_fst. destruct (m b) as [[? ?]|] eqn:E; [|done].
  intros [= _ <- _]. by eapply Hm.
Qed.

Lemma keeps_on_snd_inner {A B W} (J : B -> Prop) (m : st W A) : keeps (fun s : B * W => J (fst s)) (on_snd m).
Proof.
  intros [b w] a [b' w'] Hj. unfold on_snd. destruct (m w) as [[? ?]|]; [|done]. by intros [= _ <- _].
Qed.

Create HintDb keeps.
#[export] Hint Resolve keeps_ret keeps_get keeps_stop keeps_lift keeps_on_fst keeps_on_snd_inner : keeps.

(** Follows the structure of a computation. *)
Ltac keep :=
  repeat first
    [ progress intros
    | solve [auto with keeps]
    | apply keeps_bind
    | match goal with
      | |- keeps _ (if ?b then _ else _) => destruct b
      | |- keeps _ (match ?x with _ => _ end) => destruct x
      | |- keeps (fun s => _ (snd s)) (on_snd _) => apply keeps_on_snd
      | |- keeps (fun s => _ (fst s)) (on_fst _) => apply keeps_on_fst_inner
      end ].

(** The bytes to come stay bytes. *)
Definition byte_line (w : world) : Prop := rx_bytes (rx w).

Lemma keeps_read n : keeps byte_line (sys_read n).
Proof.
  intros w a w' Hb. unfold sys_read, byte_line in *. destruct (rx w) as [|[bs|e] r] eqn:E; [done| |].
  - apply Forall_cons_iff in Hb as [Hbs Hr]. destruct (_ <=? n); intros [= _ <-]; cbn; [done|].
    apply Forall_cons_iff. split; [by apply Forall_drop | done].
  - apply Forall_cons_iff in Hb as [_ Hr]. by intros [= _ <-].
Qed.

Lemma keeps_write buf n : keeps byte_line (sys_write buf n).
Proof.
  intros w a w' Hb. unfold sys_write. destruct (tx w) as [|[k|e] r]; [done| |]; by intros [= _ <-].
Qed.

Lemma keeps_pop {A} (field : world -> list A) set :
  (forall l w, rx (set l w) = rx w) -> keeps byte_line (pop field set).
Proof.
  intros Hset w a w' Hb. unfold pop. destruct (field w); [done|]. intros [= _ <-].
  unfold byte_line. by rewrite Hset.
Qed.

Lemma keeps_act a : keeps byte_line (act a).
Proof. intros w ? w' Hb. by intros [= _ <-]. Qed.

Lemma keeps_clock : keeps byte_line sys_clock.
Proof. by apply keeps_pop. Qed.
Lemma keeps_select : keeps byte_line sys_select.
Proof. by apply keeps_pop. Qed.
Lemma keeps_tcdrain : keeps byte_line sys_tcdrain.
Proof. by apply keeps_pop. Qed.

#[export] Hint Resolve keeps_read keeps_write keeps_act keeps_clock keeps_select keeps_tcdrain : keeps.

(** A buffer, or more, beside the line. *)
Definition buf_bytes (s : list Z * world) : Prop := byte_line (snd s).
Definition conn_bytes {U} (s : world * U) : Prop := byte_line (fst s).

Lemma keeps_with_buf {A U} (p : list Z) (m : st (list Z * world) A) :
  keeps buf_bytes m -> keeps (conn_bytes (U:=U)) (with_buf p m).
Proof.
  intros Hm [w u] [a q] [w' u'] Hb. unfold with_buf. destruct (m (p, w)) as [[a' [q' w1]]|] eqn:E; [|done].
  intros [= <- <- <- <-]. by apply (Hm (p, w) a' (q', w1)).
Qed.

Lemma keeps_at_ptr {A} k (m : st (list Z * world) A) :
  keeps buf_bytes m -> keeps buf_bytes (at_ptr k m).
Proof.
  intros Hm [p w] a [p' w'] Hb. unfold at_ptr. destruct (_ && _); [|done].
  destruct (m _) as [[a' [q w1]]|] eqn:E; [|done]. intros [= <- <- <-]. by apply (Hm (drop (Z.to_nat k) p, w) a' (q, w1) Hb E).
Qed.

Lemma keeps_conn {A U} (m : st world A) : keeps byte_line m -> keeps (conn_bytes (U:=U)) (on_fst m).
Proof. apply keeps_on_fst_inner. Qed.

Lemma keeps_app {A U} (m : st U A) : keeps (conn_bytes (U:=U)) (on_snd m).
Proof. apply keeps_on_snd_inner. Qed.

(** Writing into the buffer. *)
Lemma keeps_on_buf (m : st (list Z) unit) : keeps buf_bytes (on_buf m).
Proof. intros [p w] a [p' w'] Hb. unfold on_buf. destruct (m p) as [[? ?]|]; [|done]. by intros [= _ _ <-]. Qed.

#[export] Hint Resolve keeps_with_buf keeps_at_ptr keeps_conn keeps_app keeps_on_buf : keeps.
