(* ===== verification/RtuServerPort.v ===== *)
(** * The RTU server on its port: start, poll, stop

    [mb_rtu_server_start] and [mb_rtu_server_stop], and what a whole life of a
    server does: the transport's thread calls [server_on_process] of
    [RtuServer] until the flag is cleared. *)

From stdpp Require Import gmap.
From S2P Require Import Prelude Buffer Defines Bits Pdu PduSpec Ptr Rtu Sys Keeps RtuServer Kernel RtuPort RtuPortSpec.

(** The whole [mb_rtu_server_ctx_t]; [server_rx] is its assembly state. *)
Record mb_rtu_server (U : Type) := Server {
  transport : mb_rtu_ctx;
  server_cfg : mb_rtu_server_config U;
  server_rx : mb_rtu_server_ctx;
}.
Arguments Server {U}.
Arguments transport {U}.
Arguments server_cfg {U}.
Arguments server_rx {U}.

Section Server.
Context {U : Type}.

Definition set_recv_timeout (ms : Z) (cfg : mb_rtu_server_config U) : mb_rtu_server_config U :=
  SrvConfig (srv_device cfg) (srv_baud_rate cfg) (srv_data_bits cfg) (srv_stop_bits cfg) (srv_parity cfg)
    (srv_unit_id cfg) ms (srv_inter_frame_delay_us cfg) (srv_rs485_mode cfg) (srv_local_echo cfg)
    (on_read cfg) (on_write cfg) (on_read_bits cfg) (on_write_bits cfg) (on_tx_enable cfg).

Definition serial_of (cfg : mb_rtu_server_config U) : mb_rtu_serial_config :=
  SerialConfig (srv_device cfg) (srv_baud_rate cfg) (srv_data_bits cfg) (srv_stop_bits cfg)
    (srv_parity cfg) (srv_rs485_mode cfg).

(** A context after [memset]. *)
Definition zero_transport : mb_rtu_ctx :=
  RtuCtx 0 (RtuConfig (SerialConfig None 0 0 0 0 0) 0 false false false false) 0 0.

(** [on_link]: whether the configuration has that callback. *)
Definition mb_rtu_server_start (ctx : option (mb_rtu_server U)) (cfg : option (mb_rtu_server_config U))
    (on_link : bool) : st kernel (Z * option (mb_rtu_server U)) :=
  match ctx, cfg with
  | Some c, Some cfg =>
      if empty_path (srv_device cfg) then ret (-1, ctx)
      else if negb (initialized (transport c) =? 0) then ret (-1, ctx) else
      let cfg' := if srv_recv_timeout_ms cfg =? 0
                  then set_recv_timeout MB_RTU_SERVER_DEFAULT_RECV_TIMEOUT_MS cfg else cfg in
      let serial := serial_of cfg in
      let rx := SrvCtx (replicate (Z.to_nat MODBUS_RTU_MAX_ADU_LENGTH) 0) 0 0 (mb_rtu_t35_us (Some serial)) in
      let transport_cfg := RtuConfig serial (srv_recv_timeout_ms cfg') on_link false true false in
      let! '(rc, t) := mb_rtu_start (Some zero_transport) (Some transport_cfg) in
      ret (rc, Some (Server (default zero_transport t) cfg' rx))
  | _, _ => ret (-1, ctx)
  end.

Definition mb_rtu_server_stop {W} (rest : mb_rtu_ctx -> st (kernel * W) unit) (ctx : option (mb_rtu_server U))
    : st (kernel * W) (option (mb_rtu_server U)) :=
  match ctx with
  | None => ret None
  | Some c =>
      let! t := mb_rtu_stop rest (Some (transport c)) in
      ret (Some (Server (default (transport c) t) (server_cfg c) (server_rx c)))
  end.
End Server.

(** ** A whole life

    [Start], [rounds] rounds of the thread, and the stop: it clears the flag when
    the thread is inside a round, or between two, and joins it. *)
Section Life.
Context {I : Indet} {U : Type}.
Implicit Types (cfg : mb_rtu_server_config U) (s : mb_rtu_server U).
Notation life := (st (kernel * server_state (U:=U))).

(** The transport hands its descriptor to [server_on_process]. *)
Definition poll_port s (fd : Z) : life Z :=
  on_fst (sys_use fd) ;;; on_snd (server_on_process (server_cfg s)).

(** The assembly buffer that the start has left. *)
Definition fresh_buffer s : life unit :=
  on_snd (fun '((_, w), u) => Ok (tt, ((server_rx s, w), u))).

(** [running]: the thread is still in its loop. *)
Definition poll_rest s (running inside : bool) (c : mb_rtu_ctx) : life unit :=
  if running then thread_rest (poll_port s) (if inside then Some (transport s) else None) c else ret tt.

(** From a started server on: the rounds of the thread, then the stop. *)
Definition polled s (rounds : nat) (inside : bool) : life (option (mb_rtu_server U)) :=
  let! running := mb_rtu_thread (poll_port s) rounds (transport s) in
  mb_rtu_server_stop (poll_rest s running inside) (Some s).

Definition server_life s cfg (on_link : bool) (rounds : nat) (inside : bool)
    : life (Z * option (mb_rtu_server U)) :=
  let! '(rc, s') := on_fst (mb_rtu_server_start (Some s) (Some cfg) on_link) in
  match s' with
  | Some t =>
      if rc =? 0 then
        fresh_buffer t ;;;
        let! t := polled t rounds inside in
        ret (rc, t)
      else ret (rc, s')
  | None => ret (rc, s')
  end.
End Life.

(** ** The bytes of the line stay bytes *)

Lemma keeps_current_time : keeps byte_line current_time_us.
Proof. unfold current_time_us. keep. Qed.

#[export] Hint Resolve keeps_current_time : keeps.

Lemma keeps_silence since required : keeps byte_line (wait_response_silence since required).
Proof. unfold wait_response_silence, sleep_us. keep. Qed.

Lemma keeps_write_all buf len : keeps byte_line (write_all buf len).
Proof.
  assert (forall fuel sent, keeps byte_line (write_all_loop fuel buf len sent)) as Hloop
    by (induction fuel; intros; cbn [write_all_loop]; keep).
  intros w a w' Hb. unfold write_all. destruct (len <=? zlen buf); [|done]. intros Hrun.
  refine ((_ : keeps byte_line (bind _ _)) w a w' Hb Hrun). keep.
Qed.

#[export] Hint Resolve keeps_silence keeps_write_all : keeps.

Definition port_bytes (s : mb_rtu_server_ctx * world) : Prop := byte_line (snd s).

Lemma keeps_line {A} (m : st world A) : keeps byte_line m -> keeps port_bytes (on_snd m).
Proof. apply keeps_on_snd. Qed.

Lemma keeps_rx {A} (m : st mb_rtu_server_ctx A) : keeps port_bytes (on_fst m).
Proof. apply keeps_on_fst. Qed.

#[export] Hint Resolve keeps_line keeps_rx : keeps.

Section Kept.
Context {I : Indet} {U : Type} (cfg : mb_rtu_server_config U).

Lemma keeps_send_frame buf len : keeps byte_line (send_frame cfg buf len).
Proof. unfold send_frame, tx_enable. keep. Qed.

Lemma keeps_discard_echo len : keeps byte_line (discard_echo cfg len).
Proof.
  assert (forall fuel deadline got, keeps byte_line (discard_echo_loop fuel deadline len got)) as Hloop
    by (induction fuel; intros; cbn [discard_echo_loop]; keep).
  intros w a w' Hb Hrun. refine ((_ : keeps byte_line (bind _ _)) w a w' Hb Hrun). keep.
Qed.

Lemma keeps_read_available now : keeps port_bytes (read_available_bytes now).
Proof.
  assert (forall fuel, keeps port_bytes (read_available_loop fuel now)) as Hloop
    by (induction fuel; cbn [read_available_loop]; keep).
  intros s. apply Hloop.
Qed.

#[local] Hint Resolve keeps_send_frame keeps_discard_echo keeps_read_available : keeps.

Lemma keeps_port {A} (m : st (mb_rtu_server_ctx * world) A) :
  keeps port_bytes m -> keeps (fun s : server_state (U:=U) => port_bytes (fst s)) (on_fst m).
Proof. apply keeps_on_fst_inner. Qed.

Lemma keeps_device {A} (m : st U A) : keeps (fun s : server_state (U:=U) => port_bytes (fst s)) (on_snd m).
Proof. apply keeps_on_snd_inner. Qed.

#[local] Hint Resolve keeps_port keeps_device : keeps.

Lemma keeps_on_process : keeps (fun s : server_state => port_bytes (fst s)) (server_on_process (U:=U) cfg).
Proof. unfold server_on_process, server_dispatch. keep. Qed.
End Kept.
