(* ===== verification/RtuPortTheorems.v ===== *)
(** * Theorems about the serial port and the life of an RTU server *)

From stdpp Require Import gmap.
From S2P Require Import Prelude Buffer Defines Bits Pdu PduSpec Ptr Rtu Sys RtuServer RtuServerSpec RtuServerTheorems Bank Keeps Kernel RtuPort RtuPortSpec RtuServerPort.

(** ** Opening *)

(** C38. [mb_rtu_open] does exactly what its settings ask.  A NULL pointer gives
    -1.  The port opens if, and only if, the path is not empty, the rate is one of
    the ten, there are 7 or 8 data bits, 1 or 2 stop bits, a known parity and a
    known RS-485 mode (a field that is 0 has its default), and open and the calls
    that set up the line succeed.  Then one new descriptor is open and stored,
    and the driver has been told the line that the settings ask for: the speed in
    both directions, the size of a character, parity, stop bits, receiver on,
    modem lines ignored, no translation of bytes, reads that return at once; the
    buffers are flushed and the RS-485 mode is set.  Otherwise it returns -1,
    stores nothing and holds nothing. *)
Theorem rtu_open_exact v s k :
  (forall fd serial, fd = None \/ serial = None -> mb_rtu_open fd serial k = Ok ((-1, fd), k)) /\
  (forall n l, opens s k n l <-> exists k', mb_rtu_open (Some v) (Some s) k = Ok ((0, Some n), k') /\ answers k' = l) /\
  match mb_rtu_open (Some v) (Some s) k with
  | Ok (r, k') => opened (Some v) s k r k' /\ (fst r <> 0 -> forall n l, ~ opens s k n l)
  | Fail e => e = Blocked
  end.
Proof.
  split; [intros [] []; intuition done|].
  split; [intros n l; split; [apply open_succeeds | intros (k' & Hrun & <-); by apply (open_only v)]|].
  pose proof (open_wp v s k) as Hw. unfold wp in Hw.
  destruct (mb_rtu_open (Some v) (Some s) k) as [[r k']|e] eqn:E; [|done].
  split; [done|]. intros Hr n l Ho. destruct (open_succeeds v s k n l Ho) as (k2 & Hrun & _).
  rewrite E in Hrun. by injection Hrun as -> _.
Qed.

(** 19200 bits per second, 7 data bits, even parity, 2 stop bits, RS-485. *)
Definition field_line : mb_rtu_serial_config :=
  SerialConfig (Some "/dev/ttyS1"%string) 19200 7 2 MB_RTU_PARITY_EVEN MB_RTU_RS485_RTS_ON_SEND.
Definition field_kernel : kernel := Kernel (list_to_set [0; 1; 2]) 0 0 0 [inl 3; inl 0; inl 0; inl 0; inl 0] [].

Lemma rtu_open_exact_witness :
  (exists k', mb_rtu_open (Some (-1)) (Some field_line) field_kernel = Ok ((0, Some 3), k') /\ answers k' = []) /\
  forall n l, ~ opens field_line (set_answers [inl 3; inl 0; inl 0; inr ETIMEDOUT] field_kernel) n l.
Proof.
  split.
  - apply (rtu_open_exact (-1) field_line field_kernel). constructor; [done | | done | | done].
    + split_and!; by apply (bool_decide_unpack _).
    + by vm_compute.
  - by apply (rtu_open_exact (-1) field_line (set_answers [inl 3; inl 0; inl 0; inr ETIMEDOUT] field_kernel)).
Defined.

Example field_line_events :
  match mb_rtu_open (Some (-1)) (Some field_line) field_kernel with
  | Ok (_, k) => events k =
      [LineSet 3 (Termios [IGNPAR] 0 [CLOCAL; CREAD; CS7; PARENB; CSTOPB] 0 0 0 B19200 B19200); LineFlushed 3; Rs485Set 3 1]
  | Fail _ => False
  end.
Proof. by vm_compute. Qed.

(** ** The thread *)

Section Thread.
Context {W : Type} (on_process : Z -> st (kernel * W) Z) (J : W -> Prop) (fd : Z).
Hypothesis process_keeps : forall k u, fd ∈ fds k -> J u ->
  wp (on_process fd) (fun _ s => quiet k (fst s) /\ J (snd s)) (k, u).

Definition thread_keeps (k : kernel) (s : kernel * W) : Prop := quiet k (fst s) /\ J (snd s).

Lemma thread_keeps_open k s : fd ∈ fds k -> thread_keeps k s -> fd ∈ fds (fst s).
Proof. intros Hf [[Ha _] _]. by apply account_fds in Ha as ->. Qed.

Lemma thread_keeps_trans k s1 s2 : thread_keeps k s1 -> thread_keeps (fst s1) s2 -> thread_keeps k s2.
Proof. intros [H1 _] [H2 ?]. split; [by eapply quiet_trans | done]. Qed.

Lemma thread_round_wp c c' k u :
  serial_fd c = fd -> 0 <= fd -> fd ∈ fds k -> J u ->
  wp (thread_round on_process c c') (fun go s => go = true /\ thread_keeps k s) (k, u).
Proof.
  intros Hc Hpos Hf Hu. unfold thread_round. rewrite Hc, (proj2 (Z.ltb_ge _ _)) by done.
  destruct (has_on_process (cfg c)).
  - apply wp_bind. eapply wp_mono; [by apply process_keeps|]. cbn beta. intros rc [k1 u1] [Hq Hu1]. cbn [fst snd] in *.
    apply wp_bind, wp_on_fst, wp_bind. destruct (_ && _).
    + apply wp_quiet; [done|]. intros k2 Hk2. apply wp_quiet; [done|]. intros k3 Hk3. apply wp_ret.
      split; [done|]. split; [|done]. eapply quiet_trans; [exact Hq|]. by eapply quiet_trans.
    + apply wp_ret, wp_quiet; [done|]. intros k2 Hk2. apply wp_ret. split; [done|]. split; [|done]. by eapply quiet_trans.
  - apply wp_bind, wp_on_fst, wp_quiet; [done|]. intros k2 Hk2. by apply wp_ret.
Qed.

Lemma thread_wp n c k u :
  serial_fd c = fd -> 0 <= fd -> fd ∈ fds k -> J u ->
  wp (mb_rtu_thread on_process n c) (fun _ => thread_keeps k) (k, u).
Proof.
  intros Hc Hpos. revert k u. induction n as [|n IH]; intros k u Hf Hu; cbn [mb_rtu_thread]; [by apply wp_ret|].
  destruct (keep_running c =? 0); [by apply wp_ret|].
  apply wp_bind. eapply wp_mono; [by apply thread_round_wp|]. cbn beta. intros go [k1 u1] [-> H1].
  eapply wp_mono; [apply IH; [by apply (thread_keeps_open k (k1, u1)) | apply H1]|]. cbn beta. intros ? s2 H2.
  by eapply thread_keeps_trans.
Qed.

(** Once the flag is cleared the thread is gone after at most the round it is in. *)
Lemma thread_rest_wp inside c' k u :
  (forall c, inside = Some c -> serial_fd c = fd) -> 0 <= fd -> fd ∈ fds k -> J u -> keep_running c' = 0 ->
  wp (thread_rest on_process inside c') (fun _ => thread_keeps k) (k, u).
Proof.
  intros Hin Hpos Hf Hu Hrun. apply wp_bind. eapply (wp_mono _ (fun go s => go = true /\ thread_keeps k s)).
  - destruct inside as [c|]; [apply thread_round_wp; auto | by apply wp_ret].
  - cbn beta. intros go s [-> Hs]. apply wp_bind. cbn [mb_rtu_thread]. rewrite Hrun. by do 2 apply wp_ret.
Qed.
End Thread.

(** ** The life of a server *)

Section Life.
Context {I : Indet} {U : Type} (d : device U).

Definition port_ready (cfg : mb_rtu_server_config U) (s : server_state (U:=U)) : Prop :=
  room_left (fst (fst s)) /\ is_u32 (effective_inter_frame_us cfg (fst (fst s))) /\ port_bytes (fst s).

Lemma on_process_keeps (cfg : mb_rtu_server_config U) `{!Implements (handlers cfg) d} s :
  is_u32 (effective_timeout_ms cfg) -> port_ready cfg s ->
  wp (server_on_process cfg) (fun _ => port_ready cfg) s.
Proof.
  destruct s as [[c w] u]. intros Ht ((Hi & Hl & Hr) & Hs & Hb).
  pose proof (server_call_effect cfg d c w u Hi Hl Ht Hs Hb) as He.
  pose proof (keeps_on_process cfg (c, w, u)) as Hk. unfold wp.
  destruct (server_on_process cfg (c, w, u)) as [[rc [[c' w'] u']]|]; [|done].
  destruct He as (_ & Hroom & Hsame & _). split; [done|]. split; [|by apply (Hk rc ((c', w'), u'))].
  cbn [fst snd] in *. unfold effective_inter_frame_us in *. by rewrite Hsame.
Qed.

Lemma fresh_ready (cfg cfg' : mb_rtu_server_config U) w u :
  srv_inter_frame_delay_us cfg' = srv_inter_frame_delay_us cfg ->
  is_u32 (srv_inter_frame_delay_us cfg) -> byte_line w ->
  port_ready cfg' ((SrvCtx (replicate (Z.to_nat MODBUS_RTU_MAX_ADU_LENGTH) 0) 0 0
                      (mb_rtu_t35_us (Some (serial_of cfg))), w), u).
Proof.
  intros Hs Hd Hb. split; [|split; [|exact Hb]]; cbn [fst snd].
  - split; [|split]; cbn; [|unfold is_u64; lia | lia]. split; [done|]. split; [|cbn; lia].
    by apply (Forall_replicate _ 256).
  - unfold effective_inter_frame_us, mb_rtu_effective_timing. cbn [t35_us]. rewrite Hs.
    destruct (_ =? _); [unfold is_u32; lia|]. destruct (_ =? 0); [apply t35_u32 | done].
Qed.

(** What a life leaves behind. *)
Definition clean_life (on_link : bool) (k : kernel) (r : Z * option (mb_rtu_server U)) (k' : kernel) : Prop :=
  account k' = account k /\
  (exists s, snd r = Some s /\ initialized (transport s) = 0 /\ serial_fd (transport s) = -1) /\
  (fst r = -1 \/ fst r = 0 /\ exists n, n ∉ fds k /\
     links k' = links k ++ (if on_link then [LinkChanged n 1; LinkChanged n 0] else [])).

Lemma links_start k cf c n k' es settings :
  has_on_init (cfg c) = false -> serial_fd c = n ->
  es = events k ++ line_events n cf settings ++ [NonBlocking n] ->
  events k' = es ++ (if has_on_init (cfg c) then [InitCalled] else []) ++ link_event (cfg c) n 1 ->
  links k' = links k ++ link_event (cfg c) n 1.
Proof.
  intros -> <- -> He. rewrite <- app_assoc in He. apply links_app in He. rewrite He. f_equal.
  unfold line_events, link_event. destruct (rs485_mode cf =? _), (has_on_link (cfg c)); reflexivity.
Qed.

(** The configuration the server keeps. *)
Definition kept_config (cfg : mb_rtu_server_config U) : mb_rtu_server_config U :=
  if srv_recv_timeout_ms cfg =? 0 then set_recv_timeout MB_RTU_SERVER_DEFAULT_RECV_TIMEOUT_MS cfg else cfg.

Definition server_up (cfg : mb_rtu_server_config U) (on_link : bool) (k : kernel)
    (r : Z * option (mb_rtu_server U)) (k' : kernel) : Prop :=
  exists s, snd r = Some s /\ server_cfg s = kept_config cfg /\
    server_rx s = SrvCtx (replicate (Z.to_nat MODBUS_RTU_MAX_ADU_LENGTH) 0) 0 0 (mb_rtu_t35_us (Some (serial_of cfg))) /\
    ((fst r = -1 /\ initialized (transport s) = 0 /\ serial_fd (transport s) = -1 /\ account k' = account k) \/
     (fst r = 0 /\ running k (transport s) k' /\ has_on_link (RtuPort.cfg (transport s)) = on_link /\
      links k' = links k ++ link_event (RtuPort.cfg (transport s)) (serial_fd (transport s)) 1)).

Lemma server_start_wp s cfg on_link k :
  sane_kernel k -> initialized (transport s) = 0 -> empty_path (srv_device cfg) = false ->
  wp (mb_rtu_server_start (Some s) (Some cfg) on_link) (server_up cfg on_link k) k.
Proof.
  intros Hk Hi Hp. unfold mb_rtu_server_start. rewrite Hp, Hi. cbn [Z.eqb negb]. cbv zeta.
  apply wp_bind. eapply wp_mono; [by apply start_wp|]. cbn beta.
  intros [rc t] k' (es & (c & Hc & Hl) & Hcfg). cbn [fst snd] in *. subst t. apply wp_ret.
  destruct (Hcfg c eq_refl) as (Hlink & Hinit & Hes). cbn in Hlink, Hinit.
  eexists. split; [done|]. split; [done|]. split; [done|]. cbn [transport default from_option id fst].
  destruct Hl as [(-> & Hini & Hfd & Ha)|(-> & Hini & _ & Hfd & Hfr & Ha & He)]; [by left|right].
  split; [done|]. split; [done|]. split; [done|].
  destruct (Hes eq_refl) as (settings & _ & Hes'). by eapply links_start.
Qed.

Lemma server_start_succeeds (s : mb_rtu_server U) cfg on_link k :
  initialized (transport s) = 0 -> starts (serial_of cfg) k ->
  exists t k', mb_rtu_server_start (Some s) (Some cfg) on_link k = Ok ((0, t), k').
Proof.
  intros Hi Hst. pose proof Hst as (m & n & f & g & l & _ & Ho & _). unfold mb_rtu_server_start.
  change (srv_device cfg) with (device_path (serial_of cfg)). rewrite (opens_path _ _ _ _ Ho), Hi. cbn [Z.eqb negb]. cbv zeta.
  set (config := RtuConfig _ _ _ _ _ _).
  destruct (start_succeeds zero_transport config k eq_refl Hst) as (c' & k' & Hrun). erewrite bind_ok by exact Hrun. by eexists _, _.
Qed.

(** With when it succeeds. *)
Lemma server_started_wp (s : mb_rtu_server U) cfg on_link k :
  sane_kernel k -> initialized (transport s) = 0 -> empty_path (srv_device cfg) = false ->
  wp (mb_rtu_server_start (Some s) (Some cfg) on_link)
    (fun r k' => server_up cfg on_link k r k' /\ (starts (serial_of cfg) k -> fst r = 0)) k.
Proof.
  intros Hk Hi Hp. pose proof (server_start_wp s cfg on_link k Hk Hi Hp) as Hw. unfold wp in *.
  destruct (mb_rtu_server_start _ _ _ _) as [[r k']|] eqn:E; [|done]. split; [done|]. intros Hst.
  destruct (server_start_succeeds s cfg on_link k Hi Hst) as (t & k2 & Hrun). rewrite E in Hrun. by injection Hrun as -> _.
Qed.

Lemma running_quiet k c k1 k2 : running k c k1 -> quiet k1 k2 -> running k c k2.
Proof. intros H [? _]. by eapply running_account. Qed.

Lemma running_open k c k1 : running k c k1 -> 0 <= serial_fd c /\ serial_fd c ∈ fds k1.
Proof. intros (_ & Hn & _ & Ha). split; [done|]. apply account_fds in Ha as ->. cbn. set_solver. Qed.

Lemma kept_served (cfg : mb_rtu_server_config U) : Implements (handlers cfg) d -> Implements (handlers (kept_config cfg)) d.
Proof. unfold kept_config. by destruct (_ =? 0). Qed.

Lemma kept_timeout (cfg : mb_rtu_server_config U) :
  is_u32 (srv_recv_timeout_ms cfg) -> is_u32 (effective_timeout_ms (kept_config cfg)).
Proof.
  intros Ht. unfold effective_timeout_ms, kept_config. destruct (srv_recv_timeout_ms cfg =? 0) eqn:E; [by vm_compute|].
  by rewrite E.
Qed.

Lemma poll_port_wp (s : mb_rtu_server U) `{!Implements (handlers (server_cfg s)) d} k u fd :
  is_u32 (effective_timeout_ms (server_cfg s)) -> fd ∈ fds k -> port_ready (server_cfg s) u ->
  wp (poll_port s fd) (fun _ st => quiet k (fst st) /\ port_ready (server_cfg s) (snd st)) (k, u).
Proof.
  intros Ht Hf Hu. apply wp_bind, wp_on_fst, wp_use; [done|]. apply wp_on_snd.
  eapply wp_mono; [by apply on_process_keeps|]. by split.
Qed.

Lemma polled_wp (s : mb_rtu_server U) `{!Implements (handlers (server_cfg s)) d} rounds inside k k1 u :
  sane_kernel k -> running k (transport s) k1 -> is_u32 (effective_timeout_ms (server_cfg s)) -> port_ready (server_cfg s) u ->
  wp (polled s rounds inside)
    (fun s' st => account (fst st) = account k /\
      links (fst st) = links k1 ++ link_event (RtuPort.cfg (transport s)) (serial_fd (transport s)) 0 /\
      exists t, s' = Some t /\ initialized (transport t) = 0 /\ serial_fd (transport t) = -1) (k1, u).
Proof.
  intros Hk Hr Ht Hu. destruct (running_open _ _ _ Hr) as [Hpos Hf]. apply wp_bind. eapply wp_mono.
  { apply (thread_wp _ (port_ready (server_cfg s)) (serial_fd (transport s))); [|done..]. intros. by apply poll_port_wp. }
  cbn beta. intros loops [k2 u2] [Hq Hu2]. cbn [fst snd] in *. pose proof (running_quiet _ _ _ _ Hr Hq) as Hr2.
  destruct (running_open _ _ _ Hr2) as [_ Hf2]. apply wp_bind. eapply wp_mono.
  { apply (stop_wp _ (fun _ => True) k _ k2); [done | done|]. unfold poll_rest. destruct loops; [|by apply wp_ret].
    eapply wp_mono; [apply (thread_rest_wp _ (port_ready (server_cfg s)) (serial_fd (transport s))); [| |done..]|].
    - intros. by apply poll_port_wp.
    - by intros c; destruct inside; [intros [= <-] | ].
    - by intros _ st [? _]. }
  cbn beta. intros c' st (Ha & Hl & (c1 & -> & Hi & Hfd) & _). apply wp_ret. split; [done|].
  destruct Hq as [_ Hq]. rewrite Hl, Hq. split; [done | by eexists].
Qed.
End Life.

(** C13. The whole life of an RTU server, for every behaviour of the operating
    system, the line and the clock, every number of rounds of its thread and
    whether the stop clears the flag inside a round or between two:
    [mb_rtu_server_start], the thread polling its port with [server_on_process],
    and [mb_rtu_server_stop], which waits for the thread and only then closes the
    port.  The thread ends after the round it is in, so the join returns; the
    port is open whenever the thread uses it; no descriptor, lock or thread that
    is not live is used; and in the end the process holds exactly what it held
    before, whether the start failed half-way or the server ran.  It runs
    whenever the settings are supported and the system gives what the start asks
    for.  The context can be started again, and [on_link] was called once with 1
    and then once with 0, for the same descriptor. *)
Theorem rtu_server_life `{Indet} {U} (d : device U) (s : mb_rtu_server U) (cfg : mb_rtu_server_config U)
    `{!Implements (handlers cfg) d} on_link rounds inside k c0 w u :
  sane_kernel k -> initialized (transport s) = 0 -> empty_path (srv_device cfg) = false ->
  is_u32 (srv_recv_timeout_ms cfg) -> is_u32 (srv_inter_frame_delay_us cfg) -> rx_bytes (rx w) ->
  wp (server_life s cfg on_link rounds inside)
    (fun r st => clean_life on_link k r (fst st) /\ (starts (serial_of cfg) k -> fst r = 0)) (k, ((c0, w), u)).
Proof.
  intros Hk Hi Hp Ht Hd Hb. apply wp_bind, wp_on_fst. eapply wp_mono; [by apply server_started_wp|]. cbn beta.
  intros [rc s'] k1 [(t & Ht' & Hcfg & Hrx & Hup) Hst]. cbn [fst snd] in *. subst s'.
  destruct Hup as [(-> & Hini & Hfd & Ha)|(-> & Hrun & Hlink & Hl)]; cbn [Z.eqb].
  { apply wp_ret. split; [|done]. split; [done|]. split; [by eexists | by left]. }
  apply wp_bind, wp_on_snd. unfold wp at 1. rewrite Hrx. destruct (running_open _ _ _ Hrun) as [Hpos _].
  pose proof Hrun as (_ & _ & Hfr & _).
  assert (Implements (handlers (server_cfg t)) d) as Hserved by (rewrite Hcfg; by apply kept_served).
  assert (port_ready (server_cfg t) ((server_rx t, w), u)) as Hready.
  { rewrite Hcfg, Hrx. apply fresh_ready; [unfold kept_config; by destruct (_ =? 0) | done | exact Hb]. }
  assert (is_u32 (effective_timeout_ms (server_cfg t))) as Htime by (rewrite Hcfg; by apply kept_timeout).
  rewrite <- Hrx. apply wp_bind. eapply wp_mono; [exact (polled_wp d t rounds inside k k1 _ Hk Hrun Htime Hready)|].
  cbn beta. intros s' st (Ha & Hls & t' & -> & Hi' & Hfd'). apply wp_ret. split; [|done]. split; [done|].
  split; [by eexists|]. right. split; [done|]. exists (serial_fd (transport t)). split; [done|].
  rewrite Hls, Hl, <- app_assoc. unfold link_event. rewrite Hlink. by destruct on_link.
Qed.

#[local] Instance junk : Indet := fun i => 13 + 3 * Z.of_nat i.
#[local] Instance bank_served unit_id : Implements (handlers (bank_config unit_id)) bank_device := bank_implements.

(** Standard input and output are open, and every call succeeds. *)
Definition calm_kernel : kernel :=
  Kernel (list_to_set [0; 1; 2]) 0 0 0 (inl 0 :: inl 3 :: replicate 6 (inl 0)) [].

Definition idle_server : mb_rtu_server bank := Server zero_transport (bank_config 1) (holding [] 0).

Definition one_poll (rounds : nat) (inside : bool) : outcome ((Z * option (mb_rtu_server bank)) * (kernel * server_state)) :=
  server_life idle_server (bank_config 1) true rounds inside
    (calm_kernel, ((holding [] 0, sample_world [RxData sample_frame; RxErr EAGAIN]), sample_bank)).

Example calm_starts : starts (serial_of (bank_config 1)) calm_kernel.
Proof.
  exists (tail (answers calm_kernel)), 3, 0, 0, []. split; [done|]. split; [|done]. constructor; [done | | done | | done].
  - split_and!; by apply (bool_decide_unpack _).
  - split; [done | by apply (bool_decide_unpack _); vm_compute].
Qed.

(** The server starts, answers one request and stops: between two rounds, or
    while the thread is still reading the request. *)
Example one_poll_events :
  Forall (fun '(rounds, inside) =>
    match one_poll rounds inside with
    | Ok ((rc, _), (k, ((_, w), _))) => rc = 0 /\ links k = [LinkChanged 3 1; LinkChanged 3 0] /\ zlen (output w) = 9
    | Fail _ => False
    end) [(1%nat, false); (0%nat, true)].
Proof. do 2 (apply List.Forall_cons; [vm_compute; done|]). apply List.Forall_nil. Qed.

Lemma rtu_server_life_witness :
  wp (server_life idle_server (bank_config 1) true 1 true)
    (fun r st => clean_life true calm_kernel r (fst st) /\ (starts (serial_of (bank_config 1)) calm_kernel -> fst r = 0))
    (calm_kernel, ((holding [] 0, sample_world [RxData [9]; RxData sample_frame; RxErr EAGAIN; RxErr EAGAIN]), sample_bank)).
Proof.
  apply (rtu_server_life bank_device).
  - apply bank_served.
  - split; [|split]; by vm_compute.
  - done.
  - done.
  - by vm_compute.
  - by vm_compute.
  - repeat (apply List.Forall_cons; [first [exact I | apply (bool_decide_unpack _); by vm_compute]|]). apply List.Forall_nil.
Defined.
