(* ===== verification/RtuBus.v ===== *)
(** * The registry of serial buses: [src/modbus_rtu_client.c]

    Contexts of the same device share one [mb_rtu_shared_bus]: a record on the
    heap, in a singly linked list whose head is the global [shared_buses].
    Here the heap is a map from addresses to records with their [next]
    pointers; reading through a NULL or freed pointer is [UB].  The registry
    lock makes every attach and every detach one step.  [realpath] is not part
    of the program: its result ([None] when it fails) is an argument. *)

From stdpp Require Import gmap strings.
From S2P Require Import Prelude Buffer Defines Bits Pdu PduSpec Ptr Rtu Sys RtuClient Kernel RtuPort.

Definition PATH_MAX : Z := 4096.

Record registry := Registry {
  os : kernel;
  heap : gmap Z (mb_rtu_shared_bus * option Z);
  shared_buses : option Z;
}.

Definition set_os (k : kernel) (r : registry) : registry := Registry k (heap r) (shared_buses r).
Definition set_heap (h : gmap Z (mb_rtu_shared_bus * option Z)) (r : registry) : registry :=
  Registry (os r) h (shared_buses r).
Definition set_head (p : option Z) (r : registry) : registry := Registry (os r) (heap r) p.

Definition on_os {A} (m : st kernel A) : st registry A := fun r =>
  match m (os r) with
  | Ok (a, k) => Ok (a, set_os k r)
  | Fail e => Fail e
  end.

(** ** Records on the heap *)

Definition zero_bus : mb_rtu_shared_bus :=
  Bus ""%string 0 0 0 0 0 0 0 0 false 0 (0, 0).

Definition set_refcnt (n : Z) (b : mb_rtu_shared_bus) : mb_rtu_shared_bus :=
  Bus (bus_path b) (bus_fd b) n (bus_baud_rate b) (bus_data_bits b) (bus_stop_bits b) (bus_parity b)
    (bus_rs485_mode b) (bus_t35_us b) (has_last_transaction b) (last_unit_id b) (last_release_time b).

Definition set_bus_fd (fd : Z) (b : mb_rtu_shared_bus) : mb_rtu_shared_bus :=
  Bus (bus_path b) fd (refcnt b) (bus_baud_rate b) (bus_data_bits b) (bus_stop_bits b) (bus_parity b)
    (bus_rs485_mode b) (bus_t35_us b) (has_last_transaction b) (last_unit_id b) (last_release_time b).

(** [*p] and [*p = v]. *)
Definition deref (p : Z) : st registry (mb_rtu_shared_bus * option Z) := fun r =>
  match heap r !! p with Some v => Ok (v, r) | None => Fail UB end.
Definition assign (p : Z) (v : mb_rtu_shared_bus * option Z) : st registry unit := fun r =>
  match heap r !! p with Some _ => Ok (tt, set_heap (<[p := v]> (heap r)) r) | None => Fail UB end.

(** [calloc] of one record: a new address or NULL. *)
Definition calloc_bus : st registry (option Z) :=
  let! a := on_os answer in
  let! r := get in
  match a with
  | inl p => if bool_decide (0 < p /\ heap r !! p = None)
             then put (set_os (add_blocks 1 (os r)) (set_heap (<[p := (zero_bus, None)]> (heap r)) r)) ;;;
                  ret (Some p)
             else ret None
  | inr _ => ret None
  end.

Definition free_bus (p : Z) : st registry unit := fun r =>
  match heap r !! p with
  | Some _ => Ok (tt, set_os (add_blocks (-1) (os r)) (set_heap (delete p (heap r)) r))
  | None => Fail UB
  end.

(** A pointer to a pointer to a record: [None] is [&shared_buses]. *)
Definition read_link (link : option Z) : st registry (option Z) :=
  match link with
  | None => let! r := get in ret (shared_buses r)
  | Some q => let! '(_, next) := deref q in ret next
  end.
Definition write_link (link : option Z) (v : option Z) : st registry unit :=
  match link with
  | None => let! r := get in put (set_head v r)
  | Some q => let! '(b, _) := deref q in assign q (b, v)
  end.

(** [strcpy] into a field of [PATH_MAX] bytes. *)
Definition strcpy_path (key : string) : outcome string :=
  if Z.of_nat (String.length key) <? PATH_MAX then Ok key else Fail UB.

(** ** The registry *)

Definition effective_baud_rate (baud_rate : Z) : Z := if baud_rate =? 0 then 9600 else baud_rate.

(** [None]: -1. *)
Definition resolve_bus_key (device : string) (realpath : option string) : outcome (option string) :=
  match realpath with
  | Some key => Ok (Some key)
  | None => if PATH_MAX <=? Z.of_nat (String.length device) then Ok None
            else obind (strcpy_path device) (fun key => Ok (Some key))
  end.

Fixpoint find_bus_loop (fuel : nat) (key : string) (bus : option Z) : st registry (option Z) :=
  match fuel with
  | O => stop NoFuel
  | S fuel' =>
      match bus with
      | None => ret None
      | Some p =>
          let! '(b, next) := deref p in
          if bool_decide (bus_path b = key) then ret (Some p) else find_bus_loop fuel' key next
      end
  end.

Definition find_bus_locked (key : string) : st registry (option Z) := fun r =>
  find_bus_loop (S (size (heap r))) key (shared_buses r) r.

Definition bus_settings_match (b : mb_rtu_shared_bus) (s : mb_rtu_serial_config) : bool :=
  (bus_baud_rate b =? effective_baud_rate (baud_rate s))
  && (bus_data_bits b =? effective_data_bits (data_bits s))
  && (bus_stop_bits b =? effective_stop_bits (stop_bits s))
  && (bus_parity b =? parity s)
  && (bus_rs485_mode b =? rs485_mode s).

Definition open_bus_locked (key : string) (s : mb_rtu_serial_config) : st registry (option Z) :=
  let! bus := calloc_bus in
  match bus with
  | None => ret None
  | Some p =>
      let! '(rc, fd) := on_os (mb_rtu_open (Some (-1)) (Some s)) in
      if negb (rc =? 0) then free_bus p ;;; ret None else
      let! rc := on_os mutex_init in
      if negb (rc =? 0) then on_os (mb_rtu_close fd) ;;; free_bus p ;;; ret None else
      let! path := lift (strcpy_path key) in
      let! r := get in
      assign p (Bus path (default (-1) fd) 0 (effective_baud_rate (baud_rate s))
                  (effective_data_bits (data_bits s)) (effective_stop_bits (stop_bits s)) (parity s)
                  (rs485_mode s) (mb_rtu_t35_us (Some s)) false 0 (0, 0), shared_buses r) ;;;
      let! r := get in
      put (set_head (Some p) r) ;;;
      ret (Some p)
  end.

Definition shared_bus_attach (s : mb_rtu_serial_config) (realpath : option string) : st registry (option Z) :=
  let! key := lift (resolve_bus_key (default ""%string (device_path s)) realpath) in
  match key with
  | None => ret None
  | Some key =>
      let! bus := find_bus_locked key in
      let! bus := match bus with
                  | Some p => let! '(b, _) := deref p in
                              ret (if negb (bus_settings_match b s) then None else bus)
                  | None => open_bus_locked key s
                  end in
      match bus with
      | Some p => let! '(b, next) := deref p in
                  assign p (set_refcnt (u32 (refcnt b + 1)) b, next) ;;; ret bus
      | None => ret None
      end
  end.

(** Take [bus] out of the list, from the pointer [link] points to on. *)
Fixpoint unlink_loop (fuel : nat) (link : option Z) (bus : Z) : st registry unit :=
  match fuel with
  | O => stop NoFuel
  | S fuel' =>
      let! cur := read_link link in
      match cur with
      | None => ret tt
      | Some q =>
          if q =? bus then let! '(_, next) := deref bus in write_link link next
          else unlink_loop fuel' (Some q) bus
      end
  end.

Definition unlink (bus : Z) : st registry unit := fun r =>
  unlink_loop (S (size (heap r))) None bus r.

Definition shared_bus_detach (bus : option Z) : st registry unit :=
  match bus with
  | None => stop UB
  | Some p =>
      let! '(b, next) := deref p in
      (if 0 <? refcnt b then assign p (set_refcnt (u32 (refcnt b - 1)) b, next) else ret tt) ;;;
      let! '(b, _) := deref p in
      if refcnt b =? 0 then
        unlink p ;;;
        let! '(b, next) := deref p in
        let! fd := on_os (mb_rtu_close (Some (bus_fd b))) in
        assign p (set_bus_fd (default (bus_fd b) fd) b, next) ;;;
        on_os mutex_destroy ;;;
        free_bus p
      else ret tt
  end.

(** ** Contexts *)

Definition zero_cli_config : mb_rtu_client_config := CliConfig None 0 0 0 0 0 0 0 0 0 0 false.
Definition zero_cli_ctx : mb_rtu_client_ctx := CliCtx 0 None 0 zero_cli_config.

Definition mb_rtu_client_connect (ctx : option mb_rtu_client_ctx) (cfg : option mb_rtu_client_config)
    (realpath : option string) : st registry (Z * option mb_rtu_client_ctx) :=
  match ctx, cfg with
  | Some c, Some cfg =>
      if empty_path (cli_device cfg) then ret (-1, ctx)
      else if negb (cli_initialized c =? 0) then ret (-1, ctx) else
      let c := CliCtx (-1) None 0 cfg in
      let! rc := on_os mutex_init in
      if negb (rc =? 0) then ret (-1, Some c) else
      let serial := SerialConfig (cli_device cfg) (cli_baud_rate cfg) (cli_data_bits cfg)
                      (cli_stop_bits cfg) (cli_parity cfg) (cli_rs485_mode cfg) in
      let! bus := shared_bus_attach serial realpath in
      match bus with
      | None => on_os mutex_destroy ;;; ret (-1, Some c)
      | Some p => let! '(b, _) := deref p in ret (0, Some (CliCtx (bus_fd b) bus 1 cfg))
      end
  | _, _ => ret (-1, ctx)
  end.

Definition mb_rtu_client_disconnect (ctx : option mb_rtu_client_ctx) : st registry (option mb_rtu_client_ctx) :=
  match ctx with
  | None => ret None
  | Some c =>
      if cli_initialized c =? 0 then ret ctx else
      shared_bus_detach (shared_bus c) ;;;
      on_os mutex_destroy ;;;
      ret (Some (CliCtx (-1) None 0 (cli_cfg c)))
  end.

Definition set_config_unit_id (u : Z) (cfg : mb_rtu_client_config) : mb_rtu_client_config :=
  CliConfig (cli_device cfg) (cli_baud_rate cfg) (cli_data_bits cfg) (cli_stop_bits cfg) (cli_parity cfg) u
    (cli_response_timeout_ms cfg) (cli_inter_frame_delay_us cfg) (cli_bus_handoff_silence_ms cfg)
    (cli_rs485_mode cfg) (cli_local_echo cfg) (cli_on_tx_enable cfg).

Definition mb_rtu_client_set_unit_id (ctx : option mb_rtu_client_ctx) (unit_id : Z)
    : Z * option mb_rtu_client_ctx :=
  match ctx with
  | None => (MB_RTU_CLIENT_ERR_ARG, None)
  | Some c =>
      if cli_initialized c =? 0 then (MB_RTU_CLIENT_ERR_NOT_CONNECTED, ctx)
      else (MB_RTU_CLIENT_OK, Some (CliCtx (cli_fd c) (shared_bus c) (cli_initialized c)
                                     (set_config_unit_id unit_id (cli_cfg c))))
  end.
