(* ===== verification/RtuBusSpec.v ===== *)
(** * The registry as a finite map of buses

    The linked list of [RtuBus] represents a map from addresses to bus
    records; attach and detach are updates of that map, and what the process
    holds follows from it. *)

From stdpp Require Import gmap strings.
From S2P Require Import Prelude Buffer Defines Bits Pdu PduSpec Ptr Rtu Sys RtuClient RtuClientTransact Kernel RtuPort RtuPortSpec RtuBus.

Lemma wp_os {A} (m : st kernel A) Q r :
  wp m (fun a k => Q a (set_os k r)) (os r) -> wp (on_os m) Q r.
Proof. unfold wp, on_os. by destruct (m (os r)) as [[a k]|]. Qed.

Lemma wp_deref p b n Q r : heap r !! p = Some (b, n) -> Q (b, n) r -> wp (deref p) Q r.
Proof. intros Hp HQ. unfold wp, deref. by rewrite Hp. Qed.

Lemma wp_assign p v v' Q r :
  heap r !! p = Some v' -> Q tt (set_heap (<[p := v]> (heap r)) r) -> wp (assign p v) Q r.
Proof. intros Hp HQ. unfold wp, assign. by rewrite Hp. Qed.

Lemma wp_free p v Q r :
  heap r !! p = Some v -> Q tt (set_os (add_blocks (-1) (os r)) (set_heap (delete p (heap r)) r)) ->
  wp (free_bus p) Q r.
Proof. intros Hp HQ. unfold wp, free_bus. by rewrite Hp. Qed.

(** ** The list *)

Section Chain.
Implicit Types (h : gmap Z (mb_rtu_shared_bus * option Z)).

(** The records from pointer [p] on. *)
Inductive chain h : option Z -> list Z -> Prop :=
  | chain_nil : chain h None []
  | chain_cons p b n ps : h !! p = Some (b, n) -> chain h n ps -> chain h (Some p) (p :: ps).

Lemma chain_ext h h' p ps : (forall q, q ∈ ps -> h' !! q = h !! q) -> chain h p ps -> chain h' p ps.
Proof.
  intros Hh Hc. revert Hh. induction Hc as [|p b n ps Hp Hc IH]; intros Hh; [constructor|].
  econstructor; [rewrite Hh; [done | apply elem_of_cons; by left]|].
  apply IH. intros q Hq. apply Hh, elem_of_cons. by right.
Qed.

Lemma chain_insert h p q v ps : q ∉ ps -> chain h p ps -> chain (<[q := v]> h) p ps.
Proof. intros Hq. apply chain_ext. intros q' Hq'. apply lookup_insert_ne. by intros ->. Qed.

Lemma chain_delete h p q ps : q ∉ ps -> chain h p ps -> chain (delete q h) p ps.
Proof. intros Hq. apply chain_ext. intros q' Hq'. apply lookup_delete_ne. by intros ->. Qed.

(** Changing a record but not its [next]. *)
Lemma chain_update h p q b b' n ps :
  h !! q = Some (b, n) -> chain h p ps -> chain (<[q := (b', n)]> h) p ps.
Proof.
  intros Hq Hc. induction Hc as [|p bp np ps Hp Hc IH]; [constructor|].
  destruct (decide (p = q)) as [->|Hne].
  - rewrite Hq in Hp. injection Hp as <- <-. econstructor; [apply lookup_insert_eq | done].
  - econstructor; [by rewrite lookup_insert_ne | done].
Qed.

Lemma chain_head h p ps : chain h (Some p) ps -> exists b n ps', ps = p :: ps' /\ h !! p = Some (b, n) /\ chain h n ps'.
Proof. inversion 1; subst. by eexists _, _, _. Qed.
End Chain.

Definition linked (r : registry) (ps : list Z) : Prop :=
  chain (heap r) (shared_buses r) ps /\ NoDup ps /\ dom (heap r) = list_to_set ps.

Lemma linked_size r ps : linked r ps -> size (heap r) = length ps.
Proof. intros (_ & Hn & Hd). by rewrite <- size_dom, Hd, size_list_to_set. Qed.

Lemma linked_mem r ps p : linked r ps -> (is_Some (heap r !! p) <-> p ∈ ps).
Proof. intros (_ & _ & Hd). by rewrite <- elem_of_dom, Hd, elem_of_list_to_set. Qed.

Lemma find_loop_wp key ptr ps r fuel :
  chain (heap r) ptr ps -> (length ps < fuel)%nat ->
  wp (find_bus_loop fuel key ptr) (fun res r' => r' = r /\
    match res with
    | Some p => exists b n, heap r !! p = Some (b, n) /\ bus_path b = key
    | None => forall p b n, p ∈ ps -> heap r !! p = Some (b, n) -> bus_path b <> key
    end) r.
Proof.
  intros Hc. revert fuel. induction Hc as [|p b n ps Hp Hc IH]; intros [|fuel] Hf; try (simpl in Hf; lia).
  - apply wp_ret. split; [done|]. intros p b n Hin. by apply not_elem_of_nil in Hin.
  - cbn [find_bus_loop]. apply wp_bind, (wp_deref p b n); [done|]. case_bool_decide as Hk.
    + apply wp_ret. split; [done|]. by eexists _, _.
    + eapply wp_mono; [apply IH; simpl in Hf; lia|]. cbn beta. intros res r' [-> Hres]. split; [done|].
      destruct res as [q|]; [done|]. intros q bq nq [->|Hq]%elem_of_cons Hlook; [congruence | by eapply Hres].
Qed.

(** The search asks the operating system for nothing, so it always ends. *)
Lemma find_loop_ends key ptr ps r fuel :
  chain (heap r) ptr ps -> (length ps < fuel)%nat -> exists res, find_bus_loop fuel key ptr r = Ok (res, r).
Proof.
  intros Hc. revert fuel. induction Hc as [|p b n ps Hp Hc IH]; intros [|fuel] Hf; try (simpl in Hf; lia); [by exists None|].
  cbn [find_bus_loop]. unfold bind, deref. rewrite Hp. case_bool_decide; [by exists (Some p)|]. apply IH. simpl in Hf. lia.
Qed.

Lemma find_wp key ps r : linked r ps ->
  wp (find_bus_locked key) (fun res r' => r' = r /\
    match res with
    | Some p => exists b n, heap r !! p = Some (b, n) /\ bus_path b = key
    | None => forall p b n, heap r !! p = Some (b, n) -> bus_path b <> key
    end) r.
Proof.
  intros Hl. pose proof (linked_size r ps Hl) as Hs. pose proof Hl as (Hc & _).
  unfold wp, find_bus_locked. rewrite Hs.
  pose proof (find_loop_wp key _ ps r (S (length ps)) Hc ltac:(lia)) as Hw. unfold wp in Hw.
  destruct (find_bus_loop _ _ _ _) as [[res r']|]; [|done]. destruct Hw as [-> Hres]. split; [done|].
  destruct res; [done|]. intros p b n Hp. eapply Hres; [|done]. apply (linked_mem r ps); [done | by eexists].
Qed.

(** ** Taking a record out of the list *)

(** The pointer that [link] points to. *)
Definition target (r : registry) (link : option Z) : option (option Z) :=
  match link with None => Some (shared_buses r) | Some q => snd <$> heap r !! q end.

(** [r'] is [r] with other links between the records. *)
Definition relinked (r r' : registry) : Prop := os r' = os r /\ fst <$> heap r' = fst <$> heap r.

Lemma wp_read_link link v Q r : target r link = Some v -> Q v r -> wp (read_link link) Q r.
Proof.
  intros Hv HQ. destruct link as [q|]; cbn in Hv; [|injection Hv as <-; apply wp_bind, wp_get; by apply wp_ret].
  destruct (heap r !! q) as [[b n]|] eqn:E; [|done]. injection Hv as <-.
  apply wp_bind, (wp_deref q b n); [done|]. by apply wp_ret.
Qed.

Lemma wp_write_link link v v' Q r :
  target r link = Some v' ->
  (forall r', relinked r r' -> target r' link = Some v ->
     (forall q, Some q <> link -> heap r' !! q = heap r !! q) ->
     (link <> None -> shared_buses r' = shared_buses r) -> Q tt r') ->
  wp (write_link link v) Q r.
Proof.
  intros Hv HQ. destruct link as [q|]; cbn in Hv.
  - destruct (heap r !! q) as [[b n]|] eqn:E; [|done].
    apply wp_bind, (wp_deref q b n); [done|]. apply (wp_assign q _ (b, n)); [done|]. apply HQ.
    + split; [done|]. cbn. rewrite fmap_insert. apply insert_id. by rewrite lookup_fmap, E.
    + cbn. by rewrite lookup_insert_eq.
    + intros q' Hq'. cbn. apply lookup_insert_ne. by intros ->.
    + done.
  - apply wp_bind, wp_get, wp_put. by apply HQ.
Qed.

Lemma unlink_loop_wp p ps1 ps2 r : forall link cur fuel,
  target r link = Some cur -> (forall q, link = Some q -> q ∉ ps1 ++ p :: ps2) ->
  chain (heap r) cur (ps1 ++ p :: ps2) -> NoDup (ps1 ++ p :: ps2) -> (length ps1 < fuel)%nat ->
  wp (unlink_loop fuel link p) (fun _ r' => relinked r r' /\
    (exists cur', target r' link = Some cur' /\ chain (heap r') cur' (ps1 ++ ps2)) /\
    (forall q, Some q <> link -> q ∉ ps1 -> heap r' !! q = heap r !! q) /\
    (link <> None -> shared_buses r' = shared_buses r)) r.
Proof.
  induction ps1 as [|q ps1 IH]; intros link cur [|fuel] Ht Hlink Hc Hnd Hf; try (simpl in Hf; lia); cbn [unlink_loop].
  - inversion Hc as [|? b n ? Hp Hc2]; subst. apply wp_bind, (wp_read_link link (Some p)); [done|].
    rewrite Z.eqb_refl. apply wp_bind, (wp_deref p b n); [done|].
    apply (wp_write_link link n (Some p)); [done|]. intros r' Hr Ht' Hsame Hhd.
    split; [done|]. split; [|by split; [intros; apply Hsame|]]. exists n. split; [done|].
    apply (chain_ext (heap r)); [|done]. intros q Hq. apply Hsame. intros <-.
    apply (Hlink q); [done|]. apply elem_of_cons. by right.
  - inversion Hc as [|? b n ? Hq Hc2]; subst. apply wp_bind, (wp_read_link link (Some q)); [done|].
    cbn [app] in Hnd. apply NoDup_cons in Hnd as [Hqn Hnd].
    assert (q <> p) as Hqp by (intros ->; apply Hqn, elem_of_app; right; apply elem_of_cons; by left).
    rewrite (proj2 (Z.eqb_neq _ _)) by done.
    eapply wp_mono; [apply (IH (Some q) n); cbn; [by rewrite Hq | | done | done | simpl in Hf; lia]|].
    { by intros ? [= <-]. }
    cbn beta. intros _ r' (Hr & (cur' & Ht' & Hc') & Hsame & Hhd). split; [done|]. specialize (Hhd ltac:(done)).
    cbn in Ht'. destruct (heap r' !! q) as [[b' n']|] eqn:Eq; [|done]. injection Ht' as ->.
    assert (target r' link = Some (Some q)) as Htr.
    { rewrite <- Ht. destruct link as [l|]; cbn; [|by rewrite Hhd]. rewrite Hsame; [done| |].
      - intros [= ->]. apply (Hlink q); [done|]. apply elem_of_cons. by left.
      - intros Hl. apply (Hlink l); [done|]. apply elem_of_cons. right. apply elem_of_app. by left. }
    split; [exists (Some q); split; [done|]; by econstructor|]. split; [|by intros _].
    intros q' Hq' Hn. apply not_elem_of_cons in Hn as [Hne Hn]. apply Hsame; [by intros [= ->] | done].
Qed.

(** ** What a registry is *)

Definition buses (r : registry) : gmap Z mb_rtu_shared_bus := fst <$> heap r.

Lemma buses_lookup r p b n : heap r !! p = Some (b, n) -> buses r !! p = Some b.
Proof. intros Hp. unfold buses. by rewrite lookup_fmap, Hp. Qed.

Lemma buses_inv r p b : buses r !! p = Some b -> exists n, heap r !! p = Some (b, n).
Proof.
  unfold buses. rewrite lookup_fmap. destruct (heap r !! p) as [[b' n]|]; [|done]. intros [= ->]. by exists n.
Qed.

Definition bus_good (base : kernel) (b : mb_rtu_shared_bus) : Prop :=
  bus_ok b /\ 0 <= bus_fd b /\ bus_fd b ∉ fds base /\ Z.of_nat (String.length (bus_path b)) < PATH_MAX /\
  0 < refcnt b < 2 ^ 32.

(** No two buses have the same device or descriptor. *)
Definition distinct (m : gmap Z mb_rtu_shared_bus) : Prop :=
  forall p q b b', m !! p = Some b -> m !! q = Some b' ->
    bus_path b = bus_path b' \/ bus_fd b = bus_fd b' -> p = q.

(** The process holds what [base] holds, a descriptor, a mutex and a block for
    every bus, and [extra] mutexes. *)
Definition holds (base : kernel) (extra : Z) (m : gmap Z mb_rtu_shared_bus) (k : kernel) : Prop :=
  (forall fd, fd ∈ fds k <-> fd ∈ fds base \/ exists p b, m !! p = Some b /\ bus_fd b = fd) /\
  locks k = locks base + Z.of_nat (size m) + extra /\ threads k = threads base /\
  blocks k = blocks base + Z.of_nat (size m).

Record registry_ok (base : kernel) (extra : Z) (r : registry) : Prop := RegistryOk {
  ok_linked : exists ps, linked r ps;
  ok_buses : map_Forall (fun _ => bus_good base) (buses r);
  ok_distinct : distinct (buses r);
  ok_holds : holds base extra (buses r) (os r);
}.

Lemma buses_size r : size (buses r) = size (heap r).
Proof. apply map_size_fmap. Qed.

Lemma unlink_wp p ps r :
  linked r ps -> p ∈ ps ->
  wp (unlink p) (fun _ r' => relinked r r' /\ heap r' !! p = heap r !! p /\
    exists ps', p ∉ ps' /\ NoDup ps' /\ chain (heap r') (shared_buses r') ps' /\ dom (heap r') = {[p]} ∪ list_to_set ps') r.
Proof.
  intros Hl Hp. pose proof (linked_size r ps Hl) as Hs. destruct Hl as (Hc & Hnd & Hd).
  apply list_elem_of_split in Hp as (ps1 & ps2 & ->). unfold wp, unlink.
  pose proof (unlink_loop_wp p ps1 ps2 r None _ (S (size (heap r))) eq_refl ltac:(done) Hc Hnd
    ltac:(rewrite Hs, length_app; simpl; lia)) as Hw. unfold wp in Hw.
  destruct (unlink_loop _ _ _ r) as [[[] r']|]; [|done].
  destruct Hw as ([Ho Hh] & (cur & Ht & Hc') & Hsame & _). injection Ht as <-.
  apply NoDup_app in Hnd as (Hn1 & Hdis & Hn2). apply NoDup_cons in Hn2 as [Hp2 Hn2].
  assert (p ∉ ps1) as Hp1 by (intros Hin; apply (Hdis _ Hin), elem_of_cons; by left).
  split; [done|]. split; [by apply Hsame|]. exists (ps1 ++ ps2). split_and!; [| |done|].
  - rewrite elem_of_app. tauto.
  - apply NoDup_app. split; [done|]. split; [|done]. intros q Hq Hq2. apply (Hdis q Hq), elem_of_cons. by right.
  - replace (dom (heap r')) with (dom (heap r)).
    + rewrite Hd, !list_to_set_app_L, list_to_set_cons. set_solver.
    + rewrite <- (dom_fmap_L fst (heap r)), <- (dom_fmap_L fst (heap r')). by rewrite Hh.
Qed.

(** ** Keys *)

Definition device_of (s : mb_rtu_serial_config) : string := default ""%string (device_path s).

(** The registry key of a device. *)
Definition bus_key (s : mb_rtu_serial_config) (realpath : option string) : option string :=
  match realpath with
  | Some key => Some key
  | None => if Z.of_nat (String.length (device_of s)) <? PATH_MAX then Some (device_of s) else None
  end.

(** [realpath] returns at most [PATH_MAX] bytes, the terminating one included. *)
Definition path_fits (realpath : option string) : Prop :=
  forall key, realpath = Some key -> Z.of_nat (String.length key) < PATH_MAX.

Lemma resolve_bus_key_run s realpath :
  resolve_bus_key (device_of s) realpath = Ok (bus_key s realpath).
Proof.
  unfold resolve_bus_key, bus_key, strcpy_path. destruct realpath; [done|].
  destruct (Z.leb_spec PATH_MAX (Z.of_nat (String.length (device_of s)))).
  - by rewrite (proj2 (Z.ltb_ge _ _)).
  - by rewrite (proj2 (Z.ltb_lt _ _)) by done.
Qed.

Lemma bus_key_fits s realpath key :
  path_fits realpath -> bus_key s realpath = Some key -> strcpy_path key = Ok key /\ Z.of_nat (String.length key) < PATH_MAX.
Proof.
  intros Hf Hk. assert (Z.of_nat (String.length key) < PATH_MAX) as Hlt.
  { destruct realpath as [key'|]; cbn in Hk; [injection Hk as ->; by apply Hf|].
    destruct (Z.ltb_spec (Z.of_nat (String.length (device_of s))) PATH_MAX); [by injection Hk as <- | done]. }
  split; [|done]. unfold strcpy_path. by rewrite (proj2 (Z.ltb_lt _ _)).
Qed.

(** ** Opening a bus *)

(** The record of a newly opened bus. *)
Definition new_bus (key : string) (fd : Z) (s : mb_rtu_serial_config) : mb_rtu_shared_bus :=
  Bus key fd 0 (effective_baud_rate (baud_rate s)) (effective_data_bits (data_bits s))
    (effective_stop_bits (stop_bits s)) (parity s) (rs485_mode s) (mb_rtu_t35_us (Some s)) false 0 (0, 0).

Lemma new_bus_match key fd s : bus_settings_match (new_bus key fd s) s = true.
Proof. unfold bus_settings_match, new_bus. cbn. by rewrite !Z.eqb_refl. Qed.

Lemma line_for_baud s t : line_for s t -> 0 < effective_baud_rate (baud_rate s).
Proof.
  intros [(Hb & _) _]. unfold baud_of in Hb. fold (effective_baud_rate (baud_rate s)) in Hb.
  unfold rates in Hb. rewrite !elem_of_cons, elem_of_nil in Hb. lia.
Qed.

Definition unchanged (r r' : registry) : Prop :=
  heap r' = heap r /\ shared_buses r' = shared_buses r /\ account (os r') = account (os r).

Definition bus_opened (key : string) (s : mb_rtu_serial_config) (r : registry) (res : option Z) (r' : registry) : Prop :=
  match res with
  | None => unchanged r r'
  | Some p => exists fd, heap r !! p = None /\ 0 <= fd /\ fd ∉ fds (os r) /\ bus_ok (new_bus key fd s) /\
      heap r' = <[p := (new_bus key fd s, shared_buses r)]> (heap r) /\ shared_buses r' = Some p /\
      account (os r') = account (add_blocks 1 (add_locks 1 (set_fds ({[fd]} ∪ fds (os r)) (os r))))
  end.

Lemma wp_calloc Q r :
  (forall l, Q None (set_os (later (os r) l) r)) ->
  (forall p l, 0 < p -> heap r !! p = None ->
     Q (Some p) (Registry (add_blocks 1 (later (os r) l)) (<[p := (zero_bus, None)]> (heap r)) (shared_buses r))) ->
  wp calloc_bus Q r.
Proof.
  intros H1 H2. apply wp_bind, wp_os, wp_answer. intros a l. apply wp_bind, wp_get.
  destruct a as [p|e]; [|apply H1]. case_bool_decide as Hp; [|apply H1].
  destruct Hp. apply wp_bind, wp_put, wp_ret. by apply H2.
Qed.

(** Giving back a record that was just allocated. *)
Lemma wp_give_back p v k r r0 :
  heap r = <[p := v]> (heap r0) -> heap r0 !! p = None -> shared_buses r = shared_buses r0 ->
  os r = k -> account (add_blocks (-1) k) = account (os r0) ->
  forall key s, wp (free_bus p ;;; ret None) (bus_opened key s r0) r.
Proof.
  intros Hh Hp Hhd Hk Ha key s. apply wp_bind, (wp_free p v); [rewrite Hh; apply lookup_insert_eq|].
  apply wp_ret. split; [|split; [done | cbn; by rewrite Hk]]. cbn. rewrite Hh. by apply delete_insert_id.
Qed.

Lemma open_bus_wp key s r :
  sane_kernel (os r) -> strcpy_path key = Ok key ->
  wp (open_bus_locked key s) (bus_opened key s r) r.
Proof.
  intros (Hlk & Hth & Hbk) Hkey. unfold open_bus_locked. apply wp_bind, wp_calloc; [by intros l; apply wp_ret|].
  intros p l Hp Hfree. apply wp_bind, wp_os. eapply wp_mono; [apply open_wp|]. cbn beta. cbn [os].
  intros [rc fd] k [[Heq Ha]|(n & settings & Heq & Hn & Hfr & Hset & _ & Ha & _)]; injection Heq as -> ->;
    apply account_iff in Ha as (Hf & Hl & Ht & Hb); cbn in Hf, Hl, Ht, Hb; cbn [Z.eqb negb].
  { eapply (wp_give_back p (zero_bus, None)); [done | done | done | done|]. cbn [os set_os]. accounts. }
  cbn in Hfr. apply wp_bind, wp_os, wp_acquire; intros l'; cbn [Z.eqb negb set_os os].
  { apply wp_bind, wp_os. unfold mb_rtu_close. rewrite (proj2 (Z.leb_le 0 n)) by done.
    apply wp_bind, wp_close; [ledger|]. apply wp_ret.
    eapply (wp_give_back p (zero_bus, None)); [done | done | done | done|]. cbn [os set_os]. accounts. }
  rewrite Hkey. apply wp_bind, wp_ret, wp_bind, wp_get. cbn [shared_buses set_os].
  apply wp_bind, (wp_assign p _ (zero_bus, None)); [apply lookup_insert_eq|].
  apply wp_bind, wp_get, wp_bind, wp_put, wp_ret. exists n. do 3 (split; [done|]).
  split; [split; [by eapply line_for_baud | split; [apply t35_u32 | done]]|].
  split; [cbn; by rewrite insert_insert_eq|]. split; [done|]. cbn [os set_os set_heap set_head]. accounts.
Qed.

(** ** Updates of the map *)

Lemma holds_account base extra m k k' : holds base extra m k -> account k' = account k -> holds base extra m k'.
Proof. intros Hh Ha. apply account_iff in Ha as (Hf & Hl & Ht & Hb). unfold holds. by rewrite Hf, Hl, Ht, Hb. Qed.

Lemma holds_extra base extra d m k : holds base extra m k -> holds base (extra + d) m (add_locks d k).
Proof. intros (H1 & H2 & H3 & H4). split_and!; cbn; [done | lia | done | done]. Qed.

Lemma holds_new base extra m k k' p b :
  holds base extra m k -> m !! p = None -> bus_fd b ∉ fds k ->
  account k' = account (add_blocks 1 (add_locks 1 (set_fds ({[bus_fd b]} ∪ fds k) k))) ->
  holds base extra (<[p := b]> m) k'.
Proof.
  intros (Hf & Hl & Ht & Hb) Hp Hfr Ha. apply account_iff in Ha as (Hf' & Hl' & Ht' & Hb'). cbn in *.
  unfold holds. rewrite map_size_insert_None by done. split; [|split_and!; lia].
  intros fd. rewrite Hf', elem_of_union, elem_of_singleton, Hf. split.
  - intros [->|[Hin|(q & b' & Hq & Hfd)]]; [|by left|].
    + right. exists p, b. by rewrite lookup_insert_eq.
    + right. exists q, b'. split; [|done]. rewrite lookup_insert_ne; [done|]. intros ->. congruence.
  - intros [Hin|(q & b' & Hq & Hfd)]; [by right; left|]. apply lookup_insert_Some in Hq as [[<- <-]|[_ Hq]]; [by left|].
    right; right. by exists q, b'.
Qed.

Lemma holds_update base extra m k p b b' :
  holds base extra m k -> m !! p = Some b -> bus_fd b' = bus_fd b -> holds base extra (<[p := b']> m) k.
Proof.
  intros (Hf & Hl & Ht & Hb) Hp Hfd. unfold holds. rewrite map_size_insert_Some by (by eexists).
  split; [|done]. intros fd. rewrite Hf. split; (intros [Hin|(q & b2 & Hq & Hfd2)]; [by left|right]).
  - destruct (decide (q = p)) as [->|Hne].
    + exists p, b'. rewrite lookup_insert_eq. split; [done | congruence].
    + exists q, b2. by rewrite lookup_insert_ne.
  - apply lookup_insert_Some in Hq as [[<- <-]|[_ Hq]]; [exists p, b; split; congruence | by exists q, b2].
Qed.

Lemma holds_delete base extra m k k' p b :
  holds base extra m k -> distinct m -> m !! p = Some b -> bus_fd b ∉ fds base ->
  account k' = account (add_blocks (-1) (add_locks (-1) (set_fds (fds k ∖ {[bus_fd b]}) k))) ->
  holds base extra (delete p m) k'.
Proof.
  intros (Hf & Hl & Ht & Hb) Hdis Hp Hbase Ha. apply account_iff in Ha as (Hf' & Hl' & Ht' & Hb'). cbn in *.
  pose proof (map_size_delete p m) as Hsz. rewrite Hp in Hsz. assert (size m <> 0%nat) as Hne.
  { intros Hz. apply map_size_empty_inv in Hz as ->. by rewrite lookup_empty in Hp. }
  unfold holds. rewrite Hsz. split; [|split_and!; lia].
  intros fd. rewrite Hf', elem_of_difference, elem_of_singleton, Hf. split.
  - intros [[Hin|(q & b' & Hq & Hfd)] Hn]; [by left|right]. exists q, b'. split; [|done].
    rewrite lookup_delete_ne; [done|]. intros ->. congruence.
  - intros [Hin|(q & b' & Hq & Hfd)]; [split; [by left | by intros ->]|].
    apply lookup_delete_Some in Hq as [Hqp Hq]. split; [right; by exists q, b'|]. intros ->.
    apply Hqp. symmetry. eapply (Hdis q p); [done | done | by right].
Qed.

Lemma distinct_insert m p b :
  distinct m -> (forall q b', q <> p -> m !! q = Some b' -> bus_path b' <> bus_path b /\ bus_fd b' <> bus_fd b) ->
  distinct (<[p := b]> m).
Proof.
  intros Hd Hb q q' c c' Hq Hq' Heq. apply lookup_insert_Some in Hq as [[<- <-]|[Hne Hq]];
    apply lookup_insert_Some in Hq' as [[<- <-]|[Hne' Hq']]; [done|..|by eapply Hd].
  - destruct (Hb q' c' (not_eq_sym Hne') Hq'). destruct Heq; congruence.
  - destruct (Hb q c (not_eq_sym Hne) Hq). destruct Heq; congruence.
Qed.

Lemma distinct_update m p b b' :
  distinct m -> m !! p = Some b -> bus_path b' = bus_path b -> bus_fd b' = bus_fd b -> distinct (<[p := b']> m).
Proof.
  intros Hd Hp Hpath Hfd. apply distinct_insert; [done|]. intros q c Hne Hq. rewrite Hpath, Hfd.
  split; intros Heq; apply Hne, (Hd q p c b); auto.
Qed.

Lemma distinct_delete m p : distinct m -> distinct (delete p m).
Proof.
  intros Hd q q' c c' Hq Hq'. apply lookup_delete_Some in Hq as [_ Hq]. apply lookup_delete_Some in Hq' as [_ Hq'].
  by apply (Hd q q').
Qed.

(** A bus keeps its place when its record changes. *)
Lemma registry_update base extra r p b b' n :
  registry_ok base extra r -> heap r !! p = Some (b, n) -> bus_path b' = bus_path b -> bus_fd b' = bus_fd b ->
  bus_good base b' -> registry_ok base extra (set_heap (<[p := (b', n)]> (heap r)) r).
Proof.
  intros [(ps & Hc & Hn & Hd) Hg Hdis Hh] Hp Hpath Hfd Hb. pose proof (buses_lookup _ _ _ _ Hp) as Hm.
  assert (buses (set_heap (<[p := (b', n)]> (heap r)) r) = <[p := b']> (buses r)) as Heq
    by (unfold buses; cbn; by rewrite fmap_insert).
  split; [|rewrite Heq..|rewrite Heq].
  - exists ps. split; [by eapply chain_update|]. split; [done|]. cbn. rewrite dom_insert_L, Hd.
    assert (p ∈ ps) by (apply (linked_mem r ps); [done | by eexists]). set_solver.
  - by apply map_Forall_insert_2.
  - by eapply distinct_update.
  - by eapply holds_update.
Qed.

Lemma set_refcnt_good base b n :
  bus_good base b -> 0 < n < 2 ^ 32 -> bus_good base (set_refcnt n b).
Proof. by intros (? & ? & ? & ? & _) Hn. Qed.

(** A bus that was just opened, with its first reference. *)
Lemma registry_new base extra key s r p r1 :
  registry_ok base extra r -> bus_opened key s r (Some p) r1 ->
  (forall q b n, heap r !! q = Some (b, n) -> bus_path b <> key) -> Z.of_nat (String.length key) < PATH_MAX ->
  exists fd, heap r1 !! p = Some (new_bus key fd s, shared_buses r) /\ buses r !! p = None /\
    let r2 := set_heap (<[p := (set_refcnt 1 (new_bus key fd s), shared_buses r)]> (heap r1)) r1 in
    registry_ok base extra r2 /\ buses r2 = <[p := set_refcnt 1 (new_bus key fd s)]> (buses r).
Proof.
  intros [(ps & Hc & Hn & Hd) Hg Hdis Hh] (fd & Hp & Hfd & Hfr & Hok & Hheap & Hhd & Ha) Hkey Hlen.
  exists fd. split; [rewrite Hheap; apply lookup_insert_eq|].
  assert (buses r !! p = None) as Hm by (unfold buses; by rewrite lookup_fmap, Hp). split; [done|].
  set (b := set_refcnt 1 (new_bus key fd s)). cbv zeta. rewrite Hheap, insert_insert_eq.
  set (r2 := set_heap _ r1).
  assert (buses r2 = <[p := b]> (buses r)) as Hb2 by (unfold buses; apply fmap_insert).
  split; [|done]. pose proof Hh as (Hf & _). split; rewrite ?Hb2.
  - assert (p ∉ ps) as Hps by (intros Hin; apply (elem_of_list_to_set (C:=gset Z)) in Hin; rewrite <- Hd in Hin;
      apply elem_of_dom in Hin as [? Hin]; by rewrite Hp in Hin).
    exists (p :: ps). split_and!; cbn; [|by apply NoDup_cons|rewrite dom_insert_L, Hd; done].
    rewrite Hhd. econstructor; [apply lookup_insert_eq|]. by apply chain_insert.
  - apply map_Forall_insert_2; [|done]. split; [done|]. split_and!; cbn; [done| |done|lia|lia].
    intros Hin. apply Hfr, Hf. by left.
  - apply distinct_insert; [done|]. intros q c _ Hq. cbn. split.
    + apply buses_inv in Hq as [n Hq]. by apply (Hkey q c n).
    + intros Heq. apply Hfr, Hf. right. by exists q, c.
  - cbn. by eapply holds_new.
Qed.

Definition attached (base : kernel) (extra : Z) (s : mb_rtu_serial_config) (realpath : option string)
    (r : registry) (res : option Z) (r' : registry) : Prop :=
  registry_ok base extra r' /\
  match res with
  | Some p => exists b, bus_key s realpath = Some (bus_path b) /\ bus_settings_match b s = true /\
      buses r' = <[p := set_refcnt (refcnt b + 1) b]> (buses r) /\
      (buses r !! p = Some b \/ buses r !! p = None /\ refcnt b = 0)
  | None => buses r' = buses r /\
      forall key q b, bus_key s realpath = Some key -> buses r !! q = Some b -> bus_path b = key ->
        bus_settings_match b s = false
  end.

Lemma unchanged_ok base extra r r' : registry_ok base extra r -> unchanged r r' -> registry_ok base extra r'.
Proof.
  intros [(ps & Hl) Hg Hdis Hh] (Hheap & Hhd & Ha). unfold buses in *.
  split; unfold buses; rewrite ?Hheap; [exists ps; unfold linked; by rewrite Hheap, Hhd | done | done|].
  by eapply holds_account.
Qed.

Definition roomy (r : registry) : Prop := map_Forall (fun _ b => refcnt b < 2 ^ 32 - 1) (buses r).

Lemma sane_os base extra r :
  sane_kernel base -> 0 <= extra -> registry_ok base extra r -> sane_kernel (os r).
Proof. intros (H1 & H2 & H3) He [_ _ _ (_ & Hl & Ht & Hb)]. split_and!; lia. Qed.

Lemma set_refcnt_refcnt n m b : set_refcnt n (set_refcnt m b) = set_refcnt n b.
Proof. done. Qed.

Lemma attach_wp base extra s realpath r :
  sane_kernel base -> 0 <= extra -> registry_ok base extra r -> roomy r -> path_fits realpath ->
  wp (shared_bus_attach s realpath) (attached base extra s realpath r) r.
Proof.
  intros Hbase He Hr Hroom Hf. pose proof Hr as [(ps & Hl) Hg Hdis Hh].
  eapply wp_bind, wp_lift; [apply resolve_bus_key_run|].
  destruct (bus_key s realpath) as [key|] eqn:Hkey.
  2: { apply wp_ret. split; [done|]. split; [done|]. by rewrite Hkey. }
  destruct (bus_key_fits s realpath key Hf Hkey) as [Hcpy Hlen].
  apply wp_bind. eapply wp_mono; [by eapply find_wp|]. cbn beta. intros [p|] r' [-> Hres]; apply wp_bind.
  - destruct Hres as (b & n & Hp & <-). pose proof (buses_lookup _ _ _ _ Hp) as Hm.
    apply wp_bind, (wp_deref p b n); [done|]. apply wp_ret. destruct (bus_settings_match b s) eqn:Hmatch; cbn [negb].
    + apply wp_bind, (wp_deref p b n); [done|]. apply wp_bind, (wp_assign p _ (b, n)); [done|]. apply wp_ret.
      pose proof (Hg p b Hm) as Hb. pose proof (Hroom p b Hm) as Hlt. cbn beta in Hlt. destruct Hb as (? & ? & ? & ? & Hrc).
      unfold u32. rewrite Z.mod_small by lia. split.
      * apply (registry_update _ _ r p b); [done.. |]. apply set_refcnt_good; [by apply (Hg p b)|lia].
      * exists b. split_and!; [done | done | unfold buses; cbn; by rewrite fmap_insert | by left].
    + apply wp_ret. split; [done|]. split; [done|]. rewrite Hkey. intros key' q b' [= <-] Hq Hpath.
      assert (q = p) as -> by (by apply (Hdis q p b' b); auto). congruence.
  - eapply wp_mono; [apply open_bus_wp; [by eapply sane_os | done]|]. cbn beta. intros [p|] r1 Hop.
    + destruct (registry_new base extra key s r p r1 Hr Hop Hres Hlen) as (fd & Hp & Hm & Hok & Hbs).
      apply wp_bind, (wp_deref _ _ _ _ _ Hp). apply wp_bind, (wp_assign p _ _ _ _ Hp), wp_ret.
      split; [exact Hok|]. exists (new_bus key fd s). split_and!; [done | apply new_bus_match | exact Hbs | by right].
    + apply wp_ret. split; [by eapply unchanged_ok|]. destruct Hop as (Hheap & _). split; [unfold buses; by rewrite Hheap|].
      rewrite Hkey. intros key' q b [= <-] (n & Hq)%buses_inv Hpath. by destruct (Hres q b n Hq).
Qed.

(** The device is open already: the bus is found, and the settings decide. *)
Lemma attach_existing base extra s realpath r p b :
  registry_ok base extra r -> path_fits realpath -> buses r !! p = Some b -> bus_key s realpath = Some (bus_path b) ->
  exists r', shared_bus_attach s realpath r = Ok (if bus_settings_match b s then Some p else None, r') /\ os r' = os r /\ is_Some (heap r' !! p).
Proof.
  intros [(ps & Hl) Hg Hdis _] Hf Hm Hkey. destruct (buses_inv r p b Hm) as [n Hp].
  pose proof (resolve_bus_key_run s realpath) as Hres. rewrite Hkey in Hres. unfold device_of in Hres.
  unfold shared_bus_attach. erewrite bind_ok by (unfold lift; by rewrite Hres).
  pose proof (linked_size r ps Hl) as Hs. pose proof (find_wp (bus_path b) ps r Hl) as Hw.
  destruct (find_loop_ends (bus_path b) (shared_buses r) ps r (S (size (heap r)))) as [res Hrun]; [apply Hl | lia|].
  unfold wp, find_bus_locked in Hw. rewrite Hrun in Hw. destruct Hw as [_ Hw].
  assert (res = Some p) as ->.
  { destruct res as [q|]; [|by destruct (Hw p b n Hp)]. destruct Hw as (b' & n' & Hq & Hpath). f_equal.
    apply (Hdis q p b' b); [by eapply buses_lookup | done | by left]. }
  erewrite bind_ok by exact Hrun. assert (deref p r = Ok ((b, n), r)) as Hd by (unfold deref; by rewrite Hp).
  erewrite bind_ok by (erewrite bind_ok by exact Hd; done).
  destruct (bus_settings_match b s); cbn [negb]; [|by exists r; rewrite Hp].
  erewrite bind_ok by exact Hd. eexists. unfold bind, assign. rewrite Hp. split; [done|]. split; [done|].
  cbn. by rewrite lookup_insert_eq.
Qed.

(** ** Detaching *)

(** [p] loses a reference; the last one takes the bus away. *)
Definition detached (base : kernel) (extra : Z) (p : Z) (b : mb_rtu_shared_bus) (r r' : registry) : Prop :=
  registry_ok base extra r' /\
  buses r' = if refcnt b =? 1 then delete p (buses r) else <[p := set_refcnt (refcnt b - 1) b]> (buses r).

(** Removing the record of [p] once it is out of the list. *)
Lemma registry_remove base extra r p b ps k h hd :
  registry_ok base extra r -> buses r !! p = Some b ->
  p ∉ ps -> NoDup ps -> chain h hd ps -> dom h = {[p]} ∪ list_to_set ps ->
  (forall q, q <> p -> fst <$> h !! q = buses r !! q) ->
  account k = account (add_blocks (-1) (add_locks (-1) (set_fds (fds (os r) ∖ {[bus_fd b]}) (os r)))) ->
  let r' := Registry k (delete p h) hd in
  registry_ok base extra r' /\ buses r' = delete p (buses r).
Proof.
  intros [_ Hg Hdis Hh] Hp Hps Hnd Hc Hd Hsame Ha. cbv zeta.
  assert (buses (Registry k (delete p h) hd) = delete p (buses r)) as Hb.
  { apply map_eq. intros q. unfold buses at 1. rewrite lookup_fmap. cbn.
    destruct (decide (q = p)) as [->|Hne]; [by rewrite !lookup_delete_eq|].
    rewrite !lookup_delete_ne by done. by apply Hsame. }
  split; [|done]. split; rewrite ?Hb.
  - exists ps. split; [by apply chain_delete|]. split; [done|]. cbn. rewrite dom_delete_L, Hd.
    assert (p ∉ (list_to_set ps : gset Z)) by (by rewrite elem_of_list_to_set). set_solver.
  - by apply map_Forall_delete.
  - by apply distinct_delete.
  - eapply holds_delete; [done | done | done | by apply (Hg p b) | done].
Qed.

(** The last reference is gone: [r1] is [r] but for the count of [p]. *)
Lemma last_detach_wp base extra r p b b1 n :
  sane_kernel base -> 0 <= extra -> registry_ok base extra r -> heap r !! p = Some (b, n) -> bus_fd b1 = bus_fd b ->
  wp (unlink p ;;;
      let! '(b, next) := deref p in
      let! fd := on_os (mb_rtu_close (Some (bus_fd b))) in
      assign p (set_bus_fd (default (bus_fd b) fd) b, next) ;;;
      on_os mutex_destroy ;;;
      free_bus p)
    (fun _ r' => registry_ok base extra r' /\ buses r' = delete p (buses r))
    (set_heap (<[p := (b1, n)]> (heap r)) r).
Proof.
  intros Hbase He Hr Hp Hfd1. set (r1 := set_heap _ r). pose proof Hr as [(ps & Hl) Hg Hdis Hh].
  pose proof (buses_lookup _ _ _ _ Hp) as Hm. pose proof (Hg p b Hm) as (_ & Hfd & Hfr & _).
  assert (heap r1 !! p = Some (b1, n)) as Hp1 by apply lookup_insert_eq.
  assert (p ∈ ps) as Hin by (apply (linked_mem r ps); [done | by eexists]).
  assert (linked r1 ps) as Hl1.
  { destruct Hl as (Hc & Hnd & Hd). split; [by eapply chain_update|]. split; [done|]. cbn. rewrite dom_insert_L, Hd.
    set_solver. }
  apply wp_bind. eapply wp_mono; [by eapply unlink_wp|]. cbn beta.
  intros _ r2 ((Ho2 & Hh2) & Hp2 & ps' & Hps & Hnd & Hc & Hd). rewrite Hp1 in Hp2.
  apply wp_bind, (wp_deref p b1 n); [done|]. apply wp_bind, wp_os. unfold mb_rtu_close.
  rewrite (proj2 (Z.leb_le 0 (bus_fd b1))) by (by rewrite Hfd1). pose proof Hh as (Hf & Hlk & _ & _).
  apply wp_bind, wp_close; [rewrite Ho2, Hfd1; apply Hf; right; by exists p, b|]. apply wp_ret.
  apply wp_bind, (wp_assign p _ (b1, n)); [done|]. assert (size (buses r) <> 0%nat) as Hne.
  { intros Hz. apply map_size_empty_inv in Hz. by rewrite Hz, lookup_empty in Hm. }
  apply wp_bind, wp_os, wp_release; [cbn; rewrite Ho2; cbn; destruct Hbase; lia|].
  eapply wp_free; [apply lookup_insert_eq|]. cbn. rewrite delete_insert_eq, Ho2, Hfd1.
  apply (registry_remove base extra r p b ps' _ (heap r2) (shared_buses r2)); try done.
  intros q Hq. unfold buses. rewrite <- lookup_fmap, Hh2, !lookup_fmap. cbn. by rewrite lookup_insert_ne.
Qed.

Lemma detach_wp base extra p b r :
  sane_kernel base -> 0 <= extra -> registry_ok base extra r -> buses r !! p = Some b ->
  wp (shared_bus_detach (Some p)) (fun _ => detached base extra p b r) r.
Proof.
  intros Hbase He Hr Hm. pose proof Hr as [(ps & Hl) Hg Hdis Hh]. pose proof (Hg p b Hm) as (Hok & Hfd & Hfr & Hlen & Hrc).
  destruct (buses_inv r p b Hm) as [n Hp]. apply wp_bind, (wp_deref p b n); [done|].
  rewrite (proj2 (Z.ltb_lt 0 _)) by lia. apply wp_bind, (wp_assign p _ (b, n)); [done|].
  unfold u32. rewrite Z.mod_small by lia. set (b1 := set_refcnt (refcnt b - 1) b).
  set (r1 := set_heap (<[p := (b1, n)]> (heap r)) r).
  assert (heap r1 !! p = Some (b1, n)) as Hp1 by apply lookup_insert_eq.
  apply wp_bind, (wp_deref p b1 n); [done|]. replace (refcnt b1 =? 0) with (refcnt b =? 1) by (cbn; lia).
  unfold detached. destruct (Z.eqb_spec (refcnt b) 1) as [Hone|Hmany].
  - eapply wp_mono; [by apply (last_detach_wp base extra r p b)|]. done.
  - apply wp_ret. split; [apply (registry_update _ _ r p b); [done.. | apply set_refcnt_good; [done | lia]]|].
    unfold buses, r1. cbn. by rewrite fmap_insert.
Qed.
