(* ===== verification/RtuBusSystem.v ===== *)
(** * Contexts on shared buses: connect, call and disconnect in any order

    The application's contexts over one registry.  An [op] is what a thread
    does under the locks of the code: connect and disconnect under the registry
    lock, a request between [bus_transaction_begin] and [bus_transaction_end]
    under the context's and the bus's mutex.  A request is two steps, so other
    threads may connect and disconnect while it is on the line; its effect on
    the bus record is the whole call of [RtuClient].  An operation that has to
    wait for a mutex is [Blocked]. *)

From stdpp Require Import gmap strings.
From S2P Require Import Prelude Buffer Defines Bits Pdu PduSpec PduClient PduReplies Ptr Rtu Sys RtuClient RtuClientSpec RtuClientTransact RtuClientCalls Kernel RtuPort RtuPortSpec RtuBus RtuBusSpec.

Record system := System {
  reg : registry;
  ctxs : gmap Z mb_rtu_client_ctx;
  in_flight : gset Z;
}.

(** Contexts are zero before their first use. *)
Definition ctx_of (s : system) (i : Z) : mb_rtu_client_ctx := default zero_cli_ctx (ctxs s !! i).

Definition connected (c : mb_rtu_client_ctx) : bool := negb (cli_initialized c =? 0).

Inductive op :=
  | Connect (i : Z) (cfg : mb_rtu_client_config) (realpath : option string)
  | Disconnect (i : Z)
  | SetUnit (i unit_id : Z)
  | Begin (i : Z)
  | End (i : Z) (r : request) (out : list Z) (w : world).

Definition set_ctx (i : Z) (c : mb_rtu_client_ctx) (s : system) : system :=
  System (reg s) (<[i := c]> (ctxs s)) (in_flight s).
Definition set_reg (r : registry) (s : system) : system := System r (ctxs s) (in_flight s).
Definition set_in_flight (f : gset Z) (s : system) : system := System (reg s) (ctxs s) f.

Definition on_reg {A} (m : st registry A) : st system A := fun s =>
  match m (reg s) with
  | Ok (a, r) => Ok (a, set_reg r s)
  | Fail e => Fail e
  end.

(** Is the mutex of the bus at [p] held? *)
Definition bus_busy (s : system) (p : option Z) : bool :=
  existsb (fun j => bool_decide (shared_bus (ctx_of s j) = p)) (elements (in_flight s)).

(** Wait for the mutex of context [i]. *)
Definition lock_ctx (i : Z) : st system unit := fun s =>
  if bool_decide (i ∈ in_flight s) then Fail Blocked else Ok (tt, s).

Section Ops.
Context {I : Indet}.

Definition exec (o : op) : st system Z :=
  let! s := get in
  match o with
  | Connect i cfg realpath =>
      let! '(rc, c) := on_reg (mb_rtu_client_connect (Some (ctx_of s i)) (Some cfg) realpath) in
      let! s := get in
      put (set_ctx i (default (ctx_of s i) c) s) ;;; ret rc
  | Disconnect i =>
      (if connected (ctx_of s i) then lock_ctx i else ret tt) ;;;
      let! c := on_reg (mb_rtu_client_disconnect (Some (ctx_of s i))) in
      let! s := get in
      put (set_ctx i (default (ctx_of s i) c) s) ;;; ret 0
  | SetUnit i u =>
      (if connected (ctx_of s i) then lock_ctx i else ret tt) ;;;
      let '(rc, c) := mb_rtu_client_set_unit_id (Some (ctx_of s i)) u in
      put (set_ctx i (default (ctx_of s i) c) s) ;;; ret rc
  | Begin i =>
      if negb (connected (ctx_of s i)) then ret MB_RTU_CLIENT_ERR_NOT_CONNECTED else
      lock_ctx i ;;;
      match shared_bus (ctx_of s i) with
      | None => stop UB
      | Some p =>
          on_reg (deref p) ;;;
          if bus_busy s (Some p) then stop Blocked
          else put (set_in_flight ({[i]} ∪ in_flight s) s) ;;; ret 0
      end
  | End i r out w =>
      if negb (bool_decide (i ∈ in_flight s)) then stop Blocked else
      match shared_bus (ctx_of s i) with
      | None => stop UB
      | Some p =>
          let! '(b, next) := on_reg (deref p) in
          let! '((rc, _), (_, bus)) := lift (call (Some (ctx_of s i)) r (Some out) (w, Some b)) in
          on_reg (assign p (default b bus, next)) ;;;
          let! s := get in
          put (set_in_flight (in_flight s ∖ {[i]}) s) ;;;
          ret rc
      end
  end.

Fixpoint run (ops : list op) : st system (list Z) :=
  match ops with
  | [] => ret []
  | o :: ops => let! rc := exec o in let! rcs := run ops in ret (rc :: rcs)
  end.
End Ops.

(** ** Counting contexts *)

Section Count.
Context (P : mb_rtu_client_ctx -> bool).

Definition count (m : gmap Z mb_rtu_client_ctx) : Z := map_fold (fun _ c n => Z.b2z (P c) + n) 0 m.

Lemma count_fresh i c m : m !! i = None -> count (<[i := c]> m) = Z.b2z (P c) + count m.
Proof. intros Hi. unfold count. rewrite map_fold_insert_L; [done | lia | done]. Qed.

Definition counted (o : option mb_rtu_client_ctx) : Z := match o with Some c => Z.b2z (P c) | None => 0 end.

Lemma count_delete i m : count m = counted (m !! i) + count (delete i m).
Proof.
  destruct (m !! i) as [c|] eqn:Hi; cbn [counted].
  - rewrite <- (insert_delete_id m i c) at 1 by done. apply count_fresh, lookup_delete_eq.
  - by rewrite delete_id.
Qed.

Lemma count_insert i c m : count (<[i := c]> m) = count m - counted (m !! i) + Z.b2z (P c).
Proof.
  rewrite <- insert_delete_eq, count_fresh by apply lookup_delete_eq. pose proof (count_delete i m). lia.
Qed.

Lemma count_bound m : 0 <= count m <= Z.of_nat (size m).
Proof.
  induction m as [|i c m Hi IH] using map_ind; [done|].
  rewrite count_fresh, map_size_insert_None by done. destruct (P c); cbn; lia.
Qed.

Lemma count_member i c m : m !! i = Some c -> P c = true -> 0 < count m.
Proof.
  intros Hi Hp. rewrite (count_delete i), Hi. cbn [counted]. rewrite Hp. pose proof (count_bound (delete i m)). cbn; lia.
Qed.

Lemma count_zero m : (forall i c, m !! i = Some c -> P c = false) -> count m = 0.
Proof.
  induction m as [|i c m Hi IH] using map_ind; [done|]. intros Hm. rewrite count_fresh by done.
  rewrite (Hm i c) by apply lookup_insert_eq. rewrite IH; [done|]. intros j d Hj. apply (Hm j).
  rewrite lookup_insert_ne; [done|]. intros ->. congruence.
Qed.

Lemma count_pos m : 0 < count m -> exists i c, m !! i = Some c /\ P c = true.
Proof.
  induction m as [|i c m Hi IH] using map_ind; [by unfold count; rewrite map_fold_empty|].
  rewrite count_fresh by done. destruct (P c) eqn:Hp; cbn; intros Hc.
  - exists i, c. by rewrite lookup_insert_eq.
  - destruct IH as (j & d & Hj & Hd); [lia|]. exists j, d. rewrite lookup_insert_ne; [done|]. intros ->. congruence.
Qed.
End Count.
