(* ===== verification/RtuBusTheorems.v ===== *)
(** * Properties of the shared buses *)

From stdpp Require Import gmap strings.
From S2P Require Import Prelude Buffer Defines Bits Pdu PduSpec PduClient PduReplies Ptr Rtu Sys RtuClient RtuClientSpec RtuClientTransact RtuClientCalls RtuClientTheorems Kernel RtuPort RtuPortSpec RtuBus RtuBusSpec RtuBusSystem.

(** ** Connect and disconnect on the registry *)

Definition serial_config_of (cfg : mb_rtu_client_config) : mb_rtu_serial_config :=
  SerialConfig (cli_device cfg) (cli_baud_rate cfg) (cli_data_bits cfg) (cli_stop_bits cfg) (cli_parity cfg)
    (cli_rs485_mode cfg).

(** What a connect leads to: a refusal that changes nothing, or a context on a
    bus of its device with its settings, one reference up. *)
Definition connect_result (base : kernel) (extra : Z) (cfg : mb_rtu_client_config) (realpath : option string)
    (r : registry) (res : Z * option mb_rtu_client_ctx) (r' : registry) : Prop :=
  exists c, snd res = Some c /\ cli_cfg c = cfg /\
  ((fst res = -1 /\ connected c = false /\ registry_ok base extra r' /\ buses r' = buses r) \/
   (fst res = 0 /\ connected c = true /\ registry_ok base (extra + 1) r' /\
    exists p b, shared_bus c = Some p /\ cli_fd c = bus_fd b /\ bus_key (serial_config_of cfg) realpath = Some (bus_path b) /\
      bus_settings_match b (serial_config_of cfg) = true /\
      buses r' = <[p := set_refcnt (refcnt b + 1) b]> (buses r) /\
      (buses r !! p = Some b \/ buses r !! p = None /\ refcnt b = 0))).

Lemma registry_lock base extra d r l :
  registry_ok base extra r -> registry_ok base (extra + d) (set_os (add_locks d (later (os r) l)) r).
Proof. intros [H1 H2 H3 H4]. split; [done..|]. by apply holds_extra. Qed.

Lemma registry_unlock base extra d r : registry_ok base extra r -> registry_ok base (extra + d) (set_os (add_locks d (os r)) r).
Proof. intros [H1 H2 H3 H4]. split; [done..|]. by apply holds_extra. Qed.

Lemma registry_later base extra r l : registry_ok base extra r -> registry_ok base extra (set_os (later (os r) l) r).
Proof. by intros [H1 H2 H3 H4]. Qed.

Lemma connect_wp base extra c cfg realpath r :
  sane_kernel base -> 0 <= extra -> registry_ok base extra r -> roomy r -> path_fits realpath ->
  connected c = false -> empty_path (cli_device cfg) = false ->
  wp (mb_rtu_client_connect (Some c) (Some cfg) realpath) (connect_result base extra cfg realpath r) r.
Proof.
  intros Hbase He Hr Hroom Hf Hc Hp. unfold mb_rtu_client_connect, connected in *. rewrite Hp, Hc. cbv zeta.
  apply wp_bind, wp_os, wp_acquire; intros l; cbn [Z.eqb negb].
  { apply wp_ret. eexists. split; [done|]. split; [done|]. left. by split_and!; [..|apply registry_later|]. }
  apply wp_bind. set (r1 := set_os _ r). pose proof (registry_lock base extra 1 r l Hr) as Hr1. fold r1 in Hr1.
  eapply wp_mono; [by apply (attach_wp base (extra + 1)); [|lia|..]|]. cbn beta. intros [p|] r2 [Hr2 Hres].
  - destruct Hres as (b & Hkey & Hmatch & Hb & Hold). change (buses r1) with (buses r) in *.
    assert (buses r2 !! p = Some (set_refcnt (refcnt b + 1) b)) as Hlook by (rewrite Hb; apply lookup_insert_eq).
    destruct (buses_inv r2 p _ Hlook) as [n Hp2]. apply wp_bind, (wp_deref p _ n _ _ Hp2), wp_ret.
    eexists. split; [done|]. split; [done|]. right. split; [done|]. split; [done|]. split; [done|]. by exists p, b.
  - destruct Hres as [Hb _]. pose proof Hr2 as [_ _ _ (_ & Hlk & _)].
    apply wp_bind, wp_os, wp_release; [destruct Hbase; lia|]. apply wp_ret. eexists. split; [done|]. split; [done|].
    left. split; [done|]. split; [done|]. split; [|done].
    replace extra with (extra + 1 + -1) by lia. by apply registry_unlock.
Qed.

Lemma disconnect_wp base extra c p b r :
  sane_kernel base -> 0 <= extra -> registry_ok base (extra + 1) r -> connected c = true ->
  shared_bus c = Some p -> buses r !! p = Some b ->
  wp (mb_rtu_client_disconnect (Some c)) (fun c' r' => c' = Some (CliCtx (-1) None 0 (cli_cfg c)) /\
    detached base extra p b r r') r.
Proof.
  intros Hbase He Hr Hc Hp Hb. unfold mb_rtu_client_disconnect, connected in *. apply negb_true_iff in Hc. rewrite Hc, Hp.
  apply wp_bind. eapply wp_mono; [by apply (detach_wp base (extra + 1)); [|lia|..]|]. cbn beta.
  intros _ r1 [Hr1 Hb1]. pose proof Hr1 as [_ _ _ (_ & Hlk & _)].
  apply wp_bind, wp_os, wp_release; [destruct Hbase; lia|]. apply wp_ret. split; [done|]. split; [|done].
  replace extra with (extra + 1 + -1) by lia. by apply registry_unlock.
Qed.

(** ** The invariant of the system *)

Definition attached_to (p : Z) (c : mb_rtu_client_ctx) : bool :=
  connected c && bool_decide (shared_bus c = Some p).

(** Context [c] is not connected, or its bus is live and its descriptor the bus's. *)
Definition ctx_ok (m : gmap Z mb_rtu_shared_bus) (c : mb_rtu_client_ctx) : Prop :=
  client_ok c /\
  (connected c = true -> exists p b, shared_bus c = Some p /\ m !! p = Some b /\ cli_fd c = bus_fd b).

Record system_ok (base : kernel) (ids : gset Z) (s : system) : Prop := SystemOk {
  sys_registry : registry_ok base (count connected (ctxs s)) (reg s);
  sys_ctxs : map_Forall (fun _ => ctx_ok (buses (reg s))) (ctxs s);
  sys_refcnt : map_Forall (fun p b => refcnt b = count (attached_to p) (ctxs s)) (buses (reg s));
  sys_ids : dom (ctxs s) ⊆ ids;
  sys_flight : forall i, i ∈ in_flight s -> connected (ctx_of s i) = true;
  sys_exclusive : forall i j, i ∈ in_flight s -> j ∈ in_flight s ->
    shared_bus (ctx_of s i) = shared_bus (ctx_of s j) -> i = j;
}.

(** What the application passes: contexts of [ids], timing values of their
    width, paths that [realpath] can return, requests that fit, and a world
    whose clock and bytes are sane. *)
Definition op_ok (ids : gset Z) (o : op) : Prop :=
  match o with
  | Connect i cfg realpath => i ∈ ids /\ path_fits realpath /\
      is_u32 (cli_inter_frame_delay_us cfg) /\ is_u32 (cli_bus_handoff_silence_ms cfg)
  | Disconnect i | SetUnit i _ | Begin i => i ∈ ids
  | End i r out w => i ∈ ids /\ sendable r /\ room r out /\ sane_clock (clock w) /\ rx_bytes (rx w)
  end.

Lemma zero_client_ok : client_ok zero_cli_ctx.
Proof. split; by vm_compute. Qed.

Lemma ctx_of_ok base ids s i : system_ok base ids s -> ctx_ok (buses (reg s)) (ctx_of s i).
Proof.
  intros Hs. unfold ctx_of. destruct (ctxs s !! i) as [c|] eqn:Hi; cbn; [by apply (sys_ctxs _ _ _ Hs i)|].
  split; [apply zero_client_ok | done].
Qed.

Lemma counted_ctx P s i : P zero_cli_ctx = false -> counted P (ctxs s !! i) = Z.b2z (P (ctx_of s i)).
Proof. intros Hz. unfold ctx_of. destruct (ctxs s !! i); [done|]. cbn. by rewrite Hz. Qed.

(** A context is replaced by one that is attached to the same buses. *)
Lemma count_same P s i c :
  P zero_cli_ctx = false -> P c = P (ctx_of s i) -> count P (<[i := c]> (ctxs s)) = count P (ctxs s).
Proof. intros Hz Hc. rewrite count_insert, counted_ctx, Hc by done. lia. Qed.

Lemma count_ids P s ids : dom (ctxs s) ⊆ ids -> count P (ctxs s) <= Z.of_nat (size ids).
Proof.
  intros Hd. pose proof (count_bound P (ctxs s)). apply subseteq_size in Hd. rewrite size_dom in Hd. lia.
Qed.

Lemma ctx_of_insert s i c j : ctx_of (set_ctx i c s) j = if decide (i = j) then c else ctx_of s j.
Proof.
  unfold ctx_of. cbn. destruct (decide (i = j)) as [->|Hne]; [by rewrite lookup_insert_eq | by rewrite lookup_insert_ne].
Qed.

Lemma set_reg_id s : set_reg (reg s) s = s.
Proof. by destruct s. Qed.

Lemma wp_reg {A} (m : st registry A) Q s :
  wp m (fun a r => Q a (set_reg r s)) (reg s) -> wp (on_reg m) Q s.
Proof. unfold wp, on_reg. by destruct (m (reg s)) as [[a r]|]. Qed.

(** Context [i] becomes [c] and the registry [r]: what has to be shown. *)
Record move_ok (base : kernel) (s : system) (i : Z) (c : mb_rtu_client_ctx) (r : registry) : Prop := MoveOk {
  move_registry : registry_ok base (count connected (<[i := c]> (ctxs s))) r;
  move_ctx : ctx_ok (buses r) c;
  move_refcnt : map_Forall (fun p b => refcnt b = count (attached_to p) (<[i := c]> (ctxs s))) (buses r);
  move_others : forall j p b, j <> i -> attached_to p (ctx_of s j) = true -> buses (reg s) !! p = Some b ->
    exists b', buses r !! p = Some b' /\ bus_fd b' = bus_fd b;
  move_flight : i ∈ in_flight s -> connected c = true /\ shared_bus c = shared_bus (ctx_of s i);
}.

Lemma move_system base ids s i c r :
  system_ok base ids s -> i ∈ ids -> move_ok base s i c r -> system_ok base ids (set_ctx i c (set_reg r s)).
Proof.
  intros Hs Hi [Hr Hc Hrc Ho Hf]. split; cbn [reg ctxs in_flight set_ctx set_reg]; [done| |done| | |].
  - apply map_Forall_lookup. intros j d Hj. apply lookup_insert_Some in Hj as [[<- <-]|[Hne Hj]]; [done|].
    destruct (sys_ctxs _ _ _ Hs j d Hj) as [Hok Hd]. split; [done|]. intros Hcon.
    destruct (Hd Hcon) as (p & b & Hp & Hb & Hfd). assert (ctx_of s j = d) as Hctx by (unfold ctx_of; by rewrite Hj).
    destruct (Ho j p b (not_eq_sym Hne)) as (b' & Hb' & Hfd'); [|done|exists p, b'; split_and!; congruence].
    unfold attached_to. by rewrite Hctx, Hcon, Hp, bool_decide_true.
  - rewrite dom_insert_L. pose proof (sys_ids _ _ _ Hs). set_solver.
  - intros j Hj. rewrite (ctx_of_insert (set_reg r s)). destruct (decide (i = j)) as [<-|Hne]; [by apply Hf | by apply (sys_flight _ _ _ Hs)].
  - intros j k Hj Hk. rewrite !(ctx_of_insert (set_reg r s)).
    assert (forall l, l ∈ in_flight s -> shared_bus (if decide (i = l) then c else ctx_of (set_reg r s) l) = shared_bus (ctx_of s l)) as Hsame.
    { intros l Hl. destruct (decide (i = l)) as [<-|]; [by apply Hf | done]. }
    rewrite !Hsame by done. by apply (sys_exclusive _ _ _ Hs).
Qed.

(** Context [i] changes, but not its bus. *)
Lemma move_same base ids s i c :
  system_ok base ids s -> i ∈ ids -> client_ok c -> cli_initialized c = cli_initialized (ctx_of s i) ->
  shared_bus c = shared_bus (ctx_of s i) -> cli_fd c = cli_fd (ctx_of s i) ->
  system_ok base ids (set_ctx i c s).
Proof.
  intros Hs Hi Hok Hini Hbus Hfd. assert (connected c = connected (ctx_of s i)) as Hcon by (unfold connected; by rewrite Hini).
  apply (move_system base ids s i c (reg s)); [done..|]. split.
  - rewrite count_same by done. apply Hs.
  - split; [done|]. rewrite Hcon, Hbus, Hfd. apply (ctx_of_ok _ _ _ _ Hs).
  - apply map_Forall_lookup. intros p b Hb. rewrite count_same; [by apply (sys_refcnt _ _ _ Hs)|done|].
    unfold attached_to. by rewrite Hcon, Hbus.
  - intros j p b _ _ Hb. by exists b.
  - intros Hfl. rewrite Hcon. split; [by apply (sys_flight _ _ _ Hs) | done].
Qed.

Lemma not_attached p c : connected c = false -> attached_to p c = false.
Proof. intros Hc. unfold attached_to. by rewrite Hc. Qed.

Lemma move_connected base ids s i c r cfg realpath :
  system_ok base ids s -> client_ok c -> connected (ctx_of s i) = false ->
  connect_result base (count connected (ctxs s)) cfg realpath (reg s) (0, Some c) r ->
  move_ok base s i c r.
Proof.
  intros Hs Hok Hold (c' & [= <-] & Hcfg & [[[=] _]|(_ & Hcon & Hr & p & b & Hp & Hfd & _ & _ & Hb & Hwas)]).
  assert (forall q d, buses r !! q = Some d -> refcnt d = count (attached_to q) (ctxs s) + Z.b2z (bool_decide (p = q))) as Hcount.
  { intros q d Hd. rewrite Hb in Hd. apply lookup_insert_Some in Hd as [[<- <-]|[Hne Hd]].
    - rewrite bool_decide_true by done. cbn. destruct Hwas as [Hwas|[Hwas Hz]].
      + by rewrite (sys_refcnt _ _ _ Hs p b Hwas).
      + rewrite Hz, count_zero; [done|]. intros j e Hj. destruct (attached_to p e) eqn:Ha; [|done].
        apply andb_true_iff in Ha as [Ha1 Ha2%bool_decide_eq_true].
        destruct (sys_ctxs _ _ _ Hs j e Hj) as [_ Hx]. destruct (Hx Ha1) as (? & ? & ? & ? & _). congruence.
    - rewrite bool_decide_false by done. rewrite (sys_refcnt _ _ _ Hs q d Hd). cbn. lia. }
  split.
  - rewrite count_insert, counted_ctx, Hold, Hcon by done. cbn [Z.b2z]. by rewrite Z.sub_0_r.
  - split; [done|]. intros _. exists p, (set_refcnt (refcnt b + 1) b). split; [done|]. split; [|done].
    rewrite Hb. apply lookup_insert_eq.
  - apply map_Forall_lookup. intros q d Hd. rewrite (Hcount q d Hd), count_insert, counted_ctx by done.
    rewrite (not_attached q _ Hold). unfold attached_to. rewrite Hcon, Hp. cbn [andb]. change (Z.b2z false) with 0.
    replace (bool_decide (Some p = Some q)) with (bool_decide (p = q)) by (apply bool_decide_ext; split; congruence). lia.
  - intros j q d Hj Ha Hd. rewrite Hb. destruct (decide (p = q)) as [->|Hne].
    + eexists. rewrite lookup_insert_eq. split; [done|]. cbn. destruct Hwas as [Hwas|[Hwas _]]; congruence.
    + exists d. by rewrite lookup_insert_ne.
  - intros Hfl. pose proof (sys_flight _ _ _ Hs i Hfl). congruence.
Qed.

(** Two contexts on one bus are two references. *)
Lemma count_two P m i j c d :
  m !! i = Some c -> m !! j = Some d -> i <> j -> P c = true -> P d = true -> 1 < count P m.
Proof.
  intros Hi Hj Hne Hc Hd. rewrite (count_delete P i), Hi. cbn [counted]. rewrite Hc.
  pose proof (count_member P j d (delete i m)) as Hm. rewrite lookup_delete_ne in Hm by done. specialize (Hm Hj Hd).
  cbn. lia.
Qed.

Lemma attached_lookup s p j : attached_to p (ctx_of s j) = true -> ctxs s !! j = Some (ctx_of s j).
Proof. unfold ctx_of. by destruct (ctxs s !! j). Qed.

Lemma move_disconnected base ids s i c p b r :
  system_ok base ids s -> client_ok c -> connected c = false -> connected (ctx_of s i) = true ->
  i ∉ in_flight s -> shared_bus (ctx_of s i) = Some p -> buses (reg s) !! p = Some b ->
  detached base (count connected (ctxs s) - 1) p b (reg s) r ->
  move_ok base s i c r.
Proof.
  intros Hs Hok Hnew Hold Hfl Hp Hb [Hr Hbs].
  assert (attached_to p (ctx_of s i) = true) as Hat by (unfold attached_to; by rewrite Hold, Hp, bool_decide_true).
  pose proof (attached_lookup s p i Hat) as Hi. pose proof (sys_refcnt _ _ _ Hs p b Hb) as Hrc. cbn beta in Hrc.
  split.
  - rewrite count_insert, counted_ctx, Hold, Hnew by done. cbn. by rewrite Z.add_0_r.
  - split; [done|]. intros Hc. congruence.
  - apply map_Forall_lookup. intros q d Hd. rewrite count_insert, counted_ctx, (not_attached q c Hnew) by done.
    rewrite Hbs in Hd. assert (q <> p -> attached_to q (ctx_of s i) = false) as Hother.
    { intros Hne. unfold attached_to. rewrite Hp, bool_decide_false, andb_false_r; [done|]. congruence. }
    destruct (refcnt b =? 1).
    + apply lookup_delete_Some in Hd as [Hne Hd]. rewrite (sys_refcnt _ _ _ Hs q d Hd), Hother by congruence. cbn. lia.
    + apply lookup_insert_Some in Hd as [[<- <-]|[Hne Hd]].
      * cbn [refcnt set_refcnt]. rewrite Hrc, Hat. cbn. lia.
      * rewrite (sys_refcnt _ _ _ Hs q d Hd), Hother by congruence. cbn. lia.
  - intros j q d Hj Ha Hd. rewrite Hbs. destruct (Z.eqb_spec (refcnt b) 1) as [Hone|_].
    + exists d. split; [|done]. rewrite lookup_delete_ne; [done|]. intros <-.
      pose proof (count_two (attached_to p) _ _ _ _ _ Hi (attached_lookup s p j Ha) (not_eq_sym Hj) Hat Ha). lia.
    + destruct (decide (p = q)) as [<-|Hne]; [|exists d; by rewrite lookup_insert_ne].
      eexists. rewrite lookup_insert_eq. split; [done|]. cbn. congruence.
  - intros Hf. by destruct Hfl.
Qed.

(** ** A call keeps the record in its place *)

Lemma call_keeps `{Indet} c r out w b :
  sendable r -> room r out -> client_ok c -> bus_ok b -> sane_clock (clock w) -> rx_bytes (rx w) ->
  wp (lift (S:=unit) (call (Some c) r (Some out) (w, Some b))) (fun '((rc, out'), (w', bus)) _ => exists b', bus = Some b' /\
    bus_ok b' /\ bus_path b' = bus_path b /\ bus_fd b' = bus_fd b /\ refcnt b' = refcnt b) tt.
Proof.
  intros Hr Hroom Hc Hb Hclk Hrx. pose proof (rtu_call_run c r out w b Hr Hroom Hc Hb Hclk Hrx) as Hrun.
  unfold wp, lift. destruct (call _ _ _ _) as [[[rc out'] [w' bus]]|]; [|done].
  destruct Hrun as (resp & Hres & _). unfold call_result in Hres.
  destruct (cli_initialized c =? 0); [destruct Hres as (_ & _ & ->); by exists b|].
  destruct (_ && _); [destruct Hres as (_ & _ & ->); by exists b|].
  destruct Hres as (b' & -> & Ht). exists b'. split; [done|]. pose proof Ht as Ht'.
  inversion Ht as [e ? acts clk part w1 t clk' ? _ [_ [used Hu]] _ _ _ Hclk' _]; subst.
  split; [|done]. destruct Hb as (Hb & Ht35 & _). split; [done|]. split; [done|]. intros _. cbn.
  unfold sane_clock in Hclk. rewrite Hu, Hclk' in Hclk. apply Forall_app in Hclk as [_ Hclk].
  by apply Forall_cons_iff in Hclk as [(v & -> & Hv) _].
Qed.

(** ** Every operation keeps the invariant *)

Section Exec.
Context {I : Indet} (base : kernel) (ids : gset Z).
Hypothesis base_sane : sane_kernel base.
Hypothesis ids_few : Z.of_nat (size ids) < 2 ^ 32 - 1.

Lemma system_roomy s : system_ok base ids s -> roomy (reg s).
Proof using ids_few.
  intros Hs. apply map_Forall_lookup. intros p b Hb. rewrite (sys_refcnt _ _ _ Hs p b Hb).
  pose proof (count_ids (attached_to p) s ids (sys_ids _ _ _ Hs)). lia.
Qed.

Lemma exec_connect i cfg realpath s :
  system_ok base ids s -> op_ok ids (Connect i cfg realpath) ->
  wp (exec (Connect i cfg realpath)) (fun _ => system_ok base ids) s.
Proof using base_sane ids_few.
  intros Hs (Hi & Hpath & Hd & Hh). apply wp_bind, wp_get. cbv beta iota. apply wp_bind, wp_reg.
  assert (forall rc : Z, wp (let! s1 := get in put (set_ctx i (default (ctx_of s i) (Some (ctx_of s i))) s1) ;;; ret rc)
    (fun _ => system_ok base ids) s) as Hsame.
  { intros rc. apply wp_bind, wp_get, wp_bind, wp_put, wp_ret. apply move_same; try done. by apply (ctx_of_ok _ _ _ _ Hs). }
  destruct (empty_path (cli_device cfg)) eqn:Hp; [unfold mb_rtu_client_connect; rewrite Hp; apply wp_ret; rewrite set_reg_id; apply Hsame|].
  destruct (connected (ctx_of s i)) eqn:Hc.
  { unfold mb_rtu_client_connect, connected in *. rewrite Hp, Hc. apply wp_ret. rewrite set_reg_id. apply Hsame. }
  eapply wp_mono.
  { apply (connect_wp base (count connected (ctxs s))); [done|apply count_bound|apply Hs|by apply system_roomy|done..]. }
  cbn beta. intros [rc c'] r Hres. pose proof Hres as (c & Hc' & Hcfg & Hcase). cbn [fst snd] in *. subst c'.
  apply wp_bind, wp_get, wp_bind, wp_put, wp_ret. cbn [default from_option id].
  assert (client_ok c) as Hok by (split; by rewrite Hcfg).
  apply (move_system base ids s i c r); [done..|].
  destruct Hcase as [(-> & Hnew & Hr & Hb)|(-> & Hcase)]; [|by eapply move_connected].
  assert (forall P, P zero_cli_ctx = false -> (forall d, connected d = false -> P d = false) ->
    count P (<[i := c]> (ctxs s)) = count P (ctxs s)) as Hcount
    by (intros P Hz HP; apply count_same; [done | by rewrite !HP]).
  split.
  - by rewrite Hcount.
  - split; [done|]. intros Hx. congruence.
  - rewrite Hb. apply map_Forall_lookup. intros p b Hpb. rewrite Hcount; [by apply (sys_refcnt _ _ _ Hs)|done|].
    intros d. apply not_attached.
  - intros j p b _ _ Hpb. exists b. by rewrite Hb.
  - intros Hfl. pose proof (sys_flight _ _ _ Hs i Hfl). congruence.
Qed.

Lemma wp_lock i Q s : (i ∉ in_flight s -> Q tt s) -> wp (lock_ctx i) Q s.
Proof. intros HQ. unfold wp, lock_ctx. case_bool_decide; [done | auto]. Qed.

Lemma exec_disconnect i s :
  system_ok base ids s -> i ∈ ids -> wp (exec (Disconnect i)) (fun _ => system_ok base ids) s.
Proof using base_sane.
  intros Hs Hi. apply wp_bind, wp_get. cbv beta iota. pose proof (ctx_of_ok _ _ _ i Hs) as [Hok Hbus].
  apply wp_bind. destruct (connected (ctx_of s i)) eqn:Hc.
  - apply wp_lock. intros Hfl. destruct (Hbus eq_refl) as (p & b & Hp & Hb & Hfd). apply wp_bind, wp_reg.
    assert (0 < count connected (ctxs s)).
    { apply (count_member _ i (ctx_of s i)); [|done]. apply (attached_lookup s p). unfold attached_to.
      by rewrite Hc, Hp, bool_decide_true. }
    eapply wp_mono.
    { apply (disconnect_wp base (count connected (ctxs s) - 1) _ p b); [done | lia | | done..].
      rewrite Z.sub_add. apply Hs. }
    cbn beta. intros c r [-> Hr]. apply wp_bind, wp_get, wp_bind, wp_put, wp_ret. cbn [default from_option id].
    apply (move_system base ids s i _ r); [done..|]. by eapply move_disconnected.
  - apply wp_ret, wp_bind, wp_reg. unfold mb_rtu_client_disconnect, connected in *. apply negb_false_iff in Hc.
    rewrite Hc. apply wp_ret. rewrite set_reg_id. apply wp_bind, wp_get, wp_bind, wp_put, wp_ret. by apply move_same.
Qed.

Lemma exec_set_unit i u s :
  system_ok base ids s -> i ∈ ids -> wp (exec (SetUnit i u)) (fun _ => system_ok base ids) s.
Proof using.
  intros Hs Hi. apply wp_bind, wp_get. cbv beta iota. pose proof (ctx_of_ok _ _ _ i Hs) as [Hok Hbus].
  apply wp_bind. destruct (connected (ctx_of s i)) eqn:Hc; [apply wp_lock; intros _|apply wp_ret];
    unfold mb_rtu_client_set_unit_id, connected in *; [apply negb_true_iff in Hc|apply negb_false_iff in Hc]; rewrite Hc;
    apply wp_bind, wp_put, wp_ret; by apply move_same.
Qed.
Lemma not_busy s p j :
  bus_busy s (Some p) = false -> j ∈ in_flight s -> shared_bus (ctx_of s j) <> Some p.
Proof using.
  intros Hb Hj Hp. unfold bus_busy in Hb. rewrite <- not_true_iff_false in Hb. apply Hb, existsb_exists.
  exists j. split; [by apply list_elem_of_In, elem_of_elements | by apply bool_decide_eq_true].
Qed.

Lemma exec_begin i s :
  system_ok base ids s -> wp (exec (Begin i)) (fun _ => system_ok base ids) s.
Proof using.
  intros Hs. apply wp_bind, wp_get. cbv beta iota. destruct (connected (ctx_of s i)) eqn:Hc; [cbn [negb]|by apply wp_ret].
  apply wp_bind, wp_lock. intros Hfl. destruct (ctx_of_ok _ _ _ i Hs) as [_ Hbus].
  destruct (Hbus Hc) as (p & b & Hp & Hb & _). destruct (buses_inv _ _ _ Hb) as [n Hn]. rewrite Hp.
  apply wp_bind, wp_reg, (wp_deref p b n); [done|]. rewrite set_reg_id. destruct (bus_busy s (Some p)) eqn:Hbusy; [done|].
  apply wp_bind, wp_put, wp_ret. destruct Hs as [H1 H2 H3 H4 H5 H6]. split; try done; cbn [in_flight set_in_flight].
  - intros j [->%elem_of_singleton|Hj]%elem_of_union; [done | by apply H5].
  - change (ctx_of (set_in_flight _ s)) with (ctx_of s).
    intros j k [->%elem_of_singleton|Hj]%elem_of_union [->%elem_of_singleton|Hk]%elem_of_union; [done|..|by apply H6].
    + intros Heq. by destruct (not_busy s p k Hbusy Hk); rewrite <- Heq.
    + intros Heq. by destruct (not_busy s p j Hbusy Hj); rewrite Heq.
Qed.

Lemma system_record s p b b' n :
  system_ok base ids s -> heap (reg s) !! p = Some (b, n) -> bus_ok b' -> bus_path b' = bus_path b ->
  bus_fd b' = bus_fd b -> refcnt b' = refcnt b ->
  system_ok base ids (set_reg (set_heap (<[p := (b', n)]> (heap (reg s))) (reg s)) s).
Proof using.
  intros [H1 H2 H3 H4 H5 H6] Hp Hok Hpath Hfd Hrc. set (r := set_heap _ (reg s)).
  pose proof (buses_lookup _ _ _ _ Hp) as Hm.
  assert (buses r = <[p := b']> (buses (reg s))) as Hb by (unfold buses; apply fmap_insert).
  split; try done; cbn [reg set_reg ctxs].
  - apply (registry_update base _ _ p b); try done. destruct H1 as [_ Hg _ _]. destruct (Hg p b Hm) as (_ & ? & ? & ? & ?).
    split; [done|]. by rewrite Hpath, Hfd, Hrc.
  - apply map_Forall_lookup. intros j c Hj. destruct (H2 j c Hj) as [Hc Hcb]. split; [done|]. intros Hcon.
    destruct (Hcb Hcon) as (q & d & Hq & Hd & Hqd). exists q. rewrite Hb. destruct (decide (p = q)) as [<-|Hne].
    + exists b'. rewrite lookup_insert_eq. split_and!; [done | done | congruence].
    + exists d. by rewrite lookup_insert_ne.
  - rewrite Hb. apply map_Forall_lookup. intros q d Hd. apply lookup_insert_Some in Hd as [[<- <-]|[_ Hd]].
    + rewrite Hrc. by apply (H3 p b).
    + by apply (H3 q d).
Qed.

Lemma exec_end i r out w s :
  system_ok base ids s -> op_ok ids (End i r out w) ->
  wp (exec (End i r out w)) (fun _ => system_ok base ids) s.
Proof using.
  intros Hs (Hi & Hr & Hroom & Hclk & Hrx). apply wp_bind, wp_get. cbv beta iota.
  case_bool_decide as Hfl; cbn [negb]; [|done]. pose proof (sys_flight _ _ _ Hs i Hfl) as Hc.
  destruct (ctx_of_ok _ _ _ i Hs) as [Hok Hbus]. destruct (Hbus Hc) as (p & b & Hp & Hb & _). rewrite Hp.
  destruct (buses_inv _ _ _ Hb) as [n Hn]. apply wp_bind, wp_reg, (wp_deref p b n); [done|]. rewrite set_reg_id.
  assert (bus_ok b) as Hbok by (destruct Hs as [[_ Hg _ _] _ _ _ _ _]; by apply (Hg p b Hb)).
  pose proof (call_keeps (ctx_of s i) r out w b Hr Hroom Hok Hbok Hclk Hrx) as Hcall. apply wp_bind.
  unfold wp, lift in Hcall |- *. destruct (call _ _ _ _) as [[[rc out'] [w' bus]]|]; [|done].
  destruct Hcall as (b' & -> & Hok' & Hpath & Hfd & Hrc). cbn [default from_option id].
  apply wp_bind, wp_reg, (wp_assign p _ (b, n)); [done|]. apply wp_bind, wp_get, wp_bind, wp_put, wp_ret.
  pose proof (system_record s p b b' n Hs Hn Hok' Hpath Hfd Hrc) as [H1 H2 H3 H4 H5 H6].
  split; try done; cbn [in_flight set_in_flight] in *.
  - intros j [Hj _]%elem_of_difference. by apply H5.
  - intros j k [Hj _]%elem_of_difference [Hk _]%elem_of_difference. by apply H6.
Qed.

Lemma exec_ok o s : system_ok base ids s -> op_ok ids o -> wp (exec o) (fun _ => system_ok base ids) s.
Proof using base_sane ids_few.
  intros Hs Ho. destruct o; [by apply exec_connect | by apply exec_disconnect | by apply exec_set_unit
    | by apply exec_begin | by apply exec_end].
Qed.

Lemma run_ok ops s : system_ok base ids s -> Forall (op_ok ids) ops -> wp (run ops) (fun _ => system_ok base ids) s.
Proof using base_sane ids_few.
  intros Hs Hops. revert s Hs. induction Hops as [|o ops Ho Hops IH]; intros s Hs; cbn [run]; [by apply wp_ret|].
  apply wp_bind. eapply wp_mono; [by apply exec_ok|]. cbn beta. intros rc s1 Hs1.
  apply wp_bind. eapply wp_mono; [by apply IH|]. cbn beta. intros rcs s2 Hs2. by apply wp_ret.
Qed.
End Exec.

(** ** The theorems *)

(** Before the first connect. *)
Definition start (base : kernel) : system := System (Registry base ∅ None) ∅ ∅.

Lemma registry_start base : registry_ok base 0 (Registry base ∅ None).
Proof.
  assert (buses (Registry base ∅ None) = ∅) as Hb by (unfold buses; cbn; by rewrite fmap_empty).
  split; rewrite ?Hb; [|done|by intros ? ? ? ? ?|].
  - exists []. split; [apply chain_nil|]. split; [by apply NoDup_nil_2 | done].
  - unfold holds. rewrite map_size_empty. split; [|cbn; lia].
    intros fd. split; [by left|]. intros [Hfd|(p & b & Hp & _)]; [done|by rewrite lookup_empty in Hp].
Qed.

(** A registry without buses holds nothing. *)
Lemma registry_idle base r :
  registry_ok base 0 r -> buses r = ∅ -> heap r = ∅ /\ shared_buses r = None /\ account (os r) = account base.
Proof.
  intros [(ps & Hc & _ & Hd) _ _ (Hf & Hl & Ht & Hb)] Hem.
  assert (heap r = ∅) as Hh by (by apply fmap_empty_inv in Hem). split; [done|]. split.
  - destruct (shared_buses r) as [p|]; [|done]. apply chain_head in Hc as (b & n & ps' & _ & Hp & _).
    by rewrite Hh, lookup_empty in Hp.
  - rewrite Hem, map_size_empty in *. apply account_iff. split_and!; try lia.
    apply set_eq. intros fd. rewrite Hf. split; [|by left]. intros [Hin|(p & b & Hp & _)]; [done|by rewrite lookup_empty in Hp].
Qed.

Lemma start_ok base ids : system_ok base ids (start base).
Proof.
  assert (buses (reg (start base)) = ∅) as Hb by (unfold buses; cbn; by rewrite fmap_empty).
  split; rewrite ?Hb; try done.
  assert (count connected (ctxs (start base)) = 0) as -> by apply map_fold_empty. apply registry_start.
Qed.

Section Theorems.
Context {I : Indet} (base : kernel) (ids : gset Z).

(** What the invariant says to the application. *)
Definition shared_well (s : system) : Prop :=
  (* descriptors: what was open before, and one per bus *)
  (forall fd, fd ∈ fds (os (reg s)) <->
     fd ∈ fds base \/ exists p b, buses (reg s) !! p = Some b /\ bus_fd b = fd) /\
  (* a connected context uses a live bus and its open descriptor *)
  (forall i, connected (ctx_of s i) = true -> exists p b, shared_bus (ctx_of s i) = Some p /\
     buses (reg s) !! p = Some b /\ cli_fd (ctx_of s i) = bus_fd b /\ cli_fd (ctx_of s i) ∈ fds (os (reg s))) /\
  (* one bus per device, which some context uses *)
  (forall p q b c, buses (reg s) !! p = Some b -> buses (reg s) !! q = Some c -> bus_path b = bus_path c -> p = q) /\
  (forall p b, buses (reg s) !! p = Some b ->
     refcnt b = count (attached_to p) (ctxs s) /\ exists i, attached_to p (ctx_of s i) = true) /\
  (* requests on one descriptor exclude each other *)
  (forall i j, i ∈ in_flight s -> j ∈ in_flight s -> cli_fd (ctx_of s i) = cli_fd (ctx_of s j) -> i = j) /\
  (* when nobody is connected, nothing is held *)
  ((forall i, connected (ctx_of s i) = false) ->
     heap (reg s) = ∅ /\ shared_buses (reg s) = None /\ account (os (reg s)) = account base).

Lemma system_idle s :
  system_ok base ids s -> (forall i, connected (ctx_of s i) = false) ->
  heap (reg s) = ∅ /\ shared_buses (reg s) = None /\ account (os (reg s)) = account base.
Proof.
  intros Hs Hidle. assert (forall P, (forall c, connected c = false -> P c = false) -> count P (ctxs s) = 0) as Hzero.
  { intros P HP. apply count_zero. intros i c Hi. apply HP. specialize (Hidle i). unfold ctx_of in Hidle.
    by rewrite Hi in Hidle. }
  pose proof (sys_registry _ _ _ Hs) as Hr. rewrite (Hzero connected) in Hr by done. apply registry_idle; [done|].
  apply map_empty. intros p. destruct (buses (reg s) !! p) as [b|] eqn:Hp; [|done].
  destruct (ok_buses _ _ _ Hr p b Hp) as (_ & _ & _ & _ & Hpos). pose proof (sys_refcnt _ _ _ Hs p b Hp) as Hcnt. cbn beta in Hcnt.
  rewrite Hzero in Hcnt by (intros c; apply not_attached). lia.
Qed.

Lemma system_shared s : system_ok base ids s -> shared_well s.
Proof.
  intros Hs. pose proof Hs as [[Hl Hg Hdis (Hf & Hh)] Hctx Hrc _ Hfl Hex]. split; [done|].
  assert (forall i, connected (ctx_of s i) = true -> exists p b, shared_bus (ctx_of s i) = Some p /\
     buses (reg s) !! p = Some b /\ cli_fd (ctx_of s i) = bus_fd b /\ cli_fd (ctx_of s i) ∈ fds (os (reg s))) as Hlive.
  { intros i Hc. destruct (ctx_of_ok _ _ _ i Hs) as [_ Hx]. destruct (Hx Hc) as (p & b & Hp & Hb & Hfd).
    exists p, b. split_and!; [done..|]. rewrite Hfd. apply Hf. right. by exists p, b. }
  split; [done|]. split; [intros p q b c Hp Hq Heq; apply (Hdis p q b c); auto|]. split; [|split].
  - intros p b Hp. pose proof (Hrc p b Hp) as Hcnt. cbn beta in Hcnt. split; [done|].
    destruct (Hg p b Hp) as (_ & _ & _ & _ & Hpos). destruct (count_pos (attached_to p) (ctxs s)) as (i & c & Hi & Ha); [lia|].
    exists i. unfold ctx_of. by rewrite Hi.
  - intros i j Hi Hj Heq. apply Hex; [done..|].
    destruct (Hlive i (Hfl i Hi)) as (p & b & Hp & Hb & Hfi & _). destruct (Hlive j (Hfl j Hj)) as (q & c & Hq & Hc & Hfj & _).
    rewrite Hp, Hq. f_equal. apply (Hdis p q b c); [done..|]. right. congruence.
  - by apply system_idle.
Qed.
End Theorems.

(** C3. Any number of contexts, connected, used, re-addressed and disconnected
    in any order, with requests of different contexts overlapping in time, on
    any devices and with any failures of the operating system: no operation
    reads or frees a bus record, descriptor or mutex that is not live, no list
    traversal fails to end, and at every moment every connected context uses
    the live bus of its device with its open descriptor, there is one bus per
    device and one descriptor per bus, reference counts are exactly the numbers
    of contexts attached, two requests that are under way never share a
    descriptor, and once the last context has disconnected the process holds
    exactly what it held at first. *)
Theorem rtu_buses_shared_well `{Indet} (base : kernel) (ids : gset Z) (ops : list op) :
  sane_kernel base -> Z.of_nat (size ids) < 2 ^ 32 - 1 -> Forall (op_ok ids) ops ->
  wp (run ops) (fun _ s => shared_well base s) (start base).
Proof.
  intros Hb Hn Hops. eapply wp_mono; [by apply (run_ok base ids); [..|apply start_ok|]|].
  cbn beta. intros rcs s Hs. by eapply system_shared.
Qed.

(** ** Sharing *)

(** The bus a connect ends on, when the device is open already. *)
Lemma connect_bus base extra cfg realpath r c r' p b :
  connect_result base extra cfg realpath r (0, Some c) r' -> buses r !! p = Some b ->
  bus_key (serial_config_of cfg) realpath = Some (bus_path b) ->
  shared_bus c = Some p /\ cli_fd c = bus_fd b /\ bus_settings_match b (serial_config_of cfg) = true /\
  buses r' = <[p := set_refcnt (refcnt b + 1) b]> (buses r).
Proof.
  intros (c' & [= <-] & _ & [[[=] _]|(_ & _ & [_ _ Hdis _] & q & d & Hq & Hfd & Hkey & Hm & Hb & Hwas)]) Hp Hkey'.
  rewrite Hkey' in Hkey. injection Hkey as Hkey.
  assert (q = p) as ->.
  { destruct (decide (q = p)) as [|Hne]; [done|]. apply (Hdis q p (set_refcnt (refcnt d + 1) d) b).
    - rewrite Hb. apply lookup_insert_eq.
    - rewrite Hb. by rewrite lookup_insert_ne.
    - by left. }
  destruct Hwas as [Hwas|[Hwas _]]; [|congruence]. rewrite Hp in Hwas. injection Hwas as <-. done.
Qed.

Lemma holds_fds base extra m k extra' m' k' :
  holds base extra m k -> holds base extra' m' k' ->
  (forall fd, (exists p b, m !! p = Some b /\ bus_fd b = fd) <-> (exists p b, m' !! p = Some b /\ bus_fd b = fd)) ->
  fds k' = fds k.
Proof. intros (Hf & _) (Hf' & _) Hm. apply set_eq. intros fd. by rewrite Hf, Hf', Hm. Qed.

(** The settings a bus was opened with are those of [s], defaults filled in. *)
Definition same_line (b : mb_rtu_shared_bus) (s : mb_rtu_serial_config) : Prop :=
  bus_baud_rate b = effective_baud_rate (baud_rate s) /\ bus_data_bits b = effective_data_bits (data_bits s) /\
  bus_stop_bits b = effective_stop_bits (stop_bits s) /\ bus_parity b = parity s /\ bus_rs485_mode b = rs485_mode s.

Lemma settings_match_line b s : bus_settings_match b s = true <-> same_line b s.
Proof. unfold bus_settings_match, same_line. rewrite !andb_true_iff, !Z.eqb_eq. tauto. Qed.

(** A connect to an open device asks the system for a mutex and nothing else. *)
Lemma connect_existing base extra c cfg realpath r p b a l :
  registry_ok base extra r -> path_fits realpath -> connected c = false -> empty_path (cli_device cfg) = false ->
  buses r !! p = Some b -> bus_key (serial_config_of cfg) realpath = Some (bus_path b) ->
  0 < locks (os r) + 1 -> answers (os r) = a :: l ->
  exists rc c' r', mb_rtu_client_connect (Some c) (Some cfg) realpath r = Ok ((rc, c'), r') /\
    answers (os r') = l /\ (rc = 0 <-> return_value a = 0 /\ same_line b (serial_config_of cfg)).
Proof.
  intros Hr Hpath Hc Hdev Hb Hkey Hlk Ha. unfold mb_rtu_client_connect, connected in *. rewrite Hdev, Hc. cbv zeta.
  assert (on_os mutex_init r = Ok (if return_value a =? 0 then 0 else -1,
    set_os (if return_value a =? 0 then add_locks 1 (later (os r) l) else later (os r) l) r)) as Hinit.
  { unfold on_os, mutex_init, acquire. erewrite bind_ok by (by apply answer_run). unfold bind, get, put, ret.
    destruct (return_value a =? 0); reflexivity. }
  erewrite bind_ok by exact Hinit. destruct (Z.eqb_spec (return_value a) 0) as [H0|H0]; cbn [Z.eqb negb].
  2: { eexists _, _, _. split; [reflexivity|]. split; [reflexivity|]. split; [done | by intros [? _]]. }
  set (r1 := set_os _ r). change (SerialConfig _ _ _ _ _ _) with (serial_config_of cfg).
  destruct (attach_existing base (extra + 1) (serial_config_of cfg) realpath r1 p b) as (r2 & Hrun & Hos & [[b2 n2] Hv]);
    [by apply registry_lock | done..|].
  erewrite bind_ok by exact Hrun. pose proof (settings_match_line b (serial_config_of cfg)) as Hline.
  destruct (bus_settings_match b (serial_config_of cfg)) eqn:Hm.
  - erewrite bind_ok by (unfold deref; by rewrite Hv).
    eexists _, _, _. split; [reflexivity|]. split; [by rewrite Hos | tauto].
  - assert (on_os mutex_destroy r2 = Ok (tt, set_os (add_locks (-1) (os r2)) r2)) as Hd.
    { unfold on_os, mutex_destroy, release. rewrite Hos. cbn [locks os r1 set_os add_locks later set_answers].
      by rewrite (proj2 (Z.ltb_lt _ _)). }
    erewrite bind_ok by exact Hd. eexists _, _, _. split; [reflexivity|]. split; [cbn; by rewrite Hos|].
    split; [done|]. intros [_ ?]. intuition congruence.
Qed.

(** Two registries with the same buses but for the count of [p] keep the same
    descriptors open. *)
Lemma counted_fds base extra extra' r r' p b n :
  registry_ok base extra r -> registry_ok base extra' r' -> buses r !! p = Some b ->
  buses r' = <[p := set_refcnt n b]> (buses r) -> fds (os r') = fds (os r).
Proof.
  intros [_ _ _ Hold] [_ _ _ Hr] Hb Hbs. rewrite Hbs in Hr. eapply holds_fds; [done | done|]. intros fd. split.
  - intros (q & d & Hq & Hqd). destruct (decide (p = q)) as [<-|Hne].
    + eexists p, _. rewrite lookup_insert_eq. split; [done|]. cbn. congruence.
    + exists q, d. by rewrite lookup_insert_ne.
  - intros (q & d & Hq & Hqd). apply lookup_insert_Some in Hq as [[<- <-]|[_ Hq]]; [by exists p, b | by exists q, d].
Qed.

(** C39. Connecting a context to a device that another context has open opens
    nothing.  The call takes one answer from the operating system, that of
    [pthread_mutex_init], and returns.  It succeeds if, and only if, that answer
    is 0 and the serial settings (defaults filled in) agree in speed, data bits,
    stop bits, parity and RS-485 mode.  Then the context has the bus and the
    descriptor of the other one, the bus has one reference more, and the set of
    open descriptors is what it was.  Otherwise it returns -1, the context is
    not connected, no bus and no reference count has changed, and the process
    holds what it held. *)
Theorem rtu_connect_shares `{Indet} base ids ops rcs s i j cfg realpath p b a l :
  sane_kernel base -> Z.of_nat (size ids) < 2 ^ 32 - 1 -> Forall (op_ok ids) ops ->
  run ops (start base) = Ok (rcs, s) -> op_ok ids (Connect i cfg realpath) ->
  connected (ctx_of s i) = false -> empty_path (cli_device cfg) = false ->
  connected (ctx_of s j) = true -> shared_bus (ctx_of s j) = Some p -> buses (reg s) !! p = Some b ->
  bus_key (serial_config_of cfg) realpath = Some (bus_path b) -> answers (os (reg s)) = a :: l ->
  exists rc s', exec (Connect i cfg realpath) s = Ok (rc, s') /\ answers (os (reg s')) = l /\
    (rc = 0 <-> return_value a = 0 /\ same_line b (serial_config_of cfg)) /\
    (rc = 0 -> connected (ctx_of s' i) = true /\ shared_bus (ctx_of s' i) = Some p /\
       cli_fd (ctx_of s' i) = cli_fd (ctx_of s j) /\ buses (reg s') = <[p := set_refcnt (refcnt b + 1) b]> (buses (reg s)) /\
       fds (os (reg s')) = fds (os (reg s))) /\
    (rc <> 0 -> rc = -1 /\ connected (ctx_of s' i) = false /\ buses (reg s') = buses (reg s) /\
       account (os (reg s')) = account (os (reg s))).
Proof.
  intros Hbase Hn Hops Hrun (Hi & Hpath & Hd & Hh) Hc Hdev Hcj Hp Hb Hkey Ha.
  pose proof (wp_ok _ _ _ _ _ (run_ok base ids Hbase Hn ops (start base) (start_ok base ids) Hops) Hrun) as Hs.
  pose proof (count_bound connected (ctxs s)) as [Hcount _]. pose proof (sys_registry _ _ _ Hs) as Hreg.
  assert (0 < locks (os (reg s)) + 1) as Hlk by (destruct Hreg as [_ _ _ (_ & -> & _)]; destruct Hbase as [? _]; lia).
  destruct (connect_existing base _ (ctx_of s i) cfg realpath (reg s) p b a l Hreg Hpath Hc Hdev Hb Hkey Hlk Ha)
    as (rc & c' & r & Hconn & Hans & Hiff).
  pose proof (connect_wp base (count connected (ctxs s)) (ctx_of s i) cfg realpath (reg s) Hbase Hcount Hreg
    (system_roomy base ids Hn s Hs) Hpath Hc Hdev) as Hres.
  unfold wp in Hres. rewrite Hconn in Hres. pose proof Hres as (c & Hc' & _ & Hcase). cbn [fst snd] in *. subst c'.
  exists rc, (set_ctx i c (set_reg r s)). split.
  { unfold exec. erewrite bind_ok by reflexivity. by erewrite bind_ok by (unfold on_reg; by rewrite Hconn). }
  rewrite ctx_of_insert, decide_True by done. cbn [reg set_ctx set_reg]. split; [done|]. split; [done|].
  destruct Hcase as [(-> & Hnew & Hr & Hbs)|(-> & Hnew & Hr & _)]; (split; [try done | try (intros; done)]).
  - intros _. do 3 (split; [done|]). destruct Hreg as [_ _ _ Hold]. destruct Hr as [_ _ _ Hr]. rewrite Hbs in Hr.
    pose proof Hold as (_ & Hl & Ht & Hbl). pose proof Hr as (_ & Hl' & Ht' & Hbl'). apply account_iff.
    split; [by eapply holds_fds | lia].
  - intros _. destruct (connect_bus _ _ _ _ _ _ _ _ _ Hres Hb Hkey) as (Hcp & Hfd & Hm & Hbs).
    destruct (ctx_of_ok _ _ _ j Hs) as [_ Hj]. destruct (Hj Hcj) as (p' & b' & Hp' & Hb' & Hfdj).
    assert (p' = p) as -> by congruence. assert (b' = b) as -> by congruence.
    split_and!; [done | done | congruence | done | by eapply counted_fds].
Qed.

(** ** Three contexts on two devices *)

#[local] Instance junk : Indet := fun i => 17 + 3 * Z.of_nat i.

Definition usb_config (device : string) (unit_id : Z) : mb_rtu_client_config :=
  CliConfig (Some device) 0 0 0 MB_RTU_PARITY_NONE unit_id 1000 0 0 0 1 true.

(** The second path is a symbolic link to the first. *)
Definition connect_first : op := Connect 0 (usb_config "/dev/ttyUSB0" 1) (Some "/dev/ttyUSB0"%string).
Definition connect_link : op := Connect 1 (usb_config "/dev/serial/by-id/bus" 2) (Some "/dev/ttyUSB0"%string).
Definition connect_other : op := Connect 2 (usb_config "/dev/ttyS1" 3) None.

Definition desk_kernel : kernel :=
  Kernel (list_to_set [0; 1; 2]) 0 0 0
    ([inl 0; inl 100; inl 3] ++ replicate 4 (inl 0) ++ [inl 0; inl 0; inl 200; inl 4] ++ replicate 4 (inl 0)) [].

Definition desk_ops : list op :=
  [connect_first; Begin 0; connect_link; connect_other; End 0 sample_request [7; 7; 7] sample_line;
   Disconnect 0; Disconnect 2; Begin 1; SetUnit 2 9].

(** Two contexts share descriptor 3 and address 100 while a request is under way. *)
Example desk_shared :
  match run (take 4 desk_ops) (start desk_kernel) with
  | Ok (rcs, s) => rcs = [0; 0; 0; 0] /\ map (fun i => cli_fd (ctx_of s i)) [0; 1; 2] = [3; 3; 4] /\
      refcnt <$> buses (reg s) !! 100 = Some 2 /\ shared_buses (reg s) = Some 200
  | Fail _ => False
  end.
Proof. vm_compute. done. Qed.

Example desk_ends :
  match run (take 7 desk_ops ++ [Disconnect 1]) (start desk_kernel) with
  | Ok (rcs, s) => heap (reg s) = ∅ /\ account (os (reg s)) = account desk_kernel
  | Fail _ => False
  end.
Proof. vm_compute. done. Qed.

Definition desk_ids : gset Z := list_to_set [0; 1; 2].

Lemma desk_config_ok i device unit_id key :
  i ∈ desk_ids -> Z.of_nat (String.length (default ""%string key)) < PATH_MAX ->
  op_ok desk_ids (Connect i (usb_config device unit_id) key).
Proof.
  intros Hi Hk. split; [done|]. split; [|split; by vm_compute]. intros k ->. exact Hk.
Qed.

Lemma desk_ops_ok : Forall (op_ok desk_ids) desk_ops.
Proof.
  assert (forall i, i ∈ [0; 1; 2] -> i ∈ desk_ids) as Hids by (intros i Hi; by apply elem_of_list_to_set).
  repeat (apply List.Forall_cons; [first [apply desk_config_ok; [apply Hids; set_solver | by vm_compute]
    | apply Hids; set_solver | idtac]|]); [|by apply List.Forall_nil].
  split; [apply Hids; set_solver|]. split; [exact sample_sendable|]. split; [by vm_compute|].
  split; [apply ticks_sane; lia | exact sample_line_bytes].
Qed.

Lemma desk_sane : sane_kernel desk_kernel.
Proof. split; [|split]; by vm_compute. Qed.

Lemma rtu_buses_shared_well_witness :
  wp (run desk_ops) (fun _ s => shared_well desk_kernel s) (start desk_kernel).
Proof. apply (rtu_buses_shared_well desk_kernel desk_ids); [apply desk_sane | by vm_compute | apply desk_ops_ok]. Defined.

Definition desk_system : system :=
  match run [connect_first] (start desk_kernel) with Ok (_, s) => s | Fail _ => start desk_kernel end.
Definition desk_bus : mb_rtu_shared_bus := default zero_bus (buses (reg desk_system) !! 100).

(** The second context asks for another speed. *)
Definition connect_faster : op :=
  Connect 1 (CliConfig (Some "/dev/ttyUSB0"%string) 19200 0 0 MB_RTU_PARITY_NONE 2 1000 0 0 0 1 true)
    (Some "/dev/ttyUSB0"%string).

Example desk_refused :
  match exec connect_faster desk_system with
  | Ok (rc, s) => rc = -1 /\ buses (reg s) = buses (reg desk_system)
  | Fail _ => False
  end.
Proof. vm_compute. done. Qed.

Lemma rtu_connect_shares_witness : exists s',
  exec connect_link desk_system = Ok (0, s') /\ cli_fd (ctx_of s' 1) = 3 /\ fds (os (reg s')) = fds (os (reg desk_system)).
Proof.
  destruct (rtu_connect_shares desk_kernel desk_ids [connect_first] [0] desk_system 1 0
    (usb_config "/dev/serial/by-id/bus" 2) (Some "/dev/ttyUSB0"%string) 100 desk_bus (inl 0) (tail (answers (os (reg desk_system)))))
    as (rc & s' & Hrun & _ & Hiff & Hok & _).
  - apply desk_sane.
  - by vm_compute.
  - apply (Forall_take _ 1 desk_ops), desk_ops_ok.
  - by vm_compute.
  - apply desk_config_ok; [by apply elem_of_list_to_set; set_solver | by vm_compute].
  - by vm_compute.
  - done.
  - by vm_compute.
  - by vm_compute.
  - by vm_compute.
  - by vm_compute.
  - by vm_compute.
  - assert (rc = 0) as Hrc by (apply Hiff; split; [reflexivity | vm_compute; split_and!; reflexivity]). exists s'. split; [rewrite <- Hrc; exact Hrun|].
    destruct (Hok Hrc) as (_ & _ & Hfd & _ & Hfds). split; [|exact Hfds]. rewrite Hfd. by vm_compute.
Defined.
