(* ===== verification/TcpPort.v ===== *)
(** * Sockets of [src/modbus_tcp.c]: connect, listen, start, stop

    Opening a connection, the listening socket of a server, and starting and
    stopping the thread.  [client_fds] is a list ([malloc] and [free] are the
    kernel's); [sock_out] is modelled by the value it points to.  How long a
    select waits is left out; the timeouts that are set on a socket are events.
    [mb_tcp_close] and [mb_tcp_client_disconnect] are here as the process sees
    them, in [TcpClient] as the line does. *)

From stdpp Require Import gmap strings.
From S2P Require Import Prelude Buffer Defines Pdu PduSpec PduClient Ptr Tcp Sys TcpServer TcpClient Kernel.

Definition FD_SETSIZE : Z := 1024.
Definition EINVAL : Z := 22.
Definition EINPROGRESS : errno := EOTHER 115.

Definition empty_host (h : option string) : bool :=
  match h with None => true | Some s => bool_decide (s = ""%string) end.

(** [FD_SET]: a number outside the set writes outside the object. *)
Definition fd_set_add (fd : Z) (s : gset Z) : outcome (gset Z) :=
  if (0 <=? fd) && (fd <? FD_SETSIZE) then Ok ({[fd]} ∪ s) else Fail UB.

(** ** Connecting *)

(** The socket is closed, the caller gets -1 for it. *)
Definition connect_failed (sock : Z) : st kernel (Z * option Z) := sys_close sock ;;; ret (-1, Some (-1)).

(** The wait for a connection in progress: has it been made? *)
Definition connection_made (sock : Z) : st kernel bool :=
  let! writefds := lift (fd_set_add sock ∅) in
  let! n := sys_call sock in
  if 0 <? return_value n then
    let! e := sys_call sock in
    let so_error := match e with inl v => v | inr _ => 0 end in
    ret (so_error =? 0)
  else ret false.

(** The socket is set up and does not block. *)
Definition connect_socket (sock : Z) : st kernel (Z * option Z) :=
  let! rc := sys_call sock in
  if return_value rc <? 0 then
    let! made := if bool_decide (rc = inr EINPROGRESS) then connection_made sock else ret false in
    if made : bool then
      sys_ctl sock ;;; emit (BlockingAgain sock) ;;; ret (0, Some sock)
    else connect_failed sock
  else sys_ctl sock ;;; emit (BlockingAgain sock) ;;; ret (0, Some sock).

Definition mb_tcp_connect (sock_out : option Z) (bind_iface remote_host : option string) (port timeout_sec : Z)
    : st kernel (Z * option Z) :=
  if is_null sock_out || empty_host remote_host || (port =? 0) then ret (- EINVAL, sock_out) else
  let timeout_sec := if timeout_sec =? 0 then 5 else timeout_sec in
  let! sock := sys_open in
  if sock <? 0 then ret (-1, Some sock) else
  let! rc := sys_ctl sock in
  if rc <? 0 then connect_failed sock else
  emit (SendTimeoutSet sock timeout_sec 0) ;;;
  let! rc := sys_ctl sock in
  if rc <? 0 then connect_failed sock else
  emit (RecvTimeoutSet sock timeout_sec 0) ;;;
  let! rc := if empty_host bind_iface then ret 0 else sys_ctl sock in
  if rc <? 0 then connect_failed sock else
  let! rc := sys_ctl sock in
  if rc <? 0 then connect_failed sock else
  let! parsed := answer in
  if return_value parsed <=? 0 then connect_failed sock else
  let! flags := sys_ctl sock in
  sys_ctl sock ;;;
  emit (NonBlocking sock) ;;;
  emit (Connecting sock remote_host port) ;;;
  connect_socket sock.

(** The new value of [*fd]. *)
Definition mb_tcp_close (fd : option Z) : st kernel (option Z) :=
  match fd with
  | Some v => if 0 <=? v then sys_shutdown v ;;; sys_close v ;;; ret (Some (-1)) else ret fd
  | None => ret None
  end.

(** ** The connection of a client *)

Definition mb_tcp_client_connect (ctx : option mb_tcp_client_ctx) (cfg : option mb_tcp_client_config)
    : st kernel (Z * option mb_tcp_client_ctx) :=
  match ctx, cfg with
  | Some c, Some cfg =>
      if empty_host (cli_remote_host cfg) || (cli_port cfg =? 0) then ret (-1, ctx)
      else if negb (cli_initialized c =? 0) then ret (-1, ctx) else
      let c := CliCtx (-1) 0 0 cfg in
      let! rc := mutex_init in
      if negb (rc =? 0) then ret (-1, Some c) else
      let connect_sec := if negb (cli_connect_timeout_sec cfg =? 0) then cli_connect_timeout_sec cfg
                         else DEFAULT_CONNECT_TIMEOUT_SEC in
      let! '(rc, sock) := mb_tcp_connect (Some (cli_sock c)) (cli_bind_iface cfg) (cli_remote_host cfg)
                            (cli_port cfg) connect_sec in
      let c := set_sock (default (-1) sock) c in
      if negb (rc =? 0) then mutex_destroy ;;; ret (-1, Some (set_sock (-1) c)) else
      let resp_ms := if negb (cli_response_timeout_ms cfg =? 0) then cli_response_timeout_ms cfg
                     else DEFAULT_RESPONSE_TIMEOUT_MS in
      sys_ctl (cli_sock c) ;;;
      emit (RecvTimeoutSet (cli_sock c) (resp_ms / 1000) (resp_ms mod 1000 * 1000)) ;;;
      ret (0, Some (set_cli_initialized 1 c))
  | _, _ => ret (-1, ctx)
  end.

Definition mb_tcp_client_disconnect (ctx : option mb_tcp_client_ctx) : st kernel (option mb_tcp_client_ctx) :=
  match ctx with
  | None => ret None
  | Some c =>
      if cli_initialized c =? 0 then ret ctx else
      let! fd := mb_tcp_close (Some (cli_sock c)) in
      mutex_destroy ;;;
      ret (Some (set_cli_initialized 0 (set_sock (default (cli_sock c) fd) c)))
  end.

(** ** The context of a transport *)

Definition set_keep_running (v : Z) (c : mb_tcp_ctx) : mb_tcp_ctx :=
  TcpCtx v (tid c) (cfg c) (listen_sock c) (stream_sock c) (client_fds c) (client_cap c) (initialized c).
Definition set_listen_sock (v : Z) (c : mb_tcp_ctx) : mb_tcp_ctx :=
  TcpCtx (keep_running c) (tid c) (cfg c) v (stream_sock c) (client_fds c) (client_cap c) (initialized c).
Definition set_stream_sock (v : Z) (c : mb_tcp_ctx) : mb_tcp_ctx :=
  TcpCtx (keep_running c) (tid c) (cfg c) (listen_sock c) v (client_fds c) (client_cap c) (initialized c).
Definition set_client_fds (l : list Z) (cap : Z) (c : mb_tcp_ctx) : mb_tcp_ctx :=
  TcpCtx (keep_running c) (tid c) (cfg c) (listen_sock c) (stream_sock c) l cap (initialized c).
Definition set_initialized (v : Z) (c : mb_tcp_ctx) : mb_tcp_ctx :=
  TcpCtx (keep_running c) (tid c) (cfg c) (listen_sock c) (stream_sock c) (client_fds c) (client_cap c) v.

Definition mb_tcp_link_call (c : mb_tcp_ctx) (fd connected : Z) : st kernel unit :=
  if has_on_link (cfg c) then emit (LinkChanged fd connected) else ret tt.

Definition error_call (c : mb_tcp_ctx) (connected : Z) : st kernel unit :=
  if has_on_error (cfg c) then emit (ErrorCalled connected) else ret tt.

(** The results of [setsockopt] are not looked at. *)
Definition configure_client_socket (c : mb_tcp_ctx) (fd : Z) : st kernel unit :=
  (if negb (keepalive_idle_sec (cfg c) =? MB_TCP_KEEPALIVE_DISABLED) then
     let keep_idle := int_of (value_or_default (keepalive_idle_sec (cfg c)) MB_TCP_DEFAULT_KEEPALIVE_IDLE_SEC) in
     let keep_intvl := int_of (value_or_default (keepalive_interval_sec (cfg c)) MB_TCP_DEFAULT_KEEPALIVE_INTERVAL_SEC) in
     let keep_cnt := int_of (value_or_default (keepalive_count (cfg c)) MB_TCP_DEFAULT_KEEPALIVE_COUNT) in
     sys_ctl fd ;;; sys_ctl fd ;;; sys_ctl fd ;;; sys_ctl fd ;;;
     emit (KeepAliveSet fd keep_idle keep_intvl keep_cnt)
   else ret tt) ;;;
  if 0 <? recv_timeout_ms (cfg c) then
    sys_ctl fd ;;; emit (RecvTimeoutSet fd (recv_timeout_ms (cfg c) / 1000) (recv_timeout_ms (cfg c) mod 1000 * 1000))
  else ret tt.

(** [free(ctx->client_fds)]: NULL is the empty list. *)
Definition free_slots (c : mb_tcp_ctx) : st kernel unit :=
  match client_fds c with [] => ret tt | _ => heap_free end.

Definition close_listen_sock (c : mb_tcp_ctx) : st kernel mb_tcp_ctx :=
  sys_close (listen_sock c) ;;; ret (set_listen_sock (-1) c).

Definition mb_tcp_listen_init (c : mb_tcp_ctx) : st kernel (Z * mb_tcp_ctx) :=
  let! sock := sys_open in
  let c := set_listen_sock sock c in
  if listen_sock c <? 0 then ret (-1, c) else
  let! rc := sys_ctl (listen_sock c) in
  if rc <? 0 then let! c := close_listen_sock c in ret (-1, c) else
  let! rc := sys_ctl (listen_sock c) in
  if rc <? 0 then let! c := close_listen_sock c in ret (-1, c) else
  emit (Bound (listen_sock c) (port (cfg c))) ;;;
  let! rc := sys_ctl (listen_sock c) in
  if rc <? 0 then let! c := close_listen_sock c in ret (-1, c) else
  emit (Listening (listen_sock c) (client_cap c)) ;;;
  ret (0, c).

(** ** Start *)

(** A context after [memset] and the defaults. *)
Definition fresh_ctx (config : mb_tcp_config) : mb_tcp_ctx :=
  let config := TcpConfig (mode config) (remote_host config) (port config) (bind_iface config)
    (if connect_timeout_sec config =? 0 then 5 else connect_timeout_sec config)
    (if connect_retry_sec config =? 0 then 3 else connect_retry_sec config)
    (recv_timeout_ms config) (max_clients config) (keepalive_idle_sec config) (keepalive_interval_sec config)
    (keepalive_count config) (idle_poll_ms config) (has_on_link config) (has_on_init config)
    (has_on_process config) (has_on_error config) in
  TcpCtx 1 0 config (-1) (-1) [] 0 0.

(** The slots of a server; the code is -1 if there is no memory. *)
Definition make_slots (c : mb_tcp_ctx) : st kernel (Z * mb_tcp_ctx) :=
  let cap := u16 (value_or_default (max_clients (cfg c)) MB_TCP_DEFAULT_MAX_CLIENTS) in
  let! rc := heap_alloc in
  if negb (rc =? 0) then ret (-1, set_client_fds [] cap c)
  else ret (0, set_client_fds (replicate (Z.to_nat cap) (-1)) cap c).

(** The thread of a server, with its listening socket; -1 gives up. *)
Definition launch_server (c : mb_tcp_ctx) : st kernel (Z * mb_tcp_ctx) :=
  let! '(rc, c) := mb_tcp_listen_init c in
  let! failed := if rc <? 0 then ret true else let! rc := thread_create in ret (negb (rc =? 0)) in
  if failed : bool then
    let! c := if 0 <=? listen_sock c then close_listen_sock c else ret c in
    free_slots c ;;;
    mutex_destroy ;;;
    ret (-1, set_client_fds [] (client_cap c) c)
  else ret (0, set_initialized 1 c).

Definition launch_client (c : mb_tcp_ctx) : st kernel (Z * mb_tcp_ctx) :=
  let! rc := thread_create in
  if negb (rc =? 0) then mutex_destroy ;;; ret (-1, c) else ret (0, set_initialized 1 c).

(** Returns the code and the context. *)
Definition mb_tcp_start (ctx : option mb_tcp_ctx) (config : option mb_tcp_config)
    : st kernel (Z * option mb_tcp_ctx) :=
  match ctx, config with
  | Some c, Some config =>
      if (mode config =? MB_TCP_MODE_CONNECT_CLIENT) && empty_host (remote_host config) then ret (-1, ctx)
      else if negb (initialized c =? 0) then ret (-1, ctx) else
      let c := fresh_ctx config in
      let! '(rc, c) := if mode (cfg c) =? MB_TCP_MODE_LISTEN_SERVER then make_slots c else ret (0, c) in
      if rc <? 0 then ret (-1, Some c) else
      let! rc := mutex_init in
      if negb (rc =? 0) then free_slots c ;;; ret (-1, Some (set_client_fds [] (client_cap c) c)) else
      (if has_on_init (cfg c) then emit InitCalled else ret tt) ;;;
      let! '(rc, c) := if mode (cfg c) =? MB_TCP_MODE_LISTEN_SERVER then launch_server c else launch_client c in
      ret (rc, Some c)
  | _, _ => ret (-1, ctx)
  end.

(** ** Stop *)

(** Over the slots [l]. *)
Fixpoint each_slot {S A} (f : nat -> A -> st S A) (l : list nat) (a : A) : st S A :=
  match l with
  | [] => ret a
  | i :: l => let! a := f i a in each_slot f l a
  end.

Definition slots (c : mb_tcp_ctx) : list nat := seq 0 (Z.to_nat (client_cap c)).

Definition get_slot (c : mb_tcp_ctx) (i : nat) : outcome Z := load (client_fds c) (Z.of_nat i).

(** The thread is told to end and woken up. *)
Definition stop_request (c : mb_tcp_ctx) : st kernel mb_tcp_ctx :=
  let c := set_keep_running 0 c in
  (if 0 <=? listen_sock c then sys_shutdown (listen_sock c) else ret tt) ;;;
  each_slot (fun i _ =>
    let! sd := lift (get_slot c i) in
    if 0 <=? sd then sys_shutdown sd else ret tt) (slots c) tt ;;;
  (if 0 <=? stream_sock c then sys_shutdown (stream_sock c) else ret tt) ;;;
  ret c.

(** The thread has ended. *)
Definition stop_release (c : mb_tcp_ctx) : st kernel mb_tcp_ctx :=
  let! c := if 0 <=? listen_sock c then close_listen_sock c else ret c in
  each_slot (fun i _ =>
    let! sd := lift (get_slot c i) in
    if 0 <=? sd then sys_close sd else ret tt) (slots c) tt ;;;
  free_slots c ;;;
  let c := set_client_fds [] 0 c in
  let! c := if 0 <=? stream_sock c then sys_close (stream_sock c) ;;; ret (set_stream_sock (-1) c) else ret c in
  mutex_destroy ;;;
  ret (set_initialized 0 c).

(** [rest] is what the thread still does before [pthread_join] returns. *)
Definition mb_tcp_stop {U} (rest : mb_tcp_ctx -> st (kernel * U) mb_tcp_ctx) (ctx : option mb_tcp_ctx)
    : st (kernel * U) (option mb_tcp_ctx) :=
  match ctx with
  | None => ret None
  | Some c =>
      if initialized c =? 0 then ret ctx else
      let! c := on_fst (stop_request c) in
      let! c := rest c in
      on_fst thread_join ;;;
      let! c := on_fst (stop_release c) in
      ret (Some c)
  end.
