(* ===== verification/TcpThread.v ===== *)
(** * The threads of [src/modbus_tcp.c]

    One round of the server's loop waits in select, looks for dead clients when
    nothing happens, accepts one connection, and serves the clients that are
    readable.  What a round meets is an argument: the value of [keep_running]
    at its start and the outcome of select; a read of a slot outside
    [client_fds] and an [FD_SET] outside the set are [UB].  The callback
    [on_process] works on a state of its own. *)

From stdpp Require Import gmap strings.
From S2P Require Import Prelude Buffer Defines Pdu PduSpec PduClient Ptr Tcp Sys TcpServer TcpClient Kernel TcpPort.

(** [Selected l]: those of the watched descriptors that are in [l] are
    readable; if there are none the timeout has passed. *)
Inductive selection := Selected (l : list Z) | SelectFailed (e : errno).

Section Threads.
Context {U : Type} (on_process : Z -> st U Z).

Definition set_slot (i : nat) (v : Z) (c : mb_tcp_ctx) : mb_tcp_ctx :=
  set_client_fds (<[i := v]> (client_fds c)) (client_cap c) c.

(** Slot [i] holds [sd], whose connection is over. *)
Definition drop_client (i : nat) (sd : Z) (c : mb_tcp_ctx) : st kernel mb_tcp_ctx :=
  sys_close sd ;;;
  let c := set_slot i (-1) c in
  mb_tcp_link_call c sd 0 ;;;
  error_call c 0 ;;;
  ret c.

(** What select watches. *)
Fixpoint watch_slots (c : mb_tcp_ctx) (l : list nat) (readfds : gset Z) : outcome (gset Z) :=
  match l with
  | [] => Ok readfds
  | i :: l => obind (get_slot c i) (fun sd =>
                obind (if 0 <=? sd then fd_set_add sd readfds else Ok readfds) (watch_slots c l))
  end.

Definition watched (c : mb_tcp_ctx) : outcome (gset Z) :=
  obind (fd_set_add (listen_sock c) ∅) (watch_slots c (slots c)).

(** Nothing happened: the clients that have hung up are dropped. *)
Definition check_client (i : nat) (c : mb_tcp_ctx) : st kernel mb_tcp_ctx :=
  let! sd := lift (get_slot c i) in
  if 0 <=? sd then
    let! check := sys_call sd in
    if return_value check =? 0 then drop_client i sd c else ret c
  else ret c.

(** The first free slot gets [sock]; [None] if there is none. *)
Fixpoint place_client (l : list nat) (sock : Z) (c : mb_tcp_ctx) : outcome (option mb_tcp_ctx) :=
  match l with
  | [] => Ok None
  | i :: l => obind (get_slot c i) (fun sd =>
                if sd <? 0 then Ok (Some (set_slot i sock c)) else place_client l sock c)
  end.

(** [accept] on a descriptor. *)
Definition sys_accept (fd : Z) : st kernel Z :=
  let! k := get in
  if bool_decide (fd ∈ fds k) then sys_open else stop UB.

(** [false]: the round ends here. *)
Definition accept_client (c : mb_tcp_ctx) : st kernel (bool * mb_tcp_ctx) :=
  let! new_socket := sys_accept (listen_sock c) in
  if new_socket <? 0 then ret (false, c)
  else if FD_SETSIZE <=? new_socket then sys_close new_socket ;;; ret (false, c)
  else
    configure_client_socket c new_socket ;;;
    let! placed := lift (place_client (slots c) new_socket c) in
    match placed with
    | None => sys_close new_socket ;;; ret (false, c)
    | Some c =>
        mb_tcp_link_call c new_socket 1 ;;;
        error_call c 1 ;;;
        ret (true, c)
    end.

Definition serve_client (readfds : gset Z) (i : nat) (c : mb_tcp_ctx) : st (kernel * U) mb_tcp_ctx :=
  let! sd := lift (get_slot c i) in
  if (0 <=? sd) && bool_decide (sd ∈ readfds) then
    if has_on_process (cfg c) then
      let! rc := on_snd (on_process sd) in
      if rc <? 0 then on_fst (drop_client i sd c) else ret c
    else ret c
  else ret c.

(** From a select that has not timed out on. *)
Definition serve_ready (readfds : gset Z) (c : mb_tcp_ctx) : st (kernel * U) mb_tcp_ctx :=
  let! '(continue, c) :=
    if (0 <=? listen_sock c) && bool_decide (listen_sock c ∈ readfds) then on_fst (accept_client c)
    else ret (true, c) in
  if continue : bool then each_slot (serve_client readfds) (slots c) c else ret c.

(** Select leaves the set as it is when it fails. *)
Definition server_round (sel : selection) (c : mb_tcp_ctx) : st (kernel * U) mb_tcp_ctx :=
  let! readfds := lift (watched c) in
  let! '(k, _) := get in
  if negb (bool_decide (readfds ⊆ fds k)) then stop UB else
  match sel with
  | SelectFailed e => if bool_decide (e = EINTR) then serve_ready readfds c else ret c
  | Selected l =>
      let readfds := readfds ∩ list_to_set l in
      if bool_decide (readfds = ∅) then on_fst (each_slot check_client (slots c) c)
      else serve_ready readfds c
  end.

(** [true]: the thread has not left its loop yet. *)
Fixpoint mb_tcp_server_thread (rounds : list (Z * selection)) (c : mb_tcp_ctx) : st (kernel * U) (bool * mb_tcp_ctx) :=
  match rounds with
  | [] => ret (true, c)
  | (running, sel) :: rounds =>
      if running =? 0 then ret (false, c) else
      let! c := server_round sel c in
      mb_tcp_server_thread rounds c
  end.

(** ** The thread of a connecting client *)

(** One second per turn, as long as the flag is seen set. *)
Fixpoint retry_pause (n : nat) (flags : list Z) : st kernel unit :=
  match n with
  | O => ret tt
  | S n =>
      match flags with
      | [] => stop Blocked
      | running :: flags => if running =? 0 then ret tt else emit Paused ;;; retry_pause n flags
      end
  end.

(** [sock] and the context; the socket is connected iff [sock] is not -1. *)
Definition client_connect (flags : list Z) (c : mb_tcp_ctx) : st kernel (Z * mb_tcp_ctx) :=
  let! '(rc, sock) := mb_tcp_connect (Some (-1)) (bind_iface (cfg c)) (remote_host (cfg c)) (port (cfg c))
                        (connect_timeout_sec (cfg c)) in
  let sock := default (-1) sock in
  if rc =? 0 then
    let c := set_stream_sock sock c in
    mb_tcp_link_call c sock 1 ;;;
    error_call c 1 ;;;
    ret (sock, c)
  else
    error_call c 0 ;;;
    retry_pause (Z.to_nat (connect_retry_sec (cfg c))) flags ;;;
    ret (-1, c).

Definition client_poll (sock : Z) (c : mb_tcp_ctx) : st (kernel * U) (Z * mb_tcp_ctx) :=
  let! failed := if has_on_process (cfg c) then let! rc := on_snd (on_process sock) in ret (rc <? 0) else ret false in
  if failed : bool then
    on_fst (mb_tcp_link_call c sock 0 ;;; sys_close sock) ;;;
    let c := set_stream_sock (-1) c in
    on_fst (error_call c 0) ;;;
    ret (-1, c)
  else on_fst (emit Paused) ;;; ret (sock, c).

Definition client_round (flags : list Z) (sock : Z) (c : mb_tcp_ctx) : st (kernel * U) (Z * mb_tcp_ctx) :=
  if sock <? 0 then
    let! '(sock, c) := on_fst (client_connect flags c) in
    if sock <? 0 then ret (-1, c) else client_poll sock c
  else client_poll sock c.

Fixpoint mb_tcp_client_thread (rounds : list (Z * list Z)) (sock : Z) (c : mb_tcp_ctx)
    : st (kernel * U) (bool * mb_tcp_ctx) :=
  match rounds with
  | [] => ret (true, c)
  | (running, flags) :: rounds =>
      if running =? 0 then
        (if 0 <=? sock then on_fst (mb_tcp_link_call c sock 0) else ret tt) ;;;
        ret (false, c)
      else
        let! '(sock, c) := client_round flags sock c in
        mb_tcp_client_thread rounds sock c
  end.

(** Between two rounds the thread's [sock] is [stream_sock]. *)
Definition connect_until_end (rounds : list (Z * list Z)) (c : mb_tcp_ctx) : st (kernel * U) mb_tcp_ctx :=
  let! '(running, c) := mb_tcp_client_thread rounds (stream_sock c) c in
  if running : bool then stop Blocked else ret c.

(** Start, [rounds] of the thread, stop; the thread, if it has not ended, goes
    through [rounds'] before it does. *)
Definition client_life (c : mb_tcp_ctx) (config : mb_tcp_config) (rounds rounds' : list (Z * list Z))
    : st (kernel * U) (Z * option mb_tcp_ctx) :=
  let! '(rc, t) := on_fst (mb_tcp_start (Some c) (Some config)) in
  match t with
  | Some t =>
      if rc =? 0 then
        let! '(running, t) := mb_tcp_client_thread rounds (-1) t in
        let! t := mb_tcp_stop (if running : bool then connect_until_end rounds' else ret) (Some t) in
        ret (rc, t)
      else ret (rc, Some t)
  | None => ret (rc, None)
  end.
End Threads.
