(* ===== verification/TcpThreadSpec.v ===== *)
(** * The slots of a TCP server

    What the server's thread keeps true: the occupied slots hold different open
    descriptors that fit a [fd_set], none of them the listening socket, and the
    process holds them and nothing else. *)

From stdpp Require Import gmap strings.
From S2P Require Import Prelude Buffer Defines Pdu PduSpec PduClient Ptr Tcp Sys TcpServer TcpClient Kernel TcpPort TcpThread.

Lemma each_slot_wp {S A} (f : nat -> A -> st S A) (l : list nat) (P : A -> S -> Prop) :
  (forall i a s, i ∈ l -> P a s -> wp (f i a) P s) -> forall a s, P a s -> wp (each_slot f l a) P s.
Proof.
  induction l as [|i l IH]; intros Hf a s Ha; cbn [each_slot]; [by apply wp_ret|].
  apply wp_bind. eapply wp_mono; [apply Hf; [apply elem_of_cons; by left | done]|].
  cbn beta. intros a' s' Ha'. apply IH; [|done]. intros j b t Hj. apply Hf, elem_of_cons. by right.
Qed.

(** ** The invariant *)

(** [fd] is in a slot. *)
Definition in_slot (c : mb_tcp_ctx) (fd : Z) : Prop := exists i, client_fds c !! i = Some fd /\ 0 <= fd.

Definition fits (fd : Z) : Prop := 0 <= fd < FD_SETSIZE.

(** Relative to [base], what the process held before the start. *)
Record server_inv (base : kernel) (cap : Z) (c : mb_tcp_ctx) (k : kernel) : Prop := ServerInv {
  inv_cap : client_cap c = cap /\ length (client_fds c) = Z.to_nat cap;
  inv_listen : fits (listen_sock c) /\ listen_sock c ∉ fds base;
  inv_slots : forall i sd, client_fds c !! i = Some sd -> 0 <= sd ->
    sd < FD_SETSIZE /\ sd ∉ fds base /\ sd <> listen_sock c;
  inv_distinct : forall i j sd, client_fds c !! i = Some sd -> client_fds c !! j = Some sd -> 0 <= sd -> i = j;
  inv_fds : forall fd, fd ∈ fds k <-> fd ∈ fds base \/ fd = listen_sock c \/ in_slot c fd;
  inv_rest : stream_sock c = -1 /\ initialized c = 1 /\
    locks k = locks base + 1 /\ threads k = threads base + 1 /\ blocks k = blocks base + 1;
}.

Lemma inv_account base cap c k k' : server_inv base cap c k -> account k' = account k -> server_inv base cap c k'.
Proof.
  intros [H1 H2 H3 H4 H5 H6] Ha. apply account_iff in Ha as (Hf & Hl & Ht & Hb).
  split; [done..| |]; [by rewrite Hf | by rewrite Hl, Ht, Hb].
Qed.

Lemma inv_slot_open base cap c k i sd :
  server_inv base cap c k -> client_fds c !! i = Some sd -> 0 <= sd -> sd ∈ fds k.
Proof. intros Hi Hs Hsd. apply (inv_fds _ _ _ _ Hi). right; right. by exists i. Qed.

Lemma inv_listen_open base cap c k : server_inv base cap c k -> listen_sock c ∈ fds k.
Proof. intros Hi. apply (inv_fds _ _ _ _ Hi). right. by left. Qed.

Lemma slots_elem c i : i ∈ slots c <-> (i < Z.to_nat (client_cap c))%nat.
Proof. unfold slots. rewrite elem_of_seq. lia. Qed.

Lemma get_slot_run base cap c k i :
  server_inv base cap c k -> i ∈ slots c -> exists sd, client_fds c !! i = Some sd /\ get_slot c i = Ok sd.
Proof.
  intros [[Hc Hl] _ _ _ _ _] Hi%slots_elem. rewrite Hc in Hi.
  destruct (lookup_lt_is_Some_2 (client_fds c) i) as [sd Hsd]; [lia|]. exists sd. split; [done|].
  unfold get_slot, load. rewrite (proj2 (Z.leb_le 0 _)) by lia. by rewrite Nat2Z.id, Hsd.
Qed.

Lemma slots_cap c c' : client_cap c' = client_cap c -> slots c' = slots c.
Proof. intros Hc. unfold slots. by rewrite Hc. Qed.

Lemma in_slot_set c i v fd :
  (i < length (client_fds c))%nat ->
  (in_slot (set_slot i v c) fd <-> (fd = v /\ 0 <= v) \/ exists j, j <> i /\ client_fds c !! j = Some fd /\ 0 <= fd).
Proof.
  intros Hi. unfold in_slot. cbn. split.
  - intros (j & Hj & Hfd). apply list_lookup_insert_Some in Hj as [(-> & <- & _)|[Hne Hj]]; [by left|right].
    exists j. split; [congruence | done].
  - intros [[-> Hv]|(j & Hne & Hj & Hfd)].
    + exists i. split; [by apply list_lookup_insert_eq | done].
    + exists j. split; [|done]. by rewrite list_lookup_insert_ne.
Qed.

(** A slot is emptied. *)
Lemma inv_drop base cap c k k' i sd :
  server_inv base cap c k -> client_fds c !! i = Some sd -> 0 <= sd ->
  account k' = account (set_fds (fds k ∖ {[sd]}) k) -> server_inv base cap (set_slot i (-1) c) k'.
Proof.
  intros [[Hc Hl] H2 H3 H4 H5 H6] Hs Hsd Ha. apply account_iff in Ha as (Hf & Hlk & Ht & Hb). cbn in Hf, Hlk, Ht, Hb.
  pose proof (lookup_lt_Some _ _ _ Hs) as Hlt.
  split; [split; [done | by cbn; rewrite length_insert] | done | | | | cbn; by rewrite Hlk, Ht, Hb].
  - intros j s Hj Hpos. cbn in Hj. apply list_lookup_insert_Some in Hj as [(-> & <- & _)|[_ Hj]]; [lia | by apply (H3 j)].
  - intros j j' s Hj Hj' Hpos. cbn in Hj, Hj'. apply list_lookup_insert_Some in Hj as [(_ & <- & _)|[_ Hj]]; [lia|].
    apply list_lookup_insert_Some in Hj' as [(_ & <- & _)|[_ Hj']]; [lia | by apply (H4 j j' s)].
  - intros fd. rewrite Hf, elem_of_difference, elem_of_singleton, H5, in_slot_set by done. cbn.
    destruct (H3 i sd Hs Hsd) as (_ & Hbase & Hlis). split.
    + intros [[Hin|[Hin|(j & Hj & Hpos)]] Hne]; [by left | by right; left|]. right; right; right. exists j.
      split; [|done]. intros ->. congruence.
    + intros [Hin|[->|[[_ Hbad]|(j & Hne & Hj & Hpos)]]]; [|by split; [right; left|]|lia|].
      * split; [by left|]. by intros ->.
      * split; [right; right; by exists j|]. intros ->. apply Hne. by apply (H4 j i sd).
Qed.

(** A free slot is taken by a new descriptor. *)
Lemma inv_place base cap c k k' i old sock :
  server_inv base cap c k -> client_fds c !! i = Some old -> old < 0 -> 0 <= sock < FD_SETSIZE -> sock ∉ fds k ->
  account k' = account (set_fds ({[sock]} ∪ fds k) k) -> server_inv base cap (set_slot i sock c) k'.
Proof.
  intros [[Hc Hl] H2 H3 H4 H5 H6] Hs Hold Hsock Hnew Ha. apply account_iff in Ha as (Hf & Hlk & Ht & Hb). cbn in Hf, Hlk, Ht, Hb.
  pose proof (lookup_lt_Some _ _ _ Hs) as Hlt.
  assert (forall j, client_fds c !! j = Some sock -> False) as Hfree
    by (intros j Hj; apply Hnew, H5; right; right; exists j; split; [done | lia]).
  split; [split; [done | by cbn; rewrite length_insert] | done | | | | cbn; by rewrite Hlk, Ht, Hb].
  - intros j s Hj Hpos. cbn in Hj. apply list_lookup_insert_Some in Hj as [(-> & <- & _)|[_ Hj]]; [|by apply (H3 j)].
    split; [lia|]. rewrite H5 in Hnew. split; [tauto|]. cbn. intros Heq. tauto.
  - intros j j' s Hj Hj' Hpos. cbn in Hj, Hj'. apply list_lookup_insert_Some in Hj as [(<- & <- & _)|[Hne Hj]];
      apply list_lookup_insert_Some in Hj' as [(<- & E & _)|[Hne' Hj']]; [done|by destruct (Hfree j')| |by apply (H4 j j' s)].
    subst. by destruct (Hfree j).
  - intros fd. rewrite Hf, elem_of_union, elem_of_singleton, H5, in_slot_set by done. cbn. split.
    + intros [->|[Hin|[Hin|(j & Hj & Hpos)]]]; [right; right; left; split; [done | lia] | by left | by right; left|].
      right; right; right. exists j. split; [|done]. intros ->. rewrite Hs in Hj. injection Hj as ->. lia.
    + intros [Hin|[Hin|[[-> _]|(j & _ & Hj & Hpos)]]]; [by right; left | by right; right; left | by left|].
      right; right; right. by exists j.
Qed.

(** ** Who has been reported up

    The calls of [on_link] make sense: only a connection that is up goes down,
    only one that is not comes up.  The result is the connections that are up. *)
Fixpoint link_walk (up : gset Z) (l : list event) : option (gset Z) :=
  match l with
  | [] => Some up
  | LinkChanged fd v :: l =>
      if v =? 0 then if bool_decide (fd ∈ up) then link_walk (up ∖ {[fd]}) l else None
      else if bool_decide (fd ∈ up) then None else link_walk ({[fd]} ∪ up) l
  | _ :: l => link_walk up l
  end.

(** Since [base] the callbacks, if there are any, have reported [up]. *)
Definition linked (base : kernel) (on_link : bool) (up : gset Z) (k : kernel) : Prop :=
  exists ls, links k = links base ++ ls /\ link_walk ∅ ls = Some (if on_link then up else ∅).

Lemma linked_same base b up k k' : linked base b up k -> links k' = links k -> linked base b up k'.
Proof. intros (ls & Hl & Hw) He. exists ls. by rewrite He. Qed.

Lemma link_walk_snoc l e : forall s up, link_walk s l = Some up -> link_walk s (l ++ [e]) = link_walk up [e].
Proof.
  induction l as [|e' l IH]; intros s up; cbn [link_walk app]; [by intros [= ->]|].
  destruct e'; try apply IH. destruct (_ =? 0), (bool_decide _); try done; apply IH.
Qed.

Lemma links_call fd v k : links (add_event (LinkChanged fd v) k) = links k ++ [LinkChanged fd v].
Proof. unfold links. cbn [events add_event]. by rewrite filter_app. Qed.

(** ** The steps of a round *)

Lemma watch_slots_grow c l : forall s s', watch_slots c l s = Ok s' -> s ⊆ s'.
Proof.
  induction l as [|i l IH]; intros s s'; cbn [watch_slots]; [by intros [= ->]|].
  destruct (get_slot c i) as [sd|]; [|done]. cbn [obind]. unfold fd_set_add. destruct (0 <=? sd); cbn [andb].
  - destruct (sd <? FD_SETSIZE); [|done]. cbn [obind]. intros H%IH. set_solver.
  - apply IH.
Qed.

Lemma watched_listen c s : watched c = Ok s -> 0 <= listen_sock c /\ listen_sock c ∈ s.
Proof.
  unfold watched, fd_set_add. destruct (Z.leb_spec 0 (listen_sock c)) as [Hpos|_]; [|done]. cbn [andb].
  destruct (_ <? _); [|done]. cbn [obind]. intros H%watch_slots_grow. split; [done|]. set_solver.
Qed.

Lemma wp_link_up base c fd up Q k :
  linked base (has_on_link (cfg c)) up k -> fd ∉ up ->
  (forall k', account k' = account k -> linked base (has_on_link (cfg c)) ({[fd]} ∪ up) k' -> Q tt k') ->
  wp (mb_tcp_link_call c fd 1) Q k.
Proof.
  intros (ls & Hl & Hw) Hfd HQ. unfold mb_tcp_link_call. destruct (has_on_link _); [|by apply wp_ret, HQ; [|exists ls]].
  apply wp_emit, HQ; [done|]. exists (ls ++ [LinkChanged fd 1]). rewrite links_call, Hl, <- app_assoc. split; [done|].
  rewrite (link_walk_snoc _ _ _ _ Hw). cbn [link_walk Z.eqb]. by rewrite bool_decide_false.
Qed.

Lemma wp_link_down base c fd up Q k :
  linked base (has_on_link (cfg c)) up k -> fd ∈ up ->
  (forall k', account k' = account k -> linked base (has_on_link (cfg c)) (up ∖ {[fd]}) k' -> Q tt k') ->
  wp (mb_tcp_link_call c fd 0) Q k.
Proof.
  intros (ls & Hl & Hw) Hfd HQ. unfold mb_tcp_link_call. destruct (has_on_link _); [|by apply wp_ret, HQ; [|exists ls]].
  apply wp_emit, HQ; [done|]. exists (ls ++ [LinkChanged fd 0]). rewrite links_call, Hl, <- app_assoc. split; [done|].
  rewrite (link_walk_snoc _ _ _ _ Hw). cbn [link_walk Z.eqb]. by rewrite bool_decide_true.
Qed.

Lemma wp_error_call c v Q k : (forall k', quiet k k' -> Q tt k') -> wp (error_call c v) Q k.
Proof. intros HQ. unfold error_call. destruct (has_on_error _); [by apply wp_quiet | by apply wp_ret, HQ]. Qed.

Lemma wp_configure c fd Q k :
  fd ∈ fds k -> (forall k', quiet k k' -> Q tt k') -> wp (configure_client_socket c fd) Q k.
Proof.
  intros Hfd HQ. unfold configure_client_socket. apply wp_bind.
  apply (wp_mono _ (fun _ => quiet k)).
  { destruct (negb _); [|by apply wp_ret]. do 4 (apply wp_bind, wp_ctl; [done|]; intros ? ?). by apply wp_quiet. }
  cbn beta. intros _ k1 Ha. destruct (0 <? _); [|by apply wp_ret, HQ].
  apply wp_bind, wp_ctl; [by destruct Ha as [(-> & _)%account_iff _]|]. intros v l. apply wp_quiet; [done|].
  intros k2 H2. apply HQ. by eapply quiet_trans.
Qed.

Section Slots.
Context (base : kernel) (cap : Z) (on_link : bool).

(** The slots hold exactly the connections reported up, to [on_link] if the
    configuration has it. *)
Definition server_ok (c : mb_tcp_ctx) (k : kernel) : Prop :=
  server_inv base cap c k /\
  (exists up, linked base (has_on_link (cfg c)) up k /\ forall fd, fd ∈ up <-> in_slot c fd) /\
  has_on_link (cfg c) = on_link.

Lemma server_ok_quiet c k k' : server_ok c k -> quiet k k' -> server_ok c k'.
Proof.
  intros (Hi & (up & Hl & Hup) & Hcb) [Ha He]. split; [by eapply inv_account|]. split; [|done].
  exists up. split; [by eapply linked_same | done].
Qed.

Lemma in_slot_drop c k i sd fd :
  server_inv base cap c k -> client_fds c !! i = Some sd -> 0 <= sd ->
  in_slot (set_slot i (-1) c) fd <-> in_slot c fd /\ fd <> sd.
Proof.
  intros Hi Hs Hsd. rewrite in_slot_set by by eapply lookup_lt_Some. split.
  - intros [[_ ?]|(j & Hne & Hj & Hpos)]; [lia|]. split; [by exists j|]. intros ->. apply Hne. by eapply inv_distinct.
  - intros [(j & Hj & Hpos) Hne]. right. exists j. split; [|done]. intros ->. congruence.
Qed.

Lemma in_slot_place c i old sock fd :
  client_fds c !! i = Some old -> old < 0 -> 0 <= sock ->
  in_slot (set_slot i sock c) fd <-> fd = sock \/ in_slot c fd.
Proof.
  intros Hs Hold Hsock. rewrite in_slot_set by by eapply lookup_lt_Some. split.
  - intros [[-> _]|(j & _ & Hj & Hpos)]; [by left|]. right. by exists j.
  - intros [->|(j & Hj & Hpos)]; [by left|]. right. exists j. split; [|done]. intros ->. rewrite Hs in Hj. injection Hj as ->. lia.
Qed.

Lemma drop_client_wp i sd c k :
  server_ok c k -> client_fds c !! i = Some sd -> 0 <= sd ->
  wp (drop_client i sd c) server_ok k.
Proof.
  intros (Hi & (up & Hl & Hup) & Hcb) Hs Hsd. apply wp_bind, wp_close; [by eapply inv_slot_open|].
  apply wp_bind, (wp_link_down base _ _ up); [done | apply Hup; by exists i|]. intros k1 H1 Hl1.
  apply wp_bind, wp_error_call. intros k2 [H2 He2]. apply wp_ret. split; [|split; [|done]].
  - eapply inv_drop; [done..|]. by rewrite H2, H1.
  - eexists. split; [by eapply linked_same|]. intros fd.
    by rewrite elem_of_difference, elem_of_singleton, Hup, in_slot_drop by done.
Qed.

Lemma check_client_wp i c k :
  i ∈ slots c -> server_ok c k -> wp (check_client i c) server_ok k.
Proof.
  intros Hin Hok. pose proof Hok as [Hi _]. destruct (get_slot_run _ _ _ _ _ Hi Hin) as (sd & Hs & Hg).
  eapply wp_bind, wp_lift; [exact Hg|]. destruct (Z.leb_spec 0 sd) as [Hsd|_]; [|by apply wp_ret].
  apply wp_bind, wp_call; [by eapply inv_slot_open|]. intros a l.
  assert (server_ok c (later k l)) as Hok' by by eapply server_ok_quiet.
  destruct (return_value a =? 0); [by apply drop_client_wp | by apply wp_ret].
Qed.

Lemma place_client_run c k sock l :
  server_inv base cap c k -> (forall i, i ∈ l -> i ∈ slots c) ->
  exists r, place_client l sock c = Ok r /\
    forall c', r = Some c' -> exists i old, client_fds c !! i = Some old /\ old < 0 /\ c' = set_slot i sock c.
Proof.
  intros Hi. induction l as [|i l IH]; intros Hl; cbn [place_client]; [by exists None|].
  destruct (get_slot_run _ _ _ _ i Hi) as (sd & Hs & ->); [apply Hl, elem_of_cons; by left|]. cbn [obind].
  destruct (Z.ltb_spec sd 0) as [Hneg|_].
  - eexists. split; [done|]. intros c' [= <-]. by exists i, sd.
  - apply IH. intros j Hj. apply Hl, elem_of_cons. by right.
Qed.

Lemma accept_client_wp c k :
  server_ok c k -> wp (accept_client c) (fun r => server_ok (snd r)) k.
Proof.
  intros Hok. pose proof Hok as (Hi & (up & Hl & Hup) & Hcb). unfold accept_client. apply wp_bind, wp_bind, wp_get.
  rewrite bool_decide_true by by eapply inv_listen_open. apply wp_open.
  - intros l. apply wp_ret. by eapply server_ok_quiet.
  - intros n l Hn Hnew. rewrite (proj2 (Z.ltb_ge n 0)) by done. set (k1 := set_fds _ _).
    assert (forall k', quiet k1 k' -> quiet k (set_fds (fds k' ∖ {[n]}) k')) as Hback.
    { intros k' [Ha He]. split; [|exact He]. apply account_iff in Ha as (Hf & Hlk & Ht & Hb). apply account_iff. cbn in *.
      rewrite Hf, Hlk, Ht, Hb. split_and!; try done. clear -Hnew. set_solver. }
    assert (n ∈ fds k1) as Hopen by (cbn; set_solver).
    destruct (Z.leb_spec FD_SETSIZE n) as [_|Hfit].
    { apply wp_bind, wp_close; [done|]. apply wp_ret. eapply server_ok_quiet; [done|]. by apply Hback. }
    apply wp_bind, wp_configure; [done|]. intros k2 H2.
    destruct (place_client_run c k n (slots c) Hi ltac:(done)) as (r & Hr & Hplace).
    eapply wp_bind, wp_lift; [exact Hr|]. destruct r as [c'|].
    + destruct (Hplace c' eq_refl) as (i & old & Hs & Hold & ->).
      assert (n ∉ up) as Hfree by (intros Hin; apply Hnew, (inv_fds _ _ _ _ Hi); right; right; by apply Hup).
      apply wp_bind, (wp_link_up base _ _ up); [by eapply linked_same; [|apply H2] | done|]. intros k3 H3 Hl3.
      apply wp_bind, wp_error_call. intros k4 [H4 He4]. apply wp_ret. cbn [snd]. split; [|split; [|done]].
      * eapply inv_place; [done | done | done | lia | done|]. destruct H2 as [H2 _]. by rewrite H4, H3, H2.
      * eexists. split; [by eapply linked_same|]. intros fd.
        by rewrite elem_of_union, elem_of_singleton, Hup, in_slot_place by done.
    + apply wp_bind, wp_close; [by destruct H2 as [(-> & _)%account_iff _]|]. apply wp_ret.
      eapply server_ok_quiet; [done|]. by apply Hback.
Qed.

(** Over all slots. *)
Lemma all_slots_wp {S} (f : nat -> mb_tcp_ctx -> st S mb_tcp_ctx) (P : mb_tcp_ctx -> S -> Prop) c s :
  (forall c s, P c s -> client_cap c = cap) ->
  (forall i c s, i ∈ slots c -> P c s -> wp (f i c) P s) -> P c s -> wp (each_slot f (slots c) c) P s.
Proof.
  intros Hcap Hf Hc. apply (each_slot_wp f (slots c) P); [|done]. intros i c' s' Hi Hc'. apply Hf; [|done].
  rewrite (slots_cap c c'); [done|]. by rewrite (Hcap _ _ Hc), (Hcap _ _ Hc').
Qed.

(** Select watches the listening socket and the occupied slots. *)
Lemma watch_slots_run c k l : forall s,
  server_inv base cap c k -> (forall i, i ∈ l -> i ∈ slots c) ->
  exists s', watch_slots c l s = Ok s' /\
    forall fd, fd ∈ s' <-> fd ∈ s \/ exists i, i ∈ l /\ client_fds c !! i = Some fd /\ 0 <= fd.
Proof.
  induction l as [|i l IH]; intros s Hi Hl; cbn [watch_slots].
  { exists s. split; [done|]. intros fd. split; [by left|]. intros [?|(i & Hin & _)]; [done | by apply not_elem_of_nil in Hin]. }
  destruct (get_slot_run _ _ _ _ i Hi) as (sd & Hs & ->); [apply Hl, elem_of_cons; by left|]. cbn [obind].
  assert (exists s1, (if 0 <=? sd then fd_set_add sd s else Ok s) = Ok s1 /\
    forall fd, fd ∈ s1 <-> fd ∈ s \/ (client_fds c !! i = Some fd /\ 0 <= fd)) as (s1 & -> & H1).
  { unfold fd_set_add. rewrite Hs. destruct (Z.leb_spec 0 sd) as [Hsd|Hsd].
    - destruct (inv_slots _ _ _ _ Hi i sd Hs Hsd) as (Hlt & _). rewrite (proj2 (Z.ltb_lt _ _)) by done.
      eexists. split; [done|]. intros fd. rewrite elem_of_union, elem_of_singleton. split.
      + intros [->|?]; [by right | by left].
      + intros [?|[[= ->] _]]; [by right | by left].
    - exists s. split; [done|]. intros fd. split; [by left|]. intros [?|[[= ->] ?]]; [done | lia]. }
  cbn [obind]. destruct (IH s1 Hi) as (s2 & -> & H2); [intros j Hj; apply Hl, elem_of_cons; by right|].
  exists s2. split; [done|]. intros fd. rewrite H2, H1. split.
  - intros [[?|[? ?]]|(j & Hj & ? & ?)]; [by left|right; exists i|right; exists j]; (split; [|done]); apply elem_of_cons; auto.
  - intros [?|(j & [->|Hj]%elem_of_cons & ? & ?)]; [by left; left | by left; right | right; by exists j].
Qed.

Lemma watched_run c k :
  server_inv base cap c k ->
  exists s, watched c = Ok s /\ s ⊆ fds k /\ forall fd, fd ∈ s <-> fd = listen_sock c \/ in_slot c fd.
Proof.
  intros Hi. destruct (inv_listen _ _ _ _ Hi) as [[Hl0 Hl1] _].
  destruct (watch_slots_run c k (slots c) ({[listen_sock c]} ∪ ∅) Hi ltac:(done)) as (s & Hrun & Hs).
  assert (forall fd, fd ∈ s <-> fd = listen_sock c \/ in_slot c fd) as Hs'.
  { intros fd. rewrite Hs, elem_of_union, elem_of_singleton, elem_of_empty. unfold in_slot. split.
    - intros [[?|?]|(i & _ & ?)]; [by left | done | right; by exists i].
    - intros [?|(i & Hsl & ?)]; [by left; left|]. right. exists i. split; [|done]. apply slots_elem.
      destruct (inv_cap _ _ _ _ Hi) as [-> <-]. by eapply lookup_lt_Some. }
  exists s. split; [|split; [|done]].
  - unfold watched, fd_set_add. by rewrite (proj2 (Z.leb_le _ _)), (proj2 (Z.ltb_lt _ _)) by done.
  - intros fd Hfd. apply (inv_fds _ _ _ _ Hi). apply Hs' in Hfd. tauto.
Qed.
End Slots.

Section Round.
Context {U : Type} (on_process : Z -> st U Z) (J : U -> Prop).
Hypothesis process_keeps : forall fd u, J u -> wp (on_process fd) (fun _ => J) u.
Context (base : kernel) (cap : Z) (on_link : bool).

(** With the state of [on_process]. *)
Definition thread_inv (c : mb_tcp_ctx) (s : kernel * U) : Prop := server_ok base cap on_link c (fst s) /\ J (snd s).

Lemma on_kernel_wp {A} (m : st kernel A) (f : A -> mb_tcp_ctx) k u :
  J u -> wp m (fun a => server_ok base cap on_link (f a)) k -> wp (on_fst m) (fun a => thread_inv (f a)) (k, u).
Proof.
  intros Hu Hm. apply wp_on_fst. eapply wp_mono; [done|]. cbn beta. done.
Qed.

Lemma serve_client_wp readfds i c s :
  i ∈ slots c -> thread_inv c s -> wp (serve_client on_process readfds i c) thread_inv s.
Proof.
  destruct s as [k u]. intros Hin [Hok Hu]. cbn [fst snd] in *. pose proof Hok as [Hi _].
  destruct (get_slot_run _ _ _ _ _ Hi Hin) as (sd & Hs & Hg).
  eapply wp_bind, wp_lift; [exact Hg|]. destruct (Z.leb_spec 0 sd) as [Hsd|_]; [|by apply wp_ret].
  cbn [andb]. destruct (bool_decide _); [|by apply wp_ret]. destruct (has_on_process _); [|by apply wp_ret].
  apply wp_bind, wp_on_snd. eapply wp_mono; [by apply process_keeps|]. cbn beta. intros rc u' Hu'.
  destruct (rc <? 0); [|by apply wp_ret]. apply (on_kernel_wp _ (fun c => c)); [done|]. by apply drop_client_wp.
Qed.

Lemma thread_cap c s : thread_inv c s -> client_cap c = cap.
Proof. by intros [[[[Hc _] _ _ _ _ _] _] _]. Qed.

Lemma serve_ready_wp readfds c s : thread_inv c s -> wp (serve_ready on_process readfds c) thread_inv s.
Proof.
  intros Hi. unfold serve_ready. apply wp_bind. apply (wp_mono _ (fun r => thread_inv (snd r))).
  - destruct (_ && _); [|by apply wp_ret]. destruct s as [k u], Hi as [Hi Hu].
    apply (on_kernel_wp _ snd); [done|]. by apply accept_client_wp.
  - intros [continue c'] s' Hi'. cbn [snd] in Hi'. destruct continue; [|by apply wp_ret].
    apply (all_slots_wp cap); [by apply thread_cap | by intros ? ? ? ? ?; apply serve_client_wp | done].
Qed.
Lemma server_round_wp sel c s : thread_inv c s -> wp (server_round on_process sel c) thread_inv s.
Proof.
  intros Hi. pose proof Hi as [[Hk Hl] Hu]. destruct s as [k u]. cbn [fst snd] in *.
  destruct (watched_run base cap c k Hk) as (readfds & Hw & Hopen & _).
  eapply wp_bind, wp_lift; [exact Hw|]. apply wp_bind, wp_get. rewrite bool_decide_true by done. cbn [negb].
  destruct sel as [l|e].
  - destruct (bool_decide _); [|by apply serve_ready_wp]. apply (on_kernel_wp _ (fun c => c)); [done|].
    apply (all_slots_wp cap); [by intros ? ? [[[? _] _ _ _ _ _] _] | by apply check_client_wp | done].
  - destruct (bool_decide _); [by apply serve_ready_wp | by apply wp_ret].
Qed.

Lemma server_thread_wp rounds c s :
  thread_inv c s -> wp (mb_tcp_server_thread on_process rounds c) (fun r => thread_inv (snd r)) s.
Proof.
  revert c s. induction rounds as [|[running sel] rounds IH]; intros c s Hi; cbn [mb_tcp_server_thread]; [by apply wp_ret|].
  destruct (running =? 0); [by apply wp_ret|]. apply wp_bind. eapply wp_mono; [by apply server_round_wp|].
  cbn beta. intros c' s' Hi'. by apply IH.
Qed.
End Round.
