(* ===== verification/TcpPortSpec.v ===== *)
(** * What connecting, starting and stopping do to the process *)

From stdpp Require Import gmap strings.
From S2P Require Import Prelude Buffer Defines Pdu PduSpec PduClient Ptr Tcp Sys Keeps TcpServer TcpClient Kernel TcpPort TcpThread TcpThreadSpec.

(** ** Connecting *)

(** The kernel hands out descriptors that fit a [fd_set]. *)
Definition small_answer (a : Z + errno) : Prop := match a with inl n => n < FD_SETSIZE | inr _ => True end.
Definition small (k : kernel) : Prop := Forall small_answer (answers k).

(** What a connection attempt shows: the timeouts, then the connection itself. *)
Definition attempt (n : Z) (host : option string) (port timeout_sec : Z) : list event :=
  let timeout_sec := if timeout_sec =? 0 then 5 else timeout_sec in
  [SendTimeoutSet n timeout_sec 0; RecvTimeoutSet n timeout_sec 0; NonBlocking n; Connecting n host port].

(** A connection: one more descriptor, in blocking mode; or nothing. *)
Definition connect_outcome (k : kernel) (shown : Z -> list event) (r : Z * option Z) (k' : kernel) : Prop :=
  (fst r < 0 /\ snd r = Some (-1) /\ account k' = account k) \/
  exists n, r = (0, Some n) /\ fits n /\ n ∉ fds k /\ account k' = account (set_fds ({[n]} ∪ fds k) k) /\
    events k' = events k ++ shown n ++ [BlockingAgain n].

(** [k'] has the new descriptor [n] on top of [k]. *)
Definition socket_up (k : kernel) (n : Z) (k' : kernel) : Prop :=
  n ∉ fds k /\ account k' = account (set_fds ({[n]} ∪ fds k) k).

Lemma socket_up_in k n k' : socket_up k n k' -> n ∈ fds k'.
Proof. intros [_ Ha]. apply account_iff in Ha as (-> & _). cbn. set_solver. Qed.

Lemma socket_up_account k n k1 k2 : socket_up k n k1 -> account k2 = account k1 -> socket_up k n k2.
Proof. intros [Hn Ha] H2. split; [done|]. by rewrite H2. Qed.

Lemma socket_down k n k' : socket_up k n k' -> account (set_fds (fds k' ∖ {[n]}) k') = account k.
Proof.
  intros [Hn Ha]. apply account_iff in Ha as (Hf & Hl & Ht & Hb). apply account_iff. cbn in *. rewrite Hf, Hl, Ht, Hb.
  split_and!; try done. clear -Hn. set_solver.
Qed.

Lemma connect_failed_wp k shown n k' : socket_up k n k' -> wp (connect_failed n) (connect_outcome k shown) k'.
Proof.
  intros Hu. apply wp_bind, wp_close; [by eapply socket_up_in|]. apply wp_ret. left. split; [done|]. split; [done|].
  by apply socket_down.
Qed.

Lemma connection_made_wp k n k' es :
  socket_up k n k' -> fits n -> events k' = es ->
  wp (connection_made n) (fun _ k'' => socket_up k n k'' /\ events k'' = es) k'.
Proof.
  intros Hu [H0 H1] He. pose proof (socket_up_in _ _ _ Hu) as Hin. unfold connection_made, fd_set_add.
  rewrite (proj2 (Z.leb_le _ _)), (proj2 (Z.ltb_lt _ _)) by done. eapply wp_bind, wp_lift; [done|].
  apply wp_bind, wp_call; [done|]. intros a l. destruct (0 <? _); [|by apply wp_ret].
  apply wp_bind, wp_call; [done|]. intros e l2. by apply wp_ret.
Qed.

Lemma connect_socket_wp k shown n k' :
  socket_up k n k' -> fits n -> events k' = events k ++ shown n ->
  wp (connect_socket n) (connect_outcome k shown) k'.
Proof.
  intros Hu Hn He. unfold connect_socket. pose proof (socket_up_in _ _ _ Hu) as Hin.
  assert (forall k1, socket_up k n k1 -> events k1 = events k ++ shown n ->
    wp (sys_ctl n ;;; emit (BlockingAgain n) ;;; ret (0, Some n)) (connect_outcome k shown) k1) as Hdone.
  { intros k1 Hu1 He1. apply wp_bind, wp_ctl; [by eapply socket_up_in|]. intros v l. apply wp_bind, wp_emit, wp_ret.
    right. exists n. destruct Hu1 as [Hfr Ha]. do 4 (split; [done|]). cbn. by rewrite He1, <- app_assoc. }
  apply wp_bind, wp_call; [done|]. intros rc l. destruct (return_value rc <? 0); [|by apply Hdone].
  apply wp_bind. destruct (bool_decide _).
  - eapply wp_mono; [by apply (connection_made_wp k n (later k' l) (events k ++ shown n))|].
    cbn beta. intros [] k1 [Hu1 He1]; [by apply Hdone | by apply connect_failed_wp].
  - by apply wp_ret, connect_failed_wp.
Qed.

Lemma tcp_connect_wp iface host port timeout k :
  (forall n l, answers k = inl n :: l -> n < FD_SETSIZE) ->
  wp (mb_tcp_connect (Some (-1)) iface host port timeout)
    (connect_outcome k (fun n => attempt n host port timeout)) k.
Proof.
  intros Hsmall. unfold mb_tcp_connect, attempt. set (t := if timeout =? 0 then 5 else timeout). cbv zeta.
  destruct (_ || _); [apply wp_ret; left; by split_and!|].
  apply wp_bind, wp_open_next; [intros a l _; apply wp_ret; left; by split_and!|].
  intros n l Heq Hn Hfr. rewrite (proj2 (Z.ltb_ge _ _)) by done.
  assert (fits n) as Hfit by (split; [done | by eapply Hsmall]). set (k1 := set_fds _ _).
  assert (socket_up k n k1) as Hu by (split; done). assert (n ∈ fds k1) as Hin by by eapply socket_up_in.
  apply wp_bind, wp_ctl; [done|]. intros v1 l1. destruct (v1 <? 0); [by apply connect_failed_wp|].
  apply wp_bind, wp_emit. apply wp_bind, wp_ctl; [done|]. intros v2 l2. destruct (v2 <? 0); [by apply connect_failed_wp|].
  apply wp_bind, wp_emit, wp_bind. set (k2 := add_event _ _).
  apply (wp_mono _ (fun _ k' => exists l', k' = later k2 l')).
  { destruct (empty_host iface); [by apply wp_ret; eexists|]. apply wp_ctl; [done|]. intros v l'. by eexists. }
  cbn beta. intros v3 k3 [l3 ->]. destruct (v3 <? 0); [by apply connect_failed_wp|].
  apply wp_bind, wp_ctl; [done|]. intros v4 l4. destruct (v4 <? 0); [by apply connect_failed_wp|].
  apply wp_bind, wp_answer. intros parsed l5. destruct (return_value parsed <=? 0); [by apply connect_failed_wp|].
  apply wp_bind, wp_ctl; [done|]. intros flags l6. apply wp_bind, wp_ctl; [done|]. intros v7 l7.
  apply wp_bind, wp_emit, wp_bind, wp_emit. apply connect_socket_wp; [done | done|]. cbn. by rewrite <- !app_assoc.
Qed.

(** ** The connection of a client *)

(** What a client holds after [mb_tcp_client_connect]: a new socket [n] and a
    mutex; disconnecting gives both back. *)
Definition connected_client (cfg : mb_tcp_client_config) (k : kernel) (n : Z) (r : Z * option mb_tcp_client_ctx)
    (k' : kernel) : Prop :=
  let sec := if negb (cli_connect_timeout_sec cfg =? 0) then cli_connect_timeout_sec cfg else DEFAULT_CONNECT_TIMEOUT_SEC in
  let ms := if negb (cli_response_timeout_ms cfg =? 0) then cli_response_timeout_ms cfg else DEFAULT_RESPONSE_TIMEOUT_MS in
  r = (0, Some (CliCtx n 0 1 cfg)) /\ fits n /\ n ∉ fds k /\
  account k' = account (add_locks 1 (set_fds ({[n]} ∪ fds k) k)) /\
  events k' = events k ++ attempt n (cli_remote_host cfg) (cli_port cfg) sec ++
    [BlockingAgain n; RecvTimeoutSet n (ms / 1000) (ms mod 1000 * 1000)].

Lemma tcp_client_connect_wp c cfg k :
  cli_initialized c = 0 -> 0 <= locks k ->
  (forall a n l, answers k = a :: inl n :: l -> n < FD_SETSIZE) ->
  wp (mb_tcp_client_connect (Some c) (Some cfg)) (fun r k1 =>
    (exists n, connected_client cfg k n r k1) \/
    (fst r = -1 /\ account k1 = account k /\ exists c', snd r = Some c' /\ cli_initialized c' = 0)) k.
Proof.
  intros Hi Hlk Hsmall. unfold mb_tcp_client_connect. rewrite Hi. cbn [Z.eqb negb].
  destruct (_ || _); [apply wp_ret; right; eauto|].
  apply wp_bind, wp_acquire_next; intros a l E; cbn [Z.eqb negb]; [apply wp_ret; right; eauto|].
  apply wp_bind. eapply wp_mono.
  { apply tcp_connect_wp. intros n l' E'. cbn in E'. subst l. by eapply Hsmall. }
  cbn beta. intros [rc sock] k1 [(Hrc & Hs & Ha)|(n & [= -> ->] & Hn & Hfr & Ha & He)]; cbn [fst snd] in *.
  - rewrite (proj2 (Z.eqb_neq rc 0)) by lia. cbn [negb].
    apply account_iff in Ha as (Hf & Hl & Ht & Hb). cbn in Hf, Hl, Ht, Hb.
    apply wp_bind, wp_release; [lia|]. apply wp_ret. right. split; [done|]. split; [|by eexists].
    apply account_iff. cbn. split_and!; try done. lia.
  - cbn [Z.eqb negb default from_option id set_sock cli_sock].
    apply account_iff in Ha as (Hf & Hl & Ht & Hb). cbn in Hf, Hl, Ht, Hb, Hfr, He.
    apply wp_bind, wp_ctl; [rewrite Hf; set_solver|]. intros v l2. apply wp_bind, wp_emit, wp_ret. left. exists n.
    split; [done|]. split; [done|]. split; [done|]. split; [apply account_iff; cbn; by rewrite Hf, Hl|].
    cbn. by rewrite He, <- !app_assoc.
Qed.

(** Disconnecting with the socket still there: nothing is waited for. *)
Lemma tcp_client_disconnect_run c k k1 :
  cli_initialized c <> 0 -> 0 <= locks k -> 0 <= cli_sock c -> cli_sock c ∉ fds k ->
  account k1 = account (add_locks 1 (set_fds ({[cli_sock c]} ∪ fds k) k)) ->
  exists k2, mb_tcp_client_disconnect (Some c) k1 = Ok (Some (set_cli_initialized 0 (set_sock (-1) c)), k2) /\
    account k2 = account k /\ events k2 = events k1 ++ [ShutDown (cli_sock c)].
Proof.
  intros Hi Hlk Hs Hfr Ha. apply account_iff in Ha as (Hf & Hl & Ht & Hb). cbn in Hf, Hl, Ht, Hb.
  unfold mb_tcp_client_disconnect. rewrite (proj2 (Z.eqb_neq _ _)) by done. unfold mb_tcp_close.
  rewrite (proj2 (Z.leb_le _ _)) by done. unfold bind, sys_shutdown, sys_close, mutex_destroy, release, ret.
  rewrite bool_decide_true by (rewrite Hf; set_solver). cbn [fds add_event].
  rewrite bool_decide_true by (rewrite Hf; set_solver). cbn [locks set_fds add_event].
  rewrite (proj2 (Z.ltb_lt _ _)) by lia. eexists. split; [done|]. split; [|done].
  apply account_iff. cbn. split_and!; [rewrite Hf; clear -Hfr; set_solver | lia | done | done].
Qed.

Lemma tcp_client_disconnect_wp c k k1 :
  cli_initialized c <> 0 -> 0 <= locks k -> 0 <= cli_sock c -> cli_sock c ∉ fds k ->
  account k1 = account (add_locks 1 (set_fds ({[cli_sock c]} ∪ fds k) k)) ->
  wp (mb_tcp_client_disconnect (Some c)) (fun ctx k2 =>
    ctx = Some (set_cli_initialized 0 (set_sock (-1) c)) /\
    account k2 = account k /\ events k2 = events k1 ++ [ShutDown (cli_sock c)]) k1.
Proof.
  intros Hi Hlk Hs Hfr Ha. destruct (tcp_client_disconnect_run c k k1 Hi Hlk Hs Hfr Ha) as (k2 & Hrun & H2).
  unfold wp. by rewrite Hrun.
Qed.

Lemma tcp_client_disconnect_closed_wp c k k1 :
  cli_initialized c <> 0 -> 0 <= locks k -> cli_sock c < 0 -> account k1 = account (add_locks 1 k) ->
  wp (mb_tcp_client_disconnect (Some c)) (fun ctx k2 =>
    ctx = Some (set_cli_initialized 0 c) /\ account k2 = account k /\ events k2 = events k1) k1.
Proof.
  intros Hi Hlk Hs Ha. apply account_iff in Ha as (Hf & Hl & Ht & Hb). cbn in Hf, Hl, Ht, Hb.
  unfold mb_tcp_client_disconnect. rewrite (proj2 (Z.eqb_neq _ _)) by done. unfold mb_tcp_close.
  rewrite (proj2 (Z.leb_gt _ _)) by done. apply wp_bind, wp_ret.
  apply wp_bind, wp_release; [lia|]. apply wp_ret. split; [by destruct c|]. split; [|done].
  apply account_iff. cbn. split_and!; [done | lia | done | done].
Qed.

(** ** What the calls keep *)

(** What [keeps] keeps can be added to a postcondition. *)
Lemma wp_keeps {S A} (P : S -> Prop) (m : st S A) Q s :
  keeps P m -> P s -> wp m Q s -> wp m (fun a s' => Q a s' /\ P s') s.
Proof.
  intros Hk Hs. unfold wp. destruct (m s) as [[a s']|] eqn:E; [|done]. intros HQ. split; [done|]. by apply (Hk s a s').
Qed.

(** It depends on the callbacks so far and on the answers to come, of which
    some may go. *)
Class Stable (J : kernel -> Prop) : Prop :=
  stable : forall k k' l, J k -> links k' = links k -> answers k = l ++ answers k' -> J k'.

#[export] Instance small_stable : Stable small.
Proof. intros k k' l Hk _ Ha. unfold small in *. rewrite Ha in Hk. by apply Forall_app in Hk as [_ Hk]. Qed.

#[export] Instance links_stable L : Stable (fun k => links k = L).
Proof. intros k k' l <- Hl _. exact Hl. Qed.

Section Stable.
Context (J : kernel -> Prop) `{!Stable J}.

Lemma keeps_answer : keeps J answer.
Proof.
  intros k a k' Hk. unfold answer. destruct (answers k) as [|b l] eqn:E; [done|]. intros [= <- <-].
  by apply (stable k _ [b]).
Qed.

Lemma keeps_update (f : kernel -> kernel) : (forall k, links (f k) = links k /\ answers (f k) = answers k) ->
  forall k, J k -> J (f k).
Proof. intros Hf k Hk. destruct (Hf k) as [Hl Ha]. by apply (stable k _ []). Qed.

Lemma keeps_open : keeps J sys_open.
Proof.
  intros k n k' Hk. unfold sys_open, bind. destruct (answer k) as [[a k1]|] eqn:E; [|done].
  apply keeps_answer in E; [|done]. unfold get, put, ret. destruct a; [case_bool_decide|]; intros [= _ <-]; [|done..].
  by apply (keeps_update (fun k => set_fds _ k)).
Qed.

Lemma keeps_acquire add : (forall k, links (add 1 k) = links k /\ answers (add 1 k) = answers k) -> keeps J (acquire add).
Proof.
  intros Hadd k n k' Hk. unfold acquire, bind. destruct (answer k) as [[a k1]|] eqn:E; [|done].
  apply keeps_answer in E; [|done]. unfold get, put, ret. destruct (_ =? 0); intros [= _ <-]; [|done].
  by apply (keeps_update (add 1)).
Qed.

Lemma keeps_release count add : (forall k, links (add (-1) k) = links k /\ answers (add (-1) k) = answers k) -> keeps J (release count add).
Proof. intros Hadd k n k' Hk. unfold release. destruct (_ <? _); [|done]. intros [= _ <-]. by apply (keeps_update (add (-1))). Qed.

Lemma keeps_call fd : keeps J (sys_call fd).
Proof. intros k a k' Hk. unfold sys_call, bind, get. case_bool_decide; [|done]. by apply keeps_answer. Qed.

Lemma keeps_ctl fd : keeps J (sys_ctl fd).
Proof. apply keeps_bind; [apply keeps_call | intros; apply keeps_ret]. Qed.

Lemma keeps_close fd : keeps J (sys_close fd).
Proof.
  intros k a k' Hk. unfold sys_close. case_bool_decide; [|done]. intros [= _ <-]. by apply (keeps_update (fun k => set_fds _ k)).
Qed.

Lemma keeps_emit e : is_link e = false -> keeps J (emit e).
Proof. intros He k a k' Hk [= _ <-]. apply (stable k _ []); [done | by apply quiet_event | done]. Qed.

Lemma keeps_shutdown fd : keeps J (sys_shutdown fd).
Proof. intros k a k' Hk. unfold sys_shutdown. case_bool_decide; [|done]. intros E. by eapply (keeps_emit (ShutDown fd)). Qed.

Lemma keeps_kernel_calls : keeps J mutex_init /\ keeps J mutex_destroy /\ keeps J thread_create /\ keeps J thread_join /\
  keeps J heap_alloc /\ keeps J heap_free.
Proof. repeat split; (apply keeps_acquire || apply keeps_release); done. Qed.
End Stable.

#[export] Hint Resolve keeps_answer keeps_open keeps_call keeps_ctl keeps_close keeps_shutdown : keeps.
#[export] Hint Extern 0 (Stable _) => apply _ : keeps.
#[export] Hint Extern 1 (keeps _ (emit _)) => (apply keeps_emit; [apply _ | reflexivity]) : keeps.
#[export] Hint Extern 1 (keeps _ (_ : st kernel _)) => (apply keeps_kernel_calls; apply _) : keeps.

Lemma keeps_each_slot {S A} (J : S -> Prop) (f : nat -> A -> st S A) l : (forall i a, keeps J (f i a)) ->
  forall a, keeps J (each_slot f l a).
Proof. intros Hf. induction l as [|i l IH]; intros a; cbn [each_slot]; [apply keeps_ret|]. by apply keeps_bind. Qed.

Section Quiet.
Context (J : kernel -> Prop) `{!Stable J}.

Lemma keeps_connect v iface host port timeout : keeps J (mb_tcp_connect v iface host port timeout).
Proof. unfold mb_tcp_connect, connect_socket, connection_made, connect_failed. keep. Qed.

Lemma keeps_start ctx config : keeps J (mb_tcp_start ctx config).
Proof. unfold mb_tcp_start, make_slots, launch_server, launch_client, mb_tcp_listen_init, close_listen_sock, free_slots. keep. Qed.

Lemma keeps_stop_request c : keeps J (stop_request c).
Proof. unfold stop_request. keep. apply keeps_each_slot. keep. Qed.

Lemma keeps_stop_release c : keeps J (stop_release c).
Proof. unfold stop_release, close_listen_sock, free_slots. keep. apply keeps_each_slot. keep. Qed.

Lemma keeps_retry n flags : keeps J (retry_pause n flags).
Proof. revert flags. induction n; intros flags; cbn [retry_pause]; keep. Qed.
End Quiet.

(** ** Starting a server *)

(** The third call of a start, after the one for the slots and the one for the
    mutex, opens the listening socket: its number fits a [fd_set]. *)
Definition listen_fits (k : kernel) : Prop := forall a b n l, answers k = a :: b :: inl n :: l -> n < FD_SETSIZE.

Definition server_cap (config : mb_tcp_config) : Z := u16 (value_or_default (max_clients config) MB_TCP_DEFAULT_MAX_CLIENTS).

Definition sane_base (k : kernel) : Prop := 0 <= locks k /\ 0 <= threads k /\ 0 <= blocks k.

(** A server has started: [server_inv] and empty slots; or nothing is held. *)
Definition server_started (base : kernel) (config : mb_tcp_config) (r : Z * option mb_tcp_ctx) (k : kernel) : Prop :=
  exists c, snd r = Some c /\
    ((fst r = -1 /\ initialized c = 0 /\ account k = account base) \/
     (fst r = 0 /\ server_inv base (server_cap config) c k /\ cfg c = cfg (fresh_ctx config) /\
      client_fds c = replicate (Z.to_nat (server_cap config)) (-1))).

(** Slots, mutex and listening socket [n] are there. *)
Definition listening (base : kernel) (cap n : Z) (c : mb_tcp_ctx) (k : kernel) : Prop :=
  listen_sock c = n /\ 0 <= n /\ n ∉ fds base /\ stream_sock c = -1 /\ initialized c = 0 /\
  client_cap c = cap /\ client_fds c = replicate (Z.to_nat cap) (-1) /\
  account k = account (add_blocks 1 (add_locks 1 (set_fds ({[n]} ∪ fds base) base))).

Lemma listening_open base cap n c k : listening base cap n c k -> listen_sock c ∈ fds k.
Proof. intros (-> & _ & _ & _ & _ & _ & _ & Ha). apply account_iff in Ha as (-> & _). cbn. set_solver. Qed.

(** The slots and the mutex are given back. *)
Lemma give_up_wp base cap c k :
  sane_base base -> 0 < cap -> client_fds c = replicate (Z.to_nat cap) (-1) -> initialized c = 0 ->
  account k = account (add_blocks 1 (add_locks 1 base)) ->
  wp (free_slots c ;;; mutex_destroy ;;; ret (-1, set_client_fds [] (client_cap c) c))
    (fun r k' => fst r = -1 /\ initialized (snd r) = 0 /\ account k' = account base) k.
Proof.
  intros (Hlk & _ & Hbk) Hcap Hc Hi Ha. apply account_iff in Ha as (Hf & Hl & Ht & Hb). cbn in Hf, Hl, Ht, Hb.
  unfold free_slots. rewrite Hc. destruct (Z.to_nat cap) as [|m] eqn:E; [lia|]. cbn [replicate].
  apply wp_bind, wp_release; [lia|]. apply wp_bind, wp_release; [cbn; lia|]. apply wp_ret.
  split_and!; try done. apply account_iff. cbn. split_and!; [done | lia | lia | lia].
Qed.

Lemma close_listen_account base cap n c k : listening base cap n c k ->
  account (set_fds (fds k ∖ {[listen_sock c]}) k) = account (add_blocks 1 (add_locks 1 base)).
Proof.
  intros (-> & _ & Hn & _ & _ & _ & _ & Ha). apply account_iff in Ha as (Hf & Hl & Ht & Hb). apply account_iff.
  cbn in *. rewrite Hf, Hl, Ht, Hb. split_and!; try done. clear -Hn. set_solver.
Qed.

(** [mb_tcp_listen_init]: listening, or the slots and the mutex only. *)
Definition listen_outcome (base : kernel) (cap : Z) (r : Z * mb_tcp_ctx) (k : kernel) : Prop :=
  (fst r = 0 /\ listening base cap (listen_sock (snd r)) (snd r) k /\ listen_sock (snd r) < FD_SETSIZE) \/
  (fst r = -1 /\ listen_sock (snd r) = -1 /\ initialized (snd r) = 0 /\
   client_fds (snd r) = replicate (Z.to_nat cap) (-1) /\ account k = account (add_blocks 1 (add_locks 1 base))).

Lemma listen_init_wp base cap c k :
  client_cap c = cap -> client_fds c = replicate (Z.to_nat cap) (-1) -> stream_sock c = -1 -> initialized c = 0 ->
  account k = account (add_blocks 1 (add_locks 1 base)) ->
  (forall n l, answers k = inl n :: l -> n < FD_SETSIZE) ->
  wp (mb_tcp_listen_init c) (fun r k' => listen_outcome base cap r k' /\ cfg (snd r) = cfg c) k.
Proof.
  intros Hcap Hfds Hst Hi Ha Hsmall. pose proof Ha as Ha'. apply account_iff in Ha' as (Hf & Hl & Ht & Hb). cbn in Hf, Hl, Ht, Hb.
  apply wp_bind, wp_open_next; cbn [set_listen_sock listen_sock].
  { intros a l _. apply wp_ret. split; [|done]. right. by split_and!. }
  intros n l Heq Hn Hfr. rewrite (proj2 (Z.ltb_ge _ _)) by done. specialize (Hsmall n l Heq).
  set (k1 := set_fds _ _). set (c1 := set_listen_sock n c).
  assert (listening base cap n c1 k1) as Hlis.
  { split_and!; try done; [by rewrite <- Hf|]. apply account_iff. cbn. rewrite Hf. split_and!; [done | lia..]. }
  assert (forall k2, account k2 = account k1 -> wp (let! c := close_listen_sock c1 in ret (-1, c))
    (fun r k' => listen_outcome base cap r k' /\ cfg (snd r) = cfg c) k2) as Hfail.
  { intros k2 H2. assert (listening base cap n c1 k2) as Hl2 by (unfold listening in *; by rewrite H2).
    apply wp_bind, wp_bind, wp_close; [by eapply listening_open|]. apply wp_ret, wp_ret. split; [|done]. right.
    do 4 (split; [done|]). by apply (close_listen_account base cap n). }
  assert (n ∈ fds k1) as Hin by (cbn; set_solver).
  apply wp_bind, wp_ctl; [done|]. intros v1 l1. destruct (v1 <? 0); [by apply Hfail|].
  apply wp_bind, wp_ctl; [done|]. intros v2 l2. destruct (v2 <? 0); [by apply Hfail|].
  apply wp_bind, wp_emit, wp_bind, wp_ctl; [done|]. intros v3 l3. destruct (v3 <? 0); [by apply Hfail|].
  apply wp_bind, wp_emit, wp_ret. split; [|done]. by left.
Qed.

(** The thread is created: the invariant holds. *)
Lemma listening_started base cap n c k k' :
  0 < cap -> n < FD_SETSIZE -> listening base cap n c k -> account k' = account (add_threads 1 k) ->
  server_inv base cap (set_initialized 1 c) k'.
Proof.
  intros Hcap Hfit (Hn & Hpos & Hfr & Hst & _ & Hc & Hfds & Ha) Ha'.
  apply account_iff in Ha as (Hf & Hl & Ht & Hb). apply account_iff in Ha' as (Hf' & Hl' & Ht' & Hb'). cbn in *.
  assert (forall i sd, client_fds c !! i = Some sd -> sd = -1) as Hfree
    by (intros i sd; rewrite Hfds; by intros [-> _]%lookup_replicate).
  split; cbn [client_cap client_fds listen_sock stream_sock initialized set_initialized].
  - split; [done|]. by rewrite Hfds, length_replicate.
  - unfold fits. rewrite Hn. done.
  - intros i sd Hsd. apply Hfree in Hsd as ->. lia.
  - intros i j sd Hsd. apply Hfree in Hsd as ->. lia.
  - intros fd. rewrite Hf', Hf, Hn, elem_of_union, elem_of_singleton. unfold in_slot. cbn. split; [tauto|].
    intros [?|[?|(i & Hsd & ?)]]; [tauto | tauto|]. apply Hfree in Hsd as ->. lia.
  - split_and!; [done | done | lia..].
Qed.

Lemma launch_server_wp base config c k :
  sane_base base -> 0 < server_cap config -> client_cap c = server_cap config ->
  client_fds c = replicate (Z.to_nat (server_cap config)) (-1) -> stream_sock c = -1 -> initialized c = 0 ->
  cfg c = cfg (fresh_ctx config) -> account k = account (add_blocks 1 (add_locks 1 base)) ->
  (forall n l, answers k = inl n :: l -> n < FD_SETSIZE) ->
  wp (launch_server c) (fun r k' => server_started base config (fst r, Some (snd r)) k') k.
Proof.
  intros Hb Hcap Hc Hfds Hst Hi Hcfg Ha Hsmall. apply wp_bind.
  eapply wp_mono; [by apply (listen_init_wp base (server_cap config))|]. cbn beta. intros [rc c1] k1 [Hout Hcfg1].
  unfold listen_outcome in Hout. cbn [fst snd] in *. assert (forall c2 k2, client_fds c2 = replicate (Z.to_nat (server_cap config)) (-1) -> initialized c2 = 0 ->
    account k2 = account (add_blocks 1 (add_locks 1 base)) ->
    wp (free_slots c2 ;;; mutex_destroy ;;; ret (-1, set_client_fds [] (client_cap c2) c2))
      (fun r k' => server_started base config (fst r, Some (snd r)) k') k2) as Hgive.
  { intros c2 k2 H1 H2 H3. eapply wp_mono; [by apply (give_up_wp base (server_cap config))|]. cbn beta.
    intros [rc2 c3] k3. cbn [fst snd]. intros (-> & Hi3 & Ha3). eexists. split; [done|]. by left. }
  destruct Hout as [(-> & Hlis & Hfit)|(-> & Hls & Hi1 & Hfds1 & Ha1)].
  - cbn [Z.ltb Z.compare]. apply wp_bind, wp_bind, wp_acquire; intros l; apply wp_ret; cbn [Z.eqb negb].
    + assert (listening base (server_cap config) (listen_sock c1) c1 (later k1 l)) as Hlis' by exact Hlis.
      destruct Hlis as (_ & Hpos & _ & _ & Hi1 & Hc1 & Hfds1 & _). rewrite (proj2 (Z.leb_le _ _)) by done.
      apply wp_bind, wp_bind, wp_close; [by eapply listening_open|]. apply wp_ret.
      apply Hgive; [done | done|]. by eapply close_listen_account.
    + apply wp_ret. eexists. split; [done|]. right. split; [done|]. split; [|split; [by rewrite <- Hcfg|]].
      * by eapply listening_started.
      * by destruct Hlis as (_ & _ & _ & _ & _ & _ & Hfds1 & _).
  - change (-1 <? 0) with true. cbn iota. apply wp_bind, wp_ret. rewrite Hls. change (0 <=? -1) with false. cbn iota.
    apply wp_bind, wp_ret. by apply Hgive.
Qed.

Lemma server_cap_pos config : is_u16 (max_clients config) -> 0 < server_cap config.
Proof.
  unfold is_u16, server_cap, value_or_default, u16, MB_TCP_DEFAULT_MAX_CLIENTS. intros Hm.
  destruct (Z.eqb_spec (max_clients config) 0); cbn [negb]; [done|]. rewrite Z.mod_small; lia.
Qed.

Lemma start_server_wp base config c :
  sane_base base -> mode config = MB_TCP_MODE_LISTEN_SERVER -> is_u16 (max_clients config) -> initialized c = 0 ->
  listen_fits base ->
  wp (mb_tcp_start (Some c) (Some config)) (server_started base config) base.
Proof.
  intros Hb Hmode Hmax Hi Hfits. pose proof (server_cap_pos config Hmax) as Hcap. unfold mb_tcp_start.
  rewrite Hi. change (mode (cfg (fresh_ctx config))) with (mode config). rewrite Hmode. cbn [Z.eqb Pos.eqb andb negb MB_TCP_MODE_LISTEN_SERVER MB_TCP_MODE_CONNECT_CLIENT].
  cbv zeta. apply wp_bind, wp_bind, wp_acquire_next; intros a l E1; cbn [Z.eqb negb].
  { apply wp_ret. change (-1 <? 0) with true. cbn iota. apply wp_ret. eexists. split; [done|]. by left. }
  fold (server_cap config). apply wp_ret. change (0 <? 0) with false. cbn iota.
  set (c1 := set_client_fds _ _ _). apply wp_bind, wp_acquire_next; intros a' l' E2; cbn [Z.eqb negb].
  { unfold free_slots. destruct (client_fds c1) as [|x xs] eqn:E.
    { exfalso. revert E. cbn. fold (server_cap config). destruct (Z.to_nat (server_cap config)) eqn:E'; [lia | done]. }
    destruct Hb as (Hlk & _ & Hbk). apply wp_bind, wp_release; [cbn; lia|]. apply wp_ret. eexists. split; [done|]. left.
    split_and!; try done. apply account_iff. cbn. split_and!; try done. lia. }
  set (k2 := add_locks 1 _). apply wp_bind.
  apply (wp_mono _ (fun _ k => account k = account k2 /\ answers k = answers k2)).
  { destruct (has_on_init _); [by apply wp_emit | by apply wp_ret]. }
  cbn beta. intros _ k3 [Ha3 He3]. change (mode (cfg c1)) with (mode config). rewrite Hmode. cbn [Z.eqb Pos.eqb MB_TCP_MODE_LISTEN_SERVER].
  apply wp_bind. eapply wp_mono.
  { apply (launch_server_wp base config c1 k3); try done.
    intros n l2 E3. rewrite He3 in E3. cbn in E1, E2, E3. apply (Hfits a a' n l2). by rewrite E1, E2, E3. }
  cbn beta. intros [rc c2] k4 Hst. by apply wp_ret.
Qed.

(** ** Stopping a server *)

Lemma inv_keep_running base cap c k v : server_inv base cap c k -> server_inv base cap (set_keep_running v c) k.
Proof. by intros [? ? ? ? ? ?]. Qed.

Lemma stop_request_wp base cap on_link c k :
  server_ok base cap on_link c k ->
  wp (stop_request c) (fun c' k' => server_ok base cap on_link c' k' /\ cfg c' = cfg c) k.
Proof.
  intros Hok. assert (server_ok base cap on_link (set_keep_running 0 c) k) as Hok0.
  { destruct Hok as [Hi Hl]. split; [by apply inv_keep_running | done]. }
  unfold stop_request. set (c0 := set_keep_running 0 c) in *.
  assert (forall k', quiet k k' -> server_inv base cap c0 k') as Hkeep by (intros k' Hq; by apply (server_ok_quiet _ _ _ _ _ _ Hok0)).
  destruct (inv_listen _ _ _ _ (Hkeep k (quiet_refl k))) as [[Hl _] _]. rewrite (proj2 (Z.leb_le _ _)) by done.
  assert (forall k' fd, quiet k k' -> quiet k (add_event (ShutDown fd) k')) as Hshut
    by (intros k' fd Hq; by eapply quiet_trans, quiet_event).
  apply wp_bind, wp_shutdown; [by eapply inv_listen_open, Hkeep|].
  apply wp_bind. apply (wp_mono _ (fun _ => quiet k)).
  - apply each_slot_wp; [|by apply Hshut]. intros i [] k1 Hin H1.
    destruct (get_slot_run _ _ _ _ i (Hkeep k1 H1) Hin) as (sd & Hs & Hg). eapply wp_bind, wp_lift; [exact Hg|].
    destruct (Z.leb_spec 0 sd); [|by apply wp_ret]. apply wp_shutdown; [|by apply Hshut].
    by eapply inv_slot_open; [by apply Hkeep|..].
  - cbn beta. intros _ k1 H1. destruct (inv_rest _ _ _ _ (Hkeep k1 H1)) as (Hst & _). rewrite Hst.
    change (0 <=? -1) with false. cbn iota. apply wp_bind, wp_ret, wp_ret. split; [by eapply server_ok_quiet | done].
Qed.

(** Closing the descriptors of the slots [l]. *)
Definition close_slots (c : mb_tcp_ctx) (l : list nat) : st kernel unit :=
  each_slot (fun i _ => let! sd := lift (get_slot c i) in if 0 <=? sd then sys_close sd else ret tt) l tt.

Lemma close_slots_wp base cap c k0 l : server_inv base cap c k0 -> NoDup l -> (forall i, i ∈ l -> i ∈ slots c) ->
  forall k, (forall i sd, i ∈ l -> client_fds c !! i = Some sd -> 0 <= sd -> sd ∈ fds k) ->
  wp (close_slots c l) (fun _ k' =>
    (forall fd, fd ∈ fds k' <-> fd ∈ fds k /\ ~ (exists i, i ∈ l /\ client_fds c !! i = Some fd /\ 0 <= fd)) /\
    locks k' = locks k /\ threads k' = threads k /\ blocks k' = blocks k) k.
Proof.
  intros Hi. induction l as [|i l IH]; intros Hnd Hl k Hk; unfold close_slots; cbn [each_slot].
  { apply wp_ret. split; [|done]. intros fd. split; [|by intros []]. intros ?. split; [done|].
    intros (i & Hin & _). by apply not_elem_of_nil in Hin. }
  apply NoDup_cons in Hnd as [Hni Hnd].
  destruct (get_slot_run _ _ _ _ i Hi) as (sd & Hs & Hg); [apply Hl, elem_of_cons; by left|].
  apply wp_bind. eapply wp_bind, wp_lift; [exact Hg|]. set (k1 := set_fds (fds k ∖ {[sd]}) k).
  assert (forall i, i ∈ l -> i ∈ slots c) as Hl' by (intros j Hj; apply Hl, elem_of_cons; by right).
  destruct (Z.leb_spec 0 sd) as [Hsd|Hsd].
  - apply wp_close; [apply (Hk i); [apply elem_of_cons; by left | done | done]|].
    eapply wp_mono; [apply (IH Hnd Hl' k1)|].
    + intros j s Hj Hjs Hpos. cbn. apply elem_of_difference. split; [apply (Hk j); [apply elem_of_cons; by right | done | done]|].
      intros ->%elem_of_singleton. apply Hni. by rewrite (inv_distinct _ _ _ _ Hi i j sd).
    + cbn beta. intros _ k2 (Hf & Hrest). split; [|done]. intros fd. rewrite Hf. cbn.
      rewrite elem_of_difference, elem_of_singleton. split.
      * intros [[Hin Hne] Hno]. split; [done|]. intros (j & [->|Hj]%elem_of_cons & Hjs & Hpos); [congruence|].
        apply Hno. by exists j.
      * intros [Hin Hno]. split; [split; [done|]|].
        -- intros ->. apply Hno. exists i. split; [apply elem_of_cons; by left | done].
        -- intros (j & Hj & ?). apply Hno. exists j. split; [apply elem_of_cons; by right | done].
  - apply wp_ret. eapply wp_mono; [apply (IH Hnd Hl' k)|].
    + intros j s Hj. apply Hk, elem_of_cons. by right.
    + cbn beta. intros _ k2 (Hf & Hrest). split; [|done]. intros fd. rewrite Hf. split; intros [Hin Hno]; (split; [done|]).
      * intros (j & [->|Hj]%elem_of_cons & Hjs & Hpos); [rewrite Hs in Hjs; injection Hjs as ->; lia|]. apply Hno. by exists j.
      * intros (j & Hj & ?). apply Hno. exists j. split; [apply elem_of_cons; by right | done].
Qed.

(** After the join. *)
Definition joined (base : kernel) (cap : Z) (c : mb_tcp_ctx) (k : kernel) : Prop :=
  server_inv base cap c (add_threads 1 k).

Lemma stop_release_wp base cap c k :
  sane_base base -> 0 < cap -> joined base cap c k ->
  wp (stop_release c) (fun c' k' => account k' = account base /\ initialized c' = 0 /\ listen_sock c' = -1) k.
Proof.
  intros (Hlk & _ & Hbk) Hcap Hi. pose proof Hi as [[Hc Hlen] [[Hl0 _] Hlb] Hsl Hdis Hf (Hst & _ & Hk1 & Hk2 & Hk3)]. cbn in Hf, Hk1, Hk2, Hk3.
  unfold stop_release. rewrite (proj2 (Z.leb_le _ _)) by done. apply wp_bind, wp_bind, wp_close.
  { apply Hf. right. by left. }
  apply wp_ret. change (slots (set_listen_sock (-1) c)) with (slots c).
  set (k1 := set_fds _ k). set (c1 := set_listen_sock (-1) c). apply wp_bind.
  change (each_slot _ (slots c) tt) with (close_slots c (slots c)). eapply wp_mono.
  { apply (close_slots_wp base cap c _ (slots c) Hi); [apply NoDup_seq | done|].
    intros i sd _ Hs Hpos. cbn. apply elem_of_difference. split; [apply Hf; right; right; by exists i|].
    intros ->%elem_of_singleton. by destruct (Hsl i _ Hs Hpos) as (_ & _ & []). }
  cbn beta. intros _ k2 (Hf2 & Hl2 & Ht2 & Hb2). unfold free_slots. change (client_fds c1) with (client_fds c).
  destruct (client_fds c) as [|x xs] eqn:Efds; [cbn in Hlen; lia|].
  apply wp_bind, wp_release; [cbn in *; lia|]. cbn [stream_sock set_client_fds c1 set_listen_sock]. rewrite Hst.
  change (0 <=? -1) with false. cbn iota. apply wp_bind, wp_ret, wp_bind, wp_release; [cbn in *; lia|].
  apply wp_ret. split; [|done]. apply account_iff. cbn in *. split_and!; [|lia..]. apply set_eq. intros fd.
  rewrite Hf2, elem_of_difference, elem_of_singleton, Hf. unfold in_slot. rewrite Efds. split.
  - intros [[[?|[?|(i & Hi1 & Hi2)]] Hne] Hno]; [done | done|]. destruct Hno. exists i. split; [|done].
    apply slots_elem. rewrite Hc, <- Hlen. apply (lookup_lt_Some _ _ _ Hi1).
  - intros Hin. split; [split; [by left|]|]; [by intros ->|]. intros (i & _ & Hi1 & Hi2).
    by destruct (Hsl i fd Hi1 Hi2) as (_ & Hnb & _).
Qed.

