(* ===== verification/TcpClientThreadSpec.v ===== *)
(** * The life of a transport that connects

    In every mode but the server's, the thread of a transport holds at most one
    connection, the one of [stream_sock], and reports it with [on_link]. *)

From stdpp Require Import gmap strings.
From S2P Require Import Prelude Buffer Defines Pdu PduSpec PduClient Ptr Tcp Sys Keeps TcpServer TcpClient Kernel TcpPort TcpThread TcpThreadSpec TcpPortSpec.

(** The connection [sock], if it is one. *)
Definition conn (sock : Z) : gset Z := if 0 <=? sock then {[sock]} else ∅.

Lemma conn_some n : 0 <= n -> conn n = {[n]}.
Proof. intros Hn. unfold conn. by rewrite (proj2 (Z.leb_le _ _)). Qed.

Lemma elem_of_conn fd sock : fd ∈ conn sock <-> fd = sock /\ 0 <= sock.
Proof. unfold conn. destruct (Z.leb_spec 0 sock); set_solver by lia. Qed.

(** [sock] is the connection of the thread, -1 if there is none; [up] is the one
    that has been reported up. *)
Record client_inv (base : kernel) (sock up : Z) (c : mb_tcp_ctx) (k : kernel) : Prop := ClientInv {
  cli_sock_ok : sock = -1 \/ (fits sock /\ sock ∉ fds base);
  cli_ctx : stream_sock c = sock /\ listen_sock c = -1 /\ client_fds c = [] /\ client_cap c = 0 /\ initialized c = 1;
  cli_fds : fds k = conn sock ∪ fds base;
  cli_rest : locks k = locks base + 1 /\ threads k = threads base + 1 /\ blocks k = blocks base;
  cli_links : linked base (has_on_link (cfg c)) (conn up) k;
}.

Lemma client_quiet base sock up c k k' : client_inv base sock up c k -> quiet k k' -> client_inv base sock up c k'.
Proof.
  intros [H1 H2 H3 H4 H5] [Ha He]. apply account_iff in Ha as (Hf & Hl & Ht & Hb).
  split; [done | done | by rewrite Hf | by rewrite Hl, Ht, Hb | by eapply linked_same].
Qed.

Lemma client_relinked base sock up up' c k k' :
  client_inv base sock up c k -> account k' = account k -> linked base (has_on_link (cfg c)) (conn up') k' ->
  client_inv base sock up' c k'.
Proof.
  intros [H1 H2 H3 H4 H5] Ha He. apply account_iff in Ha as (Hf & Hl & Ht & Hb).
  by split; [done | done | rewrite Hf | rewrite Hl, Ht, Hb | done].
Qed.

Lemma client_open base sock up c k : client_inv base sock up c k -> 0 <= sock -> sock ∈ fds k.
Proof. intros [_ _ -> _ _] Hs. apply elem_of_union. left. by apply elem_of_conn. Qed.

Lemma client_connected base sock up c k : client_inv base sock up c k -> sock <> -1 -> 0 <= sock.
Proof. by intros [[->|[[? _] _]] _ _ _ _]. Qed.

(** The connection is made: a new descriptor. *)
Lemma client_inv_up base c k k' n up :
  client_inv base (-1) (-1) c k -> fits n -> n ∉ fds k -> account k' = account (set_fds ({[n]} ∪ fds k) k) ->
  linked base (has_on_link (cfg c)) (conn up) k' -> client_inv base n up (set_stream_sock n c) k'.
Proof.
  intros [_ (Hst & Hls & Hfds & Hcap & Hini) Hf (Hl & Ht & Hb) _] Hn Hfr Ha Hlk.
  apply account_iff in Ha as (Hf' & Hl' & Ht' & Hb'). cbn in *. change (conn (-1)) with (∅ : gset Z) in Hf.
  destruct Hn as [Hn Hn1]. split; [right; split; [done|] | done | | cbn; lia | done].
  - intros Hin. apply Hfr. rewrite Hf. set_solver.
  - by rewrite Hf', Hf, conn_some, union_empty_l_L.
Qed.

(** It is closed. *)
Lemma client_inv_down base c k k' n up up' :
  client_inv base n up c k -> 0 <= n -> account k' = account (set_fds (fds k ∖ {[n]}) k) ->
  linked base (has_on_link (cfg c)) (conn up') k' -> client_inv base (-1) up' (set_stream_sock (-1) c) k'.
Proof.
  intros [Hok (Hst & Hls & Hfds & Hcap & Hini) Hf (Hl & Ht & Hb) _] Hn Ha Hlk.
  apply account_iff in Ha as (Hf' & Hl' & Ht' & Hb'). cbn in *. rewrite conn_some in Hf by done.
  destruct Hok as [->|[_ Hfr]]; [lia|]. split; [by left | done | | cbn; lia | done].
  rewrite Hf', Hf. change (conn (-1)) with (∅ : gset Z). clear -Hfr. set_solver.
Qed.

Lemma retry_pause_wp n flags k : wp (retry_pause n flags) (fun _ => quiet k) k.
Proof.
  revert flags k. induction n as [|n IH]; intros flags k; cbn [retry_pause]; [by apply wp_ret|].
  destruct flags as [|running flags]; [done|]. destruct (running =? 0); [by apply wp_ret|].
  apply wp_bind, wp_quiet; [done|]. intros k1 H1. eapply wp_mono; [apply IH|]. cbn beta. intros _ k2.
  by apply quiet_trans.
Qed.

(** One attempt, with the answers that stay small. *)
Lemma client_connect_wp base flags c k :
  client_inv base (-1) (-1) c k -> small k ->
  wp (client_connect flags c) (fun r k' => client_inv base (fst r) (fst r) (snd r) k') k.
Proof.
  intros Hi Hsmall. apply wp_bind. eapply wp_mono.
  { apply (wp_keeps (fun k' => links k' = links k)); [apply (keeps_connect _) | done | apply tcp_connect_wp].
    intros n l E. unfold small in Hsmall. rewrite E in Hsmall. by apply Forall_cons_iff in Hsmall as [Hn _]. }
  cbn beta. intros [rc sock] k1 [[(Hrc & Hs & Ha)|(n & [= -> ->] & Hn & Hfr & Ha & _)] He]; cbn [fst snd] in *.
  - subst sock. cbn [default from_option id]. destruct (Z.eqb_spec rc 0) as [->|_]; [lia|].
    apply wp_bind, wp_error_call. intros k2 H2. apply wp_bind. eapply wp_mono; [apply retry_pause_wp|]. cbn beta.
    intros _ k3 H3. apply wp_ret. cbn [fst snd]. eapply client_quiet; [done|].
    apply (quiet_trans _ k1); [done|]. by eapply quiet_trans.
  - cbn [default from_option id Z.eqb]. pose proof Hn as [Hpos _].
    apply wp_bind, (wp_link_up base _ _ ∅); [|set_solver|].
    + destruct Hi as [_ _ _ _ Hl]. by eapply linked_same.
    + intros k2 H2 Hl2. apply wp_bind, wp_error_call. intros k3 [H3 He3]. apply wp_ret. cbn [fst snd].
      eapply (client_inv_up base c k); [done | done | done | by rewrite H3, H2|].
      rewrite union_empty_r_L in Hl2. rewrite (conn_some n) by done. by eapply linked_same.
Qed.

Section Client.
Context {U : Type} (on_process : Z -> st U Z) (J : U -> Prop).
Hypothesis process_keeps : forall fd u, J u -> wp (on_process fd) (fun _ => J) u.
Context (base : kernel).

Definition client_ok (sock up : Z) (c : mb_tcp_ctx) (s : kernel * U) : Prop :=
  client_inv base sock up c (fst s) /\ small (fst s) /\ J (snd s).

Definition round_ok (r : Z * mb_tcp_ctx) (s : kernel * U) : Prop := client_ok (fst r) (fst r) (snd r) s.

Lemma client_sock sock up c s : client_ok sock up c s -> stream_sock c = sock.
Proof. by intros ([_ [? _] _ _ _] & _). Qed.

(** A connection goes down with [on_process]. *)
Lemma client_close_wp sock c k :
  0 <= sock -> client_inv base sock sock c k ->
  wp (mb_tcp_link_call c sock 0 ;;; sys_close sock) (fun _ => client_inv base (-1) (-1) (set_stream_sock (-1) c)) k.
Proof.
  intros Hs Hi. pose proof (cli_links _ _ _ _ _ Hi) as Hl. rewrite (conn_some sock) in Hl by done.
  apply wp_bind, (wp_link_down base _ _ {[sock]}); [done | set_solver|]. intros k2 H2 Hl2.
  rewrite difference_diag_L in Hl2. assert (client_inv base sock (-1) c k2) as Hi2 by by eapply client_relinked.
  apply wp_close; [by eapply client_open|]. by eapply (client_inv_down base c k2).
Qed.

Lemma keeps_small_link c fd v : keeps small (mb_tcp_link_call c fd v).
Proof. unfold mb_tcp_link_call. destruct (has_on_link _); [|apply keeps_ret]. by intros k ? ? Hk [= _ <-]. Qed.

#[local] Hint Resolve keeps_small_link keeps_connect keeps_retry : keeps.

Lemma keeps_small_error c v : keeps small (error_call c v).
Proof. unfold error_call. keep. Qed.

#[local] Hint Resolve keeps_small_error : keeps.

Lemma client_poll_wp sock c s : 0 <= sock -> round_ok (sock, c) s -> wp (client_poll on_process sock c) round_ok s.
Proof.
  destruct s as [k u]. intros Hs (Hi & Hsm & Hu). cbn [fst snd] in *. apply wp_bind.
  apply (wp_mono _ (fun _ s => round_ok (sock, c) s)).
  { destruct (has_on_process _); [|by apply wp_ret]. apply wp_bind, wp_on_snd.
    eapply wp_mono; [by apply process_keeps|]. cbn beta. intros rc u' Hu'. by apply wp_ret. }
  cbn beta. intros failed [k1 u1] (Hi1 & Hsm1 & Hu1). cbn [fst snd] in *.
  destruct failed.
  - apply wp_bind, wp_on_fst. eapply wp_mono; [apply (wp_keeps small); [keep | done | by apply client_close_wp]|].
    cbn beta. intros _ k2 [Hi2 Hsm2]. apply wp_bind, wp_on_fst. eapply wp_mono.
    { apply (wp_keeps small); [keep | done|]. by apply (wp_error_call _ _ (fun _ => quiet k2)). }
    cbn beta. intros _ k3 [H3 Hsm3]. apply wp_ret. split_and!; [by eapply client_quiet | done | done].
  - apply wp_bind, wp_on_fst, wp_emit, wp_ret. split_and!; [|done..]. eapply client_quiet; [done|]. by apply quiet_event.
Qed.

Lemma client_round_wp flags sock c s : round_ok (sock, c) s -> wp (client_round on_process flags sock c) round_ok s.
Proof.
  intros Hok. unfold client_round. destruct (Z.ltb_spec sock 0) as [Hneg|Hpos]; [|by apply client_poll_wp].
  destruct s as [k u]. destruct Hok as (Hi & Hsm & Hu). cbn [fst snd] in *.
  assert (sock = -1) as -> by (destruct (Z.eq_dec sock (-1)); [done|]; apply client_connected in Hi; lia).
  apply wp_bind, wp_on_fst. eapply wp_mono.
  { apply (wp_keeps small); [unfold client_connect; keep | done | by apply client_connect_wp]. }
  cbn beta. intros [sock' c'] k' [Hi' Hsm']. cbn [fst snd] in *. destruct (Z.ltb_spec sock' 0) as [Hneg'|Hpos'].
  - apply wp_ret. assert (sock' = -1) as -> by (destruct (Z.eq_dec sock' (-1)); [done|]; apply client_connected in Hi'; lia). done.
  - by apply client_poll_wp.
Qed.

(** The thread goes on; or it has ended, and the connection has been reported
    down. *)
Lemma client_thread_wp rounds sock c s :
  round_ok (sock, c) s ->
  wp (mb_tcp_client_thread on_process rounds sock c)
    (fun r => let c := snd r in client_ok (stream_sock c) (if fst r : bool then stream_sock c else -1) c) s.
Proof.
  revert sock c s. induction rounds as [|[running flags] rounds IH]; intros sock c s Hok; cbn [mb_tcp_client_thread].
  - apply wp_ret. cbn [fst snd]. by rewrite (client_sock sock sock c s Hok).
  - pose proof (client_sock sock sock c s Hok) as Hst. destruct (running =? 0).
    + destruct s as [k u]. destruct Hok as (Hi & Hsm & Hu). cbn [fst snd] in *.
      apply wp_bind. apply (wp_mono _ (fun _ => client_ok sock (-1) c)).
      { destruct (Z.leb_spec 0 sock) as [Hpos|Hneg].
        - apply wp_on_fst. eapply wp_mono; [apply (wp_keeps small); [keep | done|]|].
          + apply (wp_link_down base _ _ {[sock]} (fun _ => client_inv base sock (-1) c)).
            * rewrite <- conn_some by done. by destruct Hi.
            * set_solver.
            * intros k' Ha Hl. rewrite difference_diag_L in Hl. by eapply client_relinked.
          + cbn beta. intros _ k' [Hi' Hsm']. by split_and!.
        - apply wp_ret. assert (sock = -1) as -> by (destruct (Z.eq_dec sock (-1)); [done|]; apply client_connected in Hi; lia).
          by split_and!. }
      cbn beta. intros _ s' Hok'. apply wp_ret. cbn [fst snd]. by rewrite Hst.
    + apply wp_bind. eapply wp_mono; [by apply client_round_wp|]. cbn beta. intros [sock' c'] s' Hok'. by apply IH.
Qed.
End Client.

(** ** Start and stop *)

Definition client_started (base : kernel) (r : Z * option mb_tcp_ctx) (k : kernel) : Prop :=
  exists c, snd r = Some c /\
    ((fst r = -1 /\ initialized c = 0 /\ account k = account base /\ links k = links base) \/
     (fst r = 0 /\ client_inv base (-1) (-1) c k)).

(** All but the callbacks; a start makes none of [on_link]. *)
Lemma start_client_account base config c :
  sane_base base -> mode config <> MB_TCP_MODE_LISTEN_SERVER -> initialized c = 0 ->
  wp (mb_tcp_start (Some c) (Some config)) (fun r k => exists c', snd r = Some c' /\
    ((fst r = -1 /\ initialized c' = 0 /\ account k = account base) \/
     (fst r = 0 /\ (links k = links base -> client_inv base (-1) (-1) c' k)))) base.
Proof.
  intros (Hlk & Hth & Hbk) Hmode Hi.
  unfold mb_tcp_start. rewrite Hi. change (mode (cfg (fresh_ctx config))) with (mode config).
  rewrite (proj2 (Z.eqb_neq _ _) Hmode). destruct (_ && _); [apply wp_ret; exists c; split; [done|]; by left|].
  cbn [Z.eqb negb]. apply wp_bind, wp_ret. change (0 <? 0) with false. cbn iota.
  apply wp_bind, wp_acquire; intros l; cbn [Z.eqb negb].
  { apply wp_bind, wp_ret, wp_ret. eexists. split; [done|]. by left. }
  apply wp_bind. apply (wp_mono _ (fun _ => quiet (add_locks 1 (later base l)))).
  { destruct (has_on_init _); [by apply wp_quiet | by apply wp_ret]. }
  cbn beta. intros _ k1 [H1 _]. change (mode (cfg (fresh_ctx config))) with (mode config).
  rewrite (proj2 (Z.eqb_neq _ _) Hmode). apply account_iff in H1 as (Hf & Hl & Ht & Hb). cbn in Hf, Hl, Ht, Hb.
  apply wp_bind, wp_bind, wp_acquire; intros l2; cbn [Z.eqb negb].
  - apply wp_bind, wp_release; [cbn; lia|]. apply wp_ret, wp_ret. eexists. split; [done|]. left.
    split; [done|]. split; [done|]. apply account_iff. cbn. split_and!; [done | lia..].
  - apply wp_ret, wp_ret. eexists. split; [done|]. right. split; [done|]. intros He. split.
    + by left.
    + done.
    + cbn. rewrite Hf. change (conn (-1)) with (∅ : gset Z). by rewrite union_empty_l_L.
    + cbn. lia.
    + exists []. split; [by rewrite app_nil_r | by destruct (has_on_link _)].
Qed.

Lemma start_client_wp base config c :
  sane_base base -> mode config <> MB_TCP_MODE_LISTEN_SERVER -> initialized c = 0 ->
  wp (mb_tcp_start (Some c) (Some config)) (client_started base) base.
Proof.
  intros Hb Hmode Hi. eapply wp_mono.
  { apply (wp_keeps (fun k => links k = links base)); [apply (keeps_start _) | done | by apply start_client_account]. }
  cbn beta. intros r k [(c' & Hc & [(Hrc & Hini & Ha)|[Hrc Hcl]]) He]; exists c'; (split; [done|]); [left | right]; auto.
Qed.

Lemma slots_none c : client_cap c = 0 -> slots c = [].
Proof. intros Hc. unfold slots. by rewrite Hc. Qed.

Lemma client_stop_request_wp base sock up c k :
  client_inv base sock up c k -> small k ->
  wp (stop_request c) (fun c' k' => client_inv base sock up c' k' /\ small k') k.
Proof.
  intros Hi Hsm. apply (wp_keeps small); [apply (keeps_stop_request _) | done|].
  pose proof (cli_ctx _ _ _ _ _ Hi) as (Hst & Hls & Hfds & Hcap & Hini).
  assert (client_inv base sock up (set_keep_running 0 c) k) as Hi0 by by destruct Hi.
  unfold stop_request. cbn [listen_sock set_keep_running]. rewrite Hls. change (0 <=? -1) with false. cbn iota.
  apply wp_bind, wp_ret. rewrite slots_none by done. apply wp_bind, wp_ret. cbn [stream_sock set_keep_running].
  rewrite Hst. apply wp_bind. destruct (Z.leb_spec 0 sock) as [Hpos|_]; [|by apply wp_ret, wp_ret].
  apply wp_shutdown; [by eapply client_open|]. apply wp_ret. eapply client_quiet; [done|]. by apply quiet_event.
Qed.

(** The thread has ended and has been joined. *)
Lemma client_stop_release_wp base sock c k :
  0 <= locks base -> client_inv base sock (-1) c (add_threads 1 k) ->
  wp (stop_release c) (fun c' k' => account k' = account base /\ initialized c' = 0 /\
    exists ls, links k' = links base ++ ls /\ link_walk ∅ ls = Some ∅) k.
Proof.
  intros Hlk [Hok (Hst & Hls & Hfds & Hcap & Hini) Hf (Hl & Ht & Hb) (ls & He & Hw)]. cbn in Hf, Hl, Ht, Hb.
  change (conn (-1)) with (∅ : gset Z) in Hw. assert (link_walk ∅ ls = Some ∅) as Hw' by by destruct (has_on_link _).
  unfold stop_release. rewrite Hls. change (0 <=? -1) with false. cbn iota. apply wp_bind, wp_ret.
  rewrite slots_none by done. apply wp_bind, wp_ret. unfold free_slots. rewrite Hfds. apply wp_bind, wp_ret.
  cbn [stream_sock set_client_fds]. rewrite Hst. apply wp_bind. unfold conn in Hf.
  destruct (Z.leb_spec 0 sock) as [Hpos|_].
  - destruct Hok as [->|[_ Hfr]]; [lia|]. apply wp_bind, wp_close; [rewrite Hf; set_solver|].
    apply wp_ret, wp_bind, wp_release; [cbn; lia|]. apply wp_ret. split; [|split; [done | by exists ls]].
    apply account_iff. cbn. split_and!; [rewrite Hf; clear -Hfr; set_solver | lia..].
  - apply wp_ret, wp_bind, wp_release; [cbn; lia|]. apply wp_ret. split; [|split; [done | by exists ls]].
    apply account_iff. cbn. split_and!; [by rewrite Hf, union_empty_l_L | lia..].
Qed.
