(* ===== verification/TcpServerPort.v ===== *)
(** * The TCP server on its sockets: start, serve, stop

    [mb_tcp_server_start] and [mb_tcp_server_stop], and what a whole life of a
    server does: the transport's thread calls [server_on_process] of
    [TcpServer] on the connections that are readable.  Every descriptor has a
    [world] of its own: what its peer sends and how its socket behaves. *)

From stdpp Require Import gmap strings.
From S2P Require Import Prelude Buffer Defines Pdu PduSpec PduClient Ptr Tcp Sys Keeps TcpServer Kernel TcpPort TcpThread.

(** The whole [mb_tcp_server_ctx_t]. *)
Record mb_tcp_server (U : Type) := Server {
  transport : mb_tcp_ctx;
  server_cfg : mb_tcp_server_config U;
}.
Arguments Server {U}.
Arguments transport {U}.
Arguments server_cfg {U}.

(** A context after [memset]. *)
Definition zero_transport : mb_tcp_ctx :=
  TcpCtx 0 0 (TcpConfig 0 None 0 None 0 0 0 0 0 0 0 0 false false false false) 0 0 [] 0 0.

Section Server.
Context {I : Indet} {U : Type}.

Definition set_recv_timeout (ms : Z) (cfg : mb_tcp_server_config U) : mb_tcp_server_config U :=
  SrvConfig (srv_port cfg) (srv_unit_id cfg) (srv_max_clients cfg) ms (srv_keepalive_idle_sec cfg)
    (srv_keepalive_interval_sec cfg) (srv_keepalive_count cfg) (srv_idle_poll_ms cfg)
    (on_read cfg) (on_write cfg) (on_read_bits cfg) (on_write_bits cfg).

Definition kept_config (cfg : mb_tcp_server_config U) : mb_tcp_server_config U :=
  if srv_recv_timeout_ms cfg =? 0 then set_recv_timeout MB_TCP_SERVER_DEFAULT_RECV_TIMEOUT_MS cfg else cfg.

(** [on_link]: whether the configuration has that callback. *)
Definition transport_config (cfg : mb_tcp_server_config U) (on_link : bool) : mb_tcp_config :=
  TcpConfig MB_TCP_MODE_LISTEN_SERVER None (srv_port cfg) None 0 0 (srv_recv_timeout_ms (kept_config cfg))
    (srv_max_clients cfg) (srv_keepalive_idle_sec cfg) (srv_keepalive_interval_sec cfg)
    (srv_keepalive_count cfg) (srv_idle_poll_ms cfg) on_link false true false.

Definition mb_tcp_server_start (ctx : option (mb_tcp_server U)) (cfg : option (mb_tcp_server_config U))
    (on_link : bool) : st kernel (Z * option (mb_tcp_server U)) :=
  match ctx, cfg with
  | Some c, Some cfg =>
      if negb (initialized (transport c) =? 0) then ret (-1, ctx) else
      let! '(rc, t) := mb_tcp_start (Some zero_transport) (Some (transport_config cfg on_link)) in
      ret (rc, Some (Server (default zero_transport t) (kept_config cfg)))
  | _, _ => ret (-1, ctx)
  end.

(** ** Serving *)

(** One line per descriptor, and the application. *)
Definition lines : Type := (Z -> world) * U.

Definition set_line (fd : Z) (w : world) (ws : Z -> world) : Z -> world :=
  fun fd' => if fd' =? fd then w else ws fd'.

Definition process_line (cfg : mb_tcp_server_config U) (fd : Z) : st lines Z := fun '(ws, u) =>
  match server_on_process cfg (ws fd, u) with
  | Ok (rc, (w, u')) => Ok (rc, (set_line fd w ws, u'))
  | Fail e => Fail e
  end.

(** The thread until it leaves its loop; it does not if [rounds] are too few. *)
Definition serve_until_end (cfg : mb_tcp_server_config U) (rounds : list (Z * selection)) (c : mb_tcp_ctx)
    : st (kernel * lines) mb_tcp_ctx :=
  let! '(running, c) := mb_tcp_server_thread (process_line cfg) rounds c in
  if running : bool then stop Blocked else ret c.

Definition mb_tcp_server_stop (ctx : option (mb_tcp_server U)) (rounds : list (Z * selection))
    : st (kernel * lines) (option (mb_tcp_server U)) :=
  match ctx with
  | None => ret None
  | Some s =>
      let! t := mb_tcp_stop (serve_until_end (server_cfg s) rounds) (Some (transport s)) in
      ret (Some (Server (default (transport s) t) (server_cfg s)))
  end.

(** Start and, if that succeeds, [rounds] of the thread. *)
Definition server_running (s : mb_tcp_server U) (cfg : mb_tcp_server_config U) (on_link : bool)
    (rounds : list (Z * selection)) : st (kernel * lines) (Z * option (mb_tcp_server U)) :=
  let! '(rc, s) := on_fst (mb_tcp_server_start (Some s) (Some cfg) on_link) in
  match s with
  | Some t =>
      if rc =? 0 then
        let! '(_, c) := mb_tcp_server_thread (process_line (server_cfg t)) rounds (transport t) in
        ret (rc, Some (Server c (server_cfg t)))
      else ret (rc, s)
  | None => ret (rc, s)
  end.

(** Then the stop, during which the thread goes through [rounds']. *)
Definition server_life (s : mb_tcp_server U) (cfg : mb_tcp_server_config U) (on_link : bool)
    (rounds rounds' : list (Z * selection)) : st (kernel * lines) (Z * option (mb_tcp_server U)) :=
  let! '(rc, s) := server_running s cfg on_link rounds in
  if rc =? 0 then let! s := mb_tcp_server_stop s rounds' in ret (rc, s) else ret (rc, s).

(** ** The bytes of the lines stay bytes *)

Lemma keeps_recv_exact len : keeps buf_bytes (recv_exact len).
Proof.
  assert (forall fuel received, keeps buf_bytes (recv_exact_loop fuel received len)) as Hloop.
  { induction fuel; intros; cbn [recv_exact_loop]; [keep|]. destruct (received <? len); [|keep].
    apply keeps_bind; [apply (keeps_on_snd byte_line); auto with keeps|]. intros [bs|e]; [|keep].
    destruct (zlen bs =? 0); [keep|]. apply keeps_bind; [|done].
    intros [p w] a [p' w'] Hb. unfold on_buf. destruct (at_off _ _ p) as [[? ?]|]; [|done]. by intros [= _ _ <-]. }
  intros s. apply Hloop.
Qed.

Lemma keeps_send_all buf len : keeps byte_line (mb_tcp_send_all buf len).
Proof.
  assert (forall fuel sent, keeps byte_line (send_all_loop fuel buf len sent)) as Hloop
    by (induction fuel; intros; cbn [send_all_loop]; keep).
  intros w. unfold mb_tcp_send_all. intros a w' Hb. destruct (len <=? zlen buf); [|done]. by apply Hloop.
Qed.

#[local] Hint Resolve keeps_recv_exact keeps_send_all : keeps.

Lemma keeps_process (cfg : mb_tcp_server_config U) : keeps conn_bytes (server_on_process cfg).
Proof. unfold server_on_process, server_dispatch. keep.
Qed.
End Server.
