(* ===== verification/TcpServeSpec.v ===== *)
(** * What the connections of a TCP server get

    The requests of all connections, in the order in which the thread serves
    them, are one sequential run of the abstract server; every connection gets
    its own part of the replies, and its requests are taken from its stream in
    order. *)

From stdpp Require Import gmap strings.
From S2P Require Import Prelude Buffer Defines Pdu PduSpec PduClient Ptr Tcp Sys Keeps TcpServer TcpServerSpec TcpServerTheorems TcpClient Kernel TcpPort TcpThread TcpServerPort.

(** ** The sequential run *)

Section Sequential.
Context {U : Type} (own : Z) (d : device U).

(** The frames of a schedule carry the descriptor they came from; so do the
    replies. *)
Fixpoint sequential (sched : list (Z * list Z)) (u : U) : list (Z * list Z) * U :=
  match sched with
  | [] => ([], u)
  | (fd, f) :: sched =>
      let '(r, u1) := tcp_reply own d f u in
      let '(rs, u2) := sequential sched u1 in
      (match r with Some out => (fd, out) :: rs | None => rs end, u2)
  end.

Lemma sequential_snoc sched fd f u :
  sequential (sched ++ [(fd, f)]) u =
    let '(rs, u1) := sequential sched u in
    let '(r, u2) := tcp_reply own d f u1 in
    (rs ++ match r with Some out => [(fd, out)] | None => [] end, u2).
Proof.
  revert u. induction sched as [|[fd' f'] sched IH]; intros u; cbn [sequential app].
  - destruct (tcp_reply own d f u) as [[out|] u2]; done.
  - destruct (tcp_reply own d f' u) as [r' u']. rewrite IH. destruct (sequential sched u') as [rs u1].
    destruct (tcp_reply own d f u1) as [r u2]. by destruct r'.
Qed.
End Sequential.

(** The part of one descriptor. *)
Definition on (fd : Z) (l : list (Z * list Z)) : list (list Z) := map snd (filter (fun x => x.1 = fd) l).

Lemma on_snoc fd fd' f l : on fd (l ++ [(fd', f)]) = on fd l ++ (if decide (fd' = fd) then [f] else []).
Proof.
  unfold on. rewrite filter_app, map_app. f_equal. destruct (decide (fd' = fd)) as [He|Hne].
  - by rewrite filter_cons_True, filter_nil.
  - by rewrite filter_cons_False, filter_nil.
Qed.

(** ** The connections *)

Section Serve.
Context {I : Indet} {U : Type} (own : Z) (d : device U).

(** The requests served on a connection are the next ones of its stream [ls],
    of which [ls'] is left; after the last complete one anything may follow. *)
Definition in_order (w w' : world) (served : list (list Z)) : Prop :=
  forall reqs rest closed, stream (rx w) = (concat reqs ++ rest, closed) -> Forall well_formed reqs ->
    (exists more, reqs = served ++ more /\ stream (rx w') = (concat more ++ rest, closed)) \/ reqs `prefix_of` served.

(** What was sent on a connection: its replies, each of them whole or, if the
    connection broke, in part. *)
Definition answered (w w' : world) (replies : list (list Z)) : Prop :=
  exists chunks, output w' = output w ++ concat chunks /\ Forall2 prefix chunks replies.

(** From [ls] to [ls'] the requests [sched] were served. *)
Definition serialized (ls ls' : lines (U:=U)) (sched : list (Z * list Z)) : Prop :=
  snd ls' = snd (sequential own d sched (snd ls)) /\
  forall fd, in_order (fst ls fd) (fst ls' fd) (on fd sched) /\
    answered (fst ls fd) (fst ls' fd) (on fd (fst (sequential own d sched (snd ls)))).

Lemma serialized_refl ls : serialized ls ls [].
Proof.
  split; [done|]. intros fd. split.
  - intros reqs rest closed Hs _. left. by exists reqs.
  - exists []. by rewrite app_nil_r.
Qed.

(** Other lines do not change. *)
Lemma set_line_ne fd w ws fd' : fd' <> fd -> set_line fd w ws fd' = ws fd'.
Proof. intros Hne. unfold set_line. by rewrite (proj2 (Z.eqb_neq _ _)). Qed.

Lemma set_line_eq fd w ws : set_line fd w ws fd = w.
Proof. unfold set_line. by rewrite Z.eqb_refl. Qed.

(** A call that finds no frame: it only consumes. *)
Lemma serialized_broken ls ws u sched fd r' :
  serialized ls (ws, u) sched ->
  (forall f rest closed, stream (rx (ws fd)) = (f ++ rest, closed) -> ~ well_formed f) ->
  serialized ls (set_line fd (set_rx r' (ws fd)) ws, u) sched.
Proof.
  intros [Hu Hfd] Hno. split; [done|]. intros fd'. destruct (Hfd fd') as [Hin Hout]. cbn [fst snd] in *.
  destruct (decide (fd' = fd)) as [->|Hne]; [|by rewrite set_line_ne]. rewrite set_line_eq. split; [|exact Hout].
  intros reqs rest closed Hs Hwf. destruct (Hin reqs rest closed Hs Hwf) as [(more & Hm & Hs')|]; [|by right].
  right. destruct more as [|f more]; [rewrite app_nil_r in Hm; by rewrite Hm|].
  cbn [concat] in Hs'. rewrite <- app_assoc in Hs'. subst reqs. apply Forall_app in Hwf as [_ [Hf _]%Forall_cons_iff].
  by destruct (Hno _ _ _ Hs').
Qed.

(** A call that serves [f] and sends [part] of the reply. *)
Lemma serialized_frame ls ws u sched fd f w' part r u' bs closed rest :
  serialized ls (ws, u) sched -> stream (rx (ws fd)) = (bs, closed) -> next_frame bs = Frame f rest ->
  tcp_reply own d f u = (r, u') -> stream (rx w') = (rest, closed) ->
  output w' = output (ws fd) ++ part -> part `prefix_of` default [] r ->
  serialized ls (set_line fd w' ws, u') (sched ++ [(fd, f)]).
Proof.
  intros [Hu Hfd] Hbs Hf Hr Hs' Hout Hpart. unfold serialized. rewrite sequential_snoc.
  destruct (sequential own d sched (snd ls)) as [rs u1] eqn:Hseq. cbn [fst snd] in *. subst u1. rewrite Hr. cbn [fst snd].
  split; [done|]. intros fd'. destruct (Hfd fd') as [Hin (chunks & Hc & Hall)].
  assert (forall r : option (list Z), on fd' (rs ++ match r with Some out => [(fd, out)] | None => [] end) =
    on fd' rs ++ match r with Some out => if decide (fd = fd') then [out] else [] | None => [] end) as Hon
    by (intros [out|]; [apply on_snoc | by rewrite !app_nil_r]).
  rewrite Hon, on_snoc. destruct (decide (fd = fd')) as [<-|Hne].
  - rewrite set_line_eq. split.
    + intros reqs rest' closed' Hs Hwf. destruct (Hin reqs rest' closed' Hs Hwf) as [(more & -> & Hsm)|Hpre].
      * destruct more as [|g more]; [right; rewrite app_nil_r; by apply prefix_app_r|]. left. exists more.
        apply Forall_app in Hwf as [_ [Hg _]%Forall_cons_iff]. cbn [concat] in Hsm. rewrite <- app_assoc in Hsm.
        rewrite Hsm in Hbs. injection Hbs as <- <-. rewrite next_frame_app in Hf by done. injection Hf as <- <-.
        split; [by rewrite <- app_assoc | done].
      * right. by apply prefix_app_r.
    + destruct r as [out|].
      * exists (chunks ++ [part]). rewrite Hout, Hc, concat_app. cbn [concat]. rewrite app_nil_r, <- app_assoc. split; [done|].
        apply Forall2_app; [done|]. by apply Forall2_cons_2.
      * apply prefix_nil_inv in Hpart as ->. exists chunks. by rewrite Hout, !app_nil_r.
  - rewrite set_line_ne by done. split; [by rewrite app_nil_r|]. exists chunks. split; [done|]. destruct r; by rewrite app_nil_r.
Qed.

Definition lines_ok (s : lines (U:=U)) : Prop := forall fd, byte_line (fst s fd).

Definition serving (ls ls' : lines (U:=U)) : Prop := lines_ok ls' /\ exists sched, serialized ls ls' sched.

Lemma serving_refl ls : lines_ok ls -> serving ls ls.
Proof. intros Hls. split; [done|]. exists []. apply serialized_refl. Qed.

Lemma next_frame_none f rest : well_formed f -> next_frame (f ++ rest) <> NeedMore /\ next_frame (f ++ rest) <> BadLength.
Proof. intros Hf. by rewrite next_frame_app. Qed.
End Serve.

Section Process.
Context {I : Indet} {U : Type} (d : device U) (cfg : mb_tcp_server_config U) `{!Implements (handlers cfg) d}.

Lemma process_line_ok fd ls rc ls' : lines_ok ls -> process_line cfg fd ls = Ok (rc, ls') -> lines_ok ls'.
Proof.
  destruct ls as [ws u]. intros Hls. unfold process_line. pose proof (keeps_process cfg (ws fd, u)) as Hk.
  destruct (server_on_process cfg (ws fd, u)) as [[rc' [w u']]|]; [|done]. intros [= _ <-].
  intros fd'. cbn. unfold set_line. destruct (fd' =? fd); [|apply Hls]. by apply (Hk rc' (w, u') (Hls fd)).
Qed.

(** One call of the server is a step of the schedule. *)
Lemma process_serialized ls fd ws u sched rc w' u' :
  lines_ok (ws, u) -> serialized (srv_unit_id cfg) d ls (ws, u) sched ->
  server_on_process cfg (ws fd, u) = Ok (rc, (w', u')) ->
  exists sched', serialized (srv_unit_id cfg) d ls (set_line fd w' ws, u') sched'.
Proof.
  intros Hls Hser Hrun. pose proof (server_on_process_run cfg d (ws fd) u (Hls fd)) as Hp. unfold process_result in Hp.
  rewrite Hrun in Hp. destruct (stream (rx (ws fd))) as [bs closed] eqn:Hbs.
  assert (forall r', next_frame bs = NeedMore \/ next_frame bs = BadLength -> exists sched',
    serialized (srv_unit_id cfg) d ls (set_line fd (set_rx r' (ws fd)) ws, u) sched') as Hbroken.
  { intros r' Hn. exists sched. apply serialized_broken; [done|]. intros f rest closed' Hs Hf.
    rewrite Hs in Hbs. injection Hbs as <- <-. destruct (next_frame_none f rest Hf), Hn; done. }
  destruct (next_frame bs) as [| |f rest] eqn:Hf.
  - destruct closed; [|done]. destruct Hp as (r' & [= -> -> ->]). by apply Hbroken; left.
  - destruct Hp as (r' & [= -> -> ->]). by apply Hbroken; right.
  - destruct Hp as (w1 & (_ & _ & Hw1) & Hs1 & Hreply). exists (sched ++ [(fd, f)]).
    assert (output w1 = output (ws fd)) as Ho1 by (by rewrite Hw1). unfold reply_result in Hreply.
    destruct (tcp_reply (srv_unit_id cfg) d f u) as [[out|] u2] eqn:Hr.
    + destruct (accepts on_signal (tx w1) (zlen out)) as [[]|]; [| |done].
      * destruct Hreply as (w2 & [= -> -> ->] & Hw2 & _).
        eapply (serialized_frame _ _ ls ws u sched fd f w2 out); [done | done | done | done | | | done].
        -- by destruct Hw2 as (tx' & tr & _ & _ & ->).
        -- by rewrite (wrote_output _ _ _ Hw2), Ho1.
      * destruct Hreply as (w2 & part & [= -> -> ->] & Hw2 & Hpart).
        eapply (serialized_frame _ _ ls ws u sched fd f w2 part); [done | done | done | done | | | done].
        -- by destruct Hw2 as (tx' & tr & _ & _ & ->).
        -- by rewrite (wrote_output _ _ _ Hw2), Ho1.
    + injection Hreply as -> -> ->.
      eapply (serialized_frame _ _ ls ws u sched fd f w1 []); [done | done | done | done | done | | done].
      by rewrite app_nil_r.
Qed.

Lemma process_line_wp ls fd s :
  serving (srv_unit_id cfg) d ls s -> wp (process_line cfg fd) (fun _ => serving (srv_unit_id cfg) d ls) s.
Proof.
  destruct s as [ws u]. intros [Hls (sched & Hser)]. unfold wp.
  pose proof (fun rc ls' => process_line_ok fd (ws, u) rc ls' Hls) as Hok. unfold process_line in *.
  pose proof (tcp_call_bounded cfg d (ws fd) u (Hls fd)) as Hb.
  pose proof (fun rc w' u' => process_serialized ls fd ws u sched rc w' u' Hls Hser) as Hs.
  destruct (server_on_process cfg (ws fd, u)) as [[rc [w u']]|]; [|done].
  split; [by eapply Hok | by eapply Hs].
Qed.
End Process.
