(* ===== verification/TcpPortTheorems.v ===== *)
(** * Properties of the TCP transport *)

From stdpp Require Import gmap strings.
From S2P Require Import Prelude Buffer Defines Pdu PduSpec PduClient Bank Ptr Tcp Sys Keeps TcpServer TcpServerSpec TcpServerTheorems TcpClient Kernel TcpPort TcpThread TcpThreadSpec TcpPortSpec TcpClientThreadSpec TcpServerPort TcpServeSpec.

(** ** The life of a server *)

Section Life.
Context {I : Indet} {U : Type} (d : device U).

(** A server that has started: no slot is taken, nothing has been reported. *)
Lemma server_started_ok base config r k :
  server_started base config r k -> links k = links base -> fst r = 0 ->
  exists c, snd r = Some c /\ server_ok base (server_cap config) (has_on_link config) c k.
Proof.
  intros (c & Hc & [(-> & _)|(_ & Hi & Hcfg & Hfds)]) Hl Hr; [done|]. exists c. split; [done|]. split; [done|].
  split; [|by rewrite Hcfg]. exists ∅. split; [exists []; rewrite app_nil_r; by destruct (has_on_link _)|].
  intros fd. split; [by intros ?%elem_of_empty|]. intros (i & Hs & Hpos). rewrite Hfds in Hs.
  apply lookup_replicate in Hs as [-> _]. lia.
Qed.

(** Of the connections only those that had come up went down: at the end [up]
    are left. *)
Definition links_fit (k k' : kernel) (up : gset Z) : Prop :=
  exists ls, links k' = links k ++ ls /\ link_walk ∅ ls = Some up.

(** While the thread runs: every open connection has one slot, the process holds
    what it held before, the listening socket and the slots, and the application
    has been told of exactly these connections that they are up. *)
Record slots_agree (base : kernel) (on_link : bool) (c : mb_tcp_ctx) (k : kernel) : Prop := SlotsAgree {
  agree_distinct : forall i j fd, client_fds c !! i = Some fd -> client_fds c !! j = Some fd -> 0 <= fd -> i = j;
  agree_new : listen_sock c ∉ fds base /\ ~ in_slot c (listen_sock c) /\ forall fd, in_slot c fd -> fd ∉ fds base;
  agree_fds : forall fd, fd ∈ fds k <-> fd ∈ fds base \/ fd = listen_sock c \/ in_slot c fd;
  agree_links : exists up, links_fit base k up /\ forall fd, fd ∈ up <-> on_link = true /\ in_slot c fd;
}.

Lemma server_ok_agree base cap on_link c k : server_ok base cap on_link c k -> slots_agree base on_link c k.
Proof.
  intros (Hi & (up & (ls & Hl & Hw) & Hup) & Hcb). pose proof Hi as [_ [_ Hlb] Hsl Hdis Hf _]. split; [done| |done|].
  - split; [done|]. split; [|by intros fd (i & Hs & Hpos); apply (Hsl i fd)].
    intros (i & Hs & Hpos). by destruct (Hsl i _ Hs Hpos) as (_ & _ & []).
  - rewrite Hcb in Hw. eexists. split; [by exists ls|]. intros fd. destruct on_link; [rewrite Hup; tauto | set_solver].
Qed.

(** At the end: connections that were still up were closed, and not reported. *)
Definition left_up (base : kernel) (on_link : bool) (k : kernel) : Prop :=
  exists up, links_fit base k up /\ (on_link = false -> up = ∅) /\ up ## fds k.

Lemma agree_left base on_link c k k' :
  slots_agree base on_link c k -> links k' = links k -> fds k' = fds base -> left_up base on_link k'.
Proof.
  intros [_ (_ & _ & Hnew) _ (up & (ls & Hl & Hw) & Hup)] Hk Hf. exists up. split; [exists ls; by rewrite Hk|]. split.
  - intros ->. apply set_eq. intros fd. rewrite Hup. set_solver.
  - rewrite Hf. intros fd [_ Hs]%Hup Hin. by apply (Hnew fd).
Qed.

Lemma tcp_stop_wp base cap on_link cfg `{!Implements (handlers cfg) d} rounds c k ls0 ls :
  sane_base base -> 0 < cap -> server_ok base cap on_link c k -> serving (srv_unit_id cfg) d ls0 ls ->
  wp (mb_tcp_server_stop (Some (Server c cfg)) rounds)
    (fun s st => account (fst st) = account base /\ left_up base on_link (fst st) /\
      (exists t, s = Some t /\ initialized (transport t) = 0) /\ serving (srv_unit_id cfg) d ls0 (snd st)) (k, ls).
Proof.
  intros Hb Hcap Hok Hls. pose proof Hok as [Hi _]. apply wp_bind. unfold mb_tcp_stop. cbn [transport server_cfg].
  destruct (inv_rest _ _ _ _ Hi) as (_ & Hini & _). rewrite Hini. cbn [Z.eqb].
  apply wp_bind, wp_on_fst. eapply wp_mono; [by apply stop_request_wp|]. cbn beta. intros c1 k1 [Hok1 _].
  apply wp_bind, wp_bind. eapply wp_mono.
  { apply (server_thread_wp (process_line cfg) _ (fun fd s => process_line_wp d cfg ls0 fd s) base cap on_link).
    split; [exact Hok1 | exact Hls]. }
  cbn beta. intros [running c2] [k2 ls2] [Hok2 Hls2]. cbn [fst snd] in *. destruct running; [done|].
  pose proof (server_ok_agree _ _ _ _ _ Hok2) as Hagree. destruct Hok2 as [Hi2 _].
  apply wp_ret. pose proof (inv_rest _ _ _ _ Hi2) as (_ & _ & _ & Ht & _). destruct Hb as (Hb1 & Hb2 & Hb3).
  apply wp_bind, wp_on_fst, wp_release; [lia|].
  apply wp_bind, wp_on_fst. eapply wp_mono.
  { apply (wp_keeps (fun k => links k = links k2)); [apply (keeps_stop_release _) | done|].
    apply (stop_release_wp base cap); [done | done|]. eapply inv_account; [exact Hi2|]. apply account_iff. cbn. split_and!; try done. lia. }
  cbn beta. intros c3 k3 [(Ha & Hi3 & _) He]. apply wp_ret, wp_ret. split; [done|].
  split; [|split; [by eexists | done]]. eapply agree_left; [exact Hagree | exact He | apply account_iff in Ha as (Hf & _); exact Hf].
Qed.

Definition clean_stop (on_link : bool) (k : kernel) (r : Z * option (mb_tcp_server U)) (k' : kernel) : Prop :=
  account k' = account k /\ left_up k on_link k' /\ (fst r = 0 \/ fst r = -1) /\
  exists s, snd r = Some s /\ initialized (transport s) = 0.

Lemma kept_implements (cfg : mb_tcp_server_config U) : Implements (handlers cfg) d -> Implements (handlers (kept_config cfg)) d.
Proof. unfold kept_config. by destruct (_ =? 0). Qed.

Lemma kept_unit (cfg : mb_tcp_server_config U) : srv_unit_id (kept_config cfg) = srv_unit_id cfg.
Proof. unfold kept_config. by destruct (_ =? 0). Qed.

(** A server that runs, or one that has not started. *)
Definition server_up (cfg : mb_tcp_server_config U) (on_link : bool) (k : kernel)
    (r : Z * option (mb_tcp_server U)) (k' : kernel) : Prop :=
  exists t, snd r = Some t /\ server_cfg t = kept_config cfg /\
    ((fst r = -1 /\ initialized (transport t) = 0 /\ account k' = account k /\ links k' = links k) \/
     (fst r = 0 /\ server_ok k (server_cap (transport_config cfg on_link)) on_link (transport t) k')).

Lemma server_running_wp (s : mb_tcp_server U) (cfg : mb_tcp_server_config U)
    `{!Implements (handlers cfg) d} on_link rounds k ls :
  sane_base k -> initialized (transport s) = 0 -> is_u16 (srv_max_clients cfg) -> listen_fits k -> lines_ok ls ->
  wp (server_running s cfg on_link rounds)
    (fun r st => server_up cfg on_link k r (fst st) /\ serving (srv_unit_id cfg) d ls (snd st)) (k, ls).
Proof.
  intros Hk Hi Hmax Hfits Hls. pose proof (kept_implements cfg _) as Himp.
  apply wp_bind, wp_on_fst. unfold mb_tcp_server_start. rewrite Hi. cbn [Z.eqb negb]. apply wp_bind.
  eapply wp_mono; [apply (wp_keeps (fun k' => links k' = links k)); [apply (keeps_start _) | done | by apply start_server_wp]|].
  cbn beta. intros [rc t] k1 [Hst Hl]. apply wp_ret. pose proof (server_started_ok _ _ _ _ Hst Hl) as Hok.
  destruct Hst as (c & Hc & Hst). cbn [fst snd] in *. subst t.
  cbn [default from_option id]. destruct Hst as [(-> & Hini & Ha)|(-> & _)]; cbn [Z.eqb].
  { apply wp_ret. split; [|by apply serving_refl]. eexists. split; [done|]. split; [done|]. by left. }
  destruct (Hok eq_refl) as (c' & [= <-] & Hok'). cbn [server_cfg transport]. apply wp_bind. eapply wp_mono.
  { apply (server_thread_wp (process_line (kept_config cfg)) _ (fun fd s => process_line_wp d (kept_config cfg) ls fd s) k
      (server_cap (transport_config cfg on_link)) on_link). split; [exact Hok' | by apply serving_refl]. }
  cbn beta. intros [running c2] [k2 ls2] [Hi2 Hls2]. rewrite kept_unit in Hls2. apply wp_ret.
  split; [|exact Hls2]. eexists. split; [done|]. split; [done|]. by right.
Qed.

Lemma server_life_wp (s : mb_tcp_server U) (cfg : mb_tcp_server_config U)
    `{!Implements (handlers cfg) d} on_link rounds rounds' k ls :
  sane_base k -> initialized (transport s) = 0 -> is_u16 (srv_max_clients cfg) -> listen_fits k -> lines_ok ls ->
  wp (server_life s cfg on_link rounds rounds')
    (fun r st => clean_stop on_link k r (fst st) /\ serving (srv_unit_id cfg) d ls (snd st)) (k, ls).
Proof.
  intros Hk Hi Hmax Hfits Hls. pose proof (server_cap_pos (transport_config cfg on_link) Hmax) as Hcap.
  pose proof (kept_implements cfg _) as Himp. apply wp_bind. eapply wp_mono; [by apply server_running_wp|].
  cbn beta. intros [rc s2] [k2 ls2] [(t & Ht & Hcfg & Hst) Hser]. cbn [fst snd] in *. subst s2.
  destruct Hst as [(-> & Hini & Ha & Hl)|(-> & Hok)]; cbn [Z.eqb].
  { apply wp_ret. split; [|done]. split; [done|]. split; [|split; [by right | by eexists]].
    exists ∅. split; [exists []; by rewrite app_nil_r|]. split; [done | set_solver]. }
  destruct t as [c cfg']. cbn [transport server_cfg] in *. subst cfg'. rewrite <- kept_unit in Hser. apply wp_bind.
  eapply wp_mono; [by apply (tcp_stop_wp k (server_cap (transport_config cfg on_link)) on_link)|].
  cbn beta. intros s3 [k3 ls3] (Ha & Hf & (t & -> & Hini) & Hser3). rewrite kept_unit in Hser3. apply wp_ret.
  split; [|exact Hser3]. split; [done|]. split; [done|]. split; [by left | by exists t].
Qed.
End Life.

(** C12. The whole life of a TCP server, for every behaviour of the operating
    system, the peers and the moments at which the thread sees the flag.  After
    the start and any number of rounds of the thread, which accepts, checks and
    serves connections with [server_on_process], slots, descriptors and link
    calls agree: the open connections have one slot each, the descriptors that
    were not open before are the listening socket and those in the slots, and the
    connections for which [on_link] said up and not yet down are exactly those in
    the slots.  The whole life, with [mb_tcp_server_stop] and what the thread
    still does after it, uses no descriptor, lock, thread or memory that is not
    live, never leaves the array of slots, and never puts a descriptor into a
    [fd_set] that it does not fit.  In the end the process holds exactly what it
    held before, whether the start failed half-way or the server ran, and the
    context can be started again.  [on_link] has reported up only new connections
    and down only those that were up; the connections that are open when the
    server stops are closed without a call, so for them the last call says up. *)
Theorem tcp_server_life `{Indet} {U} (d : device U) (s : mb_tcp_server U) (cfg : mb_tcp_server_config U)
    `{!Implements (handlers cfg) d} on_link rounds rounds' k ls :
  sane_base k -> initialized (transport s) = 0 -> is_u16 (srv_max_clients cfg) -> listen_fits k -> lines_ok ls ->
  wp (server_running s cfg on_link rounds)
    (fun r st => fst r = 0 -> exists t, snd r = Some t /\ slots_agree k on_link (transport t) (fst st)) (k, ls) /\
  wp (server_life s cfg on_link rounds rounds') (fun r st => clean_stop on_link k r (fst st)) (k, ls).
Proof.
  intros. split.
  - eapply wp_mono; [by apply (server_running_wp d)|]. cbn beta. intros r st [(t & Ht & _ & Hup) _] Hr. exists t. split; [done|].
    destruct Hup as [(Hr' & _)|[_ Hok]]; [congruence | by eapply server_ok_agree].
  - eapply wp_mono; [by apply (server_life_wp d)|]. by intros r st [? _].
Qed.

(** C4. A server serves many connections at once as if they came one after the
    other: for every life of the server, the requests it has served form one
    schedule, the application ends in the state of the sequential run of the
    abstract server over that schedule, and every connection has been sent its
    own replies of that run, in order (the last one in part if the connection
    broke); the requests served on a connection are the next ones of its byte
    stream, in order and without gaps, however the stream is cut into reads and
    whatever the other connections do. *)
Theorem tcp_server_serializes `{Indet} {U} (d : device U) (s : mb_tcp_server U) (cfg : mb_tcp_server_config U)
    `{!Implements (handlers cfg) d} on_link rounds rounds' k ls :
  sane_base k -> initialized (transport s) = 0 -> is_u16 (srv_max_clients cfg) -> listen_fits k -> lines_ok ls ->
  wp (server_life s cfg on_link rounds rounds')
    (fun _ st => exists sched, serialized (srv_unit_id cfg) d ls (snd st) sched) (k, ls).
Proof. intros. eapply wp_mono; [by apply (server_life_wp d)|]. by intros r st (_ & _ & Hser). Qed.

#[local] Instance junk : Indet := fun i => 7 + 5 * Z.of_nat i.
#[local] Instance bank_served unit_id : Implements (handlers (bank_config unit_id)) bank_device := bank_implements.

Definition std_fds : gset Z := list_to_set [0; 1; 2].

(** Standard input and output are open, the listening socket gets number 3, the
    first connection number 4. *)
Definition calm_kernel : kernel :=
  Kernel std_fds 0 0 0 (inl 0 :: inl 0 :: inl 3 :: replicate 4 (inl 0) ++ inl 4 :: replicate 20 (inl 0)) [].

Definition idle_server : mb_tcp_server bank := Server zero_transport (bank_config 1).

(** The peer of connection 4 sends a request for registers 10 and 11. *)
Definition one_peer : lines (U:=bank) :=
  (fun fd => if fd =? 4 then sample_world [RxData [0; 7; 0; 0; 0; 6; 1; 3; 0; 10; 0; 2]] [TxTakes 100]
             else sample_world [] [], sample_bank).

(** It connects, asks, and is there until the stop. *)
Definition one_client : outcome ((Z * option (mb_tcp_server bank)) * (kernel * lines (U:=bank))) :=
  server_life idle_server (bank_config 1) true [(1, Selected [3]); (1, Selected [4])] [(0, Selected [])]
    (calm_kernel, one_peer).

(** The server starts, accepts, answers, and stops; the connection that is open
    when it stops is not reported down. *)
Example one_client_served :
  match one_client with
  | Ok ((rc, _), (k, (ws, _))) => rc = 0 /\ links k = [LinkChanged 4 1] /\
      output (ws 4) = [0; 7; 0; 0; 0; 7; 1; 3; 4; 3; 242; 3; 243] /\ fds k = std_fds
  | Fail _ => False
  end.
Proof. vm_compute. done. Qed.

(** A peer that has hung up is found when nothing happens, and is reported. *)
Example dead_client_dropped :
  match server_life idle_server (bank_config 1) true [(1, Selected [3]); (1, Selected [])] [(0, Selected [])]
          (calm_kernel, one_peer) with
  | Ok ((rc, _), (k, _)) => rc = 0 /\ links k = [LinkChanged 4 1; LinkChanged 4 0]
  | Fail _ => False
  end.
Proof. vm_compute. done. Qed.

Lemma calm_fits : listen_fits calm_kernel.
Proof. intros a b n l [= <- <- <- _]. done. Qed.

Lemma one_peer_ok : lines_ok one_peer.
Proof.
  intros fd. cbn. destruct (fd =? 4); [|apply List.Forall_nil].
  apply List.Forall_cons; [by zforall | apply List.Forall_nil].
Qed.

Lemma tcp_server_life_witness :
  wp (server_running idle_server (bank_config 1) true [(1, Selected [3]); (1, Selected [4])])
    (fun r st => fst r = 0 -> exists t, snd r = Some t /\ slots_agree calm_kernel true (transport t) (fst st))
    (calm_kernel, one_peer) /\
  wp (server_life idle_server (bank_config 1) true [(1, Selected [3]); (1, Selected [4])] [(0, Selected [])])
    (fun r st => clean_stop true calm_kernel r (fst st)) (calm_kernel, one_peer).
Proof.
  apply (tcp_server_life bank_device).
  - apply bank_served.
  - split; [|split]; by vm_compute.
  - done.
  - by vm_compute.
  - apply calm_fits.
  - apply one_peer_ok.
Defined.

(** After these rounds the server runs and connection 4 is in its slot. *)
Example one_client_running :
  match server_running idle_server (bank_config 1) true [(1, Selected [3]); (1, Selected [4])] (calm_kernel, one_peer) with
  | Ok ((rc, Some t), (k, _)) => rc = 0 /\ in_slot (transport t) 4 /\ links k = [LinkChanged 4 1]
  | _ => False
  end.
Proof. vm_compute. split; [done|]. split; [|done]. by exists 0%nat. Qed.

(** Two connections: the first writes 77 into register 10, the second reads it. *)
Definition busy_kernel : kernel :=
  Kernel std_fds 0 0 0
    (inl 0 :: inl 0 :: inl 3 :: replicate 4 (inl 0) ++ inl 4 :: replicate 5 (inl 0) ++ inl 5 :: replicate 5 (inl 0)) [].

Definition two_peers : lines (U:=bank) :=
  (fun fd => if fd =? 4 then sample_world [RxData [0; 1; 0; 0; 0; 6; 1]; RxData [6; 0; 10; 0; 77]] [TxTakes 100]
             else if fd =? 5 then sample_world [RxData [0; 9; 0; 0; 0; 6; 1; 3; 0; 10; 0; 1]] [TxTakes 100]
             else sample_world [] [], sample_bank).

Definition busy_rounds : list (Z * selection) := [(1, Selected [3]); (1, Selected [3; 4]); (1, Selected [5])].

Example two_peers_served :
  match server_life idle_server (bank_config 1) false busy_rounds [(0, Selected [])] (busy_kernel, two_peers) with
  | Ok (_, (k, (ws, _))) => output (ws 4) = [0; 1; 0; 0; 0; 6; 1; 6; 0; 10; 0; 77] /\
      output (ws 5) = [0; 9; 0; 0; 0; 5; 1; 3; 2; 0; 77] /\ fds k = std_fds
  | Fail _ => False
  end.
Proof. vm_compute. done. Qed.

Lemma two_peers_ok : lines_ok two_peers.
Proof.
  intros fd. cbn. destruct (fd =? 4); [|destruct (fd =? 5)];
    repeat (apply List.Forall_cons; [by zforall|]); apply List.Forall_nil.
Qed.

Lemma tcp_server_serializes_witness :
  wp (server_life idle_server (bank_config 1) false busy_rounds [(0, Selected [])])
    (fun _ st => exists sched, serialized 1 bank_device two_peers (snd st) sched) (busy_kernel, two_peers).
Proof.
  apply (tcp_server_serializes bank_device idle_server (bank_config 1)).
  - split; [|split]; by vm_compute.
  - done.
  - by vm_compute.
  - by intros a b n l [= <- <- <- _].
  - apply two_peers_ok.
Defined.

(** ** The life of a transport that connects *)

(** C14. The same for a transport that connects (every mode but the server's),
    with any [on_process]: start, the thread with its attempts to connect, its
    pauses and its connection, and stop at any moment use nothing that is not
    live and leave nothing behind; moreover [on_link] has been called in pairs:
    every connection that was reported up has been reported down. *)
Theorem tcp_client_life {U} (on_process : Z -> st U Z) (J : U -> Prop) c config rounds rounds' k u :
  (forall fd u, J u -> wp (on_process fd) (fun _ => J) u) -> J u ->
  sane_base k -> initialized c = 0 -> mode config <> MB_TCP_MODE_LISTEN_SERVER -> small k ->
  wp (client_life on_process c config rounds rounds')
    (fun r s => account (fst s) = account k /\ links_fit k (fst s) ∅ /\ J (snd s) /\ (fst r = 0 \/ fst r = -1) /\
      exists t, snd r = Some t /\ initialized t = 0) (k, u).
Proof.
  intros Hp Hu Hk Hi Hmode Hsm. apply wp_bind, wp_on_fst.
  eapply wp_mono; [apply (wp_keeps small); [apply (keeps_start _) | done | by apply start_client_wp]|].
  cbn beta. intros [rc t] k1 [(c1 & Hc & Hst) Hsm1]. cbn [fst snd] in *. subst t.
  destruct Hst as [(-> & Hini & Ha & Hl)|[-> Hcl]]; cbn [Z.eqb].
  { apply wp_ret. split_and!; [done | exists []; by rewrite app_nil_r | done | by right | by eexists]. }
  apply wp_bind. eapply wp_mono; [by apply (client_thread_wp on_process J Hp k)|].
  cbn beta. intros [running c2] [k2 u2] Hok2. cbn [fst snd] in Hok2. apply wp_bind. unfold mb_tcp_stop.
  pose proof Hok2 as ([_ (_ & _ & _ & _ & Hini) _ _ _] & _). rewrite Hini. cbn [Z.eqb].
  destruct Hok2 as (Hi2 & Hsm2 & Hu2). cbn [fst snd] in *.
  apply wp_bind, wp_on_fst. eapply wp_mono; [by apply client_stop_request_wp|].
  cbn beta. intros c3 k3 [Hi3 Hsm3]. apply wp_bind.
  apply (wp_mono _ (fun c s => client_ok J k (stream_sock c) (-1) c s)).
  { pose proof (cli_ctx _ _ _ _ _ Hi3) as [Hst3 _]. destruct running; [|by apply wp_ret; rewrite Hst3].
    apply wp_bind. eapply wp_mono; [apply (client_thread_wp on_process J Hp k); by rewrite Hst3|].
    cbn beta. intros [running c4] s4 Hok4. cbn [fst snd] in Hok4. destruct running; [done | by apply wp_ret]. }
  cbn beta. intros c4 [k4 u4] (Hi4 & _ & Hu4). cbn [fst snd] in *.
  pose proof (cli_rest _ _ _ _ _ Hi4) as (_ & Ht & _). destruct Hk as (Hk1 & Hk2 & Hk3).
  apply wp_bind, wp_on_fst, wp_release; [lia|]. apply wp_bind, wp_on_fst. eapply wp_mono.
  { apply (client_stop_release_wp k (stream_sock c4) c4); [done|]. eapply client_quiet; [exact Hi4|]. split; [|done].
    apply account_iff. cbn. split_and!; try done. lia. }
  cbn beta. intros c5 k5 (Ha & Hi5 & Hf). apply wp_ret, wp_ret.
  split_and!; [done | done | done | by left | by eexists].
Qed.

Definition client_config : mb_tcp_config :=
  TcpConfig MB_TCP_MODE_CONNECT_CLIENT (Some "10.0.0.7"%string) 502 None 0 2 0 0 0 0 0 0 true false true true.

(** The callback fails the third time it is run. *)
Definition third_fails (fd : Z) : st Z Z := fun n => Ok (if n =? 2 then -1 else 0, n + 1).

(** Mutex and thread, a first attempt that is refused, a second one that takes
    its time and succeeds. *)
Definition slow_kernel : kernel :=
  Kernel std_fds 0 0 0
    ([inl 0; inl 0] ++ [inl 3; inl 0; inl 0; inl 0; inl 1; inl 0; inl 0; inr (EOTHER 111)] ++
     [inl 5; inl 0; inl 0; inl 0; inl 1; inl 0; inl 0; inr (EOTHER 115); inl 1; inl 0; inl 0]) [].

Definition slow_rounds : list (Z * list Z) := [(1, [1; 1]); (1, []); (1, []); (1, [])].

Example slow_life :
  match client_life third_fails zero_transport client_config slow_rounds [(0, [])] (slow_kernel, 0) with
  | Ok ((rc, _), (k, n)) => rc = 0 /\ n = 3 /\ fds k = std_fds /\
      events k = attempt 3 (remote_host client_config) 502 5 ++ [ErrorCalled 0; Paused; Paused] ++
        attempt 5 (remote_host client_config) 502 5 ++ [BlockingAgain 5; LinkChanged 5 1; ErrorCalled 1; Paused; Paused;
        LinkChanged 5 0; ErrorCalled 0]
  | Fail _ => False
  end.
Proof. vm_compute. done. Qed.

Lemma slow_small : small slow_kernel.
Proof. unfold small. cbn [slow_kernel answers app]. repeat (apply List.Forall_cons; [by vm_compute|]). apply List.Forall_nil. Qed.

Lemma tcp_client_life_witness :
  wp (client_life third_fails zero_transport client_config slow_rounds [(0, [])])
    (fun r s => account (fst s) = account slow_kernel /\ links_fit slow_kernel (fst s) ∅ /\ True /\ (fst r = 0 \/ fst r = -1) /\
      exists t, snd r = Some t /\ initialized t = 0) (slow_kernel, 0).
Proof.
  apply (tcp_client_life third_fails (fun _ => True)).
  - done.
  - done.
  - split; [|split]; by vm_compute.
  - done.
  - done.
  - apply slow_small.
Defined.

(** ** A connection of a client *)

(** C16. Connecting a client either returns 0 with a new socket, connected to
    the configured host and port, in blocking mode and with the response timeout
    set, and a mutex, and then disconnecting
    shuts the socket down and gives everything back; or it returns -1, holds
    nothing (what was made on the way is given back) and disconnecting does
    nothing.  No call uses a descriptor that is not open, and none is put into
    a [fd_set] it does not fit. *)
Theorem tcp_client_connection c cfg k :
  cli_initialized c = 0 -> 0 <= locks k ->
  (forall a n l, answers k = a :: inl n :: l -> n < FD_SETSIZE) ->
  wp (mb_tcp_client_connect (Some c) (Some cfg)) (fun r k1 =>
    (exists n, connected_client cfg k n r k1 /\
      wp (mb_tcp_client_disconnect (snd r)) (fun ctx k2 => ctx = Some (CliCtx (-1) 0 0 cfg) /\
        account k2 = account k /\ events k2 = events k1 ++ [ShutDown n]) k1) \/
    (fst r = -1 /\ account k1 = account k /\ mb_tcp_client_disconnect (snd r) k1 = Ok (snd r, k1))) k.
Proof.
  intros Hi Hlk Hsmall. eapply wp_mono; [by apply tcp_client_connect_wp|]. cbn beta.
  intros r k1 [(n & Hn)|(Hrc & Ha & c' & Hc & Hi')].
  - left. exists n. split; [done|]. destruct Hn as (-> & [Hn _] & Hfr & Ha & _).
    eapply wp_mono; [by apply (tcp_client_disconnect_wp _ k)|]. cbn beta. intros ctx k2 (-> & Ha2 & He2). auto.
  - right. split; [done|]. split; [done|]. rewrite Hc. cbn [mb_tcp_client_disconnect]. by rewrite Hi'.
Qed.

Definition new_client : mb_tcp_client_ctx := CliCtx 0 0 0 (CliConfig None 0 None 0 0 0).
Definition far_config : mb_tcp_client_config := CliConfig (Some "10.0.0.7"%string) 502 None 1 0 2500.
Definition quick_kernel : kernel :=
  Kernel std_fds 0 0 0 [inl 0; inl 7; inl 0; inl 0; inl 0; inl 1; inl 0; inl 0; inl 0; inl 0; inl 0] [].

Lemma tcp_client_connection_witness :
  wp (mb_tcp_client_connect (Some new_client) (Some far_config)) (fun r k1 =>
    (exists n, connected_client far_config quick_kernel n r k1 /\
      wp (mb_tcp_client_disconnect (snd r)) (fun ctx k2 => ctx = Some (CliCtx (-1) 0 0 far_config) /\
        account k2 = account quick_kernel /\ events k2 = events k1 ++ [ShutDown n]) k1) \/
    (fst r = -1 /\ account k1 = account quick_kernel /\ mb_tcp_client_disconnect (snd r) k1 = Ok (snd r, k1))) quick_kernel.
Proof.
  apply (tcp_client_connection new_client far_config quick_kernel).
  - done.
  - by vm_compute.
  - by intros a n l [= _ <- _].
Defined.

(** The connection is made: socket 7, with a response timeout of 2.5 s. *)
Example quick_connect :
  match mb_tcp_client_connect (Some new_client) (Some far_config) quick_kernel with
  | Ok (r, k) => r = (0, Some (CliCtx 7 0 1 far_config)) /\
      events k = attempt 7 (cli_remote_host far_config) 502 5 ++ [BlockingAgain 7; RecvTimeoutSet 7 2 500000]
  | Fail _ => False
  end.
Proof. vm_compute. done. Qed.

(** ** A signal during select *)

(** C40. A select that a signal interrupts ([EINTR]) is taken for one that found
    every watched descriptor readable: the round goes on with the set it had
    asked for.  So without any peer the thread sits in [accept] (until one
    connects), and the callback is run on connections that have sent nothing. *)
Theorem tcp_server_interrupted {U} (on_process : Z -> st U Z) c readfds s :
  watched c = Ok readfds -> readfds ⊆ fds (fst s) ->
  server_round on_process (SelectFailed EINTR) c s = server_round on_process (Selected (elements readfds)) c s /\
  (answers (fst s) = [] -> server_round on_process (SelectFailed EINTR) c s = Fail Blocked).
Proof.
  intros Hw Hopen. assert (0 <= listen_sock c /\ listen_sock c ∈ readfds) as [Hpos Hin] by by eapply watched_listen.
  destruct s as [k u]. unfold server_round, bind, get. rewrite Hw. cbn [lift fst snd] in *.
  rewrite !bool_decide_true by done. cbn [negb]. split.
  - rewrite list_to_set_elements_L, bool_decide_false by set_solver. by rewrite intersection_idemp_L.
  - intros Hnone. unfold serve_ready, bind. rewrite (proj2 (Z.leb_le _ _)) by done. rewrite bool_decide_true by done.
    cbn [andb]. unfold on_fst, accept_client, sys_accept, bind, get. rewrite bool_decide_true by set_solver.
    unfold sys_open, bind, answer. by rewrite Hnone.
Qed.

(** Listening on 3, connection 4 in the second slot. *)
Definition waiting_ctx : mb_tcp_ctx :=
  TcpCtx 1 0 (TcpConfig 0 None 502 None 5 3 0 2 0 0 0 0 false false true false) 3 (-1) [-1; 4] 2 1.
Definition waiting_kernel : kernel := Kernel (list_to_set [3; 4]) 1 1 1 [] [].

Lemma tcp_server_interrupted_witness :
  server_round third_fails (SelectFailed EINTR) waiting_ctx (waiting_kernel, 0) = Fail Blocked.
Proof.
  apply (tcp_server_interrupted third_fails waiting_ctx (list_to_set [4; 3]) (waiting_kernel, 0)).
  - reflexivity.
  - apply (bool_decide_unpack _). by vm_compute.
  - done.
Defined.
