(* ===== verification/Ends.v ===== *)
(** * What a computation that ends leaves

    [ends m Q s]: if [m] ends from [s], its result and the state it leaves are
    in [Q]; nothing is said about a computation that does not end.  And the calls
    that leave the descriptors of the process alone. *)

From stdpp Require Import gmap strings.
From S2P Require Import Prelude Buffer Sys Keeps Tcp Kernel TcpPort.

Definition ends {S A} (m : st S A) (Q : A -> S -> Prop) (s : S) : Prop :=
  forall a s', m s = Ok (a, s') -> Q a s'.

Lemma ends_ret {S A} (a : A) Q (s : S) : Q a s -> ends (ret a) Q s.
Proof. by intros HQ ? ? [= <- <-]. Qed.

Lemma ends_stop {S A} e (Q : A -> S -> Prop) (s : S) : ends (stop e) Q s.
Proof. by intros ? ?. Qed.

Lemma ends_get {S} (Q : S -> S -> Prop) (s : S) : Q s s -> ends get Q s.
Proof. by intros HQ ? ? [= <- <-]. Qed.

Lemma ends_bind {S A B} (m : st S A) (f : A -> st S B) Q s :
  ends m (fun a => ends (f a) Q) s -> ends (bind m f) Q s.
Proof. intros Hm b s' (a & s1 & E & Hf)%bind_inv. by apply (Hm a s1). Qed.

Lemma ends_mono {S A} (m : st S A) (P Q : A -> S -> Prop) s :
  ends m P s -> (forall a s', P a s' -> Q a s') -> ends m Q s.
Proof. intros Hm HQ a s' E. by apply HQ, Hm. Qed.

Lemma ends_lift {S A} (o : outcome A) Q (s : S) : (forall a, o = Ok a -> Q a s) -> ends (lift o) Q s.
Proof. intros HQ a s'. unfold lift. destruct o; [|done]. intros [= <- <-]. by apply HQ. Qed.

Lemma ends_on_fst {A B W} (m : st B A) Q (b : B) (w : W) :
  ends m (fun a b' => Q a (b', w)) b -> ends (on_fst m) Q (b, w).
Proof. intros Hm a [b' w']. unfold on_fst. destruct (m b) as [[? ?]|] eqn:E; [|done]. intros [= <- <- <-]. by apply Hm. Qed.

Lemma ends_on_snd {A B W} (m : st W A) Q (b : B) (w : W) :
  (forall a w', Q a (b, w')) -> ends (on_snd m) Q (b, w).
Proof. intros HQ a [b' w']. unfold on_snd. destruct (m w) as [[? ?]|]; [|done]. intros [= <- <- <-]. apply HQ. Qed.

Lemma ends_each_slot {S A} (f : nat -> A -> st S A) l (P : A -> S -> Prop) a s :
  P a s -> (forall i a s, P a s -> ends (f i a) P s) -> ends (each_slot f l a) P s.
Proof.
  intros Hp Hf. revert a s Hp. induction l as [|i l IH]; intros a s Hp; cbn [each_slot]; [by apply ends_ret|].
  apply ends_bind. eapply ends_mono; [by apply Hf|]. intros a' s'. apply IH.
Qed.

(** ** Calls that leave the descriptors alone *)

Definition same_open (F : gset Z) (k : kernel) : Prop := fds k = F.

Lemma keeps_open_answer F : keeps (same_open F) answer.
Proof. intros k a k' HF. unfold answer. destruct (answers k); [done|]. by intros [= _ <-]. Qed.

Lemma keeps_open_call F fd : keeps (same_open F) (sys_call fd).
Proof. apply keeps_bind; [apply keeps_get|]. intros k. case_bool_decide; [apply keeps_open_answer | apply keeps_stop]. Qed.

Lemma keeps_open_ctl F fd : keeps (same_open F) (sys_ctl fd).
Proof. apply keeps_bind; [apply keeps_open_call|]. intros a. apply keeps_ret. Qed.

Lemma keeps_open_emit F e : keeps (same_open F) (emit e).
Proof. by intros k a k' HF [= _ <-]. Qed.

Lemma keeps_open_shutdown F fd : keeps (same_open F) (sys_shutdown fd).
Proof. intros k a k' HF. unfold sys_shutdown. case_bool_decide; [|done]. by intros [= _ <-]. Qed.

Lemma keeps_open_release F count add : (forall k, fds (add (-1) k) = fds k) -> keeps (same_open F) (release count add).
Proof. intros Ha k a k' HF. unfold release. destruct (_ <? _); [|done]. intros [= _ <-]. unfold same_open. by rewrite Ha. Qed.

#[export] Hint Resolve keeps_open_answer keeps_open_call keeps_open_ctl keeps_open_emit keeps_open_shutdown : keeps.

Lemma keeps_open_link F c fd v : keeps (same_open F) (mb_tcp_link_call c fd v).
Proof. unfold mb_tcp_link_call. keep. Qed.

Lemma keeps_open_error F c v : keeps (same_open F) (error_call c v).
Proof. unfold error_call. keep. Qed.

Lemma keeps_open_configure F c fd : keeps (same_open F) (configure_client_socket c fd).
Proof. unfold configure_client_socket. cbv zeta. keep. Qed.

#[export] Hint Resolve keeps_open_link keeps_open_error keeps_open_configure : keeps.

Lemma ends_same_open {A} (m : st kernel A) (Q : A -> kernel -> Prop) k :
  keeps (same_open (fds k)) m -> (forall a k', fds k' = fds k -> Q a k') -> ends m Q k.
Proof. intros Hm HQ a k' E. apply HQ. by apply (Hm k a k'). Qed.
