(* ===== verification/TcpStop.v ===== *)
(** * [mb_tcp_stop] against the server's thread, step by step

    [TcpThread] takes the request to stop as one step between two rounds.  Here
    every access of [mb_tcp_stop] and of [mb_tcp_server_thread] to
    [keep_running] and [client_fds] is a step of its own, in any interleaving,
    beside threads of the process that open and close descriptors: no lock
    orders them.  What a round does is kept to these accesses: it accepts,
    places or rejects connections and drops those that are over, any number of
    them in any order; a select, an accept or a callback never blocks here, so
    that the shutdown wakes them is not part of it.  A descriptor number belongs to the transport ([ours]),
    to the rest of the process ([foreign]), or is free, and then the system may
    give it out again. *)

From stdpp Require Import gmap relations.
From S2P Require Import Prelude Buffer Sys TcpServer Kernel TcpPort.

(** At the loop's condition, in its body, before [close(sd)], before
    [client_fds[i] = -1], with a new socket in hand, after the loop. *)
Inductive thread_pc := Top | Body | Closing (i : nat) (sd : Z) | Clearing (i : nat) (sd : Z) | Accepted (sd : Z) | Left.

(** Before the call, [keep_running] cleared, before the test of slot [i], before
    the shutdown of slot [i], joined, before the close of slot [i], returned. *)
Inductive stop_pc := Idle | Flagged | Testing (i : nat) | Shutting (i : nat) | Joined | Draining (i : nat) | Stopped.

#[global] Instance thread_pc_eq_dec : EqDecision thread_pc.
Proof. solve_decision. Defined.

Record state := State {
  listen_sock : Z;
  client_fds : list Z;
  keep_running : bool;
  ours : gset Z;
  foreign : gset Z;
  thread : thread_pc;
  stopping : stop_pc;
}.

Definition at_thread (t : thread_pc) (s : state) : state :=
  State (listen_sock s) (client_fds s) (keep_running s) (ours s) (foreign s) t (stopping s).
Definition at_stop (p : stop_pc) (s : state) : state :=
  State (listen_sock s) (client_fds s) (keep_running s) (ours s) (foreign s) (thread s) p.
Definition set_slots (l : list Z) (s : state) : state :=
  State (listen_sock s) l (keep_running s) (ours s) (foreign s) (thread s) (stopping s).
Definition set_flag (b : bool) (s : state) : state :=
  State (listen_sock s) (client_fds s) b (ours s) (foreign s) (thread s) (stopping s).
Definition set_listen (fd : Z) (s : state) : state :=
  State fd (client_fds s) (keep_running s) (ours s) (foreign s) (thread s) (stopping s).
Definition set_table (o f : gset Z) (s : state) : state :=
  State (listen_sock s) (client_fds s) (keep_running s) o f (thread s) (stopping s).

(** [close] frees the number, whoever it belongs to. *)
Definition close (fd : Z) (s : state) : state := set_table (ours s ∖ {[fd]}) (foreign s ∖ {[fd]}) s.

(** What a step does to a descriptor. *)
Inductive action := Quiet | Close (fd : Z) | Shut (fd : Z).

Definition free (fd : Z) (s : state) : Prop := 0 <= fd /\ fd ∉ ours s /\ fd ∉ foreign s.

Inductive thread_step (s : state) : action -> state -> Prop :=
  | thread_enter : thread s = Top -> keep_running s = true -> thread_step s Quiet (at_thread Body s)
  | thread_leave : thread s = Top -> keep_running s = false -> thread_step s Quiet (at_thread Left s)
  | thread_again : thread s = Body -> thread_step s Quiet (at_thread Top s)
  | thread_over i sd : thread s = Body -> client_fds s !! i = Some sd -> 0 <= sd ->
      thread_step s Quiet (at_thread (Closing i sd) s)
  | thread_close i sd : thread s = Closing i sd -> thread_step s (Close sd) (at_thread (Clearing i sd) (close sd s))
  | thread_clear i sd : thread s = Clearing i sd ->
      thread_step s Quiet (at_thread Body (set_slots (<[i := -1]> (client_fds s)) s))
  | thread_accept sd : thread s = Body -> free sd s ->
      thread_step s Quiet (at_thread (Accepted sd) (set_table ({[sd]} ∪ ours s) (foreign s) s))
  | thread_place i sd old : thread s = Accepted sd -> sd < FD_SETSIZE ->
      client_fds s !! i = Some old -> old < 0 -> Forall (fun v => 0 <= v) (take i (client_fds s)) ->
      thread_step s Quiet (at_thread Body (set_slots (<[i := sd]> (client_fds s)) s))
  | thread_reject sd : thread s = Accepted sd -> FD_SETSIZE <= sd \/ Forall (fun v => 0 <= v) (client_fds s) ->
      thread_step s (Close sd) (at_thread Top (close sd s)).

Inductive stop_step (s : state) : action -> state -> Prop :=
  | stop_flag : stopping s = Idle -> stop_step s Quiet (at_stop Flagged (set_flag false s))
  | stop_listen : stopping s = Flagged -> 0 <= listen_sock s ->
      stop_step s (Shut (listen_sock s)) (at_stop (Testing 0) s)
  | stop_test i sd : stopping s = Testing i -> client_fds s !! i = Some sd ->
      stop_step s Quiet (at_stop (if 0 <=? sd then Shutting i else Testing (S i)) s)
  | stop_shut i sd : stopping s = Shutting i -> client_fds s !! i = Some sd ->
      stop_step s (Shut sd) (at_stop (Testing (S i)) s)
  | stop_join : stopping s = Testing (length (client_fds s)) -> thread s = Left -> stop_step s Quiet (at_stop Joined s)
  | stop_close_listen : stopping s = Joined -> 0 <= listen_sock s ->
      stop_step s (Close (listen_sock s)) (at_stop (Draining 0) (set_listen (-1) (close (listen_sock s) s)))
  | stop_skip i sd : stopping s = Draining i -> client_fds s !! i = Some sd -> sd < 0 ->
      stop_step s Quiet (at_stop (Draining (S i)) s)
  | stop_close i sd : stopping s = Draining i -> client_fds s !! i = Some sd -> 0 <= sd ->
      stop_step s (Close sd) (at_stop (Draining (S i)) (close sd s))
  | stop_free : stopping s = Draining (length (client_fds s)) -> stop_step s Quiet (at_stop Stopped (set_slots [] s)).

(** The rest of the process closes only what is its own. *)
Inductive other_step (s : state) : state -> Prop :=
  | other_open fd : free fd s -> other_step s (set_table (ours s) ({[fd]} ∪ foreign s) s)
  | other_close fd : fd ∈ foreign s -> other_step s (close fd s).

Inductive step (s : state) : action -> state -> Prop :=
  | step_thread a s' : thread_step s a s' -> step s a s'
  | step_stop a s' : stop_step s a s' -> step s a s'
  | step_other s' : other_step s s' -> step s Quiet s'.

Definition steps : state -> state -> Prop := rtc (fun s s' => exists a, step s a s').

(** After [mb_tcp_start]: the slots are free, the rest of the process has [f]. *)
Definition started (cap : nat) (listen : Z) (f : gset Z) : state :=
  State listen (replicate cap (-1)) true {[listen]} f Top Idle.

(** ** The invariant *)

(** The slots below are closed. *)
Definition drained (s : state) : nat := match stopping s with Draining i => i | _ => O end.

(** Slot [i] holds the open connection [fd]. *)
Definition live (s : state) (i : nat) (fd : Z) : Prop :=
  client_fds s !! i = Some fd /\ 0 <= fd /\ (drained s <= i)%nat /\ thread s <> Clearing i fd.

(** What the transport has open. *)
Definition holds (s : state) (fd : Z) : Prop :=
  (fd = listen_sock s /\ 0 <= fd) \/ (exists i, live s i fd) \/ thread s = Accepted fd.

Definition joined (p : stop_pc) : bool := match p with Joined | Draining _ | Stopped => true | _ => false end.

(** Where the thread is. *)
Definition thread_ok (s : state) : Prop :=
  match thread s with
  | Closing i sd | Clearing i sd => client_fds s !! i = Some sd /\ 0 <= sd
  | Accepted sd => 0 <= sd /\ sd <> listen_sock s /\ (forall i, client_fds s !! i <> Some sd)
  | Left => keep_running s = false
  | _ => True
  end.

Definition stop_ok (s : state) : Prop :=
  match stopping s with
  | Testing i | Draining i => (i <= length (client_fds s))%nat
  | Shutting i => (i < length (client_fds s))%nat
  | Stopped => client_fds s = []
  | _ => True
  end.

Definition listening (p : stop_pc) : bool := match p with Draining _ | Stopped => false | _ => true end.

Record inv (s : state) : Prop := Inv {
  inv_ours : forall fd, fd ∈ ours s <-> holds s fd;
  inv_apart : ours s ## foreign s;
  inv_distinct : forall i j fd, client_fds s !! i = Some fd -> client_fds s !! j = Some fd -> 0 <= fd -> i = j;
  inv_listen : forall i, 0 <= listen_sock s -> client_fds s !! i <> Some (listen_sock s);
  inv_thread : thread_ok s;
  inv_stop : stop_ok s;
  inv_running : keep_running s = false <-> stopping s <> Idle;
  inv_joined : joined (stopping s) = true -> thread s = Left;
  inv_listening : (0 <= listen_sock s) <-> listening (stopping s) = true;
}.

Lemma started_inv cap listen f : 0 <= listen -> listen ∉ f -> inv (started cap listen f).
Proof.
  intros Hl Hf.
  assert (forall i fd, client_fds (started cap listen f) !! i = Some fd -> fd = -1) as Hslot
    by (cbn; by intros i fd [-> _]%lookup_replicate).
  split; cbn; try done.
  - intros fd. rewrite elem_of_singleton. unfold holds. split; [intros ->; by left|].
    intros [[-> _]|[(i & Hi & Hpos & _)|[=]]]; [done|]. apply Hslot in Hi. lia.
  - set_solver.
  - intros i j fd Hi _ Hpos. apply Hslot in Hi. lia.
  - intros i _ Hi. apply Hslot in Hi. cbn in Hi. lia.
Qed.

(** Points of the thread at which its context is all it holds. *)
Definition plain (t : thread_pc) : bool := match t with Clearing _ _ | Accepted _ => false | _ => true end.

Lemma live_plain s i fd : plain (thread s) = true -> client_fds s !! i = Some fd -> 0 <= fd ->
  (drained s <= i)%nat -> live s i fd.
Proof. intros Hp Hi Hfd Hd. split_and!; [done..|]. by intros E; rewrite E in Hp. Qed.

Lemma inv_at_thread s t :
  inv s -> plain (thread s) = true -> plain t = true -> thread_ok (at_thread t s) ->
  (joined (stopping s) = true -> t = Left) -> inv (at_thread t s).
Proof.
  intros [Ho Ha Hd Hl Ht Hs Hr Hj Hg] Hp Hp' Ht' Hj'. split; try done.
  intros fd. cbn [ours at_thread]. rewrite Ho. unfold holds, live. cbn.
  split; (intros [?|[(i & ? & ? & ? & _)|E]]; [by left| |by rewrite E in *]); right; left; exists i; split_and!; try done.
  - intros E. by rewrite E in Hp'.
  - intros E. by rewrite E in Hp.
Qed.

Lemma not_draining s t : inv s -> thread s = t -> t <> Left -> joined (stopping s) = false /\ drained s = O.
Proof.
  intros Hs Ht Hne. assert (joined (stopping s) = false) as Hj.
  { destruct (joined _) eqn:E; [|done]. by rewrite (inv_joined s Hs E) in Ht. }
  split; [done|]. unfold drained. by destruct (stopping s).
Qed.

Lemma thread_close_inv s i sd :
  inv s -> thread s = Closing i sd -> joined (stopping s) = false -> inv (at_thread (Clearing i sd) (close sd s)).
Proof.
  intros Hs Ht Hnj.
  destruct Hs as [Ho Ha Hd Hl Hok Hs Hr Hj Hg]. unfold thread_ok in Hok. rewrite Ht in Hok. destruct Hok as [Hi Hsd].
  split; try done; cbn [ours foreign close set_table at_thread stopping thread].
  - intros fd. rewrite elem_of_difference, Ho, elem_of_singleton. unfold holds, live. cbn. rewrite Ht. split.
    + intros [[?|[(j & Hj' & ? & ? & _)|[=]]] Hne]; [by left|]. right. left. exists j. split_and!; try done. congruence.
    + intros [[-> ?]|[(j & Hj' & Hpos & Hle & Hne)|[=]]].
      * split; [by left|]. intros E. apply (Hl i); [done | congruence].
      * split; [right; left; exists j; by split_and!|]. intros ->. apply Hne. by rewrite (Hd j i sd).
  - set_solver.
  - congruence.
Qed.

Lemma thread_clear_inv s i sd :
  inv s -> thread s = Clearing i sd -> joined (stopping s) = false ->
  inv (at_thread Body (set_slots (<[i := -1]> (client_fds s)) s)).
Proof.
  intros Hs Ht Hnj.
  destruct Hs as [Ho Ha Hd Hl Hok Hs Hr Hj Hg]. unfold thread_ok in Hok. rewrite Ht in Hok. destruct Hok as [Hi Hsd].
  split; try done; cbn [client_fds set_slots at_thread stopping thread listen_sock].
  - intros fd. cbn [ours set_slots at_thread]. rewrite Ho. unfold holds, live. cbn. rewrite Ht. split.
    + intros [?|[(j & Hj' & ? & ? & Hne)|[=]]]; [by left|]. right. left. exists j.
      rewrite list_lookup_insert_ne by congruence. by split_and!.
    + intros [?|[(j & Hj' & Hpos & Hle & _)|[=]]]; [by left|]. right. left. exists j.
      apply list_lookup_insert_Some in Hj' as [(<- & <- & _)|[Hne Hj']]; [lia|]. split_and!; try done. congruence.
  - intros j k fd [(<- & <- & _)|[_ Hj']]%list_lookup_insert_Some [(<- & E & _)|[_ Hk']]%list_lookup_insert_Some Hpos; try lia.
    by apply (Hd j k fd).
  - intros j Hpos [(_ & E & _)|[_ Hj']]%list_lookup_insert_Some; [lia|]. by apply (Hl j).
  - unfold stop_ok in *. cbn. rewrite length_insert. by destruct (stopping s).
  - congruence.
Qed.

Lemma thread_accept_inv s sd :
  inv s -> thread s = Body -> joined (stopping s) = false -> drained s = O -> free sd s ->
  inv (at_thread (Accepted sd) (set_table ({[sd]} ∪ ours s) (foreign s) s)).
Proof.
  intros Hs Ht Hnj Hdr Hf.
  pose proof Hs as Hs'. destruct Hs as [Ho Ha Hd Hl Hok Hs Hr Hj Hg]. destruct Hf as (Hpos & Hno & Hnf).
  assert (forall i, client_fds s !! i <> Some sd) as Hfresh.
  { intros i Hi. apply Hno, Ho. right. left. exists i. apply live_plain; [by rewrite Ht|done..|lia]. }
  split; try done; cbn [ours foreign client_fds set_table at_thread stopping thread listen_sock].
  - intros fd. rewrite elem_of_union, elem_of_singleton, Ho. unfold holds, live. cbn. rewrite Ht. split.
    + intros [->|[?|[(j & ? & ? & ? & _)|[=]]]]; [by right; right|by left|]. right. left. by exists j.
    + intros [?|[(j & ? & ? & ? & _)|[= ->]]]; [right; by left| |by left]. right. right. left. by exists j.
  - set_solver.
  - split; [done|]. split; [|done]. intros E. apply Hno, Ho. by left.
  - congruence.
Qed.

Lemma thread_place_inv s i sd old :
  inv s -> thread s = Accepted sd -> joined (stopping s) = false -> drained s = O ->
  client_fds s !! i = Some old -> old < 0 -> inv (at_thread Body (set_slots (<[i := sd]> (client_fds s)) s)).
Proof.
  intros Hs Ht Hnj Hdr Hi Hold.
  destruct Hs as [Ho Ha Hd Hl Hok Hs Hr Hj Hg]. unfold thread_ok in Hok. rewrite Ht in Hok. destruct Hok as (Hpos & Hne & Hfresh).
  pose proof (lookup_lt_Some _ _ _ Hi) as Hlen.
  split; try done; cbn [client_fds set_slots at_thread stopping thread listen_sock].
  - intros fd. cbn [ours set_slots at_thread]. rewrite Ho. unfold holds, live. cbn. rewrite Ht. split.
    + intros [?|[(j & Hj' & ? & ? & _)|[= <-]]]; [by left| |]; right; left.
      * exists j. rewrite list_lookup_insert_ne by (intros ->; rewrite Hi in Hj'; injection Hj' as ->; lia). by split_and!.
      * exists i. rewrite list_lookup_insert_eq by done. change (drained (at_thread _ _)) with (drained s). by rewrite Hdr; split_and!; [..|lia|].
    + intros [?|[(j & Hj' & ? & ? & _)|[=]]]; [by left|].
      apply list_lookup_insert_Some in Hj' as [(_ & <- & _)|[_ Hj']]; [by right; right|]. right. left. exists j. by split_and!.
  - intros j k fd [(<- & <- & _)|[_ Hj']]%list_lookup_insert_Some [(<- & E & _)|[_ Hk']]%list_lookup_insert_Some Hp; try done.
    + by apply Hfresh in Hk'.
    + subst fd. by apply Hfresh in Hj'.
    + by apply (Hd j k fd).
  - intros j Hp [(_ & E & _)|[_ Hj']]%list_lookup_insert_Some; [done|]. by apply (Hl j).
  - unfold stop_ok in *. cbn. rewrite length_insert. by destruct (stopping s).
  - congruence.
Qed.

Lemma thread_reject_inv s sd :
  inv s -> thread s = Accepted sd -> joined (stopping s) = false -> inv (at_thread Top (close sd s)).
Proof.
  intros Hs Ht Hnj.
  destruct Hs as [Ho Ha Hd Hl Hok Hs Hr Hj Hg]. unfold thread_ok in Hok. rewrite Ht in Hok. destruct Hok as (Hpos & Hne & Hfresh).
  split; try done; cbn [ours foreign close set_table at_thread stopping thread].
  - intros fd. rewrite elem_of_difference, Ho, elem_of_singleton. unfold holds, live. cbn. rewrite Ht. split.
    + intros [[?|[(j & Hj' & ? & ? & _)|[= <-]]] Hne']; [by left| |done]. right. left. by exists j.
    + intros [[-> ?]|[(j & Hj' & Hp & Hle & _)|[=]]]; [split; [by left|done]|]. split.
      * right. left. by exists j.
      * intros ->. by apply Hfresh in Hj'.
  - set_solver.
  - congruence.
Qed.

Lemma thread_step_inv s a s' : inv s -> thread_step s a s' -> inv s'.
Proof.
  intros Hs Hstep. destruct Hstep as [Ht Hk|Ht Hk|Ht|i sd Ht Hi Hsd|i sd Ht|i sd Ht|sd Ht Hf|i sd old Ht _ Hi Hold _|sd Ht _];
    (destruct (not_draining s _ Hs Ht ltac:(done)) as [Hnj Hdr]).
  - apply inv_at_thread; try done; [by rewrite Ht | intros E; congruence].
  - apply inv_at_thread; try done; by rewrite Ht.
  - apply inv_at_thread; try done; [by rewrite Ht | intros E; congruence].
  - apply inv_at_thread; try done; [by rewrite Ht | intros E; congruence].
  - by apply thread_close_inv.
  - by eapply thread_clear_inv.
  - by apply thread_accept_inv.
  - by eapply thread_place_inv.
  - by apply thread_reject_inv.
Qed.

(** The call moves on and touches no descriptor. *)
Lemma inv_at_stop s p :
  inv s -> stopping s <> Idle -> p <> Idle -> drained s = O -> drained (at_stop p s) = O -> stop_ok (at_stop p s) ->
  (joined p = true -> thread s = Left) -> listening p = listening (stopping s) -> inv (at_stop p s).
Proof.
  intros [Ho Ha Hd Hl Ht Hs Hr Hj Hg] Hi Hp Hdr Hdr' Hok Hj' Hls. split; try done.
  - intros fd. unfold holds, live. rewrite Hdr'. cbn. rewrite Ho. unfold holds, live. by rewrite Hdr.
  - cbn. rewrite Hr. by split.
  - cbn. by rewrite Hls.
Qed.

Lemma stop_flag_inv s : inv s -> stopping s = Idle -> inv (at_stop Flagged (set_flag false s)).
Proof.
  intros Hs Hp.
  pose proof (inv_running s Hs) as Hr; pose proof (inv_listening s Hs) as Hg; rewrite Hp in Hr, Hg.
  destruct Hs as [Ho Ha Hd Hl Hok' Hs _ Hj _]. split; try done; cbn [stopping keep_running at_stop set_flag].
  - intros fd. rewrite Ho. unfold holds, live, drained. cbn. by rewrite Hp.
  - unfold thread_ok in *. cbn. by destruct (thread s).
Qed.

Lemma stop_close_listen_inv s :
  inv s -> stopping s = Joined -> 0 <= listen_sock s ->
  inv (at_stop (Draining 0) (set_listen (-1) (close (listen_sock s) s))).
Proof.
  intros Hs Hp Hpos.
  pose proof (inv_running s Hs) as Hr; pose proof (inv_listening s Hs) as Hg; rewrite Hp in Hr, Hg.
  pose proof (inv_joined s Hs) as Hj'. rewrite Hp in Hj'. specialize (Hj' eq_refl).
  destruct Hs as [Ho Ha Hd Hl Hok' Hs _ Hj _]. split; try done; cbn [ours foreign stopping listen_sock client_fds close set_table set_listen at_stop keep_running thread].
  - intros fd. rewrite elem_of_difference, Ho, elem_of_singleton. unfold holds, live, drained. cbn. rewrite Hp, Hj'. split.
    + intros [[[-> _]|[(j & ?)|[=]]] Hne]; [done|]. right. left. by exists j.
    + intros [[-> ?]|[(j & Hj1 & Hj2)|[=]]]; [lia|]. split; [right; left; by exists j|].
      intros ->. by apply (Hl j).
  - set_solver.
  - unfold thread_ok in *. cbn. by rewrite Hj' in *.
  - unfold stop_ok. cbn. lia.
  - rewrite Hr. by split.
Qed.

Lemma stop_skip_inv s i sd :
  inv s -> stopping s = Draining i -> client_fds s !! i = Some sd -> sd < 0 -> inv (at_stop (Draining (S i)) s).
Proof.
  intros Hs Hp Hi Hneg.
  pose proof (inv_running s Hs) as Hr; pose proof (inv_listening s Hs) as Hg; rewrite Hp in Hr, Hg.
  pose proof (lookup_lt_Some _ _ _ Hi) as Hlen. pose proof (inv_joined s Hs) as Hj'. rewrite Hp in Hj'. specialize (Hj' eq_refl).
  destruct Hs as [Ho Ha Hd Hl Hok' Hs _ Hj _]. split; try done; cbn [stopping at_stop keep_running].
  - intros fd. rewrite Ho. unfold holds, live, drained. cbn. rewrite Hp. split; (intros [?|[(j & Hj1 & Hj2 & Hj3 & Hj4)|?]]; [by left| |by right; right]); right; left; exists j; split_and!; try done; [|lia].
    assert (i <> j) by (intros ->; rewrite Hi in Hj1; injection Hj1 as ->; lia). lia.
  - rewrite Hr. by split.
Qed.

Lemma stop_close_inv s i sd :
  inv s -> stopping s = Draining i -> client_fds s !! i = Some sd -> 0 <= sd ->
  inv (at_stop (Draining (S i)) (close sd s)).
Proof.
  intros Hs Hp Hi Hpos.
  pose proof (inv_running s Hs) as Hr; pose proof (inv_listening s Hs) as Hg; rewrite Hp in Hr, Hg.
  pose proof (lookup_lt_Some _ _ _ Hi) as Hlen. pose proof (inv_joined s Hs) as Hj'. rewrite Hp in Hj'. specialize (Hj' eq_refl).
  destruct Hs as [Ho Ha Hd Hl Hok' Hs _ Hj _]. split; try done; cbn [ours foreign stopping listen_sock client_fds close set_table at_stop keep_running thread].
  - intros fd. rewrite elem_of_difference, Ho, elem_of_singleton. unfold holds, live, drained. cbn. rewrite Hp, Hj'. split.
    + intros [[?|[(j & Hj1 & Hj2 & Hj3 & Hj4)|[=]]] Hne]; [by left|]. right. left. exists j. split_and!; try done.
      assert (i <> j) by congruence. lia.
    + intros [[-> ?]|[(j & Hj1 & Hj2 & Hj3 & Hj4)|[=]]].
      * cbn in Hg. destruct Hg as [Hg _]. by discriminate Hg.
      * split; [right; left; exists j; split_and!; try done; lia|]. intros ->. pose proof (Hd i j sd Hi Hj1 Hpos). lia.
  - set_solver.
  - rewrite Hr. by split.
Qed.

Lemma stop_free_inv s :
  inv s -> stopping s = Draining (length (client_fds s)) -> inv (at_stop Stopped (set_slots [] s)).
Proof.
  intros Hs Hp.
  pose proof (inv_running s Hs) as Hr; pose proof (inv_listening s Hs) as Hg; rewrite Hp in Hr, Hg.
  pose proof (inv_joined s Hs) as Hj'. rewrite Hp in Hj'. specialize (Hj' eq_refl).
  destruct Hs as [Ho Ha Hd Hl Hok' Hs _ Hj _]. split; try done; cbn [stopping at_stop keep_running set_slots].
  - intros fd. cbn [ours at_stop set_slots]. rewrite Ho. unfold holds, live, drained. cbn. rewrite Hp, Hj'. split.
    + intros [?|[(j & Hj1%lookup_lt_Some & Hj2 & Hj3 & Hj4)|[=]]]; [by left|]. lia.
    + intros [?|[(j & Hj1 & _)|[=]]]; [by left|]. by rewrite lookup_nil in Hj1.
  - unfold thread_ok in *. cbn. by rewrite Hj' in *.
  - rewrite Hr. by split.
Qed.

Lemma stop_step_inv s a s' : inv s -> stop_step s a s' -> inv s'.
Proof.
  intros Hs Hstep. destruct Hstep as [Hp|Hp Hpos|i sd Hp Hi|i sd Hp Hi|Hp Ht|Hp Hpos|i sd Hp Hi Hneg|i sd Hp Hi Hpos|Hp];
    pose proof (inv_stop s Hs) as Hok; unfold stop_ok in Hok; rewrite Hp in Hok.
  - by apply stop_flag_inv.
  - apply inv_at_stop; unfold drained; rewrite ?Hp; try done; cbn. unfold stop_ok. cbn. lia.
  - pose proof (lookup_lt_Some _ _ _ Hi) as Hlen.
    destruct (0 <=? sd); apply inv_at_stop; unfold drained; rewrite ?Hp; try done; unfold stop_ok; cbn; lia.
  - apply inv_at_stop; unfold drained; rewrite ?Hp; try done; unfold stop_ok; cbn; lia.
  - apply inv_at_stop; unfold drained; rewrite ?Hp; done.
  - by apply stop_close_listen_inv.
  - by eapply stop_skip_inv.
  - by apply (stop_close_inv s i).
  - by apply stop_free_inv.
Qed.

Lemma other_step_inv s s' : inv s -> other_step s s' -> inv s'.
Proof.
  intros [Ho Ha Hd Hl Ht Hs Hr Hj Hg] [fd (Hpos & Hno & Hnf)|fd Hf]; split; try done; cbn [ours foreign close set_table].
  - set_solver.
  - intros fd'. change (holds (close fd s) fd') with (holds s fd'). rewrite <- Ho. set_solver.
  - set_solver.
Qed.

Lemma steps_inv s s' : inv s -> steps s s' -> inv s'.
Proof.
  intros Hs Hsteps. induction Hsteps as [|s1 s2 s3 [a Hstep] _ IH]; [done|]. apply IH.
  destruct Hstep; eauto using thread_step_inv, stop_step_inv, other_step_inv.
Qed.

(** ** What a step may do *)

(** Only between [close(sd)] and [client_fds[i] = -1] does a slot name a
    descriptor that is not the transport's. *)
Definition allowed (s : state) (a : action) : Prop :=
  match a with
  | Quiet => True
  | Close fd => fd ∈ ours s /\ fd ∉ foreign s
  | Shut fd => fd ∈ ours s \/ fd < 0 \/ exists i, thread s = Clearing i fd /\ client_fds s !! i = Some fd
  end.

Lemma slot_held s i fd :
  inv s -> joined (stopping s) = false -> client_fds s !! i = Some fd -> 0 <= fd ->
  fd ∈ ours s \/ thread s = Clearing i fd.
Proof.
  intros Hs Hj Hi Hpos. assert (drained s = O) as Hd by (unfold drained; by destruct (stopping s)).
  destruct (decide (thread s = Clearing i fd)) as [|Hne]; [by right|]. left. apply (inv_ours s Hs). right. left.
  exists i. split_and!; try done. lia.
Qed.

Lemma step_allowed s a s' : inv s -> step s a s' -> allowed s a.
Proof.
  intros Hs Hstep. assert (forall fd, fd ∈ ours s -> fd ∉ foreign s) as Hap
    by (intros fd Hfd; pose proof (inv_apart s Hs); set_solver).
  assert (forall fd, holds s fd -> fd ∈ ours s /\ fd ∉ foreign s) as Hown
    by (intros fd Hfd%(inv_ours s Hs); auto).
  destruct Hstep as [a s' Hstep|a s' Hstep|s' Hstep]; [| |done].
  - pose proof (inv_thread s Hs) as Hok. unfold thread_ok in Hok.
    destruct Hstep as [| | | |i sd Ht| | | |sd Ht _]; try done; rewrite Ht in Hok; apply Hown.
    + destruct Hok as [Hi Hpos]. destruct (not_draining s _ Hs Ht ltac:(done)) as [_ Hd].
      right. left. exists i. split_and!; try done; [lia | by rewrite Ht].
    + by right; right.
  - destruct Hstep as [|Hp Hpos| |i sd Hp Hi| |Hp Hpos| |i sd Hp Hi Hpos|]; try done.
    + left. apply (inv_ours s Hs). by left.
    + cbn. destruct (Z.lt_ge_cases sd 0) as [|Hpos]; [by right; left|].
      destruct (slot_held s i sd Hs ltac:(by rewrite Hp) Hi Hpos); [by left|]. right. right. by exists i.
    + apply Hown. by left.
    + apply Hown. right. left. pose proof (inv_joined s Hs) as Hj. rewrite Hp in Hj.
      exists i. split_and!; try done; [unfold drained; by rewrite Hp | by rewrite Hj].
Qed.

Lemma stopped_empty s : inv s -> stopping s = Stopped -> thread s = Left /\ ours s = ∅.
Proof.
  intros Hs Hp. pose proof (inv_joined s Hs) as Hj. rewrite Hp in Hj. specialize (Hj eq_refl). split; [done|].
  pose proof (inv_stop s Hs) as Hok. unfold stop_ok in Hok. rewrite Hp in Hok.
  pose proof (inv_listening s Hs) as Hl. rewrite Hp in Hl. cbn in Hl.
  apply elem_of_equiv_empty_L. intros fd [[-> Hx]|[(i & Hi & _)|Ha]]%(inv_ours s Hs).
  - destruct Hl as [Hl _]. by discriminate Hl.
  - by rewrite Hok, lookup_nil in Hi.
  - by rewrite Hj in Ha.
Qed.

(** ** The stop can always finish *)

Lemma thread_moves s a s1 s2 : thread_step s a s1 -> steps s1 s2 -> steps s s2.
Proof. intros Hs. apply rtc_l. exists a. by apply step_thread. Qed.

Lemma stop_moves s a s1 s2 : stop_step s a s1 -> steps s1 s2 -> steps s s2.
Proof. intros Hs. apply rtc_l. exists a. by apply step_stop. Qed.

Definition leaves (s : state) : Prop :=
  exists s', steps s s' /\ thread s' = Left /\ keep_running s' = false /\ stopping s' = stopping s.

Lemma leaves_moves s a s1 : thread_step s a s1 -> stopping s1 = stopping s -> leaves s1 -> leaves s.
Proof. intros Hs Hp (s2 & Hr & Ht & Hk & Hp2). exists s2. split; [by eapply thread_moves|]. by rewrite Hp2. Qed.

Lemma leaves_top s : thread s = Top -> keep_running s = false -> leaves s.
Proof.
  intros Ht Hk. eapply leaves_moves; [by apply thread_leave|done|]. by exists (at_thread Left s).
Qed.

Lemma leaves_body s : thread s = Body -> keep_running s = false -> leaves s.
Proof. intros Ht Hk. eapply leaves_moves; [by apply thread_again|done|]. by apply leaves_top. Qed.

Lemma leaves_clearing s i sd : thread s = Clearing i sd -> keep_running s = false -> leaves s.
Proof. intros Ht Hk. eapply leaves_moves; [by eapply thread_clear|done|]. by apply leaves_body. Qed.

(** A new socket is placed in the first free slot or rejected. *)
Lemma first_free (l : list Z) :
  Forall (fun v => 0 <= v) l \/ exists i old, l !! i = Some old /\ old < 0 /\ Forall (fun v => 0 <= v) (take i l).
Proof.
  induction l as [|v l IH]; [left; by apply List.Forall_nil|]. destruct (Z.lt_ge_cases v 0) as [Hv|Hv].
  - right. exists O, v. split; [done|]. split; [done | apply List.Forall_nil].
  - destruct IH as [Hl|(i & old & Hi & Hold & Hl)]; [left; by apply List.Forall_cons|]. right.
    exists (S i), old. split; [done|]. split; [done | by apply List.Forall_cons].
Qed.

Lemma leaves_accepted s sd : thread s = Accepted sd -> keep_running s = false -> leaves s.
Proof.
  intros Ht Hk. assert (FD_SETSIZE <= sd \/ Forall (fun v => 0 <= v) (client_fds s) -> leaves s) as Hrej.
  { intros Hr. eapply leaves_moves; [by eapply thread_reject|done|]. by apply leaves_top. }
  destruct (Z.lt_ge_cases sd FD_SETSIZE); [|by apply Hrej; left].
  destruct (first_free (client_fds s)) as [|(i & old & Hi & Hold & Hl)]; [by apply Hrej; right|].
  eapply leaves_moves; [by eapply thread_place|done|]. by apply leaves_body.
Qed.

(** Wherever it is, the thread can leave once the flag is cleared. *)
Lemma thread_leaves s : keep_running s = false -> leaves s.
Proof.
  intros Hk. destruct (thread s) eqn:Ht.
  - by apply leaves_top.
  - by apply leaves_body.
  - eapply leaves_moves; [by eapply thread_close|done|]. by eapply leaves_clearing.
  - by eapply leaves_clearing.
  - by eapply leaves_accepted.
  - by exists s.
Qed.

Definition finishes (s : state) : Prop := exists s', steps s s' /\ stopping s' = Stopped.

Lemma finishes_moves s a s1 : stop_step s a s1 -> finishes s1 -> finishes s.
Proof. intros Hs (s2 & Hr & Hp). exists s2. split; [by eapply stop_moves | done]. Qed.

Lemma finishes_draining n s i :
  stopping s = Draining i -> (i + n = length (client_fds s))%nat -> finishes s.
Proof.
  revert s i. induction n as [|n IH]; intros s i Hp Hn.
  - eapply finishes_moves; [apply stop_free; rewrite Hp; f_equal; lia|]. by exists (at_stop Stopped (set_slots [] s)).
  - destruct (lookup_lt_is_Some_2 (client_fds s) i ltac:(lia)) as [sd Hi]. destruct (Z.lt_ge_cases sd 0).
    + eapply finishes_moves; [by eapply stop_skip|]. apply (IH _ (S i)); [done | cbn; lia].
    + eapply finishes_moves; [by eapply stop_close|]. apply (IH _ (S i)); [done | cbn; lia].
Qed.

Lemma finishes_joined s : stopping s = Joined -> 0 <= listen_sock s -> finishes s.
Proof.
  intros Hp Hl. eapply finishes_moves; [by apply stop_close_listen|].
  by apply (finishes_draining (length (client_fds s)) _ 0).
Qed.

Lemma finishes_testing n s i :
  stopping s = Testing i -> (i + n = length (client_fds s))%nat -> thread s = Left -> 0 <= listen_sock s -> finishes s.
Proof.
  revert s i. induction n as [|n IH]; intros s i Hp Hn Ht Hl.
  - eapply finishes_moves; [apply stop_join; [rewrite Hp; f_equal; lia | done]|]. by apply finishes_joined.
  - destruct (lookup_lt_is_Some_2 (client_fds s) i ltac:(lia)) as [sd Hi].
    eapply finishes_moves; [by eapply stop_test|]. destruct (0 <=? sd).
    + eapply finishes_moves; [by eapply stop_shut|]. apply (IH _ (S i)); try done. cbn. lia.
    + apply (IH _ (S i)); try done. cbn. lia.
Qed.

Lemma finishes_after s s1 : steps s s1 -> finishes s1 -> finishes s.
Proof. intros H1 (s2 & H2 & Hp). exists s2. split; [by etrans | done]. Qed.

Lemma finishes_waiting s i : inv s -> stopping s = Testing i -> finishes s.
Proof.
  intros Hs Hp. destruct (thread_leaves s) as (s1 & Hr & Ht & _ & Hp1).
  { apply (inv_running s Hs). by rewrite Hp. }
  pose proof (steps_inv s s1 Hs Hr) as Hs1. rewrite Hp in Hp1. apply (finishes_after s s1); [done|].
  pose proof (inv_stop s1 Hs1) as Hok. unfold stop_ok in Hok. rewrite Hp1 in Hok.
  apply (finishes_testing (length (client_fds s1) - i) s1 i); [done | lia | done|].
  apply (inv_listening s1 Hs1). by rewrite Hp1.
Qed.

Lemma inv_finishes s : inv s -> finishes s.
Proof.
  intros Hs. destruct (stopping s) as [| |i|i| |i|] eqn:Hp; pose proof (inv_listening s Hs) as Hl;
    pose proof (inv_stop s Hs) as Hok; unfold stop_ok in Hok; rewrite Hp in Hl, Hok.
  - pose proof (stop_flag s Hp) as Hf. pose proof (stop_step_inv _ _ _ Hs Hf) as Hs1. eapply finishes_moves; [exact Hf|].
    pose proof (stop_listen (at_stop Flagged (set_flag false s)) eq_refl (proj2 Hl eq_refl)) as Hsl.
    eapply finishes_moves; [exact Hsl|]. eapply finishes_waiting; [by eapply stop_step_inv | done].
  - pose proof (stop_listen s Hp ltac:(by apply Hl)) as Hf. eapply finishes_moves; [exact Hf|].
    eapply finishes_waiting; [by eapply stop_step_inv | done].
  - by eapply finishes_waiting.
  - destruct (lookup_lt_is_Some_2 (client_fds s) i Hok) as [sd Hi]. pose proof (stop_shut s i sd Hp Hi) as Hf.
    eapply finishes_moves; [exact Hf|]. eapply finishes_waiting; [by eapply stop_step_inv | done].
  - apply finishes_joined; [done | by apply Hl].
  - apply (finishes_draining (length (client_fds s) - i) s i); [done | lia].
  - by exists s.
Qed.

(** ** The theorems *)

(** C20. [mb_tcp_stop] against the server's thread and the rest of the process,
    in every interleaving of their accesses to [keep_running] and [client_fds]:
    a descriptor is closed only while it is the transport's, so none is closed
    twice and none that belongs to the rest of the process; [shutdown] hits a
    descriptor of the transport, or -1, or the number of a connection the thread
    has just closed and whose slot it has not cleared yet; when the call has
    returned the thread is gone and the transport holds no descriptor; and from
    every state the call can return, so neither side ever waits for good. *)
Theorem tcp_stop_interleaved cap listen f s :
  0 <= listen -> listen ∉ f -> steps (started cap listen f) s ->
  (forall a s', step s a s' -> allowed s a) /\
  (stopping s = Stopped -> thread s = Left /\ ours s = ∅) /\
  exists s', steps s s' /\ stopping s' = Stopped.
Proof.
  intros Hl Hf Hr. pose proof (steps_inv _ _ (started_inv cap listen f Hl Hf) Hr) as Hs.
  split; [intros a s'; by apply step_allowed|]. split; [by apply stopped_empty | by apply inv_finishes].
Qed.

(** One slot; descriptor 3 listens. *)
Definition one_slot : state := started 1 3 {[0; 1; 2]}.

(** Connection 4 comes and goes: the thread has closed it when another thread of
    the process opens a file, which gets its number. *)
Definition number_reused : state :=
  State 3 [4] false {[3]} ({[4]} ∪ {[0; 1; 2]}) (Clearing 0 4) (Shutting 0).

Lemma rtc_refl_eq {A} (R : relation A) x y : x = y -> rtc R x y.
Proof. by intros ->. Qed.

Ltac go rule := eapply rtc_l; [eexists; rule|].

Lemma number_reused_reachable : steps one_slot number_reused.
Proof.
  go ltac:(by apply step_thread, thread_enter). go ltac:(apply step_thread, (thread_accept _ 4); [done|by split; [|vm_compute]]).
  go ltac:(by apply step_thread, (thread_place _ 0 4 (-1))). go ltac:(by apply step_thread, (thread_over _ 0 4)).
  go ltac:(by apply step_stop, stop_flag). go ltac:(by apply step_stop, stop_listen).
  go ltac:(by apply step_stop, (stop_test _ 0 4)). go ltac:(by apply step_thread, (thread_close _ 0 4)).
  go ltac:(apply step_other, (other_open _ 4); by split; [|vm_compute]). apply rtc_refl_eq. by vm_compute.
Qed.

(** The shutdown that comes next hits the file. *)
Example foreign_shutdown :
  steps one_slot number_reused /\ 4 ∈ foreign number_reused /\
  step number_reused (Shut 4) (at_stop (Testing 1) number_reused).
Proof. split; [apply number_reused_reachable|]. split; [by vm_compute|]. by apply step_stop, (stop_shut _ 0 4). Qed.

Lemma tcp_stop_interleaved_witness :
  steps one_slot number_reused /\
  (forall a s', step number_reused a s' -> allowed number_reused a) /\
  (stopping number_reused = Stopped -> thread number_reused = Left /\ ours number_reused = ∅) /\
  exists s', steps number_reused s' /\ stopping s' = Stopped.
Proof.
  split; [apply number_reused_reachable|].
  apply (tcp_stop_interleaved 1 3 {[0; 1; 2]} number_reused); [done | by vm_compute | apply number_reused_reachable].
Defined.
