(* ===== verification/TcpStopRun.v ===== *)
(** * The executable server is one of the interleavings

    [TcpThread] and [TcpPort] run a server as a program: rounds of the thread,
    then [mb_tcp_stop], whose request is one step between two rounds.  [TcpStop]
    takes both apart into the accesses that can interleave.  This file relates
    the two: a context and a kernel are a state of [TcpStop] ([shape]), and what
    the programs do to them is a sequence of its steps, so that whatever holds
    in every interleaving holds of the programs. *)

From stdpp Require Import gmap strings relations.
From S2P Require Import Prelude Buffer Defines Pdu PduSpec PduClient PduReplies Bank Ptr Tcp Sys Keeps TcpServer TcpServerSpec TcpServerTheorems Kernel TcpPort TcpThread TcpThreadSpec TcpPortSpec TcpServerPort TcpPortTheorems Ends TcpStop.

(** ** A context and a kernel as a state *)

Section Run.
Context {U : Type} (on_process : Z -> st U Z) (base : gset Z) (start : state).

Abbreviation slots_of := Tcp.client_fds.

(** The rest of the process has the descriptors [base]. *)
Definition shape (c : mb_tcp_ctx) (k : kernel) (t : thread_pc) (p : stop_pc) : state :=
  State (Tcp.listen_sock c) (slots_of c) (negb (Tcp.keep_running c =? 0)) (fds k ∖ base) base t p.

(** From [start] the steps lead here. *)
Record at_point (p : stop_pc) (t : thread_pc) (c : mb_tcp_ctx) (k : kernel) : Prop := AtPoint {
  at_steps : steps start (shape c k t p);
  at_base : base ⊆ fds k;
  at_cap : zlen (slots_of c) = client_cap c;
  at_server : stream_sock c = -1 /\ initialized c = 1;
}.

Context (Hstart : inv start).

Lemma at_inv p t c k : at_point p t c k -> inv (shape c k t p).
Proof. intros [Hs _ _ _]. by eapply steps_inv. Qed.

(** One more step. *)
Lemma at_thread_step p t c k a s' t' c' k' :
  at_point p t c k -> thread_step (shape c k t p) a s' -> s' = shape c' k' t' p -> base ⊆ fds k' ->
  zlen (slots_of c') = client_cap c' -> stream_sock c' = -1 /\ initialized c' = 1 -> at_point p t' c' k'.
Proof.
  intros [Hs _ _ _] Hstep -> Hb Hc Hst. split; try done. etrans; [exact Hs|]. apply rtc_once. exists a.
  by apply step_thread.
Qed.

Lemma at_stop_step p t c k a s' p' c' k' :
  at_point p t c k -> stop_step (shape c k t p) a s' -> s' = shape c' k' t p' -> base ⊆ fds k' ->
  zlen (slots_of c') = client_cap c' -> stream_sock c' = -1 /\ initialized c' = 1 -> at_point p' t c' k'.
Proof.
  intros [Hs _ _ _] Hstep -> Hb Hc Hst. split; try done. etrans; [exact Hs|]. apply rtc_once. exists a.
  by apply step_stop.
Qed.

Lemma at_same_open p t c k k' : at_point p t c k -> fds k' = fds k -> at_point p t c k'.
Proof. intros [Hs Hb Hc Hst] Hf. split; try done; [|by rewrite Hf]. unfold shape. by rewrite Hf. Qed.

Lemma get_slot_lookup c i sd : get_slot c i = Ok sd -> slots_of c !! i = Some sd.
Proof.
  unfold get_slot, load. rewrite (proj2 (Z.leb_le _ _)), Nat2Z.id by lia.
  destruct (slots_of c !! i); [|done]. by intros [= ->].
Qed.

(** ** One round of the thread *)

Lemma slot_ours p c k i sd :
  at_point p Body c k -> joined p = false -> slots_of c !! i = Some sd -> 0 <= sd -> sd ∈ fds k /\ sd ∉ base.
Proof.
  intros Ha Hp Hi Hsd. pose proof (at_inv _ _ _ _ Ha) as Hinv.
  destruct (slot_held _ i sd Hinv Hp Hi Hsd) as [Ho|[=]]. cbn in Ho. set_solver.
Qed.

Lemma drop_client_ends i sd c k :
  at_point Idle Body c k -> slots_of c !! i = Some sd -> 0 <= sd ->
  ends (drop_client i sd c) (at_point Idle Body) k.
Proof.
  intros Ha Hi Hsd. destruct (slot_ours _ _ _ _ _ Ha eq_refl Hi Hsd) as [Hopen Hours].
  pose proof Ha as [_ Hb Hc Hst]. apply ends_bind. intros [] k1. unfold sys_close.
  rewrite bool_decide_true by done. intros [= <-]. set (k1 := set_fds _ _).
  assert (at_point Idle (Closing i sd) c k) as H1
    by (eapply at_thread_step; [exact Ha | by apply (thread_over _ i sd) | done..]).
  assert (at_point Idle (Clearing i sd) c k1) as H2.
  { eapply at_thread_step; [exact H1 | by apply thread_close | | cbn; set_solver | done..].
    unfold shape, close, set_table, at_thread. cbn. f_equal; apply set_eq; set_solver. }
  assert (at_point Idle Body (set_slot i (-1) c) k1) as H3.
  { eapply at_thread_step; [exact H2 | by apply (thread_clear _ i sd) | done | by apply H2 | | done].
    cbn. by rewrite length_insert. }
  apply ends_bind, ends_same_open; [auto with keeps|]. intros _ k2 Hk2.
  apply ends_bind, ends_same_open; [auto with keeps|]. intros _ k3 Hk3.
  apply ends_ret. eapply at_same_open; [exact H3|]. congruence.
Qed.

Lemma check_client_ends i c k : at_point Idle Body c k -> ends (check_client i c) (at_point Idle Body) k.
Proof.
  intros Ha. apply ends_bind, ends_lift. intros sd Hsd%get_slot_lookup.
  destruct (Z.leb_spec 0 sd); [|by apply ends_ret].
  apply ends_bind, ends_same_open; [auto with keeps|]. intros v k1 Hk1.
  pose proof (at_same_open _ _ _ _ _ Ha Hk1) as Ha1.
  destruct (_ =? 0); [by apply drop_client_ends | by apply ends_ret].
Qed.

(** The first free slot, as [place_client] finds it. *)
Lemma place_client_first c sock l i0 :
  l = seq i0 (length (slots_of c) - i0) -> Forall (fun v => 0 <= v) (take i0 (slots_of c)) ->
  match place_client l sock c with
  | Ok (Some c') => exists i old, slots_of c !! i = Some old /\ old < 0 /\
      Forall (fun v => 0 <= v) (take i (slots_of c)) /\ c' = set_slot i sock c
  | Ok None => Forall (fun v => 0 <= v) (slots_of c)
  | Fail _ => True
  end.
Proof.
  revert i0. induction l as [|j l IH]; intros i0 Hl Hpre; cbn [place_client].
  - rewrite take_ge in Hpre; [done|]. apply (f_equal length) in Hl. rewrite length_seq in Hl. simpl in Hl. lia.
  - destruct (length (slots_of c) - i0)%nat as [|n] eqn:En; [done|]. injection Hl as -> Hl.
    destruct (get_slot c i0) as [sd|] eqn:Hg; [|done]. cbn [obind]. apply get_slot_lookup in Hg.
    destruct (Z.ltb_spec sd 0); [by exists i0, sd|].
    apply (IH (S i0)); [by replace (length (slots_of c) - S i0)%nat with n by lia|].
    rewrite (take_S_r _ _ _ Hg). apply Forall_app_2; [done|]. apply List.Forall_cons; [done | apply List.Forall_nil].
Qed.

(** The round goes on in the loop's body, or it is over. *)
Definition round_point (continue : bool) (c : mb_tcp_ctx) (k : kernel) : Prop :=
  at_point Idle Body c k \/ (continue = false /\ at_point Idle Top c k).

Lemma reject_ends sock c k :
  at_point Idle (Accepted sock) c k -> sock ∈ fds k -> sock ∉ base ->
  FD_SETSIZE <= sock \/ Forall (fun v => 0 <= v) (slots_of c) ->
  ends (sys_close sock ;;; ret (false, c)) (fun r => round_point (fst r) (snd r)) k.
Proof.
  intros Ha Hopen Hours Hrej. pose proof Ha as [_ Hb Hc Hst]. apply ends_bind. intros [] k1. unfold sys_close.
  rewrite bool_decide_true by done. intros [= <-]. apply ends_ret. right. split; [done|]. cbn [snd].
  eapply at_thread_step; [exact Ha | by apply thread_reject | | cbn; set_solver | done..].
  unfold shape, close, set_table, at_thread. cbn. f_equal; apply set_eq; set_solver.
Qed.

Lemma accept_client_ends c k :
  at_point Idle Body c k -> ends (accept_client c) (fun r => round_point (fst r) (snd r)) k.
Proof.
  intros Ha. unfold accept_client. apply ends_bind. unfold sys_accept. apply ends_bind, ends_get.
  case_bool_decide; [|apply ends_stop]. unfold sys_open. apply ends_bind, ends_same_open; [auto with keeps|].
  intros a k1 Hk1. pose proof (at_same_open _ _ _ _ _ Ha Hk1) as Ha1. apply ends_bind, ends_get.
  destruct a as [n|e]; [|by apply ends_ret, ends_ret; left].
  case_bool_decide as Hn; [|by apply ends_ret, ends_ret; left]. destruct Hn as [Hpos Hnew].
  apply ends_bind. intros [] k2 [= <-]. apply ends_ret. rewrite (proj2 (Z.ltb_ge _ _)) by lia.
  pose proof Ha1 as [_ Hb Hc Hst]. set (k2 := set_fds _ _).
  assert (n ∉ base) as Hours by set_solver.
  assert (at_point Idle (Accepted n) c k2) as H2.
  { eapply at_thread_step; [exact Ha1 | apply (thread_accept _ n); [done|] | | cbn; set_solver | done..].
    - split; [done|]. cbn. set_solver.
    - unfold shape, set_table, at_thread. cbn. f_equal. apply set_eq. set_solver. }
  destruct (Z.leb_spec FD_SETSIZE n); [apply reject_ends; [done | cbn; set_solver | done | by left]|].
  apply ends_bind, ends_same_open; [auto with keeps|]. intros _ k3 Hk3.
  pose proof (at_same_open _ _ _ _ _ H2 Hk3) as H3.
  apply ends_bind, ends_lift. intros placed Hpl.
  pose proof (place_client_first c n (slots c) 0) as Hfirst. unfold slots in Hfirst.
  rewrite <- Hc, Nat2Z.id, Nat.sub_0_r in Hfirst. specialize (Hfirst eq_refl ltac:(apply List.Forall_nil)).
  unfold slots in Hpl. rewrite <- Hc, Nat2Z.id in Hpl. rewrite Hpl in Hfirst.
  destruct placed as [c'|]; [|apply reject_ends; [done | rewrite Hk3; cbn; set_solver | done | by right]].
  destruct Hfirst as (i & old & Hi & Hold & Hpre & ->).
  assert (at_point Idle Body (set_slot i n c) k3) as H4.
  { eapply at_thread_step; [exact H3 | by apply (thread_place _ i n old) | done | by apply H3 | | done].
    cbn. by rewrite length_insert. }
  apply ends_bind, ends_same_open; [auto with keeps|]. intros _ k4 Hk4.
  apply ends_bind, ends_same_open; [auto with keeps|]. intros _ k5 Hk5.
  apply ends_ret. left. cbn [snd]. eapply at_same_open; [exact H4|]. congruence.
Qed.

Lemma serve_client_ends readfds i c s :
  at_point Idle Body c (fst s) ->
  ends (serve_client on_process readfds i c) (fun c' s' => at_point Idle Body c' (fst s')) s.
Proof.
  destruct s as [k u]. cbn [fst]. intros Ha. apply ends_bind, ends_lift. intros sd Hsd%get_slot_lookup.
  destruct (Z.leb_spec 0 sd); cbn [andb]; [|by apply ends_ret].
  case_bool_decide; [|by apply ends_ret]. destruct (has_on_process _); [|by apply ends_ret].
  apply ends_bind, ends_on_snd. intros rc u'. destruct (_ <? 0); [|by apply ends_ret].
  apply ends_on_fst. eapply ends_mono; [by apply drop_client_ends|]. by intros c' k'.
Qed.

Definition point_on (t : thread_pc) (c : mb_tcp_ctx) (s : kernel * U) : Prop := at_point Idle t c (fst s).

(** The loop's condition is next. *)
Lemma again c s : point_on Body c s -> point_on Top c s.
Proof.
  intros Ha. eapply at_thread_step; [exact Ha | by apply thread_again | done | by apply Ha..].
Qed.

Lemma serve_ready_ends readfds c s :
  point_on Body c s -> ends (serve_ready on_process readfds c) (point_on Top) s.
Proof.
  destruct s as [k u]. intros Ha. apply ends_bind.
  apply (ends_mono _ (fun r s' => round_point (fst r) (snd r) (fst s'))).
  { destruct (_ && _); [|apply ends_ret; by left].
    apply ends_on_fst. eapply ends_mono; [by apply accept_client_ends|]. done. }
  intros [continue c1] [k1 u1] Hr. unfold round_point in Hr. cbn [fst snd] in Hr.
  destruct continue; [destruct Hr as [Hb|[[=] _]]|destruct Hr as [Hb|[_ Hb]]; apply ends_ret; [by apply again | done]].
  eapply ends_mono; [apply (ends_each_slot _ _ (point_on Body)); [done|]|intros; by apply again].
  intros i c' s' H'. by apply serve_client_ends.
Qed.

(** From the condition, which finds the flag set, to the condition. *)
Lemma server_round_ends sel c s :
  point_on Top c s -> Tcp.keep_running c <> 0 -> ends (server_round on_process sel c) (point_on Top) s.
Proof.
  destruct s as [k u]. intros Ht Hrun. assert (point_on Body c (k, u)) as Ha.
  { eapply at_thread_step; [exact Ht | apply thread_enter; [done|] | done | by apply Ht..].
    cbn. by rewrite (proj2 (Z.eqb_neq _ _)). }
  apply ends_bind, ends_lift. intros readfds _. apply ends_bind, ends_get. cbv iota beta.
  destruct (negb _); [apply ends_stop|].
  destruct sel as [l|e]; [|case_bool_decide; [by apply serve_ready_ends | by apply ends_ret, again]].
  cbv zeta. case_bool_decide; [|by apply serve_ready_ends]. apply ends_on_fst.
  apply (ends_mono _ (at_point Idle Body)); [|intros c' k' H'; by apply (again c' (k', u))].
  apply ends_each_slot; [exact Ha|]. intros i c' k' H'. by apply check_client_ends.
Qed.

Lemma flag_set c k t : at_point Idle t c k -> Tcp.keep_running c <> 0.
Proof.
  intros Ha Hz. destruct (inv_running _ (at_inv _ _ _ _ Ha)) as [Hr _]. apply Hr; [|done].
  cbn. by rewrite (proj2 (Z.eqb_eq _ _)).
Qed.

(** A thread that reads the flag as it is. *)
Lemma server_thread_ends rounds c s :
  point_on Top c s -> Forall (fun r => fst r <> 0) rounds ->
  ends (mb_tcp_server_thread on_process rounds c) (fun r s' => fst r = true /\ point_on Top (snd r) s') s.
Proof.
  intros Ha Hr. revert c s Ha. induction Hr as [|[running sel] rounds Hrun _ IH]; intros c s Ha;
    cbn [mb_tcp_server_thread]; [by apply ends_ret|].
  rewrite (proj2 (Z.eqb_neq _ _)) by done. apply ends_bind.
  eapply ends_mono; [apply server_round_ends; [done | by eapply flag_set]|]. intros c' s'. apply IH.
Qed.

(** ** The stop *)

Lemma request_slots_ends c n i k :
  at_point (Testing i) Top c k -> (i + n = length (slots_of c))%nat ->
  ends (each_slot (fun i _ => let! sd := lift (get_slot c i) in if 0 <=? sd then sys_shutdown sd else ret tt) (seq i n) tt)
    (fun _ k' => at_point (Testing (i + n)) Top c k') k.
Proof.
  revert i k. induction n as [|n IH]; intros i k Ha Hn; cbn [seq each_slot].
  { apply ends_ret. by rewrite Nat.add_0_r. }
  apply ends_bind, ends_bind, ends_lift. intros sd Hsd%get_slot_lookup.
  assert (at_point (if 0 <=? sd then Shutting i else Testing (S i)) Top c k) as H1
    by (eapply at_stop_step; [exact Ha | by apply (stop_test _ i sd) | done | by apply Ha..]).
  replace (i + S n)%nat with (S i + n)%nat by lia.
  destruct (0 <=? sd); [|apply ends_ret, IH; [done | lia]].
  assert (at_point (Testing (S i)) Top c k) as H2
    by (eapply at_stop_step; [exact H1 | by apply (stop_shut _ i sd) | done | by apply Ha..]).
  apply ends_same_open; [auto with keeps|]. intros [] k1 Hk1. apply IH; [by eapply at_same_open | lia].
Qed.

Lemma stop_request_ends c k :
  at_point Idle Top c k ->
  ends (stop_request c) (fun c' k' => at_point (Testing (length (slots_of c'))) Top c' k' /\ Tcp.keep_running c' = 0) k.
Proof.
  intros Ha. unfold stop_request. cbv zeta. set (c1 := TcpPort.set_keep_running 0 c).
  assert (at_point Flagged Top c1 k) as H1
    by (eapply at_stop_step; [exact Ha | by apply stop_flag | done | by apply Ha..]).
  assert (0 <= Tcp.listen_sock c1) as Hl by (by apply (inv_listening _ (at_inv _ _ _ _ H1))).
  rewrite (proj2 (Z.leb_le _ _)) by done.
  assert (at_point (Testing 0) Top c1 k) as H2
    by (eapply at_stop_step; [exact H1 | by apply stop_listen | done | by apply Ha..]).
  apply ends_bind, ends_same_open; [auto with keeps|]. intros [] k1 Hk1.
  pose proof (at_same_open _ _ _ _ _ H2 Hk1) as H3. pose proof (at_cap _ _ _ _ H3) as Hcap.
  unfold slots. rewrite <- Hcap, Nat2Z.id. apply ends_bind.
  eapply ends_mono; [by apply request_slots_ends|]. intros [] k2 H4.
  rewrite (proj1 (at_server _ _ _ _ H4)). cbn [Z.leb]. apply ends_bind, ends_ret, ends_ret. split; [exact H4 | done].
Qed.

(** The thread finds the flag cleared. *)
Lemma leave c k p : at_point p Top c k -> Tcp.keep_running c = 0 -> at_point p Left c k.
Proof.
  intros Ha Hk. eapply at_thread_step; [exact Ha | apply thread_leave; [done|] | done | by apply Ha..].
  cbn. by rewrite Hk.
Qed.

Lemma release_slots_ends c n i k :
  at_point (Draining i) Left c k -> (i + n = length (slots_of c))%nat ->
  ends (each_slot (fun i _ => let! sd := lift (get_slot c i) in if 0 <=? sd then sys_close sd else ret tt) (seq i n) tt)
    (fun _ k' => at_point (Draining (i + n)) Left c k') k.
Proof.
  revert i k. induction n as [|n IH]; intros i k Ha Hn; cbn [seq each_slot].
  { apply ends_ret. by rewrite Nat.add_0_r. }
  apply ends_bind, ends_bind, ends_lift. intros sd Hsd%get_slot_lookup.
  replace (i + S n)%nat with (S i + n)%nat by lia. pose proof Ha as [_ Hb Hc Hst].
  destruct (Z.leb_spec 0 sd).
  - intros [] k1. unfold sys_close. case_bool_decide as Hopen; [|done]. intros [= <-]. apply IH; [|lia].
    assert (sd ∉ base) as Hours.
    { assert (allowed (shape c k Left (Draining i)) (Close sd)) as [Ho Hf]
        by (eapply step_allowed; [by apply at_inv | by apply step_stop, (stop_close _ i sd)]). done. }
    eapply at_stop_step; [exact Ha | by apply (stop_close _ i sd) | | cbn; set_solver | done..].
    unfold shape, close, set_table, at_stop. cbn. f_equal; apply set_eq; set_solver.
  - apply ends_ret, IH; [|lia]. eapply at_stop_step; [exact Ha | by apply (stop_skip _ i sd) | done..].
Qed.

(** After the join. *)
Lemma stop_release_ends c k :
  at_point (Testing (length (slots_of c))) Left c k -> Tcp.keep_running c = 0 ->
  ends (stop_release c) (fun c' k' => steps start (shape c' k' Left Stopped) /\ base ⊆ fds k') k.
Proof.
  intros Ha Hrun. pose proof Ha as [_ Hb Hc Hst].
  assert (at_point Joined Left c k) as H1
    by (eapply at_stop_step; [exact Ha | by apply stop_join | done..]).
  assert (0 <= Tcp.listen_sock c) as Hl by (by apply (inv_listening _ (at_inv _ _ _ _ H1))).
  assert (Tcp.listen_sock c ∉ base) as Hours.
  { assert (allowed (shape c k Left Joined) (Close (Tcp.listen_sock c))) as [Ho Hf]
      by (eapply step_allowed; [by apply at_inv | by apply step_stop, stop_close_listen]). done. }
  unfold stop_release. rewrite (proj2 (Z.leb_le _ _)) by done. unfold close_listen_sock.
  apply ends_bind, ends_bind. intros [] k1. unfold sys_close. case_bool_decide as Hopen; [|done]. intros [= <-].
  apply ends_ret. set (c1 := set_listen_sock (-1) c). set (k1 := set_fds _ k).
  assert (at_point (Draining 0) Left c1 k1) as H2.
  { eapply at_stop_step; [exact H1 | by apply stop_close_listen | | cbn; set_solver | done..].
    unfold shape, close, set_table, at_stop, set_listen. cbn. f_equal; apply set_eq; set_solver. }
  unfold slots. change (client_cap c1) with (client_cap c). rewrite <- Hc, Nat2Z.id.
  apply ends_bind. eapply ends_mono; [by apply (release_slots_ends c1)|]. intros [] k2 H3.
  assert (at_point Stopped Left (TcpPort.set_client_fds [] 0 c1) k2) as H4
    by (eapply at_stop_step; [exact H3 | by apply stop_free | done | by apply H3 | done..]).
  apply ends_bind, ends_same_open.
  { unfold free_slots. destruct (Tcp.client_fds c1); [auto with keeps | by apply keeps_open_release]. }
  intros [] k3 Hk3. change (stream_sock (TcpPort.set_client_fds [] 0 c1)) with (stream_sock c). rewrite (proj1 Hst).
  cbn [Z.leb]. apply ends_bind, ends_ret, ends_bind, ends_same_open; [by apply keeps_open_release|].
  intros [] k4 Hk4. apply ends_ret.
  assert (at_point Stopped Left (TcpPort.set_client_fds [] 0 c1) k4) as [? ? _ _]
    by (eapply at_same_open; [exact H4 | congruence]).
  done.
Qed.

Lemma tcp_stop_ends rest c s :
  point_on Top c s -> (forall c s, rest c s = Ok (c, s)) ->
  ends (mb_tcp_stop rest (Some c)) (fun t s' => exists c', t = Some c' /\ steps start (shape c' (fst s') Left Stopped) /\ base ⊆ fds (fst s')) s.
Proof.
  destruct s as [k u]. intros Ha Hrest. unfold mb_tcp_stop. rewrite (proj2 (at_server _ _ _ _ Ha)). cbn [Z.eqb].
  apply ends_bind, ends_on_fst. eapply ends_mono; [by apply stop_request_ends|]. intros c1 k1 [H1 Hrun].
  apply ends_bind. intros c2 s2. rewrite Hrest. intros [= <- <-].
  apply ends_bind, ends_on_fst, ends_same_open; [by apply keeps_open_release|]. intros [] k2 Hk2.
  apply ends_bind, ends_on_fst. eapply ends_mono.
  { apply stop_release_ends; [|done]. apply leave; [by eapply at_same_open | done]. }
  intros c3 k3 H3. apply ends_ret. by exists c3.
Qed.
End Run.

(** ** The start *)

Definition runs (r : Z * mb_tcp_ctx) : Prop := Tcp.keep_running (snd r) = 1.

Lemma give_up_runs c k : Tcp.keep_running c = 1 -> ends (let! c := close_listen_sock c in ret (-1, c)) (fun r _ => runs r) k.
Proof. intros Hr. apply ends_bind, ends_bind. intros [] ? _. by apply ends_ret, ends_ret. Qed.

Lemma listen_init_runs c k : Tcp.keep_running c = 1 -> ends (mb_tcp_listen_init c) (fun r _ => runs r) k.
Proof.
  intros Hr. apply ends_bind. intros sock k1 _. cbv zeta. destruct (_ <? 0); [by apply ends_ret|].
  do 2 (apply ends_bind; intros ? ? _; destruct (_ <? 0); [by apply give_up_runs|]).
  apply ends_bind. intros ? ? _. apply ends_bind. intros ? ? _. destruct (_ <? 0); [by apply give_up_runs|].
  apply ends_bind. intros ? ? _. by apply ends_ret.
Qed.

Lemma launch_server_runs c k : Tcp.keep_running c = 1 -> ends (launch_server c) (fun r _ => runs r) k.
Proof.
  intros Hr. apply ends_bind. eapply ends_mono; [by apply listen_init_runs|]. intros [rc c1] k1 H1.
  apply ends_bind. intros failed k2 _. destruct failed; [|by apply ends_ret].
  apply ends_bind, (ends_mono _ (fun c _ => Tcp.keep_running c = 1)).
  { destruct (0 <=? _); [|by apply ends_ret]. apply ends_bind. intros ? ? _. by apply ends_ret. }
  intros c2 k3 H2. apply ends_bind. intros ? ? _. apply ends_bind. intros ? ? _. by apply ends_ret.
Qed.

Lemma start_runs c config k :
  mode config = MB_TCP_MODE_LISTEN_SERVER -> initialized c = 0 ->
  ends (mb_tcp_start (Some c) (Some config)) (fun r _ => forall c', snd r = Some c' -> Tcp.keep_running c' = 1) k.
Proof.
  intros Hm Hi. unfold mb_tcp_start. rewrite Hm, Hi. change (mode (cfg (fresh_ctx config))) with (mode config).
  rewrite Hm. cbn [Z.eqb andb negb MB_TCP_MODE_LISTEN_SERVER MB_TCP_MODE_CONNECT_CLIENT]. cbv zeta.
  apply ends_bind, (ends_mono _ (fun r _ => runs r)).
  { apply ends_bind. intros ? ? _. destruct (negb _); by apply ends_ret. }
  intros [rc c1] k1 H1. cbv iota beta. destruct (rc <? 0); [apply ends_ret; by intros ? [= <-]|].
  apply ends_bind. intros rc1 k2 _. destruct (negb _).
  { apply ends_bind. intros ? ? _. apply ends_ret. by intros ? [= <-]. }
  apply ends_bind. intros ? ? _. apply ends_bind, (ends_mono _ (fun r _ => runs r)).
  { destruct (mode _ =? _); [by apply launch_server_runs|]. apply ends_bind. intros ? ? _.
    destruct (negb _); [|by apply ends_ret]. apply ends_bind. intros ? ? _. by apply ends_ret. }
  intros [rc2 c2] k3 H3. apply ends_ret. by intros ? [= <-].
Qed.

(** What a start leaves is where the interleavings start. *)
Lemma started_shape k config c k1 :
  mb_tcp_start (Some zero_transport) (Some config) k = Ok ((0, Some c), k1) ->
  mode config = MB_TCP_MODE_LISTEN_SERVER -> sane_base k -> is_u16 (max_clients config) -> listen_fits k ->
  let start := started (Z.to_nat (server_cap config)) (Tcp.listen_sock c) (fds k) in
  inv start /\ at_point (fds k) start Idle Top c k1.
Proof.
  intros Hrun Hm Hb Hmax Hfits. cbv zeta.
  pose proof (wp_ok _ _ _ _ _ (start_server_wp k config zero_transport Hb Hm Hmax eq_refl Hfits) Hrun) as Hst.
  pose proof (start_runs zero_transport config k Hm eq_refl _ _ Hrun c eq_refl) as Hflag.
  destruct Hst as (c' & [= <-] & [(E & _)|(_ & Hinv & _ & Hslots)]); [done|].
  destruct Hinv as [[Hcap Hlen] [[Hl _] Hnew] _ _ Hfds [Hstream [Hini _]]].
  assert (forall fd, fd ∈ fds k1 <-> fd ∈ fds k \/ fd = Tcp.listen_sock c) as Hopen.
  { intros fd. rewrite Hfds. split; [|naive_solver]. intros [?|[?|(i & Hi & Hpos)]]; [by left|by right|].
    rewrite Hslots in Hi. apply lookup_replicate in Hi as [-> _]. lia. }
  split; [by apply started_inv|]. split; [| | |done].
  - assert (shape (fds k) c k1 Top Idle = started (Z.to_nat (server_cap config)) (Tcp.listen_sock c) (fds k)) as ->.
    { unfold shape, started. rewrite Hslots, Hflag. cbn. f_equal. apply set_eq. intros fd.
      rewrite elem_of_difference, Hopen, elem_of_singleton. split; [tauto|]. intros ->. split; [by right | done]. }
    apply rtc_refl.
  - intros fd Hfd. apply Hopen. by left.
  - rewrite Hlen, Hcap. pose proof (server_cap_pos config Hmax). lia.
Qed.

(** ** The theorem *)

Section Server.
Context `{Indet} {U : Type}.

(** A server that runs: its transport has started, its thread has gone through
    the rounds. *)
Lemma running_split (s : mb_tcp_server U) (cfg : mb_tcp_server_config U) on_link rounds k ls t k1 ls1 :
  initialized (transport s) = 0 ->
  server_running s cfg on_link rounds (k, ls) = Ok ((0, Some t), (k1, ls1)) ->
  exists c k0 running, mb_tcp_start (Some zero_transport) (Some (transport_config cfg on_link)) k = Ok ((0, c), k0) /\
    mb_tcp_server_thread (process_line (kept_config cfg)) rounds (default zero_transport c) (k0, ls)
    = Ok ((running, transport t), (k1, ls1)).
Proof.
  intros Hi ([rc s0] & [k0 ls0] & Hstart & Hrun)%bind_inv. cbv iota beta in Hrun.
  unfold on_fst, mb_tcp_server_start in Hstart. rewrite Hi in Hstart. cbn [Z.eqb negb] in Hstart.
  destruct (bind _ _ k) as [[r0 k0']|] eqn:E; [|done]. injection Hstart as -> -> <-.
  apply bind_inv in E as ([rc1 c] & k0' & Hst & [= <- <- <-]).
  destruct (Z.eqb_spec rc1 0) as [->|Hne]; [|by injection Hrun as -> _ _ _].
  apply bind_inv in Hrun as ([running c1] & [k1' ls1'] & Hthread & [= <- <- <-]). by exists c, k0', running.
Qed.

(** C21. The executable server is covered by the interleavings of
    [TcpStop]: when [mb_tcp_server_start] succeeds, the context and the kernel
    are a state [started]; whatever the thread does in any number of rounds,
    reading the flag as it is, is a sequence of steps of the relation; and the
    call of [mb_tcp_server_stop] between two rounds, the thread's way out and
    the release after the join are one too, which ends with the descriptors
    that the process had before.  So what holds in every interleaving
    ([tcp_stop_interleaved]) holds of every run of the program, and the
    relation leaves out nothing that the program does with descriptors and
    slots. *)
Theorem tcp_server_is_interleaving (s : mb_tcp_server U) (cfg : mb_tcp_server_config U) on_link rounds sel rounds' k ls t k1 ls1 :
  sane_base k -> initialized (transport s) = 0 -> is_u16 (srv_max_clients cfg) -> listen_fits k ->
  Forall (fun r => fst r <> 0) rounds ->
  server_running s cfg on_link rounds (k, ls) = Ok ((0, Some t), (k1, ls1)) ->
  exists listen, 0 <= listen /\ listen ∉ fds k /\
    let cap := Z.to_nat (server_cap (transport_config cfg on_link)) in
    steps (started cap listen (fds k)) (shape (fds k) (transport t) k1 Top Idle) /\
    forall r k2 ls2, mb_tcp_server_stop (Some t) ((0, sel) :: rounds') (k1, ls1) = Ok (r, (k2, ls2)) ->
      exists t', r = Some t' /\ fds k2 = fds k /\
        steps (shape (fds k) (transport t) k1 Top Idle) (shape (fds k) (transport t') k2 Left Stopped).
Proof.
  intros Hb Hi Hmax Hfits Hrounds Hrun.
  destruct (running_split _ _ _ _ _ _ _ _ _ Hi Hrun) as (c & k0 & running & Hst & Hthread).
  pose proof (wp_ok _ _ _ _ _ (start_server_wp k (transport_config cfg on_link) zero_transport Hb eq_refl Hmax eq_refl
    Hfits) Hst) as (c0 & Hc & _). cbn [snd] in Hc. subst c. cbn [default from_option id] in Hthread.
  destruct (started_shape k _ c0 k0 Hst eq_refl Hb Hmax Hfits) as [Hinv Hat].
  destruct (server_thread_ends _ _ _ Hinv rounds c0 (k0, ls) Hat Hrounds _ _ Hthread) as [_ Hat1].
  cbn [fst snd] in Hat1. exists (Tcp.listen_sock c0). cbv zeta.
  split; [by apply (inv_listening _ Hinv)|].
  split; [pose proof (inv_apart _ Hinv) as Hap; cbn in Hap; set_solver|].
  split; [by apply Hat1|].
  intros r k2 ls2 (t2 & [k2' ls2'] & Hstop & [= <- <- <-])%bind_inv.
  pose proof (at_inv _ _ Hinv _ _ _ _ Hat1) as Hinv1.
  assert (at_point (fds k) (shape (fds k) (transport t) k1 Top Idle) Idle Top (transport t) k1) as Hat2
    by (destruct Hat1; split; [apply rtc_refl | done..]).
  destruct (tcp_stop_ends (process_line (server_cfg t)) _ _ Hinv1 _ _ (k1, ls1) Hat2 (fun c s => eq_refl) _ _ Hstop)
    as (c' & -> & Hsteps & Hbase).
  eexists. split; [done|]. cbn [transport default from_option id fst] in *. split; [|exact Hsteps].
  destruct (stopped_empty _ (steps_inv _ _ Hinv1 Hsteps) eq_refl) as [_ Hours]. cbn in Hours.
  apply (anti_symm (⊆)); [|exact Hbase]. by apply empty_difference_subseteq_L.
Qed.
End Server.

#[local] Instance junk : Indet := fun i => 7 + 5 * Z.of_nat i.

(** A client connects, asks for two registers and is there when the server is
    stopped. *)
Definition one_run : outcome ((Z * option (mb_tcp_server bank)) * (kernel * lines (U:=bank))) :=
  server_running idle_server (bank_config 1) true [(1, Selected [3]); (1, Selected [4])] (calm_kernel, one_peer).

Lemma tcp_server_is_interleaving_witness :
  match one_run with
  | Ok ((rc, Some t), (k1, ls1)) => rc = 0 /\
      exists listen, 0 <= listen /\ listen ∉ std_fds /\
        let cap := Z.to_nat (server_cap (transport_config (bank_config 1) true)) in
        steps (started cap listen std_fds) (shape std_fds (transport t) k1 Top Idle) /\
        forall r k2 ls2, mb_tcp_server_stop (Some t) [(0, Selected [])] (k1, ls1) = Ok (r, (k2, ls2)) ->
          exists t', r = Some t' /\ fds k2 = std_fds /\
            steps (shape std_fds (transport t) k1 Top Idle) (shape std_fds (transport t') k2 Left Stopped)
  | _ => False
  end.
Proof.
  assert (match one_run with Ok ((rc, Some _), _) => rc = 0 | _ => False end) as H by (by vm_compute).
  destruct one_run as [[[rc [t|]] [k1 ls1]]|] eqn:E; try done. split; [done|]. subst rc.
  apply (tcp_server_is_interleaving idle_server (bank_config 1) true [(1, Selected [3]); (1, Selected [4])] (Selected [])
    [] calm_kernel one_peer t k1 ls1).
  - split; [|split]; by vm_compute.
  - done.
  - by vm_compute.
  - apply calm_fits.
  - by repeat (apply List.Forall_cons; [done|]); apply List.Forall_nil.
  - exact E.
Defined.

(** Where the stop finds it: connection 4 in the first slot. *)
Example one_run_shape :
  match one_run with
  | Ok ((_, Some t), (k1, _)) => shape std_fds (transport t) k1 Top Idle
      = State 3 (4 :: replicate 9 (-1)) true {[3; 4]} std_fds Top Idle
  | _ => False
  end.
Proof. vm_compute. done. Qed.
