(* ===== verification/TcpStopClient.v ===== *)
(** * [mb_tcp_stop] against the thread of a connecting transport

    As [TcpStop], for [mb_tcp_client_thread]: every access of the thread and of
    [mb_tcp_stop] to [keep_running] and [stream_sock] is a step of its own, in
    any interleaving, beside threads of the process that open and close
    descriptors.  [sock] is the thread's own variable.  A transport that
    connects has no listening socket and no slots, so those parts of
    [mb_tcp_stop] do nothing. *)

From stdpp Require Import gmap relations.
From S2P Require Import Prelude Buffer Sys TcpServer Kernel TcpPort.

(** At the loop's condition; in [mb_tcp_connect], without and with a socket; in
    the pause after a failed attempt; at [on_process]; before [close(sock)];
    before [ctx->stream_sock = -1]; after the loop. *)
Inductive thread_pc := Top | Connecting | Opened (sd : Z) | Pausing | Serving | Closing (sd : Z) | Clearing (sd : Z) | Left.

(** Before the call, [keep_running] cleared, before the shutdown, before the
    join, joined, returned. *)
Inductive stop_pc := Idle | Flagged | Shutting | Waiting | Joined | Stopped.

Record state := State {
  stream_sock : Z;
  sock : Z;
  keep_running : bool;
  ours : gset Z;
  foreign : gset Z;
  thread : thread_pc;
  stopping : stop_pc;
}.

Definition at_thread (t : thread_pc) (s : state) : state :=
  State (stream_sock s) (sock s) (keep_running s) (ours s) (foreign s) t (stopping s).
Definition at_stop (p : stop_pc) (s : state) : state :=
  State (stream_sock s) (sock s) (keep_running s) (ours s) (foreign s) (thread s) p.
Definition set_stream (fd : Z) (s : state) : state :=
  State fd (sock s) (keep_running s) (ours s) (foreign s) (thread s) (stopping s).
Definition set_sock (fd : Z) (s : state) : state :=
  State (stream_sock s) fd (keep_running s) (ours s) (foreign s) (thread s) (stopping s).
Definition set_flag (b : bool) (s : state) : state :=
  State (stream_sock s) (sock s) b (ours s) (foreign s) (thread s) (stopping s).
Definition set_table (o f : gset Z) (s : state) : state :=
  State (stream_sock s) (sock s) (keep_running s) o f (thread s) (stopping s).

Definition close (fd : Z) (s : state) : state := set_table (ours s ∖ {[fd]}) (foreign s ∖ {[fd]}) s.

Inductive action := Quiet | Close (fd : Z) | Shut (fd : Z).

Definition free (fd : Z) (s : state) : Prop := 0 <= fd /\ fd ∉ ours s /\ fd ∉ foreign s.

Inductive thread_step (s : state) : action -> state -> Prop :=
  | thread_enter : thread s = Top -> keep_running s = true ->
      thread_step s Quiet (at_thread (if sock s <? 0 then Connecting else Serving) s)
  | thread_leave : thread s = Top -> keep_running s = false -> thread_step s Quiet (at_thread Left s)
  | thread_no_socket : thread s = Connecting -> thread_step s Quiet (at_thread Pausing s)
  | thread_socket sd : thread s = Connecting -> free sd s ->
      thread_step s Quiet (at_thread (Opened sd) (set_table ({[sd]} ∪ ours s) (foreign s) s))
  | thread_refused sd : thread s = Opened sd -> thread_step s (Close sd) (at_thread Pausing (close sd s))
  | thread_connected sd : thread s = Opened sd ->
      thread_step s Quiet (at_thread Serving (set_sock sd (set_stream sd s)))
  | thread_pause : thread s = Pausing -> keep_running s = true -> thread_step s Quiet s
  | thread_retry : thread s = Pausing -> thread_step s Quiet (at_thread Top s)
  | thread_served : thread s = Serving -> thread_step s Quiet (at_thread Top s)
  | thread_failed : thread s = Serving -> thread_step s Quiet (at_thread (Closing (sock s)) s)
  | thread_close sd : thread s = Closing sd -> thread_step s (Close sd) (at_thread (Clearing sd) (close sd s))
  | thread_clear sd : thread s = Clearing sd ->
      thread_step s Quiet (at_thread Top (set_sock (-1) (set_stream (-1) s))).

Inductive stop_step (s : state) : action -> state -> Prop :=
  | stop_flag : stopping s = Idle -> stop_step s Quiet (at_stop Flagged (set_flag false s))
  | stop_test : stopping s = Flagged ->
      stop_step s Quiet (at_stop (if 0 <=? stream_sock s then Shutting else Waiting) s)
  | stop_shut : stopping s = Shutting -> stop_step s (Shut (stream_sock s)) (at_stop Waiting s)
  | stop_join : stopping s = Waiting -> thread s = Left -> stop_step s Quiet (at_stop Joined s)
  | stop_no_socket : stopping s = Joined -> stream_sock s < 0 -> stop_step s Quiet (at_stop Stopped s)
  | stop_close : stopping s = Joined -> 0 <= stream_sock s ->
      stop_step s (Close (stream_sock s)) (at_stop Stopped (set_stream (-1) (close (stream_sock s) s))).

Inductive other_step (s : state) : state -> Prop :=
  | other_open fd : free fd s -> other_step s (set_table (ours s) ({[fd]} ∪ foreign s) s)
  | other_close fd : fd ∈ foreign s -> other_step s (close fd s).

Inductive step (s : state) : action -> state -> Prop :=
  | step_thread a s' : thread_step s a s' -> step s a s'
  | step_stop a s' : stop_step s a s' -> step s a s'
  | step_other s' : other_step s s' -> step s Quiet s'.

Definition steps : state -> state -> Prop := rtc (fun s s' => exists a, step s a s').

(** After [mb_tcp_start]: no socket; the rest of the process has [f]. *)
Definition started (f : gset Z) : state := State (-1) (-1) true ∅ f Top Idle.

(** ** The invariant *)

(** What the transport has open: the connection, unless the thread has just
    closed it, and a socket that is not connected yet. *)
Definition holds (s : state) (fd : Z) : Prop :=
  0 <= fd /\ ((fd = stream_sock s /\ thread s <> Clearing fd) \/ thread s = Opened fd).

(** Where the thread is; until the end [sock] is [stream_sock]. *)
Definition thread_ok (s : state) : Prop :=
  (stopping s <> Stopped -> sock s = stream_sock s) /\
  match thread s with
  | Connecting | Pausing => stream_sock s < 0
  | Opened sd => 0 <= sd /\ stream_sock s < 0
  | Serving => 0 <= stream_sock s
  | Closing sd | Clearing sd => 0 <= sd /\ sd = stream_sock s
  | Left => keep_running s = false
  | Top => True
  end.

Definition joined (p : stop_pc) : bool := match p with Joined | Stopped => true | _ => false end.

Record inv (s : state) : Prop := Inv {
  inv_ours : forall fd, fd ∈ ours s <-> holds s fd;
  inv_apart : ours s ## foreign s;
  inv_thread : thread_ok s;
  inv_running : keep_running s = false <-> stopping s <> Idle;
  inv_joined : joined (stopping s) = true -> thread s = Left;
  inv_stopped : stopping s = Stopped -> stream_sock s < 0;
}.

Lemma client_started_inv f : inv (started f).
Proof.
  split; cbn; try done.
  intros fd. unfold holds. cbn. split; [set_solver|]. intros [? [[-> _]|[=]]]. lia.
Qed.

(** Points of the thread at which [stream_sock] is all it holds. *)
Definition plain (t : thread_pc) : bool := match t with Clearing _ | Opened _ => false | _ => true end.

Lemma holds_plain s fd : plain (thread s) = true -> holds s fd <-> 0 <= fd /\ fd = stream_sock s.
Proof.
  intros Hp. unfold holds. split.
  - intros [? [[? _]|Ht]]; [done|]. by rewrite Ht in Hp.
  - intros [? ?]. split; [done|]. left. split; [done|]. intros Ht. by rewrite Ht in Hp.
Qed.

Lemma client_inv_at_thread s t :
  inv s -> plain (thread s) = true -> plain t = true -> thread_ok (at_thread t s) ->
  (joined (stopping s) = true -> t = Left) -> inv (at_thread t s).
Proof.
  intros [Ho Ha _ Hr _ Hd] Hp Hp' Ht Hj. split; try done. intros fd. cbn [ours at_thread].
  by rewrite Ho, !holds_plain.
Qed.

(** The thread is in its loop, so it has not been joined. *)
Lemma in_loop s t : inv s -> thread s = t -> t <> Left -> joined (stopping s) = false /\ sock s = stream_sock s.
Proof.
  intros Hs Ht Hne. assert (joined (stopping s) = false) as Hj.
  { destruct (joined _) eqn:E; [|done]. by rewrite (inv_joined s Hs E) in Ht. }
  split; [done|]. apply (inv_thread s Hs). intros E. by rewrite E in Hj.
Qed.

Lemma thread_socket_inv s sd :
  inv s -> thread s = Connecting -> free sd s ->
  inv (at_thread (Opened sd) (set_table ({[sd]} ∪ ours s) (foreign s) s)).
Proof.
  intros Hs Ht (Hpos & Hno & Hnf). destruct (in_loop s _ Hs Ht ltac:(done)) as [Hnj Hsock].
  destruct Hs as [Ho Ha [_ Hok] Hr Hj Hd]. rewrite Ht in Hok.
  split; cbn [ours foreign set_table at_thread stopping thread keep_running stream_sock]; try done.
  - intros fd. rewrite elem_of_union, elem_of_singleton, Ho. unfold holds. cbn. rewrite Ht. split.
    + intros [->|[? [[-> _]|[=]]]]; [by split; [|right]|]. lia.
    + intros [? [[-> _]|[= ->]]]; [lia | by left].
  - set_solver.
  - congruence.
Qed.

Lemma thread_refused_inv s sd : inv s -> thread s = Opened sd -> inv (at_thread Pausing (close sd s)).
Proof.
  intros Hs Ht. destruct (in_loop s _ Hs Ht ltac:(done)) as [Hnj Hsock].
  destruct Hs as [Ho Ha [_ Hok] Hr Hj Hd]. rewrite Ht in Hok. destruct Hok as [Hpos Hneg].
  split; cbn [ours foreign close set_table at_thread stopping thread keep_running stream_sock]; try done.
  - intros fd. rewrite elem_of_difference, elem_of_singleton, Ho. unfold holds. cbn. rewrite Ht. split.
    + intros [[? [[-> _]|[= ->]]] ?]; [lia|done].
    + intros [? [[-> _]|[=]]]. lia.
  - set_solver.
  - congruence.
Qed.

Lemma thread_connected_inv s sd :
  inv s -> thread s = Opened sd -> inv (at_thread Serving (set_sock sd (set_stream sd s))).
Proof.
  intros Hs Ht. destruct (in_loop s _ Hs Ht ltac:(done)) as [Hnj Hsock].
  destruct Hs as [Ho Ha [_ Hok] Hr Hj Hd]. rewrite Ht in Hok. destruct Hok as [Hpos Hneg].
  split; cbn [ours foreign set_sock set_stream at_thread stopping thread keep_running stream_sock]; try done.
  - intros fd. rewrite Ho. unfold holds. cbn. rewrite Ht. split.
    + intros [? [[-> _]|[= ->]]]; [lia|]. split; [done|]. by left.
    + intros [? [[-> _]|[=]]]. by split; [|right].
  - congruence.
  - intros E. by rewrite E in Hnj.
Qed.

Lemma client_thread_close_inv s sd : inv s -> thread s = Closing sd -> inv (at_thread (Clearing sd) (close sd s)).
Proof.
  intros Hs Ht. destruct (in_loop s _ Hs Ht ltac:(done)) as [Hnj Hsock].
  destruct Hs as [Ho Ha [_ Hok] Hr Hj Hd]. rewrite Ht in Hok. destruct Hok as [Hpos ->].
  split; cbn [ours foreign close set_table at_thread stopping thread keep_running stream_sock]; try done.
  - intros fd. rewrite elem_of_difference, elem_of_singleton, Ho. unfold holds. cbn. rewrite Ht. split.
    + intros [[? [[-> _]|[=]]] ?]. done.
    + intros [? [[-> Hne]|[=]]]. by destruct Hne.
  - set_solver.
  - congruence.
Qed.

Lemma client_thread_clear_inv s sd :
  inv s -> thread s = Clearing sd -> inv (at_thread Top (set_sock (-1) (set_stream (-1) s))).
Proof.
  intros Hs Ht. destruct (in_loop s _ Hs Ht ltac:(done)) as [Hnj Hsock].
  destruct Hs as [Ho Ha [_ Hok] Hr Hj Hd]. rewrite Ht in Hok. destruct Hok as [Hpos ->].
  split; cbn [ours foreign set_sock set_stream at_thread stopping thread keep_running stream_sock]; try done.
  - intros fd. rewrite Ho. unfold holds. cbn. rewrite Ht. split.
    + intros [? [[-> Hne]|[=]]]. by destruct Hne.
    + intros [? [[-> _]|[=]]]. lia.
  - congruence.
Qed.

Lemma move_inv s t t' :
  inv s -> thread s = t -> t <> Left -> plain t = true -> plain t' = true ->
  thread_ok (at_thread t' s) -> inv (at_thread t' s).
Proof.
  intros Hs Ht Hne Hp Hp' Hok. destruct (in_loop s t Hs Ht Hne) as [Hnj _].
  apply client_inv_at_thread; [done | by rewrite Ht | done | done | congruence].
Qed.

Lemma client_thread_step_inv s a s' : inv s -> thread_step s a s' -> inv s'.
Proof.
  intros Hs Hstep. pose proof (inv_thread s Hs) as [Hsame Hok].
  destruct Hstep as [Ht Hk|Ht Hk|Ht|sd Ht Hf|sd Ht|sd Ht|Ht Hk|Ht|Ht|Ht|sd Ht|sd Ht];
    rewrite Ht in Hok; destruct (in_loop s _ Hs Ht ltac:(done)) as [Hnj Hsock];
    try (by eauto using thread_socket_inv, thread_refused_inv, thread_connected_inv, client_thread_close_inv, client_thread_clear_inv);
    apply (move_inv s _ _ Hs Ht); try done; try (by destruct (_ <? _)); (split; [exact Hsame|]); try done; cbn; rewrite Hsock.
  - destruct (Z.ltb_spec (stream_sock s) 0); lia.
  - done.
Qed.

Lemma client_stop_step_inv s a s' : inv s -> stop_step s a s' -> inv s'.
Proof.
  intros Hs Hstep. pose proof Hs as [Ho Ha [Hsock Hok] Hr Hj Hd].
  destruct Hstep as [Hp|Hp|Hp|Hp Ht|Hp Hneg|Hp Hpos]; rewrite Hp in Hr, Hj, Hsock;
    split; cbn [ours foreign set_flag at_stop set_stream close set_table stopping thread keep_running stream_sock joined];
    try done; try (by split); try (by destruct (_ <=? _)).
  - split; [by intros _; apply Hsock|]. cbn. by destruct (thread s).
  - split; [by intros _; apply Hsock | done].
  - destruct (0 <=? _); rewrite Hr; by split.
  - split; [by intros _; apply Hsock | done].
  - rewrite Hr. by split.
  - split; [by intros _; apply Hsock | done].
  - rewrite Hr. by split.
  - rewrite Hr. by split.
  - intros fd. rewrite elem_of_difference, elem_of_singleton, Ho. specialize (Hj eq_refl).
    rewrite !holds_plain by (cbn; by rewrite Hj). cbn. lia.
  - set_solver.
  - specialize (Hj eq_refl). split; [done|]. cbn. by rewrite Hj in *.
  - rewrite Hr. by split.
Qed.

Lemma client_other_step_inv s s' : inv s -> other_step s s' -> inv s'.
Proof.
  intros [Ho Ha Ht Hr Hj Hd] [fd (Hpos & Hno & Hnf)|fd Hf]; split; try done; cbn [ours foreign close set_table].
  - set_solver.
  - intros fd'. change (holds (close fd s) fd') with (holds s fd'). rewrite <- Ho. set_solver.
  - set_solver.
Qed.

Lemma client_steps_inv s s' : inv s -> steps s s' -> inv s'.
Proof.
  intros Hs Hsteps. induction Hsteps as [|s1 s2 s3 [a Hstep] _ IH]; [done|]. apply IH.
  destruct Hstep; eauto using client_thread_step_inv, client_stop_step_inv, client_other_step_inv.
Qed.

(** ** What a step may do *)

(** As in [TcpStop]: only between [close(sock)] and [stream_sock = -1] does the
    context name a descriptor that is not the transport's. *)
Definition allowed (s : state) (a : action) : Prop :=
  match a with
  | Quiet => True
  | Close fd => fd ∈ ours s /\ fd ∉ foreign s
  | Shut fd => fd ∈ ours s \/ fd < 0 \/ (thread s = Clearing fd /\ stream_sock s = fd)
  end.

#[local] Instance thread_pc_eq_dec : EqDecision thread_pc.
Proof. solve_decision. Defined.

Lemma client_step_allowed s a s' : inv s -> step s a s' -> allowed s a.
Proof.
  intros Hs Hstep. pose proof (inv_thread s Hs) as [_ Hok].
  assert (forall fd, holds s fd -> fd ∈ ours s /\ fd ∉ foreign s) as Hown.
  { intros fd Hfd%(inv_ours s Hs). pose proof (inv_apart s Hs). set_solver. }
  destruct Hstep as [a s' Hstep|a s' Hstep|s' Hstep]; [| |done].
  - destruct Hstep as [| | | |sd Ht| | | | | |sd Ht|]; try done; rewrite Ht in Hok; apply Hown; destruct Hok as [Hpos Hsd].
    + split; [done | by right].
    + split; [done|]. left. split; [done | by rewrite Ht].
  - destruct Hstep as [|Hp|Hp| | |Hp Hpos]; try done; cbn.
    + destruct (Z.lt_ge_cases (stream_sock s) 0) as [|Hpos]; [by right; left|].
      destruct (decide (thread s = Clearing (stream_sock s))); [by right; right|]. left.
      apply Hown. split; [done | by left].
    + apply Hown. split; [done|]. left. split; [done|].
      pose proof (inv_joined s Hs) as Hj. rewrite Hp in Hj. by rewrite Hj.
Qed.

Lemma client_stopped_empty s : inv s -> stopping s = Stopped -> thread s = Left /\ ours s = ∅.
Proof.
  intros Hs Hp. pose proof (inv_joined s Hs) as Hj. rewrite Hp in Hj. specialize (Hj eq_refl). split; [done|].
  pose proof (inv_stopped s Hs Hp) as Hneg. apply elem_of_equiv_empty_L. intros fd Hfd%(inv_ours s Hs).
  apply holds_plain in Hfd as [? ->]; [lia | by rewrite Hj].
Qed.

(** ** The stop can always finish *)

(** The thread has left its loop. *)
Definition leaves (s : state) : Prop := exists s', steps s s' /\ thread s' = Left /\ stopping s' = stopping s.

Lemma client_leaves_moves s a s1 : thread_step s a s1 -> stopping s1 = stopping s -> leaves s1 -> leaves s.
Proof.
  intros Hs Hp (s2 & Hr & Ht & Hp2). exists s2. split; [|by rewrite Hp2].
  eapply rtc_l; [exists a; by apply step_thread | exact Hr].
Qed.

Lemma client_leaves_top s : thread s = Top -> keep_running s = false -> leaves s.
Proof. intros Ht Hk. eapply client_leaves_moves; [by apply thread_leave|done|]. by exists (at_thread Left s). Qed.

Lemma leaves_pausing s : thread s = Pausing -> keep_running s = false -> leaves s.
Proof. intros Ht Hk. eapply client_leaves_moves; [by apply thread_retry|done|]. by apply client_leaves_top. Qed.

Lemma client_leaves_clearing s sd : thread s = Clearing sd -> keep_running s = false -> leaves s.
Proof. intros Ht Hk. eapply client_leaves_moves; [by apply (thread_clear s sd)|done|]. by apply client_leaves_top. Qed.

Lemma client_thread_leaves s : keep_running s = false -> leaves s.
Proof.
  intros Hk. destruct (thread s) as [| |sd| | |sd|sd|] eqn:Ht.
  - by apply client_leaves_top.
  - eapply client_leaves_moves; [by apply thread_no_socket|done|]. by apply leaves_pausing.
  - eapply client_leaves_moves; [by apply (thread_refused s sd)|done|]. by apply leaves_pausing.
  - by apply leaves_pausing.
  - eapply client_leaves_moves; [by apply thread_served|done|]. by apply client_leaves_top.
  - eapply client_leaves_moves; [by apply (thread_close s sd)|done|]. by apply (client_leaves_clearing _ sd).
  - by apply (client_leaves_clearing s sd).
  - by exists s.
Qed.

Definition finishes (s : state) : Prop := exists s', steps s s' /\ stopping s' = Stopped.

Lemma client_finishes_moves s a s1 : stop_step s a s1 -> finishes s1 -> finishes s.
Proof. intros Hs (s2 & Hr & Hp). exists s2. split; [|done]. eapply rtc_l; [exists a; by apply step_stop | exact Hr]. Qed.

Lemma client_finishes_joined s : stopping s = Joined -> finishes s.
Proof.
  intros Hp. destruct (Z.lt_ge_cases (stream_sock s) 0).
  - eapply client_finishes_moves; [by apply stop_no_socket|]. by exists (at_stop Stopped s).
  - eapply client_finishes_moves; [by apply stop_close|]. by eexists.
Qed.

Lemma client_finishes_waiting s : keep_running s = false -> stopping s = Waiting -> finishes s.
Proof.
  intros Hk Hp. destruct (client_thread_leaves s Hk) as (s1 & Hr & Ht & Hp1). rewrite Hp in Hp1.
  assert (finishes s1) as (s2 & Hr2 & Hp2) by (eapply client_finishes_moves; [by apply stop_join | by apply client_finishes_joined]).
  exists s2. split; [by etrans | done].
Qed.

Lemma finishes_flagged s : keep_running s = false -> stopping s = Flagged -> finishes s.
Proof.
  intros Hk Hp. eapply client_finishes_moves; [by apply stop_test|]. destruct (0 <=? _); [|by apply client_finishes_waiting].
  eapply client_finishes_moves; [by apply stop_shut|]. by apply client_finishes_waiting.
Qed.

Lemma client_inv_finishes s : inv s -> finishes s.
Proof.
  intros Hs. pose proof (inv_running s Hs) as [_ Hk]. destruct (stopping s) eqn:Hp.
  - eapply client_finishes_moves; [by apply stop_flag|]. by apply finishes_flagged.
  - by apply finishes_flagged; [apply Hk|].
  - eapply client_finishes_moves; [by apply stop_shut|]. by apply client_finishes_waiting; [apply Hk|].
  - by apply client_finishes_waiting; [apply Hk|].
  - by apply client_finishes_joined.
  - by exists s.
Qed.

(** ** The theorem *)

(** C22. [mb_tcp_stop] against the thread of a connecting transport and the
    rest of the process, in every interleaving of their accesses to
    [keep_running] and [stream_sock]: whether the thread is connecting, pausing
    after a failed attempt, serving, or closing a broken connection, a
    descriptor is closed only while it is the transport's, so the connection is
    closed once, by the thread or by the stop; [shutdown] hits the connection,
    or -1, or the number of a connection that the thread has just closed and
    [stream_sock] still names; when the call has returned the thread is gone
    and the transport holds no descriptor; and from every state the call can
    return. *)
Theorem tcp_stop_client_interleaved f s :
  steps (started f) s ->
  (forall a s', step s a s' -> allowed s a) /\
  (stopping s = Stopped -> thread s = Left /\ ours s = ∅) /\
  exists s', steps s s' /\ stopping s' = Stopped.
Proof.
  intros Hr. pose proof (client_steps_inv _ _ (client_started_inv f) Hr) as Hs.
  split; [intros a s'; by apply client_step_allowed|]. split; [by apply client_stopped_empty | by apply client_inv_finishes].
Qed.

(** The connection breaks while it is being stopped, and a file gets its
    number. *)
Definition number_reused : state :=
  State 4 4 false ∅ ({[4]} ∪ {[0; 1; 2]}) (Clearing 4) Shutting.

Ltac go rule := eapply rtc_l; [eexists; rule|].

Lemma stream_number_reused : steps (started {[0; 1; 2]}) number_reused.
Proof.
  go ltac:(by apply step_thread, thread_enter).
  go ltac:(apply step_thread, (thread_socket _ 4); [done | by split; [|vm_compute]]).
  go ltac:(by apply step_thread, (thread_connected _ 4)). go ltac:(by apply step_thread, thread_failed).
  go ltac:(by apply step_stop, stop_flag). go ltac:(by apply step_stop, stop_test).
  go ltac:(by apply step_thread, (thread_close _ 4)).
  go ltac:(apply step_other, (other_open _ 4); by split; [|vm_compute]).
  match goal with |- rtc _ ?x ?y => replace x with y by (by vm_compute) end. apply rtc_refl.
Qed.

(** The shutdown that comes next hits the file. *)
Example foreign_stream_shutdown :
  steps (started {[0; 1; 2]}) number_reused /\ 4 ∈ foreign number_reused /\
  step number_reused (Shut 4) (at_stop Waiting number_reused).
Proof. split; [apply stream_number_reused|]. split; [by vm_compute|]. by apply step_stop, stop_shut. Qed.

Lemma tcp_stop_client_interleaved_witness :
  steps (started {[0; 1; 2]}) number_reused /\
  (forall a s', step number_reused a s' -> allowed number_reused a) /\
  (stopping number_reused = Stopped -> thread number_reused = Left /\ ours number_reused = ∅) /\
  exists s', steps number_reused s' /\ stopping s' = Stopped.
Proof.
  split; [apply stream_number_reused|].
  apply (tcp_stop_client_interleaved {[0; 1; 2]} number_reused). apply stream_number_reused.
Defined.
