(* ===== verification/TcpStopClientRun.v ===== *)
(** * The executable connecting transport is one of the interleavings

    As [TcpStopRun], for [mb_tcp_client_thread] of [TcpThread] and the steps of
    [TcpStopClient]: connecting, serving, losing the connection, the stop and
    the release are sequences of steps. *)

From stdpp Require Import gmap strings relations.
From S2P Require Import Prelude Buffer Defines Pdu PduSpec PduClient Ptr Tcp Sys Keeps TcpServer Kernel TcpPort TcpThread TcpThreadSpec TcpPortSpec TcpClientThreadSpec Ends TcpStopClient TcpPortTheorems TcpServerPort.

Section Run.
Context {U : Type} (on_process : Z -> st U Z) (base : gset Z) (start : state).

(** Between the accesses the thread's [sock] is [stream_sock]. *)
Definition shape (c : mb_tcp_ctx) (k : kernel) (t : thread_pc) (p : stop_pc) : state :=
  State (Tcp.stream_sock c) (Tcp.stream_sock c) (negb (Tcp.keep_running c =? 0)) (fds k ∖ base) base t p.

(** A transport that connects: no listening socket, no slots. *)
Definition connecting (c : mb_tcp_ctx) : Prop :=
  listen_sock c = -1 /\ client_cap c = 0 /\ client_fds c = [] /\ initialized c = 1 /\
  (Tcp.stream_sock c = -1 \/ 0 <= Tcp.stream_sock c).

Record at_point (p : stop_pc) (t : thread_pc) (c : mb_tcp_ctx) (k : kernel) : Prop := AtPoint {
  at_steps : steps start (shape c k t p);
  at_base : base ⊆ fds k;
  at_connecting : connecting c;
}.

Context (Hstart : inv start).

Lemma client_at_inv p t c k : at_point p t c k -> inv (shape c k t p).
Proof. intros [Hs _ _]. by eapply client_steps_inv. Qed.

Lemma client_at_thread_step p t c k a s' t' c' k' :
  at_point p t c k -> thread_step (shape c k t p) a s' -> s' = shape c' k' t' p -> base ⊆ fds k' ->
  connecting c' -> at_point p t' c' k'.
Proof.
  intros [Hs _ _] Hstep -> Hb Hc. split; try done. etrans; [exact Hs|]. apply rtc_once. exists a.
  by apply step_thread.
Qed.

Lemma client_at_stop_step p t c k a s' p' c' k' :
  at_point p t c k -> stop_step (shape c k t p) a s' -> s' = shape c' k' t p' -> base ⊆ fds k' ->
  connecting c' -> at_point p' t c' k'.
Proof.
  intros [Hs _ _] Hstep -> Hb Hc. split; try done. etrans; [exact Hs|]. apply rtc_once. exists a.
  by apply step_stop.
Qed.

Lemma client_at_same_open p t c k k' : at_point p t c k -> fds k' = fds k -> at_point p t c k'.
Proof. intros [Hs Hb Hc] Hf. split; try done; [|by rewrite Hf]. unfold shape. by rewrite Hf. Qed.

Lemma at_keeps {A} p t c (m : st kernel A) k :
  at_point p t c k -> keeps (same_open (fds k)) m -> ends m (fun _ => at_point p t c) k.
Proof. intros Ha Hm. apply ends_same_open; [done|]. intros a k' Hk'. by eapply client_at_same_open. Qed.

(** ** Connecting *)

(** [mb_tcp_connect] has a socket, or it has none any more. *)
Definition connect_point (c : mb_tcp_ctx) (r : Z * option Z) (k : kernel) : Prop :=
  (fst r <> 0 /\ at_point Idle Pausing c k) \/
  exists sd, r = (0, Some sd) /\ at_point Idle (Opened sd) c k.

(** The socket is the transport's. *)
Lemma opened_ours c k sd : at_point Idle (Opened sd) c k -> sd ∈ fds k /\ sd ∉ base /\ 0 <= sd.
Proof.
  intros Ha. pose proof (client_at_inv _ _ _ _ Ha) as Hinv. pose proof (inv_thread _ Hinv) as [_ [Hpos _]].
  assert (sd ∈ ours (shape c k (Opened sd) Idle)) as Ho by (apply (inv_ours _ Hinv); split; [done | by right]).
  cbn in Ho. set_solver.
Qed.

Lemma connect_failed_ends c sd k :
  at_point Idle (Opened sd) c k -> ends (connect_failed sd) (connect_point c) k.
Proof.
  intros Ha. destruct (opened_ours _ _ _ Ha) as (Hopen & Hours & _). pose proof Ha as [_ Hb Hc].
  apply ends_bind. intros [] k1. unfold sys_close. rewrite bool_decide_true by done. intros [= <-].
  apply ends_ret. left. split; [done|].
  eapply client_at_thread_step; [exact Ha | by apply (thread_refused _ sd) | | cbn; set_solver | done].
  unfold shape, close, set_table, at_thread. cbn. f_equal; apply set_eq; set_solver.
Qed.

Lemma connect_done_ends c sd k :
  at_point Idle (Opened sd) c k -> ends (sys_ctl sd ;;; emit (BlockingAgain sd) ;;; ret (0, Some sd)) (connect_point c) k.
Proof.
  intros Ha. apply ends_bind. eapply ends_mono; [by apply (at_keeps _ _ _ _ _ Ha); auto with keeps|]. intros ? k1 Ha1.
  apply ends_bind. eapply ends_mono; [by apply (at_keeps _ _ _ _ _ Ha1); auto with keeps|]. intros ? k2 Ha2.
  apply ends_ret. right. by exists sd.
Qed.

Lemma keeps_open_made F sd : keeps (same_open F) (connection_made sd).
Proof. unfold connection_made. keep. Qed.

Lemma connect_socket_ends c sd k :
  at_point Idle (Opened sd) c k -> ends (connect_socket sd) (connect_point c) k.
Proof.
  intros Ha. apply ends_bind. eapply ends_mono; [by apply (at_keeps _ _ _ _ _ Ha); auto with keeps|]. intros rc k1 Ha1.
  destruct (_ <? 0); [|by apply connect_done_ends]. apply ends_bind.
  apply (ends_mono _ (fun _ => at_point Idle (Opened sd) c)).
  { case_bool_decide; [apply (at_keeps _ _ _ _ _ Ha1), keeps_open_made | by apply ends_ret]. }
  intros [] k2 Ha2; [by apply connect_done_ends | by apply connect_failed_ends].
Qed.

(** A call on the socket, then the rest if it succeeded. *)
Lemma connect_call_ends {A} c sd (m : st kernel A) (b : A -> bool) rest k :
  at_point Idle (Opened sd) c k -> keeps (same_open (fds k)) m ->
  (forall k', at_point Idle (Opened sd) c k' -> ends rest (connect_point c) k') ->
  ends (let! rc := m in if b rc then connect_failed sd else rest) (connect_point c) k.
Proof.
  intros Ha Hm Hr. apply ends_bind. eapply ends_mono; [by apply (at_keeps _ _ _ _ _ Ha)|]. intros rc k1 Ha1.
  destruct (b rc); [by apply connect_failed_ends | by apply Hr].
Qed.

Lemma connect_quiet_ends {A} c sd (m : st kernel A) rest k :
  at_point Idle (Opened sd) c k -> keeps (same_open (fds k)) m ->
  (forall k', at_point Idle (Opened sd) c k' -> ends rest (connect_point c) k') ->
  ends (m ;;; rest) (connect_point c) k.
Proof.
  intros Ha Hm Hr. apply ends_bind. eapply ends_mono; [by apply (at_keeps _ _ _ _ _ Ha)|]. intros ? k1. apply Hr.
Qed.

Lemma tcp_connect_ends c iface host port timeout k :
  at_point Idle Connecting c k -> ends (mb_tcp_connect (Some (-1)) iface host port timeout) (connect_point c) k.
Proof.
  intros Ha. assert (forall k', fds k' = fds k -> at_point Idle Pausing c k') as Hnone.
  { intros k' Hk'. eapply client_at_same_open; [|exact Hk']. pose proof Ha as [_ Hb Hc].
    eapply client_at_thread_step; [exact Ha | by apply thread_no_socket | done..]. }
  unfold mb_tcp_connect. destruct (_ || _); [apply ends_ret; left; split; [done | by apply Hnone]|].
  cbv zeta. apply ends_bind. unfold sys_open. apply ends_bind, ends_same_open; [auto with keeps|]. intros a k1 Hk1.
  apply ends_bind, ends_get.
  destruct a as [n|e]; [|apply ends_ret, ends_ret; left; split; [done | by apply Hnone]].
  case_bool_decide as Hn; [|apply ends_ret, ends_ret; left; split; [done | by apply Hnone]]. destruct Hn as [Hpos Hnew].
  apply ends_bind. intros [] k2 [= <-]. apply ends_ret. rewrite (proj2 (Z.ltb_ge _ _)) by lia.
  pose proof (client_at_same_open _ _ _ _ _ Ha Hk1) as Ha1. pose proof Ha1 as [_ Hb Hc].
  assert (at_point Idle (Opened n) c (set_fds ({[n]} ∪ fds k1) k1)) as Ha2.
  { eapply client_at_thread_step; [exact Ha1 | apply (thread_socket _ n); [done|] | | cbn; set_solver | done].
    - split; [done|]. cbn. set_solver.
    - unfold shape, set_table, at_thread. cbn. f_equal. apply set_eq. set_solver. }
  repeat first
    [ apply (connect_quiet_ends c n); [assumption | auto with keeps | intros ? ?]
    | apply (connect_call_ends c n _ (fun rc => rc <? 0)); [assumption | keep | intros ? ?]
    | apply (connect_call_ends c n _ (fun p => return_value p <=? 0)); [assumption | auto with keeps | intros ? ?] ].
  by apply connect_socket_ends.
Qed.

(** ** One round of the thread *)

(** Where a round can be; the bool says whether there is a connection. *)
Definition round_point (t : thread_pc) (r : Z * mb_tcp_ctx) (k : kernel) : Prop :=
  fst r = Tcp.stream_sock (snd r) /\ at_point Idle t (snd r) k.

Lemma client_again c k t : at_point Idle t c k -> t = Pausing \/ t = Serving -> at_point Idle Top c k.
Proof.
  intros Ha [-> | ->]; pose proof Ha as [_ Hb Hc];
    (eapply client_at_thread_step; [exact Ha | first [by apply thread_retry | by apply thread_served] | done..]).
Qed.

Lemma keeps_open_pause F n flags : keeps (same_open F) (retry_pause n flags).
Proof.
  revert flags. induction n as [|n IH]; intros flags; cbn [retry_pause]; [keep|]. destruct flags; [keep|].
  destruct (_ =? 0); [keep|]. apply keeps_bind; [auto with keeps|]. intros ?. apply IH.
Qed.

(** A connection, or none: then [sock] is -1. *)
Lemma client_connect_ends flags c k :
  at_point Idle Connecting c k ->
  ends (client_connect flags c) (fun r k' =>
    (0 <= fst r /\ round_point Serving r k') \/ (fst r = -1 /\ snd r = c /\ at_point Idle Top c k')) k.
Proof.
  intros Ha. apply ends_bind. eapply ends_mono; [by apply tcp_connect_ends|]. intros [rc so] k1 Hcon. cbv zeta.
  destruct Hcon as [[Hrc Hp]|(sd & [= -> ->] & Ho)]; cbn [fst] in *.
  - rewrite (proj2 (Z.eqb_neq _ _)) by done. apply ends_bind.
    eapply ends_mono; [by apply (at_keeps _ _ _ _ _ Hp); auto with keeps|]. intros ? k2 Hp2.
    apply ends_bind. eapply ends_mono; [by apply (at_keeps _ _ _ _ _ Hp2), keeps_open_pause|]. intros ? k3 Hp3.
    apply ends_ret. right. split; [done|]. split; [done|]. apply (client_again _ _ Pausing); [done | by left].
  - cbn [default from_option id Z.eqb]. destruct (opened_ours _ _ _ Ho) as (_ & _ & Hpos). pose proof Ho as [_ Hb Hc].
    assert (at_point Idle Serving (set_stream_sock sd c) k1) as Hs.
    { eapply client_at_thread_step; [exact Ho | by apply thread_connected | done..|].
      destruct Hc as (? & ? & ? & ? & _). split_and!; try done. by right. }
    apply ends_bind. eapply ends_mono; [by apply (at_keeps _ _ _ _ _ Hs); auto with keeps|]. intros ? k2 Hs2.
    apply ends_bind. eapply ends_mono; [by apply (at_keeps _ _ _ _ _ Hs2); auto with keeps|]. intros ? k3 Hs3.
    apply ends_ret. left. split; [done|]. by split.
Qed.

Lemma client_poll_ends sock c s :
  at_point Idle Serving c (fst s) -> sock = Tcp.stream_sock c ->
  ends (client_poll on_process sock c) (fun r s' => round_point Top r (fst s')) s.
Proof.
  destruct s as [k u]. cbn [fst]. intros Ha ->. apply ends_bind.
  apply (ends_mono _ (fun _ s' => at_point Idle Serving c (fst s'))).
  { destruct (has_on_process _); [|by apply ends_ret]. apply ends_bind, ends_on_snd. intros rc u'. by apply ends_ret. }
  intros failed [k1 u1] Ha1. cbn [fst] in Ha1. destruct failed.
  2:{ apply ends_bind, ends_on_fst. eapply ends_mono; [by apply (at_keeps _ _ _ _ _ Ha1); auto with keeps|].
      intros ? k2 Ha2. apply ends_ret. split; [done|]. cbn. apply (client_again _ _ Serving); [done | by right]. }
  apply ends_bind, ends_on_fst, ends_bind.
  eapply ends_mono; [by apply (at_keeps _ _ _ _ _ Ha1); auto with keeps|]. intros ? k2 Ha2. pose proof Ha2 as [_ Hb Hc].
  assert (at_point Idle (Closing (Tcp.stream_sock c)) c k2) as H3
    by (eapply client_at_thread_step; [exact Ha2 | by apply thread_failed | done..]).
  intros [] k3. unfold sys_close. case_bool_decide as Hopen; [|done]. intros [= <-].
  assert (Tcp.stream_sock c ∉ base) as Hours.
  { assert (allowed (shape c k2 (Closing (Tcp.stream_sock c)) Idle) (Close (Tcp.stream_sock c))) as [Ho Hf]
      by (eapply client_step_allowed; [by apply client_at_inv | by apply step_thread, thread_close]). done. }
  set (k3 := set_fds _ k2).
  assert (at_point Idle (Clearing (Tcp.stream_sock c)) c k3) as H4.
  { eapply client_at_thread_step; [exact H3 | by apply thread_close | | cbn; set_solver | done].
    unfold shape, close, set_table, at_thread. cbn. f_equal; apply set_eq; set_solver. }
  assert (at_point Idle Top (set_stream_sock (-1) c) k3) as H5
    by (eapply client_at_thread_step; [exact H4 | by apply (thread_clear _ (Tcp.stream_sock c)) | done | by apply H4
      | destruct Hc as (? & ? & ? & ? & _); split_and!; try done; by left]).
  apply ends_bind, ends_on_fst. eapply ends_mono; [by apply (at_keeps _ _ _ _ _ H5); auto with keeps|]. intros ? k4 H6.
  by apply ends_ret.
Qed.

(** From the condition, which finds the flag set, to the condition. *)
Lemma client_round_ends flags c s :
  at_point Idle Top c (fst s) -> Tcp.keep_running c <> 0 ->
  ends (client_round on_process flags (Tcp.stream_sock c) c) (fun r s' => round_point Top r (fst s')) s.
Proof.
  destruct s as [k u]. cbn [fst]. intros Ha Hrun. pose proof Ha as [_ Hb Hc].
  assert (at_point Idle (if Tcp.stream_sock c <? 0 then Connecting else Serving) c k) as Hin.
  { eapply client_at_thread_step; [exact Ha | apply thread_enter; [done|] | done..]. cbn. by rewrite (proj2 (Z.eqb_neq _ _)). }
  unfold client_round. destruct (Z.ltb_spec (Tcp.stream_sock c) 0) as [Hneg|Hpos]; [|by apply client_poll_ends].
  apply ends_bind, ends_on_fst. eapply ends_mono; [by apply client_connect_ends|].
  intros [so c1] k1 [[Hso [Heq Hs]]|(Hso & Heq & Ht)]; cbn [fst snd] in *; subst so.
  - rewrite (proj2 (Z.ltb_ge _ _)) by done. by apply client_poll_ends.
  - subst c1. cbn [Z.ltb]. apply ends_ret. split; [|done]. cbn.
    destruct Hc as (_ & _ & _ & _ & [->|?]); [done | lia].
Qed.

Lemma client_flag_set c k t : at_point Idle t c k -> Tcp.keep_running c <> 0.
Proof.
  intros Ha Hz. destruct (inv_running _ (client_at_inv _ _ _ _ Ha)) as [Hr _]. apply Hr; [|done].
  cbn. by rewrite (proj2 (Z.eqb_eq _ _)).
Qed.

(** A thread that reads the flag as it is. *)
Lemma client_thread_ends rounds sock c s :
  at_point Idle Top c (fst s) -> sock = Tcp.stream_sock c -> Forall (fun r => fst r <> 0) rounds ->
  ends (mb_tcp_client_thread on_process rounds sock c) (fun r s' => fst r = true /\ at_point Idle Top (snd r) (fst s')) s.
Proof.
  intros Ha Hso Hr. revert sock c s Ha Hso. induction Hr as [|[running flags] rounds Hrun _ IH]; intros sock c s Ha Hso;
    cbn [mb_tcp_client_thread]; [by apply ends_ret|].
  rewrite (proj2 (Z.eqb_neq _ _)) by done. apply ends_bind. rewrite Hso.
  eapply ends_mono; [apply client_round_ends; [done | by eapply client_flag_set]|]. intros [so c'] s' [Hso' Ha']. by apply IH.
Qed.

(** ** The stop *)

Lemma client_stop_request_ends c k :
  at_point Idle Top c k ->
  ends (stop_request c) (fun c' k' => at_point Waiting Top c' k' /\ Tcp.keep_running c' = 0) k.
Proof.
  intros Ha. unfold stop_request. cbv zeta. set (c1 := TcpPort.set_keep_running 0 c).
  pose proof Ha as [_ Hb Hc]. pose proof Hc as (Hl & Hcap & _).
  assert (at_point Flagged Top c1 k) as H1 by (eapply client_at_stop_step; [exact Ha | by apply stop_flag | done..]).
  assert (at_point (if 0 <=? Tcp.stream_sock c1 then Shutting else Waiting) Top c1 k) as H2
    by (eapply client_at_stop_step; [exact H1 | by apply stop_test | done..]).
  change (listen_sock c1) with (listen_sock c). rewrite Hl. cbn [Z.leb].
  unfold slots. change (client_cap c1) with (client_cap c). rewrite Hcap. cbn [Z.to_nat seq each_slot].
  apply ends_bind, ends_ret, ends_bind, ends_ret, ends_bind.
  destruct (0 <=? Tcp.stream_sock c1); [|by apply ends_ret, ends_ret].
  assert (at_point Waiting Top c1 k) as H3 by (eapply client_at_stop_step; [exact H2 | by apply stop_shut | done..]).
  eapply ends_mono; [by apply (at_keeps _ _ _ _ _ H3); auto with keeps|]. intros ? k1 H4. by apply ends_ret.
Qed.

(** The stop has returned. *)
Definition finished (k : kernel) : Prop :=
  base ⊆ fds k /\ exists so, steps start (State (-1) so false (fds k ∖ base) base Left Stopped).

Lemma client_stop_release_ends c k :
  at_point Waiting Left c k -> Tcp.keep_running c = 0 -> ends (stop_release c) (fun _ k' => finished k') k.
Proof.
  intros Ha Hrun. pose proof Ha as [_ Hb Hc]. pose proof Hc as (Hl & Hcap & Hfds & _ & Hstream).
  assert (at_point Joined Left c k) as H1 by (eapply client_at_stop_step; [exact Ha | by apply stop_join | done..]).
  unfold stop_release. rewrite Hl. cbn [Z.leb]. apply ends_bind, ends_ret.
  unfold slots. rewrite Hcap. cbn [Z.to_nat seq each_slot]. apply ends_bind, ends_ret.
  apply ends_bind. unfold free_slots. rewrite Hfds. apply ends_ret. cbn [Tcp.stream_sock TcpPort.set_client_fds].
  assert (forall k', fds k' = fds k -> Tcp.stream_sock c = -1 -> finished k') as Hnone.
  { intros k' Hk' Hs. split; [by rewrite Hk'|]. exists (-1).
    assert (at_point Stopped Left c k') as [Hsteps _ _].
    { eapply client_at_same_open; [|exact Hk']. eapply client_at_stop_step; [exact H1 | apply stop_no_socket; [done|] | done..].
      cbn. by rewrite Hs. }
    unfold shape in Hsteps. by rewrite Hrun, Hs in Hsteps. }
  destruct Hstream as [Hs|Hpos].
  { rewrite Hs. cbn [Z.leb]. apply ends_bind, ends_ret, ends_bind, ends_same_open; [by apply keeps_open_release|].
    intros ? k1 Hk1. apply ends_ret. by apply Hnone. }
  rewrite (proj2 (Z.leb_le _ _)) by done. apply ends_bind, ends_bind. intros [] k1. unfold sys_close.
  case_bool_decide as Hopen; [|done]. intros [= <-].
  assert (Tcp.stream_sock c ∉ base) as Hours.
  { assert (allowed (shape c k Left Joined) (Close (Tcp.stream_sock c))) as [Ho Hf]
      by (eapply client_step_allowed; [by apply client_at_inv | by apply step_stop, stop_close]). done. }
  apply ends_ret, ends_bind, ends_same_open; [by apply keeps_open_release|]. intros ? k2 Hk2. apply ends_ret.
  cbn in Hk2. split; [rewrite Hk2; set_solver|]. exists (Tcp.stream_sock c).
  eapply rtc_r; [apply H1|]. exists (Close (Tcp.stream_sock c)). apply step_stop.
  replace (State _ _ _ _ _ _ _) with (at_stop Stopped (set_stream (-1) (close (Tcp.stream_sock c) (shape c k Left Joined))));
    [by apply (stop_close (shape c k Left Joined))|].
  unfold shape, close, set_table, set_stream, at_stop. cbn. rewrite Hrun, Hk2. f_equal; apply set_eq; set_solver.
Qed.

(** The thread finds the flag cleared. *)
Lemma client_leave c k p : at_point p Top c k -> Tcp.keep_running c = 0 -> at_point p Left c k.
Proof.
  intros Ha Hk. pose proof Ha as [_ Hb Hc].
  eapply client_at_thread_step; [exact Ha | apply thread_leave; [done|] | done..]. cbn. by rewrite Hk.
Qed.

Lemma until_end_ends flags rounds c s :
  at_point Waiting Top c (fst s) -> Tcp.keep_running c = 0 ->
  ends (connect_until_end on_process ((0, flags) :: rounds) c)
    (fun c' s' => c' = c /\ at_point Waiting Left c (fst s')) s.
Proof.
  destruct s as [k u]. cbn [fst]. intros Ha Hk. apply ends_bind. cbn [mb_tcp_client_thread Z.eqb].
  apply ends_bind. apply (ends_mono _ (fun _ s' => at_point Waiting Top c (fst s'))).
  { destruct (0 <=? _); [|by apply ends_ret]. apply ends_on_fst, (at_keeps _ _ _ _ _ Ha). auto with keeps. }
  intros ? [k1 u1] Ha1. apply ends_ret, ends_ret. split; [done|]. by apply client_leave.
Qed.

Lemma tcp_stop_client_ends flags rounds c s :
  at_point Idle Top c (fst s) ->
  ends (mb_tcp_stop (connect_until_end on_process ((0, flags) :: rounds)) (Some c)) (fun _ s' => finished (fst s')) s.
Proof.
  destruct s as [k u]. cbn [fst]. intros Ha. pose proof Ha as [_ _ (_ & _ & _ & Hini & _)].
  unfold mb_tcp_stop. rewrite Hini. cbn [Z.eqb].
  apply ends_bind, ends_on_fst. eapply ends_mono; [by apply client_stop_request_ends|]. intros c1 k1 [H1 Hrun].
  apply ends_bind. eapply ends_mono; [by apply until_end_ends|]. intros c2 [k2 u2] [-> H2]. cbn [fst] in H2.
  apply ends_bind, ends_on_fst, ends_same_open; [by apply keeps_open_release|]. intros [] k3 Hk3.
  apply ends_bind, ends_on_fst. eapply ends_mono.
  { apply client_stop_release_ends; [by eapply client_at_same_open | done]. }
  intros c3 k4 H4. by apply ends_ret.
Qed.
End Run.

(** ** The start *)

Lemma keeps_open_acquire F add : (forall k, fds (add 1 k) = fds k) -> keeps (same_open F) (acquire add).
Proof.
  intros Ha. apply keeps_bind; [auto with keeps|]. intros a k x k' HF. unfold bind, get, put, ret. cbn.
  destruct (_ =? 0); intros [= _ <-]; [|done]. unfold same_open. by rewrite Ha.
Qed.

Lemma start_client_ends c config k :
  mode config = MB_TCP_MODE_CONNECT_CLIENT -> initialized c = 0 ->
  ends (mb_tcp_start (Some c) (Some config)) (fun r k' => fst r = 0 ->
    snd r = Some (TcpPort.set_initialized 1 (fresh_ctx config)) /\ fds k' = fds k) k.
Proof.
  intros Hm Hi. unfold mb_tcp_start. rewrite Hm, Hi. change (mode (cfg (fresh_ctx config))) with (mode config).
  rewrite Hm. cbn [Z.eqb Pos.eqb andb negb MB_TCP_MODE_LISTEN_SERVER MB_TCP_MODE_CONNECT_CLIENT]. cbv zeta.
  destruct (empty_host _); [by apply ends_ret|]. apply ends_bind, ends_ret. cbn [Z.ltb Z.compare].
  apply ends_bind, ends_same_open; [by apply keeps_open_acquire|]. intros rc k1 Hk1.
  destruct (negb _); [apply ends_bind; intros ? ? _; by apply ends_ret|].
  apply ends_bind, ends_same_open; [destruct (has_on_init _); auto with keeps|]. intros ? k2 Hk2.
  apply ends_bind. change (mode (cfg (fresh_ctx config))) with (mode config).
  rewrite Hm. cbn [Z.eqb Pos.eqb MB_TCP_MODE_LISTEN_SERVER MB_TCP_MODE_CONNECT_CLIENT].
  apply ends_bind, ends_same_open; [by apply keeps_open_acquire|]. intros rc1 k3 Hk3.
  destruct (negb _); [apply ends_bind; intros ? ? _; apply ends_ret; by apply ends_ret|].
  apply ends_ret, ends_ret. intros _. split; [done|]. congruence.
Qed.

(** C23. The executable connecting transport is covered by the interleavings
    of [TcpStopClient]: after [mb_tcp_start] its context and the kernel are the
    state [started]; whatever the thread does in any number of rounds, connecting
    and failing to, serving, losing the connection and connecting again, is a
    sequence of steps; and [mb_tcp_stop] with the thread's way out is one too,
    which ends with the descriptors the process had at first. *)
Theorem tcp_client_is_interleaving {U} (on_process : Z -> st U Z) c config rounds flags rounds' k k0 u t running t1 k1 u1 :
  mode config = MB_TCP_MODE_CONNECT_CLIENT -> initialized c = 0 -> Forall (fun r => fst r <> 0) rounds ->
  mb_tcp_start (Some c) (Some config) k = Ok ((0, Some t), k0) ->
  mb_tcp_client_thread on_process rounds (-1) t (k0, u) = Ok ((running, t1), (k1, u1)) ->
  steps (started (fds k)) (shape (fds k) t1 k1 Top Idle) /\
  forall r k2 u2,
    mb_tcp_stop (connect_until_end on_process ((0, flags) :: rounds')) (Some t1) (k1, u1) = Ok (r, (k2, u2)) ->
    fds k2 = fds k /\
    exists so, steps (shape (fds k) t1 k1 Top Idle) (State (-1) so false ∅ (fds k) Left Stopped).
Proof.
  intros Hm Hi Hr Hst Hrun. pose proof (client_started_inv (fds k)) as Hinv.
  destruct (start_client_ends c config k Hm Hi _ _ Hst eq_refl) as [[= ->] Hf].
  assert (at_point (fds k) (started (fds k)) Idle Top (TcpPort.set_initialized 1 (fresh_ctx config)) k0) as Hat.
  { split; [|by rewrite Hf | split_and!; try done; by left].
    assert (shape (fds k) (TcpPort.set_initialized 1 (fresh_ctx config)) k0 Top Idle = started (fds k)) as ->
      by (unfold shape, started; cbn; rewrite Hf; f_equal; apply set_eq; set_solver).
    apply rtc_refl. }
  destruct (client_thread_ends on_process _ _ Hinv rounds (-1) _ (k0, u) Hat eq_refl Hr _ _ Hrun) as [_ Hat1].
  cbn [fst snd] in Hat1. split; [apply Hat1|]. intros r k2 u2 Hstop.
  pose proof (client_at_inv _ _ Hinv _ _ _ _ Hat1) as Hinv1.
  assert (at_point (fds k) (shape (fds k) t1 k1 Top Idle) Idle Top t1 k1) as Hat2
    by (destruct Hat1; split; [apply rtc_refl | done..]).
  destruct (tcp_stop_client_ends on_process _ _ Hinv1 flags rounds' t1 (k1, u1) Hat2 _ _ Hstop) as (Hbase & so & Hsteps).
  cbn [fst] in *.
  destruct (client_stopped_empty _ (client_steps_inv _ _ Hinv1 Hsteps) eq_refl) as [_ Hours]. cbn in Hours.
  assert (fds k2 = fds k) as Hk2.
  { apply (anti_symm (⊆)); [|exact Hbase]. by apply empty_difference_subseteq_L. }
  split; [done|]. exists so. by rewrite Hours in Hsteps.
Qed.

#[local] Instance junk : Indet := fun i => 7 + 5 * Z.of_nat i.

(** A transport whose second attempt to connect succeeds, and which has then
    polled its connection once. *)
Definition one_connection : outcome ((Z * bool * option mb_tcp_ctx) * (kernel * Z)) :=
  (let! '(rc, t) := on_fst (mb_tcp_start (Some zero_transport) (Some client_config)) in
   let! '(running, t) := mb_tcp_client_thread third_fails (take 3 slow_rounds) (-1) (default zero_transport t) in
   ret (rc, running, Some t)) (slow_kernel, 0).

Lemma tcp_client_is_interleaving_witness :
  match one_connection with
  | Ok ((rc, _, Some t1), (k1, u1)) => rc = 0 /\ steps (started std_fds) (shape std_fds t1 k1 Top Idle) /\
      forall r k2 u2,
        mb_tcp_stop (connect_until_end third_fails [(0, [])]) (Some t1) (k1, u1) = Ok (r, (k2, u2)) ->
        fds k2 = std_fds /\
        exists so, steps (shape std_fds t1 k1 Top Idle) (State (-1) so false ∅ std_fds Left Stopped)
  | _ => False
  end.
Proof.
  assert (exists t k0, mb_tcp_start (Some zero_transport) (Some client_config) slow_kernel = Ok ((0, Some t), k0))
    as (t & k0 & E) by (by vm_compute; eauto).
  unfold one_connection, bind. unfold on_fst. rewrite E. cbn [default from_option id].
  destruct (mb_tcp_client_thread _ _ _ _ _) as [[[running t1] [k1 u1]]|] eqn:E1.
  2: { exfalso. vm_compute in E. injection E as <- <-. vm_compute in E1. done. }
  split; [done|].
  apply (tcp_client_is_interleaving third_fails zero_transport client_config (take 3 slow_rounds) [] []
    slow_kernel k0 0 t running t1 k1 u1).
  - done.
  - done.
  - by repeat (apply List.Forall_cons; [done|]); apply List.Forall_nil.
  - exact E.
  - exact E1.
Defined.

(** Where the stop finds it: connection 5. *)
Example one_connection_shape :
  match one_connection with
  | Ok ((_, _, Some t), (k1, _)) => shape std_fds t k1 Top Idle = State 5 5 true {[5]} std_fds Top Idle
  | _ => False
  end.
Proof. vm_compute. done. Qed.
