(* ===== verification/ExampleServers.v ===== *)
(** * The applications of the example servers

    [examples/tcp_server_example.c] and [examples/rtu_server_example.c]: a bank
    of 32 registers behind [on_read] and [on_write], of which some are set anew
    before every read.  The clock is an argument: [time n] is what the [n]-th
    call of [time(NULL)] returns.  Both are devices, so everything the servers
    do for a device holds for them.  [userdata] is not NULL, as [main] sets it;
    printing is left out. *)

From stdpp Require Import gmap strings.
From S2P Require Import Prelude Buffer Defines Bits Pdu PduSpec Bank Kernel TcpThread TcpThreadSpec.

(** A mutex region is one step: the bank, and the calls of [time] so far. *)
Record server_app := App { reg_bank : list Z; time_calls : nat }.

Definition app_ok (a : server_app) : Prop := zlen (reg_bank a) = 32 /\ words (reg_bank a).

Definition set_register (r v : Z) (bank : list Z) : list Z := <[Z.to_nat r := v]> bank.

Definition read_bank (bank : list Z) (addr qty : Z) : list Z :=
  map (fun i => bank !!! Z.to_nat (addr + i)) (seqZ 0 qty).

Module Tcp.
Section Time.
Context (time : nat -> Z).

Definition REG_TEMPERATURE : Z := 0x00.
Definition REG_HUMIDITY : Z := 0x01.
Definition REG_STATUS : Z := 0x02.
Definition REG_UPTIME_LOW : Z := 0x03.
Definition REG_UPTIME_HIGH : Z := 0x04.
Definition REG_SETPOINT : Z := 0x0A.
Definition REG_CONTROL : Z := 0x0B.
Definition REG_DEVICE_ID : Z := 0x14.
Definition REG_BANK_SIZE : Z := 32.

(** The read-only registers get their live values. *)
Definition refresh (app : server_app) : server_app :=
  let bank := reg_bank app in
  let bank := set_register REG_TEMPERATURE 253 bank in
  let bank := set_register REG_HUMIDITY 60 bank in
  let bank := set_register REG_STATUS 0x0001 bank in
  let uptime_sec := u32 (time (time_calls app)) in
  let bank := set_register REG_UPTIME_LOW (u16 (Z.land uptime_sec 0xFFFF)) bank in
  let bank := set_register REG_UPTIME_HIGH (u16 (Z.shiftr uptime_sec 16)) bank in
  App (set_register REG_DEVICE_ID 0x0100 bank) (S (time_calls app)).

Definition on_read (function_code addr qty : Z) (out : list Z) (app : server_app) : Z * list Z * server_app :=
  if REG_BANK_SIZE <? u32 (addr + qty) then (MODBUS_EX_ILLEGAL_DATA_ADDRESS, out, app)
  else
    let app := refresh app in
    (0, read_bank (reg_bank app) addr qty ++ drop (Z.to_nat qty) out, app).

Definition on_write (addr qty : Z) (data : list Z) (app : server_app) : Z * server_app :=
  if REG_BANK_SIZE <? u32 (addr + qty) then (MODBUS_EX_ILLEGAL_DATA_ADDRESS, app)
  else (0, App (splice (reg_bank app) addr (take (Z.to_nat qty) data)) (time_calls app)).

(** The callbacks [main] sets; no bits. *)
Definition handlers : mb_pdu_handlers server_app := MkHandlers (Some on_read) (Some on_write) None None.

Definition device : PduSpec.device server_app := Device
  (Some (fun fc addr qty app =>
     if REG_BANK_SIZE <? u32 (addr + qty) then (inl MODBUS_EX_ILLEGAL_DATA_ADDRESS, app)
     else (inr (read_bank (reg_bank (refresh app)) addr qty), refresh app)))
  (Some (fun addr values app =>
     if REG_BANK_SIZE <? u32 (addr + zlen values) then (MODBUS_EX_ILLEGAL_DATA_ADDRESS, app)
     else (0, App (splice (reg_bank app) addr values) (time_calls app))))
  None None.

#[export] Instance implements : Implements handlers device.
Proof.
  split; cbn; [|done| |done].
  - intros fc addr qty out app Hq. unfold on_read. destruct (REG_BANK_SIZE <? _); [done|].
    split_and!; [done | done | unfold read_bank; zlength | by eexists].
  - intros addr values tl app. unfold on_write. destruct (REG_BANK_SIZE <? _); [done|].
    by rewrite Nat2Z.id, take_app_length.
Qed.
End Time.

(** How many masters are connected. *)
Definition on_link_change (connected : Z) (active_connections : Z) : Z :=
  if negb (connected =? 0) then active_connections + 1
  else if 0 <? active_connections then active_connections - 1 else active_connections.

Definition count_links (l : list event) (n : Z) : Z :=
  fold_left (fun n e => match e with LinkChanged _ v => on_link_change v n | _ => n end) l n.
End Tcp.

Module Rtu.
Definition REG_TEMPERATURE : Z := 0x00.
Definition REG_STATUS : Z := 0x01.
Definition REG_BANK_SIZE : Z := 32.

Definition refresh (app : server_app) : server_app :=
  App (set_register REG_STATUS 0x0001 (set_register REG_TEMPERATURE 253 (reg_bank app))) (time_calls app).

Definition on_read (function_code addr qty : Z) (out : list Z) (app : server_app) : Z * list Z * server_app :=
  if REG_BANK_SIZE <? u32 (addr + qty) then (MODBUS_EX_ILLEGAL_DATA_ADDRESS, out, app)
  else
    let app := refresh app in
    (0, read_bank (reg_bank app) addr qty ++ drop (Z.to_nat qty) out, app).

Definition on_write (addr qty : Z) (data : list Z) (app : server_app) : Z * server_app :=
  if REG_BANK_SIZE <? u32 (addr + qty) then (MODBUS_EX_ILLEGAL_DATA_ADDRESS, app)
  else (0, App (splice (reg_bank app) addr (take (Z.to_nat qty) data)) (time_calls app)).

Definition handlers : mb_pdu_handlers server_app := MkHandlers (Some on_read) (Some on_write) None None.

Definition device : PduSpec.device server_app := Device
  (Some (fun fc addr qty app =>
     if REG_BANK_SIZE <? u32 (addr + qty) then (inl MODBUS_EX_ILLEGAL_DATA_ADDRESS, app)
     else (inr (read_bank (reg_bank (refresh app)) addr qty), refresh app)))
  (Some (fun addr values app =>
     if REG_BANK_SIZE <? u32 (addr + zlen values) then (MODBUS_EX_ILLEGAL_DATA_ADDRESS, app)
     else (0, App (splice (reg_bank app) addr values) (time_calls app))))
  None None.

#[export] Instance implements : Implements handlers device.
Proof.
  split; cbn; [|done| |done].
  - intros fc addr qty out app Hq. unfold on_read. destruct (REG_BANK_SIZE <? _); [done|].
    split_and!; [done | done | unfold read_bank; zlength | by eexists].
  - intros addr values tl app. unfold on_write. destruct (REG_BANK_SIZE <? _); [done|].
    by rewrite Nat2Z.id, take_app_length.
Qed.
End Rtu.

(** ** Registers *)

Lemma set_register_length r v bank : zlen (set_register r v bank) = zlen bank.
Proof. unfold set_register. by rewrite length_insert. Qed.

Lemma get_set_register r v bank a :
  0 <= r < zlen bank -> 0 <= a -> set_register r v bank !!! Z.to_nat a = if a =? r then v else bank !!! Z.to_nat a.
Proof.
  intros Hr Ha. unfold set_register. destruct (Z.eqb_spec a r) as [->|Hne].
  - apply list_lookup_total_insert_eq. lia.
  - apply list_lookup_total_insert_ne. lia.
Qed.

(** ** The count of connected masters *)

(** It is the number of connections that are up. *)
Lemma count_links_walk l : forall up up', link_walk up l = Some up' ->
  Tcp.count_links l (Z.of_nat (size up)) = Z.of_nat (size up').
Proof.
  induction l as [|e l IH]; intros up up'; cbn [link_walk]; [by intros [= ->]|].
  destruct e; try apply IH. unfold Tcp.count_links, Tcp.on_link_change. cbn [fold_left].
  destruct (connected =? 0); cbn [negb]; case_bool_decide as Hin; try done; intros Hw.
  - assert (0 < size up)%nat as Hpos by (apply Nat.neq_0_lt_0; intros ?%size_empty_inv; set_solver).
    rewrite (proj2 (Z.ltb_lt _ _)) by lia. rewrite <- (IH _ _ Hw), size_difference, size_singleton by set_solver.
    unfold Tcp.count_links. f_equal. lia.
  - rewrite <- (IH _ _ Hw), size_union, size_singleton by set_solver. unfold Tcp.count_links. f_equal. lia.
Qed.

(** The slots of a server that are taken. *)
Definition occupied (slots : list Z) : list Z := filter (fun sd => 0 <= sd) slots.

Lemma occupied_nodup l : (forall i j sd, l !! i = Some sd -> l !! j = Some sd -> 0 <= sd -> i = j) -> NoDup (occupied l).
Proof.
  induction l as [|x l IH]; intros Hd; [apply NoDup_nil_2|]. unfold occupied. rewrite filter_cons.
  assert (NoDup (occupied l)) as Hl.
  { apply IH. intros i j sd Hi Hj Hsd. assert (S i = S j) as E by (by apply (Hd (S i) (S j) sd)). by injection E. }
  destruct (decide (0 <= x)) as [Hx|]; [|exact Hl]. apply NoDup_cons. split; [|exact Hl].
  rewrite list_elem_of_filter, list_elem_of_lookup. intros [_ [i Hi]]. by pose proof (Hd O (S i) x eq_refl Hi Hx).
Qed.

Lemma occupied_size (up : gset Z) l :
  (forall i j sd, l !! i = Some sd -> l !! j = Some sd -> 0 <= sd -> i = j) ->
  (forall fd, fd ∈ up <-> exists i, l !! i = Some fd /\ 0 <= fd) -> size up = length (occupied l).
Proof.
  intros Hd Hup. rewrite <- (size_list_to_set (C:=gset Z)) by by apply occupied_nodup.
  f_equal. apply set_eq. intros fd. rewrite Hup, elem_of_list_to_set. unfold occupied.
  rewrite list_elem_of_filter, list_elem_of_lookup. firstorder.
Qed.
