(* ===== verification/ExampleTheorems.v ===== *)
(** * Properties of the example servers *)

From stdpp Require Import gmap strings.
From S2P Require Import Prelude Buffer Defines Bits Pdu PduSpec PduClient Bank Ptr Tcp Sys Keeps TcpServer TcpServerSpec TcpServerTheorems TcpClient Kernel TcpPort TcpThread TcpThreadSpec TcpPortSpec TcpServerPort TcpServeSpec TcpPortTheorems ExampleServers.

(** ** The register map *)

(** What the client example makes of registers 3 and 4. *)
Definition uptime_of (low high : Z) : Z := Z.lor (Z.shiftl high 16) low.

Lemma split_uptime t : is_u32 t ->
  uptime_of (u16 (Z.land t 0xFFFF)) (u16 (Z.shiftr t 16)) = t.
Proof.
  intros Ht. unfold uptime_of. change 0xFFFF with (Z.ones 16). rewrite Z.land_ones, Z.shiftr_div_pow2 by lia.
  rewrite !u16_small by (unfold is_u16, is_u32 in *; Z.div_mod_to_equations; lia).
  rewrite lor_shiftl by (Z.div_mod_to_equations; lia). change (2 ^ 16) with 65536. Z.div_mod_to_equations. lia.
Qed.

(** Whatever was written there, the five registers the client example polls are
    the live values. *)
Lemma serve_poll time app fc :
  zlen (reg_bank app) = 32 ->
  serve (Tcp.device time) (ReadRegisters fc 0 5) app
  = (RegistersRead fc [253; 60; 1; u16 (Z.land (u32 (time (time_calls app))) 0xFFFF);
       u16 (Z.shiftr (u32 (time (time_calls app))) 16)], Tcp.refresh time app).
Proof.
  intros Hl. cbn [serve Tcp.device dev_read_registers]. change (Tcp.REG_BANK_SIZE <? u32 (0 + 5)) with false. cbn iota.
  unfold read_bank, Tcp.refresh. cbn [reg_bank seqZ map]. change (seqZ 0 5) with [0; 1; 2; 3; 4]. cbn [map Z.add].
  by rewrite !get_set_register by (rewrite ?set_register_length, ?Hl; by vm_compute).
Qed.

(** Its uptime is the server's clock. *)
Theorem tcp_example_poll time app fc :
  zlen (reg_bank app) = 32 ->
  exists low high,
    serve (Tcp.device time) (ReadRegisters fc 0 5) app = (RegistersRead fc [253; 60; 1; low; high], Tcp.refresh time app) /\
    uptime_of low high = u32 (time (time_calls app)).
Proof.
  intros Hl. eexists _, _. split; [by apply serve_poll|].
  apply split_uptime. unfold u32, is_u32. by apply Z.mod_pos_bound.
Qed.

(** What is written into the other registers is read back: the setpoint. *)
Example setpoint_kept :
  let app := App (replicate 32 0) 0 in
  let '(_, app) := serve (Tcp.device (fun _ => 0)) (WriteRegisters Tcp.REG_SETPOINT [300; 1]) app in
  fst (serve (Tcp.device (fun _ => 0)) (ReadRegisters 3 Tcp.REG_SETPOINT 1) app) = RegistersRead 3 [300].
Proof. by vm_compute. Qed.

(** ** The count of connected masters *)

(** The configuration that [main] of the TCP example builds. *)
Definition tcp_example_config (time : nat -> Z) : mb_tcp_server_config server_app :=
  SrvConfig 502 1 0 MB_TCP_SERVER_DEFAULT_RECV_TIMEOUT_MS 0 0 0 0 (Some (Tcp.on_read time)) (Some Tcp.on_write) None None.

#[export] Instance tcp_example_implements time : Implements (handlers (tcp_example_config time)) (Tcp.device time).
Proof. apply Tcp.implements. Qed.

Definition masters (r : Z * option (mb_tcp_server server_app)) : Z :=
  match r with (0, Some t) => zlen (occupied (client_fds (transport t))) | _ => 0 end.

(** The TCP server example counts its masters right: for every behaviour
    of the system and the peers, between any two rounds of the thread, the
    number that [on_link_change] keeps is the number of occupied slots of the
    server, and it is never corrected at zero. *)
Theorem tcp_example_connections `{Indet} time (s : mb_tcp_server server_app) rounds k ls :
  sane_base k -> initialized (transport s) = 0 -> listen_fits k -> lines_ok ls ->
  wp (server_running s (tcp_example_config time) true rounds)
    (fun r st => exists l, links (fst st) = links k ++ l /\ Tcp.count_links l 0 = masters r) (k, ls).
Proof.
  intros Hk Hi Hfits Hls. eapply wp_mono.
  { by apply (server_running_wp (Tcp.device time) s (tcp_example_config time) true). }
  cbn beta. intros [rc s'] [k' ls'] [(t & Ht & _ & Hst) _]. cbn [fst snd] in *. subst s'.
  destruct Hst as [(-> & _ & _ & Hl)|(-> & [Hinv ((up & (l & Hl & Hw) & Hup) & Hcb)])].
  - exists []. split; [by rewrite app_nil_r | done].
  - exists l. split; [exact Hl|]. rewrite Hcb in Hw. apply count_links_walk in Hw.
    rewrite size_empty in Hw. change (Z.of_nat 0) with 0 in Hw. rewrite Hw. cbn [masters]. f_equal. apply occupied_size; [by destruct Hinv | exact Hup].
Qed.

#[local] Instance junk : Indet := fun i => 5 + 11 * Z.of_nat i.

Definition idle_example : mb_tcp_server server_app := Server zero_transport (tcp_example_config (fun _ => 70000)).

(** Two masters connect; the first polls the block, the second hangs up. *)
Definition two_masters : lines (U:=server_app) :=
  (fun fd => if fd =? 4 then sample_world [RxData [0; 1; 0; 0; 0; 6; 1; 3; 0; 0; 0; 5]] [TxTakes 100]
             else sample_world [RxData []] [], App (replicate 32 0) 0).

Definition master_rounds : list (Z * selection) :=
  [(1, Selected [3]); (1, Selected [3; 4]); (1, Selected [5])].

(** The count goes 0, 1, 2, 1; 70000 seconds are 1 * 65536 + 4464. *)
Example two_masters_counted :
  match server_running idle_example (tcp_example_config (fun _ => 70000)) true master_rounds (busy_kernel, two_masters) with
  | Ok (r, (k, (ws, _))) => masters r = 1 /\ links k = [LinkChanged 4 1; LinkChanged 5 1; LinkChanged 5 0] /\
      drop 9 (output (ws 4)) = words_be [253; 60; 1; 4464; 1]
  | Fail _ => False
  end.
Proof. vm_compute. done. Qed.

Lemma two_masters_ok : lines_ok two_masters.
Proof.
  intros fd. cbn. destruct (fd =? 4); repeat (apply List.Forall_cons; [by zforall|]); apply List.Forall_nil.
Qed.

Lemma tcp_example_connections_witness :
  wp (server_running idle_example (tcp_example_config (fun _ => 70000)) true master_rounds)
    (fun r st => exists l, links (fst st) = links busy_kernel ++ l /\ Tcp.count_links l 0 = masters r)
    (busy_kernel, two_masters).
Proof.
  apply (tcp_example_connections (fun _ => 70000) idle_example).
  - split; [|split]; by vm_compute.
  - done.
  - by intros a b n l [= <- <- <- _].
  - apply two_masters_ok.
Defined.
