(* ===== verification/ExampleTcpClient.v ===== *)
(** * The example client of the TCP library: [examples/tcp_client_example.c]

    The whole program, [main] included.  The state of the program is the process as the kernel sees it, the
    line its client talks over, the client context, the lines it has printed,
    and what the reads of [g_running] will give (the signal handler clears it).
    A temperature is printed as tenths of a degree: [%.1f] of a 16-bit value
    over 10 shows exactly these.  The log sink is in [Log]; which lines reach it
    is not part of this model. *)

From stdpp Require Import gmap strings.
From S2P Require Import Prelude Buffer Defines Pdu Ptr Sys TcpServer TcpClient Kernel TcpPort.

(** What is printed: a fixed line, the measurements, a value, two values, a
    failed call with the name of its code. *)
Inductive message :=
  | Text (s : string)
  | Measured (tenths humidity status uptime : Z)
  | Value (what : string) (v : Z)
  | Values (what : string) (v1 v2 : Z)
  | Failure (what err : string) (rc : Z).

#[global] Instance message_eq_dec : EqDecision message.
Proof. solve_decision. Defined.

Definition SERVER_IP : string := "192.168.1.90".
Definition SERVER_PORT : Z := 502.
Definition SERVER_UNIT_ID : Z := 1.
Definition CONNECT_TIMEOUT_SEC : Z := 5.
Definition RESPONSE_TIMEOUT_MS : Z := 2000.

Definition REG_TEMPERATURE : Z := 0x00.
Definition REG_HUMIDITY : Z := 0x01.
Definition REG_STATUS : Z := 0x02.
Definition REG_UPTIME_LOW : Z := 0x03.
Definition REG_UPTIME_HIGH : Z := 0x04.
Definition REG_SETPOINT : Z := 0x0A.
Definition REG_CONTROL : Z := 0x0B.
Definition REG_DEVICE_ID : Z := 0x14.

Definition client_err_str (rc : Z) : string :=
  if rc =? MB_TCP_CLIENT_OK then "OK"
  else if rc =? MB_TCP_CLIENT_ERR_ARG then "ERR_ARG"
  else if rc =? MB_TCP_CLIENT_ERR_NOT_CONNECTED then "ERR_NOT_CONNECTED"
  else if rc =? MB_TCP_CLIENT_ERR_TRANSPORT then "ERR_TRANSPORT"
  else if rc =? MB_TCP_CLIENT_ERR_TIMEOUT then "ERR_TIMEOUT"
  else if rc =? MB_TCP_CLIENT_ERR_FRAME then "ERR_FRAME"
  else if rc =? MB_TCP_CLIENT_ERR_TID then "ERR_TID"
  else if 0 <? rc then "MODBUS_EXCEPTION" else "UNKNOWN".

Record program := Program {
  os : kernel;
  line : world;
  client : mb_tcp_client_ctx;
  printed : list message;
  g_running : list bool;
}.

Definition set_os (k : kernel) (p : program) : program := Program k (line p) (client p) (printed p) (g_running p).
Definition set_client (c : mb_tcp_client_ctx) (p : program) : program :=
  Program (os p) (line p) c (printed p) (g_running p).
Definition set_line (w : world) (p : program) : program := Program (os p) w (client p) (printed p) (g_running p).

Definition on_os {A} (m : st kernel A) : st program A := fun p =>
  match m (os p) with
  | Ok (a, k) => Ok (a, set_os k p)
  | Fail e => Fail e
  end.

Definition print (o : message) : st program unit := fun p =>
  Ok (tt, Program (os p) (line p) (client p) (printed p ++ [o]) (g_running p)).

Definition read_running : st program bool := fun p =>
  match g_running p with
  | [] => Fail Blocked
  | b :: l => Ok (b, Program (os p) (line p) (client p) (printed p) l)
  end.

(** A call on [&client].  When the call closes the connection, the socket is
    shut down and closed for the process as well. *)
Definition on_client {A} (m : st (world * option mb_tcp_client_ctx) A) : st program A := fun p =>
  match m (line p, Some (client p)) with
  | Ok (a, (w, Some c)) =>
      let p' := set_client c (set_line w p) in
      if (0 <=? cli_sock (client p)) && (cli_sock c <? 0)
      then (on_os (mb_tcp_close (Some (cli_sock (client p)))) ;;; ret a) p'
      else Ok (a, p')
  | Ok (_, (_, None)) => Fail UB
  | Fail e => Fail e
  end.

Section Program.
Context {I : Indet}.

(** One register: the value or the failure. *)
Definition report (what failed : string) (addr : Z) : st program unit :=
  let! '(rc, v) := on_client (mb_tcp_client_read_holding_registers addr 1 (Some [0])) in
  if rc =? MB_TCP_CLIENT_OK then
    let! v := lift (fun_ptr v) in
    let! v := lift (load v 0) in
    print (Value what v)
  else print (Failure failed (client_err_str rc) rc).

Definition poll_once : st program unit :=
  (let! '(rc, block) := on_client (mb_tcp_client_read_holding_registers REG_TEMPERATURE 5 (Some [0; 0; 0; 0; 0])) in
   if rc =? MB_TCP_CLIENT_OK then
     let! block := lift (fun_ptr block) in
     let! temperature := lift (load block REG_TEMPERATURE) in
     let! humidity := lift (load block REG_HUMIDITY) in
     let! status := lift (load block REG_STATUS) in
     let! uptime_high := lift (load block REG_UPTIME_HIGH) in
     let! uptime_low := lift (load block REG_UPTIME_LOW) in
     print (Measured temperature humidity status (Z.lor (u32 (Z.shiftl uptime_high 16)) uptime_low))
   else print (Failure "Read block" (client_err_str rc) rc)) ;;;
  report "Setpoint" "Read setpoint" REG_SETPOINT ;;;
  report "Control" "Read control" REG_CONTROL ;;;
  report "Device ID" "Read device ID" REG_DEVICE_ID.

Definition initial_write : st program unit :=
  (let! rc := on_client (mb_tcp_client_write_single_register REG_SETPOINT 300) in
   if rc =? MB_TCP_CLIENT_OK then print (Value "Setpoint written" 300)
   else print (Failure "Write setpoint" (client_err_str rc) rc)) ;;;
  (let! rc := on_client (mb_tcp_client_write_multiple_registers REG_SETPOINT 2 (Some [300; 0x0001])) in
   if rc =? MB_TCP_CLIENT_OK then print (Values "Setpoint+Control written" 300 0x0001)
   else print (Failure "FC16 write" (client_err_str rc) rc)).

(** Every round reads [g_running]. *)
Fixpoint poll_loop (fuel : nat) : st program unit :=
  match fuel with
  | O => stop NoFuel
  | S fuel' =>
      let! running := read_running in
      if running then poll_once ;;; on_os (emit Paused) ;;; poll_loop fuel' else ret tt
  end.

Definition config : mb_tcp_client_config :=
  CliConfig (Some SERVER_IP) SERVER_PORT None SERVER_UNIT_ID CONNECT_TIMEOUT_SEC RESPONSE_TIMEOUT_MS.

(** [mb_tcp_client_ctx_t client = {0}]. *)
Definition zero_client : mb_tcp_client_ctx := CliCtx 0 0 0 (CliConfig None 0 None 0 0 0).

Definition main : st program Z :=
  print (Text "Connecting") ;;;
  let! '(rc, c) := on_os (mb_tcp_client_connect (Some zero_client) (Some config)) in
  (fun p => Ok (tt, set_client (default zero_client c) p)) ;;;
  if negb (rc =? 0) then print (Text "Connection failed") ;;; ret 1 else
  print (Text "Connected") ;;;
  initial_write ;;;
  (fun p => poll_loop (S (length (g_running p))) p) ;;;
  print (Text "Shutting down") ;;;
  let! p := get in
  let! c := on_os (mb_tcp_client_disconnect (Some (client p))) in
  (fun p => Ok (tt, set_client (default zero_client c) p)) ;;;
  print (Text "Disconnected") ;;;
  ret 0.
End Program.
