(* ===== verification/ExampleTcpClientSpec.v ===== *)
(** * The example client, whatever the network does

    [session base p]: the program is connected, or its connection was closed
    after an error; either way it holds exactly its mutex and socket on top of
    what the process held.  Every call keeps it. *)

From stdpp Require Import gmap strings.
From S2P Require Import Prelude Buffer Defines Bits Pdu PduSpec PduClient PduReplies Ptr Tcp TcpFrames Sys TcpServer TcpServerSpec TcpClient TcpClientSpec TcpClientCalls Kernel TcpPort TcpThread TcpThreadSpec TcpPortSpec ExampleTcpClient.

(** ** The logic of programs *)

Lemma wp_print o Q p :
  Q tt (Program (os p) (line p) (client p) (printed p ++ [o]) (g_running p)) -> wp (print o) Q p.
Proof. done. Qed.

Lemma wp_on_os {A} (m : st kernel A) Q p : wp m (fun a k => Q a (set_os k p)) (os p) -> wp (on_os m) Q p.
Proof. unfold wp, on_os. by destruct (m (os p)) as [[a k]|]. Qed.

(** A call whose array nobody looks at. *)
Lemma wp_on_client_write (m : st (world * option mb_tcp_client_ctx) Z) (out : option (list Z)) Q p :
  wp (on_client (let! rc := m in ret (rc, out))) (fun '(rc, _) p' => Q rc p') p -> wp (on_client m) Q p.
Proof.
  unfold wp, on_client, bind, ret. destruct (m _) as [[rc [w [c|]]]|]; [|done..].
  destruct (_ && _); [|done]. by destruct (on_os _ _) as [[a p']|].
Qed.

Section Program.
Context {I : Indet}.

Definition mutex_held (base : kernel) : kernel := add_locks 1 base.
Definition socket_held (base : kernel) (n : Z) : kernel := add_locks 1 (set_fds ({[n]} ∪ fds base) base).

Definition session (base : kernel) (p : program) : Prop :=
  cli_initialized (client p) = 1 /\ 0 <= locks base /\
  ((cli_sock (client p) < 0 /\ account (os p) = account (mutex_held base)) \/
   (0 <= cli_sock (client p) /\ cli_sock (client p) ∉ fds base /\ rx_bytes (rx (line p)) /\
    account (os p) = account (socket_held base (cli_sock (client p))))).

Lemma receives_rx_bytes tid deadline w stale e w' :
  receives tid deadline w stale e w' -> rx_bytes (rx w) -> breaks e = false -> rx_bytes (rx w').
Proof.
  assert (forall w n w', got w n w' -> rx_bytes (rx w')) as Hg by (by intros ? ? ? [(_ & Hb & _) _]).
  induction 1 as [| | | |? ? ? ? ? ? _ _ Hgot|? ? ? ? ? ? _ _ Hgot|? ? ? ? ? ? ? ? ? _ _ Hgot _ _ _ IH]; try done; intros Hb Hbr; eauto.
Qed.

(** A transaction keeps the connection, or closes it. *)
Lemma transaction_session r w c rc resp w' c' :
  transaction r w c rc resp w' c' -> rx_bytes (rx w) ->
  cli_initialized c' = cli_initialized c /\
  (cli_sock c' = -1 \/ (cli_sock c' = cli_sock c /\ rx_bytes (rx w'))).
Proof.
  intros Ht Hb. inversion Ht as [? part w1 Hw Hp|? w1 t clk stale e w2 Hw Hclk Hrec Ha]; subst; [by split; [|left]|].
  split; [done|]. destruct (breaks e) eqn:Hbr; [by left|]. right. split; [done|].
  apply receives_rx_bytes in Hrec; [done| |done]. cbn. by destruct Hw as (? & ? & _ & _ & ->).
Qed.

(** What a call of the client leaves alone. *)
Definition same_run (p p' : program) : Prop := printed p' = printed p /\ g_running p' = g_running p.

Lemma on_client_wp base r out p :
  sendable r -> room r out -> session base p ->
  wp (on_client (call r (Some out))) (fun '(rc, out') p' => session base p' /\ same_run p p' /\
    exists resp, out' = Some (if rc =? 0 then stored r (drop 7 resp) out else out) /\
      (rc = 0 -> exists reply more, drop 7 resp = reply ++ more /\ normal_reply r reply = true)) p.
Proof.
  intros Hr Hout (Hi & Hlk & [[Hs Ha]|(Hs & Hfr & Hb & Ha)]); unfold wp, on_client.
  - rewrite call_disconnected by (done || by right). rewrite (proj2 (Z.leb_gt _ _)) by done. cbn [andb].
    split; [split; [done|]; split; [done|]; by left|]. split; [done|]. by exists [].
  - pose proof (call_run r out (line p) (client p) Hr Hout Hb ltac:(by rewrite Hi) Hs) as Hrun.
    destruct (call r (Some out) (line p, Some (client p))) as [[[rc out'] [w' ctx']]|]; [|done].
    destruct Hrun as (resp & c' & -> & Ht & ->). pose proof (transaction_session _ _ _ _ _ _ _ Ht Hb) as [Hi' Hc].
    assert (rc = 0 -> exists reply more, drop 7 resp = reply ++ more /\ normal_reply r reply = true) as Hok.
    { intros ->. destruct (transaction_ok _ _ _ _ _ _ Ht) as (f & more & -> & Hf & Hn). exists (drop 7 f), more.
      by rewrite drop_app_le by lia. }
    rewrite (proj2 (Z.leb_le _ _)) by done. destruct Hc as [Hc|[Hc Hb']]; rewrite Hc; cbn [andb].
    2:{ rewrite (proj2 (Z.ltb_ge _ _)) by done. split; [|by split; [|exists resp]].
        split; [cbn; congruence|]. split; [done|]. right. cbn. by rewrite Hc. }
    apply account_iff in Ha as (Hf & Hl & Hth & Hbl). cbn in Hf, Hl, Hth, Hbl.
    unfold bind, on_os. set (p' := set_client _ _). change (os p') with (os p).
    unfold mb_tcp_close. rewrite (proj2 (Z.leb_le _ _)) by done.
    unfold bind, sys_shutdown, sys_close. rewrite bool_decide_true by (rewrite Hf; set_solver). cbn [fds add_event].
    rewrite bool_decide_true by (rewrite Hf; set_solver). cbn [ret].
    split; [|by split; [|exists resp]]. split; [cbn; congruence|]. split; [done|]. left. cbn. split; [by rewrite Hc|].
    apply account_iff. cbn. rewrite Hf. split_and!; [clear -Hfr; set_solver | done..].
Qed.

(** ** What is printed *)

(** A line that reports a call: [ok] when it succeeded, else a failure with its
    code, which is not 0. *)
Inductive reports (ok : message -> Prop) (failed : string) : message -> Prop :=
  | reports_ok o : ok o -> reports ok failed o
  | reports_failure rc : rc <> 0 -> reports ok failed (Failure failed (client_err_str rc) rc).

Definition is_value (what : string) (o : message) : Prop := exists v, o = Value what v.

Definition init_lines (l : list message) : Prop :=
  exists a b, l = [a; b] /\ reports (eq (Value "Setpoint written" 300)) "Write setpoint" a /\
    reports (eq (Values "Setpoint+Control written" 300 1)) "FC16 write" b.

Definition poll_lines (l : list message) : Prop :=
  exists a b c d, l = [a; b; c; d] /\
    reports (fun o => exists t h s u, o = Measured t h s u) "Read block" a /\
    reports (is_value "Setpoint") "Read setpoint" b /\ reports (is_value "Control") "Read control" c /\
    reports (is_value "Device ID") "Read device ID" d.

(** [m] keeps the session, reads [g_running] as often as [n] says, and prints
    lines that satisfy [P]. *)
Definition prints (base : kernel) {A} (m : st program A) (P : list message -> Prop) : Prop :=
  forall p, session base p -> wp m (fun _ p' => session base p' /\ g_running p' = g_running p /\
    exists l, printed p' = printed p ++ l /\ P l) p.

Lemma prints_one base o p (P : list message -> Prop) :
  session base p -> P [o] -> wp (print o) (fun _ p' => session base p' /\ g_running p' = g_running p /\
    exists l, printed p' = printed p ++ l /\ P l) p.
Proof. intros Hs HP. split; [exact Hs|]. split; [done|]. by exists [o]. Qed.

(** Lines of [P1], then lines of [P2]. *)
Definition followed (P1 P2 : list message -> Prop) (l : list message) : Prop :=
  exists l1 l2, l = l1 ++ l2 /\ P1 l1 /\ P2 l2.

Lemma prints_bind base {A B} (m1 : st program A) (m2 : st program B) (P1 P2 : list message -> Prop) :
  prints base m1 P1 -> prints base m2 P2 -> prints base (m1 ;;; m2) (followed P1 P2).
Proof.
  intros H1 H2 p Hp. apply wp_bind. eapply wp_mono; [by apply H1|]. cbn beta.
  intros _ p1 (Hp1 & Hr1 & l1 & Hl1 & HP1). eapply wp_mono; [by apply H2|]. cbn beta.
  intros _ p2 (Hp2 & Hr2 & l2 & Hl2 & HP2). split; [done|]. split; [congruence|].
  exists (l1 ++ l2). split; [by rewrite Hl2, Hl1, app_assoc | by exists l1, l2].
Qed.

Lemma prints_mono base {A} (m : st program A) (P Q : list message -> Prop) :
  prints base m P -> (forall l, P l -> Q l) -> prints base m Q.
Proof.
  intros H1 HPQ p Hp. eapply wp_mono; [by apply H1|]. cbn beta.
  intros _ p1 (Hp1 & Hr1 & l1 & Hl1 & HP1). eauto 6.
Qed.

Lemma read_sendable addr qty : is_u16 addr -> 1 <= qty <= 125 -> sendable (ReadRegisters 3 addr qty).
Proof. intros Ha Hq. split; [by left|]. split; [done|]. by unfold_defs. Qed.

(** A register read: on success the array holds as many registers as before. *)
Lemma read_wp base addr qty out p :
  is_u16 addr -> 1 <= qty <= 125 -> zlen out = qty -> session base p ->
  wp (on_client (mb_tcp_client_read_holding_registers addr qty (Some out))) (fun '(rc, out') p' =>
    session base p' /\ same_run p p' /\ exists v, out' = Some v /\ length v = length out) p.
Proof.
  intros Ha Hq Hl Hp. pose proof (read_sendable addr qty Ha Hq) as Hr.
  assert (room (ReadRegisters 3 addr qty) out) as Hroom by (unfold room; cbn [cells]; lia).
  change (mb_tcp_client_read_holding_registers addr qty (Some out)) with (call (ReadRegisters 3 addr qty) (Some out)).
  eapply wp_mono; [by apply (on_client_wp base)|]. cbn beta. intros [rc out'] p' (Hp' & Hsame & resp & -> & Hok).
  split; [done|]. split; [done|]. eexists. split; [done|]. destruct (Z.eqb_spec rc 0) as [->|]; [|done].
  destruct (Hok eq_refl) as (reply & more & -> & Hn). by apply stored_registers_length.
Qed.

Definition single (P : message -> Prop) (l : list message) : Prop := exists o, l = [o] /\ P o.

(** After a call: the line that reports it. *)
Lemma prints_report base p0 p1 (rc : Z) (good : st program unit) ok failed :
  session base p1 -> same_run p0 p1 ->
  (rc = 0 -> wp good (fun _ p' => session base p' /\ g_running p' = g_running p1 /\
    exists o, printed p' = printed p1 ++ [o] /\ ok o) p1) ->
  wp (if rc =? MB_TCP_CLIENT_OK then good else print (Failure failed (client_err_str rc) rc))
    (fun _ p' => session base p' /\ g_running p' = g_running p0 /\
      exists l, printed p' = printed p0 ++ l /\ single (reports ok failed) l) p1.
Proof.
  intros Hp [Hpr Hrun] Hgood. rewrite <- Hpr, <- Hrun. unfold MB_TCP_CLIENT_OK.
  destruct (Z.eqb_spec rc 0) as [Hrc|Hrc].
  - eapply wp_mono; [by apply Hgood|]. cbn beta. intros _ p' (Hp' & Hr & o & Ho & Hok). split; [done|]. split; [done|].
    exists [o]. split; [done|]. exists o. split; [done|]. by apply reports_ok.
  - apply wp_print. split; [exact Hp|]. split; [done|]. eexists. split; [done|]. eexists. split; [done|]. by apply reports_failure.
Qed.

Lemma print_good base o p (ok : message -> Prop) :
  session base p -> ok o ->
  wp (print o) (fun _ p' => session base p' /\ g_running p' = g_running p /\
    exists o, printed p' = printed p ++ [o] /\ ok o) p.
Proof. intros Hp Ho. split; [exact Hp|]. split; [done|]. by exists o. Qed.

Lemma report_prints base what failed addr :
  is_u16 addr -> prints base (report what failed addr) (single (reports (is_value what) failed)).
Proof.
  intros Ha p Hp. unfold report. apply wp_bind. eapply wp_mono; [by apply (read_wp base)|]. cbn beta.
  intros [rc out] p1 (Hp1 & Hsame & v & -> & Hl). apply prints_report; [done..|]. intros _.
  apply wp_bind. eapply wp_lift; [done|]. destruct v as [|x [|]]; try done.
  apply wp_bind. eapply wp_lift; [done|]. apply print_good; [done | by eexists].
Qed.

Lemma poll_once_prints base : prints base poll_once poll_lines.
Proof.
  unfold poll_once. eapply prints_mono.
  - eapply prints_bind with (P1 := single (reports (fun o => exists t h s u, o = Measured t h s u) "Read block")).
    + intros p Hp. apply wp_bind. eapply wp_mono; [by apply (read_wp base)|]. cbn beta.
      intros [rc out] p1 (Hp1 & Hsame & v & -> & Hl). apply prints_report; [done..|]. intros _.
      apply wp_bind. eapply wp_lift; [done|]. destruct v as [|v0 [|v1 [|v2 [|v3 [|v4 [|]]]]]]; try done.
      do 5 (apply wp_bind; eapply wp_lift; [done|]). apply print_good; [done | by eexists _, _, _, _].
    + eapply prints_bind; [by apply report_prints|]. eapply prints_bind; by apply report_prints.
  - intros l (? & ? & -> & (a & -> & Ha) & ? & ? & -> & (b & -> & Hb) & ? & ? & -> & (c & -> & Hc) & d & -> & Hd).
    by exists a, b, c, d.
Qed.

(** A register write. *)
Lemma write_wp base r (m : st (world * option mb_tcp_client_ctx) Z) p :
  sendable r -> is_read r = false -> call r (Some []) = (let! rc := m in ret (rc, Some [])) -> session base p ->
  wp (on_client m) (fun _ p' => session base p' /\ same_run p p') p.
Proof.
  intros Hr Hread Hm Hp. apply (wp_on_client_write m (Some [])). rewrite <- Hm.
  eapply wp_mono; [apply (on_client_wp base); [done| |done]; by destruct r|]. cbn beta.
  by intros [rc out'] p' (Hp' & Hsame & _).
Qed.

Lemma write_prints base r (m : st (world * option mb_tcp_client_ctx) Z) o failed :
  sendable r -> is_read r = false -> call r (Some []) = (let! rc := m in ret (rc, Some [])) ->
  prints base (let! rc := on_client m in
    if rc =? MB_TCP_CLIENT_OK then print o else print (Failure failed (client_err_str rc) rc))
    (single (reports (eq o) failed)).
Proof.
  intros Hr Hread Hm p Hp. apply wp_bind. eapply wp_mono; [by apply (write_wp base r)|]. cbn beta.
  intros rc p1 [Hp1 Hsame]. apply prints_report; [done..|]. intros _. by apply print_good.
Qed.

Lemma initial_write_prints base : prints base initial_write init_lines.
Proof.
  eapply prints_mono.
  - apply prints_bind; [apply (write_prints base (WriteRegister 10 300))|apply (write_prints base (WriteRegisters 10 [300; 1]))];
      try done; split; try done; [split; [|unfold_defs; cbn; lia]]. by repeat constructor.
  - intros l (? & ? & -> & (a & -> & Ha) & b & -> & Hb). by exists a, b.
Qed.

(** ** The program *)

Lemma poll_loop_wp base fuel p :
  session base p -> (length (g_running p) < fuel)%nat ->
  wp (poll_loop fuel) (fun _ p' => session base p' /\
    exists polls rest, g_running p = replicate (length polls) true ++ false :: rest /\
      printed p' = printed p ++ concat polls /\ Forall poll_lines polls) p.
Proof.
  revert p. induction fuel as [|fuel IH]; intros p Hp Hf; [lia|]. cbn [poll_loop]. apply wp_bind.
  unfold wp at 1, read_running. destruct (g_running p) as [|[] l] eqn:Hg; [done|..].
  2:{ apply wp_ret. split; [exact Hp|]. exists [], l. cbn. by rewrite app_nil_r. }
  set (p1 := Program _ _ _ _ _). apply wp_bind. eapply wp_mono; [by apply (poll_once_prints base p1)|]. cbn beta.
  intros _ p2 (Hp2 & Hr2 & lines & Hl & Hlines). apply wp_bind, wp_on_os, wp_emit.
  set (p3 := set_os _ p2). simpl in Hf.
  assert (session base p3) as Hp3 by exact Hp2.
  assert (g_running p3 = l) as Hr3 by exact Hr2.
  eapply wp_mono; [apply IH; [done | rewrite Hr3; lia]|]. cbn beta.
  intros _ p4 (Hp4 & polls & rest & Hg4 & Hpr & Hall). split; [done|]. exists (lines :: polls), rest.
  rewrite Hr3 in Hg4. rewrite Hg4. split; [done|]. split; [|by apply List.Forall_cons].
  change (printed p3) with (printed p2) in Hpr. rewrite Hpr, Hl. cbn [concat]. by rewrite app_assoc.
Qed.

Definition failed_run (l : list message) : Prop := l = [Text "Connecting"; Text "Connection failed"].

Definition full_run (g : list bool) (l : list message) : Prop :=
  exists init polls rest, g = replicate (length polls) true ++ false :: rest /\ init_lines init /\
    Forall poll_lines polls /\
    l = [Text "Connecting"; Text "Connected"] ++ init ++ concat polls ++ [Text "Shutting down"; Text "Disconnected"].

Lemma session_disconnect base p :
  session base p ->
  wp (mb_tcp_client_disconnect (Some (client p))) (fun c k => account k = account base /\
    exists c', c = Some c' /\ cli_initialized c' = 0) (os p).
Proof.
  intros (Hi & Hlk & [[Hs Ha]|(Hs & Hfr & _ & Ha)]).
  - eapply wp_mono; [apply (tcp_client_disconnect_closed_wp _ base); [congruence|done..]|]. cbn beta.
    intros c k (-> & Hk & _). split; [done|]. by eexists.
  - eapply wp_mono; [apply (tcp_client_disconnect_wp _ base); [congruence|done..]|]. cbn beta.
    intros c k (-> & Hk & _). split; [done|]. by eexists.
Qed.

Lemma main_wp p :
  0 <= locks (os p) -> (forall a n l, answers (os p) = a :: inl n :: l -> n < FD_SETSIZE) ->
  rx_bytes (rx (line p)) ->
  wp main (fun rc p' => account (os p') = account (os p) /\ cli_initialized (client p') = 0 /\
    exists l, printed p' = printed p ++ l /\
      ((rc = 1 /\ failed_run l) \/ (rc = 0 /\ full_run (g_running p) l))) p.
Proof.
  intros Hlk Hsmall Hb. unfold main. apply wp_bind, wp_print. apply wp_bind, wp_on_os.
  eapply wp_mono; [by apply tcp_client_connect_wp|]. cbn beta.
  intros r k [(n & -> & [Hn _] & Hfr & Ha & _)|(Hrc & Ha & c' & Hc & Hi)].
  - apply wp_bind. unfold wp at 1. cbn [default from_option id fst snd Z.eqb negb]. apply wp_bind, wp_print.
    set (p1 := Program _ _ _ _ _). assert (session (os p) p1) as Hp1.
    { split; [done|]. split; [done|]. right. cbn. split_and!; done. }
    apply wp_bind. eapply wp_mono; [by apply (initial_write_prints (os p) p1)|]. cbn beta.
    intros _ p2 (Hp2 & Hr2 & init & Hpr2 & Hinit). apply wp_bind. unfold wp at 1.
    pose proof (poll_loop_wp (os p) (S (length (g_running p2))) p2 Hp2 ltac:(lia)) as Hloop.
    unfold wp in Hloop. destruct (poll_loop _ p2) as [[[] p3]|]; [|done].
    destruct Hloop as (Hp3 & polls & rest & Hg & Hpr3 & Hpolls).
    apply wp_bind, wp_print. apply wp_bind, wp_get. apply wp_bind, wp_on_os. cbn [os client].
    eapply wp_mono; [by apply (session_disconnect (os p))|]. cbn beta. intros c k' (Hk' & c' & -> & Hi').
    apply wp_bind. unfold wp at 1. cbn [default from_option id]. apply wp_bind, wp_print, wp_ret.
    split; [exact Hk'|]. split; [exact Hi'|]. eexists. split; [cbn; rewrite Hpr3, Hpr2; cbn; by rewrite <- !app_assoc|].
    right. split; [done|]. exists init, polls, rest. rewrite <- Hg, Hr2. by rewrite <- ?app_assoc.
  - destruct r as [rc c]. cbn [fst snd] in *. subst rc c. apply wp_bind. unfold wp at 1.
    cbn [default from_option id Z.eqb negb]. apply wp_bind, wp_print, wp_ret.
    split; [exact Ha|]. split; [exact Hi|]. eexists. split; [cbn; by rewrite <- app_assoc|]. left. done.
Qed.
End Program.
