(* ===== verification/ExampleTogether.v ===== *)
(** * The example client against the example server

    [conversation n] is what the client program asks when it polls [n] times.
    [online calls bytes p]: the program is connected, [bytes] are what it will
    receive, and the line is in time for [calls] more calls.  Every call of the
    program then gets its answer, and the program prints the live values of the
    server. *)

From stdpp Require Import gmap strings.
From S2P Require Import Prelude Buffer Defines Bits Pdu PduSpec PduClient PduReplies Bank Ptr Tcp TcpFrames Sys TcpServer TcpServerSpec TcpServerTheorems TcpClient TcpClientSpec TcpClientCalls TcpClientAnswers TcpClientTheorems Kernel TcpPort TcpThread TcpThreadSpec TcpPortSpec ExampleServers ExampleTheorems ExampleTcpClient ExampleTcpClientSpec.

(** ** What is asked and answered *)

Definition startup : list request := [WriteRegister REG_SETPOINT 300; WriteRegisters REG_SETPOINT [300; 1]].
Definition polling : list request :=
  [ReadRegisters 3 REG_TEMPERATURE 5; ReadRegisters 3 REG_SETPOINT 1; ReadRegisters 3 REG_CONTROL 1;
   ReadRegisters 3 REG_DEVICE_ID 1].
Definition conversation (n : nat) : list request := startup ++ concat (replicate n polling).

(** The frames of the client, from the transaction id [tid] on. *)
Fixpoint frames_from (tid : Z) (rs : list request) : list (list Z) :=
  match rs with
  | [] => []
  | r :: rs => mbap (next_transaction_id tid) SERVER_UNIT_ID (encode_request r)
               :: frames_from (next_transaction_id tid) rs
  end.

Lemma frames_from_length tid rs : length (frames_from tid rs) = length rs.
Proof. revert tid. induction rs as [|r rs IH]; intros tid; [done|]. cbn [frames_from length]. by rewrite IH. Qed.

Section Device.
Context {U : Type} (d : device U).

(** The frames of the server's replies, and the state it is left in. *)
Fixpoint answers_from (tid : Z) (rs : list request) (u : U) : list Z :=
  match rs with
  | [] => []
  | r :: rs => mbap (next_transaction_id tid) SERVER_UNIT_ID (encode_response (fst (serve d r u)))
               ++ answers_from (next_transaction_id tid) rs (snd (serve d r u))
  end.
Definition served (rs : list request) (u : U) : U := fold_left (fun u r => snd (serve d r u)) rs u.

Lemma replies_frames own tid rs u :
  accepts_unit own SERVER_UNIT_ID = true ->
  Forall (fun r => valid_request r /\ offers d r = true) rs ->
  replies own d (frames_from tid rs) u = (answers_from tid rs u, served rs u).
Proof.
  intros Ha. revert tid u. induction rs as [|r rs IH]; intros tid u Hrs; [done|].
  apply Forall_cons_iff in Hrs as [[Hr Ho] Hrs]. cbn [frames_from replies answers_from].
  rewrite tcp_reply_request by (done || apply next_tid_u16). by rewrite IH.
Qed.

Lemma frames_well_formed tid rs : Forall (fun r => valid_request r) rs -> Forall well_formed (frames_from tid rs).
Proof.
  intros Hrs. revert tid. induction Hrs as [|r rs Hr Hrs IH]; intros tid; [apply List.Forall_nil|]. cbn [frames_from].
  apply List.Forall_cons; [|apply IH]. pose proof (encode_request_bound r (valid_sendable r Hr)) as Hlen.
  pose proof (mbap_complete (next_transaction_id tid) SERVER_UNIT_ID (encode_request r) ltac:(lia)) as [Hm1 Hm2].
  rewrite mbap_length in Hm2. split; [lia|]. rewrite mbap_length. lia.
Qed.
End Device.

(** ** The program online *)

(** For every call two readings of the clock less than the timeout apart, and
    a socket that becomes readable. *)
Fixpoint timely `{Indet} (n : nat) (clk : list (option (Z * Z))) (sel : list poll_event) : Prop :=
  match n with
  | O => True
  | S n' => exists t t' clk' sel', clk = t :: t' :: clk' /\ sel = Ready :: sel' /\
      time_ms t' < u64 (time_ms t + RESPONSE_TIMEOUT_MS) /\ timely n' clk' sel'
  end.

Section Online.
Context {I : Indet} {U : Type} (h : mb_pdu_handlers U) (d : device U) `{!Implements h d}.

Record online (rs : list request) (u : U) (p : program) : Prop := Online {
  online_up : cli_initialized (client p) = 1;
  online_cfg : cli_cfg (client p) = config;
  online_sock : 0 <= cli_sock (client p);
  online_bytes : rx_bytes (rx (line p));
  online_stream : exists more closed,
    stream (rx (line p)) = (answers_from d (cli_tid (client p)) rs u ++ more, closed);
  online_time : timely (length rs) (clock (line p)) (selects (line p));
  online_room : eager on_signal (tx (line p)) (zlen (concat (frames_from (cli_tid (client p)) rs)));
}.

(** A call whose answer is on the way. *)
Lemma online_call r rs u out p :
  valid_request r -> offers d r = true -> has_words (fst (serve d r u)) -> room r out -> online (r :: rs) u p ->
  exists p', on_client (call r (Some out)) p
      = Ok ((exception_code (fst (serve d r u)), Some (filled (fst (serve d r u)) out)), p') /\
    online rs (snd (serve d r u)) p' /\ same_run p p' /\ os p' = os p /\
    cli_sock (client p') = cli_sock (client p) /\
    cli_tid (client p') = next_transaction_id (cli_tid (client p)) /\
    output (line p') = output (line p) ++ concat (frames_from (cli_tid (client p)) [r]).
Proof.
  intros Hr Ho Hw Hroom [Hi Hcfg Hs Hb (more & closed & Hst) Ht He]. pose proof (valid_sendable r Hr) as Hsend.
  cbn [answers_from frames_from timely length concat] in *.
  destruct Ht as (t & t' & clk & sel & Hck & Hsel & Hlt & Ht).
  assert (request_frame (client p) r = mbap (next_transaction_id (cli_tid (client p))) SERVER_UNIT_ID (encode_request r))
    as Hframe by (unfold request_frame; by rewrite Hcfg).
  rewrite length_app, Nat2Z.inj_add in He.
  assert (2 <= zlen (encode_response (fst (serve d r u))) <= 253) as Hx.
  { pose proof (respond_bound h d (encode_request r) u) as Hbound. unfold respond in Hbound.
    rewrite parse_encode_request in Hbound by done. exact Hbound. }
  destruct (call_answers r out (line p) (client p) SERVER_UNIT_ID [] (encode_response (fst (serve d r u)))
    (answers_from d (next_transaction_id (cli_tid (client p))) rs (snd (serve d r u)) ++ more) closed)
    as (w' & Hcall & Hout & Hst' & Hb' & Hroom' & t1 & ts & Hck' & Hts & Hsel'); [done..| |done| |].
  { by rewrite Hi. }
  { split; [|split; [done|split; [by rewrite <- app_assoc in Hst|split; [apply List.Forall_nil|split; [lia|]]]]].
    - rewrite Hframe. destruct He as [He1 He2]. split; [done|]. lia.
    - exists t, (t' :: clk), clk, sel. split; [done|]. exists [t']. split; [done|]. split; [|by rewrite Hsel].
      apply List.Forall_cons; [|apply List.Forall_nil]. unfold effective_response_timeout_ms. by rewrite Hcfg. }
  destruct (reply_serve h d r u out Hr Ho Hw) as [Hc Hf]. cbv zeta in Hc, Hf. rewrite Hc, Hf in Hcall.
  assert (clock w' = clk /\ selects w' = sel) as [Hclk1 Hsel1].
  { rewrite Hck in Hck'. injection Hck' as <- Hck'. destruct ts as [|? [|]]; simplify_eq/=.
    rewrite Hsel in Hsel'. by simplify_eq/=. }
  eexists. split.
  { unfold on_client. rewrite Hcall. cbn [cli_sock set_cli_tid]. rewrite (proj2 (Z.ltb_ge _ _)) by done.
    rewrite andb_false_r. done. }
  split; [|by rewrite Hframe, app_nil_r in *]. constructor; cbn [client line set_client set_line]; try done.
  - by eexists _, _.
  - by rewrite Hclk1, Hsel1.
  - apply Hroom'; [lia|]. by rewrite Hframe.
Qed.
End Online.

(** ** The server's registers *)

Section Registers.
Context (time : nat -> Z).

(** After the startup writes. *)
Definition configured (app : server_app) : Prop :=
  zlen (reg_bank app) = 32 /\ reg_bank app !!! 10%nat = 300 /\ reg_bank app !!! 11%nat = 1.

Lemma refresh_get app a :
  zlen (reg_bank app) = 32 -> 5 <= a < 32 ->
  reg_bank (Tcp.refresh time app) !!! Z.to_nat a = if a =? 20 then 0x0100 else reg_bank app !!! Z.to_nat a.
Proof.
  intros Hl Ha. unfold Tcp.refresh. cbn [reg_bank].
  rewrite !get_set_register by (rewrite ?set_register_length, ?Hl; (by vm_compute) || lia).
  unfold Tcp.REG_DEVICE_ID, Tcp.REG_UPTIME_HIGH, Tcp.REG_UPTIME_LOW, Tcp.REG_STATUS, Tcp.REG_HUMIDITY, Tcp.REG_TEMPERATURE.
  destruct (Z.eqb_spec a 20); [done|]. by zbool.
Qed.

Lemma refresh_length app : zlen (reg_bank (Tcp.refresh time app)) = zlen (reg_bank app).
Proof. unfold Tcp.refresh. cbn [reg_bank]. by rewrite !set_register_length. Qed.

Lemma refresh_configured app : configured app -> configured (Tcp.refresh time app).
Proof.
  intros (Hl & H10 & H11). split; [by rewrite refresh_length|].
  pose proof (refresh_get app 10 Hl ltac:(lia)) as R10. pose proof (refresh_get app 11 Hl ltac:(lia)) as R11.
  cbn [Z.eqb Pos.eqb] in R10, R11. change (Z.to_nat 10) with 10%nat in R10. change (Z.to_nat 11) with 11%nat in R11.
  by rewrite R10, R11.
Qed.

Lemma serve_one fc a app :
  zlen (reg_bank app) = 32 -> 5 <= a < 32 ->
  serve (Tcp.device time) (ReadRegisters fc a 1) app
  = (RegistersRead fc [if a =? 20 then 0x0100 else reg_bank app !!! Z.to_nat a], Tcp.refresh time app).
Proof.
  intros Hl Ha. cbn [serve Tcp.device dev_read_registers].
  replace (Tcp.REG_BANK_SIZE <? u32 (a + 1)) with false
    by (symmetry; apply Z.ltb_ge; unfold Tcp.REG_BANK_SIZE, u32; rewrite Z.mod_small; lia).
  unfold read_bank. change (seqZ 0 1) with [0]. cbn [map]. by rewrite Z.add_0_r, refresh_get.
Qed.

(** What the startup writes leave. *)
Lemma startup_served app :
  zlen (reg_bank app) = 32 ->
  exists app1 app2,
    serve (Tcp.device time) (WriteRegister REG_SETPOINT 300) app = (Written 6 10 300, app1) /\
    serve (Tcp.device time) (WriteRegisters REG_SETPOINT [300; 1]) app1 = (Written 16 10 2, app2) /\
    configured app2 /\ time_calls app2 = time_calls app.
Proof.
  intros Hl. eexists _, _. split; [done|]. split; [done|]. split; [|done]. unfold configured. cbn [reg_bank].
  set (bank := splice (reg_bank app) REG_SETPOINT [300]).
  assert (zlen bank = 32) as Hb by (unfold bank; rewrite splice_length by (rewrite ?Hl; by vm_compute); done).
  split; [rewrite splice_length by (rewrite ?Hb; by vm_compute); done|].
  by split; [apply (splice_lookup bank 10 [300; 1] 0)|apply (splice_lookup bank 10 [300; 1] 1)]; rewrite ?Hb.
Qed.
End Registers.

(** ** The program's calls *)

Definition tid_after (tid : Z) (rs : list request) : Z := fold_left (fun t _ => next_transaction_id t) rs tid.

Lemma frames_from_app tid rs1 rs2 :
  frames_from tid (rs1 ++ rs2) = frames_from tid rs1 ++ frames_from (tid_after tid rs1) rs2.
Proof. revert tid. induction rs1 as [|r rs1 IH]; intros tid; [done|]. cbn. by rewrite IH. Qed.

Section Together.
Context {I : Indet} (time : nat -> Z).

Definition example_device := Tcp.device time.
#[local] Instance device_implements : Implements (Tcp.handlers time) example_device := Tcp.implements time.

(** From [p] to [p'] the program has made the calls [rs] and printed [l]. *)
Record went (rs : list request) (l : list message) (p p' : program) : Prop := Went {
  went_account : account (os p') = account (os p);
  went_sock : cli_sock (client p') = cli_sock (client p);
  went_tid : cli_tid (client p') = tid_after (cli_tid (client p)) rs;
  went_printed : printed p' = printed p ++ l;
  went_output : output (line p') = output (line p) ++ concat (frames_from (cli_tid (client p)) rs);
}.

(** [m] makes the calls [rs], prints [l] and leaves the server in [u']. *)
Definition does (m : st program unit) (rs : list request) (l : list message) (u u' : server_app) : Prop :=
  forall rest p, online example_device (rs ++ rest) u p ->
  exists p', m p = Ok (tt, p') /\ online example_device rest u' p' /\ went rs l p p' /\ g_running p' = g_running p.

Lemma went_trans rs1 rs2 l1 l2 p p1 p2 : went rs1 l1 p p1 -> went rs2 l2 p1 p2 -> went (rs1 ++ rs2) (l1 ++ l2) p p2.
Proof.
  intros [A1 S1 T1 P1 O1] [A2 S2 T2 P2 O2]. constructor; [congruence..| | |].
  - rewrite T2, T1. unfold tid_after. by rewrite fold_left_app.
  - by rewrite P2, P1, app_assoc.
  - by rewrite O2, O1, T1, frames_from_app, concat_app, app_assoc.
Qed.

Lemma does_bind m1 m2 rs1 rs2 l1 l2 u u1 u2 :
  does m1 rs1 l1 u u1 -> does m2 rs2 l2 u1 u2 -> does (m1 ;;; m2) (rs1 ++ rs2) (l1 ++ l2) u u2.
Proof.
  intros H1 H2 rest p Hp. rewrite <- app_assoc in Hp. destruct (H1 _ p Hp) as (p1 & Hrun1 & Hp1 & Hw1 & R1).
  destruct (H2 _ p1 Hp1) as (p2 & Hrun2 & Hp2 & Hw2 & R2). exists p2.
  unfold bind. rewrite Hrun1. split; [exact Hrun2|]. split; [exact Hp2|]. split; [by eapply went_trans | congruence].
Qed.

Lemma online_print rs u p o :
  online example_device rs u p ->
  online example_device rs u (Program (os p) (line p) (client p) (printed p ++ [o]) (g_running p)).
Proof. intros [? ? ? ? ? ? ?]. by constructor. Qed.

(** One call and the line that reports it. *)
Lemma does_call (m : st (world * option mb_tcp_client_ctx) (Z * option (list Z))) (k : Z * option (list Z) -> st program unit)
    r out x u u' o :
  m = call r (Some out) -> serve example_device r u = (x, u') ->
  valid_request r -> offers example_device r = true -> has_words x -> room r out -> exception_code x = 0 ->
  (forall p, k (0, Some (filled x out)) p = print o p) ->
  does (bind (on_client m) k) [r] [o] u u'.
Proof.
  intros -> Hserve Hr Ho Hw Hroom Hx Hk rest p Hp.
  destruct (online_call (Tcp.handlers time) example_device r rest u out p Hr Ho ltac:(by rewrite Hserve) Hroom Hp)
    as (p1 & Hcall & Hp1 & [Hpr Hrun] & Hos & Hsock & Htid & Hout).
  rewrite Hserve in *. cbn [fst snd] in *. rewrite Hx in Hcall.
  eexists. unfold bind. rewrite Hcall, Hk. split; [done|]. split; [by apply online_print|].
  split; [|done]. constructor; cbn; [by rewrite Hos | done | done | by rewrite Hpr | done].
Qed.

Lemma report_does what failed a u :
  zlen (reg_bank u) = 32 -> 5 <= a < 32 -> (a = 20 \/ is_u16 (reg_bank u !!! Z.to_nat a)) ->
  does (report what failed a) [ReadRegisters 3 a 1]
    [Value what (if a =? 20 then 0x0100 else reg_bank u !!! Z.to_nat a)] u (Tcp.refresh time u).
Proof.
  intros Hl Ha Hw. eapply does_call; [done | by apply serve_one | | done | | done | done |].
  - split; [by left|]. unfold_defs. unfold is_u16. lia.
  - apply List.Forall_cons; [|apply List.Forall_nil]. destruct (Z.eqb_spec a 20); [done|]. by destruct Hw.
  - done.
Qed.

(** What one round prints, when the server's clock shows [t]. *)
Definition poll_report (t : Z) : list message :=
  [Measured 253 60 1 t; Value "Setpoint" 300; Value "Control" 1; Value "Device ID" 0x0100].

(** The program puts the halves of the uptime together. *)
Lemma joined_uptime t :
  is_u32 t -> Z.lor (u32 (Z.shiftl (u16 (Z.shiftr t 16)) 16)) (u16 (Z.land t 0xFFFF)) = t.
Proof.
  intros Ht. pose proof (split_uptime t Ht) as Hs. unfold uptime_of in Hs. rewrite <- Hs at 3. f_equal.
  unfold u32. pose proof (is_u16_u16 (Z.shiftr t 16)). rewrite Z.shiftl_mul_pow2 by lia.
  rewrite Z.mod_small; [done|]. unfold is_u16 in *. change (2 ^ 16) with 65536 in *. change (2 ^ 32) with 4294967296. lia.
Qed.

Lemma poll_once_does u :
  configured u ->
  exists u', does poll_once polling (poll_report (u32 (time (time_calls u)))) u u' /\ configured u' /\
    time_calls u' = (4 + time_calls u)%nat.
Proof.
  intros Hu. pose proof (refresh_configured time u Hu) as Hu1.
  pose proof (refresh_configured time _ Hu1) as Hu2. pose proof (refresh_configured time _ Hu2) as Hu3.
  eexists. split; [|split; [by apply refresh_configured, Hu3 | done]].
  unfold poll_once. change polling with ([ReadRegisters 3 0 5] ++ [ReadRegisters 3 10 1] ++ [ReadRegisters 3 11 1] ++ [ReadRegisters 3 20 1]).
  unfold poll_report. set (t := u32 (time (time_calls u))).
  change [Measured 253 60 1 t; Value "Setpoint" 300; Value "Control" 1; Value "Device ID" 0x0100]
    with ([Measured 253 60 1 t] ++ [Value "Setpoint" 300] ++ [Value "Control" 1] ++ [Value "Device ID" 0x0100]).
  destruct Hu as (Hl & _ & _), Hu1 as (Hl1 & H10 & _), Hu2 as (Hl2 & _ & H11), Hu3 as (Hl3 & _ & _).
  assert (is_u32 t) as Ht by (unfold t, u32, is_u32; by apply Z.mod_pos_bound).
  eapply does_bind; [|eapply does_bind; [|eapply does_bind]].
  - eapply does_call; [done | by apply serve_poll | | done | | done | done |].
    + split; [by left|]. unfold_defs. unfold is_u16. lia.
    + repeat (apply List.Forall_cons; [first [apply is_u16_u16 | done]|]). apply List.Forall_nil.
    + intros p. transitivity (print (Measured 253 60 1
        (Z.lor (u32 (Z.shiftl (u16 (Z.shiftr t 16)) 16)) (u16 (Z.land t 0xFFFF)))) p); [done|]. by rewrite joined_uptime.
  - pose proof (report_does "Setpoint" "Read setpoint" 10 _ Hl1 ltac:(lia)) as Hd. change (Z.to_nat 10) with 10%nat in Hd.
    rewrite H10 in Hd. apply Hd. right. by vm_compute.
  - pose proof (report_does "Control" "Read control" 11 _ Hl2 ltac:(lia)) as Hd. change (Z.to_nat 11) with 11%nat in Hd.
    rewrite H11 in Hd. apply Hd. right. by vm_compute.
  - apply (report_does "Device ID" "Read device ID" 20 _ Hl3 ltac:(lia)). by left.
Qed.

Lemma on_client_write (m : st (world * option mb_tcp_client_ctx) Z) (out : option (list Z)) p rc o p' :
  on_client (let! rc := m in ret (rc, out)) p = Ok ((rc, o), p') -> on_client m p = Ok (rc, p').
Proof.
  unfold on_client, bind, ret. destruct (m _) as [[v [w [c|]]]|]; [|done..].
  destruct (_ && _); [|by intros [= -> _ ->]]. destruct (on_os _ _) as [[a p1]|]; [|done]. by intros [= -> _ ->].
Qed.

Lemma write_does (m : st (world * option mb_tcp_client_ctx) Z) r x u u' o failed :
  call r (Some []) = (let! rc := m in ret (rc, Some [])) -> serve example_device r u = (x, u') ->
  valid_request r -> offers example_device r = true -> has_words x -> room r [] -> exception_code x = 0 ->
  does (let! rc := on_client m in
        if rc =? MB_TCP_CLIENT_OK then print o else print (Failure failed (client_err_str rc) rc)) [r] [o] u u'.
Proof.
  intros Hm Hserve Hr Ho Hw Hroom Hx rest p Hp.
  pose proof (does_call (call r (Some [])) (fun _ => print o) r [] x u u' o eq_refl Hserve Hr Ho Hw Hroom Hx
    (fun p => eq_refl) rest p Hp) as (p' & Hrun & Hdone). exists p'. split; [|exact Hdone].
  pose proof (online_call (Tcp.handlers time) example_device r rest u [] p Hr Ho ltac:(by rewrite Hserve) Hroom Hp)
    as (p1 & Hcall & _). rewrite Hserve in Hcall. cbn [fst] in Hcall. rewrite Hx in Hcall.
  unfold bind in Hrun |- *. rewrite Hcall in Hrun. rewrite Hm in Hcall.
  by rewrite (on_client_write _ _ _ _ _ _ Hcall).
Qed.

Lemma initial_write_does u :
  zlen (reg_bank u) = 32 ->
  exists u', does initial_write startup [Value "Setpoint written" 300; Values "Setpoint+Control written" 300 1] u u' /\
    configured u' /\ time_calls u' = time_calls u.
Proof.
  intros Hl. destruct (startup_served time u Hl) as (u1 & u2 & H1 & H2 & Hc & Ht). exists u2. split; [|done].
  assert (is_u16 10 /\ is_u16 300) as [Ha Hv] by done.
  apply (does_bind _ _ [WriteRegister 10 300] [WriteRegisters 10 [300; 1]] [_] [_] u u1 u2).
  - eapply (write_does _ (WriteRegister 10 300)); [done | exact H1 | done..].
  - eapply (write_does _ (WriteRegisters 10 [300; 1])); [done | exact H2 | | done..]. unfold valid_request. unfold_defs. cbn [length].
    split; [done|]. split; [by repeat (apply List.Forall_cons; [done|])|]. lia.
Qed.

(** [n] rounds, from the [k]-th reading of the server's clock on. *)
Definition poll_reports (k n : nat) : list message :=
  concat (map (fun i => poll_report (u32 (time (k + 4 * i)))) (seq 0 n)).

Lemma poll_reports_S k n : poll_reports k (S n) = poll_report (u32 (time k)) ++ poll_reports (4 + k) n.
Proof.
  unfold poll_reports. cbn [seq map concat]. f_equal; [do 3 f_equal; lia|].
  rewrite <- seq_shift, map_map. f_equal. apply map_ext. intros i. do 3 f_equal. lia.
Qed.

Lemma online_stopped rs u p l :
  online example_device rs u p -> online example_device rs u (Program (os p) (line p) (client p) (printed p) l).
Proof. intros [? ? ? ? ? ? ?]. by constructor. Qed.

Lemma poll_loop_does n fuel rest u p l :
  configured u -> online example_device (concat (replicate n polling) ++ rest) u p ->
  g_running p = replicate n true ++ false :: l -> (n < fuel)%nat ->
  exists p' u', poll_loop fuel p = Ok (tt, p') /\ online example_device rest u' p' /\
    went (concat (replicate n polling)) (poll_reports (time_calls u) n) p p' /\ configured u'.
Proof.
  revert fuel u p. induction n as [|n IH]; intros [|fuel] u p Hu Hp Hg Hf; try lia; cbn [poll_loop].
  - exists (Program (os p) (line p) (client p) (printed p) l), u. unfold bind, read_running. rewrite Hg.
    split; [done|]. split; [by apply online_stopped|]. split; [|done].
    constructor; cbn; try done; by rewrite app_nil_r.
  - unfold bind at 1, read_running. rewrite Hg. cbn [replicate app].
    set (p0 := Program _ _ _ _ _). destruct (poll_once_does u Hu) as (u1 & Hdoes & Hu1 & Ht).
    cbn [replicate concat] in Hp. rewrite <- app_assoc in Hp.
    destruct (Hdoes _ p0 (online_stopped _ _ _ _ Hp)) as (p1 & Hrun & Hp1 & Hw1 & R1).
    unfold bind at 1. rewrite Hrun. unfold bind at 1, on_os, emit. set (p2 := set_os _ p1).
    assert (online example_device (concat (replicate n polling) ++ rest) u1 p2) as Hp2 by (by destruct Hp1; constructor).
    destruct (IH fuel u1 p2 Hu1 Hp2 R1 ltac:(lia)) as (p3 & u3 & Hrun3 & Hp3 & Hw3 & Hu3).
    exists p3, u3. split; [exact Hrun3|]. split; [exact Hp3|]. split; [|exact Hu3].
    rewrite poll_reports_S, Ht in *. cbn [replicate concat]. apply (went_trans _ _ _ _ p p1).
    + destruct Hw1. by constructor.
    + destruct Hw3. by constructor.
Qed.

(** ** The whole program *)

Definition session_report (k n : nat) : list message :=
  [Text "Connecting"; Text "Connected"; Value "Setpoint written" 300; Values "Setpoint+Control written" 300 1]
  ++ poll_reports k n ++ [Text "Shutting down"; Text "Disconnected"].

(** The connection is there, and over it come the answers of the example
    server, in time, until the signal after [n] rounds. *)
Record reaches (n : nat) (bytes : list Z) (p : program) : Prop := Reaches {
  reaches_locks : 0 <= locks (os p);
  reaches_small : forall a m l, answers (os p) = a :: inl m :: l -> m < FD_SETSIZE;
  reaches_connects : exists c k, mb_tcp_client_connect (Some zero_client) (Some config) (os p) = Ok ((0, c), k);
  reaches_bytes : rx_bytes (rx (line p));
  reaches_stream : exists more closed, stream (rx (line p)) = (bytes ++ more, closed);
  reaches_time : timely (length (conversation n)) (clock (line p)) (selects (line p));
  reaches_room : eager on_signal (tx (line p)) (zlen (concat (frames_from 0 (conversation n))));
  reaches_end : exists l, g_running p = replicate n true ++ false :: l;
}.

Lemma conversation_app n : conversation n = startup ++ concat (replicate n polling) ++ [].
Proof. unfold conversation. by rewrite app_nil_r. Qed.

Lemma main_does app n p :
  zlen (reg_bank app) = 32 -> reaches n (answers_from example_device 0 (conversation n) app) p ->
  exists p', main p = Ok (0, p') /\ printed p' = printed p ++ session_report (time_calls app) n /\
    output (line p') = output (line p) ++ concat (frames_from 0 (conversation n)) /\
    account (os p') = account (os p).
Proof.
  intros Hl [Hlk Hsmall (c & k & Hconn) Hb (more & closed & Hst) Ht He [l Hg]].
  pose proof (tcp_client_connect_wp zero_client config (os p) eq_refl Hlk Hsmall) as Hc. unfold wp in Hc. rewrite Hconn in Hc.
  destruct Hc as [(m & [= ->] & [Hm _] & Hfr & Ha & _)|(Hrc & _)]; [|done].
  unfold main. unfold bind at 1. cbn [print]. unfold bind at 1, on_os at 1. cbn [os]. rewrite Hconn. cbn iota beta.
  unfold bind at 1. cbn [default from_option id Z.eqb negb]. unfold bind at 1. cbn [print].
  set (p1 := Program _ _ _ _ _).
  assert (online example_device (conversation n) app p1) as Hp1 by (constructor; [done..| |exact Ht|exact He]; by eexists _, _).
  rewrite conversation_app in Hp1.
  destruct (initial_write_does app Hl) as (app1 & Hinit & Hcfg & Htc).
  destruct (Hinit _ p1 Hp1) as (p2 & Hrun2 & Hp2 & Hw2 & R2). unfold bind at 1. rewrite Hrun2.
  assert (g_running p2 = replicate n true ++ false :: l) as Hg2 by (by rewrite R2).
  destruct (poll_loop_does n (S (length (g_running p2))) [] app1 p2 l Hcfg Hp2 Hg2) as (p3 & app3 & Hrun3 & Hp3 & Hw3 & _).
  { rewrite Hg2, length_app, length_replicate. simpl. lia. }
  unfold bind at 1. rewrite Hrun3. unfold bind at 1. cbn [print]. unfold bind at 1, get.
  pose proof (went_trans _ _ _ _ _ _ _ Hw2 Hw3) as [Ha3 Hs3 _ Hpr3 Ho3].
  change (os p1) with k in Ha3. change (cli_sock (client p1)) with m in Hs3. rewrite Ha in Ha3. rewrite <- Hs3 in *.
  destruct (tcp_client_disconnect_run (client p3) (os p) (os p3)) as (k4 & Hdis & Hk4 & _); try done.
  { by rewrite (online_up _ _ _ _ Hp3). }
  unfold bind at 1, on_os at 1. cbn [os client]. rewrite Hdis. eexists. split; [done|]. cbn.
  split; [|split; [|exact Hk4]].
  - rewrite Hpr3, Htc. unfold session_report. cbn. by rewrite <- !app_assoc.
  - rewrite Ho3. unfold conversation. done.
Qed.

Lemma conversation_valid n : Forall (fun r => valid_request r /\ offers example_device r = true) (conversation n).
Proof.
  assert (forall a q, 0 <= a <= 20 -> 1 <= q <= 5 -> valid_request (ReadRegisters 3 a q)) as Hread.
  { intros a q Ha Hq. split; [by left|]. unfold_defs. unfold is_u16. lia. }
  apply Forall_app_2; [|apply Forall_concat, Forall_replicate].
  - apply List.Forall_cons; [by split|]. apply List.Forall_cons; [|apply List.Forall_nil]. split; [|done].
    unfold valid_request, REG_SETPOINT. unfold_defs. cbn [length]. split; [done|].
    split; [by repeat (apply List.Forall_cons; [done|])|]. lia.
  - repeat (apply List.Forall_cons; [split; [by apply Hread|done]|]). apply List.Forall_nil.
Qed.
End Together.
