(* ===== verification/ExampleClientTheorems.v ===== *)
(** * Properties of the example client of the TCP library *)

From stdpp Require Import gmap strings.
From S2P Require Import Prelude Buffer Defines Bits Pdu PduSpec PduClient PduReplies Bank Ptr Tcp TcpFrames Sys TcpServer TcpServerSpec TcpServerTheorems TcpClient TcpClientSpec TcpClientCalls TcpClientAnswers TcpClientTheorems Kernel TcpPort TcpThread TcpThreadSpec TcpPortSpec ExampleServers ExampleTheorems ExampleTcpClient ExampleTcpClientSpec ExampleTogether.

#[local] Instance junk : Indet := fun i => 3 + 7 * Z.of_nat i.

(** C31. The example client is well behaved whatever the system and the network
    do: it prints what the connection attempt led to, and either returns 1, or
    the two lines of the startup writes and four lines per round of polling,
    each with a value or with the name and code of the error, until the signal
    handler clears [g_running]; then it disconnects and returns 0.  Even when
    the connection breaks on the way it goes on reporting errors, never uses a
    closed socket, and at the end holds exactly the descriptors and mutexes it
    held at first. *)
Theorem tcp_client_example_runs `{Indet} p :
  0 <= locks (os p) -> (forall a n l, answers (os p) = a :: inl n :: l -> n < FD_SETSIZE) ->
  rx_bytes (rx (line p)) ->
  wp main (fun rc p' => account (os p') = account (os p) /\ cli_initialized (client p') = 0 /\
    exists l, printed p' = printed p ++ l /\
      ((rc = 1 /\ failed_run l) \/ (rc = 0 /\ full_run (g_running p) l))) p.
Proof. apply main_wp. Qed.

Definition std_kernel (l : list (Z + errno)) : kernel := Kernel {[0; 1; 2]} 0 0 0 l [].

(** A server that closes the connection in the middle of its first reply. *)
Definition cut_off : program :=
  Program (std_kernel [inl 0; inl 7; inl 0; inl 0; inl 0; inl 1; inl 0; inl 0; inl 0; inl 0; inl 0])
    (World [RxData [0; 1; 0; 0; 0; 6; 1]; RxData []] (replicate 9 (TxTakes 9)) (replicate 5 (Some (5, 0))) (replicate 5 Ready) [] [])
    zero_client [] [true; false].

Lemma tcp_client_example_runs_witness :
  wp main (fun rc p' => account (os p') = account (os cut_off) /\ cli_initialized (client p') = 0 /\
    exists l, printed p' = printed cut_off ++ l /\
      ((rc = 1 /\ failed_run l) \/ (rc = 0 /\ full_run (g_running cut_off) l))) cut_off.
Proof.
  apply (tcp_client_example_runs cut_off); [done| |].
  - intros a n l [= _ <- _]. by vm_compute.
  - repeat (apply List.Forall_cons; [try exact I; zforall|]). apply List.Forall_nil.
Defined.

(** Evaluated: every call after the first reports that there is no connection. *)
Example cut_off_run :
  match main cut_off with
  | Ok (rc, p) => rc = 0 /\ fds (os p) = {[0; 1; 2]} /\ locks (os p) = 0 /\
      printed p = [Text "Connecting"; Text "Connected"; Failure "Write setpoint" "ERR_TRANSPORT" (-3);
        Failure "FC16 write" "ERR_NOT_CONNECTED" (-2); Failure "Read block" "ERR_NOT_CONNECTED" (-2);
        Failure "Read setpoint" "ERR_NOT_CONNECTED" (-2); Failure "Read control" "ERR_NOT_CONNECTED" (-2);
        Failure "Read device ID" "ERR_NOT_CONNECTED" (-2); Text "Shutting down"; Text "Disconnected"]
  | Fail _ => False
  end.
Proof. by vm_compute. Qed.

(** ** Client and server together *)

Lemma answers_length {U} (h : mb_pdu_handlers U) (d : device U) `{!Implements h d} tid rs u :
  Forall (fun r => valid_request r /\ offers d r = true) rs -> zlen (answers_from d tid rs u) <= MODBUS_TCP_MAX_ADU_LENGTH * zlen rs.
Proof.
  intros Hrs. revert tid u. induction Hrs as [|r rs [Hr Ho] Hrs IH]; intros tid u; [by cbn|].
  cbn [answers_from length]. rewrite length_app, Nat2Z.inj_add, mbap_length.
  pose proof (IH (next_transaction_id tid) (snd (serve d r u))).
  pose proof (respond_bound h d (encode_request r) u) as Hb. unfold respond in Hb.
  rewrite parse_encode_request in Hb by done. cbn [finish] in Hb. unfold MODBUS_TCP_MAX_ADU_LENGTH in *. lia.
Qed.

Lemma eager_weaken retry l n m : n <= m -> eager retry l m -> eager retry l n.
Proof. intros Hn [Hw Hc]. split; [done | lia]. Qed.

(** C25. The two TCP examples work together.  When the frames of the client
    program reach the example server in any pieces, the server answers every
    one; and when what the server writes reaches the client program in time,
    the program, stopped after [n] rounds, prints that both writes succeeded
    and in every round the live values of the server: 25.3 degrees, 60 percent,
    status 1, as uptime the server's clock at that moment (its two registers
    put together), and the setpoint and control flags it wrote; it returns 0
    and holds what it held at first. *)
Theorem examples_together `{Indet} time app n ws closed :
  zlen (reg_bank app) = 32 ->
  rx_bytes (rx ws) -> stream (rx ws) = (concat (frames_from 0 (conversation n)), closed) ->
  eager on_signal (tx ws) (MODBUS_TCP_MAX_ADU_LENGTH * zlen (conversation n)) ->
  exists ws' app' bytes,
    process_all (tcp_example_config time) (length (conversation n)) (ws, app) = Ok (0, (ws', app')) /\
    output ws' = output ws ++ bytes /\
    forall p, reaches n bytes p ->
      exists p', main p = Ok (0, p') /\ printed p' = printed p ++ session_report time (time_calls app) n /\
        output (line p') = output (line p) ++ concat (frames_from 0 (conversation n)) /\
        account (os p') = account (os p).
Proof.
  intros Hl Hb Hs He. pose proof (conversation_valid time n) as Hv.
  assert (Forall valid_request (conversation n)) as Hvr by (apply (Forall_impl _ _ _ Hv); by intros r [? _]).
  pose proof (process_all_run (tcp_example_config time) (Tcp.device time) (frames_from 0 (conversation n)) [] closed ws app
    Hb ltac:(by rewrite app_nil_r) (frames_well_formed 0 _ Hvr)) as Hrun.
  rewrite (replies_frames (Tcp.device time)) in Hrun by done.
  destruct Hrun as (ws' & Hrun & Hout & _).
  { eapply eager_weaken; [|exact He]. apply (answers_length (Tcp.handlers time) (Tcp.device time)). exact Hv. }
  rewrite frames_from_length in Hrun. eexists _, _, _. split; [exact Hrun|]. split; [exact Hout|].
  intros p Hp. by apply main_does.
Qed.

(** One round.  The server gets the six requests in two pieces. *)
Definition requests_of_one_round : list Z := concat (frames_from 0 (conversation 1)).
Definition server_end : world :=
  World [RxData (take 30 requests_of_one_round); RxErr EINTR; RxData (drop 30 requests_of_one_round)]
    (replicate (260 * 6) (TxTakes 20)) [] [] [] [].
Definition new_bank : server_app := App (replicate 32 0) 0.

Lemma examples_together_witness :
  exists ws' app' bytes,
    process_all (tcp_example_config (fun _ => 70000)) 6 (server_end, new_bank) = Ok (0, (ws', app')) /\
    output ws' = output server_end ++ bytes /\
    forall p, reaches 1 bytes p ->
      exists p', main p = Ok (0, p') /\ printed p' = printed p ++ session_report (fun _ => 70000) 0 1 /\
        output (line p') = output (line p) ++ concat (frames_from 0 (conversation 1)) /\
        account (os p') = account (os p).
Proof.
  apply (examples_together (fun _ => 70000) new_bank 1 server_end false); [done| |by vm_compute|].
  - repeat (apply List.Forall_cons; [first [exact I | apply (bool_decide_unpack _); by vm_compute]|]). apply List.Forall_nil.
  - split; [apply Forall_replicate; reflexivity | by vm_compute].
Defined.

(** Both programs, evaluated: the bytes of the server go to the client. *)
Definition client_end (bytes : list Z) : program :=
  Program (std_kernel [inl 0; inl 7; inl 0; inl 0; inl 0; inl 1; inl 0; inl 0; inl 0; inl 0; inl 0])
    (World [RxData (take 40 bytes); RxData (drop 40 bytes)] (replicate 100 (TxTakes 9))
       (replicate 12 (Some (5, 0))) (replicate 6 Ready) [] [])
    zero_client [] [true; false].

(** It is a program as the theorem asks for. *)
Example client_end_reaches :
  let bytes := answers_from (Tcp.device (fun _ => 70000)) 0 (conversation 1) new_bank in
  reaches 1 bytes (client_end bytes).
Proof.
  intros bytes. constructor.
  - done.
  - intros a m l [= _ <- _]. by vm_compute.
  - eexists _, _. by vm_compute.
  - repeat (apply List.Forall_cons; [apply (bool_decide_unpack _); by vm_compute|]). apply List.Forall_nil.
  - exists [], false. by vm_compute.
  - repeat (eexists _, _, _, _; split; [done|]; split; [done|]; split; [by vm_compute|]). done.
  - split; [apply Forall_replicate; reflexivity | by vm_compute].
  - by eexists.
Qed.

Example one_round :
  match process_all (tcp_example_config (fun _ => 70000)) 6 (server_end, new_bank) with
  | Ok (_, (ws, _)) =>
      match main (client_end (output ws)) with
      | Ok (rc, p) => rc = 0 /\ fds (os p) = {[0; 1; 2]} /\
          printed p = [Text "Connecting"; Text "Connected"; Value "Setpoint written" 300;
            Values "Setpoint+Control written" 300 1; Measured 253 60 1 70000; Value "Setpoint" 300;
            Value "Control" 1; Value "Device ID" 256; Text "Shutting down"; Text "Disconnected"]
      | Fail _ => False
      end
  | Fail _ => False
  end.
Proof. by vm_compute. Qed.
