(* ===== verification/ExampleTcpServer.v ===== *)
(** * The example server of the TCP library: [main] of [examples/tcp_server_example.c]

    What the program prints goes to a list beside the process and the lines;
    its callbacks and the address of the register map are in [ExampleServers].
    The thread of the server runs while [main] sleeps until [g_running] is
    cleared: [rounds] is what the thread goes through in that time, and
    [rounds'] is what it still does during the stop. *)

From stdpp Require Import gmap strings.
From S2P Require Import Prelude Buffer Defines Bits Pdu PduSpec PduClient Bank Ptr Tcp Sys Keeps TcpServer TcpServerSpec TcpServerTheorems TcpClient Kernel TcpPort TcpThread TcpThreadSpec TcpPortSpec TcpServerPort TcpServeSpec TcpPortTheorems ExampleServers ExampleTheorems.

(** A line of text, or a register of the map and how it can be used. *)
Inductive message :=
  | Text (s : string)
  | Mapped (name : string) (addr : Z) (access : string).

(** The process, its connections and the application, what it has printed. *)
Definition program : Type := (kernel * lines (U:=server_app)) * list message.

Definition print (o : message) : st program unit := fun '(w, out) => Ok (tt, (w, out ++ [o])).

Definition SERVER_PORT : Z := 502.
Definition SERVER_UNIT_ID : Z := 1.

(** After [memset]. *)
Definition zero_app : server_app := App (replicate 32 0) 0.

(** [mb_tcp_server_ctx_t server = {0}]. *)
Definition zero_server : mb_tcp_server server_app :=
  Server zero_transport (SrvConfig 0 0 0 0 0 0 0 0 None None None None).

Definition register_map : list message :=
  [Mapped "REG_TEMPERATURE" Tcp.REG_TEMPERATURE "R"; Mapped "REG_HUMIDITY" Tcp.REG_HUMIDITY "R";
   Mapped "REG_STATUS" Tcp.REG_STATUS "R"; Mapped "REG_UPTIME_LOW" Tcp.REG_UPTIME_LOW "R";
   Mapped "REG_UPTIME_HIGH" Tcp.REG_UPTIME_HIGH "R"; Mapped "REG_SETPOINT" Tcp.REG_SETPOINT "R/W";
   Mapped "REG_CONTROL" Tcp.REG_CONTROL "R/W"; Mapped "REG_DEVICE_ID" Tcp.REG_DEVICE_ID "R"].

Fixpoint print_all (l : list message) : st program unit :=
  match l with
  | [] => ret tt
  | o :: l => print o ;;; print_all l
  end.

Section Main.
Context {I : Indet} (time : nat -> Z).

(** What [mb_tcp_server_config_init] leaves, with the fields that [main] sets;
    [on_link] is set as well. *)
Definition server_config (cfg : mb_tcp_server_config server_app) : mb_tcp_server_config server_app :=
  SrvConfig SERVER_PORT SERVER_UNIT_ID (srv_max_clients cfg) (srv_recv_timeout_ms cfg) (srv_keepalive_idle_sec cfg)
    (srv_keepalive_interval_sec cfg) (srv_keepalive_count cfg) (srv_idle_poll_ms cfg)
    (Some (Tcp.on_read time)) (Some Tcp.on_write) (on_read_bits cfg) (on_write_bits cfg).

Definition main (rounds rounds' : list (Z * selection)) : st program Z :=
  on_fst (on_snd (on_snd (put zero_app))) ;;;
  let! rc := on_fst (on_fst mutex_init) in
  if negb (rc =? 0) then print (Text "Failed to initialise register lock") ;;; ret 1 else
  let! cfg := lift (fun_ptr (mb_tcp_server_config_init (Some (server_cfg zero_server)))) in
  let! '(rc, server) := on_fst (server_running zero_server (server_config cfg) true rounds) in
  if negb (rc =? 0) then
    print (Text "Failed to start server") ;;;
    on_fst (on_fst mutex_destroy) ;;;
    ret 1
  else
    print (Text "Modbus TCP server running") ;;;
    print (Text "Register map") ;;;
    print_all register_map ;;;
    print (Text "Shutting down") ;;;
    on_fst (mb_tcp_server_stop server rounds') ;;;
    on_fst (on_fst mutex_destroy) ;;;
    print (Text "Server stopped") ;;;
    ret 0.

(** ** Every run *)

(** What is printed, by what goes wrong. *)
Definition server_printed (rc : Z) (l : list message) : Prop :=
  (rc = 1 /\ (l = [Text "Failed to initialise register lock"] \/ l = [Text "Failed to start server"])) \/
  (rc = 0 /\ l = Text "Modbus TCP server running" :: Text "Register map" :: register_map ++
                 [Text "Shutting down"; Text "Server stopped"]).

Definition ran (k : kernel) (ws : Z -> world) (rc : Z) (p : program) : Prop :=
  account (fst (fst p)) = account k /\
  (exists sched, serialized SERVER_UNIT_ID (Tcp.device time) (ws, zero_app) (snd (fst p)) sched) /\
  server_printed rc (snd p).

Lemma wp_prints l : forall Q (s : program), Q tt (fst s, snd s ++ l) -> wp (print_all l) Q s.
Proof.
  induction l as [|o l IH]; intros Q [w out] HQ; cbn [print_all]; cbn [fst snd] in HQ.
  - rewrite app_nil_r in HQ. by apply wp_ret.
  - apply wp_bind. unfold wp at 1, print. apply IH. cbn [fst snd]. by rewrite <- app_assoc.
Qed.

Lemma wp_say o Q w out : Q tt (w, out ++ [o]) -> wp (print o) Q (w, out).
Proof. done. Qed.

Lemma server_main_wp rounds rounds' k ws u :
  sane_base k -> (forall a b c n l, answers k = a :: b :: c :: inl n :: l -> n < FD_SETSIZE) ->
  lines_ok (U:=server_app) (ws, u) ->
  wp (main rounds rounds') (ran k ws) ((k, (ws, u)), []).
Proof.
  intros Hk Hfits Hls. assert (lines_ok (ws, zero_app)) as Hls0 by exact Hls.
  apply wp_bind. unfold wp at 1. cbn [on_fst on_snd put].
  apply wp_bind, wp_on_fst, wp_on_fst, wp_acquire_next; intros a l E; cbn [Z.eqb negb].
  { apply wp_bind, wp_say, wp_ret. split; [done|]. split; [exists []; apply serialized_refl|]. left. split; [done | by left]. }
  set (k1 := add_locks 1 _). assert (sane_base k1) as Hk1 by (destruct Hk as (? & ? & ?); split; [|split]; cbn; lia).
  assert (listen_fits k1) as Hf1 by (intros b c n l' El; apply (Hfits a b c n l'); by rewrite E, <- El).
  apply wp_bind. eapply wp_lift; [done|]. change (server_config _) with (tcp_example_config time).
  apply wp_bind, wp_on_fst. eapply wp_mono.
  { by apply (server_running_wp (Tcp.device time) zero_server (tcp_example_config time) true rounds k1 (ws, zero_app)). }
  cbn beta.
  intros [rc s2] [k2 ls2] [(t & Ht & Hcfg & Hst) Hser]. cbn [fst snd] in *. subst s2.
  destruct Hst as [(-> & _ & Ha & _)|(-> & Hok)]; cbn [Z.eqb negb].
  { destruct (lock_given_back k k2) as [Hpos Hend]; [exact Ha | apply Hk |].
    apply wp_bind, wp_say, wp_bind, wp_on_fst, wp_on_fst, wp_release; [done|]. apply wp_ret.
    split; [exact Hend|]. split; [by destruct Hser|]. left. split; [done | by right]. }
  destruct t as [c cfg']. cbn [transport server_cfg] in *. subst cfg'. change (kept_config _) with (tcp_example_config time) in *.
  apply wp_bind, wp_say, wp_bind, wp_say, wp_bind, wp_prints, wp_bind. cbn [fst snd]. apply wp_say.
  apply wp_bind, wp_on_fst. eapply wp_mono.
  { by apply (tcp_stop_wp (Tcp.device time) k1 (server_cap (transport_config (tcp_example_config time) true)) true
      (tcp_example_config time) rounds' c k2 (ws, zero_app) ls2). }
  cbn beta. intros s3 [k3 ls3] (Ha & _ & _ & Hser3). cbn [fst snd] in *.
  destruct (lock_given_back k k3) as [Hpos Hend]; [exact Ha | apply Hk |].
  apply wp_bind, wp_on_fst, wp_on_fst, wp_release; [done|]. apply wp_bind, wp_say, wp_ret.
  split; [exact Hend|]. split; [by destruct Hser3|]. right. split; [done|]. cbn [fst snd app].
  by rewrite <- !app_assoc.
Qed.
End Main.

(** C32. The TCP example server as a whole program, for every behaviour of the
    system, the masters and the moments of its thread: whether the mutex, the
    start or nothing fails, no run is undefined, what is printed and returned
    says what happened, and in the end the process holds exactly what it held at
    first: the register lock is destroyed only after the thread that uses it is
    gone.  What it has answered meanwhile is one sequential run of the abstract
    server over the register bank, each master getting its own replies in
    order. *)
Theorem tcp_server_example_runs `{Indet} time rounds rounds' k ws u :
  sane_base k -> (forall a b c n l, answers k = a :: b :: c :: inl n :: l -> n < FD_SETSIZE) ->
  lines_ok (U:=server_app) (ws, u) ->
  wp (main time rounds rounds') (fun rc p => account (fst (fst p)) = account k /\
      (exists sched, serialized SERVER_UNIT_ID (Tcp.device time) (ws, zero_app) (snd (fst p)) sched) /\
      server_printed rc (snd p)) ((k, (ws, u)), []).
Proof. apply server_main_wp. Qed.

#[local] Instance junk : Indet := fun i => 5 + 11 * Z.of_nat i.

(** The two masters of [ExampleTheorems], and a mutex for the registers. *)
Definition example_kernel : kernel := set_answers (inl 0 :: answers busy_kernel) busy_kernel.

Lemma tcp_server_example_runs_witness :
  wp (main (fun _ => 70000) master_rounds [(0, Selected [])]) (fun rc p => account (fst (fst p)) = account example_kernel /\
      (exists sched, serialized SERVER_UNIT_ID (Tcp.device (fun _ => 70000)) (fst two_masters, zero_app) (snd (fst p)) sched) /\
      server_printed rc (snd p)) ((example_kernel, two_masters), []).
Proof.
  apply (tcp_server_example_runs (fun _ => 70000) master_rounds [(0, Selected [])] example_kernel (fst two_masters)).
  - split; [|split]; by vm_compute.
  - by intros a b c n l [= <- <- <- <- _].
  - apply two_masters_ok.
Defined.

(** Evaluated: one master polls the block, the other hangs up, then the stop. *)
Example two_masters_main :
  match main (fun _ => 70000) master_rounds [(0, Selected [])] ((example_kernel, two_masters), []) with
  | Ok (rc, ((k, (ws, _)), out)) => rc = 0 /\ fds k = fds busy_kernel /\ locks k = 0 /\ length out = 12%nat /\
      drop 9 (output (ws 4)) = words_be [253; 60; 1; 4464; 1]
  | Fail _ => False
  end.
Proof. vm_compute. done. Qed.
