(* ===== verification/ExampleRtuServer.v ===== *)
(** * The example server of the RTU library: [main] of [examples/rtu_server_example.c]

    Its callbacks are in [ExampleServers].  The thread of the server polls the
    port for [rounds] rounds while [main] sleeps, and the stop comes between two
    rounds or [inside] one.  What is printed goes to a list. *)

From stdpp Require Import gmap strings.
From S2P Require Import Prelude Buffer Defines Bits Pdu PduSpec Bank Ptr Rtu Crc RtuFrames Sys Keeps RtuServer RtuServerSpec RtuServerTheorems Kernel RtuPort RtuPortSpec RtuServerPort RtuPortTheorems ExampleServers.

Definition program : Type := (kernel * server_state (U:=server_app)) * list string.

Definition print (s : string) : st program unit := fun '(w, out) => Ok (tt, (w, out ++ [s])).

Definition SERIAL_DEVICE : string := "/dev/ttyUSB0".
Definition SERIAL_BAUD_RATE : Z := 9600.
Definition SERVER_UNIT_ID : Z := 1.

(** After [memset]. *)
Definition zero_app : server_app := App (replicate 32 0) 0.

Definition zero_config : mb_rtu_server_config server_app :=
  SrvConfig None 0 0 0 0 0 0 0 0 0 None None None None false.

(** [mb_rtu_server_ctx_t server = {0}]. *)
Definition zero_server : mb_rtu_server server_app :=
  Server zero_transport zero_config (SrvCtx (replicate (Z.to_nat MODBUS_RTU_MAX_ADU_LENGTH) 0) 0 0 0).

(** What [mb_rtu_server_config_init] leaves, with the fields that [main] sets. *)
Definition server_config (cfg : mb_rtu_server_config server_app) : mb_rtu_server_config server_app :=
  SrvConfig (Some SERIAL_DEVICE) SERIAL_BAUD_RATE (srv_data_bits cfg) (srv_stop_bits cfg) (srv_parity cfg)
    SERVER_UNIT_ID (srv_recv_timeout_ms cfg) (srv_inter_frame_delay_us cfg) (srv_rs485_mode cfg) (srv_local_echo cfg)
    (Some Rtu.on_read) (Some Rtu.on_write) (on_read_bits cfg) (on_write_bits cfg) (on_tx_enable cfg).

Definition rtu_example_config : mb_rtu_server_config server_app :=
  server_config (SrvConfig None 9600 8 1 MB_RTU_PARITY_NONE 0 MB_RTU_SERVER_DEFAULT_RECV_TIMEOUT_MS 0
    MB_RTU_RS485_NONE 0 None None None None false).

#[export] Instance rtu_example_implements : Implements (handlers rtu_example_config) Rtu.device.
Proof. apply Rtu.implements. Qed.

Section Main.
Context {I : Indet}.

Definition main (rounds : nat) (inside : bool) : st program Z :=
  on_fst (on_snd (on_snd (put zero_app))) ;;;
  let! rc := on_fst (on_fst mutex_init) in
  if negb (rc =? 0) then ret 1 else
  let! cfg := lift (fun_ptr (mb_rtu_server_config_init (Some zero_config))) in
  let! '(rc, server) := on_fst (on_fst (mb_rtu_server_start (Some zero_server) (Some (server_config cfg)) false)) in
  if negb (rc =? 0) then
    print "Failed to start RTU server" ;;;
    on_fst (on_fst mutex_destroy) ;;;
    ret 1
  else
    print "Modbus RTU server running" ;;;
    let! s := lift (fun_ptr server) in
    on_fst (fresh_buffer s) ;;;
    let! _ := on_fst (polled s rounds inside) in
    on_fst (on_fst mutex_destroy) ;;;
    ret 0.

(** ** Every run *)

Definition server_printed (rc : Z) (l : list string) : Prop :=
  (rc = 1 /\ (l = [] \/ l = ["Failed to start RTU server"%string])) \/
  (rc = 0 /\ l = ["Modbus RTU server running"%string]).

Lemma wp_tell o Q w out : Q tt (w, out ++ [o]) -> wp (print o) Q (w, out).
Proof. done. Qed.

Lemma rtu_server_main_wp rounds inside k c0 w u :
  sane_kernel k -> rx_bytes (rx w) ->
  wp (main rounds inside) (fun rc p => account (fst (fst p)) = account k /\ server_printed rc (snd p)) ((k, ((c0, w), u)), []).
Proof.
  intros Hk Hb. apply wp_bind. unfold wp at 1. cbn [on_fst on_snd put].
  apply wp_bind, wp_on_fst, wp_on_fst, wp_acquire; intros l; cbn [Z.eqb negb].
  { apply wp_ret. split; [done|]. left. split; [done | by left]. }
  set (k1 := add_locks 1 _). assert (sane_kernel k1) as Hk1 by (destruct Hk as (? & ? & ?); split; [|split]; cbn; lia).
  apply wp_bind. eapply wp_lift; [done|]. change (server_config _) with rtu_example_config.
  apply wp_bind, wp_on_fst, wp_on_fst. eapply wp_mono.
  { by apply (server_start_wp zero_server rtu_example_config false k1). }
  cbn beta. intros [rc s2] k2 (t & Ht & Hcfg & Hrx & Hup). cbn [fst snd] in *. subst s2.
  destruct Hup as [(-> & _ & _ & Ha)|(-> & Hrun & _ & _)]; cbn [Z.eqb negb].
  { destruct (lock_given_back k k2) as [Hpos Hend]; [exact Ha | apply Hk |].
    apply wp_bind, wp_tell, wp_bind, wp_on_fst, wp_on_fst, wp_release; [done|]. apply wp_ret.
    split; [exact Hend|]. left. split; [done | by right]. }
  apply wp_bind, wp_tell, wp_bind. eapply wp_lift; [done|]. apply wp_bind, wp_on_fst, wp_on_snd. unfold wp at 1.
  assert (Implements (handlers (server_cfg t)) Rtu.device) as Hserved by (rewrite Hcfg; apply rtu_example_implements).
  assert (is_u32 (effective_timeout_ms (server_cfg t))) as Htime by (rewrite Hcfg; by vm_compute).
  assert (port_ready (server_cfg t) ((server_rx t, w), zero_app)) as Hready by (rewrite Hcfg, Hrx; by apply fresh_ready).
  apply wp_bind, wp_on_fst. eapply wp_mono; [exact (polled_wp Rtu.device t rounds inside k1 k2 _ Hk1 Hrun Htime Hready)|].
  cbn beta. intros s4 [k4 st4] (Ha & _ & _). cbn [fst] in Ha. destruct (lock_given_back k k4) as [Hpos Hend]; [exact Ha | apply Hk |].
  apply wp_bind, wp_on_fst, wp_on_fst, wp_release; [done|]. apply wp_ret. split; [exact Hend|]. by right.
Qed.
End Main.

(** The RTU example server as a whole program, for every behaviour of the
    system, the line, the clock and the moments of its thread: whether the mutex,
    the start or nothing fails, no run is undefined, what is printed and returned
    says what happened, and in the end the process holds exactly what it held at
    first: the port is closed and the register lock destroyed after the thread
    that uses it is gone. *)
Theorem rtu_server_example_runs `{Indet} rounds inside k c0 w u :
  sane_kernel k -> rx_bytes (rx w) ->
  wp (main rounds inside) (fun rc p => account (fst (fst p)) = account k /\ server_printed rc (snd p)) ((k, ((c0, w), u)), []).
Proof. apply rtu_server_main_wp. Qed.

#[local] Instance junk : Indet := fun i => 5 + 11 * Z.of_nat i.

Definition example_kernel : kernel := set_answers (inl 0 :: answers calm_kernel) calm_kernel.

(** A master reads the two registers. *)
Definition example_master : world :=
  sample_world [RxData (adu 1 [3; 0; 0; 0; 2]); RxErr EAGAIN; RxErr EAGAIN].

Lemma rtu_server_example_runs_witness :
  wp (main 1 true) (fun rc p => account (fst (fst p)) = account example_kernel /\ server_printed rc (snd p))
    ((example_kernel, ((holding [] 0, example_master), zero_app)), []).
Proof.
  apply (rtu_server_example_runs 1 true example_kernel).
  - split; [|split]; by vm_compute.
  - repeat (apply List.Forall_cons; [first [exact I | apply (bool_decide_unpack _); by vm_compute]|]). apply List.Forall_nil.
Defined.

Example rtu_example_main :
  match main 1 true ((example_kernel, ((holding [] 0, example_master), zero_app)), []) with
  | Ok (rc, ((k, ((_, w), _)), out)) => rc = 0 /\ fds k = fds calm_kernel /\ locks k = 0 /\
      output w = adu 1 [3; 4; 0; 253; 0; 1] /\ out = ["Modbus RTU server running"%string]
  | Fail _ => False
  end.
Proof. vm_compute. done. Qed.
