(* ===== verification/ExampleRtuClient.v ===== *)
(** * The example client of the RTU library: [examples/rtu_client_example.c]

    The whole program, [main] included.  Its state is the registry of buses
    with the process as the kernel sees it, the serial line, the client context,
    what it has printed, and what the reads of [g_running] will give.  A
    temperature is printed as tenths of a degree; the log sink is in [Log] and
    the lines of a transaction in [RtuClientLog].  [realpath] is not part of the program: its result is an
    argument. *)

From stdpp Require Import gmap strings.
From S2P Require Import Prelude Buffer Defines Bits Pdu PduSpec Ptr Rtu Sys RtuClient Kernel RtuPort RtuBus.

Inductive message :=
  | Text (s : string)
  | Temperature (tenths : Z)
  | Failure (what err : string) (rc : Z).

Definition SERIAL_DEVICE : string := "/dev/ttyUSB0".
Definition SERIAL_BAUD_RATE : Z := 9600.
Definition SERVER_UNIT_ID : Z := 1.
Definition RESPONSE_TIMEOUT_MS : Z := 1000.
Definition REG_TEMPERATURE : Z := 0x00.
Definition REG_SETPOINT : Z := 0x0A.

Definition client_err_str (rc : Z) : string :=
  if rc =? MB_RTU_CLIENT_OK then "OK"
  else if rc =? MB_RTU_CLIENT_ERR_ARG then "ERR_ARG"
  else if rc =? MB_RTU_CLIENT_ERR_NOT_CONNECTED then "ERR_NOT_CONNECTED"
  else if rc =? MB_RTU_CLIENT_ERR_TRANSPORT then "ERR_TRANSPORT"
  else if rc =? MB_RTU_CLIENT_ERR_TIMEOUT then "ERR_TIMEOUT"
  else if rc =? MB_RTU_CLIENT_ERR_FRAME then "ERR_FRAME"
  else if rc =? MB_RTU_CLIENT_ERR_UNIT_ID then "ERR_UNIT_ID"
  else if rc =? MB_RTU_CLIENT_ERR_CRC then "ERR_CRC"
  else if 0 <? rc then "MODBUS_EXCEPTION" else "UNKNOWN".

Record program := Program {
  reg : registry;
  line : world;
  client : mb_rtu_client_ctx;
  printed : list message;
  g_running : list bool;
}.

Definition set_reg (r : registry) (p : program) : program := Program r (line p) (client p) (printed p) (g_running p).
Definition set_line (w : world) (p : program) : program := Program (reg p) w (client p) (printed p) (g_running p).
Definition set_client (c : mb_rtu_client_ctx) (p : program) : program :=
  Program (reg p) (line p) c (printed p) (g_running p).

Definition on_reg {A} (m : st registry A) : st program A := fun p =>
  match m (reg p) with
  | Ok (a, r) => Ok (a, set_reg r p)
  | Fail e => Fail e
  end.

Definition print (o : message) : st program unit := fun p =>
  Ok (tt, Program (reg p) (line p) (client p) (printed p ++ [o]) (g_running p)).

Definition read_running : st program bool := fun p =>
  match g_running p with
  | [] => Fail Blocked
  | b :: l => Ok (b, Program (reg p) (line p) (client p) (printed p) l)
  end.

(** A call on [&client]: it works on the bus record the context points to. *)
Definition on_client {A} (m : option mb_rtu_client_ctx -> st (world * option mb_rtu_shared_bus) A) : st program A :=
  let! p := get in
  match shared_bus (client p) with
  | None =>
      let! '(a, (w, _)) := lift (m (Some (client p)) (line p, None)) in
      put (set_line w p) ;;; ret a
  | Some q =>
      let! '(b, next) := on_reg (deref q) in
      let! '(a, (w, bus)) := lift (m (Some (client p)) (line p, Some b)) in
      put (set_line w p) ;;;
      on_reg (assign q (default b bus, next)) ;;;
      ret a
  end.

Section Program.
Context {I : Indet}.

Definition config : mb_rtu_client_config :=
  CliConfig (Some SERIAL_DEVICE) SERIAL_BAUD_RATE 8 1 MB_RTU_PARITY_NONE SERVER_UNIT_ID RESPONSE_TIMEOUT_MS
    0 0 0 0 false.

(** One round of the loop. *)
Definition poll_once : st program unit :=
  let! '(rc, temperature) := on_client (fun c => mb_rtu_client_read_holding_registers c REG_TEMPERATURE 1 (Some [0])) in
  if rc =? MB_RTU_CLIENT_OK then
    let! temperature := lift (fun_ptr temperature) in
    let! temperature_raw := lift (load temperature 0) in
    print (Temperature temperature_raw)
  else print (Failure "Read" (client_err_str rc) rc).

(** Every round reads [g_running]. *)
Fixpoint poll_loop (fuel : nat) : st program unit :=
  match fuel with
  | O => stop NoFuel
  | S fuel' =>
      let! running := read_running in
      if running then poll_once ;;; on_reg (on_os (emit Paused)) ;;; poll_loop fuel' else ret tt
  end.

Definition disconnect : st program unit :=
  let! p := get in
  let! c := on_reg (mb_rtu_client_disconnect (Some (client p))) in
  (fun p => Ok (tt, set_client (default zero_cli_ctx c) p)).

Definition main (realpath : option string) : st program Z :=
  let! '(rc, c) := on_reg (mb_rtu_client_connect (Some zero_cli_ctx) (Some config) realpath) in
  (fun p => Ok (tt, set_client (default zero_cli_ctx c) p)) ;;;
  if negb (rc =? 0) then print (Text "Failed to open RTU device") ;;; ret 1 else
  let! probe_rc := on_client (fun c => mb_rtu_client_probe_device c REG_TEMPERATURE 1) in
  if negb (probe_rc =? MB_RTU_CLIENT_OK) then
    print (Failure "Device not responding" (client_err_str probe_rc) probe_rc) ;;;
    disconnect ;;;
    ret 1
  else
    let setpoint := 300 in
    let! rc := on_client (fun c => mb_rtu_client_write_single_register c REG_SETPOINT setpoint) in
    (if negb (rc =? MB_RTU_CLIENT_OK) then print (Failure "Write setpoint" (client_err_str rc) rc) else ret tt) ;;;
    (fun p => poll_loop (S (length (g_running p))) p) ;;;
    disconnect ;;;
    ret 0.
End Program.
