(* ===== verification/ExampleRtuClientSpec.v ===== *)
(** * The RTU example client, whatever the line does

    [session base q p]: the program is connected, and the record at [q] is the
    only bus there is.  Every call keeps it and puts at most its own request on
    the line. *)

From stdpp Require Import gmap strings.
From S2P Require Import Prelude Buffer Defines Bits Pdu PduSpec PduClient PduReplies Ptr Rtu Crc RtuFrames Sys Keeps RtuClient RtuClientSpec RtuClientTransact RtuClientCalls RtuClientAnswers Kernel RtuPort RtuPortSpec RtuServerPort RtuBus RtuBusSpec RtuBusSystem RtuBusTheorems ExampleRtuClient.

(** ** The bytes of the line stay bytes *)

Section Kept.
Context {I : Indet}.

Lemma keeps_clock_now : keeps byte_line clock_now.
Proof. unfold clock_now. keep. Qed.

Lemma keeps_monotonic : keeps byte_line monotonic_us.
Proof. pose proof keeps_clock_now. unfold monotonic_us. keep. Qed.

#[local] Hint Resolve keeps_clock_now keeps_monotonic : keeps.

Lemma keeps_bus_silence b u i h : keeps byte_line (wait_bus_silence b u i h).
Proof. unfold wait_bus_silence, sleep_us. keep. Qed.

Lemma keeps_wait_readable dl : keeps byte_line (wait_readable dl).
Proof.
  assert (forall fuel, keeps byte_line (wait_readable_loop fuel dl)) as Hloop
    by (induction fuel; cbn [wait_readable_loop]; keep).
  intros w. apply Hloop.
Qed.

#[local] Hint Resolve keeps_bus_silence keeps_wait_readable : keeps.

Lemma keeps_read_exact len dl : keeps buf_bytes (read_exact_timeout len dl).
Proof.
  assert (forall fuel received, keeps buf_bytes (read_exact_loop fuel received len dl)) as Hloop.
  { induction fuel; intros; cbn [read_exact_loop]; [keep|]. destruct (received <? len); [|keep].
    apply keeps_bind; [apply (keeps_on_snd byte_line); auto with keeps|]. intros ready. destruct (negb _); [keep|].
    apply keeps_bind; [apply (keeps_on_snd byte_line); auto with keeps|]. keep. }
  intros s. apply Hloop.
Qed.

Lemma keeps_deadline c b : keeps byte_line (response_deadline_us c b).
Proof. unfold response_deadline_us. keep. Qed.

#[local] Hint Resolve keeps_read_exact keeps_deadline : keeps.

Lemma keeps_recv_response c b u fc : keeps buf_bytes (recv_response c b u fc).
Proof.
  unfold recv_response, response_length. apply keeps_bind; [apply (keeps_on_snd byte_line); auto with keeps|]. keep.
Qed.

#[local] Hint Resolve keeps_recv_response : keeps.

Lemma keeps_write_out buf len : keeps byte_line (write_all buf len).
Proof.
  assert (forall fuel sent, keeps byte_line (write_all_loop fuel buf len sent)) as Hloop
    by (induction fuel; intros; cbn [write_all_loop]; keep).
  intros w a w' Hb. unfold write_all. destruct (len <=? zlen buf); [|done]. intros Hrun.
  refine ((_ : keeps byte_line (bind _ _)) w a w' Hb Hrun). keep.
Qed.

#[local] Hint Resolve keeps_write_out : keeps.

Lemma keeps_client_send c buf len : keeps byte_line (send_frame c buf len).
Proof. unfold send_frame, tx_enable. keep. Qed.

#[local] Hint Resolve keeps_client_send : keeps.

Lemma keeps_mark u b : keeps byte_line (mark_bus_transaction_done u b).
Proof. unfold mark_bus_transaction_done. keep. Qed.

#[local] Hint Resolve keeps_mark : keeps.

Lemma keeps_bus_transaction c fc pdu req n resp : keeps conn_bytes (bus_transaction c fc pdu req n resp).
Proof.
  unfold bus_transaction, bus_transaction_begin, bus_transaction_end, check_echo, conclude. keep.
Qed.

#[local] Hint Resolve keeps_bus_transaction : keeps.

Lemma keeps_on_bus {A} (m : st (world * mb_rtu_shared_bus) A) : keeps conn_bytes m -> keeps conn_bytes (on_bus m).
Proof.
  intros Hm [w [b|]] a [w' b'] Hb; [|done]. unfold on_bus. destruct (m (w, b)) as [[a1 [w1 b1]]|] eqn:E; [|done].
  intros [= _ <- _]. by apply (Hm (w, b) a1 (w1, b1)).
Qed.

#[local] Hint Resolve keeps_on_bus : keeps.

Lemma keeps_transact c pdu n resp : keeps conn_bytes (transact c pdu n resp).
Proof. unfold transact. keep. Qed.

#[local] Hint Resolve keeps_transact : keeps.

Lemma keeps_client_call ctx r out : keeps conn_bytes (call ctx r out).
Proof.
  destruct r; unfold call, mb_rtu_client_read_coils, mb_rtu_client_read_discrete_inputs, mb_rtu_client_read_holding_registers,
    mb_rtu_client_read_input_registers, mb_rtu_client_write_single_coil, mb_rtu_client_write_single_register,
    mb_rtu_client_write_multiple_coils, mb_rtu_client_write_multiple_registers, read_bits, read_registers, transact_write, on_ctx; keep.
Qed.
End Kept.

(** ** What a call puts on the line *)

Section Wire.
Context {I : Indet}.

Lemma pause_sends_nothing c b clk acts clk' : pause c b clk = Some (acts, clk') -> Forall (fun a => sent_bytes a = []) acts.
Proof.
  unfold pause. destruct (_ =? 0); [intros [= <- _]; apply List.Forall_nil|]. destruct clk; [done|]. intros [= <- _].
  case_match; [by apply List.Forall_cons | by apply List.Forall_nil].
Qed.

Lemma hook_silent c on : concat (map sent_bytes (hook c on)) = [].
Proof. unfold hook. by destruct (cli_on_tx_enable _). Qed.

Lemma progress_output c w acts part w' :
  progress c w acts part w' -> Forall (fun a => sent_bytes a = []) acts -> output w' = output w ++ part.
Proof.
  intros [(tr & Htr & _ & <-) _] Hacts%silent_output. unfold output. rewrite Htr.
  repeat first [rewrite map_app, concat_app | progress cbn [map concat sent_bytes app]].
  by rewrite Hacts, !hook_silent, app_nil_r.
Qed.

Lemma call_wire r c w b rc resp w' bus' :
  call_result r c w b rc resp w' bus' ->
  (exists part, output w' = output w ++ part /\ part `prefix_of` request_frame c r) /\
  exists used, clock w = used ++ clock w'.
Proof.
  assert ((exists part, output w = output w ++ part /\ part `prefix_of` request_frame c r) /\
    exists used, clock w = used ++ clock w) as Hsame.
  { split; [exists []; rewrite app_nil_r; split; [done | apply prefix_nil] | by exists []]. }
  unfold call_result. destruct (_ =? 0); [by intros (_ & -> & _)|].
  destruct (_ && _); [by intros (_ & -> & _)|]. intros (b' & _ & Ht).
  inversion Ht as [e ? acts clk part w1 t clk' ? Hp%pause_sends_nothing Hpr Hpart _ _ Hclk ->]; subst. split.
  - exists part. split; [|done]. by apply (progress_output c w acts part w1).
  - destruct Hpr as [_ [used Hu]]. exists (used ++ [t]). cbn. by rewrite Hu, Hclk, <- app_assoc.
Qed.
End Wire.

(** ** The logic of programs *)

Lemma wp_on_reg {A} (m : st registry A) Q p : wp m (fun a r => Q a (set_reg r p)) (reg p) -> wp (on_reg m) Q p.
Proof. unfold wp, on_reg. by destruct (m (reg p)) as [[a r]|]. Qed.

(** A call whose result is looked at through [f]. *)
Lemma wp_on_client_map {A B} (m : option mb_rtu_client_ctx -> st (world * option mb_rtu_shared_bus) A) (f : A -> B) Q p :
  wp (on_client (fun c => let! a := m c in ret (f a))) Q p <-> wp (on_client m) (fun a p' => Q (f a) p') p.
Proof.
  unfold wp, on_client, bind, get, lift, ret, put. destruct (shared_bus _) as [q|].
  - destruct (on_reg _ _) as [[[b n] p1]|]; [|done]. destruct (m _ _) as [[a [w bus]]|]; [|done].
    by destruct (on_reg (assign _ _) _) as [[[] p2]|].
  - by destruct (m _ _) as [[a [w bus]]|].
Qed.

Lemma on_client_ext {A} (m1 m2 : option mb_rtu_client_ctx -> st (world * option mb_rtu_shared_bus) A) p :
  (forall c s, m1 c s = m2 c s) -> on_client m1 p = on_client m2 p.
Proof.
  intros Hm. unfold on_client, bind, get, lift. destruct (shared_bus _) as [q|]; [|by rewrite Hm].
  destruct (on_reg _ _) as [[[b n] p1]|]; [|done]. by rewrite Hm.
Qed.

(** A write has no array. *)
Lemma wp_client_write `{Indet} (m : option mb_rtu_client_ctx -> st (world * option mb_rtu_shared_bus) Z) r Q p :
  (forall c, call c r (Some []) = (let! rc := m c in ret (rc, Some []))) ->
  wp (on_client (fun c => call c r (Some []))) (fun x => Q (fst x)) p -> wp (on_client m) Q p.
Proof.
  intros Hm. unfold wp at 1. rewrite (on_client_ext _ (fun c => let! rc := m c in ret (rc, Some []))) by (intros c s; by rewrite Hm).
  apply (wp_on_client_map m (fun rc : Z => (rc, Some ([] : list Z))) (fun x => Q (fst x))).
Qed.

(** A probe is a read whose values are thrown away. *)
Lemma wp_probe `{Indet} addr qty Q p :
  1 <= qty <= MODBUS_MAX_READ_REGISTERS ->
  wp (on_client (fun c => call c (ReadRegisters 3 addr qty) (Some (auto_u16 MODBUS_MAX_READ_REGISTERS)))) (fun x => Q (fst x)) p ->
  wp (on_client (fun c => mb_rtu_client_probe_device c addr qty)) Q p.
Proof.
  intros Hq Hw%(wp_on_client_map _ fst Q). revert Hw. unfold wp. erewrite on_client_ext; [done|].
  intros c s. unfold mb_rtu_client_probe_device, call. rewrite (proj2 (Z.eqb_neq qty 0)), (proj2 (Z.ltb_ge _ _)) by lia.
  cbn [orb]. unfold bind. change (3 =? MODBUS_FUNC_READ_HOLDING_REGISTERS) with true. cbn iota.
  by destruct (mb_rtu_client_read_holding_registers _ _ _ _ s) as [[[rc out] s']|].
Qed.

Section Program.
Context {I : Indet}.

Record session (base : kernel) (q : Z) (p : program) : Prop := Session {
  session_connected : connected (client p) = true;
  session_config : cli_cfg (client p) = config;
  session_bus : shared_bus (client p) = Some q;
  session_registry : registry_ok base 1 (reg p);
  session_record : exists b, buses (reg p) = {[q := b]} /\ refcnt b = 1;
  session_clock : sane_clock (clock (line p));
  session_bytes : rx_bytes (rx (line p));
}.

Lemma config_ok c : cli_cfg c = config -> client_ok c.
Proof. intros Hc. unfold client_ok. rewrite Hc. split; by vm_compute. Qed.

(** What the program asks for, and the setpoint it writes. *)
Definition polling : request := ReadRegisters 3 REG_TEMPERATURE 1.
Definition setting : request := WriteRegister REG_SETPOINT 300.

(** The line, and the bus record of the client. *)
Definition bus_of (p : program) : mb_rtu_shared_bus := default zero_bus (shared_bus (client p) ≫= (buses (reg p) !!.)).
Definition here (p : program) : world * mb_rtu_shared_bus := (line p, bus_of p).

(** One call of the client [c]. *)
Definition exchange (c : mb_rtu_client_ctx) (r : request) (s : world * mb_rtu_shared_bus) (rc : Z) (resp : list Z)
    (s' : world * mb_rtu_shared_bus) : Prop :=
  call_result r c (fst s) (snd s) rc resp (fst s') (Some (snd s')).

(** The request on the wire. *)
Definition request_wire (r : request) : list Z := adu SERVER_UNIT_ID (encode_request r).

(** What a call leaves alone, and what it sends. *)
Definition called (r : request) (p p' : program) : Prop :=
  printed p' = printed p /\ g_running p' = g_running p /\
  exists part, output (line p') = output (line p) ++ part /\ part `prefix_of` request_wire r.

Lemma rtu_on_client_wp base q r out p :
  sendable r -> room r out -> session base q p ->
  wp (on_client (fun c => call c r (Some out))) (fun '(rc, out') p' => session base q p' /\ called r p p' /\
    client p' = client p /\ exists resp, exchange (client p) r (here p) rc resp (here p') /\
      out' = Some (if rc =? 0 then stored r (drop 1 resp) out else out) /\
      (rc = 0 -> is_read r = true -> exists reply more, drop 1 resp = reply ++ more /\ normal_reply r reply = true)) p.
Proof.
  intros Hr Hout Hs. pose proof Hs as [Hcon Hcfg Hq Hreg (b & Hb & Hrc) Hclk Hrx]. pose proof (config_ok _ Hcfg) as Hc.
  assert (buses (reg p) !! q = Some b) as Hlook by (rewrite Hb; apply lookup_singleton_eq).
  destruct (buses_inv _ _ _ Hlook) as [n Hn]. pose proof (ok_buses _ _ _ Hreg q b Hlook) as Hgood. pose proof Hgood as [Hbok Hgood'].
  unfold on_client. apply wp_bind, wp_get. rewrite Hq. apply wp_bind, wp_on_reg, (wp_deref q b n); [done|]. apply wp_bind.
  pose proof (rtu_call_run (client p) r out (line p) b Hr Hout Hc Hbok Hclk Hrx) as Hrun.
  pose proof (call_keeps (client p) r out (line p) b Hr Hout Hc Hbok Hclk Hrx) as Hkeep.
  pose proof (keeps_client_call (Some (client p)) r (Some out) (line p, Some b)) as Hbytes.
  unfold wp at 1. unfold wp, lift in Hkeep. unfold lift.
  destruct (call _ _ _ _) as [[[rc out'] [w' bus]]|]; [|done]. destruct Hkeep as (b' & -> & Hok' & Hpath & Hfd & Hrc').
  destruct Hrun as (resp & Hres & ->). destruct (call_wire _ _ _ _ _ _ _ _ Hres) as [(part & Hpart & Hpre) [used Hused]].
  apply wp_bind, wp_put, wp_bind, wp_on_reg, (wp_assign q _ (b, n)); [done|]. apply wp_ret. cbn [default from_option id].
  assert (bus_of p = b) as Hbus by (unfold bus_of; rewrite Hq; cbn; by rewrite Hlook).
  split; [|split; [|split; [done|]; exists resp; split; [|split; [done|]]]].
  - constructor; cbn [client reg line set_reg set_line]; try done.
    + apply (registry_update base 1 _ q b); try done. split; [done|]. rewrite Hpath, Hfd, Hrc'. exact Hgood'.
    + exists b'. split; [|by rewrite Hrc']. unfold buses. cbn [heap set_heap]. rewrite fmap_insert. fold (buses (reg p)).
      rewrite Hb. apply insert_singleton_eq.
    + unfold sane_clock in *. rewrite Hused in Hclk. by apply Forall_app in Hclk as [_ Hclk].
    + by apply (Hbytes (rc, Some (if rc =? 0 then stored r (drop 1 resp) out else out)) (w', Some b')).
  - split; [done|]. split; [done|]. exists part. split; [done|]. unfold request_frame in Hpre. by rewrite Hcfg in Hpre.
  - unfold exchange, here. rewrite Hbus. cbn [fst snd]. replace (bus_of _) with b'; [exact Hres|].
    unfold bus_of, buses. cbn. rewrite Hq. cbn. by rewrite fmap_insert, lookup_insert_eq.
  - intros -> Hread. by apply (rtu_call_result_ok r (client p) (line p) b resp w' (Some b')).
Qed.

(** What [main] prints of a poll: the register, or the code. *)
Definition failure_of (what : string) (rc : Z) : message := Failure what (client_err_str rc) rc.
Definition poll_message (rc : Z) (resp : list Z) : message :=
  if rc =? 0 then Temperature (stored polling (drop 1 resp) [0] !!! 0%nat) else failure_of "Read" rc.

(** Polls, one after the other, and the lines they give. *)
Inductive polled_lines (c : mb_rtu_client_ctx) : world * mb_rtu_shared_bus -> list message -> world * mb_rtu_shared_bus -> Prop :=
  | polled_none s : polled_lines c s [] s
  | polled_once s rc resp s1 l s2 : exchange c polling s rc resp s1 -> polled_lines c s1 l s2 ->
      polled_lines c s (poll_message rc resp :: l) s2.

Lemma session_print base q p o :
  session base q p -> session base q (Program (reg p) (line p) (client p) (printed p ++ [o]) (g_running p)).
Proof. intros [? ? ? ? ? ? ?]. by constructor. Qed.

Lemma session_running base q p l :
  session base q p -> session base q (Program (reg p) (line p) (client p) (printed p) l).
Proof. intros [? ? ? ? ? ? ?]. by constructor. Qed.

Lemma temperature_sendable : sendable (ReadRegisters 3 0 1).
Proof. split; [by left|]. split; [done|]. by unfold_defs. Qed.

Lemma poll_once_wp base q p :
  session base q p -> wp poll_once (fun _ p' => session base q p' /\ g_running p' = g_running p /\ client p' = client p /\
    exists rc resp, exchange (client p) polling (here p) rc resp (here p') /\ printed p' = printed p ++ [poll_message rc resp]) p.
Proof.
  intros Hs. unfold poll_once. apply wp_bind.
  change (on_client _) with (on_client (fun c => call c polling (Some [0]))).
  eapply wp_mono; [apply (rtu_on_client_wp base q polling [0]); [apply temperature_sendable | by vm_compute | exact Hs]|].
  cbn beta. intros [rc out] p1 (Hs1 & (Hpr & Hrun & _) & Hc & resp & Hex & -> & Hok). unfold MB_RTU_CLIENT_OK.
  destruct (Z.eqb_spec rc 0) as [->|Hrc].
  - destruct (Hok eq_refl eq_refl) as (reply & more & Hresp & Hn).
    pose proof (stored_registers_length 3 0 1 reply more [0] temperature_sendable Hn ltac:(by vm_compute)) as Hl.
    rewrite <- Hresp in Hl. change (ReadRegisters 3 0 1) with polling in Hl.
    apply wp_bind. eapply wp_lift; [done|]. apply wp_bind. eapply wp_lift; [by apply load_lookup_total; rewrite Hl|].
    split; [by apply session_print|]. do 2 (split; [done|]). exists 0, resp. split; [exact Hex|]. cbn. by rewrite Hpr.
  - split; [by apply session_print|]. do 2 (split; [done|]). exists rc, resp. split; [exact Hex|]. unfold poll_message. cbn.
    rewrite Hpr. by rewrite (proj2 (Z.eqb_neq rc 0)).
Qed.

Lemma temperature_loop_wp base q fuel p :
  session base q p -> (length (g_running p) < fuel)%nat ->
  wp (poll_loop fuel) (fun _ p' => session base q p' /\
    exists polls rest, g_running p = replicate (length polls) true ++ false :: rest /\
      printed p' = printed p ++ polls /\ polled_lines (client p) (here p) polls (here p')) p.
Proof.
  revert p. induction fuel as [|fuel IH]; intros p Hp Hf; [lia|]. cbn [poll_loop]. apply wp_bind.
  unfold wp at 1, read_running. destruct (g_running p) as [|[] l] eqn:Hg; [done|..].
  2:{ apply wp_ret. split; [by apply session_running|]. exists [], l. cbn. rewrite app_nil_r. by split_and!; [..|apply polled_none]. }
  set (p1 := Program _ _ _ _ _). apply wp_bind. eapply wp_mono; [by apply (poll_once_wp base q p1), session_running|]. cbn beta.
  intros _ p2 (Hp2 & Hr2 & Hc2 & rc & resp & Hex & Ho). apply wp_bind, wp_on_reg, wp_os, wp_emit.
  set (p3 := set_reg _ p2). simpl in Hf.
  assert (session base q p3) as Hp3.
  { destruct Hp2 as [? ? ? [? ? ? ?] ? ? ?]. constructor; try done. }
  eapply wp_mono; [apply IH; [done | change (g_running p3) with (g_running p2); rewrite Hr2; cbn; lia]|]. cbn beta.
  intros _ p4 (Hp4 & polls & rest & Hg4 & Hpr & Hall). split; [done|]. exists (poll_message rc resp :: polls), rest.
  change (g_running p3) with (g_running p2) in Hg4. rewrite Hr2 in Hg4. cbn in Hg4. rewrite Hg4. split; [done|].
  change (printed p3) with (printed p2) in Hpr. change (client p3) with (client p2) in Hall. change (here p3) with (here p2) in Hall.
  split; [by rewrite Hpr, Ho, <- app_assoc|]. rewrite Hc2 in Hall. by eapply polled_once.
Qed.

(** Nothing is left of the registry. *)
Definition released (base : kernel) (p : program) : Prop :=
  connected (client p) = false /\ heap (reg p) = ∅ /\ shared_buses (reg p) = None /\ account (os (reg p)) = account base.

Lemma disconnect_once base q p :
  sane_kernel base -> session base q p ->
  wp disconnect (fun _ p' => released base p' /\ printed p' = printed p /\ line p' = line p) p.
Proof.
  intros Hbase [Hcon Hcfg Hq Hreg (b & Hb & Hrc) Hclk Hrx]. unfold disconnect. apply wp_bind, wp_get, wp_bind, wp_on_reg.
  eapply wp_mono; [apply (disconnect_wp base 0 (client p) q b); [done|lia|done..|rewrite Hb; apply lookup_singleton_eq]|].
  cbn beta. intros c r [-> [Hr Hbs]]. rewrite Hrc, Hb in Hbs. cbn [Z.eqb Pos.eqb] in Hbs. rewrite delete_singleton_eq in Hbs.
  split; [split; [done|]|done]. by apply registry_idle.
Qed.

Lemma polling_wp base q p :
  sane_kernel base -> session base q p ->
  wp ((fun p => poll_loop (S (length (g_running p))) p) ;;; disconnect ;;; ret 0) (fun rc p' => released base p' /\ rc = 0 /\
    exists polls rest s, g_running p = replicate (length polls) true ++ false :: rest /\
      printed p' = printed p ++ polls /\ polled_lines (client p) (here p) polls s /\ line p' = fst s) p.
Proof.
  intros Hbase Hs. apply wp_bind. pose proof (temperature_loop_wp base q (S (length (g_running p))) p Hs ltac:(lia)) as Hw.
  unfold wp at 1. unfold wp in Hw. destruct (poll_loop _ p) as [[[] p1]|]; [|done].
  destruct Hw as (Hs1 & polls & rest & Hg & Hpr & Hall). apply wp_bind. eapply wp_mono; [by eapply disconnect_once|].
  cbn beta. intros _ p2 (Hrel & Hpr2 & Hl2). apply wp_ret. split; [done|]. split; [done|]. exists polls, rest, (here p1).
  by rewrite Hpr2, Hl2.
Qed.

(** The program with the connected client [c], whose bus is [b0]: the probe; if
    it fails, nothing else; if it succeeds, the setpoint, and one poll for every
    time [g_running] is found set. *)
Definition talked (c : mb_rtu_client_ctx) (b0 : mb_rtu_shared_bus) (p : program) (rc : Z) (p' : program) : Prop :=
  exists probe_rc resp s1, exchange c polling (line p, b0) probe_rc resp s1 /\
  if probe_rc =? 0 then
    exists set_rc resp2 s2 polls rest s3, exchange c setting s1 set_rc resp2 s2 /\
      g_running p = replicate (length polls) true ++ false :: rest /\ polled_lines c s2 polls s3 /\
      rc = 0 /\ line p' = fst s3 /\
      printed p' = printed p ++ (if set_rc =? 0 then [] else [failure_of "Write setpoint" set_rc]) ++ polls
  else
    rc = 1 /\ line p' = fst s1 /\ printed p' = printed p ++ [failure_of "Device not responding" probe_rc] /\
    exists part, output (line p') = output (line p) ++ part /\ part `prefix_of` request_wire polling.

(** How [main] ends: by what the connect returns. *)
Definition ended (realpath : option string) (p : program) (rc : Z) (p' : program) : Prop :=
  exists opened c r, mb_rtu_client_connect (Some zero_cli_ctx) (Some config) realpath (reg p) = Ok ((opened, Some c), r) /\
  if opened =? 0 then exists q b0, shared_bus c = Some q /\ buses r = {[q := b0]} /\ talked c b0 p rc p'
  else rc = 1 /\ printed p' = printed p ++ [Text "Failed to open RTU device"] /\ line p' = line p.

(** From the connected client on. *)
Lemma connected_wp k q p :
  sane_kernel k -> session k q p ->
  wp (let! probe_rc := on_client (fun c => mb_rtu_client_probe_device c REG_TEMPERATURE 1) in
      if negb (probe_rc =? MB_RTU_CLIENT_OK) then
        print (Failure "Device not responding" (client_err_str probe_rc) probe_rc) ;;; disconnect ;;; ret 1
      else
        let! rc := on_client (fun c => mb_rtu_client_write_single_register c REG_SETPOINT 300) in
        (if negb (rc =? MB_RTU_CLIENT_OK) then print (Failure "Write setpoint" (client_err_str rc) rc) else ret tt) ;;;
        (fun p => poll_loop (S (length (g_running p))) p) ;;; disconnect ;;; ret 0)
    (fun rc p' => released k p' /\ talked (client p) (bus_of p) p rc p') p.
Proof.
  intros Hk Hs1. apply wp_bind, wp_probe; [by unfold_defs|].
  eapply wp_mono; [apply (rtu_on_client_wp k q polling); [apply temperature_sendable | unfold room; rewrite auto_u16_length; done | exact Hs1]|].
  cbn beta. intros [rc out] p2 (Hs2 & (Hpr & Hrun & part & Hout & Hpart) & Hc2 & resp & Hex & _). cbn [fst].
  unfold MB_RTU_CLIENT_OK at 1. destruct (Z.eqb_spec rc 0) as [->|Hrc]; cbn [negb].
  2:{ apply wp_bind. unfold wp at 1. apply wp_bind. eapply wp_mono; [by eapply disconnect_once, session_print|].
    cbn beta. intros _ p3 (Hrel & Hpr3 & Hl3). apply wp_ret. split; [done|]. exists rc, resp, (here p2). split; [exact Hex|].
    rewrite (proj2 (Z.eqb_neq rc 0)) by done. split; [done|]. split; [exact Hl3|]. rewrite Hpr3, Hl3. cbn. rewrite Hpr.
    split; [done | by exists part]. }
  apply wp_bind, (wp_client_write _ setting); [done|].
  eapply wp_mono; [apply (rtu_on_client_wp k q setting []); [by split | by vm_compute | exact Hs2]|].
  cbn beta. intros [rc2 out2] p3 (Hs3 & (Hpr3 & Hrun3 & _) & Hc3 & resp2 & Hex2 & _). cbn [fst].
  set (init := if rc2 =? 0 then [] else [failure_of "Write setpoint" rc2]).
  assert (wp (if negb (rc2 =? MB_RTU_CLIENT_OK) then print (Failure "Write setpoint" (client_err_str rc2) rc2) else ret tt)
    (fun _ p4 => session k q p4 /\ g_running p4 = g_running p /\ client p4 = client p /\ here p4 = here p3 /\
      printed p4 = printed p ++ init) p3) as Hset.
  { unfold init, MB_RTU_CLIENT_OK. destruct (rc2 =? 0); cbn [negb].
    - apply wp_ret. rewrite app_nil_r. split_and!; congruence || done.
    - split; [by apply session_print|]. cbn. split_and!; try congruence; [done|]. by rewrite Hpr3, Hpr. }
  apply wp_bind. eapply wp_mono; [exact Hset|]. cbn beta. intros _ p4 (Hs4 & Hg4 & Hc4 & Hh4 & Hpr4).
  eapply wp_mono; [by eapply polling_wp|]. cbn beta. intros rc3 p5 (Hrel & -> & polls & rest & s & Hg & Hpr5 & Hall & Hl5).
  split; [done|]. exists 0, resp, (here p2). split; [exact Hex|]. cbn [Z.eqb].
  rewrite Hc2 in Hex2. rewrite Hc4, Hh4 in Hall. rewrite Hg4 in Hg.
  exists rc2, resp2, (here p3), polls, rest, s. do 5 (split; [done|]). by rewrite Hpr5, Hpr4, <- app_assoc.
Qed.

Lemma rtu_client_main_wp realpath p k :
  reg p = Registry k ∅ None -> sane_kernel k -> path_fits realpath -> sane_clock (clock (line p)) -> rx_bytes (rx (line p)) ->
  wp (main realpath) (fun rc p' => released k p' /\ ended realpath p rc p') p.
Proof.
  intros Hreg Hk Hpath Hclk Hrx. pose proof (registry_start k) as Hstart. rewrite <- Hreg in Hstart.
  assert (buses (reg p) = ∅) as Hnone by (rewrite Hreg; unfold buses; cbn; by rewrite fmap_empty).
  assert (roomy (reg p)) as Hroom by (unfold roomy; rewrite Hnone; apply map_Forall_empty).
  pose proof (connect_wp k 0 zero_cli_ctx config realpath (reg p) Hk ltac:(lia) Hstart Hroom Hpath eq_refl eq_refl) as Hw.
  apply wp_bind, wp_on_reg. unfold wp in Hw. unfold wp at 1, ended.
  destruct (mb_rtu_client_connect _ _ _ _) as [[[rc c'] r]|]; [|done]. destruct Hw as (c & Hc & Hcfg & Hcase).
  cbn [fst snd] in *. subst c'. apply wp_bind. unfold wp at 1. cbn [default from_option id].
  destruct Hcase as [(-> & Hcon & Hr & Hb)|(-> & Hcon & Hr & q & b & Hq & _ & _ & _ & Hb & Hold)]; cbn [Z.eqb negb].
  { apply wp_bind. unfold wp at 1. apply wp_ret. split; [|by exists (-1), c, r].
    split; [done|]. cbn. apply registry_idle; [done|]. by rewrite Hb. }
  set (p1 := set_client c (set_reg r p)). rewrite Hnone in Hb, Hold. rewrite insert_empty in Hb.
  set (b0 := set_refcnt (refcnt b + 1) b) in *. destruct Hold as [Hold|[_ Hold]]; [by rewrite lookup_empty in Hold|].
  assert (session k q p1) as Hs1.
  { constructor; try done. exists b0. split; [exact Hb | unfold b0; cbn; lia]. }
  assert (bus_of p1 = b0) as Hbus by (unfold bus_of; cbn; rewrite Hq; cbn; by rewrite Hb, lookup_singleton_eq).
  eapply wp_mono; [by apply (connected_wp k q p1)|]. cbn beta. intros rc p' [Hrel Htalk]. split; [done|].
  exists 0, c, r. split; [done|]. cbn [Z.eqb]. exists q, b0. rewrite Hbus in Htalk. by split_and!.
Qed.
End Program.
