(* ===== verification/ExampleRtuTogether.v ===== *)
(** * The RTU example client against the RTU example server

    [conversation n] is what the client program asks when it polls [n] times.
    [attended talk]: each of its calls meets a line that takes the request and
    brings the frame that belongs to it in time.  Then every call succeeds and
    the program prints the server's value ([rtu_main_does]).  [serve_turns]: the
    server program's callback, run once per request ([serve_turns_run]). *)

From stdpp Require Import gmap strings.
From S2P Require Import Prelude Buffer Defines Bits Pdu PduSpec PduClient PduReplies Bank Ptr Rtu Crc RtuFrames Sys TcpServer TcpServerSpec Keeps RtuServer RtuServerSpec RtuServerSend RtuServerRun RtuServerTheorems RtuClient RtuClientSpec RtuClientTransact RtuClientCalls RtuClientAnswers RtuClientTheorems RtuClientLocal Kernel RtuPort RtuPortSpec RtuServerPort RtuBus RtuBusSpec RtuBusSystem RtuBusTheorems ExampleServers ExampleRtuServer ExampleRtuClient ExampleRtuClientSpec.

(** ** What is asked and answered *)

Definition conversation (n : nat) : list request := [polling; setting] ++ replicate n polling.

Definition expected (r : request) : response :=
  match r with WriteRegister addr value => Written 6 addr value | _ => RegistersRead 3 [253] end.
Definition reply_frame (r : request) : list Z := adu ExampleRtuClient.SERVER_UNIT_ID (encode_response (expected r)).

Definition asked (r : request) : Prop := r = polling \/ r = setting.

Lemma conversation_asked n : Forall asked (conversation n).
Proof.
  apply List.Forall_cons; [by left|]. apply List.Forall_cons; [by right|]. apply Forall_replicate. by left.
Qed.

Lemma asked_valid r : asked r -> valid_request r.
Proof. intros [-> | ->]; [split; [by left|]; by unfold_defs | done]. Qed.

(** What the device of the example server does. *)
Lemma serve_asked r app :
  asked r -> zlen (reg_bank app) = 32 ->
  exists app', serve Rtu.device r app = (expected r, app') /\ zlen (reg_bank app') = 32 /\
    reg_bank app' !!! 10%nat = (if is_read r then reg_bank app !!! 10%nat else 300).
Proof.
  intros [-> | ->] Hl.
  - exists (Rtu.refresh app).
    assert (zlen (set_register Rtu.REG_TEMPERATURE 253 (reg_bank app)) = 32) as Hl1 by (by rewrite set_register_length).
    split; [|split; [unfold Rtu.refresh; cbn [reg_bank]; by rewrite !set_register_length|]].
    + cbn [serve polling Rtu.device dev_read_registers]. change (Rtu.REG_BANK_SIZE <? _) with false.
      unfold read_bank. change (seqZ 0 1) with [0]. cbn [map].
      unfold Rtu.refresh. cbn [reg_bank]. change (REG_TEMPERATURE + 0) with 0.
      pose proof (get_set_register Rtu.REG_STATUS 1 (set_register Rtu.REG_TEMPERATURE 253 (reg_bank app)) 0) as H1.
      pose proof (get_set_register Rtu.REG_TEMPERATURE 253 (reg_bank app) 0) as H2.
      rewrite H1, H2 by (rewrite ?Hl1, ?Hl; by vm_compute). done.
    + unfold Rtu.refresh. cbn [reg_bank]. change 10%nat with (Z.to_nat 10).
      by rewrite !get_set_register by (rewrite ?Hl1, ?Hl; by vm_compute).
  - eexists. split; [done|]. cbn [reg_bank]. split.
    + rewrite splice_length by (rewrite ?Hl; by vm_compute). done.
    + apply (splice_lookup _ 10 [300] 0); by rewrite ?Hl.
Qed.

(** ** The client's line *)

Section Client.
Context {I : Indet}.

(** Room for any answer. *)
Definition spare : list Z := replicate 125 0.

(** The line with more readings of the clock, and more answers of select. *)
Definition goes_on (clk : list (option (Z * Z))) (sel : list poll_event) (w : world) : world :=
  extend (World [] [] clk sel [] []) w.

(** The line takes the request [r] and brings [frame] in time: all readings of
    the clock are within a timeout, and select finds the line readable.  How many
    of them the call needs depends on the pieces in which the frame comes; it is
    enough that they are near each other and that some more like them, which the
    call need not get to, would do. *)
Record brings (c : mb_rtu_client_ctx) (b : mb_rtu_shared_bus) (r : request) (frame : list Z) (w : world) : Prop := Brings {
  brings_room : eager on_signal (tx w) (zlen (request_wire r)) /\ exists d, drains w = 0 :: d;
  brings_bytes : rx_bytes (rx w);
  brings_stream : exists more closed, stream (rx w) = (frame ++ more, closed);
  brings_time : exists clk sel, let w' := goes_on clk sel w in
    sane_clock (clock w') /\ punctual c b w' /\ attentive 8 w';
}.

(** The line during the calls of [talk]: the first is made on [w0], on which it
    returns; what it leaves of it, and then [e], is there for the others. *)
Fixpoint attended (c : mb_rtu_client_ctx) (talk : list (request * list Z)) (b : mb_rtu_shared_bus) (w : world) : Prop :=
  match talk with
  | [] => True
  | (r, frame) :: talk => exists w0 e a w1 b1, w = extend e w0 /\ brings c b r frame w0 /\
      call (Some c) r (Some spare) (w0, Some b) = Ok (a, (w1, Some b1)) /\ attended c talk b1 (extend e w1)
  end.

(** A call that returns, returns with any array what it returns on more of the line. *)
Lemma call_returns c r out e w b a s1 x s2 :
  sendable r -> room r out -> room r spare ->
  call (Some c) r (Some spare) (w, b) = Ok (a, s1) -> call (Some c) r (Some out) (extend e w, b) = Ok (x, s2) ->
  call (Some c) r (Some out) (w, b) = Ok (x, s1).
Proof.
  intros Hr Ho Hs. rewrite !rtu_call_perform by done. unfold perform.
  destruct (transact _ _ _ _ (w, b)) as [[[rc resp] s]|] eqn:E; [|done].
  apply (grows_transact e) in E. unfold prod_map in E. cbn [fst snd id] in E. rewrite E. destruct (rc =? 0).
  - destruct r; try (by intros [= _ <-] [= <- _]);
      destruct (_ (drop 1 resp) _ spare) as [[? ?]|], (_ (drop 1 resp) _ out) as [[? ?]|]; try done;
      by intros [= _ <-] [= <- _].
  - by intros [= _ <-] [= <- _].
Qed.

(** What the client makes of the server's answer to [r]. *)
Lemma expected_verdict r out :
  asked r -> verdict r (encode_response (expected r)) = 0 /\
  (if verdict r (encode_response (expected r)) =? 0 then stored r (encode_response (expected r)) out else out)
    = filled (expected r) out.
Proof.
  intros Hr. destruct (serve_asked r zero_app Hr eq_refl) as (app' & Hserve & _).
  destruct (verdict_stored Rtu.handlers Rtu.device r zero_app out) as [Hv Hs].
  - by apply asked_valid.
  - by destruct Hr as [-> | ->].
  - rewrite Hserve. destruct Hr as [-> | ->]; [|done]. apply List.Forall_cons; [done | apply List.Forall_nil].
  - cbv zeta in *. rewrite Hserve in *. cbn [fst] in *. assert (exception_code (expected r) = 0) as Hx by (by destruct Hr as [-> | ->]).
    rewrite Hv, Hs, Hx. done.
Qed.

(** One call, when there is enough of everything. *)
Lemma call_brings c b r clk sel w0 out :
  asked r -> room r out -> cli_cfg c = config -> connected c = true -> bus_ok b -> brings c b r (reply_frame r) w0 ->
  sane_clock (clock (goes_on clk sel w0)) -> punctual c b (goes_on clk sel w0) -> attentive 8 (goes_on clk sel w0) ->
  exists w1 b1, call (Some c) r (Some out) (goes_on clk sel w0, Some b) = Ok ((0, Some (filled (expected r) out)), (w1, Some b1)) /\
    output w1 = output w0 ++ request_wire r.
Proof.
  intros Hr Hout Hcfg Hcon Hb [[He [d Hd]] Hbytes (more & closed & Hst) _] Hck Hp Ha.
  assert (request_frame c r = request_wire r) as Hf by (unfold request_frame; by rewrite Hcfg).
  destruct (expected_verdict r out Hr) as [Hverdict Hstored].
  destruct (rtu_call_answers r out c b (goes_on clk sel w0) (encode_response (expected r)) more closed)
    as (w1 & t & Hrun & Ho1 & _); try done.
  - by apply valid_sendable, asked_valid.
  - by apply config_ok.
  - by rewrite Hcfg.
  - by rewrite Hcfg.
  - unfold connected in Hcon. by destruct (Z.eqb_spec (cli_initialized c) 0).
  - unfold answered, goes_on in *. cbn [extend tx rx drains]. rewrite !app_nil_r, Hf.
    split; [by eauto|]. split; [|split; [|done]].
    + split; [done|]. unfold echo. rewrite Hcfg. exact Hst.
    + rewrite Hverdict. split; [|done]. destruct Hr as [-> | ->]; apply (bool_decide_unpack _); by vm_compute.
  - rewrite Hstored, Hverdict, Hcfg, Hf in *. by eexists _, _.
Qed.

Lemma call_attended c b r talk w out :
  asked r -> room r out -> cli_cfg c = config -> connected c = true -> bus_ok b ->
  attended c ((r, reply_frame r) :: talk) b w ->
  exists w' b', call (Some c) r (Some out) (w, Some b) = Ok ((0, Some (filled (expected r) out)), (w', Some b')) /\
    attended c talk b' w' /\ output w' = output w ++ request_wire r.
Proof.
  intros Hr Hout Hcfg Hcon Hb (w0 & e & a & w1 & b1 & -> & Hw & Hrun & Hrest).
  pose proof (valid_sendable r (asked_valid r Hr)) as Hsend. pose proof Hw as [_ _ _ (clk & sel & Hck & Hp & Ha)].
  assert (room r spare) as Hspare by (by destruct Hr as [-> | ->]).
  destruct (call_brings c b r clk sel w0 out) as (w2 & b2 & Hrun2 & Ho2); try done.
  pose proof (call_returns _ _ _ _ _ _ _ _ _ _ Hsend Hout Hspare Hrun Hrun2) as Hcall.
  pose proof (call_local (World [] [] clk sel [] []) _ _ _ _ _ _ Hcall) as Hlocal.
  unfold prod_map in Hlocal. cbn [fst snd id] in Hlocal. unfold goes_on in Hrun2. rewrite Hrun2 in Hlocal.
  injection Hlocal as Hw2 _. rewrite Hw2 in Ho2.
  apply (call_local e) in Hcall. by eexists _, _.
Qed.

(** A connected program whose calls [talk] will be answered. *)
Definition online (base : kernel) (talk : list (request * list Z)) (p : program) : Prop :=
  exists q b, session base q p /\ buses (reg p) = {[q := b]} /\ attended (client p) talk b (line p).

Lemma talk_call base r talk out p :
  asked r -> room r out -> online base ((r, reply_frame r) :: talk) p ->
  exists p', on_client (fun c => call c r (Some out)) p = Ok ((0, Some (filled (expected r) out)), p') /\
    online base talk p' /\ printed p' = printed p /\ g_running p' = g_running p /\
    output (line p') = output (line p) ++ request_wire r.
Proof.
  intros Hr Hout (q & b & Hs & Hb & Hatt). pose proof (valid_sendable r (asked_valid r Hr)) as Hsend.
  pose proof Hs as [Hcon Hcfg Hq Hreg _ _ _].
  assert (buses (reg p) !! q = Some b) as Hlook by (rewrite Hb; apply lookup_singleton_eq).
  destruct (buses_inv _ _ _ Hlook) as [n Hn]. pose proof (ok_buses _ _ _ Hreg q b Hlook) as [Hbok _].
  destruct (call_attended (client p) b r talk (line p) out) as (w' & b' & Hrun & Hrest & Ho); try done.
  pose proof (rtu_on_client_wp base q r out p Hsend Hout Hs) as Hwp. unfold wp in Hwp. revert Hwp.
  unfold on_client, bind, get, lift, ret, put, on_reg, deref, assign. rewrite Hq, Hn. cbn [set_reg client line reg].
  rewrite Hrun. cbn [set_line reg]. rewrite Hn. cbn [set_reg reg line default from_option id].
  intros (Hs' & (Hpr & Hg & _) & _). eexists. split; [done|]. split; [|done].
  exists q, b'. split; [exact Hs'|]. split; [|exact Hrest]. unfold buses. cbn. rewrite fmap_insert. fold (buses (reg p)).
  rewrite Hb. apply insert_singleton_eq.
Qed.

(** ** The program's calls *)

Lemma on_client_map {A B} (m : option mb_rtu_client_ctx -> st (world * option mb_rtu_shared_bus) A) (f : A -> B) p x p' :
  on_client (fun c => let! a := m c in ret (f a)) p = Ok (x, p') <-> exists a, on_client m p = Ok (a, p') /\ x = f a.
Proof.
  unfold on_client, bind, get, lift, ret, put. destruct (shared_bus _) as [q|].
  - destruct (on_reg _ _) as [[[b n] p1]|]; [|by split; [|intros (? & ? & ?)]]. destruct (m _ _) as [[a [w bus]]|].
    + destruct (on_reg (assign _ _) _) as [[[] p2]|]; [|by split; [|intros (? & ? & ?)]].
      split; [intros [= <- <-]; by eexists|]. by intros (? & [= <- <-] & ->).
    + by split; [|intros (? & ? & ?)].
  - destruct (m _ _) as [[a [w bus]]|]; [|by split; [|intros (? & ? & ?)]].
    split; [intros [= <- <-]; by eexists|]. by intros (? & [= <- <-] & ->).
Qed.

(** From [p] to [p'] the program has made the calls [rs] and printed [l]. *)
Record went (rs : list request) (l : list message) (p p' : program) : Prop := Went {
  went_printed : printed p' = printed p ++ l;
  went_running : g_running p' = g_running p;
  went_output : output (line p') = output (line p) ++ concat (map request_wire rs);
}.

Lemma rtu_went_trans rs1 rs2 l1 l2 p p1 p2 : went rs1 l1 p p1 -> went rs2 l2 p1 p2 -> went (rs1 ++ rs2) (l1 ++ l2) p p2.
Proof.
  intros [P1 R1 O1] [P2 R2 O2]. split; [by rewrite P2, P1, app_assoc | congruence|].
  by rewrite O2, O1, map_app, concat_app, app_assoc.
Qed.

Abbreviation frames rs := (map (fun r => (r, reply_frame r)) rs).

Lemma rtu_online_print base talk p o :
  online base talk p -> online base talk (Program (reg p) (line p) (client p) (printed p ++ [o]) (g_running p)).
Proof. intros (q & b & Hs & Hb & Ha). exists q, b. split; [by apply session_print | done]. Qed.

Lemma online_running base talk p l :
  online base talk p -> online base talk (Program (reg p) (line p) (client p) (printed p) l).
Proof. intros (q & b & Hs & Hb & Ha). exists q, b. split; [by apply session_running | done]. Qed.

Lemma probe_does base rest p :
  online base (frames (polling :: rest)) p ->
  exists p', on_client (fun c => mb_rtu_client_probe_device c REG_TEMPERATURE 1) p = Ok (0, p') /\
    online base (frames rest) p' /\ went [polling] [] p p'.
Proof.
  intros Hp. destruct (talk_call base polling (frames rest) (auto_u16 MODBUS_MAX_READ_REGISTERS) p) as
    (p' & Hrun & Hp' & Hpr & Hg & Ho); [by left | by vm_compute | exact Hp |].
  exists p'. split; [|split; [done|]; split; [by rewrite app_nil_r | done | by rewrite Ho; cbn [map concat]; rewrite app_nil_r]].
  rewrite (on_client_ext _ (fun c => let! a := call c polling (Some (auto_u16 MODBUS_MAX_READ_REGISTERS)) in ret (fst a))).
  - apply on_client_map. by eexists.
  - intros c s. unfold mb_rtu_client_probe_device, call, bind, polling.
    change (3 =? MODBUS_FUNC_READ_HOLDING_REGISTERS) with true. change ((1 =? 0) || (MODBUS_MAX_READ_REGISTERS <? 1)) with false. cbn iota.
    destruct (mb_rtu_client_read_holding_registers c _ _ _ s) as [[[rc out] ?]|] eqn:E; cbn beta; by rewrite E.
Qed.

Lemma set_does base rest p :
  online base (frames (setting :: rest)) p ->
  exists p', on_client (fun c => mb_rtu_client_write_single_register c REG_SETPOINT 300) p = Ok (0, p') /\
    online base (frames rest) p' /\ went [setting] [] p p'.
Proof.
  intros Hp. destruct (talk_call base setting (frames rest) [] p) as (p' & Hrun & Hp' & Hpr & Hg & Ho);
    [by right | done | exact Hp |].
  exists p'. split; [|split; [done|]; split; [by rewrite app_nil_r | done | by rewrite Ho; cbn [map concat]; rewrite app_nil_r]].
  unfold call in Hrun. cbn [setting] in Hrun.
  apply (on_client_map (fun c => mb_rtu_client_write_single_register c REG_SETPOINT 300) (fun rc => (rc, Some ([] : list Z)))) in Hrun
    as (rc & Hrun & [= <-]). exact Hrun.
Qed.

Lemma poll_does base rest p :
  online base (frames (polling :: rest)) p ->
  exists p', poll_once p = Ok (tt, p') /\ online base (frames rest) p' /\ went [polling] [Temperature 253] p p'.
Proof.
  intros Hp. destruct (talk_call base polling (frames rest) [0] p) as (p' & Hrun & Hp' & Hpr & Hg & Ho);
    [by left | by vm_compute | exact Hp |].
  exists (Program (reg p') (line p') (client p') (printed p' ++ [Temperature 253]) (g_running p')).
  split; [|split; [by apply rtu_online_print|]].
  - unfold poll_once. erewrite bind_ok by exact Hrun. done.
  - split; cbn [printed g_running line map concat]; [by rewrite Hpr | done | by rewrite Ho, app_nil_r].
Qed.

Lemma rtu_poll_loop_does base n fuel p l :
  online base (frames (replicate n polling)) p -> g_running p = replicate n true ++ false :: l -> (n < fuel)%nat ->
  exists p' q, poll_loop fuel p = Ok (tt, p') /\ session base q p' /\
    printed p' = printed p ++ replicate n (Temperature 253) /\
    output (line p') = output (line p) ++ concat (map request_wire (replicate n polling)).
Proof.
  revert fuel p. induction n as [|n IH]; intros [|fuel] p Hp Hg Hf; try lia; cbn [poll_loop];
    unfold bind at 1, read_running; rewrite Hg; cbn [replicate app].
  - apply (online_running _ _ _ l) in Hp as (q & b & Hs & _). eexists _, q. split; [done|]. split; [exact Hs|].
    by rewrite !app_nil_r.
  - set (p0 := Program _ _ _ _ _). apply (online_running _ _ _ (replicate n true ++ false :: l)) in Hp. fold p0 in Hp.
    destruct (poll_does base (replicate n polling) p0 Hp) as (p1 & Hrun & Hp1 & [Hpr Hrn Ho]).
    erewrite bind_ok by exact Hrun. unfold bind at 1, on_reg at 1, on_os, emit. set (p2 := set_reg _ p1).
    assert (online base (frames (replicate n polling)) p2) as Hp2.
    { destruct Hp1 as (q & b & [? ? ? [? ? ? ?] ? ? ?] & Hb & Ha). exists q, b. split; [|done]. by constructor. }
    destruct (IH fuel p2 Hp2 Hrn ltac:(lia)) as (p3 & q & Hrun3 & Hs3 & Hpr3 & Ho3).
    exists p3, q. split; [exact Hrun3|]. split; [exact Hs3|]. cbn in *. rewrite Hpr3, Ho3, Hpr, Ho.
    by rewrite <- !app_assoc.
Qed.

(** ** The whole program *)

(** The device is there, and over the line come the frames [fs] when they are
    asked for, until the signal after [n] rounds. *)
Record reaches (n : nat) (fs : list (list Z)) (realpath : option string) (k : kernel) (p : program) : Prop := Reaches {
  reaches_registry : reg p = Registry k ∅ None;
  reaches_kernel : sane_kernel k;
  reaches_path : path_fits realpath;
  reaches_clock : sane_clock (clock (line p));
  reaches_bytes : rx_bytes (rx (line p));
  reaches_connects : exists c r q b next,
    mb_rtu_client_connect (Some zero_cli_ctx) (Some config) realpath (reg p) = Ok ((0, Some c), r) /\
    shared_bus c = Some q /\ heap r !! q = Some (b, next) /\ attended c (combine (conversation n) fs) b (line p);
  reaches_end : exists l, g_running p = replicate n true ++ false :: l;
}.

Lemma combine_map {A B} (f : A -> B) l : combine l (map f l) = map (fun a => (a, f a)) l.
Proof. induction l as [|a l IH]; [done|]. cbn. by rewrite IH. Qed.

Lemma connected_online n realpath k p :
  reaches n (map reply_frame (conversation n)) realpath k p ->
  exists c r, mb_rtu_client_connect (Some zero_cli_ctx) (Some config) realpath (reg p) = Ok ((0, Some c), r) /\
    online k (frames (conversation n)) (set_client c (set_reg r p)).
Proof.
  intros [Hreg Hk Hpath Hclk Hrx (c & r & q & b & next & Hconn & Hq & Hheap & Hatt) _].
  pose proof (registry_start k) as Hstart. rewrite <- Hreg in Hstart.
  assert (wp (mb_rtu_client_connect (Some zero_cli_ctx) (Some config) realpath)
    (connect_result k 0 config realpath (reg p)) (reg p)) as Hwp.
  { apply connect_wp; try done. rewrite Hreg. unfold roomy, buses. cbn. rewrite fmap_empty. apply map_Forall_empty. }
  destruct (wp_ok _ _ _ _ _ Hwp Hconn) as (c' & [= <-] & Hcfg & Hcase). exists c, r. split; [done|].
  destruct Hcase as [(Hrc & _)|(_ & Hcon & Hr & q' & b' & Hq' & _ & _ & _ & Hb & Hold)]; [done|].
  rewrite Hq in Hq'. injection Hq' as <-.
  assert (buses (reg p) = ∅) as Hnone by (rewrite Hreg; unfold buses; cbn; by rewrite fmap_empty).
  rewrite Hnone in Hb, Hold. destruct Hold as [Hold|[_ Hold]]; [by rewrite lookup_empty in Hold|]. rewrite insert_empty in Hb.
  assert (b = set_refcnt (refcnt b' + 1) b') as ->.
  { apply buses_lookup in Hheap. rewrite Hb, lookup_singleton_eq in Hheap. by injection Hheap. }
  rewrite combine_map in Hatt. exists q. eexists. split; [|split; [exact Hb | exact Hatt]].
  constructor; try done. eexists. split; [exact Hb | by cbn; rewrite Hold].
Qed.

(** ** Disconnecting does not wait *)

Definition prompt {S A} (m : st S A) : Prop := forall s, m s <> Fail Blocked.

Lemma prompt_ret {S A} (a : A) : prompt (S:=S) (ret a).
Proof. by intros s [=]. Qed.

Lemma prompt_bind {S A B} (m : st S A) (f : A -> st S B) : prompt m -> (forall a, prompt (f a)) -> prompt (bind m f).
Proof. intros Hm Hf s. unfold bind. specialize (Hm s). destruct (m s) as [[a s1]|]; [apply Hf|]. by intros [= ->]. Qed.

Lemma prompt_deref q : prompt (deref q).
Proof. intros r. unfold deref. by destruct (_ !! _). Qed.

Lemma prompt_assign q v : prompt (assign q v).
Proof. intros r. unfold assign. by destruct (_ !! _). Qed.

Lemma prompt_on_os {A} (m : st kernel A) : prompt m -> prompt (on_os m).
Proof. intros Hm r. unfold on_os. specialize (Hm (os r)). destruct (m _) as [[]|]; [done|]. by intros [= ->]. Qed.

Lemma prompt_destroy : prompt mutex_destroy.
Proof. intros k. unfold mutex_destroy, release. by destruct (_ <? _). Qed.

Lemma prompt_close fd : prompt (mb_rtu_close (Some fd)).
Proof.
  unfold mb_rtu_close. destruct (_ <=? _); [|apply prompt_ret]. apply prompt_bind; [|intros; apply prompt_ret].
  intros k. unfold sys_close. by case_bool_decide.
Qed.

Lemma prompt_unlink q : prompt (unlink q).
Proof.
  assert (forall fuel link, prompt (unlink_loop fuel link q)) as Hloop.
  { induction fuel as [|fuel IH]; intros link; cbn [unlink_loop]; [by intros r [=]|].
    apply prompt_bind.
    - destruct link; cbn [read_link]; [apply prompt_bind; [apply prompt_deref | intros []; apply prompt_ret]|].
      by intros r [=].
    - intros [q'|]; [|apply prompt_ret]. destruct (_ =? _); [|apply IH].
      apply prompt_bind; [apply prompt_deref|]. intros [? next]. destruct link; cbn [write_link].
      + apply prompt_bind; [apply prompt_deref|]. intros []. apply prompt_assign.
      + by intros r [=]. }
  intros r. apply Hloop.
Qed.

Lemma prompt_detach q : prompt (shared_bus_detach q).
Proof.
  unfold shared_bus_detach. destruct q as [q|]; [|by intros r [=]].
  apply prompt_bind; [apply prompt_deref|]. intros []. apply prompt_bind; [destruct (_ <? _); [apply prompt_assign | apply prompt_ret]|].
  intros _. apply prompt_bind; [apply prompt_deref|]. intros []. destruct (_ =? 0); [|apply prompt_ret].
  apply prompt_bind; [apply prompt_unlink|]. intros _. apply prompt_bind; [apply prompt_deref|]. intros [].
  apply prompt_bind; [apply prompt_on_os, prompt_close|]. intros ?. apply prompt_bind; [apply prompt_assign|]. intros _.
  apply prompt_bind; [apply prompt_on_os, prompt_destroy|]. intros _ r. unfold free_bus. by destruct (_ !! _).
Qed.

Lemma disconnect_runs base q p :
  sane_kernel base -> session base q p ->
  exists p', disconnect p = Ok (tt, p') /\ released base p' /\ printed p' = printed p /\ line p' = line p.
Proof.
  intros Hbase Hs. pose proof (disconnect_once base q p Hbase Hs) as Hd. unfold wp in Hd.
  assert (prompt (mb_rtu_client_disconnect (Some (client p)))) as Hp.
  { unfold mb_rtu_client_disconnect. destruct (_ =? 0); [apply prompt_ret|]. apply prompt_bind; [apply prompt_detach|].
    intros _. apply prompt_bind; [apply prompt_on_os, prompt_destroy|]. intros _. apply prompt_ret. }
  specialize (Hp (reg p)). unfold disconnect, bind, get, on_reg in *.
  destruct (mb_rtu_client_disconnect _ _) as [[c r]|e]; [by eexists | by subst].
Qed.

(** [main] once the client is connected. *)
Definition connected_main : st program Z :=
  let! probe_rc := on_client (fun c => mb_rtu_client_probe_device c REG_TEMPERATURE 1) in
  if negb (probe_rc =? MB_RTU_CLIENT_OK) then
    print (Failure "Device not responding" (client_err_str probe_rc) probe_rc) ;;;
    disconnect ;;;
    ret 1
  else
    let! rc := on_client (fun c => mb_rtu_client_write_single_register c REG_SETPOINT 300) in
    (if negb (rc =? MB_RTU_CLIENT_OK) then print (Failure "Write setpoint" (client_err_str rc) rc) else ret tt) ;;;
    (fun p => poll_loop (S (length (g_running p))) p) ;;;
    disconnect ;;;
    ret 0.

Lemma connected_main_does base n p l :
  sane_kernel base -> online base (frames (conversation n)) p -> g_running p = replicate n true ++ false :: l ->
  exists p', connected_main p = Ok (0, p') /\ released base p' /\ printed p' = printed p ++ replicate n (Temperature 253) /\
    output (line p') = output (line p) ++ concat (map request_wire (conversation n)).
Proof.
  intros Hbase Hp Hg. destruct (probe_does base _ p Hp) as (p1 & H1 & Hp1 & Hw1).
  unfold connected_main. erewrite bind_ok by exact H1. cbn [Z.eqb MB_RTU_CLIENT_OK negb].
  destruct (set_does base _ p1 Hp1) as (p2 & H2 & Hp2 & Hw2).
  erewrite bind_ok by exact H2. cbn [Z.eqb MB_RTU_CLIENT_OK negb]. erewrite bind_ok by done.
  destruct (rtu_went_trans _ _ _ _ _ _ _ Hw1 Hw2) as [Hpr Hrn Ho]. rewrite app_nil_r in Hpr. rewrite <- Hrn in Hg.
  destruct (rtu_poll_loop_does base n (S (length (g_running p2))) p2 l Hp2 Hg) as (p3 & q & H3 & Hs3 & Hpr3 & Ho3).
  { rewrite Hg, length_app, length_replicate. lia. }
  erewrite bind_ok by exact H3. destruct (disconnect_runs base q p3 Hbase Hs3) as (p4 & H4 & Hrel & Hpr4 & Hl4).
  erewrite bind_ok by exact H4. exists p4. split; [done|]. split; [done|]. split; [by rewrite Hpr4, Hpr3, Hpr|].
  change ([polling] ++ [setting]) with [polling; setting] in Ho. rewrite Hl4, Ho3, Ho. unfold conversation. by rewrite map_app, concat_app, app_assoc.
Qed.

Lemma rtu_main_does n realpath k p :
  reaches n (map reply_frame (conversation n)) realpath k p ->
  exists p', main realpath p = Ok (0, p') /\ released k p' /\ printed p' = printed p ++ replicate n (Temperature 253) /\
    output (line p') = output (line p) ++ concat (map request_wire (conversation n)).
Proof.
  intros Hp. destruct (connected_online n realpath k p Hp) as (c & r & Hconn & Hon). pose proof Hp as [_ Hk _ _ _ _ [l Hg]].
  destruct (connected_main_does k n (set_client c (set_reg r p)) l Hk Hon Hg) as (p' & Hrun & Hrest).
  exists p'. split; [|exact Hrest]. unfold main. unfold bind at 1, on_reg at 1. rewrite Hconn. exact Hrun.
Qed.
End Client.

(** ** The server *)

Section Server.
Context {I : Indet}.

(** A poll of the server's thread at which the request [r] is there, in any
    pieces, on a line that takes the answer. *)
Record turn (r : request) (w : world) : Prop := Turn {
  turn_bytes : rx_bytes (rx w);
  turn_arrived : arrived 256 (rx w) = (request_wire r, Some true);
  turn_clock : exists ts ts2 clk, clock w = ts :: ts2 :: clk;
  turn_room : eager on_signal_or_full (tx w) MODBUS_RTU_MAX_ADU_LENGTH;
  turn_drains : exists d, drains w = 0 :: d;
}.

(** The callback on one line after the other: what it puts on each, and what it
    leaves. *)
Fixpoint serve_turns (ws : list world) (c : mb_rtu_server_ctx) (app : server_app)
    : outcome (list (list Z) * (mb_rtu_server_ctx * server_app)) :=
  match ws with
  | [] => Ok ([], (c, app))
  | w :: ws =>
      let? r := server_on_process rtu_example_config ((c, w), app) in
      let '(_, ((c', w'), app')) := r in
      let? rest := serve_turns ws c' app' in
      Ok (drop (length (output w)) (output w') :: fst rest, snd rest)
  end.

(** Between two requests. *)
Definition waiting (c : mb_rtu_server_ctx) : Prop := room_left c /\ rx_len c = 0 /\ is_u32 (t35_us c).

Lemma timing_u32 c : is_u32 (t35_us c) -> is_u32 (RtuServer.effective_inter_frame_us rtu_example_config c).
Proof. done. Qed.

Lemma turn_answered r w c app :
  asked r -> turn r w -> waiting c -> zlen (reg_bank app) = 32 ->
  exists c' w', server_on_process rtu_example_config ((c, w), app)
      = Ok (0, ((c', w'), snd (serve Rtu.device r app))) /\ waiting c' /\ output w' = output w ++ reply_frame r.
Proof.
  intros Hr [Hb Ha (ts & ts2 & clk & Hclk) [He1 He2] (d & Hd)] ((Hi & Hl & _) & H0 & Ht) Hbank.
  destruct (serve_asked r app Hr Hbank) as (app' & Hserve & _). pose proof (timing_u32 c Ht) as Hs.
  assert (held c = []) as Hheld by (unfold held; by rewrite H0).
  pose proof (server_call_effect rtu_example_config Rtu.device c w app Hi Hl ltac:(by vm_compute) Hs Hb) as Heff.
  destruct (server_answers_run rtu_example_config Rtu.device c w app ts ts2 clk (request_wire r) r []
    ExampleRtuServer.SERVER_UNIT_ID d) as (c' & w' & Hrun & Hh & Hout); try done.
  - unfold stale. by rewrite H0.
  - by rewrite H0.
  - by apply asked_valid.
  - by destruct Hr as [-> | ->].
  - by left.
  - by rewrite Hheld, app_nil_r.
  - split; [done|]. rewrite Hserve. cbn [fst]. etrans; [|exact He2]. by destruct Hr as [-> | ->].
  - rewrite Hrun in Heff. destruct Heff as (_ & Hroom & Hsame & _). exists c', w'. split; [done|]. split.
    + pose proof Hroom as [Hi' _]. apply held_length in Hi'. rewrite Hh in Hi'. split; [done|]. split; [done|]. by rewrite Hsame.
    + rewrite Hout, Hserve. done.
Qed.

Lemma serve_turns_run rs ws c app :
  Forall asked rs -> Forall2 turn rs ws -> waiting c -> zlen (reg_bank app) = 32 ->
  exists c' app', serve_turns ws c app = Ok (map reply_frame rs, (c', app')) /\ waiting c' /\ zlen (reg_bank app') = 32 /\
    reg_bank app' !!! 10%nat = (if forallb is_read rs then reg_bank app !!! 10%nat else 300).
Proof.
  intros Hrs Hws. revert c app. induction Hws as [|r w rs ws Hw Hws IH]; intros c app Hc Hl.
  { by exists c, app. }
  apply Forall_cons_iff in Hrs as [Hr Hrs]. destruct (serve_asked r app Hr Hl) as (app1 & Hserve & Hl1 & H10).
  destruct (turn_answered r w c app Hr Hw Hc Hl) as (c1 & w1 & Hrun & Hc1 & Hout). rewrite Hserve in Hrun.
  destruct (IH Hrs c1 app1 Hc1 Hl1) as (c2 & app2 & Hrest & Hc2 & Hl2 & H10').
  exists c2, app2. cbn [serve_turns map forallb]. rewrite Hrun. cbn [obind snd]. rewrite Hrest. cbn [obind fst snd].
  rewrite Hout, drop_app_length. split; [done|]. split; [done|]. split; [done|]. rewrite H10', H10.
  by destruct (is_read r), (forallb is_read rs).
Qed.
End Server.
