(* ===== verification/ExampleRtuTheorems.v ===== *)
(** * Properties of the RTU example client, alone and against the example server *)

From stdpp Require Import gmap strings.
From S2P Require Import Prelude Buffer Defines Bits Pdu PduSpec PduClient PduReplies Bank Ptr Rtu Crc RtuFrames Sys Keeps RtuServer RtuServerSpec RtuServerTheorems RtuClient RtuClientSpec RtuClientTransact RtuClientCalls RtuClientAnswers RtuClientTheorems RtuClientLocal Kernel RtuPort RtuPortSpec RtuBus RtuBusSpec RtuBusSystem RtuBusTheorems ExampleServers ExampleRtuServer ExampleRtuClient ExampleRtuClientSpec ExampleRtuTogether.

(** C33. The RTU example client as a whole program, for every behaviour of the
    system, the device, the line and the clock: it ends or waits in a call, and
    never with undefined behaviour.  What it does is determined by its calls,
    each of which is one call of the client as in [rtu_client_refines].  If the
    connect fails nothing happens on the line and the program returns 1.
    Otherwise it probes the device.  If that call does not return 0, its failure
    is printed with the name of its code, the line has seen that one request (or
    a part of it) and nothing else, and the program returns 1.  If it does, the
    setpoint is written, with one printed failure if, and only if, that call does
    not return 0; then every read of [g_running] that is set makes one poll, which
    prints the register of its response if it returns 0, and its code if not; and
    the program returns 0.  In all cases the bus is gone in the end: the port is
    closed, the list of buses is empty, and the process holds exactly what it held
    at first. *)
Theorem rtu_client_example_runs `{Indet} realpath p k :
  reg p = Registry k ∅ None -> sane_kernel k -> path_fits realpath -> sane_clock (clock (line p)) -> rx_bytes (rx (line p)) ->
  wp (main realpath) (fun rc p' => released k p' /\ ended realpath p rc p') p.
Proof. apply rtu_client_main_wp. Qed.

#[local] Instance junk : Indet := fun i => 5 + 11 * Z.of_nat i.

Definition desk : kernel := Kernel {[0; 1; 2]} 0 0 0 ([inl 0; inl 100; inl 3] ++ replicate 6 (inl 0)) [].

(** The slave answers in pieces; after the second poll the line is dead. *)
Definition slave_answers : list rx_event :=
  [RxData (take 3 (adu 1 [3; 2; 0; 253])); RxErr EINTR; RxData (drop 3 (adu 1 [3; 2; 0; 253]));
   RxData (adu 1 [6; 0; 10; 1; 44]); RxData (adu 1 [3; 2; 0; 253])].

Definition bench (rx : list rx_event) (sel : list poll_event) : program :=
  Program (Registry desk ∅ None) (World rx (replicate 40 (TxTakes 5)) (ticks 59) sel (replicate 9 0) []) zero_cli_ctx []
    [true; true; false].

Lemma rtu_client_example_runs_witness :
  wp (main None) (fun rc p' => released desk p' /\ ended None (bench slave_answers (replicate 20 Ready)) rc p')
    (bench slave_answers (replicate 20 Ready)).
Proof.
  apply (rtu_client_example_runs None _ desk); [done|split; [|split]; by vm_compute|done|apply (ticks_sane 59); lia|].
  repeat (apply List.Forall_cons; [first [exact I | apply (bool_decide_unpack _); by vm_compute]|]). apply List.Forall_nil.
Defined.

(** Evaluated. *)
Example bench_run :
  match main None (bench slave_answers (replicate 9 Ready ++ [Expired])) with
  | Ok (rc, p) => rc = 0 /\ fds (os (reg p)) = {[0; 1; 2]} /\ locks (os (reg p)) = 0 /\
      printed p = [Temperature 253; Failure "Read" "ERR_TIMEOUT" (-4)]
  | Fail _ => False
  end.
Proof. by vm_compute. Qed.

Example absent_device :
  match main None (bench [] [Expired]) with
  | Ok (rc, p) => rc = 1 /\ output (line p) = adu 1 [3; 0; 0; 0; 1] /\ fds (os (reg p)) = {[0; 1; 2]} /\
      printed p = [Failure "Device not responding" "ERR_TIMEOUT" (-4)]
  | Fail _ => False
  end.
Proof. by vm_compute. Qed.

(** ** The two examples *)

(** C26. The two RTU examples work together.  When the requests of the client
    program reach the example server one by one, each in any pieces, the server
    answers every one and keeps the setpoint 30.0 the client has written; and
    when those answers reach the client program in time, in any pieces, however
    long it sleeps between its calls, the program, stopped after [n] rounds, finds
    the device, prints the server's temperature of 25.3 degrees in every round
    and nothing else, has sent exactly its requests, returns 0, and holds what
    it held at first. *)
Theorem rtu_examples_together `{Indet} n ws c app :
  Forall2 turn (conversation n) ws -> waiting c -> zlen (reg_bank app) = 32 ->
  exists answers c' app', serve_turns ws c app = Ok (answers, (c', app')) /\ reg_bank app' !!! 10%nat = 300 /\
    forall realpath k p, reaches n answers realpath k p ->
      exists p', main realpath p = Ok (0, p') /\ released k p' /\
        printed p' = printed p ++ replicate n (Temperature 253) /\
        output (line p') = output (line p) ++ concat (map request_wire (conversation n)).
Proof.
  intros Hws Hc Hl. destruct (serve_turns_run (conversation n) ws c app (conversation_asked n) Hws Hc Hl)
    as (c' & app' & Hrun & _ & _ & H10).
  exists (map reply_frame (conversation n)), c', app'. split; [exact Hrun|]. split; [exact H10|].
  intros realpath k p Hp. by apply rtu_main_does.
Qed.

(** The server's line at a poll. *)
Definition poll_line_of (r : request) : world :=
  World [RxData (take 5 (request_wire r)); RxErr EINTR; RxData (drop 5 (request_wire r)); RxErr EAGAIN]
    (replicate 260 (TxTakes 7)) [Some (5, 0); Some (5, 1000000); Some (5, 2000000)] [] [0] [].

Lemma poll_line_turn r : asked r -> turn r (poll_line_of r).
Proof.
  intros Hr. split.
  - destruct Hr as [-> | ->]; repeat (apply List.Forall_cons; [first [exact I | apply (bool_decide_unpack _); by vm_compute]|]);
      apply List.Forall_nil.
  - destruct Hr as [-> | ->]; by vm_compute.
  - by eexists _, _, _.
  - split; [apply Forall_replicate; reflexivity | by vm_compute].
  - by eexists.
Qed.

(** What the start of the server leaves. *)
Definition idle_port : mb_rtu_server_ctx :=
  SrvCtx (replicate 256 0) 0 0
    (mb_rtu_t35_us (Some (SerialConfig (Some SERIAL_DEVICE) SERIAL_BAUD_RATE 8 1 MB_RTU_PARITY_NONE MB_RTU_RS485_NONE))).

Lemma rtu_examples_together_witness :
  exists answers c' app',
    serve_turns (map poll_line_of (conversation 1)) idle_port zero_app = Ok (answers, (c', app')) /\
    reg_bank app' !!! 10%nat = 300 /\
    forall realpath k p, reaches 1 answers realpath k p ->
      exists p', main realpath p = Ok (0, p') /\ released k p' /\
        printed p' = printed p ++ replicate 1 (Temperature 253) /\
        output (line p') = output (line p) ++ concat (map request_wire (conversation 1)).
Proof.
  apply (rtu_examples_together 1).
  - apply List.Forall2_cons; [apply poll_line_turn; by left|]. apply List.Forall2_cons; [apply poll_line_turn; by right|].
    apply List.Forall2_cons; [apply poll_line_turn; by left | apply List.Forall2_nil].
  - split; [split; [split; [done|]; split; [apply (bool_decide_unpack _); by vm_compute | done] | done] | done].
  - done.
Defined.

(** The client's line during one call, [t] seconds after the start: the frame
    [f] comes in two pieces, and the call reads the clock [m] times. *)
Definition piece (f : list Z) (t : Z) (m : nat) : world :=
  World [RxData (take 3 f); RxErr EINTR; RxData (drop 3 f)] (replicate 8 (TxTakes 9)) (replicate m (Some (t, 0)))
    (replicate 4 Ready) [0] [].

(** Ten seconds between the calls, ten times the timeout. *)
Definition client_line (fs : list (list Z)) : world :=
  match fs with
  | [f1; f2; f3] => extend (extend (piece f3 30 7) (piece f2 20 7)) (piece f1 10 6)
  | _ => World [] [] [] [] [] []
  end.

Definition rtu_client_end (fs : list (list Z)) : program :=
  Program (Registry desk ∅ None) (client_line fs) zero_cli_ctx [] [true; false].

(** Both programs, evaluated: the frames of the server go to the client. *)
Example rtu_one_round :
  match serve_turns (map poll_line_of (conversation 1)) idle_port zero_app with
  | Ok (answers, (_, app)) => reg_bank app !!! 10%nat = 300 /\
      match main None (rtu_client_end answers) with
      | Ok (rc, p) => rc = 0 /\ fds (os (reg p)) = {[0; 1; 2]} /\ printed p = [Temperature 253] /\ clock (line p) = []
      | Fail _ => False
      end
  | Fail _ => False
  end.
Proof. by vm_compute. Qed.

Lemma punctual_still c b t w :
  Forall (eq t) (clock w) -> RtuClientSpec.time_us t < deadline c b t -> punctual c b w.
Proof. intros Hall Ht t1 t2 H1 H2. rewrite Forall_forall in Hall. by rewrite <- (Hall t1 H1), <- (Hall t2 H2). Qed.

(** After a call on a line like these: some writes that were not needed. *)
Definition left_over (j : nat) (tr : list action) : world := World [] (replicate j (TxTakes 9)) [] [] [] tr.

Lemma piece_brings c b r j tr t m :
  asked r -> (3 <= m)%nat -> 0 <= t < 2 ^ 40 -> RtuClientSpec.time_us (Some (t, 0)) < deadline c b (Some (t, 0)) ->
  brings c b r (reply_frame r) (extend (piece (reply_frame r) t m) (left_over j tr)).
Proof.
  intros Hr Hm Ht Hd. assert (bytes (reply_frame r)) as Hb by (destruct Hr as [-> | ->]; apply (bool_decide_unpack _); by vm_compute).
  split; unfold extend, piece, left_over; cbn [rx tx drains clock selects app].
  - split; [|by eexists]. split.
    + apply Forall_app_2; apply Forall_replicate; reflexivity.
    + assert (forall k l, tx_count (replicate k (TxTakes 9) ++ l) = Z.of_nat k + tx_count l) as Hcount
        by (induction k as [|k IH]; intros l; cbn [replicate app tx_count]; [done | rewrite IH; lia]).
      rewrite Hcount. change (tx_count (replicate 8 (TxTakes 9))) with 8.
      assert (zlen (request_wire r) = 8) as -> by (by destruct Hr as [-> | ->]). lia.
  - apply List.Forall_cons; [by apply Forall_take|]. apply List.Forall_cons; [done|].
    apply List.Forall_cons; [by apply Forall_drop | apply List.Forall_nil].
  - exists [], false. destruct Hr as [-> | ->]; by vm_compute.
  - exists (replicate 8 (Some (t, 0))), (replicate 8 Ready). cbv zeta.
    assert (Forall (eq (Some (t, 0))) (replicate m (Some (t, 0)) ++ replicate 8 (Some (t, 0)))) as Hstill
      by (apply Forall_app_2; by apply Forall_replicate).
    split; [|split; [by apply (punctual_still _ _ (Some (t, 0)))|]].
    + apply (Forall_impl _ _ _ Hstill). intros ? <-. exists (t, 0). split; [done | unfold sane_time; cbn [fst snd]; lia].
    + split; [unfold goes_on, extend, piece, left_over; cbn [rx clock app]; rewrite length_app, !length_replicate; cbn [length]; lia|]. exists 12%nat. split; [done | cbn; lia].
Qed.

(** The client's end is as the theorem asks. *)
Example rtu_client_end_reaches :
  let fs := map reply_frame (conversation 1) in reaches 1 fs None desk (rtu_client_end fs).
Proof.
  intros fs. split; [done | split; [|split]; by vm_compute | done | | | | by eexists].
  - repeat (apply List.Forall_cons; [eexists; split; [done | split; by vm_compute]|]). apply List.Forall_nil.
  - repeat (apply List.Forall_cons; [first [exact I | apply (bool_decide_unpack _); by vm_compute]|]). apply List.Forall_nil.
  - eexists _, _, _, _, _. split; [vm_compute; reflexivity|]. split; [done|]. split; [vm_compute; reflexivity|].
    change (combine _ _) with [(polling, reply_frame polling); (setting, reply_frame setting); (polling, reply_frame polling)].
    set (f2 := piece (reply_frame setting) 20 7). set (f3 := piece (reply_frame polling) 30 7).
    exists (extend (piece (reply_frame polling) 10 6) (left_over 0 [])), (extend f3 f2). eexists _, _, _.
    split; [by vm_compute|]. split; [apply piece_brings; [by left | lia | done | by vm_compute]|].
    split; [vm_compute; reflexivity|].
    eexists (extend f2 (left_over 7 _)), f3, _, _, _.
    split; [vm_compute; reflexivity|]. split; [apply piece_brings; [by right | lia | done | by vm_compute]|].
    split; [vm_compute; reflexivity|].
    eexists (extend f3 (left_over 14 _)), (World [] [] [] [] [] []), _, _, _.
    split; [vm_compute; reflexivity|]. split; [apply piece_brings; [by left | lia | done | by vm_compute]|].
    split; [vm_compute; reflexivity | exact I].
Qed.
